(* ===== verification/_CoqProject ===== *)
-Q . S2P
Prelude.v
Syscalls.v
Abi.v
Kernel.v
Consumer.v
Stats.v
Tlv.v
Emit.v
Decoder.v
EventCore.v
Payload.v
LifecycleState.v
Pending.v
Namespace.v
Lifecycle.v
Signal.v
Structs.v
FdPath.v
Paths.v
Misc.v
Captures.v
Control.v
Keyring.v
Xattr.v
Quota.v
Filesystem.v
Network.v
Slots.v
Iovec.v
NestedFd.v
Poll.v
Select.v
Aio.v
Bpf.v
BpfExit.v
Message.v
Handlers.v
EnterHandlers.v
ExitHandlers.v
Recvmsg.v
Dispatch.v
Trace.v
Delivery.v
RecordProps.v
Pairing.v
Confine.v
Tracking.v
TrackingProps.v
Closing.v
Opening.v
Routes.v
Selection.v
RecvmsgProps.v
TraceProps.v
AbiProps.v
SignalProps.v
Sample.v
