(* ===== verification/Prelude.v ===== *)
(** * The event producers of strace-go

    strace-go traces system calls with eBPF programs ([src/bpf/]) that write
    records into a ring buffer, and a Go program ([src/cmd/strace-go/]) that
    reads and prints them.  This development models the producers, the C code,
    and the decoder that reads their records, and proves that the two agree and
    that no loss goes unnoticed.

    ** Parts of the program

    - The raw tracepoints [trace_sys_enter] and [trace_sys_exit] ([strace.c])
      filter a syscall and tail-call the handler of its family.
    - An entry handler captures arguments, emits an entry record and saves the
      syscall in the storage of the task; the exit handler reads it back, emits
      the exit record and clears it ([syscall_event_core_v2.h],
      [pending_state.h], [enter_dispatch.h], [exit_dispatch.h]).
    - The scheduler programs ([lifecycle_dispatch.h]) decide which tasks are
      traced and report forks, execs and exits.
    - Every record goes through one protocol: take a sequence number, reserve,
      capture the payload, write header and body, submit; failures are counted
      ([event_integrity.h], [runtime_stats.h]).

    ** Files

    - [Prelude]: machine integers, byte buffers, the little-endian codec, the
      state monad with its [wp] rule and [keeps] (every run stays inside a
      preorder), the [keeps] hint database.
    - [Syscalls]: the two generated number tables; [one_of] for the [==] chains.
    - [Abi]: constants and structures of [event_abi_generated.h],
      [payload_tlv.h] and [runtime_abi.h] with their byte layout.
    - [Kernel]: [world], the state all programs share (maps, task storage,
      statistics, ring buffer), and the BPF helpers.  What the kernel answers is
      the parameter [Kernel]: clocks, memory contents, and whether an update, an
      allocation, a reservation or a dynptr access succeeds, each answer free to
      change with every call.
    - [Consumer]: the Go decoder of headers, bodies and payload sections.
    - [Stats]: counters, sequence numbers, loss epoch, syscall filter; [tally],
      the abstract specification of a program's effect on the ring buffer.
    - [Tlv], [Emit], [Decoder]: section captures, the emission protocol, and what
      the decoder reads off a committed record; [emitter] is the contract of
      every [emit_*] function.
    - [EventCore], [Payload], [LifecycleState], [Pending], [Namespace],
      [Lifecycle], [Signal], [Structs], [FdPath], [Paths], [Misc], [Control],
      [Keyring], [Xattr], [Quota], [Filesystem], [Network], [Iovec], [NestedFd],
      [Poll], [Select], [Aio], [Bpf], [BpfExit], [Message]: one file per group
      of headers of [src/bpf/], one definition per C function of the same name.
      A definition with another name is a part that several C functions share,
      and its comment says which.
    - [Captures]: the capture shapes the families from [Control] on share
      (strings, bounded buffers, words, structure extensions), and what the
      decoder reads off each; [Slots]: the shapes of the families that walk an
      array of the traced program (vectors, messages, control blocks, polled
      descriptors), copied slot by slot behind one section header.
    - [Handlers], [EnterHandlers], [ExitHandlers]: prologues, fallbacks, and the
      handlers behind the program arrays, with their tables.
      [HandlerRelation] lets every handler be walked once for all the relations
      it has to stay in.  Chains of handlers that tail-call each other are
      [chain_to].
    - [Recvmsg]: the programs behind the kretprobe of [recvmsg], which report
      what its sys_exit tracepoint is too early to see.
    - [Dispatch]: the dispatchers.  Its class [Handlers] is the interface of the
      program arrays, [HandlersOk] what a dispatcher may assume of what it
      calls; [loaded_handlers] discharges it.
    - [Trace]: firings of tracepoints and of the kretprobe, runs, reachability, and [ledger], the abstract
      specification a run refines.
    - [Delivery], [RecordProps], [SignalProps]: what the consumer reads when a
      program emits a record.
    - [Pairing]: entries and exits.
    - [Confine], [Tracking], [TrackingProps]: who is traced.  [HandlersConfined]
      is the second law of the interface: a handler does not decide it.
    - [Closing], [Opening]: every handler of the program arrays, as an entry that
      saves its syscall ([fills]) and as an exit that closes it ([closes_exit]),
      and the two dispatchers around them.
    - [Routes]: the route plan of the Go loader, and that it sends every syscall
      to handlers whose guards accept it.
    - [Selection]: the catalogs of programs, and which of them the loader loads
      and puts into the program arrays: [rtc depends] is the specification.
    - [RecvmsgProps]: how [recvmsg] is closed, by the chain behind its kretprobe
      and not by its sys_exit tracepoint.
    - [TraceProps]: the event-integrity contract over whole runs.
    - [AbiProps]: the wire format.
    - [Sample]: a concrete machine, and the theorems applied to it.

    ** What the theorems show

    - Runs (C1-C4): every emission attempt is a record, a counted reservation
      failure or a counted discard ([doc/arch.md] 8.2); the records of a CPU are
      numbered by attempt, so that a gap in the numbers is a counted loss
      ([doc/event-integrity.md]); a healthy run loses nothing; nothing stays
      reserved.
    - Pairing (C5-C8, C10-C12): an exit record carries the arguments of its entry,
      through whichever handlers the routes name (C6, C7), and for [recvmsg]
      through its kretprobe (C8); mismatched, orphaned and foreign-ABI calls are
      counted and never paired.
    - Loading (C9): the selected programs are exactly those a route, a tail call
      or a chain can reach; no route in force is left without its program.
    - Tracking (C13-C21): who can become traced, silence for everyone else, the
      effect of fork, exec, exit and free.
    - Wire format (C22-C24, C39-C40): round trips, termination and bounds of the
      decoder, layouts, copy lengths.
    - Records (C25-C38): for each modelled family, the section contents the
      consumer reads, on success and on failed reads.

    ** Bounds and fuel

    Two recursions are not structural: the section decoder, whose fuel is the
    length of its input ([tlv_decode_total] proves it enough), and the loader's
    [addProgramRef], whose fuel is the number of references in the catalogs (each
    level visits a new one, [add_reaches]).  C loops
    have constant bounds in the source and are [for_loop] with that bound.
    Integers are [Z] with the wrap-around of their width written out.

    ** Assumptions

    Firings are atomic: a program runs to completion before the next one starts,
    as on one CPU with preemption disabled; the model interleaves CPUs between
    firings and not inside them.  [ring_has_room] and [no_fault] appear only where
    a theorem says that a record is delivered; [Sample] shows they can hold.

    ** Not modelled

    Every program of [src/bpf/] and every handler of its program arrays is
    modelled.  [vmlinux.h] is generated by bpftool; the members of kernel
    structures the programs read are the constructors of [kfield].  The routes
    and the program arrays are filled by the Go loader: what a slot of the enter
    and exit arrays runs is [loaded_handlers]; the routes and the filled slots are
    map contents of the initial state, which [installed] and [arrays_filled]
    compare with the loader's plan and selection.  Loading the object, pruning it
    and writing the maps are calls of the ebpf library and not modelled.
    [is_sys_exit_direct_syscall] and the family predicates only it uses are called
    by no program and have no definition here.  Of the Go program only the decoder,
    the route plan and the program selection are modelled, and the C programs under [src/test/] are traced programs of
    the tests. *)
From stdpp Require Import base list gmap numbers.
From Stdlib Require Import ZArith Lia.
Open Scope Z_scope.

(** ** Fixed-width integers

    The C sources use [u16], [u32], [u64], [s32] and [s64].  A value of any of
    them is a [Z]; a cast or an arithmetic operation that can leave the range
    of its type is written with the wrap-around below. *)

Definition u8 (z : Z) : Z := z mod 2 ^ 8.
Definition u16 (z : Z) : Z := z mod 2 ^ 16.
Definition u32 (z : Z) : Z := z mod 2 ^ 32.
Definition u64 (z : Z) : Z := z mod 2 ^ 64.

Definition to_signed (bits z : Z) : Z :=
  let u := z mod 2 ^ bits in
  if u <? 2 ^ (bits - 1) then u else u - 2 ^ bits.
Definition s32 (z : Z) : Z := to_signed 32 z.
Definition s64 (z : Z) : Z := to_signed 64 z.

(** [v & mask] used as a C condition. *)
Definition has_flag (v mask : Z) : bool := negb (Z.land v mask =? 0).

Lemma u64_add_l a b : u64 (u64 a + b) = u64 (a + b).
Proof. unfold u64. by rewrite Zplus_mod_idemp_l. Qed.

Lemma u64_range z : 0 <= u64 z < 2 ^ 64.
Proof. unfold u64. apply Z.mod_pos_bound. lia. Qed.

Lemma u32_range z : 0 <= u32 z < 2 ^ 32.
Proof. unfold u32. apply Z.mod_pos_bound. lia. Qed.

Lemma u32_small z : 0 <= z < 2 ^ 32 -> u32 z = z.
Proof. intros. unfold u32. by apply Z.mod_small. Qed.

Lemma u64_small z : 0 <= z < 2 ^ 64 -> u64 z = z.
Proof. intros. unfold u64. by apply Z.mod_small. Qed.

Lemma u16_small z : 0 <= z < 2 ^ 16 -> u16 z = z.
Proof. intros. unfold u16. by apply Z.mod_small. Qed.

Lemma to_signed_small bits z :
  0 < bits -> - 2 ^ (bits - 1) <= z < 2 ^ (bits - 1) -> to_signed bits z = z.
Proof.
  intros Hb Hz. unfold to_signed.
  assert (2 ^ bits = 2 * 2 ^ (bits - 1)) as E.
  { rewrite <- Z.pow_succ_r by lia. f_equal. lia. }
  destruct (Z.ltb_spec (z mod 2 ^ bits) (2 ^ (bits - 1))); destruct (Z_lt_le_dec z 0).
  - rewrite <- (Z.mod_add z 1), Z.mul_1_l, Z.mod_small in H by lia. lia.
  - apply Z.mod_small. lia.
  - rewrite <- (Z.mod_add z 1), Z.mul_1_l, Z.mod_small by lia. lia.
  - rewrite Z.mod_small in H by lia. lia.
Qed.

Lemma to_signed_mod bits z : 0 < bits -> to_signed bits (z mod 2 ^ bits) = to_signed bits z.
Proof. intros. unfold to_signed. by rewrite Z.mod_mod by lia. Qed.

(** ** Byte buffers

    A buffer is a [list Z] of byte values; offsets and lengths are [Z], as in
    the sources. *)

Definition zlen {A} (l : list A) : Z := Z.of_nat (length l).

(** [slice l off n] is [l[off .. off + n)]. *)
Definition slice {A} (l : list A) (off n : Z) : list A :=
  take (Z.to_nat n) (drop (Z.to_nat off) l).

(** [put l off bs] overwrites [l] with [bs] from [off] on. *)
Definition put {A} (l : list A) (off : Z) (bs : list A) : list A :=
  take (Z.to_nat off) l ++ bs ++ drop (Z.to_nat off + length bs) l.

Section Buffers.
Context {A : Type}.
Implicit Types (l bs : list A) (off n : Z).

Lemma zlen_nonneg l : 0 <= zlen l.
Proof. unfold zlen. lia. Qed.

Lemma zlen_app l1 l2 : zlen (l1 ++ l2) = zlen l1 + zlen l2.
Proof. unfold zlen. rewrite length_app. lia. Qed.

Lemma length_put l off bs :
  0 <= off -> off + zlen bs <= zlen l -> length (put l off bs) = length l.
Proof.
  unfold put, zlen. intros.
  rewrite !length_app, length_take, length_drop. lia.
Qed.

Lemma zlen_put l off bs :
  0 <= off -> off + zlen bs <= zlen l -> zlen (put l off bs) = zlen l.
Proof. intros. unfold zlen at 1. by rewrite length_put. Qed.

Lemma zlen_slice l off n :
  0 <= off -> 0 <= n -> off + n <= zlen l -> zlen (slice l off n) = n.
Proof.
  unfold slice, zlen. intros. rewrite length_take, length_drop. lia.
Qed.

Lemma slice_put_same l off bs n :
  0 <= off -> off + zlen bs <= zlen l -> n = zlen bs -> slice (put l off bs) off n = bs.
Proof.
  unfold slice, put, zlen. intros ? ? ->.
  rewrite drop_app_ge by (rewrite length_take; lia).
  rewrite length_take.
  replace (_ - _)%nat with 0%nat by lia. rewrite drop_0, Nat2Z.id.
  by rewrite take_app_length.
Qed.

Lemma slice_put_before l off bs o n :
  0 <= o -> 0 <= n -> o + n <= off -> off + zlen bs <= zlen l ->
  slice (put l off bs) o n = slice l o n.
Proof.
  unfold slice, put, zlen. intros.
  rewrite !take_drop_commute. f_equal.
  rewrite take_app_le by (rewrite length_take; lia).
  rewrite take_take. f_equal. lia.
Qed.

Lemma slice_put_after l off bs o n :
  0 <= off -> off + zlen bs <= o -> off + zlen bs <= zlen l ->
  slice (put l off bs) o n = slice l o n.
Proof.
  unfold slice, put, zlen. intros. f_equal.
  rewrite drop_app_ge by (rewrite length_take; lia).
  rewrite drop_app_ge by (rewrite length_take; lia).
  rewrite drop_drop, length_take. f_equal. lia.
Qed.

Lemma slice_slice l o n o' n' :
  0 <= o -> 0 <= o' -> 0 <= n' -> o' + n' <= n ->
  slice (slice l o n) o' n' = slice l (o + o') n'.
Proof.
  unfold slice. intros.
  rewrite (take_drop_commute _ (Z.to_nat n') (Z.to_nat o')).
  rewrite take_take. replace (_ `min` _)%nat with (Z.to_nat o' + Z.to_nat n')%nat by lia.
  rewrite <- take_drop_commute, drop_drop, Z2Nat.inj_add by lia. done.
Qed.

Lemma slice_app l o n m :
  0 <= o -> 0 <= n -> 0 <= m -> slice l o (n + m) = slice l o n ++ slice l (o + n) m.
Proof.
  unfold slice. intros.
  rewrite !Z2Nat.inj_add by lia.
  rewrite <- (drop_drop l (Z.to_nat n) (Z.to_nat o)).
  generalize (drop (Z.to_nat o) l) as k. intros k.
  rewrite <- (take_drop (Z.to_nat n) (take (Z.to_nat n + Z.to_nat m) k)).
  rewrite take_take, <- take_drop_commute. do 2 f_equal. lia.
Qed.

Lemma slice_0 l o : slice l o 0 = [].
Proof. reflexivity. Qed.

Lemma slice_all l n : n = zlen l -> slice l 0 n = l.
Proof. intros ->. unfold slice, zlen. rewrite Nat2Z.id. apply take_ge. cbn. lia. Qed.

(** A prefix equality gives equality of every slice inside the prefix. *)
Lemma slice_of_prefix l l' off o n :
  take (Z.to_nat off) l = take (Z.to_nat off) l' ->
  0 <= o -> 0 <= n -> o + n <= off -> slice l o n = slice l' o n.
Proof.
  intros E ? ? ?. unfold slice. rewrite !take_drop_commute. f_equal.
  assert (forall k : list A, take (Z.to_nat o + Z.to_nat n) k
            = take (Z.to_nat o + Z.to_nat n) (take (Z.to_nat off) k)) as F.
  { intros k. rewrite take_take. f_equal. lia. }
  rewrite (F l), (F l'), E. done.
Qed.

Lemma prefix_put l off bs o :
  0 <= o -> o <= off -> off + zlen bs <= zlen l ->
  take (Z.to_nat o) (put l off bs) = take (Z.to_nat o) l.
Proof.
  intros. unfold put, zlen in *.
  rewrite take_app_le by (rewrite length_take; lia).
  rewrite take_take. f_equal. lia.
Qed.

(** Reading one field of a structure laid out as consecutive fields. *)
Lemma slice_concat (fs : list (list A)) (i : nat) f off n :
  fs !! i = Some f -> off = zlen (concat (take i fs)) -> n = zlen f ->
  slice (concat fs) off n = f.
Proof.
  intros E -> ->. unfold slice, zlen. rewrite !Nat2Z.id.
  rewrite <- (take_drop_middle _ _ _ E) at 2.
  rewrite concat_app, drop_app_length. cbn.
  by rewrite take_app_length.
Qed.
End Buffers.

(** ** Little-endian encoding of integers *)

Fixpoint le_bytes (n : nat) (z : Z) : list Z :=
  match n with
  | O => []
  | S n' => z mod 256 :: le_bytes n' (z / 256)
  end.

Fixpoint le_val (l : list Z) : Z :=
  match l with
  | [] => 0
  | b :: l' => b mod 256 + 256 * le_val l'
  end.

Lemma length_le_bytes n z : length (le_bytes n z) = n.
Proof. revert z. induction n as [|n IH]; intros z; cbn; [done|]. by rewrite IH. Qed.

Lemma zlen_le_bytes n z : zlen (le_bytes n z) = Z.of_nat n.
Proof. unfold zlen. by rewrite length_le_bytes. Qed.

Lemma le_val_le_bytes n z : le_val (le_bytes n z) = z mod 2 ^ (8 * Z.of_nat n).
Proof.
  revert z. induction n as [|n IH]; intros z.
  - cbn [le_bytes le_val]. rewrite Nat2Z.inj_0, Z.mul_0_r. by rewrite Z.mod_1_r.
  - cbn [le_bytes le_val]. rewrite IH, Z.mod_mod by lia.
    replace (8 * Z.of_nat (S n)) with (8 + 8 * Z.of_nat n) by lia.
    rewrite Z.pow_add_r by lia. change (2 ^ 8) with 256.
    rewrite (Z.rem_mul_r z 256) by lia. done.
Qed.

Lemma le_val_nonneg l : 0 <= le_val l.
Proof.
  induction l as [|b l IH]; cbn; [lia|].
  pose proof (Z.mod_pos_bound b 256 ltac:(lia)). lia.
Qed.
Lemma le_val_bound l : le_val l < 2 ^ (8 * Z.of_nat (length l)).
Proof.
  induction l as [|b l IH]; cbn [le_val length]; [done|].
  pose proof (Z.mod_pos_bound b 256 ltac:(lia)).
  replace (8 * Z.of_nat (S (length l))) with (8 + 8 * Z.of_nat (length l)) by lia.
  rewrite Z.pow_add_r by lia. change (2 ^ 8) with 256. nia.
Qed.

Lemma le_bytes_mod n z : le_bytes n (z mod 2 ^ (8 * Z.of_nat n)) = le_bytes n z.
Proof.
  revert z. induction n as [|n IH]; intros z; [done|].
  cbn [le_bytes].
  replace (8 * Z.of_nat (S n)) with (8 + 8 * Z.of_nat n) by lia.
  rewrite Z.pow_add_r by lia. change (2 ^ 8) with 256.
  pose proof (Z.pow_pos_nonneg 2 (8 * Z.of_nat n) ltac:(lia) ltac:(lia)).
  rewrite (Z.rem_mul_r z 256) by lia.
  pose proof (Z.mod_pos_bound z 256 ltac:(lia)).
  rewrite (Z.mul_comm 256), Z.mod_add, Z.mod_mod, Z.div_add by lia.
  rewrite (Z.div_small (z mod 256)), Z.add_0_l by lia.
  by rewrite IH.
Qed.

(** ** A state monad

    Every BPF program and helper is a function from the machine state to a
    result and a new state. *)

Definition st (S A : Type) : Type := S -> A * S.

Section StateMonad.
Context {S : Type}.

Definition ret {A} (a : A) : st S A := fun s => (a, s).
Definition bind {A B} (m : st S A) (f : A -> st S B) : st S B :=
  fun s => let '(a, s') := m s in f a s'.
Definition gets {A} (f : S -> A) : st S A := fun s => (f s, s).
Definition modify (f : S -> S) : st S unit := fun s => (tt, f s).

(** [wp m Q s]: running [m] from [s] ends in a result and a state related by [Q]. *)
Definition wp {A} (m : st S A) (Q : A -> S -> Prop) (s : S) : Prop :=
  Q (fst (m s)) (snd (m s)).

Lemma wp_bind {A B} (m : st S A) (f : A -> st S B) Q s :
  wp m (fun a s' => wp (f a) Q s') s -> wp (bind m f) Q s.
Proof. unfold wp, bind. by destruct (m s). Qed.

Lemma wp_ret {A} (a : A) (Q : A -> S -> Prop) s : Q a s -> wp (ret a) Q s.
Proof. done. Qed.

Lemma wp_gets {A} (f : S -> A) (Q : A -> S -> Prop) s : Q (f s) s -> wp (gets f) Q s.
Proof. done. Qed.

Lemma wp_modify (f : S -> S) (Q : unit -> S -> Prop) s : Q tt (f s) -> wp (modify f) Q s.
Proof. done. Qed.

Lemma wp_mono {A} (m : st S A) (P Q : A -> S -> Prop) s :
  wp m P s -> (forall a s', P a s' -> Q a s') -> wp m Q s.
Proof. unfold wp. auto. Qed.

(** [keeps R m]: every run of [m] stays inside the preorder [R]. *)
Definition keeps {A} (R : S -> S -> Prop) (m : st S A) : Prop :=
  forall s, R s (snd (m s)).

Section Keeps.
Context (R : S -> S -> Prop) `{!PreOrder R}.

Lemma keeps_ret {A} (a : A) : keeps R (ret a).
Proof. intros s. cbn. reflexivity. Qed.

Lemma keeps_gets {A} (f : S -> A) : keeps R (gets f).
Proof. intros s. cbn. reflexivity. Qed.

Lemma keeps_bind {A B} (m : st S A) (f : A -> st S B) :
  keeps R m -> (forall a, keeps R (f a)) -> keeps R (bind m f).
Proof.
  intros Hm Hf s. specialize (Hm s). unfold bind.
  destruct (m s) as [a s']. cbn in *. etrans; [exact Hm | apply Hf].
Qed.

Lemma keeps_wp {A} (m : st S A) (Q : A -> S -> Prop) s :
  keeps R m -> (forall a s', R s s' -> Q a s') -> wp m Q s.
Proof. intros Hm H. apply H, Hm. Qed.
End Keeps.
End StateMonad.

Declare Scope bpf_scope.
Delimit Scope bpf_scope with bpf.
Open Scope bpf_scope.

Notation "'let*' x ':=' m 'in' k" := (bind m (fun x => k))
  (at level 10, x pattern, m at level 100, k at level 200,
   format "'[v' 'let*'  x  ':='  m  'in' '//' k ']'") : bpf_scope.
Notation "m ;;; k" := (bind m (fun _ => k))
  (at level 199, k at level 200, right associativity,
   format "'[v' m ;;; '//' k ']'") : bpf_scope.

(** A C loop [for (u32 i = 0; i < bound; i++)] whose body may [break]: the
    accumulator is threaded through and [inl] leaves the loop. *)
Fixpoint for_loop {S Acc} (fuel : nat) (i : Z)
    (body : Z -> Acc -> st S (Acc + Acc)) (acc : Acc) : st S Acc :=
  match fuel with
  | O => ret acc
  | Datatypes.S fuel' =>
      let* r := body i acc in
      match r with
      | inl a => ret a
      | inr a => for_loop fuel' (i + 1) body a
      end
  end.

(** The invariant rule for [for_loop]: [I i acc] holds at the start of iteration [i]. *)
Lemma wp_for_loop {S Acc} (I : Z -> Acc -> S -> Prop) (Q : Acc -> S -> Prop)
    (body : Z -> Acc -> st S (Acc + Acc)) (fuel : nat) (bound i : Z) acc s :
  bound = i + Z.of_nat fuel ->
  (forall j a s', i <= j < bound -> I j a s' ->
     wp (body j a) (fun r s'' => match r with inl a' => Q a' s'' | inr a' => I (j + 1) a' s'' end) s') ->
  (forall a s', I bound a s' -> Q a s') ->
  I i acc s -> wp (for_loop fuel i body acc) Q s.
Proof.
  intros Hb Hstep Hend. revert i acc s Hb Hstep.
  induction fuel as [|fuel IH]; intros i acc s Hb Hstep HI; cbn [for_loop].
  - apply wp_ret, Hend. replace bound with i by lia. done.
  - apply wp_bind. eapply wp_mono; [apply Hstep; [lia | done]|].
    intros [a|a] s' H; [by apply wp_ret|]. apply IH; [lia | | done].
    intros. apply Hstep; [lia | done].
Qed.

(** ** Automation *)

Create HintDb keeps discriminated.
#[export] Hint Constants Opaque : keeps.
#[export] Hint Variables Opaque : keeps.

(** Proves [keeps R m] by walking the structure of [m]; the leaves come from
    the [keeps] hint database. *)
Ltac keeps_step :=
  lazymatch goal with
  | |- keeps _ (bind _ _) => apply keeps_bind; [apply _ | | intro]
  | |- keeps _ (ret _) => apply keeps_ret; apply _
  | |- keeps _ (gets _) => apply keeps_gets; apply _
  | |- keeps _ (match ?x with _ => _ end) => destruct x
  | |- keeps _ (let _ := _ in _) => cbv zeta
  | |- forall _, _ => intro
  end.
Ltac keeps_solve := repeat first [keeps_step | solve [eauto with keeps]].

(** Steps a weakest precondition through binds and pure results. *)
Ltac wp_step :=
  lazymatch goal with
  | |- wp (bind _ _) _ _ => apply wp_bind
  | |- wp (ret _) _ _ => apply wp_ret
  | |- wp (gets _) _ _ => apply wp_gets
  | |- wp (modify _) _ _ => apply wp_modify
  | |- wp (let _ := _ in _) _ _ => cbv zeta
  end; cbv beta.
Ltac wp_steps := repeat wp_step.

(** Case analysis on a boolean test, with the test turned into a proposition. *)
Ltac case_test :=
  match goal with
  | |- context [if (?a =? ?b) then _ else _] => destruct (Z.eqb_spec a b)
  | |- context [if (?a <? ?b) then _ else _] => destruct (Z.ltb_spec a b)
  | |- context [if (?a <=? ?b) then _ else _] => destruct (Z.leb_spec a b)
  end.

Create Rewrite HintDb zlen.
#[export] Hint Rewrite @zlen_app @zlen_le_bytes @length_le_bytes : zlen.
