(* ===== verification/Syscalls.v ===== *)
(** Syscall numbers of the two native ABIs.

    Models [bpf/syscall_numbers_amd64_generated.h] and
    [bpf/syscall_numbers_arm64_generated.h]: every [SYS_*] macro is a
    constructor of [syscall], and the numbers are the two tables below.  The
    preprocessor's choice of one header is the [Arch] class, so that every
    later definition and theorem covers both builds. *)
From stdpp Require Import base list numbers.
From S2P Require Import Prelude.

Inductive arch : Type := amd64 | arm64.

Inductive syscall : Type :=
  | SYS__SYSCTL | SYS_ACCEPT | SYS_ACCEPT4 | SYS_ACCESS | SYS_ACCT | SYS_ADD_KEY | SYS_ADJTIMEX
  | SYS_AFS_SYSCALL | SYS_ALARM | SYS_ARCH_PRCTL | SYS_BIND | SYS_BPF | SYS_BRK | SYS_CACHESTAT
  | SYS_CAPGET | SYS_CAPSET | SYS_CHDIR | SYS_CHMOD | SYS_CHOWN | SYS_CHROOT
  | SYS_CLOCK_ADJTIME | SYS_CLOCK_GETRES | SYS_CLOCK_GETTIME | SYS_CLOCK_NANOSLEEP
  | SYS_CLOCK_SETTIME | SYS_CLONE | SYS_CLONE3 | SYS_CLOSE | SYS_CLOSE_RANGE | SYS_CONNECT
  | SYS_COPY_FILE_RANGE | SYS_CREAT | SYS_CREATE_MODULE | SYS_DELETE_MODULE | SYS_DUP
  | SYS_DUP2 | SYS_DUP3 | SYS_EPOLL_CREATE | SYS_EPOLL_CREATE1 | SYS_EPOLL_CTL
  | SYS_EPOLL_CTL_OLD | SYS_EPOLL_PWAIT | SYS_EPOLL_PWAIT2 | SYS_EPOLL_WAIT
  | SYS_EPOLL_WAIT_OLD | SYS_EVENTFD | SYS_EVENTFD2 | SYS_EXECVE | SYS_EXECVEAT | SYS_EXIT
  | SYS_EXIT_GROUP | SYS_FACCESSAT | SYS_FACCESSAT2 | SYS_FADVISE64 | SYS_FALLOCATE
  | SYS_FANOTIFY_INIT | SYS_FANOTIFY_MARK | SYS_FCHDIR | SYS_FCHMOD | SYS_FCHMODAT
  | SYS_FCHMODAT2 | SYS_FCHOWN | SYS_FCHOWNAT | SYS_FCNTL | SYS_FDATASYNC | SYS_FGETXATTR
  | SYS_FILE_GETATTR | SYS_FILE_SETATTR | SYS_FINIT_MODULE | SYS_FLISTXATTR | SYS_FLOCK
  | SYS_FORK | SYS_FREMOVEXATTR | SYS_FSCONFIG | SYS_FSETXATTR | SYS_FSMOUNT | SYS_FSOPEN
  | SYS_FSPICK | SYS_FSTAT | SYS_FSTATFS | SYS_FSYNC | SYS_FTRUNCATE | SYS_FUTEX
  | SYS_FUTEX_REQUEUE | SYS_FUTEX_WAIT | SYS_FUTEX_WAITV | SYS_FUTEX_WAKE | SYS_FUTIMESAT
  | SYS_GET_KERNEL_SYMS | SYS_GET_MEMPOLICY | SYS_GET_ROBUST_LIST | SYS_GET_THREAD_AREA
  | SYS_GETCPU | SYS_GETCWD | SYS_GETDENTS | SYS_GETDENTS64 | SYS_GETEGID | SYS_GETEUID
  | SYS_GETGID | SYS_GETGROUPS | SYS_GETITIMER | SYS_GETPEERNAME | SYS_GETPGID | SYS_GETPGRP
  | SYS_GETPID | SYS_GETPMSG | SYS_GETPPID | SYS_GETPRIORITY | SYS_GETRANDOM | SYS_GETRESGID
  | SYS_GETRESUID | SYS_GETRLIMIT | SYS_GETRUSAGE | SYS_GETSID | SYS_GETSOCKNAME
  | SYS_GETSOCKOPT | SYS_GETTID | SYS_GETTIMEOFDAY | SYS_GETUID | SYS_GETXATTR | SYS_GETXATTRAT
  | SYS_INIT_MODULE | SYS_INOTIFY_ADD_WATCH | SYS_INOTIFY_INIT | SYS_INOTIFY_INIT1
  | SYS_INOTIFY_RM_WATCH | SYS_IO_CANCEL | SYS_IO_DESTROY | SYS_IO_GETEVENTS
  | SYS_IO_PGETEVENTS | SYS_IO_SETUP | SYS_IO_SUBMIT | SYS_IO_URING_ENTER
  | SYS_IO_URING_REGISTER | SYS_IO_URING_SETUP | SYS_IOCTL | SYS_IOPERM | SYS_IOPL
  | SYS_IOPRIO_GET | SYS_IOPRIO_SET | SYS_KCMP | SYS_KEXEC_FILE_LOAD | SYS_KEXEC_LOAD
  | SYS_KEYCTL | SYS_KILL | SYS_LANDLOCK_ADD_RULE | SYS_LANDLOCK_CREATE_RULESET
  | SYS_LANDLOCK_RESTRICT_SELF | SYS_LCHOWN | SYS_LGETXATTR | SYS_LINK | SYS_LINKAT
  | SYS_LISTEN | SYS_LISTMOUNT | SYS_LISTNS | SYS_LISTXATTR | SYS_LISTXATTRAT | SYS_LLISTXATTR
  | SYS_LOOKUP_DCOOKIE | SYS_LREMOVEXATTR | SYS_LSEEK | SYS_LSETXATTR | SYS_LSM_GET_SELF_ATTR
  | SYS_LSM_LIST_MODULES | SYS_LSM_SET_SELF_ATTR | SYS_LSTAT | SYS_MADVISE
  | SYS_MAP_SHADOW_STACK | SYS_MBIND | SYS_MEMBARRIER | SYS_MEMFD_CREATE | SYS_MEMFD_SECRET
  | SYS_MIGRATE_PAGES | SYS_MINCORE | SYS_MKDIR | SYS_MKDIRAT | SYS_MKNOD | SYS_MKNODAT
  | SYS_MLOCK | SYS_MLOCK2 | SYS_MLOCKALL | SYS_MMAP | SYS_MODIFY_LDT | SYS_MOUNT
  | SYS_MOUNT_SETATTR | SYS_MOVE_MOUNT | SYS_MOVE_PAGES | SYS_MPROTECT | SYS_MQ_GETSETATTR
  | SYS_MQ_NOTIFY | SYS_MQ_OPEN | SYS_MQ_TIMEDRECEIVE | SYS_MQ_TIMEDSEND | SYS_MQ_UNLINK
  | SYS_MREMAP | SYS_MSEAL | SYS_MSGCTL | SYS_MSGGET | SYS_MSGRCV | SYS_MSGSND | SYS_MSYNC
  | SYS_MUNLOCK | SYS_MUNLOCKALL | SYS_MUNMAP | SYS_NAME_TO_HANDLE_AT | SYS_NANOSLEEP
  | SYS_NEWFSTATAT | SYS_NFSSERVCTL | SYS_OPEN | SYS_OPEN_BY_HANDLE_AT | SYS_OPEN_TREE
  | SYS_OPEN_TREE_ATTR | SYS_OPENAT | SYS_OPENAT2 | SYS_PAUSE | SYS_PERF_EVENT_OPEN
  | SYS_PERSONALITY | SYS_PIDFD_GETFD | SYS_PIDFD_OPEN | SYS_PIDFD_SEND_SIGNAL | SYS_PIPE
  | SYS_PIPE2 | SYS_PIVOT_ROOT | SYS_PKEY_ALLOC | SYS_PKEY_FREE | SYS_PKEY_MPROTECT | SYS_POLL
  | SYS_PPOLL | SYS_PRCTL | SYS_PREAD64 | SYS_PREADV | SYS_PREADV2 | SYS_PRLIMIT64
  | SYS_PROCESS_MADVISE | SYS_PROCESS_MRELEASE | SYS_PROCESS_VM_READV | SYS_PROCESS_VM_WRITEV
  | SYS_PSELECT6 | SYS_PTRACE | SYS_PUTPMSG | SYS_PWRITE64 | SYS_PWRITEV | SYS_PWRITEV2
  | SYS_QUERY_MODULE | SYS_QUOTACTL | SYS_QUOTACTL_FD | SYS_READ | SYS_READAHEAD | SYS_READLINK
  | SYS_READLINKAT | SYS_READV | SYS_REBOOT | SYS_RECVFROM | SYS_RECVMMSG | SYS_RECVMSG
  | SYS_REMAP_FILE_PAGES | SYS_REMOVEXATTR | SYS_REMOVEXATTRAT | SYS_RENAME | SYS_RENAMEAT
  | SYS_RENAMEAT2 | SYS_REQUEST_KEY | SYS_RESTART_SYSCALL | SYS_RMDIR | SYS_RSEQ
  | SYS_RSEQ_SLICE_YIELD | SYS_RT_SIGACTION | SYS_RT_SIGPENDING | SYS_RT_SIGPROCMASK
  | SYS_RT_SIGQUEUEINFO | SYS_RT_SIGRETURN | SYS_RT_SIGSUSPEND | SYS_RT_SIGTIMEDWAIT
  | SYS_RT_TGSIGQUEUEINFO | SYS_SCHED_GET_PRIORITY_MAX | SYS_SCHED_GET_PRIORITY_MIN
  | SYS_SCHED_GETAFFINITY | SYS_SCHED_GETATTR | SYS_SCHED_GETPARAM | SYS_SCHED_GETSCHEDULER
  | SYS_SCHED_RR_GET_INTERVAL | SYS_SCHED_SETAFFINITY | SYS_SCHED_SETATTR | SYS_SCHED_SETPARAM
  | SYS_SCHED_SETSCHEDULER | SYS_SCHED_YIELD | SYS_SECCOMP | SYS_SECURITY | SYS_SELECT
  | SYS_SEMCTL | SYS_SEMGET | SYS_SEMOP | SYS_SEMTIMEDOP | SYS_SENDFILE | SYS_SENDMMSG
  | SYS_SENDMSG | SYS_SENDTO | SYS_SET_MEMPOLICY | SYS_SET_MEMPOLICY_HOME_NODE
  | SYS_SET_ROBUST_LIST | SYS_SET_THREAD_AREA | SYS_SET_TID_ADDRESS | SYS_SETDOMAINNAME
  | SYS_SETFSGID | SYS_SETFSUID | SYS_SETGID | SYS_SETGROUPS | SYS_SETHOSTNAME | SYS_SETITIMER
  | SYS_SETNS | SYS_SETPGID | SYS_SETPRIORITY | SYS_SETREGID | SYS_SETRESGID | SYS_SETRESUID
  | SYS_SETREUID | SYS_SETRLIMIT | SYS_SETSID | SYS_SETSOCKOPT | SYS_SETTIMEOFDAY | SYS_SETUID
  | SYS_SETXATTR | SYS_SETXATTRAT | SYS_SHMAT | SYS_SHMCTL | SYS_SHMDT | SYS_SHMGET
  | SYS_SHUTDOWN | SYS_SIGALTSTACK | SYS_SIGNALFD | SYS_SIGNALFD4 | SYS_SOCKET | SYS_SOCKETPAIR
  | SYS_SPLICE | SYS_STAT | SYS_STATFS | SYS_STATMOUNT | SYS_STATX | SYS_SWAPOFF | SYS_SWAPON
  | SYS_SYMLINK | SYS_SYMLINKAT | SYS_SYNC | SYS_SYNC_FILE_RANGE | SYS_SYNCFS | SYS_SYSFS
  | SYS_SYSINFO | SYS_SYSLOG | SYS_TEE | SYS_TGKILL | SYS_TIME | SYS_TIMER_CREATE
  | SYS_TIMER_DELETE | SYS_TIMER_GETOVERRUN | SYS_TIMER_GETTIME | SYS_TIMER_SETTIME
  | SYS_TIMERFD_CREATE | SYS_TIMERFD_GETTIME | SYS_TIMERFD_SETTIME | SYS_TIMES | SYS_TKILL
  | SYS_TRUNCATE | SYS_TUXCALL | SYS_UMASK | SYS_UMOUNT2 | SYS_UNAME | SYS_UNLINK
  | SYS_UNLINKAT | SYS_UNSHARE | SYS_UPROBE | SYS_URETPROBE | SYS_USELIB | SYS_USERFAULTFD
  | SYS_USTAT | SYS_UTIME | SYS_UTIMENSAT | SYS_UTIMES | SYS_VFORK | SYS_VHANGUP | SYS_VMSPLICE
  | SYS_VSERVER | SYS_WAIT4 | SYS_WAITID | SYS_WRITE | SYS_WRITEV.

Definition amd64_number (s : syscall) : Z :=
  match s with
  | SYS__SYSCTL => 156 | SYS_ACCEPT => 43 | SYS_ACCEPT4 => 288 | SYS_ACCESS => 21
  | SYS_ACCT => 163 | SYS_ADD_KEY => 248 | SYS_ADJTIMEX => 159 | SYS_AFS_SYSCALL => 183
  | SYS_ALARM => 37 | SYS_ARCH_PRCTL => 158 | SYS_BIND => 49 | SYS_BPF => 321 | SYS_BRK => 12
  | SYS_CACHESTAT => 451 | SYS_CAPGET => 125 | SYS_CAPSET => 126 | SYS_CHDIR => 80
  | SYS_CHMOD => 90 | SYS_CHOWN => 92 | SYS_CHROOT => 161 | SYS_CLOCK_ADJTIME => 305
  | SYS_CLOCK_GETRES => 229 | SYS_CLOCK_GETTIME => 228 | SYS_CLOCK_NANOSLEEP => 230
  | SYS_CLOCK_SETTIME => 227 | SYS_CLONE => 56 | SYS_CLONE3 => 435 | SYS_CLOSE => 3
  | SYS_CLOSE_RANGE => 436 | SYS_CONNECT => 42 | SYS_COPY_FILE_RANGE => 326 | SYS_CREAT => 85
  | SYS_CREATE_MODULE => 174 | SYS_DELETE_MODULE => 176 | SYS_DUP => 32 | SYS_DUP2 => 33
  | SYS_DUP3 => 292 | SYS_EPOLL_CREATE => 213 | SYS_EPOLL_CREATE1 => 291 | SYS_EPOLL_CTL => 233
  | SYS_EPOLL_CTL_OLD => 214 | SYS_EPOLL_PWAIT => 281 | SYS_EPOLL_PWAIT2 => 441
  | SYS_EPOLL_WAIT => 232 | SYS_EPOLL_WAIT_OLD => 215 | SYS_EVENTFD => 284
  | SYS_EVENTFD2 => 290 | SYS_EXECVE => 59 | SYS_EXECVEAT => 322 | SYS_EXIT => 60
  | SYS_EXIT_GROUP => 231 | SYS_FACCESSAT => 269 | SYS_FACCESSAT2 => 439 | SYS_FADVISE64 => 221
  | SYS_FALLOCATE => 285 | SYS_FANOTIFY_INIT => 300 | SYS_FANOTIFY_MARK => 301
  | SYS_FCHDIR => 81 | SYS_FCHMOD => 91 | SYS_FCHMODAT => 268 | SYS_FCHMODAT2 => 452
  | SYS_FCHOWN => 93 | SYS_FCHOWNAT => 260 | SYS_FCNTL => 72 | SYS_FDATASYNC => 75
  | SYS_FGETXATTR => 193 | SYS_FILE_GETATTR => 468 | SYS_FILE_SETATTR => 469
  | SYS_FINIT_MODULE => 313 | SYS_FLISTXATTR => 196 | SYS_FLOCK => 73 | SYS_FORK => 57
  | SYS_FREMOVEXATTR => 199 | SYS_FSCONFIG => 431 | SYS_FSETXATTR => 190 | SYS_FSMOUNT => 432
  | SYS_FSOPEN => 430 | SYS_FSPICK => 433 | SYS_FSTAT => 5 | SYS_FSTATFS => 138
  | SYS_FSYNC => 74 | SYS_FTRUNCATE => 77 | SYS_FUTEX => 202 | SYS_FUTEX_REQUEUE => 456
  | SYS_FUTEX_WAIT => 455 | SYS_FUTEX_WAITV => 449 | SYS_FUTEX_WAKE => 454
  | SYS_FUTIMESAT => 261 | SYS_GET_KERNEL_SYMS => 177 | SYS_GET_MEMPOLICY => 239
  | SYS_GET_ROBUST_LIST => 274 | SYS_GET_THREAD_AREA => 211 | SYS_GETCPU => 309
  | SYS_GETCWD => 79 | SYS_GETDENTS => 78 | SYS_GETDENTS64 => 217 | SYS_GETEGID => 108
  | SYS_GETEUID => 107 | SYS_GETGID => 104 | SYS_GETGROUPS => 115 | SYS_GETITIMER => 36
  | SYS_GETPEERNAME => 52 | SYS_GETPGID => 121 | SYS_GETPGRP => 111 | SYS_GETPID => 39
  | SYS_GETPMSG => 181 | SYS_GETPPID => 110 | SYS_GETPRIORITY => 140 | SYS_GETRANDOM => 318
  | SYS_GETRESGID => 120 | SYS_GETRESUID => 118 | SYS_GETRLIMIT => 97 | SYS_GETRUSAGE => 98
  | SYS_GETSID => 124 | SYS_GETSOCKNAME => 51 | SYS_GETSOCKOPT => 55 | SYS_GETTID => 186
  | SYS_GETTIMEOFDAY => 96 | SYS_GETUID => 102 | SYS_GETXATTR => 191 | SYS_GETXATTRAT => 464
  | SYS_INIT_MODULE => 175 | SYS_INOTIFY_ADD_WATCH => 254 | SYS_INOTIFY_INIT => 253
  | SYS_INOTIFY_INIT1 => 294 | SYS_INOTIFY_RM_WATCH => 255 | SYS_IO_CANCEL => 210
  | SYS_IO_DESTROY => 207 | SYS_IO_GETEVENTS => 208 | SYS_IO_PGETEVENTS => 333
  | SYS_IO_SETUP => 206 | SYS_IO_SUBMIT => 209 | SYS_IO_URING_ENTER => 426
  | SYS_IO_URING_REGISTER => 427 | SYS_IO_URING_SETUP => 425 | SYS_IOCTL => 16
  | SYS_IOPERM => 173 | SYS_IOPL => 172 | SYS_IOPRIO_GET => 252 | SYS_IOPRIO_SET => 251
  | SYS_KCMP => 312 | SYS_KEXEC_FILE_LOAD => 320 | SYS_KEXEC_LOAD => 246 | SYS_KEYCTL => 250
  | SYS_KILL => 62 | SYS_LANDLOCK_ADD_RULE => 445 | SYS_LANDLOCK_CREATE_RULESET => 444
  | SYS_LANDLOCK_RESTRICT_SELF => 446 | SYS_LCHOWN => 94 | SYS_LGETXATTR => 192
  | SYS_LINK => 86 | SYS_LINKAT => 265 | SYS_LISTEN => 50 | SYS_LISTMOUNT => 458
  | SYS_LISTNS => 470 | SYS_LISTXATTR => 194 | SYS_LISTXATTRAT => 465 | SYS_LLISTXATTR => 195
  | SYS_LOOKUP_DCOOKIE => 212 | SYS_LREMOVEXATTR => 198 | SYS_LSEEK => 8 | SYS_LSETXATTR => 189
  | SYS_LSM_GET_SELF_ATTR => 459 | SYS_LSM_LIST_MODULES => 461 | SYS_LSM_SET_SELF_ATTR => 460
  | SYS_LSTAT => 6 | SYS_MADVISE => 28 | SYS_MAP_SHADOW_STACK => 453 | SYS_MBIND => 237
  | SYS_MEMBARRIER => 324 | SYS_MEMFD_CREATE => 319 | SYS_MEMFD_SECRET => 447
  | SYS_MIGRATE_PAGES => 256 | SYS_MINCORE => 27 | SYS_MKDIR => 83 | SYS_MKDIRAT => 258
  | SYS_MKNOD => 133 | SYS_MKNODAT => 259 | SYS_MLOCK => 149 | SYS_MLOCK2 => 325
  | SYS_MLOCKALL => 151 | SYS_MMAP => 9 | SYS_MODIFY_LDT => 154 | SYS_MOUNT => 165
  | SYS_MOUNT_SETATTR => 442 | SYS_MOVE_MOUNT => 429 | SYS_MOVE_PAGES => 279
  | SYS_MPROTECT => 10 | SYS_MQ_GETSETATTR => 245 | SYS_MQ_NOTIFY => 244 | SYS_MQ_OPEN => 240
  | SYS_MQ_TIMEDRECEIVE => 243 | SYS_MQ_TIMEDSEND => 242 | SYS_MQ_UNLINK => 241
  | SYS_MREMAP => 25 | SYS_MSEAL => 462 | SYS_MSGCTL => 71 | SYS_MSGGET => 68
  | SYS_MSGRCV => 70 | SYS_MSGSND => 69 | SYS_MSYNC => 26 | SYS_MUNLOCK => 150
  | SYS_MUNLOCKALL => 152 | SYS_MUNMAP => 11 | SYS_NAME_TO_HANDLE_AT => 303
  | SYS_NANOSLEEP => 35 | SYS_NEWFSTATAT => 262 | SYS_NFSSERVCTL => 180 | SYS_OPEN => 2
  | SYS_OPEN_BY_HANDLE_AT => 304 | SYS_OPEN_TREE => 428 | SYS_OPEN_TREE_ATTR => 467
  | SYS_OPENAT => 257 | SYS_OPENAT2 => 437 | SYS_PAUSE => 34 | SYS_PERF_EVENT_OPEN => 298
  | SYS_PERSONALITY => 135 | SYS_PIDFD_GETFD => 438 | SYS_PIDFD_OPEN => 434
  | SYS_PIDFD_SEND_SIGNAL => 424 | SYS_PIPE => 22 | SYS_PIPE2 => 293 | SYS_PIVOT_ROOT => 155
  | SYS_PKEY_ALLOC => 330 | SYS_PKEY_FREE => 331 | SYS_PKEY_MPROTECT => 329 | SYS_POLL => 7
  | SYS_PPOLL => 271 | SYS_PRCTL => 157 | SYS_PREAD64 => 17 | SYS_PREADV => 295
  | SYS_PREADV2 => 327 | SYS_PRLIMIT64 => 302 | SYS_PROCESS_MADVISE => 440
  | SYS_PROCESS_MRELEASE => 448 | SYS_PROCESS_VM_READV => 310 | SYS_PROCESS_VM_WRITEV => 311
  | SYS_PSELECT6 => 270 | SYS_PTRACE => 101 | SYS_PUTPMSG => 182 | SYS_PWRITE64 => 18
  | SYS_PWRITEV => 296 | SYS_PWRITEV2 => 328 | SYS_QUERY_MODULE => 178 | SYS_QUOTACTL => 179
  | SYS_QUOTACTL_FD => 443 | SYS_READ => 0 | SYS_READAHEAD => 187 | SYS_READLINK => 89
  | SYS_READLINKAT => 267 | SYS_READV => 19 | SYS_REBOOT => 169 | SYS_RECVFROM => 45
  | SYS_RECVMMSG => 299 | SYS_RECVMSG => 47 | SYS_REMAP_FILE_PAGES => 216
  | SYS_REMOVEXATTR => 197 | SYS_REMOVEXATTRAT => 466 | SYS_RENAME => 82 | SYS_RENAMEAT => 264
  | SYS_RENAMEAT2 => 316 | SYS_REQUEST_KEY => 249 | SYS_RESTART_SYSCALL => 219
  | SYS_RMDIR => 84 | SYS_RSEQ => 334 | SYS_RSEQ_SLICE_YIELD => 471 | SYS_RT_SIGACTION => 13
  | SYS_RT_SIGPENDING => 127 | SYS_RT_SIGPROCMASK => 14 | SYS_RT_SIGQUEUEINFO => 129
  | SYS_RT_SIGRETURN => 15 | SYS_RT_SIGSUSPEND => 130 | SYS_RT_SIGTIMEDWAIT => 128
  | SYS_RT_TGSIGQUEUEINFO => 297 | SYS_SCHED_GET_PRIORITY_MAX => 146
  | SYS_SCHED_GET_PRIORITY_MIN => 147 | SYS_SCHED_GETAFFINITY => 204 | SYS_SCHED_GETATTR => 315
  | SYS_SCHED_GETPARAM => 143 | SYS_SCHED_GETSCHEDULER => 145
  | SYS_SCHED_RR_GET_INTERVAL => 148 | SYS_SCHED_SETAFFINITY => 203 | SYS_SCHED_SETATTR => 314
  | SYS_SCHED_SETPARAM => 142 | SYS_SCHED_SETSCHEDULER => 144 | SYS_SCHED_YIELD => 24
  | SYS_SECCOMP => 317 | SYS_SECURITY => 185 | SYS_SELECT => 23 | SYS_SEMCTL => 66
  | SYS_SEMGET => 64 | SYS_SEMOP => 65 | SYS_SEMTIMEDOP => 220 | SYS_SENDFILE => 40
  | SYS_SENDMMSG => 307 | SYS_SENDMSG => 46 | SYS_SENDTO => 44 | SYS_SET_MEMPOLICY => 238
  | SYS_SET_MEMPOLICY_HOME_NODE => 450 | SYS_SET_ROBUST_LIST => 273
  | SYS_SET_THREAD_AREA => 205 | SYS_SET_TID_ADDRESS => 218 | SYS_SETDOMAINNAME => 171
  | SYS_SETFSGID => 123 | SYS_SETFSUID => 122 | SYS_SETGID => 106 | SYS_SETGROUPS => 116
  | SYS_SETHOSTNAME => 170 | SYS_SETITIMER => 38 | SYS_SETNS => 308 | SYS_SETPGID => 109
  | SYS_SETPRIORITY => 141 | SYS_SETREGID => 114 | SYS_SETRESGID => 119 | SYS_SETRESUID => 117
  | SYS_SETREUID => 113 | SYS_SETRLIMIT => 160 | SYS_SETSID => 112 | SYS_SETSOCKOPT => 54
  | SYS_SETTIMEOFDAY => 164 | SYS_SETUID => 105 | SYS_SETXATTR => 188 | SYS_SETXATTRAT => 463
  | SYS_SHMAT => 30 | SYS_SHMCTL => 31 | SYS_SHMDT => 67 | SYS_SHMGET => 29
  | SYS_SHUTDOWN => 48 | SYS_SIGALTSTACK => 131 | SYS_SIGNALFD => 282 | SYS_SIGNALFD4 => 289
  | SYS_SOCKET => 41 | SYS_SOCKETPAIR => 53 | SYS_SPLICE => 275 | SYS_STAT => 4
  | SYS_STATFS => 137 | SYS_STATMOUNT => 457 | SYS_STATX => 332 | SYS_SWAPOFF => 168
  | SYS_SWAPON => 167 | SYS_SYMLINK => 88 | SYS_SYMLINKAT => 266 | SYS_SYNC => 162
  | SYS_SYNC_FILE_RANGE => 277 | SYS_SYNCFS => 306 | SYS_SYSFS => 139 | SYS_SYSINFO => 99
  | SYS_SYSLOG => 103 | SYS_TEE => 276 | SYS_TGKILL => 234 | SYS_TIME => 201
  | SYS_TIMER_CREATE => 222 | SYS_TIMER_DELETE => 226 | SYS_TIMER_GETOVERRUN => 225
  | SYS_TIMER_GETTIME => 224 | SYS_TIMER_SETTIME => 223 | SYS_TIMERFD_CREATE => 283
  | SYS_TIMERFD_GETTIME => 287 | SYS_TIMERFD_SETTIME => 286 | SYS_TIMES => 100
  | SYS_TKILL => 200 | SYS_TRUNCATE => 76 | SYS_TUXCALL => 184 | SYS_UMASK => 95
  | SYS_UMOUNT2 => 166 | SYS_UNAME => 63 | SYS_UNLINK => 87 | SYS_UNLINKAT => 263
  | SYS_UNSHARE => 272 | SYS_UPROBE => 336 | SYS_URETPROBE => 335 | SYS_USELIB => 134
  | SYS_USERFAULTFD => 323 | SYS_USTAT => 136 | SYS_UTIME => 132 | SYS_UTIMENSAT => 280
  | SYS_UTIMES => 235 | SYS_VFORK => 58 | SYS_VHANGUP => 153 | SYS_VMSPLICE => 278
  | SYS_VSERVER => 236 | SYS_WAIT4 => 61 | SYS_WAITID => 247 | SYS_WRITE => 1
  | SYS_WRITEV => 20
  end.

Definition arm64_number (s : syscall) : Z :=
  match s with
  | SYS__SYSCTL => 4294901760 | SYS_ACCEPT => 202 | SYS_ACCEPT4 => 242
  | SYS_ACCESS => 4294901761 | SYS_ACCT => 89 | SYS_ADD_KEY => 217 | SYS_ADJTIMEX => 171
  | SYS_AFS_SYSCALL => 4294901762 | SYS_ALARM => 4294901763 | SYS_ARCH_PRCTL => 4294901764
  | SYS_BIND => 200 | SYS_BPF => 280 | SYS_BRK => 214 | SYS_CACHESTAT => 451 | SYS_CAPGET => 90
  | SYS_CAPSET => 91 | SYS_CHDIR => 49 | SYS_CHMOD => 4294901765 | SYS_CHOWN => 4294901766
  | SYS_CHROOT => 51 | SYS_CLOCK_ADJTIME => 266 | SYS_CLOCK_GETRES => 114
  | SYS_CLOCK_GETTIME => 113 | SYS_CLOCK_NANOSLEEP => 115 | SYS_CLOCK_SETTIME => 112
  | SYS_CLONE => 220 | SYS_CLONE3 => 435 | SYS_CLOSE => 57 | SYS_CLOSE_RANGE => 436
  | SYS_CONNECT => 203 | SYS_COPY_FILE_RANGE => 285 | SYS_CREAT => 4294901767
  | SYS_CREATE_MODULE => 4294901768 | SYS_DELETE_MODULE => 106 | SYS_DUP => 23
  | SYS_DUP2 => 4294901769 | SYS_DUP3 => 24 | SYS_EPOLL_CREATE => 4294901770
  | SYS_EPOLL_CREATE1 => 20 | SYS_EPOLL_CTL => 21 | SYS_EPOLL_CTL_OLD => 4294901771
  | SYS_EPOLL_PWAIT => 22 | SYS_EPOLL_PWAIT2 => 441 | SYS_EPOLL_WAIT => 4294901772
  | SYS_EPOLL_WAIT_OLD => 4294901773 | SYS_EVENTFD => 4294901774 | SYS_EVENTFD2 => 19
  | SYS_EXECVE => 221 | SYS_EXECVEAT => 281 | SYS_EXIT => 93 | SYS_EXIT_GROUP => 94
  | SYS_FACCESSAT => 48 | SYS_FACCESSAT2 => 439 | SYS_FADVISE64 => 223 | SYS_FALLOCATE => 47
  | SYS_FANOTIFY_INIT => 262 | SYS_FANOTIFY_MARK => 263 | SYS_FCHDIR => 50 | SYS_FCHMOD => 52
  | SYS_FCHMODAT => 53 | SYS_FCHMODAT2 => 452 | SYS_FCHOWN => 55 | SYS_FCHOWNAT => 54
  | SYS_FCNTL => 25 | SYS_FDATASYNC => 83 | SYS_FGETXATTR => 10 | SYS_FILE_GETATTR => 468
  | SYS_FILE_SETATTR => 469 | SYS_FINIT_MODULE => 273 | SYS_FLISTXATTR => 13 | SYS_FLOCK => 32
  | SYS_FORK => 4294901775 | SYS_FREMOVEXATTR => 16 | SYS_FSCONFIG => 431 | SYS_FSETXATTR => 7
  | SYS_FSMOUNT => 432 | SYS_FSOPEN => 430 | SYS_FSPICK => 433 | SYS_FSTAT => 80
  | SYS_FSTATFS => 44 | SYS_FSYNC => 82 | SYS_FTRUNCATE => 46 | SYS_FUTEX => 98
  | SYS_FUTEX_REQUEUE => 456 | SYS_FUTEX_WAIT => 455 | SYS_FUTEX_WAITV => 449
  | SYS_FUTEX_WAKE => 454 | SYS_FUTIMESAT => 4294901776 | SYS_GET_KERNEL_SYMS => 4294901777
  | SYS_GET_MEMPOLICY => 236 | SYS_GET_ROBUST_LIST => 100 | SYS_GET_THREAD_AREA => 4294901778
  | SYS_GETCPU => 168 | SYS_GETCWD => 17 | SYS_GETDENTS => 4294901779 | SYS_GETDENTS64 => 61
  | SYS_GETEGID => 177 | SYS_GETEUID => 175 | SYS_GETGID => 176 | SYS_GETGROUPS => 158
  | SYS_GETITIMER => 102 | SYS_GETPEERNAME => 205 | SYS_GETPGID => 155
  | SYS_GETPGRP => 4294901780 | SYS_GETPID => 172 | SYS_GETPMSG => 4294901781
  | SYS_GETPPID => 173 | SYS_GETPRIORITY => 141 | SYS_GETRANDOM => 278 | SYS_GETRESGID => 150
  | SYS_GETRESUID => 148 | SYS_GETRLIMIT => 163 | SYS_GETRUSAGE => 165 | SYS_GETSID => 156
  | SYS_GETSOCKNAME => 204 | SYS_GETSOCKOPT => 209 | SYS_GETTID => 178
  | SYS_GETTIMEOFDAY => 169 | SYS_GETUID => 174 | SYS_GETXATTR => 8 | SYS_GETXATTRAT => 464
  | SYS_INIT_MODULE => 105 | SYS_INOTIFY_ADD_WATCH => 27 | SYS_INOTIFY_INIT => 4294901782
  | SYS_INOTIFY_INIT1 => 26 | SYS_INOTIFY_RM_WATCH => 28 | SYS_IO_CANCEL => 3
  | SYS_IO_DESTROY => 1 | SYS_IO_GETEVENTS => 4 | SYS_IO_PGETEVENTS => 292 | SYS_IO_SETUP => 0
  | SYS_IO_SUBMIT => 2 | SYS_IO_URING_ENTER => 426 | SYS_IO_URING_REGISTER => 427
  | SYS_IO_URING_SETUP => 425 | SYS_IOCTL => 29 | SYS_IOPERM => 4294901783
  | SYS_IOPL => 4294901784 | SYS_IOPRIO_GET => 31 | SYS_IOPRIO_SET => 30 | SYS_KCMP => 272
  | SYS_KEXEC_FILE_LOAD => 294 | SYS_KEXEC_LOAD => 104 | SYS_KEYCTL => 219 | SYS_KILL => 129
  | SYS_LANDLOCK_ADD_RULE => 445 | SYS_LANDLOCK_CREATE_RULESET => 444
  | SYS_LANDLOCK_RESTRICT_SELF => 446 | SYS_LCHOWN => 4294901785 | SYS_LGETXATTR => 9
  | SYS_LINK => 4294901786 | SYS_LINKAT => 37 | SYS_LISTEN => 201 | SYS_LISTMOUNT => 458
  | SYS_LISTNS => 470 | SYS_LISTXATTR => 11 | SYS_LISTXATTRAT => 465 | SYS_LLISTXATTR => 12
  | SYS_LOOKUP_DCOOKIE => 18 | SYS_LREMOVEXATTR => 15 | SYS_LSEEK => 62 | SYS_LSETXATTR => 6
  | SYS_LSM_GET_SELF_ATTR => 459 | SYS_LSM_LIST_MODULES => 461 | SYS_LSM_SET_SELF_ATTR => 460
  | SYS_LSTAT => 4294901787 | SYS_MADVISE => 233 | SYS_MAP_SHADOW_STACK => 453
  | SYS_MBIND => 235 | SYS_MEMBARRIER => 283 | SYS_MEMFD_CREATE => 279
  | SYS_MEMFD_SECRET => 447 | SYS_MIGRATE_PAGES => 238 | SYS_MINCORE => 232
  | SYS_MKDIR => 4294901788 | SYS_MKDIRAT => 34 | SYS_MKNOD => 4294901789 | SYS_MKNODAT => 33
  | SYS_MLOCK => 228 | SYS_MLOCK2 => 284 | SYS_MLOCKALL => 230 | SYS_MMAP => 222
  | SYS_MODIFY_LDT => 4294901790 | SYS_MOUNT => 40 | SYS_MOUNT_SETATTR => 442
  | SYS_MOVE_MOUNT => 429 | SYS_MOVE_PAGES => 239 | SYS_MPROTECT => 226
  | SYS_MQ_GETSETATTR => 185 | SYS_MQ_NOTIFY => 184 | SYS_MQ_OPEN => 180
  | SYS_MQ_TIMEDRECEIVE => 183 | SYS_MQ_TIMEDSEND => 182 | SYS_MQ_UNLINK => 181
  | SYS_MREMAP => 216 | SYS_MSEAL => 462 | SYS_MSGCTL => 187 | SYS_MSGGET => 186
  | SYS_MSGRCV => 188 | SYS_MSGSND => 189 | SYS_MSYNC => 227 | SYS_MUNLOCK => 229
  | SYS_MUNLOCKALL => 231 | SYS_MUNMAP => 215 | SYS_NAME_TO_HANDLE_AT => 264
  | SYS_NANOSLEEP => 101 | SYS_NEWFSTATAT => 79 | SYS_NFSSERVCTL => 42 | SYS_OPEN => 4294901791
  | SYS_OPEN_BY_HANDLE_AT => 265 | SYS_OPEN_TREE => 428 | SYS_OPEN_TREE_ATTR => 467
  | SYS_OPENAT => 56 | SYS_OPENAT2 => 437 | SYS_PAUSE => 4294901792
  | SYS_PERF_EVENT_OPEN => 241 | SYS_PERSONALITY => 92 | SYS_PIDFD_GETFD => 438
  | SYS_PIDFD_OPEN => 434 | SYS_PIDFD_SEND_SIGNAL => 424 | SYS_PIPE => 4294901793
  | SYS_PIPE2 => 59 | SYS_PIVOT_ROOT => 41 | SYS_PKEY_ALLOC => 289 | SYS_PKEY_FREE => 290
  | SYS_PKEY_MPROTECT => 288 | SYS_POLL => 4294901794 | SYS_PPOLL => 73 | SYS_PRCTL => 167
  | SYS_PREAD64 => 67 | SYS_PREADV => 69 | SYS_PREADV2 => 286 | SYS_PRLIMIT64 => 261
  | SYS_PROCESS_MADVISE => 440 | SYS_PROCESS_MRELEASE => 448 | SYS_PROCESS_VM_READV => 270
  | SYS_PROCESS_VM_WRITEV => 271 | SYS_PSELECT6 => 72 | SYS_PTRACE => 117
  | SYS_PUTPMSG => 4294901795 | SYS_PWRITE64 => 68 | SYS_PWRITEV => 70 | SYS_PWRITEV2 => 287
  | SYS_QUERY_MODULE => 4294901796 | SYS_QUOTACTL => 60 | SYS_QUOTACTL_FD => 443
  | SYS_READ => 63 | SYS_READAHEAD => 213 | SYS_READLINK => 4294901797 | SYS_READLINKAT => 78
  | SYS_READV => 65 | SYS_REBOOT => 142 | SYS_RECVFROM => 207 | SYS_RECVMMSG => 243
  | SYS_RECVMSG => 212 | SYS_REMAP_FILE_PAGES => 234 | SYS_REMOVEXATTR => 14
  | SYS_REMOVEXATTRAT => 466 | SYS_RENAME => 4294901798 | SYS_RENAMEAT => 38
  | SYS_RENAMEAT2 => 276 | SYS_REQUEST_KEY => 218 | SYS_RESTART_SYSCALL => 128
  | SYS_RMDIR => 4294901799 | SYS_RSEQ => 293 | SYS_RSEQ_SLICE_YIELD => 471
  | SYS_RT_SIGACTION => 134 | SYS_RT_SIGPENDING => 136 | SYS_RT_SIGPROCMASK => 135
  | SYS_RT_SIGQUEUEINFO => 138 | SYS_RT_SIGRETURN => 139 | SYS_RT_SIGSUSPEND => 133
  | SYS_RT_SIGTIMEDWAIT => 137 | SYS_RT_TGSIGQUEUEINFO => 240
  | SYS_SCHED_GET_PRIORITY_MAX => 125 | SYS_SCHED_GET_PRIORITY_MIN => 126
  | SYS_SCHED_GETAFFINITY => 123 | SYS_SCHED_GETATTR => 275 | SYS_SCHED_GETPARAM => 121
  | SYS_SCHED_GETSCHEDULER => 120 | SYS_SCHED_RR_GET_INTERVAL => 127
  | SYS_SCHED_SETAFFINITY => 122 | SYS_SCHED_SETATTR => 274 | SYS_SCHED_SETPARAM => 118
  | SYS_SCHED_SETSCHEDULER => 119 | SYS_SCHED_YIELD => 124 | SYS_SECCOMP => 277
  | SYS_SECURITY => 4294901800 | SYS_SELECT => 4294901801 | SYS_SEMCTL => 191
  | SYS_SEMGET => 190 | SYS_SEMOP => 193 | SYS_SEMTIMEDOP => 192 | SYS_SENDFILE => 71
  | SYS_SENDMMSG => 269 | SYS_SENDMSG => 211 | SYS_SENDTO => 206 | SYS_SET_MEMPOLICY => 237
  | SYS_SET_MEMPOLICY_HOME_NODE => 450 | SYS_SET_ROBUST_LIST => 99
  | SYS_SET_THREAD_AREA => 4294901802 | SYS_SET_TID_ADDRESS => 96 | SYS_SETDOMAINNAME => 162
  | SYS_SETFSGID => 152 | SYS_SETFSUID => 151 | SYS_SETGID => 144 | SYS_SETGROUPS => 159
  | SYS_SETHOSTNAME => 161 | SYS_SETITIMER => 103 | SYS_SETNS => 268 | SYS_SETPGID => 154
  | SYS_SETPRIORITY => 140 | SYS_SETREGID => 143 | SYS_SETRESGID => 149 | SYS_SETRESUID => 147
  | SYS_SETREUID => 145 | SYS_SETRLIMIT => 164 | SYS_SETSID => 157 | SYS_SETSOCKOPT => 208
  | SYS_SETTIMEOFDAY => 170 | SYS_SETUID => 146 | SYS_SETXATTR => 5 | SYS_SETXATTRAT => 463
  | SYS_SHMAT => 196 | SYS_SHMCTL => 195 | SYS_SHMDT => 197 | SYS_SHMGET => 194
  | SYS_SHUTDOWN => 210 | SYS_SIGALTSTACK => 132 | SYS_SIGNALFD => 4294901803
  | SYS_SIGNALFD4 => 74 | SYS_SOCKET => 198 | SYS_SOCKETPAIR => 199 | SYS_SPLICE => 76
  | SYS_STAT => 4294901804 | SYS_STATFS => 43 | SYS_STATMOUNT => 457 | SYS_STATX => 291
  | SYS_SWAPOFF => 225 | SYS_SWAPON => 224 | SYS_SYMLINK => 4294901805 | SYS_SYMLINKAT => 36
  | SYS_SYNC => 81 | SYS_SYNC_FILE_RANGE => 84 | SYS_SYNCFS => 267 | SYS_SYSFS => 4294901806
  | SYS_SYSINFO => 179 | SYS_SYSLOG => 116 | SYS_TEE => 77 | SYS_TGKILL => 131
  | SYS_TIME => 4294901807 | SYS_TIMER_CREATE => 107 | SYS_TIMER_DELETE => 111
  | SYS_TIMER_GETOVERRUN => 109 | SYS_TIMER_GETTIME => 108 | SYS_TIMER_SETTIME => 110
  | SYS_TIMERFD_CREATE => 85 | SYS_TIMERFD_GETTIME => 87 | SYS_TIMERFD_SETTIME => 86
  | SYS_TIMES => 153 | SYS_TKILL => 130 | SYS_TRUNCATE => 45 | SYS_TUXCALL => 4294901808
  | SYS_UMASK => 166 | SYS_UMOUNT2 => 39 | SYS_UNAME => 160 | SYS_UNLINK => 4294901809
  | SYS_UNLINKAT => 35 | SYS_UNSHARE => 97 | SYS_UPROBE => 4294901810
  | SYS_URETPROBE => 4294901811 | SYS_USELIB => 4294901812 | SYS_USERFAULTFD => 282
  | SYS_USTAT => 4294901813 | SYS_UTIME => 4294901814 | SYS_UTIMENSAT => 88
  | SYS_UTIMES => 4294901815 | SYS_VFORK => 4294901816 | SYS_VHANGUP => 58 | SYS_VMSPLICE => 75
  | SYS_VSERVER => 4294901817 | SYS_WAIT4 => 260 | SYS_WAITID => 95 | SYS_WRITE => 64
  | SYS_WRITEV => 66
  end.

(** [bpf/syscall_numbers_generated.h] includes exactly one of the two tables. *)
Class Arch : Type := target_arch : arch.

Definition nr `{Arch} (s : syscall) : Z :=
  match target_arch with
  | amd64 => amd64_number s
  | arm64 => arm64_number s
  end.

Definition all_syscalls : list syscall :=
  [SYS__SYSCTL; SYS_ACCEPT; SYS_ACCEPT4; SYS_ACCESS; SYS_ACCT; SYS_ADD_KEY; SYS_ADJTIMEX;
   SYS_AFS_SYSCALL; SYS_ALARM; SYS_ARCH_PRCTL; SYS_BIND; SYS_BPF; SYS_BRK; SYS_CACHESTAT;
   SYS_CAPGET; SYS_CAPSET; SYS_CHDIR; SYS_CHMOD; SYS_CHOWN; SYS_CHROOT; SYS_CLOCK_ADJTIME;
   SYS_CLOCK_GETRES; SYS_CLOCK_GETTIME; SYS_CLOCK_NANOSLEEP; SYS_CLOCK_SETTIME; SYS_CLONE;
   SYS_CLONE3; SYS_CLOSE; SYS_CLOSE_RANGE; SYS_CONNECT; SYS_COPY_FILE_RANGE; SYS_CREAT;
   SYS_CREATE_MODULE; SYS_DELETE_MODULE; SYS_DUP; SYS_DUP2; SYS_DUP3; SYS_EPOLL_CREATE;
   SYS_EPOLL_CREATE1; SYS_EPOLL_CTL; SYS_EPOLL_CTL_OLD; SYS_EPOLL_PWAIT; SYS_EPOLL_PWAIT2;
   SYS_EPOLL_WAIT; SYS_EPOLL_WAIT_OLD; SYS_EVENTFD; SYS_EVENTFD2; SYS_EXECVE; SYS_EXECVEAT;
   SYS_EXIT; SYS_EXIT_GROUP; SYS_FACCESSAT; SYS_FACCESSAT2; SYS_FADVISE64; SYS_FALLOCATE;
   SYS_FANOTIFY_INIT; SYS_FANOTIFY_MARK; SYS_FCHDIR; SYS_FCHMOD; SYS_FCHMODAT;
   SYS_FCHMODAT2; SYS_FCHOWN; SYS_FCHOWNAT; SYS_FCNTL; SYS_FDATASYNC; SYS_FGETXATTR;
   SYS_FILE_GETATTR; SYS_FILE_SETATTR; SYS_FINIT_MODULE; SYS_FLISTXATTR; SYS_FLOCK;
   SYS_FORK; SYS_FREMOVEXATTR; SYS_FSCONFIG; SYS_FSETXATTR; SYS_FSMOUNT; SYS_FSOPEN;
   SYS_FSPICK; SYS_FSTAT; SYS_FSTATFS; SYS_FSYNC; SYS_FTRUNCATE; SYS_FUTEX;
   SYS_FUTEX_REQUEUE; SYS_FUTEX_WAIT; SYS_FUTEX_WAITV; SYS_FUTEX_WAKE; SYS_FUTIMESAT;
   SYS_GET_KERNEL_SYMS; SYS_GET_MEMPOLICY; SYS_GET_ROBUST_LIST; SYS_GET_THREAD_AREA;
   SYS_GETCPU; SYS_GETCWD; SYS_GETDENTS; SYS_GETDENTS64; SYS_GETEGID; SYS_GETEUID;
   SYS_GETGID; SYS_GETGROUPS; SYS_GETITIMER; SYS_GETPEERNAME; SYS_GETPGID; SYS_GETPGRP;
   SYS_GETPID; SYS_GETPMSG; SYS_GETPPID; SYS_GETPRIORITY; SYS_GETRANDOM; SYS_GETRESGID;
   SYS_GETRESUID; SYS_GETRLIMIT; SYS_GETRUSAGE; SYS_GETSID; SYS_GETSOCKNAME;
   SYS_GETSOCKOPT; SYS_GETTID; SYS_GETTIMEOFDAY; SYS_GETUID; SYS_GETXATTR; SYS_GETXATTRAT;
   SYS_INIT_MODULE; SYS_INOTIFY_ADD_WATCH; SYS_INOTIFY_INIT; SYS_INOTIFY_INIT1;
   SYS_INOTIFY_RM_WATCH; SYS_IO_CANCEL; SYS_IO_DESTROY; SYS_IO_GETEVENTS;
   SYS_IO_PGETEVENTS; SYS_IO_SETUP; SYS_IO_SUBMIT; SYS_IO_URING_ENTER;
   SYS_IO_URING_REGISTER; SYS_IO_URING_SETUP; SYS_IOCTL; SYS_IOPERM; SYS_IOPL;
   SYS_IOPRIO_GET; SYS_IOPRIO_SET; SYS_KCMP; SYS_KEXEC_FILE_LOAD; SYS_KEXEC_LOAD;
   SYS_KEYCTL; SYS_KILL; SYS_LANDLOCK_ADD_RULE; SYS_LANDLOCK_CREATE_RULESET;
   SYS_LANDLOCK_RESTRICT_SELF; SYS_LCHOWN; SYS_LGETXATTR; SYS_LINK; SYS_LINKAT; SYS_LISTEN;
   SYS_LISTMOUNT; SYS_LISTNS; SYS_LISTXATTR; SYS_LISTXATTRAT; SYS_LLISTXATTR;
   SYS_LOOKUP_DCOOKIE; SYS_LREMOVEXATTR; SYS_LSEEK; SYS_LSETXATTR; SYS_LSM_GET_SELF_ATTR;
   SYS_LSM_LIST_MODULES; SYS_LSM_SET_SELF_ATTR; SYS_LSTAT; SYS_MADVISE;
   SYS_MAP_SHADOW_STACK; SYS_MBIND; SYS_MEMBARRIER; SYS_MEMFD_CREATE; SYS_MEMFD_SECRET;
   SYS_MIGRATE_PAGES; SYS_MINCORE; SYS_MKDIR; SYS_MKDIRAT; SYS_MKNOD; SYS_MKNODAT;
   SYS_MLOCK; SYS_MLOCK2; SYS_MLOCKALL; SYS_MMAP; SYS_MODIFY_LDT; SYS_MOUNT;
   SYS_MOUNT_SETATTR; SYS_MOVE_MOUNT; SYS_MOVE_PAGES; SYS_MPROTECT; SYS_MQ_GETSETATTR;
   SYS_MQ_NOTIFY; SYS_MQ_OPEN; SYS_MQ_TIMEDRECEIVE; SYS_MQ_TIMEDSEND; SYS_MQ_UNLINK;
   SYS_MREMAP; SYS_MSEAL; SYS_MSGCTL; SYS_MSGGET; SYS_MSGRCV; SYS_MSGSND; SYS_MSYNC;
   SYS_MUNLOCK; SYS_MUNLOCKALL; SYS_MUNMAP; SYS_NAME_TO_HANDLE_AT; SYS_NANOSLEEP;
   SYS_NEWFSTATAT; SYS_NFSSERVCTL; SYS_OPEN; SYS_OPEN_BY_HANDLE_AT; SYS_OPEN_TREE;
   SYS_OPEN_TREE_ATTR; SYS_OPENAT; SYS_OPENAT2; SYS_PAUSE; SYS_PERF_EVENT_OPEN;
   SYS_PERSONALITY; SYS_PIDFD_GETFD; SYS_PIDFD_OPEN; SYS_PIDFD_SEND_SIGNAL; SYS_PIPE;
   SYS_PIPE2; SYS_PIVOT_ROOT; SYS_PKEY_ALLOC; SYS_PKEY_FREE; SYS_PKEY_MPROTECT; SYS_POLL;
   SYS_PPOLL; SYS_PRCTL; SYS_PREAD64; SYS_PREADV; SYS_PREADV2; SYS_PRLIMIT64;
   SYS_PROCESS_MADVISE; SYS_PROCESS_MRELEASE; SYS_PROCESS_VM_READV; SYS_PROCESS_VM_WRITEV;
   SYS_PSELECT6; SYS_PTRACE; SYS_PUTPMSG; SYS_PWRITE64; SYS_PWRITEV; SYS_PWRITEV2;
   SYS_QUERY_MODULE; SYS_QUOTACTL; SYS_QUOTACTL_FD; SYS_READ; SYS_READAHEAD; SYS_READLINK;
   SYS_READLINKAT; SYS_READV; SYS_REBOOT; SYS_RECVFROM; SYS_RECVMMSG; SYS_RECVMSG;
   SYS_REMAP_FILE_PAGES; SYS_REMOVEXATTR; SYS_REMOVEXATTRAT; SYS_RENAME; SYS_RENAMEAT;
   SYS_RENAMEAT2; SYS_REQUEST_KEY; SYS_RESTART_SYSCALL; SYS_RMDIR; SYS_RSEQ;
   SYS_RSEQ_SLICE_YIELD; SYS_RT_SIGACTION; SYS_RT_SIGPENDING; SYS_RT_SIGPROCMASK;
   SYS_RT_SIGQUEUEINFO; SYS_RT_SIGRETURN; SYS_RT_SIGSUSPEND; SYS_RT_SIGTIMEDWAIT;
   SYS_RT_TGSIGQUEUEINFO; SYS_SCHED_GET_PRIORITY_MAX; SYS_SCHED_GET_PRIORITY_MIN;
   SYS_SCHED_GETAFFINITY; SYS_SCHED_GETATTR; SYS_SCHED_GETPARAM; SYS_SCHED_GETSCHEDULER;
   SYS_SCHED_RR_GET_INTERVAL; SYS_SCHED_SETAFFINITY; SYS_SCHED_SETATTR; SYS_SCHED_SETPARAM;
   SYS_SCHED_SETSCHEDULER; SYS_SCHED_YIELD; SYS_SECCOMP; SYS_SECURITY; SYS_SELECT;
   SYS_SEMCTL; SYS_SEMGET; SYS_SEMOP; SYS_SEMTIMEDOP; SYS_SENDFILE; SYS_SENDMMSG;
   SYS_SENDMSG; SYS_SENDTO; SYS_SET_MEMPOLICY; SYS_SET_MEMPOLICY_HOME_NODE;
   SYS_SET_ROBUST_LIST; SYS_SET_THREAD_AREA; SYS_SET_TID_ADDRESS; SYS_SETDOMAINNAME;
   SYS_SETFSGID; SYS_SETFSUID; SYS_SETGID; SYS_SETGROUPS; SYS_SETHOSTNAME; SYS_SETITIMER;
   SYS_SETNS; SYS_SETPGID; SYS_SETPRIORITY; SYS_SETREGID; SYS_SETRESGID; SYS_SETRESUID;
   SYS_SETREUID; SYS_SETRLIMIT; SYS_SETSID; SYS_SETSOCKOPT; SYS_SETTIMEOFDAY; SYS_SETUID;
   SYS_SETXATTR; SYS_SETXATTRAT; SYS_SHMAT; SYS_SHMCTL; SYS_SHMDT; SYS_SHMGET;
   SYS_SHUTDOWN; SYS_SIGALTSTACK; SYS_SIGNALFD; SYS_SIGNALFD4; SYS_SOCKET; SYS_SOCKETPAIR;
   SYS_SPLICE; SYS_STAT; SYS_STATFS; SYS_STATMOUNT; SYS_STATX; SYS_SWAPOFF; SYS_SWAPON;
   SYS_SYMLINK; SYS_SYMLINKAT; SYS_SYNC; SYS_SYNC_FILE_RANGE; SYS_SYNCFS; SYS_SYSFS;
   SYS_SYSINFO; SYS_SYSLOG; SYS_TEE; SYS_TGKILL; SYS_TIME; SYS_TIMER_CREATE;
   SYS_TIMER_DELETE; SYS_TIMER_GETOVERRUN; SYS_TIMER_GETTIME; SYS_TIMER_SETTIME;
   SYS_TIMERFD_CREATE; SYS_TIMERFD_GETTIME; SYS_TIMERFD_SETTIME; SYS_TIMES; SYS_TKILL;
   SYS_TRUNCATE; SYS_TUXCALL; SYS_UMASK; SYS_UMOUNT2; SYS_UNAME; SYS_UNLINK; SYS_UNLINKAT;
   SYS_UNSHARE; SYS_UPROBE; SYS_URETPROBE; SYS_USELIB; SYS_USERFAULTFD; SYS_USTAT;
   SYS_UTIME; SYS_UTIMENSAT; SYS_UTIMES; SYS_VFORK; SYS_VHANGUP; SYS_VMSPLICE; SYS_VSERVER;
   SYS_WAIT4; SYS_WAITID; SYS_WRITE; SYS_WRITEV].

(** Looking a number up in the table of a target. *)
Definition syscall_of (number : syscall -> Z) (n : Z) : option syscall :=
  find (fun s => number s =? n) all_syscalls.

Lemma amd64_syscall_of s : syscall_of amd64_number (amd64_number s) = Some s.
Proof. destruct s; vm_compute; reflexivity. Qed.

Lemma arm64_syscall_of s : syscall_of arm64_number (arm64_number s) = Some s.
Proof. destruct s; vm_compute; reflexivity. Qed.

(** On either target two different [SYS_*] macros are different numbers, also
    when one of them stands for a call the target does not have: the family
    predicates built from [==] tests cannot overlap by accident. *)
Lemma nr_injective `{Arch} s1 s2 : nr s1 = nr s2 -> s1 = s2.
Proof.
  unfold nr. destruct target_arch; intros E.
  - pose proof (amd64_syscall_of s1) as E1. rewrite E, amd64_syscall_of in E1. congruence.
  - pose proof (arm64_syscall_of s1) as E1. rewrite E, arm64_syscall_of in E1. congruence.
Qed.

#[export] Instance syscall_eq_dec : EqDecision syscall.
Proof.
  refine (fun x y => cast_if (decide (amd64_number x = amd64_number y))).
  - exact (nr_injective (H := amd64) x y e).
  - congruence.
Defined.

Lemma nr_eqb `{Arch} s1 s2 : (nr s1 =? nr s2) = bool_decide (s1 = s2).
Proof.
  case_bool_decide as E; [subst; apply Z.eqb_refl|].
  apply Z.eqb_neq. intros ?. by apply E, nr_injective.
Qed.

Lemma nr_u32 `{Arch} s : 0 <= nr s < 2 ^ 32.
Proof. unfold nr. destruct target_arch, s; cbn; lia. Qed.

(** [sys_id] is one of the listed calls. *)
Definition one_of `{Arch} (sys_id : Z) (l : list syscall) : bool :=
  existsb (fun s => sys_id =? nr s) l.

Lemma one_of_inv `{Arch} sys_id l : one_of sys_id l = true -> exists s, s ∈ l /\ sys_id = nr s.
Proof.
  intros E. apply existsb_exists in E as (s & Hs & E). exists s.
  split; [by apply list_elem_of_In | by apply Z.eqb_eq].
Qed.

Lemma one_of_nr `{Arch} s l : one_of (nr s) l = bool_decide (s ∈ l).
Proof.
  induction l as [|x l IH]; [done|]. unfold one_of in *. cbn [existsb]. rewrite nr_eqb, IH.
  rewrite <- bool_decide_or. apply bool_decide_ext. by rewrite elem_of_cons.
Qed.

(** A syscall of one family is not in a disjoint one. *)
Lemma one_of_disjoint `{Arch} sys_id l l' :
  one_of sys_id l = true -> forallb (fun s => negb (bool_decide (s ∈ l'))) l = true ->
  one_of sys_id l' = false.
Proof.
  intros E D. apply one_of_inv in E as (s & Hs & ->). rewrite one_of_nr.
  rewrite forallb_forall in D. apply list_elem_of_In in Hs. specialize (D s Hs).
  by apply negb_true_iff in D.
Qed.
