(* ===== verification/Abi.v ===== *)
(** The event-v2 wire format and the structures of the BPF programs.

    Models [bpf/event_abi_generated.h] (constants), [bpf/payload_tlv.h] and
    [bpf/runtime_abi.h] (structures), with the byte layout of every structure
    that is written to the ring buffer.  A structure that crosses the ring
    buffer is a [Record] and a list of encoded fields in declaration order;
    [layout_offsets_ok] and the lemmas after it replay the [_Static_assert]s of
    [runtime_abi.h]. *)
From stdpp Require Import base list numbers.
From S2P Require Import Prelude.

(** ** Constants of [event_abi_generated.h] *)

Abbreviation EVENT_VERSION := 2 (only parsing).
Abbreviation EVENT_TYPE_ENTER := 1 (only parsing).
Abbreviation EVENT_TYPE_EXIT := 2 (only parsing).
Abbreviation EVENT_TYPE_LIFECYCLE := 3 (only parsing).
Abbreviation EVENT_TYPE_SIGNAL := 4 (only parsing).
Abbreviation EVENT_TYPE_UNSUPPORTED_ABI := 5 (only parsing).
Abbreviation EVENT_FLAG_GENERIC_ENTER := 1 (only parsing).
Abbreviation EVENT_FLAG_PAYLOAD_TLV := 2 (only parsing).
Abbreviation EVENT_FLAG_TRUNCATED := 4 (only parsing).
Abbreviation EVENT_FLAG_EXIT_FRAGMENT := 8 (only parsing).
Abbreviation EVENT_FLAG_COMPACT_ENTER := 16 (only parsing).
Abbreviation EVENT_FLAG_ENTER_FRAGMENT := 32 (only parsing).
Abbreviation EVENT_FLAG_KVM_EXIT := 64 (only parsing).
Abbreviation LIFECYCLE_FORK := 1 (only parsing).
Abbreviation LIFECYCLE_EXEC := 2 (only parsing).
Abbreviation LIFECYCLE_EXIT := 3 (only parsing).
Abbreviation LIFECYCLE_FREE := 4 (only parsing).
Abbreviation LIFECYCLE_UNKNOWN_DETACH := 5 (only parsing).
Abbreviation LIFECYCLE_UNKNOWN_EXIT := 6 (only parsing).
Abbreviation CONFIG_CAPTURE_STACK := 1 (only parsing).
Abbreviation CONFIG_FOLLOW_FORKS := 2 (only parsing).
Abbreviation CONFIG_EMIT_ENTER := 4 (only parsing).
Abbreviation CONFIG_SYSCALL_FILTER := 8 (only parsing).
Abbreviation CONFIG_SYSCALL_FILTER_NEGATED := 16 (only parsing).
Abbreviation CONFIG_EMIT_LIFECYCLE := 32 (only parsing).
Abbreviation CONFIG_FD_STATE := 64 (only parsing).
Abbreviation CONFIG_ELIDE_PLAIN_ENTER := 128 (only parsing).
Abbreviation CONFIG_EMIT_SIGNAL := 256 (only parsing).
Abbreviation CONFIG_DECODE_PID_COMM := 512 (only parsing).
Abbreviation CONFIG_DECODE_PID_NS := 1024 (only parsing).
Abbreviation CONFIG_KVM_EXIT := 2048 (only parsing).
Abbreviation CONFIG_SYSCALL_FILTER_STRICT_UNKNOWN := 4096 (only parsing).
Abbreviation FILTER_TASK_TRACKED := 1 (only parsing).
Abbreviation FILTER_TASK_PRE_EXEC := 2 (only parsing).
Abbreviation EVENT_V2_HEADER_LEN := 80 (only parsing).
Abbreviation EVENT_V2_BASE_HEADER_LEN := 56 (only parsing).
Abbreviation EVENT_V2_COMM_SIZE := 16 (only parsing).
Abbreviation EVENT_V2_ENTER_BODY_LEN := 72 (only parsing).
Abbreviation EVENT_V2_COMPACT_ENTER_BODY_LEN := 48 (only parsing).
Abbreviation EVENT_V2_EXIT_BODY_LEN := 88 (only parsing).
Abbreviation EVENT_V2_LIFECYCLE_BODY_LEN := 56 (only parsing).
Abbreviation EVENT_V2_SIGNAL_BODY_LEN := 56 (only parsing).
Abbreviation EVENT_V2_U16_SIZE := 2 (only parsing).
Abbreviation EVENT_V2_U32_SIZE := 4 (only parsing).
Abbreviation EVENT_V2_U64_SIZE := 8 (only parsing).
Abbreviation EVENT_V2_ARGS_SIZE := 48 (only parsing).
Abbreviation EVENT_V2_HEADER_VERSION_OFFSET := 0 (only parsing).
Abbreviation EVENT_V2_HEADER_EVENT_TYPE_OFFSET := 2 (only parsing).
Abbreviation EVENT_V2_HEADER_FLAGS_OFFSET := 4 (only parsing).
Abbreviation EVENT_V2_HEADER_LEN_OFFSET := 6 (only parsing).
Abbreviation EVENT_V2_HEADER_SIZE_OFFSET := 8 (only parsing).
Abbreviation EVENT_V2_HEADER_PID_OFFSET := 12 (only parsing).
Abbreviation EVENT_V2_HEADER_TID_OFFSET := 16 (only parsing).
Abbreviation EVENT_V2_HEADER_SYS_ID_OFFSET := 20 (only parsing).
Abbreviation EVENT_V2_HEADER_SEQ_OFFSET := 24 (only parsing).
Abbreviation EVENT_V2_HEADER_TS_NS_OFFSET := 32 (only parsing).
Abbreviation EVENT_V2_HEADER_COMM_OFFSET := 40 (only parsing).
Abbreviation EVENT_V2_HEADER_CPU_OFFSET := 56 (only parsing).
Abbreviation EVENT_V2_HEADER_LOSS_EPOCH_OFFSET := 64 (only parsing).
Abbreviation EVENT_V2_HEADER_LOSS_TIME_OFFSET := 72 (only parsing).
Abbreviation EVENT_V2_ENTER_RET_OFFSET := 0 (only parsing).
Abbreviation EVENT_V2_ENTER_PROBE_RET_ENTER_OFFSET := 8 (only parsing).
Abbreviation EVENT_V2_ENTER_PROBE_RET_EXIT_OFFSET := 12 (only parsing).
Abbreviation EVENT_V2_ENTER_ARGS_OFFSET := 16 (only parsing).
Abbreviation EVENT_V2_ENTER_CAPTURE_LEN_OFFSET := 64 (only parsing).
Abbreviation EVENT_V2_ENTER_CAPTURE_FLAGS_OFFSET := 68 (only parsing).
Abbreviation EVENT_V2_COMPACT_ENTER_ARGS_OFFSET := 0 (only parsing).
Abbreviation EVENT_V2_EXIT_RET_OFFSET := 0 (only parsing).
Abbreviation EVENT_V2_EXIT_DURATION_OFFSET := 8 (only parsing).
Abbreviation EVENT_V2_EXIT_ARGS_OFFSET := 16 (only parsing).
Abbreviation EVENT_V2_EXIT_CAPTURE_LEN_OFFSET := 64 (only parsing).
Abbreviation EVENT_V2_EXIT_CAPTURE_FLAGS_OFFSET := 68 (only parsing).
Abbreviation EVENT_V2_EXIT_STACK_ID_OFFSET := 72 (only parsing).
Abbreviation EVENT_V2_EXIT_RESERVED_OFFSET := 76 (only parsing).
Abbreviation EVENT_V2_EXIT_CPU_DURATION_OFFSET := 80 (only parsing).
Abbreviation EVENT_V2_LIFECYCLE_ACTION_OFFSET := 0 (only parsing).
Abbreviation EVENT_V2_LIFECYCLE_SNAPSHOT_LEN_OFFSET := 4 (only parsing).
Abbreviation EVENT_V2_LIFECYCLE_ARGS_OFFSET := 8 (only parsing).
Abbreviation EVENT_V2_SIGNAL_NUMBER_OFFSET := 0 (only parsing).
Abbreviation EVENT_V2_SIGNAL_ERRNO_OFFSET := 4 (only parsing).
Abbreviation EVENT_V2_SIGNAL_CODE_OFFSET := 8 (only parsing).
Abbreviation EVENT_V2_SIGNAL_SENDER_PID_OFFSET := 12 (only parsing).
Abbreviation EVENT_V2_SIGNAL_SENDER_UID_OFFSET := 16 (only parsing).
Abbreviation EVENT_V2_SIGNAL_STACK_ID_OFFSET := 20 (only parsing).
Abbreviation EVENT_V2_SIGNAL_ADDRESS_OFFSET := 24 (only parsing).
Abbreviation EVENT_V2_SIGNAL_CHILD_STATUS_OFFSET := 32 (only parsing).
Abbreviation EVENT_V2_SIGNAL_CHILD_USER_TIME_OFFSET := 40 (only parsing).
Abbreviation EVENT_V2_SIGNAL_CHILD_SYSTEM_TIME_OFFSET := 48 (only parsing).
Abbreviation PAYLOAD_TLV_HEADER_SIZE := 32 (only parsing).
Abbreviation PAYLOAD_TLV_OPENAT_MAX := 512 (only parsing).
Abbreviation PAYLOAD_TLV_READ_MAX := 512 (only parsing).
Abbreviation PAYLOAD_TLV_WRITE_MAX := 512 (only parsing).
Abbreviation PAYLOAD_TLV_DATA_BUCKET_64 := 64 (only parsing).
Abbreviation PAYLOAD_TLV_DATA_BUCKET_128 := 128 (only parsing).
Abbreviation PAYLOAD_TLV_DATA_BUCKET_256 := 256 (only parsing).
Abbreviation PAYLOAD_TLV_DATA_BUCKET_512 := 512 (only parsing).
Abbreviation PAYLOAD_TLV_KIND_STRING := 1 (only parsing).
Abbreviation PAYLOAD_TLV_KIND_BYTES := 2 (only parsing).
Abbreviation PAYLOAD_TLV_KIND_STRUCT := 3 (only parsing).
Abbreviation PAYLOAD_TLV_KIND_IOVEC := 4 (only parsing).
Abbreviation PAYLOAD_TLV_KIND_SOCKADDR := 5 (only parsing).
Abbreviation PAYLOAD_TLV_KIND_EXEC_ARGS := 6 (only parsing).
Abbreviation PAYLOAD_TLV_KIND_CMSG := 7 (only parsing).
Abbreviation PAYLOAD_TLV_KIND_FD_STATE := 8 (only parsing).
Abbreviation PAYLOAD_TLV_KIND_FD_PATH := 9 (only parsing).
Abbreviation PAYLOAD_TLV_KIND_EVENTFD_STATE := 10 (only parsing).
Abbreviation PAYLOAD_TLV_KIND_NAMESPACE := 11 (only parsing).
Abbreviation PAYLOAD_TLV_KIND_PID_NAMESPACE := 12 (only parsing).
Abbreviation PAYLOAD_TLV_FD_STATE_ARG_INDEX := 65535 (only parsing).
Abbreviation PAYLOAD_TLV_FD_PATH_CWD_ARG_INDEX := 65534 (only parsing).
Abbreviation PAYLOAD_TLV_FD_PATH_NESTED_ARG_INDEX := 65533 (only parsing).
Abbreviation PAYLOAD_TLV_EVENTFD_STATE_ARG_INDEX := 65532 (only parsing).
Abbreviation PAYLOAD_TLV_NAMESPACE_ARG_INDEX := 65531 (only parsing).
Abbreviation PAYLOAD_TLV_PID_NAMESPACE_ARG_INDEX := 65530 (only parsing).
Abbreviation PAYLOAD_TLV_CLONE3_SET_TID_ARG_INDEX := 65529 (only parsing).
Abbreviation PAYLOAD_TLV_FLAG_DIRECTION_OUT := 1 (only parsing).
Abbreviation FD_STATE_SNAPSHOT_SIZE := 48 (only parsing).
Abbreviation FD_STATE_FLAG_IDENTITY := 1 (only parsing).
Abbreviation FD_STATE_FLAG_OFFSET := 2 (only parsing).
Abbreviation EVENTFD_STATE_SNAPSHOT_SIZE := 16 (only parsing).
Abbreviation NAMESPACE_SNAPSHOT_SIZE := 40 (only parsing).
Abbreviation PID_NAMESPACE_SNAPSHOT_SIZE := 8 (only parsing).

(** ** Constants of [runtime_abi.h] *)

Abbreviation EXEC_SNAPSHOT_MAGIC := 0x45584543 (only parsing).
Abbreviation EXEC_PATH_SNAPSHOT_MAX := 512 (only parsing).
Abbreviation EXEC_ARG_MAX := 48 (only parsing).
Abbreviation EXEC_ENV_MAX := 64 (only parsing).
Abbreviation EXEC_ARG_DATA_SIZE := 50 (only parsing).
Abbreviation LIFECYCLE_SNAPSHOT_MAX := 4096 (only parsing).
Abbreviation KVM_RUN_IOCTL := 0xae80 (only parsing).
Abbreviation KVM_EXIT_AUX_VALID := 2147483648 (only parsing).
Abbreviation KVM_EXIT_AUX_REASON_MASK := 2147483647 (only parsing).
Abbreviation ORPHAN_REASON_NO_PENDING := 1 (only parsing).
Abbreviation FD_PATH_NESTED_MAX := 4 (only parsing).

(** ** Fixed-size fields *)

(** A [u64 args[6]] member. *)
Record args6 := Args { arg0 : Z; arg1 : Z; arg2 : Z; arg3 : Z; arg4 : Z; arg5 : Z }.

(** [args[i]] for an index the sources keep below six. *)
Definition arg (a : args6) (i : Z) : Z :=
  if i =? 0 then arg0 a else if i =? 1 then arg1 a else if i =? 2 then arg2 a
  else if i =? 3 then arg3 a else if i =? 4 then arg4 a else arg5 a.

(** The arguments as six [u64] values. *)
Definition args_u64 (a : args6) : args6 :=
  Args (u64 (arg0 a)) (u64 (arg1 a)) (u64 (arg2 a)) (u64 (arg3 a)) (u64 (arg4 a)) (u64 (arg5 a)).

Definition args6_bytes (a : args6) : list Z :=
  le_bytes 8 (arg0 a) ++ le_bytes 8 (arg1 a) ++ le_bytes 8 (arg2 a) ++
  le_bytes 8 (arg3 a) ++ le_bytes 8 (arg4 a) ++ le_bytes 8 (arg5 a).

(** A [char x[n]] or [u8 x[n]] member that holds [l]. *)
Definition fixed (n : nat) (l : list Z) : list Z := take n (l ++ replicate n 0).

Lemma length_fixed n l : length (fixed n l) = n.
Proof. unfold fixed. rewrite length_take, length_app, length_replicate. lia. Qed.

Lemma zlen_fixed n l : zlen (fixed n l) = Z.of_nat n.
Proof. unfold zlen. by rewrite length_fixed. Qed.

Lemma zlen_args6_bytes a : zlen (args6_bytes a) = 48.
Proof. unfold args6_bytes. by autorewrite with zlen. Qed.

#[export] Hint Rewrite zlen_fixed zlen_args6_bytes : zlen.

(** ** Event records ([runtime_abi.h]) *)

Record event_v2_header := EventHeader {
  h_version : Z; h_event_type : Z; h_flags : Z; h_header_len : Z;
  h_size : Z; h_pid : Z; h_tid : Z; h_sys_id : Z; h_seq : Z; h_ts_ns : Z;
  h_comm : list Z; h_cpu : Z; h_reserved : Z; h_loss_epoch : Z; h_loss_time_ns : Z }.

Definition event_v2_header_fields (h : event_v2_header) : list (list Z) :=
  [le_bytes 2 (h_version h); le_bytes 2 (h_event_type h); le_bytes 2 (h_flags h);
   le_bytes 2 (h_header_len h); le_bytes 4 (h_size h); le_bytes 4 (h_pid h);
   le_bytes 4 (h_tid h); le_bytes 4 (h_sys_id h); le_bytes 8 (h_seq h);
   le_bytes 8 (h_ts_ns h); fixed 16 (h_comm h); le_bytes 4 (h_cpu h);
   le_bytes 4 (h_reserved h); le_bytes 8 (h_loss_epoch h); le_bytes 8 (h_loss_time_ns h)].

Record syscall_enter_event_v2 := EnterBody {
  en_ret : Z; en_probe_ret_enter : Z; en_probe_ret_exit : Z; en_args : args6;
  en_capture_len : Z; en_capture_flags : Z }.

Definition syscall_enter_event_v2_fields (b : syscall_enter_event_v2) : list (list Z) :=
  [le_bytes 8 (en_ret b); le_bytes 4 (en_probe_ret_enter b); le_bytes 4 (en_probe_ret_exit b);
   args6_bytes (en_args b); le_bytes 4 (en_capture_len b); le_bytes 4 (en_capture_flags b)].

Definition syscall_compact_enter_event_v2_fields (a : args6) : list (list Z) :=
  [args6_bytes a].

Record syscall_exit_event_v2 := ExitBody {
  ex_ret : Z; ex_duration_ns : Z; ex_args : args6; ex_capture_len : Z;
  ex_capture_flags : Z; ex_stack_id : Z; ex_reserved : Z; ex_cpu_duration_ns : Z }.

Definition syscall_exit_event_v2_fields (b : syscall_exit_event_v2) : list (list Z) :=
  [le_bytes 8 (ex_ret b); le_bytes 8 (ex_duration_ns b); args6_bytes (ex_args b);
   le_bytes 4 (ex_capture_len b); le_bytes 4 (ex_capture_flags b);
   le_bytes 4 (ex_stack_id b); le_bytes 4 (ex_reserved b); le_bytes 8 (ex_cpu_duration_ns b)].

Record lifecycle_event_v2 := LifecycleBody {
  lc_action : Z; lc_snapshot_len : Z; lc_args : args6 }.

Definition lifecycle_event_v2_fields (b : lifecycle_event_v2) : list (list Z) :=
  [le_bytes 4 (lc_action b); le_bytes 4 (lc_snapshot_len b); args6_bytes (lc_args b)].

Record signal_event_v2 := SignalBody {
  sg_signo : Z; sg_error : Z; sg_code : Z; sg_sender_pid : Z; sg_sender_uid : Z;
  sg_stack_id : Z; sg_address : Z; sg_child_status : Z; sg_reserved : Z;
  sg_child_user_time : Z; sg_child_system_time : Z }.

Definition signal_event_v2_fields (b : signal_event_v2) : list (list Z) :=
  [le_bytes 4 (sg_signo b); le_bytes 4 (sg_error b); le_bytes 4 (sg_code b);
   le_bytes 4 (sg_sender_pid b); le_bytes 4 (sg_sender_uid b); le_bytes 4 (sg_stack_id b);
   le_bytes 8 (sg_address b); le_bytes 4 (sg_child_status b); le_bytes 4 (sg_reserved b);
   le_bytes 8 (sg_child_user_time b); le_bytes 8 (sg_child_system_time b)].

(** ** Payload structures ([payload_tlv.h], [runtime_abi.h]) *)

Record payload_tlv_header := TlvHeader {
  t_kind : Z; t_arg_index : Z; t_flags : Z; t_user_len : Z; t_copied_len : Z;
  t_probe_ret : Z; t_user_ptr : Z }.

(** [reserved] and [reserved2] are zero in every initialised header. *)
Definition payload_tlv_header_fields (t : payload_tlv_header) : list (list Z) :=
  [le_bytes 2 (t_kind t); le_bytes 2 (t_arg_index t); le_bytes 2 (t_flags t); le_bytes 2 0;
   le_bytes 4 (t_user_len t); le_bytes 4 (t_copied_len t); le_bytes 4 (t_probe_ret t);
   le_bytes 4 0; le_bytes 8 (t_user_ptr t)].

Record fd_state_snapshot := FdStateSnapshot {
  fs_fd : Z; fs_flags : Z; fs_mode : Z; fs_dev : Z; fs_rdev : Z; fs_inode : Z; fs_offset : Z }.

Definition fd_state_snapshot_fields (s : fd_state_snapshot) : list (list Z) :=
  [le_bytes 4 (fs_fd s); le_bytes 4 (fs_flags s); le_bytes 4 (fs_mode s); le_bytes 4 0;
   le_bytes 8 (fs_dev s); le_bytes 8 (fs_rdev s); le_bytes 8 (fs_inode s);
   le_bytes 8 (fs_offset s)].

Record eventfd_state_snapshot := EventfdStateSnapshot {
  ev_count : Z; ev_id : Z; ev_semaphore : Z }.

Definition eventfd_state_snapshot_fields (s : eventfd_state_snapshot) : list (list Z) :=
  [le_bytes 8 (ev_count s); le_bytes 4 (ev_id s); le_bytes 4 (ev_semaphore s)].

Record namespace_snapshot := NamespaceSnapshot {
  ns_flags : Z; ns_cgroup : Z; ns_ipc : Z; ns_mnt : Z; ns_net : Z; ns_pid : Z; ns_time : Z;
  ns_uts : Z; ns_user : Z }.

Definition empty_namespace_snapshot : namespace_snapshot :=
  NamespaceSnapshot 0 0 0 0 0 0 0 0 0.

Record exec_snapshot_header := ExecSnapshotHeader {
  xs_magic : Z; xs_argv_count : Z; xs_env_count : Z; xs_argv_status : Z; xs_env_status : Z;
  xs_argv_next : Z; xs_env_next : Z }.

Definition exec_snapshot_header_fields (h : exec_snapshot_header) : list (list Z) :=
  [le_bytes 4 (xs_magic h); le_bytes 2 (xs_argv_count h); le_bytes 2 (xs_env_count h);
   le_bytes 4 (xs_argv_status h); le_bytes 4 (xs_env_status h); le_bytes 8 (xs_argv_next h);
   le_bytes 8 (xs_env_next h)].

Record exec_arg_snapshot := ExecArgSnapshot { xa_ptr : Z; xa_len : Z; xa_data : list Z }.

Definition exec_arg_snapshot_fields (a : exec_arg_snapshot) : list (list Z) :=
  [le_bytes 8 (xa_ptr a); le_bytes 4 (xa_len a); fixed 50 (xa_data a); le_bytes 2 0].

(** The bytes of a structure. *)
Abbreviation struct_bytes fields := (concat fields) (only parsing).

(** [sizeof(struct exec_snapshot_header)], [sizeof(struct exec_arg_snapshot)] and
    [sizeof(struct exec_snapshot)]. *)
Abbreviation EXEC_SNAPSHOT_HEADER_SIZE := 32 (only parsing).
Abbreviation EXEC_ARG_SNAPSHOT_SIZE := 64 (only parsing).
Abbreviation EXEC_SNAPSHOT_SIZE := 7200 (only parsing).

(** ** Layout ([_Static_assert]s of [runtime_abi.h] and [payload_tlv.h]) *)

(** [offsetof] the [i]-th member. *)
Definition field_offset (fs : list (list Z)) (i : nat) : Z := zlen (concat (take i fs)).

Ltac layout := unfold field_offset; cbn [take concat]; rewrite ?app_nil_r;
  autorewrite with zlen; rewrite ?zlen_fixed, ?zlen_args6_bytes; try reflexivity.

Lemma event_v2_header_size h : zlen (concat (event_v2_header_fields h)) = EVENT_V2_HEADER_LEN.
Proof. unfold event_v2_header_fields. layout. Qed.
Lemma enter_body_size b : zlen (concat (syscall_enter_event_v2_fields b)) = EVENT_V2_ENTER_BODY_LEN.
Proof. unfold syscall_enter_event_v2_fields. layout. Qed.
Lemma compact_enter_body_size a :
  zlen (concat (syscall_compact_enter_event_v2_fields a)) = EVENT_V2_COMPACT_ENTER_BODY_LEN.
Proof. unfold syscall_compact_enter_event_v2_fields. layout. Qed.
Lemma exit_body_size b : zlen (concat (syscall_exit_event_v2_fields b)) = EVENT_V2_EXIT_BODY_LEN.
Proof. unfold syscall_exit_event_v2_fields. layout. Qed.
Lemma lifecycle_body_size b :
  zlen (concat (lifecycle_event_v2_fields b)) = EVENT_V2_LIFECYCLE_BODY_LEN.
Proof. unfold lifecycle_event_v2_fields. layout. Qed.
Lemma signal_body_size b : zlen (concat (signal_event_v2_fields b)) = EVENT_V2_SIGNAL_BODY_LEN.
Proof. unfold signal_event_v2_fields. layout. Qed.
Lemma payload_tlv_header_size t :
  zlen (concat (payload_tlv_header_fields t)) = PAYLOAD_TLV_HEADER_SIZE.
Proof. unfold payload_tlv_header_fields. layout. Qed.
Lemma fd_state_snapshot_size s :
  zlen (concat (fd_state_snapshot_fields s)) = FD_STATE_SNAPSHOT_SIZE.
Proof. unfold fd_state_snapshot_fields. layout. Qed.
Lemma eventfd_state_snapshot_size s :
  zlen (concat (eventfd_state_snapshot_fields s)) = EVENTFD_STATE_SNAPSHOT_SIZE.
Proof. unfold eventfd_state_snapshot_fields. layout. Qed.
Lemma exec_snapshot_header_size h :
  zlen (concat (exec_snapshot_header_fields h)) = EXEC_SNAPSHOT_HEADER_SIZE.
Proof. unfold exec_snapshot_header_fields. layout. Qed.
Lemma exec_arg_snapshot_size a :
  zlen (concat (exec_arg_snapshot_fields a)) = EXEC_ARG_SNAPSHOT_SIZE.
Proof. unfold exec_arg_snapshot_fields. layout. Qed.

#[export] Hint Rewrite event_v2_header_size enter_body_size compact_enter_body_size
  exit_body_size lifecycle_body_size signal_body_size payload_tlv_header_size
  fd_state_snapshot_size eventfd_state_snapshot_size exec_snapshot_header_size
  exec_arg_snapshot_size : zlen.

(** Every [_Static_assert] on a member offset of [struct event_v2_header],
    [struct syscall_enter_event_v2], [struct syscall_exit_event_v2],
    [struct lifecycle_event_v2] and [struct signal_event_v2]. *)
Lemma layout_offsets_ok h en ex lc sg :
  map (field_offset (event_v2_header_fields h)) [0; 1; 2; 3; 4; 5; 6; 7; 8; 9; 10; 11; 13; 14]%nat =
    [EVENT_V2_HEADER_VERSION_OFFSET; EVENT_V2_HEADER_EVENT_TYPE_OFFSET;
     EVENT_V2_HEADER_FLAGS_OFFSET; EVENT_V2_HEADER_LEN_OFFSET; EVENT_V2_HEADER_SIZE_OFFSET;
     EVENT_V2_HEADER_PID_OFFSET; EVENT_V2_HEADER_TID_OFFSET; EVENT_V2_HEADER_SYS_ID_OFFSET;
     EVENT_V2_HEADER_SEQ_OFFSET; EVENT_V2_HEADER_TS_NS_OFFSET; EVENT_V2_HEADER_COMM_OFFSET;
     EVENT_V2_HEADER_CPU_OFFSET; EVENT_V2_HEADER_LOSS_EPOCH_OFFSET;
     EVENT_V2_HEADER_LOSS_TIME_OFFSET] /\
  map (field_offset (syscall_enter_event_v2_fields en)) [0; 1; 2; 3; 4; 5]%nat =
    [EVENT_V2_ENTER_RET_OFFSET; EVENT_V2_ENTER_PROBE_RET_ENTER_OFFSET;
     EVENT_V2_ENTER_PROBE_RET_EXIT_OFFSET; EVENT_V2_ENTER_ARGS_OFFSET;
     EVENT_V2_ENTER_CAPTURE_LEN_OFFSET; EVENT_V2_ENTER_CAPTURE_FLAGS_OFFSET] /\
  map (field_offset (syscall_exit_event_v2_fields ex)) [0; 1; 2; 3; 4; 5; 6; 7]%nat =
    [EVENT_V2_EXIT_RET_OFFSET; EVENT_V2_EXIT_DURATION_OFFSET; EVENT_V2_EXIT_ARGS_OFFSET;
     EVENT_V2_EXIT_CAPTURE_LEN_OFFSET; EVENT_V2_EXIT_CAPTURE_FLAGS_OFFSET;
     EVENT_V2_EXIT_STACK_ID_OFFSET; EVENT_V2_EXIT_RESERVED_OFFSET;
     EVENT_V2_EXIT_CPU_DURATION_OFFSET] /\
  map (field_offset (lifecycle_event_v2_fields lc)) [0; 1; 2]%nat =
    [EVENT_V2_LIFECYCLE_ACTION_OFFSET; EVENT_V2_LIFECYCLE_SNAPSHOT_LEN_OFFSET;
     EVENT_V2_LIFECYCLE_ARGS_OFFSET] /\
  map (field_offset (signal_event_v2_fields sg)) [0; 1; 2; 3; 4; 5; 6; 7; 9; 10]%nat =
    [EVENT_V2_SIGNAL_NUMBER_OFFSET; EVENT_V2_SIGNAL_ERRNO_OFFSET; EVENT_V2_SIGNAL_CODE_OFFSET;
     EVENT_V2_SIGNAL_SENDER_PID_OFFSET; EVENT_V2_SIGNAL_SENDER_UID_OFFSET;
     EVENT_V2_SIGNAL_STACK_ID_OFFSET; EVENT_V2_SIGNAL_ADDRESS_OFFSET;
     EVENT_V2_SIGNAL_CHILD_STATUS_OFFSET; EVENT_V2_SIGNAL_CHILD_USER_TIME_OFFSET;
     EVENT_V2_SIGNAL_CHILD_SYSTEM_TIME_OFFSET].
Proof.
  unfold event_v2_header_fields, syscall_enter_event_v2_fields, syscall_exit_event_v2_fields,
    lifecycle_event_v2_fields, signal_event_v2_fields, map.
  repeat split; layout.
Qed.

(** Reading member [i] back from the bytes of a structure. *)
Lemma read_field (bytes : list Z) fs i off n f :
  bytes = concat fs -> fs !! i = Some f -> field_offset fs i = off -> zlen f = n ->
  slice bytes off n = f.
Proof. intros -> E <- <-. by eapply slice_concat. Qed.
