(* ===== verification/Kernel.v ===== *)
(** The machine the BPF programs run on.

    [world] is the state shared by all programs of [bpf/]: the BPF maps that
    [bpf/runtime_abi.h] declares, the task storage with the pending syscall of
    each task, the per-CPU statistics, and the ring buffer.  [Kernel] is the
    parameter that stands for the kernel: everything a helper reports that the
    programs cannot influence (clocks, user and kernel memory, whether a map
    update or a reservation succeeds).  Each of its answers depends on the number of
    helper calls made so far, so that nothing is assumed to be stable between
    two calls.

    The helpers below give the documented effect of each BPF helper on
    [world]; a pointer a helper returns into a map value is modelled by the
    value it points to. *)
From stdpp Require Import base list gmap numbers.
From S2P Require Import Prelude Syscalls Abi.

(** ** Map values ([runtime_abi.h]) *)

Record pending_syscall := PendingSyscall {
  p_enter_time : Z; p_cpu_enter_time : Z; p_args : args6; p_pid : Z; p_sys_id : Z;
  p_tid : Z; p_stack_id : Z }.

Record pending_task_state := PendingTaskState {
  s_syscall : pending_syscall; s_namespace_snapshot : namespace_snapshot;
  s_aux0 : Z; s_valid : Z }.

Record pid_namespace_config := PidNamespaceConfig {
  pn_nonce : Z; pn_level : Z; pn_inum : Z; pn_ready : Z }.

(** The members of [struct bpf_stats]; the structure is a function from its members. *)
Inductive stat : Type :=
  | ringbuf_reserve_fail | ringbuf_copy_fail | payload_truncated_events
  | pending_update_fail | orphan_exit | orphan_first_pid | orphan_first_tid
  | orphan_first_sys_id | orphan_first_ret | orphan_first_reason | orphan_first_time_ns
  | orphan_last_pid | orphan_last_tid | orphan_last_sys_id | orphan_last_ret
  | orphan_last_reason | orphan_last_time_ns | pending_mismatch | lifecycle_map_update_fail
  | lifecycle_fork_seen | lifecycle_fork_parent_tracked | lifecycle_fork_parent_untracked
  | lifecycle_fork_child_filter_installed | lifecycle_fork_child_filter_failed
  | lifecycle_exec_seen | lifecycle_exec_untracked | lifecycle_exit_seen
  | lifecycle_exit_untracked | event_seq | integrity_first_time_ns.

#[export] Instance stat_eq_dec : EqDecision stat.
Proof. solve_decision. Defined.

Abbreviation bpf_stats := (stat -> Z).

Definition stat_set (s : bpf_stats) (f : stat) (v : Z) : bpf_stats :=
  fun g => if decide (g = f) then v else s g.

(** [stats->f++] on a [u64] member. *)
Definition stat_incr (s : bpf_stats) (f : stat) : bpf_stats := stat_set s f (u64 (s f + 1)).

Record event_loss_state := EventLossState { l_epoch : Z; l_first_time_ns : Z }.

Record fd_path_scratch := FdPathScratch {
  sc_name : list Z; sc_components : list Z; sc_args : args6; sc_nested_fdset : list Z;
  sc_nested_fd0 : Z; sc_nested_fd1 : Z; sc_nested_fd2 : Z; sc_nested_fd3 : Z;
  sc_nested_fd_count : Z }.

(** ** Maps *)

(** The maps whose values are integers, and the program arrays, whose values
    are program indices of [capture_manifest_generated.h]. *)
Inductive map_id : Type :=
  | enter_routes | exit_routes | enter_progs | exit_progs
  | pending_stack_map | filter_map | attach_exited_map | attach_roots_map
  | pending_fork_flags_map | unknown_children_map | syscall_filter_map
  | plain_enter_elide_map | arm_fork_map | config_map | pending_exec_map | main_exited_map
  | runtime_meta_map | mmsg_bytes_progs | recvmsg_progs.

#[export] Instance map_id_eq_dec : EqDecision map_id.
Proof. solve_decision. Defined.

Definition map_set (ms : map_id -> gmap Z Z) (m : map_id) (v : gmap Z Z) : map_id -> gmap Z Z :=
  fun m' => if decide (m' = m) then v else ms m'.

(** ** State *)

(** The task and CPU a program runs on; fixed while the program runs. *)
Record exec_ctx := ExecCtx { cur_pid_tgid : Z; cur_task : Z; cur_cpu : Z }.

Record world := World {
  calls : nat;
  running : exec_ctx;
  maps : map_id -> gmap Z Z;
  tasks : gmap Z pending_task_state;
  pidns : gmap Z pid_namespace_config;
  stats : gmap Z bpf_stats;
  loss : gmap Z event_loss_state;
  scratch : gmap Z fd_path_scratch;
  reserved : gmap nat (list Z);
  submitted : list (list Z) }.

Definition set_calls (n : nat) (w : world) : world :=
  World n (running w) (maps w) (tasks w) (pidns w) (stats w) (loss w) (scratch w)
    (reserved w) (submitted w).
Definition set_running (r : exec_ctx) (w : world) : world :=
  World (calls w) r (maps w) (tasks w) (pidns w) (stats w) (loss w) (scratch w)
    (reserved w) (submitted w).
Definition set_maps (m : map_id -> gmap Z Z) (w : world) : world :=
  World (calls w) (running w) m (tasks w) (pidns w) (stats w) (loss w) (scratch w)
    (reserved w) (submitted w).
Definition set_tasks (t : gmap Z pending_task_state) (w : world) : world :=
  World (calls w) (running w) (maps w) t (pidns w) (stats w) (loss w) (scratch w)
    (reserved w) (submitted w).
Definition set_pidns (p : gmap Z pid_namespace_config) (w : world) : world :=
  World (calls w) (running w) (maps w) (tasks w) p (stats w) (loss w) (scratch w)
    (reserved w) (submitted w).
Definition set_stats (s : gmap Z bpf_stats) (w : world) : world :=
  World (calls w) (running w) (maps w) (tasks w) (pidns w) s (loss w) (scratch w)
    (reserved w) (submitted w).
Definition set_loss (l : gmap Z event_loss_state) (w : world) : world :=
  World (calls w) (running w) (maps w) (tasks w) (pidns w) (stats w) l (scratch w)
    (reserved w) (submitted w).
Definition set_scratch (s : gmap Z fd_path_scratch) (w : world) : world :=
  World (calls w) (running w) (maps w) (tasks w) (pidns w) (stats w) (loss w) s
    (reserved w) (submitted w).
Definition set_ring (r : gmap nat (list Z)) (s : list (list Z)) (w : world) : world :=
  World (calls w) (running w) (maps w) (tasks w) (pidns w) (stats w) (loss w) (scratch w) r s.

(** ** The kernel *)

(** Members of kernel structures that the programs read with [BPF_CORE_READ]
    or [bpf_probe_read_kernel]. *)
Inductive kfield : Type :=
  | task_thread_info_status | task_thread_info_flags | task_se_sum_exec_runtime
  | task_files | task_fs | task_exit_code | task_tgid | task_pid | task_thread_pid
  | task_signal_nr_threads
  | files_fdt | fdt_max_fds | fdt_fd | fd_array_entry (fd : Z)
  | file_f_inode | file_f_pos | file_private_data | file_f_path_dentry | file_f_path_mnt
  | fs_pwd_dentry | fs_pwd_mnt
  | inode_i_sb | inode_i_mode | inode_i_rdev | inode_i_ino | super_s_dev
  | eventfd_flags | eventfd_count | eventfd_id
  | bpf_map_map_type | bpf_map_key_size | bpf_map_value_size
  | dentry_d_parent | dentry_d_name_name | dentry_d_name_len
  | vfsmount_mnt_root | mount_mnt_parent | mount_mnt_mountpoint
  | siginfo_si_errno | siginfo_si_code | siginfo_kill_pid | siginfo_kill_uid
  | siginfo_sigfault_addr | siginfo_sigchld_status | siginfo_sigchld_utime
  | siginfo_sigchld_stime
  | pid_level | upid_nr (level : Z) | upid_ns (level : Z) | ns_inum
  | task_group_leader | task_nsproxy | task_cred | cred_user_ns
  | nsproxy_cgroup_ns | nsproxy_ipc_ns | nsproxy_mnt_ns | nsproxy_net_ns | nsproxy_time_ns
  | nsproxy_uts_ns
  | pt_regs_ax | pt_regs_regs0.

Class Kernel : Type := {
  (** [bpf_ktime_get_ns]. *)
  k_ktime : nat -> Z;
  (** Whether [bpf_map_update_elem] succeeds. *)
  k_update_ok : nat -> bool;
  (** Whether [bpf_task_storage_get] can create a missing value. *)
  k_storage_ok : nat -> bool;
  (** Whether the ring buffer has room for [size] bytes. *)
  k_reserve_ok : nat -> Z -> bool;
  (** [false] when a dynptr access is refused for a reason other than its bounds. *)
  k_dynptr_ok : nat -> bool;
  (** What a freshly reserved record contains. *)
  k_ring_byte : nat -> nat -> Z;
  (** Reads of user memory: an error code (negative) or the byte at an address. *)
  k_user_err : nat -> Z -> Z;
  k_user_byte : nat -> Z -> Z;
  (** Reads of kernel memory, raw bytes and structure members. *)
  k_kernel_err : nat -> Z -> Z;
  k_kernel_byte : nat -> Z -> Z;
  k_field_err : nat -> kfield -> Z -> Z;
  k_field : nat -> kfield -> Z -> Z;
  (** [bpf_core_field_offset(struct mount, mnt)]. *)
  k_mount_mnt_offset : Z;
  (** [bpf_get_stackid] and [bpf_get_current_comm]. *)
  k_stackid : nat -> Z;
  k_comm : nat -> list Z;
  (** Whether a tail call to a present program is taken (the kernel bounds the chain). *)
  k_tail_ok : nat -> bool }.

(** A BPF program or helper. *)
Abbreviation prog A := (st world A).

Section Helpers.
Context {K : Kernel}.

(** The index of the current helper call, for the kernel's answers. *)
Definition tick : prog nat := fun w => (calls w, set_calls (Datatypes.S (calls w)) w).

Definition bpf_get_current_pid_tgid : prog Z := gets (fun w => cur_pid_tgid (running w)).
Definition bpf_get_current_task : prog Z := gets (fun w => cur_task (running w)).
Definition bpf_get_smp_processor_id : prog Z := gets (fun w => cur_cpu (running w)).

Definition bpf_ktime_get_ns : prog Z := let* n := tick in ret (u64 (k_ktime n)).
Definition bpf_get_stackid : prog Z := let* n := tick in ret (s32 (k_stackid n)).
Definition bpf_get_current_comm : prog (list Z) :=
  let* n := tick in ret (fixed 16 (map u8 (k_comm n))).

(** *** Maps *)
Definition bpf_map_lookup_elem (m : map_id) (k : Z) : prog (option Z) :=
  gets (fun w => maps w m !! k).
Definition bpf_map_update_elem (m : map_id) (k v : Z) : prog Z :=
  let* n := tick in
  if k_update_ok n then
    modify (fun w => set_maps (map_set (maps w) m (<[k := v]> (maps w m))) w) ;;;
    ret 0
  else ret (-1).
Definition bpf_map_delete_elem (m : map_id) (k : Z) : prog unit :=
  modify (fun w => set_maps (map_set (maps w) m (delete k (maps w m))) w).

(** *** Memory *)
Definition user_bytes (n : nat) (addr len : Z) : list Z :=
  map (fun i => u8 (k_user_byte n (addr + Z.of_nat i))) (seq 0 (Z.to_nat len)).
Definition kernel_bytes (n : nat) (addr len : Z) : list Z :=
  map (fun i => u8 (k_kernel_byte n (addr + Z.of_nat i))) (seq 0 (Z.to_nat len)).

(** The bytes of a string before its terminator. *)
Fixpoint until_nul (l : list Z) : list Z :=
  match l with
  | [] => []
  | b :: l' => if b =? 0 then [] else b :: until_nul l'
  end.

(** [bpf_probe_read_user(dst, size, src)]: 0 and the bytes, or a negative
    error and [size] zero bytes. *)
Definition bpf_probe_read_user (size addr : Z) : prog (Z * list Z) :=
  let* n := tick in
  if k_user_err n addr <? 0 then ret (k_user_err n addr, replicate (Z.to_nat size) 0)
  else ret (0, user_bytes n addr size).

(** [bpf_probe_read_user_str(dst, size, src)]: the length of the copied
    string with its terminator, or a negative error and a zeroed buffer. *)
Definition bpf_probe_read_user_str (size addr : Z) : prog (Z * list Z) :=
  let* n := tick in
  if k_user_err n addr <? 0 then ret (k_user_err n addr, replicate (Z.to_nat size) 0)
  else
    let s := until_nul (user_bytes n addr (size - 1)) ++ [0] in
    ret (zlen s, s).

Definition bpf_probe_read_kernel (size addr : Z) : prog (Z * list Z) :=
  let* n := tick in
  if k_kernel_err n addr <? 0 then ret (k_kernel_err n addr, replicate (Z.to_nat size) 0)
  else ret (0, kernel_bytes n addr size).

Definition bpf_probe_read_kernel_str (size addr : Z) : prog (Z * list Z) :=
  let* n := tick in
  if k_kernel_err n addr <? 0 then ret (k_kernel_err n addr, replicate (Z.to_nat size) 0)
  else
    let s := until_nul (kernel_bytes n addr (size - 1)) ++ [0] in
    ret (zlen s, s).

(** [BPF_CORE_READ(ptr, f)]: the member, or zero when the read faults. *)
Definition bpf_core_read (f : kfield) (ptr : Z) : prog Z :=
  let* n := tick in
  if k_field_err n f ptr <? 0 then ret 0 else ret (k_field n f ptr).

(** [BPF_CORE_READ_INTO] and [bpf_probe_read_kernel] of one member: the
    return code and the member. *)
Definition bpf_core_read_into (f : kfield) (ptr : Z) : prog (Z * Z) :=
  let* n := tick in
  if k_field_err n f ptr <? 0 then ret (k_field_err n f ptr, 0) else ret (0, k_field n f ptr).

(** One read of a structure with two members of interest ([struct path],
    [struct qstr], [struct upid]): the return code and both members. *)
Definition bpf_core_read_pair (f g : kfield) (ptr : Z) : prog (Z * Z * Z) :=
  let* n := tick in
  if k_field_err n f ptr <? 0 then ret (k_field_err n f ptr, 0, 0)
  else ret (0, k_field n f ptr, k_field n g ptr).

(** *** Ring buffer and dynptrs *)

(** A dynptr: a live reservation, or the null dynptr of a failed one. *)
Definition dynptr : Type := option nat.

Definition reserve_id (w : world) : nat := fresh (dom (reserved w)).

Definition bpf_ringbuf_reserve_dynptr (size : Z) : prog (Z * dynptr) :=
  let* n := tick in
  if k_reserve_ok n size then
    let* d := gets reserve_id in
    modify (fun w => set_ring
      (<[d := map (fun i => u8 (k_ring_byte n i)) (seq 0 (Z.to_nat size))]> (reserved w))
      (submitted w) w) ;;;
    ret (0, Some d)
  else ret (-1, None).

Definition bpf_ringbuf_discard_dynptr (p : dynptr) : prog unit :=
  match p with
  | None => ret tt
  | Some d => modify (fun w => set_ring (delete d (reserved w)) (submitted w) w)
  end.

Definition bpf_ringbuf_submit_dynptr (p : dynptr) : prog unit :=
  match p with
  | None => ret tt
  | Some d => modify (fun w =>
      match reserved w !! d with
      | Some buf => set_ring (delete d (reserved w)) (submitted w ++ [buf]) w
      | None => w
      end)
  end.

(** [-E2BIG] outside the record, [-EINVAL] for a null dynptr. *)
Definition bpf_dynptr_write (p : dynptr) (off : Z) (bytes : list Z) : prog Z :=
  let* n := tick in
  match p with
  | None => ret (-22)
  | Some d =>
      let* r := gets (fun w => reserved w !! d) in
      match r with
      | None => ret (-22)
      | Some buf =>
          if k_dynptr_ok n && (off + zlen bytes <=? zlen buf) then
            modify (fun w => set_ring (<[d := put buf off bytes]> (reserved w)) (submitted w) w) ;;;
            ret 0
          else ret (-7)
      end
  end.

(** [bpf_dynptr_data]: a pointer to [len] bytes of the record at [off], or null. *)
Definition bpf_dynptr_data (p : dynptr) (off len : Z) : prog (option (nat * Z)) :=
  let* n := tick in
  match p with
  | None => ret None
  | Some d =>
      let* r := gets (fun w => reserved w !! d) in
      match r with
      | None => ret None
      | Some buf =>
          if k_dynptr_ok n && (off + len <=? zlen buf) then ret (Some (d, off)) else ret None
      end
  end.

(** A store through a pointer returned by [bpf_dynptr_data]. *)
Definition data_store (ptr : nat * Z) (bytes : list Z) : prog unit :=
  modify (fun w =>
    match reserved w !! fst ptr with
    | Some buf => set_ring (<[fst ptr := put buf (snd ptr) bytes]> (reserved w)) (submitted w) w
    | None => w
    end).

(** [bpf_probe_read_user*(data, ...)] and [bpf_probe_read_kernel_str(data, ...)]
    with a destination inside a record. *)
Definition read_user_into (ptr : nat * Z) (size addr : Z) : prog Z :=
  let* (err, bytes) := bpf_probe_read_user size addr in
  data_store ptr bytes ;;;
  ret err.
Definition read_user_str_into (ptr : nat * Z) (size addr : Z) : prog Z :=
  let* (n, bytes) := bpf_probe_read_user_str size addr in
  data_store ptr bytes ;;;
  ret n.
Definition read_kernel_str_into (ptr : nat * Z) (size addr : Z) : prog Z :=
  let* (n, bytes) := bpf_probe_read_kernel_str size addr in
  data_store ptr bytes ;;;
  ret n.

(** [bpf_ringbuf_reserve] / [bpf_ringbuf_submit]: a reservation written
    through a pointer; the whole record is stored before it is submitted. *)
Definition bpf_ringbuf_output (bytes : list Z) : prog Z :=
  let* n := tick in
  if k_reserve_ok n (zlen bytes) then
    modify (fun w => set_ring (reserved w) (submitted w ++ [bytes]) w) ;;;
    ret 0
  else ret (-1).

(** *** Task storage *)
Definition bpf_task_storage_get (task : Z) : prog (option pending_task_state) :=
  gets (fun w => tasks w !! task).
Definition task_storage_put (task : Z) (s : pending_task_state) : prog unit :=
  modify (fun w => set_tasks (<[task := s]> (tasks w)) w).
(** With [BPF_LOCAL_STORAGE_GET_F_CREATE]: an existing value, or a zeroed
    one when the kernel can allocate it. *)
Definition bpf_task_storage_get_create (task : Z) : prog (option pending_task_state) :=
  let* n := tick in
  let* r := gets (fun w => tasks w !! task) in
  match r with
  | Some s => ret (Some s)
  | None =>
      if k_storage_ok n then
        let z := PendingTaskState (PendingSyscall 0 0 (Args 0 0 0 0 0 0) 0 0 0 0)
                   empty_namespace_snapshot 0 0 in
        task_storage_put task z ;;;
        ret (Some z)
      else ret None
  end.

(** *** Tail calls *)
(** [bpf_tail_call(ctx, m, k)]: [Some] program when the call is taken; the
    caller then does not continue. *)
Definition bpf_tail_call (m : map_id) (k : Z) : prog (option Z) :=
  let* n := tick in
  let* r := bpf_map_lookup_elem m k in
  ret (if k_tail_ok n then r else None).
End Helpers.
