(* ===== verification/Consumer.v ===== *)
(** The consumer of the ring buffer.

    Models the decoder of the Go side: the payload sections of
    [cmd/strace-go/event_payload_tlv.go], and the event header and the
    envelopes of [cmd/strace-go/trace_event_v2_decoder.go].  The lemmas say
    what it reads from the bytes of a section, a header and each kind of body;
    the producers are measured against it. *)
From stdpp Require Import base list gmap numbers.
From S2P Require Import Prelude Syscalls Abi Kernel.

(** ** The consumer: [event_payload_tlv.go] *)

Inductive PayloadKind : Type :=
  | PayloadKindString | PayloadKindBytes | PayloadKindStruct | PayloadKindIovec
  | PayloadKindSockaddr | PayloadKindExecArgs | PayloadKindCmsg | PayloadKindFDState
  | PayloadKindFDPath | PayloadKindEventFDState | PayloadKindNamespace
  | PayloadKindPIDNamespace.

Inductive PayloadDirection : Type := PayloadDirectionIn | PayloadDirectionOut.

Record PayloadSection := Section_ {
  Kind : PayloadKind; Direction : PayloadDirection; ArgIndex : Z; UserLen : Z;
  CopiedLen : Z; ProbeRet : Z; UserPtr : Z; Data : list Z }.

Definition payloadKindFromTLV (kind : Z) : option PayloadKind :=
  if kind =? PAYLOAD_TLV_KIND_STRING then Some PayloadKindString
  else if kind =? PAYLOAD_TLV_KIND_BYTES then Some PayloadKindBytes
  else if kind =? PAYLOAD_TLV_KIND_STRUCT then Some PayloadKindStruct
  else if kind =? PAYLOAD_TLV_KIND_IOVEC then Some PayloadKindIovec
  else if kind =? PAYLOAD_TLV_KIND_SOCKADDR then Some PayloadKindSockaddr
  else if kind =? PAYLOAD_TLV_KIND_EXEC_ARGS then Some PayloadKindExecArgs
  else if kind =? PAYLOAD_TLV_KIND_CMSG then Some PayloadKindCmsg
  else if kind =? PAYLOAD_TLV_KIND_FD_STATE then Some PayloadKindFDState
  else if kind =? PAYLOAD_TLV_KIND_FD_PATH then Some PayloadKindFDPath
  else if kind =? PAYLOAD_TLV_KIND_EVENTFD_STATE then Some PayloadKindEventFDState
  else if kind =? PAYLOAD_TLV_KIND_NAMESPACE then Some PayloadKindNamespace
  else if kind =? PAYLOAD_TLV_KIND_PID_NAMESPACE then Some PayloadKindPIDNamespace
  else None.

Definition payloadDirectionFromTLV (flags : Z) : PayloadDirection :=
  if has_flag flags PAYLOAD_TLV_FLAG_DIRECTION_OUT then PayloadDirectionOut
  else PayloadDirectionIn.

(** [binary.LittleEndian.UintN(data[off : off+n])]. *)
Definition le_at (data : list Z) (off n : Z) : Z := le_val (slice data off n).

(** One section and what follows it; the caller has checked that a header fits. *)
Definition decodePayloadTLVSection (data : list Z) : option (PayloadSection * list Z) :=
  match payloadKindFromTLV (le_at data 0 2) with
  | None => None
  | Some kind =>
      let copiedLen := le_at data 12 4 in
      if zlen data - PAYLOAD_TLV_HEADER_SIZE <? copiedLen then None
      else
        let totalLen := PAYLOAD_TLV_HEADER_SIZE + copiedLen in
        Some (Section_ kind (payloadDirectionFromTLV (le_at data 4 2)) (le_at data 2 2)
                (le_at data 8 4) copiedLen (s32 (le_at data 16 4)) (le_at data 24 8)
                (slice data PAYLOAD_TLV_HEADER_SIZE copiedLen),
              drop (Z.to_nat totalLen) data)
  end.

(** [decodePayloadTLVSectionsInto]; the loop consumes a header per iteration, so
    the length of the data bounds it. *)
Fixpoint decode_sections (fuel : nat) (data : list Z) : option (list PayloadSection) :=
  match data with
  | [] => Some []
  | _ =>
      match fuel with
      | O => None
      | S fuel' =>
          if zlen data <? PAYLOAD_TLV_HEADER_SIZE then None
          else
            match decodePayloadTLVSection data with
            | None => None
            | Some (section, next) => cons section <$> decode_sections fuel' next
            end
      end
  end.

Definition decodePayloadTLVSections (data : list Z) : option (list PayloadSection) :=
  decode_sections (length data) data.

(** *** The fuel is enough *)

Lemma decodePayloadTLVSection_shorter data s next :
  zlen data >= PAYLOAD_TLV_HEADER_SIZE -> decodePayloadTLVSection data = Some (s, next) ->
  (length next < length data)%nat.
Proof.
  unfold decodePayloadTLVSection, zlen. intros Hl H.
  destruct (payloadKindFromTLV _); [|done].
  destruct (_ <? _); [done|]. injection H as <- <-.
  pose proof (le_val_nonneg (slice data 12 4)). unfold le_at.
  rewrite length_drop. lia.
Qed.

Lemma decode_sections_fuel n m data :
  (length data <= n)%nat -> (length data <= m)%nat -> decode_sections n data = decode_sections m data.
Proof.
  revert m data. induction n as [|n IH]; intros m data Hn Hm.
  - destruct data; [|cbn in *; lia]. by destruct m.
  - destruct data as [|b data]; [by destruct m|]. destruct m as [|m]; [cbn in *; lia|].
    cbn [decode_sections].
    destruct (Z.ltb_spec (zlen (b :: data)) 32); [done|].
    destruct (decodePayloadTLVSection (b :: data)) as [[s next]|] eqn:E; [|done].
    apply decodePayloadTLVSection_shorter in E; [|lia].
    rewrite (IH m) by (cbn in *; lia). done.
Qed.

(** One step of the loop. *)
Lemma decodePayloadTLVSections_cons data s next :
  zlen data >= PAYLOAD_TLV_HEADER_SIZE -> decodePayloadTLVSection data = Some (s, next) ->
  decodePayloadTLVSections data = cons s <$> decodePayloadTLVSections next.
Proof.
  intros Hl E. unfold decodePayloadTLVSections.
  pose proof (decodePayloadTLVSection_shorter _ _ _ Hl E).
  destruct data as [|b data]; [cbn in *; lia|]. cbn [length decode_sections].
  destruct (Z.ltb_spec (zlen (b :: data)) 32); [lia|]. rewrite E.
  cbn in *. by rewrite (decode_sections_fuel (length data) (length next)) by lia.
Qed.

(** The section a header and its data stand for. *)
Definition section_of (t : payload_tlv_header) (kind : PayloadKind) (data : list Z) : PayloadSection :=
  Section_ kind (payloadDirectionFromTLV (u16 (t_flags t))) (u16 (t_arg_index t))
    (u32 (t_user_len t)) (u32 (t_copied_len t)) (s32 (t_probe_ret t)) (u64 (t_user_ptr t)) data.

(** Decoding a section the producer wrote gives back what was written, whatever follows. *)
Lemma decode_written_section t kind data rest :
  payloadKindFromTLV (u16 (t_kind t)) = Some kind ->
  t_copied_len t = zlen data -> zlen data < 2 ^ 32 ->
  decodePayloadTLVSection (concat (payload_tlv_header_fields t) ++ data ++ rest) =
    Some (section_of t kind data, rest).
Proof.
  intros Hk Hc Hd. pose proof (payload_tlv_header_size t) as Hh.
  pose proof (zlen_nonneg data). pose proof (zlen_nonneg rest).
  assert (forall i off n nz z, nz = Z.of_nat n ->
    payload_tlv_header_fields t !! i = Some (le_bytes n z) ->
    field_offset (payload_tlv_header_fields t) i = off ->
    le_at (concat (payload_tlv_header_fields t) ++ data ++ rest) off nz
      = z mod 2 ^ (8 * Z.of_nat n)) as F.
  { intros i off n nz z -> E O. unfold le_at.
    rewrite <- (le_val_le_bytes n z). f_equal.
    erewrite <- (slice_concat (payload_tlv_header_fields t ++ [data ++ rest])).
    - by rewrite concat_app, concat_cons, app_nil_r.
    - by apply lookup_app_l_Some.
    - rewrite take_app_le; [by rewrite <- O | apply lookup_lt_Some in E; lia].
    - by rewrite zlen_le_bytes. }
  unfold decodePayloadTLVSection.
  rewrite (F 0%nat 0 2%nat 2 (t_kind t)) by (reflexivity || (unfold payload_tlv_header_fields; layout)).
  change (t_kind t mod _) with (u16 (t_kind t)). rewrite Hk.
  rewrite (F 5%nat 12 4%nat 4 (t_copied_len t)) by (reflexivity || (unfold payload_tlv_header_fields; layout)).
  rewrite (F 2%nat 4 2%nat 2 (t_flags t)) by (reflexivity || (unfold payload_tlv_header_fields; layout)).
  rewrite (F 1%nat 2 2%nat 2 (t_arg_index t)) by (reflexivity || (unfold payload_tlv_header_fields; layout)).
  rewrite (F 4%nat 8 4%nat 4 (t_user_len t)) by (reflexivity || (unfold payload_tlv_header_fields; layout)).
  rewrite (F 6%nat 16 4%nat 4 (t_probe_ret t)) by (reflexivity || (unfold payload_tlv_header_fields; layout)).
  rewrite (F 8%nat 24 8%nat 8 (t_user_ptr t)) by (reflexivity || (unfold payload_tlv_header_fields; layout)).
  change (t_copied_len t mod _) with (u32 (t_copied_len t)).
  rewrite Hc, u32_small by lia. rewrite !zlen_app, Hh.
  destruct (Z.ltb_spec (32 + (zlen data + zlen rest) - 32) (zlen data)); [lia|].
  unfold section_of. rewrite Hc, (u32_small (zlen data)) by lia. f_equal. f_equal.
  - f_equal; [by apply to_signed_mod|].
    unfold slice, zlen in *. rewrite drop_app_ge by lia.
    replace (_ - _)%nat with 0%nat by lia. rewrite drop_0, Nat2Z.id. apply take_app_length.
  - unfold zlen in *. rewrite drop_app_ge, drop_app_ge by lia.
    replace (_ - _)%nat with 0%nat by lia. apply drop_0.
Qed.

Lemma decode_written_sections t kind data rest secs :
  payloadKindFromTLV (u16 (t_kind t)) = Some kind ->
  t_copied_len t = zlen data -> zlen data < 2 ^ 32 ->
  decodePayloadTLVSections rest = Some secs ->
  decodePayloadTLVSections (concat (payload_tlv_header_fields t) ++ data ++ rest) =
    Some (section_of t kind data :: secs).
Proof.
  intros. erewrite decodePayloadTLVSections_cons; [|rewrite zlen_app, payload_tlv_header_size|
    by apply decode_written_section].
  - by rewrite H2.
  - pose proof (zlen_nonneg (data ++ rest)). lia.
Qed.

(** Decodable payloads concatenate. *)
Lemma decode_sections_app a b sa sb :
  decodePayloadTLVSections a = Some sa -> decodePayloadTLVSections b = Some sb ->
  decodePayloadTLVSections (a ++ b) = Some (sa ++ sb).
Proof.
  remember (length a) as n eqn:En. revert a sa En.
  induction (lt_wf n) as [n _ IH]. intros a sa -> Ha Hb.
  destruct a as [|x a]; [by injection Ha as <-|].
  unfold decodePayloadTLVSections in Ha. cbn [length decode_sections] in Ha.
  destruct (Z.ltb_spec (zlen (x :: a)) 32); [done|].
  destruct (decodePayloadTLVSection (x :: a)) as [[s next]|] eqn:E; [|done].
  pose proof (decodePayloadTLVSection_shorter (x :: a) s next ltac:(lia) E) as Hs.
  cbn [length] in Hs.
  rewrite (decode_sections_fuel (length a) (length next)) in Ha by lia.
  destruct (decode_sections (length next) next) as [ss|] eqn:Es; [|done].
  injection Ha as <-.
  assert (decodePayloadTLVSection ((x :: a) ++ b) = Some (s, next ++ b)) as E'.
  { revert E. unfold decodePayloadTLVSection, le_at.
    assert (forall o n, 0 <= o -> 0 <= n -> o + n <= zlen (x :: a) ->
      slice ((x :: a) ++ b) o n = slice (x :: a) o n) as F.
    { intros o n ? ? ?. eapply (slice_of_prefix _ _ (zlen (x :: a))); try lia.
      unfold zlen. rewrite Nat2Z.id, take_app_length. by rewrite firstn_all. }
    rewrite !F by (lia || (pose proof (le_val_nonneg []); lia)).
    destruct (payloadKindFromTLV _); [|done].
    pose proof (le_val_nonneg (slice (x :: a) 12 4)). rewrite zlen_app.
    pose proof (zlen_nonneg b).
    destruct (Z.ltb_spec (zlen (x :: a) - 32) (le_val (slice (x :: a) 12 4))); [done|].
    destruct (Z.ltb_spec (zlen (x :: a) + zlen b - 32) (le_val (slice (x :: a) 12 4))); [lia|].
    rewrite F by lia. intros [= <- <-].
    rewrite drop_app_le by (unfold zlen in *; lia). done. }
  erewrite decodePayloadTLVSections_cons; [|rewrite zlen_app; pose proof (zlen_nonneg b); lia|exact E'].
  rewrite (IH (length next) Hs next ss); done.
Qed.

(** ** The consumer: [trace_event_v2_decoder.go] *)

Record traceEventV2Header := Header_ {
  d_legacy : bool; d_seq : Z; d_cpu : Z; d_lossEpoch : Z; d_lossTimeNS : Z; d_version : Z;
  d_eventType : Z; d_flags : Z; d_pid : Z; d_tid : Z; d_sysID : Z; d_tsNs : Z;
  d_comm : list Z }.

(** [decodeTraceEventV2Comm] and [lifecycleSnapshotString]: the bytes before the first NUL. *)
Definition decodeTraceEventV2Comm (raw : list Z) : list Z := until_nul raw.
Definition lifecycleSnapshotString (data : list Z) : list Z := until_nul data.

Definition decodeTraceEventV2Header (rawSample : list Z)
    : option (traceEventV2Header * list Z) :=
  if zlen rawSample <? EVENT_V2_BASE_HEADER_LEN then None
  else
    let version := le_at rawSample EVENT_V2_HEADER_VERSION_OFFSET 2 in
    let eventType := le_at rawSample EVENT_V2_HEADER_EVENT_TYPE_OFFSET 2 in
    let headerLen := le_at rawSample EVENT_V2_HEADER_LEN_OFFSET 2 in
    let size := le_at rawSample EVENT_V2_HEADER_SIZE_OFFSET 4 in
    if negb (version =? EVENT_VERSION) ||
       (negb (eventType =? EVENT_TYPE_ENTER) && negb (eventType =? EVENT_TYPE_EXIT) &&
        negb (eventType =? EVENT_TYPE_LIFECYCLE) && negb (eventType =? EVENT_TYPE_SIGNAL) &&
        negb (eventType =? EVENT_TYPE_UNSUPPORTED_ABI)) ||
       (negb (headerLen =? EVENT_V2_BASE_HEADER_LEN) && (headerLen <? EVENT_V2_HEADER_LEN)) ||
       (size <? headerLen) ||
       (u32 (zlen rawSample) <? size)
    then None
    else
      let legacy := headerLen =? EVENT_V2_BASE_HEADER_LEN in
      Some (Header_ legacy
              (le_at rawSample EVENT_V2_HEADER_SEQ_OFFSET 8)
              (if legacy then 0 else le_at rawSample EVENT_V2_HEADER_CPU_OFFSET 4)
              (if legacy then 0 else le_at rawSample EVENT_V2_HEADER_LOSS_EPOCH_OFFSET 8)
              (if legacy then 0 else le_at rawSample EVENT_V2_HEADER_LOSS_TIME_OFFSET 8)
              version eventType
              (le_at rawSample EVENT_V2_HEADER_FLAGS_OFFSET 2)
              (le_at rawSample EVENT_V2_HEADER_PID_OFFSET 4)
              (le_at rawSample EVENT_V2_HEADER_TID_OFFSET 4)
              (le_at rawSample EVENT_V2_HEADER_SYS_ID_OFFSET 4)
              (le_at rawSample EVENT_V2_HEADER_TS_NS_OFFSET 8)
              (decodeTraceEventV2Comm
                 (slice rawSample EVENT_V2_HEADER_COMM_OFFSET EVENT_V2_COMM_SIZE)),
            slice rawSample headerLen (size - headerLen)).

(** The members of [traceEventEnvelope] that decoding fills. *)
Record traceEventEnvelope := Envelope {
  e_legacyIntegrity : bool; e_seq : Z; e_cpu : Z; e_lossEpoch : Z; e_lossTimeNS : Z; e_recordTime : Z;
  e_eventVersion : Z; e_pid : Z; e_tid : Z; e_sysID : Z; e_eventType : Z; e_eventFlags : Z;
  e_lifecycleAction : Z; e_enterTime : Z; e_args : args6; e_ret : Z; e_duration : Z; e_cpuDuration : Z;
  e_stackID : Z; e_kvmExitReason : Z; e_probeRetEnter : Z; e_probeRetExit : Z; e_snapshotText : list Z;
  e_signal : Z; e_signalErr : Z; e_signalCode : Z; e_senderPID : Z; e_senderUID : Z; e_signalAddress : Z;
  e_signalStatus : Z; e_signalUserTime : Z; e_signalSystemTime : Z; e_comm : list Z;
  e_payload : list PayloadSection }.

Definition zero_args : args6 := Args 0 0 0 0 0 0.

Definition traceEventV2Args (data : list Z) : args6 :=
  Args (le_at data 0 8) (le_at data 8 8) (le_at data 16 8) (le_at data 24 8)
    (le_at data 32 8) (le_at data 40 8).

Definition traceEventV2Payload (body : list Z) (offset captureLen : Z) : option (list Z) :=
  if (offset <? 0) || (zlen body <? offset) then None
  else if u32 (zlen body - offset) <? captureLen then None
  else Some (slice body offset captureLen).

Definition traceEventV2EnterTime (tsNs duration : Z) : Z :=
  if tsNs <? duration then tsNs else tsNs - duration.

(** [payloadSectionsForRawPayloadEvent]: no sections without the TLV flag or when
    the payload does not decode. *)
Definition payloadSections (flags : Z) (data : list Z) : list PayloadSection :=
  if has_flag flags EVENT_FLAG_PAYLOAD_TLV then default [] (decodePayloadTLVSections data) else [].

(** A syscall envelope; the lifecycle and signal members are zero. *)
Definition syscall_envelope (h : traceEventV2Header) (enter : Z) (a : args6)
    (r dur cpudur stack kvm pre prx : Z) (secs : list PayloadSection) : traceEventEnvelope :=
  Envelope (d_legacy h) (d_seq h) (d_cpu h) (d_lossEpoch h) (d_lossTimeNS h) (d_tsNs h)
    (d_version h) (d_pid h) (d_tid h) (d_sysID h) (d_eventType h) (d_flags h) 0 enter a r dur
    cpudur stack kvm pre prx [] 0 0 0 0 0 0 0 0 0 (d_comm h) secs.

Definition decodeTraceEventV2CompactEnterEnvelope (h : traceEventV2Header) (body : list Z)
    : option traceEventEnvelope :=
  if negb (zlen body =? EVENT_V2_COMPACT_ENTER_BODY_LEN) ||
     negb (has_flag (d_flags h) EVENT_FLAG_GENERIC_ENTER) ||
     has_flag (d_flags h) EVENT_FLAG_PAYLOAD_TLV
  then None
  else Some (syscall_envelope h (d_tsNs h)
               (traceEventV2Args (slice body EVENT_V2_COMPACT_ENTER_ARGS_OFFSET EVENT_V2_ARGS_SIZE))
               0 0 0 0 0 (-1) (-1) []).

Definition decodeTraceEventV2EnterEnvelope (h : traceEventV2Header) (body : list Z)
    : option traceEventEnvelope :=
  if has_flag (d_flags h) EVENT_FLAG_COMPACT_ENTER
  then decodeTraceEventV2CompactEnterEnvelope h body
  else if zlen body <? EVENT_V2_ENTER_BODY_LEN then None
  else
    match traceEventV2Payload body EVENT_V2_ENTER_BODY_LEN
            (le_at body EVENT_V2_ENTER_CAPTURE_LEN_OFFSET 4) with
    | None => None
    | Some p => Some (syscall_envelope h (d_tsNs h)
        (traceEventV2Args (slice body EVENT_V2_ENTER_ARGS_OFFSET EVENT_V2_ARGS_SIZE))
        (s64 (le_at body EVENT_V2_ENTER_RET_OFFSET 8)) 0 0 0 0
        (s32 (le_at body EVENT_V2_ENTER_PROBE_RET_ENTER_OFFSET 4))
        (s32 (le_at body EVENT_V2_ENTER_PROBE_RET_EXIT_OFFSET 4))
        (payloadSections (d_flags h) p))
    end.

Definition decodeTraceEventV2ExitEnvelope (h : traceEventV2Header) (body : list Z)
    : option traceEventEnvelope :=
  if zlen body <? EVENT_V2_EXIT_BODY_LEN then None
  else
    let duration := le_at body EVENT_V2_EXIT_DURATION_OFFSET 8 in
    match traceEventV2Payload body EVENT_V2_EXIT_BODY_LEN
            (le_at body EVENT_V2_EXIT_CAPTURE_LEN_OFFSET 4) with
    | None => None
    | Some p => Some (syscall_envelope h (traceEventV2EnterTime (d_tsNs h) duration)
        (traceEventV2Args (slice body EVENT_V2_EXIT_ARGS_OFFSET EVENT_V2_ARGS_SIZE))
        (s64 (le_at body EVENT_V2_EXIT_RET_OFFSET 8)) duration
        (le_at body EVENT_V2_EXIT_CPU_DURATION_OFFSET 8)
        (s32 (le_at body EVENT_V2_EXIT_STACK_ID_OFFSET 4))
        (le_at body EVENT_V2_EXIT_RESERVED_OFFSET 4) 0 0
        (payloadSections (d_flags h) p))
    end.

Definition decodeTraceEventV2LifecycleEnvelope (h : traceEventV2Header) (body : list Z)
    : option traceEventEnvelope :=
  if zlen body <? EVENT_V2_LIFECYCLE_BODY_LEN then None
  else
    let action := le_at body EVENT_V2_LIFECYCLE_ACTION_OFFSET 4 in
    let a := traceEventV2Args (slice body EVENT_V2_LIFECYCLE_ARGS_OFFSET EVENT_V2_ARGS_SIZE) in
    let a := if action =? LIFECYCLE_FORK
             then Args (u32 (arg0 a)) (arg1 a) (arg2 a) (arg3 a) (arg4 a) (arg5 a) else a in
    match traceEventV2Payload body EVENT_V2_LIFECYCLE_BODY_LEN
            (le_at body EVENT_V2_LIFECYCLE_SNAPSHOT_LEN_OFFSET 4) with
    | None => None
    | Some p => Some (Envelope (d_legacy h) (d_seq h) (d_cpu h) (d_lossEpoch h) (d_lossTimeNS h)
        (d_tsNs h) (d_version h) (d_pid h) (d_tid h) 0 (d_eventType h) (d_flags h) action
        (d_tsNs h) a 0 0 0 0 0 0 0 (lifecycleSnapshotString p) 0 0 0 0 0 0 0 0 0 (d_comm h) [])
    end.

Definition decodeTraceEventV2SignalEnvelope (h : traceEventV2Header) (body : list Z)
    : option traceEventEnvelope :=
  if negb (zlen body =? EVENT_V2_SIGNAL_BODY_LEN) then None
  else Some (Envelope (d_legacy h) (d_seq h) (d_cpu h) (d_lossEpoch h) (d_lossTimeNS h)
    (d_tsNs h) (d_version h) (d_pid h) (d_tid h) 0 (d_eventType h) 0 0 (d_tsNs h) zero_args 0 0 0
    (s32 (le_at body EVENT_V2_SIGNAL_STACK_ID_OFFSET 4)) 0 0 0 []
    (le_at body EVENT_V2_SIGNAL_NUMBER_OFFSET 4)
    (s32 (le_at body EVENT_V2_SIGNAL_ERRNO_OFFSET 4))
    (s32 (le_at body EVENT_V2_SIGNAL_CODE_OFFSET 4))
    (le_at body EVENT_V2_SIGNAL_SENDER_PID_OFFSET 4)
    (le_at body EVENT_V2_SIGNAL_SENDER_UID_OFFSET 4)
    (le_at body EVENT_V2_SIGNAL_ADDRESS_OFFSET 8)
    (s32 (le_at body EVENT_V2_SIGNAL_CHILD_STATUS_OFFSET 4))
    (s64 (le_at body EVENT_V2_SIGNAL_CHILD_USER_TIME_OFFSET 8))
    (s64 (le_at body EVENT_V2_SIGNAL_CHILD_SYSTEM_TIME_OFFSET 8)) (d_comm h) []).

Definition decodeTraceEventV2Envelope (rawSample : list Z) : option traceEventEnvelope :=
  match decodeTraceEventV2Header rawSample with
  | None => None
  | Some (h, body) =>
      if d_eventType h =? EVENT_TYPE_UNSUPPORTED_ABI then
        if negb (zlen body =? 0) then None
        else Some (Envelope (d_legacy h) (d_seq h) (d_cpu h) (d_lossEpoch h) (d_lossTimeNS h)
               (d_tsNs h) 0 (d_pid h) (d_tid h) (d_sysID h) (d_eventType h) 0 0 0 zero_args
               0 0 0 0 0 0 0 [] 0 0 0 0 0 0 0 0 0 [] [])
      else if d_eventType h =? EVENT_TYPE_ENTER then decodeTraceEventV2EnterEnvelope h body
      else if d_eventType h =? EVENT_TYPE_EXIT then decodeTraceEventV2ExitEnvelope h body
      else if d_eventType h =? EVENT_TYPE_LIFECYCLE then decodeTraceEventV2LifecycleEnvelope h body
      else if d_eventType h =? EVENT_TYPE_SIGNAL then decodeTraceEventV2SignalEnvelope h body
      else None
  end.

(** ** Reading a committed record *)

(** An integer member of a structure that the record holds at [base]. *)
Lemma le_at_field rec base len fs i off o n nz z :
  slice rec base len = concat fs -> fs !! i = Some (le_bytes n z) -> field_offset fs i = off ->
  o = base + off -> nz = Z.of_nat n -> 0 <= base -> 0 <= off -> off + nz <= len ->
  le_at rec o nz = z mod 2 ^ (8 * nz).
Proof.
  intros Hs Hf Hoff -> -> Hb Ho Hl. unfold le_at. rewrite <- le_val_le_bytes. f_equal.
  rewrite <- (slice_slice rec base len) by lia. by eapply read_field; [|done|done|apply zlen_le_bytes].
Qed.

(** A byte-array member. *)
Lemma slice_field rec base len fs i off o n f :
  slice rec base len = concat fs -> fs !! i = Some f -> field_offset fs i = off ->
  o = base + off -> zlen f = n -> 0 <= base -> 0 <= off -> off + n <= len ->
  slice rec o n = f.
Proof.
  intros Hs Hf Hoff -> Hn Hb Ho Hl. pose proof (zlen_nonneg f).
  rewrite <- (slice_slice rec base len) by lia. by eapply read_field.
Qed.

(** What the consumer sees of a header. *)
Definition header_view (h : event_v2_header) : traceEventV2Header :=
  Header_ false (u64 (h_seq h)) (u32 (h_cpu h)) (u64 (h_loss_epoch h)) (u64 (h_loss_time_ns h))
    (u16 (h_version h)) (u16 (h_event_type h)) (u16 (h_flags h)) (u32 (h_pid h)) (u32 (h_tid h))
    (u32 (h_sys_id h)) (u64 (h_ts_ns h)) (until_nul (fixed 16 (h_comm h))).

Definition event_types : list Z :=
  [EVENT_TYPE_ENTER; EVENT_TYPE_EXIT; EVENT_TYPE_LIFECYCLE; EVENT_TYPE_SIGNAL;
   EVENT_TYPE_UNSUPPORTED_ABI].

Ltac read_member H len i off nz :=
  erewrite (le_at_field _ 0 len _ i off off (Z.to_nat nz) nz _ H);
    [ | reflexivity | layout | reflexivity | reflexivity | lia | lia | lia ].

Lemma decode_header rec h :
  slice rec 0 EVENT_V2_HEADER_LEN = struct_bytes (event_v2_header_fields h) ->
  h_size h = zlen rec -> EVENT_V2_HEADER_LEN <= zlen rec < 2 ^ 32 ->
  h_version h = EVENT_VERSION -> h_header_len h = EVENT_V2_HEADER_LEN ->
  In (h_event_type h) event_types ->
  decodeTraceEventV2Header rec =
    Some (header_view h, slice rec EVENT_V2_HEADER_LEN (zlen rec - EVENT_V2_HEADER_LEN)).
Proof.
  intros H Hs Hl Hv Hh Ht. unfold decodeTraceEventV2Header.
  destruct (Z.ltb_spec (zlen rec) 56); [lia|]. cbv zeta.
  unfold event_v2_header_fields in H.
  read_member H 80 0%nat 0 2. read_member H 80 1%nat 2 2. read_member H 80 2%nat 4 2. read_member H 80 3%nat 6 2.
  read_member H 80 4%nat 8 4. read_member H 80 5%nat 12 4. read_member H 80 6%nat 16 4. read_member H 80 7%nat 20 4.
  read_member H 80 8%nat 24 8. read_member H 80 9%nat 32 8. read_member H 80 11%nat 56 4. read_member H 80 13%nat 64 8.
  read_member H 80 14%nat 72 8.
  erewrite (slice_field rec 0 EVENT_V2_HEADER_LEN _ 10%nat);
    [ | exact H | reflexivity | layout | reflexivity | by rewrite zlen_fixed
      | lia | lia | lia ].
  rewrite Hv, Hh, Hs. unfold header_view. rewrite Hv.
  change (80 mod _) with 80. change (2 mod _) with 2. change (2 ^ (8 * 4)) with (2 ^ 32).
  rewrite (Z.mod_small (zlen rec)) by lia. rewrite (u32_small (zlen rec)) by lia.
  destruct (Z.ltb_spec (zlen rec) 80), (Z.ltb_spec (zlen rec) (zlen rec)); try lia.
  cbn in Ht. destruct Ht as [<-|[<-|[<-|[<-|[<-|[]]]]]]; reflexivity.
Qed.

Lemma traceEventV2Args_bytes a : traceEventV2Args (args6_bytes a) = args_u64 a.
Proof.
  assert (slice (args6_bytes a) 0 48 = concat
    [le_bytes 8 (arg0 a); le_bytes 8 (arg1 a); le_bytes 8 (arg2 a); le_bytes 8 (arg3 a);
     le_bytes 8 (arg4 a); le_bytes 8 (arg5 a)]) as H.
  { rewrite slice_all by (by rewrite zlen_args6_bytes). unfold args6_bytes. cbn [concat].
    by rewrite app_nil_r. }
  unfold traceEventV2Args.
  read_member H 48 0%nat 0 8. read_member H 48 1%nat 8 8. read_member H 48 2%nat 16 8.
  read_member H 48 3%nat 24 8. read_member H 48 4%nat 32 8. read_member H 48 5%nat 40 8.
  reflexivity.
Qed.

Ltac read_args H len i off :=
  erewrite (slice_field _ 0 len _ i off off 48 _ H);
    [ | reflexivity | layout | reflexivity | by rewrite zlen_args6_bytes | lia | lia | lia ];
  rewrite traceEventV2Args_bytes.

Lemma traceEventV2Payload_prefix body off n :
  0 <= off -> 0 <= n -> off + n <= zlen body < 2 ^ 32 ->
  traceEventV2Payload body off (u32 n) = Some (slice body off n).
Proof.
  intros. unfold traceEventV2Payload. rewrite !u32_small by lia.
  destruct (Z.ltb_spec off 0), (Z.ltb_spec (zlen body) off), (Z.ltb_spec (zlen body - off) n);
    try lia. done.
Qed.

Lemma s64_mod z : s64 (z mod 2 ^ (8 * 8)) = s64 z.
Proof. by apply to_signed_mod. Qed.
Lemma s32_mod z : s32 (z mod 2 ^ (8 * 4)) = s32 z.
Proof. by apply to_signed_mod. Qed.

Lemma decode_exit_body h body b n :
  slice body 0 EVENT_V2_EXIT_BODY_LEN = struct_bytes (syscall_exit_event_v2_fields b) ->
  ex_capture_len b = n -> 0 <= n -> EVENT_V2_EXIT_BODY_LEN + n <= zlen body < 2 ^ 32 ->
  decodeTraceEventV2ExitEnvelope h body =
    Some (syscall_envelope h (traceEventV2EnterTime (d_tsNs h) (u64 (ex_duration_ns b)))
      (args_u64 (ex_args b)) (s64 (ex_ret b)) (u64 (ex_duration_ns b))
      (u64 (ex_cpu_duration_ns b)) (s32 (ex_stack_id b)) (u32 (ex_reserved b)) 0 0
      (payloadSections (d_flags h) (slice body EVENT_V2_EXIT_BODY_LEN n))).
Proof.
  intros H Hc Hn Hl. unfold decodeTraceEventV2ExitEnvelope.
  destruct (Z.ltb_spec (zlen body) 88); [lia|]. unfold syscall_exit_event_v2_fields in H.
  read_member H 88 0%nat 0 8. read_member H 88 1%nat 8 8. read_member H 88 3%nat 64 4.
  read_member H 88 5%nat 72 4. read_member H 88 6%nat 76 4. read_member H 88 7%nat 80 8.
  read_args H 88 2%nat 16. rewrite s64_mod, s32_mod, Hc.
  change (n mod _) with (u32 n). rewrite traceEventV2Payload_prefix by lia. reflexivity.
Qed.

Lemma decode_enter_body h body b n :
  slice body 0 EVENT_V2_ENTER_BODY_LEN = struct_bytes (syscall_enter_event_v2_fields b) ->
  has_flag (d_flags h) EVENT_FLAG_COMPACT_ENTER = false ->
  en_capture_len b = n -> 0 <= n -> EVENT_V2_ENTER_BODY_LEN + n <= zlen body < 2 ^ 32 ->
  decodeTraceEventV2EnterEnvelope h body =
    Some (syscall_envelope h (d_tsNs h) (args_u64 (en_args b)) (s64 (en_ret b)) 0 0 0 0
      (s32 (en_probe_ret_enter b)) (s32 (en_probe_ret_exit b))
      (payloadSections (d_flags h) (slice body EVENT_V2_ENTER_BODY_LEN n))).
Proof.
  intros H Hf Hc Hn Hl. unfold decodeTraceEventV2EnterEnvelope. rewrite Hf.
  destruct (Z.ltb_spec (zlen body) 72); [lia|]. unfold syscall_enter_event_v2_fields in H.
  read_member H 72 0%nat 0 8. read_member H 72 1%nat 8 4. read_member H 72 2%nat 12 4.
  read_member H 72 4%nat 64 4. read_args H 72 3%nat 16. rewrite s64_mod, !s32_mod, Hc.
  change (n mod _) with (u32 n). rewrite traceEventV2Payload_prefix by lia. reflexivity.
Qed.

Lemma decode_compact_body h body a :
  body = struct_bytes (syscall_compact_enter_event_v2_fields a) ->
  has_flag (d_flags h) EVENT_FLAG_COMPACT_ENTER = true ->
  has_flag (d_flags h) EVENT_FLAG_GENERIC_ENTER = true ->
  has_flag (d_flags h) EVENT_FLAG_PAYLOAD_TLV = false ->
  decodeTraceEventV2EnterEnvelope h body =
    Some (syscall_envelope h (d_tsNs h) (args_u64 a) 0 0 0 0 0 (-1) (-1) []).
Proof.
  intros -> Hc Hg Hp. unfold decodeTraceEventV2EnterEnvelope, decodeTraceEventV2CompactEnterEnvelope.
  rewrite Hc, Hg, Hp, compact_enter_body_size. cbn [negb orb Z.eqb Pos.eqb].
  rewrite slice_all by (by rewrite compact_enter_body_size).
  unfold syscall_compact_enter_event_v2_fields. cbn [concat]. rewrite app_nil_r.
  by rewrite traceEventV2Args_bytes.
Qed.

Lemma decode_lifecycle_body h body b n :
  slice body 0 EVENT_V2_LIFECYCLE_BODY_LEN = struct_bytes (lifecycle_event_v2_fields b) ->
  0 <= lc_action b < 2 ^ 32 -> lc_snapshot_len b = n -> 0 <= n ->
  EVENT_V2_LIFECYCLE_BODY_LEN + n <= zlen body < 2 ^ 32 ->
  let a := args_u64 (lc_args b) in
  decodeTraceEventV2LifecycleEnvelope h body =
    Some (Envelope (d_legacy h) (d_seq h) (d_cpu h) (d_lossEpoch h) (d_lossTimeNS h)
        (d_tsNs h) (d_version h) (d_pid h) (d_tid h) 0 (d_eventType h) (d_flags h) (lc_action b)
        (d_tsNs h)
        (if lc_action b =? LIFECYCLE_FORK
         then Args (u32 (arg0 a)) (arg1 a) (arg2 a) (arg3 a) (arg4 a) (arg5 a) else a)
        0 0 0 0 0 0 0 (until_nul (slice body EVENT_V2_LIFECYCLE_BODY_LEN n))
        0 0 0 0 0 0 0 0 0 (d_comm h) []).
Proof.
  intros H Ha Hc Hn Hl. cbv zeta. unfold decodeTraceEventV2LifecycleEnvelope.
  destruct (Z.ltb_spec (zlen body) 56); [lia|]. unfold lifecycle_event_v2_fields in H.
  read_member H 56 0%nat 0 4. read_member H 56 1%nat 4 4. read_args H 56 2%nat 8. rewrite Hc.
  change (lc_action b mod _) with (u32 (lc_action b)). rewrite (u32_small (lc_action b)) by lia.
  change (n mod _) with (u32 n). rewrite traceEventV2Payload_prefix by lia. reflexivity.
Qed.

Lemma decode_signal_body h body b :
  body = struct_bytes (signal_event_v2_fields b) ->
  decodeTraceEventV2SignalEnvelope h body =
    Some (Envelope (d_legacy h) (d_seq h) (d_cpu h) (d_lossEpoch h) (d_lossTimeNS h)
    (d_tsNs h) (d_version h) (d_pid h) (d_tid h) 0 (d_eventType h) 0 0 (d_tsNs h) zero_args 0 0 0
    (s32 (sg_stack_id b)) 0 0 0 [] (u32 (sg_signo b)) (s32 (sg_error b)) (s32 (sg_code b))
    (u32 (sg_sender_pid b)) (u32 (sg_sender_uid b)) (u64 (sg_address b))
    (s32 (sg_child_status b)) (s64 (sg_child_user_time b)) (s64 (sg_child_system_time b))
    (d_comm h) []).
Proof.
  intros E. unfold decodeTraceEventV2SignalEnvelope.
  assert (zlen body = 56) as -> by (rewrite E; apply signal_body_size). cbn [negb Z.eqb Pos.eqb].
  assert (slice body 0 56 = concat (signal_event_v2_fields b)) as H
    by (rewrite E; apply slice_all; by rewrite signal_body_size).
  unfold signal_event_v2_fields in H.
  read_member H 56 0%nat 0 4. read_member H 56 1%nat 4 4. read_member H 56 2%nat 8 4.
  read_member H 56 3%nat 12 4. read_member H 56 4%nat 16 4. read_member H 56 5%nat 20 4.
  read_member H 56 6%nat 24 8. read_member H 56 7%nat 32 4. read_member H 56 9%nat 40 8.
  read_member H 56 10%nat 48 8. by rewrite !s32_mod, !s64_mod.
Qed.

(** A record the consumer can use, with the CPU and the sequence number it reads off it. *)
Definition record_number (cpu sq : Z) (rec : list Z) : Prop :=
  exists env, decodeTraceEventV2Envelope rec = Some env /\ e_cpu env = u32 cpu /\ e_seq env = u64 sq.
