(* ===== verification/Stats.v ===== *)
(** Runtime statistics, event integrity and the accounting relation.

    Models [bpf/runtime_stats.h] and [bpf/event_integrity.h]: the syscall
    filter, the per-CPU counters, the per-CPU sequence numbers and the global
    loss epoch.  [tally] is the specification the rest of the development is
    measured against: it counts, between two states, the records submitted, the
    failed reservations and the discarded records, and says how the counters
    the programs publish must have moved. *)
From stdpp Require Import base list gmap numbers.
From S2P Require Import Prelude Syscalls Abi Kernel Consumer.

Section Stats.
Context {K : Kernel} {A : Arch}.

(** ** [runtime_stats.h] *)

Definition should_trace_syscall (sys_id : Z) (cfg : option Z) : prog bool :=
  match cfg with
  | None => ret true
  | Some c =>
      if negb (has_flag c CONFIG_SYSCALL_FILTER) then ret true
      else
        let* selected := bpf_map_lookup_elem syscall_filter_map sys_id in
        match selected with
        | None => ret (negb (has_flag c CONFIG_SYSCALL_FILTER_STRICT_UNKNOWN))
        | Some v =>
            if has_flag c CONFIG_SYSCALL_FILTER_NEGATED
            then ret (v =? 0)
            else ret (negb (v =? 0))
        end
  end.

Definition is_fd_state_direct_syscall (sys_id : Z) : bool :=
  one_of sys_id
    [SYS_OPEN; SYS_OPENAT; SYS_OPENAT2; SYS_OPEN_TREE; SYS_CREAT; SYS_CLOSE; SYS_CLOSE_RANGE;
     SYS_DUP; SYS_DUP2; SYS_DUP3; SYS_EPOLL_CREATE; SYS_TIMERFD_CREATE; SYS_EVENTFD;
     SYS_EVENTFD2; SYS_EPOLL_CREATE1; SYS_INOTIFY_INIT; SYS_INOTIFY_INIT1; SYS_SIGNALFD;
     SYS_SIGNALFD4; SYS_FCNTL; SYS_PIPE; SYS_PIPE2; SYS_SOCKETPAIR; SYS_SOCKET; SYS_CHDIR;
     SYS_FCHDIR; SYS_FACCESSAT; SYS_FACCESSAT2; SYS_FCHMODAT; SYS_MKDIRAT; SYS_NEWFSTATAT;
     SYS_FSTAT; SYS_READ; SYS_WRITE; SYS_PIDFD_OPEN].

Definition is_fd_state_tracked (sys_id : Z) (cfg : option Z) : bool :=
  match cfg with
  | None => false
  | Some c => has_flag c CONFIG_FD_STATE && is_fd_state_direct_syscall sys_id
  end.

Definition lookup_stats : prog (option bpf_stats) :=
  gets (fun w => stats w !! cur_cpu (running w)).

(** A store through the pointer [lookup_stats] returned, when it is not null. *)
Definition with_stats (f : bpf_stats -> bpf_stats) : prog unit :=
  let* s := lookup_stats in
  match s with
  | None => ret tt
  | Some v => modify (fun w => set_stats (<[cur_cpu (running w) := f v]> (stats w)) w)
  end.

(** ** [event_integrity.h] *)

Definition next_event_sequence : prog Z :=
  let* s := lookup_stats in
  match s with
  | None => ret 0
  | Some v =>
      with_stats (fun s => stat_incr s event_seq) ;;;
      ret (u64 (v event_seq + 1))
  end.

(** [__sync_val_compare_and_swap(&x, 0, now)]. *)
Definition cas_zero (x now : Z) : Z := if x =? 0 then now else x.

Definition record_event_integrity_loss : prog unit :=
  let* now := bpf_ktime_get_ns in
  with_stats (fun s =>
    stat_set s integrity_first_time_ns (cas_zero (s integrity_first_time_ns) now)) ;;;
  let* l := gets (fun w => loss w !! 0) in
  match l with
  | None => ret tt
  | Some v =>
      modify (fun w => set_loss (<[0 :=
        EventLossState (u64 (l_epoch v + 1)) (cas_zero (l_first_time_ns v) now)]> (loss w)) w)
  end.

(** The members [capture_event_integrity] fills: cpu, reserved, loss epoch, loss time. *)
Definition capture_event_integrity : prog (Z * Z * Z * Z) :=
  let* cpu := bpf_get_smp_processor_id in
  let* l := gets (fun w => loss w !! 0) in
  match l with
  | None => ret (cpu, 0, 0, 0)
  | Some v => ret (cpu, 0, l_epoch v, l_first_time_ns v)
  end.

(** ** Counters of [runtime_stats.h] *)

Definition record_ringbuf_reserve_fail : prog unit :=
  record_event_integrity_loss ;;;
  with_stats (fun s => stat_incr s ringbuf_reserve_fail).

Definition record_ringbuf_copy_fail : prog unit :=
  record_event_integrity_loss ;;;
  with_stats (fun s => stat_incr s ringbuf_copy_fail).

Definition record_payload_truncated_event : prog unit :=
  with_stats (fun s => stat_incr s payload_truncated_events).

Definition record_pending_update_fail : prog unit :=
  record_event_integrity_loss ;;;
  with_stats (fun s => stat_incr s pending_update_fail).

Definition record_lifecycle_map_update_fail : prog unit :=
  record_event_integrity_loss ;;;
  with_stats (fun s => stat_incr s lifecycle_map_update_fail).

Definition record_lifecycle_fork_seen : prog unit :=
  with_stats (fun s => stat_incr s lifecycle_fork_seen).

Definition record_lifecycle_fork_parent_tracked : prog unit :=
  with_stats (fun s => stat_incr s lifecycle_fork_parent_tracked).

Definition record_lifecycle_fork_parent_untracked : prog unit :=
  with_stats (fun s => stat_incr s lifecycle_fork_parent_untracked).

Definition record_lifecycle_fork_child_filter (installed : bool) : prog unit :=
  let* s := lookup_stats in
  match s with
  | None => ret tt
  | Some _ =>
      if installed then
        with_stats (fun s => stat_incr s lifecycle_fork_child_filter_installed)
      else
        with_stats (fun s => stat_incr s lifecycle_fork_child_filter_failed) ;;;
        record_event_integrity_loss
  end.

Definition record_lifecycle_exec_seen : prog unit :=
  with_stats (fun s => stat_incr s lifecycle_exec_seen).

Definition record_lifecycle_exec_untracked : prog unit :=
  with_stats (fun s => stat_incr s lifecycle_exec_untracked).

Definition record_lifecycle_exit_seen : prog unit :=
  with_stats (fun s => stat_incr s lifecycle_exit_seen).

Definition record_lifecycle_exit_untracked : prog unit :=
  with_stats (fun s => stat_incr s lifecycle_exit_untracked).

(** The stores of [record_orphan_exit], given the timestamp. *)
Definition orphan_update (pid tid sys_id ret_value reason now : Z) (s : bpf_stats) : bpf_stats :=
  let s := stat_incr s orphan_exit in
  let s :=
    if s orphan_first_time_ns =? 0 then
      stat_set (stat_set (stat_set (stat_set (stat_set (stat_set s
        orphan_first_pid pid) orphan_first_tid tid) orphan_first_sys_id sys_id)
        orphan_first_ret ret_value) orphan_first_reason reason) orphan_first_time_ns now
    else s in
  stat_set (stat_set (stat_set (stat_set (stat_set (stat_set s
    orphan_last_pid pid) orphan_last_tid tid) orphan_last_sys_id sys_id)
    orphan_last_ret ret_value) orphan_last_reason reason) orphan_last_time_ns now.

Definition record_orphan_exit (pid tid sys_id ret_value reason : Z) : prog unit :=
  let* s := lookup_stats in
  match s with
  | None => ret tt
  | Some _ =>
      let* now := bpf_ktime_get_ns in
      with_stats (orphan_update pid tid sys_id ret_value reason now)
  end.

Definition record_pending_mismatch : prog unit :=
  record_event_integrity_loss ;;;
  with_stats (fun s => stat_incr s pending_mismatch).
End Stats.

(** ** Accounting *)

(** [n] was added to the [u64] counter between [x] and [y]. *)
Definition advanced (x y n : Z) : Prop := u64 y = u64 (x + n).

(** How the published counters and the ring buffer moved between two states of one
    program run: [recs] were submitted, and the current CPU's sequence number,
    reserve-failure and copy-failure counters and the loss epoch advanced by
    the given amounts.  No other CPU's counters moved. *)
Record moved (w w' : world) (recs : list (list Z)) (nseq nres ncopy nloss : Z) : Prop := Moved {
  mv_running : running w' = running w;
  mv_submitted : submitted w' = submitted w ++ recs;
  mv_other_cpu : forall c, c <> cur_cpu (running w) -> stats w' !! c = stats w !! c;
  mv_stats : match stats w !! cur_cpu (running w), stats w' !! cur_cpu (running w) with
    | Some s, Some s' =>
        advanced (s event_seq) (s' event_seq) nseq /\
        advanced (s ringbuf_reserve_fail) (s' ringbuf_reserve_fail) nres /\
        advanced (s ringbuf_copy_fail) (s' ringbuf_copy_fail) ncopy
    | None, None => True
    | _, _ => False
    end;
  mv_loss : match loss w !! 0, loss w' !! 0 with
    | Some l, Some l' => advanced (l_epoch l) (l_epoch l') nloss
    | None, None => True
    | _, _ => False
    end }.

(** [ks] rises strictly from above [lo] to at most [hi]. *)
Fixpoint rising (lo : Z) (ks : list Z) (hi : Z) : Prop :=
  match ks with
  | [] => lo <= hi
  | k :: ks' => lo < k /\ rising k ks' hi
  end.

(** The records of a CPU out of [n] emission attempts: each carries the CPU and the number of its
    attempt, counted from the sequence counter of the CPU before the first one. *)
Definition numbering (s : option bpf_stats) (cpu : Z) (recs : list (list Z)) (n : Z) : Prop :=
  exists ks, rising 0 ks n /\
    Forall2 (fun k rec => exists sq, record_number cpu sq rec /\
      forall v, s = Some v -> sq = u64 (v event_seq + k)) ks recs.

(** The ring buffer always has room. *)
Definition ring_has_room `{Kernel} : Prop := forall n size, k_reserve_ok n size = true.

(** No dynptr access fails for a reason other than its bounds: what the kernel
    documents for [bpf_dynptr_write] and [bpf_dynptr_data] on a live record. *)
Definition no_fault `{Kernel} : Prop := forall n, k_dynptr_ok n = true.

(** The contract between the ring buffer and the counters: with [nres] failed
    reservations and [ndisc] discarded records,
    - the sequence number advanced by one per record emission attempt, whether
      it ended in a submitted record, a failed reservation or a discard;
    - every failed reservation is counted, every discarded record is covered by
      a counted copy failure, and every failure moved the loss epoch;
    - a reservation fails only for lack of room, and a copy only by a fault of the
      kernel: no access is out of the bounds of its record;
    - the consumer can decode every submitted record and reads off it the CPU and the number of
      its emission attempt. *)
Record tally `{Kernel} (w w' : world) (recs : list (list Z)) (nres ndisc ncopy nloss : Z) : Prop := Tally {
  ty_moved : moved w w' recs (zlen recs + nres + ndisc) nres ncopy nloss;
  ty_nres : 0 <= nres;
  ty_ndisc : 0 <= ndisc <= ncopy;
  ty_nloss : nres + ncopy <= nloss;
  ty_room : ring_has_room -> nres = 0;
  ty_fault : no_fault -> ncopy = 0;
  ty_numbering : numbering (stats w !! cur_cpu (running w)) (cur_cpu (running w)) recs
    (zlen recs + nres + ndisc) }.

Lemma advanced_0 x : advanced x x 0.
Proof. unfold advanced. by rewrite Z.add_0_r. Qed.

Lemma advanced_incr x : advanced x (u64 (x + 1)) 1.
Proof. unfold advanced. unfold u64. by rewrite Z.mod_mod by lia. Qed.

Lemma advanced_trans x y z n m : advanced x y n -> advanced y z m -> advanced x z (n + m).
Proof.
  unfold advanced. intros E1 E2.
  rewrite E2, <- u64_add_l, E1, u64_add_l. f_equal. lia.
Qed.

Lemma moved_trans w1 w2 w3 r q n c l r' q' n' c' l' :
  moved w1 w2 r q n c l -> moved w2 w3 r' q' n' c' l' ->
  moved w1 w3 (r ++ r') (q + q') (n + n') (c + c') (l + l').
Proof.
  intros [E1 S1 O1 T1 L1] [E2 S2 O2 T2 L2]. rewrite E1 in *.
  split; try congruence.
  - rewrite S2, S1. by rewrite app_assoc.
  - intros c0 Hc. rewrite O2, O1; done.
  - destruct (stats w1 !! _), (stats w2 !! _), (stats w3 !! _); try done.
    destruct T1 as (? & ? & ?), T2 as (? & ? & ?).
    split_and!; by eapply advanced_trans.
  - destruct (loss w1 !! _), (loss w2 !! _), (loss w3 !! _); try done.
    by eapply advanced_trans.
Qed.

(** Equal counters and ring buffer. *)
Lemma moved_same w w' recs :
  running w' = running w -> submitted w' = submitted w ++ recs ->
  stats w' = stats w -> loss w' = loss w -> moved w w' recs 0 0 0 0.
Proof.
  intros E S T L. split; try done.
  - intros. by rewrite T.
  - rewrite T. destruct (stats w !! _); [|done]. by repeat split; apply advanced_0.
  - rewrite L. destruct (loss w !! _); [apply advanced_0|done].
Qed.

Lemma moved_refl w : moved w w [] 0 0 0 0.
Proof. apply moved_same; try done. by rewrite app_nil_r. Qed.

Lemma rising_le lo ks hi : rising lo ks hi -> lo <= hi.
Proof.
  revert lo. induction ks as [|k ks IH]; intros lo; cbn; [done|]. intros [? H%IH]. lia.
Qed.
Lemma rising_app lo ks mid ks' hi :
  rising lo ks mid -> rising mid ks' hi -> rising lo (ks ++ ks') hi.
Proof.
  revert lo. induction ks as [|k ks IH]; intros lo; cbn.
  - intros H1 H2. destruct ks' as [|k' ks']; cbn in *; [lia|]. destruct H2. split; [lia|done].
  - intros [? H1] H2. split; [done|]. by apply IH.
Qed.
Lemma rising_shift d lo ks hi : rising lo ks hi -> rising (lo + d) (map (fun k => k + d) ks) (hi + d).
Proof.
  revert lo. induction ks as [|k ks IH]; intros lo; cbn; [lia|]. intros [? ?]. split; [lia|]. by apply IH.
Qed.

Lemma numbering_nil s cpu n : 0 <= n -> numbering s cpu [] n.
Proof. intros. exists []. split; [done | constructor]. Qed.

(** One attempt that succeeded. *)
Lemma numbering_one s cpu sq rec :
  record_number cpu sq rec -> (forall v, s = Some v -> sq = u64 (v event_seq + 1)) ->
  numbering s cpu [rec] 1.
Proof.
  intros Hr Hs. exists [1]. split; [cbn; lia|]. constructor; [|constructor]. by exists sq.
Qed.

(** Attempts after attempts: the counter moved by [n] in between. *)
Lemma numbering_app s s' cpu recs n recs' n' :
  (forall v, s = Some v -> exists v', s' = Some v' /\ advanced (v event_seq) (v' event_seq) n) ->
  numbering s cpu recs n -> numbering s' cpu recs' n' -> numbering s cpu (recs ++ recs') (n + n').
Proof.
  intros Hs (ks & H1 & F1) (ks' & H2 & F2). exists (ks ++ map (fun k => k + n) ks'). split.
  - eapply rising_app; [exact H1|]. replace n with (0 + n) at 1 by lia. rewrite (Z.add_comm n n').
    by apply rising_shift.
  - apply Forall2_app; [done|]. apply Forall2_fmap_l. eapply Forall2_impl; [|exact F2]. cbn.
    intros k rec (sq & Hr & Hk). exists sq. split; [done|]. intros v E.
    destruct (Hs v E) as (v' & E' & Ad). rewrite (Hk v' E'). unfold advanced in Ad.
    rewrite <- u64_add_l, Ad, u64_add_l. f_equal. lia.
Qed.

Lemma tally_refl `{Kernel} w : tally w w [] 0 0 0 0.
Proof. split; try lia; [apply moved_refl | by apply numbering_nil]. Qed.

Lemma tally_trans `{Kernel} w1 w2 w3 r n d c l r' n' d' c' l' :
  tally w1 w2 r n d c l -> tally w2 w3 r' n' d' c' l' ->
  tally w1 w3 (r ++ r') (n + n') (d + d') (c + c') (l + l').
Proof.
  intros [M1 ? ? ? Ro1 Fa1 ?] [M2 ? ? ? Ro2 Fa2 ?].
  assert (zlen (r ++ r') + (n + n') + (d + d') = (zlen r + n + d) + (zlen r' + n' + d')) as E
    by (rewrite zlen_app; lia).
  split; try lia; [rewrite E; by eapply moved_trans | intros R; rewrite Ro1, Ro2; done
    | intros R; rewrite Fa1, Fa2; done |].
  rewrite E. destruct M1 as [R1 _ _ T1 _]. rewrite R1 in *. eapply numbering_app; [|eassumption..].
  intros v Ev. rewrite Ev in T1. destruct (stats w2 !! cur_cpu (running w1)) as [v'|]; [|done].
  exists v'. split; [done | apply T1].
Qed.

(** The maps, task storage and configuration are untouched. *)
Record same_state (w w' : world) : Prop := SameState {
  ss_running : running w' = running w;
  ss_maps : maps w' = maps w;
  ss_tasks : tasks w' = tasks w;
  ss_pidns : pidns w' = pidns w }.

#[export] Instance same_state_preorder : PreOrder same_state.
Proof.
  split; [done|]. intros w1 w2 w3 [] []. split; congruence.
Qed.

(** Only the counters, the loss epoch and the kernel's clock moved. *)
Record only_counters (w w' : world) : Prop := OnlyCounters {
  oc_same : same_state w w';
  oc_scratch : scratch w' = scratch w;
  oc_reserved : reserved w' = reserved w }.

#[export] Instance only_counters_preorder : PreOrder only_counters.
Proof.
  split; [done|]. intros w1 w2 w3 [] []. split; [by etrans | congruence | congruence].
Qed.

(** A program that only touches diagnostics: the counters other than the three
    accounted ones, and the loss epoch. *)
Definition quiet (w w' : world) : Prop :=
  only_counters w w' /\ exists nloss, 0 <= nloss /\ moved w w' [] 0 0 0 nloss.

#[export] Instance quiet_preorder : PreOrder quiet.
Proof.
  split.
  - intros w. split; [done|]. exists 0. split; [lia | apply moved_refl].
  - intros w1 w2 w3 [? (? & ? & M1)] [? (? & ? & M2)]. split; [by etrans|].
    eexists. split; [|exact (moved_trans _ _ _ _ _ _ _ _ _ _ _ _ _ M1 M2)]. lia.
Qed.

(** The programs of a whole handler: nothing stays reserved, and the ring
    buffer agrees with the counters. *)
Definition accounted `{Kernel} (w w' : world) : Prop :=
  reserved w' = reserved w /\
  exists recs nres ndisc ncopy nloss, tally w w' recs nres ndisc ncopy nloss.

#[export] Instance accounted_preorder `{Kernel} : PreOrder accounted.
Proof.
  split.
  - intros w. split; [done|]. exists [], 0, 0, 0, 0. apply tally_refl.
  - intros w1 w2 w3 [? (? & ? & ? & ? & ? & T1)] [? (? & ? & ? & ? & ? & T2)].
    split; [congruence|]. do 5 eexists. exact (tally_trans _ _ _ _ _ _ _ _ _ _ _ _ _ T1 T2).
Qed.

Lemma quiet_accounted `{Kernel} w w' : quiet w w' -> accounted w w'.
Proof.
  intros [[? ? ?] (n & ? & ?)]. split; [done|]. exists [], 0, 0, 0, n. split; try lia; [done | by apply numbering_nil].
Qed.

(** An emitter: accounted, and the maps and task storage are untouched. *)
Definition emits `{Kernel} (w w' : world) : Prop := same_state w w' /\ accounted w w'.

#[export] Instance emits_preorder `{Kernel} : PreOrder emits.
Proof.
  split.
  - intros w. split; reflexivity.
  - intros w1 w2 w3 [] []. split; etrans; done.
Qed.

Lemma quiet_emits `{Kernel} w w' : quiet w w' -> emits w w'.
Proof. intros Q. split; [apply Q | by apply quiet_accounted]. Qed.

Lemma emits_accounted `{Kernel} w w' : emits w w' -> accounted w w'.
Proof. by intros []. Qed.

Lemma keeps_weaken {S B} (R R' : S -> S -> Prop) (m : st S B) :
  keeps R m -> (forall s s', R s s' -> R' s s') -> keeps R' m.
Proof. intros H HR s. apply HR, H. Qed.

Lemma stat_set_eq s f v : stat_set s f v f = v.
Proof. unfold stat_set. by rewrite decide_True. Qed.
Lemma stat_set_ne s f g v : g <> f -> stat_set s f v g = s g.
Proof. intros. unfold stat_set. by rewrite decide_False. Qed.
Lemma stat_incr_ne s f g : g <> f -> stat_incr s f g = s g.
Proof. apply stat_set_ne. Qed.
Lemma stat_incr_eq s f : stat_incr s f f = u64 (s f + 1).
Proof. apply stat_set_eq. Qed.

Section StatsLemmas.
Context {K : Kernel} {A : Arch}.

Lemma tick_quiet : keeps quiet tick.
Proof.
  intros w. split; [done|]. exists 0. split; [lia|]. apply moved_same; try done.
  by rewrite app_nil_r.
Qed.

(** A store through [lookup_stats]. *)
Lemma with_stats_moved f nseq nres ncopy w :
  (forall s, advanced (s event_seq) (f s event_seq) nseq) ->
  (forall s, advanced (s ringbuf_reserve_fail) (f s ringbuf_reserve_fail) nres) ->
  (forall s, advanced (s ringbuf_copy_fail) (f s ringbuf_copy_fail) ncopy) ->
  only_counters w (snd (with_stats f w)) /\
  moved w (snd (with_stats f w)) [] nseq nres ncopy 0.
Proof.
  intros H1 H2 H3. unfold with_stats, lookup_stats, bind, gets, modify. cbn.
  destruct (stats w !! cur_cpu (running w)) as [s|] eqn:E; cbn; (split; [done|]); split; cbn;
    rewrite ?E, ?app_nil_r, ?lookup_insert_eq; try (exact eq_refl);
    try (destruct (loss w !! _); [apply advanced_0|exact I]); auto.
  intros. by apply lookup_insert_ne.
Qed.

(** Incrementing one counter. *)
Lemma stat_incr_moved f w :
  only_counters w (snd (with_stats (fun s => stat_incr s f) w)) /\
  moved w (snd (with_stats (fun s => stat_incr s f) w)) []
    (if decide (f = event_seq) then 1 else 0)
    (if decide (f = ringbuf_reserve_fail) then 1 else 0)
    (if decide (f = ringbuf_copy_fail) then 1 else 0) 0.
Proof.
  assert (forall g s, advanced (s g) (stat_incr s f g) (if decide (f = g) then 1 else 0)).
  { intros g s. destruct (decide (f = g)) as [->|].
    - rewrite stat_incr_eq. apply advanced_incr.
    - rewrite stat_incr_ne by done. apply advanced_0. }
  by apply with_stats_moved.
Qed.

Lemma with_stats_quiet f :
  (forall s g, g = event_seq \/ g = ringbuf_reserve_fail \/ g = ringbuf_copy_fail -> f s g = s g) ->
  keeps quiet (with_stats f).
Proof.
  intros H w. destruct (with_stats_moved f 0 0 0 w) as [? M];
    try (intros s; rewrite H by tauto; apply advanced_0).
  split; [done|]. exists 0. split; [lia | done].
Qed.

Lemma stat_incr_quiet f :
  f <> event_seq -> f <> ringbuf_reserve_fail -> f <> ringbuf_copy_fail ->
  keeps quiet (with_stats (fun s => stat_incr s f)).
Proof.
  intros. apply with_stats_quiet. intros s g [-> | [-> | ->]]; by apply stat_incr_ne.
Qed.

(** One recorded loss moves the epoch by exactly one and nothing else that is accounted. *)
Lemma record_event_integrity_loss_moved w :
  only_counters w (snd (record_event_integrity_loss w)) /\
  moved w (snd (record_event_integrity_loss w)) [] 0 0 0 1.
Proof.
  unfold record_event_integrity_loss, bpf_ktime_get_ns, tick.
  unfold with_stats, lookup_stats, bind, gets, modify, ret. cbn.
  destruct (stats w !! cur_cpu (running w)) as [s|] eqn:E; cbn;
    destruct (loss w !! 0) as [l|] eqn:L; cbn; (split; [done|]); split; cbn;
    rewrite ?E, ?L, ?lookup_insert_eq, ?app_nil_r; cbn; try done;
    try (by intros; apply lookup_insert_ne); try apply advanced_incr;
    rewrite !stat_set_ne by done; by repeat split; apply advanced_0.
Qed.

Lemma record_event_integrity_loss_quiet : keeps quiet record_event_integrity_loss.
Proof.
  intros w. destruct (record_event_integrity_loss_moved w). split; [done|].
  exists 1. split; [lia | done].
Qed.

(** A recorded loss followed by the increment of a counter. *)
Lemma loss_then_incr_moved f w :
  let m := record_event_integrity_loss ;;; with_stats (fun s => stat_incr s f) in
  only_counters w (snd (m w)) /\
  moved w (snd (m w)) []
    (if decide (f = event_seq) then 1 else 0)
    (if decide (f = ringbuf_reserve_fail) then 1 else 0)
    (if decide (f = ringbuf_copy_fail) then 1 else 0) 1.
Proof.
  cbv zeta. unfold bind.
  destruct (record_event_integrity_loss_moved w) as [O1 M1].
  destruct (record_event_integrity_loss w) as [[] w1].
  destruct (stat_incr_moved f w1) as [O2 M2].
  split; [by etrans|]. exact (moved_trans _ _ _ _ _ _ _ _ _ _ _ _ _ M1 M2).
Qed.

Lemma record_ringbuf_copy_fail_moved w :
  only_counters w (snd (record_ringbuf_copy_fail w)) /\
  moved w (snd (record_ringbuf_copy_fail w)) [] 0 0 1 1.
Proof. apply (loss_then_incr_moved ringbuf_copy_fail). Qed.

Lemma record_ringbuf_reserve_fail_moved w :
  only_counters w (snd (record_ringbuf_reserve_fail w)) /\
  moved w (snd (record_ringbuf_reserve_fail w)) [] 0 1 0 1.
Proof. apply (loss_then_incr_moved ringbuf_reserve_fail). Qed.

(** A new sequence number: the counter moves by one, and the number is its new value. *)
Lemma next_event_sequence_moved w :
  only_counters w (snd (next_event_sequence w)) /\
  moved w (snd (next_event_sequence w)) [] 1 0 0 0 /\
  (forall s, stats w !! cur_cpu (running w) = Some s ->
     fst (next_event_sequence w) = u64 (s event_seq + 1)).
Proof.
  assert (next_event_sequence w =
    match stats w !! cur_cpu (running w) with
    | Some v => (u64 (v event_seq + 1), snd (with_stats (fun s => stat_incr s event_seq) w))
    | None => (0, w)
    end) as ->.
  { unfold next_event_sequence, bind, lookup_stats at 1, gets.
    destruct (stats w !! _); [|done]. by destruct (with_stats _ w). }
  destruct (stats w !! cur_cpu (running w)) as [s|] eqn:E.
  - destruct (stat_incr_moved event_seq w) as [O M]. cbn [fst snd].
    split_and!; [done | done |]. by intros ? [= <-].
  - cbn [fst snd]. split_and!; [done | | done]. split; rewrite ?E, ?app_nil_r; try done.
    destruct (loss w !! _); [apply advanced_0|done].
Qed.

Hint Resolve tick_quiet record_event_integrity_loss_quiet : keeps.
Hint Extern 2 (keeps quiet (with_stats (fun s => stat_incr s _))) =>
  (apply stat_incr_quiet; discriminate) : keeps.

Lemma bpf_ktime_get_ns_quiet : keeps quiet bpf_ktime_get_ns.
Proof. unfold bpf_ktime_get_ns. keeps_solve. Qed.
Lemma record_payload_truncated_event_quiet : keeps quiet record_payload_truncated_event.
Proof. unfold record_payload_truncated_event. keeps_solve. Qed.
Lemma record_pending_update_fail_quiet : keeps quiet record_pending_update_fail.
Proof. unfold record_pending_update_fail. keeps_solve. Qed.
Lemma record_lifecycle_map_update_fail_quiet : keeps quiet record_lifecycle_map_update_fail.
Proof. unfold record_lifecycle_map_update_fail. keeps_solve. Qed.
Lemma record_pending_mismatch_quiet : keeps quiet record_pending_mismatch.
Proof. unfold record_pending_mismatch. keeps_solve. Qed.
Lemma record_lifecycle_fork_child_filter_quiet b :
  keeps quiet (record_lifecycle_fork_child_filter b).
Proof. unfold record_lifecycle_fork_child_filter, lookup_stats. keeps_solve. Qed.

Lemma orphan_update_frame pid tid sys_id r reason now s g :
  g = event_seq \/ g = ringbuf_reserve_fail \/ g = ringbuf_copy_fail ->
  orphan_update pid tid sys_id r reason now s g = s g.
Proof.
  intros [-> | [-> | ->]]; unfold orphan_update; cbv zeta;
    destruct (_ =? 0); rewrite ?stat_set_ne, ?stat_incr_ne; done.
Qed.

Hint Resolve bpf_ktime_get_ns_quiet : keeps.

Lemma record_orphan_exit_quiet pid tid sys_id r reason :
  keeps quiet (record_orphan_exit pid tid sys_id r reason).
Proof.
  unfold record_orphan_exit, lookup_stats. keeps_solve.
  apply with_stats_quiet. intros. by apply orphan_update_frame.
Qed.

Lemma bpf_get_stackid_quiet : keeps quiet bpf_get_stackid.
Proof. unfold bpf_get_stackid. keeps_solve. Qed.
Lemma bpf_get_current_comm_quiet : keeps quiet bpf_get_current_comm.
Proof. unfold bpf_get_current_comm. keeps_solve. Qed.
Lemma bpf_map_lookup_elem_quiet m k : keeps quiet (bpf_map_lookup_elem m k).
Proof. unfold bpf_map_lookup_elem. keeps_solve. Qed.
Lemma bpf_probe_read_user_quiet size addr : keeps quiet (bpf_probe_read_user size addr).
Proof. unfold bpf_probe_read_user. keeps_solve. Qed.
Lemma bpf_probe_read_user_str_quiet size addr : keeps quiet (bpf_probe_read_user_str size addr).
Proof. unfold bpf_probe_read_user_str. keeps_solve. Qed.
Lemma bpf_probe_read_kernel_quiet size addr : keeps quiet (bpf_probe_read_kernel size addr).
Proof. unfold bpf_probe_read_kernel. keeps_solve. Qed.
Lemma bpf_probe_read_kernel_str_quiet size addr :
  keeps quiet (bpf_probe_read_kernel_str size addr).
Proof. unfold bpf_probe_read_kernel_str. keeps_solve. Qed.
Lemma bpf_core_read_quiet f p : keeps quiet (bpf_core_read f p).
Proof. unfold bpf_core_read. keeps_solve. Qed.
Lemma bpf_core_read_into_quiet f p : keeps quiet (bpf_core_read_into f p).
Proof. unfold bpf_core_read_into. keeps_solve. Qed.
Lemma bpf_core_read_pair_quiet f g p : keeps quiet (bpf_core_read_pair f g p).
Proof. unfold bpf_core_read_pair. keeps_solve. Qed.
Lemma should_trace_syscall_quiet sys_id cfg : keeps quiet (should_trace_syscall sys_id cfg).
Proof.
  unfold should_trace_syscall. keeps_solve; apply bpf_map_lookup_elem_quiet.
Qed.
Lemma capture_event_integrity_quiet : keeps quiet capture_event_integrity.
Proof. unfold capture_event_integrity, bpf_get_smp_processor_id. keeps_solve. Qed.
End StatsLemmas.

#[export] Hint Resolve tick_quiet record_event_integrity_loss_quiet bpf_ktime_get_ns_quiet
  record_payload_truncated_event_quiet record_pending_update_fail_quiet
  record_lifecycle_map_update_fail_quiet record_pending_mismatch_quiet
  record_lifecycle_fork_child_filter_quiet record_orphan_exit_quiet bpf_get_stackid_quiet
  bpf_get_current_comm_quiet bpf_map_lookup_elem_quiet bpf_probe_read_user_quiet
  bpf_probe_read_user_str_quiet bpf_probe_read_kernel_quiet bpf_probe_read_kernel_str_quiet
  bpf_core_read_quiet bpf_core_read_into_quiet bpf_core_read_pair_quiet should_trace_syscall_quiet
  capture_event_integrity_quiet : keeps.
#[export] Hint Extern 2 (keeps quiet (with_stats (fun s => stat_incr s _))) =>
  (apply stat_incr_quiet; discriminate) : keeps.
(** A quiet program is also an emitter and accounted. *)
#[export] Hint Extern 5 (keeps emits _) =>
  (eapply keeps_weaken; [|exact quiet_emits]) : keeps.
#[export] Hint Extern 5 (keeps accounted _) =>
  (eapply keeps_weaken; [|exact quiet_accounted]) : keeps.
