(* ===== verification/Tlv.v ===== *)
(** TLV payload sections: the producer's helpers and their contract.

    Models [bpf/payload_tlv.h] and [payload_tlv_write_header_direct] of
    [bpf/syscall_event_core_v2.h].  [tlv_capture] is the interface every
    capture routine of the BPF side promises to the emitters: it stays inside
    its part of the record, and what it leaves there decodes. *)
From stdpp Require Import base list gmap numbers.
From S2P Require Import Prelude Syscalls Abi Kernel Consumer Stats.

(** ** The producer: [payload_tlv.h] *)

Definition payload_tlv_clamp_u32 (value : Z) : Z :=
  if 0xffffffff <? value then 0xffffffff else u32 value.

Definition payload_tlv_copy_len (value max : Z) : Z :=
  if max <? value then max else u32 value.

Definition payload_tlv_data_bucket (copied_len : Z) : Z :=
  if copied_len =? 0 then 0
  else if copied_len <=? PAYLOAD_TLV_DATA_BUCKET_64 then PAYLOAD_TLV_DATA_BUCKET_64
  else if copied_len <=? PAYLOAD_TLV_DATA_BUCKET_128 then PAYLOAD_TLV_DATA_BUCKET_128
  else if copied_len <=? PAYLOAD_TLV_DATA_BUCKET_256 then PAYLOAD_TLV_DATA_BUCKET_256
  else PAYLOAD_TLV_DATA_BUCKET_512.

Section Producer.
Context {K : Kernel} {A : Arch}.

Definition payload_tlv_data_direct (ptr : dynptr) (data_offset copied_len : Z)
    : prog (option (nat * Z)) :=
  if copied_len =? 0 then ret None
  else if copied_len <=? PAYLOAD_TLV_DATA_BUCKET_64 then
    bpf_dynptr_data ptr data_offset PAYLOAD_TLV_DATA_BUCKET_64
  else if copied_len <=? PAYLOAD_TLV_DATA_BUCKET_128 then
    bpf_dynptr_data ptr data_offset PAYLOAD_TLV_DATA_BUCKET_128
  else if copied_len <=? PAYLOAD_TLV_DATA_BUCKET_256 then
    bpf_dynptr_data ptr data_offset PAYLOAD_TLV_DATA_BUCKET_256
  else bpf_dynptr_data ptr data_offset PAYLOAD_TLV_DATA_BUCKET_512.

(** [payload_tlv_write_header_direct] of [syscall_event_core_v2.h]. *)
Definition payload_tlv_write_header_direct (ptr : dynptr) (payload_offset : Z)
    (tlv : payload_tlv_header) : prog bool :=
  let* r := bpf_dynptr_write ptr payload_offset (struct_bytes (payload_tlv_header_fields tlv)) in
  if r <? 0 then
    record_ringbuf_copy_fail ;;;
    ret false
  else ret true.
End Producer.

Lemma payload_tlv_copy_len_range value max :
  0 <= value -> 0 <= max < 2 ^ 32 -> 0 <= payload_tlv_copy_len value max <= max.
Proof.
  intros. unfold payload_tlv_copy_len. destruct (Z.ltb_spec max value); [lia|].
  rewrite u32_small; lia.
Qed.

Lemma payload_tlv_copy_len_min value max :
  0 <= value -> 0 <= max < 2 ^ 32 -> payload_tlv_copy_len value max = Z.min value max.
Proof.
  intros. unfold payload_tlv_copy_len. destruct (Z.ltb_spec max value); [lia|].
  rewrite u32_small; lia.
Qed.

(** The bucket is the smallest of the four sizes that holds the data. *)
Lemma payload_tlv_data_bucket_covers n :
  0 <= n <= 512 -> n <= payload_tlv_data_bucket n <= 512.
Proof.
  intros. unfold payload_tlv_data_bucket. repeat case_test; lia.
Qed.

(** ** Capturing into a reserved record *)

Section Capture.
Context {K : Kernel} {A : Arch}.

(** [d]'s record after the step: same size, same bytes before [off]. *)
Definition record_step (d : nat) (off : Z) (w w' : world) : Prop :=
  forall buf, reserved w !! d = Some buf ->
  exists buf', reserved w' = <[d := buf']> (reserved w) /\
    length buf' = length buf /\ take (Z.to_nat off) buf' = take (Z.to_nat off) buf.

(** What a capture routine may do: write the record [d] from [off] on, use the
    scratch area, and count copy failures, which only a faulting kernel causes. *)
Definition captures (d : nat) (off : Z) (w w' : world) : Prop :=
  same_state w w' /\ record_step d off w w' /\
  exists ncopy nloss, 0 <= ncopy <= nloss /\ moved w w' [] 0 0 ncopy nloss /\
    (no_fault -> ncopy = 0).

#[export] Instance captures_preorder d off : PreOrder (captures d off).
Proof.
  split.
  - intros w. split_and!; [done| |].
    + intros buf E. exists buf. by rewrite insert_id.
    + exists 0, 0. split_and!; try lia. apply moved_refl.
  - intros w1 w2 w3 (S1 & R1 & (c1 & l1 & ? & M1 & F1)) (S2 & R2 & (c2 & l2 & ? & M2 & F2)).
    split_and!; [by etrans| |].
    + intros buf E. destruct (R1 _ E) as (b1 & E1 & L1 & P1).
      destruct (R2 b1) as (b2 & E2 & L2 & P2); [by rewrite E1, lookup_insert_eq|].
      exists b2. rewrite E2, E1, insert_insert_eq. split_and!; [done|congruence..].
    + exists (c1 + c2), (l1 + l2).
      split_and!; [lia|lia| exact (moved_trans _ _ _ _ _ _ _ _ _ _ _ _ _ M1 M2) |].
      intros nf. rewrite F1, F2; done.
Qed.

Lemma captures_mono d off off' w w' : off' <= off -> captures d off w w' -> captures d off' w w'.
Proof.
  intros Ho (S & R & M). split_and!; [done| |done].
  intros buf E. destruct (R _ E) as (b & E1 & L & P). exists b. split_and!; [done..|].
  assert (forall l : list Z, take (Z.to_nat off') l = take (Z.to_nat off') (take (Z.to_nat off) l)) as F.
  { intros l. rewrite take_take. f_equal. lia. }
  by rewrite (F b), P, <- F.
Qed.

Lemma quiet_captures d off w w' : quiet w w' -> captures d off w w'.
Proof.
  intros [[S C R] (n & ? & M)]. split_and!; [done| |].
  - intros buf E. exists buf. by rewrite R, insert_id.
  - exists 0, n. by split_and!; try lia.
Qed.

(** A capture in progress: [w] was reached from [w0], and [d]'s record is [buf]. *)
Record capturing (d : nat) (off size : Z) (w0 w : world) (buf : list Z) : Prop := Capturing {
  cg_rel : captures d off w0 w;
  cg_buf : reserved w !! d = Some buf;
  cg_size : zlen buf = size }.

Lemma capturing_start d off w buf :
  reserved w !! d = Some buf -> capturing d off (zlen buf) w w buf.
Proof. by split. Qed.

Lemma capturing_quiet d off size w0 w w' buf :
  capturing d off size w0 w buf -> quiet w w' -> capturing d off size w0 w' buf.
Proof.
  intros [C B S] Q. split; [|by destruct Q as [[_ _ ->] _]|done].
  etrans; [exact C|]. by apply quiet_captures.
Qed.

(** A write of [bs] at [o >= off] inside the record. *)
Lemma capturing_put d off size w0 w buf o bs w' :
  capturing d off size w0 w buf -> 0 <= off <= o -> o + zlen bs <= size ->
  same_state w w' -> stats w' = stats w -> loss w' = loss w -> submitted w' = submitted w ->
  reserved w' = <[d := put buf o bs]> (reserved w) ->
  capturing d off size w0 w' (put buf o bs).
Proof.
  intros [C B S] Ho Hb SS St Lo Su Re. pose proof (zlen_nonneg bs).
  split; [|by rewrite Re, lookup_insert_eq|by rewrite zlen_put by lia].
  etrans; [exact C|]. split_and!; [done| |].
  - intros b E. rewrite B in E. injection E as <-. exists (put buf o bs).
    split_and!; [done | apply length_put; lia | apply prefix_put; lia].
  - exists 0, 0. split_and!; try lia. apply moved_same; try done; [apply SS|].
    by rewrite Su, app_nil_r.
Qed.

Lemma wp_quiet {B} d off size w0 w buf (m : prog B) (Q : B -> world -> Prop) :
  capturing d off size w0 w buf -> keeps quiet m ->
  (forall r w', capturing d off size w0 w' buf -> Q r w') -> wp m Q w.
Proof. intros C Hm H. apply H. eapply capturing_quiet; [exact C|apply Hm]. Qed.

Lemma wp_copy_fail d off size w0 w buf (Q : unit -> world -> Prop) :
  capturing d off size w0 w buf -> ~ no_fault ->
  (forall r w', capturing d off size w0 w' buf -> Q r w') -> wp record_ringbuf_copy_fail Q w.
Proof.
  intros [C B S] NF H. apply H. destruct (record_ringbuf_copy_fail_moved w) as [[? ? R] M].
  split; [|by rewrite R|done]. etrans; [exact C|]. split_and!; [done| |].
  - intros b E. exists b. by rewrite R, insert_id.
  - exists 1, 1. by split_and!; try lia.
Qed.

Lemma wp_dynptr_write d off size w0 w buf o bs (Q : Z -> world -> Prop) :
  capturing d off size w0 w buf -> 0 <= off <= o -> o + zlen bs <= size ->
  (forall w', capturing d off size w0 w' (put buf o bs) -> Q 0 w') ->
  (forall w', ~ no_fault -> capturing d off size w0 w' buf -> Q (-7) w') ->
  wp (bpf_dynptr_write (Some d) o bs) Q w.
Proof.
  intros C Ho Hb H1 H2. unfold bpf_dynptr_write. wp_step.
  eapply wp_quiet; [exact C | apply tick_quiet |]. intros n w1 C1.
  wp_steps. rewrite (cg_buf _ _ _ _ _ _ C1), (cg_size _ _ _ _ _ _ C1).
  destruct (k_dynptr_ok n) eqn:E; cbn.
  - destruct (Z.leb_spec (o + zlen bs) size); [|lia]. wp_steps. apply H1.
    by eapply capturing_put; [eassumption | ..].
  - wp_steps. apply H2; [|done]. intros NF. rewrite NF in E. done.
Qed.

Lemma wp_dynptr_data d off size w0 w buf o len (Q : option (nat * Z) -> world -> Prop) :
  capturing d off size w0 w buf -> o + len <= size ->
  (forall w', capturing d off size w0 w' buf -> Q (Some (d, o)) w') ->
  (forall w', ~ no_fault -> capturing d off size w0 w' buf -> Q None w') ->
  wp (bpf_dynptr_data (Some d) o len) Q w.
Proof.
  intros C Hb H1 H2. unfold bpf_dynptr_data. wp_step.
  eapply wp_quiet; [exact C | apply tick_quiet |]. intros n w1 C1.
  wp_steps. rewrite (cg_buf _ _ _ _ _ _ C1), (cg_size _ _ _ _ _ _ C1).
  destruct (k_dynptr_ok n) eqn:E; cbn.
  - destruct (Z.leb_spec (o + len) size); [|lia]. wp_steps. by apply H1.
  - wp_steps. apply H2; [|done]. intros NF. rewrite NF in E. done.
Qed.

Lemma wp_data_store d off size w0 w buf o bs (Q : unit -> world -> Prop) :
  capturing d off size w0 w buf -> 0 <= off <= o -> o + zlen bs <= size ->
  (forall w', capturing d off size w0 w' (put buf o bs) -> Q tt w') ->
  wp (data_store (d, o) bs) Q w.
Proof.
  intros C Ho Hb H. unfold data_store. wp_steps. cbn [fst snd].
  rewrite (cg_buf _ _ _ _ _ _ C). apply H. by eapply capturing_put; [eassumption | ..].
Qed.

(** Why a read of user memory gives no data and the error [e]: a null pointer, a
    refused access to the record, or the error the kernel reports for the address. *)
Definition read_failed (user_ptr e : Z) : Prop :=
  e < 0 /\ (user_ptr = 0 \/ ~ no_fault \/ exists k, e = k_user_err k user_ptr).

Lemma failed_null user_ptr e : user_ptr = 0 -> e < 0 -> read_failed user_ptr e.
Proof. split; auto. Qed.
Lemma failed_fault user_ptr e : ~ no_fault -> e < 0 -> read_failed user_ptr e.
Proof. split; auto. Qed.
Lemma failed_probe k addr : k_user_err k addr < 0 -> read_failed addr (k_user_err k addr).
Proof. split; [done|]. right. right. by exists k. Qed.

(** What a user read of [size] bytes returns. *)
Lemma probe_read_user_result n addr w :
  let '(err, bytes) := fst (bpf_probe_read_user n addr w) in
  0 <= n -> zlen bytes = n /\
  ((err = 0 /\ bytes = user_bytes (calls w) addr n) \/
   (read_failed addr err /\ bytes = replicate (Z.to_nat n) 0)).
Proof.
  unfold bpf_probe_read_user, bind, tick, ret.
  destruct (Z.ltb_spec (k_user_err (calls w) addr) 0); cbn; intros.
  - split; [unfold zlen; rewrite length_replicate; lia|]. right. split; [by apply failed_probe | done].
  - split; [unfold zlen, user_bytes; rewrite length_map, length_seq; lia|]. by left.
Qed.

Lemma wp_read_user_into d off size w0 w buf o n addr (Q : Z -> world -> Prop) :
  capturing d off size w0 w buf -> 0 <= off <= o -> 0 <= n -> o + n <= size ->
  (forall w' err bytes, zlen bytes = n ->
     (err = 0 /\ bytes = user_bytes (calls w) addr n) \/ read_failed addr err ->
     capturing d off size w0 w' (put buf o bytes) -> Q err w') ->
  wp (read_user_into (d, o) n addr) Q w.
Proof.
  intros C Ho Hn Hb H. unfold read_user_into. wp_step.
  pose proof (probe_read_user_result n addr w) as R.
  pose proof (bpf_probe_read_user_quiet n addr w) as Qt.
  unfold wp. destruct (bpf_probe_read_user n addr w) as [[err bytes] w1]. cbn [fst snd] in *.
  destruct (R Hn) as [Hl Hr]. fold (wp (data_store (d, o) bytes ;;; ret err) Q w1).
  wp_step. eapply wp_data_store; [by eapply capturing_quiet | lia | lia |].
  intros w' C'. wp_steps. eapply H; [exact Hl | | exact C'].
  destruct Hr as [[? ?] | [? ?]]; auto.
Qed.

Lemma until_nul_length l : (length (until_nul l) <= length l)%nat.
Proof. induction l as [|b l IH]; cbn; [done|]. destruct (b =? 0); cbn; lia. Qed.

(** What a string read returns: a terminated string of at most [n] bytes, or an error. *)
Lemma probe_read_user_str_result n addr w :
  let '(r, bytes) := fst (bpf_probe_read_user_str n addr w) in
  1 <= n -> zlen bytes <= n /\
  ((1 <= r /\ r = zlen bytes /\
      bytes = until_nul (user_bytes (calls w) addr (n - 1)) ++ [0]) \/ read_failed addr r).
Proof.
  unfold bpf_probe_read_user_str, bind, tick, ret.
  destruct (Z.ltb_spec (k_user_err (calls w) addr) 0); cbn; intros.
  - split; [unfold zlen; rewrite length_replicate; lia|]. right. by apply failed_probe.
  - pose proof (until_nul_length (user_bytes (calls w) addr (n - 1))) as L.
    unfold user_bytes at 2 in L. rewrite length_map, length_seq in L.
    assert (zlen (until_nul (user_bytes (calls w) addr (n - 1)) ++ [0])
      = Z.of_nat (length (until_nul (user_bytes (calls w) addr (n - 1)))) + 1) as ->
      by (by rewrite zlen_app).
    split; [lia|]. left. split_and!; [lia|done|done].
Qed.

Lemma wp_read_user_str_into d off size w0 w buf o n addr (Q : Z -> world -> Prop) :
  capturing d off size w0 w buf -> 0 <= off <= o -> 1 <= n -> o + n <= size ->
  (forall w' r bytes, zlen bytes <= n ->
     (1 <= r /\ r = zlen bytes /\
        bytes = until_nul (user_bytes (calls w) addr (n - 1)) ++ [0]) \/ read_failed addr r ->
     capturing d off size w0 w' (put buf o bytes) -> Q r w') ->
  wp (read_user_str_into (d, o) n addr) Q w.
Proof.
  intros C Ho Hn Hb H. unfold read_user_str_into. wp_step.
  pose proof (probe_read_user_str_result n addr w) as R.
  pose proof (bpf_probe_read_user_str_quiet n addr w) as Qt.
  unfold wp. destruct (bpf_probe_read_user_str n addr w) as [[r bytes] w1]. cbn [fst snd] in *.
  destruct (R Hn) as [Hl Hr]. fold (wp (data_store (d, o) bytes ;;; ret r) Q w1).
  wp_step. eapply wp_data_store; [by eapply capturing_quiet | lia | lia |].
  intros w' C'. wp_steps. by eapply H; [exact Hl | exact Hr | exact C'].
Qed.

Lemma wp_write_header d off size w0 w buf o t (Q : bool -> world -> Prop) :
  capturing d off size w0 w buf -> 0 <= off <= o -> o + PAYLOAD_TLV_HEADER_SIZE <= size ->
  (forall w', capturing d off size w0 w' (put buf o (struct_bytes (payload_tlv_header_fields t))) ->
     Q true w') ->
  (forall w', ~ no_fault -> capturing d off size w0 w' buf -> Q false w') ->
  wp (payload_tlv_write_header_direct (Some d) o t) Q w.
Proof.
  intros C Ho Hb H1 H2. unfold payload_tlv_write_header_direct. wp_step.
  eapply wp_dynptr_write; [exact C | lia | rewrite payload_tlv_header_size; lia | |].
  - intros w' C'. cbn. wp_steps. by apply H1.
  - intros w' NF C'. cbn. wp_step. eapply wp_copy_fail; [exact C' | done |].
    intros _ w2 C2. wp_steps. by apply H2.
Qed.

Lemma wp_data_direct d off size w0 w buf o n (Q : option (nat * Z) -> world -> Prop) :
  capturing d off size w0 w buf -> 0 < n <= 512 -> o + payload_tlv_data_bucket n <= size ->
  (forall w', capturing d off size w0 w' buf -> Q (Some (d, o)) w') ->
  (forall w', ~ no_fault -> capturing d off size w0 w' buf -> Q None w') ->
  wp (payload_tlv_data_direct (Some d) o n) Q w.
Proof.
  intros C Hn Hb H1 H2. unfold payload_tlv_data_direct, payload_tlv_data_bucket in *.
  repeat case_test; try lia; eapply wp_dynptr_data; eauto; lia.
Qed.

(** ** The contract of a capture routine *)

(** The tail every capture routine shares: [if (!payload_tlv_write_header_direct(...))
    return 0; return PAYLOAD_TLV_HEADER_SIZE + copied_len;]. *)
Definition finish_section (ptr : dynptr) (payload_offset : Z) (t : payload_tlv_header) : prog Z :=
  let* ok := payload_tlv_write_header_direct ptr payload_offset t in
  if ok then ret (PAYLOAD_TLV_HEADER_SIZE + t_copied_len t) else ret 0.

(** The consumer decodes the [n] bytes at [off] of [d]'s record into sections that
    satisfy [P]. *)
Definition decodable (P : list PayloadSection -> Prop) (d : nat) (off n : Z) (w : world) : Prop :=
  exists buf secs, reserved w !! d = Some buf /\
    decodePayloadTLVSections (slice buf off n) = Some secs /\ P secs.

(** [f ptr off] writes at most [cap] bytes of payload at [off], returns how
    many, disturbs nothing else, and under [guard] leaves a payload that
    decodes into sections that satisfy [P]. *)
Definition tlv_capture (guard : Prop) (P : list PayloadSection -> Prop) (cap : Z)
    (f : dynptr -> Z -> prog Z) : Prop :=
  forall w d buf off, reserved w !! d = Some buf -> 0 <= off -> off + cap <= zlen buf ->
  wp (f (Some d) off) (fun n w' =>
    0 <= n <= cap /\ captures d off w w' /\ (guard -> decodable P d off n w')) w.

(** Any sections. *)
Definition any_sections (secs : list PayloadSection) : Prop := True.

(** One section described by [P], or none when the kernel refused a write to the record. *)
Definition one_section (P : PayloadSection -> Prop) (secs : list PayloadSection) : Prop :=
  (exists s, secs = [s] /\ P s) \/ (secs = [] /\ ~ no_fault).

(** The record holds the section [t] with [n - 32] bytes of data. *)
Lemma section_decodes buf off n t kind :
  slice buf off PAYLOAD_TLV_HEADER_SIZE = struct_bytes (payload_tlv_header_fields t) ->
  payloadKindFromTLV (u16 (t_kind t)) = Some kind ->
  0 <= off -> n = PAYLOAD_TLV_HEADER_SIZE + t_copied_len t -> 0 <= t_copied_len t < 2 ^ 32 ->
  off + n <= zlen buf ->
  decodePayloadTLVSections (slice buf off n) =
    Some [section_of t kind (slice buf (off + PAYLOAD_TLV_HEADER_SIZE) (t_copied_len t))].
Proof.
  intros Hs Hk Ho -> Hc Hb. rewrite slice_app by lia. rewrite Hs.
  rewrite <- (app_nil_r (slice buf (off + 32) _)).
  erewrite decode_written_sections; [|exact Hk|..]; rewrite ?app_nil_r; try done.
  - by rewrite zlen_slice by lia.
  - rewrite zlen_slice; lia.
Qed.

Lemma decodable_0 (P : list PayloadSection -> Prop) d off size w0 w buf :
  capturing d off size w0 w buf -> P [] -> decodable P d off 0 w.
Proof. intros C HP. exists buf, []. split_and!; [apply C| |done]. by rewrite slice_0. Qed.

Lemma wp_finish_section (P : PayloadSection -> Prop) d off size w0 w buf t kind cap
    (Q : Z -> world -> Prop) :
  capturing d off size w0 w buf -> 0 <= off ->
  PAYLOAD_TLV_HEADER_SIZE + t_copied_len t <= cap -> off + cap <= size ->
  0 <= t_copied_len t < 2 ^ 32 -> payloadKindFromTLV (u16 (t_kind t)) = Some kind ->
  P (section_of t kind (slice buf (off + PAYLOAD_TLV_HEADER_SIZE) (t_copied_len t))) ->
  (forall n w', 0 <= n <= cap -> captures d off w0 w' -> decodable (one_section P) d off n w' ->
     Q n w') ->
  wp (finish_section (Some d) off t) Q w.
Proof.
  intros C Ho Hn Hc Hl Hk HP H. unfold finish_section. wp_step.
  pose proof (payload_tlv_header_size t) as Hz. pose proof (cg_size _ _ _ _ _ _ C) as Hsz.
  eapply wp_write_header; [exact C | lia | lia | |].
  - intros w' C'. wp_steps. apply H; [lia | apply C' |].
    eexists _, [_]. split_and!; [apply C' | | left; eexists; split; [done | exact HP]].
    erewrite section_decodes; [|apply slice_put_same; lia|exact Hk|lia|done|lia|].
    + by rewrite slice_put_after by lia.
    + rewrite zlen_put; lia.
  - intros w' NF C'. wp_steps. apply H; [lia | apply C' |].
    eapply decodable_0; [exact C'|]. by right.
Qed.

(** Nothing captured. *)
Lemma tlv_capture_none guard (P : list PayloadSection -> Prop) cap f :
  0 <= cap -> P [] -> (forall ptr off, f ptr off = ret 0) -> tlv_capture guard P cap f.
Proof.
  intros Hc HP E w d buf off Hb Ho Hs. rewrite E. wp_steps.
  split_and!; [lia | lia | reflexivity |]. intros _. exists buf, []. by rewrite slice_0.
Qed.

Lemma tlv_capture_weaken (g g' : Prop) (P P' : list PayloadSection -> Prop) cap cap' f :
  (g' -> g) -> (forall s, P s -> P' s) -> cap <= cap' ->
  tlv_capture g P cap f -> tlv_capture g' P' cap' f.
Proof.
  intros Hg HP Hc Hf w d buf off Hb Ho Hs.
  eapply wp_mono; [eapply Hf; [exact Hb | lia | lia]|].
  intros n w' (? & ? & D). split_and!; [lia | lia | done |].
  intros G. destruct (D (Hg G)) as (b & s & ? & ? & ?). exists b, s. auto.
Qed.

(** The sections of two payloads one after the other. *)
Definition appended (P1 P2 : list PayloadSection -> Prop) (secs : list PayloadSection) : Prop :=
  exists s1 s2, secs = s1 ++ s2 /\ P1 s1 /\ P2 s2.

Lemma decodable_app P1 P2 d off n m w1 w2 :
  0 <= off -> 0 <= n -> 0 <= m ->
  decodable P1 d off n w1 -> captures d (off + n) w1 w2 -> decodable P2 d (off + n) m w2 ->
  decodable (appended P1 P2) d off (n + m) w2.
Proof.
  intros Ho Hn Hm (b1 & s1 & Hb1 & S1 & ?) C2 (b2 & s2 & Hb2 & S2 & ?).
  destruct (proj1 (proj2 C2) _ Hb1) as (b2' & E2 & L2 & P).
  assert (b2' = b2) as -> by (rewrite E2, lookup_insert_eq in Hb2; congruence).
  exists b2, (s1 ++ s2). split_and!; [done | | by exists s1, s2].
  rewrite slice_app by lia. apply decode_sections_app; [|done].
  rewrite <- S1. f_equal. eapply slice_of_prefix; [exact P | lia..].
Qed.

(** Two captures one after the other, the second right behind the first. *)
Lemma tlv_capture_seq guard P1 P2 cap1 cap2 f g :
  tlv_capture guard P1 cap1 f -> tlv_capture guard P2 cap2 g -> 0 <= cap2 ->
  tlv_capture guard (appended P1 P2) (cap1 + cap2) (fun ptr off =>
    let* n := f ptr off in
    let* m := g ptr (off + n) in
    ret (n + m)).
Proof.
  intros Hf Hg Hc w d buf off Hb Ho Hs. wp_step.
  eapply wp_mono; [eapply Hf; [exact Hb | lia | lia]|].
  intros n w1 (Hn & C1 & D1). cbv beta.
  destruct (proj1 (proj2 C1) _ Hb) as (b1 & E1 & L1 & _).
  assert (reserved w1 !! d = Some b1) as Hb1 by (by rewrite E1, lookup_insert_eq).
  assert (zlen b1 = zlen buf) as Z1 by (unfold zlen; by rewrite L1).
  wp_step. eapply wp_mono; [eapply Hg; [exact Hb1 | lia | lia]|].
  intros m w2 (Hm & C2 & D2). wp_steps. split_and!; [lia | lia | |].
  - etrans; [exact C1|]. eapply captures_mono; [|exact C2]. lia.
  - intros G. eapply decodable_app; eauto; lia.
Qed.
End Capture.

(** Closes a goal [read_failed p e] from the case at hand. *)
Ltac solve_failed :=
  solve [ assumption
        | by apply failed_null
        | by apply failed_fault
        | match goal with
          | H : _ \/ read_failed ?a ?e |- read_failed ?a ?e =>
              destruct H as [[? _]|?]; [lia | assumption]
          end ].
