(* ===== verification/Emit.v ===== *)
(** Emitting one record.

    Every emitter of the BPF side follows the same protocol: allocate a
    sequence number, reserve a record, capture the payload, write the header
    and the body, submit; a failed reservation or write is counted and the
    record is dropped.  [emit_record_by] is that protocol and [emit_record] its most
    common use; [commit_record] and its variants write the two fixed parts, with the header
    of [bpf/runtime_abi.h] ([capture_event_v2_comm]) and
    [bpf/syscall_event_core_v2.h] ([init_syscall_event_v2_header_direct]).
    [emit_record_wp] is what every emitter inherits. *)
From stdpp Require Import base list gmap numbers.
From S2P Require Import Prelude Syscalls Abi Kernel Consumer Stats Tlv.

Section Emit.
Context {K : Kernel} {A : Arch}.

(** [capture_event_v2_comm]: the command name when the configuration asks for it. *)
Definition capture_event_v2_comm : prog (list Z) :=
  let* config := bpf_map_lookup_elem config_map 0 in
  match config with
  | Some c => if has_flag c CONFIG_DECODE_PID_COMM then bpf_get_current_comm else ret (replicate 16 0)
  | None => ret (replicate 16 0)
  end.

Definition init_syscall_event_v2_header_direct
    (event_type flags pid tid sys_id out_size ts_ns sequence : Z) : prog event_v2_header :=
  let* (cpu, reserved, epoch, time) := capture_event_integrity in
  let* comm := capture_event_v2_comm in
  ret (EventHeader EVENT_VERSION event_type flags EVENT_V2_HEADER_LEN out_size pid tid sys_id
         sequence ts_ns comm cpu reserved epoch time).

(** The second half of the protocol: header, body and submission. *)
Definition commit_record (ptr : dynptr) (sequence flags payload_size : Z)
    (header : Z -> Z -> prog event_v2_header) (body : Z -> prog (list Z)) : prog unit :=
  let* h := header sequence flags in
  let* r := bpf_dynptr_write ptr 0 (struct_bytes (event_v2_header_fields h)) in
  if r <? 0 then
    record_ringbuf_copy_fail ;;;
    bpf_ringbuf_discard_dynptr ptr
  else
    let* b := body payload_size in
    let* r := bpf_dynptr_write ptr EVENT_V2_HEADER_LEN b in
    if r <? 0 then
      record_ringbuf_copy_fail ;;;
      bpf_ringbuf_discard_dynptr ptr
    else bpf_ringbuf_submit_dynptr ptr.

(** The same with the header and the body built in the record: [event_v2_header_from_dynptr_direct]
    and [bpf_dynptr_data] for the body. *)
Definition commit_record_in_place (body_len : Z) (ptr : dynptr) (sequence flags payload_size : Z)
    (header : Z -> Z -> prog event_v2_header) (body : Z -> prog (list Z)) : prog unit :=
  let* header_data := bpf_dynptr_data ptr 0 EVENT_V2_HEADER_LEN in
  match header_data with
  | None => record_ringbuf_copy_fail ;;; bpf_ringbuf_discard_dynptr ptr
  | Some header_data =>
      let* h := header sequence flags in
      data_store header_data (struct_bytes (event_v2_header_fields h)) ;;;
      let* body_data := bpf_dynptr_data ptr EVENT_V2_HEADER_LEN body_len in
      match body_data with
      | None => record_ringbuf_copy_fail ;;; bpf_ringbuf_discard_dynptr ptr
      | Some body_data =>
          let* b := body payload_size in
          data_store body_data b ;;;
          bpf_ringbuf_submit_dynptr ptr
      end
  end.

(** The same with the header in the record and the body written to it. *)
Definition commit_record_header_in_place (ptr : dynptr) (sequence flags payload_size : Z)
    (header : Z -> Z -> prog event_v2_header) (body : Z -> prog (list Z)) : prog unit :=
  let* header_data := bpf_dynptr_data ptr 0 EVENT_V2_HEADER_LEN in
  match header_data with
  | None => record_ringbuf_copy_fail ;;; bpf_ringbuf_discard_dynptr ptr
  | Some header_data =>
      let* h := header sequence flags in
      data_store header_data (struct_bytes (event_v2_header_fields h)) ;;;
      let* b := body payload_size in
      let* r := bpf_dynptr_write ptr EVENT_V2_HEADER_LEN b in
      if r <? 0 then
        record_ringbuf_copy_fail ;;;
        bpf_ringbuf_discard_dynptr ptr
      else bpf_ringbuf_submit_dynptr ptr
  end.

(** The protocol shared by the emitters.  [payload ptr] captures into the
    record and returns the event flags, the payload size and what the body needs of it,
    or gives the record up; [commit] builds the two fixed parts.  The result is what
    the payload left in the caller's variables. *)
Definition emit_record_by {X} (out_size : Z) (payload : dynptr -> prog (option (Z * Z * X)))
    (commit : X -> dynptr -> Z -> Z -> Z -> prog unit) : prog (option X) :=
  let* sequence := next_event_sequence in
  let* (r, ptr) := bpf_ringbuf_reserve_dynptr out_size in
  if r <? 0 then
    record_ringbuf_reserve_fail ;;;
    bpf_ringbuf_discard_dynptr ptr ;;;
    ret None
  else
    let* captured := payload ptr in
    match captured with
    | None => bpf_ringbuf_discard_dynptr ptr ;;; ret None
    | Some (flags, payload_size, x) =>
        commit x ptr sequence flags payload_size ;;;
        ret (Some x)
    end.

(** The protocol of the emitters that write both parts with [bpf_dynptr_write]. *)
Definition emit_record_returning {X} (out_size : Z) (payload : dynptr -> prog (option (Z * Z * X)))
    (header : Z -> Z -> prog event_v2_header) (body : X -> Z -> prog (list Z)) : prog (option X) :=
  emit_record_by out_size payload
    (fun x ptr sequence flags payload_size => commit_record ptr sequence flags payload_size header (body x)).

Definition emit_record_using {X} (out_size : Z) (payload : dynptr -> prog (option (Z * Z * X)))
    (header : Z -> Z -> prog event_v2_header) (body : X -> Z -> prog (list Z)) : prog unit :=
  let* _ := emit_record_returning out_size payload header body in
  ret tt.

(** A body that only needs the payload size. *)
Definition emit_record_checked (out_size : Z) (payload : dynptr -> prog (option (Z * Z)))
    (header : Z -> Z -> prog event_v2_header) (body : Z -> prog (list Z)) : prog unit :=
  emit_record_using out_size
    (fun ptr => let* r := payload ptr in ret (option_map (fun c => (c, tt)) r)) header
    (fun _ => body).

(** The protocol of an emitter that always keeps its record. *)
Definition emit_record (out_size : Z) (payload : dynptr -> prog (Z * Z))
    (header : Z -> Z -> prog event_v2_header) (body : Z -> prog (list Z)) : prog unit :=
  emit_record_checked out_size (fun ptr => let* x := payload ptr in ret (Some x)) header body.

(** The protocol of an emitter that commits its record its own way. *)
Definition emit_record_committed (out_size : Z) (payload : dynptr -> prog (Z * Z))
    (commit : dynptr -> Z -> Z -> Z -> prog unit) : prog unit :=
  let* _ := emit_record_by out_size (fun ptr => let* c := payload ptr in ret (Some (c, tt))) (fun _ => commit) in
  ret tt.

(** [if (payload_size > 0) flags |= EVENT_FLAG_PAYLOAD_TLV;]. *)
Definition tlv_flag (base n : Z) : Z :=
  if 0 <? n then Z.lor base EVENT_FLAG_PAYLOAD_TLV else base.

(** The protocol with the header of a syscall entry or exit, and room for
    [cap] bytes of payload. *)
Definition enter_emit (cap pid tid sys_id ts_ns : Z) (payload : dynptr -> prog (Z * Z))
    (body : Z -> prog (list Z)) : prog unit :=
  let out_size := EVENT_V2_HEADER_LEN + EVENT_V2_ENTER_BODY_LEN + cap in
  emit_record out_size payload
    (fun sequence flags => init_syscall_event_v2_header_direct EVENT_TYPE_ENTER flags pid tid
       sys_id out_size ts_ns sequence) body.

Definition exit_emit (cap pid tid sys_id ts_ns : Z) (payload : dynptr -> prog (Z * Z))
    (body : Z -> prog (list Z)) : prog unit :=
  let out_size := EVENT_V2_HEADER_LEN + EVENT_V2_EXIT_BODY_LEN + cap in
  emit_record out_size payload
    (fun sequence flags => init_syscall_event_v2_header_direct EVENT_TYPE_EXIT flags pid tid
       sys_id out_size ts_ns sequence) body.

(** The same when the body, or the caller, needs more of the payload than its size. *)
Definition enter_emit_returning {X} (cap pid tid sys_id ts_ns : Z) (payload : dynptr -> prog (Z * Z * X))
    (body : X -> Z -> prog (list Z)) : prog (option X) :=
  let out_size := EVENT_V2_HEADER_LEN + EVENT_V2_ENTER_BODY_LEN + cap in
  emit_record_returning out_size (fun ptr => let* x := payload ptr in ret (Some x))
    (fun sequence flags => init_syscall_event_v2_header_direct EVENT_TYPE_ENTER flags pid tid
       sys_id out_size ts_ns sequence) body.

Definition enter_emit_using {X} (cap pid tid sys_id ts_ns : Z) (payload : dynptr -> prog (Z * Z * X))
    (body : X -> Z -> prog (list Z)) : prog unit :=
  let* _ := enter_emit_returning cap pid tid sys_id ts_ns payload body in
  ret tt.

Definition exit_emit_using {X} (cap pid tid sys_id ts_ns : Z) (payload : dynptr -> prog (Z * Z * X))
    (body : X -> Z -> prog (list Z)) : prog unit :=
  let out_size := EVENT_V2_HEADER_LEN + EVENT_V2_EXIT_BODY_LEN + cap in
  emit_record_using out_size (fun ptr => let* x := payload ptr in ret (Some x))
    (fun sequence flags => init_syscall_event_v2_header_direct EVENT_TYPE_EXIT flags pid tid
       sys_id out_size ts_ns sequence) body.

(** ** Contracts *)

(** [payload] leaves [n] bytes of payload behind the body, related to the flags by [P]. *)
Definition payload_ok (off cap : Z) (P : Z -> list Z -> Prop)
    (payload : dynptr -> prog (Z * Z)) : Prop :=
  forall w d buf, reserved w !! d = Some buf -> off + cap <= zlen buf ->
  wp (payload (Some d)) (fun '(flags, n) w' =>
    0 <= n <= cap /\ captures d off w w' /\
    exists buf', reserved w' !! d = Some buf' /\ P flags (slice buf' off n)) w.

(** The same for a payload that may give the record up, after a counted copy failure, and
    that returns what the body needs. *)
Definition payload_using {X} (off cap : Z) (P : X -> Z -> list Z -> Prop)
    (payload : dynptr -> prog (option (Z * Z * X))) : Prop :=
  forall w d buf, reserved w !! d = Some buf -> off + cap <= zlen buf ->
  wp (payload (Some d)) (fun r w' => captures d off w w' /\
    match r with
    | Some (flags, n, x) => 0 <= n <= cap /\
        exists buf', reserved w' !! d = Some buf' /\ P x flags (slice buf' off n)
    | None => ~ no_fault /\ exists nc nl, 1 <= nc <= nl /\ moved w w' [] 0 0 nc nl
    end) w.

(** The same for a payload that may give the record up, after a counted copy failure. *)
Definition payload_checked (off cap : Z) (P : Z -> list Z -> Prop)
    (payload : dynptr -> prog (option (Z * Z))) : Prop :=
  forall w d buf, reserved w !! d = Some buf -> off + cap <= zlen buf ->
  wp (payload (Some d)) (fun r w' => captures d off w w' /\
    match r with
    | Some (flags, n) => 0 <= n <= cap /\
        exists buf', reserved w' !! d = Some buf' /\ P flags (slice buf' off n)
    | None => ~ no_fault /\ exists nc nl, 1 <= nc <= nl /\ moved w w' [] 0 0 nc nl
    end) w.

(** [header] builds a header that satisfies [P] on the CPU and task of [r]. *)
Definition header_ok (r : exec_ctx) (P : Z -> Z -> event_v2_header -> Prop)
    (header : Z -> Z -> prog event_v2_header) : Prop :=
  forall seq flags w, running w = r ->
  wp (header seq flags) (fun h w' => quiet w w' /\ P seq flags h) w.

(** [body n] builds the body of a record with [n <= cap] bytes of payload. *)
Definition body_ok (len cap : Z) (P : Z -> list Z -> Prop) (body : Z -> prog (list Z)) : Prop :=
  forall n w, 0 <= n <= cap -> wp (body n) (fun b w' => quiet w w' /\ zlen b = len /\ P n b) w.

(** The bytes of a submitted record: the header at 0, the body behind it, and
    the payload behind the body. *)
Record well_formed (out_size body_len cap : Z) (Pf : Z -> list Z -> Prop)
    (Ph : Z -> Z -> event_v2_header -> Prop) (Pb : Z -> list Z -> Prop)
    (seq : Z) (rec : list Z) : Prop := WellFormed {
  wf_size : zlen rec = out_size;
  wf_parts : exists flags n h,
    slice rec 0 EVENT_V2_HEADER_LEN = struct_bytes (event_v2_header_fields h) /\
    Ph seq flags h /\ Pb n (slice rec EVENT_V2_HEADER_LEN body_len) /\ 0 <= n <= cap /\
    Pf flags (slice rec (EVENT_V2_HEADER_LEN + body_len) n) }.

(** How an emission attempt ends. *)
Inductive outcome (W : Z -> list Z -> Prop) (w w' : world) : Prop :=
  | Submitted seq rec :
      submitted w' = submitted w ++ [rec] -> W seq rec ->
      (forall s, stats w !! cur_cpu (running w) = Some s -> seq = u64 (s event_seq + 1)) ->
      outcome W w w'
  | NoRoom :
      submitted w' = submitted w -> ~ ring_has_room -> outcome W w w'
  | Faulted :
      submitted w' = submitted w -> ~ no_fault -> outcome W w w'.

(** ** Steps *)

Lemma reserve_fresh w : reserved w !! reserve_id w = None.
Proof. apply not_elem_of_dom. unfold reserve_id. apply is_fresh. Qed.

(** A successful reservation adds one record and changes nothing else. *)
Lemma wp_reserve size w (Q : Z * dynptr -> world -> Prop) :
  0 <= size ->
  (forall w' d buf, same_state w w' -> moved w w' [] 0 0 0 0 -> reserved w !! d = None ->
     reserved w' = <[d := buf]> (reserved w) -> zlen buf = size -> Q (0, Some d) w') ->
  (forall w', quiet w w' -> ~ ring_has_room -> Q (-1, None) w') ->
  wp (bpf_ringbuf_reserve_dynptr size) Q w.
Proof.
  intros Hs H1 H2. unfold bpf_ringbuf_reserve_dynptr. wp_step.
  unfold wp. cbn [tick fst snd]. destruct (k_reserve_ok (calls w) size) eqn:E.
  - eapply H1; [done | | apply (reserve_fresh w) | reflexivity |].
    + apply moved_same; try done. cbn. by rewrite app_nil_r.
    + unfold zlen. rewrite length_map, length_seq. lia.
  - apply H2; [apply tick_quiet|]. intros R. rewrite R in E. done.
Qed.

(** The records of [w] without [d], when [w] was reached by capturing into [d]. *)
Lemma delete_captured d off w0 w (m : gmap nat (list Z)) b0 :
  captures d off w0 w -> m !! d = None -> reserved w0 = <[d := b0]> m ->
  delete d (reserved w) = m.
Proof.
  intros (_ & R & _) Hm E0.
  destruct (R b0) as (b & -> & _ & _); [by rewrite E0, lookup_insert_eq|].
  by rewrite E0, insert_insert_eq, delete_insert_id.
Qed.

(** Giving a record up: a counted copy failure and a discard. *)
Lemma wp_drop d size w0 w buf (m : gmap nat (list Z)) b0 (Q : unit -> world -> Prop) :
  capturing d 0 size w0 w buf -> m !! d = None -> reserved w0 = <[d := b0]> m ->
  (forall w' ncopy nloss, same_state w0 w' -> moved w0 w' [] 0 0 ncopy nloss ->
     1 <= ncopy <= nloss -> reserved w' = m -> Q tt w') ->
  wp (record_ringbuf_copy_fail ;;; bpf_ringbuf_discard_dynptr (Some d)) Q w.
Proof.
  intros [C B _] Hm E0 H. pose proof C as (S & R & c & l & ? & M & _). wp_step. unfold wp.
  destruct (record_ringbuf_copy_fail_moved w) as [[S1 _ R1] M1].
  destruct (record_ringbuf_copy_fail w) as [[] w1]. cbn [fst snd] in *.
  pose proof (moved_trans _ _ _ _ _ _ _ _ _ _ _ _ _ M M1) as M2. cbn in M2.
  unfold bpf_ringbuf_discard_dynptr, modify. cbn.
  apply (H _ (c + 1) (l + 1)); [| |lia|].
  - destruct S, S1. split; cbn; congruence.
  - destruct M2. split; done.
  - cbn. rewrite R1. by eapply delete_captured.
Qed.

(** Submitting a record makes its bytes the last record of the ring buffer. *)
Lemma submit_moved d size w0 w buf (m : gmap nat (list Z)) b0 :
  capturing d 0 size w0 w buf -> m !! d = None -> reserved w0 = <[d := b0]> m ->
  wp (bpf_ringbuf_submit_dynptr (Some d)) (fun _ w' =>
    same_state w0 w' /\ reserved w' = m /\
    exists nc nl, 0 <= nc <= nl /\ moved w0 w' [buf] 0 0 nc nl /\ (no_fault -> nc = 0)) w.
Proof.
  intros [C B L] Hm E0. pose proof C as (S & _ & nc & nl & Hnc & M & F).
  unfold bpf_ringbuf_submit_dynptr. wp_steps. rewrite B. split_and!.
  - etrans; [exact S|]. done.
  - cbn. by eapply delete_captured.
  - exists nc, nl. split_and!; [lia | lia | | done]. destruct M as [? Hsub ? ? ?]. split; try done.
    cbn. by rewrite Hsub, app_nil_r.
Qed.

Lemma capturing_running d off size w0 w buf : capturing d off size w0 w buf -> running w = running w0.
Proof. intros [C _ _]. apply (ss_running _ _ (proj1 C)). Qed.

(** How the second half ends: a submitted record made of the header, the body
    and the captured payload, or a counted and discarded one. *)
Definition committed (Ph : Z -> Z -> event_v2_header -> Prop) (Pb : Z -> list Z -> Prop) (body_len seq flags n : Z)
    (m : gmap nat (list Z)) (buf : list Z) (w0 w' : world) : Prop :=
  same_state w0 w' /\ reserved w' = m /\ exists nc nl,
    (exists h b, Ph seq flags h /\ Pb n b /\ zlen b = body_len /\ 0 <= nc <= nl /\ (no_fault -> nc = 0) /\
       moved w0 w' [put (put buf 0 (struct_bytes (event_v2_header_fields h)))
                        EVENT_V2_HEADER_LEN b] 0 0 nc nl) \/
    (~ no_fault /\ 1 <= nc <= nl /\ moved w0 w' [] 0 0 nc nl).

Definition commit_ok (r : exec_ctx) (Ph : Z -> Z -> event_v2_header -> Prop) (Pb : Z -> list Z -> Prop)
    (body_len cap : Z) (commit : dynptr -> Z -> Z -> Z -> prog unit) : Prop :=
  forall seq flags n d size w0 w buf m b0,
  EVENT_V2_HEADER_LEN + body_len <= size -> running w = r ->
  0 <= n <= cap -> capturing d 0 size w0 w buf -> m !! d = None -> reserved w0 = <[d := b0]> m ->
  wp (commit (Some d) seq flags n) (fun _ w' => committed Ph Pb body_len seq flags n m buf w0 w') w.

(** A record given up while it is committed. *)
Lemma wp_drop_commit Ph Pb body_len seq flags n d size w0 w buf buf0 (m : gmap nat (list Z)) b0 :
  ~ no_fault -> capturing d 0 size w0 w buf -> m !! d = None -> reserved w0 = <[d := b0]> m ->
  wp (record_ringbuf_copy_fail ;;; bpf_ringbuf_discard_dynptr (Some d))
    (fun _ w' => committed Ph Pb body_len seq flags n m buf0 w0 w') w.
Proof.
  intros NF G Hd R0. eapply wp_drop; [exact G | exact Hd | exact R0 |].
  intros w' nc nl ? ? ? ?. split; [done|]. split; [done|]. exists nc, nl. by right.
Qed.

(** The record is submitted with its two parts in place. *)
Lemma wp_submit_commit (Ph : Z -> Z -> event_v2_header -> Prop) (Pb : Z -> list Z -> Prop) seq flags n d size
    w0 w buf (m : gmap nat (list Z)) b0 h b :
  Ph seq flags h -> Pb n b ->
  capturing d 0 size w0 w (put (put buf 0 (struct_bytes (event_v2_header_fields h))) EVENT_V2_HEADER_LEN b) ->
  m !! d = None -> reserved w0 = <[d := b0]> m ->
  wp (bpf_ringbuf_submit_dynptr (Some d))
    (fun _ w' => committed Ph Pb (zlen b) seq flags n m buf w0 w') w.
Proof.
  intros HPh HPb G Hd R0. eapply wp_mono; [by eapply submit_moved; [exact G|..]|].
  intros _ w8 (S8 & R8 & nc & nl & Hnn & M8 & F8). split; [done|]. split; [done|].
  exists nc, nl. left. by exists h, b.
Qed.

Lemma commit_record_ok r Ph Pb body_len cap header body :
  0 <= body_len -> header_ok r Ph header -> body_ok body_len cap Pb body ->
  commit_ok r Ph Pb body_len cap (fun ptr seq flags n => commit_record ptr seq flags n header body).
Proof.
  intros Hbl Hhdr Hbody seq flags n d size w0 w buf m b0 Hs Hr Hn G Hd R0. unfold commit_record.
  wp_step. eapply wp_mono; [by apply Hhdr|]. intros h w4 [Q4 HPh]. cbv beta.
  pose proof (capturing_quiet _ _ _ _ _ _ _ G Q4) as G4.
  pose proof (event_v2_header_size h) as Lh.
  wp_step. eapply wp_dynptr_write; [exact G4 | lia | lia | |].
  2: { intros w5 NF G5. cbn [Z.ltb Z.compare]. by eapply wp_drop_commit. }
  intros w5 G5. cbn [Z.ltb Z.compare]. wp_step. eapply wp_mono; [by apply Hbody|]. intros b w6 (Q6 & <- & HPb). cbv beta.
  pose proof (capturing_quiet _ _ _ _ _ _ _ G5 Q6) as G6.
  wp_step. eapply wp_dynptr_write; [exact G6 | lia | lia | |].
  2: { intros w7 NF G7. cbn [Z.ltb Z.compare]. by eapply wp_drop_commit. }
  intros w7 G7. cbn [Z.ltb Z.compare]. by eapply wp_submit_commit.
Qed.

Lemma commit_in_place_ok r Ph Pb body_len cap header body :
  0 <= body_len -> header_ok r Ph header -> body_ok body_len cap Pb body ->
  commit_ok r Ph Pb body_len cap
    (fun ptr seq flags n => commit_record_in_place body_len ptr seq flags n header body).
Proof.
  intros Hbl Hhdr Hbody seq flags n d size w0 w buf m b0 Hs Hr Hn G Hd R0. unfold commit_record_in_place.
  wp_step. eapply wp_dynptr_data; [exact G | lia | |]; intros w3.
  2: { intros NF G3. by eapply wp_drop_commit. }
  intros G3. wp_step. eapply wp_mono; [apply Hhdr; by rewrite (capturing_running _ _ _ _ _ _ G3), <- (capturing_running _ _ _ _ _ _ G)|].
  intros h w4 [Q4 HPh]. cbv beta. pose proof (capturing_quiet _ _ _ _ _ _ _ G3 Q4) as G4.
  pose proof (event_v2_header_size h) as Lh.
  wp_step. eapply wp_data_store; [exact G4 | lia | lia |]. intros w5 G5.
  wp_step. eapply wp_dynptr_data; [exact G5 | lia | |]; intros w6.
  2: { intros NF G6. by eapply wp_drop_commit. }
  intros G6. wp_step. eapply wp_mono; [by apply Hbody|]. intros b w7 (Q7 & <- & HPb). cbv beta.
  pose proof (capturing_quiet _ _ _ _ _ _ _ G6 Q7) as G7.
  wp_step. eapply wp_data_store; [exact G7 | lia | lia |]. intros w8 G8. by eapply wp_submit_commit.
Qed.

Lemma commit_header_in_place_ok r Ph Pb body_len cap header body :
  0 <= body_len -> header_ok r Ph header -> body_ok body_len cap Pb body ->
  commit_ok r Ph Pb body_len cap
    (fun ptr seq flags n => commit_record_header_in_place ptr seq flags n header body).
Proof.
  intros Hbl Hhdr Hbody seq flags n d size w0 w buf m b0 Hs Hr Hn G Hd R0. unfold commit_record_header_in_place.
  wp_step. eapply wp_dynptr_data; [exact G | lia | |]; intros w3.
  2: { intros NF G3. by eapply wp_drop_commit. }
  intros G3. wp_step. eapply wp_mono; [apply Hhdr; by rewrite (capturing_running _ _ _ _ _ _ G3), <- (capturing_running _ _ _ _ _ _ G)|].
  intros h w4 [Q4 HPh]. cbv beta. pose proof (capturing_quiet _ _ _ _ _ _ _ G3 Q4) as G4.
  pose proof (event_v2_header_size h) as Lh.
  wp_step. eapply wp_data_store; [exact G4 | lia | lia |]. intros w5 G5.
  wp_step. eapply wp_mono; [by apply Hbody|]. intros b w6 (Q6 & <- & HPb). cbv beta.
  pose proof (capturing_quiet _ _ _ _ _ _ _ G5 Q6) as G6.
  wp_step. eapply wp_dynptr_write; [exact G6 | lia | lia | |].
  2: { intros w7 NF G7. cbn [Z.ltb Z.compare]. by eapply wp_drop_commit. }
  intros w7 G7. cbn [Z.ltb Z.compare]. by eapply wp_submit_commit.
Qed.

(** The three parts of a committed record. *)
Lemma committed_parts buf h b body_len size n :
  zlen buf = size -> zlen b = body_len -> 0 <= n -> EVENT_V2_HEADER_LEN + body_len <= size ->
  let rec := put (put buf 0 (struct_bytes (event_v2_header_fields h))) EVENT_V2_HEADER_LEN b in
  zlen rec = size /\
  slice rec 0 EVENT_V2_HEADER_LEN = struct_bytes (event_v2_header_fields h) /\
  slice rec EVENT_V2_HEADER_LEN body_len = b /\
  slice rec (EVENT_V2_HEADER_LEN + body_len) n = slice buf (EVENT_V2_HEADER_LEN + body_len) n.
Proof.
  intros Ls Lb Hn Hs. pose proof (event_v2_header_size h) as Lh. pose proof (zlen_nonneg b).
  assert (zlen (put buf 0 (struct_bytes (event_v2_header_fields h))) = size) as Lp
    by (rewrite zlen_put; lia).
  cbv zeta. split_and!.
  - rewrite zlen_put; lia.
  - rewrite slice_put_before by lia. apply slice_put_same; lia.
  - apply slice_put_same; lia.
  - rewrite slice_put_after by lia. by rewrite slice_put_after by lia.
Qed.

(** ** Every emitter *)

(** The second half of an attempt that reserved [d] and captured its payload. *)
Lemma emit_commits out_size body_len cap Pf Ph Pb commit seq flags n d b0 b3 w w1 w2 w3 :
  0 <= body_len -> 0 <= cap -> EVENT_V2_HEADER_LEN + body_len + cap <= out_size ->
  commit_ok (running w) Ph Pb body_len cap commit ->
  same_state w w1 -> same_state w1 w2 -> moved w w2 [] 1 0 0 0 ->
  (forall s, stats w !! cur_cpu (running w) = Some s -> seq = u64 (s event_seq + 1)) ->
  reserved w !! d = None -> reserved w2 = <[d := b0]> (reserved w) -> zlen b0 = out_size ->
  captures d (EVENT_V2_HEADER_LEN + body_len) w2 w3 ->
  0 <= n <= cap -> reserved w3 !! d = Some b3 ->
  Pf flags (slice b3 (EVENT_V2_HEADER_LEN + body_len) n) ->
  (forall seq rec, well_formed out_size body_len cap Pf Ph Pb seq rec ->
     record_number (cur_cpu (running w)) seq rec) ->
  wp (commit (Some d) seq flags n) (fun _ w' =>
    emits w w' /\ outcome (well_formed out_size body_len cap Pf Ph Pb) w w') w3.
Proof.
  intros Hbl Hcap Hout Hcm S1 S2 M12 Hseq Hd R2 L0 C3 Hn Hb3 HPf HR.
  assert (reserved w2 !! d = Some b0) as Hb0 by (by rewrite R2, lookup_insert_eq).
  destruct (proj1 (proj2 C3) _ Hb0) as (b3' & R3 & L3 & _).
  assert (b3' = b3) as -> by (rewrite R3, lookup_insert_eq in Hb3; congruence).
  assert (zlen b3 = out_size) as L3' by (unfold zlen in *; congruence).
  eapply wp_mono; [eapply (Hcm seq flags n d out_size w2); try done; try lia|].
  { rewrite (ss_running _ _ (proj1 C3)), (ss_running _ _ S2). apply S1. }
  { split; [by eapply captures_mono; [|exact C3]; lia | by rewrite R3, lookup_insert_eq | done]. }
  intros _ w' (S' & R' & nc & nl & [(h & b & HPh & HPb & Lb & Hnc & NC & M)|(NF & Hnc & M)]);
    pose proof (moved_trans _ _ _ _ _ _ _ _ _ _ _ _ _ M12 M) as M'; cbn [app Z.add] in M';
    (split; [split; [by do 2 (etrans; [eassumption|]) | split; [congruence|]]|]).
  1, 2: assert (well_formed out_size body_len cap Pf Ph Pb seq
      (put (put b3 0 (struct_bytes (event_v2_header_fields h))) EVENT_V2_HEADER_LEN b)) as WF by
    (destruct (committed_parts b3 h b body_len out_size n) as (Lr & E1 & E2 & E3); try lia;
     split; [done|]; exists flags, n, h; rewrite E2, E3; by split_and!; try lia).
  - eexists [_], 0, 0, nc, nl. split; try lia; [exact M' | done |]. eapply numbering_one; [by eapply HR | exact Hseq].
  - eapply Submitted; [exact (mv_submitted _ _ _ _ _ _ _ M') | exact WF | exact Hseq].
  - exists [], 0, 1, nc, nl. by split; try lia; [|intros ?; exfalso; auto|by apply numbering_nil].
  - apply Faulted; [|done]. rewrite (mv_submitted _ _ _ _ _ _ _ M'). apply app_nil_r.
Qed.

Lemma wp_discard d (Q : unit -> world -> Prop) w :
  Q tt (set_ring (delete d (reserved w)) (submitted w) w) ->
  wp (bpf_ringbuf_discard_dynptr (Some d)) Q w.
Proof. done. Qed.

Lemma emit_record_by_wp {X} out_size body_len cap (Pf : X -> Z -> list Z -> Prop) Ph
    (Pb : X -> Z -> list Z -> Prop) payload commit w :
  0 <= body_len -> 0 <= cap -> EVENT_V2_HEADER_LEN + body_len + cap <= out_size ->
  payload_using (EVENT_V2_HEADER_LEN + body_len) cap Pf payload ->
  (forall x, commit_ok (running w) Ph (Pb x) body_len cap (commit x)) ->
  (forall x seq rec, well_formed out_size body_len cap (Pf x) Ph (Pb x) seq rec ->
     record_number (cur_cpu (running w)) seq rec) ->
  wp (emit_record_by out_size payload commit) (fun _ w' =>
    emits w w' /\ outcome (fun seq rec => exists x,
      well_formed out_size body_len cap (Pf x) Ph (Pb x) seq rec) w w') w.
Proof.
  intros Hbl Hcap Hout Hpay Hcm HR. unfold emit_record_by. wp_step.
  destruct (next_event_sequence_moved w) as ([S1 _ R1] & M1 & Hseq).
  unfold wp at 1. destruct (next_event_sequence w) as [seq w1]. cbn [fst snd] in *.
  wp_step. apply wp_reserve; [lia| |].
  - intros w2 d b0 S2 M2 Hd R2 L0. rewrite R1 in Hd, R2.
    pose proof (moved_trans _ _ _ _ _ _ _ _ _ _ _ _ _ M1 M2) as M12.
    assert (reserved w2 !! d = Some b0) as Hb0 by (by rewrite R2, lookup_insert_eq).
    cbn [Z.ltb Z.compare]. wp_step. eapply wp_mono; [by eapply Hpay; [exact Hb0 | lia]|].
    intros [[[flags n] x]|] w3 (C3 & Hp); cbv beta iota.
    + destruct Hp as (Hn & b3 & Hb3 & HPf).
      wp_step. eapply wp_mono; [eapply (emit_commits out_size body_len cap (Pf x) Ph (Pb x)); eauto || lia|].
      intros _ w' [E O]. wp_steps. split; [done|]. destruct O; [eapply Submitted | by eapply NoRoom | by eapply Faulted]; eauto.
    + destruct Hp as (NF & nc & nl & Hnc & M3). wp_step. apply wp_discard. wp_steps.
      pose proof (moved_trans _ _ _ _ _ _ _ _ _ _ _ _ _ M12 M3) as M'. cbn [app Z.add] in M'.
      destruct M' as [Hr' Hs' Ho' Hst' Hl']. rewrite app_nil_r in Hs'. split.
      * split; [by do 2 (etrans; [eassumption|]); etrans; [apply C3|]|].
        split; [cbn; by eapply delete_captured|]. exists [], 0, 1, nc, nl. split; try lia; [|intros ?; exfalso; auto|by apply numbering_nil].
        split; try done. cbn. by rewrite app_nil_r.
      * by apply Faulted.
  - intros w2 Q2 NR. cbn [Z.ltb Z.compare]. wp_step. unfold wp at 1.
    destruct (record_ringbuf_reserve_fail_moved w2) as [[S3 _ R3] M3].
    destruct (record_ringbuf_reserve_fail w2) as [[] w3]. cbn [fst snd] in *.
    cbn [bpf_ringbuf_discard_dynptr]. wp_steps.
    destruct Q2 as [[S2 _ R2] (nl & ? & M2)].
    pose proof (moved_trans _ _ _ _ _ _ _ _ _ _ _ _ _ M1 M2) as M12.
    pose proof (moved_trans _ _ _ _ _ _ _ _ _ _ _ _ _ M12 M3) as M'. cbn in M'.
    split; [split; [by do 2 (etrans; [eassumption|])|split; [congruence|]]|].
    + exists [], 1, 0, 0, (nl + 1). by split; try lia; [|intros ?; exfalso; auto|by apply numbering_nil].
    + apply NoRoom; [|done]. rewrite (mv_submitted _ _ _ _ _ _ _ M'). apply app_nil_r.
Qed.

Lemma emit_record_returning_wp {X} out_size body_len cap (Pf : X -> Z -> list Z -> Prop) Ph
    (Pb : X -> Z -> list Z -> Prop) payload header body w :
  0 <= body_len -> 0 <= cap -> EVENT_V2_HEADER_LEN + body_len + cap <= out_size ->
  payload_using (EVENT_V2_HEADER_LEN + body_len) cap Pf payload ->
  header_ok (running w) Ph header -> (forall x, body_ok body_len cap (Pb x) (body x)) ->
  (forall x seq rec, well_formed out_size body_len cap (Pf x) Ph (Pb x) seq rec ->
     record_number (cur_cpu (running w)) seq rec) ->
  wp (emit_record_returning out_size payload header body) (fun _ w' =>
    emits w w' /\ outcome (fun seq rec => exists x,
      well_formed out_size body_len cap (Pf x) Ph (Pb x) seq rec) w w') w.
Proof.
  intros Hbl Hcap Hout Hpay Hhdr Hbody HR.
  apply (emit_record_by_wp out_size body_len cap Pf Ph Pb); try done. intros x. by apply commit_record_ok.
Qed.

Lemma emit_record_committed_wp out_size body_len cap Pf Ph Pb payload commit w :
  0 <= body_len -> 0 <= cap -> EVENT_V2_HEADER_LEN + body_len + cap <= out_size ->
  payload_ok (EVENT_V2_HEADER_LEN + body_len) cap Pf payload ->
  commit_ok (running w) Ph Pb body_len cap commit ->
  (forall seq rec, well_formed out_size body_len cap Pf Ph Pb seq rec ->
     record_number (cur_cpu (running w)) seq rec) ->
  wp (emit_record_committed out_size payload commit) (fun _ w' =>
    emits w w' /\ outcome (well_formed out_size body_len cap Pf Ph Pb) w w') w.
Proof.
  intros Hbl Hcap Hout Hpay Hcm HR. unfold emit_record_committed. wp_step. eapply wp_mono.
  { apply (emit_record_by_wp out_size body_len cap (fun _ : unit => Pf) Ph (fun _ => Pb)); try done.
    intros w1 d buf Hb Hs. wp_step. eapply wp_mono; [by eapply Hpay|]. intros [flags n] w2 (? & ? & ?). by wp_steps. }
  intros r w' [E O]. wp_steps. split; [done|]. destruct O as [seq rec ? [_ ?] ?| |];
    [by eapply Submitted | by apply NoRoom | by apply Faulted].
Qed.

Lemma emit_record_using_wp {X} out_size body_len cap (Pf : X -> Z -> list Z -> Prop) Ph
    (Pb : X -> Z -> list Z -> Prop) payload header body w :
  0 <= body_len -> 0 <= cap -> EVENT_V2_HEADER_LEN + body_len + cap <= out_size ->
  payload_using (EVENT_V2_HEADER_LEN + body_len) cap Pf payload ->
  header_ok (running w) Ph header -> (forall x, body_ok body_len cap (Pb x) (body x)) ->
  (forall x seq rec, well_formed out_size body_len cap (Pf x) Ph (Pb x) seq rec ->
     record_number (cur_cpu (running w)) seq rec) ->
  wp (emit_record_using out_size payload header body) (fun _ w' =>
    emits w w' /\ outcome (fun seq rec => exists x,
      well_formed out_size body_len cap (Pf x) Ph (Pb x) seq rec) w w') w.
Proof.
  intros Hbl Hcap Hout Hpay Hhdr Hbody HR. unfold emit_record_using. wp_step.
  eapply wp_mono; [by apply (emit_record_returning_wp out_size body_len cap Pf Ph Pb)|].
  intros r w' H. by wp_steps.
Qed.

Lemma emit_record_checked_wp out_size body_len cap Pf Ph Pb payload header body w :
  0 <= body_len -> 0 <= cap -> EVENT_V2_HEADER_LEN + body_len + cap <= out_size ->
  payload_checked (EVENT_V2_HEADER_LEN + body_len) cap Pf payload ->
  header_ok (running w) Ph header -> body_ok body_len cap Pb body ->
  (forall seq rec, well_formed out_size body_len cap Pf Ph Pb seq rec ->
     record_number (cur_cpu (running w)) seq rec) ->
  wp (emit_record_checked out_size payload header body) (fun _ w' =>
    emits w w' /\ outcome (well_formed out_size body_len cap Pf Ph Pb) w w') w.
Proof.
  intros Hbl Hcap Hout Hpay Hhdr Hbody HR. unfold emit_record_checked.
  eapply wp_mono; [apply (emit_record_using_wp out_size body_len cap (fun _ : unit => Pf) Ph (fun _ => Pb)); try done|].
  - intros w1 d buf Hb Hs. wp_step. eapply wp_mono; [by eapply Hpay|].
    intros [[flags n]|] w2 Hc; by wp_steps.
  - intros _ w' [E O]. split; [done|]. destruct O as [seq rec ? [? ?] ?| |];
      [by eapply Submitted | by apply NoRoom | by apply Faulted].
Qed.

Lemma emit_record_wp out_size body_len cap Pf Ph Pb payload header body w :
  0 <= body_len -> 0 <= cap -> EVENT_V2_HEADER_LEN + body_len + cap <= out_size ->
  payload_ok (EVENT_V2_HEADER_LEN + body_len) cap Pf payload ->
  header_ok (running w) Ph header -> body_ok body_len cap Pb body ->
  (forall seq rec, well_formed out_size body_len cap Pf Ph Pb seq rec ->
     record_number (cur_cpu (running w)) seq rec) ->
  wp (emit_record out_size payload header body) (fun _ w' =>
    emits w w' /\ outcome (well_formed out_size body_len cap Pf Ph Pb) w w') w.
Proof.
  intros Hbl Hcap Hout Hpay Hhdr Hbody HR. apply emit_record_checked_wp; try done.
  intros w1 d buf Hb Hs. wp_step. eapply wp_mono; [by eapply Hpay|].
  intros [flags n] w2 (? & ? & ?). by wp_steps.
Qed.
End Emit.
