(* ===== verification/Decoder.v ===== *)
(** Reading a committed record.

    A record the BPF side commits is a header, a body and a payload.  The
    lemmas below say what the consumer of [Consumer] makes of it, and
    [emitter] is what an emitter promises about the record it submits. *)
From stdpp Require Import base list gmap numbers.
From S2P Require Import Prelude Syscalls Abi Kernel Consumer Stats Tlv Emit.

Section Records.
Context {K : Kernel} {A : Arch}.

(** The header an emitter builds on the CPU of [r]. *)
Definition built_header (r : exec_ctx) (event_type size pid tid sys_id ts_ns : Z)
    (seq flags : Z) (h : event_v2_header) : Prop :=
  exists comm epoch time, h = EventHeader EVENT_VERSION event_type flags EVENT_V2_HEADER_LEN size
    pid tid sys_id seq ts_ns comm (cur_cpu r) 0 epoch time.

Lemma capture_event_v2_comm_quiet : keeps quiet capture_event_v2_comm.
Proof. unfold capture_event_v2_comm. keeps_solve. Qed.

Lemma init_header_ok r event_type size pid tid sys_id ts_ns :
  header_ok r (built_header r event_type size pid tid sys_id ts_ns)
    (fun seq flags =>
       init_syscall_event_v2_header_direct event_type flags pid tid sys_id size ts_ns seq).
Proof.
  intros seq flags w Hr. unfold init_syscall_event_v2_header_direct. wp_step.
  unfold capture_event_integrity, bpf_get_smp_processor_id. wp_steps.
  destruct (loss w !! 0) as [l|]; wp_steps;
    (eapply keeps_wp; [apply capture_event_v2_comm_quiet|]; intros; wp_steps);
    (split; [done|]); rewrite Hr; by do 3 eexists.
Qed.

(** The header of an envelope stands for the emitted fields. *)
Record header_reads (r : exec_ctx) (event_type pid tid sys_id ts_ns seq flags : Z)
    (h : traceEventV2Header) : Prop := HeaderReads {
  hr_legacy : d_legacy h = false;
  hr_seq : d_seq h = u64 seq;
  hr_cpu : d_cpu h = u32 (cur_cpu r);
  hr_type : d_eventType h = event_type;
  hr_flags : d_flags h = u16 flags;
  hr_pid : d_pid h = u32 pid;
  hr_tid : d_tid h = u32 tid;
  hr_sys_id : d_sysID h = u32 sys_id;
  hr_ts : d_tsNs h = u64 ts_ns }.

(** Splitting a committed record into what the consumer decodes. *)
Lemma committed_header rec r event_type size pid tid sys_id ts_ns seq flags h :
  zlen rec = size -> EVENT_V2_HEADER_LEN <= size < 2 ^ 32 -> In event_type event_types ->
  slice rec 0 EVENT_V2_HEADER_LEN = struct_bytes (event_v2_header_fields h) ->
  built_header r event_type size pid tid sys_id ts_ns seq flags h ->
  exists hd, header_reads r event_type pid tid sys_id ts_ns seq flags hd /\
    decodeTraceEventV2Header rec =
      Some (hd, slice rec EVENT_V2_HEADER_LEN (size - EVENT_V2_HEADER_LEN)).
Proof.
  intros Hz Hs Ht Hh (comm & epoch & time & ->). eexists. split; [|].
  2: { rewrite (decode_header rec _ Hh); cbn; try done; try lia. by rewrite Hz. }
  split; cbn; try done. cbn in Ht. by destruct Ht as [<-|[<-|[<-|[<-|[<-|[]]]]]].
Qed.

Definition reads_enter (r : exec_ctx) (pid tid sys_id ts_ns : Z) (a : args6) (rv pre prx : Z)
    (Pf : Z -> list Z -> Prop) (seq : Z) (rec : list Z) : Prop :=
  exists hd flags pl, header_reads r EVENT_TYPE_ENTER pid tid sys_id ts_ns seq flags hd /\
    decodeTraceEventV2Envelope rec = Some (syscall_envelope hd (u64 ts_ns) (args_u64 a) (s64 rv)
      0 0 0 0 (s32 pre) (s32 prx) (payloadSections (u16 flags) pl)) /\ Pf flags pl.

Definition reads_compact (r : exec_ctx) (pid tid sys_id ts_ns : Z) (a : args6) (seq : Z)
    (rec : list Z) : Prop :=
  exists hd, header_reads r EVENT_TYPE_ENTER pid tid sys_id ts_ns seq
      (Z.lor EVENT_FLAG_GENERIC_ENTER EVENT_FLAG_COMPACT_ENTER) hd /\
    decodeTraceEventV2Envelope rec = Some (syscall_envelope hd (u64 ts_ns) (args_u64 a) 0
      0 0 0 0 (-1) (-1) []).

Definition reads_exit (r : exec_ctx) (pid tid sys_id ts_ns : Z) (a : args6)
    (rv dur stack reserved : Z) (Pf : Z -> list Z -> Prop) (seq : Z) (rec : list Z) : Prop :=
  exists hd flags pl cpudur,
    header_reads r EVENT_TYPE_EXIT pid tid sys_id ts_ns seq flags hd /\
    decodeTraceEventV2Envelope rec = Some (syscall_envelope hd
      (traceEventV2EnterTime (u64 ts_ns) (u64 dur)) (args_u64 a) (s64 rv) (u64 dur) (u64 cpudur)
      (s32 stack) (u32 reserved) 0 0 (payloadSections (u16 flags) pl)) /\ Pf flags pl.

(** The bodies the emitters build. *)
Definition built_enter (a : args6) (rv pre prx : Z) (n : Z) (b : list Z) : Prop :=
  b = struct_bytes (syscall_enter_event_v2_fields (EnterBody rv pre prx a n 0)).
Definition built_compact (a : args6) (n : Z) (b : list Z) : Prop :=
  b = struct_bytes (syscall_compact_enter_event_v2_fields a).
Definition built_exit (a : args6) (rv dur stack reserved : Z) (n : Z) (b : list Z) : Prop :=
  exists cpudur, b = struct_bytes
    (syscall_exit_event_v2_fields (ExitBody rv dur a n 0 stack reserved cpudur)).

(** The parts of a record, seen from its body. *)
Lemma body_slices (rec : list Z) size body_len n :
  zlen rec = size -> 0 <= body_len -> 0 <= n -> EVENT_V2_HEADER_LEN + body_len + n <= size ->
  let body := slice rec EVENT_V2_HEADER_LEN (size - EVENT_V2_HEADER_LEN) in
  zlen body = size - EVENT_V2_HEADER_LEN /\
  slice body 0 body_len = slice rec EVENT_V2_HEADER_LEN body_len /\
  slice body body_len n = slice rec (EVENT_V2_HEADER_LEN + body_len) n.
Proof.
  intros ? ? ? ? body. subst body. split_and!.
  - apply zlen_slice; lia.
  - rewrite slice_slice by lia. done.
  - by rewrite slice_slice by lia.
Qed.

Lemma committed_enter r size cap pid tid sys_id ts_ns a rv pre prx Pf seq rec :
  EVENT_V2_HEADER_LEN + EVENT_V2_ENTER_BODY_LEN + cap <= size -> size < 2 ^ 32 ->
  (forall flags pl, Pf flags pl -> has_flag (u16 flags) EVENT_FLAG_COMPACT_ENTER = false) ->
  well_formed size EVENT_V2_ENTER_BODY_LEN cap Pf
    (built_header r EVENT_TYPE_ENTER size pid tid sys_id ts_ns) (built_enter a rv pre prx) seq rec ->
  reads_enter r pid tid sys_id ts_ns a rv pre prx Pf seq rec.
Proof.
  intros Hs Hz HP [Hl (flags & n & h & Hh & HPh & HPb & Hn & HPf)].
  edestruct (committed_header rec r) as (hd & Hr & Hd); [exact Hl | lia | | exact Hh | exact HPh |];
    [cbn; auto|].
  destruct (body_slices rec size 72 n Hl) as (B1 & B2 & B3); try lia.
  exists hd, flags, (slice rec (80 + 72) n). split_and!; [done | | done].
  unfold decodeTraceEventV2Envelope. rewrite Hd, (hr_type _ _ _ _ _ _ _ _ _ Hr). cbn [Z.eqb Pos.eqb].
  rewrite <- B2 in HPb. erewrite decode_enter_body; [|exact HPb|..]; cbn; try done; try lia.
  - by rewrite B3, (hr_ts _ _ _ _ _ _ _ _ _ Hr), (hr_flags _ _ _ _ _ _ _ _ _ Hr).
  - rewrite (hr_flags _ _ _ _ _ _ _ _ _ Hr). by eapply HP.
Qed.

Lemma committed_exit r size cap pid tid sys_id ts_ns a rv dur stack reserved Pf seq rec :
  EVENT_V2_HEADER_LEN + EVENT_V2_EXIT_BODY_LEN + cap <= size -> size < 2 ^ 32 ->
  well_formed size EVENT_V2_EXIT_BODY_LEN cap Pf
    (built_header r EVENT_TYPE_EXIT size pid tid sys_id ts_ns)
    (built_exit a rv dur stack reserved) seq rec ->
  reads_exit r pid tid sys_id ts_ns a rv dur stack reserved Pf seq rec.
Proof.
  intros Hs Hz [Hl (flags & n & h & Hh & HPh & (cpudur & HPb) & Hn & HPf)].
  edestruct (committed_header rec r) as (hd & Hr & Hd); [exact Hl | lia | | exact Hh | exact HPh |];
    [cbn; auto|].
  destruct (body_slices rec size 88 n Hl) as (B1 & B2 & B3); try lia.
  exists hd, flags, (slice rec (80 + 88) n), cpudur. split_and!; [done | | done].
  unfold decodeTraceEventV2Envelope. rewrite Hd, (hr_type _ _ _ _ _ _ _ _ _ Hr). cbn [Z.eqb Pos.eqb].
  rewrite <- B2 in HPb. erewrite decode_exit_body; [|exact HPb|..]; cbn; try done; try lia.
  by rewrite B3, (hr_ts _ _ _ _ _ _ _ _ _ Hr), (hr_flags _ _ _ _ _ _ _ _ _ Hr).
Qed.

Lemma committed_compact r pid tid sys_id ts_ns a seq rec :
  well_formed (EVENT_V2_HEADER_LEN + EVENT_V2_COMPACT_ENTER_BODY_LEN)
    EVENT_V2_COMPACT_ENTER_BODY_LEN 0
    (fun flags _ => flags = Z.lor EVENT_FLAG_GENERIC_ENTER EVENT_FLAG_COMPACT_ENTER)
    (built_header r EVENT_TYPE_ENTER (EVENT_V2_HEADER_LEN + EVENT_V2_COMPACT_ENTER_BODY_LEN)
       pid tid sys_id ts_ns) (built_compact a) seq rec ->
  reads_compact r pid tid sys_id ts_ns a seq rec.
Proof.
  intros [Hl (flags & n & h & Hh & HPh & HPb & Hn & ->)].
  edestruct (committed_header rec r) as (hd & Hr & Hd); [exact Hl | lia | | exact Hh | exact HPh |];
    [cbn; auto|].
  exists hd. split; [done|].
  unfold decodeTraceEventV2Envelope. rewrite Hd, (hr_type _ _ _ _ _ _ _ _ _ Hr). cbn [Z.eqb Pos.eqb].
  erewrite decode_compact_body; [|exact HPb|..]; rewrite ?(hr_flags _ _ _ _ _ _ _ _ _ Hr); try done.
  by rewrite (hr_ts _ _ _ _ _ _ _ _ _ Hr).
Qed.

(** The consumer decodes such records and reads their CPU and number. *)
Lemma reads_enter_number r pid tid sys_id ts a rv pre prx Pf seq rec :
  reads_enter r pid tid sys_id ts a rv pre prx Pf seq rec -> record_number (cur_cpu r) seq rec.
Proof. intros (? & ? & ? & [] & E & _). eexists. split; [exact E|]. done. Qed.
Lemma reads_exit_number r pid tid sys_id ts a rv dur stack res Pf seq rec :
  reads_exit r pid tid sys_id ts a rv dur stack res Pf seq rec -> record_number (cur_cpu r) seq rec.
Proof. intros (? & ? & ? & ? & [] & E & _). eexists. split; [exact E|]. done. Qed.
Lemma reads_compact_number r pid tid sys_id ts a seq rec :
  reads_compact r pid tid sys_id ts a seq rec -> record_number (cur_cpu r) seq rec.
Proof. intros (? & [] & E). eexists. split; [exact E|]. done. Qed.

(** ** Emitters *)

Lemma outcome_mono (W W' : Z -> list Z -> Prop) w w' :
  (forall seq rec, W seq rec -> W' seq rec) -> outcome W w w' -> outcome W' w w'.
Proof.
  intros H [seq rec ? ? ?|? ?|? ?]; [by eapply Submitted; eauto|by apply NoRoom|by apply Faulted].
Qed.

(** [m] makes one emission attempt; a record it submits on the CPU of [r]
    satisfies [W r seq], with [seq] its sequence number. *)
Definition emitter {B} (W : exec_ctx -> Z -> list Z -> Prop) (m : prog B) : Prop :=
  forall w, wp m (fun _ w' => emits w w' /\ outcome (W (running w)) w w') w.

Lemma emitter_keeps {B} W (m : prog B) : emitter W m -> keeps emits m.
Proof. intros H w. apply (H w). Qed.

Lemma enter_emit_ok cap pid tid sys_id ts_ns a rv pre prx Pf payload body :
  0 <= cap < 2 ^ 31 ->
  payload_ok (EVENT_V2_HEADER_LEN + EVENT_V2_ENTER_BODY_LEN) cap Pf payload ->
  body_ok EVENT_V2_ENTER_BODY_LEN cap (built_enter a rv pre prx) body ->
  (forall flags pl, Pf flags pl -> has_flag (u16 flags) EVENT_FLAG_COMPACT_ENTER = false) ->
  emitter (fun r => reads_enter r pid tid sys_id ts_ns a rv pre prx Pf)
    (enter_emit cap pid tid sys_id ts_ns payload body).
Proof.
  intros Hc Hp Hb HP w.
  eapply wp_mono.
  { apply emit_record_wp with (cap := cap) (body_len := EVENT_V2_ENTER_BODY_LEN);
      [lia | lia | lia | exact Hp | apply init_header_ok | exact Hb |].
    intros seq rec Hw. eapply reads_enter_number, committed_enter; [| | |exact Hw]; done || lia. }
  intros _ w' [E O]. split; [done|]. eapply outcome_mono; [|exact O].
  intros seq rec Hw. eapply committed_enter; [| | |exact Hw]; done || lia.
Qed.

Lemma exit_emit_ok cap pid tid sys_id ts_ns a rv dur stack reserved Pf payload body :
  0 <= cap < 2 ^ 31 ->
  payload_ok (EVENT_V2_HEADER_LEN + EVENT_V2_EXIT_BODY_LEN) cap Pf payload ->
  body_ok EVENT_V2_EXIT_BODY_LEN cap (built_exit a rv dur stack reserved) body ->
  emitter (fun r => reads_exit r pid tid sys_id ts_ns a rv dur stack reserved Pf)
    (exit_emit cap pid tid sys_id ts_ns payload body).
Proof.
  intros Hc Hp Hb w.
  eapply wp_mono.
  { apply emit_record_wp with (cap := cap) (body_len := EVENT_V2_EXIT_BODY_LEN);
      [lia | lia | lia | exact Hp | apply init_header_ok | exact Hb |].
    intros seq rec Hw. eapply reads_exit_number, committed_exit; [| |exact Hw]; lia. }
  intros _ w' [E O]. split; [done|]. eapply outcome_mono; [|exact O].
  intros seq rec Hw. eapply committed_exit; [| |exact Hw]; lia.
Qed.

(** A payload that returns what the body needs. *)
Definition payload_yields {X} (off cap : Z) (P : X -> Z -> list Z -> Prop)
    (payload : dynptr -> prog (Z * Z * X)) : Prop :=
  forall w d buf, reserved w !! d = Some buf -> off + cap <= zlen buf ->
  wp (payload (Some d)) (fun '(flags, n, x) w' =>
    0 <= n <= cap /\ captures d off w w' /\
    exists buf', reserved w' !! d = Some buf' /\ P x flags (slice buf' off n)) w.

Lemma payload_yields_using {X} off cap (P : X -> Z -> list Z -> Prop) payload :
  payload_yields off cap P payload ->
  payload_using off cap P (fun ptr => let* x := payload ptr in ret (Some x)).
Proof.
  intros H w d buf Hb Hs. wp_step. eapply wp_mono; [by eapply H|].
  intros [[flags n] x] w' (? & ? & ?). by wp_steps.
Qed.

Lemma enter_emit_returning_ok {X} cap pid tid sys_id ts_ns a rv (pre : X -> Z) prx Pf payload body :
  0 <= cap < 2 ^ 31 ->
  payload_yields (EVENT_V2_HEADER_LEN + EVENT_V2_ENTER_BODY_LEN) cap Pf payload ->
  (forall x, body_ok EVENT_V2_ENTER_BODY_LEN cap (built_enter a rv (pre x) prx) (body x)) ->
  (forall x flags pl, Pf x flags pl -> has_flag (u16 flags) EVENT_FLAG_COMPACT_ENTER = false) ->
  emitter (fun r seq rec => exists x, reads_enter r pid tid sys_id ts_ns a rv (pre x) prx (Pf x) seq rec)
    (enter_emit_returning cap pid tid sys_id ts_ns payload body).
Proof.
  intros Hc Hp Hb HP w. eapply wp_mono.
  { apply (emit_record_returning_wp _ EVENT_V2_ENTER_BODY_LEN cap Pf) with
      (Pb := fun x => built_enter a rv (pre x) prx);
      [lia | lia | lia | by apply payload_yields_using | apply init_header_ok | exact Hb |].
    intros x seq rec Hw. eapply reads_enter_number, committed_enter; [| | |exact Hw]; try lia. apply HP. }
  intros _ w' [E O]. split; [done|]. eapply outcome_mono; [|exact O].
  intros seq rec [x Hw]. exists x. eapply committed_enter; [| | |exact Hw]; try lia. apply HP.
Qed.

Lemma enter_emit_using_ok {X} cap pid tid sys_id ts_ns a rv (pre : X -> Z) prx Pf payload body :
  0 <= cap < 2 ^ 31 ->
  payload_yields (EVENT_V2_HEADER_LEN + EVENT_V2_ENTER_BODY_LEN) cap Pf payload ->
  (forall x, body_ok EVENT_V2_ENTER_BODY_LEN cap (built_enter a rv (pre x) prx) (body x)) ->
  (forall x flags pl, Pf x flags pl -> has_flag (u16 flags) EVENT_FLAG_COMPACT_ENTER = false) ->
  emitter (fun r seq rec => exists x, reads_enter r pid tid sys_id ts_ns a rv (pre x) prx (Pf x) seq rec)
    (enter_emit_using cap pid tid sys_id ts_ns payload body).
Proof.
  intros Hc Hp Hb HP w. unfold enter_emit_using. wp_step.
  eapply wp_mono; [by apply (enter_emit_returning_ok cap pid tid sys_id ts_ns a rv pre prx Pf)|].
  intros r w' H. by wp_steps.
Qed.

Lemma exit_emit_using_ok {X} cap pid tid sys_id ts_ns a rv dur stack (res : X -> Z) Pf payload body :
  0 <= cap < 2 ^ 31 ->
  payload_yields (EVENT_V2_HEADER_LEN + EVENT_V2_EXIT_BODY_LEN) cap Pf payload ->
  (forall x, body_ok EVENT_V2_EXIT_BODY_LEN cap (built_exit a rv dur stack (res x)) (body x)) ->
  emitter (fun r seq rec => exists x, reads_exit r pid tid sys_id ts_ns a rv dur stack (res x) (Pf x) seq rec)
    (exit_emit_using cap pid tid sys_id ts_ns payload body).
Proof.
  intros Hc Hp Hb w. eapply wp_mono.
  { apply (emit_record_using_wp _ EVENT_V2_EXIT_BODY_LEN cap Pf) with
      (Pb := fun x => built_exit a rv dur stack (res x));
      [lia | lia | lia | by apply payload_yields_using | apply init_header_ok | exact Hb |].
    intros x seq rec Hw. eapply reads_exit_number, committed_exit; [| |exact Hw]; lia. }
  intros _ w' [E O]. split; [done|]. eapply outcome_mono; [|exact O].
  intros seq rec [x Hw]. exists x. eapply committed_exit; [| |exact Hw]; lia.
Qed.

(** No payload. *)
Lemma no_payload_ok off flags :
  payload_ok off 0 (fun f pl => f = flags /\ pl = []) (fun _ => ret (flags, 0)).
Proof.
  intros w d buf Hb Hs. wp_steps. split_and!; [lia | lia | reflexivity |]. by exists buf.
Qed.

(** A payload as the emitters leave it: the event flags [fl], which satisfy
    [F], announce it, and under [guard] it decodes into sections that satisfy [P fl]. *)
Definition decodes (guard : Prop) (F : Z -> Prop) (P : Z -> list PayloadSection -> Prop)
    (flags : Z) (pl : list Z) : Prop :=
  exists fl, F fl /\ flags = tlv_flag fl (zlen pl) /\
  (guard -> exists secs, decodePayloadTLVSections pl = Some secs /\ P fl secs).

(** [tlv_capture] for a capture that also updates the event flags. *)
Definition tlv_capture_flags (guard : Prop) (F : Z -> Prop)
    (P : Z -> list PayloadSection -> Prop) (cap : Z) (f : dynptr -> Z -> prog (Z * Z)) : Prop :=
  forall w d buf off, reserved w !! d = Some buf -> 0 <= off -> off + cap <= zlen buf ->
  wp (f (Some d) off) (fun '(n, fl) w' =>
    0 <= n <= cap /\ F fl /\ captures d off w w' /\ (guard -> decodable (P fl) d off n w')) w.

Lemma tlv_capture_flags_const guard P cap f base :
  tlv_capture guard P cap f ->
  tlv_capture_flags guard (eq base) (fun _ => P) cap
    (fun ptr off => let* n := f ptr off in ret (n, base)).
Proof.
  intros Hf w d buf off Hb Ho Hs. wp_step. eapply wp_mono; [by eapply Hf|].
  intros n w' (? & ? & ?). by wp_steps.
Qed.

Lemma tlv_flags_payload_ok guard F P off cap f :
  0 <= off -> tlv_capture_flags guard F P cap f ->
  payload_ok off cap (decodes guard F P) (fun ptr =>
    let* (n, fl) := f ptr off in
    ret (tlv_flag fl n, n)).
Proof.
  intros Ho Hf w d buf Hb Hs. wp_step. eapply wp_mono; [by eapply Hf|].
  intros [n fl] w' (Hn & HF & C & D). wp_steps. split_and!; [lia | lia | done |].
  destruct (proj1 (proj2 C) _ Hb) as (b' & E & L & _).
  assert (reserved w' !! d = Some b') as Hb' by (by rewrite E, lookup_insert_eq).
  exists b'. split; [done|]. exists fl. split_and!; [done | |].
  - rewrite zlen_slice; try lia. by replace (zlen b') with (zlen buf) by (unfold zlen; congruence); lia.
  - intros G. destruct (D G) as (b2 & secs & Hb2 & ?). exists secs. rewrite Hb' in Hb2.
    by injection Hb2 as <-.
Qed.

Lemma tlv_payload_ok guard P off cap base f :
  0 <= off -> tlv_capture guard P cap f ->
  payload_ok off cap (decodes guard (eq base) (fun _ => P)) (fun ptr =>
    let* n := f ptr off in
    ret (tlv_flag base n, n)).
Proof.
  intros Ho Hf w d buf Hb Hs.
  pose proof (tlv_flags_payload_ok _ _ _ off _ _ Ho (tlv_capture_flags_const _ _ _ _ base Hf)
    w d buf Hb Hs) as H.
  unfold wp, bind, ret in H |- *. by destruct (f (Some d) off w) as [n w'].
Qed.

Lemma has_payload_flag base :
  has_flag (u16 (Z.lor base EVENT_FLAG_PAYLOAD_TLV)) EVENT_FLAG_PAYLOAD_TLV = true.
Proof.
  unfold has_flag, u16. apply negb_true_iff, Z.eqb_neq. intros E.
  assert (Z.testbit (Z.land (Z.lor base 2 mod 2 ^ 16) 2) 1 = true) as T.
  { rewrite Z.land_spec, Z.mod_pow2_bits_low, Z.lor_spec by lia. by rewrite orb_true_r. }
  by rewrite E in T.
Qed.

(** The sections of the envelope of such a record. *)
Lemma decodes_sections (guard : Prop) F P flags pl :
  guard -> decodes guard F P flags pl ->
  exists fl, F fl /\ flags = tlv_flag fl (zlen pl) /\ P fl (payloadSections (u16 flags) pl).
Proof.
  intros G (fl & HF & -> & H). destruct (H G) as (secs & E & HP). exists fl. split_and!; [done | done |].
  unfold payloadSections, tlv_flag. destruct pl as [|x pl].
  - cbn in E. injection E as <-. by destruct (has_flag _ _).
  - assert ((0 <? zlen (x :: pl)) = true) as -> by (apply Z.ltb_lt; unfold zlen; cbn; lia).
    rewrite has_payload_flag, E. done.
Qed.

(** Flags without the compact bit stay without it. *)
Lemma tlv_flag_not_compact base n :
  In base [0; EVENT_FLAG_GENERIC_ENTER; EVENT_FLAG_TRUNCATED;
           Z.lor EVENT_FLAG_GENERIC_ENTER EVENT_FLAG_TRUNCATED] ->
  has_flag (u16 (tlv_flag base n)) EVENT_FLAG_COMPACT_ENTER = false.
Proof.
  intros H. unfold tlv_flag.
  cbn in H. destruct H as [<-|[<-|[<-|[<-|[]]]]]; by destruct (_ <? _).
Qed.
End Records.

#[export] Hint Resolve capture_event_v2_comm_quiet : keeps.
