(* ===== verification/EventCore.v ===== *)
(** Shared core of the syscall programs.

    Models [bpf/syscall_event_core_v2.h]: the families of directly handled
    syscalls, the pending syscall kept in task storage between the entry and
    the exit of a syscall, and the emitters of records without payload. *)
From stdpp Require Import base list gmap numbers.
From S2P Require Import Prelude Syscalls Abi Kernel Consumer Stats Tlv Emit Decoder.

(** The context of the [raw_syscalls:sys_enter] and [sys_exit] tracepoints. *)
Record trace_event_raw_sys_enter := SysEnter { enter_id : Z; enter_args : args6 }.
Record trace_event_raw_sys_exit := SysExit { exit_id : Z; exit_ret : Z }.

Section EventCore.
Context {K : Kernel} {A : Arch}.

(** ** Syscall families *)

Definition is_scalar_direct_syscall (sys_id : Z) : bool :=
  one_of sys_id [SYS_GETPID; SYS_CLOSE; SYS_CLOSE_RANGE].
Definition is_terminating_direct_syscall (sys_id : Z) : bool :=
  one_of sys_id [SYS_EXIT; SYS_EXIT_GROUP].
Definition is_process_creation_direct_syscall (sys_id : Z) : bool :=
  one_of sys_id [SYS_CLONE; SYS_CLONE3; SYS_FORK; SYS_VFORK].
Definition is_open_creat_path_direct_syscall (sys_id : Z) : bool :=
  one_of sys_id [SYS_OPEN; SYS_CREAT; SYS_OPENAT].
Definition is_payload_direct_syscall (sys_id : Z) : bool :=
  is_open_creat_path_direct_syscall sys_id ||
  one_of sys_id [SYS_WRITE; SYS_PWRITE64; SYS_EXECVE; SYS_EXECVEAT].
Definition is_exec_payload_direct_syscall (sys_id : Z) : bool :=
  one_of sys_id [SYS_EXECVE; SYS_EXECVEAT].
Definition is_write_payload_direct_syscall (sys_id : Z) : bool :=
  one_of sys_id [SYS_WRITE; SYS_PWRITE64].
Definition is_exit_payload_direct_syscall (sys_id : Z) : bool :=
  one_of sys_id [SYS_READ; SYS_PREAD64].
Definition is_direct_syscall (sys_id : Z) : bool :=
  is_scalar_direct_syscall sys_id || is_payload_direct_syscall sys_id ||
  is_exit_payload_direct_syscall sys_id.

(** ** The pending syscall of the current task *)

Definition lookup_pending_task_state (create : bool) : prog (option pending_task_state) :=
  let* task := bpf_get_current_task in
  if task =? 0 then ret None
  else if create then bpf_task_storage_get_create task
  else bpf_task_storage_get task.

Definition current_pending_task_state : prog (option pending_task_state) :=
  lookup_pending_task_state false.

(** A store through the pointer [lookup_pending_task_state] returned. *)
Definition put_pending_task_state (s : pending_task_state) : prog unit :=
  let* task := bpf_get_current_task in
  task_storage_put task s.

Definition current_pending_syscall : prog (option pending_syscall) :=
  let* state := current_pending_task_state in
  match state with
  | Some s => if s_valid s =? 0 then ret None else ret (Some (s_syscall s))
  | None => ret None
  end.

Definition current_task_cpu_runtime : prog Z :=
  let* task := bpf_get_current_task in
  if task =? 0 then ret 0
  else let* v := bpf_core_read task_se_sum_exec_runtime task in ret (u64 v).

Definition pending_syscall_cpu_duration (pending : pending_syscall) : prog Z :=
  let* cpu_exit_time := current_task_cpu_runtime in
  if cpu_exit_time <=? p_cpu_enter_time pending then ret 0
  else ret (u64 (cpu_exit_time - p_cpu_enter_time pending)).

Definition clear_pending_task_state : prog unit :=
  let* state := current_pending_task_state in
  match state with
  | None => ret tt
  | Some s =>
      (if negb (s_valid s =? 0) && (0 <=? p_stack_id (s_syscall s)) then
         bpf_map_delete_elem pending_stack_map (p_tid (s_syscall s))
       else ret tt) ;;;
      put_pending_task_state (PendingTaskState (s_syscall s) (s_namespace_snapshot s) 0 0)
  end.

Definition save_pending_syscall_value (pending : pending_syscall) : prog bool :=
  let* state := lookup_pending_task_state true in
  match state with
  | None => record_pending_update_fail ;;; ret false
  | Some _ =>
      let* runtime := current_task_cpu_runtime in
      let pending := PendingSyscall (p_enter_time pending) runtime (p_args pending)
                       (p_pid pending) (p_sys_id pending) (p_tid pending) (p_stack_id pending) in
      put_pending_task_state (PendingTaskState pending empty_namespace_snapshot 0 1) ;;;
      (if 0 <=? p_stack_id pending then
         let* r := bpf_map_update_elem pending_stack_map (p_tid pending) (p_stack_id pending) in
         if r =? 0 then ret tt else record_pending_update_fail
       else ret tt) ;;;
      ret true
  end.

Definition save_pending_syscall_args (tid pid sys_id : Z) (ctx : trace_event_raw_sys_enter)
    (enter_time stack_id : Z) : prog unit :=
  let p := PendingSyscall enter_time 0 (args_u64 (enter_args ctx)) pid sys_id tid stack_id in
  let* _ := save_pending_syscall_value p in
  ret tt.

Definition save_pending_syscall_aux (tid aux0 : Z) : prog unit :=
  let* state := current_pending_task_state in
  match state with
  | Some s =>
      if s_valid s =? 0 then record_pending_update_fail
      else put_pending_task_state
             (PendingTaskState (s_syscall s) (s_namespace_snapshot s) aux0 (s_valid s))
  | None => record_pending_update_fail
  end.

Definition lookup_pending_syscall_aux0 (tid : Z) : prog Z :=
  let* state := current_pending_task_state in
  match state with
  | Some s => if s_valid s =? 0 then ret 0 else ret (s_aux0 s)
  | None => ret 0
  end.

(** ** Record bodies *)

Definition copy_syscall_enter_args (ctx : trace_event_raw_sys_enter) : args6 :=
  args_u64 (enter_args ctx).

Definition init_syscall_enter_event_v2_from_ctx (ctx : trace_event_raw_sys_enter)
    (payload_size ret_value probe_ret_enter probe_ret_exit : Z) : syscall_enter_event_v2 :=
  EnterBody ret_value probe_ret_enter probe_ret_exit (args_u64 (enter_args ctx)) payload_size 0.

Definition init_syscall_enter_event_v2_from_args (args : args6)
    (payload_size ret_value probe_ret_enter probe_ret_exit : Z) : syscall_enter_event_v2 :=
  EnterBody ret_value probe_ret_enter probe_ret_exit args payload_size 0.

Definition init_syscall_exit_event_v2_from_pending (p : pending_syscall)
    (ret_value duration payload_size : Z) : prog syscall_exit_event_v2 :=
  let* cpu_duration := pending_syscall_cpu_duration p in
  ret (ExitBody ret_value duration (p_args p) payload_size 0 (p_stack_id p) 0 cpu_duration).

Definition init_syscall_exit_event_v2_from_ctx (ctx : trace_event_raw_sys_enter)
    (ret_value duration payload_size stack_id : Z) : syscall_exit_event_v2 :=
  ExitBody ret_value duration (args_u64 (enter_args ctx)) payload_size 0 stack_id 0 0.

(** ** Emitters without payload *)

Definition emit_syscall_enter_event_v2_direct (pid tid sys_id : Z)
    (ctx : trace_event_raw_sys_enter) (flags ts_ns : Z) : prog unit :=
  enter_emit 0 pid tid sys_id ts_ns (fun _ => ret (flags, 0))
    (fun n => ret (struct_bytes (syscall_enter_event_v2_fields
       (init_syscall_enter_event_v2_from_ctx ctx 0 0 (-1) (-1))))).

Definition emit_compact_syscall_enter_event_v2_direct (pid tid sys_id : Z)
    (ctx : trace_event_raw_sys_enter) (ts_ns : Z) : prog unit :=
  let out_size := EVENT_V2_HEADER_LEN + EVENT_V2_COMPACT_ENTER_BODY_LEN in
  emit_record out_size
    (fun _ => ret (Z.lor EVENT_FLAG_GENERIC_ENTER EVENT_FLAG_COMPACT_ENTER, 0))
    (fun sequence flags => init_syscall_event_v2_header_direct EVENT_TYPE_ENTER flags pid tid
       sys_id out_size ts_ns sequence)
    (fun _ => ret (struct_bytes (syscall_compact_enter_event_v2_fields (args_u64 (enter_args ctx))))).

Definition emit_no_payload_enter_event_v2_direct (pid tid sys_id : Z)
    (ctx : trace_event_raw_sys_enter) (cfg : option Z) (ts_ns : Z) : prog unit :=
  match cfg with
  | Some c =>
      if has_flag c CONFIG_EMIT_ENTER then
        emit_syscall_enter_event_v2_direct pid tid sys_id ctx EVENT_FLAG_GENERIC_ENTER ts_ns
      else ret tt
  | None => ret tt
  end.

Definition emit_plain_no_payload_enter_event_v2_direct (pid tid sys_id : Z)
    (ctx : trace_event_raw_sys_enter) (cfg : option Z) (ts_ns : Z) : prog unit :=
  match cfg with
  | None => ret tt
  | Some c =>
      if negb (has_flag c CONFIG_EMIT_ENTER) then ret tt
      else
        let* elide :=
          if has_flag c CONFIG_ELIDE_PLAIN_ENTER
          then bpf_map_lookup_elem plain_enter_elide_map sys_id else ret None in
        match elide with
        | Some _ => ret tt
        | None => emit_compact_syscall_enter_event_v2_direct pid tid sys_id ctx ts_ns
        end
  end.

Definition emit_terminating_exit_event_v2_direct (pid tid sys_id : Z)
    (ctx : trace_event_raw_sys_enter) (ts_ns stack_id : Z) : prog unit :=
  exit_emit 0 pid tid sys_id ts_ns (fun _ => ret (0, 0))
    (fun n => ret (struct_bytes (syscall_exit_event_v2_fields
       (init_syscall_exit_event_v2_from_ctx ctx 0 0 0 stack_id)))).
End EventCore.

Section EventCoreLemmas.
Context {K : Kernel} {A : Arch}.

(** *** The pending syscall *)

Lemma current_task_cpu_runtime_quiet : keeps quiet current_task_cpu_runtime.
Proof. unfold current_task_cpu_runtime, bpf_get_current_task. keeps_solve. Qed.
Hint Resolve current_task_cpu_runtime_quiet : keeps.
Lemma pending_syscall_cpu_duration_quiet p : keeps quiet (pending_syscall_cpu_duration p).
Proof. unfold pending_syscall_cpu_duration. keeps_solve. Qed.
Hint Resolve pending_syscall_cpu_duration_quiet : keeps.
Lemma init_exit_from_pending_quiet p r d n :
  keeps quiet (init_syscall_exit_event_v2_from_pending p r d n).
Proof. unfold init_syscall_exit_event_v2_from_pending. keeps_solve. Qed.
Lemma lookup_pending_quiet : keeps quiet (lookup_pending_task_state false).
Proof.
  unfold lookup_pending_task_state, bpf_get_current_task, bpf_task_storage_get. keeps_solve.
Qed.
Hint Resolve lookup_pending_quiet : keeps.
Lemma current_pending_syscall_quiet : keeps quiet current_pending_syscall.
Proof. unfold current_pending_syscall, current_pending_task_state. keeps_solve. Qed.
Lemma lookup_pending_syscall_aux0_quiet tid : keeps quiet (lookup_pending_syscall_aux0 tid).
Proof. unfold lookup_pending_syscall_aux0, current_pending_task_state. keeps_solve. Qed.

(** Stores to the maps and the task storage are accounted: they touch neither
    the counters nor the ring buffer. *)
Lemma modify_accounted (f : world -> world) :
  (forall w, running (f w) = running w /\ submitted (f w) = submitted w /\
     stats (f w) = stats w /\ loss (f w) = loss w /\ reserved (f w) = reserved w) ->
  keeps accounted (modify f).
Proof.
  intros H w. destruct (H w) as (R & S & T & L & V). split; [done|].
  exists [], 0, 0, 0, 0. split; try lia; [|by apply numbering_nil]. apply moved_same; try done. by rewrite app_nil_r.
Qed.

Lemma bpf_map_update_elem_accounted m k v : keeps accounted (bpf_map_update_elem m k v).
Proof. unfold bpf_map_update_elem. keeps_solve. by apply modify_accounted. Qed.
Lemma bpf_map_delete_elem_accounted m k : keeps accounted (bpf_map_delete_elem m k).
Proof. by apply modify_accounted. Qed.
Lemma task_storage_put_accounted t s : keeps accounted (task_storage_put t s).
Proof. by apply modify_accounted. Qed.
Hint Resolve bpf_map_update_elem_accounted bpf_map_delete_elem_accounted
  task_storage_put_accounted : keeps.
Lemma put_pending_accounted s : keeps accounted (put_pending_task_state s).
Proof. unfold put_pending_task_state, bpf_get_current_task. keeps_solve. Qed.
Lemma lookup_pending_accounted create : keeps accounted (lookup_pending_task_state create).
Proof.
  unfold lookup_pending_task_state, bpf_get_current_task, bpf_task_storage_get_create,
    bpf_task_storage_get. keeps_solve.
Qed.
Hint Resolve put_pending_accounted lookup_pending_accounted : keeps.
Lemma clear_pending_accounted : keeps accounted clear_pending_task_state.
Proof. unfold clear_pending_task_state, current_pending_task_state. keeps_solve. Qed.
Lemma save_pending_value_accounted p : keeps accounted (save_pending_syscall_value p).
Proof. unfold save_pending_syscall_value. keeps_solve. Qed.
Hint Resolve save_pending_value_accounted : keeps.
Lemma save_pending_args_accounted tid pid sys_id ctx t s :
  keeps accounted (save_pending_syscall_args tid pid sys_id ctx t s).
Proof. unfold save_pending_syscall_args. keeps_solve. Qed.
Lemma save_pending_aux_accounted tid aux : keeps accounted (save_pending_syscall_aux tid aux).
Proof. unfold save_pending_syscall_aux, current_pending_task_state. keeps_solve. Qed.

(** *** Emitters *)

Lemma ret_body_ok len cap P b :
  (forall n, 0 <= n <= cap -> P n (b n)) -> (forall n, zlen (b n) = len) ->
  body_ok len cap P (fun n => ret (b n)).
Proof. intros HP Hl n w Hn. wp_steps. split_and!; [reflexivity | done | auto]. Qed.

Lemma pending_body_ok p rv dur cap :
  body_ok EVENT_V2_EXIT_BODY_LEN cap (built_exit (p_args p) rv dur (p_stack_id p) 0)
    (fun n => let* b := init_syscall_exit_event_v2_from_pending p rv dur n in
              ret (struct_bytes (syscall_exit_event_v2_fields b))).
Proof.
  intros n w Hn. wp_step. unfold init_syscall_exit_event_v2_from_pending. wp_step.
  eapply keeps_wp; [apply pending_syscall_cpu_duration_quiet|]. intros c w' Q. wp_steps.
  split_and!; [done | apply exit_body_size | by exists c].
Qed.

Lemma emit_syscall_enter_ok pid tid sys_id ctx flags ts :
  has_flag (u16 flags) EVENT_FLAG_COMPACT_ENTER = false ->
  emitter (fun r => reads_enter r pid tid sys_id ts (args_u64 (enter_args ctx)) 0 (-1) (-1)
             (fun f pl => f = flags /\ pl = []))
    (emit_syscall_enter_event_v2_direct pid tid sys_id ctx flags ts).
Proof.
  intros Hf. apply enter_emit_ok; [lia | apply no_payload_ok | | by intros ? ? [-> ->]].
  apply ret_body_ok; [|intros; apply enter_body_size].
  intros n Hn. assert (n = 0) as -> by lia. done.
Qed.

Lemma emit_compact_ok pid tid sys_id ctx ts :
  emitter (fun r => reads_compact r pid tid sys_id ts (args_u64 (enter_args ctx)))
    (emit_compact_syscall_enter_event_v2_direct pid tid sys_id ctx ts).
Proof.
  intros w. eapply wp_mono.
  - apply emit_record_wp with (cap := 0) (body_len := EVENT_V2_COMPACT_ENTER_BODY_LEN)
      (Pb := built_compact (args_u64 (enter_args ctx)))
      (Pf := fun f _ => f = Z.lor EVENT_FLAG_GENERIC_ENTER EVENT_FLAG_COMPACT_ENTER);
      [lia | lia | lia | | apply init_header_ok | |].
    + intros w1 d buf Hb Hs. eapply wp_mono; [by eapply no_payload_ok|].
      intros [f n] w2 (? & ? & b' & ? & ? & ?). split_and!; try lia; [done|]. by exists b'.
    + apply ret_body_ok; [done | intros; apply compact_enter_body_size].
    + intros seq rec Hw. by eapply reads_compact_number, committed_compact.
  - intros _ w' [E O]. split; [done|]. eapply outcome_mono; [|exact O].
    intros seq rec. apply committed_compact.
Qed.

Lemma emit_terminating_exit_ok pid tid sys_id ctx ts stack :
  emitter (fun r => reads_exit r pid tid sys_id ts (args_u64 (enter_args ctx)) 0 0 stack 0
             (fun f pl => f = 0 /\ pl = []))
    (emit_terminating_exit_event_v2_direct pid tid sys_id ctx ts stack).
Proof.
  apply exit_emit_ok; [lia | apply no_payload_ok |].
  apply ret_body_ok; [|intros; apply exit_body_size].
  intros n Hn. assert (n = 0) as -> by lia. by exists 0.
Qed.

Lemma emit_syscall_enter_emits pid tid sys_id ctx ts :
  keeps emits (emit_syscall_enter_event_v2_direct pid tid sys_id ctx EVENT_FLAG_GENERIC_ENTER ts).
Proof. eapply emitter_keeps. by apply emit_syscall_enter_ok. Qed.
Lemma emit_compact_emits pid tid sys_id ctx ts :
  keeps emits (emit_compact_syscall_enter_event_v2_direct pid tid sys_id ctx ts).
Proof. eapply emitter_keeps, emit_compact_ok. Qed.
Hint Resolve emit_syscall_enter_emits emit_compact_emits : keeps.
Lemma emit_no_payload_emits pid tid sys_id ctx cfg ts :
  keeps emits (emit_no_payload_enter_event_v2_direct pid tid sys_id ctx cfg ts).
Proof. unfold emit_no_payload_enter_event_v2_direct. keeps_solve. Qed.
Lemma emit_plain_no_payload_emits pid tid sys_id ctx cfg ts :
  keeps emits (emit_plain_no_payload_enter_event_v2_direct pid tid sys_id ctx cfg ts).
Proof. unfold emit_plain_no_payload_enter_event_v2_direct. keeps_solve. Qed.
Lemma emit_terminating_exit_emits pid tid sys_id ctx ts stack :
  keeps emits (emit_terminating_exit_event_v2_direct pid tid sys_id ctx ts stack).
Proof. eapply emitter_keeps, emit_terminating_exit_ok. Qed.
End EventCoreLemmas.

#[export] Hint Resolve current_task_cpu_runtime_quiet pending_syscall_cpu_duration_quiet
  init_exit_from_pending_quiet lookup_pending_quiet current_pending_syscall_quiet
  lookup_pending_syscall_aux0_quiet bpf_map_update_elem_accounted bpf_map_delete_elem_accounted
  task_storage_put_accounted put_pending_accounted lookup_pending_accounted
  clear_pending_accounted save_pending_value_accounted save_pending_args_accounted
  save_pending_aux_accounted emit_no_payload_emits emit_plain_no_payload_emits
  emit_terminating_exit_emits emit_syscall_enter_emits emit_compact_emits : keeps.
(** An emitter is accounted. *)
#[export] Hint Extern 6 (keeps accounted _) =>
  (eapply keeps_weaken; [|exact emits_accounted]) : keeps.
