(* ===== verification/Payload.v ===== *)
(** Payload captures and the emitters built on them.

    Models [bpf/syscall_payload_capture_direct_event_v2.h],
    [bpf/syscall_exec_capture_direct_event_v2.h],
    [bpf/syscall_fd_state_direct_event_v2.h] and
    [bpf/syscall_payload_emit_direct_event_v2.h]: paths, read and write
    buffers, the argv/env snapshot of an exec, and the state of a file
    descriptor. *)
From stdpp Require Import base list gmap numbers.
From S2P Require Import Prelude Syscalls Abi Kernel Consumer Stats Tlv Emit Decoder EventCore.

Abbreviation FD_STATE_MAX_FD := 1048576 (only parsing).
Abbreviation FD_STATE_PROBE_INVALID_FD := (-9) (only parsing).
Abbreviation FD_STATE_PROBE_READ_FAILED := (-14) (only parsing).

(** Where the payload of an exit record starts, and the capacity of an exec payload. *)
Abbreviation exit_payload_offset := (EVENT_V2_HEADER_LEN + EVENT_V2_EXIT_BODY_LEN) (only parsing).
Abbreviation EXEC_CAPACITY :=
  (PAYLOAD_TLV_HEADER_SIZE + EXEC_SNAPSHOT_SIZE + PAYLOAD_TLV_HEADER_SIZE + EXEC_PATH_SNAPSHOT_MAX)
  (only parsing).

(** [struct exec_capture_request], without the dynptr and the offset. *)
Record exec_capture_request := ExecRequest {
  rq_path_index : Z; rq_argv_index : Z; rq_path_ptr : Z; rq_argv_ptr : Z; rq_env_ptr : Z }.

Section Payload.
Context {K : Kernel} {A : Arch}.

(** ** Strings *)

(** A user string of at most [max] bytes as one section; the body
    [capture_openat_path_tlv_direct] and [capture_exec_path_tlv_direct] share. *)
Definition capture_path_section (max arg_index user_ptr : Z) (ptr : dynptr) (payload_offset : Z)
    : prog Z :=
  let data_offset := payload_offset + PAYLOAD_TLV_HEADER_SIZE in
  let* (copied_len, probe_ret) :=
    if user_ptr =? 0 then ret (0, -1)
    else
      let* payload_data := bpf_dynptr_data ptr data_offset max in
      match payload_data with
      | None => record_ringbuf_copy_fail ;;; ret (0, -1)
      | Some data =>
          let* n := read_user_str_into data max user_ptr in
          if n <? 0 then ret (0, n)
          else if max <? n then ret (max, 0)
          else ret (u32 n, 0)
      end in
  finish_section ptr payload_offset
    (TlvHeader PAYLOAD_TLV_KIND_STRING arg_index 0 copied_len copied_len probe_ret user_ptr).

Definition capture_openat_path_tlv_direct (ptr : dynptr) (payload_offset arg_index user_ptr : Z)
    : prog Z := capture_path_section PAYLOAD_TLV_OPENAT_MAX arg_index user_ptr ptr payload_offset.

Definition capture_exec_path_tlv_direct (ptr : dynptr) (payload_offset path_index user_ptr : Z)
    : prog Z := capture_path_section EXEC_PATH_SNAPSHOT_MAX path_index user_ptr ptr payload_offset.

(** ** Buffers *)

(** The copy of a buffer: copied length and probe result. *)
Definition copy_user_bytes (ptr : dynptr) (data_offset user_ptr copied_len : Z) : prog (Z * Z) :=
  if user_ptr =? 0 then ret (0, -1)
  else
    let* payload_data := payload_tlv_data_direct ptr data_offset copied_len in
    match payload_data with
    | None => record_ringbuf_copy_fail ;;; ret (0, -1)
    | Some data =>
        let* err := read_user_into data copied_len user_ptr in
        if err <? 0 then ret (0, err) else ret (copied_len, 0)
    end.

(** [if (probe_ret == 0 && copied_len > 0 && copied_len < user_len) *event_flags |= ...]. *)
Definition note_truncation (copied_len probe_ret user_len flags : Z) : prog Z :=
  if (probe_ret =? 0) && (0 <? copied_len) && (copied_len <? user_len) then
    record_payload_truncated_event ;;;
    ret (Z.lor flags EVENT_FLAG_TRUNCATED)
  else ret flags.

Definition capture_write_bytes_tlv_direct (ptr : dynptr) (payload_offset : Z) (args : args6)
    (event_flags : Z) : prog (Z * Z) :=
  let user_ptr := arg1 args in
  let user_len := payload_tlv_clamp_u32 (arg2 args) in
  let copied_len := payload_tlv_copy_len (arg2 args) PAYLOAD_TLV_WRITE_MAX in
  let data_offset := payload_offset + PAYLOAD_TLV_HEADER_SIZE in
  let* (copied_len, probe_ret) :=
    if 0 <? copied_len then copy_user_bytes ptr data_offset user_ptr copied_len
    else ret (copied_len, 0) in
  let* event_flags := note_truncation copied_len probe_ret user_len event_flags in
  let* size := finish_section ptr payload_offset
    (TlvHeader PAYLOAD_TLV_KIND_BYTES 1 0 user_len copied_len probe_ret user_ptr) in
  ret (size, event_flags).

Definition capture_read_bytes_tlv_direct (ptr : dynptr) (payload_offset : Z)
    (p : pending_syscall) (ret_value event_flags : Z) : prog (Z * Z) :=
  if ret_value <=? 0 then ret (0, event_flags)
  else
    let user_ptr := arg1 (p_args p) in
    let user_len := payload_tlv_clamp_u32 (u64 ret_value) in
    let copied_len := payload_tlv_copy_len (u64 ret_value) PAYLOAD_TLV_READ_MAX in
    let data_offset := payload_offset + PAYLOAD_TLV_HEADER_SIZE in
    let* (copied_len, probe_ret) := copy_user_bytes ptr data_offset user_ptr copied_len in
    let* event_flags := note_truncation copied_len probe_ret user_len event_flags in
    let* size := finish_section ptr payload_offset
      (TlvHeader PAYLOAD_TLV_KIND_BYTES 1 PAYLOAD_TLV_FLAG_DIRECTION_OUT user_len copied_len
         probe_ret user_ptr) in
    ret (size, event_flags).

(** ** The argv and env snapshot of an exec *)

(** Count, status and next pointer of one array; the body
    [capture_exec_argv_records_direct] and [capture_exec_env_records_direct] share. *)
Definition exec_record_step (max : Z) (ptr : dynptr) (records_offset array : Z) (i : Z)
    (acc : Z * Z * Z) : prog (Z * Z * Z + Z * Z * Z) :=
  let '(count, status, next) := acc in
  let slot := u64 (array + i * 8) in
  let* (err, bytes) := bpf_probe_read_user 8 slot in
  let user_ptr := le_val bytes in
  if err <? 0 then ret (inl (count, -1, slot))
  else if user_ptr =? 0 then ret (inl (count, 0, next))
  else
    let* (len, data) := bpf_probe_read_user_str EXEC_ARG_DATA_SIZE user_ptr in
    let* r := bpf_dynptr_write ptr (records_offset + i * EXEC_ARG_SNAPSHOT_SIZE)
                (struct_bytes (exec_arg_snapshot_fields (ExecArgSnapshot user_ptr len data))) in
    if r <? 0 then
      record_ringbuf_copy_fail ;;;
      ret (inl (count, -1, next))
    else
      let count := i + 1 in
      if i =? max - 1 then
        let next_slot := u64 (array + max * 8) in
        let* (err, bytes) := bpf_probe_read_user 8 next_slot in
        if err <? 0 then ret (inr (count, -1, next_slot))
        else if le_val bytes =? 0 then ret (inr (count, 0, next))
        else ret (inr (count, 1, next))
      else ret (inr (count, status, next)).

Definition capture_exec_records (max : Z) (ptr : dynptr) (records_offset array : Z)
    : prog (Z * Z * Z) :=
  if array =? 0 then ret (0, 0, array)
  else for_loop (Z.to_nat max) 0 (exec_record_step max ptr records_offset array) (0, -1, array).

Definition capture_exec_argv_records_direct := capture_exec_records EXEC_ARG_MAX.
Definition capture_exec_env_records_direct := capture_exec_records EXEC_ENV_MAX.

Definition capture_exec_snapshot_direct (ptr : dynptr) (snapshot_offset argv_ptr env_ptr : Z)
    : prog Z :=
  let argv_records_offset := snapshot_offset + EXEC_SNAPSHOT_HEADER_SIZE in
  let env_records_offset :=
    snapshot_offset + EXEC_SNAPSHOT_HEADER_SIZE + EXEC_ARG_MAX * EXEC_ARG_SNAPSHOT_SIZE in
  let* (argv_count, argv_status, argv_next) :=
    capture_exec_argv_records_direct ptr argv_records_offset argv_ptr in
  let* (env_count, env_status, env_next) :=
    capture_exec_env_records_direct ptr env_records_offset env_ptr in
  let* r := bpf_dynptr_write ptr snapshot_offset
    (struct_bytes (exec_snapshot_header_fields
       (ExecSnapshotHeader EXEC_SNAPSHOT_MAGIC argv_count env_count argv_status env_status
          argv_next env_next))) in
  if r <? 0 then
    record_ringbuf_copy_fail ;;;
    ret 0
  else ret (EXEC_SNAPSHOT_HEADER_SIZE + EXEC_ARG_MAX * EXEC_ARG_SNAPSHOT_SIZE +
            env_count * EXEC_ARG_SNAPSHOT_SIZE).

Definition capture_exec_tlv_direct (request : exec_capture_request) (ptr : dynptr)
    (payload_offset : Z) : prog Z :=
  let* path_size := capture_exec_path_tlv_direct ptr payload_offset (rq_path_index request)
                      (rq_path_ptr request) in
  let exec_offset := payload_offset + path_size in
  let snapshot_offset := exec_offset + PAYLOAD_TLV_HEADER_SIZE in
  let* copied_len := capture_exec_snapshot_direct ptr snapshot_offset (rq_argv_ptr request)
                       (rq_env_ptr request) in
  let probe_ret := if 0 <? copied_len then 0 else -1 in
  let* ok := payload_tlv_write_header_direct ptr exec_offset
    (TlvHeader PAYLOAD_TLV_KIND_EXEC_ARGS (rq_argv_index request) 0 EXEC_SNAPSHOT_SIZE copied_len
       probe_ret (rq_argv_ptr request)) in
  if ok then ret (path_size + PAYLOAD_TLV_HEADER_SIZE + copied_len) else ret 0.

Definition execve_request (args : args6) : exec_capture_request :=
  ExecRequest 0 1 (arg0 args) (arg1 args) (arg2 args).
Definition execveat_request (args : args6) : exec_capture_request :=
  ExecRequest 1 2 (arg1 args) (arg2 args) (arg3 args).

Definition capture_payload_tlv_direct (ptr : dynptr) (payload_offset sys_id : Z) (args : args6)
    (event_flags : Z) : prog (Z * Z) :=
  if one_of sys_id [SYS_OPEN; SYS_CREAT] then
    let* n := capture_openat_path_tlv_direct ptr payload_offset 0 (arg0 args) in
    ret (n, event_flags)
  else if one_of sys_id [SYS_OPENAT] then
    let* n := capture_openat_path_tlv_direct ptr payload_offset 1 (arg1 args) in
    ret (n, event_flags)
  else if one_of sys_id [SYS_EXECVE] then
    let* n := capture_exec_tlv_direct (execve_request args) ptr payload_offset in
    ret (n, event_flags)
  else if one_of sys_id [SYS_EXECVEAT] then
    let* n := capture_exec_tlv_direct (execveat_request args) ptr payload_offset in
    ret (n, event_flags)
  else if is_write_payload_direct_syscall sys_id then
    capture_write_bytes_tlv_direct ptr payload_offset args event_flags
  else ret (0, event_flags).

(** ** File-descriptor state *)

Definition is_fd_state_exit_direct_syscall (sys_id : Z) : bool :=
  one_of sys_id
    [SYS_OPEN; SYS_OPENAT; SYS_OPENAT2; SYS_OPEN_TREE; SYS_CREAT; SYS_DUP; SYS_DUP2; SYS_DUP3;
     SYS_EPOLL_CREATE; SYS_TIMERFD_CREATE; SYS_EVENTFD; SYS_EVENTFD2; SYS_EPOLL_CREATE1;
     SYS_INOTIFY_INIT; SYS_INOTIFY_INIT1; SYS_SIGNALFD; SYS_SIGNALFD4; SYS_SOCKET;
     SYS_PIDFD_OPEN].

Definition valid_fd (fd : Z) : bool := negb ((fd <? 0) || (FD_STATE_MAX_FD <=? u32 fd)).

(** The [struct file] pointer of [fd], zero when there is none. *)
Definition lookup_current_fd_file (fd : Z) : prog Z :=
  if negb (valid_fd fd) then ret 0
  else
    let* task := bpf_get_current_task in
    let* files := bpf_core_read task_files task in
    if files =? 0 then ret 0
    else
      let* fdt := bpf_core_read files_fdt files in
      if fdt =? 0 then ret 0
      else
        let* max_fds := bpf_core_read fdt_max_fds fdt in
        if u32 max_fds <=? u32 fd then ret 0
        else
          let* fd_array := bpf_core_read fdt_fd fdt in
          if fd_array =? 0 then ret 0
          else
            let* (read_ret, file) := bpf_core_read_into (fd_array_entry fd) fd_array in
            if (read_ret <? 0) || (file =? 0) then ret 0 else ret file.

(** The probe result and the snapshot when it is zero. *)
Definition read_fd_state_snapshot_from_file (file fd : Z) : prog (Z * fd_state_snapshot) :=
  let empty := FdStateSnapshot 0 0 0 0 0 0 0 in
  if file =? 0 then ret (FD_STATE_PROBE_READ_FAILED, empty)
  else
    let* inode := bpf_core_read file_f_inode file in
    if inode =? 0 then ret (FD_STATE_PROBE_READ_FAILED, empty)
    else
      let* super := bpf_core_read inode_i_sb inode in
      let* mode := bpf_core_read inode_i_mode inode in
      let* dev := if super =? 0 then ret 0 else bpf_core_read super_s_dev super in
      let* rdev := bpf_core_read inode_i_rdev inode in
      let* ino := bpf_core_read inode_i_ino inode in
      let* pos := bpf_core_read file_f_pos file in
      ret (0, FdStateSnapshot fd (Z.lor FD_STATE_FLAG_IDENTITY FD_STATE_FLAG_OFFSET)
                (u32 mode) (u64 dev) (u64 rdev) (u64 ino) (s64 pos)).

Definition read_fd_state_snapshot (fd : Z) : prog (Z * fd_state_snapshot) :=
  let empty := FdStateSnapshot 0 0 0 0 0 0 0 in
  if negb (valid_fd fd) then ret (FD_STATE_PROBE_INVALID_FD, empty)
  else
    let* file := lookup_current_fd_file fd in
    if file =? 0 then ret (FD_STATE_PROBE_READ_FAILED, empty)
    else read_fd_state_snapshot_from_file file fd.

(** A snapshot of [size] bytes behind the section header: copied length and probe result. *)
Definition write_snapshot (ptr : dynptr) (payload_offset size probe_ret : Z) (bytes : list Z)
    : prog (Z * Z) :=
  if probe_ret =? 0 then
    let* write_ret := bpf_dynptr_write ptr (payload_offset + PAYLOAD_TLV_HEADER_SIZE) bytes in
    if write_ret <? 0 then
      record_ringbuf_copy_fail ;;;
      ret (0, FD_STATE_PROBE_READ_FAILED)
    else ret (size, 0)
  else ret (0, probe_ret).

Definition capture_fd_state_tlv_direct (ptr : dynptr) (payload_offset fd : Z) : prog Z :=
  let* (probe_ret, snapshot) := read_fd_state_snapshot fd in
  let* (copied_len, probe_ret) := write_snapshot ptr payload_offset FD_STATE_SNAPSHOT_SIZE
    probe_ret (struct_bytes (fd_state_snapshot_fields snapshot)) in
  finish_section ptr payload_offset
    (TlvHeader PAYLOAD_TLV_KIND_FD_STATE PAYLOAD_TLV_FD_STATE_ARG_INDEX
       PAYLOAD_TLV_FLAG_DIRECTION_OUT FD_STATE_SNAPSHOT_SIZE copied_len probe_ret 0).

Definition read_eventfd_state_snapshot (fd : Z) : prog (Z * eventfd_state_snapshot) :=
  let empty := EventfdStateSnapshot 0 0 0 in
  let* file := lookup_current_fd_file fd in
  if file =? 0 then ret (FD_STATE_PROBE_READ_FAILED, empty)
  else
    let* eventfd := bpf_core_read file_private_data file in
    if eventfd =? 0 then ret (FD_STATE_PROBE_READ_FAILED, empty)
    else
      let* flags := bpf_core_read eventfd_flags eventfd in
      let* count := bpf_core_read eventfd_count eventfd in
      let* id := bpf_core_read eventfd_id eventfd in
      ret (0, EventfdStateSnapshot (u64 count) (s32 id) (if has_flag (u32 flags) 1 then 1 else 0)).

Definition capture_eventfd_state_tlv_direct (ptr : dynptr) (payload_offset fd : Z) : prog Z :=
  let* (probe_ret, snapshot) := read_eventfd_state_snapshot fd in
  let* (copied_len, probe_ret) := write_snapshot ptr payload_offset EVENTFD_STATE_SNAPSHOT_SIZE
    probe_ret (struct_bytes (eventfd_state_snapshot_fields snapshot)) in
  finish_section ptr payload_offset
    (TlvHeader PAYLOAD_TLV_KIND_EVENTFD_STATE PAYLOAD_TLV_EVENTFD_STATE_ARG_INDEX
       PAYLOAD_TLV_FLAG_DIRECTION_OUT EVENTFD_STATE_SNAPSHOT_SIZE copied_len probe_ret 0).

Definition is_eventfd_state_syscall (sys_id : Z) : bool :=
  one_of sys_id [SYS_EVENTFD; SYS_EVENTFD2].

(** ** Emitters *)

(** The arguments of an entry event come from the per-CPU scratch area where
    they do not fit on the stack. *)
Definition lookup_fd_path_scratch : prog (option fd_path_scratch) :=
  gets (fun w => scratch w !! cur_cpu (running w)).
Definition put_fd_path_scratch (s : fd_path_scratch) : prog unit :=
  modify (fun w => set_scratch (<[cur_cpu (running w) := s]> (scratch w)) w).
Definition scratch_set_args (s : fd_path_scratch) (a : args6) : fd_path_scratch :=
  FdPathScratch (sc_name s) (sc_components s) a (sc_nested_fdset s) (sc_nested_fd0 s) (sc_nested_fd1 s)
    (sc_nested_fd2 s) (sc_nested_fd3 s) (sc_nested_fd_count s).

Definition enter_body (args : args6) (ret_value probe_ret_enter : Z) (payload_size : Z)
    : prog (list Z) :=
  ret (struct_bytes (syscall_enter_event_v2_fields
    (init_syscall_enter_event_v2_from_args args payload_size ret_value probe_ret_enter (-1)))).

Definition emit_payload_enter_event_v2_direct (pid tid sys_id : Z)
    (ctx : trace_event_raw_sys_enter) (ts_ns : Z) : prog unit :=
  let args := copy_syscall_enter_args ctx in
  let payload_capacity :=
    if is_write_payload_direct_syscall sys_id then
      PAYLOAD_TLV_HEADER_SIZE +
        payload_tlv_data_bucket (payload_tlv_copy_len (arg2 args) PAYLOAD_TLV_WRITE_MAX)
    else if is_exec_payload_direct_syscall sys_id then
      PAYLOAD_TLV_HEADER_SIZE + EXEC_SNAPSHOT_SIZE +
        PAYLOAD_TLV_HEADER_SIZE + EXEC_PATH_SNAPSHOT_MAX
    else PAYLOAD_TLV_HEADER_SIZE + PAYLOAD_TLV_OPENAT_MAX in
  let payload_offset := EVENT_V2_HEADER_LEN + EVENT_V2_ENTER_BODY_LEN in
  enter_emit payload_capacity pid tid sys_id ts_ns
    (fun ptr =>
       let* (n, flags) := capture_payload_tlv_direct ptr payload_offset sys_id args
                            EVENT_FLAG_GENERIC_ENTER in
       ret (tlv_flag flags n, n))
    (enter_body args 0 (-1)).

Definition emit_exec_enter_event_v2_direct_with_status (pid tid sys_id : Z)
    (ctx : trace_event_raw_sys_enter) (ts_ns base_flags ret_value probe_ret_enter : Z)
    : prog unit :=
  let* scratch := lookup_fd_path_scratch in
  match scratch with
  | None => ret tt
  | Some s =>
      let args := copy_syscall_enter_args ctx in
      put_fd_path_scratch (scratch_set_args s args) ;;;
      let payload_capacity := PAYLOAD_TLV_HEADER_SIZE + EXEC_SNAPSHOT_SIZE +
        PAYLOAD_TLV_HEADER_SIZE + EXEC_PATH_SNAPSHOT_MAX in
      let payload_offset := EVENT_V2_HEADER_LEN + EVENT_V2_ENTER_BODY_LEN in
      enter_emit payload_capacity pid tid sys_id ts_ns
        (fun ptr =>
           let* (n, flags) := capture_payload_tlv_direct ptr payload_offset sys_id args
                                base_flags in
           ret (tlv_flag flags n, n))
        (enter_body args ret_value probe_ret_enter)
  end.

Definition emit_exec_enter_event_v2_direct (pid tid sys_id : Z)
    (ctx : trace_event_raw_sys_enter) (cfg : option Z) (ts_ns probe_ret_enter : Z) : prog unit :=
  (match cfg with
   | Some c =>
       if has_flag c CONFIG_EMIT_ENTER then
         emit_exec_enter_event_v2_direct_with_status pid tid sys_id ctx ts_ns
           EVENT_FLAG_GENERIC_ENTER 0 (-1)
       else ret tt
   | None => ret tt
   end) ;;;
  emit_exec_enter_event_v2_direct_with_status pid tid sys_id ctx ts_ns 0 (-514) probe_ret_enter.

(** An exit record of a pending syscall. *)
Definition pending_exit_emit (payload_capacity : Z) (p : pending_syscall) (ret_value duration : Z)
    (payload : dynptr -> prog (Z * Z)) : prog unit :=
  exit_emit payload_capacity (p_pid p) (p_tid p) (p_sys_id p) (u64 (p_enter_time p + duration))
    payload
    (fun n => let* b := init_syscall_exit_event_v2_from_pending p ret_value duration n in
              ret (struct_bytes (syscall_exit_event_v2_fields b))).

Definition emit_syscall_exit_event_v2_direct (p : pending_syscall)
    (ret_value duration flags : Z) : prog unit :=
  pending_exit_emit 0 p ret_value duration (fun _ => ret (flags, 0)).

Definition emit_open_creat_fd_state_path_exit_event_v2_direct (p : pending_syscall)
    (ret_value duration : Z) : prog unit :=
  let path_arg := if one_of (p_sys_id p) [SYS_OPENAT] then 1 else 0 in
  let payload_capacity := PAYLOAD_TLV_HEADER_SIZE + PAYLOAD_TLV_OPENAT_MAX +
    (if 0 <=? ret_value then PAYLOAD_TLV_HEADER_SIZE + FD_STATE_SNAPSHOT_SIZE else 0) in
  pending_exit_emit payload_capacity p ret_value duration (fun ptr =>
    let* n := capture_openat_path_tlv_direct ptr exit_payload_offset path_arg
                (arg (p_args p) path_arg) in
    let* m := if 0 <=? ret_value
              then capture_fd_state_tlv_direct ptr (exit_payload_offset + n) (s32 ret_value)
              else ret 0 in
    ret (tlv_flag 0 (n + m), n + m)).

Definition emit_payload_exit_event_v2_direct (p : pending_syscall) (ret_value duration : Z)
    : prog unit :=
  let payload_capacity :=
    if 0 <? ret_value then
      PAYLOAD_TLV_HEADER_SIZE +
        payload_tlv_data_bucket (payload_tlv_copy_len (u64 ret_value) PAYLOAD_TLV_READ_MAX)
    else 0 in
  pending_exit_emit payload_capacity p ret_value duration (fun ptr =>
    let* (n, flags) := capture_read_bytes_tlv_direct ptr exit_payload_offset p ret_value 0 in
    ret (tlv_flag flags n, n)).

Definition emit_exec_exit_event_v2_direct (p : pending_syscall) (ret_value duration : Z)
    : prog unit :=
  let payload_capacity := PAYLOAD_TLV_HEADER_SIZE + EXEC_SNAPSHOT_SIZE +
    PAYLOAD_TLV_HEADER_SIZE + EXEC_PATH_SNAPSHOT_MAX in
  pending_exit_emit payload_capacity p ret_value duration (fun ptr =>
    let* n :=
      if one_of (p_sys_id p) [SYS_EXECVE] then
        capture_exec_tlv_direct (execve_request (p_args p)) ptr exit_payload_offset
      else if one_of (p_sys_id p) [SYS_EXECVEAT] then
        capture_exec_tlv_direct (execveat_request (p_args p)) ptr exit_payload_offset
      else ret 0 in
    ret (tlv_flag 0 n, n)).

Definition emit_fd_state_exit_event_v2_direct (p : pending_syscall) (ret_value duration : Z)
    : prog unit :=
  let eventfd := is_eventfd_state_syscall (p_sys_id p) in
  let payload_capacity := PAYLOAD_TLV_HEADER_SIZE + FD_STATE_SNAPSHOT_SIZE +
    (if eventfd then PAYLOAD_TLV_HEADER_SIZE + EVENTFD_STATE_SNAPSHOT_SIZE else 0) in
  pending_exit_emit payload_capacity p ret_value duration (fun ptr =>
    let* n := capture_fd_state_tlv_direct ptr exit_payload_offset (s32 ret_value) in
    let* m := if eventfd
              then capture_eventfd_state_tlv_direct ptr (exit_payload_offset + n) (s32 ret_value)
              else ret 0 in
    ret (tlv_flag 0 (n + m), n + m)).
End Payload.

(** ** What the captures leave in the record *)

(** Steps over a program that only reads, with any result. *)
Ltac wp_any x w := eapply (keeps_wp quiet); [eauto with keeps|]; intros x w ?; cbv beta.

Section PayloadLemmas.
Context {K : Kernel} {A : Arch}.

(** A string section: the user's string up to [max] bytes with its terminator,
    or nothing and the error of the probe. *)
Record path_section (max arg_index user_ptr : Z) (s : PayloadSection) : Prop := PathSection {
  ps_kind : Kind s = PayloadKindString;
  ps_dir : Direction s = PayloadDirectionIn;
  ps_arg : ArgIndex s = u16 arg_index;
  ps_ptr : UserPtr s = u64 user_ptr;
  ps_len : UserLen s = CopiedLen s;
  ps_data : (ProbeRet s = 0 /\ user_ptr <> 0 /\ CopiedLen s = zlen (Data s) /\
               exists k, Data s = until_nul (user_bytes k user_ptr (max - 1)) ++ [0]) \/
            (Data s = [] /\ CopiedLen s = 0 /\ exists e, read_failed user_ptr e /\ ProbeRet s = s32 e) }.

(** The failure branch of a capture: a header without data. *)
Lemma wp_fail_section (P : PayloadSection -> Prop) d off size w0 w buf t kind cap
    (Q : Z -> world -> Prop) :
  capturing d off size w0 w buf -> 0 <= off -> PAYLOAD_TLV_HEADER_SIZE <= cap ->
  off + cap <= size -> t_copied_len t = 0 ->
  payloadKindFromTLV (u16 (t_kind t)) = Some kind -> P (section_of t kind []) ->
  (forall n w', 0 <= n <= cap -> captures d off w0 w' -> decodable (one_section P) d off n w' ->
     Q n w') ->
  wp (finish_section (Some d) off t) Q w.
Proof.
  intros C Ho Hc Hs H0 Hk HP H. eapply wp_finish_section with (P := P) (cap := cap);
    [exact C | lia | lia | lia | lia | exact Hk | | exact H].
  by rewrite H0.
Qed.

Lemma capture_path_section_ok max arg_index user_ptr :
  1 <= max < 2 ^ 31 ->
  tlv_capture True (one_section (path_section max arg_index user_ptr))
    (PAYLOAD_TLV_HEADER_SIZE + max) (capture_path_section max arg_index user_ptr).
Proof.
  intros Hm w d buf off Hb Ho Hs. unfold capture_path_section. wp_steps.
  pose proof (capturing_start d off w buf Hb) as C0.
  assert (forall w' b e, read_failed user_ptr e -> capturing d off (zlen buf) w w' b ->
    wp (finish_section (Some d) off (TlvHeader 1 arg_index 0 0 0 e user_ptr)) (fun n w' =>
      0 <= n <= 32 + max /\ captures d off w w' /\
      (True -> decodable (one_section (path_section max arg_index user_ptr)) d off n w')) w') as Fail.
  { intros w' b e He C. eapply wp_fail_section with (P := path_section max arg_index user_ptr) (cap := 32 + max);
      [exact C | lia | lia | exact Hs | done | done | |].
    - split; try done. right. split_and!; try done. by exists e.
    - by intros. }
  destruct (Z.eqb_spec user_ptr 0) as [E0|E0]; wp_steps; [eapply Fail; [solve_failed | exact C0]|].
  eapply wp_dynptr_data; [exact C0 | lia | |].
  - intros w1 C1. wp_step. eapply wp_read_user_str_into; [exact C1 | lia | lia | lia |].
    intros w2 r bytes Hl Hr C2.
    destruct (Z.ltb_spec r 0); wp_steps; [eapply Fail; [solve_failed | exact C2]|].
    destruct Hr as [(H1 & -> & Hd)|[? _]]; [|lia].
    destruct (Z.ltb_spec max (zlen bytes)); [lia|]. wp_steps.
    rewrite u32_small by lia. pose proof (zlen_nonneg bytes).
    assert (slice (put buf (off + 32) bytes) (off + 32) (zlen bytes) = bytes) as Hsl
      by (apply slice_put_same; lia).
    eapply wp_finish_section with (P := path_section max arg_index user_ptr)
      (kind := PayloadKindString) (cap := 32 + max);
      [exact C2 | lia | | exact Hs | | done | | by intros].
    + cbn. lia.
    + cbn. lia.
    + cbn [t_copied_len]. rewrite Hsl. split; try done. left. cbn.
      rewrite u32_small by lia. split_and!; try done. by exists (calls w1).
  - intros w1 NF C1. wp_step. eapply wp_copy_fail; [exact C1 | exact NF |].
    intros _ w2 C2. wp_steps. eapply Fail; [solve_failed | exact C2].
Qed.

(** A section with the bytes of a buffer of [len] bytes, at most [max] of them. *)
Record bytes_section (dir : PayloadDirection) (arg_index max user_ptr len : Z) (fl base : Z)
    (s : PayloadSection) : Prop := BytesSection {
  bs_kind : Kind s = PayloadKindBytes;
  bs_dir : Direction s = dir;
  bs_arg : ArgIndex s = u16 arg_index;
  bs_ptr : UserPtr s = u64 user_ptr;
  bs_len : UserLen s = Z.min len 0xffffffff;
  bs_data : (ProbeRet s = 0 /\ CopiedLen s = Z.min len max /\
               (exists k, Data s = user_bytes k user_ptr (Z.min len max)) /\
               fl = if max <? len then Z.lor base EVENT_FLAG_TRUNCATED else base) \/
            (Data s = [] /\ CopiedLen s = 0 /\ fl = base /\
               exists e, read_failed user_ptr e /\ ProbeRet s = s32 e) }.

Lemma payload_tlv_clamp_u32_min len : 0 <= len -> payload_tlv_clamp_u32 len = Z.min len 0xffffffff.
Proof.
  intros. unfold payload_tlv_clamp_u32. case_test; [lia|]. rewrite u32_small; lia.
Qed.

(** The copy of a non-empty buffer. *)
Lemma wp_copy_user_bytes d off size w0 w buf user_ptr n (Q : Z * Z -> world -> Prop) :
  capturing d off size w0 w buf -> 0 <= off -> 0 < n <= 512 ->
  off + PAYLOAD_TLV_HEADER_SIZE + payload_tlv_data_bucket n <= size ->
  (forall w' b k, capturing d off size w0 w' b ->
     slice b (off + PAYLOAD_TLV_HEADER_SIZE) n = user_bytes k user_ptr n -> Q (n, 0) w') ->
  (forall w' b e, capturing d off size w0 w' b -> read_failed user_ptr e -> Q (0, e) w') ->
  wp (copy_user_bytes (Some d) (off + PAYLOAD_TLV_HEADER_SIZE) user_ptr n) Q w.
Proof.
  intros C Ho Hn Hb H1 H2. unfold copy_user_bytes.
  pose proof (payload_tlv_data_bucket_covers n ltac:(lia)) as Hk.
  pose proof (cg_size _ _ _ _ _ _ C) as Hz.
  destruct (Z.eqb_spec user_ptr 0); wp_steps; [eapply H2; [exact C | solve_failed]|].
  eapply wp_data_direct; [exact C | lia | exact Hb | |].
  - intros w1 C1. wp_step. eapply wp_read_user_into; [exact C1 | lia | lia | lia |].
    intros w2 err bytes Hl Hr C2.
    destruct (Z.ltb_spec err 0); wp_steps; [eapply H2; [exact C2 | solve_failed]|].
    destruct Hr as [[-> ->]|[? _]]; [|lia]. eapply H1; [exact C2|]. apply slice_put_same; lia.
  - intros w1 NF C1. wp_step. eapply wp_copy_fail; [exact C1 | exact NF |].
    intros _ w2 C2. wp_steps. eapply H2; [exact C2 | solve_failed].
Qed.

Lemma note_truncation_quiet c p u f : keeps quiet (note_truncation c p u f).
Proof. unfold note_truncation. keeps_solve. Qed.

Lemma note_truncation_result c p u f w :
  fst (note_truncation c p u f w) =
    if (p =? 0) && (0 <? c) && (c <? u) then Z.lor f EVENT_FLAG_TRUNCATED else f.
Proof.
  unfold note_truncation, bind, ret. destruct (_ && _ && _); [|done].
  by destruct (record_payload_truncated_event w).
Qed.

Lemma wp_note_truncation d off size w0 w buf c p u f (Q : Z -> world -> Prop) :
  capturing d off size w0 w buf ->
  (forall w', capturing d off size w0 w' buf ->
     Q (if (p =? 0) && (0 <? c) && (c <? u) then Z.lor f EVENT_FLAG_TRUNCATED else f) w') ->
  wp (note_truncation c p u f) Q w.
Proof.
  intros C H. unfold wp. rewrite note_truncation_result. apply H.
  eapply capturing_quiet; [exact C | apply note_truncation_quiet].
Qed.

Definition flags_from (base : Z) (fl : Z) : Prop :=
  fl = base \/ fl = Z.lor base EVENT_FLAG_TRUNCATED.

(** The tail of the two buffer captures: note the truncation, write the header. *)
Lemma wp_finish_bytes dir arg_index tlv_flags d off w0 w buf user_ptr len max cap copied probe base :
  payloadDirectionFromTLV tlv_flags = dir -> In tlv_flags [0; 1] ->
  capturing d off (zlen buf) w0 w buf -> 0 <= off -> off + cap <= zlen buf -> 0 <= len ->
  0 < max <= 512 -> PAYLOAD_TLV_HEADER_SIZE + copied <= cap ->
  (copied = Z.min len max /\ probe = 0 /\
     exists k, slice buf (off + PAYLOAD_TLV_HEADER_SIZE) copied = user_bytes k user_ptr copied) \/
  (copied = 0 /\ read_failed user_ptr probe) ->
  wp (let* event_flags := note_truncation copied probe (payload_tlv_clamp_u32 len) base in
      let* size := finish_section (Some d) off
        (TlvHeader PAYLOAD_TLV_KIND_BYTES arg_index tlv_flags (payload_tlv_clamp_u32 len) copied probe user_ptr) in
      ret (size, event_flags))
    (fun '(n, fl) w' => 0 <= n <= cap /\ flags_from base fl /\ captures d off w0 w' /\
       (True -> decodable (one_section (bytes_section dir arg_index max user_ptr len fl base)) d off n w')) w.
Proof.
  intros Hdir Htf C Ho Hc Hl Hm Hcap Hcase. wp_step.
  assert (u16 tlv_flags = tlv_flags) as Hu by (cbn in Htf; by destruct Htf as [<-|[<-|[]]]).
  rewrite payload_tlv_clamp_u32_min by lia.
  eapply wp_note_truncation; [exact C|]. intros w1 C1. wp_step.
  set (fl := if _ && _ && _ then _ else _).
  assert (0 <= copied <= max) by (destruct Hcase as [(-> & _)|[-> _]]; lia).
  eapply wp_finish_section with (P := bytes_section dir arg_index max user_ptr len fl base)
    (kind := PayloadKindBytes) (cap := cap); [exact C1 | lia | cbn; lia | exact Hc | cbn; lia | done | |].
  - split; cbn; try done; [by rewrite Hu | rewrite u32_small; lia |].
    destruct Hcase as [(Hcp & -> & k & Hk)|[-> He]].
    + left. rewrite Hk, Hcp, u32_small by lia. split_and!; try done; [by exists k|].
      subst fl. cbn. destruct (Z.ltb_spec 0 copied), (Z.ltb_spec copied (Z.min len 4294967295)),
        (Z.ltb_spec max len); cbn; lia || done.
    + right. destruct He as [He Hf]. split_and!; try done; [|by exists probe]. subst fl.
      by destruct (probe =? 0).
  - intros n w' Hn Cw D. wp_steps. split_and!; [lia | lia | | done | done].
    subst fl. unfold flags_from. destruct (_ && _ && _); auto.
Qed.

Lemma capture_read_bytes_ok p rv base :
  rv < 2 ^ 63 ->
  let cap := if 0 <? rv then PAYLOAD_TLV_HEADER_SIZE +
               payload_tlv_data_bucket (payload_tlv_copy_len (u64 rv) PAYLOAD_TLV_READ_MAX) else 0 in
  tlv_capture_flags True (flags_from base)
    (fun fl secs => if 0 <? rv
       then one_section (bytes_section PayloadDirectionOut 1 PAYLOAD_TLV_READ_MAX (arg1 (p_args p)) rv fl base) secs
       else secs = []) cap
    (fun ptr off => capture_read_bytes_tlv_direct ptr off p rv base).
Proof.
  intros Hrv cap w d buf off Hb Ho Hs. unfold capture_read_bytes_tlv_direct. subst cap.
  pose proof (capturing_start d off w buf Hb) as C0.
  destruct (Z.leb_spec rv 0), (Z.ltb_spec 0 rv); try lia.
  - wp_steps. split_and!; [lia | lia | by left | reflexivity |]. intros _.
    eapply decodable_0; [exact C0 | done].
  - wp_steps. rewrite u64_small in * by lia. rewrite payload_tlv_copy_len_min in * by lia.
    pose proof (payload_tlv_data_bucket_covers (Z.min rv 512) ltac:(lia)).
    eapply wp_copy_user_bytes; [exact C0 | lia | lia | lia | |].
    + intros w1 b k C1 Hk. cbv beta iota. replace (zlen buf) with (zlen b) in * by apply C1.
      eapply wp_finish_bytes;
        [done | by right; left | exact C1 | lia | lia | lia | lia | lia |]. left. by split_and!; [..|exists k].
    + intros w1 b e C1 He. cbv beta iota. replace (zlen buf) with (zlen b) in * by apply C1.
      eapply wp_finish_bytes;
        [done | by right; left | exact C1 | lia | lia | lia | lia | lia |]. by right.
Qed.

Lemma capture_write_bytes_ok args base :
  0 <= arg2 args ->
  tlv_capture_flags True (flags_from base)
    (fun fl => one_section (bytes_section PayloadDirectionIn 1 PAYLOAD_TLV_WRITE_MAX (arg1 args) (arg2 args) fl base))
    (PAYLOAD_TLV_HEADER_SIZE +
       payload_tlv_data_bucket (payload_tlv_copy_len (arg2 args) PAYLOAD_TLV_WRITE_MAX))
    (fun ptr off => capture_write_bytes_tlv_direct ptr off args base).
Proof.
  intros H2 w d buf off Hb Ho Hs. unfold capture_write_bytes_tlv_direct. cbv zeta.
  pose proof (capturing_start d off w buf Hb) as C0. wp_step.
  rewrite payload_tlv_copy_len_min in * by lia.
  pose proof (payload_tlv_data_bucket_covers (Z.min (arg2 args) 512) ltac:(lia)).
  destruct (Z.ltb_spec 0 (Z.min (arg2 args) 512)).
  - eapply wp_copy_user_bytes; [exact C0 | lia | lia | lia | |].
    + intros w1 b k C1 Hk. cbv beta iota. replace (zlen buf) with (zlen b) in * by apply C1.
      eapply wp_finish_bytes; [done | by left | exact C1 | lia | lia | lia | lia | lia |]. left. by split_and!; [..|exists k].
    + intros w1 b e C1 He. cbv beta iota. replace (zlen buf) with (zlen b) in * by apply C1.
      eapply wp_finish_bytes; [done | by left | exact C1 | lia | lia | lia | lia | lia |]. by right.
  - wp_step.
    eapply wp_finish_bytes; [done | by left | exact C0 | lia | lia | lia | lia | lia |]. left.
    split_and!; [lia | done |]. exists 0%nat. replace (Z.min (arg2 args) 512) with 0 by lia. done.
Qed.

(** *** File-descriptor state *)

Lemma lookup_current_fd_file_quiet fd : keeps quiet (lookup_current_fd_file fd).
Proof. unfold lookup_current_fd_file, bpf_get_current_task. keeps_solve. Qed.
Hint Resolve lookup_current_fd_file_quiet : keeps.
Lemma read_snapshot_from_file_quiet file fd :
  keeps quiet (read_fd_state_snapshot_from_file file fd).
Proof. unfold read_fd_state_snapshot_from_file. keeps_solve. Qed.
Hint Resolve read_snapshot_from_file_quiet : keeps.
Lemma read_fd_state_snapshot_quiet fd : keeps quiet (read_fd_state_snapshot fd).
Proof. unfold read_fd_state_snapshot. keeps_solve. Qed.
Lemma read_eventfd_state_snapshot_quiet fd : keeps quiet (read_eventfd_state_snapshot fd).
Proof. unfold read_eventfd_state_snapshot. keeps_solve. Qed.

(** A snapshot section: [size] bytes that satisfy [P], or nothing and a probe error. *)
Record snapshot_section (kind : PayloadKind) (arg_index size : Z) (P : list Z -> Prop)
    (s : PayloadSection) : Prop := SnapshotSection {
  ss_kind : Kind s = kind;
  ss_dir : Direction s = PayloadDirectionOut;
  ss_arg : ArgIndex s = arg_index;
  ss_len : UserLen s = size;
  ss_data : (ProbeRet s = 0 /\ zlen (Data s) = size /\ P (Data s)) \/ Data s = [] }.

Lemma wp_write_snapshot d off size w0 w buf probe n bytes (Q : Z * Z -> world -> Prop) :
  capturing d off size w0 w buf -> 0 <= off -> zlen bytes = n ->
  off + PAYLOAD_TLV_HEADER_SIZE + n <= size ->
  (forall w', probe = 0 ->
     capturing d off size w0 w' (put buf (off + PAYLOAD_TLV_HEADER_SIZE) bytes) -> Q (n, 0) w') ->
  (forall w' e, capturing d off size w0 w' buf -> Q (0, e) w') ->
  wp (write_snapshot (Some d) off n probe bytes) Q w.
Proof.
  intros C Ho Hl Hs H1 H2. unfold write_snapshot. destruct (Z.eqb_spec probe 0); wp_steps; [|by apply H2].
  eapply wp_dynptr_write; [exact C | lia | lia | |]; cbn [Z.ltb Z.compare].
  - intros w' C'. wp_steps. by apply H1.
  - intros w' NF C'. wp_step. eapply wp_copy_fail; [exact C' | exact NF |].
    intros _ w2 C2. wp_steps. by apply H2.
Qed.

(** A capture that reads a snapshot and stores it behind its section header. *)
Lemma snapshot_capture_ok {X} kind tlv_kind arg_index n (P : list Z -> Prop) (read : prog (Z * X))
    (bytes : X -> list Z) :
  payloadKindFromTLV tlv_kind = Some kind -> u16 tlv_kind = tlv_kind -> u16 arg_index = arg_index ->
  0 <= n < 2 ^ 31 -> (forall x, zlen (bytes x) = n) -> keeps quiet read ->
  (forall w, wp read (fun '(p, x) _ => p = 0 -> P (bytes x)) w) ->
  tlv_capture True (one_section (snapshot_section kind arg_index n P))
    (PAYLOAD_TLV_HEADER_SIZE + n) (fun ptr off =>
      let* (probe_ret, snapshot) := read in
      let* (copied_len, probe_ret) := write_snapshot ptr off n probe_ret (bytes snapshot) in
      finish_section ptr off
        (TlvHeader tlv_kind arg_index PAYLOAD_TLV_FLAG_DIRECTION_OUT n copied_len probe_ret 0)).
Proof.
  intros Hk Hk' Ha Hn Hl Hq HP w d buf off Hb Ho Hs. wp_step.
  pose proof (capturing_quiet _ _ _ _ _ _ _ (capturing_start d off w buf Hb) (Hq w)) as C1.
  specialize (HP w). unfold wp in HP. unfold wp at 1. destruct (read w) as [[probe x] w1]. cbn [fst snd] in *.
  wp_step. eapply wp_write_snapshot; [exact C1 | lia | apply Hl | lia | |].
  - intros w2 -> C2. cbv beta iota. specialize (Hl x).
    eapply wp_finish_section with (P := snapshot_section kind arg_index n P) (cap := 32 + n);
      [exact C2 | lia | cbn; lia | lia | cbn; lia | cbn; by rewrite Hk' | | by intros].
    cbn [t_copied_len]. rewrite slice_put_same by lia.
    split; cbn; try done; [rewrite u32_small; lia|]. left. auto.
  - intros w2 e C2. cbv beta iota.
    eapply wp_fail_section with (P := snapshot_section kind arg_index n P) (cap := 32 + n);
      [exact C2 | lia | lia | lia | done | cbn; by rewrite Hk' | | by intros].
    split; cbn; try done; [rewrite u32_small; lia|]. by right.
Qed.

(** The snapshot of descriptor [fd]. *)
Definition fd_snapshot (fd : Z) (data : list Z) : Prop :=
  0 <= fd < FD_STATE_MAX_FD /\ exists s, fs_fd s = fd /\
    fs_flags s = Z.lor FD_STATE_FLAG_IDENTITY FD_STATE_FLAG_OFFSET /\
    data = struct_bytes (fd_state_snapshot_fields s).

Lemma read_from_file_result file fd w :
  wp (read_fd_state_snapshot_from_file file fd) (fun '(p, s) _ => p = 0 ->
    fs_fd s = fd /\ fs_flags s = Z.lor FD_STATE_FLAG_IDENTITY FD_STATE_FLAG_OFFSET) w.
Proof.
  unfold read_fd_state_snapshot_from_file. destruct (_ =? 0); wp_steps; [done|]. wp_any inode w1.
  destruct (_ =? 0); wp_steps; [done|]. wp_any super w2. wp_step. wp_any mode w3. wp_step.
  destruct (_ =? 0); wp_steps; [|wp_any dev w4; wp_step];
    (wp_any rdev w5; wp_step; wp_any ino w6; wp_step; wp_any pos w7; by wp_steps).
Qed.

Lemma read_fd_state_snapshot_result fd w :
  - 2 ^ 31 <= fd < 2 ^ 31 ->
  wp (read_fd_state_snapshot fd) (fun '(p, s) _ => p = 0 ->
    fd_snapshot fd (struct_bytes (fd_state_snapshot_fields s))) w.
Proof.
  intros Hfd. unfold read_fd_state_snapshot. destruct (valid_fd fd) eqn:V; cbn [negb]; wp_steps; [|done].
  wp_any file w1. destruct (file =? 0); wp_steps; [done|].
  eapply wp_mono; [apply read_from_file_result|]. intros [p s] _ Hr Hp. destruct (Hr Hp) as [F G].
  split; [|by eexists]. unfold valid_fd in V. apply negb_true_iff, orb_false_iff in V as [V1 V2].
  apply Z.ltb_ge in V1. apply Z.leb_gt in V2. rewrite u32_small in V2 by lia. lia.
Qed.

Lemma s32_range z : - 2 ^ 31 <= s32 z < 2 ^ 31.
Proof.
  unfold s32, to_signed. pose proof (Z.mod_pos_bound z (2 ^ 32) ltac:(lia)).
  cbv zeta. case_test; lia.
Qed.

Lemma capture_fd_state_ok fd :
  - 2 ^ 31 <= fd < 2 ^ 31 ->
  tlv_capture True (one_section (snapshot_section PayloadKindFDState PAYLOAD_TLV_FD_STATE_ARG_INDEX
      FD_STATE_SNAPSHOT_SIZE (fd_snapshot fd)))
    (PAYLOAD_TLV_HEADER_SIZE + FD_STATE_SNAPSHOT_SIZE)
    (fun ptr off => capture_fd_state_tlv_direct ptr off fd).
Proof.
  intros Hfd. apply (snapshot_capture_ok PayloadKindFDState PAYLOAD_TLV_KIND_FD_STATE
    PAYLOAD_TLV_FD_STATE_ARG_INDEX FD_STATE_SNAPSHOT_SIZE (fd_snapshot fd)
    (read_fd_state_snapshot fd) (fun s => struct_bytes (fd_state_snapshot_fields s))); try done.
  - apply read_fd_state_snapshot_quiet.
  - intros w. by apply read_fd_state_snapshot_result.
Qed.

Lemma capture_eventfd_state_ok fd :
  tlv_capture True (one_section (snapshot_section PayloadKindEventFDState
      PAYLOAD_TLV_EVENTFD_STATE_ARG_INDEX EVENTFD_STATE_SNAPSHOT_SIZE (fun _ => True)))
    (PAYLOAD_TLV_HEADER_SIZE + EVENTFD_STATE_SNAPSHOT_SIZE)
    (fun ptr off => capture_eventfd_state_tlv_direct ptr off fd).
Proof.
  apply (snapshot_capture_ok PayloadKindEventFDState PAYLOAD_TLV_KIND_EVENTFD_STATE
    PAYLOAD_TLV_EVENTFD_STATE_ARG_INDEX EVENTFD_STATE_SNAPSHOT_SIZE (fun _ => True)
    (read_eventfd_state_snapshot fd) (fun s => struct_bytes (eventfd_state_snapshot_fields s)));
    try done.
  - apply read_eventfd_state_snapshot_quiet.
  - intros w. unfold wp. by destruct (read_eventfd_state_snapshot fd w) as [[p x] w'].
Qed.

(** *** The exec snapshot *)

(** Recording one array stays inside its [max] slots and counts what it recorded. *)
Lemma wp_exec_records max d off size w0 w buf ro array (Q : Z * Z * Z -> world -> Prop) :
  0 <= max -> capturing d off size w0 w buf -> 0 <= off <= ro ->
  ro + max * EXEC_ARG_SNAPSHOT_SIZE <= size ->
  (forall w' b count status next, 0 <= count <= max -> capturing d off size w0 w' b ->
     Q (count, status, next) w') ->
  wp (capture_exec_records max (Some d) ro array) Q w.
Proof.
  intros Hm C Ho Hs H. unfold capture_exec_records.
  destruct (array =? 0); wp_steps; [by eapply H; [lia|exact C]|].
  eapply (wp_for_loop (fun i acc w' => fst (fst acc) = i /\ exists b, capturing d off size w0 w' b)
    _ _ _ max); [lia | | | by split; [|exists buf]].
  2: { intros [[c s] nx] w' [Hc [b Cb]]. cbn in Hc. eapply H; [lia | exact Cb]. }
  intros j [[c s] nx] w1 Hj [Hc [b Cb]]. cbn in Hc. subst c. unfold exec_record_step. wp_steps.
  eapply wp_quiet; [exact Cb | eauto with keeps |]. intros [err bytes] w2 C2.
  destruct (err <? 0); wp_steps; [eapply H; [lia|exact C2]|].
  destruct (_ =? 0); wp_steps; [eapply H; [lia|exact C2]|].
  eapply wp_quiet; [exact C2 | eauto with keeps |]. intros [len data] w3 C3. wp_step.
  eapply wp_dynptr_write; [exact C3 | lia | rewrite exec_arg_snapshot_size; lia | |];
    cbn [Z.ltb Z.compare].
  - intros w4 C4. destruct (_ =? _); wp_steps; [|by split; [|eexists]].
    eapply wp_quiet; [exact C4 | eauto with keeps |]. intros [err' bytes'] w5 C5.
    destruct (err' <? 0); [|destruct (_ =? 0)]; wp_steps; by (split; [|eexists]).
  - intros w4 NF C4. wp_step. eapply wp_copy_fail; [exact C4 | exact NF |].
    intros _ w5 C5. wp_steps. eapply H; [lia|exact C5].
Qed.

(** The whole snapshot: its length covers the argv slots and the recorded environment. *)
Lemma wp_exec_snapshot d off size w0 w buf so argv env (Q : Z -> world -> Prop) :
  capturing d off size w0 w buf -> 0 <= off <= so -> so + EXEC_SNAPSHOT_SIZE <= size ->
  (forall w' b n, 0 <= n <= EXEC_SNAPSHOT_SIZE -> capturing d off size w0 w' b -> Q n w') ->
  wp (capture_exec_snapshot_direct (Some d) so argv env) Q w.
Proof.
  intros C Ho Hs H. unfold capture_exec_snapshot_direct. wp_steps.
  eapply wp_exec_records; [lia | exact C | lia | lia |].
  intros w1 b1 ac ast an Hac C1. cbv beta iota. wp_step.
  eapply wp_exec_records; [lia | exact C1 | lia | lia |].
  intros w2 b2 ec est en Hec C2. cbv beta iota. wp_step.
  eapply wp_dynptr_write; [exact C2 | lia | rewrite exec_snapshot_header_size; lia | |];
    cbn [Z.ltb Z.compare].
  - intros w3 C3. wp_steps. eapply H; [lia | exact C3].
  - intros w3 NF C3. wp_step. eapply wp_copy_fail; [exact C3 | exact NF |].
    intros _ w4 C4. wp_steps. eapply H; [lia|exact C4].
Qed.

Definition exec_section (rq : exec_capture_request) (s : PayloadSection) : Prop :=
  Kind s = PayloadKindExecArgs /\ ArgIndex s = u16 (rq_argv_index rq) /\
  UserPtr s = u64 (rq_argv_ptr rq) /\ CopiedLen s = zlen (Data s) /\
  (ProbeRet s = 0 /\ 0 < CopiedLen s <= EXEC_SNAPSHOT_SIZE \/ ProbeRet s = -1 /\ CopiedLen s = 0).

(** The path and the snapshot, or nothing when the kernel refused a write. *)
Definition exec_sections (rq : exec_capture_request) (secs : list PayloadSection) : Prop :=
  appended (one_section (path_section EXEC_PATH_SNAPSHOT_MAX (rq_path_index rq) (rq_path_ptr rq)))
    (one_section (exec_section rq)) secs \/ (secs = [] /\ ~ no_fault).

Lemma capture_exec_ok rq :
  tlv_capture True (exec_sections rq) EXEC_CAPACITY (capture_exec_tlv_direct rq).
Proof.
  intros w d buf off Hb Ho Hs. unfold capture_exec_tlv_direct. wp_step.
  eapply wp_mono; [eapply (capture_path_section_ok EXEC_PATH_SNAPSHOT_MAX); [lia | exact Hb | lia | lia]|].
  intros n w1 (Hn & C1 & D1). cbv beta.
  destruct (proj1 (proj2 C1) _ Hb) as (b1 & E1 & L1 & _).
  assert (reserved w1 !! d = Some b1) as Hb1 by (by rewrite E1, lookup_insert_eq).
  assert (zlen b1 = zlen buf) as Z1 by (unfold zlen; by rewrite L1).
  pose proof (capturing_start d (off + n) w1 b1 Hb1) as G1. wp_steps.
  eapply wp_exec_snapshot; [exact G1 | lia | lia |]. intros w2 b2 m Hm G2. wp_step.
  assert (forall w', captures d (off + n) w1 w' -> captures d off w w') as Cw.
  { intros w' C. etrans; [exact C1|]. eapply captures_mono; [|exact C]. lia. }
  set (t := TlvHeader _ _ _ _ _ _ _).
  pose proof (payload_tlv_header_size t) as Ht. pose proof (cg_size _ _ _ _ _ _ G2) as Hz.
  eapply wp_write_header; [exact G2 | lia | lia | |].
  - intros w3 G3. wp_steps. split_and!; [lia | lia | apply Cw, G3 |]. intros _.
    replace (n + 32 + m) with (n + (32 + m)) by lia.
    assert (decodable (one_section (exec_section rq)) d (off + n) (32 + m) w3) as D3.
    { eexists _, [_]. split_and!; [apply G3 | | left; eexists; split; [reflexivity|]].
      - rewrite (section_decodes _ _ _ t PayloadKindExecArgs);
          [reflexivity | apply slice_put_same; lia | done | lia | done | cbn; lia |].
        rewrite zlen_put; lia.
      - repeat split; cbn [section_of ProbeRet CopiedLen Data t t_copied_len t_probe_ret].
        + rewrite slice_put_after by lia. rewrite zlen_slice by lia. rewrite u32_small; lia.
        + rewrite u32_small by lia. destruct (Z.ltb_spec 0 m); [left|right]; split; done || lia. }
    destruct (decodable_app _ _ d off n (32 + m) w1 w3 Ho ltac:(lia) ltac:(lia) (D1 I)
      (cg_rel _ _ _ _ _ _ G3) D3) as (b & secs & ? & ? & ?).
    exists b, secs. split_and!; [done..|by left].
  - intros w3 NF G3. wp_steps. split_and!; [lia | lia | apply Cw, G3 |]. intros _.
    exists b2, []. split_and!; [apply G3 | by rewrite slice_0 | by right].
Qed.

(** *** The payload of an entry event *)

Definition enter_capacity (sys_id : Z) (args : args6) : Z :=
  if is_write_payload_direct_syscall sys_id then
    PAYLOAD_TLV_HEADER_SIZE +
      payload_tlv_data_bucket (payload_tlv_copy_len (arg2 args) PAYLOAD_TLV_WRITE_MAX)
  else if is_exec_payload_direct_syscall sys_id then EXEC_CAPACITY
  else PAYLOAD_TLV_HEADER_SIZE + PAYLOAD_TLV_OPENAT_MAX.

(** The sections of the entry event of a payload syscall. *)
Definition enter_sections (sys_id : Z) (args : args6) (base fl : Z) (secs : list PayloadSection)
    : Prop :=
  if one_of sys_id [SYS_OPEN; SYS_CREAT] then
    one_section (path_section PAYLOAD_TLV_OPENAT_MAX 0 (arg0 args)) secs
  else if one_of sys_id [SYS_OPENAT] then
    one_section (path_section PAYLOAD_TLV_OPENAT_MAX 1 (arg1 args)) secs
  else if one_of sys_id [SYS_EXECVE] then exec_sections (execve_request args) secs
  else if one_of sys_id [SYS_EXECVEAT] then exec_sections (execveat_request args) secs
  else if is_write_payload_direct_syscall sys_id then
    one_section (bytes_section PayloadDirectionIn 1 PAYLOAD_TLV_WRITE_MAX (arg1 args) (arg2 args)
      fl base) secs
  else secs = [].

Lemma tlv_capture_flags_weaken guard (F F' : Z -> Prop) (P P' : Z -> list PayloadSection -> Prop)
    cap cap' f :
  cap <= cap' -> (forall fl, F fl -> F' fl) -> (forall fl s, P fl s -> P' fl s) ->
  tlv_capture_flags guard F P cap f -> tlv_capture_flags guard F' P' cap' f.
Proof.
  intros Hc HF HP Hf w d buf off Hb Ho Hs.
  eapply wp_mono; [eapply Hf; [exact Hb | lia | lia]|].
  intros [n fl] w' (? & ? & ? & D). split_and!; [lia | lia | auto | done |].
  intros G. destruct (D G) as (b & s & ? & ? & ?). exists b, s. auto.
Qed.

Lemma capture_payload_ok sys_id args base :
  0 <= arg2 args ->
  tlv_capture_flags True (flags_from base) (enter_sections sys_id args base)
    (enter_capacity sys_id args)
    (fun ptr off => capture_payload_tlv_direct ptr off sys_id args base).
Proof.
  intros H2. unfold capture_payload_tlv_direct, enter_sections, enter_capacity.
  unfold is_write_payload_direct_syscall, is_exec_payload_direct_syscall.
  assert (forall fl, base = fl -> flags_from base fl) as Fb by (intros ? <-; by left).
  assert (forall idx ptr cap, 544 <= cap -> tlv_capture_flags True (flags_from base)
    (fun _ => one_section (path_section 512 idx ptr)) cap (fun p off =>
      let* n := capture_openat_path_tlv_direct p off idx ptr in ret (n, base))) as Path.
  { intros idx ptr cap Hc. eapply tlv_capture_flags_weaken; [exact Hc | exact Fb | |].
    2: apply tlv_capture_flags_const, (capture_path_section_ok 512 idx ptr); lia. done. }
  assert (forall rq, tlv_capture_flags True (flags_from base) (fun _ => exec_sections rq) EXEC_CAPACITY
    (fun p off => let* n := capture_exec_tlv_direct rq p off in ret (n, base))) as Exec.
  { intros rq. eapply tlv_capture_flags_weaken; [reflexivity | exact Fb | |].
    2: apply tlv_capture_flags_const, capture_exec_ok. done. }
  destruct (one_of sys_id [SYS_OPEN; SYS_CREAT]) eqn:E1.
  { rewrite !(one_of_disjoint _ _ _ E1) by done. by apply Path. }
  destruct (one_of sys_id [SYS_OPENAT]) eqn:E2.
  { rewrite !(one_of_disjoint _ _ _ E2) by done. by apply Path. }
  destruct (one_of sys_id [SYS_EXECVE]) eqn:E3.
  { rewrite (one_of_disjoint _ _ [SYS_WRITE; SYS_PWRITE64] E3) by done.
    apply one_of_inv in E3 as (? & ->%list_elem_of_singleton & ->). rewrite one_of_nr. apply Exec. }
  destruct (one_of sys_id [SYS_EXECVEAT]) eqn:E4.
  { rewrite (one_of_disjoint _ _ [SYS_WRITE; SYS_PWRITE64] E4) by done.
    apply one_of_inv in E4 as (? & ->%list_elem_of_singleton & ->). rewrite one_of_nr. apply Exec. }
  destruct (one_of sys_id [SYS_WRITE; SYS_PWRITE64]) eqn:E5; [by apply capture_write_bytes_ok|].
  intros w d buf off Hb Ho Hs. wp_steps.
  split_and!; [lia | destruct (one_of sys_id [SYS_EXECVE; SYS_EXECVEAT]); lia | by left | reflexivity |]. intros _.
  eapply decodable_0; [by apply capturing_start | done].
Qed.

(** *** Emitters *)

Lemma enter_payload_ok off cap sys_id args base :
  0 <= off -> 0 <= arg2 args -> enter_capacity sys_id args <= cap ->
  payload_ok off cap (decodes True (flags_from base) (enter_sections sys_id args base))
    (fun ptr => let* (n, flags) := capture_payload_tlv_direct ptr off sys_id args base in
                ret (tlv_flag flags n, n)).
Proof.
  intros Ho H2 Hc.
  apply (tlv_flags_payload_ok True _ _ off cap
    (fun ptr off => capture_payload_tlv_direct ptr off sys_id args base)); [lia|].
  eapply tlv_capture_flags_weaken; [exact Hc | | |by apply capture_payload_ok]; auto.
Qed.

Lemma enter_body_ok args rv pre cap :
  body_ok EVENT_V2_ENTER_BODY_LEN cap (built_enter args rv pre (-1)) (enter_body args rv pre).
Proof. by apply ret_body_ok. Qed.

Lemma enter_capacity_range sys_id args :
  0 <= arg2 args -> 0 <= enter_capacity sys_id args <= EXEC_CAPACITY.
Proof.
  intros H. unfold enter_capacity. rewrite payload_tlv_copy_len_min by lia.
  pose proof (payload_tlv_data_bucket_covers (Z.min (arg2 args) 512) ltac:(lia)).
  destruct (is_write_payload_direct_syscall sys_id), (is_exec_payload_direct_syscall sys_id); lia.
Qed.

Lemma flags_from_not_compact base F P guard flags pl :
  In base [0; EVENT_FLAG_GENERIC_ENTER] -> (forall fl, F fl -> flags_from base fl) ->
  decodes guard F P flags pl -> has_flag (u16 flags) EVENT_FLAG_COMPACT_ENTER = false.
Proof.
  intros Hb HF (fl & HFl & -> & _). apply tlv_flag_not_compact.
  destruct (HF _ HFl) as [->| ->]; cbn in Hb |- *; destruct Hb as [<-|[<-|[]]]; auto.
Qed.

(** The entry event of a payload syscall, as the consumer reads it. *)
Definition reads_payload_enter (r : exec_ctx) (pid tid sys_id ts : Z) (args : args6)
    (base rv pre : Z) : Z -> list Z -> Prop :=
  reads_enter r pid tid sys_id ts args rv pre (-1)
    (decodes True (flags_from base) (enter_sections sys_id args base)).

Lemma emit_payload_enter_ok pid tid sys_id ctx ts :
  let args := args_u64 (enter_args ctx) in
  emitter (fun r => reads_payload_enter r pid tid sys_id ts args EVENT_FLAG_GENERIC_ENTER 0 (-1))
    (emit_payload_enter_event_v2_direct pid tid sys_id ctx ts).
Proof.
  intros args. pose proof (u64_range (arg2 (enter_args ctx))).
  pose proof (enter_capacity_range sys_id args ltac:(cbn; lia)).
  apply enter_emit_ok; [unfold enter_capacity in *; cbn in *; lia | | apply enter_body_ok |].
  - apply enter_payload_ok; [lia | cbn; lia | reflexivity].
  - intros flags pl. apply (flags_from_not_compact EVENT_FLAG_GENERIC_ENTER); cbn; auto.
Qed.

Lemma put_scratch_emits s : keeps emits (put_fd_path_scratch s).
Proof.
  intros w. split; [done|]. split; [done|]. exists [], 0, 0, 0, 0. split; try lia; [|by apply numbering_nil].
  apply moved_same; try done. cbn. by rewrite app_nil_r.
Qed.
Hint Resolve put_scratch_emits : keeps.

Lemma exec_enter_record_ok pid tid sys_id args ts base rv pre :
  one_of sys_id [SYS_EXECVE; SYS_EXECVEAT] = true -> In base [0; EVENT_FLAG_GENERIC_ENTER] ->
  0 <= arg2 args ->
  emitter (fun r => reads_payload_enter r pid tid sys_id ts args base rv pre)
    (enter_emit EXEC_CAPACITY pid tid sys_id ts
       (fun ptr => let* (n, flags) := capture_payload_tlv_direct ptr
           (EVENT_V2_HEADER_LEN + EVENT_V2_ENTER_BODY_LEN) sys_id args base in
         ret (tlv_flag flags n, n))
       (enter_body args rv pre)).
Proof.
  intros E Hb H2. apply enter_emit_ok; [lia | | apply enter_body_ok |].
  - apply enter_payload_ok; [lia | done | by apply enter_capacity_range].
  - intros flags pl. apply (flags_from_not_compact base); auto.
Qed.

Lemma enter_emit_emits cap pid tid sys_id ts args rv pre base :
  In base [0; EVENT_FLAG_GENERIC_ENTER] -> 0 <= arg2 args -> enter_capacity sys_id args <= cap < 2 ^ 31 ->
  keeps emits (enter_emit cap pid tid sys_id ts
       (fun ptr => let* (n, flags) := capture_payload_tlv_direct ptr
           (EVENT_V2_HEADER_LEN + EVENT_V2_ENTER_BODY_LEN) sys_id args base in
         ret (tlv_flag flags n, n))
       (enter_body args rv pre)).
Proof.
  intros Hb H2 Hc. pose proof (enter_capacity_range sys_id args H2).
  eapply emitter_keeps, enter_emit_ok; [lia | | apply enter_body_ok |].
  - apply enter_payload_ok; [lia | done | lia].
  - intros flags pl. apply (flags_from_not_compact base); auto.
Qed.

Lemma emit_exec_with_status_emits pid tid sys_id ctx ts base rv pre :
  In base [0; EVENT_FLAG_GENERIC_ENTER] ->
  keeps emits (emit_exec_enter_event_v2_direct_with_status pid tid sys_id ctx ts base rv pre).
Proof.
  intros Hb. unfold emit_exec_enter_event_v2_direct_with_status, lookup_fd_path_scratch.
  keeps_solve. pose proof (u64_range (arg2 (enter_args ctx))).
  apply enter_emit_emits; [done | cbn; lia |]. split; [|lia].
  apply enter_capacity_range. cbn. lia.
Qed.

Lemma emit_payload_enter_emits pid tid sys_id ctx ts :
  keeps emits (emit_payload_enter_event_v2_direct pid tid sys_id ctx ts).
Proof. eapply emitter_keeps, emit_payload_enter_ok. Qed.

Lemma emit_exec_enter_emits pid tid sys_id ctx cfg ts pre :
  keeps emits (emit_exec_enter_event_v2_direct pid tid sys_id ctx cfg ts pre).
Proof.
  unfold emit_exec_enter_event_v2_direct.
  keeps_solve; apply emit_exec_with_status_emits; cbn; auto.
Qed.

(** The exit event of a pending syscall, as the consumer reads it. *)
Definition reads_pending_exit (r : exec_ctx) (p : pending_syscall) (rv dur : Z)
    (Pf : Z -> list Z -> Prop) : Z -> list Z -> Prop :=
  reads_exit r (p_pid p) (p_tid p) (p_sys_id p) (u64 (p_enter_time p + dur)) (p_args p) rv dur
    (p_stack_id p) 0 Pf.

Lemma pending_exit_ok cap p rv dur Pf payload :
  0 <= cap < 2 ^ 31 -> payload_ok exit_payload_offset cap Pf payload ->
  emitter (fun r => reads_pending_exit r p rv dur Pf) (pending_exit_emit cap p rv dur payload).
Proof.
  intros Hc Hp. unfold pending_exit_emit. apply exit_emit_ok; [lia | done | apply pending_body_ok].
Qed.

Lemma emit_syscall_exit_ok p rv dur flags :
  emitter (fun r => reads_pending_exit r p rv dur (fun f pl => f = flags /\ pl = []))
    (emit_syscall_exit_event_v2_direct p rv dur flags).
Proof. apply pending_exit_ok; [lia | apply no_payload_ok]. Qed.

Lemma emit_payload_exit_ok p rv dur :
  rv < 2 ^ 63 ->
  emitter (fun r => reads_pending_exit r p rv dur (decodes True (flags_from 0)
      (fun fl secs => if 0 <? rv
         then one_section (bytes_section PayloadDirectionOut 1 PAYLOAD_TLV_READ_MAX (arg1 (p_args p))
                rv fl 0) secs
         else secs = [])))
    (emit_payload_exit_event_v2_direct p rv dur).
Proof.
  intros Hrv. apply pending_exit_ok.
  - case_test; [|lia]. rewrite u64_small, payload_tlv_copy_len_min by lia.
    pose proof (payload_tlv_data_bucket_covers (Z.min rv 512) ltac:(lia)). lia.
  - apply (tlv_flags_payload_ok True _ _ _ _
      (fun ptr off => capture_read_bytes_tlv_direct ptr off p rv 0)); [lia|].
    by apply capture_read_bytes_ok.
Qed.

Lemma emit_exec_exit_ok p rv dur :
  emitter (fun r => reads_pending_exit r p rv dur (decodes True (eq 0) (fun _ secs =>
      if one_of (p_sys_id p) [SYS_EXECVE] then exec_sections (execve_request (p_args p)) secs
      else if one_of (p_sys_id p) [SYS_EXECVEAT] then exec_sections (execveat_request (p_args p)) secs
      else secs = [])))
    (emit_exec_exit_event_v2_direct p rv dur).
Proof.
  apply pending_exit_ok; [lia|].
  apply (tlv_payload_ok True _ exit_payload_offset _ 0 (fun ptr off =>
    if one_of (p_sys_id p) [SYS_EXECVE]
    then capture_exec_tlv_direct (execve_request (p_args p)) ptr off
    else if one_of (p_sys_id p) [SYS_EXECVEAT]
    then capture_exec_tlv_direct (execveat_request (p_args p)) ptr off
    else ret 0)); [lia|].
  destruct (one_of _ [SYS_EXECVE]); [apply capture_exec_ok|].
  destruct (one_of _ [SYS_EXECVEAT]); [apply capture_exec_ok|]. by apply tlv_capture_none.
Qed.

(** A second section only when [b]. *)
Lemma tlv_capture_when guard (b : bool) P cap f :
  0 <= cap -> tlv_capture guard P cap f ->
  tlv_capture guard (if b then P else fun secs => secs = []) (if b then cap else 0)
    (fun ptr off => if b then f ptr off else ret 0).
Proof. intros Hc Hf. destruct b; [done|]. by apply tlv_capture_none. Qed.

(** Two captures in a row as the payload of an event. *)
Lemma two_sections_payload_ok P1 P2 off cap1 cap2 f g :
  0 <= off -> tlv_capture True P1 cap1 f -> tlv_capture True P2 cap2 g -> 0 <= cap2 ->
  payload_ok off (cap1 + cap2) (decodes True (eq 0) (fun _ => appended P1 P2)) (fun ptr =>
    let* n := f ptr off in
    let* m := g ptr (off + n) in
    ret (tlv_flag 0 (n + m), n + m)).
Proof.
  intros Ho Hf Hg Hc w d buf Hb Hs.
  pose proof (tlv_payload_ok True _ off _ 0 _ Ho (tlv_capture_seq True _ _ _ _ _ _ Hf Hg Hc)
    w d buf Hb Hs) as H.
  unfold wp, bind, ret in H |- *. destruct (f (Some d) off w) as [n w1].
  by destruct (g (Some d) (off + n) w1) as [m w2].
Qed.

Lemma emit_open_creat_fd_state_path_exit_ok p rv dur :
  let path_arg := if one_of (p_sys_id p) [SYS_OPENAT] then 1 else 0 in
  emitter (fun r => reads_pending_exit r p rv dur (decodes True (eq 0) (fun _ => appended
      (one_section (path_section PAYLOAD_TLV_OPENAT_MAX path_arg (arg (p_args p) path_arg)))
      (if 0 <=? rv then one_section (snapshot_section PayloadKindFDState
          PAYLOAD_TLV_FD_STATE_ARG_INDEX FD_STATE_SNAPSHOT_SIZE (fd_snapshot (s32 rv)))
       else fun secs => secs = []))))
    (emit_open_creat_fd_state_path_exit_event_v2_direct p rv dur).
Proof.
  intros path_arg. apply pending_exit_ok; [case_test; lia|].
  apply (two_sections_payload_ok _ _ _ _ _
    (fun ptr off => capture_openat_path_tlv_direct ptr off path_arg (arg (p_args p) path_arg))
    (fun ptr off => if 0 <=? rv then capture_fd_state_tlv_direct ptr off (s32 rv) else ret 0));
    [lia | apply capture_path_section_ok; lia | |case_test; lia].
  apply tlv_capture_when; [lia|]. apply capture_fd_state_ok, s32_range.
Qed.

Lemma emit_fd_state_exit_ok p rv dur :
  emitter (fun r => reads_pending_exit r p rv dur (decodes True (eq 0) (fun _ => appended
      (one_section (snapshot_section PayloadKindFDState
          PAYLOAD_TLV_FD_STATE_ARG_INDEX FD_STATE_SNAPSHOT_SIZE (fd_snapshot (s32 rv))))
      (if is_eventfd_state_syscall (p_sys_id p)
       then one_section (snapshot_section PayloadKindEventFDState PAYLOAD_TLV_EVENTFD_STATE_ARG_INDEX
              EVENTFD_STATE_SNAPSHOT_SIZE (fun _ => True))
       else fun secs => secs = []))))
    (emit_fd_state_exit_event_v2_direct p rv dur).
Proof.
  apply pending_exit_ok; [destruct (is_eventfd_state_syscall _); lia|].
  apply (two_sections_payload_ok _ _ _ _ _
    (fun ptr off => capture_fd_state_tlv_direct ptr off (s32 rv))
    (fun ptr off => if is_eventfd_state_syscall (p_sys_id p)
                    then capture_eventfd_state_tlv_direct ptr off (s32 rv) else ret 0));
    [lia | apply capture_fd_state_ok, s32_range | | destruct (is_eventfd_state_syscall _); lia].
  apply tlv_capture_when; [lia|]. apply capture_eventfd_state_ok.
Qed.

Lemma s64_range z : - 2 ^ 63 <= s64 z < 2 ^ 63.
Proof.
  unfold s64, to_signed. pose proof (Z.mod_pos_bound z (2 ^ 64) ltac:(lia)).
  cbv zeta. case_test; lia.
Qed.

(** Every [s64] return value. *)
Lemma emit_payload_exit_emits p z dur : keeps emits (emit_payload_exit_event_v2_direct p (s64 z) dur).
Proof. eapply emitter_keeps, emit_payload_exit_ok. apply s64_range. Qed.
Lemma emit_syscall_exit_emits p rv dur flags :
  keeps emits (emit_syscall_exit_event_v2_direct p rv dur flags).
Proof. eapply emitter_keeps, emit_syscall_exit_ok. Qed.
Lemma emit_exec_exit_emits p rv dur : keeps emits (emit_exec_exit_event_v2_direct p rv dur).
Proof. eapply emitter_keeps, emit_exec_exit_ok. Qed.
Lemma emit_open_creat_emits p rv dur :
  keeps emits (emit_open_creat_fd_state_path_exit_event_v2_direct p rv dur).
Proof. eapply emitter_keeps, emit_open_creat_fd_state_path_exit_ok. Qed.
Lemma emit_fd_state_exit_emits p rv dur : keeps emits (emit_fd_state_exit_event_v2_direct p rv dur).
Proof. eapply emitter_keeps, emit_fd_state_exit_ok. Qed.
End PayloadLemmas.

#[export] Hint Resolve lookup_current_fd_file_quiet read_snapshot_from_file_quiet
  read_fd_state_snapshot_quiet read_eventfd_state_snapshot_quiet note_truncation_quiet
  put_scratch_emits emit_payload_enter_emits emit_exec_enter_emits emit_syscall_exit_emits
  emit_payload_exit_emits emit_exec_exit_emits emit_open_creat_emits emit_fd_state_exit_emits : keeps.
