(* ===== verification/LifecycleState.v ===== *)
(** Task tracking state and lifecycle records.

    Models [bpf/lifecycle_event_v2.h] (lifecycle records, the tracked-task
    lookup) and [bpf/lifecycle_state.h] (the maps that say which tasks are
    traced, which exec is in flight, and what must be cleaned up when a task
    goes away). *)
From stdpp Require Import base list gmap numbers.
From S2P Require Import Prelude Syscalls Abi Kernel Consumer Stats Tlv Emit Decoder EventCore Payload.

Abbreviation CLONE_PTRACE_FLAG := 0x00002000 (only parsing).
Abbreviation CLONE_PARENT_FLAG := 0x00008000 (only parsing).
Abbreviation lifecycle_payload_offset :=
  (EVENT_V2_HEADER_LEN + EVENT_V2_LIFECYCLE_BODY_LEN) (only parsing).

Section LifecycleState.
Context {K : Kernel} {A : Arch}.

(** ** [lifecycle_event_v2.h] *)

Definition init_lifecycle_event_v2_header (pid tid out_size ts_ns sequence : Z)
    : prog event_v2_header :=
  let* (cpu, reserved, epoch, time) := capture_event_integrity in
  let* comm := capture_event_v2_comm in
  ret (EventHeader EVENT_VERSION EVENT_TYPE_LIFECYCLE 0 EVENT_V2_HEADER_LEN out_size pid tid 0
         sequence ts_ns comm cpu reserved epoch time).

Definition init_lifecycle_event_v2_body (kind snapshot_len arg0 arg1 : Z) : lifecycle_event_v2 :=
  LifecycleBody kind snapshot_len (Args arg0 arg1 0 0 0 0).

(** The copy of the snapshot string; [snapshot_str] is zero when there is none. *)
Definition capture_lifecycle_snapshot (snapshot_str : Z) (ptr : dynptr) : prog Z :=
  if snapshot_str =? 0 then ret 0
  else
    let* payload := bpf_dynptr_data ptr lifecycle_payload_offset LIFECYCLE_SNAPSHOT_MAX in
    match payload with
    | None => record_ringbuf_copy_fail ;;; ret 0
    | Some data =>
        let* n := read_kernel_str_into data LIFECYCLE_SNAPSHOT_MAX snapshot_str in
        if 0 <? n then ret (u32 n) else ret 0
    end.

Definition emit_lifecycle_event_v2_direct (kind pid tid arg0 arg1 snapshot_str : Z) : prog unit :=
  let payload_capacity := if snapshot_str =? 0 then 0 else LIFECYCLE_SNAPSHOT_MAX in
  let out_size := EVENT_V2_HEADER_LEN + EVENT_V2_LIFECYCLE_BODY_LEN + payload_capacity in
  emit_record out_size
    (fun ptr => let* n := capture_lifecycle_snapshot snapshot_str ptr in ret (0, n))
    (fun sequence _ =>
       let* ts := bpf_ktime_get_ns in
       init_lifecycle_event_v2_header pid tid out_size ts sequence)
    (fun n => ret (struct_bytes (lifecycle_event_v2_fields
       (init_lifecycle_event_v2_body kind n arg0 arg1)))).

Definition emit_lifecycle_event (kind pid tid arg0 arg1 snapshot_str : Z) : prog unit :=
  let* cfg := bpf_map_lookup_elem config_map 0 in
  match cfg with
  | Some c =>
      if has_flag c CONFIG_EMIT_LIFECYCLE
      then emit_lifecycle_event_v2_direct kind pid tid arg0 arg1 snapshot_str
      else ret tt
  | None => ret tt
  end.

Definition lookup_lifecycle_task_filter_flags (pid tid : Z) : prog (option Z) :=
  let* flags := bpf_map_lookup_elem filter_map pid in
  let try_tid :=
    if tid =? pid then ret None
    else
      let* flags := bpf_map_lookup_elem filter_map tid in
      match flags with
      | Some f => if has_flag f FILTER_TASK_TRACKED then ret (Some f) else ret None
      | None => ret None
      end in
  match flags with
  | Some f => if has_flag f FILTER_TASK_TRACKED then ret (Some f) else try_tid
  | None => try_tid
  end.

Definition is_lifecycle_task_tracked (pid tid : Z) : prog bool :=
  let* flags := lookup_lifecycle_task_filter_flags pid tid in
  ret (match flags with Some _ => true | None => false end).

(** [if (bpf_map_update_elem(...) != 0) { record_lifecycle_map_update_fail(); return 0; } return 1;] *)
Definition lifecycle_map_update (m : map_id) (k v : Z) : prog bool :=
  let* r := bpf_map_update_elem m k v in
  if r =? 0 then ret true
  else record_lifecycle_map_update_fail ;;; ret false.

Definition mark_attach_task_exited (tid : Z) : prog unit :=
  if tid =? 0 then ret tt
  else
    let* root := bpf_map_lookup_elem attach_roots_map tid in
    match root with
    | None => ret tt
    | Some _ => let* _ := lifecycle_map_update attach_exited_map tid 1 in ret tt
    end.

(** ** [lifecycle_state.h] *)

Definition capture_pending_fork_flags (tid sys_id : Z) (ctx : trace_event_raw_sys_enter)
    : prog unit :=
  let arg0 := u64 (arg0 (enter_args ctx)) in
  let store flags := let* _ := lifecycle_map_update pending_fork_flags_map tid flags in ret tt in
  if one_of sys_id [SYS_CLONE] then store arg0
  else if one_of sys_id [SYS_CLONE3] then
    if arg0 =? 0 then ret tt
    else
      let* (err, bytes) := bpf_probe_read_user 8 arg0 in
      if err =? 0 then store (le_val bytes) else ret tt
  else ret tt.

Definition pending_fork_flags (tid : Z) : prog Z :=
  let* flags := bpf_map_lookup_elem pending_fork_flags_map tid in
  ret (default 0 flags).

Definition clear_pending_fork_flags (tid sys_id : Z) : prog unit :=
  if one_of sys_id [SYS_CLONE; SYS_CLONE3]
  then bpf_map_delete_elem pending_fork_flags_map tid else ret tt.

Definition mark_unknown_child (tid parent_tgid : Z) : prog unit :=
  let* _ := lifecycle_map_update unknown_children_map tid parent_tgid in ret tt.

Definition take_unknown_child (tid : Z) : prog Z :=
  let* parent := bpf_map_lookup_elem unknown_children_map tid in
  match parent with
  | None => ret 0
  | Some p => bpf_map_delete_elem unknown_children_map tid ;;; ret p
  end.

Definition clear_armed_fork_parent (pid : Z) : prog unit :=
  let* armed := bpf_map_lookup_elem arm_fork_map 0 in
  match armed with
  | Some p =>
      if p =? pid then let* _ := lifecycle_map_update arm_fork_map 0 0 in ret tt else ret tt
  | None => ret tt
  end.

Definition install_pre_exec_filter (tid : Z) : prog bool :=
  lifecycle_map_update filter_map tid (Z.lor FILTER_TASK_TRACKED FILTER_TASK_PRE_EXEC).

Definition install_tracked_filter (tid : Z) : prog bool :=
  let* existing := bpf_map_lookup_elem filter_map tid in
  let value :=
    match existing with
    | Some e => Z.lor FILTER_TASK_TRACKED (Z.land e FILTER_TASK_PRE_EXEC)
    | None => FILTER_TASK_TRACKED
    end in
  lifecycle_map_update filter_map tid value.

Definition clear_pre_exec_filter (tid : Z) : prog bool :=
  let* flags := bpf_map_lookup_elem filter_map tid in
  match flags with
  | Some f =>
      if has_flag f FILTER_TASK_PRE_EXEC
      then lifecycle_map_update filter_map tid (Z.ldiff f FILTER_TASK_PRE_EXEC)
      else ret false
  | None => ret false
  end.

Definition adopt_exec_task_tracking (pid tid old_tid : Z) : prog bool :=
  let* tracked := is_lifecycle_task_tracked pid tid in
  if tracked then ret true
  else if (old_tid =? 0) || (old_tid =? tid) then ret false
  else
    let* old_flags := bpf_map_lookup_elem filter_map old_tid in
    match old_flags with
    | None => ret false
    | Some value =>
        if negb (has_flag value FILTER_TASK_TRACKED) then ret false
        else
          let* ok := lifecycle_map_update filter_map pid value in
          if ok then bpf_map_delete_elem filter_map old_tid ;;; ret true
          else ret false
    end.

Definition clear_process_lifecycle_state (pid : Z) : prog unit :=
  bpf_map_delete_elem filter_map pid ;;;
  bpf_map_delete_elem attach_roots_map pid ;;;
  bpf_map_delete_elem pending_exec_map pid ;;;
  bpf_map_delete_elem main_exited_map pid ;;;
  bpf_map_delete_elem pending_fork_flags_map pid ;;;
  bpf_map_delete_elem unknown_children_map pid ;;;
  clear_armed_fork_parent pid.

Definition is_exec_replaced_leader (task pid tid : Z) : prog bool :=
  if (task =? 0) || negb (tid =? pid) then ret false
  else
    let* pending_tid := bpf_map_lookup_elem pending_exec_map pid in
    ret (match pending_tid with Some t => negb (t =? pid) | None => false end).

Definition arm_pending_exec_replacement (pid tid sys_id : Z) : prog unit :=
  if negb (is_exec_payload_direct_syscall sys_id) || (tid =? pid) then ret tt
  else
    let* tracked := is_lifecycle_task_tracked pid tid in
    if tracked then let* _ := lifecycle_map_update pending_exec_map pid tid in ret tt
    else ret tt.

Definition clear_replaced_leader_task_state (tid : Z) : prog unit := clear_pending_task_state.

Definition clear_lifecycle_task_state (pid tid : Z) : prog unit :=
  clear_pending_task_state ;;;
  if tid =? pid then clear_process_lifecycle_state pid
  else
    let* pending_tid := bpf_map_lookup_elem pending_exec_map pid in
    (match pending_tid with
     | Some t => if t =? tid then bpf_map_delete_elem pending_exec_map pid else ret tt
     | None => ret tt
     end) ;;;
    bpf_map_delete_elem filter_map tid ;;;
    bpf_map_delete_elem attach_roots_map tid ;;;
    bpf_map_delete_elem pending_fork_flags_map tid ;;;
    bpf_map_delete_elem unknown_children_map tid.
End LifecycleState.

Section LifecycleLemmas.
Context {K : Kernel} {A : Arch}.

(** ** Lifecycle records *)

(** What a kernel string read returns. *)
Lemma probe_read_kernel_str_result n addr w :
  let '(r, bytes) := fst (bpf_probe_read_kernel_str n addr w) in
  1 <= n -> zlen bytes <= n /\
  ((1 <= r /\ r = zlen bytes /\
      bytes = until_nul (kernel_bytes (calls w) addr (n - 1)) ++ [0]) \/ r < 0).
Proof.
  unfold bpf_probe_read_kernel_str, bind, tick, ret.
  destruct (Z.ltb_spec (k_kernel_err (calls w) addr) 0); cbn; intros.
  - split; [unfold zlen; rewrite length_replicate; lia|]. by right.
  - pose proof (until_nul_length (kernel_bytes (calls w) addr (n - 1))) as L.
    unfold kernel_bytes at 2 in L. rewrite length_map, length_seq in L.
    assert (zlen (until_nul (kernel_bytes (calls w) addr (n - 1)) ++ [0])
      = Z.of_nat (length (until_nul (kernel_bytes (calls w) addr (n - 1)))) + 1) as ->
      by (by rewrite zlen_app).
    split; [lia|]. left. split_and!; [lia|done|done].
Qed.

Lemma wp_read_kernel_str_into d off size w0 w buf o n addr (Q : Z -> world -> Prop) :
  capturing d off size w0 w buf -> 0 <= off <= o -> 1 <= n -> o + n <= size ->
  (forall w' r bytes, zlen bytes <= n ->
     (1 <= r /\ r = zlen bytes /\
        bytes = until_nul (kernel_bytes (calls w) addr (n - 1)) ++ [0]) \/ r < 0 ->
     capturing d off size w0 w' (put buf o bytes) -> Q r w') ->
  wp (read_kernel_str_into (d, o) n addr) Q w.
Proof.
  intros C Ho Hn Hb H. unfold read_kernel_str_into. wp_step.
  pose proof (probe_read_kernel_str_result n addr w) as R.
  pose proof (bpf_probe_read_kernel_str_quiet n addr w) as Qt.
  unfold wp. destruct (bpf_probe_read_kernel_str n addr w) as [[r bytes] w1]. cbn [fst snd] in *.
  destruct (R Hn) as [Hl Hr]. fold (wp (data_store (d, o) bytes ;;; ret r) Q w1).
  wp_step. eapply wp_data_store; [by eapply capturing_quiet | lia | lia |].
  intros w' C'. wp_steps. by eapply H; [exact Hl | exact Hr | exact C'].
Qed.

Lemma until_nul_app l : until_nul (until_nul l ++ [0]) = until_nul l.
Proof.
  induction l as [|b l IH]; [done|]. cbn. destruct (b =? 0) eqn:E; [done|]. cbn.
  by rewrite E, IH.
Qed.

(** The text of a lifecycle record: nothing, or the string at [snapshot_str]. *)
Definition snapshot_text (snapshot_str : Z) (text : list Z) : Prop :=
  text = [] \/
  snapshot_str <> 0 /\ exists k, text = until_nul (kernel_bytes k snapshot_str (LIFECYCLE_SNAPSHOT_MAX - 1)).

Lemma capture_snapshot_ok snapshot_str :
  payload_ok lifecycle_payload_offset (if snapshot_str =? 0 then 0 else LIFECYCLE_SNAPSHOT_MAX)
    (fun flags pl => flags = 0 /\ snapshot_text snapshot_str (until_nul pl))
    (fun ptr => let* n := capture_lifecycle_snapshot snapshot_str ptr in ret (0, n)).
Proof.
  intros w d buf Hb Hs. unfold capture_lifecycle_snapshot. wp_step.
  pose proof (capturing_start d lifecycle_payload_offset w buf Hb) as C0.
  destruct (Z.eqb_spec snapshot_str 0); wp_steps.
  { split_and!; [lia | lia | apply C0 |]. exists buf. split_and!; [done..|by left]. }
  assert (forall w' b, capturing d lifecycle_payload_offset (zlen buf) w w' b ->
    0 <= 0 <= 4096 /\ captures d lifecycle_payload_offset w w' /\ exists buf',
      reserved w' !! d = Some buf' /\ 0 = 0 /\
      snapshot_text snapshot_str (until_nul (slice buf' lifecycle_payload_offset 0))) as None_.
  { intros w' b C. split_and!; [lia | lia | apply C |]. exists b.
    split_and!; [apply C | done |]. left. by rewrite slice_0. }
  eapply wp_dynptr_data; [exact C0 | lia | |].
  - intros w1 C1. wp_step. eapply wp_read_kernel_str_into; [exact C1 | lia | lia | lia |].
    intros w2 r bytes Hl Hr C2. destruct (Z.ltb_spec 0 r); wp_steps; [|by eapply None_].
    destruct Hr as [(H1 & -> & Hd)|]; [|lia]. rewrite u32_small by lia.
    split_and!; [lia | lia | apply C2 |]. eexists. split_and!; [apply C2 | done |].
    right. split; [done|]. exists (calls w1). rewrite slice_put_same by lia.
    rewrite Hd. apply until_nul_app.
  - intros w1 NF C1. wp_step. eapply wp_copy_fail; [exact C1 | exact NF |].
    intros _ w2 C2. wp_steps. by eapply None_.
Qed.

(** A lifecycle record, as the consumer reads it. *)
Record reads_lifecycle (r : exec_ctx) (kind pid tid a0 a1 snapshot_str : Z) (sq : Z)
    (env : traceEventEnvelope) : Prop := ReadsLifecycle {
  rl_type : e_eventType env = EVENT_TYPE_LIFECYCLE;
  rl_seq : e_seq env = u64 sq;
  rl_cpu : e_cpu env = u32 (cur_cpu r);
  rl_pid : e_pid env = u32 pid;
  rl_tid : e_tid env = u32 tid;
  rl_action : e_lifecycleAction env = kind;
  rl_args : e_args env =
    Args (if kind =? LIFECYCLE_FORK then u32 (u64 a0) else u64 a0) (u64 a1) 0 0 0 0;
  rl_text : snapshot_text snapshot_str (e_snapshotText env) }.

Lemma init_lifecycle_header_ok r size pid tid :
  header_ok r (fun seq flags h => exists ts, built_header r EVENT_TYPE_LIFECYCLE size pid tid 0 ts seq 0 h)
    (fun sequence _ => let* ts := bpf_ktime_get_ns in
                       init_lifecycle_event_v2_header pid tid size ts sequence).
Proof.
  intros seq flags w Hr. wp_step. wp_any ts w1.
  unfold init_lifecycle_event_v2_header. wp_step.
  unfold capture_event_integrity, bpf_get_smp_processor_id. wp_steps.
  assert (running w1 = r) as Hr1 by (rewrite <- Hr; apply H).
  destruct (loss w1 !! 0) as [l|]; wp_steps;
    (eapply keeps_wp; [apply capture_event_v2_comm_quiet|]; intros comm w2 Q2; wp_steps);
    (split; [by etrans|]); rewrite Hr1; exists ts; by do 3 eexists.
Qed.

Lemma committed_lifecycle r kind pid tid a0 a1 snapshot_str cap sq rec :
  0 <= kind < 2 ^ 32 -> 0 <= cap <= LIFECYCLE_SNAPSHOT_MAX ->
  well_formed (EVENT_V2_HEADER_LEN + EVENT_V2_LIFECYCLE_BODY_LEN + cap) EVENT_V2_LIFECYCLE_BODY_LEN cap
    (fun flags pl => flags = 0 /\ snapshot_text snapshot_str (until_nul pl))
    (fun seq flags h => exists ts, built_header r EVENT_TYPE_LIFECYCLE
       (EVENT_V2_HEADER_LEN + EVENT_V2_LIFECYCLE_BODY_LEN + cap) pid tid 0 ts seq 0 h)
    (fun n b => b = struct_bytes (lifecycle_event_v2_fields (LifecycleBody kind n (Args a0 a1 0 0 0 0))))
    sq rec ->
  exists env, decodeTraceEventV2Envelope rec = Some env /\
    reads_lifecycle r kind pid tid a0 a1 snapshot_str sq env.
Proof.
  intros Hk Hc [Hl (flags & n & h & Hh & [ts HPh] & HPb & Hn & _ & Ht)].
  edestruct (committed_header rec r) as (hd & Hr & Hd);
    [exact Hl | lia | | exact Hh | exact HPh |]; [cbn; auto|].
  destruct (body_slices rec _ 56 n Hl) as (B1 & B2 & B3); try lia.
  eexists. split.
  - unfold decodeTraceEventV2Envelope. rewrite Hd, (hr_type _ _ _ _ _ _ _ _ _ Hr).
    cbn [Z.eqb Pos.eqb]. rewrite <- B2 in HPb.
    erewrite decode_lifecycle_body; [reflexivity | exact HPb | cbn; lia | reflexivity | cbn; lia |].
    cbn. lia.
  - cbn [lc_snapshot_len lc_action lc_args]. rewrite B3. destruct Hr. split; cbn; try done.
    by destruct (kind =? 1).
Qed.

Lemma emit_lifecycle_direct_ok kind pid tid a0 a1 snapshot_str :
  0 <= kind < 2 ^ 32 ->
  emitter (fun r sq rec => exists env, decodeTraceEventV2Envelope rec = Some env /\
      reads_lifecycle r kind pid tid a0 a1 snapshot_str sq env)
    (emit_lifecycle_event_v2_direct kind pid tid a0 a1 snapshot_str).
Proof.
  intros Hk w. set (cap := if snapshot_str =? 0 then 0 else LIFECYCLE_SNAPSHOT_MAX).
  assert (0 <= cap <= 4096) by (subst cap; case_test; lia).
  eapply wp_mono.
  - apply emit_record_wp with (cap := cap) (body_len := EVENT_V2_LIFECYCLE_BODY_LEN)
      (Pb := fun n b => b = struct_bytes (lifecycle_event_v2_fields
               (LifecycleBody kind n (Args a0 a1 0 0 0 0))));
      [lia | lia | lia | apply capture_snapshot_ok | apply init_lifecycle_header_ok | by apply ret_body_ok |].
    intros sq rec Hw. eapply committed_lifecycle in Hw as (env & E & []); [|lia|lia]. by exists env.
  - intros _ w' [E O]. split; [done|]. eapply outcome_mono; [|exact O].
    intros sq rec Hw. by eapply committed_lifecycle in Hw; [|lia|lia].
Qed.

Lemma emit_lifecycle_direct_emits kind pid tid a0 a1 s :
  0 <= kind < 2 ^ 32 -> keeps emits (emit_lifecycle_event_v2_direct kind pid tid a0 a1 s).
Proof. intros. eapply emitter_keeps. by apply emit_lifecycle_direct_ok. Qed.
Lemma emit_lifecycle_emits kind pid tid a0 a1 s :
  0 <= kind < 2 ^ 32 -> keeps emits (emit_lifecycle_event kind pid tid a0 a1 s).
Proof. intros. unfold emit_lifecycle_event. keeps_solve. by apply emit_lifecycle_direct_emits. Qed.

(** ** Which tasks are traced *)

(** The flags a task is traced with: its thread group's entry, else its own. *)
Definition task_flags (w : world) (pid tid : Z) : option Z :=
  let own k := match maps w filter_map !! k with
               | Some f => if has_flag f FILTER_TASK_TRACKED then Some f else None
               | None => None
               end in
  match own pid with Some f => Some f | None => if tid =? pid then None else own tid end.

Lemma lookup_filter_flags_result pid tid w :
  lookup_lifecycle_task_filter_flags pid tid w = (task_flags w pid tid, w).
Proof.
  unfold lookup_lifecycle_task_filter_flags, task_flags, bpf_map_lookup_elem, bind, gets, ret.
  destruct (maps w filter_map !! pid) as [f|]; [destruct (has_flag f 1)|]; try done;
    destruct (tid =? pid); try done;
    destruct (maps w filter_map !! tid) as [g|]; try done; by destruct (has_flag g 1).
Qed.

Definition tracked (w : world) (pid tid : Z) : bool :=
  match task_flags w pid tid with Some _ => true | None => false end.

Lemma is_tracked_result pid tid w :
  is_lifecycle_task_tracked pid tid w = (tracked w pid tid, w).
Proof.
  unfold is_lifecycle_task_tracked, bind. by rewrite lookup_filter_flags_result.
Qed.

Lemma lookup_filter_flags_quiet pid tid : keeps quiet (lookup_lifecycle_task_filter_flags pid tid).
Proof. intros w. rewrite lookup_filter_flags_result. cbn. reflexivity. Qed.
Lemma is_tracked_quiet pid tid : keeps quiet (is_lifecycle_task_tracked pid tid).
Proof. intros w. rewrite is_tracked_result. cbn. reflexivity. Qed.

(** ** Accounting *)

Hint Resolve lookup_filter_flags_quiet is_tracked_quiet : keeps.
Lemma lifecycle_map_update_accounted m k v : keeps accounted (lifecycle_map_update m k v).
Proof. unfold lifecycle_map_update. keeps_solve. Qed.
Hint Resolve lifecycle_map_update_accounted : keeps.
Lemma mark_attach_task_exited_accounted tid : keeps accounted (mark_attach_task_exited tid).
Proof. unfold mark_attach_task_exited. keeps_solve. Qed.
Lemma capture_pending_fork_flags_accounted tid sys_id ctx :
  keeps accounted (capture_pending_fork_flags tid sys_id ctx).
Proof. unfold capture_pending_fork_flags. keeps_solve. Qed.
Lemma pending_fork_flags_quiet tid : keeps quiet (pending_fork_flags tid).
Proof. unfold pending_fork_flags. keeps_solve. Qed.
Lemma clear_pending_fork_flags_accounted tid sys_id :
  keeps accounted (clear_pending_fork_flags tid sys_id).
Proof. unfold clear_pending_fork_flags. keeps_solve. Qed.
Lemma mark_unknown_child_accounted tid p : keeps accounted (mark_unknown_child tid p).
Proof. unfold mark_unknown_child. keeps_solve. Qed.
Lemma take_unknown_child_accounted tid : keeps accounted (take_unknown_child tid).
Proof. unfold take_unknown_child. keeps_solve. Qed.
Lemma clear_armed_fork_parent_accounted pid : keeps accounted (clear_armed_fork_parent pid).
Proof. unfold clear_armed_fork_parent. keeps_solve. Qed.
Lemma install_pre_exec_filter_accounted tid : keeps accounted (install_pre_exec_filter tid).
Proof. unfold install_pre_exec_filter. keeps_solve. Qed.
Lemma install_tracked_filter_accounted tid : keeps accounted (install_tracked_filter tid).
Proof. unfold install_tracked_filter. keeps_solve. Qed.
Lemma clear_pre_exec_filter_accounted tid : keeps accounted (clear_pre_exec_filter tid).
Proof. unfold clear_pre_exec_filter. keeps_solve. Qed.
Lemma adopt_exec_task_tracking_accounted pid tid old :
  keeps accounted (adopt_exec_task_tracking pid tid old).
Proof. unfold adopt_exec_task_tracking. keeps_solve. Qed.
Hint Resolve clear_armed_fork_parent_accounted : keeps.
Lemma clear_process_lifecycle_state_accounted pid :
  keeps accounted (clear_process_lifecycle_state pid).
Proof. unfold clear_process_lifecycle_state. keeps_solve. Qed.
Hint Resolve clear_process_lifecycle_state_accounted : keeps.
Lemma is_exec_replaced_leader_quiet task pid tid : keeps quiet (is_exec_replaced_leader task pid tid).
Proof. unfold is_exec_replaced_leader. keeps_solve. Qed.
Lemma arm_pending_exec_replacement_accounted pid tid sys_id :
  keeps accounted (arm_pending_exec_replacement pid tid sys_id).
Proof. unfold arm_pending_exec_replacement. keeps_solve. Qed.
Lemma clear_replaced_leader_accounted tid : keeps accounted (clear_replaced_leader_task_state tid).
Proof. apply clear_pending_accounted. Qed.
Lemma clear_lifecycle_task_state_accounted pid tid :
  keeps accounted (clear_lifecycle_task_state pid tid).
Proof. unfold clear_lifecycle_task_state. keeps_solve. Qed.
End LifecycleLemmas.

#[export] Hint Resolve lookup_filter_flags_quiet is_tracked_quiet lifecycle_map_update_accounted
  mark_attach_task_exited_accounted capture_pending_fork_flags_accounted pending_fork_flags_quiet
  clear_pending_fork_flags_accounted mark_unknown_child_accounted take_unknown_child_accounted
  clear_armed_fork_parent_accounted install_pre_exec_filter_accounted
  install_tracked_filter_accounted clear_pre_exec_filter_accounted
  adopt_exec_task_tracking_accounted clear_process_lifecycle_state_accounted
  is_exec_replaced_leader_quiet arm_pending_exec_replacement_accounted
  clear_replaced_leader_accounted clear_lifecycle_task_state_accounted : keeps.
#[export] Hint Extern 3 (keeps emits (emit_lifecycle_event _ _ _ _ _ _)) =>
  (apply emit_lifecycle_emits; lia) : keeps.
