(* ===== verification/Pending.v ===== *)
(** Matching a syscall exit with its entry.

    Models [bpf/pending_state.h]: the lookup of the pending syscall at an exit,
    its validation and consumption, and the classification of exits without a
    pending entry; with [bpf/native_task_abi.h] and [bpf/unsupported_abi.h],
    which keep calls of a foreign ABI away from that state. *)
From stdpp Require Import base list gmap numbers.
From S2P Require Import Prelude Syscalls Abi Kernel Consumer Stats Tlv Emit Decoder EventCore Payload LifecycleState.

Abbreviation NATIVE_X86_TS_COMPAT := 2 (only parsing).
Abbreviation NATIVE_X86_X32_SYSCALL_BIT := 0x40000000 (only parsing).
Abbreviation NATIVE_ARM64_TIF_32BIT := 0x400000 (only parsing).

Section Pending.
Context {K : Kernel} {A : Arch}.

Definition is_pre_exec_suppressed_syscall (filter_flags : option Z) (sys_id : Z) : bool :=
  match filter_flags with
  | Some f => has_flag f FILTER_TASK_PRE_EXEC && negb (is_exec_payload_direct_syscall sys_id)
  | None => false
  end.

Definition is_exec_restart_return (ret_value : Z) : bool :=
  (ret_value =? -512) || (ret_value =? -513) || (ret_value =? -514) || (ret_value =? -516).

Definition is_expected_unmatched_exit (sys_id ret_value : Z) : bool :=
  if is_terminating_direct_syscall sys_id then true
  else if is_process_creation_direct_syscall sys_id && (ret_value =? 0) then true
  else if is_exec_payload_direct_syscall sys_id && (ret_value =? 0) then true
  else is_exec_payload_direct_syscall sys_id && is_exec_restart_return ret_value.

Definition record_unmatched_exit_if_needed (pid tid sys_id ret_value : Z) : prog unit :=
  let* tracked := is_lifecycle_task_tracked pid tid in
  if negb tracked then ret tt
  else
    let* attach_exited := bpf_map_lookup_elem attach_exited_map tid in
    if match attach_exited with Some v => negb (v =? 0) | None => false end then ret tt
    else
      let* cfg := bpf_map_lookup_elem config_map 0 in
      let* traced := should_trace_syscall sys_id cfg in
      if negb traced && negb (is_fd_state_tracked sys_id cfg) then ret tt
      else if is_expected_unmatched_exit sys_id ret_value then ret tt
      else record_orphan_exit pid tid sys_id ret_value ORPHAN_REASON_NO_PENDING.

(** The pending syscall, the task id it was saved under, and whether it was
    found through the exec handoff. *)
Definition lookup_pending_syscall_for_exit (pid tid ret_value : Z)
    : prog (option pending_syscall * Z * bool) :=
  let* state := current_pending_task_state in
  match state with
  | None => ret (None, tid, false)
  | Some s =>
      if s_valid s =? 0 then ret (None, tid, false)
      else
        let pending := s_syscall s in
        if p_tid pending =? tid then ret (Some pending, tid, false)
        else if (ret_value =? 0) && is_exec_payload_direct_syscall (p_sys_id pending) then
          let* exec_tid := bpf_map_lookup_elem pending_exec_map pid in
          match exec_tid with
          | Some t => if t =? p_tid pending then ret (Some pending, t, true)
                      else ret (Some pending, tid, false)
          | None => ret (Some pending, tid, false)
          end
        else ret (Some pending, tid, false)
  end.

Definition validate_pending_syscall_exit (pending : pending_syscall)
    (sys_id pid pending_tid : Z) : prog bool :=
  if (p_sys_id pending =? sys_id) && (p_tid pending =? pending_tid) then ret true
  else
    record_pending_mismatch ;;;
    clear_pending_task_state ;;;
    bpf_map_delete_elem pending_exec_map pid ;;;
    ret false.

Definition pending_syscall_duration (p : pending_syscall) : prog Z :=
  if p_enter_time p =? 0 then ret 0
  else
    let* exit_time := bpf_ktime_get_ns in
    if exit_time <=? p_enter_time p then ret 0
    else ret (u64 (exit_time - p_enter_time p)).

Definition consume_pending_syscall (pid pending_tid : Z) (pending : pending_syscall)
    (pending_exec_lookup : bool) : prog unit :=
  clear_pending_task_state ;;;
  if pending_exec_lookup then
    bpf_map_delete_elem pending_exec_map pid ;;;
    bpf_map_delete_elem main_exited_map pid
  else if is_exec_payload_direct_syscall (p_sys_id pending) &&
          negb (pending_tid =? p_pid pending) then
    bpf_map_delete_elem pending_exec_map pid
  else ret tt.

(** ** [native_task_abi.h] and [unsupported_abi.h] *)

Definition current_syscall_has_native_abi (sys_id : Z) : prog bool :=
  match target_arch with
  | amd64 =>
      if has_flag sys_id NATIVE_X86_X32_SYSCALL_BIT then ret false
      else
        let* task := bpf_get_current_task in
        let* (err, status) := bpf_core_read_into task_thread_info_status task in
        if err <? 0 then ret false else ret (negb (has_flag status NATIVE_X86_TS_COMPAT))
  | arm64 =>
      let* task := bpf_get_current_task in
      let* (err, flags) := bpf_core_read_into task_thread_info_flags task in
      if err <? 0 then ret false else ret (negb (has_flag flags NATIVE_ARM64_TIF_32BIT))
  end.

(** [header.event_type = EVENT_TYPE_UNSUPPORTED_ABI; header.sys_id = sys_id;]. *)
Definition as_unsupported (sys_id : Z) (h : event_v2_header) : event_v2_header :=
  EventHeader (h_version h) EVENT_TYPE_UNSUPPORTED_ABI (h_flags h) (h_header_len h)
    (h_size h) (h_pid h) (h_tid h) sys_id (h_seq h) (h_ts_ns h) (h_comm h) (h_cpu h)
    (h_reserved h) (h_loss_epoch h) (h_loss_time_ns h).

(** The report: [bpf_ringbuf_output] of a header alone. *)
Definition emit_unsupported_abi (pid tid sys_id : Z) : prog unit :=
  let* sequence := next_event_sequence in
  let* h := (let* ts := bpf_ktime_get_ns in
             init_lifecycle_event_v2_header pid tid EVENT_V2_HEADER_LEN ts sequence) in
  let* r := bpf_ringbuf_output
              (struct_bytes (event_v2_header_fields (as_unsupported sys_id h))) in
  if r <? 0 then record_ringbuf_reserve_fail else ret tt.

(** [true] when the call was rejected. *)
Definition reject_unsupported_syscall_abi (pid tid sys_id : Z) : prog bool :=
  let* native := current_syscall_has_native_abi sys_id in
  if native then ret false
  else
    clear_pending_task_state ;;;
    bpf_map_delete_elem pending_exec_map pid ;;;
    emit_unsupported_abi pid tid sys_id ;;;
    ret true.
End Pending.

Section PendingLemmas.
Context {K : Kernel} {A : Arch}.

(** ** Accounting *)

Lemma record_unmatched_exit_quiet pid tid sys_id rv :
  keeps quiet (record_unmatched_exit_if_needed pid tid sys_id rv).
Proof. unfold record_unmatched_exit_if_needed. keeps_solve. Qed.
Lemma lookup_pending_for_exit_quiet pid tid rv :
  keeps quiet (lookup_pending_syscall_for_exit pid tid rv).
Proof. unfold lookup_pending_syscall_for_exit, current_pending_task_state. keeps_solve. Qed.
Lemma validate_pending_accounted p sys_id pid pt :
  keeps accounted (validate_pending_syscall_exit p sys_id pid pt).
Proof. unfold validate_pending_syscall_exit. keeps_solve. Qed.
Lemma pending_syscall_duration_quiet p : keeps quiet (pending_syscall_duration p).
Proof. unfold pending_syscall_duration. keeps_solve. Qed.
Lemma consume_pending_accounted pid pt p b : keeps accounted (consume_pending_syscall pid pt p b).
Proof. unfold consume_pending_syscall. keeps_solve. Qed.
Lemma native_abi_quiet sys_id : keeps quiet (current_syscall_has_native_abi sys_id).
Proof. unfold current_syscall_has_native_abi, bpf_get_current_task. keeps_solve. Qed.
Lemma init_lifecycle_header_quiet pid tid size ts sq :
  keeps quiet (init_lifecycle_event_v2_header pid tid size ts sq).
Proof. unfold init_lifecycle_event_v2_header. keeps_solve. Qed.
Hint Resolve native_abi_quiet init_lifecycle_header_quiet : keeps.

(** A one-shot output: one submitted record, or nothing. *)
Lemma bpf_ringbuf_output_result bytes w :
  only_counters w (snd (bpf_ringbuf_output bytes w)) /\
  ((fst (bpf_ringbuf_output bytes w) = 0 /\
      moved w (snd (bpf_ringbuf_output bytes w)) [bytes] 0 0 0 0) \/
   (fst (bpf_ringbuf_output bytes w) = -1 /\ ~ ring_has_room /\
      moved w (snd (bpf_ringbuf_output bytes w)) [] 0 0 0 0)).
Proof.
  unfold bpf_ringbuf_output, bind, tick, modify, ret.
  destruct (k_reserve_ok (calls w) (zlen bytes)) eqn:E; cbn; (split; [done|]).
  - left. split; [done|]. by apply moved_same.
  - right. split_and!; [done | | apply moved_same; try done; cbn; by rewrite app_nil_r].
    intros R. rewrite R in E. done.
Qed.

(** The report of a call of a foreign ABI, as the consumer reads it. *)
Record reads_unsupported (r : exec_ctx) (pid tid sys_id sq : Z) (env : traceEventEnvelope) : Prop :=
  ReadsUnsupported {
    ru_type : e_eventType env = EVENT_TYPE_UNSUPPORTED_ABI;
    ru_seq : e_seq env = u64 sq;
    ru_cpu : e_cpu env = u32 (cur_cpu r);
    ru_pid : e_pid env = u32 pid;
    ru_tid : e_tid env = u32 tid;
    ru_sys_id : e_sysID env = u32 sys_id }.

Lemma committed_unsupported r h pid tid sys_id ts sq :
  built_header r EVENT_TYPE_LIFECYCLE EVENT_V2_HEADER_LEN pid tid 0 ts sq 0 h ->
  exists env, decodeTraceEventV2Envelope (struct_bytes (event_v2_header_fields (as_unsupported sys_id h)))
      = Some env /\ reads_unsupported r pid tid sys_id sq env.
Proof.
  intros (comm & epoch & time & ->). set (h := as_unsupported _ _).
  pose proof (event_v2_header_size h) as L.
  eexists. unfold decodeTraceEventV2Envelope. erewrite (decode_header _ h); try done; try lia.
  - cbn [header_view d_eventType h_event_type]. rewrite L. split; [reflexivity|]. by split.
  - by apply slice_all.
  - cbn. auto 7.
Qed.

(** A sequence number, the quiet computation of a record the consumer can read, and a
    one-shot output. *)
Lemma output_emitter {X} (W : exec_ctx -> Z -> list Z -> Prop) (build : Z -> prog X)
    (bytes : X -> list Z) :
  (forall sq w, wp (build sq) (fun x w' => quiet w w' /\ W (running w) sq (bytes x)) w) ->
  (forall r sq rec, W r sq rec -> record_number (cur_cpu r) sq rec) ->
  emitter W (let* sequence := next_event_sequence in
               let* x := build sequence in
               let* r := bpf_ringbuf_output (bytes x) in
               if r <? 0 then record_ringbuf_reserve_fail else ret tt).
Proof.
  intros Hb HR w. unfold wp, bind. destruct (next_event_sequence_moved w) as (O1 & M1 & Hseq).
  destruct (next_event_sequence w) as [sq w1]. cbn [snd] in *.
  pose proof (Hb sq w1) as [[O2 (nl & Hnl & M2)] HW]. unfold wp in *. rewrite (ss_running _ _ (oc_same _ _ O1)) in HW.
  destruct (build sq w1) as [x w2]. cbn [snd] in *.
  pose proof (moved_trans _ _ _ _ _ _ _ _ _ _ _ _ _ M1 M2) as M12.
  destruct (bpf_ringbuf_output_result (bytes x) w2) as [O3 R].
  destruct (bpf_ringbuf_output (bytes x) w2) as [r w3]. cbn [fst snd] in *.
  assert (only_counters w w3) as O by (do 2 (etrans; [eassumption|]); done).
  destruct R as [[-> M3]|(-> & NR & M3)];
    pose proof (moved_trans _ _ _ _ _ _ _ _ _ _ _ _ _ M12 M3) as M; cbn [Z.ltb Z.compare app Z.add] in *.
  - unfold ret. cbn [snd].
    split; [|eapply Submitted; [exact (mv_submitted _ _ _ _ _ _ _ M) | exact HW | done]].
    split; [apply O|]. split; [apply O|]. exists [bytes x], 0, 0, 0, nl. rewrite !Z.add_0_r in M.
    split; try lia; [exact M |]. eapply numbering_one; [by eapply HR | done].
  - destruct (record_ringbuf_reserve_fail_moved w3) as [O4 M4].
    pose proof (moved_trans _ _ _ _ _ _ _ _ _ _ _ _ _ M M4) as M'.
    assert (only_counters w (snd (record_ringbuf_reserve_fail w3))) as O' by (etrans; done).
    split; [|apply NoRoom; [|done]; rewrite (mv_submitted _ _ _ _ _ _ _ M'); apply app_nil_r].
    split; [apply O'|]. split; [apply O'|]. exists [], 1, 0, 0, (nl + 1).
    rewrite !Z.add_0_r in M'. split; try lia; [exact M' | intros ?; exfalso; auto | by apply numbering_nil].
Qed.

Lemma emit_unsupported_ok pid tid sys_id :
  emitter (fun r sq rec => exists env, decodeTraceEventV2Envelope rec = Some env /\
    reads_unsupported r pid tid sys_id sq env) (emit_unsupported_abi pid tid sys_id).
Proof.
  apply output_emitter; [|by intros r sq rec (env & E & []); exists env].
  intros sq w. eapply wp_mono; [by apply (init_lifecycle_header_ok (running w) EVENT_V2_HEADER_LEN pid tid sq 0)|].
  intros h w' [Q [ts Hh]]. split; [done|]. by eapply committed_unsupported.
Qed.
Lemma emit_unsupported_emits pid tid sys_id : keeps emits (emit_unsupported_abi pid tid sys_id).
Proof. eapply emitter_keeps, emit_unsupported_ok. Qed.
Hint Resolve emit_unsupported_emits : keeps.
Lemma reject_unsupported_accounted pid tid sys_id :
  keeps accounted (reject_unsupported_syscall_abi pid tid sys_id).
Proof. unfold reject_unsupported_syscall_abi. keeps_solve. Qed.

(** ** The pending syscall as a cell *)

(** The state the storage of the current task holds. *)
Definition pending_cell (w : world) : option pending_task_state :=
  if cur_task (running w) =? 0 then None else tasks w !! cur_task (running w).

(** The pending syscall, when there is one. *)
Definition pending_now (w : world) : option pending_syscall :=
  match pending_cell w with
  | Some s => if s_valid s =? 0 then None else Some (s_syscall s)
  | None => None
  end.

Lemma current_pending_task_state_result w : current_pending_task_state w = (pending_cell w, w).
Proof.
  unfold current_pending_task_state, lookup_pending_task_state, pending_cell, bpf_get_current_task,
    bpf_task_storage_get, bind, gets, ret. by destruct (_ =? 0).
Qed.

Lemma current_pending_syscall_result w : current_pending_syscall w = (pending_now w, w).
Proof.
  unfold current_pending_syscall, bind, pending_now. rewrite current_pending_task_state_result.
  destruct (pending_cell w) as [s|]; [|done]. by destruct (s_valid s =? 0).
Qed.

(** Clearing: nothing is pending afterwards, the auxiliary word is reset, the stack of the
    cleared syscall is forgotten, and nothing else changes. *)
Lemma clear_pending_result w :
  let w' := snd (clear_pending_task_state w) in
  pending_now w' = None /\
  (forall s, pending_cell w' = Some s -> s_aux0 s = 0) /\
  (forall p, pending_now w = Some p -> 0 <= p_stack_id p -> maps w' pending_stack_map !! p_tid p = None) /\
  (forall t, t <> cur_task (running w) -> tasks w' !! t = tasks w !! t) /\
  (forall m, m <> pending_stack_map -> maps w' m = maps w m) /\
  running w' = running w /\ submitted w' = submitted w /\ stats w' = stats w.
Proof.
  unfold clear_pending_task_state, bind. rewrite current_pending_task_state_result.
  unfold pending_now, pending_cell, put_pending_task_state, bpf_get_current_task,
    task_storage_put, bpf_map_delete_elem, bind, gets, modify, ret.
  destruct (cur_task (running w) =? 0) eqn:T; cbn; [rewrite T; by split_and!|].
  destruct (tasks w !! cur_task (running w)) as [s|] eqn:E; cbn.
  2: { rewrite T, E. by split_and!. }
  destruct (s_valid s =? 0) eqn:V; cbn;
    [|destruct (0 <=? p_stack_id (s_syscall s)) eqn:P; cbn];
    rewrite T, ?lookup_insert_eq; cbn; split_and!; try done;
    try (by intros ? [= <-]); try (intros; by apply lookup_insert_ne).
  - intros p [= <-] _. unfold map_set. rewrite decide_True by done. apply lookup_delete_eq.
  - intros m Hm. unfold map_set. by rewrite decide_False.
  - intros p [= <-] Hp. apply Z.leb_gt in P. lia.
Qed.
End PendingLemmas.

#[export] Hint Resolve record_unmatched_exit_quiet lookup_pending_for_exit_quiet
  validate_pending_accounted pending_syscall_duration_quiet consume_pending_accounted
  native_abi_quiet init_lifecycle_header_quiet reject_unsupported_accounted : keeps.
