(* ===== verification/Namespace.v ===== *)
(** Namespaces and PID translation.

    Models [bpf/syscall_namespace_direct_event_v2.h],
    [bpf/syscall_pidns_direct_event_v2.h], [bpf/namespace_dispatch.h] and
    [bpf/kvm_dispatch.h]: the snapshots a clone, setns or unshare leaves in the
    pending syscall or the exit record, the translation of PIDs into the
    tracer's PID namespace, and the KVM exit reason of a pending ioctl. *)
From stdpp Require Import base list gmap numbers.
From S2P Require Import Prelude Syscalls Abi Kernel Consumer Stats Tlv Emit Decoder EventCore Payload LifecycleState Pending.

Abbreviation NAMESPACE_PROBE_READ_FAILED := (-14) (only parsing).
Abbreviation PID_NAMESPACE_MAX_LEVEL := 32 (only parsing).

(** [CLONE_NEWCGROUP], [NEWIPC], [NEWNS], [NEWNET], [NEWPID], [NEWTIME], [NEWUTS],
    [NEWUSER] and [INTO_CGROUP]. *)
Definition NAMESPACE_FLAG_MASK : Z :=
  fold_right Z.lor 0 [0x02000000; 0x08000000; 0x00020000; 0x40000000; 0x20000000; 0x00000080;
                      0x04000000; 0x10000000; 0x200000000].

Definition namespace_snapshot_fields (s : namespace_snapshot) : list (list Z) :=
  [le_bytes 8 (ns_flags s); le_bytes 4 (ns_cgroup s); le_bytes 4 (ns_ipc s); le_bytes 4 (ns_mnt s);
   le_bytes 4 (ns_net s); le_bytes 4 (ns_pid s); le_bytes 4 (ns_time s); le_bytes 4 (ns_uts s);
   le_bytes 4 (ns_user s)].

Record pid_namespace_snapshot := PidNamespaceSnapshot { pns_tid : Z; pns_tgid : Z }.

Definition pid_namespace_snapshot_fields (s : pid_namespace_snapshot) : list (list Z) :=
  [le_bytes 4 (pns_tid s); le_bytes 4 (pns_tgid s)].

Lemma namespace_snapshot_size s :
  zlen (concat (namespace_snapshot_fields s)) = NAMESPACE_SNAPSHOT_SIZE.
Proof. unfold namespace_snapshot_fields. layout. Qed.
Lemma pid_namespace_snapshot_size s :
  zlen (concat (pid_namespace_snapshot_fields s)) = PID_NAMESPACE_SNAPSHOT_SIZE.
Proof. unfold pid_namespace_snapshot_fields. layout. Qed.

Section Namespace.
Context {K : Kernel} {A : Arch}.

(** [ptr ? BPF_CORE_READ(ptr, f) : 0]. *)
Definition core_read_or_zero (f : kfield) (ptr : Z) : prog Z :=
  if ptr =? 0 then ret 0 else bpf_core_read f ptr.

(** ** [syscall_namespace_direct_event_v2.h] *)

Definition read_active_pid_namespace_id (task : Z) : prog (Z * Z) :=
  let* pid := bpf_core_read task_thread_pid task in
  if pid =? 0 then ret (NAMESPACE_PROBE_READ_FAILED, 0)
  else
    let* level := bpf_core_read pid_level pid in
    if PID_NAMESPACE_MAX_LEVEL <? u32 level then ret (NAMESPACE_PROBE_READ_FAILED, 0)
    else
      let* (err, ns) := bpf_core_read_into (upid_ns (u32 level)) pid in
      if (err <? 0) || (ns =? 0) then ret (NAMESPACE_PROBE_READ_FAILED, 0)
      else
        let* id := bpf_core_read ns_inum ns in
        ret (0, u32 id).

Definition read_namespace_snapshot (task flags : Z) : prog (Z * namespace_snapshot) :=
  if task =? 0 then ret (NAMESPACE_PROBE_READ_FAILED, empty_namespace_snapshot)
  else
    let* proxy := bpf_core_read task_nsproxy task in
    let* cred := bpf_core_read task_cred task in
    if (proxy =? 0) || (cred =? 0) then ret (NAMESPACE_PROBE_READ_FAILED, empty_namespace_snapshot)
    else
      let* cgroup := bpf_core_read nsproxy_cgroup_ns proxy in
      let* ipc := bpf_core_read nsproxy_ipc_ns proxy in
      let* mnt := bpf_core_read nsproxy_mnt_ns proxy in
      let* net := bpf_core_read nsproxy_net_ns proxy in
      let* time := bpf_core_read nsproxy_time_ns proxy in
      let* uts := bpf_core_read nsproxy_uts_ns proxy in
      let* user := bpf_core_read cred_user_ns cred in
      let* cgroup := core_read_or_zero ns_inum cgroup in
      let* ipc := core_read_or_zero ns_inum ipc in
      let* mnt := core_read_or_zero ns_inum mnt in
      let* net := core_read_or_zero ns_inum net in
      let* time := core_read_or_zero ns_inum time in
      let* uts := core_read_or_zero ns_inum uts in
      let* user := core_read_or_zero ns_inum user in
      let* (err, pid) := read_active_pid_namespace_id task in
      ret (0, NamespaceSnapshot flags (u32 cgroup) (u32 ipc) (u32 mnt) (u32 net)
                (if err <? 0 then 0 else pid) (u32 time) (u32 uts) (u32 user)).

Definition namespace_snapshot_for_exit (pending : pending_syscall)
    : prog (option namespace_snapshot) :=
  let from_task flags :=
    if negb (has_flag flags NAMESPACE_FLAG_MASK) then ret None
    else
      let* task := bpf_get_current_task in
      let* (err, snapshot) := read_namespace_snapshot task flags in
      if err =? 0 then ret (Some snapshot) else ret None in
  if one_of (p_sys_id pending) [SYS_CLONE; SYS_CLONE3] then
    let* state := current_pending_task_state in
    match state with
    | Some s =>
        if (s_valid s =? 0) || negb (has_flag (ns_flags (s_namespace_snapshot s)) NAMESPACE_FLAG_MASK)
        then ret None else ret (Some (s_namespace_snapshot s))
    | None => ret None
    end
  else if one_of (p_sys_id pending) [SYS_SETNS] then from_task (arg1 (p_args pending))
  else if one_of (p_sys_id pending) [SYS_UNSHARE] then from_task (arg0 (p_args pending))
  else ret None.

(** [size] bytes of snapshot behind a section header; [false] after a failed
    write.  [capture_namespace_tlv_direct] and [capture_pid_namespace_tlv_direct]. *)
Definition capture_snapshot_tlv (kind arg_index size : Z) (bytes : list Z) (ptr : dynptr)
    (payload_offset : Z) : prog bool :=
  let* r := bpf_dynptr_write ptr (payload_offset + PAYLOAD_TLV_HEADER_SIZE) bytes in
  if r <? 0 then
    record_ringbuf_copy_fail ;;;
    ret false
  else payload_tlv_write_header_direct ptr payload_offset
         (TlvHeader kind arg_index PAYLOAD_TLV_FLAG_DIRECTION_OUT size size 0 0).

Definition capture_namespace_tlv_direct (ptr : dynptr) (payload_offset : Z)
    (snapshot : namespace_snapshot) : prog bool :=
  capture_snapshot_tlv PAYLOAD_TLV_KIND_NAMESPACE PAYLOAD_TLV_NAMESPACE_ARG_INDEX
    NAMESPACE_SNAPSHOT_SIZE (struct_bytes (namespace_snapshot_fields snapshot)) ptr payload_offset.

(** An exit record whose payload is one snapshot section of [size] bytes, given
    up when the section cannot be written. *)
Definition emit_snapshot_exit (pending : pending_syscall) (ret_value duration size : Z)
    (capture : dynptr -> Z -> prog bool) : prog unit :=
  let payload_size := PAYLOAD_TLV_HEADER_SIZE + size in
  let out_size := exit_payload_offset + payload_size in
  emit_record_checked out_size
    (fun ptr =>
       let* ok := capture ptr exit_payload_offset in
       ret (if ok then Some (EVENT_FLAG_PAYLOAD_TLV, payload_size) else None))
    (fun sequence flags => init_syscall_event_v2_header_direct EVENT_TYPE_EXIT flags
       (p_pid pending) (p_tid pending) (p_sys_id pending) out_size
       (u64 (p_enter_time pending + duration)) sequence)
    (fun n => let* b := init_syscall_exit_event_v2_from_pending pending ret_value duration n in
              ret (struct_bytes (syscall_exit_event_v2_fields b))).

Definition emit_namespace_exit_event_v2_direct (pending : pending_syscall)
    (ret_value duration : Z) : prog unit :=
  let* snapshot := if ret_value <? 0 then ret None else namespace_snapshot_for_exit pending in
  match snapshot with
  | None => emit_syscall_exit_event_v2_direct pending ret_value duration 0
  | Some s => emit_snapshot_exit pending ret_value duration NAMESPACE_SNAPSHOT_SIZE
                (fun ptr off => capture_namespace_tlv_direct ptr off s)
  end.

(** ** [syscall_pidns_direct_event_v2.h] *)

Definition lookup_pid_namespace_config : prog (option pid_namespace_config) :=
  gets (fun w => pidns w !! 0).

(** The number of [pid] in the configured namespace. *)
Definition read_pid_namespace_number (pid : Z) (config : option pid_namespace_config)
    : prog (option Z) :=
  match config with
  | None => ret None
  | Some c =>
      if (pid =? 0) || (pn_ready c =? 0) || (PID_NAMESPACE_MAX_LEVEL <? pn_level c) then ret None
      else
        let* level := bpf_core_read pid_level pid in
        if u32 level <? pn_level c then ret None
        else
          let* (err, nr, ns) := bpf_core_read_pair (upid_nr (pn_level c)) (upid_ns (pn_level c)) pid in
          if (err <? 0) || (ns =? 0) || (s32 nr <=? 0) then ret None
          else
            let* inum := bpf_core_read ns_inum ns in
            if u32 inum =? pn_inum c then ret (Some (u32 nr)) else ret None
  end.

Definition capture_tracer_pid_namespace (ctx : trace_event_raw_sys_enter) (sys_id : Z) : prog unit :=
  let* config := lookup_pid_namespace_config in
  match config with
  | None => ret tt
  | Some c =>
      if (pn_nonce c =? 0) || negb (pn_ready c =? 0) || negb (one_of sys_id [SYS_GETPGID]) ||
         negb (u32 (arg0 (enter_args ctx)) =? pn_nonce c)
      then ret tt
      else
        let* task := bpf_get_current_task in
        let* pid := core_read_or_zero task_thread_pid task in
        if pid =? 0 then ret tt
        else
          let* level := bpf_core_read pid_level pid in
          if PID_NAMESPACE_MAX_LEVEL <? u32 level then ret tt
          else
            let* (err, ns) := bpf_core_read_into (upid_ns (u32 level)) pid in
            if (err <? 0) || (ns =? 0) then ret tt
            else
              let* inum := bpf_core_read ns_inum ns in
              let c' := PidNamespaceConfig (pn_nonce c) (u32 level) (u32 inum)
                          (if u32 inum =? 0 then 0 else 1) in
              modify (fun w => set_pidns (<[0 := c']> (pidns w)) w)
  end.

(** The state after the child's PID was noted, for [trace_namespace_fork]. *)
Definition capture_pid_namespace_fork_child (state : pending_task_state) (child : Z)
    : prog pending_task_state :=
  if (s_valid state =? 0) || (child =? 0) ||
     negb (one_of (p_sys_id (s_syscall state)) [SYS_FORK; SYS_VFORK])
  then ret state
  else
    let* config := lookup_pid_namespace_config in
    let* child_pid := bpf_core_read task_thread_pid child in
    let* number := read_pid_namespace_number child_pid config in
    match number with
    | Some translated =>
        ret (PendingTaskState (s_syscall state) (s_namespace_snapshot state) translated (s_valid state))
    | None => ret state
    end.

Definition read_pid_namespace_snapshot (pending : pending_syscall)
    : prog (option pid_namespace_snapshot) :=
  if one_of (p_sys_id pending) [SYS_FORK; SYS_VFORK] then
    let* tgid := lookup_pending_syscall_aux0 (p_tid pending) in
    if tgid =? 0 then ret None else ret (Some (PidNamespaceSnapshot 0 tgid))
  else
    let* config := lookup_pid_namespace_config in
    match config with
    | None => ret None
    | Some c =>
        if pn_ready c =? 0 then ret None
        else if pn_level c =? 0 then
          ret (Some (PidNamespaceSnapshot (p_tid pending) (p_pid pending)))
        else
          let* task := bpf_get_current_task in
          let* tid_pid := core_read_or_zero task_thread_pid task in
          if one_of (p_sys_id pending) [SYS_GETTID] then
            let* n := read_pid_namespace_number tid_pid config in
            ret (match n with Some v => Some (PidNamespaceSnapshot v 0) | None => None end)
          else
            let* leader := core_read_or_zero task_group_leader task in
            let* tgid_pid := core_read_or_zero task_thread_pid leader in
            let* n := read_pid_namespace_number tgid_pid config in
            ret (match n with Some v => Some (PidNamespaceSnapshot 0 v) | None => None end)
    end.

Definition capture_pid_namespace_tlv_direct (ptr : dynptr) (payload_offset : Z)
    (snapshot : pid_namespace_snapshot) : prog bool :=
  capture_snapshot_tlv PAYLOAD_TLV_KIND_PID_NAMESPACE PAYLOAD_TLV_PID_NAMESPACE_ARG_INDEX
    PID_NAMESPACE_SNAPSHOT_SIZE (struct_bytes (pid_namespace_snapshot_fields snapshot)) ptr
    payload_offset.

Definition emit_pid_namespace_exit_event_v2_direct (pending : pending_syscall)
    (ret_value duration : Z) : prog unit :=
  let* snapshot := if ret_value <=? 0 then ret None else read_pid_namespace_snapshot pending in
  match snapshot with
  | None => emit_syscall_exit_event_v2_direct pending ret_value duration 0
  | Some s => emit_snapshot_exit pending ret_value duration PID_NAMESPACE_SNAPSHOT_SIZE
                (fun ptr off => capture_pid_namespace_tlv_direct ptr off s)
  end.

(** ** [namespace_dispatch.h] *)

Definition namespace_clone_flags (pending : pending_syscall) : prog (option Z) :=
  if one_of (p_sys_id pending) [SYS_CLONE] then ret (Some (arg0 (p_args pending)))
  else if negb (one_of (p_sys_id pending) [SYS_CLONE3]) || (arg1 (p_args pending) <? 8) ||
          (arg0 (p_args pending) =? 0)
  then ret None
  else
    let* (err, bytes) := bpf_probe_read_user 8 (arg0 (p_args pending)) in
    if err =? 0 then ret (Some (le_val bytes)) else ret None.

(** [child] is the second argument of the raw tracepoint. *)
Definition trace_namespace_fork (child : Z) : prog unit :=
  let* state := current_pending_task_state in
  match state with
  | None => ret tt
  | Some s =>
      if s_valid s =? 0 then ret tt
      else
        let* s := capture_pid_namespace_fork_child s child in
        put_pending_task_state s ;;;
        let* flags := namespace_clone_flags (s_syscall s) in
        match flags with
        | Some f =>
            if has_flag f NAMESPACE_FLAG_MASK then
              let* (err, snapshot) := read_namespace_snapshot child f in
              put_pending_task_state (PendingTaskState (s_syscall s)
                (if err <? 0 then empty_namespace_snapshot else snapshot) (s_aux0 s) (s_valid s))
            else ret tt
        | None => ret tt
        end
  end.

(** ** [kvm_dispatch.h] *)

Definition trace_kvm_userspace_exit (reason error : Z) : prog unit :=
  let* config := bpf_map_lookup_elem config_map 0 in
  if match config with Some c => has_flag c CONFIG_KVM_EXIT | None => false end then
    let* state := current_pending_task_state in
    match state with
    | None => ret tt
    | Some s =>
        if (s_valid s =? 0) || negb (one_of (p_sys_id (s_syscall s)) [SYS_IOCTL]) ||
           negb (arg1 (p_args (s_syscall s)) =? KVM_RUN_IOCTL)
        then ret tt
        else
          let aux := if s32 error <? 0 then 0
                     else Z.lor KVM_EXIT_AUX_VALID (Z.land (u32 reason) KVM_EXIT_AUX_REASON_MASK) in
          put_pending_task_state
            (PendingTaskState (s_syscall s) (s_namespace_snapshot s) aux (s_valid s))
    end
  else ret tt.
End Namespace.

Section NamespaceLemmas.
Context {K : Kernel} {A : Arch}.

Lemma core_read_or_zero_quiet f p : keeps quiet (core_read_or_zero f p).
Proof. unfold core_read_or_zero. keeps_solve. Qed.
Hint Resolve core_read_or_zero_quiet : keeps.
Lemma read_active_pid_namespace_id_quiet t : keeps quiet (read_active_pid_namespace_id t).
Proof. unfold read_active_pid_namespace_id. keeps_solve. Qed.
Hint Resolve read_active_pid_namespace_id_quiet : keeps.
Lemma read_namespace_snapshot_quiet t f : keeps quiet (read_namespace_snapshot t f).
Proof. unfold read_namespace_snapshot. keeps_solve. Qed.
Hint Resolve read_namespace_snapshot_quiet : keeps.
Lemma namespace_snapshot_for_exit_quiet p : keeps quiet (namespace_snapshot_for_exit p).
Proof.
  unfold namespace_snapshot_for_exit, current_pending_task_state, bpf_get_current_task. keeps_solve.
Qed.
Lemma read_pid_namespace_number_quiet p c : keeps quiet (read_pid_namespace_number p c).
Proof. unfold read_pid_namespace_number. keeps_solve. Qed.
Hint Resolve namespace_snapshot_for_exit_quiet read_pid_namespace_number_quiet : keeps.
Lemma read_pid_namespace_snapshot_quiet p : keeps quiet (read_pid_namespace_snapshot p).
Proof.
  unfold read_pid_namespace_snapshot, lookup_pid_namespace_config, bpf_get_current_task. keeps_solve.
Qed.
Lemma capture_pid_namespace_fork_child_quiet s c :
  keeps quiet (capture_pid_namespace_fork_child s c).
Proof. unfold capture_pid_namespace_fork_child, lookup_pid_namespace_config. keeps_solve. Qed.
Lemma namespace_clone_flags_quiet p : keeps quiet (namespace_clone_flags p).
Proof. unfold namespace_clone_flags. keeps_solve. Qed.
Hint Resolve read_pid_namespace_snapshot_quiet capture_pid_namespace_fork_child_quiet
  namespace_clone_flags_quiet : keeps.

Lemma capture_tracer_pid_namespace_accounted ctx sys_id :
  keeps accounted (capture_tracer_pid_namespace ctx sys_id).
Proof.
  unfold capture_tracer_pid_namespace, lookup_pid_namespace_config, bpf_get_current_task.
  keeps_solve. by apply modify_accounted.
Qed.

(** A counted copy failure. *)
Lemma checked_copy_fail d off size w0 w buf (Q : unit -> world -> Prop) :
  capturing d off size w0 w buf -> ~ no_fault ->
  (forall w', captures d off w0 w' -> (exists nc nl, 1 <= nc <= nl /\ moved w0 w' [] 0 0 nc nl) ->
     Q tt w') ->
  wp record_ringbuf_copy_fail Q w.
Proof.
  intros C NF H. pose proof (cg_rel _ _ _ _ _ _ C) as (_ & _ & nc & nl & Hn & M & _).
  destruct (record_ringbuf_copy_fail_moved w) as [_ M1].
  pose proof (moved_trans _ _ _ _ _ _ _ _ _ _ _ _ _ M M1) as M2. cbn in M2.
  pose proof (wp_copy_fail d off size w0 w buf (fun _ w' => captures d off w0 w') C NF) as W.
  unfold wp in W |- *. destruct (record_ringbuf_copy_fail w) as [[] w1]. cbn [fst snd] in *.
  apply H; [apply W; intros ? ? []; done|]. exists (nc + 1), (nl + 1). split; [lia|done].
Qed.

(** The section of a snapshot, or the record is given up. *)
Lemma snapshot_payload_checked kind tlv_kind arg_index n bytes :
  payloadKindFromTLV tlv_kind = Some kind -> u16 tlv_kind = tlv_kind -> u16 arg_index = arg_index ->
  0 <= n < 2 ^ 31 -> zlen bytes = n ->
  payload_checked exit_payload_offset (PAYLOAD_TLV_HEADER_SIZE + n)
    (decodes True (eq 0) (fun _ secs => exists s, secs = [s] /\
       snapshot_section kind arg_index n (fun data => data = bytes) s))
    (fun ptr => let* ok := capture_snapshot_tlv tlv_kind arg_index n bytes ptr exit_payload_offset in
                ret (if ok then Some (EVENT_FLAG_PAYLOAD_TLV, PAYLOAD_TLV_HEADER_SIZE + n) else None)).
Proof.
  intros Hk Hk' Ha Hn Hl w d buf Hb Hs. unfold capture_snapshot_tlv. wp_steps.
  pose proof (capturing_start d exit_payload_offset w buf Hb) as C0.
  eapply wp_dynptr_write; [exact C0 | lia | lia | |]; cbn [Z.ltb Z.compare].
  - intros w1 C1. unfold payload_tlv_write_header_direct. wp_step.
    set (t := TlvHeader _ _ _ _ _ _ _). pose proof (payload_tlv_header_size t) as Ht.
    eapply wp_dynptr_write; [exact C1 | lia | lia | |]; cbn [Z.ltb Z.compare].
    + intros w2 C2. wp_steps. split; [apply C2|]. split; [lia|]. eexists. split; [apply C2|].
      assert (zlen (put buf (exit_payload_offset + PAYLOAD_TLV_HEADER_SIZE) bytes) = zlen buf) as Zp by (apply zlen_put; lia).
      exists 0. split; [done|]. split.
      * rewrite zlen_slice; [|lia|lia|rewrite zlen_put; lia].
        unfold tlv_flag. destruct (Z.ltb_spec 0 (32 + n)); [done|lia].
      * intros _. eexists. split; [|eexists; split; [reflexivity|]].
        -- erewrite section_decodes; [reflexivity | apply slice_put_same; lia | cbn; by rewrite Hk' |
             lia | done | cbn; lia | rewrite zlen_put; lia].
        -- cbn [t_copied_len t]. rewrite slice_put_after by lia.
           rewrite slice_put_same by lia.
           split; cbn; try done; [rewrite u32_small; lia|]. by left.
    + intros w2 NF C2. wp_step. eapply checked_copy_fail; [exact C2 | done |].
      intros w3 C3 M3. by wp_steps.
  - intros w1 NF C1. wp_step. eapply checked_copy_fail; [exact C1 | done |].
    intros w3 C3 M3. by wp_steps.
Qed.

(** The exit record with a snapshot, as the consumer reads it. *)
Lemma emit_snapshot_exit_ok p rv dur n kind tlv_kind arg_index bytes :
  payloadKindFromTLV tlv_kind = Some kind -> u16 tlv_kind = tlv_kind -> u16 arg_index = arg_index ->
  0 <= n < 2 ^ 30 -> zlen bytes = n ->
  emitter (fun r => reads_pending_exit r p rv dur (decodes True (eq 0) (fun _ secs =>
      exists s, secs = [s] /\ snapshot_section kind arg_index n (fun data => data = bytes) s)))
    (emit_snapshot_exit p rv dur n (fun ptr off => capture_snapshot_tlv tlv_kind arg_index n bytes ptr off)).
Proof.
  intros Hk Hk' Ha Hn Hl w. eapply wp_mono.
  - apply emit_record_checked_wp with (cap := PAYLOAD_TLV_HEADER_SIZE + n)
      (body_len := EVENT_V2_EXIT_BODY_LEN); [lia | lia | lia | | apply init_header_ok | |].
    + by apply (snapshot_payload_checked kind); try lia.
    + apply pending_body_ok.
    + intros sq rec Hw. eapply reads_exit_number, committed_exit; [| |exact Hw]; lia.
  - intros _ w' [E O]. split; [done|]. eapply outcome_mono; [|exact O].
    intros sq rec Hw. eapply committed_exit; [| |exact Hw]; lia.
Qed.

Lemma emit_namespace_exit_emits p rv dur :
  keeps emits (emit_namespace_exit_event_v2_direct p rv dur).
Proof.
  unfold emit_namespace_exit_event_v2_direct. keeps_solve.
  eapply emitter_keeps, (emit_snapshot_exit_ok _ _ _ _ PayloadKindNamespace); try done; lia.
Qed.

Lemma emit_pid_namespace_exit_emits p rv dur :
  keeps emits (emit_pid_namespace_exit_event_v2_direct p rv dur).
Proof.
  unfold emit_pid_namespace_exit_event_v2_direct. keeps_solve.
  eapply emitter_keeps, (emit_snapshot_exit_ok _ _ _ _ PayloadKindPIDNamespace); try done; lia.
Qed.

Lemma trace_namespace_fork_accounted child : keeps accounted (trace_namespace_fork child).
Proof. unfold trace_namespace_fork, current_pending_task_state. keeps_solve. Qed.

Lemma trace_kvm_userspace_exit_accounted reason error :
  keeps accounted (trace_kvm_userspace_exit reason error).
Proof. unfold trace_kvm_userspace_exit, current_pending_task_state. keeps_solve. Qed.
End NamespaceLemmas.

#[export] Hint Resolve capture_tracer_pid_namespace_accounted emit_namespace_exit_emits
  emit_pid_namespace_exit_emits trace_namespace_fork_accounted
  trace_kvm_userspace_exit_accounted : keeps.
