(* ===== verification/Lifecycle.v ===== *)
(** The scheduler lifecycle programs.

    Models [bpf/lifecycle_dispatch.h]: what happens to the tracking state when a
    task forks, execs, exits or is freed, and which lifecycle records are
    emitted. *)
From stdpp Require Import base list gmap numbers.
From S2P Require Import Prelude Syscalls Abi Kernel Consumer Stats Tlv Emit Decoder EventCore Payload LifecycleState Pending.

(** The members the programs read of [struct trace_event_raw_sched_process_exec]:
    where the record is, [__data_loc_filename] and [old_pid]. *)
Record trace_event_raw_sched_process_exec := SchedExec {
  exec_addr : Z; exec_data_loc_filename : Z; exec_old_pid : Z }.

Section Lifecycle.
Context {K : Kernel} {A : Arch}.

(** The task ids of the current task: TGID and TID. *)
Definition current_pid_tid : prog (Z * Z) :=
  let* pid_tgid := bpf_get_current_pid_tgid in
  ret (u32 (Z.shiftr pid_tgid 32), u32 pid_tgid).

Definition emit_successful_exec_completion (pid : Z) : prog unit :=
  let* state := current_pending_task_state in
  match state with
  | None => ret tt
  | Some s =>
      if s_valid s =? 0 then ret tt
      else
        let pending := s_syscall s in
        if negb (is_exec_payload_direct_syscall (p_sys_id pending)) then ret tt
        else
          let* duration := pending_syscall_duration pending in
          emit_syscall_exit_event_v2_direct pending 0 duration 0 ;;;
          consume_pending_syscall pid (p_tid pending) pending false
  end.

(** [ctx_child_pid] is [ctx->child_pid]. *)
Definition trace_sched_process_fork (ctx_child_pid : Z) : prog unit :=
  record_lifecycle_fork_seen ;;;
  let child_pid := u32 ctx_child_pid in
  let* (parent_tgid, parent_tid) := current_pid_tid in
  let* fork_flags := pending_fork_flags parent_tid in
  let* arm_parent := bpf_map_lookup_elem arm_fork_map 0 in
  (match arm_parent with
   | Some p =>
       if negb (p =? 0) && (p =? parent_tgid)
       then let* _ := install_pre_exec_filter child_pid in ret tt else ret tt
   | None => ret tt
   end) ;;;
  let* tracked := is_lifecycle_task_tracked parent_tgid parent_tid in
  if negb tracked then record_lifecycle_fork_parent_untracked
  else
    record_lifecycle_fork_parent_tracked ;;;
    let* cfg := bpf_map_lookup_elem config_map 0 in
    let follows_child := match cfg with Some c => has_flag c CONFIG_FOLLOW_FORKS | None => false end in
    (if follows_child then
       let* installed := install_tracked_filter child_pid in
       record_lifecycle_fork_child_filter installed
     else ret tt) ;;;
    let fork_identity := Z.lor (Z.shiftl (Z.land fork_flags 0xffffffff) 32) parent_tgid in
    emit_lifecycle_event LIFECYCLE_FORK parent_tgid parent_tid fork_identity child_pid 0 ;;;
    (if negb follows_child && has_flag fork_flags CLONE_PTRACE_FLAG then
       emit_lifecycle_event LIFECYCLE_UNKNOWN_DETACH parent_tgid parent_tid child_pid 0 0
     else ret tt) ;;;
    if negb follows_child && has_flag fork_flags CLONE_PARENT_FLAG
    then mark_unknown_child child_pid parent_tgid else ret tt.

Definition trace_sched_process_exec (ctx : trace_event_raw_sched_process_exec) : prog unit :=
  record_lifecycle_exec_seen ;;;
  let* (pid, tid) := current_pid_tid in
  let* tracked := adopt_exec_task_tracking pid tid (u32 (exec_old_pid ctx)) in
  if negb tracked then record_lifecycle_exec_untracked
  else
    let* pre_exec_owner := clear_pre_exec_filter tid in
    (if pre_exec_owner then
       let* arm_parent := bpf_map_lookup_elem arm_fork_map 0 in
       match arm_parent with
       | Some p => if p =? 0 then ret tt
                   else let* _ := lifecycle_map_update arm_fork_map 0 0 in ret tt
       | None => ret tt
       end
     else ret tt) ;;;
    emit_successful_exec_completion pid ;;;
    let filename_offset := Z.land (exec_data_loc_filename ctx) 0xffff in
    let filename := if 0 <? filename_offset then u64 (exec_addr ctx + filename_offset) else 0 in
    emit_lifecycle_event LIFECYCLE_EXEC pid tid (s32 (exec_old_pid ctx)) tid filename ;;;
    bpf_map_delete_elem pending_exec_map pid.

Definition trace_sched_process_exit : prog unit :=
  record_lifecycle_exit_seen ;;;
  let* (pid, tid) := current_pid_tid in
  let* unknown_parent := take_unknown_child tid in
  (if unknown_parent =? 0 then ret tt
   else emit_lifecycle_event LIFECYCLE_UNKNOWN_EXIT unknown_parent unknown_parent tid 0 0) ;;;
  let* tracked := is_lifecycle_task_tracked pid tid in
  if negb tracked then record_lifecycle_exit_untracked
  else
    let* task := bpf_get_current_task in
    let* replaced := is_exec_replaced_leader task pid tid in
    if replaced then clear_replaced_leader_task_state tid
    else
      mark_attach_task_exited tid ;;;
      clear_lifecycle_task_state pid tid ;;;
      let* exit_code := if task =? 0 then ret 0 else bpf_core_read task_exit_code task in
      emit_lifecycle_event LIFECYCLE_EXIT pid tid (s32 exit_code) 0 0.

(** [freed_pid] is [ctx->pid]. *)
Definition trace_sched_process_free (freed_pid : Z) : prog unit :=
  let tid := u32 freed_pid in
  if tid =? 0 then ret tt
  else
    let* tracked := is_lifecycle_task_tracked tid tid in
    if negb tracked then ret tt
    else
      clear_lifecycle_task_state tid tid ;;;
      emit_lifecycle_event LIFECYCLE_FREE tid tid tid 0 0.
End Lifecycle.

Section LifecycleProgLemmas.
Context {K : Kernel} {A : Arch}.

Lemma current_pid_tid_quiet : keeps quiet current_pid_tid.
Proof. unfold current_pid_tid, bpf_get_current_pid_tgid. keeps_solve. Qed.
Hint Resolve current_pid_tid_quiet : keeps.

Lemma lifecycle_counters_quiet :
  keeps quiet record_lifecycle_fork_seen /\ keeps quiet record_lifecycle_fork_parent_tracked /\
  keeps quiet record_lifecycle_fork_parent_untracked /\ keeps quiet record_lifecycle_exec_seen /\
  keeps quiet record_lifecycle_exec_untracked /\ keeps quiet record_lifecycle_exit_seen /\
  keeps quiet record_lifecycle_exit_untracked.
Proof. split_and!; by apply stat_incr_quiet. Qed.
Hint Extern 3 (keeps quiet record_lifecycle_fork_seen) => (apply lifecycle_counters_quiet) : keeps.
Hint Extern 3 (keeps quiet record_lifecycle_fork_parent_tracked) =>
  (apply lifecycle_counters_quiet) : keeps.
Hint Extern 3 (keeps quiet record_lifecycle_fork_parent_untracked) =>
  (apply lifecycle_counters_quiet) : keeps.
Hint Extern 3 (keeps quiet record_lifecycle_exec_seen) => (apply lifecycle_counters_quiet) : keeps.
Hint Extern 3 (keeps quiet record_lifecycle_exec_untracked) =>
  (apply lifecycle_counters_quiet) : keeps.
Hint Extern 3 (keeps quiet record_lifecycle_exit_seen) => (apply lifecycle_counters_quiet) : keeps.
Hint Extern 3 (keeps quiet record_lifecycle_exit_untracked) =>
  (apply lifecycle_counters_quiet) : keeps.

Lemma emit_successful_exec_completion_accounted pid :
  keeps accounted (emit_successful_exec_completion pid).
Proof. unfold emit_successful_exec_completion, current_pending_task_state. keeps_solve. Qed.
Hint Resolve emit_successful_exec_completion_accounted : keeps.

Lemma trace_sched_process_fork_accounted child : keeps accounted (trace_sched_process_fork child).
Proof. unfold trace_sched_process_fork. keeps_solve. Qed.
Lemma trace_sched_process_exec_accounted ctx : keeps accounted (trace_sched_process_exec ctx).
Proof. unfold trace_sched_process_exec. keeps_solve. Qed.
Lemma trace_sched_process_exit_accounted : keeps accounted trace_sched_process_exit.
Proof. unfold trace_sched_process_exit, bpf_get_current_task. keeps_solve. Qed.
Lemma trace_sched_process_free_accounted p : keeps accounted (trace_sched_process_free p).
Proof. unfold trace_sched_process_free. keeps_solve. Qed.
End LifecycleProgLemmas.

#[export] Hint Resolve current_pid_tid_quiet trace_sched_process_fork_accounted
  trace_sched_process_exec_accounted trace_sched_process_exit_accounted
  trace_sched_process_free_accounted : keeps.
