(* ===== verification/Signal.v ===== *)
(** Signal records.

    Models [bpf/signal_event_v2.h] and [bpf/signal_dispatch.h]: a signal
    delivered to a traced task, and the SIGCHLD generated for one. *)
From stdpp Require Import base list gmap numbers.
From S2P Require Import Prelude Syscalls Abi Kernel Consumer Stats Tlv Emit Decoder EventCore Payload LifecycleState Pending Lifecycle.

Abbreviation SIGNAL_NUMBER_CHLD := 17 (only parsing).
Abbreviation SIGNAL_RECORD_SIZE := (EVENT_V2_HEADER_LEN + EVENT_V2_SIGNAL_BODY_LEN) (only parsing).

Section Signal.
Context {K : Kernel} {A : Arch}.

(** [bpf_ringbuf_reserve] returns the record itself; every member is stored
    before [bpf_ringbuf_submit]. *)
Definition emit_signal_event_v2 (pid tid : Z) (body : signal_event_v2) : prog unit :=
  let* sequence := next_event_sequence in
  let* (_, event) := bpf_ringbuf_reserve_dynptr SIGNAL_RECORD_SIZE in
  match event with
  | None => record_ringbuf_reserve_fail
  | Some d =>
      let* (cpu, reserved, epoch, time) := capture_event_integrity in
      let* ts := bpf_ktime_get_ns in
      let* comm := capture_event_v2_comm in
      let header := EventHeader EVENT_VERSION EVENT_TYPE_SIGNAL 0 EVENT_V2_HEADER_LEN
        SIGNAL_RECORD_SIZE pid tid 0 sequence ts comm cpu reserved epoch time in
      data_store (d, 0) (struct_bytes (event_v2_header_fields header)) ;;;
      data_store (d, EVENT_V2_HEADER_LEN) (struct_bytes (signal_event_v2_fields body)) ;;;
      bpf_ringbuf_submit_dynptr (Some d)
  end.

Definition target_pending_stack_id (tid : Z) : prog Z :=
  let* stack_id := bpf_map_lookup_elem pending_stack_map tid in
  ret (default (-1) stack_id).

(** [None] when there is no [siginfo]. *)
Definition populate_signal_event_v2 (info_address signo config : Z) : prog (option signal_event_v2) :=
  if info_address <=? 1 then ret None
  else
    let* stack_id := if has_flag config CONFIG_CAPTURE_STACK then bpf_get_stackid else ret (-1) in
    let* error := bpf_core_read siginfo_si_errno info_address in
    let* code := bpf_core_read siginfo_si_code info_address in
    let* sender_pid := bpf_core_read siginfo_kill_pid info_address in
    let* sender_uid := bpf_core_read siginfo_kill_uid info_address in
    let* address := bpf_core_read siginfo_sigfault_addr info_address in
    let* (status, utime, stime) :=
      if signo =? SIGNAL_NUMBER_CHLD then
        let* status := bpf_core_read siginfo_sigchld_status info_address in
        let* utime := bpf_core_read siginfo_sigchld_utime info_address in
        let* stime := bpf_core_read siginfo_sigchld_stime info_address in
        ret (status, utime, stime)
      else ret (0, 0, 0) in
    ret (Some (SignalBody signo error code sender_pid sender_uid stack_id address status 0
                 utime stime)).

(** [signo] and [info_address] are the first two arguments of the raw tracepoint. *)
Definition trace_signal_deliver (signo_arg info_address : Z) : prog unit :=
  let* (pid, tid) := current_pid_tid in
  let* tracked := is_lifecycle_task_tracked pid tid in
  if negb tracked then ret tt
  else
    let* config := bpf_map_lookup_elem config_map 0 in
    match config with
    | None => ret tt
    | Some c =>
        if negb (has_flag c CONFIG_EMIT_SIGNAL) then ret tt
        else
          let signo := u32 signo_arg in
          if signo =? SIGNAL_NUMBER_CHLD then ret tt
          else
            let* body := populate_signal_event_v2 (u64 info_address) signo c in
            match body with
            | None => ret tt
            | Some b => emit_signal_event_v2 pid tid b
            end
    end.

Definition trace_signal_generate (signo_arg info_address target : Z) : prog unit :=
  let signo := u32 signo_arg in
  if negb (signo =? SIGNAL_NUMBER_CHLD) then ret tt
  else if target =? 0 then ret tt
  else
    let* pid := bpf_core_read task_tgid target in
    let* tid := bpf_core_read task_pid target in
    let '(pid, tid) := (u32 pid, u32 tid) in
    let* tracked := is_lifecycle_task_tracked pid tid in
    if negb tracked then ret tt
    else
      let* config := bpf_map_lookup_elem config_map 0 in
      match config with
      | None => ret tt
      | Some c =>
          if negb (has_flag c CONFIG_EMIT_SIGNAL) then ret tt
          else
            let* body := populate_signal_event_v2 (u64 info_address) signo
                           (Z.ldiff c CONFIG_CAPTURE_STACK) in
            match body with
            | None => ret tt
            | Some b =>
                let* stack_id := target_pending_stack_id tid in
                emit_signal_event_v2 pid tid
                  (SignalBody (sg_signo b) (sg_error b) (sg_code b) (sg_sender_pid b)
                     (sg_sender_uid b) stack_id (sg_address b) (sg_child_status b)
                     (sg_reserved b) (sg_child_user_time b) (sg_child_system_time b))
            end
      end.
End Signal.

Section SignalLemmas.
Context {K : Kernel} {A : Arch}.

(** A signal record, as the consumer reads it. *)
Record reads_signal (r : exec_ctx) (pid tid : Z) (b : signal_event_v2) (sq : Z)
    (env : traceEventEnvelope) : Prop := ReadsSignal {
  rs_type : e_eventType env = EVENT_TYPE_SIGNAL;
  rs_seq : e_seq env = u64 sq;
  rs_cpu : e_cpu env = u32 (cur_cpu r);
  rs_pid : e_pid env = u32 pid;
  rs_tid : e_tid env = u32 tid;
  rs_signal : e_signal env = u32 (sg_signo b);
  rs_err : e_signalErr env = s32 (sg_error b);
  rs_code : e_signalCode env = s32 (sg_code b);
  rs_sender : e_senderPID env = u32 (sg_sender_pid b) /\ e_senderUID env = u32 (sg_sender_uid b);
  rs_address : e_signalAddress env = u64 (sg_address b);
  rs_stack : e_stackID env = s32 (sg_stack_id b);
  rs_child : e_signalStatus env = s32 (sg_child_status b) /\
    e_signalUserTime env = s64 (sg_child_user_time b) /\
    e_signalSystemTime env = s64 (sg_child_system_time b) }.

Lemma committed_signal r pid tid b sq buf h ts :
  zlen buf = SIGNAL_RECORD_SIZE ->
  built_header r EVENT_TYPE_SIGNAL SIGNAL_RECORD_SIZE pid tid 0 ts sq 0 h ->
  exists env, decodeTraceEventV2Envelope
    (put (put buf 0 (struct_bytes (event_v2_header_fields h))) EVENT_V2_HEADER_LEN
       (struct_bytes (signal_event_v2_fields b))) = Some env /\
    reads_signal r pid tid b sq env.
Proof.
  intros Hl Hh. pose proof (signal_body_size b) as Lb.
  destruct (committed_parts buf h (struct_bytes (signal_event_v2_fields b)) 56 SIGNAL_RECORD_SIZE 0)
    as (Lr & E1 & E2 & _); try lia.
  cbv zeta in Lr, E1, E2.
  destruct (committed_header _ r EVENT_TYPE_SIGNAL _ _ _ _ _ _ _ _ Lr ltac:(lia) ltac:(cbn; auto 7) E1 Hh)
    as (hd & Hr & Hd).
  eexists. split.
  - unfold decodeTraceEventV2Envelope. rewrite Hd, (hr_type _ _ _ _ _ _ _ _ _ Hr).
    cbn [Z.eqb Pos.eqb]. rewrite (decode_signal_body _ _ b) by (exact E2). reflexivity.
  - destruct Hr. by split; cbn.
Qed.

Lemma emit_signal_ok pid tid b :
  emitter (fun r sq rec => exists env, decodeTraceEventV2Envelope rec = Some env /\
    reads_signal r pid tid b sq env) (emit_signal_event_v2 pid tid b).
Proof.
  intros w. unfold emit_signal_event_v2. wp_step.
  destruct (next_event_sequence_moved w) as ([S1 _ R1] & M1 & Hseq).
  unfold wp at 1. destruct (next_event_sequence w) as [sq w1]. cbn [fst snd] in *.
  wp_step. apply wp_reserve; [lia| |].
  - intros w2 d b0 S2 M2 Hd R2 L0. rewrite R1 in Hd, R2.
    pose proof (moved_trans _ _ _ _ _ _ _ _ _ _ _ _ _ M1 M2) as M12.
    assert (reserved w2 !! d = Some b0) as Hb0 by (by rewrite R2, lookup_insert_eq).
    pose proof (capturing_start d 0 w2 b0 Hb0) as C2. rewrite L0 in C2.
    assert (running w2 = running w) as Hr2 by (rewrite (ss_running _ _ S2); apply S1).
    unfold capture_event_integrity, bpf_get_smp_processor_id. wp_steps.
    destruct (loss w2 !! 0) as [l|]; wp_steps;
      (eapply wp_quiet; [exact C2 | eauto with keeps |]; intros ts w3 C3; wp_step;
       eapply wp_quiet; [exact C3 | eauto with keeps |]; intros comm w4 C4; wp_steps;
       set (h := EventHeader _ _ _ _ _ _ _ _ _ _ _ _ _ _ _);
       eapply wp_data_store; [exact C4 | lia | rewrite event_v2_header_size; lia |];
       intros w5 C5; wp_step;
       eapply wp_data_store; [exact C5 | lia | rewrite signal_body_size; lia |];
       intros w6 C6;
       eapply wp_mono; [by eapply submit_moved; [exact C6 | exact Hd | exact R2]|];
       intros _ w7 (S7 & R7 & nc & nl & Hn & M7 & F7);
       pose proof (moved_trans _ _ _ _ _ _ _ _ _ _ _ _ _ M12 M7) as M'; cbn [app Z.add] in M';
       assert (built_header (running w) EVENT_TYPE_SIGNAL SIGNAL_RECORD_SIZE pid tid 0 ts sq 0 h) as Hh
         by (subst h; rewrite Hr2; by do 3 eexists);
       destruct (committed_signal (running w) pid tid b sq b0 h ts L0 Hh) as (env & Ee & Re);
       split; [split; [by do 2 (etrans; [eassumption|]) | split; [congruence|]]|];
       [eexists [_], 0, 0, nc, nl; split; try lia;
        [exact M' | done | eapply numbering_one; [destruct Re; by exists env | exact Hseq]]|];
       eapply Submitted; [exact (mv_submitted _ _ _ _ _ _ _ M') | by exists env | exact Hseq]).
  - intros w2 Q2 NR. unfold wp.
    destruct (record_ringbuf_reserve_fail_moved w2) as [[S3 _ R3] M3].
    destruct (record_ringbuf_reserve_fail w2) as [[] w3]. cbn [fst snd] in *.
    destruct Q2 as [[S2 _ R2] (nl & ? & M2)].
    pose proof (moved_trans _ _ _ _ _ _ _ _ _ _ _ _ _ M1 M2) as M12.
    pose proof (moved_trans _ _ _ _ _ _ _ _ _ _ _ _ _ M12 M3) as M'. cbn in M'.
    split; [split; [by do 2 (etrans; [eassumption|])|split; [congruence|]]|].
    + exists [], 1, 0, 0, (nl + 1). by split; try lia; [|intros ?; exfalso; auto|by apply numbering_nil].
    + apply NoRoom; [|done]. rewrite (mv_submitted _ _ _ _ _ _ _ M'). apply app_nil_r.
Qed.

Lemma emit_signal_emits pid tid b : keeps emits (emit_signal_event_v2 pid tid b).
Proof. eapply emitter_keeps, emit_signal_ok. Qed.
Lemma populate_signal_quiet i s c : keeps quiet (populate_signal_event_v2 i s c).
Proof. unfold populate_signal_event_v2. keeps_solve. Qed.
Lemma target_pending_stack_id_quiet tid : keeps quiet (target_pending_stack_id tid).
Proof. unfold target_pending_stack_id. keeps_solve. Qed.
Hint Resolve emit_signal_emits populate_signal_quiet target_pending_stack_id_quiet : keeps.

Lemma trace_signal_deliver_emits signo info : keeps emits (trace_signal_deliver signo info).
Proof. unfold trace_signal_deliver. keeps_solve. Qed.
Lemma trace_signal_generate_emits signo info target :
  keeps emits (trace_signal_generate signo info target).
Proof. unfold trace_signal_generate. keeps_solve. Qed.
End SignalLemmas.

#[export] Hint Resolve trace_signal_deliver_emits trace_signal_generate_emits : keeps.
