(* ===== verification/Structs.v ===== *)
(** Fixed-size structures in user memory.

    Models [bpf/syscall_time_direct_event_v2.h],
    [bpf/syscall_time_emit_direct_event_v2.h],
    [bpf/syscall_sleep_direct_event_v2.h],
    [bpf/syscall_timex_direct_event_v2.h],
    [bpf/syscall_stat_direct_event_v2.h],
    [bpf/syscall_waitid_direct_event_v2.h],
    [bpf/syscall_signal_direct_event_v2.h] and
    [bpf/syscall_small_struct_*.h]: the syscalls whose payload is one or two
    structures the program copies in or out.  All of them fill a slot of the
    record with [copy_user_struct] and close it with a section header. *)
From stdpp Require Import base list gmap numbers.
From S2P Require Import Prelude Syscalls Abi Kernel Consumer Stats Tlv Emit Decoder EventCore Payload.

Abbreviation TIME_DIRECT_TIMESPEC_SIZE := 16 (only parsing).
Abbreviation TIME_DIRECT_TIME_T_SIZE := 8 (only parsing).
Abbreviation TIME_DIRECT_TIMEZONE_SIZE := 8 (only parsing).
Abbreviation TIME_DIRECT_ITIMERVAL_SIZE := 32 (only parsing).
Abbreviation TIME_DIRECT_TIMEX_SIZE := 208 (only parsing).
Abbreviation STATFS_DIRECT_STRUCT_SIZE := 120 (only parsing).
Abbreviation STATX_DIRECT_STRUCT_SIZE := 256 (only parsing).
Abbreviation STAT_DIRECT_STRUCT_MAX_SIZE := 256 (only parsing).
Abbreviation WAITID_DIRECT_SIGINFO_SIZE := 128 (only parsing).
Abbreviation WAITID_DIRECT_RUSAGE_SIZE := 144 (only parsing).
Abbreviation SIGNAL_DIRECT_SIGSET_SIZE := 8 (only parsing).
Abbreviation SIGNAL_DIRECT_SIGACTION_SIZE := 32 (only parsing).
Abbreviation SMALL_STRUCT_DIRECT_WORD_SIZE := 8 (only parsing).
Abbreviation SMALL_STRUCT_DIRECT_MAX_PAYLOAD :=
  (2 * (PAYLOAD_TLV_HEADER_SIZE + SMALL_STRUCT_DIRECT_WORD_SIZE)) (only parsing).
Abbreviation enter_payload_offset := (EVENT_V2_HEADER_LEN + EVENT_V2_ENTER_BODY_LEN) (only parsing).

Section Structs.
Context {K : Kernel} {A : Arch}.

(** ** Building blocks *)

(** [read_size] bytes of the user's structure into a slot of [slot] bytes:
    copied length and probe result. *)
Definition copy_user_struct (ptr : dynptr) (data_offset slot read_size struct_size user_ptr : Z)
    : prog (Z * Z) :=
  let* payload_data := bpf_dynptr_data ptr data_offset slot in
  match payload_data with
  | None => record_ringbuf_copy_fail ;;; ret (0, -1)
  | Some data =>
      let* err := read_user_into data read_size user_ptr in
      if err <? 0 then ret (0, err) else ret (struct_size, 0)
  end.

(** A structure of [struct_size] bytes as one section. *)
Definition capture_struct_copy (slot read_size struct_size arg_index tlv_flags user_ptr : Z)
    (ptr : dynptr) (payload_offset : Z) : prog Z :=
  let* (copied_len, probe_ret) := copy_user_struct ptr
    (payload_offset + PAYLOAD_TLV_HEADER_SIZE) slot read_size struct_size user_ptr in
  finish_section ptr payload_offset
    (TlvHeader PAYLOAD_TLV_KIND_STRUCT arg_index tlv_flags struct_size copied_len probe_ret
       user_ptr).

(** The same; nothing for a null pointer. *)
Definition capture_struct_section (slot read_size struct_size arg_index tlv_flags user_ptr : Z)
    (ptr : dynptr) (payload_offset : Z) : prog Z :=
  if user_ptr =? 0 then ret 0
  else capture_struct_copy slot read_size struct_size arg_index tlv_flags user_ptr ptr payload_offset.

(** The same; a section without data for a null pointer. *)
Definition capture_required_struct (struct_size arg_index tlv_flags user_ptr : Z)
    (ptr : dynptr) (payload_offset : Z) : prog Z :=
  let* (copied_len, probe_ret) :=
    if user_ptr =? 0 then ret (0, -1)
    else copy_user_struct ptr (payload_offset + PAYLOAD_TLV_HEADER_SIZE) struct_size struct_size
           struct_size user_ptr in
  finish_section ptr payload_offset
    (TlvHeader PAYLOAD_TLV_KIND_STRUCT arg_index tlv_flags struct_size copied_len probe_ret
       user_ptr).

(** [payload_size = f(offset); payload_size += g(offset + payload_size);]. *)
Definition both (f g : dynptr -> Z -> prog Z) (ptr : dynptr) (off : Z) : prog Z :=
  let* n := f ptr off in
  let* m := g ptr (off + n) in
  ret (n + m).

(** The body of an entry event that is built from the tracepoint context. *)
Definition enter_ctx_body (ctx : trace_event_raw_sys_enter) (probe_ret_enter n : Z)
    : prog (list Z) :=
  ret (struct_bytes (syscall_enter_event_v2_fields
    (init_syscall_enter_event_v2_from_ctx ctx n 0 probe_ret_enter (-1)))).

(** An entry event with [EVENT_FLAG_GENERIC_ENTER] and the payload [capture] leaves. *)
Definition enter_capture_emit (cap pid tid sys_id : Z) (ctx : trace_event_raw_sys_enter)
    (ts_ns probe_ret_enter : Z) (capture : dynptr -> Z -> prog Z) : prog unit :=
  enter_emit cap pid tid sys_id ts_ns
    (fun ptr => let* n := capture ptr enter_payload_offset in
                ret (tlv_flag EVENT_FLAG_GENERIC_ENTER n, n))
    (enter_ctx_body ctx probe_ret_enter).

(** An exit event with the payload [capture] leaves. *)
Definition exit_capture_emit (cap : Z) (p : pending_syscall) (ret_value duration : Z)
    (capture : dynptr -> Z -> prog Z) : prog unit :=
  pending_exit_emit cap p ret_value duration
    (fun ptr => let* n := capture ptr exit_payload_offset in ret (tlv_flag 0 n, n)).

(** [if (cond) payload_size = capture(...);]. *)
Definition capture_if (cond : bool) (f : dynptr -> Z -> prog Z) (ptr : dynptr) (off : Z) : prog Z :=
  if cond then f ptr off else ret 0.

(** ** Clocks and timers *)

Definition is_clock_time_struct_direct_syscall (sys_id : Z) : bool :=
  one_of sys_id [SYS_CLOCK_GETTIME; SYS_CLOCK_GETRES].
Definition is_gettimeofday_direct_syscall (sys_id : Z) : bool := one_of sys_id [SYS_GETTIMEOFDAY].
Definition is_time_direct_syscall (sys_id : Z) : bool := one_of sys_id [SYS_TIME].
Definition is_itimer_exit_direct_syscall (sys_id : Z) : bool :=
  one_of sys_id [SYS_GETITIMER; SYS_SETITIMER].
Definition is_timex_exit_direct_syscall (sys_id : Z) : bool :=
  one_of sys_id [SYS_ADJTIMEX; SYS_CLOCK_ADJTIME].
Definition is_sleep_direct_syscall (sys_id : Z) : bool :=
  one_of sys_id [SYS_NANOSLEEP; SYS_CLOCK_NANOSLEEP].

(** The slot the dynptr is asked for; its size must be a constant for the verifier. *)
Definition time_struct_slot (struct_size : Z) : Z :=
  if struct_size =? TIME_DIRECT_TIMEZONE_SIZE then TIME_DIRECT_TIMEZONE_SIZE
  else if struct_size =? TIME_DIRECT_ITIMERVAL_SIZE then TIME_DIRECT_ITIMERVAL_SIZE
  else if struct_size =? TIME_DIRECT_TIMEX_SIZE then TIME_DIRECT_TIMEX_SIZE
  else TIME_DIRECT_TIMESPEC_SIZE.

Definition capture_time_struct_tlv_direct_from_ptr (arg_index user_ptr struct_size tlv_flags : Z)
    (ptr : dynptr) (payload_offset : Z) : prog Z :=
  if struct_size =? 0 then ret 0
  else capture_struct_section (time_struct_slot struct_size) struct_size struct_size arg_index
         tlv_flags user_ptr ptr payload_offset.

Definition capture_time_struct_tlv_direct (p : pending_syscall) (arg_index struct_size : Z)
    (ptr : dynptr) (payload_offset : Z) : prog Z :=
  if 6 <=? arg_index then ret 0
  else capture_time_struct_tlv_direct_from_ptr arg_index (arg (p_args p) arg_index) struct_size
         PAYLOAD_TLV_FLAG_DIRECTION_OUT ptr payload_offset.

Definition emit_time_exit_event_v2_direct (p : pending_syscall) (ret_value duration : Z) : prog unit :=
  exit_capture_emit (PAYLOAD_TLV_HEADER_SIZE + TIME_DIRECT_TIME_T_SIZE) p ret_value duration
    (capture_if (0 <=? ret_value) (capture_time_struct_tlv_direct p 0 TIME_DIRECT_TIME_T_SIZE)).

Definition emit_time_struct_exit_event_v2_direct (p : pending_syscall) (ret_value duration : Z)
    : prog unit :=
  exit_capture_emit (PAYLOAD_TLV_HEADER_SIZE + TIME_DIRECT_TIMESPEC_SIZE) p ret_value duration
    (capture_if (0 <=? ret_value) (capture_time_struct_tlv_direct p 1 TIME_DIRECT_TIMESPEC_SIZE)).

Definition emit_time_struct_enter_event_v2_direct (pid tid sys_id : Z)
    (ctx : trace_event_raw_sys_enter) (ts_ns : Z) : prog unit :=
  let settimeofday := one_of sys_id [SYS_SETTIMEOFDAY] in
  let args := args_u64 (enter_args ctx) in
  enter_capture_emit
    (if settimeofday then
       (PAYLOAD_TLV_HEADER_SIZE + TIME_DIRECT_TIMESPEC_SIZE) +
       (PAYLOAD_TLV_HEADER_SIZE + TIME_DIRECT_TIMEZONE_SIZE)
     else PAYLOAD_TLV_HEADER_SIZE + TIME_DIRECT_TIMESPEC_SIZE)
    pid tid sys_id ctx ts_ns (-1)
    (if settimeofday then
       both (capture_time_struct_tlv_direct_from_ptr 0 (arg0 args) TIME_DIRECT_TIMESPEC_SIZE 0)
            (capture_time_struct_tlv_direct_from_ptr 1 (arg1 args) TIME_DIRECT_TIMEZONE_SIZE 0)
     else capture_time_struct_tlv_direct_from_ptr 1 (arg1 args) TIME_DIRECT_TIMESPEC_SIZE 0).

Definition emit_itimer_enter_event_v2_direct (pid tid sys_id : Z)
    (ctx : trace_event_raw_sys_enter) (ts_ns : Z) : prog unit :=
  enter_capture_emit (PAYLOAD_TLV_HEADER_SIZE + TIME_DIRECT_ITIMERVAL_SIZE) pid tid sys_id ctx
    ts_ns (-1)
    (capture_time_struct_tlv_direct_from_ptr 1 (arg1 (args_u64 (enter_args ctx)))
       TIME_DIRECT_ITIMERVAL_SIZE 0).

Definition emit_itimer_exit_event_v2_direct (p : pending_syscall) (ret_value duration : Z)
    : prog unit :=
  exit_capture_emit (PAYLOAD_TLV_HEADER_SIZE + TIME_DIRECT_ITIMERVAL_SIZE) p ret_value duration
    (capture_if (0 <=? ret_value)
       (if one_of (p_sys_id p) [SYS_SETITIMER]
        then capture_time_struct_tlv_direct p 2 TIME_DIRECT_ITIMERVAL_SIZE
        else capture_time_struct_tlv_direct p 1 TIME_DIRECT_ITIMERVAL_SIZE)).

Definition emit_gettimeofday_exit_event_v2_direct (p : pending_syscall) (ret_value duration : Z)
    : prog unit :=
  exit_capture_emit
    ((PAYLOAD_TLV_HEADER_SIZE + TIME_DIRECT_TIMESPEC_SIZE) +
     (PAYLOAD_TLV_HEADER_SIZE + TIME_DIRECT_TIMEZONE_SIZE)) p ret_value duration
    (capture_if (0 <=? ret_value)
       (both (capture_time_struct_tlv_direct p 0 TIME_DIRECT_TIMESPEC_SIZE)
             (capture_time_struct_tlv_direct p 1 TIME_DIRECT_TIMEZONE_SIZE))).

Definition timex_payload_arg_index (sys_id : Z) : Z :=
  if one_of sys_id [SYS_CLOCK_ADJTIME] then 1 else 0.

Definition emit_timex_exit_event_v2_direct (p : pending_syscall) (ret_value duration : Z)
    : prog unit :=
  exit_capture_emit (PAYLOAD_TLV_HEADER_SIZE + TIME_DIRECT_TIMEX_SIZE) p ret_value duration
    (capture_if (0 <=? ret_value)
       (capture_time_struct_tlv_direct p (timex_payload_arg_index (p_sys_id p))
          TIME_DIRECT_TIMEX_SIZE)).

(** ** Sleeping *)

Definition sleep_remaining_arg_index (sys_id : Z) : Z :=
  if one_of sys_id [SYS_CLOCK_NANOSLEEP] then 3 else 1.
Definition sleep_remaining_user_ptr (p : pending_syscall) : Z :=
  if one_of (p_sys_id p) [SYS_CLOCK_NANOSLEEP] then arg3 (p_args p) else arg1 (p_args p).
Definition is_sleep_interrupted_ret (ret_value : Z) : bool :=
  (ret_value =? -516) || (ret_value =? -4).

Definition should_emit_nanosleep_suspended_marker (tid pid : Z) : prog bool :=
  if negb (tid =? pid) then ret false
  else
    let* task := bpf_get_current_task in
    if task =? 0 then ret false
    else
      let* nr_threads := bpf_core_read task_signal_nr_threads task in
      ret (1 <? u32 nr_threads).

Definition emit_sleep_enter_event_v2_direct (pid tid sys_id : Z) (ctx : trace_event_raw_sys_enter)
    (ts_ns request_arg_index request_user_ptr probe_ret_enter : Z) : prog unit :=
  enter_capture_emit (PAYLOAD_TLV_HEADER_SIZE + TIME_DIRECT_TIMESPEC_SIZE) pid tid sys_id ctx
    ts_ns probe_ret_enter
    (capture_time_struct_tlv_direct_from_ptr request_arg_index request_user_ptr
       TIME_DIRECT_TIMESPEC_SIZE 0).

Definition emit_sleep_exit_event_v2_direct (p : pending_syscall) (ret_value duration : Z)
    : prog unit :=
  exit_capture_emit (PAYLOAD_TLV_HEADER_SIZE + TIME_DIRECT_TIMESPEC_SIZE) p ret_value duration
    (capture_if (is_sleep_interrupted_ret ret_value)
       (capture_time_struct_tlv_direct_from_ptr (sleep_remaining_arg_index (p_sys_id p))
          (sleep_remaining_user_ptr p) TIME_DIRECT_TIMESPEC_SIZE PAYLOAD_TLV_FLAG_DIRECTION_OUT)).

(** ** [stat], [statfs], [statx] *)

(** [NATIVE_STAT_SIZE] of [native_abi_layout.h]. *)
Definition NATIVE_STAT_SIZE : Z := match target_arch with amd64 => 144 | arm64 => 128 end.

Definition is_stat_struct_direct_syscall (sys_id : Z) : bool :=
  one_of sys_id [SYS_STAT; SYS_LSTAT; SYS_FSTAT; SYS_NEWFSTATAT; SYS_STATX; SYS_STATFS; SYS_FSTATFS].

Definition stat_direct_struct_size (sys_id : Z) : Z :=
  if one_of sys_id [SYS_STATFS; SYS_FSTATFS] then STATFS_DIRECT_STRUCT_SIZE
  else if one_of sys_id [SYS_STATX] then STATX_DIRECT_STRUCT_SIZE
  else NATIVE_STAT_SIZE.

Definition stat_direct_struct_arg_index (sys_id : Z) : Z :=
  if one_of sys_id [SYS_STATX] then 4 else if one_of sys_id [SYS_NEWFSTATAT] then 2 else 1.

Definition stat_direct_struct_user_ptr (p : pending_syscall) : Z :=
  if one_of (p_sys_id p) [SYS_STATX] then arg4 (p_args p)
  else if one_of (p_sys_id p) [SYS_NEWFSTATAT] then arg2 (p_args p)
  else arg1 (p_args p).

(** The size the branch of each syscall reads. *)
Definition stat_direct_read_size (sys_id : Z) : Z :=
  if one_of sys_id [SYS_STATX] then STATX_DIRECT_STRUCT_SIZE
  else if one_of sys_id [SYS_STATFS; SYS_FSTATFS] then STATFS_DIRECT_STRUCT_SIZE
  else NATIVE_STAT_SIZE.

Definition capture_stat_struct_tlv_direct (p : pending_syscall) (ptr : dynptr)
    (payload_offset : Z) : prog Z :=
  capture_struct_section STAT_DIRECT_STRUCT_MAX_SIZE (stat_direct_read_size (p_sys_id p))
    (stat_direct_struct_size (p_sys_id p)) (stat_direct_struct_arg_index (p_sys_id p))
    PAYLOAD_TLV_FLAG_DIRECTION_OUT (stat_direct_struct_user_ptr p) ptr payload_offset.

Definition emit_stat_struct_exit_event_v2_direct (p : pending_syscall) (ret_value duration : Z)
    : prog unit :=
  exit_capture_emit (PAYLOAD_TLV_HEADER_SIZE + STAT_DIRECT_STRUCT_MAX_SIZE) p ret_value duration
    (capture_if (0 <=? ret_value) (capture_stat_struct_tlv_direct p)).

(** ** [waitid] *)

Definition is_waitid_direct_syscall (sys_id : Z) : bool := one_of sys_id [SYS_WAITID].

Definition capture_waitid_struct_tlv_direct (arg_index user_ptr struct_size : Z) (ptr : dynptr)
    (payload_offset : Z) : prog Z :=
  let slot := if struct_size =? WAITID_DIRECT_SIGINFO_SIZE then WAITID_DIRECT_SIGINFO_SIZE
              else WAITID_DIRECT_RUSAGE_SIZE in
  capture_struct_section slot slot struct_size arg_index PAYLOAD_TLV_FLAG_DIRECTION_OUT user_ptr
    ptr payload_offset.

Definition emit_waitid_exit_event_v2_direct (p : pending_syscall) (ret_value duration : Z)
    : prog unit :=
  exit_capture_emit
    ((PAYLOAD_TLV_HEADER_SIZE + WAITID_DIRECT_SIGINFO_SIZE) +
     (PAYLOAD_TLV_HEADER_SIZE + WAITID_DIRECT_RUSAGE_SIZE)) p ret_value duration
    (capture_if (0 <=? ret_value)
       (both (capture_waitid_struct_tlv_direct 2 (arg2 (p_args p)) WAITID_DIRECT_SIGINFO_SIZE)
             (capture_waitid_struct_tlv_direct 4 (arg4 (p_args p)) WAITID_DIRECT_RUSAGE_SIZE))).

(** ** Signal masks and actions *)

Definition is_signal_direct_syscall (sys_id : Z) : bool :=
  one_of sys_id [SYS_RT_SIGACTION; SYS_RT_SIGPROCMASK; SYS_RT_SIGSUSPEND; SYS_SIGNALFD; SYS_SIGNALFD4].
Definition is_signal_exit_payload_direct_syscall (sys_id : Z) : bool :=
  one_of sys_id [SYS_RT_SIGACTION; SYS_RT_SIGPROCMASK].
Definition signal_direct_enter_arg_index (sys_id : Z) : Z :=
  if one_of sys_id [SYS_RT_SIGSUSPEND] then 0 else 1.
Definition signal_direct_struct_size (sys_id : Z) : Z :=
  if one_of sys_id [SYS_RT_SIGACTION] then SIGNAL_DIRECT_SIGACTION_SIZE
  else SIGNAL_DIRECT_SIGSET_SIZE.

Definition capture_signal_struct_tlv_direct (arg_index user_ptr struct_size tlv_flags : Z)
    (ptr : dynptr) (payload_offset : Z) : prog Z :=
  let slot := if struct_size =? SIGNAL_DIRECT_SIGACTION_SIZE then SIGNAL_DIRECT_SIGACTION_SIZE
              else SIGNAL_DIRECT_SIGSET_SIZE in
  capture_struct_section slot slot struct_size arg_index tlv_flags user_ptr ptr payload_offset.

Definition emit_signal_enter_event_v2_direct (pid tid sys_id : Z)
    (ctx : trace_event_raw_sys_enter) (ts_ns probe_ret_enter : Z) : prog unit :=
  let args := args_u64 (enter_args ctx) in
  let user_ptr := if one_of sys_id [SYS_RT_SIGSUSPEND] then arg0 args else arg1 args in
  enter_capture_emit (PAYLOAD_TLV_HEADER_SIZE + SIGNAL_DIRECT_SIGACTION_SIZE) pid tid sys_id ctx
    ts_ns probe_ret_enter
    (capture_signal_struct_tlv_direct (signal_direct_enter_arg_index sys_id) user_ptr
       (signal_direct_struct_size sys_id) 0).

Definition emit_signal_sigsuspend_marker_event_v2_direct (pid tid sys_id : Z)
    (ctx : trace_event_raw_sys_enter) (ts_ns : Z) : prog unit :=
  emit_signal_enter_event_v2_direct pid tid sys_id ctx ts_ns 3.

Definition should_emit_signal_sigsuspend_marker (tid pid : Z) : prog bool :=
  let* task := bpf_get_current_task in
  let* nr_threads := if task =? 0 then ret 0 else bpf_core_read task_signal_nr_threads task in
  ret ((1 <? u32 nr_threads) && (tid =? pid)).

Definition emit_signal_exit_event_v2_direct (p : pending_syscall) (ret_value duration : Z)
    : prog unit :=
  exit_capture_emit (PAYLOAD_TLV_HEADER_SIZE + SIGNAL_DIRECT_SIGACTION_SIZE) p ret_value duration
    (capture_if ((0 <=? ret_value) && is_signal_exit_payload_direct_syscall (p_sys_id p))
       (capture_signal_struct_tlv_direct 2 (arg2 (p_args p))
          (signal_direct_struct_size (p_sys_id p)) PAYLOAD_TLV_FLAG_DIRECTION_OUT)).

(** ** Single words *)

Definition is_arch_prctl_get_direct_option (option : Z) : bool :=
  (option =? 0x1003) || (option =? 0x1004) || (option =? 0x1011) ||
  (option =? 0x1021) || (option =? 0x1022) || (option =? 0x1024).
Definition is_small_struct_exit_direct_syscall (sys_id : Z) : bool :=
  one_of sys_id [SYS_SENDFILE; SYS_ARCH_PRCTL; SYS_GET_ROBUST_LIST].

Definition capture_small_struct_word_tlv_direct (arg_index user_ptr tlv_flags : Z) (ptr : dynptr)
    (payload_offset : Z) : prog Z :=
  capture_struct_section SMALL_STRUCT_DIRECT_WORD_SIZE SMALL_STRUCT_DIRECT_WORD_SIZE
    SMALL_STRUCT_DIRECT_WORD_SIZE arg_index tlv_flags user_ptr ptr payload_offset.

Definition emit_small_struct_enter_word_event_v2_direct (pid tid sys_id : Z)
    (ctx : trace_event_raw_sys_enter) (ts_ns : Z) : prog unit :=
  enter_capture_emit SMALL_STRUCT_DIRECT_MAX_PAYLOAD pid tid sys_id ctx ts_ns (-1)
    (capture_small_struct_word_tlv_direct 2 (arg2 (args_u64 (enter_args ctx))) 0).

Definition emit_copy_file_range_enter_event_v2_direct (pid tid sys_id : Z)
    (ctx : trace_event_raw_sys_enter) (ts_ns : Z) : prog unit :=
  enter_capture_emit SMALL_STRUCT_DIRECT_MAX_PAYLOAD pid tid sys_id ctx ts_ns (-1)
    (both (capture_small_struct_word_tlv_direct 1 (arg1 (args_u64 (enter_args ctx))) 0)
          (capture_small_struct_word_tlv_direct 3 (arg3 (args_u64 (enter_args ctx))) 0)).

Definition emit_small_struct_enter_event_v2_direct (pid tid sys_id : Z)
    (ctx : trace_event_raw_sys_enter) (ts_ns : Z) : prog unit :=
  if one_of sys_id [SYS_COPY_FILE_RANGE]
  then emit_copy_file_range_enter_event_v2_direct pid tid sys_id ctx ts_ns
  else emit_small_struct_enter_word_event_v2_direct pid tid sys_id ctx ts_ns.

Definition capture_small_struct_exit (p : pending_syscall) : dynptr -> Z -> prog Z :=
  let word i := capture_small_struct_word_tlv_direct i (arg (p_args p) i)
                  PAYLOAD_TLV_FLAG_DIRECTION_OUT in
  if one_of (p_sys_id p) [SYS_GET_ROBUST_LIST] then both (word 1) (word 2)
  else if one_of (p_sys_id p) [SYS_SENDFILE] then word 2
  else capture_if (one_of (p_sys_id p) [SYS_ARCH_PRCTL] &&
                   is_arch_prctl_get_direct_option (arg0 (p_args p))) (word 1).

Definition emit_small_struct_exit_event_v2_direct (p : pending_syscall) (ret_value duration : Z)
    : prog unit :=
  exit_capture_emit SMALL_STRUCT_DIRECT_MAX_PAYLOAD p ret_value duration
    (capture_small_struct_exit p).
End Structs.

(** ** What the captures leave in the record *)

Section StructLemmas.
Context {K : Kernel} {A : Arch}.

(** A structure section: [size] bytes that start with [read] bytes of the user's
    structure, or nothing and the error of the probe. *)
Record struct_section (dir : PayloadDirection) (arg_index user_ptr read size : Z)
    (s : PayloadSection) : Prop := StructSection {
  st_kind : Kind s = PayloadKindStruct;
  st_dir : Direction s = dir;
  st_arg : ArgIndex s = u16 arg_index;
  st_ptr : UserPtr s = u64 user_ptr;
  st_len : UserLen s = size;
  st_data : (ProbeRet s = 0 /\ CopiedLen s = size /\ zlen (Data s) = size /\
               exists k, slice (Data s) 0 read = user_bytes k user_ptr read) \/
            (Data s = [] /\ CopiedLen s = 0 /\ exists e, read_failed user_ptr e /\ ProbeRet s = s32 e) }.

(** A section unless the pointer is null. *)
Definition unless_null (user_ptr : Z) (P : PayloadSection -> Prop) (secs : list PayloadSection)
    : Prop := if user_ptr =? 0 then secs = [] else one_section P secs.

Lemma wp_copy_user_struct d off size w0 w buf slot read n user_ptr (Q : Z * Z -> world -> Prop) :
  capturing d off size w0 w buf -> 0 <= off -> 0 <= read <= slot ->
  off + PAYLOAD_TLV_HEADER_SIZE + slot <= size ->
  (forall w' b k, capturing d off size w0 w' b ->
     slice b (off + PAYLOAD_TLV_HEADER_SIZE) read = user_bytes k user_ptr read -> Q (n, 0) w') ->
  (forall w' b e, capturing d off size w0 w' b -> read_failed user_ptr e -> Q (0, e) w') ->
  wp (copy_user_struct (Some d) (off + PAYLOAD_TLV_HEADER_SIZE) slot read n user_ptr) Q w.
Proof.
  intros C Ho Hr Hs H1 H2. unfold copy_user_struct. wp_step.
  pose proof (cg_size _ _ _ _ _ _ C) as Hz.
  eapply wp_dynptr_data; [exact C | lia | |].
  - intros w1 C1. wp_step. eapply wp_read_user_into; [exact C1 | lia | lia | lia |].
    intros w2 err bytes Hl He C2.
    destruct (Z.ltb_spec err 0); wp_steps; [eapply H2; [exact C2 | solve_failed]|].
    destruct He as [[-> ->]|[? _]]; [|lia]. eapply H1; [exact C2|]. apply slice_put_same; lia.
  - intros w1 NF C1. wp_step. eapply wp_copy_fail; [exact C1 | exact NF |].
    intros _ w2 C2. wp_steps. eapply H2; [exact C2 | solve_failed].
Qed.

(** The end of a structure capture: the bytes read, or none and an error. *)
Lemma wp_finish_struct slot read n arg_index tlv_flags user_ptr d off w w1 (buf b : list Z) copied e :
  0 <= read <= n -> n <= slot < 2 ^ 31 -> In tlv_flags [0; PAYLOAD_TLV_FLAG_DIRECTION_OUT] ->
  0 <= off -> off + (PAYLOAD_TLV_HEADER_SIZE + slot) <= zlen buf -> capturing d off (zlen buf) w w1 b ->
  (copied = n /\ e = 0 /\ exists k,
     slice b (off + PAYLOAD_TLV_HEADER_SIZE) read = user_bytes k user_ptr read) \/
  (copied = 0 /\ read_failed user_ptr e) ->
  wp (finish_section (Some d) off
       (TlvHeader PAYLOAD_TLV_KIND_STRUCT arg_index tlv_flags n copied e user_ptr))
    (fun n' w' => 0 <= n' <= PAYLOAD_TLV_HEADER_SIZE + slot /\ captures d off w w' /\
       (True -> decodable (one_section
          (struct_section (payloadDirectionFromTLV tlv_flags) arg_index user_ptr read n)) d off n' w')) w1.
Proof.
  intros Hr Hn Ht Ho Hs C1 Hc. set (P := struct_section _ _ _ _ _).
  assert (u16 tlv_flags = tlv_flags) as Hu by (cbn in Ht; by destruct Ht as [<-|[<-|[]]]).
  pose proof (cg_size _ _ _ _ _ _ C1) as Hz. destruct Hc as [(-> & -> & k & Hk)|[-> He]].
  - eapply wp_finish_section with (P := P) (kind := PayloadKindStruct) (cap := 32 + slot);
      [exact C1 | lia | cbn; lia | lia | cbn; lia | done | | by intros].
    cbn [t_copied_len]. split; cbn; try done; [by rewrite Hu | rewrite u32_small; lia |].
    left. rewrite u32_small, zlen_slice by lia. split_and!; try done. exists k.
    rewrite slice_slice by lia. by rewrite Z.add_0_r.
  - eapply wp_fail_section with (P := P) (cap := 32 + slot);
      [exact C1 | lia | lia | lia | done | done | | by intros].
    split; cbn; try done; [by rewrite Hu | rewrite u32_small; lia |]. right. split_and!; try done. by exists e.
Qed.

Lemma capture_struct_copy_ok slot read n arg_index tlv_flags user_ptr :
  0 <= read <= n -> n <= slot < 2 ^ 31 -> In tlv_flags [0; PAYLOAD_TLV_FLAG_DIRECTION_OUT] ->
  tlv_capture True (one_section
      (struct_section (payloadDirectionFromTLV tlv_flags) arg_index user_ptr read n))
    (PAYLOAD_TLV_HEADER_SIZE + slot) (capture_struct_copy slot read n arg_index tlv_flags user_ptr).
Proof.
  intros Hr Hn Ht w d buf off Hb Ho Hs. unfold capture_struct_copy. wp_step.
  eapply wp_copy_user_struct; [exact (capturing_start d off w buf Hb) | lia | lia | lia | |]; intros w1 b.
  - intros k C1 Hk. cbv beta iota. eapply wp_finish_struct; try done. left. by split_and!; [..|exists k].
  - intros e C1 He. cbv beta iota. eapply wp_finish_struct; try done. by right.
Qed.

Lemma capture_struct_section_ok slot read n arg_index tlv_flags user_ptr :
  0 <= read <= n -> n <= slot < 2 ^ 31 -> In tlv_flags [0; PAYLOAD_TLV_FLAG_DIRECTION_OUT] ->
  tlv_capture True (unless_null user_ptr
      (struct_section (payloadDirectionFromTLV tlv_flags) arg_index user_ptr read n))
    (PAYLOAD_TLV_HEADER_SIZE + slot)
    (capture_struct_section slot read n arg_index tlv_flags user_ptr).
Proof.
  intros Hr Hn Ht w d buf off Hb Ho Hs. unfold capture_struct_section, unless_null.
  destruct (Z.eqb_spec user_ptr 0); wp_steps; [|by eapply capture_struct_copy_ok].
  split_and!; [lia | lia | reflexivity |]. intros _. eapply decodable_0; [by apply capturing_start | done].
Qed.

Lemma capture_required_struct_ok n arg_index tlv_flags user_ptr :
  0 <= n < 2 ^ 31 -> In tlv_flags [0; PAYLOAD_TLV_FLAG_DIRECTION_OUT] ->
  tlv_capture True (one_section
      (struct_section (payloadDirectionFromTLV tlv_flags) arg_index user_ptr n n))
    (PAYLOAD_TLV_HEADER_SIZE + n) (capture_required_struct n arg_index tlv_flags user_ptr).
Proof.
  intros Hn Ht w d buf off Hb Ho Hs. unfold capture_required_struct. wp_step.
  pose proof (capturing_start d off w buf Hb) as C0.
  assert (forall w1 b e, capturing d off (zlen buf) w w1 b -> read_failed user_ptr e ->
    wp (finish_section (Some d) off
         (TlvHeader PAYLOAD_TLV_KIND_STRUCT arg_index tlv_flags n 0 e user_ptr))
      (fun n' w' => 0 <= n' <= 32 + n /\ captures d off w w' /\ (True -> decodable (one_section
          (struct_section (payloadDirectionFromTLV tlv_flags) arg_index user_ptr n n)) d off n' w')) w1) as Fail.
  { intros w1 b e C1 He. eapply wp_finish_struct; try done; try lia. by right. }
  destruct (Z.eqb_spec user_ptr 0); [wp_step; eapply Fail; [exact C0 | solve_failed]|].
  eapply wp_copy_user_struct; [exact C0 | lia | lia | lia | |]; intros w1 b.
  - intros k C1 Hk. cbv beta iota. eapply wp_finish_struct; try done; try lia. left. by split_and!; [..|exists k].
  - intros e C1 He. cbv beta iota. by eapply Fail.
Qed.

(** ** Events with such payloads *)

Lemma both_ok guard P1 P2 cap1 cap2 f g :
  tlv_capture guard P1 cap1 f -> tlv_capture guard P2 cap2 g -> 0 <= cap2 ->
  tlv_capture guard (appended P1 P2) (cap1 + cap2) (both f g).
Proof. apply tlv_capture_seq. Qed.

Lemma capture_if_ok guard (b : bool) P cap f :
  0 <= cap -> tlv_capture guard P cap f ->
  tlv_capture guard (if b then P else fun secs => secs = []) cap (capture_if b f).
Proof. intros Hc Hf. destruct b; [exact Hf|]. by apply tlv_capture_none. Qed.

Lemma enter_ctx_body_ok ctx pre cap :
  body_ok EVENT_V2_ENTER_BODY_LEN cap (built_enter (args_u64 (enter_args ctx)) 0 pre (-1))
    (enter_ctx_body ctx pre).
Proof. by apply ret_body_ok. Qed.

(** The entry event, as the consumer reads it. *)
Definition reads_capture_enter (r : exec_ctx) (pid tid sys_id : Z) (ctx : trace_event_raw_sys_enter)
    (ts pre : Z) (P : list PayloadSection -> Prop) : Z -> list Z -> Prop :=
  reads_enter r pid tid sys_id ts (args_u64 (enter_args ctx)) 0 pre (-1)
    (decodes True (eq EVENT_FLAG_GENERIC_ENTER) (fun _ => P)).

Lemma enter_capture_ok cap pid tid sys_id ctx ts pre P f :
  0 <= cap < 2 ^ 31 -> tlv_capture True P cap f ->
  emitter (fun r => reads_capture_enter r pid tid sys_id ctx ts pre P)
    (enter_capture_emit cap pid tid sys_id ctx ts pre f).
Proof.
  intros Hc Hf. apply enter_emit_ok; [lia | | apply enter_ctx_body_ok |].
  - apply tlv_payload_ok; [lia | exact Hf].
  - intros flags pl (fl & <- & -> & _). apply tlv_flag_not_compact. cbn. auto.
Qed.

(** The exit event, as the consumer reads it. *)
Definition reads_capture_exit (r : exec_ctx) (p : pending_syscall) (rv dur : Z)
    (P : list PayloadSection -> Prop) : Z -> list Z -> Prop :=
  reads_pending_exit r p rv dur (decodes True (eq 0) (fun _ => P)).

Lemma exit_capture_ok cap p rv dur P f :
  0 <= cap < 2 ^ 31 -> tlv_capture True P cap f ->
  emitter (fun r => reads_capture_exit r p rv dur P) (exit_capture_emit cap p rv dur f).
Proof. intros Hc Hf. apply pending_exit_ok; [lia|]. by apply tlv_payload_ok. Qed.

(** *** Clocks and timers *)

(** One structure argument. *)
Definition time_section (dir : PayloadDirection) (arg_index user_ptr size : Z)
    : list PayloadSection -> Prop :=
  unless_null user_ptr (struct_section dir arg_index user_ptr size size).
Definition out_section (p : pending_syscall) (arg_index size : Z) : list PayloadSection -> Prop :=
  time_section PayloadDirectionOut arg_index (arg (p_args p) arg_index) size.
Definition when (b : bool) (P : list PayloadSection -> Prop) : list PayloadSection -> Prop :=
  if b then P else fun secs => secs = [].

Lemma capture_time_from_ptr_ok arg_index user_ptr n tlv_flags :
  In n [8; 16; 32; 208] -> In tlv_flags [0; PAYLOAD_TLV_FLAG_DIRECTION_OUT] ->
  tlv_capture True (time_section (payloadDirectionFromTLV tlv_flags) arg_index user_ptr n)
    (PAYLOAD_TLV_HEADER_SIZE + n)
    (capture_time_struct_tlv_direct_from_ptr arg_index user_ptr n tlv_flags).
Proof.
  intros Hn Ht. unfold capture_time_struct_tlv_direct_from_ptr, time_section.
  cbn in Hn. destruct Hn as [<-|[<-|[<-|[<-|[]]]]];
    cbn [Z.eqb]; apply capture_struct_section_ok; cbn; lia || done.
Qed.

Lemma capture_time_ok p arg_index n :
  In n [8; 16; 32; 208] -> arg_index < 6 ->
  tlv_capture True (out_section p arg_index n) (PAYLOAD_TLV_HEADER_SIZE + n)
    (capture_time_struct_tlv_direct p arg_index n).
Proof.
  intros Hn Ha. unfold capture_time_struct_tlv_direct.
  destruct (Z.leb_spec 6 arg_index); [lia|]. apply capture_time_from_ptr_ok; cbn; auto.
Qed.

(** Applies the lemma of the capture at hand and discharges its side conditions. *)
Ltac time_ok :=
  lazymatch goal with
  | |- tlv_capture _ _ _ (capture_time_struct_tlv_direct ?p ?i ?n) =>
      apply (capture_time_ok p i n)
  | |- tlv_capture _ _ _ (capture_time_struct_tlv_direct_from_ptr ?i ?u ?n ?f) =>
      apply (capture_time_from_ptr_ok i u n f)
  end; cbn [In]; auto; lia.

Lemma emit_time_exit_ok p rv dur :
  emitter (fun r => reads_capture_exit r p rv dur (when (0 <=? rv) (out_section p 0 8)))
    (emit_time_exit_event_v2_direct p rv dur).
Proof. apply exit_capture_ok; [lia|]. apply capture_if_ok; [lia | time_ok]. Qed.

Lemma emit_time_struct_exit_ok p rv dur :
  emitter (fun r => reads_capture_exit r p rv dur (when (0 <=? rv) (out_section p 1 16)))
    (emit_time_struct_exit_event_v2_direct p rv dur).
Proof. apply exit_capture_ok; [lia|]. apply capture_if_ok; [lia | time_ok]. Qed.

Lemma emit_itimer_exit_ok p rv dur :
  emitter (fun r => reads_capture_exit r p rv dur
      (when (0 <=? rv) (out_section p (if one_of (p_sys_id p) [SYS_SETITIMER] then 2 else 1) 32)))
    (emit_itimer_exit_event_v2_direct p rv dur).
Proof.
  apply exit_capture_ok; [lia|]. apply capture_if_ok; [lia|]. destruct (one_of _ _); time_ok.
Qed.

Lemma emit_gettimeofday_exit_ok p rv dur :
  emitter (fun r => reads_capture_exit r p rv dur
      (when (0 <=? rv) (appended (out_section p 0 16) (out_section p 1 8))))
    (emit_gettimeofday_exit_event_v2_direct p rv dur).
Proof.
  apply exit_capture_ok; [lia|]. apply capture_if_ok; [lia|]. apply both_ok; [time_ok | time_ok | lia].
Qed.

Lemma emit_timex_exit_ok p rv dur :
  emitter (fun r => reads_capture_exit r p rv dur
      (when (0 <=? rv) (out_section p (timex_payload_arg_index (p_sys_id p)) 208)))
    (emit_timex_exit_event_v2_direct p rv dur).
Proof.
  apply exit_capture_ok; [lia|]. apply capture_if_ok; [lia|].
  unfold timex_payload_arg_index. destruct (one_of _ _); time_ok.
Qed.

Lemma emit_sleep_exit_ok p rv dur :
  emitter (fun r => reads_capture_exit r p rv dur (when (is_sleep_interrupted_ret rv)
      (time_section PayloadDirectionOut (sleep_remaining_arg_index (p_sys_id p))
         (sleep_remaining_user_ptr p) 16)))
    (emit_sleep_exit_event_v2_direct p rv dur).
Proof. apply exit_capture_ok; [lia|]. apply capture_if_ok; [lia | time_ok]. Qed.

Lemma emit_time_struct_enter_ok pid tid sys_id ctx ts :
  let args := args_u64 (enter_args ctx) in
  emitter (fun r => reads_capture_enter r pid tid sys_id ctx ts (-1)
      (if one_of sys_id [SYS_SETTIMEOFDAY]
       then appended (time_section PayloadDirectionIn 0 (arg0 args) 16)
                     (time_section PayloadDirectionIn 1 (arg1 args) 8)
       else time_section PayloadDirectionIn 1 (arg1 args) 16))
    (emit_time_struct_enter_event_v2_direct pid tid sys_id ctx ts).
Proof.
  intros args. unfold emit_time_struct_enter_event_v2_direct.
  destruct (one_of sys_id [SYS_SETTIMEOFDAY]); apply enter_capture_ok; try lia; [|time_ok].
  apply both_ok; [time_ok | time_ok | lia].
Qed.

Lemma emit_itimer_enter_ok pid tid sys_id ctx ts :
  emitter (fun r => reads_capture_enter r pid tid sys_id ctx ts (-1)
      (time_section PayloadDirectionIn 1 (arg1 (args_u64 (enter_args ctx))) 32))
    (emit_itimer_enter_event_v2_direct pid tid sys_id ctx ts).
Proof. apply enter_capture_ok; [lia | time_ok]. Qed.

Lemma emit_sleep_enter_ok pid tid sys_id ctx ts idx user_ptr pre :
  emitter (fun r => reads_capture_enter r pid tid sys_id ctx ts pre
      (time_section PayloadDirectionIn idx user_ptr 16))
    (emit_sleep_enter_event_v2_direct pid tid sys_id ctx ts idx user_ptr pre).
Proof. apply enter_capture_ok; [lia | time_ok]. Qed.

(** *** The other structures *)

Lemma stat_read_size sys_id : stat_direct_read_size sys_id = stat_direct_struct_size sys_id.
Proof.
  unfold stat_direct_read_size, stat_direct_struct_size.
  destruct (one_of sys_id [SYS_STATX]) eqn:E; [|done].
  by rewrite (one_of_disjoint _ _ [SYS_STATFS; SYS_FSTATFS] E).
Qed.

Lemma stat_size_range sys_id : 0 <= stat_direct_struct_size sys_id <= 256.
Proof.
  unfold stat_direct_struct_size, NATIVE_STAT_SIZE.
  destruct (one_of sys_id [SYS_STATFS; SYS_FSTATFS]), (one_of sys_id [SYS_STATX]), target_arch; lia.
Qed.

Lemma emit_stat_struct_exit_ok p rv dur :
  emitter (fun r => reads_capture_exit r p rv dur (when (0 <=? rv)
      (time_section PayloadDirectionOut (stat_direct_struct_arg_index (p_sys_id p))
         (stat_direct_struct_user_ptr p) (stat_direct_struct_size (p_sys_id p)))))
    (emit_stat_struct_exit_event_v2_direct p rv dur).
Proof.
  apply exit_capture_ok; [lia|]. apply capture_if_ok; [lia|].
  unfold capture_stat_struct_tlv_direct. rewrite stat_read_size.
  pose proof (stat_size_range (p_sys_id p)).
  by apply (capture_struct_section_ok 256 _ _ _ PAYLOAD_TLV_FLAG_DIRECTION_OUT); [lia | lia | right; left].
Qed.

Lemma emit_waitid_exit_ok p rv dur :
  emitter (fun r => reads_capture_exit r p rv dur (when (0 <=? rv)
      (appended (out_section p 2 128) (out_section p 4 144))))
    (emit_waitid_exit_event_v2_direct p rv dur).
Proof.
  apply exit_capture_ok; [lia|]. apply capture_if_ok; [lia|].
  apply both_ok; [ | | lia];
    by apply (capture_struct_section_ok _ _ _ _ PAYLOAD_TLV_FLAG_DIRECTION_OUT); [..|right; left].
Qed.

Lemma capture_signal_ok arg_index user_ptr sys_id tlv_flags :
  In tlv_flags [0; PAYLOAD_TLV_FLAG_DIRECTION_OUT] ->
  tlv_capture True (time_section (payloadDirectionFromTLV tlv_flags) arg_index user_ptr
      (signal_direct_struct_size sys_id))
    (PAYLOAD_TLV_HEADER_SIZE + SIGNAL_DIRECT_SIGACTION_SIZE)
    (capture_signal_struct_tlv_direct arg_index user_ptr (signal_direct_struct_size sys_id) tlv_flags).
Proof.
  intros Ht. unfold capture_signal_struct_tlv_direct, signal_direct_struct_size.
  destruct (one_of sys_id [SYS_RT_SIGACTION]).
  - by apply (capture_struct_section_ok 32 32 32).
  - apply (tlv_capture_weaken True True (time_section (payloadDirectionFromTLV tlv_flags)
      arg_index user_ptr 8) _ (32 + 8)); [done | done | lia |].
    by apply (capture_struct_section_ok 8 8 8).
Qed.

Lemma emit_signal_enter_ok pid tid sys_id ctx ts pre :
  let args := args_u64 (enter_args ctx) in
  emitter (fun r => reads_capture_enter r pid tid sys_id ctx ts pre
      (time_section PayloadDirectionIn (signal_direct_enter_arg_index sys_id)
         (if one_of sys_id [SYS_RT_SIGSUSPEND] then arg0 args else arg1 args)
         (signal_direct_struct_size sys_id)))
    (emit_signal_enter_event_v2_direct pid tid sys_id ctx ts pre).
Proof. apply enter_capture_ok; [lia|]. apply (capture_signal_ok _ _ _ 0). cbn. auto. Qed.

Lemma emit_signal_exit_ok p rv dur :
  emitter (fun r => reads_capture_exit r p rv dur
      (when ((0 <=? rv) && is_signal_exit_payload_direct_syscall (p_sys_id p))
         (out_section p 2 (signal_direct_struct_size (p_sys_id p)))))
    (emit_signal_exit_event_v2_direct p rv dur).
Proof.
  apply exit_capture_ok; [lia|]. apply capture_if_ok; [lia|].
  apply (capture_signal_ok _ _ _ PAYLOAD_TLV_FLAG_DIRECTION_OUT). cbn. auto.
Qed.

Lemma capture_word_ok arg_index user_ptr tlv_flags :
  In tlv_flags [0; PAYLOAD_TLV_FLAG_DIRECTION_OUT] ->
  tlv_capture True (time_section (payloadDirectionFromTLV tlv_flags) arg_index user_ptr 8)
    (PAYLOAD_TLV_HEADER_SIZE + SMALL_STRUCT_DIRECT_WORD_SIZE)
    (capture_small_struct_word_tlv_direct arg_index user_ptr tlv_flags).
Proof. intros Ht. by apply (capture_struct_section_ok 8 8 8). Qed.

(** One word in a record with room for two. *)
Lemma capture_one_word_ok arg_index user_ptr tlv_flags :
  In tlv_flags [0; PAYLOAD_TLV_FLAG_DIRECTION_OUT] ->
  tlv_capture True (time_section (payloadDirectionFromTLV tlv_flags) arg_index user_ptr 8)
    SMALL_STRUCT_DIRECT_MAX_PAYLOAD
    (capture_small_struct_word_tlv_direct arg_index user_ptr tlv_flags).
Proof.
  intros Ht. eapply tlv_capture_weaken; [| | |by apply capture_word_ok]; try done; lia.
Qed.

Lemma emit_small_struct_enter_ok pid tid sys_id ctx ts :
  let args := args_u64 (enter_args ctx) in
  emitter (fun r => reads_capture_enter r pid tid sys_id ctx ts (-1)
      (if one_of sys_id [SYS_COPY_FILE_RANGE]
       then appended (time_section PayloadDirectionIn 1 (arg1 args) 8)
                     (time_section PayloadDirectionIn 3 (arg3 args) 8)
       else time_section PayloadDirectionIn 2 (arg2 args) 8))
    (emit_small_struct_enter_event_v2_direct pid tid sys_id ctx ts).
Proof.
  intros args. unfold emit_small_struct_enter_event_v2_direct.
  destruct (one_of sys_id [SYS_COPY_FILE_RANGE]); apply enter_capture_ok; try lia.
  - apply (both_ok True _ _ (32 + 8) (32 + 8)); [| | lia]; apply (capture_word_ok _ _ 0); cbn; auto.
  - apply (capture_one_word_ok _ _ 0). cbn. auto.
Qed.

(** The words [small_struct] syscalls return. *)
Definition small_struct_sections (p : pending_syscall) : list PayloadSection -> Prop :=
  if one_of (p_sys_id p) [SYS_GET_ROBUST_LIST] then appended (out_section p 1 8) (out_section p 2 8)
  else if one_of (p_sys_id p) [SYS_SENDFILE] then out_section p 2 8
  else when (one_of (p_sys_id p) [SYS_ARCH_PRCTL] && is_arch_prctl_get_direct_option (arg0 (p_args p)))
         (out_section p 1 8).

Lemma emit_small_struct_exit_ok p rv dur :
  emitter (fun r => reads_capture_exit r p rv dur (small_struct_sections p))
    (emit_small_struct_exit_event_v2_direct p rv dur).
Proof.
  apply exit_capture_ok; [lia|]. unfold capture_small_struct_exit, small_struct_sections.
  assert (In PAYLOAD_TLV_FLAG_DIRECTION_OUT [0; PAYLOAD_TLV_FLAG_DIRECTION_OUT]) as Ht by (cbn; auto).
  destruct (one_of (p_sys_id p) [SYS_GET_ROBUST_LIST]).
  { apply (both_ok True _ _ (32 + 8) (32 + 8)); [| | lia]; by apply capture_word_ok. }
  destruct (one_of (p_sys_id p) [SYS_SENDFILE]); [by apply capture_one_word_ok|].
  apply capture_if_ok; [lia|]. by apply capture_one_word_ok.
Qed.

Lemma nanosleep_marker_quiet tid pid : keeps quiet (should_emit_nanosleep_suspended_marker tid pid).
Proof. unfold should_emit_nanosleep_suspended_marker, bpf_get_current_task. keeps_solve. Qed.
Lemma sigsuspend_marker_quiet tid pid : keeps quiet (should_emit_signal_sigsuspend_marker tid pid).
Proof. unfold should_emit_signal_sigsuspend_marker, bpf_get_current_task. keeps_solve. Qed.
End StructLemmas.

(** Every emitter is accounted: the [emitters] database holds what each one submits. *)
Create HintDb emitters discriminated.
#[export] Hint Constants Opaque : emitters.
#[export] Hint Variables Opaque : emitters.
#[export] Hint Resolve emit_time_exit_ok emit_time_struct_exit_ok emit_itimer_exit_ok
  emit_gettimeofday_exit_ok emit_timex_exit_ok emit_sleep_exit_ok emit_time_struct_enter_ok
  emit_itimer_enter_ok emit_sleep_enter_ok emit_stat_struct_exit_ok emit_waitid_exit_ok
  emit_signal_enter_ok emit_signal_exit_ok emit_small_struct_enter_ok
  emit_small_struct_exit_ok : emitters.
#[export] Hint Extern 4 (keeps emits _) =>
  (eapply emitter_keeps; solve [eauto 2 with emitters nocore]) : keeps.
#[export] Hint Resolve nanosleep_marker_quiet sigsuspend_marker_quiet : keeps.

Section StructsAccounted.
Context {K : Kernel} {A : Arch}.

Lemma emit_sigsuspend_marker_emits pid tid sys_id ctx ts :
  keeps emits (emit_signal_sigsuspend_marker_event_v2_direct pid tid sys_id ctx ts).
Proof. unfold emit_signal_sigsuspend_marker_event_v2_direct. eauto with keeps. Qed.
End StructsAccounted.

#[export] Hint Resolve emit_sigsuspend_marker_emits : keeps.
