(* ===== verification/FdPath.v ===== *)
(** Paths of file descriptors.

    Models [bpf/syscall_fd_path_direct_event_v2.h],
    [bpf/syscall_fd_path_walk_direct_event_v2.h],
    [bpf/syscall_fd_path_capture_direct_event_v2.h] and
    [bpf/syscall_fd_path_emit_direct_event_v2.h]: the walk from a dentry to the
    root of the mount tree through the per-CPU scratch area, and the events
    that carry the result. *)
From stdpp Require Import base list gmap numbers.
From S2P Require Import Prelude Syscalls Abi Kernel Consumer Stats Tlv Emit Decoder EventCore Payload Structs.

Abbreviation FD_PATH_DIRECT_MAX := 512 (only parsing).
Abbreviation FD_PATH_DIRECT_MAX_ARGS := 2 (only parsing).
Abbreviation FD_PATH_AT_FDCWD := (-100) (only parsing).
Abbreviation FD_PATH_STATE_PREFIX_SIZE := 48 (only parsing).
Abbreviation FD_PATH_DENTRY_MAX := 8 (only parsing).
Abbreviation FD_PATH_PROBE_PATH_FAILED := (-36) (only parsing).
Abbreviation FD_PATH_DIRECT_SECTION_MAX :=
  (PAYLOAD_TLV_HEADER_SIZE + FD_PATH_STATE_PREFIX_SIZE + FD_PATH_DIRECT_MAX) (only parsing).
Abbreviation SLASH := 47 (only parsing).

Section FdPath.
Context {K : Kernel} {A : Arch}.

(** ** Which arguments are descriptors *)

Definition fd_path_arg_mask (sys_id : Z) : Z :=
  if one_of sys_id [SYS_READ; SYS_WRITE; SYS_PREAD64; SYS_PWRITE64; SYS_READV; SYS_WRITEV;
       SYS_PREADV; SYS_PWRITEV; SYS_PREADV2; SYS_PWRITEV2; SYS_CLOSE; SYS_FSTAT; SYS_FCHDIR;
       SYS_FSTATFS; SYS_FCNTL; SYS_EPOLL_WAIT; SYS_EPOLL_PWAIT; SYS_EPOLL_PWAIT2; SYS_CACHESTAT;
       SYS_OPEN_TREE; SYS_FSPICK] then Z.shiftl 1 0
  else if one_of sys_id [SYS_DUP2; SYS_DUP3] then Z.lor (Z.shiftl 1 0) (Z.shiftl 1 1)
  else if one_of sys_id [SYS_EPOLL_CTL] then Z.lor (Z.shiftl 1 0) (Z.shiftl 1 2)
  else if one_of sys_id [SYS_OPENAT; SYS_OPENAT2; SYS_FCHOWNAT; SYS_FUTIMESAT; SYS_NEWFSTATAT;
       SYS_UNLINKAT; SYS_RENAMEAT; SYS_LINKAT; SYS_SYMLINKAT; SYS_READLINKAT; SYS_FCHMODAT;
       SYS_FACCESSAT; SYS_MKDIRAT; SYS_FACCESSAT2] then Z.shiftl 1 0
  else if one_of sys_id [SYS_DUP] then Z.shiftl 1 0
  else 0.

Definition fd_path_arg_count (sys_id : Z) : Z :=
  let mask := fd_path_arg_mask sys_id in
  let count := Z.of_nat (length (filter (fun i => has_flag mask (Z.shiftl 1 i) = true)
                                   [0; 1; 2; 3; 4; 5])) in
  if FD_PATH_DIRECT_MAX_ARGS <? count then FD_PATH_DIRECT_MAX_ARGS else count.

Definition fd_path_payload_capacity (sys_id : Z) : Z :=
  fd_path_arg_count sys_id * FD_PATH_DIRECT_SECTION_MAX.

(** ** The walk *)

(** Accesses through the pointer [lookup_fd_path_scratch] returned. *)
Definition update_scratch (f : fd_path_scratch -> fd_path_scratch) : prog unit :=
  modify (fun w => match scratch w !! cur_cpu (running w) with
                   | Some s => set_scratch (<[cur_cpu (running w) := f s]> (scratch w)) w
                   | None => w
                   end).
Definition scratch_set_name (name : list Z) (s : fd_path_scratch) : fd_path_scratch :=
  FdPathScratch name (sc_components s) (sc_args s) (sc_nested_fdset s) (sc_nested_fd0 s) (sc_nested_fd1 s)
    (sc_nested_fd2 s) (sc_nested_fd3 s) (sc_nested_fd_count s).
Definition scratch_set_component (index dentry : Z) (s : fd_path_scratch) : fd_path_scratch :=
  FdPathScratch (sc_name s) (<[Z.to_nat index := u64 dentry]> (sc_components s)) (sc_args s)
    (sc_nested_fdset s) (sc_nested_fd0 s) (sc_nested_fd1 s) (sc_nested_fd2 s) (sc_nested_fd3 s) (sc_nested_fd_count s).

(** Result and new length. *)
Definition append_dentry_name_direct (ptr : dynptr) (data_offset path_len dentry : Z)
    : prog (Z * Z) :=
  let* (err, name, len) := bpf_core_read_pair dentry_d_name_name dentry_d_name_len dentry in
  if (err <? 0) || (name =? 0) then ret (FD_PATH_PROBE_PATH_FAILED, path_len)
  else
    let name_len := u32 len in
    if (name_len =? 0) || (255 <? name_len) || (255 <? path_len)
    then ret (FD_PATH_PROBE_PATH_FAILED, path_len)
    else
      let* r := bpf_dynptr_write ptr (data_offset + path_len) [SLASH] in
      if r <? 0 then record_ringbuf_copy_fail ;;; ret (FD_PATH_PROBE_PATH_FAILED, path_len)
      else
        let path_len := path_len + 1 in
        let* (err, bytes) := bpf_probe_read_kernel name_len name in
        update_scratch (scratch_set_name bytes) ;;;
        if err <? 0 then ret (FD_PATH_PROBE_PATH_FAILED, path_len)
        else
          let* r := bpf_dynptr_write ptr (data_offset + path_len) bytes in
          if r <? 0 then record_ringbuf_copy_fail ;;; ret (FD_PATH_PROBE_PATH_FAILED, path_len)
          else ret (0, path_len + name_len).

Definition store_dentry_component (index dentry : Z) : prog unit :=
  if (0 <=? index) && (index <? FD_PATH_DENTRY_MAX)
  then update_scratch (scratch_set_component index dentry) else ret tt.

Definition load_dentry_component (index : Z) : prog Z :=
  if (0 <=? index) && (index <? FD_PATH_DENTRY_MAX) then
    gets (fun w => match scratch w !! cur_cpu (running w) with
                   | Some s => nth (Z.to_nat index) (sc_components s) 0
                   | None => 0
                   end)
  else ret 0.

Definition fd_path_mount_from_vfsmount_direct (mnt : Z) : Z :=
  if mnt =? 0 then 0 else u64 (mnt - k_mount_mnt_offset).
Definition fd_path_vfsmount_from_mount_direct (mount : Z) : Z :=
  if mount =? 0 then 0 else u64 (mount + k_mount_mnt_offset).

(** [ptr ? BPF_CORE_READ(ptr, f) : 0]. *)
Definition core_read_or_null (f : kfield) (ptr : Z) : prog Z :=
  if ptr =? 0 then ret 0 else bpf_core_read f ptr.

(** One step towards the root: dentry, mount, mount root, components, root reached. *)
Definition walk_step (i : Z) (acc : Z * Z * Z * Z * bool)
    : prog (Z * Z * Z * Z * bool + Z * Z * Z * Z * bool) :=
  let '(dentry, mnt, root, count, reached) := acc in
  if dentry =? 0 then ret (inl acc)
  else if dentry =? root then
    let mount := fd_path_mount_from_vfsmount_direct mnt in
    let* parent_mount := core_read_or_null mount_mnt_parent mount in
    if (parent_mount =? 0) || (parent_mount =? mount)
    then ret (inl (dentry, mnt, root, count, true))
    else
      let* dentry := core_read_or_null mount_mnt_mountpoint mount in
      let mnt := fd_path_vfsmount_from_mount_direct parent_mount in
      let* root := core_read_or_null vfsmount_mnt_root mnt in
      ret (inr (dentry, mnt, root, count, reached))
  else if FD_PATH_DENTRY_MAX <=? count then ret (inl acc)
  else
    store_dentry_component count dentry ;;;
    let count := count + 1 in
    let* parent := bpf_core_read dentry_d_parent dentry in
    if (parent =? 0) || (parent =? dentry) then ret (inl (dentry, mnt, root, count, reached))
    else ret (inr (parent, mnt, root, count, reached)).

(** The length of the path so far, or [None] after a failure. *)
Definition append_step (ptr : dynptr) (data_offset count : Z) (i : Z) (acc : option Z)
    : prog (option Z + option Z) :=
  match acc with
  | None => ret (inl None)
  | Some path_len =>
      if count <=? i then ret (inl acc)
      else
        let* component := load_dentry_component (count - i - 1) in
        let* (r, path_len) := append_dentry_name_direct ptr data_offset path_len component in
        if r <? 0 then ret (inl None) else ret (inr (Some path_len))
  end.

Definition read_dentry_path_direct (ptr : dynptr) (data_offset dentry mnt : Z) : prog Z :=
  let* scratch := lookup_fd_path_scratch in
  match scratch with
  | None => ret FD_PATH_PROBE_PATH_FAILED
  | Some _ =>
      let* root := core_read_or_null vfsmount_mnt_root mnt in
      let* (_, _, _, component_count, reached_root) :=
        for_loop 8 0 walk_step (dentry, mnt, root, 0, false) in
      if negb reached_root then ret FD_PATH_PROBE_PATH_FAILED
      else
        let* path := for_loop 8 0 (append_step ptr data_offset component_count) (Some 0) in
        match path with
        | None => ret FD_PATH_PROBE_PATH_FAILED
        | Some path_len =>
            let* path :=
              if path_len =? 0 then
                let* r := bpf_dynptr_write ptr data_offset [SLASH] in
                if r <? 0 then record_ringbuf_copy_fail ;;; ret None else ret (Some 1)
              else ret (Some path_len) in
            match path with
            | None => ret FD_PATH_PROBE_PATH_FAILED
            | Some path_len =>
                let* r := bpf_dynptr_write ptr (data_offset + path_len) [0] in
                if r <? 0 then record_ringbuf_copy_fail ;;; ret FD_PATH_PROBE_PATH_FAILED
                else ret (path_len + 1)
            end
        end
  end.

(** ** Captures *)

(** A section without data; its header is written on a best effort. *)
Definition failed_fd_path (ptr : dynptr) (payload_offset arg_index probe_ret : Z) : prog Z :=
  let* _ := payload_tlv_write_header_direct ptr payload_offset
    (TlvHeader PAYLOAD_TLV_KIND_FD_PATH arg_index 0 0 0 probe_ret 0) in
  ret PAYLOAD_TLV_HEADER_SIZE.

(** [path_ret <= 0 || path_ret >= FD_PATH_DIRECT_MAX]. *)
Definition bad_path_ret (path_ret : Z) : bool :=
  (path_ret <=? 0) || (FD_PATH_DIRECT_MAX <=? path_ret).

Definition capture_fd_cwd_path_tlv_direct (ptr : dynptr) (payload_offset : Z) : prog Z :=
  let data_offset := payload_offset + PAYLOAD_TLV_HEADER_SIZE in
  let* task := bpf_get_current_task in
  let* fs := core_read_or_null task_fs task in
  let* (read_ret, dentry, mnt) :=
    if fs =? 0 then ret (-1, 0, 0) else bpf_core_read_pair fs_pwd_dentry fs_pwd_mnt fs in
  if read_ret <? 0 then
    failed_fd_path ptr payload_offset PAYLOAD_TLV_FD_PATH_CWD_ARG_INDEX read_ret
  else
    let* path_ret := read_dentry_path_direct ptr data_offset dentry mnt in
    if bad_path_ret path_ret then
      failed_fd_path ptr payload_offset PAYLOAD_TLV_FD_PATH_CWD_ARG_INDEX path_ret
    else
      finish_section ptr payload_offset
        (TlvHeader PAYLOAD_TLV_KIND_FD_PATH PAYLOAD_TLV_FD_PATH_CWD_ARG_INDEX 0 path_ret path_ret 0 0).

Definition capture_fd_path_tlv_direct (arg_index fd : Z) (ptr : dynptr) (payload_offset : Z)
    : prog Z :=
  if fd =? FD_PATH_AT_FDCWD then capture_fd_cwd_path_tlv_direct ptr payload_offset
  else
    let* file := lookup_current_fd_file fd in
    if file =? 0 then failed_fd_path ptr payload_offset arg_index FD_STATE_PROBE_READ_FAILED
    else
      let* (r, state) := read_fd_state_snapshot_from_file file fd in
      let* state_len :=
        if r =? 0 then
          let* w := bpf_dynptr_write ptr (payload_offset + PAYLOAD_TLV_HEADER_SIZE)
                      (struct_bytes (fd_state_snapshot_fields state)) in
          if w =? 0 then ret FD_PATH_STATE_PREFIX_SIZE
          else record_ringbuf_copy_fail ;;; ret 0
        else ret 0 in
      let data_offset := payload_offset + PAYLOAD_TLV_HEADER_SIZE + state_len in
      let* (read_ret, dentry, mnt) := bpf_core_read_pair file_f_path_dentry file_f_path_mnt file in
      if read_ret <? 0 then failed_fd_path ptr payload_offset arg_index FD_PATH_PROBE_PATH_FAILED
      else
        let* path_ret := read_dentry_path_direct ptr data_offset dentry mnt in
        if bad_path_ret path_ret then failed_fd_path ptr payload_offset arg_index path_ret
        else
          finish_section ptr payload_offset
            (TlvHeader PAYLOAD_TLV_KIND_FD_PATH arg_index 0 path_ret (state_len + path_ret) 0 0).

Definition fd_paths_step (sys_id : Z) (args : args6) (ptr : dynptr) (payload_offset : Z)
    (arg_index payload_size : Z) : prog (Z + Z) :=
  if negb (has_flag (fd_path_arg_mask sys_id) (Z.shiftl 1 arg_index)) then ret (inr payload_size)
  else
    let* n := capture_fd_path_tlv_direct arg_index (s32 (arg args arg_index)) ptr
                (payload_offset + payload_size) in
    let payload_size := payload_size + n in
    if FD_PATH_DIRECT_MAX_ARGS * FD_PATH_DIRECT_SECTION_MAX <=? payload_size
    then ret (inl payload_size) else ret (inr payload_size).

Definition capture_fd_paths_tlv_direct (sys_id : Z) (args : args6) (ptr : dynptr)
    (payload_offset : Z) : prog Z :=
  for_loop 6 0 (fd_paths_step sys_id args ptr payload_offset) 0.

(** ** Events *)

Definition emit_fd_path_enter_event_v2_direct (pid tid sys_id : Z)
    (ctx : trace_event_raw_sys_enter) (ts_ns : Z) : prog unit :=
  let* scratch := lookup_fd_path_scratch in
  match scratch with
  | None => ret tt
  | Some s =>
      let args := copy_syscall_enter_args ctx in
      put_fd_path_scratch (scratch_set_args s args) ;;;
      enter_emit (fd_path_payload_capacity sys_id) pid tid sys_id ts_ns
        (fun ptr => let* n := capture_fd_paths_tlv_direct sys_id args ptr enter_payload_offset in
                    ret (tlv_flag EVENT_FLAG_GENERIC_ENTER n, n))
        (enter_body args 0 (-1))
  end.

Definition emit_fd_path_or_no_payload_enter_event_v2_direct (pid tid : Z)
    (ctx : trace_event_raw_sys_enter) (cfg : option Z) (ts_ns : Z) : prog unit :=
  let sys_id := u32 (enter_id ctx) in
  match cfg with
  | None => ret tt
  | Some c =>
      if negb (has_flag c CONFIG_EMIT_ENTER) then ret tt
      else if has_flag c CONFIG_FD_STATE && (0 <? fd_path_arg_count sys_id)
      then emit_fd_path_enter_event_v2_direct pid tid sys_id ctx ts_ns
      else emit_syscall_enter_event_v2_direct pid tid sys_id ctx EVENT_FLAG_GENERIC_ENTER ts_ns
  end.
End FdPath.

Section FdPathLemmas.
Context {K : Kernel} {A : Arch}.

Lemma core_read_or_null_quiet f p : keeps quiet (core_read_or_null f p).
Proof. unfold core_read_or_null. keeps_solve. Qed.
Hint Resolve core_read_or_null_quiet : keeps.

(** The scratch area is private to the capture. *)
Lemma wp_update_scratch d off size w0 w buf f (Q : unit -> world -> Prop) :
  capturing d off size w0 w buf ->
  (forall w', capturing d off size w0 w' buf -> Q tt w') -> wp (update_scratch f) Q w.
Proof.
  intros [C B S] H. unfold update_scratch. wp_steps. apply H.
  destruct (scratch w !! _); [|done]. split; [|done|done]. etrans; [exact C|].
  split_and!; [done | |].
  - intros b E. exists b. split_and!; [symmetry; by apply insert_id | done | done].
  - exists 0, 0. split_and!; try lia. apply moved_same; try done. cbn. by rewrite app_nil_r.
Qed.

Lemma wp_store_component d off size w0 w buf i x (Q : unit -> world -> Prop) :
  capturing d off size w0 w buf ->
  (forall w', capturing d off size w0 w' buf -> Q tt w') -> wp (store_dentry_component i x) Q w.
Proof.
  intros C H. unfold store_dentry_component. destruct (_ && _); [eapply wp_update_scratch; eauto|].
  wp_steps. by apply H.
Qed.

Lemma load_component_quiet i : keeps quiet (load_dentry_component i).
Proof. unfold load_dentry_component. keeps_solve. Qed.
Hint Resolve load_component_quiet : keeps.

(** *** The text of a path *)

(** The components, each behind a slash. *)
Definition joined (names : list (list Z)) : list Z := concat (map (cons SLASH) names).
Definition component (name : list Z) : Prop := 1 <= zlen name <= 255.

Lemma joined_snoc names name : joined (names ++ [name]) = joined names ++ SLASH :: name.
Proof. unfold joined. rewrite map_app, concat_app. cbn. by rewrite app_nil_r. Qed.

(** The terminated text: [/] alone for the root. *)
Definition path_text (names : list (list Z)) : list Z :=
  match names with [] => [SLASH] | _ => joined names end ++ [0].

(** [at_off b o l]: the bytes of [b] at [o] are [l]. *)
Definition at_off (b : list Z) (o : Z) (l : list Z) : Prop := slice b o (zlen l) = l.

Lemma at_off_snoc b o l l' :
  0 <= o -> at_off b o l -> o + zlen l + zlen l' <= zlen b ->
  at_off (put b (o + zlen l) l') o (l ++ l').
Proof.
  intros Ho H Hb. unfold at_off. pose proof (zlen_nonneg l). pose proof (zlen_nonneg l').
  rewrite zlen_app, slice_app by lia. f_equal.
  - rewrite slice_put_before by lia. exact H.
  - apply slice_put_same; lia.
Qed.

(** Appending one component keeps the text and stays below 512 bytes. *)
Lemma wp_append_dentry d off size w0 w buf o names dentry (Q : Z * Z -> world -> Prop) :
  capturing d off size w0 w buf -> 0 <= off <= o -> o + FD_PATH_DIRECT_MAX <= size ->
  at_off buf o (joined names) ->
  (forall w' b name, capturing d off size w0 w' b -> component name ->
     zlen (joined (names ++ [name])) < FD_PATH_DIRECT_MAX ->
     at_off b o (joined (names ++ [name])) -> Q (0, zlen (joined (names ++ [name]))) w') ->
  (forall w' b n, capturing d off size w0 w' b -> Q (FD_PATH_PROBE_PATH_FAILED, n) w') ->
  wp (append_dentry_name_direct (Some d) o (zlen (joined names)) dentry) Q w.
Proof.
  intros C Ho Hs Ht H1 H2. unfold append_dentry_name_direct. wp_step.
  pose proof (zlen_nonneg (joined names)) as Hn.
  eapply wp_quiet; [exact C | eauto with keeps |]. intros [[err name] len] w1 C1.
  destruct (_ || _); wp_steps; [by eapply H2|].
  pose proof (u32_range len) as Hlen.
  destruct (Z.eqb_spec (u32 len) 0), (Z.ltb_spec 255 (u32 len)), (Z.ltb_spec 255 (zlen (joined names)));
    cbn [orb]; wp_steps; try (by eapply H2).
  pose proof (cg_size _ _ _ _ _ _ C1) as Hz.
  assert (zlen [SLASH] = 1) as L1 by done.
  eapply wp_dynptr_write; [exact C1 | lia | lia | |]; cbn [Z.ltb Z.compare].
  2: { intros w2 NF C2. wp_step. eapply wp_copy_fail; [exact C2 | exact NF |].
       intros _ w3 C3. wp_steps. by eapply H2. }
  intros w2 C2. wp_steps.
  pose proof (at_off_snoc buf o (joined names) [SLASH] ltac:(lia) Ht ltac:(lia)) as T1.
  pose proof (bpf_probe_read_kernel_quiet (u32 len) name w2) as Q3.
  assert (zlen (snd (fst (bpf_probe_read_kernel (u32 len) name w2))) = u32 len) as Lb.
  { unfold bpf_probe_read_kernel, bind, tick, ret, kernel_bytes, zlen. cbn.
    destruct (_ <? 0); cbn; rewrite ?length_replicate, ?length_map, ?length_seq; lia. }
  unfold wp. destruct (bpf_probe_read_kernel (u32 len) name w2) as [[err' bytes] w3]. cbn [fst snd] in *.
  pose proof (capturing_quiet _ _ _ _ _ _ _ C2 Q3) as C3.
  match goal with |- Q (fst (?m w3)) (snd (?m w3)) => change (wp m Q w3) end. wp_step.
  eapply wp_update_scratch; [exact C3|]. intros w4 C4.
  destruct (err' <? 0); wp_steps; [by eapply H2|].
  assert (zlen (joined names ++ [SLASH]) = zlen (joined names) + 1) as L2 by (by rewrite zlen_app).
  rewrite <- L2. eapply wp_dynptr_write; [exact C4 | lia | lia | |]; cbn [Z.ltb Z.compare].
  2: { intros w5 NF C5. wp_step. eapply wp_copy_fail; [exact C5 | exact NF |].
       intros _ w6 C6. wp_steps. by eapply H2. }
  intros w5 C5. wp_steps.
  assert (joined (names ++ [bytes]) = (joined names ++ [SLASH]) ++ bytes) as E
    by (by rewrite joined_snoc, <- app_assoc).
  assert (zlen (joined (names ++ [bytes])) = zlen (joined names ++ [SLASH]) + u32 len) as L3
    by (rewrite E, zlen_app; lia).
  rewrite <- L3. eapply H1; [exact C5 | unfold component; lia | lia |].
  rewrite E. apply at_off_snoc; [lia | done |]. rewrite zlen_put; lia.
Qed.

Lemma wp_walk d off size w0 w buf acc (Q : Z * Z * Z * Z * bool -> world -> Prop) :
  capturing d off size w0 w buf ->
  (forall r w', capturing d off size w0 w' buf -> Q r w') ->
  wp (for_loop 8 0 walk_step acc) Q w.
Proof.
  intros C H. eapply (wp_for_loop (fun _ _ w' => capturing d off size w0 w' buf) _ _ _ 8);
    [lia | | by intros; apply H | exact C].
  clear C. intros j [[[[dentry mnt] root] count] reached] w1 _ C1. unfold walk_step.
  destruct (dentry =? 0); wp_steps; [by apply H|]. destruct (dentry =? root); wp_steps.
  - eapply wp_quiet; [exact C1 | eauto with keeps |]. intros parent w2 C2.
    destruct (_ || _); wp_steps; [by apply H|].
    eapply wp_quiet; [exact C2 | eauto with keeps |]. intros dentry' w3 C3. wp_steps.
    eapply wp_quiet; [exact C3 | eauto with keeps |]. intros root' w4 C4. by wp_steps.
  - destruct (_ <=? _); wp_steps; [by apply H|].
    eapply wp_store_component; [exact C1|]. intros w2 C2. wp_steps.
    eapply wp_quiet; [exact C2 | eauto with keeps |]. intros parent w3 C3.
    destruct (_ || _); wp_steps; [by apply H | done].
Qed.

(** The text of the components appended so far. *)
Definition text_so_far (d : nat) (off size o : Z) (w0 : world) (acc : option Z) (w : world) : Prop :=
  exists b, capturing d off size w0 w b /\
  match acc with
  | None => True
  | Some n => exists names, n = zlen (joined names) /\ n < FD_PATH_DIRECT_MAX /\
                Forall component names /\ at_off b o (joined names)
  end.

Lemma wp_append_loop d off size w0 w buf o count (Q : option Z -> world -> Prop) :
  capturing d off size w0 w buf -> 0 <= off <= o -> o + FD_PATH_DIRECT_MAX <= size ->
  (forall acc w', text_so_far d off size o w0 acc w' -> Q acc w') ->
  wp (for_loop 8 0 (append_step (Some d) o count) (Some 0)) Q w.
Proof.
  intros C Ho Hs H. eapply (wp_for_loop (fun _ => text_so_far d off size o w0) _ _ _ 8);
    [lia | | by intros; apply H |].
  2: { exists buf. split; [done|]. exists []. by split_and!; [|lia|constructor|]. }
  intros j acc w1 _ (b & C1 & I1). unfold append_step.
  destruct acc as [n|]; wp_steps; [|by apply H; exists b].
  destruct (count <=? j); wp_steps; [by apply H; exists b|].
  destruct I1 as (names & -> & Hn & Hc & Ht).
  eapply wp_quiet; [exact C1 | eauto with keeps |]. intros dentry w2 C2. wp_step.
  eapply wp_append_dentry; [exact C2 | lia | lia | exact Ht | |]; cbn [Z.ltb Z.compare].
  - intros w3 b3 name C3 Hname Hl Ht3. wp_steps. exists b3. split; [done|].
    exists (names ++ [name]). split_and!; [done | done | | done]. by apply Forall_app_2; [|constructor].
  - intros w3 b3 m C3. wp_steps. apply H. by exists b3.
Qed.

Lemma path_text_length names :
  zlen (joined names) < FD_PATH_DIRECT_MAX -> 2 <= zlen (path_text names) <= FD_PATH_DIRECT_MAX.
Proof.
  intros H. unfold path_text. rewrite zlen_app. change (zlen [0]) with 1.
  destruct names as [|name names]; [unfold zlen; cbn; lia|]. unfold joined in *. cbn in *.
  unfold zlen in *. cbn in *. rewrite length_app in *. lia.
Qed.

Lemma joined_zero names : zlen (joined names) = 0 -> names = [].
Proof. destruct names; [done|]. unfold joined, zlen. cbn. lia. Qed.

(** The walk writes at most 512 bytes; what it returns is the length of the
    terminated text of the components. *)
Lemma wp_read_dentry_path d off size w0 w buf o dentry mnt (Q : Z -> world -> Prop) :
  capturing d off size w0 w buf -> 0 <= off <= o -> o + FD_PATH_DIRECT_MAX <= size ->
  (forall w' b names, capturing d off size w0 w' b -> Forall component names ->
     zlen (path_text names) <= FD_PATH_DIRECT_MAX -> at_off b o (path_text names) ->
     Q (zlen (path_text names)) w') ->
  (forall w' b, capturing d off size w0 w' b -> Q FD_PATH_PROBE_PATH_FAILED w') ->
  wp (read_dentry_path_direct (Some d) o dentry mnt) Q w.
Proof.
  intros C Ho Hs H1 H2. unfold read_dentry_path_direct, lookup_fd_path_scratch. wp_steps.
  destruct (scratch w !! _); wp_steps; [|by eapply H2].
  eapply wp_quiet; [exact C | eauto with keeps |]. intros root w1 C1. wp_step.
  eapply wp_walk; [exact C1|]. intros [[[[? ?] ?] count] reached] w2 C2.
  destruct reached; cbn [negb]; wp_steps; [|by eapply H2].
  eapply wp_append_loop; [exact C2 | lia | lia |]. intros acc w3 (b3 & C3 & I3).
  destruct acc as [n|]; wp_steps; [|by eapply H2]. destruct I3 as (names & -> & Hn & Hc & Ht).
  pose proof (cg_size _ _ _ _ _ _ C3) as Hz.
  assert (forall w4 b4 text, capturing d off size w0 w4 b4 -> at_off b4 o text ->
    text ++ [0] = path_text names -> zlen text < 512 ->
    wp (let* r := bpf_dynptr_write (Some d) (o + zlen text) [0] in
        if r <? 0 then record_ringbuf_copy_fail ;;; ret FD_PATH_PROBE_PATH_FAILED
        else ret (zlen text + 1)) Q w4) as Finish.
  { intros w4 b4 text C4 T4 E4 L4. wp_step. pose proof (zlen_nonneg text).
    assert (zlen [0] = 1) as L0 by done. pose proof (cg_size _ _ _ _ _ _ C4).
    assert (zlen (path_text names) = zlen text + 1) as Lt by (by rewrite <- E4, zlen_app).
    eapply wp_dynptr_write; [exact C4 | lia | lia | |]; cbn [Z.ltb Z.compare].
    - intros w5 C5. wp_steps. rewrite <- Lt. eapply H1; [exact C5 | done | lia |].
      rewrite <- E4. apply at_off_snoc; [lia | done | lia].
    - intros w5 NF C5. wp_step. eapply wp_copy_fail; [exact C5 | exact NF |].
      intros _ w6 C6. wp_steps. by eapply H2. }
  destruct (Z.eqb_spec (zlen (joined names)) 0) as [E0|E0]; wp_step.
  - assert (zlen [SLASH] = 1) as L1 by done. apply joined_zero in E0 as ->.
    eapply wp_dynptr_write; [exact C3 | lia | lia | |]; cbn [Z.ltb Z.compare].
    + intros w4 C4. wp_step. eapply (Finish _ _ [SLASH]); [exact C4 | | done | lia].
      unfold at_off. apply slice_put_same; lia.
    + intros w4 NF C4. wp_step. eapply wp_copy_fail; [exact C4 | exact NF |].
      intros _ w5 C5. wp_steps. by eapply H2.
  - eapply Finish; [exact C3 | exact Ht | | exact Hn].
    unfold path_text. by destruct names.
Qed.

(** *** Captures *)

(** The section of a descriptor: the snapshot of the descriptor if it could be
    read, and the terminated path; or nothing and an error. *)
Record fd_path_section (arg_index : Z) (prefix_ok : list Z -> Prop) (s : PayloadSection) : Prop :=
  FdPathSection {
    fp_kind : Kind s = PayloadKindFDPath;
    fp_dir : Direction s = PayloadDirectionIn;
    fp_arg : ArgIndex s = u16 arg_index;
    fp_data :
      (ProbeRet s = 0 /\ CopiedLen s = zlen (Data s) /\ exists prefix names,
         (prefix = [] \/ prefix_ok prefix) /\ Forall component names /\
         Data s = prefix ++ path_text names /\ UserLen s = zlen (path_text names)) \/
      (Data s = [] /\ CopiedLen s = 0 /\ exists e, (e < 0 \/ e = FD_PATH_DIRECT_MAX) /\ ProbeRet s = s32 e) }.

Definition fd_path_sections (fd arg_index : Z) : list PayloadSection -> Prop :=
  if fd =? FD_PATH_AT_FDCWD
  then one_section (fd_path_section PAYLOAD_TLV_FD_PATH_CWD_ARG_INDEX (fun _ => False))
  else one_section (fd_path_section arg_index (fun pre => exists s, fs_fd s = fd /\
         pre = struct_bytes (fd_state_snapshot_fields s))).

(** What a capture promises: the contract of [tlv_capture], without faults. *)
Definition promises (d : nat) (off cap : Z) (w0 : world) (P : list PayloadSection -> Prop)
    (n : Z) (w : world) : Prop :=
  0 <= n <= cap /\ captures d off w0 w /\ (no_fault -> decodable P d off n w).

Lemma wp_failed_fd_path d off w0 w buf arg_index ok e :
  capturing d off (zlen buf) w0 w buf -> 0 <= off -> off + FD_PATH_DIRECT_SECTION_MAX <= zlen buf ->
  e < 0 \/ e = FD_PATH_DIRECT_MAX ->
  wp (failed_fd_path (Some d) off arg_index e)
    (promises d off FD_PATH_DIRECT_SECTION_MAX w0 (one_section (fd_path_section arg_index ok))) w.
Proof.
  intros C Ho Hs He. unfold failed_fd_path. wp_step.
  set (t := TlvHeader _ _ _ _ _ _ _). pose proof (payload_tlv_header_size t) as Ht.
  eapply wp_write_header; [exact C | lia | lia | |]; intros w1.
  - intros C1. wp_steps. split_and!; [lia | lia | apply C1 |]. intros _.
    eexists _, [_]. split_and!; [apply C1 | |].
    + erewrite section_decodes; [done | apply slice_put_same; lia | done | lia | done | cbn; lia |].
      rewrite zlen_put; lia.
    + left. eexists. split; [done|]. split; try done. right. cbn. split_and!; try done. by exists e.
  - intros NF C1. wp_steps. split_and!; [lia | lia | apply C1 | done].
Qed.

(** The tail both captures share: walk, then close the section. *)
Lemma wp_path_tail d off w0 w buf arg_index (ok : list Z -> Prop) prefix dentry mnt :
  capturing d off (zlen buf) w0 w buf -> 0 <= off -> off + FD_PATH_DIRECT_SECTION_MAX <= zlen buf ->
  prefix = [] \/ ok prefix -> zlen prefix <= FD_PATH_STATE_PREFIX_SIZE ->
  at_off buf (off + PAYLOAD_TLV_HEADER_SIZE) prefix ->
  wp (let* path_ret := read_dentry_path_direct (Some d)
        (off + PAYLOAD_TLV_HEADER_SIZE + zlen prefix) dentry mnt in
      if bad_path_ret path_ret then failed_fd_path (Some d) off arg_index path_ret
      else finish_section (Some d) off (TlvHeader PAYLOAD_TLV_KIND_FD_PATH arg_index 0 path_ret
             (zlen prefix + path_ret) 0 0))
    (promises d off FD_PATH_DIRECT_SECTION_MAX w0 (one_section (fd_path_section arg_index ok))) w.
Proof.
  intros C Ho Hs Hp Hl Ht. wp_step. pose proof (zlen_nonneg prefix).
  assert (capturing d (off + 32 + zlen prefix) (zlen buf) w w buf) as C'
    by (split; [reflexivity | apply C | done]).
  eapply wp_read_dentry_path; [exact C' | lia | lia | |].
  - intros w1 b names C1 Hc Hn T1.
    assert (capturing d off (zlen buf) w0 w1 b) as C2.
    { split; [|apply C1|apply C1]. etrans; [apply C|].
      eapply captures_mono; [|apply (cg_rel _ _ _ _ _ _ C1)]. lia. }
    pose proof (cg_size _ _ _ _ _ _ C2) as Hz.
    destruct (bad_path_ret (zlen (path_text names))) eqn:B.
    { rewrite <- Hz in *. eapply wp_failed_fd_path; [eassumption | lia | lia |].
      unfold bad_path_ret in B. apply orb_true_iff in B as [B%Z.leb_le|B%Z.leb_le]; [|lia].
      unfold path_text in B. rewrite zlen_app in B. change (zlen [0]) with 1 in B.
      pose proof (zlen_nonneg (match names with [] => [SLASH] | _ => joined names end)). lia. }
    unfold bad_path_ret in B. apply orb_false_iff in B as [B1%Z.leb_gt B2%Z.leb_gt].
    assert (slice b (off + 32) (zlen prefix + zlen (path_text names)) = prefix ++ path_text names) as E.
    { rewrite slice_app by lia. f_equal; [|exact T1].
      destruct (proj1 (proj2 (cg_rel _ _ _ _ _ _ C1)) _ (cg_buf _ _ _ _ _ _ C')) as (b' & E1 & _ & P1).
      assert (b' = b) as ->.
      { pose proof (cg_buf _ _ _ _ _ _ C1) as B'. rewrite E1, lookup_insert_eq in B'. congruence. }
      transitivity (slice buf (off + 32) (zlen prefix)); [|exact Ht].
      eapply slice_of_prefix; [exact P1 | lia..]. }
    eapply wp_finish_section with (P := fd_path_section arg_index ok) (kind := PayloadKindFDPath)
      (cap := FD_PATH_DIRECT_SECTION_MAX);
      [exact C2 | lia | cbn; lia | lia | cbn; lia | done | |].
    + cbn [t_copied_len]. rewrite E. split; try done. left. cbn.
      rewrite !u32_small by lia. split_and!; [done | by rewrite zlen_app |]. by exists prefix, names.
    + intros n w2 Hn2 C3 D3. by split_and!; [lia | lia | | ].
  - intros w1 b C1.
    assert (capturing d off (zlen buf) w0 w1 b) as C2.
    { split; [|apply C1|apply C1]. etrans; [apply C|].
      eapply captures_mono; [|apply (cg_rel _ _ _ _ _ _ C1)]. lia. }
    pose proof (cg_size _ _ _ _ _ _ C2) as Hz. rewrite <- Hz in *.
    cbn [bad_path_ret]. eapply wp_failed_fd_path; [eassumption | lia | lia | by left].
Qed.

Lemma capture_fd_cwd_path_ok :
  tlv_capture no_fault
    (one_section (fd_path_section PAYLOAD_TLV_FD_PATH_CWD_ARG_INDEX (fun _ => False)))
    FD_PATH_DIRECT_SECTION_MAX capture_fd_cwd_path_tlv_direct.
Proof.
  intros w d buf off Hb Ho Hs. unfold capture_fd_cwd_path_tlv_direct, bpf_get_current_task. wp_steps.
  pose proof (capturing_start d off w buf Hb) as C0.
  eapply wp_quiet; [exact C0 | eauto with keeps |]. intros fs w1 C1. wp_step.
  assert (keeps quiet (if fs =? 0 then ret (-1, 0, 0) else bpf_core_read_pair fs_pwd_dentry fs_pwd_mnt fs))
    as Kq by keeps_solve.
  eapply wp_quiet; [exact C1 | exact Kq |]. intros [[r dentry] mnt] w2 C2.
  destruct (Z.ltb_spec r 0); [eapply wp_failed_fd_path; [eassumption | lia | lia | by left]|].
  pose proof (wp_path_tail d off w w2 buf PAYLOAD_TLV_FD_PATH_CWD_ARG_INDEX (fun _ => False) []
    dentry mnt C2 Ho Hs ltac:(by left) ltac:(done) ltac:(done)) as T.
  change (zlen []) with 0 in T. rewrite Z.add_0_r in T. exact T.
Qed.

Lemma capture_fd_path_ok arg_index fd :
  tlv_capture no_fault (fd_path_sections fd arg_index) FD_PATH_DIRECT_SECTION_MAX
    (capture_fd_path_tlv_direct arg_index fd).
Proof.
  unfold capture_fd_path_tlv_direct, fd_path_sections.
  destruct (fd =? FD_PATH_AT_FDCWD); [apply capture_fd_cwd_path_ok|].
  intros w d buf off Hb Ho Hs. wp_step. pose proof (capturing_start d off w buf Hb) as C0.
  eapply wp_quiet; [exact C0 | eauto with keeps |]. intros file w1 C1.
  destruct (file =? 0); [eapply wp_failed_fd_path; [eassumption | lia | lia | by left]|]. wp_step.
  pose proof (read_from_file_result file fd w1) as Hr.
  pose proof (read_snapshot_from_file_quiet file fd w1) as Q2.
  unfold wp in Hr. unfold wp at 1.
  destruct (read_fd_state_snapshot_from_file file fd w1) as [[r st] w2]. cbn [fst snd] in *.
  pose proof (capturing_quiet _ _ _ _ _ _ _ C1 Q2) as C2. wp_step.
  set (ok := fun pre => exists s, fs_fd s = fd /\ pre = struct_bytes (fd_state_snapshot_fields s)).
  assert (forall w3 b prefix, capturing d off (zlen buf) w w3 b -> prefix = [] \/ ok prefix ->
    zlen prefix <= 48 -> at_off b (off + 32) prefix ->
    wp (let* (read_ret, dentry, mnt) := bpf_core_read_pair file_f_path_dentry file_f_path_mnt file in
        if read_ret <? 0 then failed_fd_path (Some d) off arg_index FD_PATH_PROBE_PATH_FAILED
        else
          let* path_ret := read_dentry_path_direct (Some d) (off + 32 + zlen prefix) dentry mnt in
          if bad_path_ret path_ret then failed_fd_path (Some d) off arg_index path_ret
          else finish_section (Some d) off
            (TlvHeader PAYLOAD_TLV_KIND_FD_PATH arg_index 0 path_ret (zlen prefix + path_ret) 0 0))
      (promises d off FD_PATH_DIRECT_SECTION_MAX w (one_section (fd_path_section arg_index ok))) w3) as Tail.
  { intros w3 b prefix C3 Hp Hl Ht. wp_step. pose proof (cg_size _ _ _ _ _ _ C3) as Hz.
    rewrite <- Hz in C3, Hs.
    eapply wp_quiet; [exact C3 | eauto with keeps |]. intros [[rr dentry] mnt] w4 C4.
    destruct (Z.ltb_spec rr 0); [eapply wp_failed_fd_path; [eassumption | lia | lia | by left]|].
    by eapply wp_path_tail; [exact C4 | ..]. }
  pose proof (fd_state_snapshot_size st) as Ls.
  destruct (Z.eqb_spec r 0) as [->|]; wp_step.
  - eapply wp_dynptr_write; [exact C2 | lia | lia | |]; intros w3.
    + intros C3. cbn [Z.eqb]. wp_step. rewrite <- Ls.
      eapply (Tail _ _ _ C3); [right; eexists; split; [|done]; by apply Hr | lia |].
      unfold at_off. apply slice_put_same; lia.
    + intros NF C3. cbn [Z.eqb]. wp_step. eapply wp_copy_fail; [exact C3 | exact NF |].
      intros _ w4 C4. wp_step. by eapply (Tail _ _ [] C4); [left | |].
  - by eapply (Tail _ _ [] C2); [left | |].
Qed.

(** *** All descriptors of a syscall *)

Lemma fd_path_arg_mask_cases sys_id : In (fd_path_arg_mask sys_id) [0; 1; 3; 5].
Proof. unfold fd_path_arg_mask. repeat destruct (one_of _ _); cbn; auto. Qed.

(** One section per descriptor argument, in argument order. *)
Definition fd_paths_sections (mask : Z) (args : args6) : list PayloadSection -> Prop :=
  fold_left (fun P i => if has_flag mask (Z.shiftl 1 i)
                        then appended P (fd_path_sections (s32 (arg args i)) i) else P)
    [0; 1; 2; 3; 4; 5] (fun secs => secs = []).

Lemma wp_fd_paths_skip sys_id args ptr off i n (Q : Z + Z -> world -> Prop) w :
  has_flag (fd_path_arg_mask sys_id) (Z.shiftl 1 i) = false -> Q (inr n) w ->
  wp (fd_paths_step sys_id args ptr off i n) Q w.
Proof. intros E H. unfold fd_paths_step. rewrite E. cbn [negb]. by wp_steps. Qed.

Lemma wp_fd_paths_take sys_id args d off i n w0 w buf cap P (Q : Z + Z -> world -> Prop) :
  has_flag (fd_path_arg_mask sys_id) (Z.shiftl 1 i) = true ->
  reserved w0 !! d = Some buf -> 0 <= off -> off + (cap + FD_PATH_DIRECT_SECTION_MAX) <= zlen buf ->
  promises d off cap w0 P n w ->
  (forall m w', promises d off (cap + FD_PATH_DIRECT_SECTION_MAX) w0
      (appended P (fd_path_sections (s32 (arg args i)) i)) m w' ->
     Q (if FD_PATH_DIRECT_MAX_ARGS * FD_PATH_DIRECT_SECTION_MAX <=? m then inl m else inr m) w') ->
  wp (fd_paths_step sys_id args (Some d) off i n) Q w.
Proof.
  intros E Hb Ho Hs (Hn & C & D) H. unfold fd_paths_step. rewrite E. cbn [negb]. wp_step.
  destruct (proj1 (proj2 C) _ Hb) as (b1 & E1 & L1 & _).
  assert (reserved w !! d = Some b1) as Hb1 by (by rewrite E1, lookup_insert_eq).
  assert (zlen b1 = zlen buf) as Z1 by (unfold zlen; by rewrite L1).
  eapply wp_mono; [eapply capture_fd_path_ok; [exact Hb1 | lia | lia]|].
  intros m w' (Hm & C' & D'). cbv beta zeta.
  specialize (H (n + m) w'). destruct (_ <=? n + m); wp_steps; apply H;
    (split_and!; [lia | lia | etrans; [exact C | eapply captures_mono; [|exact C']; lia] |];
     intros G; eapply decodable_app; eauto; lia).
Qed.

Lemma fd_path_capacity_of_mask sys_id :
  fd_path_payload_capacity sys_id =
    match fd_path_arg_mask sys_id with
    | 0 => 0 | 1 => FD_PATH_DIRECT_SECTION_MAX | _ => 2 * FD_PATH_DIRECT_SECTION_MAX
    end.
Proof.
  unfold fd_path_payload_capacity, fd_path_arg_count.
  by destruct (fd_path_arg_mask_cases sys_id) as [<-|[<-|[<-|[<-|[]]]]].
Qed.

Lemma capture_fd_paths_ok sys_id args :
  tlv_capture no_fault (fd_paths_sections (fd_path_arg_mask sys_id) args)
    (fd_path_payload_capacity sys_id) (capture_fd_paths_tlv_direct sys_id args).
Proof.
  intros w d buf off Hb Ho Hs. rewrite fd_path_capacity_of_mask in Hs |- *.
  assert (promises d off 0 w (fun secs => secs = []) 0 w) as P0.
  { split_and!; [lia | lia | reflexivity |]. intros _. exists buf, []. by rewrite slice_0. }
  unfold capture_fd_paths_tlv_direct. cbn [for_loop].
  pose proof (fd_path_arg_mask_cases sys_id) as [M|[M|[M|[M|[]]]]];
    rewrite <- M in Hs |- *; symmetry in M; wp_step.
  - do 6 (apply wp_fd_paths_skip; [by rewrite M|]; wp_steps). exact P0.
  - eapply wp_fd_paths_take; [by rewrite M | exact Hb | lia | | exact P0 |]; [lia|].
    intros m w1 P1. destruct (Z.leb_spec (2 * (32 + 48 + 512)) m); wp_steps; [exact P1|].
    do 5 (apply wp_fd_paths_skip; [by rewrite M|]; wp_steps). exact P1.
  - eapply wp_fd_paths_take; [by rewrite M | exact Hb | lia | | exact P0 |]; [lia|].
    intros m w1 P1. destruct (Z.leb_spec (2 * (32 + 48 + 512)) m); [destruct P1; lia|]. wp_steps.
    eapply wp_fd_paths_take; [by rewrite M | exact Hb | lia | | exact P1 |]; [lia|].
    intros m' w2 P2. destruct (Z.leb_spec (2 * (32 + 48 + 512)) m'); wp_steps; [exact P2|].
    do 4 (apply wp_fd_paths_skip; [by rewrite M|]; wp_steps). exact P2.
  - eapply wp_fd_paths_take; [by rewrite M | exact Hb | lia | | exact P0 |]; [lia|].
    intros m w1 P1. destruct (Z.leb_spec (2 * (32 + 48 + 512)) m); [destruct P1; lia|]. wp_steps.
    apply wp_fd_paths_skip; [by rewrite M|]. wp_steps.
    eapply wp_fd_paths_take; [by rewrite M | exact Hb | lia | | exact P1 |]; [lia|].
    intros m' w2 P2. destruct (Z.leb_spec (2 * (32 + 48 + 512)) m'); wp_steps; [exact P2|].
    do 3 (apply wp_fd_paths_skip; [by rewrite M|]; wp_steps). exact P2.
Qed.

Lemma fd_path_capacity_range sys_id : 0 <= fd_path_payload_capacity sys_id <= 1184.
Proof.
  rewrite fd_path_capacity_of_mask.
  destruct (fd_path_arg_mask_cases sys_id) as [<-|[<-|[<-|[<-|[]]]]]; lia.
Qed.

Lemma fd_path_record_ok pid tid sys_id args ts :
  emitter (fun r => reads_enter r pid tid sys_id ts args 0 (-1) (-1)
      (decodes no_fault (eq EVENT_FLAG_GENERIC_ENTER)
         (fun _ => fd_paths_sections (fd_path_arg_mask sys_id) args)))
    (enter_emit (fd_path_payload_capacity sys_id) pid tid sys_id ts
       (fun ptr => let* n := capture_fd_paths_tlv_direct sys_id args ptr enter_payload_offset in
                   ret (tlv_flag EVENT_FLAG_GENERIC_ENTER n, n))
       (enter_body args 0 (-1))).
Proof.
  pose proof (fd_path_capacity_range sys_id).
  apply enter_emit_ok; [lia | | apply enter_body_ok |].
  - apply tlv_payload_ok; [lia | apply capture_fd_paths_ok].
  - intros flags pl (fl & <- & -> & _). apply tlv_flag_not_compact. cbn. auto.
Qed.
Hint Resolve fd_path_record_ok : emitters.

Lemma emit_fd_path_enter_emits pid tid sys_id ctx ts :
  keeps emits (emit_fd_path_enter_event_v2_direct pid tid sys_id ctx ts).
Proof. unfold emit_fd_path_enter_event_v2_direct, lookup_fd_path_scratch. keeps_solve. Qed.
Hint Resolve emit_fd_path_enter_emits : keeps.

Lemma emit_fd_path_or_no_payload_emits pid tid ctx cfg ts :
  keeps emits (emit_fd_path_or_no_payload_enter_event_v2_direct pid tid ctx cfg ts).
Proof. unfold emit_fd_path_or_no_payload_enter_event_v2_direct. keeps_solve. Qed.
End FdPathLemmas.

#[export] Hint Resolve core_read_or_null_quiet emit_fd_path_enter_emits
  emit_fd_path_or_no_payload_emits : keeps.
