(* ===== verification/Paths.v ===== *)
(** Path arguments and path results.

    Models [bpf/syscall_getcwd_direct_event_v2.h],
    [bpf/syscall_readlink_direct_event_v2.h] with its capture and emit halves,
    [bpf/syscall_path_stat_direct_event_v2.h],
    [bpf/syscall_path_direct_event_v2.h] with its capture and emit halves, and
    [bpf/syscall_openat2_direct_event_v2.h]. *)
From stdpp Require Import base list gmap numbers.
From S2P Require Import Prelude Syscalls Abi Kernel Consumer Stats Tlv Emit Decoder EventCore Payload Structs FdPath.

Abbreviation GETCWD_DIRECT_BYTES_MAX := 512 (only parsing).
Abbreviation READLINK_DIRECT_PATH_MAX := 512 (only parsing).
Abbreviation READLINK_DIRECT_BYTES_MAX := 512 (only parsing).
Abbreviation PATH_STAT_DIRECT_PATH_MAX := 512 (only parsing).
Abbreviation PATH_ONLY_DIRECT_PATH_MAX := 4096 (only parsing).
Abbreviation PATH_ONLY_DIRECT_FIRST_CHUNK := 2048 (only parsing).
Abbreviation PATH_ONLY_DIRECT_SECOND_CHUNK := 2049 (only parsing).
Abbreviation DUAL_PATH_DIRECT_PATH_MAX := 512 (only parsing).
Abbreviation OPENAT2_DIRECT_PATH_MAX := 4096 (only parsing).
Abbreviation OPENAT2_DIRECT_HOW_MIN := 24 (only parsing).
Abbreviation OPENAT2_DIRECT_HOW_MAX := 64 (only parsing).

Section Paths.
Context {K : Kernel} {A : Arch}.

(** ** Buffers the kernel filled *)

(** The [ret_value] bytes at [user_ptr], in a slot of [max] bytes; the body
    [capture_getcwd_bytes_tlv_direct] and [capture_readlink_bytes_tlv_direct] share. *)
Definition capture_out_bytes (max arg_index user_ptr ret_value event_flags : Z) (ptr : dynptr)
    (payload_offset : Z) : prog (Z * Z) :=
  if ret_value <=? 0 then ret (0, event_flags)
  else
    let user_len := payload_tlv_clamp_u32 (u64 ret_value) in
    let copied_len := payload_tlv_copy_len (u64 ret_value) max in
    let* (copied_len, probe_ret) :=
      if user_ptr =? 0 then ret (0, -1)
      else copy_user_struct ptr (payload_offset + PAYLOAD_TLV_HEADER_SIZE) max copied_len
             copied_len user_ptr in
    let* event_flags := note_truncation copied_len probe_ret user_len event_flags in
    let* size := finish_section ptr payload_offset
      (TlvHeader PAYLOAD_TLV_KIND_BYTES arg_index PAYLOAD_TLV_FLAG_DIRECTION_OUT user_len
         copied_len probe_ret user_ptr) in
    ret (size, event_flags).

(** An exit event whose capture may flag a truncation. *)
Definition exit_flags_emit (cap : Z) (p : pending_syscall) (ret_value duration : Z)
    (capture : dynptr -> Z -> prog (Z * Z)) : prog unit :=
  pending_exit_emit cap p ret_value duration
    (fun ptr => let* (n, flags) := capture ptr exit_payload_offset in ret (tlv_flag flags n, n)).

Definition is_getcwd_direct_syscall (sys_id : Z) : bool := one_of sys_id [SYS_GETCWD].

Definition capture_getcwd_bytes_tlv_direct (p : pending_syscall) (ret_value event_flags : Z)
    : dynptr -> Z -> prog (Z * Z) :=
  capture_out_bytes GETCWD_DIRECT_BYTES_MAX 0 (arg0 (p_args p)) ret_value event_flags.

Definition emit_getcwd_exit_event_v2_direct (p : pending_syscall) (ret_value duration : Z)
    : prog unit :=
  exit_flags_emit (PAYLOAD_TLV_HEADER_SIZE + GETCWD_DIRECT_BYTES_MAX) p ret_value duration
    (capture_getcwd_bytes_tlv_direct p ret_value 0).

Definition is_readlink_direct_syscall (sys_id : Z) : bool :=
  one_of sys_id [SYS_READLINK; SYS_READLINKAT].
Definition readlink_direct_buf_arg_index (sys_id : Z) : Z :=
  if one_of sys_id [SYS_READLINKAT] then 2 else 1.
Definition readlink_direct_buf_user_ptr (p : pending_syscall) : Z :=
  if one_of (p_sys_id p) [SYS_READLINKAT] then arg2 (p_args p) else arg1 (p_args p).

Definition capture_readlink_bytes_tlv_direct (p : pending_syscall) (ret_value event_flags : Z)
    : dynptr -> Z -> prog (Z * Z) :=
  capture_out_bytes READLINK_DIRECT_BYTES_MAX (readlink_direct_buf_arg_index (p_sys_id p))
    (readlink_direct_buf_user_ptr p) ret_value event_flags.

Definition emit_readlink_exit_event_v2_direct (p : pending_syscall) (ret_value duration : Z)
    : prog unit :=
  exit_flags_emit (PAYLOAD_TLV_HEADER_SIZE + READLINK_DIRECT_BYTES_MAX) p ret_value duration
    (capture_readlink_bytes_tlv_direct p ret_value 0).

(** ** Path arguments *)

Definition capture_readlink_path_tlv_direct (path_arg user_ptr : Z) : dynptr -> Z -> prog Z :=
  capture_path_section READLINK_DIRECT_PATH_MAX path_arg user_ptr.

Definition emit_readlink_enter_event_v2_direct (pid tid sys_id : Z)
    (ctx : trace_event_raw_sys_enter) (ts_ns : Z) : prog unit :=
  let args := args_u64 (enter_args ctx) in
  let at_ := one_of sys_id [SYS_READLINKAT] in
  enter_capture_emit (PAYLOAD_TLV_HEADER_SIZE + READLINK_DIRECT_PATH_MAX) pid tid sys_id ctx ts_ns
    (-1) (capture_readlink_path_tlv_direct (if at_ then 1 else 0)
            (if at_ then arg1 args else arg0 args)).

Definition capture_path_stat_path_tlv_direct (path_arg user_ptr : Z) : dynptr -> Z -> prog Z :=
  capture_path_section PATH_STAT_DIRECT_PATH_MAX path_arg user_ptr.

Definition emit_path_stat_enter_event_v2_direct_with_path (pid tid sys_id : Z)
    (ctx : trace_event_raw_sys_enter) (ts_ns path_arg user_ptr : Z) : prog unit :=
  enter_capture_emit (PAYLOAD_TLV_HEADER_SIZE + PATH_STAT_DIRECT_PATH_MAX) pid tid sys_id ctx ts_ns
    (-1) (capture_path_stat_path_tlv_direct path_arg user_ptr).

Definition emit_path_stat_enter_event_v2_direct (pid tid sys_id : Z)
    (ctx : trace_event_raw_sys_enter) (ts_ns : Z) : prog unit :=
  let args := args_u64 (enter_args ctx) in
  if one_of sys_id [SYS_NEWFSTATAT; SYS_STATX]
  then emit_path_stat_enter_event_v2_direct_with_path pid tid sys_id ctx ts_ns 1 (arg1 args)
  else emit_path_stat_enter_event_v2_direct_with_path pid tid sys_id ctx ts_ns 0 (arg0 args).

Definition is_path_only_arg0_direct_syscall (sys_id : Z) : bool :=
  one_of sys_id [SYS_ACCESS; SYS_CHDIR; SYS_CHROOT; SYS_CHMOD; SYS_CHOWN; SYS_LCHOWN; SYS_MKDIR;
    SYS_MKNOD; SYS_RMDIR; SYS_UNLINK; SYS_SWAPON; SYS_SWAPOFF; SYS_ACCT; SYS_TRUNCATE; SYS_FSOPEN].
Definition is_path_only_arg1_direct_syscall (sys_id : Z) : bool :=
  one_of sys_id [SYS_MKDIRAT; SYS_MKNODAT; SYS_FCHOWNAT; SYS_UNLINKAT; SYS_FCHMODAT; SYS_FACCESSAT;
    SYS_FACCESSAT2; SYS_FSPICK; SYS_OPEN_TREE; SYS_FILE_GETATTR].
Definition is_path_only_direct_syscall (sys_id : Z) : bool :=
  is_path_only_arg0_direct_syscall sys_id || is_path_only_arg1_direct_syscall sys_id.
Definition is_dual_path_0_1_direct_syscall (sys_id : Z) : bool :=
  one_of sys_id [SYS_RENAME; SYS_LINK; SYS_SYMLINK].
Definition is_dual_path_0_2_direct_syscall (sys_id : Z) : bool := one_of sys_id [SYS_SYMLINKAT].
Definition is_dual_path_1_3_direct_syscall (sys_id : Z) : bool :=
  one_of sys_id [SYS_RENAMEAT; SYS_RENAMEAT2; SYS_LINKAT].
Definition is_dual_path_direct_syscall (sys_id : Z) : bool :=
  is_dual_path_0_1_direct_syscall sys_id || is_dual_path_0_2_direct_syscall sys_id ||
  is_dual_path_1_3_direct_syscall sys_id.

(** *** A path of up to [PATH_MAX] bytes, read in two chunks *)

(** The boundary byte of a path that fills both chunks. *)
Definition copy_last_byte (ptr : dynptr) (data_offset user_ptr : Z) : prog unit :=
  let* (_, bytes) := bpf_probe_read_user 1 (u64 (user_ptr + PATH_ONLY_DIRECT_PATH_MAX - 1)) in
  let last_byte := hd 0 bytes in
  let* last := bpf_dynptr_data ptr (data_offset + PATH_ONLY_DIRECT_PATH_MAX - 1) 1 in
  (match last with Some data => data_store data [last_byte] | None => ret tt end) ;;;
  if last_byte =? 0 then ret tt else record_payload_truncated_event.

(** The second chunk: copied length and probe result. *)
Definition copy_path_tail (ptr : dynptr) (data_offset user_ptr : Z) : prog (Z * Z) :=
  let* tail := bpf_dynptr_data ptr (data_offset + PATH_ONLY_DIRECT_FIRST_CHUNK - 1)
                 PATH_ONLY_DIRECT_SECOND_CHUNK in
  match tail with
  | None => record_ringbuf_copy_fail ;;; ret (0, -1)
  | Some data =>
      let* tail_len := read_user_str_into data PATH_ONLY_DIRECT_SECOND_CHUNK
                         (u64 (user_ptr + PATH_ONLY_DIRECT_FIRST_CHUNK - 1)) in
      if tail_len <? 0 then ret (PATH_ONLY_DIRECT_FIRST_CHUNK - 1, tail_len)
      else
        let copied_len := PATH_ONLY_DIRECT_FIRST_CHUNK - 1 + u32 tail_len in
        if PATH_ONLY_DIRECT_PATH_MAX <=? copied_len then
          copy_last_byte ptr data_offset user_ptr ;;;
          ret (PATH_ONLY_DIRECT_PATH_MAX, 0)
        else ret (copied_len, 0)
  end.

Definition copy_long_path (ptr : dynptr) (data_offset user_ptr : Z) : prog (Z * Z) :=
  if user_ptr =? 0 then ret (0, -1)
  else
    let* payload_data := bpf_dynptr_data ptr data_offset PATH_ONLY_DIRECT_PATH_MAX in
    match payload_data with
    | None => record_ringbuf_copy_fail ;;; ret (0, -1)
    | Some data =>
        let* n := read_user_str_into data PATH_ONLY_DIRECT_FIRST_CHUNK user_ptr in
        if n <? 0 then ret (0, n)
        else if PATH_ONLY_DIRECT_FIRST_CHUNK <=? n then copy_path_tail ptr data_offset user_ptr
        else ret (u32 n, 0)
    end.

Definition capture_path_only_tlv_direct (arg_index user_ptr : Z) (ptr : dynptr)
    (payload_offset : Z) : prog Z :=
  let* (copied_len, probe_ret) := copy_long_path ptr (payload_offset + PAYLOAD_TLV_HEADER_SIZE) user_ptr in
  finish_section ptr payload_offset
    (TlvHeader PAYLOAD_TLV_KIND_STRING arg_index 0 copied_len copied_len probe_ret user_ptr).

Definition emit_path_only_enter_event_v2_direct_with_path (pid tid : Z)
    (ctx : trace_event_raw_sys_enter) (ts_ns path_arg user_ptr : Z) : prog unit :=
  enter_capture_emit (PAYLOAD_TLV_HEADER_SIZE + PATH_ONLY_DIRECT_PATH_MAX) pid tid
    (u32 (enter_id ctx)) ctx ts_ns (-1) (capture_path_only_tlv_direct path_arg user_ptr).

Definition emit_path_only_enter_event_v2_direct (pid tid sys_id : Z)
    (ctx : trace_event_raw_sys_enter) (ts_ns : Z) : prog unit :=
  let args := args_u64 (enter_args ctx) in
  if is_path_only_arg1_direct_syscall sys_id
  then emit_path_only_enter_event_v2_direct_with_path pid tid ctx ts_ns 1 (arg1 args)
  else emit_path_only_enter_event_v2_direct_with_path pid tid ctx ts_ns 0 (arg0 args).

Definition emit_path_only_exit_event_v2_direct (p : pending_syscall) (ret_value duration : Z)
    : prog unit :=
  let path_arg := if is_path_only_arg1_direct_syscall (p_sys_id p) then 1 else 0 in
  exit_capture_emit (PAYLOAD_TLV_HEADER_SIZE + PATH_ONLY_DIRECT_PATH_MAX) p ret_value duration
    (capture_path_only_tlv_direct path_arg (arg (p_args p) path_arg)).

(** *** Two paths *)

Definition capture_dual_path_tlv_direct (arg_index user_ptr : Z) : dynptr -> Z -> prog Z :=
  capture_path_section DUAL_PATH_DIRECT_PATH_MAX arg_index user_ptr.

(** The two path arguments of a syscall. *)
Definition dual_path_args (sys_id : Z) : Z * Z :=
  if is_dual_path_0_2_direct_syscall sys_id then (0, 2)
  else if is_dual_path_1_3_direct_syscall sys_id then (1, 3)
  else (0, 1).

Definition capture_dual_paths (first second : Z) (args : args6) : dynptr -> Z -> prog Z :=
  both (capture_dual_path_tlv_direct first (arg args first))
       (capture_dual_path_tlv_direct second (arg args second)).

Definition emit_dual_path_enter_event_v2_direct (pid tid sys_id : Z)
    (ctx : trace_event_raw_sys_enter) (ts_ns : Z) : prog unit :=
  let '(first, second) := dual_path_args sys_id in
  enter_capture_emit
    ((PAYLOAD_TLV_HEADER_SIZE + DUAL_PATH_DIRECT_PATH_MAX) +
     (PAYLOAD_TLV_HEADER_SIZE + DUAL_PATH_DIRECT_PATH_MAX)) pid tid (u32 (enter_id ctx)) ctx ts_ns
    (-1) (capture_dual_paths first second (args_u64 (enter_args ctx))).

Definition emit_dual_path_exit_event_v2_direct (p : pending_syscall) (ret_value duration : Z)
    : prog unit :=
  let '(first, second) := dual_path_args (p_sys_id p) in
  exit_capture_emit
    ((PAYLOAD_TLV_HEADER_SIZE + DUAL_PATH_DIRECT_PATH_MAX) +
     (PAYLOAD_TLV_HEADER_SIZE + DUAL_PATH_DIRECT_PATH_MAX)) p ret_value duration
    (capture_dual_paths first second (p_args p)).
End Paths.

Section PathLemmas.
Context {K : Kernel} {A : Arch}.

(** ** Buffers *)

(** The section of a returned buffer. *)
Definition out_bytes_sections (max arg_index user_ptr rv fl base : Z) (secs : list PayloadSection) : Prop :=
  if 0 <? rv then one_section (bytes_section PayloadDirectionOut arg_index max user_ptr rv fl base) secs
  else secs = [].

Lemma capture_out_bytes_ok max arg_index user_ptr rv base :
  0 < max <= 512 -> rv < 2 ^ 63 ->
  tlv_capture_flags True (flags_from base)
    (fun fl => out_bytes_sections max arg_index user_ptr rv fl base) (PAYLOAD_TLV_HEADER_SIZE + max)
    (capture_out_bytes max arg_index user_ptr rv base).
Proof.
  intros Hm Hrv w d buf off Hb Ho Hs. unfold capture_out_bytes, out_bytes_sections.
  pose proof (capturing_start d off w buf Hb) as C0.
  destruct (Z.leb_spec rv 0), (Z.ltb_spec 0 rv); try lia.
  { wp_steps. split_and!; [lia | lia | by left | reflexivity |]. intros _.
    eapply decodable_0; [exact C0 | done]. }
  wp_steps. rewrite u64_small in * by lia. rewrite payload_tlv_copy_len_min in * by lia.
  assert (forall w1 b copied probe, capturing d off (zlen buf) w w1 b ->
    (copied = Z.min rv max /\ probe = 0 /\
       exists k, slice b (off + 32) copied = user_bytes k user_ptr copied) \/ (copied = 0 /\ read_failed user_ptr probe) ->
    wp (let* event_flags := note_truncation copied probe (payload_tlv_clamp_u32 rv) base in
        let* size := finish_section (Some d) off
          (TlvHeader PAYLOAD_TLV_KIND_BYTES arg_index PAYLOAD_TLV_FLAG_DIRECTION_OUT
             (payload_tlv_clamp_u32 rv) copied probe user_ptr) in
        ret (size, event_flags))
      (fun '(n, fl) w' => 0 <= n <= 32 + max /\ flags_from base fl /\ captures d off w w' /\
        (True -> decodable (one_section (bytes_section PayloadDirectionOut arg_index max user_ptr rv fl base))
           d off n w')) w1) as Finish.
  { intros w1 b copied probe C1 Hcase. replace (zlen buf) with (zlen b) in * by apply C1.
    eapply wp_finish_bytes; [done | by right; left | exact C1 | lia | exact Hs | lia | lia | | exact Hcase].
    destruct Hcase as [(-> & _)|[-> _]]; lia. }
  destruct (Z.eqb_spec user_ptr 0).
  - wp_step. eapply Finish; [exact C0 | right; split; [done | solve_failed]].
  - eapply wp_copy_user_struct; [exact C0 | lia | lia | lia | |]; intros w1 b.
    + intros k C1 Hk. eapply Finish; [exact C1|]. left. by split_and!; [..|exists k].
    + intros e C1 He. eapply Finish; [exact C1|]. by right.
Qed.

Lemma exit_flags_ok cap p rv dur P f :
  0 <= cap < 2 ^ 31 -> tlv_capture_flags True (flags_from 0) P cap f ->
  emitter (fun r => reads_pending_exit r p rv dur (decodes True (flags_from 0) P))
    (exit_flags_emit cap p rv dur f).
Proof. intros Hc Hf. apply pending_exit_ok; [lia|]. by apply tlv_flags_payload_ok. Qed.

Lemma emit_getcwd_exit_ok p rv dur :
  rv < 2 ^ 63 ->
  emitter (fun r => reads_pending_exit r p rv dur (decodes True (flags_from 0)
      (fun fl => out_bytes_sections 512 0 (arg0 (p_args p)) rv fl 0)))
    (emit_getcwd_exit_event_v2_direct p rv dur).
Proof. intros H. apply exit_flags_ok; [lia|]. by apply capture_out_bytes_ok. Qed.

Lemma emit_readlink_exit_ok p rv dur :
  rv < 2 ^ 63 ->
  emitter (fun r => reads_pending_exit r p rv dur (decodes True (flags_from 0)
      (fun fl => out_bytes_sections 512 (readlink_direct_buf_arg_index (p_sys_id p))
         (readlink_direct_buf_user_ptr p) rv fl 0)))
    (emit_readlink_exit_event_v2_direct p rv dur).
Proof. intros H. apply exit_flags_ok; [lia|]. by apply capture_out_bytes_ok. Qed.

(** ** Path arguments *)

Lemma emit_readlink_enter_ok pid tid sys_id ctx ts :
  let args := args_u64 (enter_args ctx) in
  let at_ := one_of sys_id [SYS_READLINKAT] in
  emitter (fun r => reads_capture_enter r pid tid sys_id ctx ts (-1)
      (one_section (path_section 512 (if at_ then 1 else 0) (if at_ then arg1 args else arg0 args))))
    (emit_readlink_enter_event_v2_direct pid tid sys_id ctx ts).
Proof. intros. apply enter_capture_ok; [lia|]. apply capture_path_section_ok. lia. Qed.

Lemma emit_path_stat_with_path_ok pid tid sys_id ctx ts path_arg user_ptr :
  emitter (fun r => reads_capture_enter r pid tid sys_id ctx ts (-1)
      (one_section (path_section 512 path_arg user_ptr)))
    (emit_path_stat_enter_event_v2_direct_with_path pid tid sys_id ctx ts path_arg user_ptr).
Proof. apply enter_capture_ok; [lia|]. apply capture_path_section_ok. lia. Qed.

Lemma emit_path_stat_enter_ok pid tid sys_id ctx ts :
  let path_arg := if one_of sys_id [SYS_NEWFSTATAT; SYS_STATX] then 1 else 0 in
  emitter (fun r => reads_capture_enter r pid tid sys_id ctx ts (-1)
      (one_section (path_section 512 path_arg (arg (args_u64 (enter_args ctx)) path_arg))))
    (emit_path_stat_enter_event_v2_direct pid tid sys_id ctx ts).
Proof.
  unfold emit_path_stat_enter_event_v2_direct.
  destruct (one_of sys_id _); apply emit_path_stat_with_path_ok.
Qed.

Lemma capture_dual_paths_ok first second args :
  tlv_capture True
    (appended (one_section (path_section 512 first (arg args first)))
       (one_section (path_section 512 second (arg args second))))
    ((32 + 512) + (32 + 512)) (capture_dual_paths first second args).
Proof. apply both_ok; [apply capture_path_section_ok; lia.. | lia]. Qed.

(** The two path sections of a syscall. *)
Definition dual_path_sections (sys_id : Z) (args : args6) : list PayloadSection -> Prop :=
  let '(first, second) := dual_path_args sys_id in
  appended (one_section (path_section 512 first (arg args first)))
    (one_section (path_section 512 second (arg args second))).

Lemma emit_dual_path_enter_ok pid tid sys_id ctx ts :
  emitter (fun r => reads_capture_enter r pid tid (u32 (enter_id ctx)) ctx ts (-1)
      (dual_path_sections sys_id (args_u64 (enter_args ctx))))
    (emit_dual_path_enter_event_v2_direct pid tid sys_id ctx ts).
Proof.
  unfold emit_dual_path_enter_event_v2_direct, dual_path_sections.
  destruct (dual_path_args sys_id) as [first second].
  apply enter_capture_ok; [lia | apply capture_dual_paths_ok].
Qed.

Lemma emit_dual_path_exit_ok p rv dur :
  emitter (fun r => reads_capture_exit r p rv dur (dual_path_sections (p_sys_id p) (p_args p)))
    (emit_dual_path_exit_event_v2_direct p rv dur).
Proof.
  unfold emit_dual_path_exit_event_v2_direct, dual_path_sections.
  destruct (dual_path_args (p_sys_id p)) as [first second].
  apply exit_capture_ok; [lia | apply capture_dual_paths_ok].
Qed.

(** ** Long paths *)

(** User memory with contents [mem]: readable and not changing under the reader. *)
Definition user_memory (mem : Z -> Z) : Prop :=
  forall n a, 0 <= k_user_err n a /\ k_user_byte n a = mem a.
Definition mem_bytes (mem : Z -> Z) (addr len : Z) : list Z :=
  map (fun i => u8 (mem (addr + Z.of_nat i))) (seq 0 (Z.to_nat len)).

(** The string at [p], without its terminator, followed by the next byte: the
    terminator of a string of at most 4095 bytes, and the boundary byte of a longer one. *)
Definition long_path_text (mem : Z -> Z) (p : Z) : list Z :=
  let s := until_nul (mem_bytes mem p (PATH_ONLY_DIRECT_PATH_MAX - 1)) in
  s ++ [u8 (mem (p + zlen s))].

Lemma user_bytes_mem mem n addr len :
  user_memory mem -> user_bytes n addr len = mem_bytes mem addr len.
Proof.
  intros M. unfold user_bytes, mem_bytes. apply map_ext. intros i. by rewrite (proj2 (M n _)).
Qed.

Lemma zlen_mem_bytes mem addr len : 0 <= len -> zlen (mem_bytes mem addr len) = len.
Proof. intros. unfold zlen, mem_bytes. rewrite length_map, length_seq. lia. Qed.

Lemma mem_bytes_app mem addr n m :
  0 <= n -> 0 <= m -> mem_bytes mem addr (n + m) = mem_bytes mem addr n ++ mem_bytes mem (addr + n) m.
Proof.
  intros. unfold mem_bytes. rewrite Z2Nat.inj_add, seq_app, map_app by lia. f_equal.
  rewrite Nat.add_0_l. apply list_eq. intros i. rewrite !list_lookup_fmap.
  destruct (decide (i < Z.to_nat m)%nat).
  - rewrite !lookup_seq_lt by lia. cbn. do 3 f_equal. lia.
  - by rewrite !lookup_seq_ge by lia.
Qed.

(** A string that fills the buffer has no terminator in it. *)
Lemma until_nul_full l : (length l <= length (until_nul l))%nat ->
  until_nul l = l /\ forall l', until_nul (l ++ l') = l ++ until_nul l'.
Proof.
  induction l as [|b l IH]; cbn; [done|]. destruct (b =? 0); cbn; [lia|].
  intros H. destruct IH as [-> IH]; [lia|]. split; [done|]. intros l'. by rewrite IH.
Qed.

(** A string that ends inside the buffer ends there in a longer buffer too. *)
Lemma until_nul_short l l' :
  (length (until_nul l) < length l)%nat -> until_nul (l ++ l') = until_nul l.
Proof.
  induction l as [|b l IH]; cbn; [lia|]. destruct (b =? 0); cbn; [done|].
  intros H. rewrite IH; [done|lia].
Qed.

(** The byte behind a string that ends inside the buffer is its terminator. *)
Lemma until_nul_end mem addr len :
  0 <= len -> zlen (until_nul (mem_bytes mem addr len)) < len ->
  u8 (mem (addr + zlen (until_nul (mem_bytes mem addr len)))) = 0.
Proof.
  intros Hl. unfold mem_bytes. replace len with (Z.of_nat (Z.to_nat len)) at 2 by lia.
  remember (Z.to_nat len) as n eqn:E. clear E Hl len. generalize addr.
  assert (forall k a, zlen (until_nul (map (fun i => u8 (mem (a + Z.of_nat i))) (seq k n))) < Z.of_nat n ->
    u8 (mem (a + Z.of_nat k + zlen (until_nul (map (fun i => u8 (mem (a + Z.of_nat i))) (seq k n))))) = 0) as H.
  { induction n as [|n IH]; intros k a; cbn [seq map until_nul]; [intros H; pose proof (zlen_nonneg (@nil Z)); unfold zlen in *; cbn in *; lia|].
    destruct (Z.eqb_spec (u8 (mem (a + Z.of_nat k))) 0) as [E|E].
    - intros _. change (zlen []) with 0. by rewrite Z.add_0_r.
    - set (t := until_nul (map _ (seq (S k) n))). assert (zlen (u8 (mem (a + Z.of_nat k)) :: t) = zlen t + 1) as L
        by (unfold zlen; cbn; lia).
      rewrite L. intros H. specialize (IH (S k) a). fold t in IH. rewrite <- (IH ltac:(lia)).
      do 2 f_equal. lia. }
  intros a Ha. specialize (H 0%nat a Ha). by rewrite Z.add_0_r in H.
Qed.

Lemma probe_user_str_readable mem n addr w :
  user_memory mem -> 0 <= fst (fst (bpf_probe_read_user_str n addr w)).
Proof.
  intros M. unfold bpf_probe_read_user_str, bind, tick, ret.
  destruct (Z.ltb_spec (k_user_err (calls w) addr) 0); cbn [fst]; [destruct (M (calls w) addr); lia|].
  apply zlen_nonneg.
Qed.

Lemma read_user_str_readable mem ptr n addr w :
  user_memory mem -> 0 <= fst (read_user_str_into ptr n addr w).
Proof.
  intros M. pose proof (probe_user_str_readable mem n addr w M) as H.
  unfold read_user_str_into, bind, ret. destruct (bpf_probe_read_user_str n addr w) as [[r b] w1].
  cbn in H |- *. by destruct (data_store ptr b w1).
Qed.

Lemma wp_and {X} (m : prog X) (Q Q' : X -> world -> Prop) w :
  wp m Q w -> Q' (fst (m w)) (snd (m w)) -> wp m (fun x w' => Q x w' /\ Q' x w') w.
Proof. by split. Qed.

(** A string read with what readable memory adds. *)
Lemma wp_read_path d off size w0 w buf o n addr (Q : Z -> world -> Prop) :
  capturing d off size w0 w buf -> 0 <= off <= o -> 1 <= n -> o + n <= size ->
  (forall w' r bytes, zlen bytes <= n -> capturing d off size w0 w' (put buf o bytes) ->
     r < 0 \/ (1 <= r /\ r = zlen bytes) ->
     (forall mem, user_memory mem ->
        1 <= r /\ bytes = until_nul (mem_bytes mem addr (n - 1)) ++ [0]) -> Q r w') ->
  wp (read_user_str_into (d, o) n addr) Q w.
Proof.
  intros C Ho Hn Hb H.
  eapply wp_mono; [apply (wp_and _ (fun r w' => exists bytes, zlen bytes <= n /\
      ((1 <= r /\ r = zlen bytes /\ bytes = until_nul (user_bytes (calls w) addr (n - 1)) ++ [0]) \/ read_failed addr r) /\
      capturing d off size w0 w' (put buf o bytes))
    (fun r _ => forall mem, user_memory mem -> 0 <= r))|].
  - eapply wp_read_user_str_into; [exact C | lia..|]. intros w' r bytes Hl Hr C'. by exists bytes.
  - intros mem. apply read_user_str_readable.
  - intros r w' [(bytes & Hl & Hr & C') Hm]. eapply H; [exact Hl | exact C' | |].
    + destruct Hr as [(? & ? & _)|[? _]]; auto.
    + intros mem M. specialize (Hm mem M). destruct Hr as [(? & -> & Hbytes)|[? _]]; [|lia].
      split; [done|]. by rewrite Hbytes, (user_bytes_mem mem).
Qed.

Lemma at_off_prefix b o l l' :
  0 <= o -> o + zlen (l ++ l') <= zlen b -> at_off b o (l ++ l') -> at_off b o l.
Proof.
  unfold at_off. intros Ho Hb H. pose proof (zlen_nonneg l). pose proof (zlen_nonneg l').
  rewrite zlen_app in H, Hb. rewrite slice_app in H by lia.
  apply app_inj_1 in H as [H _]; [done|].
  pose proof (zlen_slice b o (zlen l)) as L. unfold zlen in L |- *. unfold zlen in Hb. lia.
Qed.

(** What the copy leaves: at most 4096 bytes; over readable memory, the text of the path. *)
Definition long_copied (d : nat) (off size : Z) (w0 : world) (user_ptr : Z) (r : Z * Z) (w : world)
    : Prop :=
  let '(copied, probe) := r in
  exists b, capturing d off size w0 w b /\
  ((probe = 0 /\ 1 <= copied <= 4096) \/ (probe < 0 /\ (copied = 0 \/ copied = 2047))) /\
  (forall mem, user_memory mem -> no_fault -> 0 < user_ptr -> user_ptr + 4096 <= 2 ^ 64 ->
     probe = 0 /\ copied = zlen (long_path_text mem user_ptr) /\
     at_off b (off + PAYLOAD_TLV_HEADER_SIZE) (long_path_text mem user_ptr)).

Lemma long_copied_fault d off size w0 user_ptr w b :
  capturing d off size w0 w b -> ~ no_fault \/ user_ptr = 0 ->
  long_copied d off size w0 user_ptr (0, -1) w.
Proof.
  intros C H. exists b. split_and!; [done | right; split; [lia | auto] |].
  intros mem _ NF Hp. destruct H; [done|lia].
Qed.

Lemma long_path_text_split mem p :
  let t := until_nul (mem_bytes mem (p + 2047) 2048) in
  until_nul (mem_bytes mem p 2047) = mem_bytes mem p 2047 ->
  zlen (mem_bytes mem p 2047 ++ t) = 2047 + zlen t /\ 0 <= zlen t <= 2048 /\
  long_path_text mem p = (mem_bytes mem p 2047 ++ t) ++ [u8 (mem (p + (2047 + zlen t)))] /\
  (zlen t < 2048 -> u8 (mem (p + (2047 + zlen t))) = 0).
Proof.
  intros t E. assert (zlen (mem_bytes mem p 2047 ++ t) = 2047 + zlen t) as L
    by (by rewrite zlen_app, zlen_mem_bytes).
  assert (until_nul (mem_bytes mem p 4095) = mem_bytes mem p 2047 ++ t) as F.
  { change 4095 with (2047 + 2048). rewrite mem_bytes_app by lia.
    apply (until_nul_full (mem_bytes mem p 2047)). by rewrite E. }
  assert (0 <= zlen t <= 2048) as Lt.
  { split; [apply zlen_nonneg|]. pose proof (until_nul_length (mem_bytes mem (p + 2047) 2048)) as U.
    pose proof (zlen_mem_bytes mem (p + 2047) 2048 ltac:(lia)) as V. unfold zlen in *. subst t. lia. }
  split_and!; [done | lia | lia | |].
  - unfold long_path_text. change (4096 - 1) with 4095. rewrite F, L. done.
  - intros Ht. pose proof (until_nul_end mem p 4095) as U. rewrite F, L in U. apply U; lia.
Qed.

Lemma wp_copy_last_byte d off size w0 w buf p (Q : unit -> world -> Prop) :
  capturing d off size w0 w buf -> 0 <= off -> off + PAYLOAD_TLV_HEADER_SIZE + 4096 <= size ->
  (forall w' b, capturing d off size w0 w' b ->
     (forall mem, user_memory mem -> no_fault -> 0 < p -> p + 4096 <= 2 ^ 64 ->
        b = put buf (off + PAYLOAD_TLV_HEADER_SIZE + 4095) [u8 (mem (p + 4095))]) -> Q tt w') ->
  wp (copy_last_byte (Some d) (off + PAYLOAD_TLV_HEADER_SIZE) p) Q w.
Proof.
  intros C Ho Hs H. unfold copy_last_byte. wp_step.
  assert (forall mem, user_memory mem -> 0 < p -> p + 4096 <= 2 ^ 64 ->
    hd 0 (snd (fst (bpf_probe_read_user 1 (u64 (p + 4096 - 1)) w))) = u8 (mem (p + 4095))) as Hhd.
  { intros mem M Hp Hq. unfold bpf_probe_read_user, bind, tick, ret.
    destruct (Z.ltb_spec (k_user_err (calls w) (u64 (p + 4096 - 1))) 0);
      [destruct (M (calls w) (u64 (p + 4096 - 1))); lia|].
    cbn [fst snd]. rewrite (user_bytes_mem mem) by done. rewrite u64_small by lia.
    change (u8 (mem (p + 4096 - 1 + 0)) = u8 (mem (p + 4095))). do 2 f_equal. lia. }
  pose proof (bpf_probe_read_user_quiet 1 (u64 (p + 4096 - 1)) w) as Q1. unfold wp at 1.
  destruct (bpf_probe_read_user 1 (u64 (p + 4096 - 1)) w) as [[err bytes] w1]. cbn [fst snd] in *.
  pose proof (capturing_quiet _ _ _ _ _ _ _ C Q1) as C1. set (x := hd 0 bytes) in *. wp_steps.
  assert (forall w2 b, capturing d off size w0 w2 b ->
    (forall mem, user_memory mem -> no_fault -> 0 < p -> p + 4096 <= 2 ^ 64 ->
        b = put buf (off + 32 + 4095) [u8 (mem (p + 4095))]) ->
    wp (if x =? 0 then ret tt else record_payload_truncated_event) Q w2) as Finish.
  { intros w2 b C2 Hb2. destruct (x =? 0); [wp_steps; by eapply H|].
    eapply wp_quiet; [exact C2 | eauto with keeps |]. intros [] w3 C3. by eapply H. }
  replace (off + 32 + 4096 - 1) with (off + 32 + 4095) by lia.
  assert (zlen [x] = 1) as Lx by done.
  eapply wp_dynptr_data; [exact C1 | lia | |]; intros w2.
  - intros C2. wp_step. eapply wp_data_store; [exact C2 | lia | lia |]. intros w3 C3.
    eapply Finish; [exact C3|]. intros mem M _ Hp Hq. by rewrite (Hhd mem M Hp Hq).
  - intros NF C2. wp_steps. eapply Finish; [exact C2|]. by intros mem _ NF'.
Qed.

Lemma wp_copy_path_tail d off size w0 w buf p :
  capturing d off size w0 w buf -> 0 <= off -> off + PAYLOAD_TLV_HEADER_SIZE + 4096 <= size ->
  (forall mem, user_memory mem -> until_nul (mem_bytes mem p 2047) = mem_bytes mem p 2047 /\
     at_off buf (off + PAYLOAD_TLV_HEADER_SIZE) (mem_bytes mem p 2047)) ->
  wp (copy_path_tail (Some d) (off + PAYLOAD_TLV_HEADER_SIZE) p) (long_copied d off size w0 p) w.
Proof.
  intros C Ho Hs H1. unfold copy_path_tail. wp_step.
  replace (off + 32 + 2048 - 1) with (off + 32 + 2047) by lia. pose proof (cg_size _ _ _ _ _ _ C) as Hz.
  eapply wp_dynptr_data; [exact C | lia | |]; intros w1.
  2: { intros NF C1. wp_step. eapply wp_copy_fail; [exact C1 | exact NF |]. intros _ w2 C2. wp_steps.
       eapply long_copied_fault; [exact C2 | by left]. }
  intros C1. wp_step. eapply wp_read_path; [exact C1 | lia | lia | lia |].
  intros w2 r bytes Hl C2 Hr Hmem. pose proof (cg_size _ _ _ _ _ _ C2) as Hz2.
  assert (forall mem, user_memory mem -> 0 < p -> p + 4096 <= 2 ^ 64 ->
    let t := until_nul (mem_bytes mem (p + 2047) 2048) in
    1 <= r /\ bytes = t ++ [0] /\ at_off (put buf (off + 32 + 2047) bytes) (off + 32)
      (mem_bytes mem p 2047 ++ bytes)) as Text.
  { intros mem M Hp Hq t. destruct (Hmem mem M) as [Hr1 Hb]. destruct (H1 mem M) as [_ T1].
    rewrite u64_small in Hb by lia. replace (p + 2048 - 1) with (p + 2047) in Hb by lia.
    change (2049 - 1) with 2048 in Hb. split_and!; [done | done |].
    pose proof (zlen_mem_bytes mem p 2047 ltac:(lia)) as L.
    rewrite <- L at 1. apply at_off_snoc; [lia | done | lia]. }
  destruct (Z.ltb_spec r 0); wp_steps.
  { exists (put buf (off + 32 + 2047) bytes). split_and!; [done | right; split; [lia | by right] |].
    intros mem M _ Hp Hq. destruct (Text mem M Hp Hq). lia. }
  destruct Hr as [|[Hr1 ->]]; [lia|]. rewrite u32_small by lia.
  change (2048 - 1) with 2047. destruct (Z.leb_spec 4096 (2047 + zlen bytes)) as [Hge|Hlt]; wp_steps.
  - eapply wp_copy_last_byte; [exact C2 | lia | lia |]. intros w3 b C3 Hb. wp_steps.
    exists b. split_and!; [done | left; lia |]. intros mem M NF Hp Hq.
    destruct (Text mem M Hp Hq) as (_ & Et & T2). destruct (H1 mem M) as [U1 _].
    destruct (long_path_text_split mem p U1) as (L & Lt & -> & _). rewrite Et, zlen_app in Hge.
    change (zlen [0]) with 1 in Hge. set (t := until_nul (mem_bytes mem (p + 2047) 2048)) in *.
    assert (zlen t = 2048) as Lt' by lia.
    rewrite (Hb mem M NF Hp Hq), Et in *. rewrite app_assoc in T2.
    apply at_off_prefix in T2; [|lia|rewrite zlen_app, L; change (zlen [0]) with 1; lia].
    split_and!; [done | rewrite zlen_app, L; change (zlen [u8 (mem (p + (2047 + zlen t)))]) with 1; lia |].
    pose proof (at_off_snoc _ (off + 32) _ [u8 (mem (p + (2047 + zlen t)))] ltac:(lia) T2) as T3.
    rewrite L, Lt' in T3. rewrite Lt'. apply T3. change (zlen [u8 (mem (p + (2047 + 2048)))]) with 1. lia.
  - exists (put buf (off + 32 + 2047) bytes). split_and!; [done | left; lia |]. intros mem M NF Hp Hq.
    destruct (Text mem M Hp Hq) as (_ & Et & T2). destruct (H1 mem M) as [U1 _].
    destruct (long_path_text_split mem p U1) as (L & Lt & -> & Z0).
    set (t := until_nul (mem_bytes mem (p + 2047) 2048)) in *.
    assert (zlen bytes = zlen t + 1) as Lb by (by rewrite Et, zlen_app).
    rewrite Z0 by lia. rewrite <- app_assoc, <- Et. split_and!; [done | | done].
    rewrite zlen_app, zlen_mem_bytes; lia.
Qed.

Lemma wp_copy_long_path d off size w0 w buf p :
  capturing d off size w0 w buf -> 0 <= off -> off + PAYLOAD_TLV_HEADER_SIZE + 4096 <= size ->
  wp (copy_long_path (Some d) (off + PAYLOAD_TLV_HEADER_SIZE) p) (long_copied d off size w0 p) w.
Proof.
  intros C Ho Hs. unfold copy_long_path. pose proof (cg_size _ _ _ _ _ _ C) as Hz.
  destruct (Z.eqb_spec p 0); wp_steps; [eapply long_copied_fault; [exact C | by right]|].
  eapply wp_dynptr_data; [exact C | lia | |]; intros w1.
  2: { intros NF C1. wp_step. eapply wp_copy_fail; [exact C1 | exact NF |]. intros _ w2 C2. wp_steps.
       eapply long_copied_fault; [exact C2 | by left]. }
  intros C1. wp_step. eapply wp_read_path; [exact C1 | lia | lia | lia |].
  intros w2 r bytes Hl C2 Hr Hmem. change (2048 - 1) with 2047 in Hmem.
  destruct (Z.ltb_spec r 0); wp_steps.
  { eexists. split_and!; [exact C2 | right; split; [lia | by left] |].
    intros mem M. destruct (Hmem mem M). lia. }
  destruct Hr as [|[Hr1 ->]]; [lia|].
  destruct (Z.leb_spec 2048 (zlen bytes)) as [Hge|Hlt].
  - apply (wp_copy_path_tail _ _ _ _ _ _ _ C2); [lia | lia |]. intros mem M.
    destruct (Hmem mem M) as [_ ->]. pose proof (zlen_mem_bytes mem p 2047 ltac:(lia)) as L.
    rewrite zlen_app in Hge. change (zlen [0]) with 1 in Hge.
    destruct (until_nul_full (mem_bytes mem p 2047)) as [E _]; [unfold zlen in *; lia|].
    split; [done|]. rewrite E. eapply at_off_prefix with (l' := [0]); [lia | |].
    + rewrite zlen_app, L, zlen_put; rewrite ?zlen_app, ?L; change (zlen [0]) with 1; lia.
    + unfold at_off. apply slice_put_same; rewrite ?zlen_app, ?L; change (zlen [0]) with 1; lia.
  - wp_steps. rewrite u32_small by lia. eexists. split_and!; [exact C2 | left; lia |].
    intros mem M NF Hp Hq. destruct (Hmem mem M) as [_ Eb]. set (s := until_nul (mem_bytes mem p 2047)) in *.
    assert (zlen bytes = zlen s + 1) as Lb by (by rewrite Eb, zlen_app).
    assert (u8 (mem (p + zlen s)) = 0) as Z0 by (apply until_nul_end; fold s; lia).
    assert (until_nul (mem_bytes mem p 4095) = s) as Es.
    { subst s. change 4095 with (2047 + 2048). rewrite mem_bytes_app by lia.
      apply until_nul_short. pose proof (zlen_mem_bytes mem p 2047 ltac:(lia)) as L. unfold zlen in *. lia. }
    unfold long_path_text. change (4096 - 1) with 4095. rewrite Es, Z0, <- Eb.
    split_and!; [done | done |]. unfold at_off. apply slice_put_same; lia.
Qed.

(** The section of a path of up to 4096 bytes. *)
Record long_path_section (arg_index user_ptr : Z) (s : PayloadSection) : Prop := LongPathSection {
  lp_kind : Kind s = PayloadKindString;
  lp_dir : Direction s = PayloadDirectionIn;
  lp_arg : ArgIndex s = u16 arg_index;
  lp_ptr : UserPtr s = u64 user_ptr;
  lp_len : UserLen s = zlen (Data s) /\ CopiedLen s = zlen (Data s) /\ zlen (Data s) <= 4096;
  lp_probe : ProbeRet s = 0 \/ exists e, e < 0 /\ ProbeRet s = s32 e;
  lp_text : forall mem, user_memory mem -> no_fault -> 0 < user_ptr -> user_ptr + 4096 <= 2 ^ 64 ->
    ProbeRet s = 0 /\ Data s = long_path_text mem user_ptr }.

Lemma capture_path_only_ok arg_index user_ptr :
  tlv_capture True (one_section (long_path_section arg_index user_ptr)) (32 + 4096)
    (capture_path_only_tlv_direct arg_index user_ptr).
Proof.
  intros w d buf off Hb Ho Hs. unfold capture_path_only_tlv_direct. wp_step.
  eapply wp_mono; [eapply wp_copy_long_path; [by apply capturing_start | lia | lia]|].
  intros [copied probe] w1 (b & C1 & Hr & Ht). pose proof (cg_size _ _ _ _ _ _ C1) as Hz.
  assert (0 <= copied <= 4096) as Hc by lia.
  eapply wp_finish_section with (P := long_path_section arg_index user_ptr)
    (kind := PayloadKindString) (cap := 32 + 4096);
    [exact C1 | lia | cbn; lia | exact Hs | cbn; lia | done | | by intros].
  cbn [t_copied_len].
  assert (zlen (slice b (off + 32) copied) = copied) as Ld by (rewrite zlen_slice; lia).
  split; cbn; try done.
  - rewrite Ld, u32_small by lia. split_and!; lia.
  - destruct Hr as [[-> _]|[? _]]; [by left|]. right. by exists probe.
  - intros mem M NF Hp Hq. destruct (Ht mem M NF Hp Hq) as (-> & E & T).
    split; [done|]. by rewrite E.
Qed.

Lemma emit_path_only_with_path_ok pid tid ctx ts path_arg user_ptr :
  emitter (fun r => reads_capture_enter r pid tid (u32 (enter_id ctx)) ctx ts (-1)
      (one_section (long_path_section path_arg user_ptr)))
    (emit_path_only_enter_event_v2_direct_with_path pid tid ctx ts path_arg user_ptr).
Proof. apply enter_capture_ok; [lia | apply capture_path_only_ok]. Qed.

Lemma emit_path_only_enter_ok pid tid sys_id ctx ts :
  let path_arg := if is_path_only_arg1_direct_syscall sys_id then 1 else 0 in
  emitter (fun r => reads_capture_enter r pid tid (u32 (enter_id ctx)) ctx ts (-1)
      (one_section (long_path_section path_arg (arg (args_u64 (enter_args ctx)) path_arg))))
    (emit_path_only_enter_event_v2_direct pid tid sys_id ctx ts).
Proof.
  unfold emit_path_only_enter_event_v2_direct.
  destruct (is_path_only_arg1_direct_syscall sys_id); apply emit_path_only_with_path_ok.
Qed.

Lemma emit_path_only_exit_ok p rv dur :
  let path_arg := if is_path_only_arg1_direct_syscall (p_sys_id p) then 1 else 0 in
  emitter (fun r => reads_capture_exit r p rv dur
      (one_section (long_path_section path_arg (arg (p_args p) path_arg))))
    (emit_path_only_exit_event_v2_direct p rv dur).
Proof. apply exit_capture_ok; [lia | apply capture_path_only_ok]. Qed.
End PathLemmas.

#[export] Hint Resolve emit_readlink_enter_ok emit_path_stat_enter_ok emit_dual_path_enter_ok
  emit_dual_path_exit_ok emit_path_only_enter_ok emit_path_only_exit_ok : emitters.
