(* ===== verification/Misc.v ===== *)
(** Structures of variable size and descriptor pairs.

    Models [bpf/syscall_openat2_direct_event_v2.h],
    [bpf/syscall_file_attr_direct_event_v2.h],
    [bpf/syscall_misc_struct_direct_event_v2.h] and
    [bpf/syscall_fd_array_direct_event_v2.h]. *)
From stdpp Require Import base list gmap numbers.
From S2P Require Import Prelude Syscalls Abi Kernel Consumer Stats Tlv Emit Decoder EventCore Payload Structs FdPath Paths.

Abbreviation OPENAT2_DIRECT_PAYLOAD_CAPACITY :=
  (2 * PAYLOAD_TLV_HEADER_SIZE + OPENAT2_DIRECT_PATH_MAX + OPENAT2_DIRECT_HOW_MAX) (only parsing).
Abbreviation OPENAT2_DIRECT_EXIT_PAYLOAD_CAPACITY :=
  (OPENAT2_DIRECT_PAYLOAD_CAPACITY + PAYLOAD_TLV_HEADER_SIZE + FD_STATE_SNAPSHOT_SIZE) (only parsing).
Abbreviation FILE_ATTR_DIRECT_BASE_SIZE := 24 (only parsing).
Abbreviation FILE_ATTR_DIRECT_EXTENSION_MAX := 256 (only parsing).
Abbreviation FILE_ATTR_DIRECT_PAGE_SIZE := 4096 (only parsing).
Abbreviation MISC_DIRECT_RLIMIT_SIZE := 16 (only parsing).
Abbreviation MISC_DIRECT_SYSINFO_SIZE := 112 (only parsing).
Abbreviation MISC_DIRECT_UTSNAME_SIZE := 390 (only parsing).
Abbreviation MISC_DIRECT_MAX_SIZE := MISC_DIRECT_UTSNAME_SIZE (only parsing).
Abbreviation FD_ARRAY_DIRECT_SIZE := 8 (only parsing).
Abbreviation FD_ARRAY_DIRECT_PAYLOAD_CAPACITY :=
  (PAYLOAD_TLV_HEADER_SIZE + FD_ARRAY_DIRECT_SIZE +
   2 * (PAYLOAD_TLV_HEADER_SIZE + FD_STATE_SNAPSHOT_SIZE)) (only parsing).

Section Misc.
Context {K : Kernel} {A : Arch}.

(** ** [openat2] *)

Definition is_openat2_direct_syscall (sys_id : Z) : bool := one_of sys_id [SYS_OPENAT2].

Definition capture_openat2_path_tlv_direct (user_ptr : Z) : dynptr -> Z -> prog Z :=
  capture_path_section OPENAT2_DIRECT_PATH_MAX 1 user_ptr.

(** The fixed part of [struct open_how], then what else the caller passed. *)
Definition copy_open_how (ptr : dynptr) (data_offset user_ptr wanted_len : Z) : prog (Z * Z) :=
  let* payload_data := bpf_dynptr_data ptr data_offset OPENAT2_DIRECT_HOW_MAX in
  match payload_data with
  | None => record_ringbuf_copy_fail ;;; ret (0, -1)
  | Some data =>
      let* err := read_user_into data OPENAT2_DIRECT_HOW_MIN user_ptr in
      if err <? 0 then ret (0, err)
      else if OPENAT2_DIRECT_HOW_MIN <? wanted_len then
        let extra_len := wanted_len - OPENAT2_DIRECT_HOW_MIN in
        let* extra_err := read_user_into (fst data, snd data + OPENAT2_DIRECT_HOW_MIN) extra_len
                            (u64 (user_ptr + OPENAT2_DIRECT_HOW_MIN)) in
        if extra_err =? 0 then ret (wanted_len, 0) else ret (OPENAT2_DIRECT_HOW_MIN, 0)
      else ret (OPENAT2_DIRECT_HOW_MIN, 0)
  end.

Definition capture_openat2_how_tlv_direct (user_ptr requested_len event_flags : Z) (ptr : dynptr)
    (payload_offset : Z) : prog (Z * Z) :=
  if (user_ptr =? 0) || (requested_len <? OPENAT2_DIRECT_HOW_MIN) then ret (0, event_flags)
  else
    let user_len := payload_tlv_clamp_u32 requested_len in
    let wanted_len := payload_tlv_copy_len requested_len OPENAT2_DIRECT_HOW_MAX in
    let* (copied_len, probe_ret) :=
      copy_open_how ptr (payload_offset + PAYLOAD_TLV_HEADER_SIZE) user_ptr wanted_len in
    let* event_flags := note_truncation copied_len probe_ret user_len event_flags in
    let* size := finish_section ptr payload_offset
      (TlvHeader PAYLOAD_TLV_KIND_STRUCT 2 0 user_len copied_len probe_ret user_ptr) in
    ret (size, event_flags).

(** [payload_size = f(...); payload_size += g(..., &flags);]. *)
Definition then_flags (f : dynptr -> Z -> prog Z) (g : dynptr -> Z -> prog (Z * Z)) (ptr : dynptr)
    (off : Z) : prog (Z * Z) :=
  let* n := f ptr off in
  let* (m, flags) := g ptr (off + n) in
  ret (n + m, flags).

(** [payload_size = g(..., &flags); payload_size += f(...);]. *)
Definition flags_then (g : dynptr -> Z -> prog (Z * Z)) (f : dynptr -> Z -> prog Z) (ptr : dynptr)
    (off : Z) : prog (Z * Z) :=
  let* (n, flags) := g ptr off in
  let* m := f ptr (off + n) in
  ret (n + m, flags).

Definition emit_openat2_enter_event_v2_direct (pid tid sys_id : Z)
    (ctx : trace_event_raw_sys_enter) (cfg : option Z) (ts_ns : Z) : prog unit :=
  let args := args_u64 (enter_args ctx) in
  let fd_state := match cfg with Some c => has_flag c CONFIG_FD_STATE | None => false end in
  let fd_path_capacity := if fd_state then FD_PATH_DIRECT_SECTION_MAX else 0 in
  enter_emit (fd_path_capacity + OPENAT2_DIRECT_PAYLOAD_CAPACITY) pid tid sys_id ts_ns
    (fun ptr =>
       let* (n, flags) := then_flags
         (both (capture_if fd_state (capture_fd_path_tlv_direct 0 (s32 (arg0 args))))
               (capture_openat2_path_tlv_direct (arg1 args)))
         (capture_openat2_how_tlv_direct (arg2 args) (arg3 args) EVENT_FLAG_GENERIC_ENTER)
         ptr enter_payload_offset in
       ret (tlv_flag flags n, n))
    (enter_ctx_body ctx (-1)).

Definition emit_openat2_exit_event_v2_direct (p : pending_syscall) (ret_value duration : Z)
    : prog unit :=
  exit_flags_emit OPENAT2_DIRECT_EXIT_PAYLOAD_CAPACITY p ret_value duration
    (flags_then
       (then_flags (capture_openat2_path_tlv_direct (arg1 (p_args p)))
          (capture_openat2_how_tlv_direct (arg2 (p_args p)) (u64 (arg3 (p_args p))) 0))
       (capture_if (0 <=? ret_value)
          (fun ptr off => capture_fd_state_tlv_direct ptr off (s32 ret_value)))).

(** ** [file_getattr] *)

(** [raw_size < BASE || raw_size > PAGE]. *)
Definition file_attr_size_rejected (raw_size : Z) : bool :=
  (raw_size <? FILE_ATTR_DIRECT_BASE_SIZE) || (FILE_ATTR_DIRECT_PAGE_SIZE <? raw_size).

Definition capture_file_attr_base_tlv_direct (arg_index user_ptr raw_size tlv_flags : Z)
    (ptr : dynptr) (payload_offset : Z) : prog Z :=
  if file_attr_size_rejected raw_size then ret 0
  else capture_required_struct FILE_ATTR_DIRECT_BASE_SIZE arg_index tlv_flags user_ptr ptr
         payload_offset.

Definition capture_file_attr_extension_tlv_direct (arg_index user_ptr raw_size event_flags tlv_flags : Z)
    (ptr : dynptr) (payload_offset : Z) : prog (Z * Z) :=
  if (raw_size <=? FILE_ATTR_DIRECT_BASE_SIZE) || (FILE_ATTR_DIRECT_PAGE_SIZE <? raw_size)
  then ret (0, event_flags)
  else
    let raw_extension_len := raw_size - FILE_ATTR_DIRECT_BASE_SIZE in
    let user_len := payload_tlv_clamp_u32 raw_extension_len in
    let copied_len := payload_tlv_copy_len raw_extension_len FILE_ATTR_DIRECT_EXTENSION_MAX in
    let extension_ptr := if user_ptr =? 0 then 0 else u64 (user_ptr + FILE_ATTR_DIRECT_BASE_SIZE) in
    let* (copied_len, probe_ret) :=
      if (user_ptr =? 0) || (extension_ptr <? user_ptr) then ret (0, -1)
      else copy_user_struct ptr (payload_offset + PAYLOAD_TLV_HEADER_SIZE)
             FILE_ATTR_DIRECT_EXTENSION_MAX copied_len copied_len extension_ptr in
    let* event_flags :=
      if (probe_ret =? 0) && (copied_len <? user_len) then
        record_payload_truncated_event ;;;
        ret (Z.lor event_flags EVENT_FLAG_TRUNCATED)
      else ret event_flags in
    let* size := finish_section ptr payload_offset
      (TlvHeader PAYLOAD_TLV_KIND_BYTES arg_index tlv_flags user_len copied_len probe_ret
         extension_ptr) in
    ret (size, event_flags).

Definition capture_file_attr_tlvs_direct (arg_index user_ptr raw_size event_flags tlv_flags : Z)
    (ptr : dynptr) (payload_offset : Z) : prog (Z * Z) :=
  if file_attr_size_rejected raw_size then ret (0, event_flags)
  else
    let* n := capture_file_attr_base_tlv_direct arg_index user_ptr raw_size tlv_flags ptr
                payload_offset in
    if n =? 0 then ret (0, event_flags)
    else
      let* (m, event_flags) := capture_file_attr_extension_tlv_direct arg_index user_ptr raw_size
                                 event_flags tlv_flags ptr (payload_offset + n) in
      ret (n + m, event_flags).

(** ** Other structures *)

Definition is_misc_struct_exit_direct_syscall (sys_id : Z) : bool :=
  one_of sys_id [SYS_UNAME; SYS_SYSINFO; SYS_GETRLIMIT; SYS_PRLIMIT64; SYS_FILE_GETATTR].

Definition misc_struct_direct_size (sys_id : Z) : Z :=
  if one_of sys_id [SYS_FILE_GETATTR] then FILE_ATTR_DIRECT_BASE_SIZE
  else if one_of sys_id [SYS_UNAME] then MISC_DIRECT_UTSNAME_SIZE
  else if one_of sys_id [SYS_SYSINFO] then MISC_DIRECT_SYSINFO_SIZE
  else MISC_DIRECT_RLIMIT_SIZE.
Definition misc_struct_exit_arg_index (sys_id : Z) : Z :=
  if one_of sys_id [SYS_FILE_GETATTR] then 2
  else if one_of sys_id [SYS_GETRLIMIT] then 1
  else if one_of sys_id [SYS_PRLIMIT64] then 3
  else 0.
Definition misc_struct_exit_user_ptr (p : pending_syscall) : Z :=
  if one_of (p_sys_id p) [SYS_FILE_GETATTR] then arg2 (p_args p)
  else if one_of (p_sys_id p) [SYS_GETRLIMIT] then arg1 (p_args p)
  else if one_of (p_sys_id p) [SYS_PRLIMIT64] then arg3 (p_args p)
  else arg0 (p_args p).

(** The size the branch of each syscall reads. *)
Definition misc_struct_read_size (sys_id : Z) : Z :=
  if one_of sys_id [SYS_UNAME] then MISC_DIRECT_UTSNAME_SIZE
  else if one_of sys_id [SYS_SYSINFO] then MISC_DIRECT_SYSINFO_SIZE
  else MISC_DIRECT_RLIMIT_SIZE.

Definition capture_misc_struct_tlv_direct (sys_id arg_index user_ptr tlv_flags : Z)
    : dynptr -> Z -> prog Z :=
  capture_struct_section MISC_DIRECT_MAX_SIZE (misc_struct_read_size sys_id)
    (misc_struct_direct_size sys_id) arg_index tlv_flags user_ptr.

Definition emit_misc_struct_enter_event_v2_direct_with_arg (pid tid sys_id : Z)
    (ctx : trace_event_raw_sys_enter) (ts_ns arg_index user_ptr : Z) : prog unit :=
  enter_capture_emit (PAYLOAD_TLV_HEADER_SIZE + MISC_DIRECT_MAX_SIZE) pid tid sys_id ctx ts_ns (-1)
    (capture_misc_struct_tlv_direct sys_id arg_index user_ptr 0).

Definition emit_misc_struct_enter_event_v2_direct (pid tid sys_id : Z)
    (ctx : trace_event_raw_sys_enter) (ts_ns : Z) : prog unit :=
  let args := args_u64 (enter_args ctx) in
  if one_of sys_id [SYS_PRLIMIT64]
  then emit_misc_struct_enter_event_v2_direct_with_arg pid tid sys_id ctx ts_ns 2 (arg2 args)
  else emit_misc_struct_enter_event_v2_direct_with_arg pid tid sys_id ctx ts_ns 1 (arg1 args).

Definition capture_misc_struct_exit (p : pending_syscall) (ptr : dynptr) (payload_offset : Z)
    : prog (Z * Z) :=
  let arg_index := misc_struct_exit_arg_index (p_sys_id p) in
  let user_ptr := misc_struct_exit_user_ptr p in
  if one_of (p_sys_id p) [SYS_FILE_GETATTR] then
    capture_file_attr_tlvs_direct arg_index user_ptr (arg3 (p_args p)) 0
      PAYLOAD_TLV_FLAG_DIRECTION_OUT ptr payload_offset
  else
    let* n := capture_misc_struct_tlv_direct (p_sys_id p) arg_index user_ptr
                PAYLOAD_TLV_FLAG_DIRECTION_OUT ptr payload_offset in
    ret (n, 0).

Definition emit_misc_struct_exit_event_v2_direct (p : pending_syscall) (ret_value duration : Z)
    : prog unit :=
  exit_flags_emit (PAYLOAD_TLV_HEADER_SIZE + MISC_DIRECT_MAX_SIZE) p ret_value duration
    (capture_misc_struct_exit p).

(** ** [pipe], [pipe2], [socketpair] *)

Definition is_fd_array_direct_syscall (sys_id : Z) : bool :=
  one_of sys_id [SYS_PIPE; SYS_PIPE2; SYS_SOCKETPAIR].
Definition fd_array_direct_arg_index (sys_id : Z) : Z :=
  if one_of sys_id [SYS_SOCKETPAIR] then 3 else 0.
Definition fd_array_direct_user_ptr (p : pending_syscall) : Z :=
  if one_of (p_sys_id p) [SYS_SOCKETPAIR] then arg3 (p_args p) else arg0 (p_args p).

Definition read_fd_array_values_direct (p : pending_syscall) : prog (Z * list Z) :=
  let* (err, fds) := bpf_probe_read_user FD_ARRAY_DIRECT_SIZE (fd_array_direct_user_ptr p) in
  ret (s32 err, fds).

Definition capture_fd_array_tlv_direct (p : pending_syscall) (fds : list Z) (probe_ret : Z)
    (ptr : dynptr) (payload_offset : Z) : prog Z :=
  let* (copied_len, probe_ret) :=
    if probe_ret =? 0 then
      let* write_ret := bpf_dynptr_write ptr (payload_offset + PAYLOAD_TLV_HEADER_SIZE) fds in
      if write_ret <? 0 then record_ringbuf_copy_fail ;;; ret (0, -1)
      else ret (FD_ARRAY_DIRECT_SIZE, probe_ret)
    else ret (0, probe_ret) in
  finish_section ptr payload_offset
    (TlvHeader PAYLOAD_TLV_KIND_STRUCT (fd_array_direct_arg_index (p_sys_id p))
       PAYLOAD_TLV_FLAG_DIRECTION_OUT FD_ARRAY_DIRECT_SIZE copied_len probe_ret
       (fd_array_direct_user_ptr p)).

(** [fds[i]]. *)
Definition fd_array_value (fds : list Z) (i : Z) : Z := s32 (le_val (slice fds (4 * i) 4)).

Definition capture_fd_state_array_tlvs_direct (fds : list Z) (ptr : dynptr) (payload_offset : Z)
    : prog Z :=
  let* n := capture_fd_state_tlv_direct ptr payload_offset (fd_array_value fds 0) in
  if n =? 0 then ret 0
  else
    let* m := capture_fd_state_tlv_direct ptr (payload_offset + n) (fd_array_value fds 1) in
    if m =? 0 then ret n else ret (n + m).

Definition capture_fd_array_exit (p : pending_syscall) (ptr : dynptr) (payload_offset : Z) : prog Z :=
  if fd_array_direct_user_ptr p =? 0 then ret 0
  else
    let* (probe_ret, fds) := read_fd_array_values_direct p in
    let* n := capture_fd_array_tlv_direct p fds probe_ret ptr payload_offset in
    let* m := if (probe_ret =? 0) && (0 <? n)
              then capture_fd_state_array_tlvs_direct fds ptr (payload_offset + n) else ret 0 in
    ret (n + m).

Definition emit_fd_array_exit_event_v2_direct (p : pending_syscall) (ret_value duration : Z)
    : prog unit :=
  exit_capture_emit FD_ARRAY_DIRECT_PAYLOAD_CAPACITY p ret_value duration
    (capture_if (ret_value =? 0) (capture_fd_array_exit p)).
End Misc.

Section MiscLemmas.
Context {K : Kernel} {A : Arch}.

(** ** Combining captures *)

Lemma then_flags_ok guard F P1 P2 cap1 cap2 f g :
  tlv_capture guard P1 cap1 f -> tlv_capture_flags guard F P2 cap2 g -> 0 <= cap2 ->
  tlv_capture_flags guard F (fun fl => appended P1 (P2 fl)) (cap1 + cap2) (then_flags f g).
Proof.
  intros Hf Hg Hc w d buf off Hb Ho Hs. unfold then_flags. wp_step.
  eapply wp_mono; [eapply Hf; [exact Hb | lia | lia]|]. intros n w1 (Hn & C1 & D1). cbv beta.
  destruct (proj1 (proj2 C1) _ Hb) as (b1 & E1 & L1 & _).
  assert (reserved w1 !! d = Some b1) as Hb1 by (by rewrite E1, lookup_insert_eq).
  assert (zlen b1 = zlen buf) as Z1 by (unfold zlen; by rewrite L1).
  wp_step. eapply wp_mono; [eapply Hg; [exact Hb1 | lia | lia]|].
  intros [m fl] w2 (Hm & HF & C2 & D2). wp_steps. split_and!; [lia | lia | done | |].
  - etrans; [exact C1|]. eapply captures_mono; [|exact C2]. lia.
  - intros G. eapply decodable_app; eauto; lia.
Qed.

Lemma flags_then_ok guard F P1 P2 cap1 cap2 f g :
  tlv_capture_flags guard F P1 cap1 g -> tlv_capture guard P2 cap2 f -> 0 <= cap2 ->
  tlv_capture_flags guard F (fun fl => appended (P1 fl) P2) (cap1 + cap2) (flags_then g f).
Proof.
  intros Hg Hf Hc w d buf off Hb Ho Hs. unfold flags_then. wp_step.
  eapply wp_mono; [eapply Hg; [exact Hb | lia | lia]|]. intros [n fl] w1 (Hn & HF & C1 & D1). cbv beta iota.
  destruct (proj1 (proj2 C1) _ Hb) as (b1 & E1 & L1 & _).
  assert (reserved w1 !! d = Some b1) as Hb1 by (by rewrite E1, lookup_insert_eq).
  assert (zlen b1 = zlen buf) as Z1 by (unfold zlen; by rewrite L1).
  wp_step. eapply wp_mono; [eapply Hf; [exact Hb1 | lia | lia]|].
  intros m w2 (Hm & C2 & D2). wp_steps. split_and!; [lia | lia | done | |].
  - etrans; [exact C1|]. eapply captures_mono; [|exact C2]. lia.
  - intros G. eapply decodable_app; eauto; lia.
Qed.

(** ** [openat2] *)

(** The section of [struct open_how]: the fixed part or all that was asked for. *)
Record open_how_section (user_ptr len fl base : Z) (s : PayloadSection) : Prop := OpenHowSection {
  oh_kind : Kind s = PayloadKindStruct;
  oh_dir : Direction s = PayloadDirectionIn;
  oh_arg : ArgIndex s = 2;
  oh_ptr : UserPtr s = u64 user_ptr;
  oh_len : UserLen s = Z.min len 0xffffffff;
  oh_data :
    (ProbeRet s = 0 /\ CopiedLen s = zlen (Data s) /\
       (zlen (Data s) = OPENAT2_DIRECT_HOW_MIN \/ zlen (Data s) = Z.min len OPENAT2_DIRECT_HOW_MAX) /\
       (exists k, slice (Data s) 0 OPENAT2_DIRECT_HOW_MIN = user_bytes k user_ptr OPENAT2_DIRECT_HOW_MIN) /\
       fl = if zlen (Data s) <? len then Z.lor base EVENT_FLAG_TRUNCATED else base) \/
    (Data s = [] /\ CopiedLen s = 0 /\ fl = base /\ exists e, read_failed user_ptr e /\ ProbeRet s = s32 e) }.

Definition open_how_sections (user_ptr len fl base : Z) (secs : list PayloadSection) : Prop :=
  if (user_ptr =? 0) || (len <? OPENAT2_DIRECT_HOW_MIN) then secs = [] /\ fl = base
  else one_section (open_how_section user_ptr len fl base) secs.

Lemma wp_copy_open_how d off size w0 w buf user_ptr n (Q : Z * Z -> world -> Prop) :
  capturing d off size w0 w buf -> 0 <= off -> OPENAT2_DIRECT_HOW_MIN <= n <= OPENAT2_DIRECT_HOW_MAX ->
  off + PAYLOAD_TLV_HEADER_SIZE + OPENAT2_DIRECT_HOW_MAX <= size ->
  (forall w' b k c, capturing d off size w0 w' b -> c = OPENAT2_DIRECT_HOW_MIN \/ c = n ->
     slice b (off + PAYLOAD_TLV_HEADER_SIZE) OPENAT2_DIRECT_HOW_MIN
       = user_bytes k user_ptr OPENAT2_DIRECT_HOW_MIN -> Q (c, 0) w') ->
  (forall w' b e, capturing d off size w0 w' b -> read_failed user_ptr e -> Q (0, e) w') ->
  wp (copy_open_how (Some d) (off + PAYLOAD_TLV_HEADER_SIZE) user_ptr n) Q w.
Proof.
  intros C Ho Hn Hs H1 H2. unfold copy_open_how. wp_step. pose proof (cg_size _ _ _ _ _ _ C) as Hz.
  eapply wp_dynptr_data; [exact C | lia | |]; intros w1.
  2: { intros NF C1. wp_step. eapply wp_copy_fail; [exact C1 | exact NF |].
       intros _ w2 C2. wp_steps. eapply H2; [exact C2 | solve_failed]. }
  intros C1. wp_step. eapply wp_read_user_into; [exact C1 | lia | lia | lia |].
  intros w2 err bytes Hl Hr C2.
  destruct (Z.ltb_spec err 0); wp_steps; [eapply H2; [exact C2 | solve_failed]|].
  destruct Hr as [[-> Hb]|[? _]]; [|lia].
  assert (slice (put buf (off + 32) bytes) (off + 32) 24 = user_bytes (calls w1) user_ptr 24) as S2.
  { rewrite <- Hb. apply slice_put_same; lia. }
  destruct (Z.ltb_spec 24 n); wp_steps; [|eapply H1; [exact C2 | by left | exact S2]].
  cbn [fst snd]. pose proof (cg_size _ _ _ _ _ _ C2) as Hz2.
  eapply wp_read_user_into; [exact C2 | lia | lia | lia |].
  intros w3 err2 bytes2 Hl2 _ C3.
  assert (slice (put (put buf (off + 32) bytes) (off + 32 + 24) bytes2) (off + 32) 24
    = user_bytes (calls w1) user_ptr 24) as S3 by (rewrite slice_put_before by lia; exact S2).
  destruct (err2 =? 0); wp_steps; (eapply H1; [exact C3 | | exact S3]); auto.
Qed.

Lemma capture_open_how_ok user_ptr len base :
  0 <= len ->
  tlv_capture_flags True (flags_from base) (fun fl => open_how_sections user_ptr len fl base)
    (PAYLOAD_TLV_HEADER_SIZE + OPENAT2_DIRECT_HOW_MAX)
    (capture_openat2_how_tlv_direct user_ptr len base).
Proof.
  intros Hlen w d buf off Hb Ho Hs. unfold capture_openat2_how_tlv_direct, open_how_sections.
  pose proof (capturing_start d off w buf Hb) as C0.
  destruct (Z.eqb_spec user_ptr 0), (Z.ltb_spec len 24); cbn [orb]; wp_steps;
    try (split_and!; [lia | lia | by left | reflexivity |]; intros _; by eapply decodable_0).
  rewrite payload_tlv_copy_len_min, payload_tlv_clamp_u32_min by lia.
  assert (forall w1 b copied probe, capturing d off (zlen buf) w w1 b ->
    (probe = 0 /\ (copied = 24 \/ copied = Z.min len 64) /\
       exists k, slice b (off + 32) 24 = user_bytes k user_ptr 24) \/ (copied = 0 /\ read_failed user_ptr probe) ->
    wp (let* event_flags := note_truncation copied probe (Z.min len 4294967295) base in
        let* size := finish_section (Some d) off
          (TlvHeader PAYLOAD_TLV_KIND_STRUCT 2 0 (Z.min len 4294967295) copied probe user_ptr) in
        ret (size, event_flags))
      (fun '(n, fl) w' => 0 <= n <= 32 + 64 /\ flags_from base fl /\ captures d off w w' /\
        (True -> decodable (one_section (open_how_section user_ptr len fl base)) d off n w')) w1) as Finish.
  { intros w1 b copied probe C1 Hcase. wp_step. pose proof (cg_size _ _ _ _ _ _ C1) as Hz.
    eapply wp_note_truncation; [exact C1|]. intros w2 C2. wp_step.
    set (fl := if _ && _ && _ then _ else _).
    assert (0 <= copied <= 64) by (destruct Hcase as [(_ & [->| ->] & _)|[-> _]]; lia).
    eapply wp_finish_section with (P := open_how_section user_ptr len fl base)
      (kind := PayloadKindStruct) (cap := 32 + 64);
      [exact C2 | lia | cbn; lia | lia | cbn; lia | done | |].
    - cbn [t_copied_len].
      assert (zlen (slice b (off + 32) copied) = copied) as Ld by (rewrite zlen_slice; lia).
      split; cbn; try done; [rewrite u32_small; lia|].
      destruct Hcase as [(-> & Hc & k & Hk)|[-> He]].
      + left. rewrite Ld, u32_small by lia. split_and!; [done | done | done | |].
        * exists k. rewrite slice_slice by lia. by rewrite Z.add_0_r.
        * subst fl. cbn. destruct (Z.ltb_spec 0 copied), (Z.ltb_spec copied (Z.min len 4294967295)),
            (Z.ltb_spec copied len); cbn; lia || done.
      + right. destruct He as [He Hf]. split_and!; try done; [|by exists probe]. subst fl.
        by destruct (probe =? 0).
    - intros sz w3 Hn3 C3 D3. wp_steps. split_and!; [lia | lia | | done | done].
      subst fl. unfold flags_from. destruct (_ && _ && _); auto. }
  eapply wp_copy_open_how; [exact C0 | lia | lia | lia | |]; intros w1 b.
  - intros k c C1 Hc Hk. eapply Finish; [exact C1|]. left. by split_and!; [| |exists k].
  - intros e C1 He. eapply Finish; [exact C1|]. by right.
Qed.

Lemma emit_openat2_exit_ok p rv dur :
  emitter (fun r => reads_pending_exit r p rv dur (decodes True (flags_from 0) (fun fl => appended
      (appended (one_section (path_section 4096 1 (arg1 (p_args p))))
         (open_how_sections (arg2 (p_args p)) (u64 (arg3 (p_args p))) fl 0))
      (when (0 <=? rv) (one_section (snapshot_section PayloadKindFDState
         PAYLOAD_TLV_FD_STATE_ARG_INDEX FD_STATE_SNAPSHOT_SIZE (fd_snapshot (s32 rv))))))))
    (emit_openat2_exit_event_v2_direct p rv dur).
Proof.
  pose proof (u64_range (arg3 (p_args p))) as [H3 _]. apply exit_flags_ok; [lia|].
  apply (flags_then_ok True _ _ _ ((32 + 4096) + (32 + 64)) (32 + 48)); [| | lia].
  - apply then_flags_ok; [apply capture_path_section_ok; lia | by apply capture_open_how_ok | lia].
  - apply capture_if_ok; [lia|]. apply capture_fd_state_ok, s32_range.
Qed.

Lemma emit_openat2_enter_ok pid tid sys_id ctx cfg ts :
  let args := args_u64 (enter_args ctx) in
  let fd_state := match cfg with Some c => has_flag c CONFIG_FD_STATE | None => false end in
  emitter (fun r => reads_enter r pid tid sys_id ts args 0 (-1) (-1)
      (decodes no_fault (flags_from EVENT_FLAG_GENERIC_ENTER) (fun fl => appended
         (appended (when fd_state (fd_path_sections (s32 (arg0 args)) 0))
            (one_section (path_section 4096 1 (arg1 args))))
         (open_how_sections (arg2 args) (arg3 args) fl EVENT_FLAG_GENERIC_ENTER))))
    (emit_openat2_enter_event_v2_direct pid tid sys_id ctx cfg ts).
Proof.
  intros args fd_state. unfold emit_openat2_enter_event_v2_direct. fold args fd_state.
  assert (0 <= arg3 args) by (pose proof (u64_range (arg3 (enter_args ctx))); cbn; lia).
  apply enter_emit_ok; [destruct fd_state; lia | | apply enter_ctx_body_ok |].
  - apply tlv_flags_payload_ok; [lia|].
    assert (tlv_capture_flags no_fault (flags_from EVENT_FLAG_GENERIC_ENTER) (fun fl => appended
         (appended (when fd_state (fd_path_sections (s32 (arg0 args)) 0))
            (one_section (path_section 4096 1 (arg1 args))))
         (open_how_sections (arg2 args) (arg3 args) fl EVENT_FLAG_GENERIC_ENTER))
      (((if fd_state then 592 else 0) + (32 + 4096)) + (32 + 64))
      (then_flags (both (capture_if fd_state (capture_fd_path_tlv_direct 0 (s32 (arg0 args))))
         (capture_openat2_path_tlv_direct (arg1 args)))
         (capture_openat2_how_tlv_direct (arg2 args) (arg3 args) EVENT_FLAG_GENERIC_ENTER))) as T.
    2: { eapply tlv_capture_flags_weaken; [| | |exact T]; auto. destruct fd_state; lia. }
    apply then_flags_ok; [| |lia].
    + apply both_ok; [| |lia].
      * destruct fd_state; [apply capture_fd_path_ok | by apply tlv_capture_none].
      * eapply (tlv_capture_weaken True); [done | | | apply (capture_path_section_ok 4096); lia]; done.
    + intros w d buf off Hb Ho Hs.
      eapply wp_mono; [eapply (capture_open_how_ok (arg2 args) (arg3 args) EVENT_FLAG_GENERIC_ENTER H); eauto|]. intros [n fl] w' (? & ? & ? & D).
      split_and!; try done; try lia. intros _. by apply D.
  - intros flags pl. apply (flags_from_not_compact EVENT_FLAG_GENERIC_ENTER); cbn; auto.
Qed.

(** ** [file_getattr] *)

Lemma capture_file_attr_base_ok arg_index user_ptr raw_size tlv_flags :
  file_attr_size_rejected raw_size = false -> In tlv_flags [0; PAYLOAD_TLV_FLAG_DIRECTION_OUT] ->
  tlv_capture True (one_section
      (struct_section (payloadDirectionFromTLV tlv_flags) arg_index user_ptr 24 24)) (32 + 24)
    (capture_file_attr_base_tlv_direct arg_index user_ptr raw_size tlv_flags).
Proof.
  intros Hr Ht w d buf off Hb Ho Hs. unfold capture_file_attr_base_tlv_direct. rewrite Hr.
  by eapply (capture_required_struct_ok 24).
Qed.

Definition file_attr_extension_ptr (user_ptr : Z) : Z :=
  if user_ptr =? 0 then 0 else u64 (user_ptr + FILE_ATTR_DIRECT_BASE_SIZE).
(** The extension of a structure that ends at the end of the address space. *)
Record wrapped_section (dir : PayloadDirection) (arg_index : Z) (s : PayloadSection) : Prop := WrappedSection {
  ws_kind : Kind s = PayloadKindBytes;
  ws_dir : Direction s = dir;
  ws_arg : ArgIndex s = u16 arg_index;
  ws_data : Data s = [] /\ ProbeRet s = -1 }.
Definition file_attr_extension_sections (dir : PayloadDirection) (arg_index user_ptr raw_size fl base : Z)
    (secs : list PayloadSection) : Prop :=
  if raw_size <=? FILE_ATTR_DIRECT_BASE_SIZE then secs = []
  else if negb (user_ptr =? 0) && (file_attr_extension_ptr user_ptr <? user_ptr)
  then fl = base /\ one_section (wrapped_section dir arg_index) secs
  else one_section (bytes_section dir arg_index FILE_ATTR_DIRECT_EXTENSION_MAX
         (file_attr_extension_ptr user_ptr) (raw_size - FILE_ATTR_DIRECT_BASE_SIZE) fl base) secs.

Lemma capture_file_attr_extension_ok arg_index user_ptr raw_size base tlv_flags :
  file_attr_size_rejected raw_size = false -> In tlv_flags [0; PAYLOAD_TLV_FLAG_DIRECTION_OUT] ->
  tlv_capture_flags True (flags_from base)
    (fun fl => file_attr_extension_sections (payloadDirectionFromTLV tlv_flags) arg_index user_ptr raw_size fl base)
    (32 + 256)
    (capture_file_attr_extension_tlv_direct arg_index user_ptr raw_size base tlv_flags).
Proof.
  unfold file_attr_size_rejected. intros [R1%Z.ltb_ge R2%Z.ltb_ge]%orb_false_iff Ht w d buf off Hb Ho Hs.
  assert (u16 tlv_flags = tlv_flags) as Hu by (cbn in Ht; by destruct Ht as [<-|[<-|[]]]).
  unfold capture_file_attr_extension_tlv_direct, file_attr_extension_sections.
  pose proof (capturing_start d off w buf Hb) as C0.
  destruct (Z.ltb_spec 4096 raw_size); [lia|]. rewrite orb_false_r.
  destruct (Z.leb_spec raw_size 24); wp_steps.
  { split_and!; [lia | lia | by left | reflexivity |]. intros _. by eapply decodable_0. }
  fold (file_attr_extension_ptr user_ptr). rewrite payload_tlv_copy_len_min by lia.
  set (len := raw_size - 24) in *. set (ptr := file_attr_extension_ptr user_ptr) in *.
  assert (forall w1 b copied probe, capturing d off (zlen buf) w w1 b ->
    (copied = Z.min len 256 /\ probe = 0 /\
       exists k, slice b (off + 32) copied = user_bytes k ptr copied) \/ (copied = 0 /\ read_failed ptr probe) ->
    wp (let* event_flags :=
          if (probe =? 0) && (copied <? payload_tlv_clamp_u32 len) then
            record_payload_truncated_event ;;; ret (Z.lor base EVENT_FLAG_TRUNCATED)
          else ret base in
        let* size := finish_section (Some d) off
          (TlvHeader PAYLOAD_TLV_KIND_BYTES arg_index tlv_flags
             (payload_tlv_clamp_u32 len) copied probe ptr) in
        ret (size, event_flags))
      (fun '(n, fl) w' => 0 <= n <= 32 + 256 /\ flags_from base fl /\ captures d off w w' /\
        (True -> decodable (one_section (bytes_section (payloadDirectionFromTLV tlv_flags) arg_index 256 ptr len fl base))
           d off n w')) w1) as Finish.
  { intros w1 b copied probe C1 Hcase. replace (zlen buf) with (zlen b) in * by apply C1.
    replace ((probe =? 0) && (copied <? payload_tlv_clamp_u32 len))
      with ((probe =? 0) && (0 <? copied) && (copied <? payload_tlv_clamp_u32 len)).
    - eapply (wp_finish_bytes (payloadDirectionFromTLV tlv_flags));
        [done | exact Ht | exact C1 | lia | exact Hs | lia | lia | | exact Hcase].
      destruct Hcase as [(-> & _)|[-> _]]; lia.
    - destruct Hcase as [(-> & -> & _)|[-> [He _]]]; [|by destruct (Z.eqb_spec probe 0); [lia|]].
      destruct (Z.ltb_spec 0 (Z.min len 256)); [done|lia]. }
  destruct (Z.eqb_spec user_ptr 0) as [E0|E0]; cbn [orb andb negb].
  { wp_step. eapply Finish; [exact C0|]. right. split; [done|].
    apply failed_null; [|done]. subst ptr. unfold file_attr_extension_ptr. by rewrite E0. }
  destruct (ptr <? user_ptr).
  { wp_steps. cbn [Z.eqb andb]. wp_steps.
    eapply wp_fail_section with (P := wrapped_section (payloadDirectionFromTLV tlv_flags) arg_index) (cap := 32 + 256);
      [exact C0 | lia | lia | exact Hs | done | done | by split; [|cbn; rewrite Hu|..] |].
    intros n w' Hn C D. wp_steps. split_and!; [lia | lia | by left | done |]. intros _.
    destruct D as (b & secs & ? & ? & ?). by exists b, secs. }
  eapply wp_copy_user_struct; [exact C0 | lia | lia | lia | |]; intros w1 b.
  - intros k C1 Hk. eapply Finish; [exact C1|]. left. by split_and!; [..|exists k].
  - intros e C1 He. eapply Finish; [exact C1|]. by right.
Qed.

Definition file_attr_sections (dir : PayloadDirection) (arg_index user_ptr raw_size fl base : Z) (secs : list PayloadSection)
    : Prop :=
  if file_attr_size_rejected raw_size then secs = []
  else appended (one_section (struct_section dir arg_index user_ptr 24 24))
         (file_attr_extension_sections dir arg_index user_ptr raw_size fl base) secs \/
       (secs = [] /\ ~ no_fault).

Lemma capture_file_attr_ok arg_index user_ptr raw_size base tlv_flags :
  In tlv_flags [0; PAYLOAD_TLV_FLAG_DIRECTION_OUT] ->
  tlv_capture_flags True (flags_from base)
    (fun fl => file_attr_sections (payloadDirectionFromTLV tlv_flags) arg_index user_ptr raw_size fl base) (32 + 390)
    (capture_file_attr_tlvs_direct arg_index user_ptr raw_size base tlv_flags).
Proof.
  intros Ht w d buf off Hb Ho Hs. unfold capture_file_attr_tlvs_direct, file_attr_sections.
  destruct (file_attr_size_rejected raw_size) eqn:R; wp_steps.
  { split_and!; [lia | lia | by left | reflexivity |]. intros _. exists buf, []. by rewrite slice_0. }
  eapply wp_mono; [eapply (capture_file_attr_base_ok arg_index user_ptr raw_size _ R Ht); [exact Hb | lia | lia]|].
  intros n w1 (Hn & C1 & D1). cbv beta.
  destruct (proj1 (proj2 C1) _ Hb) as (b1 & E1 & L1 & _).
  assert (reserved w1 !! d = Some b1) as Hb1 by (by rewrite E1, lookup_insert_eq).
  assert (zlen b1 = zlen buf) as Z1 by (unfold zlen; by rewrite L1).
  destruct (Z.eqb_spec n 0) as [->|]; wp_steps.
  - split_and!; [lia | lia | by left | done |]. intros _. destruct (D1 I) as (b & secs & ? & E & [(s & -> & _)|[-> NF]]).
    + rewrite slice_0 in E. done.
    + exists b, []. split_and!; [done | done |]. by right.
  - eapply wp_mono; [eapply (capture_file_attr_extension_ok arg_index user_ptr raw_size base _ R Ht);
      [exact Hb1 | lia | lia]|].
    intros [m fl] w2 (Hm & HF & C2 & D2). wp_steps. split_and!; [lia | lia | done | |].
    + etrans; [exact C1|]. eapply captures_mono; [|exact C2]. lia.
    + intros _. destruct (decodable_app _ _ d off n m w1 w2 ltac:(lia) ltac:(lia) ltac:(lia) (D1 I) C2 (D2 I))
        as (b & secs & ? & ? & ?). exists b, secs. auto.
Qed.

(** ** Other structures *)

Lemma misc_sizes sys_id :
  0 <= misc_struct_read_size sys_id <= misc_struct_direct_size sys_id /\
  misc_struct_direct_size sys_id <= 390.
Proof.
  unfold misc_struct_read_size, misc_struct_direct_size.
  destruct (one_of sys_id [SYS_FILE_GETATTR]) eqn:E.
  - rewrite !(one_of_disjoint _ _ _ E) by done. lia.
  - destruct (one_of sys_id [SYS_UNAME]), (one_of sys_id [SYS_SYSINFO]); lia.
Qed.

Lemma capture_misc_struct_ok sys_id arg_index user_ptr tlv_flags :
  In tlv_flags [0; PAYLOAD_TLV_FLAG_DIRECTION_OUT] ->
  tlv_capture True (unless_null user_ptr (struct_section (payloadDirectionFromTLV tlv_flags) arg_index
      user_ptr (misc_struct_read_size sys_id) (misc_struct_direct_size sys_id))) (32 + 390)
    (capture_misc_struct_tlv_direct sys_id arg_index user_ptr tlv_flags).
Proof.
  intros Ht. destruct (misc_sizes sys_id). apply capture_struct_section_ok; [lia | lia | done].
Qed.

Lemma emit_misc_struct_enter_ok pid tid sys_id ctx ts :
  let idx := if one_of sys_id [SYS_PRLIMIT64] then 2 else 1 in
  let user_ptr := arg (args_u64 (enter_args ctx)) idx in
  emitter (fun r => reads_capture_enter r pid tid sys_id ctx ts (-1)
      (unless_null user_ptr (struct_section PayloadDirectionIn idx user_ptr
         (misc_struct_read_size sys_id) (misc_struct_direct_size sys_id))))
    (emit_misc_struct_enter_event_v2_direct pid tid sys_id ctx ts).
Proof.
  unfold emit_misc_struct_enter_event_v2_direct.
  destruct (one_of sys_id [SYS_PRLIMIT64]);
    (apply enter_capture_ok; [lia|]; apply (capture_misc_struct_ok _ _ _ 0); cbn; auto).
Qed.

(** The structures [misc_struct] syscalls return. *)
Definition misc_struct_sections (p : pending_syscall) (fl : Z) (secs : list PayloadSection) : Prop :=
  let idx := misc_struct_exit_arg_index (p_sys_id p) in
  let user_ptr := misc_struct_exit_user_ptr p in
  if one_of (p_sys_id p) [SYS_FILE_GETATTR]
  then file_attr_sections PayloadDirectionOut idx user_ptr (arg3 (p_args p)) fl 0 secs
  else unless_null user_ptr (struct_section PayloadDirectionOut idx user_ptr
         (misc_struct_read_size (p_sys_id p)) (misc_struct_direct_size (p_sys_id p))) secs.

Lemma emit_misc_struct_exit_ok p rv dur :
  emitter (fun r => reads_pending_exit r p rv dur (decodes True (flags_from 0) (misc_struct_sections p)))
    (emit_misc_struct_exit_event_v2_direct p rv dur).
Proof.
  apply exit_flags_ok; [lia|]. unfold capture_misc_struct_exit, misc_struct_sections.
  destruct (one_of (p_sys_id p) [SYS_FILE_GETATTR]); [by apply (capture_file_attr_ok _ _ _ _ PAYLOAD_TLV_FLAG_DIRECTION_OUT); right; left|].
  eapply tlv_capture_flags_weaken; [reflexivity | | |].
  3: { eapply tlv_capture_flags_const, (capture_misc_struct_ok _ _ _ PAYLOAD_TLV_FLAG_DIRECTION_OUT).
       cbn. auto. }
  - intros fl <-. by left.
  - done.
Qed.

(** ** Descriptor pairs *)

(** The section of the array: the eight bytes the kernel stored, or nothing. *)
Record fd_array_section (p : pending_syscall) (probe : Z) (fds : list Z) (s : PayloadSection) : Prop :=
  FdArraySection {
    fa_kind : Kind s = PayloadKindStruct;
    fa_dir : Direction s = PayloadDirectionOut;
    fa_arg : ArgIndex s = fd_array_direct_arg_index (p_sys_id p);
    fa_ptr : UserPtr s = u64 (fd_array_direct_user_ptr p);
    fa_len : UserLen s = FD_ARRAY_DIRECT_SIZE;
    fa_data : (probe = 0 /\ ProbeRet s = 0 /\ Data s = fds) \/
              (Data s = [] /\ (probe <> 0 \/ ~ no_fault)) }.

Lemma capture_fd_array_tlv_ok p fds probe :
  zlen fds = 8 ->
  tlv_capture True (one_section (fd_array_section p probe fds)) (32 + 8) (capture_fd_array_tlv_direct p fds probe).
Proof.
  intros Hl w d buf off Hb Ho Hs. unfold capture_fd_array_tlv_direct. wp_step.
  pose proof (capturing_start d off w buf Hb) as C0.
  assert (u16 (fd_array_direct_arg_index (p_sys_id p)) = fd_array_direct_arg_index (p_sys_id p)) as Hu
    by (unfold fd_array_direct_arg_index; by destruct (one_of _ _)).
  assert (forall w1 b e, capturing d off (zlen buf) w w1 b ->
    probe <> 0 \/ ~ no_fault ->
    wp (finish_section (Some d) off (TlvHeader PAYLOAD_TLV_KIND_STRUCT
          (fd_array_direct_arg_index (p_sys_id p)) 1 8 0 e (fd_array_direct_user_ptr p)))
      (fun n w' => 0 <= n <= 32 + 8 /\ captures d off w w' /\
        (True -> decodable (one_section (fd_array_section p probe fds)) d off n w')) w1) as Fail.
  { intros w1 b e C1 Hc. eapply wp_fail_section with (P := fd_array_section p probe fds) (cap := 32 + 8);
      [exact C1 | lia | lia | exact Hs | done | done | | by intros].
    split; cbn; try done. by right. }
  destruct (Z.eqb_spec probe 0) as [->|]; wp_steps; [|eapply Fail; [exact C0 | by left]].
  eapply wp_dynptr_write; [exact C0 | lia | lia | |]; intros w1; cbn [Z.ltb Z.compare].
  - intros C1. wp_steps.
    eapply wp_finish_section with (P := fd_array_section p 0 fds) (kind := PayloadKindStruct) (cap := 32 + 8);
      [exact C1 | lia | cbn; lia | exact Hs | cbn; lia | done | | by intros].
    cbn [t_copied_len]. rewrite <- Hl. rewrite slice_put_same by lia.
    split; cbn; try done; [by rewrite Hl | by left].
  - intros NF C1. wp_step. eapply wp_copy_fail; [exact C1 | exact NF |]. intros _ w2 C2. wp_steps.
    eapply Fail; [exact C2 | by right].
Qed.

(** The snapshot of one descriptor of the pair. *)
Definition fd_state_of (fd : Z) : list PayloadSection -> Prop :=
  one_section (snapshot_section PayloadKindFDState PAYLOAD_TLV_FD_STATE_ARG_INDEX
    FD_STATE_SNAPSHOT_SIZE (fd_snapshot fd)).
Definition fd_state_pair (fds : list Z) (secs : list PayloadSection) : Prop :=
  appended (fd_state_of (fd_array_value fds 0)) (fd_state_of (fd_array_value fds 1)) secs \/
  (secs = [] /\ ~ no_fault).

Lemma capture_fd_state_pair_ok fds :
  tlv_capture True (fd_state_pair fds) (2 * (32 + 48)) (capture_fd_state_array_tlvs_direct fds).
Proof.
  intros w d buf off Hb Ho Hs. unfold capture_fd_state_array_tlvs_direct, fd_array_value. wp_step.
  eapply wp_mono; [eapply (capture_fd_state_ok _ (s32_range _)); [exact Hb | lia | lia]|].
  intros n w1 (Hn & C1 & D1). cbv beta.
  destruct (proj1 (proj2 C1) _ Hb) as (b1 & E1 & L1 & _).
  assert (reserved w1 !! d = Some b1) as Hb1 by (by rewrite E1, lookup_insert_eq).
  assert (zlen b1 = zlen buf) as Z1 by (unfold zlen; by rewrite L1).
  destruct (Z.eqb_spec n 0) as [->|]; wp_steps.
  - split_and!; [lia | lia | done |]. intros _.
    destruct (D1 I) as (b & secs & Hbb & E & [(s & -> & _)|[-> NF]]); [by rewrite slice_0 in E|].
    exists b, []. split_and!; [done | done |]. by right.
  - eapply wp_mono; [eapply (capture_fd_state_ok _ (s32_range _)); [exact Hb1 | lia | lia]|].
    intros m w2 (Hm & C2 & D2). cbv beta.
    assert (captures d off w w2) as C by (etrans; [exact C1 | eapply captures_mono; [|exact C2]; lia]).
    destruct (decodable_app _ _ d off n m w1 w2 ltac:(lia) ltac:(lia) ltac:(lia) (D1 I) C2 (D2 I))
      as (b & secs & ? & ? & ?).
    destruct (Z.eqb_spec m 0) as [->|]; wp_steps;
      (split_and!; [lia | lia | done |]; intros _; exists b, secs; rewrite ?Z.add_0_r in *; split; [done|]; split; [done|]; left; assumption).
Qed.

(** All the sections of a descriptor pair: the array as read, and, when it
    could be read, the snapshots of both descriptors. *)
Definition fd_array_sections (p : pending_syscall) (secs : list PayloadSection) : Prop :=
  if fd_array_direct_user_ptr p =? 0 then secs = []
  else exists err fds,
    ((err = 0 /\ exists k, fds = user_bytes k (fd_array_direct_user_ptr p) 8) \/
     read_failed (fd_array_direct_user_ptr p) err) /\
    appended (one_section (fd_array_section p (s32 err) fds))
      (fun s => (s32 err = 0 /\ fd_state_pair fds s) \/ (s = [] /\ (s32 err = 0 -> ~ no_fault))) secs.

Lemma capture_fd_array_exit_ok p :
  tlv_capture True (fd_array_sections p) FD_ARRAY_DIRECT_PAYLOAD_CAPACITY (capture_fd_array_exit p).
Proof.
  intros w d buf off Hb Ho Hs. unfold capture_fd_array_exit, fd_array_sections.
  destruct (Z.eqb_spec (fd_array_direct_user_ptr p) 0); wp_steps.
  { split_and!; [lia | lia | reflexivity |]. intros _. exists buf, []. by rewrite slice_0. }
  unfold read_fd_array_values_direct. wp_step.
  pose proof (probe_read_user_result 8 (fd_array_direct_user_ptr p) w) as R.
  pose proof (bpf_probe_read_user_quiet 8 (fd_array_direct_user_ptr p) w) as Q1.
  unfold wp at 1. destruct (bpf_probe_read_user 8 _ w) as [[err fds] w1]. cbn [fst snd] in *.
  destruct (R ltac:(lia)) as [Hl Hr]. wp_steps.
  assert (reserved w1 !! d = Some buf) as Hb1 by (by rewrite (oc_reserved _ _ (proj1 Q1))).
  pose proof (quiet_captures d off _ _ Q1) as C1.
  eapply wp_mono; [eapply (capture_fd_array_tlv_ok p fds (s32 err) Hl); [exact Hb1 | lia | lia]|].
  intros n1 w2 (Hn & C2 & D2). cbv beta.
  destruct (proj1 (proj2 C2) _ Hb1) as (b2 & E2 & L2 & _).
  assert (reserved w2 !! d = Some b2) as Hb2 by (by rewrite E2, lookup_insert_eq).
  assert (zlen b2 = zlen buf) as Z2 by (unfold zlen; by rewrite L2).
  assert (forall secs, appended (one_section (fd_array_section p (s32 err) fds))
      (fun s => (s32 err = 0 /\ fd_state_pair fds s) \/ (s = [] /\ (s32 err = 0 -> ~ no_fault))) secs ->
    exists err fds, ((err = 0 /\ exists k, fds = user_bytes k (fd_array_direct_user_ptr p) 8) \/
        read_failed (fd_array_direct_user_ptr p) err) /\
      appended (one_section (fd_array_section p (s32 err) fds))
      (fun s => (s32 err = 0 /\ fd_state_pair fds s) \/ (s = [] /\ (s32 err = 0 -> ~ no_fault))) secs) as Wrap.
  { intros secs H. exists err, fds. split; [|done].
    destruct Hr as [[-> ->]|[? _]]; [left; split; [done | by eexists] | by right]. }
  wp_step. destruct (Z.eqb_spec (s32 err) 0) as [E0|E0]; cbn [andb].
  - destruct (Z.ltb_spec 0 n1).
    + eapply wp_mono; [eapply (capture_fd_state_pair_ok fds); [exact Hb2 | lia | lia]|].
      intros m w3 (Hm & C3 & D3). wp_steps. split_and!; [lia | lia | |].
      * do 2 (etrans; [eassumption|]). eapply captures_mono; [|exact C3]. lia.
      * intros _. destruct (decodable_app _ _ d off n1 m w2 w3 ltac:(lia) ltac:(lia) ltac:(lia) (D2 I) C3 (D3 I))
          as (b & secs & Hbb & E & (s1 & s2 & -> & P1 & P2)).
        exists b, (s1 ++ s2). split_and!; [done | done |]. apply Wrap. exists s1, s2. auto.
    + wp_steps. split_and!; [lia | lia | by etrans |]. intros _. rewrite Z.add_0_r.
      destruct (D2 I) as (b & secs & Hbb & E & [(s & -> & _)|[-> NF]]).
      { replace n1 with 0 in E by lia. by rewrite slice_0 in E. }
      exists b, []. split_and!; [done | done |]. apply Wrap. exists [], []. split_and!; [done | by right | by right].
  - wp_steps. split_and!; [lia | lia | by etrans |]. intros _. rewrite Z.add_0_r.
    destruct (D2 I) as (b & secs & Hbb & E & P). exists b, secs. split_and!; [done | done |].
    apply Wrap. exists secs, []. split_and!; [by rewrite app_nil_r | done | by right].
Qed.

Lemma emit_fd_array_exit_ok p rv dur :
  emitter (fun r => reads_capture_exit r p rv dur (when (rv =? 0) (fd_array_sections p)))
    (emit_fd_array_exit_event_v2_direct p rv dur).
Proof. apply exit_capture_ok; [lia|]. apply capture_if_ok; [lia | apply capture_fd_array_exit_ok]. Qed.

(** Return values are [s64] and arguments [u64] in the code. *)
Lemma emit_getcwd_exit_emits p z dur : keeps emits (emit_getcwd_exit_event_v2_direct p (s64 z) dur).
Proof. eapply emitter_keeps, emit_getcwd_exit_ok. apply s64_range. Qed.
Lemma emit_readlink_exit_emits p z dur : keeps emits (emit_readlink_exit_event_v2_direct p (s64 z) dur).
Proof. eapply emitter_keeps, emit_readlink_exit_ok. apply s64_range. Qed.
End MiscLemmas.

#[export] Hint Resolve emit_openat2_enter_ok emit_openat2_exit_ok emit_misc_struct_enter_ok emit_misc_struct_exit_ok
  emit_fd_array_exit_ok : emitters.
#[export] Hint Resolve emit_getcwd_exit_emits emit_readlink_exit_emits : keeps.
