(* ===== verification/Captures.v ===== *)
(** Captures the structured families share.

    The headers of the control, descriptor, file-system and network families
    repeat a few captures with their own sizes and names: a string, a
    structure, a buffer whose length the caller states.  This file has one
    definition for each shape, the way to chain captures that update the event
    flags, and their contracts. *)
From stdpp Require Import base list gmap numbers.
From S2P Require Import Prelude Syscalls Abi Kernel Consumer Stats Tlv Emit Decoder EventCore Payload Structs FdPath Paths Misc.

Section Captures.
Context {K : Kernel} {A : Arch}.

(** A user string of at most [max] bytes with its terminator; nothing for a null pointer. *)
Definition capture_string_section (max arg_index user_ptr : Z) (ptr : dynptr) (payload_offset : Z)
    : prog Z :=
  if user_ptr =? 0 then ret 0
  else capture_path_section max arg_index user_ptr ptr payload_offset.

(** The first bytes of a buffer of [requested] bytes, in a slot of [slot] bytes: the copy,
    the truncation flag and the header. *)
Definition capture_buffer (kind slot arg_index tlv_flags user_ptr requested event_flags : Z)
    (ptr : dynptr) (payload_offset : Z) : prog (Z * Z) :=
  let user_len := payload_tlv_clamp_u32 requested in
  let copied_len := payload_tlv_copy_len requested slot in
  let* (copied_len, probe_ret) :=
    copy_user_struct ptr (payload_offset + PAYLOAD_TLV_HEADER_SIZE) slot copied_len copied_len
      user_ptr in
  let* event_flags := note_truncation copied_len probe_ret user_len event_flags in
  let* size := finish_section ptr payload_offset
    (TlvHeader kind arg_index tlv_flags user_len copied_len probe_ret user_ptr) in
  ret (size, event_flags).

(** The same; nothing for a null pointer or an empty buffer. *)
Definition capture_buffer_section (kind slot arg_index tlv_flags user_ptr requested event_flags : Z)
    (ptr : dynptr) (payload_offset : Z) : prog (Z * Z) :=
  if (user_ptr =? 0) || (payload_tlv_clamp_u32 requested =? 0) then ret (0, event_flags)
  else capture_buffer kind slot arg_index tlv_flags user_ptr requested event_flags ptr payload_offset.

(** [payload_size = f(..., &flags); payload_size += g(..., &flags);]. *)
Definition flags_both (f : Z -> dynptr -> Z -> prog (Z * Z)) (g : Z -> dynptr -> Z -> prog (Z * Z))
    (event_flags : Z) (ptr : dynptr) (off : Z) : prog (Z * Z) :=
  let* (n, event_flags) := f event_flags ptr off in
  let* (m, event_flags) := g event_flags ptr (off + n) in
  ret (n + m, event_flags).

(** A capture that leaves the event flags alone, where others may change them. *)
Definition same_flags (f : dynptr -> Z -> prog Z) (event_flags : Z) (ptr : dynptr) (off : Z)
    : prog (Z * Z) :=
  let* n := f ptr off in
  ret (n, event_flags).

Definition no_capture (event_flags : Z) (ptr : dynptr) (off : Z) : prog (Z * Z) :=
  ret (0, event_flags).

(** An entry event built from the tracepoint context whose capture may flag a truncation. *)
Definition enter_flags_emit (cap pid tid sys_id : Z) (ctx : trace_event_raw_sys_enter)
    (ts_ns probe_ret_enter : Z) (capture : Z -> dynptr -> Z -> prog (Z * Z)) : prog unit :=
  enter_emit cap pid tid sys_id ts_ns
    (fun ptr => let* (n, flags) := capture EVENT_FLAG_GENERIC_ENTER ptr enter_payload_offset in
                ret (tlv_flag flags n, n))
    (enter_ctx_body ctx probe_ret_enter).
(** [cfg && ( *cfg & CONFIG_FD_STATE)]. *)
Definition fd_state_enabled (cfg : option Z) : bool :=
  match cfg with Some c => has_flag c CONFIG_FD_STATE | None => false end.

(** An entry event with the paths of the descriptor arguments when descriptors are followed,
    then a capture of at most [size] bytes of data. *)
Definition emit_fd_paths_then (size : Z) (capture : args6 -> dynptr -> Z -> prog Z) (pid tid sys_id : Z)
    (ctx : trace_event_raw_sys_enter) (cfg : option Z) (ts_ns : Z) : prog unit :=
  let* scratch := lookup_fd_path_scratch in
  match scratch with
  | None => ret tt
  | Some s =>
      let args := copy_syscall_enter_args ctx in
      put_fd_path_scratch (scratch_set_args s args) ;;;
      let fd_path_capacity := if fd_state_enabled cfg then fd_path_payload_capacity sys_id else 0 in
      enter_emit (fd_path_capacity + (PAYLOAD_TLV_HEADER_SIZE + size)) pid tid sys_id ts_ns
        (fun ptr =>
           let* n := both (capture_if (0 <? fd_path_capacity) (capture_fd_paths_tlv_direct sys_id args))
                       (capture args) ptr enter_payload_offset in
           ret (tlv_flag EVENT_FLAG_GENERIC_ENTER n, n))
        (enter_body args 0 (-1))
  end.

(** A truncation noted when fewer bytes than the user's were copied, even none. *)
Definition note_short_copy (copied_len probe_ret user_len event_flags : Z) : prog Z :=
  if (probe_ret =? 0) && (copied_len <? user_len) then
    record_payload_truncated_event ;;; ret (Z.lor event_flags EVENT_FLAG_TRUNCATED)
  else ret event_flags.

(** A 32-bit word read into a local variable, then its header and its bytes: the size of the
    section, the word, and the result of the read. *)
Definition capture_word_section (arg_index tlv_flags user_ptr : Z) (ptr : dynptr) (payload_offset : Z)
    : prog (Z * Z * Z) :=
  let* (err, value) := bpf_probe_read_user 4 user_ptr in
  let copied_len := if err <? 0 then 0 else 4 in
  let word := if err <? 0 then 0 else le_val value in
  let probe_ret := if err <? 0 then err else 0 in
  let* ok := payload_tlv_write_header_direct ptr payload_offset
    (TlvHeader PAYLOAD_TLV_KIND_STRUCT arg_index tlv_flags 4 copied_len probe_ret user_ptr) in
  if negb ok then ret (0, word, probe_ret)
  else
    let* written :=
      if 0 <? copied_len then bpf_dynptr_write ptr (payload_offset + PAYLOAD_TLV_HEADER_SIZE) value
      else ret 0 in
    if written <? 0 then record_ringbuf_copy_fail ;;; ret (0, word, probe_ret)
    else ret (PAYLOAD_TLV_HEADER_SIZE + copied_len, word, probe_ret).

(** A buffer behind a structure, at [extension_ptr]; [wrapped] when that address has overflowed.
    [early] tells whether the overflow is looked at before the record. *)
Definition copy_extension (early wrapped : bool) (ptr : dynptr) (data_offset slot copied_len extension_ptr : Z)
    : prog (Z * Z) :=
  if early && wrapped then ret (0, -1)
  else
    let* payload_data := bpf_dynptr_data ptr data_offset slot in
    match payload_data with
    | None => record_ringbuf_copy_fail ;;; ret (0, -1)
    | Some data =>
        if wrapped then ret (0, -1)
        else
          let* err := read_user_into data copied_len extension_ptr in
          if err <? 0 then ret (0, err) else ret (copied_len, 0)
    end.

Definition capture_extension (early wrapped : bool) (slot arg_index tlv_flags extension_ptr len event_flags : Z)
    (ptr : dynptr) (payload_offset : Z) : prog (Z * Z) :=
  let user_len := payload_tlv_clamp_u32 len in
  let copied_len := payload_tlv_copy_len len slot in
  let* (copied_len, probe_ret) :=
    copy_extension early wrapped ptr (payload_offset + PAYLOAD_TLV_HEADER_SIZE) slot copied_len extension_ptr in
  let* event_flags := note_short_copy copied_len probe_ret user_len event_flags in
  let* size := finish_section ptr payload_offset
    (TlvHeader PAYLOAD_TLV_KIND_BYTES arg_index tlv_flags user_len copied_len probe_ret extension_ptr) in
  ret (size, event_flags).
End Captures.

(** ** Contracts *)

Section CaptureLemmas.
Context {K : Kernel} {A : Arch}.

(** A section whose length as stated by the user, data and probe result are related by [D]. *)
Record section_with (kind : PayloadKind) (dir : PayloadDirection) (arg_index user_ptr : Z)
    (D : Z -> list Z -> Z -> Prop) (s : PayloadSection) : Prop := SectionWith {
  sw_kind : Kind s = kind;
  sw_dir : Direction s = dir;
  sw_arg : ArgIndex s = u16 arg_index;
  sw_ptr : UserPtr s = u64 user_ptr;
  sw_len : CopiedLen s = zlen (Data s);
  sw_data : exists e, ProbeRet s = s32 e /\ D (UserLen s) (Data s) e }.

(** The bytes of the user's [n] bytes at [user_ptr], or nothing and the error of the probe. *)
Definition copied (user_ptr n : Z) (data : list Z) (e : Z) : Prop :=
  (e = 0 /\ exists k, data = user_bytes k user_ptr n) \/ (data = [] /\ read_failed user_ptr e).

Lemma wp_finish_with D kind tlv_kind dir tlv_flags arg_index user_ptr ulen n e cap d off size w0 w b :
  capturing d off size w0 w b -> 0 <= off -> off + cap <= size ->
  0 <= n < 2 ^ 31 -> PAYLOAD_TLV_HEADER_SIZE + n <= cap -> 0 <= ulen < 2 ^ 32 ->
  payloadKindFromTLV (u16 tlv_kind) = Some kind -> payloadDirectionFromTLV (u16 tlv_flags) = dir ->
  D ulen (slice b (off + PAYLOAD_TLV_HEADER_SIZE) n) e ->
  wp (finish_section (Some d) off (TlvHeader tlv_kind arg_index tlv_flags ulen n e user_ptr))
    (fun n w' => 0 <= n <= cap /\ captures d off w0 w' /\
       (True -> decodable (one_section (section_with kind dir arg_index user_ptr D)) d off n w')) w.
Proof.
  intros C Ho Hs Hn Hc Hu Hk Hd HD. pose proof (cg_size _ _ _ _ _ _ C) as Hz.
  eapply wp_finish_section with (kind := kind) (cap := cap) (P := section_with kind dir arg_index user_ptr D);
    [exact C | lia | cbn; lia | exact Hs | cbn; lia | exact Hk | | by intros].
  cbn [t_copied_len]. split; cbn; try done.
  - by rewrite u32_small, zlen_slice by lia.
  - exists e. by rewrite (u32_small ulen) by lia.
Qed.

(** The tail of a capture that may flag a truncation. *)
Lemma wp_finish_flags D kind tlv_kind dir tlv_flags arg_index user_ptr ulen n e base cap d off size w0 w b :
  capturing d off size w0 w b -> 0 <= off -> off + cap <= size ->
  0 <= n < 2 ^ 31 -> PAYLOAD_TLV_HEADER_SIZE + n <= cap -> 0 <= ulen < 2 ^ 32 ->
  payloadKindFromTLV (u16 tlv_kind) = Some kind -> payloadDirectionFromTLV (u16 tlv_flags) = dir ->
  let fl := if (e =? 0) && (0 <? n) && (n <? ulen) then Z.lor base EVENT_FLAG_TRUNCATED else base in
  D fl ulen (slice b (off + PAYLOAD_TLV_HEADER_SIZE) n) e ->
  wp (let* event_flags := note_truncation n e ulen base in
      let* size := finish_section (Some d) off
        (TlvHeader tlv_kind arg_index tlv_flags ulen n e user_ptr) in
      ret (size, event_flags))
    (fun '(n, fl) w' => 0 <= n <= cap /\ flags_from base fl /\ captures d off w0 w' /\
       (True -> decodable (one_section (section_with kind dir arg_index user_ptr (D fl))) d off n w')) w.
Proof.
  intros C Ho Hs Hn Hc Hu Hk Hd fl HD. wp_step.
  eapply wp_note_truncation; [exact C|]. intros w1 C1. fold fl. wp_step.
  eapply wp_mono; [eapply (wp_finish_with (D fl)); [exact C1|..]; eassumption|].
  intros m w2 (? & ? & ?). wp_steps. split_and!; [lia | lia | | done | done].
  subst fl. unfold flags_from. destruct (_ && _ && _); auto.
Qed.

(** ** Strings *)

Lemma slice_prefix (l l' : list Z) n : n = zlen l -> slice (l ++ l') 0 n = l.
Proof.
  intros ->. unfold slice, zlen. rewrite drop_0, Nat2Z.id. apply take_app_length.
Qed.

Lemma zlen_user_bytes k user_ptr n : 0 <= n -> zlen (user_bytes k user_ptr n) = n.
Proof. intros. unfold zlen, user_bytes. rewrite length_map, length_seq. lia. Qed.

(** [n + 1] copied bytes of a string are [n] bytes and the terminator. *)
Lemma user_bytes_prefix k user_ptr m n :
  0 <= m <= n -> slice (user_bytes k user_ptr n) 0 m = user_bytes k user_ptr m.
Proof.
  intros Hm. unfold slice, user_bytes. rewrite drop_0, <- fmap_take. unfold fmap.
  rewrite take_seq. repeat f_equal. lia.
Qed.

Lemma full_string k user_ptr n bytes :
  0 <= n -> bytes = until_nul (user_bytes k user_ptr n) ++ [0] -> zlen bytes = n + 1 ->
  bytes = user_bytes k user_ptr n ++ [0].
Proof.
  intros Hn -> H. f_equal. apply until_nul_full. rewrite zlen_app in H.
  pose proof (zlen_user_bytes k user_ptr n Hn) as L. unfold zlen in *. cbn in H. lia.
Qed.

Lemma capture_string_ok max arg_index user_ptr :
  1 <= max < 2 ^ 31 ->
  tlv_capture True (unless_null user_ptr (path_section max arg_index user_ptr))
    (PAYLOAD_TLV_HEADER_SIZE + max) (capture_string_section max arg_index user_ptr).
Proof.
  intros Hm. unfold unless_null. destruct (user_ptr =? 0) eqn:E.
  - apply tlv_capture_none; [lia | done |]. intros. unfold capture_string_section. by rewrite E.
  - intros w d buf off Hb Ho Hs. unfold capture_string_section. rewrite E.
    by apply (capture_path_section_ok max arg_index user_ptr Hm w d buf off).
Qed.

(** ** Buffers *)

(** What a buffer of [len] bytes leaves in a slot of [slot] bytes, with the event flags [fl]. *)
Definition buffer_data (slot user_ptr len base fl : Z) (ulen : Z) (data : list Z) (e : Z) : Prop :=
  ulen = Z.min len 0xffffffff /\ copied user_ptr (Z.min len slot) data e /\
  fl = if (e =? 0) && (slot <? len) then Z.lor base EVENT_FLAG_TRUNCATED else base.
Definition buffer_section (kind : PayloadKind) (dir : PayloadDirection) (slot arg_index user_ptr len base fl : Z)
    : PayloadSection -> Prop :=
  section_with kind dir arg_index user_ptr (buffer_data slot user_ptr len base fl).

Lemma capture_buffer_ok kind tlv_kind slot arg_index tlv_flags user_ptr len base :
  payloadKindFromTLV (u16 tlv_kind) = Some kind -> In tlv_flags [0; PAYLOAD_TLV_FLAG_DIRECTION_OUT] ->
  0 < slot < 2 ^ 31 -> 0 <= len ->
  tlv_capture_flags True (flags_from base)
    (fun fl => one_section (buffer_section kind (payloadDirectionFromTLV tlv_flags) slot arg_index user_ptr len base fl))
    (PAYLOAD_TLV_HEADER_SIZE + slot)
    (capture_buffer tlv_kind slot arg_index tlv_flags user_ptr len base).
Proof.
  intros Hk Ht Hs Hl w d buf off Hb Ho Hsz. unfold capture_buffer. cbv zeta. wp_step.
  rewrite payload_tlv_copy_len_min, payload_tlv_clamp_u32_min by lia.
  assert (payloadDirectionFromTLV (u16 tlv_flags) = payloadDirectionFromTLV tlv_flags) as Hd
    by (cbn in Ht; by destruct Ht as [<-|[<-|[]]]).
  eapply wp_copy_user_struct; [exact (capturing_start d off w buf Hb) | lia | lia | lia | |];
    intros w1 b.
  - intros k C1 Hk1. cbv beta iota.
    eapply (wp_finish_flags (buffer_data slot user_ptr len base)); [exact C1|..]; try done; try lia.
    split; [done|]. split; [left; split; [done|]; by exists k|].
    cbn [Z.eqb andb].
    destruct (Z.ltb_spec 0 (Z.min len slot)), (Z.ltb_spec (Z.min len slot) (Z.min len 4294967295)),
      (Z.ltb_spec slot len); cbn; lia || done.
  - intros e C1 He. cbv beta iota.
    eapply (wp_finish_flags (buffer_data slot user_ptr len base)); [exact C1|..]; try done; try lia.
    split; [done|]. split; [by right|]. destruct He as [He _].
    by destruct (Z.eqb_spec e 0); [lia|].
Qed.

(** The sections of a buffer argument. *)
Definition buffer_sections (kind : PayloadKind) (dir : PayloadDirection) (slot arg_index user_ptr len base fl : Z)
    (secs : list PayloadSection) : Prop :=
  if (user_ptr =? 0) || (len =? 0) then secs = []
  else one_section (buffer_section kind dir slot arg_index user_ptr len base fl) secs.

Lemma capture_buffer_section_ok kind tlv_kind slot arg_index tlv_flags user_ptr len base :
  payloadKindFromTLV (u16 tlv_kind) = Some kind -> In tlv_flags [0; PAYLOAD_TLV_FLAG_DIRECTION_OUT] ->
  0 < slot < 2 ^ 31 -> 0 <= len ->
  tlv_capture_flags True (flags_from base)
    (buffer_sections kind (payloadDirectionFromTLV tlv_flags) slot arg_index user_ptr len base)
    (PAYLOAD_TLV_HEADER_SIZE + slot)
    (capture_buffer_section tlv_kind slot arg_index tlv_flags user_ptr len base).
Proof.
  intros Hk Ht Hs Hl w d buf off Hb Ho Hsz. unfold capture_buffer_section, buffer_sections.
  rewrite payload_tlv_clamp_u32_min by lia.
  replace (Z.min len 4294967295 =? 0) with (len =? 0)
    by (destruct (Z.eqb_spec len 0), (Z.eqb_spec (Z.min len 4294967295) 0); lia || done).
  destruct ((user_ptr =? 0) || (len =? 0)).
  - wp_steps. split_and!; [lia | lia | by left | reflexivity |]. intros _.
    eapply decodable_0; [by apply capturing_start | done].
  - by apply (capture_buffer_ok kind tlv_kind slot arg_index tlv_flags user_ptr len base Hk Ht Hs Hl w d buf off).
Qed.

(** ** Words and extensions *)

(** The word as read, or nothing and the error. *)
Definition word_data (user_ptr value probe ulen : Z) (data : list Z) (e : Z) : Prop :=
  ulen = 4 /\ e = probe /\
  ((probe = 0 /\ value = le_val data /\ exists k, data = user_bytes k user_ptr 4) \/
   (data = [] /\ value = 0 /\ read_failed user_ptr probe)).

Lemma capture_local_word_ok arg_index tlv_flags user_ptr w d buf off :
  In tlv_flags [0; PAYLOAD_TLV_FLAG_DIRECTION_OUT] ->
  reserved w !! d = Some buf -> 0 <= off -> off + (PAYLOAD_TLV_HEADER_SIZE + 4) <= zlen buf ->
  wp (capture_word_section arg_index tlv_flags user_ptr (Some d) off) (fun '(n, value, probe) w' =>
    0 <= n <= PAYLOAD_TLV_HEADER_SIZE + 4 /\ 0 <= value < 2 ^ 32 /\ (probe = 0 \/ read_failed user_ptr probe) /\
    captures d off w w' /\
    (True -> decodable (one_section (section_with PayloadKindStruct (payloadDirectionFromTLV tlv_flags)
       arg_index user_ptr (word_data user_ptr value probe))) d off n w')) w.
Proof.
  intros Ht Hb Ho Hs. unfold capture_word_section. wp_step.
  assert (payloadDirectionFromTLV (u16 tlv_flags) = payloadDirectionFromTLV tlv_flags) as Hd
    by (cbn in Ht; by destruct Ht as [<-|[<-|[]]]).
  pose proof (probe_read_user_result 4 user_ptr w) as R. pose proof (bpf_probe_read_user_quiet 4 user_ptr w) as Qt.
  unfold wp at 1. destruct (bpf_probe_read_user 4 user_ptr w) as [[err value] w1]. cbn [fst snd] in *.
  destruct (R ltac:(lia)) as [Hl Hr].
  pose proof (capturing_quiet _ _ _ _ _ _ _ (capturing_start d off w buf Hb) Qt) as C1.
  assert (0 <= le_val value < 2 ^ 32) as Hv.
  { split; [apply le_val_nonneg|]. pose proof (le_val_bound value) as B. unfold zlen in Hl. rewrite Hl in B. lia. }
  set (t := TlvHeader PAYLOAD_TLV_KIND_STRUCT arg_index tlv_flags 4 (if err <? 0 then 0 else 4)
    (if err <? 0 then err else 0) user_ptr).
  set (word := if err <? 0 then 0 else le_val value).
  set (P := section_with PayloadKindStruct (payloadDirectionFromTLV tlv_flags) arg_index user_ptr
    (word_data user_ptr word (if err <? 0 then err else 0))).
  assert (0 <= word < 2 ^ 32) as Hw by (subst word; destruct (err <? 0); lia).
  assert (err < 0 -> read_failed user_ptr err) as Hf by (intros; destruct Hr as [[? _]|[? _]]; [lia | done]).
  assert (forall e, e = (if err <? 0 then err else 0) -> e = 0 \/ read_failed user_ptr e) as He.
  { intros e ->. destruct (Z.ltb_spec err 0); [right; auto | by left]. }
  pose proof (payload_tlv_header_size t) as Hz. cbv zeta. wp_step.
  eapply wp_write_header; [exact C1 | lia | lia | |].
  2: { intros w2 NF C2. wp_steps. split_and!; [lia | lia | lia | lia | by apply He | apply C2 |]. intros _.
       eapply decodable_0; [exact C2 | by right]. }
  intros w2 C2. cbn [negb]. wp_step. pose proof (cg_size _ _ _ _ _ _ C2) as Hz2.
  assert (forall w' b, capturing d off (zlen buf) w w' b ->
    slice b off 32 = struct_bytes (payload_tlv_header_fields t) ->
    word_data user_ptr word (if err <? 0 then err else 0) 4 (slice b (off + 32) (t_copied_len t)) (t_probe_ret t) ->
    decodable (one_section P) d off (32 + t_copied_len t) w') as Dec.
  { intros w' b C' Hh HD. pose proof (cg_size _ _ _ _ _ _ C') as Hz'. assert (0 <= t_copied_len t <= 4) by (subst t; cbn; destruct (err <? 0); lia).
    eexists b, [_]. split_and!; [apply C' | | left; eexists; split; [done|]].
    - eapply section_decodes; [exact Hh | done | lia | done | lia | lia].
    - split; cbn; try done.
      + by rewrite u32_small, zlen_slice by (subst t; cbn in *; destruct (err <? 0); lia).
      + exists (t_probe_ret t). split; [done | exact HD]. }
  destruct (Z.ltb_spec err 0) as [Herr|Herr]; cbn [Z.ltb Z.compare]; wp_steps.
  - split_and!; [lia | lia | lia | lia | right; auto | apply C2 |]. intros _.
    apply (Dec _ _ C2); [by apply slice_put_same; lia|]. subst word. split; [done|]. split; [done|]. right.
    split; [by rewrite slice_0|]. split; [done | auto].
  - destruct Hr as [[-> Hvb]|[[? _] _]]; [|lia].
    eapply wp_dynptr_write; [exact C2 | lia | lia | |].
    + intros w3 C3. cbn [Z.ltb Z.compare]. wp_steps.
      split_and!; [lia | lia | lia | lia | by left | apply C3 |]. intros _. apply (Dec _ _ C3).
      * rewrite slice_put_before by lia. apply slice_put_same; lia.
      * subst word. cbn [t_copied_len t]. rewrite slice_put_same by lia. split; [done|]. split; [done|]. left.
        split_and!; [done..|]. by exists (calls w).
    + intros w3 NF C3. cbn [Z.ltb Z.compare]. wp_step. eapply wp_copy_fail; [exact C3 | exact NF |].
      intros _ w4 C4. wp_steps. split_and!; [lia | lia | lia | lia | by left | apply C4 |]. intros _.
      eapply decodable_0; [exact C4 | by right].
Qed.

(** The end of a capture that may note a short copy. *)
Lemma wp_finish_short D kind tlv_kind dir tlv_flags arg_index user_ptr ulen n e base cap d off size w0 w b :
  capturing d off size w0 w b -> 0 <= off -> off + cap <= size ->
  0 <= n < 2 ^ 31 -> PAYLOAD_TLV_HEADER_SIZE + n <= cap -> 0 <= ulen < 2 ^ 32 -> (e = 0 -> 0 < n) ->
  payloadKindFromTLV (u16 tlv_kind) = Some kind -> payloadDirectionFromTLV (u16 tlv_flags) = dir ->
  D (if (e =? 0) && (n <? ulen) then Z.lor base EVENT_FLAG_TRUNCATED else base) ulen
    (slice b (off + PAYLOAD_TLV_HEADER_SIZE) n) e ->
  wp (let* event_flags := note_short_copy n e ulen base in
      let* size := finish_section (Some d) off
        (TlvHeader tlv_kind arg_index tlv_flags ulen n e user_ptr) in
      ret (size, event_flags))
    (fun '(n, fl) w' => 0 <= n <= cap /\ flags_from base fl /\ captures d off w0 w' /\
       (True -> decodable (one_section (section_with kind dir arg_index user_ptr (D fl))) d off n w')) w.
Proof.
  intros C Ho Hs Hn Hc Hu He Hk Hd HD.
  assert ((e =? 0) && (n <? ulen) = (e =? 0) && (0 <? n) && (n <? ulen)) as Eq.
  { destruct (Z.eqb_spec e 0) as [E|]; [|done]. specialize (He E). destruct (Z.ltb_spec 0 n); [done|lia]. }
  replace (note_short_copy n e ulen base) with (note_truncation n e ulen base)
    by (unfold note_short_copy, note_truncation; by rewrite Eq).
  eapply (wp_finish_flags D); try eassumption. cbv zeta. by rewrite <- Eq.
Qed.

(** What an extension of [len] bytes leaves. *)
Definition extension_data (wrapped : bool) (slot user_ptr len base fl ulen : Z) (data : list Z) (e : Z) : Prop :=
  if wrapped then ulen = Z.min len 0xffffffff /\ data = [] /\ e = -1 /\ fl = base
  else buffer_data slot user_ptr len base fl ulen data e.
Definition extension_section (dir : PayloadDirection) (wrapped : bool) (slot arg_index user_ptr len base fl : Z)
    : PayloadSection -> Prop :=
  section_with PayloadKindBytes dir arg_index user_ptr (extension_data wrapped slot user_ptr len base fl).

Lemma capture_extension_ok early wrapped slot arg_index tlv_flags user_ptr len base :
  In tlv_flags [0; PAYLOAD_TLV_FLAG_DIRECTION_OUT] -> 0 < slot < 2 ^ 31 -> 0 < len ->
  tlv_capture_flags True (flags_from base)
    (fun fl => one_section (extension_section (payloadDirectionFromTLV tlv_flags) wrapped slot arg_index
       user_ptr len base fl)) (PAYLOAD_TLV_HEADER_SIZE + slot)
    (capture_extension early wrapped slot arg_index tlv_flags user_ptr len base).
Proof.
  intros Ht Hs Hl w d buf off Hb Ho Hsz. unfold capture_extension. cbv zeta. wp_step.
  rewrite payload_tlv_copy_len_min, payload_tlv_clamp_u32_min by lia.
  assert (payloadDirectionFromTLV (u16 tlv_flags) = payloadDirectionFromTLV tlv_flags) as Hd
    by (cbn in Ht; by destruct Ht as [<-|[<-|[]]]).
  set (D := fun fl => extension_data wrapped slot user_ptr len base fl).
  assert (forall w1 b n e, capturing d off (zlen buf) w w1 b ->
    (n = Z.min len slot /\ e = 0 \/ n = 0 /\ e < 0) ->
    D (if (e =? 0) && (slot <? len) then Z.lor base EVENT_FLAG_TRUNCATED else base) (Z.min len 4294967295)
      (slice b (off + 32) n) e ->
    wp (let* event_flags := note_short_copy n e (Z.min len 4294967295) base in
        let* size := finish_section (Some d) off
          (TlvHeader PAYLOAD_TLV_KIND_BYTES arg_index tlv_flags (Z.min len 4294967295) n e user_ptr) in
        ret (size, event_flags))
      (fun '(n, fl) w' => 0 <= n <= 32 + slot /\ flags_from base fl /\ captures d off w w' /\
        (True -> decodable (one_section (section_with PayloadKindBytes (payloadDirectionFromTLV tlv_flags)
          arg_index user_ptr (D fl))) d off n w')) w1) as Fin.
  { intros w1 b n e C1 Hn HD. eapply (wp_finish_short D); [exact C1 | lia | lia | lia | lia | lia | lia | done | done |].
    replace ((e =? 0) && (n <? Z.min len 4294967295)) with ((e =? 0) && (slot <? len)); [exact HD|].
    destruct Hn as [[-> ->]|[-> ?]]; [|by destruct (Z.eqb_spec e 0); [lia|]].
    destruct (Z.ltb_spec slot len), (Z.ltb_spec (Z.min len slot) (Z.min len 4294967295)); cbn; lia || done. }
  assert (forall w1 b e, capturing d off (zlen buf) w w1 b -> e < 0 ->
    (if wrapped then e = -1 else read_failed user_ptr e) ->
    wp (let* event_flags := note_short_copy 0 e (Z.min len 4294967295) base in
        let* size := finish_section (Some d) off
          (TlvHeader PAYLOAD_TLV_KIND_BYTES arg_index tlv_flags (Z.min len 4294967295) 0 e user_ptr) in
        ret (size, event_flags))
      (fun '(n, fl) w' => 0 <= n <= 32 + slot /\ flags_from base fl /\ captures d off w w' /\
        (True -> decodable (one_section (section_with PayloadKindBytes (payloadDirectionFromTLV tlv_flags)
          arg_index user_ptr (D fl))) d off n w')) w1) as Fail.
  { intros w1 b e C1 He Hf. eapply Fin; [exact C1 | by right |]. subst D. unfold extension_data.
    rewrite slice_0. destruct (Z.eqb_spec e 0); [lia|]. cbn [andb].
    destruct wrapped; [done|]. split; [done|]. split; [by right|]. by destruct (Z.eqb_spec e 0); [lia|]. }
  pose proof (capturing_start d off w buf Hb) as C0. unfold copy_extension.
  destruct (early && wrapped) eqn:E.
  { apply andb_true_iff in E as [_ E]. wp_step. eapply Fail; [exact C0 | lia | by rewrite E]. }
  wp_step. eapply wp_dynptr_data; [exact C0 | lia | |]; intros w1.
  2: { intros NF C1. wp_step. eapply wp_copy_fail; [exact C1 | exact NF |]. intros _ w2 C2. wp_step.
       eapply Fail; [exact C2 | lia |]. destruct wrapped; [done | solve_failed]. }
  intros C1. cbv beta iota. destruct wrapped eqn:W; wp_step; [eapply Fail; [exact C1 | lia | done]|].
  eapply wp_read_user_into; [exact C1 | lia | lia | lia |]. intros w2 err bytes Hlen Hr C2.
  destruct (Z.ltb_spec err 0); wp_step; [eapply Fail; [exact C2 | lia | solve_failed]|].
  destruct Hr as [[-> Hby]|[? _]]; [|lia]. eapply Fin; [exact C2 | by left |]. subst D. cbn [extension_data].
  split; [done|]. split; [|done]. left. split; [done|]. exists (calls w1). rewrite <- Hby. apply slice_put_same; lia.
Qed.

(** ** Chains *)

(** A capture right behind what an earlier one left. *)
Lemma wp_capture_after guard P1 P2 cap2 g d off n w w1 buf :
  reserved w !! d = Some buf -> 0 <= off -> 0 <= n -> off + n + cap2 <= zlen buf ->
  captures d off w w1 -> (guard -> decodable P1 d off n w1) -> tlv_capture guard P2 cap2 g ->
  wp (g (Some d) (off + n)) (fun m w' => 0 <= m <= cap2 /\ captures d off w w' /\
    (guard -> decodable (appended P1 P2) d off (n + m) w')) w1.
Proof.
  intros Hb Ho Hn Hs C1 D1 Hg.
  destruct (proj1 (proj2 C1) _ Hb) as (b1 & E1 & L1 & _).
  assert (reserved w1 !! d = Some b1) as Hb1 by (by rewrite E1, lookup_insert_eq).
  assert (zlen b1 = zlen buf) as Z1 by (unfold zlen; by rewrite L1).
  eapply wp_mono; [eapply Hg; [exact Hb1 | lia | lia]|]. intros m w2 (Hm & C2 & D2).
  split_and!; [lia | lia | etrans; [exact C1 | eapply captures_mono; [|exact C2]; lia] |].
  intros G. eapply decodable_app; eauto; lia.
Qed.

(** The same for a capture that may change the flags. *)
Lemma wp_flags_after guard P1 P2 cap2 g d off n base w w1 buf :
  reserved w !! d = Some buf -> 0 <= off -> 0 <= n -> off + n + cap2 <= zlen buf ->
  captures d off w w1 -> (guard -> decodable P1 d off n w1) ->
  tlv_capture_flags guard (flags_from base) P2 cap2 g ->
  wp (g (Some d) (off + n)) (fun '(m, fl) w' => 0 <= m <= cap2 /\ flags_from base fl /\ captures d off w w' /\
    (guard -> decodable (appended P1 (P2 fl)) d off (n + m) w')) w1.
Proof.
  intros Hb Ho Hn Hs C1 D1 Hg.
  destruct (proj1 (proj2 C1) _ Hb) as (b1 & E1 & L1 & _).
  assert (reserved w1 !! d = Some b1) as Hb1 by (by rewrite E1, lookup_insert_eq).
  assert (zlen b1 = zlen buf) as Z1 by (unfold zlen; by rewrite L1).
  eapply wp_mono; [eapply Hg; [exact Hb1 | lia | lia]|]. intros [m fl] w2 (Hm & HF & C2 & D2).
  split_and!; [lia | lia | done | etrans; [exact C1 | eapply captures_mono; [|exact C2]; lia] |].
  intros G. eapply decodable_app; eauto; lia.
Qed.

(** The payload of an emitter from what its captures left. *)
Lemma captured_payload guard F P d off n fl w w' buf :
  reserved w !! d = Some buf -> captures d off w w' -> 0 <= off -> 0 <= n -> off + n <= zlen buf ->
  F fl -> (guard -> decodable (P fl) d off n w') ->
  exists b, reserved w' !! d = Some b /\ decodes guard F P (tlv_flag fl n) (slice b off n).
Proof.
  intros Hb C Ho Hn Hs HF HD. destruct (proj1 (proj2 C) _ Hb) as (b & E & L & _).
  assert (reserved w' !! d = Some b) as Hb' by (by rewrite E, lookup_insert_eq).
  assert (zlen b = zlen buf) as Lz by (unfold zlen; by rewrite L).
  exists b. split; [done|]. exists fl. split_and!; [done | by rewrite zlen_slice by lia |].
  intros G. destruct (HD G) as (b2 & secs & Hb2 & ?). exists secs. rewrite Hb' in Hb2. by injection Hb2 as <-.
Qed.

Lemma flags_from_trans base fl fl' : flags_from base fl -> flags_from fl fl' -> flags_from base fl'.
Proof.
  unfold flags_from. intros [->| ->] [->| ->]; auto.
  right. by rewrite <- Z.lor_assoc, Z.lor_diag.
Qed.

(** A capture for any event flags it starts from, decodable when the kernel does not fault. *)
Definition flags_capture (P : Z -> Z -> list PayloadSection -> Prop) (cap : Z)
    (f : Z -> dynptr -> Z -> prog (Z * Z)) : Prop :=
  forall base, tlv_capture_flags no_fault (flags_from base) (P base) cap (f base).

(** The sections of two captures and the flags between them. *)
Definition flags_appended (P1 P2 : Z -> Z -> list PayloadSection -> Prop) (base fl : Z)
    (secs : list PayloadSection) : Prop :=
  exists mid, appended (P1 base mid) (P2 mid fl) secs.

Lemma flags_both_ok P1 P2 cap1 cap2 f g :
  flags_capture P1 cap1 f -> flags_capture P2 cap2 g -> 0 <= cap2 ->
  flags_capture (flags_appended P1 P2) (cap1 + cap2) (flags_both f g).
Proof.
  intros Hf Hg Hc base w d buf off Hb Ho Hs. unfold flags_both. wp_step.
  eapply wp_mono; [eapply Hf; [exact Hb | lia | lia]|]. intros [n mid] w1 (Hn & F1 & C1 & D1). cbv beta iota.
  destruct (proj1 (proj2 C1) _ Hb) as (b1 & E1 & L1 & _).
  assert (reserved w1 !! d = Some b1) as Hb1 by (by rewrite E1, lookup_insert_eq).
  assert (zlen b1 = zlen buf) as Z1 by (unfold zlen; by rewrite L1).
  wp_step. eapply wp_mono; [eapply Hg; [exact Hb1 | lia | lia]|].
  intros [m fl] w2 (Hm & F2 & C2 & D2). wp_steps. split_and!; [lia | lia | by eapply flags_from_trans | |].
  - etrans; [exact C1|]. eapply captures_mono; [|exact C2]. lia.
  - intros G. edestruct (decodable_app (P1 base mid) (P2 mid fl)) as (b & secs & ? & ? & ?);
      [..| exact (D1 G) | exact C2 | exact (D2 G) |]; [lia | lia | lia |].
    exists b, secs. split_and!; [done | done |]. by exists mid.
Qed.

(** Sections that do not depend on the flags, which do not change. *)
Definition unflagged (P : list PayloadSection -> Prop) (base fl : Z) (secs : list PayloadSection) : Prop :=
  fl = base /\ P secs.

Lemma same_flags_ok P cap f :
  tlv_capture no_fault P cap f -> flags_capture (unflagged P) cap (same_flags f).
Proof.
  intros Hf base w d buf off Hb Ho Hs. unfold same_flags. wp_step.
  eapply wp_mono; [by eapply Hf|]. intros n w' (? & ? & D). wp_steps.
  split_and!; [lia | lia | by left | done |]. intros G. destruct (D G) as (b & s & ? & ? & ?).
  exists b, s. by repeat split.
Qed.

Lemma no_capture_ok cap : 0 <= cap -> flags_capture (unflagged (fun secs => secs = [])) cap no_capture.
Proof.
  intros Hc base w d buf off Hb Ho Hs. unfold no_capture. wp_steps.
  split_and!; [lia | lia | by left | reflexivity |]. intros _.
  eapply decodable_0; [by apply capturing_start | done].
Qed.

Lemma flags_capture_of P cap f :
  (forall base, tlv_capture_flags True (flags_from base) (P base) cap (f base)) ->
  flags_capture P cap f.
Proof.
  intros Hf base w d buf off Hb Ho Hs. eapply wp_mono; [by eapply Hf|].
  intros [n fl] w' (? & ? & ? & D). split_and!; [lia | lia | done | done |]. intros _. by apply D.
Qed.

(** Something the capture looks up first, without touching the record. *)
Lemma flags_capture_quiet {X} (m : prog X) (Q : X -> Prop) P cap f :
  keeps quiet m -> (forall w, wp m (fun x _ => Q x) w) ->
  (forall x, Q x -> flags_capture (P x) cap (f x)) ->
  flags_capture (fun base fl secs => exists x, Q x /\ P x base fl secs) cap
    (fun base ptr off => let* x := m in f x base ptr off).
Proof.
  intros Hm HQ Hf base w d buf off Hb Ho Hs. wp_step. specialize (Hm w). specialize (HQ w).
  unfold wp in HQ. unfold wp at 1. destruct (m w) as [x w1]. cbn [fst snd] in *.
  pose proof (capturing_quiet _ _ _ _ _ _ _ (capturing_start d off w buf Hb) Hm) as C1.
  eapply wp_mono; [eapply (Hf x HQ base w1 d buf off); [apply C1 | lia | lia]|].
  intros [n fl] w2 (? & ? & C2 & D2). split_and!; [lia | lia | done | etrans; [apply C1 | exact C2] |].
  intros G. destruct (D2 G) as (b & secs & ? & ? & ?). exists b, secs. split_and!; [done | done |]. by exists x.
Qed.

(** A word, then a capture that depends on it. *)
Definition word_section (dir : PayloadDirection) (arg_index user_ptr value probe : Z) : PayloadSection -> Prop :=
  section_with PayloadKindStruct dir arg_index user_ptr (word_data user_ptr value probe).
Definition word_then_sections (dir : PayloadDirection) (arg_index user_ptr : Z)
    (P : Z -> Z -> Z -> Z -> list PayloadSection -> Prop) (base fl : Z) (secs : list PayloadSection) : Prop :=
  exists value probe, 0 <= value < 2 ^ 32 /\ (probe = 0 \/ read_failed user_ptr probe) /\
    appended (one_section (word_section dir arg_index user_ptr value probe)) (P value probe base fl) secs.

Lemma word_then_ok arg_index tlv_flags user_ptr P cap g :
  In tlv_flags [0; PAYLOAD_TLV_FLAG_DIRECTION_OUT] -> 0 <= cap ->
  (forall value probe, 0 <= value < 2 ^ 32 -> flags_capture (P value probe) cap (g value probe)) ->
  flags_capture (word_then_sections (payloadDirectionFromTLV tlv_flags) arg_index user_ptr P)
    (PAYLOAD_TLV_HEADER_SIZE + 4 + cap)
    (fun base ptr off =>
       let* (n, value, probe) := capture_word_section arg_index tlv_flags user_ptr ptr off in
       let* (m, fl) := g value probe base ptr (off + n) in
       ret (n + m, fl)).
Proof.
  intros Ht Hc Hg base w d buf off Hb Ho Hs. wp_step.
  eapply wp_mono; [eapply (capture_local_word_ok arg_index tlv_flags user_ptr); [exact Ht | exact Hb | lia | lia]|].
  intros [[n value] probe] w1 (Hn & Hv & Hp & C1 & D1). cbv beta iota. wp_step. eapply wp_mono.
  { eapply (wp_flags_after no_fault _ (P value probe base)); [exact Hb | lia | | | exact C1 | intros _; by apply D1 | by apply Hg]; lia. }
  intros [m fl] w2 (? & ? & ? & D2). wp_steps. split_and!; [lia | lia | done | done |].
  intros G. destruct (D2 G) as (b & secs & ? & ? & ?). exists b, secs. split_and!; [done | done |].
  by exists value, probe.
Qed.

Lemma flags_capture_weaken (P P' : Z -> Z -> list PayloadSection -> Prop) cap cap' f :
  (forall base fl s, P base fl s -> P' base fl s) -> cap <= cap' ->
  flags_capture P cap f -> flags_capture P' cap' f.
Proof.
  intros HP Hc Hf base. eapply (tlv_capture_flags_weaken no_fault (flags_from base) (flags_from base));
    [exact Hc | done | | apply Hf]. intros fl s. apply HP.
Qed.

Lemma flags_capture_lookup {X} (m : prog X) P cap f :
  keeps quiet m -> (forall x, flags_capture (P x) cap (f x)) ->
  flags_capture (fun base fl secs => exists x, P x base fl secs) cap
    (fun base ptr off => let* x := m in f x base ptr off).
Proof.
  intros Hm Hf. eapply flags_capture_weaken;
    [| reflexivity | apply (flags_capture_quiet m (fun _ => True) P); auto]; [|done].
  intros base fl secs (x & _ & H). by exists x.
Qed.

Lemma tlv_capture_cap guard P cap cap' f :
  tlv_capture guard P cap f -> cap <= cap' -> tlv_capture guard P cap' f.
Proof. intros H Hc. by eapply tlv_capture_weaken; [| |exact Hc|exact H]. Qed.

Lemma tlv_capture_healthy P cap f : tlv_capture True P cap f -> tlv_capture no_fault P cap f.
Proof. intros H. by eapply tlv_capture_weaken; [| |apply Z.le_refl|exact H]. Qed.

Lemma flags_capture_cap P cap cap' f :
  flags_capture P cap f -> cap <= cap' -> flags_capture P cap' f.
Proof. intros H Hc. by eapply flags_capture_weaken; [|exact Hc|exact H]. Qed.

(** The same captures, decodable when the kernel does not fault. *)
Definition string_sections (max arg_index user_ptr : Z) : list PayloadSection -> Prop :=
  unless_null user_ptr (path_section max arg_index user_ptr).

Lemma string_sections_ok max arg_index user_ptr :
  1 <= max < 2 ^ 31 ->
  tlv_capture no_fault (string_sections max arg_index user_ptr) (PAYLOAD_TLV_HEADER_SIZE + max)
    (capture_string_section max arg_index user_ptr).
Proof. intros H. by apply tlv_capture_healthy, capture_string_ok. Qed.

Lemma struct_sections_ok n arg_index tlv_flags user_ptr :
  0 <= n < 2 ^ 31 -> In tlv_flags [0; PAYLOAD_TLV_FLAG_DIRECTION_OUT] ->
  tlv_capture no_fault (time_section (payloadDirectionFromTLV tlv_flags) arg_index user_ptr n)
    (PAYLOAD_TLV_HEADER_SIZE + n) (capture_struct_section n n n arg_index tlv_flags user_ptr).
Proof. intros Hn Ht. apply tlv_capture_healthy. apply capture_struct_section_ok; done || lia. Qed.

Lemma buffer_sections_ok kind tlv_kind slot arg_index tlv_flags user_ptr len :
  payloadKindFromTLV (u16 tlv_kind) = Some kind -> In tlv_flags [0; PAYLOAD_TLV_FLAG_DIRECTION_OUT] ->
  0 < slot < 2 ^ 31 -> 0 <= len ->
  flags_capture (buffer_sections kind (payloadDirectionFromTLV tlv_flags) slot arg_index user_ptr len)
    (PAYLOAD_TLV_HEADER_SIZE + slot)
    (capture_buffer_section tlv_kind slot arg_index tlv_flags user_ptr len).
Proof. intros. apply flags_capture_of. intros base. by apply capture_buffer_section_ok. Qed.

(** ** Events *)

Definition reads_flags_enter (r : exec_ctx) (pid tid sys_id : Z) (ctx : trace_event_raw_sys_enter)
    (ts pre : Z) (P : Z -> list PayloadSection -> Prop) : Z -> list Z -> Prop :=
  reads_enter r pid tid sys_id ts (args_u64 (enter_args ctx)) 0 pre (-1)
    (decodes no_fault (flags_from EVENT_FLAG_GENERIC_ENTER) P).

Lemma enter_flags_ok cap pid tid sys_id ctx ts pre P f :
  0 <= cap < 2 ^ 31 -> flags_capture P cap f ->
  emitter (fun r => reads_flags_enter r pid tid sys_id ctx ts pre (P EVENT_FLAG_GENERIC_ENTER))
    (enter_flags_emit cap pid tid sys_id ctx ts pre f).
Proof.
  intros Hc Hf. apply enter_emit_ok; [lia | | apply enter_ctx_body_ok |].
  - apply tlv_flags_payload_ok; [lia | apply Hf].
  - intros flags pl. eapply flags_from_not_compact; [right; by left | by intros].
Qed.

(** The exit event of a capture that may flag a truncation. *)
Lemma exit_flags_capture_ok cap p rv dur P f :
  0 <= cap < 2 ^ 31 -> flags_capture P cap f ->
  emitter (fun r => reads_pending_exit r p rv dur (decodes no_fault (flags_from 0) (P 0)))
    (exit_flags_emit cap p rv dur (f 0)).
Proof. intros Hc Hf. apply pending_exit_ok; [lia|]. apply tlv_flags_payload_ok; [lia | apply Hf]. Qed.

(** Arguments of an entry are unsigned. *)
Lemma args_u64_nonneg a i : 0 <= arg (args_u64 a) i.
Proof. unfold arg, args_u64. destruct a; cbn. repeat case_match; apply Z.mod_pos_bound; lia. Qed.
(** The record: the path of each descriptor argument when descriptors are followed, and the capture. *)
Lemma fd_paths_then_record_ok size capture P pid tid sys_id args ts (fd_state : bool) :
  let cap := if fd_state then fd_path_payload_capacity sys_id else 0 in
  0 <= size < 2 ^ 20 -> tlv_capture no_fault P (PAYLOAD_TLV_HEADER_SIZE + size) (capture args) ->
  emitter (fun r => reads_enter r pid tid sys_id ts args 0 (-1) (-1)
      (decodes no_fault (eq EVENT_FLAG_GENERIC_ENTER) (fun _ =>
         appended (when (0 <? cap) (fd_paths_sections (fd_path_arg_mask sys_id) args)) P)))
    (enter_emit (cap + (PAYLOAD_TLV_HEADER_SIZE + size)) pid tid sys_id ts
       (fun ptr =>
          let* n := both (capture_if (0 <? cap) (capture_fd_paths_tlv_direct sys_id args))
                      (capture args) ptr enter_payload_offset in
          ret (tlv_flag EVENT_FLAG_GENERIC_ENTER n, n))
       (enter_body args 0 (-1))).
Proof.
  intros cap Hs Hf.
  assert (0 <= cap <= 1184) by (subst cap; pose proof (fd_path_capacity_range sys_id); destruct fd_state; lia).
  apply enter_emit_ok; [lia | | apply enter_body_ok |].
  - apply (tlv_payload_ok no_fault _ _ _ _ (both _ _)); [lia|]. apply both_ok; [| exact Hf | lia].
    subst cap. destruct fd_state; [|by apply tlv_capture_none].
    apply capture_if_ok; [lia | apply capture_fd_paths_ok].
  - intros flags pl (fl & <- & -> & _). apply tlv_flag_not_compact. cbn. auto.
Qed.

Lemma fd_paths_then_emits size capture (P : args6 -> list PayloadSection -> Prop) pid tid sys_id ctx cfg ts :
  0 <= size < 2 ^ 20 ->
  (forall args, tlv_capture no_fault (P args) (PAYLOAD_TLV_HEADER_SIZE + size) (capture args)) ->
  keeps emits (emit_fd_paths_then size capture pid tid sys_id ctx cfg ts).
Proof.
  intros Hs Hf. unfold emit_fd_paths_then, lookup_fd_path_scratch. keeps_solve.
  eapply emitter_keeps, fd_paths_then_record_ok; [done | apply Hf].
Qed.
End CaptureLemmas.
