(* ===== verification/Control.v ===== *)
(** Control syscalls.

    Models [bpf/syscall_prctl_*.h], [bpf/syscall_futex_*.h],
    [bpf/syscall_cachestat_direct_event_v2.h],
    [bpf/syscall_capability_direct_event_v2.h],
    [bpf/syscall_memfd_direct_event_v2.h], [bpf/syscall_clone3_direct_event_v2.h],
    [bpf/syscall_fcntl_direct_event_v2.h], [bpf/syscall_ioctl_direct_event_v2.h] and
    [bpf/syscall_file_time_direct_event_v2.h]. *)
From stdpp Require Import base list gmap numbers.
From S2P Require Import Prelude Syscalls Abi Kernel Consumer Stats Tlv Emit Decoder EventCore Payload Structs FdPath Paths Misc Captures.

Abbreviation PRCTL_DIRECT_NAME_SIZE := 16 (only parsing).
Abbreviation PRCTL_DIRECT_UINT32_SIZE := 4 (only parsing).
Abbreviation PRCTL_OPTION_GET_PDEATHSIG := 1 (only parsing).
Abbreviation PRCTL_OPTION_SET_NAME := 15 (only parsing).
Abbreviation PRCTL_OPTION_GET_NAME := 16 (only parsing).
Abbreviation FUTEX_DIRECT_CMD_MASK := 0x7f (only parsing).
Abbreviation FUTEX_DIRECT_WAIT := 0 (only parsing).
Abbreviation FUTEX_DIRECT_LOCK_PI := 6 (only parsing).
Abbreviation FUTEX_DIRECT_WAIT_BITSET := 9 (only parsing).
Abbreviation FUTEX_DIRECT_WAIT_REQUEUE_PI := 11 (only parsing).
Abbreviation FUTEX_DIRECT_LOCK_PI2 := 13 (only parsing).
Abbreviation FUTEX_DIRECT_WAITV_ELEM_SIZE := 24 (only parsing).
Abbreviation FUTEX_DIRECT_WAITV_MAX := 128 (only parsing).
Abbreviation FUTEX_DIRECT_WAITV_MAX_BYTES := 3072 (only parsing).
Abbreviation FUTEX_DIRECT_REQUEUE_WAITERS_SIZE := 48 (only parsing).
Abbreviation CACHESTAT_DIRECT_RANGE_SIZE := 16 (only parsing).
Abbreviation CACHESTAT_DIRECT_STATS_SIZE := 40 (only parsing).
Abbreviation CAPABILITY_DIRECT_HEADER_SIZE := 8 (only parsing).
Abbreviation CAPABILITY_DIRECT_WORD_SIZE := 12 (only parsing).
Abbreviation CAPABILITY_DIRECT_DATA_SIZE := 24 (only parsing).
Abbreviation CAPABILITY_VERSION_1 := 0x19980330 (only parsing).
Abbreviation CAPABILITY_VERSION_2 := 0x20071026 (only parsing).
Abbreviation CAPABILITY_VERSION_3 := 0x20080522 (only parsing).
Abbreviation MEMFD_CREATE_DIRECT_NAME_MAX := 250 (only parsing).
Abbreviation CLONE3_DIRECT_ARGS_MAX := 256 (only parsing).
Abbreviation CLONE3_DIRECT_KNOWN_ARGS_SIZE := 88 (only parsing).
Abbreviation CLONE3_DIRECT_SET_TID_MAX_ENTRIES := 32 (only parsing).
Abbreviation CLONE3_DIRECT_SET_TID_BYTES_MAX := (CLONE3_DIRECT_SET_TID_MAX_ENTRIES * 4) (only parsing).
Abbreviation FCNTL_DIRECT_SMALL_SIZE := 8 (only parsing).
Abbreviation FCNTL_DIRECT_FLOCK_SIZE := 32 (only parsing).
Abbreviation FCNTL_DIRECT_F_DUPFD := 0 (only parsing).
Abbreviation FCNTL_DIRECT_F_DUPFD_CLOEXEC := 1030 (only parsing).
Abbreviation FCNTL_DIRECT_MAX_PAYLOAD := (PAYLOAD_TLV_HEADER_SIZE + FD_STATE_SNAPSHOT_SIZE) (only parsing).
Abbreviation NATIVE_KERNEL_TERMIOS_SIZE := 36 (only parsing).
Abbreviation IOCTL_DIRECT_BYTES_MAX := 512 (only parsing).
Abbreviation IOCTL_DIRECT_ZERO_SIZE_LEN := 128 (only parsing).
Abbreviation IOCTL_DIRECT_SIZE_SHIFT := 16 (only parsing).
Abbreviation IOCTL_DIRECT_SIZE_MASK := 0x3fff (only parsing).
Abbreviation FILE_TIME_DIRECT_UTIMBUF_SIZE := 16 (only parsing).
Abbreviation FILE_TIME_DIRECT_TIMEVALS_SIZE := 32 (only parsing).
Abbreviation FILE_TIME_DIRECT_PAYLOAD_MAX :=
  (PAYLOAD_TLV_HEADER_SIZE + PATH_STAT_DIRECT_PATH_MAX +
   PAYLOAD_TLV_HEADER_SIZE + FILE_TIME_DIRECT_TIMEVALS_SIZE) (only parsing).
Abbreviation U64_MAX := 0xffffffffffffffff (only parsing).

Section Control.
Context {K : Kernel} {A : Arch}.

(** ** [prctl] *)

Definition is_prctl_direct_syscall (sys_id : Z) : bool := one_of sys_id [SYS_PRCTL].
Definition is_prctl_set_name_option (option : Z) : bool := option =? PRCTL_OPTION_SET_NAME.
Definition is_prctl_get_name_option (option : Z) : bool := option =? PRCTL_OPTION_GET_NAME.
Definition is_prctl_uint32_out_option (option : Z) : bool :=
  (option =? PRCTL_OPTION_GET_PDEATHSIG) || (option =? 5) || (option =? 9) || (option =? 11) ||
  (option =? 19) || (option =? 25) || (option =? 37).

(** The name: length as stated, copied length and probe result.  A name to set that is not
    terminated within the buffer, or whose end cannot be read, is its first fifteen bytes. *)
Definition copy_prctl_name (ptr : dynptr) (data_offset user_ptr tlv_flags : Z) : prog (Z * Z * Z) :=
  let out := has_flag tlv_flags PAYLOAD_TLV_FLAG_DIRECTION_OUT in
  let* payload_data := bpf_dynptr_data ptr data_offset PRCTL_DIRECT_NAME_SIZE in
  match payload_data with
  | None => record_ringbuf_copy_fail ;;; ret (0, 0, -1)
  | Some data =>
      let* n := read_user_str_into data PRCTL_DIRECT_NAME_SIZE user_ptr in
      if n <? 0 then
        if out then ret (0, 0, n)
        else
          let* raw_n := read_user_into data (PRCTL_DIRECT_NAME_SIZE - 1) user_ptr in
          if raw_n <? 0 then ret (0, 0, n)
          else ret (PRCTL_DIRECT_NAME_SIZE, PRCTL_DIRECT_NAME_SIZE - 1, 0)
      else if (PRCTL_DIRECT_NAME_SIZE <=? n) && negb out then
        ret (PRCTL_DIRECT_NAME_SIZE, PRCTL_DIRECT_NAME_SIZE - 1, 0)
      else ret (u32 n, u32 n, 0)
  end.

Definition capture_prctl_name_tlv_direct (user_ptr tlv_flags : Z) (ptr : dynptr)
    (payload_offset : Z) : prog Z :=
  if user_ptr =? 0 then ret 0
  else
    let* (user_len, copied_len, probe_ret) :=
      copy_prctl_name ptr (payload_offset + PAYLOAD_TLV_HEADER_SIZE) user_ptr tlv_flags in
    finish_section ptr payload_offset
      (TlvHeader PAYLOAD_TLV_KIND_STRING 1 tlv_flags user_len copied_len probe_ret user_ptr).

Definition capture_prctl_uint32_tlv_direct (user_ptr : Z) : dynptr -> Z -> prog Z :=
  capture_struct_section PRCTL_DIRECT_UINT32_SIZE PRCTL_DIRECT_UINT32_SIZE PRCTL_DIRECT_UINT32_SIZE
    1 PAYLOAD_TLV_FLAG_DIRECTION_OUT user_ptr.

Definition emit_prctl_enter_event_v2_direct (pid tid sys_id : Z)
    (ctx : trace_event_raw_sys_enter) (ts_ns : Z) : prog unit :=
  let args := args_u64 (enter_args ctx) in
  enter_capture_emit (PAYLOAD_TLV_HEADER_SIZE + PRCTL_DIRECT_NAME_SIZE) pid tid sys_id ctx ts_ns (-1)
    (capture_if (is_prctl_set_name_option (arg0 args)) (capture_prctl_name_tlv_direct (arg1 args) 0)).

Definition emit_prctl_exit_event_v2_direct (p : pending_syscall) (ret_value duration : Z) : prog unit :=
  let option := arg0 (p_args p) in
  exit_capture_emit (PAYLOAD_TLV_HEADER_SIZE + PRCTL_DIRECT_NAME_SIZE) p ret_value duration
    (if (0 <=? ret_value) && is_prctl_get_name_option option
     then capture_prctl_name_tlv_direct (arg1 (p_args p)) PAYLOAD_TLV_FLAG_DIRECTION_OUT
     else capture_if ((0 <=? ret_value) && is_prctl_uint32_out_option option)
            (capture_prctl_uint32_tlv_direct (arg1 (p_args p)))).

(** ** Futexes *)

Definition futex_has_timeout_direct (op : Z) : bool :=
  let base_op := Z.land op FUTEX_DIRECT_CMD_MASK in
  (base_op =? FUTEX_DIRECT_WAIT) || (base_op =? FUTEX_DIRECT_LOCK_PI) ||
  (base_op =? FUTEX_DIRECT_WAIT_BITSET) || (base_op =? FUTEX_DIRECT_WAIT_REQUEUE_PI) ||
  (base_op =? FUTEX_DIRECT_LOCK_PI2).

Definition capture_futex_requeue_waiters_tlv_direct (user_ptr : Z) : dynptr -> Z -> prog Z :=
  capture_struct_section FUTEX_DIRECT_REQUEUE_WAITERS_SIZE FUTEX_DIRECT_REQUEUE_WAITERS_SIZE
    FUTEX_DIRECT_REQUEUE_WAITERS_SIZE 0 0 user_ptr.

Definition futex_waitv_user_len_direct (count : Z) : Z :=
  if 0xffffffff / FUTEX_DIRECT_WAITV_ELEM_SIZE <? count then 0xffffffff
  else u32 (count * FUTEX_DIRECT_WAITV_ELEM_SIZE).
Definition futex_waitv_copy_len_direct (count : Z) : Z :=
  let count := if FUTEX_DIRECT_WAITV_MAX <? count then FUTEX_DIRECT_WAITV_MAX else count in
  u32 (count * FUTEX_DIRECT_WAITV_ELEM_SIZE).

(** The first waiter, then the others if they can be read. *)
Definition copy_futex_waiters (ptr : dynptr) (data_offset user_ptr requested_len : Z) : prog (Z * Z) :=
  let* payload_data := bpf_dynptr_data ptr data_offset FUTEX_DIRECT_WAITV_ELEM_SIZE in
  match payload_data with
  | None => record_ringbuf_copy_fail ;;; ret (0, -1)
  | Some data =>
      let* err := read_user_into data FUTEX_DIRECT_WAITV_ELEM_SIZE user_ptr in
      if err <? 0 then ret (0, err)
      else if FUTEX_DIRECT_WAITV_ELEM_SIZE <? requested_len then
        let rest_len := requested_len - FUTEX_DIRECT_WAITV_ELEM_SIZE in
        let rest_max := FUTEX_DIRECT_WAITV_MAX_BYTES - FUTEX_DIRECT_WAITV_ELEM_SIZE in
        let rest_len := if rest_max <? rest_len then rest_max else rest_len in
        let* payload_rest := bpf_dynptr_data ptr (data_offset + FUTEX_DIRECT_WAITV_ELEM_SIZE) rest_max in
        match payload_rest with
        | None => record_ringbuf_copy_fail ;;; ret (FUTEX_DIRECT_WAITV_ELEM_SIZE, 0)
        | Some rest =>
            let* rest_err := read_user_into rest rest_len (u64 (user_ptr + FUTEX_DIRECT_WAITV_ELEM_SIZE)) in
            if rest_err =? 0 then ret (requested_len, 0) else ret (FUTEX_DIRECT_WAITV_ELEM_SIZE, 0)
        end
      else ret (FUTEX_DIRECT_WAITV_ELEM_SIZE, 0)
  end.

(** The event is flagged when the capture cannot hold all waiters. *)
Definition capture_futex_waitv_waiters_tlv_direct (user_ptr count event_flags : Z) (ptr : dynptr)
    (payload_offset : Z) : prog (Z * Z) :=
  if user_ptr =? 0 then ret (0, event_flags)
  else
    let user_len := futex_waitv_user_len_direct count in
    let requested_len := futex_waitv_copy_len_direct count in
    if requested_len =? 0 then ret (0, event_flags)
    else
      let* (copied_len, probe_ret) :=
        copy_futex_waiters ptr (payload_offset + PAYLOAD_TLV_HEADER_SIZE) user_ptr requested_len in
      let* event_flags :=
        if (probe_ret =? 0) && (0 <? copied_len) && (requested_len <? user_len) then
          record_payload_truncated_event ;;;
          ret (Z.lor event_flags EVENT_FLAG_TRUNCATED)
        else ret event_flags in
      let* size := finish_section ptr payload_offset
        (TlvHeader PAYLOAD_TLV_KIND_STRUCT 0 0 user_len copied_len probe_ret user_ptr) in
      ret (size, event_flags).

Definition emit_futex_enter_event_v2_direct (pid tid sys_id : Z)
    (ctx : trace_event_raw_sys_enter) (ts_ns : Z) : prog unit :=
  let args := args_u64 (enter_args ctx) in
  enter_capture_emit (PAYLOAD_TLV_HEADER_SIZE + TIME_DIRECT_TIMESPEC_SIZE) pid tid sys_id ctx ts_ns (-1)
    (capture_if (futex_has_timeout_direct (arg1 args))
       (capture_time_struct_tlv_direct_from_ptr 3 (arg3 args) TIME_DIRECT_TIMESPEC_SIZE 0)).

Definition emit_futex_wait_enter_event_v2_direct (pid tid sys_id : Z)
    (ctx : trace_event_raw_sys_enter) (ts_ns : Z) : prog unit :=
  enter_capture_emit (PAYLOAD_TLV_HEADER_SIZE + TIME_DIRECT_TIMESPEC_SIZE) pid tid sys_id ctx ts_ns (-1)
    (capture_time_struct_tlv_direct_from_ptr 4 (arg4 (args_u64 (enter_args ctx)))
       TIME_DIRECT_TIMESPEC_SIZE 0).

Definition emit_futex_waitv_enter_event_v2_direct (pid tid sys_id : Z)
    (ctx : trace_event_raw_sys_enter) (ts_ns : Z) : prog unit :=
  let args := args_u64 (enter_args ctx) in
  enter_flags_emit (PAYLOAD_TLV_HEADER_SIZE + FUTEX_DIRECT_WAITV_MAX_BYTES +
                    (PAYLOAD_TLV_HEADER_SIZE + TIME_DIRECT_TIMESPEC_SIZE)) pid tid sys_id ctx ts_ns (-1)
    (flags_both (capture_futex_waitv_waiters_tlv_direct (arg0 args) (u32 (arg1 args)))
       (same_flags (capture_time_struct_tlv_direct_from_ptr 3 (arg3 args) TIME_DIRECT_TIMESPEC_SIZE 0))).

Definition emit_futex_requeue_enter_event_v2_direct (pid tid sys_id : Z)
    (ctx : trace_event_raw_sys_enter) (ts_ns : Z) : prog unit :=
  enter_capture_emit (PAYLOAD_TLV_HEADER_SIZE + FUTEX_DIRECT_REQUEUE_WAITERS_SIZE) pid tid sys_id ctx
    ts_ns (-1) (capture_futex_requeue_waiters_tlv_direct (arg0 (args_u64 (enter_args ctx)))).

(** ** [cachestat] *)

Definition is_cachestat_direct_syscall (sys_id : Z) : bool := one_of sys_id [SYS_CACHESTAT].

Definition capture_cachestat_struct_tlv_direct (arg_index tlv_flags user_ptr struct_size : Z)
    : dynptr -> Z -> prog Z :=
  let slot := if struct_size =? CACHESTAT_DIRECT_STATS_SIZE then CACHESTAT_DIRECT_STATS_SIZE
              else CACHESTAT_DIRECT_RANGE_SIZE in
  capture_struct_section slot struct_size struct_size arg_index tlv_flags user_ptr.

Definition emit_cachestat_enter_event_v2_direct : Z -> Z -> Z -> trace_event_raw_sys_enter -> option Z -> Z -> prog unit :=
  emit_fd_paths_then CACHESTAT_DIRECT_RANGE_SIZE
    (fun args => capture_cachestat_struct_tlv_direct 1 0 (arg1 args) CACHESTAT_DIRECT_RANGE_SIZE).

Definition emit_cachestat_exit_event_v2_direct (p : pending_syscall) (ret_value duration : Z) : prog unit :=
  exit_capture_emit (PAYLOAD_TLV_HEADER_SIZE + CACHESTAT_DIRECT_STATS_SIZE) p ret_value duration
    (capture_cachestat_struct_tlv_direct 2 PAYLOAD_TLV_FLAG_DIRECTION_OUT (arg2 (p_args p))
       CACHESTAT_DIRECT_STATS_SIZE).

(** ** Capabilities *)

Definition is_capability_direct_syscall (sys_id : Z) : bool := one_of sys_id [SYS_CAPGET; SYS_CAPSET].

Definition capability_direct_data_size (version : Z) : Z :=
  if version =? CAPABILITY_VERSION_1 then CAPABILITY_DIRECT_WORD_SIZE
  else if (version =? CAPABILITY_VERSION_2) || (version =? CAPABILITY_VERSION_3)
  then CAPABILITY_DIRECT_DATA_SIZE else 0.
Definition capability_direct_probe_ret_for_arg (arg_index : Z) : Z := - (Z.shiftl 1 arg_index + 1).

Definition capability_direct_slot (struct_size : Z) : Z :=
  if struct_size =? CAPABILITY_DIRECT_HEADER_SIZE then CAPABILITY_DIRECT_HEADER_SIZE
  else if struct_size =? CAPABILITY_DIRECT_WORD_SIZE then CAPABILITY_DIRECT_WORD_SIZE
  else CAPABILITY_DIRECT_DATA_SIZE.

Definition capture_capability_struct_tlv_direct (arg_index tlv_flags user_ptr struct_size : Z)
    (ptr : dynptr) (payload_offset : Z) : prog Z :=
  if (user_ptr =? 0) || (struct_size =? 0) then ret 0
  else capture_struct_section (capability_direct_slot struct_size) struct_size struct_size arg_index
         tlv_flags user_ptr ptr payload_offset.

(** The size, [*version] and [*probe_ret_enter], which start as 0 and -1. *)
Definition capture_capability_header_tlv_direct (user_ptr : Z) (ptr : dynptr) (payload_offset : Z)
    : prog (Z * Z * Z) :=
  let* size := capture_capability_struct_tlv_direct 0 0 user_ptr CAPABILITY_DIRECT_HEADER_SIZE ptr
                 payload_offset in
  if size =? PAYLOAD_TLV_HEADER_SIZE + CAPABILITY_DIRECT_HEADER_SIZE then
    let* (err, version) := bpf_probe_read_user 4 user_ptr in
    ret (size, le_val version, if err <? 0 then capability_direct_probe_ret_for_arg 0 else 0)
  else if negb (user_ptr =? 0) then ret (size, 0, capability_direct_probe_ret_for_arg 0)
  else ret (size, 0, -1).

Definition capture_capability_enter (sys_id : Z) (args : args6) (ptr : dynptr) (payload_offset : Z)
    : prog (Z * Z) :=
  let* (n, version, probe_ret_enter) :=
    capture_capability_header_tlv_direct (arg0 args) ptr payload_offset in
  let* m :=
    if one_of sys_id [SYS_CAPSET] && (probe_ret_enter =? 0) then
      capture_capability_struct_tlv_direct 1 0 (arg1 args) (capability_direct_data_size version) ptr
        (payload_offset + n)
    else ret 0 in
  ret (n + m, probe_ret_enter).

Definition emit_capability_enter_event_v2_direct (pid tid sys_id : Z)
    (ctx : trace_event_raw_sys_enter) (ts_ns : Z) : prog unit :=
  let payload_capacity := (PAYLOAD_TLV_HEADER_SIZE + CAPABILITY_DIRECT_HEADER_SIZE) +
    (if one_of sys_id [SYS_CAPSET] then PAYLOAD_TLV_HEADER_SIZE + CAPABILITY_DIRECT_DATA_SIZE else 0) in
  enter_emit_using payload_capacity pid tid sys_id ts_ns
    (fun ptr =>
       let* (n, probe_ret_enter) :=
         capture_capability_enter sys_id (args_u64 (enter_args ctx)) ptr enter_payload_offset in
       ret (tlv_flag EVENT_FLAG_GENERIC_ENTER n, n, probe_ret_enter))
    (enter_ctx_body ctx).

Definition emit_capability_exit_event_v2_direct (p : pending_syscall) (ret_value duration : Z) : prog unit :=
  exit_capture_emit (PAYLOAD_TLV_HEADER_SIZE + CAPABILITY_DIRECT_DATA_SIZE) p ret_value duration
    (capture_capability_struct_tlv_direct 1 PAYLOAD_TLV_FLAG_DIRECTION_OUT (arg1 (p_args p))
       CAPABILITY_DIRECT_DATA_SIZE).

(** ** [memfd_create] *)

Definition is_memfd_create_direct_syscall (sys_id : Z) : bool := one_of sys_id [SYS_MEMFD_CREATE].

(** The string, or the whole buffer when it is not terminated in it. *)
Definition copy_memfd_name (ptr : dynptr) (data_offset user_ptr : Z) : prog (Z * Z) :=
  let* payload_data := bpf_dynptr_data ptr data_offset MEMFD_CREATE_DIRECT_NAME_MAX in
  match payload_data with
  | None => record_ringbuf_copy_fail ;;; ret (0, -1)
  | Some data =>
      let* n := read_user_str_into data MEMFD_CREATE_DIRECT_NAME_MAX user_ptr in
      if (0 <? n) && (n <? MEMFD_CREATE_DIRECT_NAME_MAX) then ret (u32 n, 0)
      else
        let* err := read_user_into data MEMFD_CREATE_DIRECT_NAME_MAX user_ptr in
        if err <? 0 then ret (0, err) else ret (MEMFD_CREATE_DIRECT_NAME_MAX, 0)
  end.

Definition capture_memfd_create_name_tlv_direct (user_ptr : Z) (ptr : dynptr) (payload_offset : Z)
    : prog Z :=
  if user_ptr =? 0 then ret 0
  else
    let* (copied_len, probe_ret) :=
      copy_memfd_name ptr (payload_offset + PAYLOAD_TLV_HEADER_SIZE) user_ptr in
    finish_section ptr payload_offset
      (TlvHeader PAYLOAD_TLV_KIND_STRING 0 0 copied_len copied_len probe_ret user_ptr).

Definition emit_memfd_create_enter_event_v2_direct (pid tid sys_id : Z)
    (ctx : trace_event_raw_sys_enter) (ts_ns : Z) : prog unit :=
  enter_capture_emit (PAYLOAD_TLV_HEADER_SIZE + MEMFD_CREATE_DIRECT_NAME_MAX) pid tid sys_id ctx ts_ns (-1)
    (capture_memfd_create_name_tlv_direct (arg0 (args_u64 (enter_args ctx)))).

(** ** [clone3] *)

Definition is_clone3_direct_syscall (sys_id : Z) : bool := one_of sys_id [SYS_CLONE3].

(** The array [set_tid] of [clone_args], with [set_tid_ptr] and [set_tid_size] read from it. *)
Definition capture_clone3_set_tid_section (set_tid_ptr set_tid_size : Z) (ptr : dynptr)
    (payload_offset : Z) : prog Z :=
  let user_len := u32 (u32 set_tid_size * 4) in
  if U64_MAX - user_len <? set_tid_ptr then ret 0
  else
    let* (copied_len, probe_ret) :=
      copy_user_struct ptr (payload_offset + PAYLOAD_TLV_HEADER_SIZE) CLONE3_DIRECT_SET_TID_BYTES_MAX
        user_len user_len set_tid_ptr in
    finish_section ptr payload_offset
      (TlvHeader PAYLOAD_TLV_KIND_BYTES PAYLOAD_TLV_CLONE3_SET_TID_ARG_INDEX 0 user_len copied_len
         probe_ret set_tid_ptr).

Definition capture_clone3_set_tid_tlv_direct (args_ptr args_len : Z) (ptr : dynptr) (payload_offset : Z)
    : prog Z :=
  if (args_ptr =? 0) || (args_len <? 80) || (U64_MAX - 80 <? args_ptr) then ret 0
  else
    let* (err, tid_ptr) := bpf_probe_read_user 8 (args_ptr + 64) in
    if negb (err =? 0) then ret 0
    else
      let* (err, tid_size) := bpf_probe_read_user 8 (args_ptr + 72) in
      let set_tid_ptr := le_val tid_ptr in
      let set_tid_size := le_val tid_size in
      if negb (err =? 0) || (set_tid_ptr =? 0) || (set_tid_size =? 0) ||
         (CLONE3_DIRECT_SET_TID_MAX_ENTRIES <? set_tid_size) then ret 0
      else capture_clone3_set_tid_section set_tid_ptr set_tid_size ptr payload_offset.

(** The argument structure, or the part the program knows when the rest cannot be read. *)
Definition copy_clone3_args (ptr : dynptr) (data_offset user_ptr requested_len event_flags : Z)
    : prog (Z * Z * Z) :=
  let copied_len := payload_tlv_copy_len requested_len CLONE3_DIRECT_ARGS_MAX in
  let* payload_data := bpf_dynptr_data ptr data_offset CLONE3_DIRECT_ARGS_MAX in
  match payload_data with
  | None => record_ringbuf_copy_fail ;;; ret (0, -1, event_flags)
  | Some data =>
      let* err := read_user_into data copied_len user_ptr in
      if err <? 0 then
        if CLONE3_DIRECT_KNOWN_ARGS_SIZE <? requested_len then
          let* prefix_err := read_user_into data CLONE3_DIRECT_KNOWN_ARGS_SIZE user_ptr in
          if prefix_err =? 0 then
            record_payload_truncated_event ;;;
            ret (CLONE3_DIRECT_KNOWN_ARGS_SIZE, 0, Z.lor event_flags EVENT_FLAG_TRUNCATED)
          else ret (0, err, event_flags)
        else ret (0, err, event_flags)
      else ret (copied_len, 0, event_flags)
  end.

Definition capture_clone3_args_tlv_direct (user_ptr requested_len event_flags : Z) (ptr : dynptr)
    (payload_offset : Z) : prog (Z * Z) :=
  if (user_ptr =? 0) || (requested_len =? 0) then ret (0, event_flags)
  else
    let user_len := payload_tlv_clamp_u32 requested_len in
    let* (copied_len, probe_ret, event_flags) :=
      copy_clone3_args ptr (payload_offset + PAYLOAD_TLV_HEADER_SIZE) user_ptr requested_len event_flags in
    let* event_flags := note_truncation copied_len probe_ret user_len event_flags in
    let* size := finish_section ptr payload_offset
      (TlvHeader PAYLOAD_TLV_KIND_STRUCT 0 0 user_len copied_len probe_ret user_ptr) in
    ret (size, event_flags).

Definition emit_clone3_enter_event_v2_direct (pid tid sys_id : Z)
    (ctx : trace_event_raw_sys_enter) (ts_ns : Z) : prog unit :=
  let args := args_u64 (enter_args ctx) in
  enter_flags_emit (PAYLOAD_TLV_HEADER_SIZE + CLONE3_DIRECT_ARGS_MAX +
                    (PAYLOAD_TLV_HEADER_SIZE + CLONE3_DIRECT_SET_TID_BYTES_MAX)) pid tid sys_id ctx
    ts_ns (-1)
    (flags_both (capture_clone3_args_tlv_direct (arg0 args) (arg1 args))
       (same_flags (capture_clone3_set_tid_tlv_direct (arg0 args) (arg1 args)))).

(** ** [fcntl] *)

Definition is_fcntl_direct_syscall (sys_id : Z) : bool := one_of sys_id [SYS_FCNTL].

Definition is_fcntl_fd_state_cmd (cmd : Z) : bool :=
  let fcmd := u32 cmd in
  (fcmd =? FCNTL_DIRECT_F_DUPFD) || (fcmd =? FCNTL_DIRECT_F_DUPFD_CLOEXEC).

Definition fcntl_direct_payload_size (cmd : Z) : Z :=
  let fcmd := u32 cmd in
  if existsb (Z.eqb fcmd)
       [15; 16; 1035; 1036; 1037; 1038; 1039; 1040; 1043; 1044; 19; 20; 21; 22; 23; 24]
  then FCNTL_DIRECT_SMALL_SIZE
  else if existsb (Z.eqb fcmd) [5; 6; 7; 12; 13; 14; 36; 37; 38] then FCNTL_DIRECT_FLOCK_SIZE
  else 0.

Definition capture_fcntl_struct_tlv_direct (cmd user_ptr tlv_flags : Z) (ptr : dynptr)
    (payload_offset : Z) : prog Z :=
  let struct_size := fcntl_direct_payload_size cmd in
  if (struct_size =? 0) || (user_ptr =? 0) then ret 0
  else
    let slot := if struct_size =? FCNTL_DIRECT_SMALL_SIZE then FCNTL_DIRECT_SMALL_SIZE
                else FCNTL_DIRECT_FLOCK_SIZE in
    capture_struct_section slot struct_size struct_size 2 tlv_flags user_ptr ptr payload_offset.

Definition emit_fcntl_enter_event_v2_direct (pid tid sys_id : Z)
    (ctx : trace_event_raw_sys_enter) (ts_ns : Z) : prog unit :=
  let args := args_u64 (enter_args ctx) in
  enter_capture_emit FCNTL_DIRECT_MAX_PAYLOAD pid tid sys_id ctx ts_ns (-1)
    (capture_fcntl_struct_tlv_direct (arg1 args) (arg2 args) 0).

Definition emit_fcntl_exit_event_v2_direct (p : pending_syscall) (ret_value duration : Z) : prog unit :=
  exit_capture_emit FCNTL_DIRECT_MAX_PAYLOAD p ret_value duration
    (capture_if (0 <=? ret_value)
       (if is_fcntl_fd_state_cmd (arg1 (p_args p))
        then fun ptr off => capture_fd_state_tlv_direct ptr off (s32 ret_value)
        else capture_fcntl_struct_tlv_direct (arg1 (p_args p)) (arg2 (p_args p))
               PAYLOAD_TLV_FLAG_DIRECTION_OUT)).

(** ** [ioctl] *)

Definition is_ioctl_direct_syscall (sys_id : Z) : bool := one_of sys_id [SYS_IOCTL].

Definition ioctl_direct_known_size (cmd : Z) : Z :=
  let cmd := u32 cmd in
  if cmd =? 0x541b then 4
  else if cmd =? 0x5413 then 8
  else if existsb (Z.eqb cmd) [0x5401; 0x5402; 0x5403; 0x5404] then NATIVE_KERNEL_TERMIOS_SIZE
  else 0.

Definition ioctl_direct_user_len (cmd : Z) : Z :=
  let known_size := ioctl_direct_known_size cmd in
  if 0 <? known_size then known_size
  else
    let size := u32 (Z.land (Z.shiftr cmd IOCTL_DIRECT_SIZE_SHIFT) IOCTL_DIRECT_SIZE_MASK) in
    if size =? 0 then IOCTL_DIRECT_ZERO_SIZE_LEN else size.

(** [Some reason] when the function returns 1. *)
Definition ioctl_kvm_exit_reason (pending : pending_syscall) (ret_value : Z) : prog (option Z) :=
  if (ret_value <? 0) || negb (arg1 (p_args pending) =? KVM_RUN_IOCTL) then ret None
  else
    let* aux := lookup_pending_syscall_aux0 (p_tid pending) in
    if negb (has_flag aux KVM_EXIT_AUX_VALID) then ret None
    else ret (Some (Z.land aux KVM_EXIT_AUX_REASON_MASK)).

Definition capture_ioctl_arg_tlv_direct (cmd user_ptr tlv_flags event_flags : Z) (ptr : dynptr)
    (payload_offset : Z) : prog (Z * Z) :=
  if user_ptr =? 0 then ret (0, event_flags)
  else capture_buffer PAYLOAD_TLV_KIND_BYTES IOCTL_DIRECT_BYTES_MAX 2 tlv_flags user_ptr
         (ioctl_direct_user_len cmd) event_flags ptr payload_offset.

Definition emit_ioctl_enter_event_v2_direct (pid tid sys_id : Z)
    (ctx : trace_event_raw_sys_enter) (ts_ns : Z) : prog unit :=
  let args := args_u64 (enter_args ctx) in
  enter_flags_emit (PAYLOAD_TLV_HEADER_SIZE + IOCTL_DIRECT_BYTES_MAX) pid tid sys_id ctx ts_ns (-1)
    (capture_ioctl_arg_tlv_direct (arg1 args) (arg2 args) 0).

(** [body.reserved = reason;]. *)
Definition exit_body_reserved (reason : Z) (b : syscall_exit_event_v2) : syscall_exit_event_v2 :=
  ExitBody (ex_ret b) (ex_duration_ns b) (ex_args b) (ex_capture_len b) (ex_capture_flags b)
    (ex_stack_id b) reason (ex_cpu_duration_ns b).

Definition emit_ioctl_exit_event_v2_direct (p : pending_syscall) (ret_value duration : Z) : prog unit :=
  exit_emit_using (PAYLOAD_TLV_HEADER_SIZE + IOCTL_DIRECT_BYTES_MAX) (p_pid p) (p_tid p) (p_sys_id p)
    (u64 (p_enter_time p + duration))
    (fun ptr =>
       let* reason := ioctl_kvm_exit_reason p ret_value in
       let flags := match reason with Some _ => EVENT_FLAG_KVM_EXIT | None => 0 end in
       let* (n, flags) :=
         if 0 <=? ret_value then
           capture_ioctl_arg_tlv_direct (arg1 (p_args p)) (arg2 (p_args p))
             PAYLOAD_TLV_FLAG_DIRECTION_OUT flags ptr exit_payload_offset
         else ret (0, flags) in
       ret (tlv_flag flags n, n, reason))
    (fun reason n =>
       let* b := init_syscall_exit_event_v2_from_pending p ret_value duration n in
       ret (struct_bytes (syscall_exit_event_v2_fields
         (exit_body_reserved (match reason with Some r => r | None => 0 end) b)))).

(** ** File times *)

Definition is_file_time_direct_syscall (sys_id : Z) : bool :=
  one_of sys_id [SYS_UTIME; SYS_UTIMES; SYS_FUTIMESAT; SYS_UTIMENSAT].

Definition file_time_direct_value_size (sys_id : Z) : Z :=
  if one_of sys_id [SYS_UTIME] then FILE_TIME_DIRECT_UTIMBUF_SIZE else FILE_TIME_DIRECT_TIMEVALS_SIZE.

Definition capture_file_time_value_tlv_direct (arg_index user_ptr value_size : Z)
    : dynptr -> Z -> prog Z :=
  let slot := if value_size =? FILE_TIME_DIRECT_UTIMBUF_SIZE then FILE_TIME_DIRECT_UTIMBUF_SIZE
              else FILE_TIME_DIRECT_TIMEVALS_SIZE in
  capture_struct_section slot slot value_size arg_index 0 user_ptr.

Definition capture_file_time_payloads_tlv_direct (path_arg path_ptr value_arg value_ptr value_size : Z)
    : dynptr -> Z -> prog Z :=
  both (capture_path_stat_path_tlv_direct path_arg path_ptr)
       (capture_file_time_value_tlv_direct value_arg value_ptr value_size).

Definition emit_file_time_enter_event_v2_direct (pid tid sys_id : Z)
    (ctx : trace_event_raw_sys_enter) (ts_ns : Z) : prog unit :=
  let args := args_u64 (enter_args ctx) in
  let path_arg := if one_of sys_id [SYS_FUTIMESAT; SYS_UTIMENSAT] then 1 else 0 in
  enter_capture_emit FILE_TIME_DIRECT_PAYLOAD_MAX pid tid sys_id ctx ts_ns (-1)
    (capture_file_time_payloads_tlv_direct path_arg (arg args path_arg) (path_arg + 1)
       (arg args (path_arg + 1)) (file_time_direct_value_size sys_id)).
End Control.

Section ControlLemmas.
Context {K : Kernel} {A : Arch}.

(** ** [prctl] *)

(** A name: the user's string, or, for a name to set, its first fifteen bytes. *)
Definition prctl_name (out : bool) (user_ptr ulen : Z) (data : list Z) (e : Z) : Prop :=
  (e = 0 /\ ulen = zlen data /\ exists k, data = until_nul (user_bytes k user_ptr 15) ++ [0]) \/
  (out = false /\ e = 0 /\ ulen = PRCTL_DIRECT_NAME_SIZE /\ exists k, data = user_bytes k user_ptr 15) \/
  (ulen = 0 /\ data = [] /\ read_failed user_ptr e).

Lemma wp_copy_prctl_name d off size w0 w buf user_ptr tlv_flags :
  capturing d off size w0 w buf -> 0 <= off -> off + PAYLOAD_TLV_HEADER_SIZE + 16 <= size ->
  wp (copy_prctl_name (Some d) (off + PAYLOAD_TLV_HEADER_SIZE) user_ptr tlv_flags)
    (fun '(ulen, n, e) w' => 0 <= n <= 16 /\ 0 <= ulen <= 16 /\ exists b, capturing d off size w0 w' b /\
       prctl_name (has_flag tlv_flags PAYLOAD_TLV_FLAG_DIRECTION_OUT) user_ptr ulen (slice b (off + 32) n) e) w.
Proof.
  intros C Ho Hs. unfold copy_prctl_name. cbv zeta. wp_step. pose proof (cg_size _ _ _ _ _ _ C) as Hz.
  assert (forall w1 b e, capturing d off size w0 w1 b -> read_failed user_ptr e ->
    0 <= 0 <= 16 /\ 0 <= 0 <= 16 /\ exists b, capturing d off size w0 w1 b /\
      prctl_name (has_flag tlv_flags 1) user_ptr 0 (slice b (off + 32) 0) e) as Fail.
  { intros w1 b e C1 He. split_and!; try lia. exists b. split; [done|]. rewrite slice_0. by right; right. }
  eapply wp_dynptr_data; [exact C | lia | |]; intros w1.
  2: { intros NF C1. wp_step. eapply wp_copy_fail; [exact C1 | exact NF |].
       intros _ w2 C2. wp_steps. eapply Fail; [exact C2 | solve_failed]. }
  intros C1. wp_step. eapply wp_read_user_str_into; [exact C1 | lia | lia | lia |].
  intros w2 r bytes Hl Hr C2. destruct (Z.ltb_spec r 0).
  - assert (read_failed user_ptr r) as Hf by (destruct Hr as [(? & _)|?]; [lia|done]).
    destruct (has_flag tlv_flags 1) eqn:Out; wp_steps; [by eapply Fail|].
    pose proof (cg_size _ _ _ _ _ _ C2) as Hz2.
    eapply wp_read_user_into; [exact C2 | lia | lia | lia |]. intros w3 raw bs Hl3 Hr3 C3.
    destruct (Z.ltb_spec raw 0); wp_steps; [by eapply Fail|].
    destruct Hr3 as [[-> ->]|[? _]]; [|lia]. split_and!; try lia. eexists. split; [exact C3|].
    right. left. split_and!; try done. exists (calls w2). apply slice_put_same; rewrite ?zlen_user_bytes; lia.
  - destruct Hr as [(H1 & -> & Hd)|[? _]]; [|lia]. pose proof (zlen_nonneg bytes).
    destruct (Z.leb_spec 16 (zlen bytes)), (has_flag tlv_flags 1) eqn:Out; cbn [negb andb]; wp_steps.
    2: { split_and!; try lia. eexists. split; [exact C2|]. right. left. split_and!; try done. exists (calls w1).
         pose proof (full_string _ _ 15 _ ltac:(lia) Hd ltac:(lia)) as Hb. clear Hd.
         pose proof (slice_put_same buf (off + 32) bytes 16 ltac:(lia) ltac:(lia) ltac:(lia)) as S.
         rewrite <- (Z.add_0_r (off + 32)) at 2. rewrite <- (slice_slice _ _ 16) by lia. rewrite S, Hb.
         apply slice_prefix. by rewrite zlen_user_bytes. }
    all: rewrite !u32_small by lia; split_and!; try lia; eexists; (split; [exact C2|]); left.
    all: rewrite slice_put_same by lia; split_and!; try done; by exists (calls w1).
Qed.

(** The section of a name argument. *)
Definition prctl_name_sections (dir : PayloadDirection) (out : bool) (user_ptr : Z)
    : list PayloadSection -> Prop :=
  unless_null user_ptr (section_with PayloadKindString dir 1 user_ptr (prctl_name out user_ptr)).

Lemma capture_prctl_name_ok user_ptr tlv_flags :
  In tlv_flags [0; PAYLOAD_TLV_FLAG_DIRECTION_OUT] ->
  tlv_capture True (prctl_name_sections (payloadDirectionFromTLV tlv_flags)
      (has_flag tlv_flags PAYLOAD_TLV_FLAG_DIRECTION_OUT) user_ptr) (32 + 16)
    (capture_prctl_name_tlv_direct user_ptr tlv_flags).
Proof.
  intros Ht w d buf off Hb Ho Hs. unfold capture_prctl_name_tlv_direct, prctl_name_sections, unless_null.
  pose proof (capturing_start d off w buf Hb) as C0.
  destruct (user_ptr =? 0); wp_steps.
  { split_and!; [lia | lia | reflexivity |]. intros _. by eapply decodable_0. }
  eapply wp_mono; [eapply wp_copy_prctl_name; [exact C0 | lia | lia]|].
  intros [[ulen n] e] w1 (Hn & Hu & b & C1 & HD). cbv beta iota.
  eapply wp_finish_with; [exact C1 | lia | lia | lia | lia | lia | done | | exact HD].
  cbn in Ht. by destruct Ht as [<-|[<-|[]]].
Qed.

Lemma emit_prctl_enter_ok pid tid sys_id ctx ts :
  let args := args_u64 (enter_args ctx) in
  emitter (fun r => reads_capture_enter r pid tid sys_id ctx ts (-1)
      (when (is_prctl_set_name_option (arg0 args))
         (prctl_name_sections PayloadDirectionIn false (arg1 args))))
    (emit_prctl_enter_event_v2_direct pid tid sys_id ctx ts).
Proof.
  intros args. apply enter_capture_ok; [lia|]. apply capture_if_ok; [lia|].
  apply (capture_prctl_name_ok _ 0). cbn. auto.
Qed.

(** What a query returns. *)
Definition prctl_sections (p : pending_syscall) (rv : Z) : list PayloadSection -> Prop :=
  if (0 <=? rv) && is_prctl_get_name_option (arg0 (p_args p))
  then prctl_name_sections PayloadDirectionOut true (arg1 (p_args p))
  else when ((0 <=? rv) && is_prctl_uint32_out_option (arg0 (p_args p))) (out_section p 1 4).

Lemma emit_prctl_exit_ok p rv dur :
  emitter (fun r => reads_capture_exit r p rv dur (prctl_sections p rv))
    (emit_prctl_exit_event_v2_direct p rv dur).
Proof.
  apply exit_capture_ok; [lia|]. unfold prctl_sections.
  destruct ((0 <=? rv) && is_prctl_get_name_option _).
  - apply (capture_prctl_name_ok _ PAYLOAD_TLV_FLAG_DIRECTION_OUT). cbn. auto.
  - apply capture_if_ok; [lia|]. apply (tlv_capture_cap _ _ (32 + 4)); [|lia].
    apply (capture_struct_section_ok 4 4 4 1 PAYLOAD_TLV_FLAG_DIRECTION_OUT); cbn; auto; lia.
Qed.

(** ** Futexes *)

(** The first waiter and perhaps the others, or nothing and the error of the probe. *)
Definition futex_waiters (user_ptr requested : Z) (data : list Z) (e : Z) : Prop :=
  (e = 0 /\ (zlen data = FUTEX_DIRECT_WAITV_ELEM_SIZE \/ zlen data = requested) /\
     exists k, slice data 0 FUTEX_DIRECT_WAITV_ELEM_SIZE = user_bytes k user_ptr FUTEX_DIRECT_WAITV_ELEM_SIZE) \/
  (data = [] /\ read_failed user_ptr e).

Lemma wp_copy_futex_waiters d off size w0 w buf user_ptr requested :
  capturing d off size w0 w buf -> 0 <= off -> off + PAYLOAD_TLV_HEADER_SIZE + 3072 <= size ->
  24 <= requested <= 3072 ->
  wp (copy_futex_waiters (Some d) (off + PAYLOAD_TLV_HEADER_SIZE) user_ptr requested)
    (fun '(n, e) w' => (n = 0 /\ e <> 0 \/ n = 24 \/ n = requested) /\ exists b,
       capturing d off size w0 w' b /\ futex_waiters user_ptr requested (slice b (off + 32) n) e) w.
Proof.
  intros C Ho Hs Hr. unfold copy_futex_waiters. wp_step. pose proof (cg_size _ _ _ _ _ _ C) as Hz.
  assert (forall w1 b e, capturing d off size w0 w1 b -> read_failed user_ptr e ->
    (0 = 0 /\ e <> 0 \/ 0 = 24 \/ 0 = requested) /\ exists b, capturing d off size w0 w1 b /\
      futex_waiters user_ptr requested (slice b (off + 32) 0) e) as Fail.
  { intros w1 b e C1 He. split; [left; split; [done|]; destruct He; lia|]. exists b. split; [done|].
    rewrite slice_0. by right. }
  assert (forall w1 b n k, capturing d off size w0 w1 b -> n = 24 \/ n = requested ->
    slice b (off + 32) 24 = user_bytes k user_ptr 24 ->
    (n = 0 /\ 0 <> 0 \/ n = 24 \/ n = requested) /\ exists b, capturing d off size w0 w1 b /\
      futex_waiters user_ptr requested (slice b (off + 32) n) 0) as Ok.
  { intros w1 b n k C1 Hn Hk. split; [by right|]. exists b. split; [done|]. left. split; [done|].
    pose proof (cg_size _ _ _ _ _ _ C1). rewrite zlen_slice by lia. split; [done|]. exists k.
    rewrite slice_slice by lia. by rewrite Z.add_0_r. }
  eapply wp_dynptr_data; [exact C | lia | |]; intros w1.
  2: { intros NF C1. wp_step. eapply wp_copy_fail; [exact C1 | exact NF |].
       intros _ w2 C2. wp_steps. eapply Fail; [exact C2 | solve_failed]. }
  intros C1. wp_step. eapply wp_read_user_into; [exact C1 | lia | lia | lia |].
  intros w2 err bytes Hl He C2. destruct (Z.ltb_spec err 0); wp_steps; [eapply Fail; [exact C2 | solve_failed]|].
  destruct He as [[-> Hb]|[? _]]; [|lia].
  assert (slice (put buf (off + 32) bytes) (off + 32) 24 = user_bytes (calls w1) user_ptr 24) as S2
    by (rewrite <- Hb; apply slice_put_same; lia).
  destruct (Z.ltb_spec 24 requested); wp_steps; [|eapply Ok; [exact C2 | by left | exact S2]].
  pose proof (cg_size _ _ _ _ _ _ C2) as Hz2.
  eapply wp_dynptr_data; [exact C2 | lia | |]; intros w3.
  - intros C3. wp_step. destruct (Z.ltb_spec (3072 - 24) (requested - 24)); [lia|].
    eapply wp_read_user_into; [exact C3 | lia | lia | lia |]. intros w4 err2 bytes2 Hl2 _ C4.
    assert (slice (put (put buf (off + 32) bytes) (off + 32 + 24) bytes2) (off + 32) 24
      = user_bytes (calls w1) user_ptr 24) as S4 by (rewrite slice_put_before by lia; exact S2).
    destruct (err2 =? 0); wp_steps; (eapply Ok; [exact C4 | | exact S4]); auto.
  - intros NF C3. wp_step. eapply wp_copy_fail; [exact C3 | exact NF |].
    intros _ w4 C4. wp_steps. eapply Ok; [exact C4 | by left | exact S2].
Qed.

(** The section of [count] waiters; the event is flagged when they are more than the record holds. *)
Definition futex_waitv_sections (user_ptr count base fl : Z) (secs : list PayloadSection) : Prop :=
  if (user_ptr =? 0) || (count =? 0) then secs = []
  else one_section (section_with PayloadKindStruct PayloadDirectionIn 0 user_ptr (fun ulen data e =>
    ulen = Z.min (count * FUTEX_DIRECT_WAITV_ELEM_SIZE) 0xffffffff /\
    futex_waiters user_ptr (Z.min count FUTEX_DIRECT_WAITV_MAX * FUTEX_DIRECT_WAITV_ELEM_SIZE) data e /\
    fl = if (e =? 0) && (FUTEX_DIRECT_WAITV_MAX <? count) then Z.lor base EVENT_FLAG_TRUNCATED else base)) secs.

Lemma futex_waitv_lengths count :
  0 <= count < 2 ^ 32 ->
  futex_waitv_user_len_direct count = Z.min (count * 24) 0xffffffff /\
  futex_waitv_copy_len_direct count = Z.min count 128 * 24.
Proof.
  intros Hc. unfold futex_waitv_user_len_direct, futex_waitv_copy_len_direct. split.
  - change (4294967295 / 24) with 178956970. destruct (Z.ltb_spec 178956970 count); [lia|].
    rewrite u32_small; lia.
  - destruct (Z.ltb_spec 128 count); rewrite u32_small; lia.
Qed.

Lemma capture_futex_waitv_ok user_ptr count :
  0 <= count < 2 ^ 32 ->
  flags_capture (futex_waitv_sections user_ptr count) (32 + 3072)
    (capture_futex_waitv_waiters_tlv_direct user_ptr count).
Proof.
  intros Hc. apply flags_capture_of. intros base w d buf off Hb Ho Hs.
  unfold capture_futex_waitv_waiters_tlv_direct, futex_waitv_sections.
  destruct (futex_waitv_lengths count Hc) as [-> ->].
  pose proof (capturing_start d off w buf Hb) as C0.
  destruct (Z.eqb_spec user_ptr 0) as [|Hp]; cbn [orb]; wp_steps.
  { split_and!; [lia | lia | by left | reflexivity |]. intros _. by eapply decodable_0. }
  destruct (Z.eqb_spec (Z.min count 128 * 24) 0) as [|H24], (Z.eqb_spec count 0) as [|H0]; try lia; wp_steps.
  { split_and!; [lia | lia | by left | reflexivity |]. intros _. by eapply decodable_0. }
  eapply wp_mono; [eapply wp_copy_futex_waiters; [exact C0 | lia | lia | lia]|].
  intros [n e] w1 (Hn & b & C1 & HD). cbv beta iota. wp_step.
  set (fl := if (e =? 0) && (128 <? count) then Z.lor base EVENT_FLAG_TRUNCATED else base).
  assert (forall w2, capturing d off (zlen buf) w w2 b -> wp (let* size := finish_section (Some d) off
      (TlvHeader 3 0 0 (Z.min (count * 24) 4294967295) n e user_ptr) in ret (size, fl))
    (fun '(n, fl) w' => 0 <= n <= 32 + 3072 /\ flags_from base fl /\ captures d off w w' /\
      (True -> decodable (one_section (section_with PayloadKindStruct PayloadDirectionIn 0 user_ptr
        (fun ulen data e => ulen = Z.min (count * 24) 4294967295 /\
           futex_waiters user_ptr (Z.min count 128 * 24) data e /\
           fl = (if (e =? 0) && (128 <? count) then Z.lor base EVENT_FLAG_TRUNCATED else base)))) d off n w')) w2) as Fin.
  { intros w2 C2. wp_step. eapply wp_mono.
    { eapply (wp_finish_with (fun ulen data e => ulen = Z.min (count * 24) 4294967295 /\
        futex_waiters user_ptr (Z.min count 128 * 24) data e /\
        fl = (if (e =? 0) && (128 <? count) then Z.lor base EVENT_FLAG_TRUNCATED else base)) _ _ _ _ _ _ _ _ _ (32 + 3072));
        [exact C2 | lia | lia | lia | lia | lia | done | done | done]. }
    intros m w3 (? & ? & ?). wp_steps. split_and!; [lia | lia | | done | done].
    subst fl. unfold flags_from. destruct (_ && _); auto. }
  replace ((e =? 0) && (0 <? n) && (Z.min count 128 * 24 <? Z.min (count * 24) 4294967295))
    with ((e =? 0) && (128 <? count)).
  - subst fl. destruct ((e =? 0) && (128 <? count)); wp_step; [|by apply Fin].
    eapply wp_quiet; [exact C1 | eauto with keeps |]. intros _ w2 C2. wp_step. by apply Fin.
  - destruct (Z.eqb_spec e 0), (Z.ltb_spec 0 n), (Z.ltb_spec 128 count),
      (Z.ltb_spec (Z.min count 128 * 24) (Z.min (count * 24) 4294967295)); cbn; lia || done.
Qed.

Ltac struct_ok :=
  lazymatch goal with
  | |- tlv_capture _ _ _ (capture_struct_section ?slot ?r ?n ?i ?f ?u) =>
      apply (capture_struct_section_ok slot r n i f u)
  end; cbn [In]; auto; try lia.

Lemma emit_futex_enter_ok pid tid sys_id ctx ts :
  let args := args_u64 (enter_args ctx) in
  emitter (fun r => reads_capture_enter r pid tid sys_id ctx ts (-1)
      (when (futex_has_timeout_direct (arg1 args)) (time_section PayloadDirectionIn 3 (arg3 args) 16)))
    (emit_futex_enter_event_v2_direct pid tid sys_id ctx ts).
Proof.
  intros args. apply enter_capture_ok; [lia|]. apply capture_if_ok; [lia|].
  apply (capture_time_from_ptr_ok 3 (arg3 args) 16 0); cbn; auto.
Qed.

Lemma emit_futex_wait_enter_ok pid tid sys_id ctx ts :
  emitter (fun r => reads_capture_enter r pid tid sys_id ctx ts (-1)
      (time_section PayloadDirectionIn 4 (arg4 (args_u64 (enter_args ctx))) 16))
    (emit_futex_wait_enter_event_v2_direct pid tid sys_id ctx ts).
Proof. apply enter_capture_ok; [lia|]. apply (capture_time_from_ptr_ok 4 _ 16 0); cbn; auto. Qed.

Lemma emit_futex_waitv_enter_ok pid tid sys_id ctx ts :
  let args := args_u64 (enter_args ctx) in
  emitter (fun r => reads_flags_enter r pid tid sys_id ctx ts (-1)
      (flags_appended (futex_waitv_sections (arg0 args) (u32 (arg1 args)))
         (unflagged (time_section PayloadDirectionIn 3 (arg3 args) 16)) EVENT_FLAG_GENERIC_ENTER))
    (emit_futex_waitv_enter_event_v2_direct pid tid sys_id ctx ts).
Proof.
  intros args. apply (enter_flags_ok _ pid tid sys_id ctx ts (-1) (flags_appended _ _)); [lia|].
  apply flags_both_ok; [apply capture_futex_waitv_ok, u32_range | | lia].
  apply same_flags_ok, tlv_capture_healthy. apply (capture_time_from_ptr_ok 3 _ 16 0); cbn; auto.
Qed.

Lemma emit_futex_requeue_enter_ok pid tid sys_id ctx ts :
  emitter (fun r => reads_capture_enter r pid tid sys_id ctx ts (-1)
      (time_section PayloadDirectionIn 0 (arg0 (args_u64 (enter_args ctx))) 48))
    (emit_futex_requeue_enter_event_v2_direct pid tid sys_id ctx ts).
Proof. apply enter_capture_ok; [lia|]. apply (capture_struct_section_ok 48 48 48 0 0); cbn; auto; lia. Qed.

(** ** [cachestat] *)

Lemma capture_cachestat_ok arg_index tlv_flags user_ptr n :
  In n [16; 40] -> In tlv_flags [0; PAYLOAD_TLV_FLAG_DIRECTION_OUT] ->
  tlv_capture True (time_section (payloadDirectionFromTLV tlv_flags) arg_index user_ptr n) (32 + n)
    (capture_cachestat_struct_tlv_direct arg_index tlv_flags user_ptr n).
Proof.
  intros Hn Ht. unfold capture_cachestat_struct_tlv_direct, time_section.
  cbn in Hn. destruct Hn as [<-|[<-|[]]]; cbn [Z.eqb Pos.eqb]; struct_ok.
Qed.

Lemma emit_cachestat_enter_emits pid tid sys_id ctx cfg ts :
  keeps emits (emit_cachestat_enter_event_v2_direct pid tid sys_id ctx cfg ts).
Proof.
  apply (fd_paths_then_emits _ _ (fun args => time_section PayloadDirectionIn 1 (arg1 args) 16)); [lia|].
  intros args. apply tlv_capture_healthy. apply (capture_cachestat_ok 1 0); cbn; auto.
Qed.

Lemma emit_cachestat_exit_ok p rv dur :
  emitter (fun r => reads_capture_exit r p rv dur (out_section p 2 40))
    (emit_cachestat_exit_event_v2_direct p rv dur).
Proof.
  apply exit_capture_ok; [lia|]. apply (capture_cachestat_ok 2 PAYLOAD_TLV_FLAG_DIRECTION_OUT); cbn; auto.
Qed.

(** ** Capabilities *)

Definition capability_section (dir : PayloadDirection) (arg_index user_ptr n : Z)
    (secs : list PayloadSection) : Prop :=
  if n =? 0 then secs = [] else time_section dir arg_index user_ptr n secs.

Lemma capture_capability_ok arg_index tlv_flags user_ptr n :
  In n [0; 8; 12; 24] -> In tlv_flags [0; PAYLOAD_TLV_FLAG_DIRECTION_OUT] ->
  tlv_capture True (capability_section (payloadDirectionFromTLV tlv_flags) arg_index user_ptr n) (32 + n)
    (capture_capability_struct_tlv_direct arg_index tlv_flags user_ptr n).
Proof.
  intros Hn Ht. unfold capability_section, time_section, unless_null.
  destruct (user_ptr =? 0) eqn:E.
  - apply tlv_capture_none; [|by destruct (n =? 0)|].
    + cbn in Hn. lia.
    + intros. unfold capture_capability_struct_tlv_direct. by rewrite E.
  - cbn in Hn.
    destruct Hn as [<-|Hn]; [apply tlv_capture_none; [lia | done |]; intros;
      unfold capture_capability_struct_tlv_direct; by rewrite orb_true_r|].
    assert (capability_direct_slot n = n /\ (n =? 0) = false /\ 0 <= n < 2 ^ 31) as (Hs & Hz & Hr)
      by (destruct Hn as [<-|[<-|[<-|[]]]]; done).
    rewrite Hz. pose proof (capture_struct_section_ok n n n arg_index tlv_flags user_ptr ltac:(lia) ltac:(lia) Ht) as C.
    unfold unless_null in C. rewrite E in C. intros w d buf off. specialize (C w d buf off).
    unfold capture_capability_struct_tlv_direct. by rewrite E, Hz, Hs.
Qed.

(** The header of the call, then, for [capset] when the header could be read, data whose size
    is the version's. *)
Definition capability_enter_sections (sys_id : Z) (args : args6) (pre : Z)
    : list PayloadSection -> Prop :=
  appended (capability_section PayloadDirectionIn 0 (arg0 args) 8)
    (when (one_of sys_id [SYS_CAPSET] && (pre =? 0))
       (fun secs => exists version,
          capability_section PayloadDirectionIn 1 (arg1 args) (capability_direct_data_size version) secs)).

Lemma capability_sizes version : In (capability_direct_data_size version) [0; 8; 12; 24].
Proof. unfold capability_direct_data_size. destruct (_ =? _); [|destruct (_ || _)]; cbn; auto. Qed.

Lemma capture_capability_enter_ok sys_id args :
  let cap := (32 + 8) + (if one_of sys_id [SYS_CAPSET] then 32 + 24 else 0) in
  payload_yields enter_payload_offset cap (fun pre => decodes True (eq EVENT_FLAG_GENERIC_ENTER)
      (fun _ => capability_enter_sections sys_id args pre))
    (fun ptr =>
       let* (n, pre) := capture_capability_enter sys_id args ptr enter_payload_offset in
       ret (tlv_flag EVENT_FLAG_GENERIC_ENTER n, n, pre)).
Proof.
  intros cap w d buf Hb Hs. unfold capture_capability_enter, capture_capability_header_tlv_direct. wp_steps.
  assert (32 + 8 <= cap) by (subst cap; destruct (one_of _ _); lia).
  eapply wp_mono; [eapply (capture_capability_ok 0 0 (arg0 args) 8); [cbn; auto | by left | exact Hb | lia | lia]|].
  intros n w1 (Hn & C1 & D1). cbv beta.
  assert (forall w2 pre version, quiet w1 w2 ->
    wp (let* m := if one_of sys_id [SYS_CAPSET] && (pre =? 0)
                  then capture_capability_struct_tlv_direct 1 0 (arg1 args) (capability_direct_data_size version)
                         (Some d) (enter_payload_offset + n)
                  else ret 0 in
        ret (n + m, pre))
      (fun a w' => wp (let '(m, pre) := a in ret (tlv_flag EVENT_FLAG_GENERIC_ENTER m, m, pre)) (fun '(flags, n, pre) w' =>
         0 <= n <= cap /\ captures d enter_payload_offset w w' /\ exists buf', reserved w' !! d = Some buf' /\
         decodes True (eq EVENT_FLAG_GENERIC_ENTER) (fun _ => capability_enter_sections sys_id args pre)
           flags (slice buf' enter_payload_offset n)) w') w2) as Tail.
  { intros w2 pre version Q. wp_step.
    assert (decodable (capability_section PayloadDirectionIn 0 (arg0 args) 8) d enter_payload_offset n w2) as D2.
    { destruct (D1 I) as (b & secs & Hbb & ? & ?). exists b, secs. split_and!; try done.
      by rewrite (oc_reserved _ _ (proj1 Q)). }
    eapply wp_mono.
    { apply (wp_capture_after True (capability_section PayloadDirectionIn 0 (arg0 args) 8) (when (one_of sys_id [SYS_CAPSET] && (pre =? 0)) (fun secs => exists version,
          capability_section PayloadDirectionIn 1 (arg1 args) (capability_direct_data_size version) secs))
        (cap - 40) (fun ptr off => if one_of sys_id [SYS_CAPSET] && (pre =? 0)
           then capture_capability_struct_tlv_direct 1 0 (arg1 args) (capability_direct_data_size version) ptr off
           else ret 0) d enter_payload_offset n w w2 buf Hb); [lia | lia | lia | | done |].
      { etrans; [exact C1 | by apply quiet_captures]. }
      unfold when. subst cap. destruct (one_of sys_id [SYS_CAPSET]) eqn:Ec; cbn [andb];
        [destruct (pre =? 0)|]; [|apply tlv_capture_none; [lia | done | done]..].
      pose proof (capability_sizes version) as Hv. cbn in Hv.
      apply (tlv_capture_weaken True True (capability_section PayloadDirectionIn 1 (arg1 args)
        (capability_direct_data_size version)) _ (32 + capability_direct_data_size version));
        [done | by exists version | lia |].
      exact (capture_capability_ok 1 0 (arg1 args) _ (capability_sizes version) ltac:(by left)). }
    intros m w3 (Hm & C3 & D3). wp_steps. split_and!; [lia | lia | done |].
    eapply captured_payload; [exact Hb | exact C3 | lia | lia | lia | done | exact D3]. }
  destruct (Z.eqb_spec n (32 + 8)).
  - wp_step. eapply (keeps_wp quiet); [eauto with keeps|]. intros [err bytes] w2 Q. cbv beta iota. wp_step.
    by apply Tail.
  - destruct (negb (arg0 args =? 0)); wp_step; by apply (Tail _ _ 0).
Qed.

(** The probe result of the entry is the one of the header. *)
Lemma emit_capability_enter_ok pid tid sys_id ctx ts :
  emitter (fun r seq rec => exists pre, reads_capture_enter r pid tid sys_id ctx ts pre
      (capability_enter_sections sys_id (args_u64 (enter_args ctx)) pre) seq rec)
    (emit_capability_enter_event_v2_direct pid tid sys_id ctx ts).
Proof.
  apply (enter_emit_using_ok _ pid tid sys_id ts (args_u64 (enter_args ctx)) 0 (fun pre => pre) (-1)
    (fun pre => decodes True (eq EVENT_FLAG_GENERIC_ENTER) (fun _ =>
       capability_enter_sections sys_id (args_u64 (enter_args ctx)) pre))).
  - destruct (one_of _ _); lia.
  - apply capture_capability_enter_ok.
  - intros pre. apply enter_ctx_body_ok.
  - intros pre flags pl (fl & <- & -> & _). apply tlv_flag_not_compact. cbn. auto.
Qed.

Lemma emit_capability_exit_ok p rv dur :
  emitter (fun r => reads_capture_exit r p rv dur (out_section p 1 24))
    (emit_capability_exit_event_v2_direct p rv dur).
Proof.
  apply exit_capture_ok; [lia|].
  apply (capture_capability_ok 1 PAYLOAD_TLV_FLAG_DIRECTION_OUT _ 24); cbn; auto.
Qed.

(** ** [memfd_create] *)

(** The name: a terminated string, or the first 250 bytes. *)
Definition memfd_name (user_ptr ulen : Z) (data : list Z) (e : Z) : Prop :=
  ulen = zlen data /\
  ((e = 0 /\ exists k, data = until_nul (user_bytes k user_ptr 249) ++ [0]) \/
   copied user_ptr MEMFD_CREATE_DIRECT_NAME_MAX data e).

Lemma wp_copy_memfd_name d off size w0 w buf user_ptr :
  capturing d off size w0 w buf -> 0 <= off -> off + PAYLOAD_TLV_HEADER_SIZE + 250 <= size ->
  wp (copy_memfd_name (Some d) (off + PAYLOAD_TLV_HEADER_SIZE) user_ptr)
    (fun '(n, e) w' => 0 <= n <= 250 /\ exists b, capturing d off size w0 w' b /\
       memfd_name user_ptr n (slice b (off + 32) n) e) w.
Proof.
  intros C Ho Hs. unfold copy_memfd_name. wp_step. pose proof (cg_size _ _ _ _ _ _ C) as Hz.
  assert (forall w1 b e, capturing d off size w0 w1 b -> read_failed user_ptr e ->
    0 <= 0 <= 250 /\ exists b, capturing d off size w0 w1 b /\
      memfd_name user_ptr 0 (slice b (off + 32) 0) e) as Fail.
  { intros w1 b e C1 He. split; [lia|]. exists b. split; [done|]. rewrite slice_0. split; [done|]. right. by right. }
  eapply wp_dynptr_data; [exact C | lia | |]; intros w1.
  2: { intros NF C1. wp_step. eapply wp_copy_fail; [exact C1 | exact NF |].
       intros _ w2 C2. wp_steps. eapply Fail; [exact C2 | solve_failed]. }
  intros C1. wp_step. eapply wp_read_user_str_into; [exact C1 | lia | lia | lia |].
  intros w2 r bytes Hl Hr C2. pose proof (zlen_nonneg bytes). pose proof (cg_size _ _ _ _ _ _ C2) as Hz2.
  destruct (Z.ltb_spec 0 r), (Z.ltb_spec r 250); cbn [andb]; wp_steps.
  { destruct Hr as [(Hn1 & -> & Hd)|[? _]]; [|lia]. rewrite u32_small by lia. split; [lia|].
    eexists. split; [exact C2|]. rewrite slice_put_same by lia. split; [done|]. left.
    split; [done|]. by exists (calls w1). }
  all: eapply wp_read_user_into; [exact C2 | lia | lia | lia |]; intros w3 raw bs Hl3 Hr3 C3.
  all: destruct (Z.ltb_spec raw 0); wp_steps; [eapply Fail; [exact C3 | solve_failed]|].
  all: destruct Hr3 as [[-> Hb]|[? _]]; [|lia]; split; [lia|]; eexists; (split; [exact C3|]).
  all: rewrite slice_put_same by lia; split; [by rewrite Hl3|]; right; left; split; [done|]; by exists (calls w2).
Qed.

Definition memfd_sections (user_ptr : Z) : list PayloadSection -> Prop :=
  unless_null user_ptr (section_with PayloadKindString PayloadDirectionIn 0 user_ptr (memfd_name user_ptr)).

Lemma emit_memfd_create_enter_ok pid tid sys_id ctx ts :
  emitter (fun r => reads_capture_enter r pid tid sys_id ctx ts (-1)
      (memfd_sections (arg0 (args_u64 (enter_args ctx)))))
    (emit_memfd_create_enter_event_v2_direct pid tid sys_id ctx ts).
Proof.
  apply enter_capture_ok; [lia|]. set (user_ptr := arg0 _). intros w d buf off Hb Ho Hs.
  unfold capture_memfd_create_name_tlv_direct, memfd_sections, unless_null.
  pose proof (capturing_start d off w buf Hb) as C0.
  destruct (user_ptr =? 0); wp_steps.
  { split_and!; [lia | lia | reflexivity |]. intros _. by eapply decodable_0. }
  eapply wp_mono; [eapply wp_copy_memfd_name; [exact C0 | lia | lia]|].
  intros [n e] w1 (Hn & b & C1 & HD). cbv beta iota.
  eapply wp_finish_with; [exact C1 | lia | lia | lia | lia | lia | done | done | exact HD].
Qed.

(** ** [clone3] *)

(** The argument structure: the whole copy, its known part, or nothing. *)
Definition clone3_args (user_ptr len : Z) (data : list Z) (e : Z) : Prop :=
  copied user_ptr (Z.min len CLONE3_DIRECT_ARGS_MAX) data e \/
  (CLONE3_DIRECT_KNOWN_ARGS_SIZE < len /\ copied user_ptr CLONE3_DIRECT_KNOWN_ARGS_SIZE data e).
Definition clone3_sections (user_ptr len base fl : Z) (secs : list PayloadSection) : Prop :=
  if (user_ptr =? 0) || (len =? 0) then secs = []
  else one_section (section_with PayloadKindStruct PayloadDirectionIn 0 user_ptr (fun ulen data e =>
    ulen = Z.min len 0xffffffff /\ clone3_args user_ptr len data e /\
    fl = if (e =? 0) && (zlen data <? Z.min len 0xffffffff) then Z.lor base EVENT_FLAG_TRUNCATED else base)) secs.

Lemma wp_copy_clone3_args d off size w0 w buf user_ptr len base :
  capturing d off size w0 w buf -> 0 <= off -> off + PAYLOAD_TLV_HEADER_SIZE + 256 <= size -> 0 < len ->
  wp (copy_clone3_args (Some d) (off + PAYLOAD_TLV_HEADER_SIZE) user_ptr len base)
    (fun '(n, e, fl) w' => 0 <= n <= 256 /\ flags_from base fl /\ (e = 0 -> 0 < n) /\ (fl = base \/ e = 0 /\ n < Z.min len 0xffffffff) /\
       exists b, capturing d off size w0 w' b /\ clone3_args user_ptr len (slice b (off + 32) n) e) w.
Proof.
  intros C Ho Hs Hl0. unfold copy_clone3_args. cbv zeta. wp_step. pose proof (cg_size _ _ _ _ _ _ C) as Hz.
  rewrite payload_tlv_copy_len_min by lia.
  assert (forall w1 b e, capturing d off size w0 w1 b -> read_failed user_ptr e ->
    0 <= 0 <= 256 /\ flags_from base base /\ (e = 0 -> 0 < 0) /\ (base = base \/ e = 0 /\ 0 < Z.min len 0xffffffff) /\
    exists b, capturing d off size w0 w1 b /\
      clone3_args user_ptr len (slice b (off + 32) 0) e) as Fail.
  { intros w1 b e C1 He. split_and!; try lia; [by left | destruct He; lia |]. exists b. split; [done|].
    rewrite slice_0. left. by right. }
  eapply wp_dynptr_data; [exact C | lia | |]; intros w1.
  2: { intros NF C1. wp_step. eapply wp_copy_fail; [exact C1 | exact NF |].
       intros _ w2 C2. wp_steps. eapply Fail; [exact C2 | solve_failed]. }
  intros C1. wp_step. eapply wp_read_user_into; [exact C1 | lia | lia | lia |].
  intros w2 err bytes Hl Hr C2. destruct (Z.ltb_spec err 0).
  - assert (read_failed user_ptr err) as Hf by solve_failed.
    destruct (Z.ltb_spec 88 len); wp_steps; [|by eapply Fail].
    pose proof (cg_size _ _ _ _ _ _ C2) as Hz2.
    eapply wp_read_user_into; [exact C2 | lia | lia | lia |]. intros w3 pe bs Hl3 Hr3 C3.
    destruct (Z.eqb_spec pe 0) as [->|]; wp_steps; [|by eapply Fail].
    destruct Hr3 as [[_ Hb]|[? _]]; [|lia].
    eapply wp_quiet; [exact C3 | eauto with keeps |]. intros _ w4 C4. wp_steps.
    split_and!; try lia; [by right |]. eexists. split; [exact C4|]. right. split; [lia|]. left.
    split; [done|]. exists (calls w2). rewrite <- Hb. apply slice_put_same; lia.
  - wp_steps. destruct Hr as [[-> Hb]|[? _]]; [|lia]. split_and!; try lia; [by left |].
    eexists. split; [exact C2|]. left. left. split; [done|]. exists (calls w1). rewrite <- Hb.
    apply slice_put_same; lia.
Qed.

Lemma capture_clone3_args_ok user_ptr len :
  0 <= len -> flags_capture (clone3_sections user_ptr len) (32 + 256) (capture_clone3_args_tlv_direct user_ptr len).
Proof.
  intros Hlen. apply flags_capture_of. intros base w d buf off Hb Ho Hs.
  unfold capture_clone3_args_tlv_direct, clone3_sections.
  pose proof (capturing_start d off w buf Hb) as C0.
  destruct (Z.eqb_spec user_ptr 0), (Z.eqb_spec len 0); cbn [orb]; wp_steps;
    try (split_and!; [lia | lia | by left | reflexivity |]; intros _; by eapply decodable_0).
  rewrite payload_tlv_clamp_u32_min by lia.
  eapply wp_mono; [eapply (wp_copy_clone3_args _ _ _ _ _ _ user_ptr len base); [exact C0 | lia | lia | lia]|].
  intros [[m e] mid] w1 (Hm & HF & He & Hmid & b & C1 & HD). cbv beta iota.
  eapply wp_mono.
  { eapply (wp_finish_flags (fun fl ulen data e => ulen = Z.min len 4294967295 /\
      clone3_args user_ptr len data e /\
      fl = (if (e =? 0) && (zlen data <? Z.min len 0xffffffff) then Z.lor base EVENT_FLAG_TRUNCATED else base)))
      with (cap := 32 + 256); [exact C1 | lia | lia | lia | lia | lia | done | done |].
    split; [done|]. split; [done|]. pose proof (cg_size _ _ _ _ _ _ C1). rewrite zlen_slice by lia.
    destruct (Z.eqb_spec e 0) as [->|]; cbn [andb]; [|destruct Hmid as [->|[? _]]; [done|lia]].
    specialize (He eq_refl). destruct (Z.ltb_spec 0 m); [|lia]. cbn [andb].
    destruct (Z.ltb_spec m (Z.min len 4294967295)); [|destruct Hmid as [->|[_ ?]]; [done|lia]].
    destruct HF as [->| ->]; [done|]. by rewrite <- Z.lor_assoc, Z.lor_diag. }
  intros [nn fl] w2 (? & HF2 & ? & ?). split_and!; [lia | lia | by eapply flags_from_trans | done | done].
Qed.


(** A read into a local variable while a section is captured. *)
Lemma wp_probe_read_user d off size w0 w buf n addr (Q : Z * list Z -> world -> Prop) :
  capturing d off size w0 w buf -> 0 <= n ->
  (forall w' err bytes,
     (err = 0 /\ bytes = user_bytes (calls w) addr n) \/ read_failed addr err ->
     capturing d off size w0 w' buf -> Q (err, bytes) w') ->
  wp (bpf_probe_read_user n addr) Q w.
Proof.
  intros C Hn H. pose proof (probe_read_user_result n addr w) as R.
  pose proof (bpf_probe_read_user_quiet n addr w) as Qt. unfold wp.
  destruct (bpf_probe_read_user n addr w) as [[err bytes] w1]. cbn [fst snd] in *.
  destruct (R Hn) as [_ Hr]. eapply H; [|by eapply capturing_quiet]. destruct Hr as [?|[? _]]; auto.
Qed.

(** The array of thread ids: where and how long the argument structure says. *)
Definition set_tid_sections (args_ptr args_len : Z) (secs : list PayloadSection) : Prop :=
  secs = [] \/
  80 <= args_len /\ exists k k',
    let tid_ptr := le_val (user_bytes k (args_ptr + 64) 8) in
    let tid_size := le_val (user_bytes k' (args_ptr + 72) 8) in
    tid_ptr <> 0 /\ 1 <= tid_size <= CLONE3_DIRECT_SET_TID_MAX_ENTRIES /\
    one_section (section_with PayloadKindBytes PayloadDirectionIn PAYLOAD_TLV_CLONE3_SET_TID_ARG_INDEX
      tid_ptr (fun ulen data e => ulen = 4 * tid_size /\ copied tid_ptr (4 * tid_size) data e)) secs.

Lemma capture_set_tid_ok args_ptr args_len :
  tlv_capture True (set_tid_sections args_ptr args_len) (32 + 128)
    (capture_clone3_set_tid_tlv_direct args_ptr args_len).
Proof.
  intros w d buf off Hb Ho Hs. unfold capture_clone3_set_tid_tlv_direct.
  pose proof (capturing_start d off w buf Hb) as C0.
  assert (forall w', capturing d off (zlen buf) w w' buf -> 0 <= 0 <= 32 + 128 /\ captures d off w w' /\
    (True -> decodable (set_tid_sections args_ptr args_len) d off 0 w')) as None.
  { intros w' C. split_and!; [lia | lia | exact (cg_rel _ _ _ _ _ _ C)|]. intros _.
    eapply decodable_0; [exact C | by left]. }
  destruct (Z.ltb_spec args_len 80); rewrite ?orb_true_r; cbn [orb]; [wp_steps; by apply None|].
  rewrite orb_false_r. destruct (_ || _); [wp_steps; by apply None|]. wp_step.
  eapply wp_probe_read_user; [exact C0 | lia |]. intros w1 err bytes R1 C1. cbv beta iota zeta.
  destruct (Z.eqb_spec err 0); cbn [negb]; [|wp_steps; by apply None].
  destruct R1 as [[_ ->]|[? _]]; [|lia]. wp_step.
  eapply wp_probe_read_user; [exact C1 | lia |]. intros w2 err2 bytes2 R2 C2. cbv beta iota zeta.
  destruct (Z.eqb_spec err2 0); cbn [negb orb]; [|wp_steps; by apply None].
  destruct R2 as [[_ ->]|[? _]]; [|lia].
  set (tp := le_val (user_bytes (calls w) (args_ptr + 64) 8)).
  pose proof (le_val_nonneg (user_bytes (calls w1) (args_ptr + 72) 8)) as Hts.
  set (ts := le_val (user_bytes (calls w1) (args_ptr + 72) 8)) in *.
  destruct (Z.eqb_spec tp 0), (Z.eqb_spec ts 0), (Z.ltb_spec 32 ts); cbn [orb]; wp_steps; try by apply None.
  unfold capture_clone3_set_tid_section. cbv zeta. rewrite (u32_small ts), (u32_small (ts * 4)) by lia.
  destruct (_ <? _); wp_steps; [by apply None|].
  set (D := fun ulen data e => ulen = 4 * ts /\ copied tp (4 * ts) data e).
  assert (forall w' b n e, capturing d off (zlen buf) w w' b -> n = 0 \/ n = ts * 4 ->
    D (ts * 4) (slice b (off + 32) n) e ->
    wp (finish_section (Some d) off (TlvHeader PAYLOAD_TLV_KIND_BYTES PAYLOAD_TLV_CLONE3_SET_TID_ARG_INDEX 0 (ts * 4) n e tp))
      (fun n w' => 0 <= n <= 32 + 128 /\ captures d off w w' /\
         (True -> decodable (set_tid_sections args_ptr args_len) d off n w')) w') as Fin.
  { intros w' b n' e' C HD Hn. eapply wp_mono.
    { eapply (wp_finish_with D) with (kind := PayloadKindBytes) (dir := PayloadDirectionIn) (cap := 32 + 128); [exact C | lia | lia | lia | lia | lia | done | done | exact Hn]. }
    intros m w3 (? & ? & HD3). split_and!; [lia | lia | done |]. intros _.
    destruct (HD3 I) as (b3 & secs & ? & ? & ?). exists b3, secs. split_and!; [done | done |]. right.
    split; [lia|]. exists (calls w), (calls w1). fold tp ts. cbv zeta. split_and!; [done | lia | lia | done]. }
  eapply wp_copy_user_struct; [exact C2 | lia | lia | lia | |]; intros w3 b.
  - intros k C3 Hk. cbv beta iota. eapply Fin; [exact C3 | by right |]. split; [lia|]. left. split; [done|].
    exists k. rewrite Hk. f_equal. lia.
  - intros e3 C3 He. cbv beta iota. eapply Fin; [exact C3 | by left |]. split; [lia|]. right. by rewrite slice_0.
Qed.

Lemma emit_clone3_enter_ok pid tid sys_id ctx ts :
  let args := args_u64 (enter_args ctx) in
  emitter (fun r => reads_flags_enter r pid tid sys_id ctx ts (-1)
      (flags_appended (clone3_sections (arg0 args) (arg1 args))
         (unflagged (set_tid_sections (arg0 args) (arg1 args))) EVENT_FLAG_GENERIC_ENTER))
    (emit_clone3_enter_event_v2_direct pid tid sys_id ctx ts).
Proof.
  intros args. apply (enter_flags_ok _ pid tid sys_id ctx ts (-1) (flags_appended _ _)); [lia|].
  apply flags_both_ok; [apply capture_clone3_args_ok, (args_u64_nonneg _ 1) | | lia].
  apply same_flags_ok, tlv_capture_healthy, capture_set_tid_ok.
Qed.

(** ** [fcntl] *)

Lemma fcntl_size_cases cmd : In (fcntl_direct_payload_size cmd) [0; 8; 32].
Proof. unfold fcntl_direct_payload_size. destruct (existsb _ _); [|destruct (existsb _ _)]; cbn; auto. Qed.

(** The structure the command uses, if any. *)
Definition fcntl_sections (dir : PayloadDirection) (cmd user_ptr : Z) : list PayloadSection -> Prop :=
  when (negb (fcntl_direct_payload_size cmd =? 0))
    (time_section dir 2 user_ptr (fcntl_direct_payload_size cmd)).

Lemma capture_fcntl_ok cmd user_ptr tlv_flags :
  In tlv_flags [0; PAYLOAD_TLV_FLAG_DIRECTION_OUT] ->
  tlv_capture True (fcntl_sections (payloadDirectionFromTLV tlv_flags) cmd user_ptr) (32 + 48)
    (capture_fcntl_struct_tlv_direct cmd user_ptr tlv_flags).
Proof.
  intros Ht. unfold fcntl_sections, time_section, unless_null. pose proof (fcntl_size_cases cmd) as Hn.
  destruct (user_ptr =? 0) eqn:E.
  - apply tlv_capture_none; [lia | by destruct (negb _) |]. intros.
    unfold capture_fcntl_struct_tlv_direct. cbv zeta. by rewrite E, orb_true_r.
  - pose proof (fun n => capture_struct_section_ok n n n 2 tlv_flags user_ptr) as C.
    unfold unless_null in C. rewrite E in C.
    assert (forall ptr off, capture_fcntl_struct_tlv_direct cmd user_ptr tlv_flags ptr off =
      (let n := fcntl_direct_payload_size cmd in if n =? 0 then ret 0 else
       capture_struct_section (if n =? 8 then 8 else 32) n n 2 tlv_flags user_ptr ptr off)) as Eq
      by (intros; unfold capture_fcntl_struct_tlv_direct; cbv zeta; by rewrite E, orb_false_r).
    intros w d buf off Hb Ho Hs. rewrite Eq. cbv zeta.
    destruct Hn as [Hn|[Hn|[Hn|[]]]]; rewrite <- Hn; cbn [Z.eqb Pos.eqb negb when].
    + wp_steps. split_and!; [lia | lia | reflexivity |]. intros _.
      eapply decodable_0; [by apply capturing_start | done].
    + eapply tlv_capture_cap; [apply C; auto; lia | | done | lia | lia]. lia.
    + eapply tlv_capture_cap; [apply C; auto; lia | | done | lia | lia]. lia.
Qed.

Lemma emit_fcntl_enter_ok pid tid sys_id ctx ts :
  let args := args_u64 (enter_args ctx) in
  emitter (fun r => reads_capture_enter r pid tid sys_id ctx ts (-1)
      (fcntl_sections PayloadDirectionIn (arg1 args) (arg2 args)))
    (emit_fcntl_enter_event_v2_direct pid tid sys_id ctx ts).
Proof. intros args. apply enter_capture_ok; [lia|]. apply (capture_fcntl_ok _ _ 0). by left. Qed.

(** The state of a new descriptor, or the structure the command filled. *)
Definition fcntl_exit_sections (p : pending_syscall) (rv : Z) : list PayloadSection -> Prop :=
  when (0 <=? rv)
    (if is_fcntl_fd_state_cmd (arg1 (p_args p)) then fd_state_of (s32 rv)
     else fcntl_sections PayloadDirectionOut (arg1 (p_args p)) (arg2 (p_args p))).

Lemma emit_fcntl_exit_ok p rv dur :
  emitter (fun r => reads_capture_exit r p rv dur (fcntl_exit_sections p rv))
    (emit_fcntl_exit_event_v2_direct p rv dur).
Proof.
  apply exit_capture_ok; [lia|]. apply capture_if_ok; [lia|]. destruct (is_fcntl_fd_state_cmd _).
  - apply capture_fd_state_ok, s32_range.
  - apply (capture_fcntl_ok _ _ PAYLOAD_TLV_FLAG_DIRECTION_OUT). by right; left.
Qed.

(** ** [ioctl] *)

Lemma ioctl_user_len_range cmd : 0 < ioctl_direct_user_len cmd < 2 ^ 32.
Proof.
  unfold ioctl_direct_user_len. cbv zeta. destruct (Z.ltb_spec 0 (ioctl_direct_known_size cmd)).
  - split; [done|]. unfold ioctl_direct_known_size. cbv zeta. repeat case_match; lia.
  - pose proof (u32_range (Z.land (Z.shiftr cmd 16) 0x3fff)). destruct (Z.eqb_spec (u32 (Z.land (Z.shiftr cmd 16) 16383)) 0); lia.
Qed.

(** What the argument points to, up to the size the command encodes. *)
Definition ioctl_sections (dir : PayloadDirection) (cmd user_ptr base fl : Z) (secs : list PayloadSection) : Prop :=
  if user_ptr =? 0 then secs = [] /\ fl = base
  else one_section (buffer_section PayloadKindBytes dir IOCTL_DIRECT_BYTES_MAX 2 user_ptr
         (ioctl_direct_user_len cmd) base fl) secs.

Lemma capture_ioctl_arg_ok cmd user_ptr tlv_flags base :
  In tlv_flags [0; PAYLOAD_TLV_FLAG_DIRECTION_OUT] ->
  tlv_capture_flags True (flags_from base)
    (ioctl_sections (payloadDirectionFromTLV tlv_flags) cmd user_ptr base) (32 + 512)
    (capture_ioctl_arg_tlv_direct cmd user_ptr tlv_flags base).
Proof.
  intros Ht w d buf off Hb Ho Hs. unfold capture_ioctl_arg_tlv_direct, ioctl_sections.
  destruct (user_ptr =? 0).
  - wp_steps. split_and!; [lia | lia | by left | reflexivity |]. intros _.
    eapply decodable_0; [by apply capturing_start | done].
  - pose proof (ioctl_user_len_range cmd).
    by apply (capture_buffer_ok PayloadKindBytes PAYLOAD_TLV_KIND_BYTES 512 2 tlv_flags user_ptr
      (ioctl_direct_user_len cmd) base eq_refl Ht ltac:(lia) ltac:(lia) w d buf off).
Qed.

Lemma emit_ioctl_enter_ok pid tid sys_id ctx ts :
  let args := args_u64 (enter_args ctx) in
  emitter (fun r => reads_flags_enter r pid tid sys_id ctx ts (-1)
      (ioctl_sections PayloadDirectionIn (arg1 args) (arg2 args) EVENT_FLAG_GENERIC_ENTER))
    (emit_ioctl_enter_event_v2_direct pid tid sys_id ctx ts).
Proof.
  intros args. apply (enter_flags_ok _ pid tid sys_id ctx ts (-1)
    (ioctl_sections PayloadDirectionIn (arg1 args) (arg2 args))); [lia|].
  apply flags_capture_of. intros base. apply (capture_ioctl_arg_ok _ _ 0). by left.
Qed.

Lemma ioctl_kvm_exit_reason_quiet p rv : keeps quiet (ioctl_kvm_exit_reason p rv).
Proof. unfold ioctl_kvm_exit_reason. keeps_solve. Qed.

(** The flags of an exit: a KVM exit reason sets one, and the body carries the reason. *)
Definition ioctl_exit_flags (reason : option Z) : Z :=
  match reason with Some _ => EVENT_FLAG_KVM_EXIT | None => 0 end.
Definition ioctl_exit_reserved (reason : option Z) : Z :=
  match reason with Some r => r | None => 0 end.
Definition ioctl_exit_sections (p : pending_syscall) (rv base fl : Z) (secs : list PayloadSection) : Prop :=
  if 0 <=? rv then ioctl_sections PayloadDirectionOut (arg1 (p_args p)) (arg2 (p_args p)) base fl secs
  else secs = [] /\ fl = base.

Lemma emit_ioctl_exit_ok p rv dur :
  emitter (fun r seq rec => exists reason, reads_exit r (p_pid p) (p_tid p) (p_sys_id p)
      (u64 (p_enter_time p + dur)) (p_args p) rv dur (p_stack_id p) (ioctl_exit_reserved reason)
      (decodes True (flags_from (ioctl_exit_flags reason))
         (ioctl_exit_sections p rv (ioctl_exit_flags reason))) seq rec)
    (emit_ioctl_exit_event_v2_direct p rv dur).
Proof.
  apply (exit_emit_using_ok (32 + 512) _ _ _ _ _ rv dur (p_stack_id p) ioctl_exit_reserved (fun reason =>
    decodes True (flags_from (ioctl_exit_flags reason)) (ioctl_exit_sections p rv (ioctl_exit_flags reason)))); [lia | |].
  - intros w d buf Hb Hs. wp_step. eapply (keeps_wp quiet); [apply ioctl_kvm_exit_reason_quiet|].
    intros reason w1 Q. cbv beta zeta. fold (ioctl_exit_flags reason). wp_step.
    assert (reserved w1 !! d = Some buf) as Hb1 by (by rewrite (oc_reserved _ _ (proj1 Q))).
    unfold ioctl_exit_sections. destruct (0 <=? rv).
    + eapply wp_mono; [eapply (capture_ioctl_arg_ok _ _ PAYLOAD_TLV_FLAG_DIRECTION_OUT); [by right; left | exact Hb1 | lia | lia]|].
      intros [n fl] w2 (Hn & HF & C & D). wp_steps.
      assert (captures d exit_payload_offset w w2) as C' by (etrans; [by apply quiet_captures | exact C]).
      split_and!; [lia | lia | done |].
      eapply captured_payload; [exact Hb | exact C' | lia | lia | lia | exact HF | exact D].
    + wp_steps. split_and!; [lia | lia | by apply quiet_captures|].
      eapply captured_payload with (n := 0); [exact Hb | by apply quiet_captures | lia | lia | lia | by left |].
      intros _. eapply decodable_0; [|done]. eapply capturing_quiet; [by apply capturing_start | done].
  - intros reason n w Hn. wp_step. unfold init_syscall_exit_event_v2_from_pending. wp_step.
    eapply keeps_wp; [apply pending_syscall_cpu_duration_quiet|]. intros c w' Q. wp_steps.
    split_and!; [done | apply exit_body_size | by exists c].
Qed.

(** ** File times *)

(** The path and the two times. *)
Definition file_time_sections (sys_id : Z) (args : args6) : list PayloadSection -> Prop :=
  let path_arg := if one_of sys_id [SYS_FUTIMESAT; SYS_UTIMENSAT] then 1 else 0 in
  appended (one_section (path_section PATH_STAT_DIRECT_PATH_MAX path_arg (arg args path_arg)))
    (time_section PayloadDirectionIn (path_arg + 1) (arg args (path_arg + 1))
       (file_time_direct_value_size sys_id)).

Lemma emit_file_time_enter_ok pid tid sys_id ctx ts :
  emitter (fun r => reads_capture_enter r pid tid sys_id ctx ts (-1)
      (file_time_sections sys_id (args_u64 (enter_args ctx))))
    (emit_file_time_enter_event_v2_direct pid tid sys_id ctx ts).
Proof.
  apply enter_capture_ok; [lia|]. eapply tlv_capture_cap; [apply (both_ok True _ _ (32 + PATH_STAT_DIRECT_PATH_MAX) (32 + 32))|]; [| | lia | lia].
  - apply capture_path_section_ok. lia.
  - unfold capture_file_time_value_tlv_direct, file_time_direct_value_size, time_section.
    destruct (one_of sys_id [SYS_UTIME]); cbn [Z.eqb Pos.eqb];
      (eapply tlv_capture_cap; [apply capture_struct_section_ok with (tlv_flags := 0); cbn; auto; lia | lia]).
Qed.
End ControlLemmas.

#[export] Hint Resolve emit_prctl_enter_ok emit_prctl_exit_ok emit_futex_enter_ok emit_futex_wait_enter_ok
  emit_futex_waitv_enter_ok emit_futex_requeue_enter_ok emit_cachestat_exit_ok
  emit_capability_enter_ok emit_capability_exit_ok emit_memfd_create_enter_ok emit_clone3_enter_ok
  emit_fcntl_enter_ok emit_fcntl_exit_ok emit_ioctl_enter_ok emit_ioctl_exit_ok
  emit_file_time_enter_ok : emitters.
#[export] Hint Resolve emit_cachestat_enter_emits : keeps.
