(* ===== verification/Keyring.v ===== *)
(** Keyring syscalls.

    Models [bpf/syscall_key_direct_event_v2.h],
    [bpf/syscall_key_capture_direct_event_v2.h] and
    [bpf/syscall_key_emit_direct_event_v2.h]: [add_key], [request_key] and
    [keyctl]. *)
From stdpp Require Import base list gmap numbers.
From S2P Require Import Prelude Syscalls Abi Kernel Consumer Stats Tlv Emit Decoder EventCore Payload Structs FdPath Paths Misc Captures.

Abbreviation KEY_DIRECT_TYPE_MAX := 64 (only parsing).
Abbreviation KEY_DIRECT_DESCRIPTION_MAX := 128 (only parsing).
Abbreviation KEY_DIRECT_PAYLOAD_MAX := 256 (only parsing).
Abbreviation KEY_DIRECT_PAYLOAD_CAPACITY :=
  (3 * PAYLOAD_TLV_HEADER_SIZE + KEY_DIRECT_TYPE_MAX + KEY_DIRECT_DESCRIPTION_MAX +
   KEY_DIRECT_PAYLOAD_MAX) (only parsing).
Abbreviation KEYCTL_DIRECT_PAYLOAD_CAPACITY :=
  (2 * (PAYLOAD_TLV_HEADER_SIZE + KEY_DIRECT_PAYLOAD_MAX)) (only parsing).
Abbreviation KEYCTL_JOIN_SESSION_KEYRING := 1 (only parsing).
Abbreviation KEYCTL_UPDATE := 2 (only parsing).
Abbreviation KEYCTL_DESCRIBE := 6 (only parsing).
Abbreviation KEYCTL_SEARCH := 10 (only parsing).
Abbreviation KEYCTL_READ := 11 (only parsing).
Abbreviation KEYCTL_INSTANTIATE := 12 (only parsing).
Abbreviation KEYCTL_GET_SECURITY := 17 (only parsing).
Abbreviation KEYCTL_CAPABILITIES := 31 (only parsing).

Section Keyring.
Context {K : Kernel} {A : Arch}.

Definition is_keyctl_direct_syscall (sys_id : Z) : bool := one_of sys_id [SYS_KEYCTL].
Definition is_key_direct_syscall (sys_id : Z) : bool :=
  one_of sys_id [SYS_ADD_KEY; SYS_REQUEST_KEY] || is_keyctl_direct_syscall sys_id.

Definition is_keyctl_output_operation (operation : Z) : bool :=
  (operation =? KEYCTL_DESCRIBE) || (operation =? KEYCTL_READ) ||
  (operation =? KEYCTL_GET_SECURITY) || (operation =? KEYCTL_CAPABILITIES).
Definition keyctl_output_arg_index (operation : Z) : Z :=
  if operation =? KEYCTL_CAPABILITIES then 1 else 2.
Definition keyctl_output_user_ptr (p : pending_syscall) : Z :=
  if arg0 (p_args p) =? KEYCTL_CAPABILITIES then arg1 (p_args p) else arg2 (p_args p).
Definition keyctl_output_user_len (p : pending_syscall) (ret_value : Z) : Z :=
  let requested_len :=
    u64 (if arg0 (p_args p) =? KEYCTL_CAPABILITIES then arg2 (p_args p) else arg3 (p_args p)) in
  let returned_len := u64 ret_value in
  if requested_len <? returned_len then requested_len else returned_len.

Definition capture_key_string_tlv_direct (arg_index user_ptr max_len : Z) : dynptr -> Z -> prog Z :=
  capture_string_section max_len arg_index user_ptr.

Definition capture_key_bytes_tlv_direct (arg_index tlv_flags user_ptr raw_user_len event_flags : Z)
    : dynptr -> Z -> prog (Z * Z) :=
  capture_buffer_section PAYLOAD_TLV_KIND_BYTES KEY_DIRECT_PAYLOAD_MAX arg_index tlv_flags user_ptr
    raw_user_len event_flags.

Definition capture_keyctl_payload_tlv_direct (args : args6) (event_flags : Z)
    : dynptr -> Z -> prog (Z * Z) :=
  let operation := arg0 args in
  if operation =? KEYCTL_JOIN_SESSION_KEYRING then
    same_flags (capture_key_string_tlv_direct 1 (arg1 args) KEY_DIRECT_DESCRIPTION_MAX) event_flags
  else if (operation =? KEYCTL_UPDATE) || (operation =? KEYCTL_INSTANTIATE) then
    capture_key_bytes_tlv_direct 2 0 (arg2 args) (arg3 args) event_flags
  else if operation =? KEYCTL_SEARCH then
    same_flags (both (capture_key_string_tlv_direct 2 (arg2 args) KEY_DIRECT_TYPE_MAX)
                  (capture_key_string_tlv_direct 3 (arg3 args) KEY_DIRECT_DESCRIPTION_MAX)) event_flags
  else no_capture event_flags.

Definition capture_key_payload_tlv_direct (sys_id : Z) (args : args6) (event_flags : Z)
    : dynptr -> Z -> prog (Z * Z) :=
  if one_of sys_id [SYS_KEYCTL] then capture_keyctl_payload_tlv_direct args event_flags
  else
    flags_both
      (same_flags (both (capture_key_string_tlv_direct 0 (arg0 args) KEY_DIRECT_TYPE_MAX)
                        (capture_key_string_tlv_direct 1 (arg1 args) KEY_DIRECT_DESCRIPTION_MAX)))
      (if one_of sys_id [SYS_ADD_KEY]
       then capture_key_bytes_tlv_direct 2 0 (arg2 args) (arg3 args)
       else same_flags (capture_key_string_tlv_direct 2 (arg2 args) KEY_DIRECT_PAYLOAD_MAX))
      event_flags.

Definition capture_keyctl_output_tlv_direct (p : pending_syscall) (ret_value event_flags : Z)
    : dynptr -> Z -> prog (Z * Z) :=
  let operation := arg0 (p_args p) in
  if negb (is_keyctl_output_operation operation) || (ret_value <=? 0) then no_capture event_flags
  else capture_key_bytes_tlv_direct (keyctl_output_arg_index operation)
         PAYLOAD_TLV_FLAG_DIRECTION_OUT (keyctl_output_user_ptr p) (keyctl_output_user_len p ret_value)
         event_flags.

Definition emit_key_enter_event_v2_direct (pid tid sys_id : Z)
    (ctx : trace_event_raw_sys_enter) (ts_ns : Z) : prog unit :=
  let payload_capacity := if is_keyctl_direct_syscall sys_id then KEYCTL_DIRECT_PAYLOAD_CAPACITY
                          else KEY_DIRECT_PAYLOAD_CAPACITY in
  enter_flags_emit payload_capacity pid tid sys_id ctx ts_ns (-1)
    (capture_key_payload_tlv_direct sys_id (args_u64 (enter_args ctx))).

(** [false]: the function returns 0 and has not emitted anything. *)
Definition emit_keyctl_exit_event_v2_direct (p : pending_syscall) (ret_value duration : Z) : prog bool :=
  if negb (is_keyctl_output_operation (arg0 (p_args p))) || (ret_value <=? 0) then ret false
  else
    exit_flags_emit (PAYLOAD_TLV_HEADER_SIZE + KEY_DIRECT_PAYLOAD_MAX) p ret_value duration
      (capture_keyctl_output_tlv_direct p ret_value 0) ;;;
    ret true.
End Keyring.

(** ** Contracts *)

Section KeyringLemmas.
Context {K : Kernel} {A : Arch}.

Definition key_bytes (dir : PayloadDirection) (arg_index user_ptr len base fl : Z)
    : list PayloadSection -> Prop :=
  buffer_sections PayloadKindBytes dir KEY_DIRECT_PAYLOAD_MAX arg_index user_ptr len base fl.

Lemma key_bytes_ok arg_index tlv_flags user_ptr len :
  In tlv_flags [0; PAYLOAD_TLV_FLAG_DIRECTION_OUT] -> 0 <= len ->
  flags_capture (key_bytes (payloadDirectionFromTLV tlv_flags) arg_index user_ptr len) (32 + 256)
    (capture_key_bytes_tlv_direct arg_index tlv_flags user_ptr len).
Proof. intros Ht Hl. by apply buffer_sections_ok. Qed.

(** What [keyctl] takes, by operation. *)
Definition keyctl_sections (args : args6) : Z -> Z -> list PayloadSection -> Prop :=
  if arg0 args =? KEYCTL_JOIN_SESSION_KEYRING then unflagged (string_sections 128 1 (arg1 args))
  else if (arg0 args =? KEYCTL_UPDATE) || (arg0 args =? KEYCTL_INSTANTIATE)
  then key_bytes PayloadDirectionIn 2 (arg2 args) (arg3 args)
  else if arg0 args =? KEYCTL_SEARCH
  then unflagged (appended (string_sections 64 2 (arg2 args)) (string_sections 128 3 (arg3 args)))
  else unflagged (fun secs => secs = []).

(** Type, description, and the payload or the callout information. *)
Definition key_sections (sys_id : Z) (args : args6) : Z -> Z -> list PayloadSection -> Prop :=
  if one_of sys_id [SYS_KEYCTL] then keyctl_sections args
  else flags_appended (unflagged (appended (string_sections 64 0 (arg0 args)) (string_sections 128 1 (arg1 args))))
         (if one_of sys_id [SYS_ADD_KEY] then key_bytes PayloadDirectionIn 2 (arg2 args) (arg3 args)
          else unflagged (string_sections 256 2 (arg2 args))).

Lemma capture_keyctl_ok args :
  0 <= arg3 args -> flags_capture (keyctl_sections args) (2 * (32 + 256)) (capture_keyctl_payload_tlv_direct args).
Proof.
  intros H3. unfold keyctl_sections, capture_keyctl_payload_tlv_direct. cbv zeta.
  destruct (arg0 args =? 1); [|destruct (_ || _); [|destruct (arg0 args =? 10)]].
  - apply same_flags_ok. eapply tlv_capture_cap; [apply string_sections_ok; lia | lia].
  - eapply flags_capture_cap; [apply (key_bytes_ok 2 0); [by left | done] | lia].
  - apply same_flags_ok. eapply tlv_capture_cap;
      [apply (both_ok no_fault _ _ (32 + 64) (32 + 128)); [apply string_sections_ok.. |] | ]; lia.
  - apply no_capture_ok. lia.
Qed.

Lemma capture_key_payload_ok sys_id args :
  0 <= arg3 args ->
  flags_capture (key_sections sys_id args)
    (if is_keyctl_direct_syscall sys_id then 2 * (32 + 256) else 3 * 32 + 64 + 128 + 256)
    (capture_key_payload_tlv_direct sys_id args).
Proof.
  intros H3. unfold key_sections, capture_key_payload_tlv_direct, is_keyctl_direct_syscall.
  destruct (one_of sys_id [SYS_KEYCTL]); [by apply capture_keyctl_ok|].
  apply (flags_both_ok _ _ ((32 + 64) + (32 + 128)) (32 + 256)); [| |lia].
  - apply same_flags_ok, both_ok; [apply string_sections_ok.. |]; lia.
  - destruct (one_of sys_id [SYS_ADD_KEY]); [apply (key_bytes_ok 2 0); [by left | done]|].
    apply same_flags_ok, string_sections_ok. lia.
Qed.

Lemma emit_key_enter_ok pid tid sys_id ctx ts :
  emitter (fun r => reads_flags_enter r pid tid sys_id ctx ts (-1)
      (key_sections sys_id (args_u64 (enter_args ctx)) EVENT_FLAG_GENERIC_ENTER))
    (emit_key_enter_event_v2_direct pid tid sys_id ctx ts).
Proof.
  apply (enter_flags_ok _ pid tid sys_id ctx ts (-1) (key_sections sys_id _));
    [destruct (is_keyctl_direct_syscall _); lia|].
  apply capture_key_payload_ok, (args_u64_nonneg _ 3).
Qed.

(** What [keyctl] returned: no more than the caller's buffer and the result. *)
Definition keyctl_output (p : pending_syscall) (rv : Z) : Z -> Z -> list PayloadSection -> Prop :=
  if negb (is_keyctl_output_operation (arg0 (p_args p))) || (rv <=? 0) then unflagged (fun secs => secs = [])
  else key_bytes PayloadDirectionOut (keyctl_output_arg_index (arg0 (p_args p)))
         (keyctl_output_user_ptr p) (keyctl_output_user_len p rv).

Lemma capture_keyctl_output_ok p rv :
  flags_capture (keyctl_output p rv) (32 + 256) (capture_keyctl_output_tlv_direct p rv).
Proof.
  unfold keyctl_output, capture_keyctl_output_tlv_direct. cbv zeta.
  destruct (negb _ || _); [apply no_capture_ok; lia|].
  apply (key_bytes_ok _ PAYLOAD_TLV_FLAG_DIRECTION_OUT); [by right; left|].
  unfold keyctl_output_user_len, u64. cbv zeta. pose proof (Z.mod_pos_bound rv (2 ^ 64)).
  pose proof (fun z => Z.mod_pos_bound z (2 ^ 64) ltac:(lia)) as M.
  destruct (_ <? _); apply M.
Qed.

Lemma keyctl_exit_record_ok p rv dur :
  emitter (fun r => reads_pending_exit r p rv dur (decodes no_fault (flags_from 0) (keyctl_output p rv 0)))
    (exit_flags_emit (PAYLOAD_TLV_HEADER_SIZE + KEY_DIRECT_PAYLOAD_MAX) p rv dur
       (capture_keyctl_output_tlv_direct p rv 0)).
Proof. apply exit_flags_capture_ok; [lia | apply capture_keyctl_output_ok]. Qed.
Hint Resolve keyctl_exit_record_ok : emitters.

Lemma emit_keyctl_exit_emits p rv dur : keeps emits (emit_keyctl_exit_event_v2_direct p rv dur).
Proof. unfold emit_keyctl_exit_event_v2_direct. keeps_solve. Qed.
End KeyringLemmas.

#[export] Hint Resolve emit_key_enter_ok : emitters.
#[export] Hint Resolve emit_keyctl_exit_emits : keeps.
