(* ===== verification/Xattr.v ===== *)
(** Extended attributes.

    Models [bpf/syscall_xattr_direct_event_v2.h],
    [bpf/syscall_xattr_capture_direct_event_v2.h] and
    [bpf/syscall_xattr_emit_direct_event_v2.h]. *)
From stdpp Require Import base list gmap numbers.
From S2P Require Import Prelude Syscalls Abi Kernel Consumer Stats Tlv Emit Decoder EventCore Payload Structs FdPath Paths Misc Captures.

Abbreviation XATTR_DIRECT_PATH_MAX := 512 (only parsing).
Abbreviation XATTR_DIRECT_NAME_MAX := 256 (only parsing).
Abbreviation XATTR_DIRECT_VALUE_MAX := 256 (only parsing).
Abbreviation XATTR_DIRECT_PAYLOAD_CAPACITY :=
  (3 * PAYLOAD_TLV_HEADER_SIZE + XATTR_DIRECT_PATH_MAX + XATTR_DIRECT_NAME_MAX +
   XATTR_DIRECT_VALUE_MAX) (only parsing).

Section Xattr.
Context {K : Kernel} {A : Arch}.

Definition is_xattr_set_direct_syscall (sys_id : Z) : bool :=
  one_of sys_id [SYS_SETXATTR; SYS_LSETXATTR; SYS_FSETXATTR].
Definition is_xattr_get_direct_syscall (sys_id : Z) : bool :=
  one_of sys_id [SYS_GETXATTR; SYS_LGETXATTR; SYS_FGETXATTR].
Definition is_xattr_list_direct_syscall (sys_id : Z) : bool :=
  one_of sys_id [SYS_LISTXATTR; SYS_LLISTXATTR; SYS_FLISTXATTR].
Definition is_xattr_remove_direct_syscall (sys_id : Z) : bool :=
  one_of sys_id [SYS_REMOVEXATTR; SYS_LREMOVEXATTR; SYS_FREMOVEXATTR].
Definition is_xattr_direct_syscall (sys_id : Z) : bool :=
  is_xattr_set_direct_syscall sys_id || is_xattr_get_direct_syscall sys_id ||
  is_xattr_list_direct_syscall sys_id || is_xattr_remove_direct_syscall sys_id.
Definition xattr_direct_has_path (sys_id : Z) : bool :=
  one_of sys_id [SYS_SETXATTR; SYS_LSETXATTR; SYS_GETXATTR; SYS_LGETXATTR; SYS_LISTXATTR;
    SYS_LLISTXATTR; SYS_REMOVEXATTR; SYS_LREMOVEXATTR].
Definition xattr_direct_has_name (sys_id : Z) : bool :=
  is_xattr_set_direct_syscall sys_id || is_xattr_get_direct_syscall sys_id ||
  is_xattr_remove_direct_syscall sys_id.

Definition capture_xattr_string_tlv_direct (arg_index user_ptr max_len : Z) : dynptr -> Z -> prog Z :=
  capture_string_section max_len arg_index user_ptr.

Definition capture_xattr_bytes_tlv_direct (arg_index tlv_flags user_ptr raw_user_len event_flags : Z)
    : dynptr -> Z -> prog (Z * Z) :=
  capture_buffer_section PAYLOAD_TLV_KIND_BYTES XATTR_DIRECT_VALUE_MAX arg_index tlv_flags user_ptr
    raw_user_len event_flags.

Definition capture_xattr_enter_payload_tlv_direct (sys_id : Z) (args : args6) (event_flags : Z)
    : dynptr -> Z -> prog (Z * Z) :=
  flags_both
    (same_flags (both
       (capture_if (xattr_direct_has_path sys_id)
          (capture_xattr_string_tlv_direct 0 (arg0 args) XATTR_DIRECT_PATH_MAX))
       (capture_if (xattr_direct_has_name sys_id)
          (capture_xattr_string_tlv_direct 1 (arg1 args) XATTR_DIRECT_NAME_MAX))))
    (if is_xattr_set_direct_syscall sys_id
     then capture_xattr_bytes_tlv_direct 2 0 (arg2 args) (arg3 args) else no_capture)
    event_flags.

Definition emit_xattr_enter_event_v2_direct (pid tid sys_id : Z)
    (ctx : trace_event_raw_sys_enter) (ts_ns : Z) : prog unit :=
  enter_flags_emit XATTR_DIRECT_PAYLOAD_CAPACITY pid tid sys_id ctx ts_ns (-1)
    (capture_xattr_enter_payload_tlv_direct sys_id (args_u64 (enter_args ctx))).

Definition emit_xattr_bytes_exit_event_v2_direct (p : pending_syscall)
    (ret_value duration arg_index user_ptr : Z) : prog unit :=
  exit_flags_emit (PAYLOAD_TLV_HEADER_SIZE + XATTR_DIRECT_VALUE_MAX) p ret_value duration
    (capture_xattr_bytes_tlv_direct arg_index PAYLOAD_TLV_FLAG_DIRECTION_OUT user_ptr
       (u64 ret_value) 0).

Definition emit_xattr_get_exit_event_v2_direct (p : pending_syscall) (ret_value duration : Z) : prog unit :=
  emit_xattr_bytes_exit_event_v2_direct p ret_value duration 2 (arg2 (p_args p)).
Definition emit_xattr_list_exit_event_v2_direct (p : pending_syscall) (ret_value duration : Z) : prog unit :=
  emit_xattr_bytes_exit_event_v2_direct p ret_value duration 1 (arg1 (p_args p)).
End Xattr.

(** ** Contracts *)

Section XattrLemmas.
Context {K : Kernel} {A : Arch}.

(** Path and name, where the call has them, and the value to set. *)
Definition xattr_sections (sys_id : Z) (args : args6) : Z -> Z -> list PayloadSection -> Prop :=
  flags_appended
    (unflagged (appended (when (xattr_direct_has_path sys_id) (string_sections 512 0 (arg0 args)))
                         (when (xattr_direct_has_name sys_id) (string_sections 256 1 (arg1 args)))))
    (if is_xattr_set_direct_syscall sys_id
     then buffer_sections PayloadKindBytes PayloadDirectionIn 256 2 (arg2 args) (arg3 args)
     else unflagged (fun secs => secs = [])).

Lemma capture_xattr_enter_ok sys_id args :
  0 <= arg3 args ->
  flags_capture (xattr_sections sys_id args) XATTR_DIRECT_PAYLOAD_CAPACITY
    (capture_xattr_enter_payload_tlv_direct sys_id args).
Proof.
  intros H3. apply (flags_both_ok _ _ ((32 + 512) + (32 + 256)) (32 + 256)); [| |lia].
  - apply same_flags_ok, both_ok; [| |lia]; (apply capture_if_ok; [lia|]); apply string_sections_ok; lia.
  - destruct (is_xattr_set_direct_syscall _); [|apply no_capture_ok; lia].
    apply (buffer_sections_ok _ _ 256 2 0); auto; cbn; auto; lia.
Qed.

Lemma emit_xattr_enter_ok pid tid sys_id ctx ts :
  emitter (fun r => reads_flags_enter r pid tid sys_id ctx ts (-1)
      (xattr_sections sys_id (args_u64 (enter_args ctx)) EVENT_FLAG_GENERIC_ENTER))
    (emit_xattr_enter_event_v2_direct pid tid sys_id ctx ts).
Proof.
  apply (enter_flags_ok _ pid tid sys_id ctx ts (-1) (xattr_sections sys_id _)); [lia|].
  apply capture_xattr_enter_ok, (args_u64_nonneg _ 3).
Qed.

(** The bytes returned: as many as the result says, up to the slot. *)
Lemma emit_xattr_bytes_exit_ok p rv dur arg_index user_ptr :
  emitter (fun r => reads_pending_exit r p rv dur (decodes no_fault (flags_from 0)
      (buffer_sections PayloadKindBytes PayloadDirectionOut 256 arg_index user_ptr (u64 rv) 0)))
    (emit_xattr_bytes_exit_event_v2_direct p rv dur arg_index user_ptr).
Proof.
  apply exit_flags_capture_ok; [lia|].
  apply (buffer_sections_ok _ _ 256 arg_index PAYLOAD_TLV_FLAG_DIRECTION_OUT); [done | by right; left | lia |].
  apply Z.mod_pos_bound. lia.
Qed.
End XattrLemmas.

#[export] Hint Resolve emit_xattr_enter_ok : emitters.
#[export] Hint Extern 1 (emitter _ (emit_xattr_get_exit_event_v2_direct _ _ _)) =>
  apply emit_xattr_bytes_exit_ok : emitters.
#[export] Hint Extern 1 (emitter _ (emit_xattr_list_exit_event_v2_direct _ _ _)) =>
  apply emit_xattr_bytes_exit_ok : emitters.
