(* ===== verification/Quota.v ===== *)
(** Disk quotas.

    Models [bpf/syscall_quota_direct_event_v2.h],
    [bpf/syscall_quota_xfs_direct_event_v2.h],
    [bpf/syscall_quota_capture_direct_event_v2.h] and
    [bpf/syscall_quota_emit_direct_event_v2.h]. *)
From stdpp Require Import base list gmap numbers.
From S2P Require Import Prelude Syscalls Abi Kernel Consumer Stats Tlv Emit Decoder EventCore Payload Structs FdPath Paths Misc Captures.

Abbreviation QUOTA_DIRECT_DQBLK_SIZE := 72 (only parsing).
Abbreviation QUOTA_DIRECT_DQINFO_SIZE := 24 (only parsing).
Abbreviation QUOTA_DIRECT_FORMAT_SIZE := 4 (only parsing).
Abbreviation QUOTA_DIRECT_ON := 0x800002 (only parsing).
Abbreviation QUOTA_DIRECT_GETFMT := 0x800004 (only parsing).
Abbreviation QUOTA_DIRECT_GETINFO := 0x800005 (only parsing).
Abbreviation QUOTA_DIRECT_SETINFO := 0x800006 (only parsing).
Abbreviation QUOTA_DIRECT_GETQUOTA := 0x800007 (only parsing).
Abbreviation QUOTA_DIRECT_SETQUOTA := 0x800008 (only parsing).
Abbreviation QUOTA_DIRECT_GETNEXTQUOTA := 0x800009 (only parsing).
Abbreviation QUOTA_XFS_ON := 0x5801 (only parsing).
Abbreviation QUOTA_XFS_OFF := 0x5802 (only parsing).
Abbreviation QUOTA_XFS_GET_QUOTA := 0x5803 (only parsing).
Abbreviation QUOTA_XFS_SET_QLIM := 0x5804 (only parsing).
Abbreviation QUOTA_XFS_GET_QSTAT := 0x5805 (only parsing).
Abbreviation QUOTA_XFS_QUOTA_RM := 0x5806 (only parsing).
Abbreviation QUOTA_XFS_GET_QSTATV := 0x5808 (only parsing).
Abbreviation QUOTA_XFS_GET_NEXT := 0x5809 (only parsing).
Abbreviation QUOTA_XFS_FLAGS_SIZE := 4 (only parsing).
Abbreviation QUOTA_XFS_DISK_SIZE := 112 (only parsing).
Abbreviation QUOTA_XFS_STAT_SIZE := 80 (only parsing).
Abbreviation QUOTA_XFS_STATV_SIZE := 160 (only parsing).

Section Quota.
Context {K : Kernel} {A : Arch}.

Definition is_quota_direct_syscall (sys_id : Z) : bool := one_of sys_id [SYS_QUOTACTL; SYS_QUOTACTL_FD].
Definition quota_direct_command (qcmd : Z) : Z := Z.shiftr (u32 qcmd) 8.

Definition quota_direct_enter_command (args : args6) (sys_id : Z) : Z :=
  quota_direct_command (if one_of sys_id [SYS_QUOTACTL_FD] then arg1 args else arg0 args).
Definition quota_direct_pending_command (p : pending_syscall) : Z :=
  quota_direct_command
    (if one_of (p_sys_id p) [SYS_QUOTACTL_FD] then arg1 (p_args p) else arg0 (p_args p)).

Definition quota_xfs_enter_struct_size (command : Z) : Z :=
  if (command =? QUOTA_XFS_ON) || (command =? QUOTA_XFS_OFF) || (command =? QUOTA_XFS_QUOTA_RM)
  then QUOTA_XFS_FLAGS_SIZE
  else if command =? QUOTA_XFS_SET_QLIM then QUOTA_XFS_DISK_SIZE else 0.
Definition quota_xfs_exit_struct_size (command : Z) : Z :=
  if (command =? QUOTA_XFS_GET_QUOTA) || (command =? QUOTA_XFS_GET_NEXT) then QUOTA_XFS_DISK_SIZE
  else if command =? QUOTA_XFS_GET_QSTAT then QUOTA_XFS_STAT_SIZE
  else if command =? QUOTA_XFS_GET_QSTATV then QUOTA_XFS_STATV_SIZE else 0.

Definition quota_direct_has_exit_payload (command : Z) : bool :=
  (command =? QUOTA_DIRECT_GETFMT) || (command =? QUOTA_DIRECT_GETINFO) ||
  (command =? QUOTA_DIRECT_GETQUOTA) || (command =? QUOTA_DIRECT_GETNEXTQUOTA) ||
  (0 <? quota_xfs_exit_struct_size command).

Definition quota_direct_struct_size (command : Z) : Z :=
  if command =? QUOTA_DIRECT_GETFMT then QUOTA_DIRECT_FORMAT_SIZE
  else if (command =? QUOTA_DIRECT_GETINFO) || (command =? QUOTA_DIRECT_SETINFO)
  then QUOTA_DIRECT_DQINFO_SIZE
  else QUOTA_DIRECT_DQBLK_SIZE.

(** The slot [bpf_dynptr_data] is asked for. *)
Definition quota_direct_dynptr_data (struct_size : Z) : Z :=
  if struct_size =? QUOTA_DIRECT_FORMAT_SIZE then QUOTA_DIRECT_FORMAT_SIZE
  else if struct_size =? QUOTA_DIRECT_DQINFO_SIZE then QUOTA_DIRECT_DQINFO_SIZE
  else QUOTA_DIRECT_DQBLK_SIZE.

Definition capture_quota_struct_tlv_direct (user_ptr struct_size tlv_flags : Z)
    : dynptr -> Z -> prog Z :=
  capture_struct_section (quota_direct_dynptr_data struct_size) struct_size struct_size 3 tlv_flags
    user_ptr.

(** The XFS structures; a size that is none of theirs has no slot. *)
Definition quota_xfs_dynptr_data (ptr : dynptr) (data_offset struct_size : Z) : prog (option (nat * Z)) :=
  if existsb (Z.eqb struct_size)
       [QUOTA_XFS_FLAGS_SIZE; QUOTA_XFS_DISK_SIZE; QUOTA_XFS_STAT_SIZE; QUOTA_XFS_STATV_SIZE]
  then bpf_dynptr_data ptr data_offset struct_size
  else ret None.

Definition capture_quota_xfs_struct_tlv_direct (user_ptr struct_size tlv_flags : Z) (ptr : dynptr)
    (payload_offset : Z) : prog Z :=
  if (user_ptr =? 0) || (struct_size =? 0) then ret 0
  else
    let* (copied_len, probe_ret) :=
      (let* payload_data :=
         quota_xfs_dynptr_data ptr (payload_offset + PAYLOAD_TLV_HEADER_SIZE) struct_size in
       match payload_data with
       | None => record_ringbuf_copy_fail ;;; ret (0, -1)
       | Some data =>
           let* err := read_user_into data struct_size user_ptr in
           if err <? 0 then ret (0, err) else ret (struct_size, 0)
       end) in
    finish_section ptr payload_offset
      (TlvHeader PAYLOAD_TLV_KIND_STRUCT 3 tlv_flags struct_size copied_len probe_ret user_ptr).

Definition quota_direct_enter_capacity (sys_id command : Z) : Z :=
  (if one_of sys_id [SYS_QUOTACTL] then PAYLOAD_TLV_HEADER_SIZE + PATH_ONLY_DIRECT_PATH_MAX else 0) +
  (if command =? QUOTA_DIRECT_ON then PAYLOAD_TLV_HEADER_SIZE + PATH_ONLY_DIRECT_PATH_MAX
   else if (command =? QUOTA_DIRECT_SETINFO) || (command =? QUOTA_DIRECT_SETQUOTA)
   then PAYLOAD_TLV_HEADER_SIZE + quota_direct_struct_size command
   else
     let xfs_size := quota_xfs_enter_struct_size command in
     if 0 <? xfs_size then PAYLOAD_TLV_HEADER_SIZE + xfs_size else 0).

Definition capture_quota_enter_tlvs (sys_id : Z) (args : args6) : dynptr -> Z -> prog Z :=
  let command := quota_direct_enter_command args sys_id in
  both
    (capture_if (one_of sys_id [SYS_QUOTACTL]) (capture_path_only_tlv_direct 1 (arg1 args)))
    (if command =? QUOTA_DIRECT_ON then capture_path_only_tlv_direct 3 (arg3 args)
     else if (command =? QUOTA_DIRECT_SETINFO) || (command =? QUOTA_DIRECT_SETQUOTA) then
       capture_quota_struct_tlv_direct (arg3 args) (quota_direct_struct_size command) 0
     else
       let xfs_size := quota_xfs_enter_struct_size command in
       capture_if (0 <? xfs_size) (capture_quota_xfs_struct_tlv_direct (arg3 args) xfs_size 0)).

Definition emit_quota_enter_event_v2_direct (pid tid sys_id : Z)
    (ctx : trace_event_raw_sys_enter) (ts_ns : Z) : prog unit :=
  let args := args_u64 (enter_args ctx) in
  let command := quota_direct_enter_command args sys_id in
  enter_capture_emit (quota_direct_enter_capacity sys_id command) pid tid sys_id ctx ts_ns (-1)
    (capture_quota_enter_tlvs sys_id args).

Definition emit_quota_exit_event_v2_direct (p : pending_syscall) (ret_value duration : Z) : prog unit :=
  let command := quota_direct_pending_command p in
  let xfs_size := quota_xfs_exit_struct_size command in
  let struct_size := if 0 <? xfs_size then xfs_size else quota_direct_struct_size command in
  exit_capture_emit (PAYLOAD_TLV_HEADER_SIZE + struct_size) p ret_value duration
    (if 0 <? xfs_size
     then capture_quota_xfs_struct_tlv_direct (arg3 (p_args p)) struct_size PAYLOAD_TLV_FLAG_DIRECTION_OUT
     else capture_quota_struct_tlv_direct (arg3 (p_args p)) struct_size PAYLOAD_TLV_FLAG_DIRECTION_OUT).
End Quota.

(** ** Contracts *)

Section QuotaLemmas.
Context {K : Kernel} {A : Arch}.

Lemma capture_quota_struct_ok user_ptr n tlv_flags :
  In n [4; 24; 72] -> In tlv_flags [0; PAYLOAD_TLV_FLAG_DIRECTION_OUT] ->
  tlv_capture True (time_section (payloadDirectionFromTLV tlv_flags) 3 user_ptr n) (32 + n)
    (capture_quota_struct_tlv_direct user_ptr n tlv_flags).
Proof.
  intros Hn Ht. unfold capture_quota_struct_tlv_direct.
  replace (quota_direct_dynptr_data n) with n by (cbn in Hn; by destruct Hn as [<-|[<-|[<-|[]]]]).
  apply capture_struct_section_ok; [cbn in Hn; lia.. | done].
Qed.

(** The XFS capture is that of any structure. *)
Lemma capture_quota_xfs_struct_ok user_ptr n tlv_flags :
  In n [4; 112; 80; 160] -> In tlv_flags [0; PAYLOAD_TLV_FLAG_DIRECTION_OUT] ->
  tlv_capture True (time_section (payloadDirectionFromTLV tlv_flags) 3 user_ptr n) (32 + n)
    (capture_quota_xfs_struct_tlv_direct user_ptr n tlv_flags).
Proof.
  intros Hn Ht.
  assert (forall ptr off, capture_quota_xfs_struct_tlv_direct user_ptr n tlv_flags ptr off
    = capture_struct_section n n n 3 tlv_flags user_ptr ptr off) as Eq.
  { intros. unfold capture_quota_xfs_struct_tlv_direct, capture_struct_section.
    destruct (user_ptr =? 0); [done|]. cbn in Hn. by destruct Hn as [<-|[<-|[<-|[<-|[]]]]]. }
  intros w d buf off Hb Ho Hs. rewrite Eq.
  assert (0 <= n < 2 ^ 31) as Hr by (cbn in Hn; lia).
  exact (capture_struct_section_ok n n n 3 tlv_flags user_ptr ltac:(lia) ltac:(lia) Ht w d buf off Hb Ho Hs).
Qed.

Lemma quota_struct_sizes command : In (quota_direct_struct_size command) [4; 24; 72].
Proof. unfold quota_direct_struct_size. destruct (_ =? _); [|destruct (_ || _)]; cbn; auto. Qed.
Lemma quota_xfs_enter_sizes command : In (quota_xfs_enter_struct_size command) [0; 4; 112].
Proof. unfold quota_xfs_enter_struct_size. destruct (_ || _); [|destruct (_ =? _)]; cbn; auto. Qed.
Lemma quota_xfs_exit_sizes command : In (quota_xfs_exit_struct_size command) [0; 112; 80; 160].
Proof. unfold quota_xfs_exit_struct_size. destruct (_ || _); [|destruct (_ =? _); [|destruct (_ =? _)]]; cbn; auto. Qed.

(** The device, for the call that names one, then the quota file or the structure the command takes. *)
Definition quota_command_sections (command : Z) (args : args6) : list PayloadSection -> Prop :=
  if command =? QUOTA_DIRECT_ON then one_section (long_path_section 3 (arg3 args))
  else if (command =? QUOTA_DIRECT_SETINFO) || (command =? QUOTA_DIRECT_SETQUOTA)
  then time_section PayloadDirectionIn 3 (arg3 args) (quota_direct_struct_size command)
  else when (0 <? quota_xfs_enter_struct_size command)
         (time_section PayloadDirectionIn 3 (arg3 args) (quota_xfs_enter_struct_size command)).
Definition quota_sections (sys_id : Z) (args : args6) : list PayloadSection -> Prop :=
  appended (when (one_of sys_id [SYS_QUOTACTL]) (one_section (long_path_section 1 (arg1 args))))
    (quota_command_sections (quota_direct_enter_command args sys_id) args).

Lemma capture_quota_enter_ok sys_id args :
  tlv_capture True (quota_sections sys_id args)
    (quota_direct_enter_capacity sys_id (quota_direct_enter_command args sys_id))
    (capture_quota_enter_tlvs sys_id args).
Proof.
  unfold quota_direct_enter_capacity, capture_quota_enter_tlvs, quota_sections, quota_command_sections. cbv zeta.
  set (command := quota_direct_enter_command args sys_id).
  pose proof (quota_struct_sizes command) as Q1. pose proof (quota_xfs_enter_sizes command) as Q2.
  apply both_ok.
  - destruct (one_of sys_id [SYS_QUOTACTL]); [apply capture_path_only_ok|].
    by apply tlv_capture_none.
  - destruct (command =? QUOTA_DIRECT_ON); [apply capture_path_only_ok|].
    destruct (_ || _); [apply (capture_quota_struct_ok _ _ 0); [done | by left]|].
    destruct (Z.ltb_spec 0 (quota_xfs_enter_struct_size command)); cbn [when capture_if]; [|by apply tlv_capture_none].
    apply (capture_quota_xfs_struct_ok _ _ 0); [|by left]. cbn in Q2 |- *. lia.
  - cbn in Q1, Q2. repeat case_match; lia.
Qed.

Lemma emit_quota_enter_ok pid tid sys_id ctx ts :
  emitter (fun r => reads_capture_enter r pid tid sys_id ctx ts (-1)
      (quota_sections sys_id (args_u64 (enter_args ctx))))
    (emit_quota_enter_event_v2_direct pid tid sys_id ctx ts).
Proof.
  apply enter_capture_ok; [|apply capture_quota_enter_ok].
  unfold quota_direct_enter_capacity. cbv zeta.
  pose proof (quota_struct_sizes (quota_direct_enter_command (args_u64 (enter_args ctx)) sys_id)) as Q1.
  pose proof (quota_xfs_enter_sizes (quota_direct_enter_command (args_u64 (enter_args ctx)) sys_id)) as Q2.
  cbn in Q1, Q2. repeat case_match; lia.
Qed.

(** The structure the command returns. *)
Definition quota_exit_size (command : Z) : Z :=
  if 0 <? quota_xfs_exit_struct_size command then quota_xfs_exit_struct_size command
  else quota_direct_struct_size command.

Lemma emit_quota_exit_ok p rv dur :
  emitter (fun r => reads_capture_exit r p rv dur
      (out_section p 3 (quota_exit_size (quota_direct_pending_command p))))
    (emit_quota_exit_event_v2_direct p rv dur).
Proof.
  unfold emit_quota_exit_event_v2_direct, quota_exit_size. cbv zeta.
  set (command := quota_direct_pending_command p).
  pose proof (quota_struct_sizes command) as Q1. pose proof (quota_xfs_exit_sizes command) as Q2.
  apply exit_capture_ok; [cbn in Q1, Q2; case_match; lia|].
  destruct (Z.ltb_spec 0 (quota_xfs_exit_struct_size command)).
  - apply (capture_quota_xfs_struct_ok _ _ PAYLOAD_TLV_FLAG_DIRECTION_OUT); [|by right; left].
    cbn in Q2 |- *. lia.
  - apply (capture_quota_struct_ok _ _ PAYLOAD_TLV_FLAG_DIRECTION_OUT); [done | by right; left].
Qed.
End QuotaLemmas.

#[export] Hint Resolve emit_quota_enter_ok emit_quota_exit_ok : emitters.
