(* ===== verification/Filesystem.v ===== *)
(** Mounts, directories and file attributes.

    Models [bpf/syscall_fs_direct_event_v2.h],
    [bpf/syscall_fs_capture_direct_event_v2.h],
    [bpf/syscall_fs_emit_direct_event_v2.h],
    [bpf/syscall_mount_setattr_direct_event_v2.h],
    [bpf/syscall_mount_query_direct_event_v2.h],
    [bpf/syscall_mount_query_capture_direct_event_v2.h],
    [bpf/syscall_mount_query_emit_direct_event_v2.h] and
    [bpf/syscall_mount_path_direct_event_v2.h]. *)
From stdpp Require Import base list gmap numbers.
From S2P Require Import Prelude Syscalls Abi Kernel Consumer Stats Tlv Emit Decoder EventCore Payload Structs FdPath Paths Misc Captures.

Abbreviation FS_DIRECT_MOUNT_STRING_MAX := 512 (only parsing).
Abbreviation FS_DIRECT_MOUNT_TYPE_MAX := 128 (only parsing).
Abbreviation FS_DIRECT_FSCONFIG_KEY_MAX := 257 (only parsing).
Abbreviation FS_DIRECT_FSCONFIG_VALUE_MAX := 4096 (only parsing).
Abbreviation FS_DIRECT_FSCONFIG_SET_BINARY := 2 (only parsing).
Abbreviation FS_DIRECT_FSCONFIG_VALUE_LEN_MASK := 8191 (only parsing).
Abbreviation FS_DIRECT_GETDENTS_BYTES_MAX := 512 (only parsing).
Abbreviation MOUNT_SETATTR_BASE_SIZE := 32 (only parsing).
Abbreviation MOUNT_SETATTR_EXTENSION_MAX := 256 (only parsing).
Abbreviation MOUNT_SETATTR_DIRECT_PAYLOAD_CAPACITY :=
  (FD_PATH_DIRECT_SECTION_MAX + 3 * PAYLOAD_TLV_HEADER_SIZE + PATH_ONLY_DIRECT_PATH_MAX +
   MOUNT_SETATTR_BASE_SIZE + MOUNT_SETATTR_EXTENSION_MAX) (only parsing).
Abbreviation FS_DIRECT_PAYLOAD_CAPACITY := MOUNT_SETATTR_DIRECT_PAYLOAD_CAPACITY (only parsing).
Abbreviation MNT_ID_REQ_SIZE_FIELD_SIZE := 4 (only parsing).
Abbreviation MNT_ID_REQ_SIZE_VER0 := 24 (only parsing).
Abbreviation MNT_ID_REQ_SIZE_VER1 := 32 (only parsing).
Abbreviation MNT_ID_REQ_EXTENSION_MAX := 256 (only parsing).
Abbreviation STATMOUNT_FIXED_SIZE := 512 (only parsing).
Abbreviation STATMOUNT_STRING_MAX := 4096 (only parsing).
Abbreviation LISTMOUNT_ID_MAX := 32 (only parsing).
Abbreviation LISTMOUNT_ID_SIZE := 8 (only parsing).
Abbreviation STATMOUNT_EXIT_PAYLOAD_CAPACITY :=
  (3 * PAYLOAD_TLV_HEADER_SIZE + MNT_ID_REQ_SIZE_FIELD_SIZE + STATMOUNT_FIXED_SIZE +
   STATMOUNT_STRING_MAX) (only parsing).
Abbreviation LISTMOUNT_EXIT_PAYLOAD_CAPACITY :=
  (PAYLOAD_TLV_HEADER_SIZE + LISTMOUNT_ID_MAX * LISTMOUNT_ID_SIZE) (only parsing).
Abbreviation MOUNT_PATH_DIRECT_PAYLOAD_CAPACITY :=
  (2 * (PAYLOAD_TLV_HEADER_SIZE + PATH_ONLY_DIRECT_PATH_MAX)) (only parsing).

Section Filesystem.
Context {K : Kernel} {A : Arch}.

Definition is_mount_query_direct_syscall (sys_id : Z) : bool := one_of sys_id [SYS_STATMOUNT; SYS_LISTMOUNT].
Definition is_fs_enter_direct_syscall (sys_id : Z) : bool :=
  one_of sys_id [SYS_MOUNT; SYS_UMOUNT2; SYS_FSCONFIG; SYS_MOUNT_SETATTR; SYS_FILE_SETATTR] ||
  is_mount_query_direct_syscall sys_id.
Definition is_getdents_direct_syscall (sys_id : Z) : bool := one_of sys_id [SYS_GETDENTS; SYS_GETDENTS64].
Definition is_fs_direct_syscall (sys_id : Z) : bool :=
  is_fs_enter_direct_syscall sys_id || is_getdents_direct_syscall sys_id.
Definition is_mount_path_direct_syscall (sys_id : Z) : bool := one_of sys_id [SYS_MOVE_MOUNT].

(** ** [mount], [umount2], [fsconfig] *)

Definition capture_fs_string_tlv_direct (arg_index user_ptr max_len : Z) : dynptr -> Z -> prog Z :=
  capture_string_section max_len arg_index user_ptr.

Definition capture_fs_bytes_tlv_direct (arg_index user_ptr raw_user_len event_flags : Z)
    : dynptr -> Z -> prog (Z * Z) :=
  capture_buffer_section PAYLOAD_TLV_KIND_BYTES FS_DIRECT_FSCONFIG_VALUE_MAX arg_index 0 user_ptr
    (Z.land raw_user_len FS_DIRECT_FSCONFIG_VALUE_LEN_MASK) event_flags.

Definition capture_mount_payload_tlv_direct (args : args6) : dynptr -> Z -> prog Z :=
  both (both (both (capture_fs_string_tlv_direct 0 (arg0 args) FS_DIRECT_MOUNT_STRING_MAX)
                   (capture_fs_string_tlv_direct 1 (arg1 args) FS_DIRECT_MOUNT_STRING_MAX))
             (capture_fs_string_tlv_direct 2 (arg2 args) FS_DIRECT_MOUNT_TYPE_MAX))
       (capture_fs_string_tlv_direct 4 (arg4 args) FS_DIRECT_MOUNT_STRING_MAX).

Definition capture_fsconfig_payload_tlv_direct (args : args6) (event_flags : Z)
    : dynptr -> Z -> prog (Z * Z) :=
  flags_both (same_flags (capture_fs_string_tlv_direct 2 (arg2 args) FS_DIRECT_FSCONFIG_KEY_MAX))
    (if u32 (arg1 args) =? FS_DIRECT_FSCONFIG_SET_BINARY
     then capture_fs_bytes_tlv_direct 3 (arg3 args) (arg4 args)
     else same_flags (capture_fs_string_tlv_direct 3 (arg3 args) FS_DIRECT_FSCONFIG_VALUE_MAX))
    event_flags.

(** ** [mount_setattr] *)

Definition capture_mount_setattr_base_tlv_direct (args : args6) (ptr : dynptr) (payload_offset : Z)
    : prog Z :=
  if arg4 args <? MOUNT_SETATTR_BASE_SIZE then ret 0
  else capture_required_struct MOUNT_SETATTR_BASE_SIZE 3 0 (arg3 args) ptr payload_offset.

Definition capture_mount_setattr_extension_tlv_direct (args : args6) (event_flags : Z) (ptr : dynptr)
    (payload_offset : Z) : prog (Z * Z) :=
  let user_ptr := arg3 args in
  let raw_size := arg4 args in
  if raw_size <=? MOUNT_SETATTR_BASE_SIZE then ret (0, event_flags)
  else
    let extension_ptr := if user_ptr =? 0 then 0 else u64 (user_ptr + MOUNT_SETATTR_BASE_SIZE) in
    capture_extension true ((user_ptr =? 0) || (extension_ptr <? user_ptr)) MOUNT_SETATTR_EXTENSION_MAX
      3 0 extension_ptr (raw_size - MOUNT_SETATTR_BASE_SIZE) event_flags ptr payload_offset.

Definition capture_mount_setattr_enter_payload_tlv_direct (args : args6) (cfg : option Z) (event_flags : Z)
    : dynptr -> Z -> prog (Z * Z) :=
  flags_both
    (same_flags (both (both (capture_if (fd_state_enabled cfg)
                               (capture_fd_path_tlv_direct 0 (s32 (arg0 args))))
                            (capture_path_only_tlv_direct 1 (arg1 args)))
                      (capture_mount_setattr_base_tlv_direct args)))
    (capture_mount_setattr_extension_tlv_direct args)
    event_flags.

(** ** [statmount] and [listmount] *)

(** The size of the section, [*request_size] and [*size_probe_ret], which start as 0 and -1. *)
Definition capture_mnt_id_req_size_tlv_direct (user_ptr : Z) (ptr : dynptr) (payload_offset : Z)
    : prog (Z * Z * Z) :=
  if user_ptr =? 0 then ret (0, 0, -1)
  else capture_word_section 0 0 user_ptr ptr payload_offset.

Definition capture_mnt_id_req_base_tlv_direct (user_ptr request_size : Z) (ptr : dynptr)
    (payload_offset : Z) : prog Z :=
  if request_size <? MNT_ID_REQ_SIZE_VER0 then ret 0
  else
    let copied_len := if request_size <? MNT_ID_REQ_SIZE_VER1 then request_size else MNT_ID_REQ_SIZE_VER1 in
    capture_struct_copy MNT_ID_REQ_SIZE_VER1 copied_len copied_len 0 0 user_ptr ptr payload_offset.

Definition capture_mnt_id_req_extension_tlv_direct (user_ptr request_size event_flags : Z) (ptr : dynptr)
    (payload_offset : Z) : prog (Z * Z) :=
  if request_size <=? MNT_ID_REQ_SIZE_VER1 then ret (0, event_flags)
  else
    let extension_ptr := u64 (user_ptr + MNT_ID_REQ_SIZE_VER1) in
    capture_extension false (extension_ptr <? user_ptr) MNT_ID_REQ_EXTENSION_MAX 0 0 extension_ptr
      (request_size - MNT_ID_REQ_SIZE_VER1) event_flags ptr payload_offset.

Definition capture_mnt_id_req_enter_tlv_direct (args : args6) (event_flags : Z) (ptr : dynptr)
    (payload_offset : Z) : prog (Z * Z) :=
  let user_ptr := arg0 args in
  let* (n, request_size, size_probe_ret) :=
    capture_mnt_id_req_size_tlv_direct user_ptr ptr payload_offset in
  let* (m, event_flags) :=
    (if size_probe_ret <? 0 then no_capture
     else flags_both (same_flags (capture_mnt_id_req_base_tlv_direct user_ptr request_size))
            (capture_mnt_id_req_extension_tlv_direct user_ptr request_size))
      event_flags ptr (payload_offset + n) in
  ret (n + m, event_flags).

Definition capture_statmount_size_tlv_direct (p : pending_syscall) (ptr : dynptr) (payload_offset : Z)
    : prog (Z * Z * Z) :=
  if (arg1 (p_args p) =? 0) || (u64 (arg2 (p_args p)) <? MNT_ID_REQ_SIZE_FIELD_SIZE) then ret (0, 0, -1)
  else capture_word_section 1 PAYLOAD_TLV_FLAG_DIRECTION_OUT (arg1 (p_args p)) ptr payload_offset.

Definition capture_statmount_fixed_tlv_direct (p : pending_syscall) (ptr : dynptr) (payload_offset : Z)
    : prog Z :=
  let buffer_size := u64 (arg2 (p_args p)) in
  if (arg1 (p_args p) =? 0) || (buffer_size <? MNT_ID_REQ_SIZE_FIELD_SIZE) then ret 0
  else
    let user_len := payload_tlv_copy_len buffer_size STATMOUNT_FIXED_SIZE in
    capture_struct_copy STATMOUNT_FIXED_SIZE user_len user_len 1 PAYLOAD_TLV_FLAG_DIRECTION_OUT
      (arg1 (p_args p)) ptr payload_offset.

Definition capture_statmount_strings_tlv_direct (p : pending_syscall) (result_size event_flags : Z)
    (ptr : dynptr) (payload_offset : Z) : prog (Z * Z) :=
  let user_ptr := arg1 (p_args p) in
  if (result_size <=? STATMOUNT_FIXED_SIZE) || (u64 (arg2 (p_args p)) <? result_size)
  then ret (0, event_flags)
  else
    let string_ptr := u64 (user_ptr + STATMOUNT_FIXED_SIZE) in
    capture_extension false (string_ptr <? user_ptr) STATMOUNT_STRING_MAX 1 PAYLOAD_TLV_FLAG_DIRECTION_OUT
      string_ptr (result_size - STATMOUNT_FIXED_SIZE) event_flags ptr payload_offset.

Definition capture_statmount_exit_tlv_direct (p : pending_syscall) (event_flags : Z) (ptr : dynptr)
    (payload_offset : Z) : prog (Z * Z) :=
  let* (n, result_size, size_probe_ret) := capture_statmount_size_tlv_direct p ptr payload_offset in
  let* (m, event_flags) :=
    flags_both (same_flags (capture_statmount_fixed_tlv_direct p))
      (if 0 <=? size_probe_ret then capture_statmount_strings_tlv_direct p result_size else no_capture)
      event_flags ptr (payload_offset + n) in
  ret (n + m, event_flags).

Definition capture_listmount_ids_tlv_direct (p : pending_syscall) (ret_value event_flags : Z) (ptr : dynptr)
    (payload_offset : Z) : prog (Z * Z) :=
  let user_ptr := arg1 (p_args p) in
  let count := u64 (arg2 (p_args p)) in
  if (user_ptr =? 0) || (ret_value <=? 0) || (count =? 0) then ret (0, event_flags)
  else
    let returned := if u64 ret_value <? count then u64 ret_value else count in
    let user_len := if 0x1fffffff <? returned then 0xffffffff else u32 (returned * LISTMOUNT_ID_SIZE) in
    let copied_ids := if returned <? LISTMOUNT_ID_MAX then returned else LISTMOUNT_ID_MAX in
    let copied_len := u32 (u32 copied_ids * LISTMOUNT_ID_SIZE) in
    let* (copied_len, probe_ret) :=
      copy_user_struct ptr (payload_offset + PAYLOAD_TLV_HEADER_SIZE) (LISTMOUNT_ID_MAX * LISTMOUNT_ID_SIZE)
        copied_len copied_len user_ptr in
    let* event_flags := note_short_copy copied_len probe_ret user_len event_flags in
    let* size := finish_section ptr payload_offset
      (TlvHeader PAYLOAD_TLV_KIND_BYTES 1 PAYLOAD_TLV_FLAG_DIRECTION_OUT user_len copied_len probe_ret
         user_ptr) in
    ret (size, event_flags).

Definition emit_mount_query_exit_event_v2_direct (p : pending_syscall) (ret_value duration : Z) : prog unit :=
  if one_of (p_sys_id p) [SYS_STATMOUNT]
  then exit_flags_emit STATMOUNT_EXIT_PAYLOAD_CAPACITY p ret_value duration
         (capture_statmount_exit_tlv_direct p 0)
  else exit_flags_emit LISTMOUNT_EXIT_PAYLOAD_CAPACITY p ret_value duration
         (capture_listmount_ids_tlv_direct p ret_value 0).

(** ** The entry of the file-system calls *)

Definition capture_fs_enter_payload_tlv_direct (sys_id : Z) (args : args6) (cfg : option Z) (event_flags : Z)
    : dynptr -> Z -> prog (Z * Z) :=
  if one_of sys_id [SYS_MOUNT] then same_flags (capture_mount_payload_tlv_direct args) event_flags
  else if one_of sys_id [SYS_UMOUNT2] then
    same_flags (capture_fs_string_tlv_direct 0 (arg0 args) FS_DIRECT_MOUNT_STRING_MAX) event_flags
  else if one_of sys_id [SYS_FSCONFIG] then capture_fsconfig_payload_tlv_direct args event_flags
  else if one_of sys_id [SYS_FILE_SETATTR] then
    flags_both (same_flags (capture_path_only_tlv_direct 1 (arg1 args)))
      (fun event_flags => capture_file_attr_tlvs_direct 2 (arg2 args) (arg3 args) event_flags 0) event_flags
  else if one_of sys_id [SYS_MOUNT_SETATTR] then
    capture_mount_setattr_enter_payload_tlv_direct args cfg event_flags
  else if is_mount_query_direct_syscall sys_id then capture_mnt_id_req_enter_tlv_direct args event_flags
  else no_capture event_flags.

Definition emit_fs_enter_event_v2_direct (pid tid sys_id : Z)
    (ctx : trace_event_raw_sys_enter) (cfg : option Z) (ts_ns : Z) : prog unit :=
  let payload_capacity :=
    if one_of sys_id [SYS_MOUNT_SETATTR] && negb (fd_state_enabled cfg)
    then FS_DIRECT_PAYLOAD_CAPACITY - FD_PATH_DIRECT_SECTION_MAX else FS_DIRECT_PAYLOAD_CAPACITY in
  enter_flags_emit payload_capacity pid tid sys_id ctx ts_ns (-1)
    (capture_fs_enter_payload_tlv_direct sys_id (args_u64 (enter_args ctx)) cfg).

(** ** [getdents] *)

Definition capture_getdents_bytes_tlv_direct (p : pending_syscall) (ret_value event_flags : Z)
    : dynptr -> Z -> prog (Z * Z) :=
  capture_out_bytes FS_DIRECT_GETDENTS_BYTES_MAX 1 (arg1 (p_args p)) ret_value event_flags.

Definition emit_getdents_exit_event_v2_direct (p : pending_syscall) (ret_value duration : Z) : prog unit :=
  exit_flags_emit (PAYLOAD_TLV_HEADER_SIZE + FS_DIRECT_GETDENTS_BYTES_MAX) p ret_value duration
    (capture_getdents_bytes_tlv_direct p ret_value 0).

(** ** [move_mount] *)

Definition emit_mount_path_enter_event_v2_direct (pid tid sys_id : Z)
    (ctx : trace_event_raw_sys_enter) (ts_ns : Z) : prog unit :=
  let args := args_u64 (enter_args ctx) in
  enter_capture_emit MOUNT_PATH_DIRECT_PAYLOAD_CAPACITY pid tid sys_id ctx ts_ns (-1)
    (both (capture_path_only_tlv_direct 1 (arg1 args)) (capture_path_only_tlv_direct 3 (arg3 args))).
End Filesystem.

(** ** Contracts *)

Section FilesystemLemmas.
Context {K : Kernel} {A : Arch}.

(** *** [mount], [umount2], [fsconfig] *)

Definition mount_sections (args : args6) : list PayloadSection -> Prop :=
  appended (appended (appended (string_sections 512 0 (arg0 args)) (string_sections 512 1 (arg1 args)))
    (string_sections 128 2 (arg2 args))) (string_sections 512 4 (arg4 args)).

Lemma capture_mount_ok args :
  tlv_capture no_fault (mount_sections args) 1792 (capture_mount_payload_tlv_direct args).
Proof.
  apply (both_ok no_fault _ _ (((32 + 512) + (32 + 512)) + (32 + 128)) (32 + 512)); [|apply string_sections_ok; lia | lia].
  apply both_ok; [|apply string_sections_ok; lia | lia].
  apply both_ok; [apply string_sections_ok; lia.. | lia].
Qed.

(** The key, then the value: bytes of the stated length, or a string. *)
Definition fsconfig_sections (args : args6) : Z -> Z -> list PayloadSection -> Prop :=
  flags_appended (unflagged (string_sections 257 2 (arg2 args)))
    (if u32 (arg1 args) =? FS_DIRECT_FSCONFIG_SET_BINARY
     then buffer_sections PayloadKindBytes PayloadDirectionIn 4096 3 (arg3 args)
            (Z.land (arg4 args) FS_DIRECT_FSCONFIG_VALUE_LEN_MASK)
     else unflagged (string_sections 4096 3 (arg3 args))).

Lemma capture_fsconfig_ok args :
  flags_capture (fsconfig_sections args) 4417 (capture_fsconfig_payload_tlv_direct args).
Proof.
  apply (flags_both_ok _ _ (32 + 257) (32 + 4096)); [by apply same_flags_ok, string_sections_ok | | lia].
  destruct (u32 (arg1 args) =? 2); [|by apply same_flags_ok, string_sections_ok].
  apply (buffer_sections_ok _ _ 4096 3 0); [done | by left | lia |]. apply Z.land_nonneg. by right.
Qed.

(** *** [mount_setattr] *)

(** The first structure, and what lies behind it. *)
Definition setattr_base_sections (args : args6) : list PayloadSection -> Prop :=
  when (negb (arg4 args <? MOUNT_SETATTR_BASE_SIZE))
    (one_section (struct_section PayloadDirectionIn 3 (arg3 args) 32 32)).
Definition setattr_extension_ptr (args : args6) : Z :=
  if arg3 args =? 0 then 0 else u64 (arg3 args + MOUNT_SETATTR_BASE_SIZE).
Definition setattr_extension_sections (args : args6) (base fl : Z) : list PayloadSection -> Prop :=
  if arg4 args <=? MOUNT_SETATTR_BASE_SIZE then unflagged (fun secs => secs = []) base fl
  else one_section (extension_section PayloadDirectionIn
         ((arg3 args =? 0) || (setattr_extension_ptr args <? arg3 args)) 256 3
         (setattr_extension_ptr args) (arg4 args - MOUNT_SETATTR_BASE_SIZE) base fl).

Definition mount_setattr_sections (fd_state : bool) (args : args6) : Z -> Z -> list PayloadSection -> Prop :=
  flags_appended
    (unflagged (appended (appended (when fd_state (fd_path_sections (s32 (arg0 args)) 0))
                            (one_section (long_path_section 1 (arg1 args))))
                  (setattr_base_sections args)))
    (setattr_extension_sections args).

Lemma capture_setattr_extension_ok args :
  flags_capture (setattr_extension_sections args) (32 + 256) (capture_mount_setattr_extension_tlv_direct args).
Proof.
  apply flags_capture_of. intros base w d buf off Hb Ho Hs.
  unfold capture_mount_setattr_extension_tlv_direct, setattr_extension_sections. cbv zeta.
  destruct (Z.leb_spec (arg4 args) 32).
  - wp_steps. split_and!; [lia | lia | by left | reflexivity |]. intros _.
    eapply decodable_0; [by apply capturing_start | done].
  - eapply (capture_extension_ok true _ 256 3 0); [by left | lia | lia | done | lia | lia].
Qed.

Lemma capture_mount_setattr_ok args cfg :
  let fd_state := fd_state_enabled cfg in
  flags_capture (mount_setattr_sections fd_state args) ((if fd_state then 592 else 0) + 4480)
    (capture_mount_setattr_enter_payload_tlv_direct args cfg).
Proof.
  intros fd_state. unfold capture_mount_setattr_enter_payload_tlv_direct. fold fd_state.
  eapply flags_capture_cap; [apply (flags_both_ok _ _ (((if fd_state then 592 else 0) + (32 + 4096)) + (32 + 32)) (32 + 256));
    [| apply capture_setattr_extension_ok | lia] | lia].
  apply same_flags_ok, both_ok; [apply both_ok; [| apply tlv_capture_healthy, capture_path_only_ok | lia] | | lia].
  - destruct fd_state; [apply capture_fd_path_ok | by apply tlv_capture_none].
  - apply tlv_capture_healthy. unfold setattr_base_sections.
    destruct (arg4 args <? 32) eqn:E; cbn [negb when].
    + apply tlv_capture_none; [lia | done |]. intros. unfold capture_mount_setattr_base_tlv_direct. by rewrite E.
    + intros w d buf off Hb Ho Hs. unfold capture_mount_setattr_base_tlv_direct. rewrite E.
      eapply (capture_required_struct_ok 32 3 0); [lia | by left | done | lia | lia].
Qed.

(** *** [statmount] and [listmount] *)

(** The request whose size is [size]. *)
Definition mnt_id_req_sections (user_ptr size : Z) : Z -> Z -> list PayloadSection -> Prop :=
  let n := Z.min size MNT_ID_REQ_SIZE_VER1 in
  let extension_ptr := u64 (user_ptr + MNT_ID_REQ_SIZE_VER1) in
  flags_appended
    (unflagged (when (MNT_ID_REQ_SIZE_VER0 <=? size)
       (one_section (struct_section PayloadDirectionIn 0 user_ptr n n))))
    (fun base fl => if MNT_ID_REQ_SIZE_VER1 <? size
       then one_section (extension_section PayloadDirectionIn (extension_ptr <? user_ptr) 256 0 extension_ptr
              (size - MNT_ID_REQ_SIZE_VER1) base fl)
       else unflagged (fun secs => secs = []) base fl).

Lemma capture_extension_if (cond : bool) early wrapped slot arg_index tlv_flags user_ptr len :
  In tlv_flags [0; PAYLOAD_TLV_FLAG_DIRECTION_OUT] -> 0 < slot < 2 ^ 31 -> (cond = true -> 0 < len) ->
  flags_capture (fun base fl => if cond
      then one_section (extension_section (payloadDirectionFromTLV tlv_flags) wrapped slot arg_index user_ptr len base fl)
      else unflagged (fun secs => secs = []) base fl) (32 + slot)
    (fun base => if cond then capture_extension early wrapped slot arg_index tlv_flags user_ptr len base
                 else no_capture base).
Proof.
  intros Ht Hs Hl. destruct cond; [|apply no_capture_ok; lia].
  apply flags_capture_of. intros base. apply capture_extension_ok; auto.
Qed.

Lemma capture_mnt_id_req_ok user_ptr size :
  0 <= size < 2 ^ 32 ->
  flags_capture (mnt_id_req_sections user_ptr size) (64 + 288)
    (flags_both (same_flags (capture_mnt_id_req_base_tlv_direct user_ptr size))
       (capture_mnt_id_req_extension_tlv_direct user_ptr size)).
Proof.
  intros Hz. apply (flags_both_ok _ _ (32 + 32) (32 + 256)); [| |lia].
  - apply same_flags_ok, tlv_capture_healthy. destruct (Z.leb_spec 24 size); cbn [when].
    + intros w d buf off Hb Ho Hs. unfold capture_mnt_id_req_base_tlv_direct.
      destruct (Z.ltb_spec size 24); [lia|]. cbv zeta.
      replace (if size <? 32 then size else 32) with (Z.min size 32) by (destruct (Z.ltb_spec size 32); lia).
      eapply (capture_struct_copy_ok 32 _ _ 0 0); [lia | lia | by left | done | lia | lia].
    + apply tlv_capture_none; [lia | done |]. intros. unfold capture_mnt_id_req_base_tlv_direct.
      destruct (Z.ltb_spec size 24); [done|lia].
  - intros base w d buf off Hb Ho Hs.
    pose proof (capture_extension_if (32 <? size) false (u64 (user_ptr + 32) <? user_ptr) 256 0 0
      (u64 (user_ptr + 32)) (size - 32) ltac:(by left) ltac:(lia) ltac:(lia) base w d buf off Hb Ho Hs) as H.
    unfold capture_mnt_id_req_extension_tlv_direct. cbv zeta.
    destruct (Z.ltb_spec 32 size), (Z.leb_spec size 32); try lia; exact H.
Qed.

(** The request of a query: its size, then what that size announces. *)
Definition mount_query_sections (user_ptr : Z) : Z -> Z -> list PayloadSection -> Prop :=
  if user_ptr =? 0 then unflagged (fun secs => secs = [])
  else word_then_sections PayloadDirectionIn 0 user_ptr (fun size probe =>
         if probe <? 0 then unflagged (fun secs => secs = []) else mnt_id_req_sections user_ptr size).

Lemma capture_mount_query_ok args :
  flags_capture (mount_query_sections (arg0 args)) (36 + (64 + 288)) (capture_mnt_id_req_enter_tlv_direct args).
Proof.
  intros base w d buf off Hb Ho Hs. unfold capture_mnt_id_req_enter_tlv_direct, mount_query_sections,
    capture_mnt_id_req_size_tlv_direct. cbv zeta. destruct (arg0 args =? 0).
  - wp_steps. cbn [Z.ltb Z.compare]. unfold no_capture. wp_steps.
    split_and!; [lia | lia | by left | reflexivity |]. intros _. eapply decodable_0; [by apply capturing_start | done].
  - eapply (word_then_ok 0 0 (arg0 args)
      (fun size probe => if probe <? 0 then unflagged (fun secs => secs = []) else mnt_id_req_sections (arg0 args) size)
      (64 + 288) (fun size probe => if probe <? 0 then no_capture else
         flags_both (same_flags (capture_mnt_id_req_base_tlv_direct (arg0 args) size))
           (capture_mnt_id_req_extension_tlv_direct (arg0 args) size)));
      [by left | lia | | done | lia | lia].
    intros size probe Hz. destruct (probe <? 0); [apply no_capture_ok; lia | by apply capture_mnt_id_req_ok].
Qed.

(** The answer: the structure, and the strings behind it when the caller's buffer holds them. *)
Definition statmount_fixed_sections (p : pending_syscall) : list PayloadSection -> Prop :=
  let n := Z.min (u64 (arg2 (p_args p))) STATMOUNT_FIXED_SIZE in
  when (negb ((arg1 (p_args p) =? 0) || (u64 (arg2 (p_args p)) <? MNT_ID_REQ_SIZE_FIELD_SIZE)))
    (one_section (struct_section PayloadDirectionOut 1 (arg1 (p_args p)) n n)).
Definition statmount_rest (p : pending_syscall) (size probe : Z) : Z -> Z -> list PayloadSection -> Prop :=
  let string_ptr := u64 (arg1 (p_args p) + STATMOUNT_FIXED_SIZE) in
  flags_appended (unflagged (statmount_fixed_sections p)) (fun base fl =>
    if (0 <=? probe) && negb ((size <=? STATMOUNT_FIXED_SIZE) || (u64 (arg2 (p_args p)) <? size))
    then one_section (extension_section PayloadDirectionOut (string_ptr <? arg1 (p_args p)) 4096 1 string_ptr
           (size - STATMOUNT_FIXED_SIZE) base fl)
    else unflagged (fun secs => secs = []) base fl).
Definition statmount_sections (p : pending_syscall) : Z -> Z -> list PayloadSection -> Prop :=
  if (arg1 (p_args p) =? 0) || (u64 (arg2 (p_args p)) <? MNT_ID_REQ_SIZE_FIELD_SIZE)
  then statmount_rest p 0 (-1)
  else word_then_sections PayloadDirectionOut 1 (arg1 (p_args p)) (statmount_rest p).

Lemma u64_nonneg z : 0 <= u64 z.
Proof. apply Z.mod_pos_bound. lia. Qed.

Lemma capture_statmount_rest_ok p size probe :
  flags_capture (statmount_rest p size probe) (544 + 4128)
    (flags_both (same_flags (capture_statmount_fixed_tlv_direct p))
      (if 0 <=? probe then capture_statmount_strings_tlv_direct p size else no_capture)).
Proof.
  pose proof (u64_nonneg (arg2 (p_args p))) as Hu.
  apply (flags_both_ok _ _ (32 + 512) (32 + 4096)); [| |lia].
  - apply same_flags_ok, tlv_capture_healthy. unfold statmount_fixed_sections. cbv zeta.
    destruct (_ || _) eqn:E; cbn [negb when].
    + apply tlv_capture_none; [lia | done |]. intros. unfold capture_statmount_fixed_tlv_direct. cbv zeta. by rewrite E.
    + intros w d buf off Hb Ho Hs. unfold capture_statmount_fixed_tlv_direct. cbv zeta. rewrite E.
      rewrite payload_tlv_copy_len_min by lia.
      eapply (capture_struct_copy_ok 512 _ _ 1 PAYLOAD_TLV_FLAG_DIRECTION_OUT); [lia | lia | by right; left | done | lia | lia].
  - intros base w d buf off Hb Ho Hs.
    set (cond := (0 <=? probe) && negb ((size <=? 512) || (u64 (arg2 (p_args p)) <? size))).
    assert (cond = true -> 0 < size - 512) as Hc.
    { subst cond. destruct (0 <=? probe); [|done]. destruct (Z.leb_spec size 512); [done|lia]. }
    pose proof (capture_extension_if cond false (u64 (arg1 (p_args p) + 512) <? arg1 (p_args p)) 4096 1
      PAYLOAD_TLV_FLAG_DIRECTION_OUT (u64 (arg1 (p_args p) + 512)) (size - 512)
      ltac:(by right; left) ltac:(lia) Hc base w d buf off Hb Ho Hs) as H.
    unfold capture_statmount_strings_tlv_direct. cbv zeta. subst cond.
    destruct (0 <=? probe); cbn [andb] in *; [|exact H]. destruct (_ || _); exact H.
Qed.

Lemma capture_statmount_ok p :
  flags_capture (statmount_sections p) (36 + (544 + 4128)) (capture_statmount_exit_tlv_direct p).
Proof.
  intros base w d buf off Hb Ho Hs. unfold capture_statmount_exit_tlv_direct, statmount_sections,
    capture_statmount_size_tlv_direct. destruct (_ || _).
  - wp_steps. rewrite Z.add_0_r. eapply wp_mono.
    { eapply (capture_statmount_rest_ok p 0 (-1)); [exact Hb | lia | lia]. }
    intros [m fl] w1 (? & ? & ? & ?). wp_steps. by split_and!; [lia | lia | ..].
  - eapply (word_then_ok 1 PAYLOAD_TLV_FLAG_DIRECTION_OUT (arg1 (p_args p)) (statmount_rest p) (544 + 4128)
      (fun size probe => flags_both (same_flags (capture_statmount_fixed_tlv_direct p))
         (if 0 <=? probe then capture_statmount_strings_tlv_direct p size else no_capture)));
      [by right; left | lia | intros; apply capture_statmount_rest_ok | done | lia | lia].
Qed.

(** The identifiers returned: no more than the caller's array and the result. *)
Definition listmount_sections (p : pending_syscall) (rv base fl : Z) (secs : list PayloadSection) : Prop :=
  let count := u64 (arg2 (p_args p)) in
  let returned := Z.min (u64 rv) count in
  if (arg1 (p_args p) =? 0) || (rv <=? 0) || (count =? 0) then unflagged (fun secs => secs = []) base fl secs
  else one_section (section_with PayloadKindBytes PayloadDirectionOut 1 (arg1 (p_args p)) (fun ulen data e =>
    ulen = Z.min (returned * LISTMOUNT_ID_SIZE) 0xffffffff /\
    copied (arg1 (p_args p)) (Z.min returned LISTMOUNT_ID_MAX * LISTMOUNT_ID_SIZE) data e /\
    fl = if (e =? 0) && (LISTMOUNT_ID_MAX <? returned) then Z.lor base EVENT_FLAG_TRUNCATED else base)) secs.

Lemma capture_listmount_ok p rv :
  rv < 2 ^ 63 ->
  flags_capture (listmount_sections p rv) (32 + 256) (capture_listmount_ids_tlv_direct p rv).
Proof.
  intros Hrv. apply flags_capture_of. intros base w d buf off Hb Ho Hs.
  unfold capture_listmount_ids_tlv_direct, listmount_sections. cbv zeta.
  pose proof (u64_nonneg (arg2 (p_args p))) as Hc. set (count := u64 (arg2 (p_args p))) in *.
  set (user_ptr := arg1 (p_args p)).
  destruct (Z.eqb_spec user_ptr 0), (Z.leb_spec rv 0), (Z.eqb_spec count 0); cbn [orb];
    try (wp_steps; split_and!; [lia | lia | by left | reflexivity |]; intros _;
         eapply decodable_0; [by apply capturing_start | done]).
  rewrite (u64_small rv) by lia.
  replace (if rv <? count then rv else count) with (Z.min rv count) by (destruct (Z.ltb_spec rv count); lia).
  set (returned := Z.min rv count). assert (0 < returned) as Hr by lia.
  replace (if 536870911 <? returned then 4294967295 else u32 (returned * 8)) with (Z.min (returned * 8) 4294967295)
    by (destruct (Z.ltb_spec 536870911 returned); [|rewrite u32_small by lia]; lia).
  replace (if returned <? 32 then returned else 32) with (Z.min returned 32)
    by (destruct (Z.ltb_spec returned 32); lia).
  rewrite (u32_small (Z.min returned 32)), (u32_small (Z.min returned 32 * 8)) by lia.
  set (D := fun (fl ulen : Z) (data : list Z) (e : Z) => ulen = Z.min (returned * 8) 4294967295 /\
    copied user_ptr (Z.min returned 32 * 8) data e /\
    fl = if (e =? 0) && (32 <? returned) then Z.lor base EVENT_FLAG_TRUNCATED else base).
  wp_step. eapply wp_copy_user_struct; [exact (capturing_start d off w buf Hb) | lia | lia | lia | |]; intros w1 b.
  - intros k C1 Hk. cbv beta iota.
    eapply (wp_finish_short D); [exact C1 | lia | lia | lia | lia | lia | lia | done | done |].
    split; [done|]. split; [left; split; [done|]; by exists k|]. cbn [Z.eqb andb].
    destruct (Z.ltb_spec 32 returned), (Z.ltb_spec (Z.min returned 32 * 8) (Z.min (returned * 8) 4294967295)); lia || done.
  - intros e C1 He. cbv beta iota. pose proof (proj1 He).
    eapply (wp_finish_short D); [exact C1 | lia | lia | lia | lia | lia | lia | done | done |].
    rewrite slice_0. split; [done|]. split; [by right|]. by destruct (Z.eqb_spec e 0); [lia|].
Qed.

Definition mount_query_exit_sections (p : pending_syscall) (rv : Z) : Z -> Z -> list PayloadSection -> Prop :=
  if one_of (p_sys_id p) [SYS_STATMOUNT] then statmount_sections p else listmount_sections p rv.

Lemma emit_mount_query_exit_ok p rv dur :
  rv < 2 ^ 63 ->
  emitter (fun r => reads_pending_exit r p rv dur
      (decodes no_fault (flags_from 0) (mount_query_exit_sections p rv 0)))
    (emit_mount_query_exit_event_v2_direct p rv dur).
Proof.
  intros H. unfold emit_mount_query_exit_event_v2_direct, mount_query_exit_sections.
  destruct (one_of _ _); (apply (exit_flags_capture_ok _ p rv dur); [lia|]).
  - eapply flags_capture_cap; [apply capture_statmount_ok | lia].
  - by apply capture_listmount_ok.
Qed.

(** *** The entries *)

(** What each call takes. *)
Definition fs_sections (sys_id : Z) (args : args6) (fd_state : bool) : Z -> Z -> list PayloadSection -> Prop :=
  if one_of sys_id [SYS_MOUNT] then unflagged (mount_sections args)
  else if one_of sys_id [SYS_UMOUNT2] then unflagged (string_sections 512 0 (arg0 args))
  else if one_of sys_id [SYS_FSCONFIG] then fsconfig_sections args
  else if one_of sys_id [SYS_FILE_SETATTR] then
    flags_appended (unflagged (one_section (long_path_section 1 (arg1 args))))
      (fun base fl => file_attr_sections PayloadDirectionIn 2 (arg2 args) (arg3 args) fl base)
  else if one_of sys_id [SYS_MOUNT_SETATTR] then mount_setattr_sections fd_state args
  else if is_mount_query_direct_syscall sys_id then mount_query_sections (arg0 args)
  else unflagged (fun secs => secs = []).

Lemma capture_fs_enter_ok sys_id args cfg :
  flags_capture (fs_sections sys_id args (fd_state_enabled cfg))
    (if one_of sys_id [SYS_MOUNT_SETATTR] && negb (fd_state_enabled cfg) then 4480 else 5072)
    (capture_fs_enter_payload_tlv_direct sys_id args cfg).
Proof.
  set (cap := if one_of sys_id [SYS_MOUNT_SETATTR] && negb (fd_state_enabled cfg) then 4480 else 5072).
  assert (4480 <= cap) by (subst cap; destruct (_ && _); lia).
  unfold fs_sections, capture_fs_enter_payload_tlv_direct.
  destruct (one_of sys_id [SYS_MOUNT]);
    [apply same_flags_ok; eapply tlv_capture_cap; [apply capture_mount_ok | lia]|].
  destruct (one_of sys_id [SYS_UMOUNT2]);
    [apply same_flags_ok; eapply tlv_capture_cap; [by apply string_sections_ok | lia]|].
  destruct (one_of sys_id [SYS_FSCONFIG]); [eapply flags_capture_cap; [apply capture_fsconfig_ok | lia]|].
  destruct (one_of sys_id [SYS_FILE_SETATTR]) eqn:E1.
  { assert (cap = 5072) as -> by (subst cap; by rewrite (one_of_disjoint _ _ _ E1) by done).
    eapply flags_capture_cap; [apply (flags_both_ok _ _ (32 + 4096) (32 + 390)); [| |lia] | lia].
    - apply same_flags_ok, tlv_capture_healthy, capture_path_only_ok.
    - apply flags_capture_of. intros base. apply (capture_file_attr_ok _ _ _ _ 0). by left. }
  destruct (one_of sys_id [SYS_MOUNT_SETATTR]) eqn:E2.
  { eapply flags_capture_cap; [apply capture_mount_setattr_ok|]. subst cap. destruct (fd_state_enabled cfg); cbn; lia. }
  destruct (is_mount_query_direct_syscall sys_id); [|apply no_capture_ok; lia].
  eapply flags_capture_cap; [apply capture_mount_query_ok | lia].
Qed.

Lemma emit_fs_enter_ok pid tid sys_id ctx cfg ts :
  emitter (fun r => reads_flags_enter r pid tid sys_id ctx ts (-1)
      (fs_sections sys_id (args_u64 (enter_args ctx)) (fd_state_enabled cfg) EVENT_FLAG_GENERIC_ENTER))
    (emit_fs_enter_event_v2_direct pid tid sys_id ctx cfg ts).
Proof.
  apply (enter_flags_ok _ pid tid sys_id ctx ts (-1) (fs_sections sys_id _ _)); [destruct (_ && _); lia|].
  eapply flags_capture_cap; [apply capture_fs_enter_ok | destruct (_ && _); lia].
Qed.

(** *** [getdents] and [move_mount] *)

Lemma emit_getdents_exit_ok p rv dur :
  rv < 2 ^ 63 ->
  emitter (fun r => reads_pending_exit r p rv dur (decodes True (flags_from 0)
      (fun fl => out_bytes_sections 512 1 (arg1 (p_args p)) rv fl 0)))
    (emit_getdents_exit_event_v2_direct p rv dur).
Proof. intros H. apply exit_flags_ok; [lia|]. by apply capture_out_bytes_ok. Qed.

Lemma emit_mount_path_enter_ok pid tid sys_id ctx ts :
  let args := args_u64 (enter_args ctx) in
  emitter (fun r => reads_capture_enter r pid tid sys_id ctx ts (-1)
      (appended (one_section (long_path_section 1 (arg1 args))) (one_section (long_path_section 3 (arg3 args)))))
    (emit_mount_path_enter_event_v2_direct pid tid sys_id ctx ts).
Proof.
  intros args. apply enter_capture_ok; [lia|].
  apply (both_ok True _ _ (32 + 4096) (32 + 4096)); [apply capture_path_only_ok.. | lia].
Qed.

Lemma emit_mount_query_exit_emits p z dur :
  keeps emits (emit_mount_query_exit_event_v2_direct p (s64 z) dur).
Proof. eapply emitter_keeps, emit_mount_query_exit_ok. apply s64_range. Qed.
Lemma emit_getdents_exit_emits p z dur : keeps emits (emit_getdents_exit_event_v2_direct p (s64 z) dur).
Proof. eapply emitter_keeps, emit_getdents_exit_ok. apply s64_range. Qed.
End FilesystemLemmas.

#[export] Hint Resolve emit_fs_enter_ok emit_mount_path_enter_ok : emitters.
#[export] Hint Resolve emit_mount_query_exit_emits emit_getdents_exit_emits : keeps.
