(* ===== verification/Network.v ===== *)
(** Sockets.

    Models [bpf/syscall_network_direct_event_v2.h],
    [bpf/syscall_network_capture_direct_event_v2.h],
    [bpf/syscall_network_emit_direct_event_v2.h],
    [bpf/syscall_network_exit_capture_direct_event_v2.h] and
    [bpf/syscall_network_exit_emit_direct_event_v2.h]. *)
From stdpp Require Import base list gmap numbers.
From S2P Require Import Prelude Syscalls Abi Kernel Consumer Stats Tlv Emit Decoder EventCore Payload Structs FdPath Paths Misc Captures.

Abbreviation NETWORK_DIRECT_BYTES_MAX := 512 (only parsing).
Abbreviation NETWORK_DIRECT_SOCKADDR_MAX := 128 (only parsing).
Abbreviation NETWORK_DIRECT_SOCKLEN_SIZE := 4 (only parsing).
Abbreviation NETWORK_DIRECT_SOCKOPT_MAX := NETWORK_DIRECT_BYTES_MAX (only parsing).
Abbreviation NETWORK_DIRECT_SENDTO_ENTER_MAX :=
  (PAYLOAD_TLV_HEADER_SIZE + NETWORK_DIRECT_BYTES_MAX +
   (PAYLOAD_TLV_HEADER_SIZE + NETWORK_DIRECT_SOCKADDR_MAX)) (only parsing).
Abbreviation NETWORK_DIRECT_RECVFROM_EXIT_MAX :=
  (PAYLOAD_TLV_HEADER_SIZE + NETWORK_DIRECT_BYTES_MAX +
   (PAYLOAD_TLV_HEADER_SIZE + NETWORK_DIRECT_SOCKADDR_MAX) +
   (PAYLOAD_TLV_HEADER_SIZE + NETWORK_DIRECT_SOCKLEN_SIZE)) (only parsing).

Section Network.
Context {K : Kernel} {A : Arch}.

Definition is_network_accept_like_direct_syscall (sys_id : Z) : bool :=
  one_of sys_id [SYS_ACCEPT; SYS_ACCEPT4; SYS_GETSOCKNAME; SYS_GETPEERNAME].
Definition is_network_sockopt_direct_syscall (sys_id : Z) : bool :=
  one_of sys_id [SYS_SETSOCKOPT; SYS_GETSOCKOPT].
Definition is_network_direct_syscall (sys_id : Z) : bool :=
  one_of sys_id [SYS_CONNECT; SYS_BIND; SYS_SENDTO; SYS_RECVFROM] ||
  is_network_accept_like_direct_syscall sys_id || is_network_sockopt_direct_syscall sys_id.

Definition network_direct_enter_socklen_arg (sys_id : Z) : Z :=
  if one_of sys_id [SYS_RECVFROM] then 5
  else if is_network_accept_like_direct_syscall sys_id then 2 else 6.
Definition network_direct_arg (args : args6) (arg_index : Z) : Z :=
  if existsb (Z.eqb arg_index) [0; 1; 2; 3; 4; 5] then arg args arg_index else 0.
Definition network_direct_pending_arg (p : pending_syscall) (arg_index : Z) : Z :=
  if existsb (Z.eqb arg_index) [1; 2; 3; 4; 5] then arg (p_args p) arg_index else 0.

Definition save_pending_network_syscall_args (tid pid sys_id : Z) (args : args6)
    (enter_time stack_id sockaddr_len : Z) : prog unit :=
  let* saved := save_pending_syscall_value (PendingSyscall enter_time 0 args pid sys_id tid stack_id) in
  if saved then save_pending_syscall_aux tid sockaddr_len else ret tt.

(** ** Lengths *)

Definition network_direct_min_u32 (a b : Z) : Z := if a <? b then a else b.

Definition network_direct_sockopt_len (value : Z) : Z :=
  let length := s32 (u32 value) in
  if length <=? 0 then 0 else length.

Definition network_direct_sockopt_fixed_int (level_value option_value : Z) : bool :=
  let level := u32 level_value in
  let option := u32 option_value in
  if level =? 270 then negb (option =? 9)
  else if negb (level =? 1) then false
  else existsb (Z.eqb option)
    [1; 2; 5; 6; 7; 8; 9; 10; 11; 12; 14; 15; 16; 18; 19; 27; 29; 30; 32; 33; 34; 35; 36; 37; 40; 41;
     42; 43; 44; 45; 46; 49; 53; 56; 60; 63; 64; 65; 68; 69; 70; 73; 74; 75; 76; 80; 82; 83; 84].

Definition network_direct_sockopt_membership_array (level_value option_value : Z) : bool :=
  (u32 level_value =? 270) && (u32 option_value =? 9).

Definition network_direct_sockopt_payload_len (level_value option_value optlen_value : Z) : Z :=
  let length := network_direct_sockopt_len optlen_value in
  if network_direct_sockopt_membership_array level_value option_value then Z.land length 0xfffffffc
  else if network_direct_sockopt_fixed_int level_value option_value && (4 <? length) then 4
  else length.

(** The result and the bytes of [*value]. *)
Definition network_direct_read_socklen (user_ptr : Z) : prog (Z * list Z) :=
  if user_ptr =? 0 then ret (-1, [0; 0; 0; 0])
  else
    let* (err, value) := bpf_probe_read_user NETWORK_DIRECT_SOCKLEN_SIZE user_ptr in
    ret (if err <? 0 then err else 0, value).

(** ** Sections *)

(** The size of the slot [bpf_dynptr_data] is asked for. *)
Definition network_direct_payload_data (max : Z) : Z :=
  if max =? NETWORK_DIRECT_BYTES_MAX then NETWORK_DIRECT_BYTES_MAX
  else if max =? NETWORK_DIRECT_SOCKADDR_MAX then NETWORK_DIRECT_SOCKADDR_MAX
  else NETWORK_DIRECT_SOCKLEN_SIZE.

Definition capture_network_tlv_direct (kind storage_max arg_index tlv_flags user_ptr user_len copy_len
    event_flags : Z) (ptr : dynptr) (payload_offset : Z) : prog (Z * Z) :=
  if (user_len =? 0) || (user_ptr =? 0) then ret (0, event_flags)
  else
    let copied_len := network_direct_min_u32 copy_len storage_max in
    let copied_len := network_direct_min_u32 copied_len user_len in
    let* (copied_len, probe_ret) :=
      copy_user_struct ptr (payload_offset + PAYLOAD_TLV_HEADER_SIZE)
        (network_direct_payload_data storage_max) copied_len copied_len user_ptr in
    let* event_flags := note_truncation copied_len probe_ret user_len event_flags in
    let* size := finish_section ptr payload_offset
      (TlvHeader kind arg_index tlv_flags user_len copied_len probe_ret user_ptr) in
    ret (size, event_flags).

(** The size of the section and [*value]; 0 when the pointer is null. *)
Definition capture_network_socklen_tlv_direct (arg_index tlv_flags user_ptr : Z) (ptr : dynptr)
    (payload_offset : Z) : prog (Z * Z) :=
  if user_ptr =? 0 then ret (0, 0)
  else
    let* (probe_ret, value) := network_direct_read_socklen user_ptr in
    let* (copied_len, probe_ret) :=
      if probe_ret =? 0 then
        let* r := bpf_dynptr_write ptr (payload_offset + PAYLOAD_TLV_HEADER_SIZE) value in
        if r <? 0 then record_ringbuf_copy_fail ;;; ret (0, r)
        else ret (NETWORK_DIRECT_SOCKLEN_SIZE, probe_ret)
      else ret (0, probe_ret) in
    let* size := finish_section ptr payload_offset
      (TlvHeader PAYLOAD_TLV_KIND_BYTES arg_index tlv_flags NETWORK_DIRECT_SOCKLEN_SIZE copied_len
         probe_ret user_ptr) in
    ret (size, le_val value).

(** The same when the value is not used any more. *)
Definition capture_network_socklen_size (arg_index tlv_flags user_ptr : Z) (ptr : dynptr)
    (payload_offset : Z) : prog Z :=
  let* (n, _) := capture_network_socklen_tlv_direct arg_index tlv_flags user_ptr ptr payload_offset in
  ret n.

(** ** Entries *)

(** The payload and the flags of the calls whose entry stores no length. *)
Definition capture_network_sent (sys_id : Z) (args : args6) (event_flags : Z) : dynptr -> Z -> prog (Z * Z) :=
  if one_of sys_id [SYS_SETSOCKOPT] then
    let optlen := network_direct_sockopt_payload_len (arg1 args) (arg2 args) (arg4 args) in
    capture_network_tlv_direct PAYLOAD_TLV_KIND_BYTES NETWORK_DIRECT_SOCKOPT_MAX 3 0 (arg3 args) optlen
      optlen event_flags
  else if one_of sys_id [SYS_CONNECT; SYS_BIND] then
    let user_len := payload_tlv_clamp_u32 (arg2 args) in
    capture_network_tlv_direct PAYLOAD_TLV_KIND_STRUCT NETWORK_DIRECT_SOCKADDR_MAX 1 0 (arg1 args)
      user_len user_len event_flags
  else if one_of sys_id [SYS_SENDTO] then
    let user_len := payload_tlv_clamp_u32 (arg2 args) in
    let addr_len := payload_tlv_clamp_u32 (arg5 args) in
    flags_both
      (capture_network_tlv_direct PAYLOAD_TLV_KIND_BYTES NETWORK_DIRECT_BYTES_MAX 1 0 (arg1 args)
         user_len user_len)
      (capture_network_tlv_direct PAYLOAD_TLV_KIND_STRUCT NETWORK_DIRECT_SOCKADDR_MAX 4 0 (arg4 args)
         addr_len addr_len) event_flags
  else no_capture event_flags.

(** The size, the flags and [*sockaddr_len]. *)
Definition capture_network_enter_payloads_tlv_direct (sys_id : Z) (args : args6) (event_flags : Z)
    (ptr : dynptr) (payload_offset : Z) : prog (Z * Z * Z) :=
  let len_arg := if one_of sys_id [SYS_GETSOCKOPT] then 4 else network_direct_enter_socklen_arg sys_id in
  if len_arg <? 6 then
    let* (n, value) := capture_network_socklen_tlv_direct len_arg 0 (network_direct_arg args len_arg)
                         ptr payload_offset in
    ret (n, event_flags, value)
  else
    let* (n, event_flags) := capture_network_sent sys_id args event_flags ptr payload_offset in
    ret (n, event_flags, 0).

Definition init_network_enter_event_v2_from_args (args : args6) (payload_size : Z) : syscall_enter_event_v2 :=
  EnterBody 0 (-1) (-1) args payload_size 0.

(** The result is [*sockaddr_len], which starts as 0. *)
Definition emit_network_enter_event_v2_direct (pid tid sys_id : Z) (args : args6) (ts_ns : Z) : prog Z :=
  let* sent :=
    enter_emit_returning NETWORK_DIRECT_SENDTO_ENTER_MAX pid tid sys_id ts_ns
      (fun ptr =>
         let* (n, flags, sockaddr_len) :=
           capture_network_enter_payloads_tlv_direct sys_id args EVENT_FLAG_GENERIC_ENTER ptr
             enter_payload_offset in
         ret (tlv_flag flags n, n, sockaddr_len))
      (fun _ n => ret (struct_bytes (syscall_enter_event_v2_fields
         (init_network_enter_event_v2_from_args args n)))) in
  ret (match sent with Some sockaddr_len => sockaddr_len | None => 0 end).

(** ** Exits *)

Definition network_direct_out_sockaddr_arg (sys_id : Z) : Z := if one_of sys_id [SYS_RECVFROM] then 4 else 1.
Definition network_direct_out_socklen_arg (sys_id : Z) : Z := if one_of sys_id [SYS_RECVFROM] then 5 else 2.

Definition capture_network_getsockopt_exit_tlv_direct (p : pending_syscall) (ret_value event_flags : Z)
    (ptr : dynptr) (payload_offset : Z) : prog (Z * Z) :=
  let* aux0 := lookup_pending_syscall_aux0 (p_tid p) in
  let len_ptr := network_direct_pending_arg p 4 in
  let* (read_ret, value) := network_direct_read_socklen len_ptr in
  let out_len := le_val value in
  flags_both
    (if (0 <=? ret_value) && (read_ret =? 0) && (0 <? out_len) && (0 <? aux0) then
       let user_len := network_direct_min_u32 out_len aux0 in
       let copy_len := network_direct_sockopt_payload_len (arg1 (p_args p)) (arg2 (p_args p)) user_len in
       let copy_len := network_direct_min_u32 copy_len NETWORK_DIRECT_SOCKOPT_MAX in
       capture_network_tlv_direct PAYLOAD_TLV_KIND_BYTES NETWORK_DIRECT_SOCKOPT_MAX 3
         PAYLOAD_TLV_FLAG_DIRECTION_OUT (network_direct_pending_arg p 3) user_len copy_len
     else no_capture)
    (same_flags (capture_network_socklen_size 4 PAYLOAD_TLV_FLAG_DIRECTION_OUT len_ptr))
    event_flags ptr payload_offset.

(** The bytes received. *)
Definition capture_network_received (p : pending_syscall) (ret_value : Z) (event_flags : Z)
    : dynptr -> Z -> prog (Z * Z) :=
  if one_of (p_sys_id p) [SYS_RECVFROM] && (0 <? ret_value) then
    let ret_len := payload_tlv_clamp_u32 (u64 ret_value) in
    let count_len := payload_tlv_clamp_u32 (u64 (arg2 (p_args p))) in
    let copy_len := if count_len <? ret_len then count_len else ret_len in
    capture_network_tlv_direct PAYLOAD_TLV_KIND_BYTES NETWORK_DIRECT_BYTES_MAX 1
      PAYLOAD_TLV_FLAG_DIRECTION_OUT (arg1 (p_args p)) ret_len copy_len event_flags
  else no_capture event_flags.

(** The address the kernel stored, then its length. *)
Definition capture_network_address (p : pending_syscall) (event_flags : Z) (ptr : dynptr)
    (payload_offset : Z) : prog (Z * Z) :=
  let* aux0 := lookup_pending_syscall_aux0 (p_tid p) in
  let len_arg := network_direct_out_socklen_arg (p_sys_id p) in
  let len_ptr := network_direct_pending_arg p len_arg in
  let* (_, value) := network_direct_read_socklen len_ptr in
  let copy_len := le_val value in
  let copy_len := if (0 <? aux0) && (aux0 <? copy_len) then aux0 else copy_len in
  let copy_len := network_direct_min_u32 copy_len NETWORK_DIRECT_SOCKADDR_MAX in
  let addr_arg := network_direct_out_sockaddr_arg (p_sys_id p) in
  flags_both
    (if 0 <? copy_len then
       capture_network_tlv_direct PAYLOAD_TLV_KIND_STRUCT NETWORK_DIRECT_SOCKADDR_MAX addr_arg
         PAYLOAD_TLV_FLAG_DIRECTION_OUT (network_direct_pending_arg p addr_arg) copy_len copy_len
     else no_capture)
    (same_flags (capture_network_socklen_size len_arg PAYLOAD_TLV_FLAG_DIRECTION_OUT len_ptr))
    event_flags ptr payload_offset.

Definition capture_network_exit_payloads_tlv_direct (p : pending_syscall) (ret_value event_flags : Z)
    : dynptr -> Z -> prog (Z * Z) :=
  if is_network_sockopt_direct_syscall (p_sys_id p) then
    if one_of (p_sys_id p) [SYS_GETSOCKOPT]
    then capture_network_getsockopt_exit_tlv_direct p ret_value event_flags
    else no_capture event_flags
  else
    flags_both (capture_network_received p ret_value)
      (if (ret_value <? 0) ||
          (negb (one_of (p_sys_id p) [SYS_RECVFROM]) &&
           negb (is_network_accept_like_direct_syscall (p_sys_id p)))
       then no_capture else capture_network_address p) event_flags.

Definition emit_network_exit_event_v2_direct (p : pending_syscall) (ret_value duration : Z) : prog unit :=
  exit_flags_emit NETWORK_DIRECT_RECVFROM_EXIT_MAX p ret_value duration
    (capture_network_exit_payloads_tlv_direct p ret_value 0).
End Network.

(** ** Contracts *)

Section NetworkLemmas.
Context {K : Kernel} {A : Arch}.

(** A buffer of [ulen] bytes of which [clen] may be copied into a slot of [slot] bytes. *)
Definition network_data (slot user_ptr len clen base fl ulen : Z) (data : list Z) (e : Z) : Prop :=
  let n := Z.min (Z.min clen slot) len in
  ulen = len /\ copied user_ptr n data e /\
  fl = if (e =? 0) && (0 <? n) && (n <? len) then Z.lor base EVENT_FLAG_TRUNCATED else base.
Definition network_sections (kind : PayloadKind) (dir : PayloadDirection) (slot arg_index user_ptr len clen base fl : Z)
    : list PayloadSection -> Prop :=
  if (len =? 0) || (user_ptr =? 0) then unflagged (fun secs => secs = []) base fl
  else one_section (section_with kind dir arg_index user_ptr (network_data slot user_ptr len clen base fl)).

Lemma network_min a b : network_direct_min_u32 a b = Z.min a b.
Proof. unfold network_direct_min_u32. destruct (Z.ltb_spec a b); lia. Qed.

Lemma capture_network_tlv_ok kind tlv_kind slot arg_index tlv_flags user_ptr len clen :
  payloadKindFromTLV (u16 tlv_kind) = Some kind -> In tlv_flags [0; PAYLOAD_TLV_FLAG_DIRECTION_OUT] ->
  In slot [NETWORK_DIRECT_BYTES_MAX; NETWORK_DIRECT_SOCKADDR_MAX] -> 0 <= len < 2 ^ 32 -> 0 <= clen ->
  flags_capture (network_sections kind (payloadDirectionFromTLV tlv_flags) slot arg_index user_ptr len clen)
    (PAYLOAD_TLV_HEADER_SIZE + slot)
    (capture_network_tlv_direct tlv_kind slot arg_index tlv_flags user_ptr len clen).
Proof.
  intros Hk Ht Hslot Hl Hcl. apply flags_capture_of. intros base w d buf off Hb Ho Hs.
  unfold capture_network_tlv_direct, network_sections. cbv zeta. rewrite !network_min.
  destruct ((len =? 0) || (user_ptr =? 0)) eqn:E.
  { wp_steps. split_and!; [cbn in Hslot; lia | cbn in Hslot; lia | by left | reflexivity |]. intros _.
    eapply decodable_0; [by apply capturing_start | done]. }
  apply orb_false_iff in E as [E _]. apply Z.eqb_neq in E.
  assert (network_direct_payload_data slot = slot /\ 0 < slot < 2 ^ 31) as [-> Hs2]
    by (cbn in Hslot; by destruct Hslot as [<-|[<-|[]]]).
  assert (payloadDirectionFromTLV (u16 tlv_flags) = payloadDirectionFromTLV tlv_flags) as Hd
    by (cbn in Ht; by destruct Ht as [<-|[<-|[]]]).
  wp_step. eapply wp_copy_user_struct; [exact (capturing_start d off w buf Hb) | lia | lia | lia | |];
    intros w1 b.
  - intros k C1 Hk1. cbv beta iota.
    eapply (wp_finish_flags (network_data slot user_ptr len clen base)); [exact C1|..]; try done; try lia.
    split; [done|]. split; [left; split; [done|]; by exists k | done].
  - intros e C1 He. cbv beta iota. pose proof (proj1 He).
    eapply (wp_finish_flags (network_data slot user_ptr len clen base)); [exact C1|..]; try done; try lia.
    rewrite slice_0. split; [done|]. split; [by right|]. by destruct (Z.eqb_spec e 0); [lia|].
Qed.

(** What is read of a length: the word the user stores, or zero and an error. *)
Definition socklen_read (user_ptr : Z) (r : Z * list Z) : Prop :=
  zlen (snd r) = 4 /\ 0 <= le_val (snd r) < 2 ^ 32 /\
  ((fst r = 0 /\ exists k, snd r = user_bytes k user_ptr 4) \/
   (read_failed user_ptr (fst r) /\ le_val (snd r) = 0)).

Lemma read_socklen_quiet user_ptr : keeps quiet (network_direct_read_socklen user_ptr).
Proof. unfold network_direct_read_socklen. keeps_solve. Qed.

Lemma read_socklen_result user_ptr w :
  wp (network_direct_read_socklen user_ptr) (fun r _ => socklen_read user_ptr r) w.
Proof.
  unfold network_direct_read_socklen. destruct (Z.eqb_spec user_ptr 0); wp_steps.
  { split; [done|]. split; [done|]. right. split; [|done]. cbn. solve_failed. }
  pose proof (probe_read_user_result 4 user_ptr w) as R. unfold wp.
  destruct (bpf_probe_read_user 4 user_ptr w) as [[err value] w1]. cbn [fst snd] in *.
  destruct (R ltac:(lia)) as [Hl Hr]. wp_steps. pose proof (le_val_nonneg value). pose proof (le_val_bound value) as B.
  unfold zlen in Hl. assert (length value = 4%nat) as L by lia. rewrite L in B. cbn in B.
  split; [done|]. split; [cbn; lia|]. cbn. destruct Hr as [[-> ->]|[Hf ->]].
  - left. split; [done|]. by exists (calls w).
  - right. split; [|done]. destruct (Z.ltb_spec err 0); [done|]. destruct Hf. lia.
Qed.

Definition socklen_sections (dir : PayloadDirection) (arg_index user_ptr value : Z) : list PayloadSection -> Prop :=
  unless_null user_ptr (section_with PayloadKindBytes dir arg_index user_ptr (fun ulen data e =>
    ulen = 4 /\ ((e = 0 /\ value = le_val data /\ exists k, data = user_bytes k user_ptr 4) \/
                 (data = [] /\ read_failed user_ptr e)))).

Lemma capture_socklen_ok arg_index tlv_flags user_ptr w d buf off :
  In tlv_flags [0; PAYLOAD_TLV_FLAG_DIRECTION_OUT] ->
  reserved w !! d = Some buf -> 0 <= off -> off + (PAYLOAD_TLV_HEADER_SIZE + 4) <= zlen buf ->
  wp (capture_network_socklen_tlv_direct arg_index tlv_flags user_ptr (Some d) off) (fun '(n, value) w' =>
    0 <= n <= PAYLOAD_TLV_HEADER_SIZE + 4 /\ captures d off w w' /\
    (True -> decodable (socklen_sections (payloadDirectionFromTLV tlv_flags) arg_index user_ptr value) d off n w')) w.
Proof.
  intros Ht Hb Ho Hs. unfold capture_network_socklen_tlv_direct, socklen_sections, unless_null.
  assert (payloadDirectionFromTLV (u16 tlv_flags) = payloadDirectionFromTLV tlv_flags) as Hd
    by (cbn in Ht; by destruct Ht as [<-|[<-|[]]]).
  pose proof (capturing_start d off w buf Hb) as C0.
  destruct (user_ptr =? 0); wp_steps.
  { split_and!; [lia | lia | reflexivity |]. intros _. by eapply decodable_0. }
  pose proof (read_socklen_result user_ptr w) as R. pose proof (read_socklen_quiet user_ptr w) as Qt.
  unfold wp in R. unfold wp at 1. destruct (network_direct_read_socklen user_ptr w) as [[probe value] w1].
  cbn [fst snd] in *. destruct R as (Hl & Hv & Hr). cbn [fst snd] in *.
  pose proof (capturing_quiet _ _ _ _ _ _ _ C0 Qt) as C1. wp_step.
  set (D := fun (ulen : Z) (data : list Z) (e : Z) => ulen = 4 /\
    ((e = 0 /\ le_val value = le_val data /\ exists k, data = user_bytes k user_ptr 4) \/
     (data = [] /\ read_failed user_ptr e))).
  assert (forall w2 b n e, capturing d off (zlen buf) w w2 b -> n = 0 \/ n = 4 -> D 4 (slice b (off + 32) n) e ->
    wp (let* size := finish_section (Some d) off
          (TlvHeader PAYLOAD_TLV_KIND_BYTES arg_index tlv_flags 4 n e user_ptr) in ret (size, le_val value))
      (fun '(n, value) w' => 0 <= n <= 32 + 4 /\ captures d off w w' /\ (True -> decodable (one_section
        (section_with PayloadKindBytes (payloadDirectionFromTLV tlv_flags) arg_index user_ptr (fun ulen data e =>
          ulen = 4 /\ ((e = 0 /\ value = le_val data /\ exists k, data = user_bytes k user_ptr 4) \/
                       (data = [] /\ read_failed user_ptr e))))) d off n w')) w2) as Fin.
  { intros w2 b n e C2 Hn HD. wp_step. eapply wp_mono.
    { eapply (wp_finish_with D); [exact C2 | lia | exact Hs | lia | lia | lia | done | done | exact HD]. }
    intros m w3 (? & ? & ?). by wp_steps. }
  destruct (Z.eqb_spec probe 0) as [->|Hp]; wp_step.
  - destruct Hr as [[_ [k Hk]]|[[? _] _]]; [|lia]. pose proof (cg_size _ _ _ _ _ _ C1) as Hz.
    eapply wp_dynptr_write; [exact C1 | lia | lia | |]; cbn [Z.ltb Z.compare].
    + intros w2 C2. wp_step. eapply Fin; [exact C2 | by right |]. rewrite slice_put_same by lia.
      split; [done|]. left. split; [done|]. split; [done|]. by exists k.
    + intros w2 NF C2. wp_step. eapply wp_copy_fail; [exact C2 | exact NF |]. intros _ w3 C3. wp_step.
      eapply Fin; [exact C3 | by left |]. rewrite slice_0. split; [done|]. right. split; [done | solve_failed].
  - eapply Fin; [exact C1 | by left |]. rewrite slice_0. split; [done|]. right. split; [done|].
    destruct Hr as [[? _]|[? _]]; [lia | done].
Qed.

Lemma capture_socklen_size_ok arg_index tlv_flags user_ptr :
  In tlv_flags [0; PAYLOAD_TLV_FLAG_DIRECTION_OUT] ->
  tlv_capture True (fun secs => exists value,
      socklen_sections (payloadDirectionFromTLV tlv_flags) arg_index user_ptr value secs)
    (PAYLOAD_TLV_HEADER_SIZE + 4) (capture_network_socklen_size arg_index tlv_flags user_ptr).
Proof.
  intros Ht w d buf off Hb Ho Hs. unfold capture_network_socklen_size. wp_step.
  eapply wp_mono; [by eapply capture_socklen_ok|]. intros [n value] w' (? & ? & D). wp_steps.
  split_and!; [lia | lia | done |]. intros G. destruct (D G) as (b & secs & ? & ? & ?). exists b, secs.
  split_and!; [done | done |]. by exists value.
Qed.

(** *** Entries *)

Definition network_sent_sections (sys_id : Z) (args : args6) : Z -> Z -> list PayloadSection -> Prop :=
  let optlen := network_direct_sockopt_payload_len (arg1 args) (arg2 args) (arg4 args) in
  let len2 := Z.min (arg2 args) 0xffffffff in
  let len5 := Z.min (arg5 args) 0xffffffff in
  if one_of sys_id [SYS_SETSOCKOPT]
  then network_sections PayloadKindBytes PayloadDirectionIn 512 3 (arg3 args) optlen optlen
  else if one_of sys_id [SYS_CONNECT; SYS_BIND]
  then network_sections PayloadKindStruct PayloadDirectionIn 128 1 (arg1 args) len2 len2
  else if one_of sys_id [SYS_SENDTO]
  then flags_appended (network_sections PayloadKindBytes PayloadDirectionIn 512 1 (arg1 args) len2 len2)
         (network_sections PayloadKindStruct PayloadDirectionIn 128 4 (arg4 args) len5 len5)
  else unflagged (fun secs => secs = []).

Lemma sockopt_len_range value : 0 <= network_direct_sockopt_len value < 2 ^ 31.
Proof.
  unfold network_direct_sockopt_len. cbv zeta. pose proof (s32_range (u32 value)).
  destruct (Z.leb_spec (s32 (u32 value)) 0); lia.
Qed.

Lemma sockopt_payload_len_range level option value :
  0 <= network_direct_sockopt_payload_len level option value < 2 ^ 32.
Proof.
  unfold network_direct_sockopt_payload_len. cbv zeta. pose proof (sockopt_len_range value).
  destruct (network_direct_sockopt_membership_array _ _).
  - rewrite <- (Z2N.id (network_direct_sockopt_len value)) by lia.
    change 4294967292 with (Z.of_N 4294967292). rewrite <- N2Z.inj_land.
    pose proof (N.land_le_l (Z.to_N (network_direct_sockopt_len value)) 4294967292). lia.
  - destruct (_ && _); lia.
Qed.

Lemma capture_network_sent_ok sys_id args :
  0 <= arg2 args -> 0 <= arg5 args ->
  flags_capture (network_sent_sections sys_id args) NETWORK_DIRECT_SENDTO_ENTER_MAX (capture_network_sent sys_id args).
Proof.
  intros H2 H5. unfold network_sent_sections, capture_network_sent. cbv zeta.
  rewrite !payload_tlv_clamp_u32_min by lia.
  destruct (one_of sys_id [SYS_SETSOCKOPT]).
  { pose proof (sockopt_payload_len_range (arg1 args) (arg2 args) (arg4 args)).
    eapply flags_capture_cap; [apply (capture_network_tlv_ok _ _ _ _ 0); cbn; auto; lia | lia]. }
  destruct (one_of sys_id [SYS_CONNECT; SYS_BIND]).
  { eapply flags_capture_cap; [apply (capture_network_tlv_ok _ _ _ _ 0); cbn; auto; lia | lia]. }
  destruct (one_of sys_id [SYS_SENDTO]); [|apply no_capture_ok; lia].
  apply (flags_both_ok _ _ (32 + 512) (32 + 128)); [..|lia]; apply (capture_network_tlv_ok _ _ _ _ 0); cbn; auto; lia.
Qed.

(** The payload of an entry, and the length it stores for the exit. *)
Definition network_enter_sections (sys_id : Z) (args : args6) (value : Z) : Z -> Z -> list PayloadSection -> Prop :=
  let len_arg := if one_of sys_id [SYS_GETSOCKOPT] then 4 else network_direct_enter_socklen_arg sys_id in
  if len_arg <? 6
  then unflagged (socklen_sections PayloadDirectionIn len_arg (network_direct_arg args len_arg) value)
  else network_sent_sections sys_id args.

Lemma capture_network_enter_ok sys_id args :
  0 <= arg2 args -> 0 <= arg5 args ->
  payload_yields enter_payload_offset NETWORK_DIRECT_SENDTO_ENTER_MAX (fun value =>
      decodes no_fault (flags_from EVENT_FLAG_GENERIC_ENTER)
        (network_enter_sections sys_id args value EVENT_FLAG_GENERIC_ENTER))
    (fun ptr =>
       let* (n, flags, sockaddr_len) :=
         capture_network_enter_payloads_tlv_direct sys_id args EVENT_FLAG_GENERIC_ENTER ptr
           enter_payload_offset in
       ret (tlv_flag flags n, n, sockaddr_len)).
Proof.
  intros H2 H5 w d buf Hb Hs. unfold capture_network_enter_payloads_tlv_direct, network_enter_sections. cbv zeta.
  set (len_arg := if one_of sys_id [SYS_GETSOCKOPT] then 4 else _). wp_step. destruct (len_arg <? 6); wp_step.
  - eapply wp_mono; [eapply (capture_socklen_ok len_arg 0); [by left | exact Hb | lia | lia]|].
    intros [n value] w1 (Hn & C1 & D1). wp_steps. split_and!; [lia | lia | done |].
    eapply captured_payload; [exact Hb | exact C1 | lia | lia | lia | by left |].
    intros G. destruct (D1 I) as (b & secs & ? & ? & ?). exists b, secs. by repeat split.
  - eapply wp_mono; [eapply (capture_network_sent_ok sys_id args H2 H5); [exact Hb | lia | lia]|].
    intros [n fl] w1 (Hn & HF & C1 & D1). wp_steps. split_and!; [lia | lia | done |].
    by eapply captured_payload; [exact Hb | exact C1 | lia | lia | lia | exact HF | exact D1].
Qed.

Lemma emit_network_enter_ok pid tid sys_id args ts :
  0 <= arg2 args -> 0 <= arg5 args ->
  emitter (fun r seq rec => exists value, reads_enter r pid tid sys_id ts args 0 (-1) (-1)
      (decodes no_fault (flags_from EVENT_FLAG_GENERIC_ENTER)
         (network_enter_sections sys_id args value EVENT_FLAG_GENERIC_ENTER)) seq rec)
    (emit_network_enter_event_v2_direct pid tid sys_id args ts).
Proof.
  intros H2 H5 w. unfold emit_network_enter_event_v2_direct. wp_step. eapply wp_mono.
  { apply (enter_emit_returning_ok NETWORK_DIRECT_SENDTO_ENTER_MAX pid tid sys_id ts args 0 (fun _ => -1) (-1)
      (fun value => decodes no_fault (flags_from EVENT_FLAG_GENERIC_ENTER)
         (network_enter_sections sys_id args value EVENT_FLAG_GENERIC_ENTER))); [lia | | |].
    - by apply capture_network_enter_ok.
    - intros value. apply enter_body_ok.
    - intros value flags pl. eapply flags_from_not_compact; [right; by left | by intros]. }
  intros r w' H. by wp_steps.
Qed.

(** *** Exits *)

(** The option, as much as the caller's buffer and the kernel's length allow, then the length.
    [aux0] is the caller's length, saved at the entry; [r] the kernel's, as read. *)
Definition getsockopt_with (p : pending_syscall) (rv aux0 : Z) (r : Z * list Z)
    : Z -> Z -> list PayloadSection -> Prop :=
  let len := Z.min (le_val (snd r)) aux0 in
  flags_appended
    (if (0 <=? rv) && (fst r =? 0) && (0 <? le_val (snd r)) && (0 <? aux0)
     then network_sections PayloadKindBytes PayloadDirectionOut 512 3 (network_direct_pending_arg p 3) len
            (Z.min (network_direct_sockopt_payload_len (arg1 (p_args p)) (arg2 (p_args p)) len) 512)
     else unflagged (fun secs => secs = []))
    (unflagged (fun secs => exists value,
       socklen_sections PayloadDirectionOut 4 (network_direct_pending_arg p 4) value secs)).
Definition getsockopt_sections (p : pending_syscall) (rv base fl : Z) (secs : list PayloadSection) : Prop :=
  exists aux0 r, socklen_read (network_direct_pending_arg p 4) r /\ getsockopt_with p rv aux0 r base fl secs.

Lemma capture_getsockopt_ok p rv :
  flags_capture (getsockopt_sections p rv) ((32 + 512) + (32 + 4))
    (capture_network_getsockopt_exit_tlv_direct p rv).
Proof.
  apply (flags_capture_lookup (lookup_pending_syscall_aux0 (p_tid p)) (fun aux0 base fl secs => exists r,
    socklen_read (network_direct_pending_arg p 4) r /\ getsockopt_with p rv aux0 r base fl secs)); [eauto with keeps|].
  intros aux0. apply (flags_capture_quiet (network_direct_read_socklen (network_direct_pending_arg p 4))
    (socklen_read (network_direct_pending_arg p 4)) (getsockopt_with p rv aux0) _
    (fun r base ptr off => let '(read_ret, value) := r in _)); [apply read_socklen_quiet | apply read_socklen_result |].
  intros [read_ret value] (Hl & Hv & Hr). unfold getsockopt_with. cbn [fst snd] in *. rewrite !network_min.
  apply flags_both_ok; [| by apply same_flags_ok, tlv_capture_healthy, (capture_socklen_size_ok 4 1); right; left | lia].
  destruct ((0 <=? rv) && (read_ret =? 0) && (0 <? le_val value) && (0 <? aux0)) eqn:E; [|apply no_capture_ok; lia].
  rewrite !andb_true_iff in E. pose proof (sockopt_payload_len_range (arg1 (p_args p)) (arg2 (p_args p)) (Z.min (le_val value) aux0)).
  apply (capture_network_tlv_ok _ _ _ _ PAYLOAD_TLV_FLAG_DIRECTION_OUT); cbn; auto; lia.
Qed.

(** The bytes received: as many as the result and the caller's count allow. *)
Definition received_sections (p : pending_syscall) (rv : Z) : Z -> Z -> list PayloadSection -> Prop :=
  let len := Z.min (u64 rv) 0xffffffff in
  if one_of (p_sys_id p) [SYS_RECVFROM] && (0 <? rv)
  then network_sections PayloadKindBytes PayloadDirectionOut 512 1 (arg1 (p_args p)) len
         (Z.min len (u64 (arg2 (p_args p))))
  else unflagged (fun secs => secs = []).

Lemma capture_received_ok p rv :
  flags_capture (received_sections p rv) (32 + 512) (capture_network_received p rv).
Proof.
  unfold received_sections, capture_network_received. cbv zeta.
  destruct (_ && _); [|apply no_capture_ok; lia].
  pose proof (u64_range rv). pose proof (u64_range (arg2 (p_args p))).
  rewrite !payload_tlv_clamp_u32_min by lia.
  replace (if _ <? _ then _ else _) with (Z.min (Z.min (u64 rv) 4294967295) (u64 (arg2 (p_args p))))
    by (destruct (Z.ltb_spec (Z.min (u64 (arg2 (p_args p))) 4294967295) (Z.min (u64 rv) 4294967295)); lia).
  apply (capture_network_tlv_ok _ _ _ _ PAYLOAD_TLV_FLAG_DIRECTION_OUT); cbn; auto; lia.
Qed.

(** The address, no longer than the caller's buffer, then its length. *)
Definition address_with (p : pending_syscall) (aux0 : Z) (r : Z * list Z)
    : Z -> Z -> list PayloadSection -> Prop :=
  let out := le_val (snd r) in
  let len := Z.min (if (0 <? aux0) && (aux0 <? out) then aux0 else out) 128 in
  let addr_arg := network_direct_out_sockaddr_arg (p_sys_id p) in
  let len_arg := network_direct_out_socklen_arg (p_sys_id p) in
  flags_appended
    (if 0 <? len
     then network_sections PayloadKindStruct PayloadDirectionOut 128 addr_arg
            (network_direct_pending_arg p addr_arg) len len
     else unflagged (fun secs => secs = []))
    (unflagged (fun secs => exists value,
       socklen_sections PayloadDirectionOut len_arg (network_direct_pending_arg p len_arg) value secs)).
Definition address_sections (p : pending_syscall) (base fl : Z) (secs : list PayloadSection) : Prop :=
  exists aux0 r, socklen_read
    (network_direct_pending_arg p (network_direct_out_socklen_arg (p_sys_id p))) r /\
    address_with p aux0 r base fl secs.

Lemma capture_address_ok p :
  flags_capture (address_sections p) ((32 + 128) + (32 + 4)) (capture_network_address p).
Proof.
  set (len_ptr := network_direct_pending_arg p (network_direct_out_socklen_arg (p_sys_id p))).
  apply (flags_capture_lookup (lookup_pending_syscall_aux0 (p_tid p)) (fun aux0 base fl secs => exists r,
    socklen_read len_ptr r /\ address_with p aux0 r base fl secs)); [eauto with keeps|].
  intros aux0. apply (flags_capture_quiet (network_direct_read_socklen len_ptr)
    (socklen_read len_ptr) (address_with p aux0) _ (fun r base ptr off => let '(_, value) := r in _));
    [apply read_socklen_quiet | apply read_socklen_result |].
  intros [read_ret value] (Hl & Hv & Hr). unfold address_with. cbn [fst snd] in *. rewrite !network_min.
  apply flags_both_ok; [| by apply same_flags_ok, tlv_capture_healthy, (capture_socklen_size_ok _ 1); right; left | lia].
  set (len := Z.min _ 128). destruct (Z.ltb_spec 0 len); [|apply no_capture_ok; lia].
  assert (len <= 128) by lia.
  apply (capture_network_tlv_ok _ _ _ _ PAYLOAD_TLV_FLAG_DIRECTION_OUT); cbn [In]; auto; lia.
Qed.

(** What a socket call returns. *)
Definition network_exit_sections (p : pending_syscall) (rv : Z) : Z -> Z -> list PayloadSection -> Prop :=
  if is_network_sockopt_direct_syscall (p_sys_id p) then
    if one_of (p_sys_id p) [SYS_GETSOCKOPT] then getsockopt_sections p rv else unflagged (fun secs => secs = [])
  else
    flags_appended (received_sections p rv)
      (if (rv <? 0) || (negb (one_of (p_sys_id p) [SYS_RECVFROM]) &&
                        negb (is_network_accept_like_direct_syscall (p_sys_id p)))
       then unflagged (fun secs => secs = []) else address_sections p).

Lemma capture_network_exit_ok p rv :
  flags_capture (network_exit_sections p rv) NETWORK_DIRECT_RECVFROM_EXIT_MAX
    (capture_network_exit_payloads_tlv_direct p rv).
Proof.
  unfold network_exit_sections, capture_network_exit_payloads_tlv_direct.
  destruct (is_network_sockopt_direct_syscall _).
  - destruct (one_of _ _); [|apply no_capture_ok; lia].
    eapply flags_capture_cap; [apply capture_getsockopt_ok | lia].
  - apply (flags_both_ok _ _ (32 + 512) ((32 + 128) + (32 + 4))); [apply capture_received_ok | | lia].
    destruct (_ || _); [apply no_capture_ok; lia | apply capture_address_ok].
Qed.

Lemma emit_network_exit_ok p rv dur :
  emitter (fun r => reads_pending_exit r p rv dur
      (decodes no_fault (flags_from 0) (network_exit_sections p rv 0)))
    (emit_network_exit_event_v2_direct p rv dur).
Proof. apply (exit_flags_capture_ok _ p rv dur); [lia | apply capture_network_exit_ok]. Qed.

(** The arguments of an entry are [u64] values. *)
Lemma emit_network_enter_emits pid tid sys_id a ts :
  keeps emits (emit_network_enter_event_v2_direct pid tid sys_id (args_u64 a) ts).
Proof. eapply emitter_keeps, emit_network_enter_ok; [apply (args_u64_nonneg _ 2) | apply (args_u64_nonneg _ 5)]. Qed.

Lemma save_pending_network_accounted tid pid sys_id a t s len :
  keeps accounted (save_pending_network_syscall_args tid pid sys_id a t s len).
Proof. unfold save_pending_network_syscall_args. keeps_solve. Qed.
End NetworkLemmas.

#[export] Hint Resolve emit_network_exit_ok : emitters.
#[export] Hint Resolve emit_network_enter_emits save_pending_network_accounted read_socklen_quiet : keeps.
