(* ===== verification/Slots.v ===== *)
(** Captures of vectors.

    The vector families (iovec, message, poll, epoll, aio) copy an array slot
    by slot, stop at the first slot that cannot be read, and follow the pointers
    the slots hold.  This file has one definition for each of these shapes and
    their contracts: what the consumer finds is a prefix of the array, and the
    event is flagged when it is a proper one. *)
From stdpp Require Import base list gmap numbers.
From S2P Require Import Prelude Syscalls Abi Kernel Consumer Stats Tlv Emit Decoder EventCore Payload Structs FdPath Paths Misc Captures.

(** What a loop over a user array finds at an index: the end, a slot to pass over, an item. *)
Inductive slot_item (X : Type) : Type := Stop | Skip | Take (x : X).
Arguments Stop {X}.
Arguments Skip {X}.
Arguments Take {X} x.

Section Slots.
Context {K : Kernel} {A : Arch}.

(** The address of slot [i]. *)
Definition slot_ptr (user_ptr slot_size i : Z) : Z := u64 (user_ptr + i * slot_size).

(** One iteration of [for (u16 i = 0; i < SLOT_MAX; i++)]: the copied length and the probe
    result, which is the error of the first slot only. *)
Definition copy_slot (slot_size target_len user_ptr : Z) (ptr : dynptr) (data_offset : Z)
    (i : Z) (acc : Z * Z) : prog (Z * Z + Z * Z) :=
  let '(copied_len, probe_ret) := acc in
  if target_len <=? i * slot_size then ret (inl acc)
  else
    let* (err, data) := bpf_probe_read_user slot_size (slot_ptr user_ptr slot_size i) in
    if err <? 0 then ret (inl (copied_len, if copied_len =? 0 then err else probe_ret))
    else
      let* err := bpf_dynptr_write ptr (data_offset + copied_len) data in
      if err <? 0 then
        record_ringbuf_copy_fail ;;;
        ret (inl (copied_len, if copied_len =? 0 then err else probe_ret))
      else ret (inr (copied_len + slot_size, probe_ret)).

Definition copy_slots (slot_max : nat) (slot_size target_len user_ptr : Z) (ptr : dynptr)
    (data_offset : Z) : prog (Z * Z) :=
  for_loop slot_max 0 (copy_slot slot_size target_len user_ptr ptr data_offset) (0, 0).

(** The section of an array, without the truncation note. *)
Definition capture_plain_slots (kind arg_index tlv_flags : Z) (slot_max : nat)
    (slot_size user_len target_len user_ptr : Z) (ptr : dynptr) (payload_offset : Z) : prog Z :=
  let* (copied_len, probe_ret) :=
    copy_slots slot_max slot_size target_len user_ptr ptr (payload_offset + PAYLOAD_TLV_HEADER_SIZE) in
  finish_section ptr payload_offset
    (TlvHeader kind arg_index tlv_flags user_len copied_len probe_ret user_ptr).

(** The section of an array; nothing for a null pointer or an empty array. *)
Definition capture_slots (kind arg_index tlv_flags : Z) (slot_max : nat)
    (slot_size user_len target_len user_ptr event_flags : Z) (ptr : dynptr) (payload_offset : Z)
    : prog (Z * Z) :=
  if (user_len =? 0) || (user_ptr =? 0) then ret (0, event_flags)
  else
    let* (copied_len, probe_ret) :=
      copy_slots slot_max slot_size target_len user_ptr ptr (payload_offset + PAYLOAD_TLV_HEADER_SIZE) in
    let* event_flags := note_truncation copied_len probe_ret user_len event_flags in
    let* size := finish_section ptr payload_offset
      (TlvHeader kind arg_index tlv_flags user_len copied_len probe_ret user_ptr) in
    ret (size, event_flags).

(** [n] bytes of a structure, in a slot of [slot] bytes, whose length the caller states as [user_len]. *)
Definition capture_sized_struct (slot n arg_index tlv_flags user_len user_ptr : Z)
    (ptr : dynptr) (payload_offset : Z) : prog Z :=
  let* (copied_len, probe_ret) := copy_user_struct ptr
    (payload_offset + PAYLOAD_TLV_HEADER_SIZE) slot n n user_ptr in
  finish_section ptr payload_offset
    (TlvHeader PAYLOAD_TLV_KIND_STRUCT arg_index tlv_flags user_len copied_len probe_ret user_ptr).

(** A read of [n] bytes into a local buffer, then a write to the record: copied length, probe
    result, and the bytes of the buffer.  [fault] is the result when the write fails. *)
Definition copy_local (fault : Z -> Z) (n user_ptr : Z) (ptr : dynptr) (data_offset : Z)
    : prog (Z * Z * list Z) :=
  let* (err, data) := bpf_probe_read_user n user_ptr in
  if err <? 0 then ret (0, err, data)
  else
    let* err := bpf_dynptr_write ptr data_offset data in
    if err <? 0 then record_ringbuf_copy_fail ;;; ret (0, fault err, data)
    else ret (n, 0, data).

(** The section of a structure read through a local variable: its size, and the variable.
    [strict] when the variable is only kept if its bytes reached the record. *)
Definition capture_local (strict : bool) (fault : Z -> Z) (kind n arg_index tlv_flags user_len user_ptr : Z)
    (ptr : dynptr) (payload_offset : Z) : prog (Z * list Z) :=
  let* (copied_len, probe_ret, data) :=
    copy_local fault n user_ptr ptr (payload_offset + PAYLOAD_TLV_HEADER_SIZE) in
  let* size := finish_section ptr payload_offset
    (TlvHeader kind arg_index tlv_flags user_len copied_len probe_ret user_ptr) in
  ret (size, if strict && negb (probe_ret =? 0) then replicate (Z.to_nat n) 0 else data).

(** The same, then what [next] captures with the variable. *)
Definition capture_local_then (strict : bool) (fault : Z -> Z) (kind n arg_index tlv_flags user_len user_ptr : Z)
    (next : list Z -> dynptr -> Z -> prog Z) (ptr : dynptr) (payload_offset : Z) : prog Z :=
  let* (size, data) := capture_local strict fault kind n arg_index tlv_flags user_len user_ptr ptr payload_offset in
  let* more := next data ptr (payload_offset + size) in
  ret (size + more).

(** [for (u16 i = 0; i < SLOT_MAX; i++) payload_size += capture(ptr, payload_offset +
    payload_size, ...);], with what [next] finds at [i]. *)
Fixpoint capture_each {X} (fuel : nat) (next : Z -> prog (slot_item X))
    (capture : Z -> X -> Z -> dynptr -> Z -> prog (Z * Z)) (i : Z)
    (event_flags : Z) (ptr : dynptr) (off : Z) : prog (Z * Z) :=
  match fuel with
  | O => no_capture event_flags ptr off
  | S fuel =>
      let* item := next i in
      match item with
      | Stop => no_capture
      | Skip => capture_each fuel next capture (i + 1)
      | Take x => flags_both (capture i x) (capture_each fuel next capture (i + 1))
      end event_flags ptr off
  end.

(** An integer member of a user structure read on its own. *)
Definition read_user_member (n addr : Z) : prog (option Z) :=
  let* (err, data) := bpf_probe_read_user n addr in
  ret (if err <? 0 then None else Some (le_val data)).

(** Two of them, the second only if the first could be read. *)
Definition read_user_pair (n1 addr1 n2 addr2 : Z) : prog (option (Z * Z)) :=
  let* a := read_user_member n1 addr1 in
  match a with
  | None => ret None
  | Some a =>
      let* b := read_user_member n2 addr2 in
      ret (match b with None => None | Some b => Some (a, b) end)
  end.

(** An exit event whose header carries the time of the emission. *)
Definition exit_emit_now (cap : Z) (p : pending_syscall) (ret_value duration : Z)
    (payload : dynptr -> prog (Z * Z)) : prog unit :=
  let out_size := EVENT_V2_HEADER_LEN + EVENT_V2_EXIT_BODY_LEN + cap in
  emit_record out_size payload
    (fun sequence flags =>
       let* now := bpf_ktime_get_ns in
       init_syscall_event_v2_header_direct EVENT_TYPE_EXIT flags (p_pid p) (p_tid p) (p_sys_id p) out_size
         now sequence)
    (fun n => let* b := init_syscall_exit_event_v2_from_pending p ret_value duration n in
              ret (struct_bytes (syscall_exit_event_v2_fields b))).
(** A capture of what [read] finds; nothing when it finds nothing. *)
Definition capture_found {X} (read : prog (option X)) (capture : X -> Z -> dynptr -> Z -> prog (Z * Z))
    (event_flags : Z) (ptr : dynptr) (payload_offset : Z) : prog (Z * Z) :=
  let* found := read in
  match found with
  | None => no_capture
  | Some x => capture x
  end event_flags ptr payload_offset.
End Slots.

(** ** Contracts *)

Section SlotLemmas.
Context {K : Kernel} {A : Arch}.

(** *** Arrays *)

(** The slots as they were read, slot [i] at time [nth i ks]. *)
Definition slots_bytes (user_ptr slot_size : Z) (ks : list nat) : list Z :=
  concat (imap (fun i k => user_bytes k (slot_ptr user_ptr slot_size (Z.of_nat i)) slot_size) ks).

(** A prefix of the array of [n] slots; when it is a proper one, the next slot could not be read,
    and when it is empty, [e] says why. *)
Definition slots_copied (user_ptr slot_size n : Z) (data : list Z) (e : Z) : Prop :=
  exists ks, data = slots_bytes user_ptr slot_size ks /\ zlen ks <= n /\ (ks <> [] -> e = 0) /\
    (zlen ks < n -> exists e', read_failed (slot_ptr user_ptr slot_size (zlen ks)) e' /\
                               (ks = [] -> e = e')).

Lemma slots_bytes_snoc user_ptr slot_size ks k :
  slots_bytes user_ptr slot_size (ks ++ [k]) =
  slots_bytes user_ptr slot_size ks ++ user_bytes k (slot_ptr user_ptr slot_size (zlen ks)) slot_size.
Proof.
  unfold slots_bytes, zlen. rewrite imap_app, concat_app. cbn. by rewrite app_nil_r, Nat.add_0_r.
Qed.

Lemma zlen_slots user_ptr slot_size ks :
  0 <= slot_size -> zlen (slots_bytes user_ptr slot_size ks) = zlen ks * slot_size.
Proof.
  intros Hs. induction ks as [|k ks IH] using rev_ind; [done|].
  rewrite slots_bytes_snoc, !zlen_app, IH, zlen_user_bytes by lia. change (zlen [k]) with 1. lia.
Qed.

Lemma wp_copy_slots slot_max slot_size target user_ptr n d off size w0 w buf :
  capturing d off size w0 w buf -> 0 <= off -> 0 < slot_size -> 0 < n <= Z.of_nat slot_max ->
  target = n * slot_size -> off + PAYLOAD_TLV_HEADER_SIZE + target <= size ->
  wp (copy_slots slot_max slot_size target user_ptr (Some d) (off + PAYLOAD_TLV_HEADER_SIZE))
    (fun '(c, e) w' => 0 <= c <= target /\ (0 < c <-> e = 0) /\ exists b, capturing d off size w0 w' b /\
       slots_copied user_ptr slot_size n (slice b (off + PAYLOAD_TLV_HEADER_SIZE) c) e) w.
Proof.
  intros C Ho Hs Hn -> Hz. set (o := off + PAYLOAD_TLV_HEADER_SIZE) in *. unfold copy_slots.
  set (I := fun (i : Z) (acc : Z * Z) w' => i <= n /\ acc = (i * slot_size, 0) /\ exists b ks,
    capturing d off size w0 w' b /\ zlen ks = i /\ slice b o (i * slot_size) = slots_bytes user_ptr slot_size ks).
  assert (forall i w' b ks e, 0 <= i < n -> capturing d off size w0 w' b -> zlen ks = i ->
    slice b o (i * slot_size) = slots_bytes user_ptr slot_size ks ->
    read_failed (slot_ptr user_ptr slot_size i) e ->
    let e' := if i * slot_size =? 0 then e else 0 in
    0 <= i * slot_size <= n * slot_size /\ (0 < i * slot_size <-> e' = 0) /\
    exists b, capturing d off size w0 w' b /\ slots_copied user_ptr slot_size n (slice b o (i * slot_size)) e') as Short.
  { intros i w' b ks e Hi C' Hk HS He. cbv zeta. split; [nia|].
    assert (i * slot_size = 0 <-> i = 0) as H0 by nia. split.
    - destruct (Z.eqb_spec (i * slot_size) 0); destruct He; nia.
    - exists b. split; [done|]. exists ks. split; [done|]. split; [lia|]. split.
      + intros Hne. destruct (Z.eqb_spec (i * slot_size) 0) as [E|]; [|done].
        destruct ks; [done|]. unfold zlen in Hk. cbn in Hk. lia.
      + intros _. exists e. rewrite Hk. split; [done|]. intros ->.
        destruct (Z.eqb_spec (i * slot_size) 0) as [|E]; [done|]. unfold zlen in Hk. cbn in Hk. lia. }
  assert (forall w' b ks, capturing d off size w0 w' b -> zlen ks = n ->
    slice b o (n * slot_size) = slots_bytes user_ptr slot_size ks ->
    0 <= n * slot_size <= n * slot_size /\ (0 < n * slot_size <-> 0 = 0) /\
    exists b, capturing d off size w0 w' b /\ slots_copied user_ptr slot_size n (slice b o (n * slot_size)) 0) as Full.
  { intros w' b ks C' Hk HS. split; [nia|]. split; [split; [done|nia]|]. exists b. split; [done|].
    exists ks. split_and!; [done | lia | done | lia]. }
  eapply (wp_for_loop I) with (bound := Z.of_nat slot_max); [lia | | |].
  - intros i acc w1 Hi (Hin & -> & b & ks & C1 & Hk & HS). unfold copy_slot.
    destruct (Z.leb_spec (n * slot_size) (i * slot_size)).
    { assert (i = n) as -> by nia. wp_step. by eapply Full. }
    assert (i < n) by nia. pose proof (cg_size _ _ _ _ _ _ C1) as Hz1. wp_step.
    pose proof (probe_read_user_result slot_size (slot_ptr user_ptr slot_size i) w1) as Rd.
    pose proof (bpf_probe_read_user_quiet slot_size (slot_ptr user_ptr slot_size i) w1) as Qt.
    unfold wp at 1. destruct (bpf_probe_read_user _ _ w1) as [[err data] w2]. cbn [fst snd] in *.
    destruct (Rd ltac:(lia)) as [Hl Hr]. assert (capturing d off size w0 w2 b) as C2 by (by eapply capturing_quiet).
    destruct (Z.ltb_spec err 0).
    { wp_step. eapply (Short i w2 b ks err); [lia | done | done | done |]. destruct Hr as [[? _]|[? _]]; [lia|done]. }
    destruct Hr as [[-> Hd]|[[? _] _]]; [|lia]. wp_step.
    eapply wp_dynptr_write; [exact C2 | lia | rewrite Hl; nia | |]; intros w3.
    + intros C3. cbn. split; [lia|]. split; [f_equal; lia|].
      exists (put b (o + i * slot_size) data), (ks ++ [calls w1]). split; [done|].
      rewrite zlen_app, Hk. split; [done|]. rewrite slots_bytes_snoc, Hk, <- Hd, <- HS.
      rewrite Z.mul_add_distr_r, Z.mul_1_l.
      rewrite <- (slice_put_before b (o + i * slot_size) data o (i * slot_size)) by nia.
      rewrite slice_app by nia. f_equal. rewrite <- Hl. apply slice_put_same; nia.
    + intros NF C3. cbn. wp_step. eapply wp_copy_fail; [exact C3 | exact NF |]. intros _ w4 C4. cbv beta.
      eapply (Short i w4 b ks); [lia | done | done | done |]. by apply failed_fault.
  - intros acc w1 (Hin & -> & b & ks & C1 & Hk & HS). replace (Z.of_nat slot_max) with n in * by lia. eapply Full; [exact C1 | exact Hk | exact HS].
  - split; [lia|]. split; [done|]. exists buf, []. split; [done|]. split; [done|]. by rewrite slice_0.
Qed.

(** What a slot array leaves, with the event flags [fl]. *)
Definition slots_data (user_ptr slot_size n user_len base fl ulen : Z) (data : list Z) (e : Z) : Prop :=
  ulen = user_len /\ slots_copied user_ptr slot_size n data e /\
  fl = if (0 <? zlen data) && (zlen data <? user_len) then Z.lor base EVENT_FLAG_TRUNCATED else base.
Definition slots_sections (kind : PayloadKind) (dir : PayloadDirection) (arg_index slot_size n user_len user_ptr base fl : Z)
    (secs : list PayloadSection) : Prop :=
  if (user_len =? 0) || (user_ptr =? 0) then fl = base /\ secs = []
  else one_section (section_with kind dir arg_index user_ptr
         (slots_data user_ptr slot_size n user_len base fl)) secs.

Lemma capture_slots_ok kind tlv_kind arg_index tlv_flags slot_max slot_size user_len target n user_ptr cap :
  payloadKindFromTLV (u16 tlv_kind) = Some kind -> In tlv_flags [0; PAYLOAD_TLV_FLAG_DIRECTION_OUT] ->
  0 < slot_size -> target = n * slot_size -> n <= Z.of_nat slot_max -> (user_len = 0 \/ 0 < n) ->
  0 <= user_len < 2 ^ 32 -> PAYLOAD_TLV_HEADER_SIZE + target <= cap -> 0 <= cap < 2 ^ 31 ->
  flags_capture (slots_sections kind (payloadDirectionFromTLV tlv_flags) arg_index slot_size n user_len user_ptr)
    cap (capture_slots tlv_kind arg_index tlv_flags slot_max slot_size user_len target user_ptr).
Proof.
  intros Hk Ht Hs -> Hn Hu Hul Hc Hcap. apply flags_capture_of. intros base w d buf off Hb Ho Hz.
  unfold capture_slots, slots_sections. pose proof (capturing_start d off w buf Hb) as C0.
  destruct ((user_len =? 0) || (user_ptr =? 0)) eqn:E.
  { wp_step. split_and!; [lia | lia | by left | reflexivity |]. intros _. by eapply decodable_0. }
  apply orb_false_iff in E as [E _]. apply Z.eqb_neq in E.
  assert (payloadDirectionFromTLV (u16 tlv_flags) = payloadDirectionFromTLV tlv_flags) as Hd
    by (cbn in Ht; by destruct Ht as [<-|[<-|[]]]).
  wp_step. eapply wp_mono; [eapply (wp_copy_slots _ _ _ _ n); [exact C0 | lia | lia | lia | done | lia]|].
  intros [c e] w1 (Hc1 & He & b & C1 & HD). cbv beta iota.
  pose proof (cg_size _ _ _ _ _ _ C1) as Hz1.
  eapply (wp_finish_flags (slots_data user_ptr slot_size n user_len base)); [exact C1|..]; try done; try lia.
  split; [done|]. split; [exact HD|]. rewrite zlen_slice by lia.
  destruct (Z.eqb_spec e 0), (Z.ltb_spec 0 c); try lia; done.
Qed.

(** The same without the truncation note. *)
Definition plain_slots_section (kind : PayloadKind) (dir : PayloadDirection) (arg_index slot_size n user_len user_ptr : Z)
    : list PayloadSection -> Prop :=
  one_section (section_with kind dir arg_index user_ptr
    (fun ulen data e => ulen = user_len /\ slots_copied user_ptr slot_size n data e)).

Lemma capture_plain_slots_ok kind tlv_kind arg_index tlv_flags slot_max slot_size user_len target n user_ptr cap :
  payloadKindFromTLV (u16 tlv_kind) = Some kind -> In tlv_flags [0; PAYLOAD_TLV_FLAG_DIRECTION_OUT] ->
  0 < slot_size -> target = n * slot_size -> 0 < n <= Z.of_nat slot_max ->
  0 <= user_len < 2 ^ 32 -> PAYLOAD_TLV_HEADER_SIZE + target <= cap -> 0 <= cap < 2 ^ 31 ->
  tlv_capture True (plain_slots_section kind (payloadDirectionFromTLV tlv_flags) arg_index slot_size n user_len user_ptr)
    cap (capture_plain_slots tlv_kind arg_index tlv_flags slot_max slot_size user_len target user_ptr).
Proof.
  intros Hk Ht Hs -> Hn Hul Hc Hcap w d buf off Hb Ho Hz. unfold capture_plain_slots.
  pose proof (capturing_start d off w buf Hb) as C0.
  assert (payloadDirectionFromTLV (u16 tlv_flags) = payloadDirectionFromTLV tlv_flags) as Hd
    by (cbn in Ht; by destruct Ht as [<-|[<-|[]]]).
  wp_step. eapply wp_mono; [eapply (wp_copy_slots _ _ _ _ n); [exact C0 | lia | lia | lia | done | lia]|].
  intros [c e] w1 (Hc1 & He & b & C1 & HD). cbv beta iota. pose proof (cg_size _ _ _ _ _ _ C1) as Hz1.
  eapply (wp_finish_with (fun ulen data e => ulen = user_len /\ slots_copied user_ptr slot_size n data e));
    [exact C1|..]; try done; lia.
Qed.

(** *** Structures of a stated length *)

Definition sized_section (dir : PayloadDirection) (arg_index n user_len user_ptr : Z) : PayloadSection -> Prop :=
  section_with PayloadKindStruct dir arg_index user_ptr (fun ulen data e => ulen = user_len /\ copied user_ptr n data e).

Lemma capture_sized_struct_ok slot n arg_index tlv_flags user_len user_ptr :
  0 <= n <= slot -> slot < 2 ^ 20 -> 0 <= user_len < 2 ^ 32 -> In tlv_flags [0; PAYLOAD_TLV_FLAG_DIRECTION_OUT] ->
  tlv_capture True (one_section (sized_section (payloadDirectionFromTLV tlv_flags) arg_index n user_len user_ptr))
    (PAYLOAD_TLV_HEADER_SIZE + slot) (capture_sized_struct slot n arg_index tlv_flags user_len user_ptr).
Proof.
  intros Hn Hs Hu Ht w d buf off Hb Ho Hz. unfold capture_sized_struct.
  pose proof (capturing_start d off w buf Hb) as C0.
  assert (payloadDirectionFromTLV (u16 tlv_flags) = payloadDirectionFromTLV tlv_flags) as Hd
    by (cbn in Ht; by destruct Ht as [<-|[<-|[]]]).
  wp_step. eapply wp_copy_user_struct; [exact C0 | lia | lia | lia | |]; intros w1 b; cbv beta iota.
  - intros k C1 Hk. pose proof (cg_size _ _ _ _ _ _ C1) as Hz1.
    eapply (wp_finish_with (fun ulen data e => ulen = user_len /\ copied user_ptr n data e));
      [exact C1|..]; try done; try lia. split; [done|]. left. split; [done|]. by exists k.
  - intros e C1 He. pose proof (cg_size _ _ _ _ _ _ C1) as Hz1.
    eapply (wp_finish_with (fun ulen data e => ulen = user_len /\ copied user_ptr n data e));
      [exact C1|..]; try done; try lia. split; [done|]. rewrite slice_0. by right.
Qed.

(** *** Local buffers *)

Lemma wp_copy_local fault n user_ptr d off size w0 w buf o (Q : Z * Z * list Z -> world -> Prop) :
  capturing d off size w0 w buf -> 0 <= off <= o -> 0 <= n -> o + n <= size -> fault (-7) < 0 ->
  (forall w' data, zlen data = n -> data = user_bytes (calls w) user_ptr n ->
     capturing d off size w0 w' (put buf o data) -> Q (n, 0, data) w') ->
  (forall w' e data, zlen data = n -> read_failed user_ptr e ->
     (data = user_bytes (calls w) user_ptr n /\ ~ no_fault \/ data = replicate (Z.to_nat n) 0) ->
     capturing d off size w0 w' buf -> Q (0, e, data) w') ->
  wp (copy_local fault n user_ptr (Some d) o) Q w.
Proof.
  intros C Ho Hn Hz Hf H1 H2. unfold copy_local. wp_step.
  pose proof (probe_read_user_result n user_ptr w) as Rd. pose proof (bpf_probe_read_user_quiet n user_ptr w) as Qt.
  unfold wp at 1. destruct (bpf_probe_read_user n user_ptr w) as [[err data] w1]. cbn [fst snd] in *.
  destruct (Rd Hn) as [Hl Hr]. assert (capturing d off size w0 w1 buf) as C1 by (by eapply capturing_quiet).
  destruct (Z.ltb_spec err 0).
  - wp_step. destruct Hr as [[? _]|[He Hd]]; [lia|]. eapply H2; [done | done | by right | done].
  - destruct Hr as [[-> Hd]|[[? _] _]]; [|lia]. wp_step.
    eapply wp_dynptr_write; [exact C1 | lia | lia | |]; intros w2.
    + intros C2. cbn. wp_step. by eapply H1.
    + intros NF C2. cbn. wp_step. eapply wp_copy_fail; [exact C2 | exact NF |]. intros _ w3 C3. wp_step.
      eapply H2; [done | by apply failed_fault | by left | done].
Qed.

(** The section of a variable that holds [local]: zeros when it could not be read. *)
Definition local_data (n user_len user_ptr : Z) (local : list Z) (ulen : Z) (data : list Z) (e : Z) : Prop :=
  ulen = user_len /\
  ((e = 0 /\ data = local /\ exists k, local = user_bytes k user_ptr n) \/
   (data = [] /\ read_failed user_ptr e /\ (local = replicate (Z.to_nat n) 0 \/ ~ no_fault))).
Definition local_section (kind : PayloadKind) (dir : PayloadDirection) (arg_index n user_len user_ptr : Z)
    (local : list Z) : PayloadSection -> Prop :=
  section_with kind dir arg_index user_ptr (local_data n user_len user_ptr local).
Definition local_then_sections (kind : PayloadKind) (dir : PayloadDirection) (arg_index n user_len user_ptr : Z)
    (P : list Z -> list PayloadSection -> Prop) (secs : list PayloadSection) : Prop :=
  exists local, zlen local = n /\
    appended (one_section (local_section kind dir arg_index n user_len user_ptr local)) (P local) secs.

Lemma wp_capture_local strict fault kind tlv_kind n arg_index tlv_flags user_len user_ptr w d buf off :
  payloadKindFromTLV (u16 tlv_kind) = Some kind -> In tlv_flags [0; PAYLOAD_TLV_FLAG_DIRECTION_OUT] ->
  0 <= n < 2 ^ 20 -> 0 <= user_len < 2 ^ 32 -> fault (-7) < 0 ->
  reserved w !! d = Some buf -> 0 <= off -> off + (PAYLOAD_TLV_HEADER_SIZE + n) <= zlen buf ->
  wp (capture_local strict fault tlv_kind n arg_index tlv_flags user_len user_ptr (Some d) off) (fun '(m, local) w' =>
    0 <= m <= PAYLOAD_TLV_HEADER_SIZE + n /\ zlen local = n /\ captures d off w w' /\
    (True -> decodable (one_section (local_section kind (payloadDirectionFromTLV tlv_flags) arg_index n
       user_len user_ptr local)) d off m w')) w.
Proof.
  intros Hk Ht Hn Hu Hf Hb Ho Hz. unfold capture_local. pose proof (capturing_start d off w buf Hb) as C0.
  assert (payloadDirectionFromTLV (u16 tlv_flags) = payloadDirectionFromTLV tlv_flags) as Hd
    by (cbn in Ht; by destruct Ht as [<-|[<-|[]]]).
  assert (forall w' b m e local, capturing d off (zlen buf) w w' b -> 0 <= m <= n -> zlen local = n ->
    local_data n user_len user_ptr local user_len (slice b (off + PAYLOAD_TLV_HEADER_SIZE) m) e ->
    wp (let* size := finish_section (Some d) off (TlvHeader tlv_kind arg_index tlv_flags user_len m e user_ptr) in
        ret (size, if strict && negb (e =? 0) then replicate (Z.to_nat n) 0 else local)) (fun '(m, local) w' =>
      0 <= m <= PAYLOAD_TLV_HEADER_SIZE + n /\ zlen local = n /\ captures d off w w' /\
      (True -> decodable (one_section (local_section kind (payloadDirectionFromTLV tlv_flags) arg_index n
         user_len user_ptr local)) d off m w')) w') as Fin.
  { intros w' b m e local C' Hm Hl HD. wp_step.
    set (kept := if strict && negb (e =? 0) then replicate (Z.to_nat n) 0 else local).
    assert (local_data n user_len user_ptr kept user_len (slice b (off + PAYLOAD_TLV_HEADER_SIZE) m) e /\ zlen kept = n)
      as [HD' Hl'].
    { subst kept. destruct (strict && negb (e =? 0)) eqn:E; [|done]. apply andb_true_iff in E as [_ E].
      split; [|unfold zlen; rewrite length_replicate; lia]. destruct HD as [? [[-> _]|(? & ? & _)]]; [done|].
      split; [done|]. right. auto. }
    eapply wp_mono.
    - eapply (wp_finish_with (local_data n user_len user_ptr kept)) with (cap := PAYLOAD_TLV_HEADER_SIZE + n);
        [exact C'|..]; try done; lia.
    - intros m' w2 (? & ? & ?). by wp_steps. }
  wp_step. eapply wp_copy_local; [exact C0 | lia | lia | lia | exact Hf | |]; intros w1; cbv beta iota.
  - intros data Hl Hd1 C1. eapply Fin; [exact C1 | lia | done |]. split; [done|]. left. split; [done|].
    split; [rewrite <- Hl; apply slice_put_same; lia | by eexists].
  - intros e data Hl He Hd1 C1. eapply Fin; [exact C1 | lia | done |]. split; [done|]. right.
    split; [by rewrite slice_0|]. split; [done|]. destruct Hd1 as [[_ ?]|?]; auto.
Qed.

Lemma capture_local_then_ok guard strict fault kind tlv_kind n arg_index tlv_flags user_len user_ptr P cap next :
  payloadKindFromTLV (u16 tlv_kind) = Some kind -> In tlv_flags [0; PAYLOAD_TLV_FLAG_DIRECTION_OUT] ->
  0 <= n < 2 ^ 20 -> 0 <= user_len < 2 ^ 32 -> fault (-7) < 0 -> 0 <= cap ->
  (forall local, zlen local = n -> tlv_capture guard (P local) cap (next local)) ->
  tlv_capture guard
    (local_then_sections kind (payloadDirectionFromTLV tlv_flags) arg_index n user_len user_ptr P)
    (PAYLOAD_TLV_HEADER_SIZE + n + cap)
    (capture_local_then strict fault tlv_kind n arg_index tlv_flags user_len user_ptr next).
Proof.
  intros Hk Ht Hn Hu Hf Hc Hg w d buf off Hb Ho Hz. unfold capture_local_then. wp_step.
  eapply wp_mono; [eapply (wp_capture_local strict fault kind); try eassumption; lia|].
  intros [m local] w1 (Hm & Hl & C1 & D1). cbv beta iota. wp_step. eapply wp_mono.
  { eapply (wp_capture_after guard _ (P local)); [exact Hb | lia | | | exact C1 | intros _; by apply D1 | by apply Hg]; lia. }
  intros m' w2 (? & ? & D2). wp_steps. split_and!; [lia | lia | done |].
  intros G. destruct (D2 G) as (b & secs & ? & ? & ?). exists b, secs. split_and!; [done | done |]. by exists local.
Qed.

(** *** Loops over the slots *)

(** What the consumer finds of a loop: the sections of the items up to the end, the event flags
    threaded through. *)
Fixpoint each_sections {X} (Q : Z -> slot_item X -> Prop) (P : Z -> X -> Z -> Z -> list PayloadSection -> Prop)
    (fuel : nat) (i base fl : Z) (secs : list PayloadSection) : Prop :=
  match fuel with
  | O => unflagged (fun secs => secs = []) base fl secs
  | S fuel =>
      exists item, Q i item /\
      match item with
      | Stop => unflagged (fun secs => secs = [])
      | Skip => each_sections Q P fuel (i + 1)
      | Take x => flags_appended (P i x) (each_sections Q P fuel (i + 1))
      end base fl secs
  end.

Lemma capture_each_ok {X} (next : Z -> prog (slot_item X)) capture Q P cap :
  0 <= cap -> (forall i, keeps quiet (next i)) -> (forall i w, wp (next i) (fun item _ => Q i item) w) ->
  (forall i x, Q i (Take x) -> flags_capture (P i x) cap (capture i x)) ->
  forall fuel i, flags_capture (each_sections Q P fuel i) (Z.of_nat fuel * cap) (capture_each fuel next capture i).
Proof.
  intros Hc Hq HQ HP fuel. induction fuel as [|fuel IH]; intros i.
  { apply (no_capture_ok 0). lia. }
  apply (flags_capture_quiet (next i) (Q i) (fun item => match item with
      | Stop => unflagged (fun secs => secs = [])
      | Skip => each_sections Q P fuel (i + 1)
      | Take x => flags_appended (P i x) (each_sections Q P fuel (i + 1)) end) _
    (fun item => match item with
      | Stop => no_capture
      | Skip => capture_each fuel next capture (i + 1)
      | Take x => flags_both (capture i x) (capture_each fuel next capture (i + 1)) end)); [auto | auto |].
  intros [| |x] Hx.
  - apply no_capture_ok. lia.
  - eapply flags_capture_cap; [apply IH | lia].
  - eapply flags_capture_cap; [apply flags_both_ok; [by apply HP | apply IH | lia] | lia].
Qed.

(** *** Members *)

Definition member_read (n addr v : Z) : Prop := exists k, v = le_val (user_bytes k addr n).

Lemma read_user_member_quiet n addr : keeps quiet (read_user_member n addr).
Proof. unfold read_user_member. keeps_solve. Qed.
(** A member as it was read, or the reason why not. *)
Definition member_result (n addr : Z) (r : option Z) : Prop :=
  match r with Some v => member_read n addr v | None => exists e, read_failed addr e end.
Definition pair_result (n1 addr1 n2 addr2 : Z) (r : option (Z * Z)) : Prop :=
  match r with
  | Some (a, b) => member_read n1 addr1 a /\ member_read n2 addr2 b
  | None => member_result n1 addr1 None \/ member_result n2 addr2 None
  end.

Lemma read_user_member_result n addr w :
  0 <= n -> wp (read_user_member n addr) (fun r _ => member_result n addr r) w.
Proof.
  intros Hn. unfold read_user_member. wp_step. pose proof (probe_read_user_result n addr w) as Rd.
  unfold wp at 1. destruct (bpf_probe_read_user n addr w) as [[err data] w1]. cbn [fst snd] in *.
  destruct (Rd Hn) as [_ Hr]. destruct (Z.ltb_spec err 0); wp_step; cbn.
  - destruct Hr as [[? _]|[? _]]; [lia|]. by exists err.
  - destruct Hr as [[_ ->]|[[? _] _]]; [|lia]. by exists (calls w).
Qed.
Lemma member_read_bound n addr v : 0 <= n -> member_read n addr v -> 0 <= v < 2 ^ (8 * n).
Proof.
  intros Hn [k ->]. pose proof (le_val_bound (user_bytes k addr n)) as B.
  pose proof (zlen_user_bytes k addr n Hn) as L. unfold zlen in L. rewrite L in B.
  pose proof (le_val_nonneg (user_bytes k addr n)). lia.
Qed.
Hint Resolve read_user_member_quiet : keeps.
Lemma read_user_pair_quiet n1 a1 n2 a2 : keeps quiet (read_user_pair n1 a1 n2 a2).
Proof. unfold read_user_pair. keeps_solve. Qed.
Lemma read_user_pair_result n1 a1 n2 a2 w :
  0 <= n1 -> 0 <= n2 -> wp (read_user_pair n1 a1 n2 a2) (fun r _ => pair_result n1 a1 n2 a2 r) w.
Proof.
  intros H1 H2. unfold read_user_pair. wp_step.
  eapply wp_mono; [by apply read_user_member_result|]. intros [x|] w1 Hx; [|wp_step; by left].
  wp_step. eapply wp_mono; [by apply read_user_member_result|]. intros [y|] w2 Hy; wp_step; [done | by right].
Qed.

(** *** Exit records stamped when they are emitted *)

Definition reads_exit_now (r : exec_ctx) (p : pending_syscall) (rv dur : Z)
    (Pf : Z -> list Z -> Prop) (seq : Z) (rec : list Z) : Prop :=
  exists now, reads_exit r (p_pid p) (p_tid p) (p_sys_id p) now (p_args p) rv dur (p_stack_id p) 0 Pf seq rec.

Lemma exit_emit_now_ok cap p rv dur Pf payload :
  0 <= cap < 2 ^ 31 -> payload_ok exit_payload_offset cap Pf payload ->
  emitter (fun r => reads_exit_now r p rv dur Pf) (exit_emit_now cap p rv dur payload).
Proof.
  intros Hc Hp w. set (size := EVENT_V2_HEADER_LEN + EVENT_V2_EXIT_BODY_LEN + cap).
  set (Ph := fun now => built_header (running w) EVENT_TYPE_EXIT size (p_pid p) (p_tid p) (p_sys_id p) now).
  assert (forall seq rec, well_formed size EVENT_V2_EXIT_BODY_LEN cap Pf
      (fun seq fl h => exists now, Ph now seq fl h)
      (built_exit (p_args p) rv dur (p_stack_id p) 0) seq rec -> reads_exit_now (running w) p rv dur Pf seq rec) as Rd.
  { intros seq rec [Hl (fl & n & h & Hh & [now HPh] & HPb & Hn & HPf)]. exists now.
    eapply (committed_exit _ size cap); [subst size; lia | subst size; lia |].
    split; [exact Hl|]. exists fl, n, h. exact (conj Hh (conj HPh (conj HPb (conj Hn HPf)))). }
  eapply wp_mono.
  { apply (emit_record_wp) with (cap := cap) (body_len := EVENT_V2_EXIT_BODY_LEN) (Pf := Pf)
      (Ph := fun seq fl h => exists now, Ph now seq fl h)
      (Pb := built_exit (p_args p) rv dur (p_stack_id p) 0); [lia | lia | subst size; lia | exact Hp | | apply pending_body_ok |].
    - intros seq fl w1 Hw1. wp_step. eapply keeps_wp; [apply bpf_ktime_get_ns_quiet|]. intros now w2 Q2.
      eapply wp_mono; [apply (init_header_ok (running w)); destruct Q2 as [[[-> _ _ _] _ _] _]; exact Hw1|].
      intros h w3 [Q3 H3]. split; [by etrans|]. by exists now.
    - intros seq rec Hw. destruct (Rd seq rec Hw) as [now Hr]. by eapply reads_exit_number. }
  intros _ w' [E O]. split; [done|]. eapply outcome_mono; [|exact O]. intros seq rec Hw. by apply Rd.
Qed.
(** *** Captures that need more room than they fill *)

(** [f] needs [room] bytes of the record and leaves at most [cap] of them. *)
Definition flags_capture_room (P : Z -> Z -> list PayloadSection -> Prop) (room cap : Z)
    (f : Z -> dynptr -> Z -> prog (Z * Z)) : Prop :=
  forall base w d buf off, reserved w !! d = Some buf -> 0 <= off -> off + room <= zlen buf ->
  wp (f base (Some d) off) (fun '(n, fl) w' => 0 <= n <= cap /\ flags_from base fl /\ captures d off w w' /\
    (no_fault -> decodable (P base fl) d off n w')) w.

Lemma room_capture P cap f : flags_capture_room P cap cap f -> flags_capture P cap f.
Proof. intros H base w d buf off. apply H. Qed.

Lemma capture_room P room cap f : flags_capture P cap f -> cap <= room -> flags_capture_room P room cap f.
Proof. intros H Hc base w d buf off Hb Ho Hs. eapply H; [exact Hb | lia | lia]. Qed.

Lemma room_weaken P room cap room' cap' f :
  flags_capture_room P room cap f -> room <= room' -> cap <= cap' -> flags_capture_room P room' cap' f.
Proof.
  intros H Hr Hc base w d buf off Hb Ho Hs. eapply wp_mono; [eapply H; [exact Hb | lia | lia]|].
  intros [n fl] w' (? & ? & ? & ?). by split_and!; [lia | lia | ..].
Qed.

Lemma flags_both_room P1 P2 cap1 cap2 f g :
  flags_capture_room P1 (cap1 + cap2) cap1 f -> flags_capture P2 cap2 g -> 0 <= cap2 ->
  flags_capture (flags_appended P1 P2) (cap1 + cap2) (flags_both f g).
Proof.
  intros Hf Hg Hc base w d buf off Hb Ho Hs. unfold flags_both. wp_step.
  eapply wp_mono; [eapply Hf; [exact Hb | lia | lia]|]. intros [n mid] w1 (Hn & F1 & C1 & D1). cbv beta iota.
  wp_step. eapply wp_mono.
  { eapply (wp_flags_after no_fault (P1 base mid) (P2 mid)); [exact Hb | lia | lia | | exact C1 | exact D1 | apply Hg]. lia. }
  intros [m fl] w2 (Hm & F2 & C2 & D2). wp_steps.
  split_and!; [lia | lia | by eapply flags_from_trans | done |].
  intros G. destruct (D2 G) as (b & secs & ? & ? & ?). exists b, secs. split_and!; [done | done |]. by exists mid.
Qed.

(** What a lookup that may fail leads to. *)
Definition found_sections {X} (Q : X -> Prop) (P : X -> Z -> Z -> list PayloadSection -> Prop)
    (base fl : Z) (secs : list PayloadSection) : Prop :=
  (exists x, Q x /\ P x base fl secs) \/ unflagged (fun secs => secs = []) base fl secs.

(** What a reader found satisfies [Q]. *)
Definition reader {X} (Q : X -> Prop) (read : prog (option X)) : Prop :=
  keeps quiet read /\ forall w, wp read (fun o _ => forall x, o = Some x -> Q x) w.

Lemma capture_found_room {X} (read : prog (option X)) Q P room cap capture :
  reader Q read -> 0 <= cap <= room -> (forall x, Q x -> flags_capture_room (P x) room cap (capture x)) ->
  flags_capture_room (found_sections Q P) room cap (capture_found read capture).
Proof.
  intros [Hm HQ] Hc Hf base w d buf off Hb Ho Hs. unfold capture_found. wp_step.
  specialize (Hm w). specialize (HQ w). unfold wp in HQ. unfold wp at 1. destruct (read w) as [o w1]. cbn [fst snd] in *.
  pose proof (capturing_quiet _ _ _ _ _ _ _ (capturing_start d off w buf Hb) Hm) as C1.
  destruct o as [x|].
  - eapply wp_mono; [eapply (Hf x (HQ x eq_refl) base w1 d buf off); [apply C1 | lia | lia]|].
    intros [n fl] w2 (? & ? & C2 & D2). split_and!; [lia | lia | done | etrans; [apply C1 | exact C2] |].
    intros G. destruct (D2 G) as (b & secs & ? & ? & ?). exists b, secs. split_and!; [done | done |].
    left. exists x. auto.
  - unfold no_capture. wp_step. split_and!; [lia | lia | by left | apply C1 |]. intros _.
    eapply decodable_0; [exact C1|]. by right.
Qed.

Lemma capture_found_ok {X} (read : prog (option X)) Q P cap capture :
  reader Q read -> 0 <= cap -> (forall x, Q x -> flags_capture (P x) cap (capture x)) ->
  flags_capture (found_sections Q P) cap (capture_found read capture).
Proof.
  intros HR Hc Hf. apply room_capture, capture_found_room; [done | lia |].
  intros x Hx. apply capture_room; [by apply Hf | lia].
Qed.

(** *** Readers *)

Lemma reader_bind {X Y} (Q : X -> Prop) (Q' : Y -> Prop) (m : prog (option X)) (k : X -> prog (option Y)) :
  reader Q m -> (forall x, Q x -> reader Q' (k x)) ->
  reader Q' (bind m (fun o => match o with None => ret None | Some x => k x end)).
Proof.
  intros [Hm HQ] Hk. assert (forall w, wp m (fun o w' => quiet w w' /\ forall x, o = Some x -> Q x) w) as Hw.
  { intros w. specialize (Hm w). specialize (HQ w). by split. }
  split.
  - intros w. unfold bind. specialize (Hw w) as [Hq HQw]. destruct (m w) as [[x|] w1]; cbn [fst snd] in *; [|done].
    etrans; [exact Hq|]. apply (Hk x); auto.
  - intros w. wp_step. eapply wp_mono; [apply Hw|]. intros [x|] w1 [_ Hx]; [|by wp_step].
    apply (Hk x); auto.
Qed.

Lemma reader_quiet {X Y} (Q : Y -> Prop) (m : prog X) (k : X -> prog (option Y)) :
  keeps quiet m -> (forall x, reader Q (k x)) -> reader Q (bind m k).
Proof.
  intros Hm Hk. split.
  - intros w. unfold bind. specialize (Hm w). destruct (m w) as [x w1]; cbn [fst snd] in *.
    etrans; [exact Hm|]. apply (Hk x).
  - intros w. wp_step. eapply keeps_wp; [exact Hm|]. intros x w1 _. apply (Hk x).
Qed.

Lemma reader_ret {X} (Q : X -> Prop) o : (forall x, o = Some x -> Q x) -> reader Q (ret o).
Proof. intros H. split; [intros w; done|]. intros w. by wp_step. Qed.
Lemma reader_some {X} (Q : X -> Prop) x : Q x -> reader Q (ret (Some x)).
Proof. intros H. apply reader_ret. by intros ? [= <-]. Qed.
Lemma reader_none {X} (Q : X -> Prop) : reader Q (ret None).
Proof. by apply reader_ret. Qed.

(** A quiet step whose result has a property. *)
Lemma reader_known {X Y} (Q : Y -> Prop) (R : X -> Prop) (m : prog X) (k : X -> prog (option Y)) :
  keeps quiet m -> (forall w, wp m (fun x _ => R x) w) -> (forall x, R x -> reader Q (k x)) -> reader Q (bind m k).
Proof.
  intros Hm HR Hk. split.
  - intros w. unfold bind. specialize (Hm w). specialize (HR w). unfold wp in HR.
    destruct (m w) as [x w1]; cbn [fst snd] in *. etrans; [exact Hm|]. by apply (Hk x).
  - intros w. wp_step. eapply wp_mono; [apply HR|]. intros x w1 Hx. by apply (Hk x).
Qed.
End SlotLemmas.

#[export] Hint Resolve read_user_member_quiet read_user_pair_quiet : keeps.
