(* ===== verification/Iovec.v ===== *)
(** Vectors of buffers.

    Models [bpf/syscall_iovec_direct_event_v2.h],
    [bpf/syscall_iovec_capture_direct_event_v2.h] and
    [bpf/syscall_iovec_base_exit_direct_event_v2.h]: the array of [struct iovec],
    and the first bytes of the buffers its entries point to. *)
From stdpp Require Import base list gmap numbers.
From S2P Require Import Prelude Syscalls Abi Kernel Consumer Stats Tlv Emit Decoder EventCore Payload Structs FdPath Paths Misc Captures Slots.

Abbreviation IOVEC_DIRECT_ELEM_SIZE := 16 (only parsing).
Abbreviation IOVEC_DIRECT_BYTES_MAX := 256 (only parsing).
Abbreviation IOVEC_DIRECT_SLOT_MAX := 16 (only parsing).
Abbreviation IOVEC_BASE_PAYLOAD_SLOT_MAX := 7 (only parsing).
Abbreviation IOVEC_BASE_PAYLOAD_BYTES_MAX := 7 (only parsing).
Abbreviation IOVEC_BASE_PAYLOAD_ARG1_BASE := 120 (only parsing).
Abbreviation IOVEC_BASE_PAYLOAD_ARG3_BASE := 140 (only parsing).
Abbreviation IOVEC_BASE_PAYLOAD_ARG151_BASE := 160 (only parsing).
Abbreviation IOVEC_BASE_PAYLOAD_ARG181_BASE := 180 (only parsing).
Abbreviation IOVEC_BASE_PAYLOAD_ARG211_BASE := 200 (only parsing).
Abbreviation IOVEC_BASE_PAYLOAD_CAPACITY :=
  (IOVEC_BASE_PAYLOAD_SLOT_MAX * (PAYLOAD_TLV_HEADER_SIZE + IOVEC_BASE_PAYLOAD_BYTES_MAX)) (only parsing).
Abbreviation IOVEC_BASE_EXIT_PAYLOAD_SLOT_MAX := 5 (only parsing).
Abbreviation IOVEC_BASE_EXIT_PAYLOAD_BYTES_MAX := 8 (only parsing).
Abbreviation IOVEC_BASE_EXIT_PAYLOAD_CAPACITY :=
  (IOVEC_BASE_EXIT_PAYLOAD_SLOT_MAX * (PAYLOAD_TLV_HEADER_SIZE + IOVEC_BASE_EXIT_PAYLOAD_BYTES_MAX)) (only parsing).

Section Iovec.
Context {K : Kernel} {A : Arch}.

Definition is_process_vm_iovec_direct_syscall (sys_id : Z) : bool :=
  one_of sys_id [SYS_PROCESS_VM_READV; SYS_PROCESS_VM_WRITEV].
Definition is_iovec_direct_syscall (sys_id : Z) : bool :=
  one_of sys_id [SYS_READV; SYS_WRITEV; SYS_PREADV; SYS_PWRITEV; SYS_PREADV2; SYS_PWRITEV2; SYS_VMSPLICE] ||
  is_process_vm_iovec_direct_syscall sys_id || one_of sys_id [SYS_PROCESS_MADVISE].
Definition is_iovec_base_enter_direct_syscall (sys_id : Z) : bool :=
  one_of sys_id [SYS_WRITEV; SYS_PWRITEV; SYS_PWRITEV2; SYS_VMSPLICE; SYS_PROCESS_VM_WRITEV].
Definition is_iovec_base_exit_direct_syscall (sys_id : Z) : bool :=
  one_of sys_id [SYS_READV; SYS_PREADV; SYS_PREADV2; SYS_PROCESS_VM_READV].

(** ** Lengths and names *)

Definition iovec_direct_user_len (count : Z) : Z :=
  if 0xfffffff <? count then 0xffffffff else u32 (u32 count * IOVEC_DIRECT_ELEM_SIZE).
Definition iovec_direct_copy_len (count : Z) : Z :=
  if IOVEC_DIRECT_SLOT_MAX <? count then IOVEC_DIRECT_BYTES_MAX
  else u32 (u32 count * IOVEC_DIRECT_ELEM_SIZE).
Definition iovec_base_payload_copy_len (len : Z) : Z :=
  if IOVEC_BASE_PAYLOAD_BYTES_MAX <? len then IOVEC_BASE_PAYLOAD_BYTES_MAX else u32 len.
Definition iovec_base_exit_payload_copy_len (len : Z) : Z :=
  if IOVEC_BASE_EXIT_PAYLOAD_BYTES_MAX <? len then IOVEC_BASE_EXIT_PAYLOAD_BYTES_MAX else u32 len.

Definition iovec_base_payload_arg_index (iovec_arg_index slot : Z) : Z :=
  if iovec_arg_index =? 3 then u16 (IOVEC_BASE_PAYLOAD_ARG3_BASE + slot)
  else if iovec_arg_index =? 151 then u16 (IOVEC_BASE_PAYLOAD_ARG151_BASE + slot)
  else if iovec_arg_index =? 181 then u16 (IOVEC_BASE_PAYLOAD_ARG181_BASE + slot)
  else if iovec_arg_index =? 211 then u16 (IOVEC_BASE_PAYLOAD_ARG211_BASE + slot)
  else u16 (IOVEC_BASE_PAYLOAD_ARG1_BASE + slot).

(** ** The array *)

Definition capture_iovec_tlv_direct (arg_index user_ptr count : Z) : Z -> dynptr -> Z -> prog (Z * Z) :=
  capture_slots PAYLOAD_TLV_KIND_IOVEC arg_index 0 (Z.to_nat IOVEC_DIRECT_SLOT_MAX) IOVEC_DIRECT_ELEM_SIZE
    (iovec_direct_user_len count) (iovec_direct_copy_len count) user_ptr.

(** ** The buffers on entry *)

(** The unrolled [if (copied_len == k) return f(..., k, ...);] of the read and the write below. *)
Definition iovec_base_payload_size (copied_len : Z) : Z :=
  if existsb (Z.eqb copied_len) [1; 2; 3; 4; 5; 6; 7] then copied_len else IOVEC_BASE_PAYLOAD_BYTES_MAX.
Definition probe_read_iovec_base_payload (copied_len user_ptr : Z) : prog (Z * list Z) :=
  bpf_probe_read_user (iovec_base_payload_size copied_len) user_ptr.
Definition dynptr_write_iovec_base_payload (ptr : dynptr) (offset : Z) (payload_data : list Z)
    (copied_len : Z) : prog Z :=
  bpf_dynptr_write ptr offset (take (Z.to_nat (iovec_base_payload_size copied_len)) payload_data).

(** The copied length and the probe result. *)
Definition copy_iovec_base (ptr : dynptr) (data_offset copied_len user_ptr : Z) : prog (Z * Z) :=
  let* (err, payload_data) := probe_read_iovec_base_payload copied_len user_ptr in
  if err <? 0 then ret (0, err)
  else
    let* err := dynptr_write_iovec_base_payload ptr data_offset payload_data copied_len in
    if err <? 0 then record_ringbuf_copy_fail ;;; ret (0, err) else ret (copied_len, 0).

(** The tail of both buffer captures: the note, and a header with the length cast to [u32]. *)
Definition finish_iovec_base (tlv_flags arg_index user_ptr user_len copied_len probe_ret event_flags : Z)
    (ptr : dynptr) (payload_offset : Z) : prog (Z * Z) :=
  let* event_flags := note_truncation copied_len probe_ret user_len event_flags in
  let* size := finish_section ptr payload_offset
    (TlvHeader PAYLOAD_TLV_KIND_BYTES arg_index tlv_flags (u32 user_len) copied_len probe_ret user_ptr) in
  ret (size, event_flags).

Definition capture_iovec_base_tlv_direct (payload_arg_index tlv_flags user_ptr user_len event_flags : Z)
    (ptr : dynptr) (payload_offset : Z) : prog (Z * Z) :=
  if (user_ptr =? 0) || (user_len =? 0) then ret (0, event_flags)
  else
    let* (copied_len, probe_ret) :=
      copy_iovec_base ptr (payload_offset + PAYLOAD_TLV_HEADER_SIZE) (iovec_base_payload_copy_len user_len)
        user_ptr in
    finish_iovec_base tlv_flags payload_arg_index user_ptr user_len copied_len probe_ret event_flags ptr
      payload_offset.

(** [iov_base] and [iov_len] of entry [i]. *)
Definition next_iovec (iovec_ptr count i : Z) : prog (slot_item (Z * Z)) :=
  if count <=? i then ret Stop
  else
    let slot := slot_ptr iovec_ptr IOVEC_DIRECT_ELEM_SIZE i in
    let* entry := read_user_pair 8 slot 8 (u64 (slot + 8)) in
    ret (match entry with Some e => Take e | None => Stop end).

Definition capture_iovec_base_payloads_tlv_direct_for_arg (iovec_arg_index iovec_ptr count : Z)
    : Z -> dynptr -> Z -> prog (Z * Z) :=
  if (iovec_ptr =? 0) || (count =? 0) then no_capture
  else capture_each (Z.to_nat IOVEC_BASE_PAYLOAD_SLOT_MAX) (next_iovec iovec_ptr count)
         (fun i '(base, len) =>
            capture_iovec_base_tlv_direct (iovec_base_payload_arg_index iovec_arg_index i) 0 base len) 0.

Definition capture_iovec_base_payloads_tlv_direct (iovec_ptr count : Z) : Z -> dynptr -> Z -> prog (Z * Z) :=
  capture_iovec_base_payloads_tlv_direct_for_arg 1 iovec_ptr count.

Definition capture_iovec_payloads_tlv_direct (sys_id : Z) (args : args6) : Z -> dynptr -> Z -> prog (Z * Z) :=
  flags_both (capture_iovec_tlv_direct 1 (arg1 args) (arg2 args))
    (if is_process_vm_iovec_direct_syscall sys_id
     then capture_iovec_tlv_direct 3 (arg3 args) (arg4 args) else no_capture).

Definition emit_iovec_enter_event_v2_direct (pid tid sys_id : Z)
    (ctx : trace_event_raw_sys_enter) (ts_ns : Z) : prog unit :=
  let payload_capacity := PAYLOAD_TLV_HEADER_SIZE + IOVEC_DIRECT_BYTES_MAX in
  enter_flags_emit
    (if is_process_vm_iovec_direct_syscall sys_id then payload_capacity * 2 else payload_capacity)
    pid tid sys_id ctx ts_ns (-1)
    (capture_iovec_payloads_tlv_direct sys_id (args_u64 (enter_args ctx))).

Definition emit_iovec_base_enter_event_v2_direct (pid tid sys_id : Z)
    (ctx : trace_event_raw_sys_enter) (ts_ns : Z) : prog unit :=
  let args := args_u64 (enter_args ctx) in
  enter_flags_emit IOVEC_BASE_PAYLOAD_CAPACITY pid tid sys_id ctx ts_ns (-1)
    (capture_iovec_base_payloads_tlv_direct (arg1 args) (arg2 args)).

(** ** The buffers on exit *)

Definition capture_iovec_base_exit_tlv_direct (payload_arg_index user_ptr user_len event_flags : Z)
    (ptr : dynptr) (payload_offset : Z) : prog (Z * Z) :=
  if (user_ptr =? 0) || (user_len =? 0) then ret (0, event_flags)
  else
    let copied_len := iovec_base_exit_payload_copy_len user_len in
    let* (copied_len, probe_ret) :=
      copy_user_struct ptr (payload_offset + PAYLOAD_TLV_HEADER_SIZE) IOVEC_BASE_EXIT_PAYLOAD_BYTES_MAX
        copied_len copied_len user_ptr in
    finish_iovec_base PAYLOAD_TLV_FLAG_DIRECTION_OUT payload_arg_index user_ptr user_len copied_len probe_ret
      event_flags ptr payload_offset.

(** The five unrolled slots: each is captured when the ones before could be read and
    [count] reaches it. *)
Definition capture_iovec_base_exit_payloads_tlv_direct_for_arg (iovec_arg_index iovec_ptr count : Z)
    : Z -> dynptr -> Z -> prog (Z * Z) :=
  if (iovec_ptr =? 0) || (count =? 0) then no_capture
  else capture_each (Z.to_nat IOVEC_BASE_EXIT_PAYLOAD_SLOT_MAX) (next_iovec iovec_ptr count)
         (fun i '(base, len) =>
            capture_iovec_base_exit_tlv_direct (iovec_base_payload_arg_index iovec_arg_index i) base len) 0.

Definition capture_iovec_base_exit_payloads_tlv_direct (iovec_ptr count : Z)
    : Z -> dynptr -> Z -> prog (Z * Z) :=
  capture_iovec_base_exit_payloads_tlv_direct_for_arg 1 iovec_ptr count.

(** The header carries the time of the emission. *)
Definition emit_iovec_base_exit_event_v2_direct (p : pending_syscall) (ret_value duration : Z) : prog unit :=
  exit_emit_now IOVEC_BASE_EXIT_PAYLOAD_CAPACITY p ret_value duration
    (fun ptr =>
       let* (n, flags) :=
         capture_iovec_base_exit_payloads_tlv_direct (arg1 (p_args p)) (arg2 (p_args p)) 0 ptr
           exit_payload_offset in
       ret (tlv_flag flags n, n)).
End Iovec.

(** ** Contracts *)

Section IovecLemmas.
Context {K : Kernel} {A : Arch}.

(** The array of [count] entries: at most sixteen are copied. *)
Definition iovec_sections (arg_index user_ptr count : Z) : Z -> Z -> list PayloadSection -> Prop :=
  slots_sections PayloadKindIovec PayloadDirectionIn arg_index 16 (Z.min count 16)
    (Z.min (count * 16) 0xffffffff) user_ptr.

Lemma iovec_lengths count :
  0 <= count ->
  iovec_direct_user_len count = Z.min (count * 16) 0xffffffff /\
  iovec_direct_copy_len count = Z.min count 16 * 16.
Proof.
  intros Hc. unfold iovec_direct_user_len, iovec_direct_copy_len. split.
  - destruct (Z.ltb_spec 0xfffffff count); [lia|]. rewrite (u32_small count), u32_small; lia.
  - destruct (Z.ltb_spec 16 count); [lia|]. rewrite (u32_small count), u32_small; lia.
Qed.

Lemma capture_iovec_ok arg_index user_ptr count :
  0 <= count ->
  flags_capture (iovec_sections arg_index user_ptr count) (32 + 256)
    (capture_iovec_tlv_direct arg_index user_ptr count).
Proof.
  intros Hc. unfold capture_iovec_tlv_direct, iovec_sections. destruct (iovec_lengths count Hc) as [-> ->].
  eapply (capture_slots_ok PayloadKindIovec _ _ 0 _ _ _ _ (Z.min count 16)); cbn; auto; lia.
Qed.

(** The first bytes of a buffer, at most [max].  The length is the caller's modulo 2^32. *)
Definition iovec_base_data (max user_ptr len base fl ulen : Z) (data : list Z) (e : Z) : Prop :=
  ulen = u32 len /\ copied user_ptr (Z.min len max) data e /\
  fl = if (e =? 0) && (max <? len) then Z.lor base EVENT_FLAG_TRUNCATED else base.
Definition iovec_base_sections (dir : PayloadDirection) (max arg_index user_ptr len base fl : Z)
    (secs : list PayloadSection) : Prop :=
  if (user_ptr =? 0) || (len =? 0) then fl = base /\ secs = []
  else one_section (section_with PayloadKindBytes dir arg_index user_ptr
         (iovec_base_data max user_ptr len base fl)) secs.

Lemma finish_iovec_base_ok max cap dir tlv_flags arg_index user_ptr len n e base d off size w0 w b :
  capturing d off size w0 w b -> 0 <= off -> off + cap <= size -> 0 < max < 2 ^ 31 -> 0 < len ->
  PAYLOAD_TLV_HEADER_SIZE + max <= cap -> payloadDirectionFromTLV (u16 tlv_flags) = dir ->
  (n = Z.min len max /\ e = 0 \/ n = 0 /\ e < 0) ->
  copied user_ptr (Z.min len max) (slice b (off + PAYLOAD_TLV_HEADER_SIZE) n) e ->
  wp (finish_iovec_base tlv_flags arg_index user_ptr len n e base (Some d) off)
    (fun '(n, fl) w' => 0 <= n <= cap /\ flags_from base fl /\ captures d off w0 w' /\
       (True -> decodable (one_section (section_with PayloadKindBytes dir arg_index user_ptr
          (iovec_base_data max user_ptr len base fl))) d off n w')) w.
Proof.
  intros C Ho Hs Hm Hl Hc Hd Hn HD. unfold finish_iovec_base. wp_step.
  eapply wp_note_truncation; [exact C|]. intros w1 C1. wp_step.
  set (fl := if (e =? 0) && (0 <? n) && (n <? len) then Z.lor base EVENT_FLAG_TRUNCATED else base).
  eapply wp_mono; [eapply (wp_finish_with (iovec_base_data max user_ptr len base fl)); [exact C1|..];
    try done; try lia; try apply u32_range|].
  - split; [done|]. split; [exact HD|]. subst fl.
    destruct Hn as [[-> ->]|[-> He]]; [|by destruct (Z.eqb_spec e 0); [lia|]]. cbn [Z.eqb andb].
    destruct (Z.ltb_spec 0 (Z.min len max)), (Z.ltb_spec (Z.min len max) len), (Z.ltb_spec max len); lia || done.
  - intros m w2 (? & ? & ?). wp_steps. split_and!; [lia | lia | | done | done].
    subst fl. unfold flags_from. destruct (_ && _ && _); auto.
Qed.

Lemma iovec_base_payload_sizes len :
  0 < len -> iovec_base_payload_copy_len len = Z.min len 7 /\
  iovec_base_payload_size (Z.min len 7) = Z.min len 7 /\
  iovec_base_exit_payload_copy_len len = Z.min len 8.
Proof.
  intros Hl. unfold iovec_base_payload_copy_len, iovec_base_exit_payload_copy_len. split_and!.
  - destruct (Z.ltb_spec 7 len); [lia|]. rewrite u32_small; lia.
  - unfold iovec_base_payload_size. destruct (existsb _ _) eqn:E; [done|]. exfalso.
    apply not_true_iff_false in E. apply E. apply existsb_exists. exists (Z.min len 7).
    split; [|apply Z.eqb_refl]. cbn. lia.
  - destruct (Z.ltb_spec 8 len); [lia|]. rewrite u32_small; lia.
Qed.

Lemma wp_copy_iovec_base len user_ptr d off size w0 w buf o (Q : Z * Z -> world -> Prop) :
  capturing d off size w0 w buf -> 0 <= off <= o -> 0 < len -> o + 7 <= size ->
  (forall w' k, let b := put buf o (user_bytes k user_ptr (Z.min len 7)) in
     capturing d off size w0 w' b -> Q (Z.min len 7, 0) w') ->
  (forall w' e, read_failed user_ptr e -> capturing d off size w0 w' buf -> Q (0, e) w') ->
  wp (copy_iovec_base (Some d) o (iovec_base_payload_copy_len len) user_ptr) Q w.
Proof.
  intros C Ho Hl Hz H1 H2. destruct (iovec_base_payload_sizes len Hl) as (-> & Hn & _).
  unfold copy_iovec_base, probe_read_iovec_base_payload, dynptr_write_iovec_base_payload. rewrite Hn.
  set (n := Z.min len 7) in *. wp_step.
  pose proof (probe_read_user_result n user_ptr w) as Rd. pose proof (bpf_probe_read_user_quiet n user_ptr w) as Qt.
  unfold wp at 1. destruct (bpf_probe_read_user n user_ptr w) as [[err data] w1]. cbn [fst snd] in *.
  destruct (Rd ltac:(lia)) as [Hd Hr]. assert (capturing d off size w0 w1 buf) as C1 by (by eapply capturing_quiet).
  destruct (Z.ltb_spec err 0).
  - wp_step. eapply H2; [|exact C1]. destruct Hr as [[? _]|[? _]]; [lia|done].
  - destruct Hr as [[-> ->]|[[? _] _]]; [|lia].
    rewrite take_ge by (unfold zlen in Hd; lia). wp_step.
    eapply wp_dynptr_write; [exact C1 | lia | lia | |]; intros w2.
    + intros C2. cbn. wp_step. by eapply H1.
    + intros NF C2. cbn. wp_step. eapply wp_copy_fail; [exact C2 | exact NF |]. intros _ w3 C3. wp_step.
      eapply H2; [by apply failed_fault | exact C3].
Qed.

Lemma capture_iovec_base_ok arg_index user_ptr len :
  0 <= len ->
  flags_capture (iovec_base_sections PayloadDirectionIn 7 arg_index user_ptr len) (32 + 7)
    (capture_iovec_base_tlv_direct arg_index 0 user_ptr len).
Proof.
  intros Hl. apply flags_capture_of. intros base w d buf off Hb Ho Hz.
  unfold capture_iovec_base_tlv_direct, iovec_base_sections. pose proof (capturing_start d off w buf Hb) as C0.
  destruct ((user_ptr =? 0) || (len =? 0)) eqn:E.
  { wp_step. split_and!; [lia | lia | by left | reflexivity |]. intros _. by eapply decodable_0. }
  apply orb_false_iff in E as [_ E]. apply Z.eqb_neq in E.
  wp_step. eapply wp_copy_iovec_base; [exact C0 | lia | lia | lia | |]; cbv zeta beta iota.
  - intros w1 k C1. eapply (finish_iovec_base_ok 7); [exact C1 | lia | lia | lia | lia | lia | done | by left |].
    left. split; [done|]. exists k. apply slice_put_same; rewrite ?zlen_user_bytes; lia.
  - intros w1 e He C1. eapply (finish_iovec_base_ok 7); [exact C1 | lia | lia | lia | lia | lia | done | |].
    + right. split; [done|]. by destruct He.
    + rewrite slice_0. by right.
Qed.

Lemma capture_iovec_base_exit_ok arg_index user_ptr len :
  0 <= len ->
  flags_capture (iovec_base_sections PayloadDirectionOut 8 arg_index user_ptr len) (32 + 8)
    (capture_iovec_base_exit_tlv_direct arg_index user_ptr len).
Proof.
  intros Hl. apply flags_capture_of. intros base w d buf off Hb Ho Hz.
  unfold capture_iovec_base_exit_tlv_direct, iovec_base_sections. pose proof (capturing_start d off w buf Hb) as C0.
  destruct ((user_ptr =? 0) || (len =? 0)) eqn:E.
  { wp_step. split_and!; [lia | lia | by left | reflexivity |]. intros _. by eapply decodable_0. }
  apply orb_false_iff in E as [_ E]. apply Z.eqb_neq in E.
  destruct (iovec_base_payload_sizes len ltac:(lia)) as (_ & _ & ->). wp_steps.
  eapply wp_copy_user_struct; [exact C0 | lia | lia | lia | |]; intros w1 b; cbv beta iota.
  - intros k C1 Hk. eapply (finish_iovec_base_ok 8); [exact C1 | lia | lia | lia | lia | lia | done | by left |].
    left. split; [done|]. by exists k.
  - intros e C1 He. eapply (finish_iovec_base_ok 8); [exact C1 | lia | lia | lia | lia | lia | done | |].
    + right. split; [done|]. by destruct He.
    + rewrite slice_0. by right.
Qed.

(** What is found at entry [i]: the end of the array, an entry that cannot be read, or the entry. *)
Definition iovec_entry (iovec_ptr count i : Z) (item : slot_item (Z * Z)) : Prop :=
  let slot := slot_ptr iovec_ptr 16 i in
  match item with
  | Stop => count <= i \/ pair_result 8 slot 8 (u64 (slot + 8)) None
  | Skip => False
  | Take e => i < count /\ pair_result 8 slot 8 (u64 (slot + 8)) (Some e)
  end.

Lemma next_iovec_quiet iovec_ptr count i : keeps quiet (next_iovec iovec_ptr count i).
Proof. unfold next_iovec. keeps_solve. Qed.
Lemma next_iovec_result iovec_ptr count i w :
  wp (next_iovec iovec_ptr count i) (fun item _ => iovec_entry iovec_ptr count i item) w.
Proof.
  unfold next_iovec. destruct (Z.leb_spec count i); wp_steps; [by left|].
  eapply wp_mono; [apply read_user_pair_result; lia|].
  intros [e|] w1 H1; wp_steps; [by split | by right].
Qed.

(** The buffers of the first [slots] entries. *)
Definition iovec_buffers (dir : PayloadDirection) (slots : nat) (max iovec_arg_index iovec_ptr count : Z)
    : Z -> Z -> list PayloadSection -> Prop :=
  if (iovec_ptr =? 0) || (count =? 0) then unflagged (fun secs => secs = [])
  else each_sections (iovec_entry iovec_ptr count)
         (fun i '(base, len) => iovec_base_sections dir max (iovec_base_payload_arg_index iovec_arg_index i) base len)
         slots 0.

Lemma capture_iovec_buffers_ok dir slots max cap iovec_arg_index iovec_ptr count capture :
  0 <= cap ->
  (forall i base len, 0 <= len -> flags_capture
     (iovec_base_sections dir max (iovec_base_payload_arg_index iovec_arg_index i) base len) cap
     (capture i (base, len))) ->
  flags_capture (iovec_buffers dir slots max iovec_arg_index iovec_ptr count) (Z.of_nat slots * cap)
    (if (iovec_ptr =? 0) || (count =? 0) then no_capture
     else capture_each slots (next_iovec iovec_ptr count) capture 0).
Proof.
  intros Hc Hf. unfold iovec_buffers. destruct (_ || _); [apply no_capture_ok; lia|].
  apply capture_each_ok; [done | apply next_iovec_quiet | apply next_iovec_result |].
  intros i [base len] (_ & _ & Hl). apply Hf. apply member_read_bound in Hl; lia.
Qed.

Lemma capture_iovec_base_payloads_ok iovec_arg_index iovec_ptr count :
  flags_capture (iovec_buffers PayloadDirectionIn 7 7 iovec_arg_index iovec_ptr count) (7 * (32 + 7))
    (capture_iovec_base_payloads_tlv_direct_for_arg iovec_arg_index iovec_ptr count).
Proof. apply (capture_iovec_buffers_ok _ 7); [lia|]. intros. by apply capture_iovec_base_ok. Qed.

Lemma capture_iovec_base_exit_payloads_ok iovec_arg_index iovec_ptr count :
  flags_capture (iovec_buffers PayloadDirectionOut 5 8 iovec_arg_index iovec_ptr count) (5 * (32 + 8))
    (capture_iovec_base_exit_payloads_tlv_direct_for_arg iovec_arg_index iovec_ptr count).
Proof. apply (capture_iovec_buffers_ok _ 5); [lia|]. intros. by apply capture_iovec_base_exit_ok. Qed.

(** ** Records *)

(** The array, and for the calls with two of them, the remote one. *)
Definition iovec_enter_sections (sys_id : Z) (args : args6) : Z -> Z -> list PayloadSection -> Prop :=
  flags_appended (iovec_sections 1 (arg1 args) (arg2 args))
    (if is_process_vm_iovec_direct_syscall sys_id then iovec_sections 3 (arg3 args) (arg4 args)
     else unflagged (fun secs => secs = [])).

Lemma emit_iovec_enter_ok pid tid sys_id ctx ts :
  let args := args_u64 (enter_args ctx) in
  emitter (fun r => reads_flags_enter r pid tid sys_id ctx ts (-1)
      (iovec_enter_sections sys_id args EVENT_FLAG_GENERIC_ENTER))
    (emit_iovec_enter_event_v2_direct pid tid sys_id ctx ts).
Proof.
  intros args. unfold emit_iovec_enter_event_v2_direct, iovec_enter_sections, capture_iovec_payloads_tlv_direct.
  fold args. pose proof (args_u64_nonneg (enter_args ctx)) as Hn.
  destruct (is_process_vm_iovec_direct_syscall sys_id).
  - apply enter_flags_ok; [lia|]. eapply flags_capture_cap; [apply flags_both_ok;
      [apply capture_iovec_ok, (Hn 2) | apply capture_iovec_ok, (Hn 4) | lia] | lia].
  - apply enter_flags_ok; [lia|]. eapply flags_capture_cap; [apply flags_both_ok;
      [apply capture_iovec_ok, (Hn 2) | apply (no_capture_ok 0); lia | lia] | lia].
Qed.

Lemma emit_iovec_base_enter_ok pid tid sys_id ctx ts :
  let args := args_u64 (enter_args ctx) in
  emitter (fun r => reads_flags_enter r pid tid sys_id ctx ts (-1)
      (iovec_buffers PayloadDirectionIn 7 7 1 (arg1 args) (arg2 args) EVENT_FLAG_GENERIC_ENTER))
    (emit_iovec_base_enter_event_v2_direct pid tid sys_id ctx ts).
Proof. intros args. apply enter_flags_ok; [lia|]. apply capture_iovec_base_payloads_ok. Qed.

Lemma emit_iovec_base_exit_ok p rv dur :
  emitter (fun r => reads_exit_now r p rv dur (decodes no_fault (flags_from 0)
      (iovec_buffers PayloadDirectionOut 5 8 1 (arg1 (p_args p)) (arg2 (p_args p)) 0)))
    (emit_iovec_base_exit_event_v2_direct p rv dur).
Proof.
  apply exit_emit_now_ok; [lia|]. apply tlv_flags_payload_ok; [lia|]. apply capture_iovec_base_exit_payloads_ok.
Qed.
End IovecLemmas.

#[export] Hint Resolve emit_iovec_enter_ok emit_iovec_base_enter_ok emit_iovec_base_exit_ok : emitters.
