(* ===== verification/NestedFd.v ===== *)
(** Paths of descriptors inside vectors.

    Models the candidate window of [bpf/syscall_fd_path_capture_direct_event_v2.h]
    and the fragment emitter of [bpf/syscall_fd_path_emit_direct_event_v2.h]:
    poll, select and epoll scan their vectors for descriptors, keep at most four
    of them in the scratch area of the CPU, and report the path of each in a
    record of its own. *)
From stdpp Require Import base list gmap numbers.
From S2P Require Import Prelude Syscalls Abi Kernel Consumer Stats Tlv Emit Decoder EventCore Payload Structs FdPath Paths Misc Captures Slots.

Abbreviation FD_PATH_NESTED_MAX := 4 (only parsing).
Abbreviation FD_PATH_NESTED_SCAN_BYTES := 128 (only parsing).

Section NestedFd.
Context {K : Kernel} {A : Arch}.

(** ** The window of candidates *)

Definition scratch_set_nested (fd0 fd1 fd2 fd3 count : Z) (s : fd_path_scratch) : fd_path_scratch :=
  FdPathScratch (sc_name s) (sc_components s) (sc_args s) (sc_nested_fdset s) fd0 fd1 fd2 fd3 count.
Definition scratch_set_fdset (fdset : list Z) (s : fd_path_scratch) : fd_path_scratch :=
  FdPathScratch (sc_name s) (sc_components s) (sc_args s) fdset (sc_nested_fd0 s) (sc_nested_fd1 s)
    (sc_nested_fd2 s) (sc_nested_fd3 s) (sc_nested_fd_count s).

Definition fd_path_nested_candidate_exists (s : fd_path_scratch) (fd : Z) : bool :=
  let count := sc_nested_fd_count s in
  (0 <? count) && (sc_nested_fd0 s =? fd) || (1 <? count) && (sc_nested_fd1 s =? fd) ||
  (2 <? count) && (sc_nested_fd2 s =? fd) || (3 <? count) && (sc_nested_fd3 s =? fd).

Definition fd_path_nested_add_candidate (fd : Z) (s : fd_path_scratch) : fd_path_scratch :=
  let count := sc_nested_fd_count s in
  if (FD_PATH_NESTED_MAX <=? count) || fd_path_nested_candidate_exists s fd then s
  else
    let '(fd0, fd1, fd2, fd3) := (sc_nested_fd0 s, sc_nested_fd1 s, sc_nested_fd2 s, sc_nested_fd3 s) in
    if count =? 0 then scratch_set_nested fd fd1 fd2 fd3 (count + 1) s
    else if count =? 1 then scratch_set_nested fd0 fd fd2 fd3 (count + 1) s
    else if count =? 2 then scratch_set_nested fd0 fd1 fd fd3 (count + 1) s
    else scratch_set_nested fd0 fd1 fd2 fd (count + 1) s.

Definition fd_path_nested_add_window_candidate (fd : Z) (s : fd_path_scratch) : fd_path_scratch :=
  let count := sc_nested_fd_count s in
  if count <? FD_PATH_NESTED_MAX - 1 then fd_path_nested_add_candidate fd s
  else if fd_path_nested_candidate_exists s fd then s
  else scratch_set_nested (sc_nested_fd0 s) (sc_nested_fd1 s) (sc_nested_fd2 s) fd FD_PATH_NESTED_MAX s.

(** [scratch->nested_fd_count = 0;]. *)
Definition scratch_no_nested (s : fd_path_scratch) : fd_path_scratch :=
  scratch_set_nested (sc_nested_fd0 s) (sc_nested_fd1 s) (sc_nested_fd2 s) (sc_nested_fd3 s) 0 s.

(** [scratch->f], through the pointer [lookup_fd_path_scratch] returned. *)
Definition scratch_get (f : fd_path_scratch -> Z) : prog Z :=
  gets (fun w => match scratch w !! cur_cpu (running w) with Some s => f s | None => 0 end).

(** [bpf_loop(nr, callback, &ctx, 0);]: [true] ends the loop. *)
Definition bpf_loop (nr : nat) (callback : Z -> prog bool) : prog unit :=
  for_loop nr 0 (fun i _ => let* stop := callback i in ret (if stop then inl tt else inr tt)) tt.

(** A callback that reads a descriptor at [addr index] and offers it to the window. *)
Definition fd_scan_callback (valid : Z -> bool) (addr : Z -> Z) (count index : Z) : prog bool :=
  if count <=? index then ret true
  else
    let* (err, data) := bpf_probe_read_user 4 (addr index) in
    let fd := s32 (le_val data) in
    if (err <? 0) || negb (valid fd) then ret false
    else update_scratch (fd_path_nested_add_window_candidate fd) ;;; ret false.

(** Reset, scan, and the number of candidates. *)
Definition collect_fd_candidates (slot_max : nat) (callback : Z -> prog bool) : prog Z :=
  update_scratch scratch_no_nested ;;;
  bpf_loop slot_max callback ;;;
  scratch_get sc_nested_fd_count.

(** ** The fragment *)

Definition emit_nested_fd_path_fragment_event_v2_direct (p : pending_syscall) (fd : Z) : prog unit :=
  exit_emit_now FD_PATH_DIRECT_SECTION_MAX p 0 0
    (fun ptr =>
       let* n := capture_fd_path_tlv_direct PAYLOAD_TLV_FD_PATH_NESTED_ARG_INDEX fd ptr exit_payload_offset in
       ret (tlv_flag EVENT_FLAG_EXIT_FRAGMENT n, n)).
End NestedFd.

(** ** The window as a function of the descriptors scanned *)

(** The descriptors in order of their first occurrence. *)
Definition distinct (l : list Z) : list Z :=
  foldl (fun d x => if bool_decide (x ∈ d) then d else d ++ [x]) [] l.

(** The first three, and the latest of the others. *)
Definition window (l : list Z) : list Z :=
  let d := take 3 (distinct l) in
  d ++ option_list (list.last (filter (fun x => x ∉ d) l)).

Definition nested_fds (s : fd_path_scratch) : list Z :=
  take (Z.to_nat (sc_nested_fd_count s))
    [sc_nested_fd0 s; sc_nested_fd1 s; sc_nested_fd2 s; sc_nested_fd3 s].

Section Window.

Lemma filter_none (P : Z -> Prop) `{!forall x, Decision (P x)} l :
  (forall x, x ∈ l -> ~ P x) -> filter P l = [].
Proof.
  induction l as [|y l IH]; intros Hl; [done|]. rewrite filter_cons_False.
  - apply IH. intros x Hx. apply Hl. by right.
  - apply Hl. by left.
Qed.

Lemma distinct_snoc l x :
  distinct (l ++ [x]) = if bool_decide (x ∈ distinct l) then distinct l else distinct l ++ [x].
Proof. unfold distinct. by rewrite foldl_app. Qed.

Lemma elem_of_distinct l x : x ∈ distinct l <-> x ∈ l.
Proof.
  revert x. induction l as [|y l IH] using rev_ind; intros x; [done|].
  rewrite distinct_snoc, elem_of_app, list_elem_of_singleton.
  case_bool_decide as Hy; rewrite ?elem_of_app, ?list_elem_of_singleton, IH; [|done].
  rewrite IH in Hy. split; [tauto | by intros [?| ->]].
Qed.

Lemma window_short l : (length (distinct l) <= 3)%nat -> window l = distinct l.
Proof.
  intros Hl. unfold window. rewrite take_ge by lia.
  rewrite (filter_none _ l); [cbn; by rewrite app_nil_r|]. intros x Hx Hn. by rewrite elem_of_distinct in Hn.
Qed.

(** One more descriptor. *)
Lemma window_snoc l x :
  window (l ++ [x]) =
    if bool_decide (x ∈ window l) then window l else take 3 (window l) ++ [x].
Proof.
  destruct (decide (length (distinct l) < 3)%nat) as [Hs|Hs].
  - rewrite (window_short l) by lia. rewrite (take_ge (distinct l)) by lia. rewrite window_short.
    + apply distinct_snoc.
    + rewrite distinct_snoc. case_bool_decide; rewrite ?length_app; cbn; lia.
  - assert (take 3 (distinct (l ++ [x])) = take 3 (distinct l)) as E.
    { rewrite distinct_snoc. case_bool_decide; [done|]. rewrite take_app_le by lia. done. }
    assert (length (take 3 (distinct l)) = 3)%nat as L by (rewrite length_take; lia).
    unfold window. rewrite E. set (d := take 3 (distinct l)) in *. cbv zeta.
    rewrite (take_app_length' d) by done. rewrite (list.filter_app _ l), filter_cons, filter_nil.
    case_decide as Hx; [|rewrite app_nil_r, bool_decide_true; [done|]; apply elem_of_app; left; tauto].
    rewrite last_snoc. cbn [option_list].
    case_bool_decide as Hw; [|done]. f_equal.
    apply elem_of_app in Hw as [Hw|Hw]; [done|].
    destruct (list.last _) as [y|]; cbn in Hw |- *; [|by apply elem_of_nil in Hw].
    by apply list_elem_of_singleton in Hw as ->.
Qed.

Lemma window_length l : (length (window l) <= 4)%nat.
Proof.
  unfold window. rewrite length_app.
  assert (length (take 3 (distinct l)) <= 3)%nat by (rewrite length_take; lia).
  assert (forall o : option Z, length (option_list o) <= 1)%nat as Ho by (intros []; cbn; lia).
  specialize (Ho (list.last (filter (fun x => x ∉ take 3 (distinct l)) l))). lia.
Qed.

(** The window in the scratch area. *)
Definition holds_window (l : list Z) (s : fd_path_scratch) : Prop :=
  nested_fds s = window l /\ sc_nested_fd_count s = zlen (window l).

Lemma candidate_exists_spec s fd :
  0 <= sc_nested_fd_count s <= 4 ->
  fd_path_nested_candidate_exists s fd = true <-> fd ∈ nested_fds s.
Proof.
  intros Hc. unfold fd_path_nested_candidate_exists, nested_fds.
  rewrite !orb_true_iff, !andb_true_iff, !Z.ltb_lt, !Z.eqb_eq.
  assert (sc_nested_fd_count s = 0 \/ sc_nested_fd_count s = 1 \/ sc_nested_fd_count s = 2 \/
          sc_nested_fd_count s = 3 \/ sc_nested_fd_count s = 4) as [->|[->|[->|[->| ->]]]] by lia;
    lazy [Z.to_nat Pos.to_nat Pos.iter_op Init.Nat.add take];
    rewrite ?elem_of_cons, elem_of_nil; lia.
Qed.

Lemma add_window_candidate_holds l fd s :
  holds_window l s -> holds_window (l ++ [fd]) (fd_path_nested_add_window_candidate fd s).
Proof.
  intros [Hf Hc]. unfold holds_window, fd_path_nested_add_window_candidate.
  pose proof (window_length l) as Hl. rewrite window_snoc, <- Hf.
  assert (0 <= sc_nested_fd_count s <= 4) as Hr by (unfold zlen in Hc; lia).
  pose proof (candidate_exists_spec s fd Hr) as He. rewrite <- Hf in Hc.
  case_bool_decide as Hx.
  - unfold fd_path_nested_add_candidate. rewrite (proj2 He Hx), orb_true_r. by destruct (_ <? _).
  - unfold fd_path_nested_add_candidate. destruct (fd_path_nested_candidate_exists s fd); [tauto|].
    clear He Hx Hl Hf. unfold nested_fds in *.
    assert (sc_nested_fd_count s = 0 \/ sc_nested_fd_count s = 1 \/ sc_nested_fd_count s = 2 \/
            sc_nested_fd_count s = 3 \/ sc_nested_fd_count s = 4) as [->|[->|[->|[->| ->]]]] by lia; done.
Qed.

Lemma no_nested_holds s : holds_window [] (scratch_no_nested s).
Proof. done. Qed.
End Window.

(** ** Contracts *)

Section NestedFdLemmas.
Context {K : Kernel} {A : Arch}.

Lemma update_scratch_emits f : keeps emits (update_scratch f).
Proof.
  unfold update_scratch. intros w. cbn. destruct (scratch w !! _) as [s|] eqn:E; [|reflexivity].
  pose proof (put_scratch_emits (f s) w) as H. exact H.
Qed.
Lemma scratch_get_quiet f : keeps quiet (scratch_get f).
Proof. unfold scratch_get. keeps_solve. Qed.
Hint Resolve update_scratch_emits scratch_get_quiet : keeps.

Lemma keeps_for_loop {Acc} (R : world -> world -> Prop) `{!PreOrder R} body n i (acc : Acc) :
  (forall i acc, keeps R (body i acc)) -> keeps R (for_loop n i body acc).
Proof.
  intros Hb. revert i acc. induction n as [|n IH]; intros i acc; cbn [for_loop].
  - apply keeps_ret. apply _.
  - apply keeps_bind; [apply _ | apply Hb |]. intros [a|a]; [apply keeps_ret; apply _ | apply IH].
Qed.

Lemma fd_scan_emits valid addr count i : keeps emits (fd_scan_callback valid addr count i).
Proof. unfold fd_scan_callback. keeps_solve. Qed.
Lemma collect_fd_candidates_emits n cb :
  (forall i, keeps emits (cb i)) -> keeps emits (collect_fd_candidates n cb).
Proof.
  intros H. unfold collect_fd_candidates, bpf_loop. keeps_solve.
  apply keeps_for_loop; [apply _|]. keeps_solve.
Qed.

(** The descriptor found at an address at time [k]. *)
Definition fd_at (k : nat) (addr : Z) : Z := s32 (le_val (user_bytes k addr 4)).

(** What a scan of the first [i] slots finds, in order. *)
Inductive scanned (valid : Z -> bool) (addr : Z -> Z) : Z -> list Z -> Prop :=
  | scanned_none : scanned valid addr 0 []
  | scanned_unreadable i l e : scanned valid addr i l -> read_failed (addr i) e -> scanned valid addr (i + 1) l
  | scanned_invalid i l k : scanned valid addr i l -> valid (fd_at k (addr i)) = false ->
      scanned valid addr (i + 1) l
  | scanned_fd i l k : scanned valid addr i l -> valid (fd_at k (addr i)) = true ->
      scanned valid addr (i + 1) (l ++ [fd_at k (addr i)]).

(** The scratch area of the CPU has the window of a scan of [n] slots. *)
Definition scanned_window (valid : Z -> bool) (addr : Z -> Z) (n : Z) (w : world) : Prop :=
  exists l s, scanned valid addr n l /\ scratch w !! cur_cpu (running w) = Some s /\ holds_window l s.

Lemma wp_scratch_update f s w (Q : unit -> world -> Prop) :
  scratch w !! cur_cpu (running w) = Some s ->
  (forall w', running w' = running w -> scratch w' !! cur_cpu (running w') = Some (f s) -> Q tt w') ->
  wp (update_scratch f) Q w.
Proof.
  intros E H. unfold update_scratch. wp_step. rewrite E. apply H; [done|]. cbn. by rewrite lookup_insert_eq.
Qed.

Lemma scanned_window_quiet valid addr n w w' :
  quiet w w' -> scanned_window valid addr n w -> scanned_window valid addr n w'.
Proof. intros [[[Hr _ _ _] Hs _] _] (l & s & ? & ? & ?). exists l, s. by rewrite Hr, Hs. Qed.

(** One slot. *)
Lemma wp_fd_scan valid addr count i w :
  i < count -> scanned_window valid addr i w ->
  wp (fd_scan_callback valid addr count i) (fun stop w' => stop = false /\ scanned_window valid addr (i + 1) w') w.
Proof.
  intros Hi HW. unfold fd_scan_callback. destruct (Z.leb_spec count i); [lia|]. wp_step.
  pose proof (probe_read_user_result 4 (addr i) w) as Rd. pose proof (bpf_probe_read_user_quiet 4 (addr i) w) as Qt.
  unfold wp at 1. destruct (bpf_probe_read_user 4 (addr i) w) as [[err data] w1]. cbn [fst snd] in *.
  destruct (Rd ltac:(lia)) as [_ Hr]. apply (scanned_window_quiet _ _ _ _ _ Qt) in HW as (l & s & Hl & Hs & Hw).
  destruct Hr as [[-> ->]|[He _]].
  - cbn [Z.ltb Z.compare orb]. wp_steps. fold (fd_at (calls w) (addr i)). destruct (valid (fd_at (calls w) (addr i))) eqn:V; cbn [negb]; wp_steps.
    + eapply wp_scratch_update; [exact Hs|]. intros w2 _ Hs2. wp_steps. split; [done|].
      eexists _, _. split; [by apply scanned_fd|]. split; [exact Hs2|]. by apply add_window_candidate_holds.
    + split; [done|]. exists l, s. split; [|done]. by apply (scanned_invalid _ _ _ _ (calls w)).
  - destruct (Z.ltb_spec err 0) as [_|?]; [|destruct He; lia]. wp_steps. split; [done|]. exists l, s.
    split; [|done]. by eapply scanned_unreadable.
Qed.

(** A scan leaves the window of what it found, and returns its length. *)
Lemma wp_collect slot_max valid addr count s w :
  scratch w !! cur_cpu (running w) = Some s -> 0 <= count <= Z.of_nat slot_max ->
  wp (collect_fd_candidates slot_max (fd_scan_callback valid addr count))
    (fun n w' => exists l s', scanned valid addr count l /\ scratch w' !! cur_cpu (running w') = Some s' /\
       holds_window l s' /\ n = zlen (window l)) w.
Proof.
  intros Hs Hc. unfold collect_fd_candidates, bpf_loop. wp_step.
  eapply wp_scratch_update; [exact Hs|]. intros w1 _ Hs1. wp_step.
  assert (forall w', scanned_window valid addr count w' -> wp (scratch_get sc_nested_fd_count) (fun n w' =>
    exists l s', scanned valid addr count l /\ scratch w' !! cur_cpu (running w') = Some s' /\
      holds_window l s' /\ n = zlen (window l)) w') as Get.
  { intros w' (l & s' & Hl & Hs' & Hw). unfold scratch_get. wp_step. exists l, s'.
    rewrite Hs'. split_and!; [done | done | done | apply Hw]. }
  eapply (wp_for_loop (fun i _ w' => scanned_window valid addr (Z.min i count) w')) with (bound := Z.of_nat slot_max); [lia | | |].
  - intros i [] w2 Hi HW. wp_step. destruct (Z.ltb_spec i count).
    + rewrite Z.min_l in HW by lia. eapply wp_mono; [by apply wp_fd_scan|].
      intros stop w3 [-> HW3]. wp_step. rewrite Z.min_l by lia. exact HW3.
    + unfold fd_scan_callback. destruct (Z.leb_spec count i); [|lia]. wp_steps.
      rewrite Z.min_r in HW by lia. by apply Get.
  - intros [] w2 HW. rewrite Z.min_r in HW by lia. by apply Get.
  - rewrite Z.min_l by lia. eexists _, _. split; [apply scanned_none|]. split; [exact Hs1|]. apply no_nested_holds.
Qed.

(** The fragment carries the path of the descriptor. *)
Lemma emit_nested_fragment_ok p fd :
  emitter (fun r => reads_exit_now r p 0 0 (decodes no_fault (eq EVENT_FLAG_EXIT_FRAGMENT)
      (fun _ => fd_path_sections fd PAYLOAD_TLV_FD_PATH_NESTED_ARG_INDEX)))
    (emit_nested_fd_path_fragment_event_v2_direct p fd).
Proof. apply exit_emit_now_ok; [lia|]. apply tlv_payload_ok; [lia | apply capture_fd_path_ok]. Qed.
End NestedFdLemmas.

#[export] Hint Resolve update_scratch_emits scratch_get_quiet fd_scan_emits : keeps.
#[export] Hint Resolve emit_nested_fragment_ok : emitters.

