(* ===== verification/Poll.v ===== *)
(** poll and epoll.

    Models [bpf/syscall_poll_direct_event_v2.h], [bpf/syscall_epoll_direct_event_v2.h]
    and their capture and emit headers: the polled descriptors on entry and exit,
    the events an epoll wait returned, the timeouts and masks, and the candidates
    for nested descriptor paths. *)
From stdpp Require Import base list gmap numbers.
From S2P Require Import Prelude Syscalls Abi Kernel Consumer Stats Tlv Emit Decoder EventCore Payload Structs FdPath Paths Misc Captures Slots NestedFd.

Abbreviation POLL_DIRECT_FD_SIZE := 8 (only parsing).
Abbreviation POLL_DIRECT_FDS_MAX := 512 (only parsing).
Abbreviation POLL_DIRECT_FD_SLOT_MAX := 64 (only parsing).
Abbreviation POLL_DIRECT_TIMEOUT_SIZE := 16 (only parsing).
Abbreviation POLL_DIRECT_SIGMASK_SIZE := 8 (only parsing).
Abbreviation EPOLL_DIRECT_TIMEOUT_SIZE := 16 (only parsing).

Section Poll.
Context {K : Kernel} {A : Arch}.

(** ** [poll], [ppoll] *)

Definition is_poll_direct_syscall (sys_id : Z) : bool := one_of sys_id [SYS_POLL; SYS_PPOLL].
Definition is_ppoll_direct_syscall (sys_id : Z) : bool := one_of sys_id [SYS_PPOLL].

Definition poll_direct_count (sys_id raw_count : Z) : Z :=
  if is_ppoll_direct_syscall sys_id then u32 raw_count else u64 raw_count.
Definition poll_fds_user_len (count : Z) : Z :=
  if 0x1fffffff <? count then 0xffffffff else u32 (u32 count * POLL_DIRECT_FD_SIZE).
Definition poll_fds_copy_len (count : Z) : Z :=
  if POLL_DIRECT_FD_SLOT_MAX <? count then POLL_DIRECT_FDS_MAX else u32 (u32 count * POLL_DIRECT_FD_SIZE).

Definition poll_fd_path_scan_callback (user_ptr count : Z) : Z -> prog bool :=
  fd_scan_callback (fun fd => 0 <=? fd) (slot_ptr user_ptr POLL_DIRECT_FD_SIZE) count.

Definition collect_poll_fd_path_candidates_direct (sys_id user_ptr raw_count : Z) : prog Z :=
  let* scratch := lookup_fd_path_scratch in
  match scratch with
  | None => ret 0
  | Some _ =>
      if negb (is_poll_direct_syscall sys_id) || (user_ptr =? 0) then ret 0
      else
        let count := poll_direct_count sys_id raw_count in
        if count =? 0 then ret 0
        else
          let count := if POLL_DIRECT_FD_SLOT_MAX <? count then POLL_DIRECT_FD_SLOT_MAX else count in
          collect_fd_candidates (Z.to_nat POLL_DIRECT_FD_SLOT_MAX) (poll_fd_path_scan_callback user_ptr (u32 count))
  end.

Definition capture_poll_fds_tlv_direct (user_ptr count tlv_flags : Z) : Z -> dynptr -> Z -> prog (Z * Z) :=
  capture_slots PAYLOAD_TLV_KIND_STRUCT 0 tlv_flags (Z.to_nat POLL_DIRECT_FD_SLOT_MAX) POLL_DIRECT_FD_SIZE
    (poll_fds_user_len count) (poll_fds_copy_len count) user_ptr.

Definition capture_poll_timeout_tlv_direct (user_ptr tlv_flags : Z) : dynptr -> Z -> prog Z :=
  capture_struct_section POLL_DIRECT_TIMEOUT_SIZE POLL_DIRECT_TIMEOUT_SIZE POLL_DIRECT_TIMEOUT_SIZE 2
    tlv_flags user_ptr.

Definition capture_poll_sigmask_tlv_direct (user_ptr sigset_size : Z) (ptr : dynptr) (payload_offset : Z) : prog Z :=
  if (user_ptr =? 0) || (sigset_size =? 0) then ret 0
  else capture_sized_struct POLL_DIRECT_SIGMASK_SIZE POLL_DIRECT_SIGMASK_SIZE 3 0 (payload_tlv_clamp_u32 sigset_size) user_ptr
         ptr payload_offset.

Definition emit_poll_enter_event_v2_direct (pid tid sys_id : Z) (ctx : trace_event_raw_sys_enter) (ts_ns : Z)
    : prog unit :=
  let args := args_u64 (enter_args ctx) in
  let fds := capture_poll_fds_tlv_direct (arg0 args) (poll_direct_count sys_id (arg1 args)) 0 in
  let payload_capacity := PAYLOAD_TLV_HEADER_SIZE + POLL_DIRECT_FDS_MAX in
  if is_ppoll_direct_syscall sys_id then
    enter_flags_emit (payload_capacity + (PAYLOAD_TLV_HEADER_SIZE + POLL_DIRECT_TIMEOUT_SIZE) +
        (PAYLOAD_TLV_HEADER_SIZE + POLL_DIRECT_SIGMASK_SIZE)) pid tid sys_id ctx ts_ns (-1)
      (flags_both (flags_both fds (same_flags (capture_poll_timeout_tlv_direct (arg2 args) 0)))
         (same_flags (capture_poll_sigmask_tlv_direct (arg3 args) (arg4 args))))
  else enter_flags_emit payload_capacity pid tid sys_id ctx ts_ns (-1) fds.

Definition emit_poll_exit_event_v2_direct (p : pending_syscall) (ret_value duration : Z) : prog unit :=
  let args := p_args p in
  let fds := capture_poll_fds_tlv_direct (arg0 args) (poll_direct_count (p_sys_id p) (arg1 args))
    PAYLOAD_TLV_FLAG_DIRECTION_OUT in
  let payload_capacity := PAYLOAD_TLV_HEADER_SIZE + POLL_DIRECT_FDS_MAX in
  if is_ppoll_direct_syscall (p_sys_id p) then
    exit_flags_emit (payload_capacity + (PAYLOAD_TLV_HEADER_SIZE + POLL_DIRECT_TIMEOUT_SIZE)) p ret_value duration
      (flags_both fds (same_flags (capture_poll_timeout_tlv_direct (arg2 args) PAYLOAD_TLV_FLAG_DIRECTION_OUT)) 0)
  else exit_flags_emit payload_capacity p ret_value duration (fds 0).

(** ** [epoll_ctl], [epoll_wait], [epoll_pwait], [epoll_pwait2] *)

Definition EPOLL_DIRECT_EVENT_SIZE : Z := match target_arch with amd64 => 12 | arm64 => 16 end.
Definition EPOLL_DIRECT_EVENT_DATA_OFFSET : Z := match target_arch with amd64 => 4 | arm64 => 8 end.
Definition EPOLL_DIRECT_EVENT_SLOT_MAX : Z := 504 / EPOLL_DIRECT_EVENT_SIZE.
Definition EPOLL_DIRECT_EVENTS_MAX : Z := EPOLL_DIRECT_EVENT_SLOT_MAX * EPOLL_DIRECT_EVENT_SIZE.

Definition is_epoll_pwait2_direct_syscall (sys_id : Z) : bool := one_of sys_id [SYS_EPOLL_PWAIT2].
Definition is_epoll_ctl_direct_syscall (sys_id : Z) : bool := one_of sys_id [SYS_EPOLL_CTL].
Definition is_epoll_wait_direct_syscall (sys_id : Z) : bool :=
  one_of sys_id [SYS_EPOLL_WAIT; SYS_EPOLL_PWAIT] || is_epoll_pwait2_direct_syscall sys_id.
Definition is_epoll_direct_syscall (sys_id : Z) : bool :=
  is_epoll_ctl_direct_syscall sys_id || is_epoll_wait_direct_syscall sys_id.

Definition epoll_events_user_len (count : Z) : Z :=
  if count <=? 0 then 0
  else if 0xffffffff / EPOLL_DIRECT_EVENT_SIZE <? count then 0xffffffff
  else u32 (u32 count * EPOLL_DIRECT_EVENT_SIZE).
Definition epoll_events_copy_len (count : Z) : Z :=
  if count <=? 0 then 0
  else if EPOLL_DIRECT_EVENT_SLOT_MAX <? count then EPOLL_DIRECT_EVENTS_MAX
  else u32 (u32 count * EPOLL_DIRECT_EVENT_SIZE).

Definition epoll_fd_path_scan_callback (user_ptr count : Z) : Z -> prog bool :=
  fd_scan_callback (fun fd => (0 <=? fd) && negb (FD_STATE_MAX_FD <=? u32 fd))
    (fun index => u64 (user_ptr + (index * EPOLL_DIRECT_EVENT_SIZE + EPOLL_DIRECT_EVENT_DATA_OFFSET))) count.

Definition collect_epoll_fd_path_candidates_direct (p : pending_syscall) (ret_value : Z) : prog Z :=
  let* cfg := bpf_map_lookup_elem config_map 0 in
  if negb (fd_state_enabled cfg) || negb (is_epoll_wait_direct_syscall (p_sys_id p)) ||
     (ret_value <=? 0) || (arg1 (p_args p) =? 0) then ret 0
  else
    let* scratch := lookup_fd_path_scratch in
    match scratch with
    | None => ret 0
    | Some _ =>
        let count := u64 ret_value in
        let count := if EPOLL_DIRECT_EVENT_SLOT_MAX <? count then EPOLL_DIRECT_EVENT_SLOT_MAX else count in
        collect_fd_candidates (Z.to_nat EPOLL_DIRECT_EVENT_SLOT_MAX)
          (epoll_fd_path_scan_callback (arg1 (p_args p)) (u32 count))
    end.

Definition capture_epoll_events_tlv_direct (p : pending_syscall) (ret_value : Z)
    : Z -> dynptr -> Z -> prog (Z * Z) :=
  capture_slots PAYLOAD_TLV_KIND_STRUCT 1 PAYLOAD_TLV_FLAG_DIRECTION_OUT (Z.to_nat EPOLL_DIRECT_EVENT_SLOT_MAX)
    EPOLL_DIRECT_EVENT_SIZE (epoll_events_user_len ret_value) (epoll_events_copy_len ret_value)
    (arg1 (p_args p)).

Definition capture_epoll_timeout_tlv_direct (args : args6) : dynptr -> Z -> prog Z :=
  capture_struct_section EPOLL_DIRECT_TIMEOUT_SIZE EPOLL_DIRECT_TIMEOUT_SIZE EPOLL_DIRECT_TIMEOUT_SIZE 3 0
    (arg3 args).

Definition capture_epoll_ctl_event_tlv_direct (args : args6) : dynptr -> Z -> prog Z :=
  capture_struct_section EPOLL_DIRECT_EVENT_SIZE EPOLL_DIRECT_EVENT_SIZE EPOLL_DIRECT_EVENT_SIZE 3 0 (arg3 args).

Definition emit_epoll_ctl_enter_event_v2_direct : Z -> Z -> Z -> trace_event_raw_sys_enter -> option Z -> Z -> prog unit :=
  emit_fd_paths_then EPOLL_DIRECT_EVENT_SIZE capture_epoll_ctl_event_tlv_direct.
Definition emit_epoll_pwait2_enter_event_v2_direct : Z -> Z -> Z -> trace_event_raw_sys_enter -> option Z -> Z -> prog unit :=
  emit_fd_paths_then EPOLL_DIRECT_TIMEOUT_SIZE capture_epoll_timeout_tlv_direct.

Definition emit_epoll_wait_exit_event_v2_direct (p : pending_syscall) (ret_value duration : Z) : prog unit :=
  exit_flags_emit (PAYLOAD_TLV_HEADER_SIZE + EPOLL_DIRECT_EVENTS_MAX) p ret_value duration
    (capture_epoll_events_tlv_direct p ret_value 0).
End Poll.

(** ** Contracts *)

Section PollLemmas.
Context {K : Kernel} {A : Arch}.

(** The polled descriptors: the first sixty-four entries. *)
Definition poll_fds_sections (dir : PayloadDirection) (user_ptr count : Z) : Z -> Z -> list PayloadSection -> Prop :=
  slots_sections PayloadKindStruct dir 0 8 (Z.min count 64) (Z.min (count * 8) 0xffffffff) user_ptr.

Lemma poll_lengths count :
  0 <= count ->
  poll_fds_user_len count = (if 0x1fffffff <? count then 0xffffffff else count * 8) /\
  poll_fds_copy_len count = Z.min count 64 * 8.
Proof.
  intros Hc. unfold poll_fds_user_len, poll_fds_copy_len. split.
  - destruct (Z.ltb_spec 0x1fffffff count); [done|]. rewrite (u32_small count), u32_small; lia.
  - destruct (Z.ltb_spec 64 count); [lia|]. rewrite (u32_small count), u32_small; lia.
Qed.

Lemma poll_count_nonneg sys_id n : 0 <= poll_direct_count sys_id n.
Proof. unfold poll_direct_count. destruct (is_ppoll_direct_syscall _); apply Z.mod_pos_bound; lia. Qed.

Lemma capture_poll_fds_ok user_ptr count tlv_flags :
  0 <= count -> In tlv_flags [0; PAYLOAD_TLV_FLAG_DIRECTION_OUT] ->
  flags_capture (poll_fds_sections (payloadDirectionFromTLV tlv_flags) user_ptr count) (32 + 512)
    (capture_poll_fds_tlv_direct user_ptr count tlv_flags).
Proof.
  intros Hc Ht. unfold capture_poll_fds_tlv_direct, poll_fds_sections.
  destruct (poll_lengths count Hc) as [-> ->].
  replace (if 0x1fffffff <? count then 0xffffffff else count * 8) with (Z.min (count * 8) 0xffffffff)
    by (destruct (Z.ltb_spec 0x1fffffff count); lia).
  eapply (capture_slots_ok PayloadKindStruct); try done; cbn; lia.
Qed.

Lemma capture_poll_timeout_ok user_ptr tlv_flags :
  In tlv_flags [0; PAYLOAD_TLV_FLAG_DIRECTION_OUT] ->
  tlv_capture no_fault (time_section (payloadDirectionFromTLV tlv_flags) 2 user_ptr 16) (32 + 16)
    (capture_poll_timeout_tlv_direct user_ptr tlv_flags).
Proof. intros Ht. apply struct_sections_ok; [lia | done]. Qed.

Definition sigmask_sections (arg_index user_ptr sigset_size : Z) (secs : list PayloadSection) : Prop :=
  if (user_ptr =? 0) || (sigset_size =? 0) then secs = []
  else one_section (sized_section PayloadDirectionIn arg_index 8 (Z.min sigset_size 0xffffffff) user_ptr) secs.

Lemma clamp_u32_min n : 0 <= n -> payload_tlv_clamp_u32 n = Z.min n 0xffffffff.
Proof.
  intros Hn. unfold payload_tlv_clamp_u32. destruct (Z.ltb_spec 0xffffffff n); [lia|].
  rewrite u32_small; lia.
Qed.

Lemma capture_poll_sigmask_ok user_ptr sigset_size :
  0 <= sigset_size ->
  tlv_capture no_fault (sigmask_sections 3 user_ptr sigset_size) (32 + 8)
    (capture_poll_sigmask_tlv_direct user_ptr sigset_size).
Proof.
  intros Hn. apply tlv_capture_healthy. unfold capture_poll_sigmask_tlv_direct, sigmask_sections.
  intros w d buf off Hb Ho Hz. destruct (_ || _).
  { wp_step. split_and!; [lia | lia | by apply capturing_start with (off := off) in Hb as [C _ _] |].
    intros _. by eapply decodable_0. }
  rewrite clamp_u32_min by done.
  eapply (capture_sized_struct_ok 8 8 3 0); [lia | lia | lia | by left | exact Hb | lia | exact Hz].
Qed.

(** *** Records *)

Definition poll_enter_sections (sys_id : Z) (args : args6) : Z -> Z -> list PayloadSection -> Prop :=
  let fds := poll_fds_sections PayloadDirectionIn (arg0 args) (poll_direct_count sys_id (arg1 args)) in
  if is_ppoll_direct_syscall sys_id then
    flags_appended (flags_appended fds (unflagged (time_section PayloadDirectionIn 2 (arg2 args) 16)))
      (unflagged (sigmask_sections 3 (arg3 args) (arg4 args)))
  else fds.

Lemma emit_poll_enter_ok pid tid sys_id ctx ts :
  emitter (fun r => reads_flags_enter r pid tid sys_id ctx ts (-1)
      (poll_enter_sections sys_id (args_u64 (enter_args ctx)) EVENT_FLAG_GENERIC_ENTER))
    (emit_poll_enter_event_v2_direct pid tid sys_id ctx ts).
Proof.
  unfold emit_poll_enter_event_v2_direct, poll_enter_sections. set (args := args_u64 _). cbv zeta.
  pose proof (poll_count_nonneg sys_id (arg1 args)) as Hc.
  pose proof (capture_poll_fds_ok (arg0 args) _ 0 Hc ltac:(by left)) as Hf.
  destruct (is_ppoll_direct_syscall sys_id); (apply enter_flags_ok; [lia|]); [|exact Hf].
  apply flags_both_ok; [apply flags_both_ok; [exact Hf | | lia] | | lia]; apply same_flags_ok.
  - apply (capture_poll_timeout_ok _ 0). by left.
  - apply capture_poll_sigmask_ok, (args_u64_nonneg _ 4).
Qed.

Definition poll_exit_sections (sys_id : Z) (args : args6) : Z -> Z -> list PayloadSection -> Prop :=
  let fds := poll_fds_sections PayloadDirectionOut (arg0 args) (poll_direct_count sys_id (arg1 args)) in
  if is_ppoll_direct_syscall sys_id then
    flags_appended fds (unflagged (time_section PayloadDirectionOut 2 (arg2 args) 16))
  else fds.

Lemma emit_poll_exit_ok p rv dur :
  emitter (fun r => reads_pending_exit r p rv dur (decodes no_fault (flags_from 0)
      (poll_exit_sections (p_sys_id p) (p_args p) 0)))
    (emit_poll_exit_event_v2_direct p rv dur).
Proof.
  unfold emit_poll_exit_event_v2_direct, poll_exit_sections. set (args := p_args p). cbv zeta.
  pose proof (poll_count_nonneg (p_sys_id p) (arg1 args)) as Hc.
  pose proof (capture_poll_fds_ok (arg0 args) _ PAYLOAD_TLV_FLAG_DIRECTION_OUT Hc ltac:(right; by left)) as Hf.
  destruct (is_ppoll_direct_syscall (p_sys_id p)).
  - apply (exit_flags_capture_ok _ _ _ _ _ (flags_both _ _)); [lia|]. apply flags_both_ok; [exact Hf | | lia].
    apply same_flags_ok, (capture_poll_timeout_ok _ PAYLOAD_TLV_FLAG_DIRECTION_OUT). right. by left.
  - by apply exit_flags_capture_ok.
Qed.

(** *** epoll *)

Lemma epoll_sizes :
  8 <= EPOLL_DIRECT_EVENT_SIZE <= 16 /\ 0 <= EPOLL_DIRECT_EVENT_SLOT_MAX /\ EPOLL_DIRECT_EVENTS_MAX <= 504 /\
  EPOLL_DIRECT_EVENTS_MAX = EPOLL_DIRECT_EVENT_SLOT_MAX * EPOLL_DIRECT_EVENT_SIZE /\
  0xffffffff / EPOLL_DIRECT_EVENT_SIZE <= 0x1fffffff /\
  0xffffffff / EPOLL_DIRECT_EVENT_SIZE * EPOLL_DIRECT_EVENT_SIZE <= 0xffffffff.
Proof.
  unfold EPOLL_DIRECT_EVENTS_MAX, EPOLL_DIRECT_EVENT_SLOT_MAX, EPOLL_DIRECT_EVENT_SIZE.
  destruct target_arch; vm_compute; repeat split; discriminate.
Qed.

(** The length of the array as the record states it, and what is copied of it. *)
Lemma epoll_lengths count :
  0 <= epoll_events_user_len count < 2 ^ 32 /\
  (epoll_events_user_len count <> 0 -> 0 < count) /\
  epoll_events_copy_len count = Z.max 0 (Z.min count EPOLL_DIRECT_EVENT_SLOT_MAX) * EPOLL_DIRECT_EVENT_SIZE.
Proof.
  pose proof epoll_sizes as (S1 & S2 & S3 & S4 & S5 & S6).
  unfold epoll_events_user_len, epoll_events_copy_len.
  destruct (Z.leb_spec count 0); [split_and!; lia|]. split_and!.
  - destruct (_ <? _); [lia | apply u32_range].
  - destruct (_ <? _); [lia | apply u32_range].
  - done.
  - destruct (Z.ltb_spec EPOLL_DIRECT_EVENT_SLOT_MAX count); [rewrite S4; f_equal; lia|].
    assert (0 <= count * EPOLL_DIRECT_EVENT_SIZE <= 504) by nia.
    rewrite (u32_small count), u32_small by nia. f_equal. lia.
Qed.

(** The events returned: as many as fit in 504 bytes. *)
Definition epoll_events_sections (p : pending_syscall) (rv : Z) : Z -> Z -> list PayloadSection -> Prop :=
  slots_sections PayloadKindStruct PayloadDirectionOut 1 EPOLL_DIRECT_EVENT_SIZE
    (Z.max 0 (Z.min rv EPOLL_DIRECT_EVENT_SLOT_MAX)) (epoll_events_user_len rv) (arg1 (p_args p)).

Lemma capture_epoll_events_ok p rv :
  flags_capture (epoll_events_sections p rv) (32 + EPOLL_DIRECT_EVENTS_MAX) (capture_epoll_events_tlv_direct p rv).
Proof.
  pose proof epoll_sizes as (S1 & S2 & S3 & S4 & S5 & S6). pose proof (epoll_lengths rv) as (L1 & L2 & L3).
  unfold capture_epoll_events_tlv_direct, epoll_events_sections. rewrite L3.
  assert (EPOLL_DIRECT_EVENT_SLOT_MAX > 0) by (unfold EPOLL_DIRECT_EVENT_SLOT_MAX, EPOLL_DIRECT_EVENT_SIZE; by destruct target_arch).
  eapply (capture_slots_ok PayloadKindStruct); try done; try (cbn; lia); nia.
Qed.

Lemma emit_epoll_wait_exit_ok p rv dur :
  emitter (fun r => reads_pending_exit r p rv dur (decodes no_fault (flags_from 0) (epoll_events_sections p rv 0)))
    (emit_epoll_wait_exit_event_v2_direct p rv dur).
Proof.
  pose proof epoll_sizes as (S1 & S2 & S3 & S4 & S5 & S6).
  apply exit_flags_capture_ok; [nia | apply capture_epoll_events_ok].
Qed.

Lemma emit_epoll_ctl_enter_emits pid tid sys_id ctx cfg ts :
  keeps emits (emit_epoll_ctl_enter_event_v2_direct pid tid sys_id ctx cfg ts).
Proof.
  pose proof epoll_sizes as (S1 & _).
  apply (fd_paths_then_emits _ _ (fun args => time_section PayloadDirectionIn 3 (arg3 args) EPOLL_DIRECT_EVENT_SIZE)); [lia|].
  intros args. apply (struct_sections_ok _ 3 0); [lia | by left].
Qed.
Lemma emit_epoll_pwait2_enter_emits pid tid sys_id ctx cfg ts :
  keeps emits (emit_epoll_pwait2_enter_event_v2_direct pid tid sys_id ctx cfg ts).
Proof.
  apply (fd_paths_then_emits _ _ (fun args => time_section PayloadDirectionIn 3 (arg3 args) 16)); [lia|].
  intros args. apply (struct_sections_ok _ 3 0); [lia | by left].
Qed.

(** *** Candidates *)

Lemma collect_poll_emits sys_id user_ptr n : keeps emits (collect_poll_fd_path_candidates_direct sys_id user_ptr n).
Proof.
  unfold collect_poll_fd_path_candidates_direct, lookup_fd_path_scratch, poll_fd_path_scan_callback. keeps_solve.
  all: apply collect_fd_candidates_emits; intros; apply fd_scan_emits.
Qed.
Lemma collect_epoll_emits p rv : keeps emits (collect_epoll_fd_path_candidates_direct p rv).
Proof.
  unfold collect_epoll_fd_path_candidates_direct, lookup_fd_path_scratch, epoll_fd_path_scan_callback. keeps_solve.
  all: apply collect_fd_candidates_emits; intros; apply fd_scan_emits.
Qed.
End PollLemmas.

#[export] Hint Resolve emit_poll_enter_ok emit_poll_exit_ok emit_epoll_wait_exit_ok : emitters.
#[export] Hint Resolve emit_epoll_ctl_enter_emits emit_epoll_pwait2_enter_emits collect_poll_emits
  collect_epoll_emits : keeps.
