(* ===== verification/Select.v ===== *)
(** select and pselect6.

    Models [bpf/syscall_select_direct_event_v2.h],
    [bpf/syscall_select_capture_direct_event_v2.h] and
    [bpf/syscall_select_emit_direct_event_v2.h]: the descriptor sets, the
    timeout, the mask behind its wrapper, and the descriptors of the sets as
    candidates for nested paths. *)
From stdpp Require Import base list gmap numbers.
From S2P Require Import Prelude Syscalls Abi Kernel Consumer Stats Tlv Emit Decoder EventCore Payload Structs FdPath Paths Misc Captures Slots NestedFd.

Abbreviation SELECT_DIRECT_FDSET_SIZE := 128 (only parsing).
Abbreviation SELECT_DIRECT_TIMEVAL_SIZE := 16 (only parsing).
Abbreviation SELECT_DIRECT_PSELECT6_WRAPPER_SIZE := 16 (only parsing).
Abbreviation SELECT_DIRECT_PSELECT6_SIGMASK_SIZE := 8 (only parsing).
Abbreviation SELECT_DIRECT_PSELECT6_SIGMASK_ARG_INDEX := 6 (only parsing).
Abbreviation SELECT_DIRECT_CAPTURE_FDSETS := 1 (only parsing).
Abbreviation SELECT_DIRECT_CAPTURE_TIMEOUT := 2 (only parsing).
Abbreviation SELECT_DIRECT_CAPTURE_SIGMASK := 4 (only parsing).
Abbreviation SELECT_DIRECT_FD_PATH_MAX := FD_PATH_NESTED_MAX (only parsing).
Abbreviation SELECT_DIRECT_BASE_PAYLOAD_MAX :=
  (3 * (PAYLOAD_TLV_HEADER_SIZE + SELECT_DIRECT_FDSET_SIZE) +
   PAYLOAD_TLV_HEADER_SIZE + SELECT_DIRECT_TIMEVAL_SIZE) (only parsing).
Abbreviation SELECT_DIRECT_PSELECT6_PAYLOAD_MAX :=
  (SELECT_DIRECT_BASE_PAYLOAD_MAX +
   PAYLOAD_TLV_HEADER_SIZE + SELECT_DIRECT_PSELECT6_WRAPPER_SIZE +
   PAYLOAD_TLV_HEADER_SIZE + SELECT_DIRECT_PSELECT6_SIGMASK_SIZE) (only parsing).

Section Select.
Context {K : Kernel} {A : Arch}.

Definition is_select_direct_syscall (sys_id : Z) : bool := one_of sys_id [SYS_SELECT; SYS_PSELECT6].
Definition is_pselect6_direct_syscall (sys_id : Z) : bool := one_of sys_id [SYS_PSELECT6].

Definition select_direct_payload_capacity (sys_id : Z) : Z :=
  if is_pselect6_direct_syscall sys_id then SELECT_DIRECT_PSELECT6_PAYLOAD_MAX
  else SELECT_DIRECT_BASE_PAYLOAD_MAX.

Definition select_direct_fdset_user_len (nfds_raw : Z) : Z :=
  let nfds := s32 nfds_raw in
  if nfds <=? 0 then 0
  else if SELECT_DIRECT_FDSET_SIZE * 8 <? nfds then SELECT_DIRECT_FDSET_SIZE
  else (u32 nfds + 7) / 8.

(** ** The descriptor sets *)

(** [payload_data = bpf_dynptr_data(ptr, data_offset, n); return payload_data ?
    bpf_probe_read_user(payload_data, n, user_ptr) : -1;]. *)
Definition read_fdset_slot (ptr : dynptr) (data_offset user_ptr n : Z) : prog Z :=
  let* payload_data := bpf_dynptr_data ptr data_offset n in
  match payload_data with
  | None => ret (-1)
  | Some data => read_user_into data n user_ptr
  end.

Definition select_direct_read_fdset_small (ptr : dynptr) (data_offset user_ptr user_len : Z) : prog Z :=
  if user_len =? 1 then read_fdset_slot ptr data_offset user_ptr 1
  else if user_len =? 2 then read_fdset_slot ptr data_offset user_ptr 2
  else if user_len =? 3 then read_fdset_slot ptr data_offset user_ptr 3
  else read_fdset_slot ptr data_offset user_ptr 4.
Definition select_direct_read_fdset_medium (ptr : dynptr) (data_offset user_ptr user_len : Z) : prog Z :=
  if user_len =? 5 then read_fdset_slot ptr data_offset user_ptr 5
  else if user_len =? 6 then read_fdset_slot ptr data_offset user_ptr 6
  else if user_len =? 7 then read_fdset_slot ptr data_offset user_ptr 7
  else read_fdset_slot ptr data_offset user_ptr 8.
Definition select_direct_read_fdset_wide (ptr : dynptr) (data_offset user_ptr user_len : Z) : prog Z :=
  if user_len <=? 16 then read_fdset_slot ptr data_offset user_ptr 16
  else if user_len <=? 32 then read_fdset_slot ptr data_offset user_ptr 32
  else if user_len <=? 64 then read_fdset_slot ptr data_offset user_ptr 64
  else read_fdset_slot ptr data_offset user_ptr SELECT_DIRECT_FDSET_SIZE.

Definition capture_select_fdset_tlv_direct (user_ptr nfds arg_index tlv_flags : Z) (ptr : dynptr)
    (payload_offset : Z) : prog Z :=
  let user_len := select_direct_fdset_user_len nfds in
  if (user_len =? 0) || (user_ptr =? 0) then ret 0
  else
    let data_offset := payload_offset + PAYLOAD_TLV_HEADER_SIZE in
    let* err :=
      if user_len <=? 4 then select_direct_read_fdset_small ptr data_offset user_ptr user_len
      else if user_len <=? 8 then select_direct_read_fdset_medium ptr data_offset user_ptr user_len
      else select_direct_read_fdset_wide ptr data_offset user_ptr user_len in
    let '(copied_len, probe_ret) := if err <? 0 then (0, err) else (user_len, 0) in
    finish_section ptr payload_offset
      (TlvHeader PAYLOAD_TLV_KIND_BYTES arg_index tlv_flags user_len copied_len probe_ret user_ptr).

(** ** The timeout and the mask *)

Definition capture_select_timeout_tlv_direct (user_ptr tlv_flags : Z) : dynptr -> Z -> prog Z :=
  capture_struct_section SELECT_DIRECT_TIMEVAL_SIZE SELECT_DIRECT_TIMEVAL_SIZE SELECT_DIRECT_TIMEVAL_SIZE 4
    tlv_flags user_ptr.

Definition capture_pselect6_sigmask_tlv_direct (user_ptr raw_user_len arg_index tlv_flags : Z) (ptr : dynptr)
    (payload_offset : Z) : prog Z :=
  let user_len := payload_tlv_clamp_u32 raw_user_len in
  if (user_ptr =? 0) || (user_len =? 0) then ret 0
  else capture_sized_struct SELECT_DIRECT_PSELECT6_SIGMASK_SIZE
         (payload_tlv_copy_len raw_user_len SELECT_DIRECT_PSELECT6_SIGMASK_SIZE)
         arg_index tlv_flags user_len user_ptr ptr payload_offset.

(** The wrapper, then the mask it points to. *)
Definition capture_pselect6_sigmask_wrapper_tlv_direct (user_ptr tlv_flags : Z) (ptr : dynptr)
    (payload_offset : Z) : prog Z :=
  if user_ptr =? 0 then ret 0
  else
    capture_local_then false (fun _ => -1) PAYLOAD_TLV_KIND_STRUCT SELECT_DIRECT_PSELECT6_WRAPPER_SIZE 5 tlv_flags
      SELECT_DIRECT_PSELECT6_WRAPPER_SIZE user_ptr
      (fun wrapper ptr payload_offset =>
         let sigmask_ptr := le_val (slice wrapper 0 8) in
         let sigsetsize := le_val (slice wrapper 8 8) in
         if negb (sigmask_ptr =? 0) && (0 <? sigsetsize)
         then capture_pselect6_sigmask_tlv_direct sigmask_ptr sigsetsize
                SELECT_DIRECT_PSELECT6_SIGMASK_ARG_INDEX tlv_flags ptr payload_offset
         else ret 0) ptr payload_offset.

Definition capture_select_payloads_tlv_direct (args : args6) (tlv_flags capture_policy : Z)
    : dynptr -> Z -> prog Z :=
  both
    (capture_if (has_flag capture_policy SELECT_DIRECT_CAPTURE_FDSETS)
       (both (capture_select_fdset_tlv_direct (arg1 args) (arg0 args) 1 tlv_flags)
          (both (capture_select_fdset_tlv_direct (arg2 args) (arg0 args) 2 tlv_flags)
             (capture_select_fdset_tlv_direct (arg3 args) (arg0 args) 3 tlv_flags))))
    (both
       (capture_if (has_flag capture_policy SELECT_DIRECT_CAPTURE_TIMEOUT)
          (capture_select_timeout_tlv_direct (arg4 args) tlv_flags))
       (capture_if (has_flag capture_policy SELECT_DIRECT_CAPTURE_SIGMASK)
          (capture_pselect6_sigmask_wrapper_tlv_direct (arg5 args) tlv_flags))).

(** ** Records *)

Definition emit_select_enter_event_v2_direct (ctx : trace_event_raw_sys_enter) (pid tid ts_ns : Z) : prog unit :=
  let sys_id := u32 (enter_id ctx) in
  let capture_policy := Z.lor SELECT_DIRECT_CAPTURE_FDSETS SELECT_DIRECT_CAPTURE_TIMEOUT in
  let capture_policy := if is_pselect6_direct_syscall sys_id
                        then Z.lor capture_policy SELECT_DIRECT_CAPTURE_SIGMASK else capture_policy in
  enter_capture_emit (select_direct_payload_capacity sys_id) pid tid sys_id ctx ts_ns (-1)
    (capture_select_payloads_tlv_direct (args_u64 (enter_args ctx)) 0 capture_policy).

Definition emit_select_exit_event_v2_direct (p : pending_syscall) (ret_value duration : Z) : prog unit :=
  let capture_policy := SELECT_DIRECT_CAPTURE_TIMEOUT in
  let capture_policy := if 0 <? ret_value then Z.lor capture_policy SELECT_DIRECT_CAPTURE_FDSETS
                        else capture_policy in
  exit_capture_emit (select_direct_payload_capacity (p_sys_id p)) p ret_value duration
    (capture_select_payloads_tlv_direct (p_args p) PAYLOAD_TLV_FLAG_DIRECTION_OUT capture_policy).

(** ** Candidates *)

(** [bpf_probe_read_user(scratch->nested_fdset, n, user_ptr)]: the rest of the area stays. *)
Definition read_user_into_fdset (n user_ptr : Z) : prog Z :=
  let* (err, data) := bpf_probe_read_user n user_ptr in
  update_scratch (fun s => scratch_set_fdset (data ++ drop (Z.to_nat n) (sc_nested_fdset s)) s) ;;;
  ret err.

Definition read_select_fdset_candidates_direct (user_ptr user_len : Z) : prog Z :=
  if user_len =? FD_PATH_NESTED_SCAN_BYTES then read_user_into_fdset FD_PATH_NESTED_SCAN_BYTES user_ptr
  else
    let user_len := Z.land user_len (FD_PATH_NESTED_SCAN_BYTES - 1) in
    if user_len =? 0 then ret (-1) else read_user_into_fdset user_len user_ptr.

Definition select_fd_scan_callback (bit_count fd : Z) : prog bool :=
  let* count := scratch_get sc_nested_fd_count in
  if (bit_count <=? fd) || (SELECT_DIRECT_FD_PATH_MAX <=? count) then ret true
  else
    let byte_index := Z.land (Z.shiftr fd 3) (FD_PATH_NESTED_SCAN_BYTES - 1) in
    let* byte := scratch_get (fun s => nth (Z.to_nat byte_index) (sc_nested_fdset s) 0) in
    if negb (has_flag byte (Z.shiftl 1 (Z.land fd 7))) then ret false
    else update_scratch (fd_path_nested_add_candidate (s32 fd)) ;;; ret false.

Definition collect_select_fdset_candidates_direct (user_ptr nfds : Z) : prog unit :=
  let user_len := select_direct_fdset_user_len nfds in
  let* count := scratch_get sc_nested_fd_count in
  if (user_ptr =? 0) || (user_len =? 0) || (SELECT_DIRECT_FD_PATH_MAX <=? count) then ret tt
  else
    let* err := read_select_fdset_candidates_direct user_ptr user_len in
    if err <? 0 then ret tt
    else bpf_loop (Z.to_nat (FD_PATH_NESTED_SCAN_BYTES * 8)) (select_fd_scan_callback (u32 (user_len * 8))).

Definition collect_select_fd_path_candidates_direct (nfds readfds writefds exceptfds : Z) : prog Z :=
  let* scratch := lookup_fd_path_scratch in
  match scratch with
  | None => ret 0
  | Some _ =>
      update_scratch scratch_no_nested ;;;
      collect_select_fdset_candidates_direct readfds nfds ;;;
      collect_select_fdset_candidates_direct writefds nfds ;;;
      collect_select_fdset_candidates_direct exceptfds nfds ;;;
      scratch_get sc_nested_fd_count
  end.
End Select.

(** ** Contracts *)

Section SelectLemmas.
Context {K : Kernel} {A : Arch}.

Lemma fdset_len_range n : 0 <= select_direct_fdset_user_len n <= 128.
Proof.
  unfold select_direct_fdset_user_len. destruct (Z.leb_spec (s32 n) 0); [lia|].
  destruct (Z.ltb_spec (128 * 8) (s32 n)); [lia|]. rewrite u32_small by lia.
  assert ((s32 n + 7) / 8 < 129) by (apply Z.div_lt_upper_bound; lia).
  assert (0 <= (s32 n + 7) / 8) by (apply Z.div_pos; lia). lia.
Qed.

(** A slot wide enough for the set. *)
Lemma wp_read_fdset_slot d off size w0 w buf user_ptr m n (Q : Z -> world -> Prop) :
  capturing d off size w0 w buf -> 0 <= off -> 0 <= m <= n -> off + PAYLOAD_TLV_HEADER_SIZE + n <= size ->
  (forall w' b k, capturing d off size w0 w' b ->
     slice b (off + PAYLOAD_TLV_HEADER_SIZE) m = user_bytes k user_ptr m -> Q 0 w') ->
  (forall w' b e, capturing d off size w0 w' b -> read_failed user_ptr e -> Q e w') ->
  wp (read_fdset_slot (Some d) (off + PAYLOAD_TLV_HEADER_SIZE) user_ptr n) Q w.
Proof.
  intros C Ho Hm Hs H1 H2. unfold read_fdset_slot. wp_step. pose proof (cg_size _ _ _ _ _ _ C) as Hz.
  eapply wp_dynptr_data; [exact C | lia | |].
  - intros w1 C1. eapply wp_read_user_into; [exact C1 | lia | lia | lia |].
    intros w2 err bytes Hl [[-> ->]|He] C2; [|by eapply H2].
    apply (H1 _ _ (calls w1) C2). rewrite <- (user_bytes_prefix _ _ m n) by lia.
    assert (slice (put buf (off + PAYLOAD_TLV_HEADER_SIZE) (user_bytes (calls w1) user_ptr n))
              (off + PAYLOAD_TLV_HEADER_SIZE) n = user_bytes (calls w1) user_ptr n) as E
      by (apply slice_put_same; lia).
    set (b := put buf _ _) in *. rewrite <- E, slice_slice by lia. by rewrite Z.add_0_r.
  - intros w1 NF C1. wp_step. eapply H2; [exact C1 | solve_failed].
Qed.

Definition fdset_sections (dir : PayloadDirection) (arg_index user_ptr nfds : Z) (secs : list PayloadSection) : Prop :=
  let n := select_direct_fdset_user_len nfds in
  if (n =? 0) || (user_ptr =? 0) then secs = []
  else one_section (section_with PayloadKindBytes dir arg_index user_ptr
         (fun ulen data e => ulen = n /\ copied user_ptr n data e)) secs.

Lemma capture_select_fdset_ok user_ptr nfds arg_index tlv_flags :
  In tlv_flags [0; PAYLOAD_TLV_FLAG_DIRECTION_OUT] ->
  tlv_capture True (fdset_sections (payloadDirectionFromTLV tlv_flags) arg_index user_ptr nfds)
    (PAYLOAD_TLV_HEADER_SIZE + SELECT_DIRECT_FDSET_SIZE)
    (capture_select_fdset_tlv_direct user_ptr nfds arg_index tlv_flags).
Proof.
  intros Ht w d buf off Hb Ho Hz. unfold capture_select_fdset_tlv_direct, fdset_sections.
  pose proof (fdset_len_range nfds) as Hn. set (n := select_direct_fdset_user_len nfds) in *.
  pose proof (capturing_start d off w buf Hb) as C0.
  destruct ((n =? 0) || (user_ptr =? 0)).
  { wp_step. split_and!; [lia | lia | reflexivity |]. intros _. by eapply decodable_0. }
  assert (payloadDirectionFromTLV (u16 tlv_flags) = payloadDirectionFromTLV tlv_flags) as Hd
    by (cbn in Ht; by destruct Ht as [<-|[<-|[]]]).
  set (D := fun ulen data e => ulen = n /\ copied user_ptr n data e).
  wp_step. cbv zeta. set (o := off + PAYLOAD_TLV_HEADER_SIZE).
  set (Q := fun (err : Z) w1 =>
    exists b, capturing d off (zlen buf) w w1 b /\
      ((err = 0 /\ exists k, slice b o n = user_bytes k user_ptr n) \/ read_failed user_ptr err)).
  assert (forall m, n <= m <= 128 -> wp (read_fdset_slot (Some d) o user_ptr m) Q w) as Slot.
  { intros m Hm. eapply (wp_read_fdset_slot _ _ _ _ _ _ _ n m); [exact C0 | lia | lia | lia | |].
    - intros w1 b k C1 Hk. exists b. split; [done|]. left. split; [done|]. by exists k.
    - intros w1 b e C1 He. exists b. split; [done|]. by right. }
  eapply (wp_mono _ Q).
  { unfold select_direct_read_fdset_small, select_direct_read_fdset_medium, select_direct_read_fdset_wide.
    repeat case_test; apply Slot; lia. }
  intros err w1 (b & C1 & He). pose proof (cg_size _ _ _ _ _ _ C1) as Hz1.
  destruct (Z.ltb_spec err 0); cbv zeta beta iota.
  - eapply (wp_finish_with D); [exact C1|..]; try done; try lia. split; [done|]. right.
    split; [by rewrite slice_0|]. destruct He as [[? _]|?]; [lia|done].
  - eapply (wp_finish_with D); [exact C1|..]; try done; try lia. split; [done|]. left.
    split; [done|]. destruct He as [[_ ?]|[? _]]; [done|lia].
Qed.

(** The mask: at most eight bytes of the length the wrapper states. *)
Definition mask_sections (dir : PayloadDirection) (user_ptr raw_user_len arg_index : Z) (secs : list PayloadSection) : Prop :=
  if (user_ptr =? 0) || (raw_user_len =? 0) then secs = []
  else one_section (section_with PayloadKindStruct dir arg_index user_ptr (fun ulen data e =>
         ulen = Z.min raw_user_len 0xffffffff /\ copied user_ptr (Z.min raw_user_len 8) data e)) secs.

Lemma capture_pselect6_sigmask_ok user_ptr raw_user_len arg_index tlv_flags :
  0 <= raw_user_len -> In tlv_flags [0; PAYLOAD_TLV_FLAG_DIRECTION_OUT] ->
  tlv_capture True (mask_sections (payloadDirectionFromTLV tlv_flags) user_ptr raw_user_len arg_index)
    (PAYLOAD_TLV_HEADER_SIZE + SELECT_DIRECT_PSELECT6_SIGMASK_SIZE)
    (capture_pselect6_sigmask_tlv_direct user_ptr raw_user_len arg_index tlv_flags).
Proof.
  intros Hn Ht w d buf off Hb Ho Hz.
  unfold capture_pselect6_sigmask_tlv_direct, mask_sections.
  assert (payload_tlv_clamp_u32 raw_user_len = Z.min raw_user_len 0xffffffff) as ->.
  { unfold payload_tlv_clamp_u32. destruct (Z.ltb_spec 0xffffffff raw_user_len); [|rewrite u32_small]; lia. }
  assert (payload_tlv_copy_len raw_user_len 8 = Z.min raw_user_len 8) as ->.
  { unfold payload_tlv_copy_len. destruct (Z.ltb_spec 8 raw_user_len); [|rewrite u32_small]; lia. }
  replace (Z.min raw_user_len 0xffffffff =? 0) with (raw_user_len =? 0)
    by (destruct (Z.eqb_spec raw_user_len 0), (Z.eqb_spec (Z.min raw_user_len 0xffffffff) 0); lia || done).
  destruct (_ || _).
  { wp_step. split_and!; [lia | lia | reflexivity |]. intros _. by eapply decodable_0. }
  eapply (capture_sized_struct_ok 8 (Z.min raw_user_len 8)); [lia | lia | lia | done | exact Hb | lia | exact Hz].
Qed.

Definition wrapper_sections (dir : PayloadDirection) (user_ptr : Z) (secs : list PayloadSection) : Prop :=
  if user_ptr =? 0 then secs = []
  else local_then_sections PayloadKindStruct dir 5 16 16 user_ptr
         (fun wrapper => mask_sections dir (le_val (slice wrapper 0 8)) (le_val (slice wrapper 8 8)) 6) secs.

Lemma capture_pselect6_wrapper_ok user_ptr tlv_flags :
  In tlv_flags [0; PAYLOAD_TLV_FLAG_DIRECTION_OUT] ->
  tlv_capture True (wrapper_sections (payloadDirectionFromTLV tlv_flags) user_ptr) (32 + 16 + (32 + 8))
    (capture_pselect6_sigmask_wrapper_tlv_direct user_ptr tlv_flags).
Proof.
  intros Ht w d buf off Hb Ho Hz. unfold capture_pselect6_sigmask_wrapper_tlv_direct, wrapper_sections.
  destruct (user_ptr =? 0).
  { wp_step. split_and!; [lia | lia | reflexivity |]. intros _. by eapply decodable_0. }
  eapply (capture_local_then_ok True _ _ PayloadKindStruct); try eassumption; try done; try lia.
  intros wrapper _. pose proof (le_val_nonneg (slice wrapper 8 8)) as Hn.
  set (p := le_val (slice wrapper 0 8)). set (n := le_val (slice wrapper 8 8)) in *.
  destruct (negb (p =? 0) && (0 <? n)) eqn:E; [by apply capture_pselect6_sigmask_ok|].
  intros w' d' buf' off' Hb' Ho' Hz'. wp_step. split_and!; [lia | lia | reflexivity |]. intros _.
  eapply decodable_0; [by eapply capturing_start|]. unfold mask_sections.
  destruct (Z.eqb_spec p 0), (Z.eqb_spec n 0); cbn in *; try done. destruct (Z.ltb_spec 0 n); [done|lia].
Qed.

(** The sections a policy asks for. *)
Definition select_sections (dir : PayloadDirection) (args : args6) (fdsets timeout sigmask : bool)
    : list PayloadSection -> Prop :=
  appended
    (when fdsets (appended (fdset_sections dir 1 (arg1 args) (arg0 args))
       (appended (fdset_sections dir 2 (arg2 args) (arg0 args)) (fdset_sections dir 3 (arg3 args) (arg0 args)))))
    (appended (when timeout (time_section dir 4 (arg4 args) 16)) (when sigmask (wrapper_sections dir (arg5 args)))).

Lemma capture_select_payloads_ok args tlv_flags fdsets timeout sigmask policy :
  In tlv_flags [0; PAYLOAD_TLV_FLAG_DIRECTION_OUT] ->
  has_flag policy 1 = fdsets -> has_flag policy 2 = timeout -> has_flag policy 4 = sigmask ->
  tlv_capture True (select_sections (payloadDirectionFromTLV tlv_flags) args fdsets timeout sigmask)
    (480 + (48 + (if sigmask then 88 else 0))) (capture_select_payloads_tlv_direct args tlv_flags policy).
Proof.
  intros Ht <- <- <-. unfold capture_select_payloads_tlv_direct, select_sections.
  assert (forall user_ptr i, tlv_capture True (fdset_sections (payloadDirectionFromTLV tlv_flags) i user_ptr (arg0 args))
    160 (capture_select_fdset_tlv_direct user_ptr (arg0 args) i tlv_flags)) as Hf
    by (intros; by apply capture_select_fdset_ok).
  apply both_ok; [| apply both_ok |]; try (destruct (has_flag policy 4); lia).
  - apply capture_if_ok; [lia|]. apply (both_ok _ _ _ 160 320); [apply Hf | | lia].
    apply (both_ok _ _ _ 160 160); [apply Hf | apply Hf | lia].
  - apply capture_if_ok; [lia|]. by apply (capture_struct_section_ok 16 16 16).
  - destruct (has_flag policy 4); [|by apply tlv_capture_none].
    apply (capture_if_ok _ true); [lia|]. by apply capture_pselect6_wrapper_ok.
Qed.

Lemma emit_select_enter_ok ctx pid tid ts :
  let sys_id := u32 (enter_id ctx) in
  emitter (fun r => reads_capture_enter r pid tid sys_id ctx ts (-1)
      (select_sections PayloadDirectionIn (args_u64 (enter_args ctx)) true true (is_pselect6_direct_syscall sys_id)))
    (emit_select_enter_event_v2_direct ctx pid tid ts).
Proof.
  intros sys_id. unfold emit_select_enter_event_v2_direct, select_direct_payload_capacity. fold sys_id. cbv zeta.
  destruct (is_pselect6_direct_syscall sys_id); (apply enter_capture_ok; [lia|]);
    apply (capture_select_payloads_ok _ 0); try done; by left.
Qed.

Lemma emit_select_exit_ok p rv dur :
  emitter (fun r => reads_capture_exit r p rv dur
      (select_sections PayloadDirectionOut (p_args p) (0 <? rv) true false))
    (emit_select_exit_event_v2_direct p rv dur).
Proof.
  unfold emit_select_exit_event_v2_direct, select_direct_payload_capacity. cbv zeta.
  destruct (is_pselect6_direct_syscall (p_sys_id p)); (apply exit_capture_ok; [lia|]); destruct (0 <? rv);
    (eapply tlv_capture_cap; [apply (capture_select_payloads_ok _ PAYLOAD_TLV_FLAG_DIRECTION_OUT); try done; right; by left | lia]).
Qed.

(** *** Candidates *)

(** The descriptors below [n] that a set of bytes holds, in increasing order. *)
Definition in_set (data : list Z) (fd : Z) : bool := Z.testbit (nth (Z.to_nat (fd / 8)) data 0) (fd mod 8).
Definition set_fds (data : list Z) (n : Z) : list Z :=
  filter (fun fd => in_set data fd = true) (map Z.of_nat (seq 0 (Z.to_nat n))).

Lemma set_fds_succ data i :
  0 <= i -> set_fds data (i + 1) = set_fds data i ++ (if in_set data i then [i] else []).
Proof.
  intros Hi. unfold set_fds. replace (Z.to_nat (i + 1)) with (S (Z.to_nat i)) by lia.
  rewrite seq_S, map_app, list.filter_app, Nat.add_0_l. f_equal. cbn [map]. rewrite Z2Nat.id by lia.
  rewrite filter_cons, filter_nil. case_decide as E; [by rewrite E|]. by destruct (in_set data i).
Qed.

Lemma has_flag_testbit b k : 0 <= k -> has_flag b (Z.shiftl 1 k) = Z.testbit b k.
Proof.
  intros Hk. unfold has_flag. rewrite Z.shiftl_1_l.
  destruct (Z.testbit b k) eqn:E; destruct (Z.eqb_spec (Z.land b (2 ^ k)) 0) as [H0|H0]; cbn; try done.
  - apply (f_equal (fun z => Z.testbit z k)) in H0.
    rewrite Z.land_spec, E, Z.pow2_bits_true, Z.bits_0 in H0 by lia. done.
  - exfalso. apply H0. apply Z.bits_inj'. intros j Hj. rewrite Z.land_spec, Z.bits_0.
    destruct (Z.eq_dec j k) as [->|]; [by rewrite E|]. by rewrite Z.pow2_bits_false, andb_false_r by lia.
Qed.

(** The first four descriptors scanned. *)
Definition holds_first (l : list Z) (s : fd_path_scratch) : Prop :=
  nested_fds s = take 4 (distinct l) /\ sc_nested_fd_count s = zlen (take 4 (distinct l)).

Lemma distinct_app_prefix l l' : exists r, distinct (l ++ l') = distinct l ++ r.
Proof.
  induction l' as [|x l' IH] using rev_ind; [exists []; by rewrite !app_nil_r|]. destruct IH as [r E].
  rewrite app_assoc, distinct_snoc, E. case_bool_decide; [by exists r|]. exists (r ++ [x]). by rewrite app_assoc.
Qed.

Lemma holds_first_full l l' s : holds_first l s -> 4 <= sc_nested_fd_count s -> holds_first (l ++ l') s.
Proof.
  intros [Hf Hc] H4. destruct (distinct_app_prefix l l') as [r E]. unfold holds_first.
  assert (length (take 4 (distinct l)) <= length (distinct l))%nat by (rewrite length_take; lia).
  rewrite E, take_app_le by (unfold zlen in Hc; lia). done.
Qed.

Lemma add_candidate_holds l fd s :
  holds_first l s -> holds_first (l ++ [fd]) (fd_path_nested_add_candidate fd s).
Proof.
  intros [Hf Hc]. assert (length (take 4 (distinct l)) <= 4)%nat as L4 by (rewrite length_take; lia).
  assert (0 <= sc_nested_fd_count s <= 4) as Hr by (unfold zlen in Hc; lia).
  unfold fd_path_nested_add_candidate. destruct (Z.leb_spec 4 (sc_nested_fd_count s)) as [H4|H4]; cbn [orb].
  { by apply holds_first_full. }
  assert (length (distinct l) < 4)%nat as Hl.
  { unfold zlen in Hc. rewrite length_take in Hc. lia. }
  rewrite take_ge in Hf, Hc by lia. pose proof (candidate_exists_spec s fd Hr) as He. rewrite Hf in He.
  unfold holds_first. rewrite distinct_snoc.
  destruct (fd_path_nested_candidate_exists s fd); case_bool_decide as Hx; try tauto.
  - by rewrite take_ge by lia.
  - exfalso. by apply He in Hx.
  - rewrite take_ge by (rewrite length_app; cbn; lia). rewrite <- Hf in *. clear He Hx Hl Hf L4 Hr. unfold nested_fds in *.
    assert (sc_nested_fd_count s = 0 \/ sc_nested_fd_count s = 1 \/ sc_nested_fd_count s = 2 \/
            sc_nested_fd_count s = 3) as [->|[->|[->| ->]]] by (unfold zlen in Hc; lia); done.
Qed.

Lemma add_candidate_fdset fd s : sc_nested_fdset (fd_path_nested_add_candidate fd s) = sc_nested_fdset s.
Proof. unfold fd_path_nested_add_candidate. repeat case_match; done. Qed.

Lemma wp_scratch_get f s w (Q : Z -> world -> Prop) :
  scratch w !! cur_cpu (running w) = Some s -> Q (f s) w -> wp (scratch_get f) Q w.
Proof. intros E H. unfold scratch_get. wp_step. by rewrite E. Qed.

(** The scratch area after the sets [l] were scanned. *)
Definition scanned_sets (l : list Z) (fdset : list Z) (w : world) : Prop :=
  exists s, scratch w !! cur_cpu (running w) = Some s /\ sc_nested_fdset s = fdset /\ holds_first l s.

Lemma scanned_sets_full l l' fdset w s :
  scratch w !! cur_cpu (running w) = Some s -> 4 <= sc_nested_fd_count s ->
  scanned_sets l fdset w -> scanned_sets (l ++ l') fdset w.
Proof.
  intros E H4 (s' & E' & Hd & Hf). rewrite E' in E. injection E as ->. exists s.
  split; [done|]. split; [done|]. by apply holds_first_full.
Qed.

(** One bit of a set. *)
Lemma wp_select_bit data fdset nbits l i w :
  0 <= i < 1024 -> (i < nbits -> nth (Z.to_nat (i / 8)) fdset 0 = nth (Z.to_nat (i / 8)) data 0) ->
  scanned_sets (l ++ set_fds data i) fdset w ->
  wp (select_fd_scan_callback nbits i) (fun stop w' =>
    (stop = false /\ i < nbits /\ scanned_sets (l ++ set_fds data (i + 1)) fdset w') \/
    (stop = true /\ w' = w /\ (nbits <= i \/ forall l', scanned_sets ((l ++ set_fds data i) ++ l') fdset w))) w.
Proof.
  intros Hi Hd HS. destruct HS as (s & E & HF & Hh). unfold select_fd_scan_callback. wp_step.
  eapply wp_scratch_get; [exact E|]. destruct (Z.leb_spec nbits i); cbn [orb]; [wp_step; by right; auto|].
  destruct (Z.leb_spec 4 (sc_nested_fd_count s)).
  { wp_step. right. split_and!; [done | done |]. right. intros l'. eapply scanned_sets_full; [exact E | done |].
    by exists s. }
  wp_steps. eapply wp_scratch_get; [exact E|]. rewrite set_fds_succ by lia.
  assert (Z.land (Z.shiftr i 3) (128 - 1) = i / 8) as ->.
  { change (128 - 1) with (Z.ones 7). rewrite Z.land_ones, Z.shiftr_div_pow2 by lia. change (2 ^ 3) with 8.
    apply Z.mod_small. split; [apply Z.div_pos; lia | apply Z.div_lt_upper_bound; lia]. }
  assert (Z.land i 7 = i mod 8) as -> by (change 7 with (Z.ones 3); rewrite Z.land_ones by lia; done).
  rewrite has_flag_testbit by (apply Z.mod_pos_bound; lia). rewrite HF, Hd by lia.
  fold (in_set data i). destruct (in_set data i); cbn [negb].
  - wp_step. eapply wp_scratch_update; [exact E|]. intros w' _ E'. wp_step. left. split_and!; [done | lia |].
    eexists. split; [exact E'|]. rewrite add_candidate_fdset. split; [done|].
    rewrite app_assoc. replace (s32 i) with i by (symmetry; apply to_signed_small; lia). by apply add_candidate_holds.
  - wp_step. left. split_and!; [done | lia |]. rewrite app_nil_r. by exists s.
Qed.

Lemma wp_select_scan data fdset nbits l w :
  0 <= nbits <= 1024 ->
  (forall i, 0 <= i < nbits -> nth (Z.to_nat (i / 8)) fdset 0 = nth (Z.to_nat (i / 8)) data 0) ->
  scanned_sets l fdset w ->
  wp (bpf_loop (Z.to_nat (128 * 8)) (select_fd_scan_callback nbits))
    (fun _ w' => scanned_sets (l ++ set_fds data nbits) fdset w') w.
Proof.
  intros Hn Hd HS. unfold bpf_loop.
  eapply (wp_for_loop (fun i _ w' => i <= nbits /\ scanned_sets (l ++ set_fds data i) fdset w'))
    with (bound := 1024); [lia | | |].
  - intros i [] w1 Hi [Hin H1]. wp_step.
    eapply wp_mono; [apply (wp_select_bit data fdset nbits l); [lia | intros; apply Hd; lia | done]|].
    intros stop w2 [(-> & Hlt & H2)|(-> & -> & [Hge|Hfull])]; wp_step.
    + split; [lia | done].
    + by replace nbits with i by lia.
    + assert (exists r, set_fds data nbits = set_fds data i ++ r) as [r ->]; [|by rewrite app_assoc].
      clear - Hin Hi. unfold set_fds. replace (Z.to_nat nbits) with (Z.to_nat i + (Z.to_nat nbits - Z.to_nat i))%nat by lia.
      rewrite seq_app, map_app, list.filter_app. by eexists.
  - intros [] w1 [Hin H1]. by replace nbits with 1024 by lia.
  - split; [lia|]. by rewrite app_nil_r.
Qed.

(** What a set contributes: its descriptors as they were read, or nothing. *)
Definition set_found (user_ptr nfds : Z) (l : list Z) : Prop :=
  let n := select_direct_fdset_user_len nfds in
  (l = [] /\ (user_ptr = 0 \/ n = 0 \/ exists e, read_failed user_ptr e)) \/
  exists k, l = set_fds (user_bytes k user_ptr n) (n * 8).

Lemma wp_read_into_fdset n user_ptr l fdset w :
  0 <= n -> scanned_sets l fdset w ->
  wp (read_user_into_fdset n user_ptr) (fun err w' =>
    exists fdset', scanned_sets l fdset' w' /\
    ((err = 0 /\ exists k, forall i, (i < Z.to_nat n)%nat -> nth i fdset' 0 = nth i (user_bytes k user_ptr n) 0) \/
     read_failed user_ptr err)) w.
Proof.
  intros Hn (s & E & HF & Hh). unfold read_user_into_fdset. wp_step.
  pose proof (probe_read_user_result n user_ptr w) as Rd. pose proof (bpf_probe_read_user_quiet n user_ptr w) as Qt.
  unfold wp at 1. destruct (bpf_probe_read_user n user_ptr w) as [[err data] w1]. cbn [fst snd] in *.
  destruct (Rd Hn) as [Hl Hr]. destruct Qt as [[[Hrun _ _ _] Hs _] _]. rewrite <- Hrun, <- Hs in E. wp_step.
  eapply wp_scratch_update; [exact E|]. intros w2 _ E2. wp_step. eexists. split.
  { eexists. split; [exact E2|]. split; [reflexivity | exact Hh]. }
  destruct Hr as [[-> ->]|[He _]]; [left | by right]. split; [done|]. exists (calls w). intros i Hi. cbn.
  apply app_nth1. unfold zlen in Hl. lia.
Qed.

Lemma wp_collect_set user_ptr nfds l fdset w :
  scanned_sets l fdset w ->
  wp (collect_select_fdset_candidates_direct user_ptr nfds)
    (fun _ w' => exists l' fdset', set_found user_ptr nfds l' /\ scanned_sets (l ++ l') fdset' w') w.
Proof.
  intros HS. pose proof HS as (s & E & HF & Hh). unfold collect_select_fdset_candidates_direct, set_found.
  pose proof (fdset_len_range nfds) as Hn. set (n := select_direct_fdset_user_len nfds) in *. cbv zeta. wp_step.
  eapply wp_scratch_get; [exact E|].
  destruct (Z.eqb_spec user_ptr 0); cbn [orb].
  { wp_step. exists [], fdset. rewrite app_nil_r. split; [left; auto | done]. }
  destruct (Z.eqb_spec n 0); cbn [orb].
  { wp_step. exists [], fdset. rewrite app_nil_r. split; [left; auto | done]. }
  destruct (Z.leb_spec 4 (sc_nested_fd_count s)).
  { wp_step. eexists _, fdset. split; [right; by exists 0%nat|]. by eapply scanned_sets_full. }
  wp_step.
  assert (read_select_fdset_candidates_direct user_ptr n = read_user_into_fdset n user_ptr) as ->.
  { unfold read_select_fdset_candidates_direct. destruct (Z.eqb_spec n 128) as [->|]; [done|].
    change (128 - 1) with (Z.ones 7). rewrite Z.land_ones, Z.mod_small by lia.
    by destruct (Z.eqb_spec n 0). }
  eapply wp_mono; [apply (wp_read_into_fdset n _ l fdset); [lia | done]|].
  intros err w1 (fdset' & H1 & [[-> [k Hk]]|He]).
  - cbn [Z.ltb Z.compare]. rewrite u32_small by lia. eapply wp_mono.
    + apply (wp_select_scan (user_bytes k user_ptr n) fdset' (n * 8) l); [lia | | done].
      intros i Hi. apply Hk. assert (i / 8 < n) by (apply Z.div_lt_upper_bound; lia).
      assert (0 <= i / 8) by (apply Z.div_pos; lia). lia.
    + intros [] w2 H2. eexists _, fdset'. split; [right; by exists k | exact H2].
  - destruct (Z.ltb_spec err 0); [|destruct He; lia]. wp_step. exists [], fdset'.
    rewrite app_nil_r. split; [left; split; [done|]; right; right; by exists err | done].
Qed.

(** The candidates: the first four distinct descriptors of the three sets. *)
Lemma wp_collect_select nfds readfds writefds exceptfds s w :
  scratch w !! cur_cpu (running w) = Some s ->
  wp (collect_select_fd_path_candidates_direct nfds readfds writefds exceptfds) (fun n w' =>
    exists l1 l2 l3 s', set_found readfds nfds l1 /\ set_found writefds nfds l2 /\ set_found exceptfds nfds l3 /\
      scratch w' !! cur_cpu (running w') = Some s' /\
      nested_fds s' = take 4 (distinct (l1 ++ l2 ++ l3)) /\ n = zlen (nested_fds s')) w.
Proof.
  intros E. unfold collect_select_fd_path_candidates_direct, lookup_fd_path_scratch. wp_steps. rewrite E. wp_step.
  eapply wp_scratch_update; [exact E|]. intros w0 _ E0. wp_step.
  eapply wp_mono; [apply (wp_collect_set _ _ [] (sc_nested_fdset s)); by exists (scratch_no_nested s)|].
  intros [] w1 (l1 & f1 & H1 & S1). wp_step.
  eapply wp_mono; [by eapply wp_collect_set|]. intros [] w2 (l2 & f2 & H2 & S2). wp_step.
  eapply wp_mono; [by eapply wp_collect_set|]. intros [] w3 (l3 & f3 & H3 & s' & E' & _ & Hf & Hc).
  eapply wp_scratch_get; [exact E'|]. exists l1, l2, l3, s'. split_and!; try done.
  - by rewrite Hf, !app_nil_l, app_assoc.
  - by rewrite Hf, Hc.
Qed.

Lemma read_fdset_emits user_ptr n : keeps emits (read_select_fdset_candidates_direct user_ptr n).
Proof. unfold read_select_fdset_candidates_direct, read_user_into_fdset. keeps_solve. Qed.
Hint Resolve read_fdset_emits : keeps.
Lemma collect_set_emits user_ptr nfds : keeps emits (collect_select_fdset_candidates_direct user_ptr nfds).
Proof.
  unfold collect_select_fdset_candidates_direct, bpf_loop, select_fd_scan_callback. keeps_solve.
  apply keeps_for_loop; [apply _|]. keeps_solve.
Qed.
Hint Resolve collect_set_emits : keeps.
Lemma collect_select_emits n r x e : keeps emits (collect_select_fd_path_candidates_direct n r x e).
Proof. unfold collect_select_fd_path_candidates_direct, lookup_fd_path_scratch. keeps_solve. Qed.
End SelectLemmas.

#[export] Hint Resolve emit_select_enter_ok emit_select_exit_ok : emitters.
#[export] Hint Resolve collect_select_emits : keeps.
