(* ===== verification/Aio.v ===== *)
(** Asynchronous I/O.

    Models [bpf/syscall_aio_core_direct_event_v2.h],
    [bpf/syscall_aio_capture_direct_event_v2.h],
    [bpf/syscall_aio_cancel_capture_direct_event_v2.h],
    [bpf/syscall_aio_emit_direct_event_v2.h] and the [getevents] headers: the
    control blocks submitted with the vectors and buffers they point to, the
    events collected, timeouts and masks. *)
From stdpp Require Import base list gmap numbers.
From S2P Require Import Prelude Syscalls Abi Kernel Consumer Stats Tlv Emit Decoder EventCore Payload Structs FdPath Paths Misc Captures Slots.

Abbreviation AIO_SETUP_DIRECT_CTX_SIZE := 8 (only parsing).
Abbreviation AIO_SUBMIT_DIRECT_POINTER_SIZE := 8 (only parsing).
Abbreviation AIO_SUBMIT_DIRECT_POINTERS_MAX := 64 (only parsing).
Abbreviation AIO_SUBMIT_DIRECT_POINTER_SLOT_MAX := 8 (only parsing).
Abbreviation AIO_SUBMIT_DIRECT_IOCB_MAX := 5 (only parsing).
Abbreviation AIO_SUBMIT_DIRECT_IOCB_ARG_BASE := 20 (only parsing).
Abbreviation AIO_SUBMIT_DIRECT_IOCB_SIZE := 64 (only parsing).
Abbreviation AIO_SUBMIT_DIRECT_IOVEC_MAX := 2 (only parsing).
Abbreviation AIO_SUBMIT_DIRECT_IOVEC_SIZE := 16 (only parsing).
Abbreviation AIO_SUBMIT_DIRECT_IOVEC_ARG_BASE := 40 (only parsing).
Abbreviation AIO_SUBMIT_DIRECT_BUF_ARG_BASE := 60 (only parsing).
Abbreviation AIO_SUBMIT_DIRECT_BUF_MAX := 32 (only parsing).
Abbreviation AIO_SUBMIT_DIRECT_NESTED_IOCB_MAX := 4 (only parsing).
Abbreviation AIO_SUBMIT_DIRECT_MAX_PAYLOAD :=
  (PAYLOAD_TLV_HEADER_SIZE + AIO_SUBMIT_DIRECT_POINTERS_MAX +
   AIO_SUBMIT_DIRECT_IOCB_MAX * (PAYLOAD_TLV_HEADER_SIZE + AIO_SUBMIT_DIRECT_IOCB_SIZE +
     PAYLOAD_TLV_HEADER_SIZE + AIO_SUBMIT_DIRECT_IOVEC_MAX * AIO_SUBMIT_DIRECT_IOVEC_SIZE)) (only parsing).
Abbreviation AIO_CANCEL_DIRECT_IOCB_SIZE := 64 (only parsing).
Abbreviation AIO_GETEVENTS_DIRECT_TIMEOUT_SIZE := 16 (only parsing).
Abbreviation AIO_GETEVENTS_DIRECT_EVENT_SIZE := 32 (only parsing).
Abbreviation AIO_GETEVENTS_DIRECT_EVENTS_MAX := 512 (only parsing).
Abbreviation AIO_GETEVENTS_DIRECT_EVENT_SLOT_MAX := 16 (only parsing).
Abbreviation AIO_PGETEVENTS_DIRECT_SIGSET_SIZE := 16 (only parsing).
Abbreviation AIO_PGETEVENTS_DIRECT_SIGMASK_MAX := 8 (only parsing).
Abbreviation AIO_PGETEVENTS_DIRECT_MAX_PAYLOAD :=
  (PAYLOAD_TLV_HEADER_SIZE + AIO_GETEVENTS_DIRECT_TIMEOUT_SIZE +
   PAYLOAD_TLV_HEADER_SIZE + AIO_PGETEVENTS_DIRECT_SIGSET_SIZE +
   PAYLOAD_TLV_HEADER_SIZE + AIO_PGETEVENTS_DIRECT_SIGMASK_MAX) (only parsing).

Section Aio.
Context {K : Kernel} {A : Arch}.

Definition is_aio_getevents_direct_syscall (sys_id : Z) : bool :=
  one_of sys_id [SYS_IO_GETEVENTS; SYS_IO_PGETEVENTS].
Definition is_aio_pgetevents_direct_syscall (sys_id : Z) : bool := one_of sys_id [SYS_IO_PGETEVENTS].
Definition is_aio_setup_direct_syscall (sys_id : Z) : bool := one_of sys_id [SYS_IO_SETUP].
Definition is_aio_submit_direct_syscall (sys_id : Z) : bool := one_of sys_id [SYS_IO_SUBMIT].
Definition is_aio_cancel_direct_syscall (sys_id : Z) : bool := one_of sys_id [SYS_IO_CANCEL].

(** ** [io_submit] *)

Definition capture_aio_setup_ctx_tlv_direct (user_ptr : Z) : dynptr -> Z -> prog Z :=
  capture_struct_section AIO_SETUP_DIRECT_CTX_SIZE AIO_SETUP_DIRECT_CTX_SIZE AIO_SETUP_DIRECT_CTX_SIZE 1
    PAYLOAD_TLV_FLAG_DIRECTION_OUT user_ptr.

Definition aio_submit_pointer_user_len (count : Z) : Z :=
  if count <=? 0 then 0
  else if 0x1fffffff <? count then 0xffffffff
  else u32 (u32 count * AIO_SUBMIT_DIRECT_POINTER_SIZE).
Definition aio_submit_pointer_copy_len (count : Z) : Z :=
  if count <=? 0 then 0
  else if AIO_SUBMIT_DIRECT_POINTERS_MAX / AIO_SUBMIT_DIRECT_POINTER_SIZE <? count
  then AIO_SUBMIT_DIRECT_POINTERS_MAX
  else u32 (u32 count * AIO_SUBMIT_DIRECT_POINTER_SIZE).

Definition capture_aio_submit_pointers_tlv_direct (args : args6) (ptr : dynptr) (payload_offset : Z) : prog Z :=
  let count := s64 (arg1 args) in
  let user_len := aio_submit_pointer_user_len count in
  let user_ptr := arg2 args in
  if (user_len =? 0) || (user_ptr =? 0) then ret 0
  else capture_plain_slots PAYLOAD_TLV_KIND_STRUCT 2 0 (Z.to_nat AIO_SUBMIT_DIRECT_POINTER_SLOT_MAX)
         AIO_SUBMIT_DIRECT_POINTER_SIZE user_len (aio_submit_pointer_copy_len count) user_ptr ptr payload_offset.

(** A section whose header is written before its data: [len] of the [n] bytes read. *)
Definition capture_header_first (kind arg_index n len user_ptr : Z) (ptr : dynptr) (payload_offset : Z) : prog Z :=
  let* (err, data) := bpf_probe_read_user n user_ptr in
  let probe_ret := if err <? 0 then err else 0 in
  let* ok := payload_tlv_write_header_direct ptr payload_offset
    (TlvHeader kind arg_index 0 len (if err <? 0 then 0 else len) probe_ret user_ptr) in
  if negb ok then ret 0
  else if err <? 0 then ret PAYLOAD_TLV_HEADER_SIZE
  else
    let* err := bpf_dynptr_write ptr (payload_offset + PAYLOAD_TLV_HEADER_SIZE) (take (Z.to_nat len) data) in
    if err <? 0 then record_ringbuf_copy_fail ;;; ret PAYLOAD_TLV_HEADER_SIZE
    else ret (PAYLOAD_TLV_HEADER_SIZE + len).

Definition capture_aio_submit_iocb_tlv_direct (index iocb_ptr : Z) (ptr : dynptr) (payload_offset : Z) : prog Z :=
  if (iocb_ptr =? 0) || (AIO_SUBMIT_DIRECT_IOCB_MAX <=? index) then ret 0
  else capture_header_first PAYLOAD_TLV_KIND_STRUCT (AIO_SUBMIT_DIRECT_IOCB_ARG_BASE + index)
         AIO_SUBMIT_DIRECT_IOCB_SIZE AIO_SUBMIT_DIRECT_IOCB_SIZE iocb_ptr ptr payload_offset.

(** [iocb_data[i]] of the control block read as [u64 iocb_data[8]]. *)
Definition iocb_word (iocb_data : list Z) (i : Z) : Z := le_val (slice iocb_data (i * 8) 8).
Definition iocb_opcode (iocb_data : list Z) : Z := u16 (Z.land (iocb_word iocb_data 2) 0xffff).

Definition capture_aio_submit_iocb_iovec_tlv_direct (index : Z) (iocb_data : list Z) (ptr : dynptr)
    (payload_offset : Z) : prog Z :=
  let opcode := iocb_opcode iocb_data in
  if negb (opcode =? 7) && negb (opcode =? 8) then ret 0
  else
    let iov_ptr := iocb_word iocb_data 3 in
    let iov_count := iocb_word iocb_data 4 in
    if (iov_ptr =? 0) || (iov_count =? 0) || (AIO_SUBMIT_DIRECT_NESTED_IOCB_MAX <=? index) then ret 0
    else
      let iov_count := if AIO_SUBMIT_DIRECT_IOVEC_MAX <? iov_count then AIO_SUBMIT_DIRECT_IOVEC_MAX else iov_count in
      let user_len := u32 (u32 iov_count * AIO_SUBMIT_DIRECT_IOVEC_SIZE) in
      capture_plain_slots PAYLOAD_TLV_KIND_IOVEC (AIO_SUBMIT_DIRECT_IOVEC_ARG_BASE + index) 0
        (Z.to_nat AIO_SUBMIT_DIRECT_IOVEC_MAX) AIO_SUBMIT_DIRECT_IOVEC_SIZE user_len
        (iov_count * AIO_SUBMIT_DIRECT_IOVEC_SIZE) iov_ptr ptr payload_offset.

Definition capture_aio_submit_iocb_buf_tlv_direct (index : Z) (iocb_data : list Z) (ptr : dynptr)
    (payload_offset : Z) : prog Z :=
  if negb (iocb_opcode iocb_data =? 1) then ret 0
  else
    let buf_ptr := iocb_word iocb_data 3 in
    let buf_len := iocb_word iocb_data 4 in
    if (buf_ptr =? 0) || (buf_len =? 0) || (AIO_SUBMIT_DIRECT_NESTED_IOCB_MAX <=? index) then ret 0
    else
      let buf_len := if AIO_SUBMIT_DIRECT_BUF_MAX <? buf_len then AIO_SUBMIT_DIRECT_BUF_MAX else buf_len in
      capture_header_first PAYLOAD_TLV_KIND_BYTES (AIO_SUBMIT_DIRECT_BUF_ARG_BASE + index)
        AIO_SUBMIT_DIRECT_BUF_MAX buf_len buf_ptr ptr payload_offset.

(** The pointer in slot [i]; a slot that cannot be read is passed over. *)
Definition next_iocb_ptr (user_ptr count i : Z) : prog (slot_item Z) :=
  if count <=? i then ret Stop
  else
    let* iocb_ptr := read_user_member AIO_SUBMIT_DIRECT_POINTER_SIZE (slot_ptr user_ptr AIO_SUBMIT_DIRECT_POINTER_SIZE i) in
    ret (match iocb_ptr with Some p => Take p | None => Skip end).

(** The control block behind it. *)
Definition next_iocb (user_ptr count i : Z) : prog (slot_item (list Z)) :=
  let* slot := next_iocb_ptr user_ptr count i in
  match slot with
  | Stop => ret Stop
  | Skip => ret Skip
  | Take iocb_ptr =>
      if iocb_ptr =? 0 then ret Skip
      else
        let* (err, iocb_data) := bpf_probe_read_user AIO_SUBMIT_DIRECT_IOCB_SIZE iocb_ptr in
        ret (if err <? 0 then Skip else Take iocb_data)
  end.

(** The three loops: the control blocks, their vectors, their buffers. *)
Definition capture_aio_submit_iocbs_tlv_direct (args : args6) : Z -> dynptr -> Z -> prog (Z * Z) :=
  let count := s64 (arg1 args) in
  if (count <=? 0) || (arg2 args =? 0) then no_capture
  else capture_each (Z.to_nat AIO_SUBMIT_DIRECT_IOCB_MAX) (next_iocb_ptr (arg2 args) count)
         (fun i iocb_ptr => same_flags (capture_aio_submit_iocb_tlv_direct i iocb_ptr)) 0.
Definition capture_aio_submit_iocbs_iovec_tlv_direct (args : args6) : Z -> dynptr -> Z -> prog (Z * Z) :=
  let count := s64 (arg1 args) in
  if (count <=? 0) || (arg2 args =? 0) then no_capture
  else capture_each (Z.to_nat AIO_SUBMIT_DIRECT_NESTED_IOCB_MAX) (next_iocb (arg2 args) count)
         (fun i iocb_data => same_flags (capture_aio_submit_iocb_iovec_tlv_direct i iocb_data)) 0.
Definition capture_aio_submit_iocbs_buf_tlv_direct (args : args6) : Z -> dynptr -> Z -> prog (Z * Z) :=
  let count := s64 (arg1 args) in
  if (count <=? 0) || (arg2 args =? 0) then no_capture
  else capture_each (Z.to_nat AIO_SUBMIT_DIRECT_NESTED_IOCB_MAX) (next_iocb (arg2 args) count)
         (fun i iocb_data => same_flags (capture_aio_submit_iocb_buf_tlv_direct i iocb_data)) 0.

(** ** [io_cancel], [io_getevents], [io_pgetevents] *)

Definition capture_aio_cancel_iocb_tlv_direct (user_ptr : Z) : dynptr -> Z -> prog Z :=
  capture_struct_section AIO_CANCEL_DIRECT_IOCB_SIZE AIO_CANCEL_DIRECT_IOCB_SIZE AIO_CANCEL_DIRECT_IOCB_SIZE
    1 0 user_ptr.

Definition aio_getevents_user_len (count : Z) : Z :=
  if count <=? 0 then 0
  else if 0x07ffffff <? count then 0xffffffff
  else u32 (u32 count * AIO_GETEVENTS_DIRECT_EVENT_SIZE).
Definition aio_getevents_copy_len (count : Z) : Z :=
  if count <=? 0 then 0
  else if AIO_GETEVENTS_DIRECT_EVENT_SLOT_MAX <? count then AIO_GETEVENTS_DIRECT_EVENTS_MAX
  else u32 (u32 count * AIO_GETEVENTS_DIRECT_EVENT_SIZE).

Definition capture_aio_getevents_timeout_tlv_direct (user_ptr : Z) : dynptr -> Z -> prog Z :=
  capture_struct_section AIO_GETEVENTS_DIRECT_TIMEOUT_SIZE AIO_GETEVENTS_DIRECT_TIMEOUT_SIZE
    AIO_GETEVENTS_DIRECT_TIMEOUT_SIZE 4 0 user_ptr.

Definition capture_aio_getevents_events_tlv_direct (p : pending_syscall) (ret_value : Z)
    : Z -> dynptr -> Z -> prog (Z * Z) :=
  capture_slots PAYLOAD_TLV_KIND_STRUCT 3 PAYLOAD_TLV_FLAG_DIRECTION_OUT
    (Z.to_nat AIO_GETEVENTS_DIRECT_EVENT_SLOT_MAX) AIO_GETEVENTS_DIRECT_EVENT_SIZE
    (aio_getevents_user_len ret_value) (aio_getevents_copy_len ret_value) (arg3 (p_args p)).

Definition capture_aio_pgetevents_sigmask_tlv_direct (user_ptr user_len : Z) (ptr : dynptr) (payload_offset : Z)
    : prog Z :=
  if (user_ptr =? 0) || (user_len =? 0) || (AIO_PGETEVENTS_DIRECT_SIGMASK_MAX <? user_len) then ret 0
  else
    let* (size, _) := capture_local false (fun err => err) PAYLOAD_TLV_KIND_BYTES user_len 5 0 user_len user_ptr
                        ptr payload_offset in
    ret size.

(** The pair of pointer and size, then the mask it describes. *)
Definition capture_aio_pgetevents_sigset_tlv_direct (user_ptr : Z) (ptr : dynptr) (payload_offset : Z) : prog Z :=
  if user_ptr =? 0 then ret 0
  else
    capture_local_then true (fun err => err) PAYLOAD_TLV_KIND_STRUCT AIO_PGETEVENTS_DIRECT_SIGSET_SIZE 5 0
      AIO_PGETEVENTS_DIRECT_SIGSET_SIZE user_ptr
      (fun sigset_data => capture_aio_pgetevents_sigmask_tlv_direct
         (le_val (slice sigset_data 0 8)) (le_val (slice sigset_data 8 8))) ptr payload_offset.

(** ** Records *)

Definition emit_aio_submit_iovec_enter_event_v2_direct (pid tid sys_id : Z)
    (ctx : trace_event_raw_sys_enter) (ts_ns : Z) : prog unit :=
  enter_flags_emit (AIO_SUBMIT_DIRECT_NESTED_IOCB_MAX *
      (PAYLOAD_TLV_HEADER_SIZE + AIO_SUBMIT_DIRECT_IOVEC_MAX * AIO_SUBMIT_DIRECT_IOVEC_SIZE))
    pid tid sys_id ctx ts_ns (-1) (capture_aio_submit_iocbs_iovec_tlv_direct (args_u64 (enter_args ctx))).

Definition emit_aio_submit_buf_enter_event_v2_direct (pid tid sys_id : Z)
    (ctx : trace_event_raw_sys_enter) (ts_ns : Z) : prog unit :=
  enter_flags_emit (AIO_SUBMIT_DIRECT_NESTED_IOCB_MAX * (PAYLOAD_TLV_HEADER_SIZE + AIO_SUBMIT_DIRECT_BUF_MAX))
    pid tid sys_id ctx ts_ns (-1) (capture_aio_submit_iocbs_buf_tlv_direct (args_u64 (enter_args ctx))).

Definition emit_aio_submit_enter_event_v2_direct (pid tid sys_id : Z)
    (ctx : trace_event_raw_sys_enter) (ts_ns : Z) : prog unit :=
  let args := args_u64 (enter_args ctx) in
  enter_flags_emit AIO_SUBMIT_DIRECT_MAX_PAYLOAD pid tid sys_id ctx ts_ns (-1)
    (flags_both (same_flags (capture_aio_submit_pointers_tlv_direct args))
       (capture_aio_submit_iocbs_tlv_direct args)).

Definition emit_aio_cancel_enter_event_v2_direct (pid tid sys_id : Z)
    (ctx : trace_event_raw_sys_enter) (ts_ns : Z) : prog unit :=
  enter_capture_emit (PAYLOAD_TLV_HEADER_SIZE + AIO_CANCEL_DIRECT_IOCB_SIZE) pid tid sys_id ctx ts_ns (-1)
    (capture_aio_cancel_iocb_tlv_direct (arg1 (args_u64 (enter_args ctx)))).

Definition emit_aio_getevents_enter_event_v2_direct (pid tid sys_id : Z)
    (ctx : trace_event_raw_sys_enter) (ts_ns : Z) : prog unit :=
  enter_capture_emit (PAYLOAD_TLV_HEADER_SIZE + AIO_GETEVENTS_DIRECT_TIMEOUT_SIZE) pid tid sys_id ctx ts_ns (-1)
    (capture_aio_getevents_timeout_tlv_direct (arg4 (args_u64 (enter_args ctx)))).

Definition emit_aio_pgetevents_enter_event_v2_direct (pid tid sys_id : Z)
    (ctx : trace_event_raw_sys_enter) (ts_ns : Z) : prog unit :=
  let args := args_u64 (enter_args ctx) in
  enter_capture_emit AIO_PGETEVENTS_DIRECT_MAX_PAYLOAD pid tid sys_id ctx ts_ns (-1)
    (both (capture_aio_getevents_timeout_tlv_direct (arg4 args))
       (capture_aio_pgetevents_sigset_tlv_direct (arg5 args))).

Definition emit_aio_enter_event_v2_direct (pid tid sys_id : Z) (ctx : trace_event_raw_sys_enter)
    (cfg : option Z) (ts_ns : Z) : prog unit :=
  if is_aio_pgetevents_direct_syscall sys_id then
    emit_aio_pgetevents_enter_event_v2_direct pid tid sys_id ctx ts_ns
  else if is_aio_getevents_direct_syscall sys_id then
    emit_aio_getevents_enter_event_v2_direct pid tid sys_id ctx ts_ns
  else if is_aio_submit_direct_syscall sys_id then
    emit_aio_submit_enter_event_v2_direct pid tid sys_id ctx ts_ns
  else if is_aio_cancel_direct_syscall sys_id then
    emit_aio_cancel_enter_event_v2_direct pid tid sys_id ctx ts_ns
  else emit_no_payload_enter_event_v2_direct pid tid sys_id ctx cfg ts_ns.

Definition emit_aio_setup_exit_event_v2_direct (p : pending_syscall) (ret_value duration : Z) : prog unit :=
  exit_capture_emit (PAYLOAD_TLV_HEADER_SIZE + AIO_SETUP_DIRECT_CTX_SIZE) p ret_value duration
    (capture_if (0 <=? ret_value) (capture_aio_setup_ctx_tlv_direct (arg1 (p_args p)))).

Definition emit_aio_getevents_exit_event_v2_direct (p : pending_syscall) (ret_value duration : Z) : prog unit :=
  exit_flags_emit (PAYLOAD_TLV_HEADER_SIZE + AIO_GETEVENTS_DIRECT_EVENTS_MAX) p ret_value duration
    (capture_aio_getevents_events_tlv_direct p ret_value 0).
End Aio.

(** ** Contracts *)

Section AioLemmas.
Context {K : Kernel} {A : Arch}.

(** The section whose header is written first, when the kernel does not fault. *)
Definition header_first_section (kind : PayloadKind) (arg_index len user_ptr : Z) : list PayloadSection -> Prop :=
  one_section (section_with kind PayloadDirectionIn arg_index user_ptr
    (fun ulen data e => ulen = len /\ copied user_ptr len data e)).

Lemma capture_header_first_ok kind tlv_kind arg_index n len user_ptr :
  payloadKindFromTLV (u16 tlv_kind) = Some kind -> 0 <= len <= n -> n < 2 ^ 20 ->
  tlv_capture no_fault (header_first_section kind arg_index len user_ptr) (PAYLOAD_TLV_HEADER_SIZE + len)
    (capture_header_first tlv_kind arg_index n len user_ptr).
Proof.
  intros Hk Hn Hm w d buf off Hb Ho Hs. unfold capture_header_first. wp_step.
  pose proof (probe_read_user_result n user_ptr w) as R. pose proof (bpf_probe_read_user_quiet n user_ptr w) as Qt.
  unfold wp at 1. destruct (bpf_probe_read_user n user_ptr w) as [[err data] w1]. cbn [fst snd] in *.
  destruct (R ltac:(lia)) as [Hl Hr].
  pose proof (capturing_quiet _ _ _ _ _ _ _ (capturing_start d off w buf Hb) Qt) as C1.
  set (e := if err <? 0 then err else 0). set (c := if err <? 0 then 0 else len).
  set (t := TlvHeader tlv_kind arg_index 0 len c e user_ptr).
  assert (0 <= c <= len) as Hc by (subst c; destruct (err <? 0); lia).
  pose proof (payload_tlv_header_size t) as Hz. cbv zeta. wp_step.
  eapply wp_write_header; [exact C1 | lia | lia | |].
  2: { intros w2 NF C2. cbn [negb]. wp_steps. split_and!; [lia | lia | apply C2 |]. by intros. }
  intros w2 C2. cbn [negb]. pose proof (cg_size _ _ _ _ _ _ C2) as Hz2.
  assert (forall w' b, capturing d off (zlen buf) w w' b ->
    slice b off 32 = struct_bytes (payload_tlv_header_fields t) ->
    copied user_ptr len (slice b (off + 32) c) e ->
    decodable (header_first_section kind arg_index len user_ptr) d off (32 + c) w') as Dec.
  { intros w' b C' Hh HD. pose proof (cg_size _ _ _ _ _ _ C') as Hz'.
    eexists b, [_]. split_and!; [apply C' | | left; eexists; split; [done|]].
    - eapply section_decodes; [exact Hh | exact Hk | lia | done | cbn; lia | lia].
    - split; cbn [section_of Kind Direction ArgIndex UserPtr CopiedLen Data ProbeRet UserLen t t_kind t_arg_index t_flags
        t_copied_len t_probe_ret t_user_ptr t_user_len]; try done.
      + by rewrite u32_small, zlen_slice by lia.
      + exists e. split; [done|]. by rewrite u32_small by lia. }
  subst e c. destruct (Z.ltb_spec err 0) as [Herr|Herr].
  { wp_steps. split_and!; [lia | lia | apply C2 |]. intros _. apply (Dec _ _ C2); [by apply slice_put_same; lia|].
    rewrite slice_0. right. destruct Hr as [[? _]|[? _]]; [lia|]. done. }
  destruct Hr as [[-> Hd]|[[? _] _]]; [|lia].
  assert (zlen (take (Z.to_nat len) data) = len) as Ht by (unfold zlen in *; rewrite length_take; lia).
  wp_step. eapply wp_dynptr_write; [exact C2 | lia | lia | |]; intros w3.
  - intros C3. cbn [Z.ltb Z.compare]. wp_steps. split_and!; [lia | lia | apply C3 |]. intros _. apply (Dec _ _ C3).
    + rewrite slice_put_before by lia. apply slice_put_same; lia.
    + rewrite slice_put_same by lia. left. split; [done|]. exists (calls w).
      rewrite Hd, <- (user_bytes_prefix _ _ len n) by lia. unfold slice. by rewrite drop_0.
  - intros NF C3. cbn [Z.ltb Z.compare]. wp_step. eapply wp_copy_fail; [exact C3 | exact NF |].
    intros _ w4 C4. wp_steps. split_and!; [lia | lia | apply C4 |]. by intros.
Qed.

(** ** [io_submit] *)

Lemma aio_pointer_lengths count :
  0 <= aio_submit_pointer_user_len count < 2 ^ 32 /\ (aio_submit_pointer_user_len count <> 0 -> 0 < count) /\
  aio_submit_pointer_copy_len count = Z.max 0 (Z.min count 8) * 8.
Proof.
  unfold aio_submit_pointer_user_len, aio_submit_pointer_copy_len.
  destruct (Z.leb_spec count 0); [split_and!; lia|]. change (64 / 8) with 8. split_and!.
  - destruct (_ <? _); [lia | apply u32_range].
  - destruct (_ <? _); [lia | apply u32_range].
  - lia.
  - destruct (Z.ltb_spec 8 count); [lia|]. rewrite (u32_small count), u32_small; lia.
Qed.

(** The array of pointers: the first eight. *)
Definition aio_pointers_sections (args : args6) (secs : list PayloadSection) : Prop :=
  let count := s64 (arg1 args) in
  let user_len := aio_submit_pointer_user_len count in
  if (user_len =? 0) || (arg2 args =? 0) then secs = []
  else plain_slots_section PayloadKindStruct PayloadDirectionIn 2 8 (Z.min count 8) user_len (arg2 args) secs.

Lemma capture_aio_submit_pointers_ok args :
  tlv_capture no_fault (aio_pointers_sections args) (32 + 64) (capture_aio_submit_pointers_tlv_direct args).
Proof.
  unfold capture_aio_submit_pointers_tlv_direct, aio_pointers_sections.
  pose proof (aio_pointer_lengths (s64 (arg1 args))) as (L1 & L2 & L3). cbv zeta.
  destruct (_ || _) eqn:E; [apply tlv_capture_none; [lia | done | done]|].
  apply orb_false_iff in E as [E _]. apply Z.eqb_neq in E. specialize (L2 E). rewrite L3.
  apply tlv_capture_healthy, (capture_plain_slots_ok PayloadKindStruct _ 2 0); cbn; try done; lia.
Qed.

(** What the loops find at an index: the pointer and the control block behind it. *)
Definition iocb_ptr_slot (user_ptr count i : Z) (item : slot_item Z) : Prop :=
  match item with
  | Stop => count <= i
  | Skip => i < count /\ exists e, read_failed (slot_ptr user_ptr 8 i) e
  | Take p => i < count /\ member_read 8 (slot_ptr user_ptr 8 i) p
  end.
Definition iocb_slot (user_ptr count i : Z) (item : slot_item (list Z)) : Prop :=
  match item with
  | Stop => count <= i
  | Skip => i < count
  | Take iocb => i < count /\ exists p k, member_read 8 (slot_ptr user_ptr 8 i) p /\ p <> 0 /\ iocb = user_bytes k p 64
  end.

Lemma next_iocb_ptr_quiet user_ptr count i : keeps quiet (next_iocb_ptr user_ptr count i).
Proof. unfold next_iocb_ptr. keeps_solve. Qed.
Hint Resolve next_iocb_ptr_quiet : keeps.
Lemma next_iocb_quiet user_ptr count i : keeps quiet (next_iocb user_ptr count i).
Proof. unfold next_iocb. keeps_solve. Qed.

Lemma next_iocb_ptr_result user_ptr count i w :
  wp (next_iocb_ptr user_ptr count i) (fun item _ => iocb_ptr_slot user_ptr count i item) w.
Proof.
  unfold next_iocb_ptr. destruct (Z.leb_spec count i); [wp_step; done|]. wp_step.
  eapply wp_mono; [apply read_user_member_result; lia|]. intros [p|] w1 H1; wp_step; done.
Qed.
Lemma next_iocb_result user_ptr count i w :
  wp (next_iocb user_ptr count i) (fun item _ => iocb_slot user_ptr count i item) w.
Proof.
  unfold next_iocb. wp_step. eapply wp_mono; [apply next_iocb_ptr_result|]. intros [| |p] w1; cbn [iocb_ptr_slot].
  - intros ?. by wp_step.
  - intros [? _]. by wp_step.
  - intros [Hi Hp]. destruct (Z.eqb_spec p 0); [by wp_step|]. wp_step.
    pose proof (probe_read_user_result 64 p w1) as R. unfold wp at 1.
    destruct (bpf_probe_read_user 64 p w1) as [[err data] w2]. cbn [fst snd] in *.
    destruct (R ltac:(lia)) as [_ Hr]. destruct (Z.ltb_spec err 0); wp_step; cbn; [done|].
    split; [done|]. destruct Hr as [[_ ->]|[[? _] _]]; [|lia]. by exists p, (calls w1).
Qed.

(** The sections of one control block: itself, the vector of a vectored call, the buffer of a write. *)
Definition iocb_sections (i iocb_ptr : Z) (secs : list PayloadSection) : Prop :=
  if (iocb_ptr =? 0) || (AIO_SUBMIT_DIRECT_IOCB_MAX <=? i) then secs = []
  else header_first_section PayloadKindStruct (20 + i) 64 iocb_ptr secs.
Definition iocb_iovec_sections (i : Z) (iocb : list Z) (secs : list PayloadSection) : Prop :=
  let iov_ptr := iocb_word iocb 3 in
  let count := iocb_word iocb 4 in
  if negb (iocb_opcode iocb =? 7) && negb (iocb_opcode iocb =? 8) ||
     ((iov_ptr =? 0) || (count =? 0) || (AIO_SUBMIT_DIRECT_NESTED_IOCB_MAX <=? i)) then secs = []
  else plain_slots_section PayloadKindIovec PayloadDirectionIn (40 + i) 16 (Z.min count 2) (Z.min count 2 * 16)
         iov_ptr secs.
Definition iocb_buf_sections (i : Z) (iocb : list Z) (secs : list PayloadSection) : Prop :=
  let buf_ptr := iocb_word iocb 3 in
  let len := iocb_word iocb 4 in
  if negb (iocb_opcode iocb =? 1) ||
     ((buf_ptr =? 0) || (len =? 0) || (AIO_SUBMIT_DIRECT_NESTED_IOCB_MAX <=? i)) then secs = []
  else header_first_section PayloadKindBytes (60 + i) (Z.min len 32) buf_ptr secs.

Lemma capture_aio_submit_iocb_ok i iocb_ptr :
  tlv_capture no_fault (iocb_sections i iocb_ptr) (32 + 64) (capture_aio_submit_iocb_tlv_direct i iocb_ptr).
Proof.
  unfold capture_aio_submit_iocb_tlv_direct, iocb_sections.
  destruct (_ || _); [apply tlv_capture_none; [lia | done | done]|].
  by apply capture_header_first_ok.
Qed.

Lemma iocb_word_nonneg iocb i : 0 <= iocb_word iocb i.
Proof. apply le_val_nonneg. Qed.

Lemma capture_aio_submit_iocb_iovec_ok i iocb :
  tlv_capture no_fault (iocb_iovec_sections i iocb) (32 + 32) (capture_aio_submit_iocb_iovec_tlv_direct i iocb).
Proof.
  unfold capture_aio_submit_iocb_iovec_tlv_direct, iocb_iovec_sections. cbv zeta.
  pose proof (iocb_word_nonneg iocb 4) as Hn.
  destruct (_ && _); [apply tlv_capture_none; [lia | done | done]|]. cbn [orb].
  destruct (_ || _) eqn:E; [apply tlv_capture_none; [lia | done | done]|].
  apply orb_false_iff in E as [E _]. apply orb_false_iff in E as [_ E]. apply Z.eqb_neq in E.
  replace (if 2 <? iocb_word iocb 4 then 2 else iocb_word iocb 4) with (Z.min (iocb_word iocb 4) 2)
    by (destruct (Z.ltb_spec 2 (iocb_word iocb 4)); lia).
  set (n := Z.min (iocb_word iocb 4) 2) in *. assert (1 <= n <= 2) by lia.
  rewrite (u32_small n), u32_small by lia.
  apply tlv_capture_healthy, (capture_plain_slots_ok PayloadKindIovec _ (40 + i) 0); cbn; try done; lia.
Qed.

Lemma capture_aio_submit_iocb_buf_ok i iocb :
  tlv_capture no_fault (iocb_buf_sections i iocb) (32 + 32) (capture_aio_submit_iocb_buf_tlv_direct i iocb).
Proof.
  unfold capture_aio_submit_iocb_buf_tlv_direct, iocb_buf_sections. cbv zeta.
  pose proof (iocb_word_nonneg iocb 4) as Hn.
  destruct (negb _); [apply tlv_capture_none; [lia | done | done]|]. cbn [orb].
  destruct (_ || _); [apply tlv_capture_none; [lia | done | done]|].
  replace (if 32 <? iocb_word iocb 4 then 32 else iocb_word iocb 4) with (Z.min (iocb_word iocb 4) 32)
    by (destruct (Z.ltb_spec 32 (iocb_word iocb 4)); lia).
  eapply tlv_capture_cap; [apply (capture_header_first_ok PayloadKindBytes); [done | lia | lia] | lia].
Qed.

(** The control blocks of the submission, in order. *)
Definition iocbs_sections {X} (Q : Z -> Z -> Z -> slot_item X -> Prop) (P : Z -> X -> list PayloadSection -> Prop)
    (slots : nat) (args : args6) : Z -> Z -> list PayloadSection -> Prop :=
  let count := s64 (arg1 args) in
  if (count <=? 0) || (arg2 args =? 0) then unflagged (fun secs => secs = [])
  else each_sections (Q (arg2 args) count) (fun i x => unflagged (P i x)) slots 0.

Lemma capture_iocbs_ok {X} (next : Z -> Z -> Z -> prog (slot_item X)) Q P cap capture slots args :
  0 <= cap -> (forall u n i, keeps quiet (next u n i)) ->
  (forall u n i w, wp (next u n i) (fun item _ => Q u n i item) w) ->
  (forall i x, tlv_capture no_fault (P i x) cap (capture i x)) ->
  flags_capture (iocbs_sections Q P slots args) (Z.of_nat slots * cap)
    (if (s64 (arg1 args) <=? 0) || (arg2 args =? 0) then no_capture
     else capture_each slots (next (arg2 args) (s64 (arg1 args))) (fun i x => same_flags (capture i x)) 0).
Proof.
  intros Hc Hq HQ HP. unfold iocbs_sections. cbv zeta. destruct (_ || _); [apply no_capture_ok; lia|].
  apply capture_each_ok; [done | apply Hq | apply HQ |]. intros. by apply same_flags_ok.
Qed.

Lemma capture_aio_submit_iocbs_ok args :
  flags_capture (iocbs_sections iocb_ptr_slot iocb_sections 5 args) (5 * (32 + 64))
    (capture_aio_submit_iocbs_tlv_direct args).
Proof.
  apply (capture_iocbs_ok next_iocb_ptr _ _ _ _ 5); [lia | apply next_iocb_ptr_quiet | apply next_iocb_ptr_result |].
  apply capture_aio_submit_iocb_ok.
Qed.
Lemma capture_aio_submit_iocbs_iovec_ok args :
  flags_capture (iocbs_sections iocb_slot iocb_iovec_sections 4 args) (4 * (32 + 32))
    (capture_aio_submit_iocbs_iovec_tlv_direct args).
Proof.
  apply (capture_iocbs_ok next_iocb _ _ _ _ 4); [lia | apply next_iocb_quiet | apply next_iocb_result |].
  apply capture_aio_submit_iocb_iovec_ok.
Qed.
Lemma capture_aio_submit_iocbs_buf_ok args :
  flags_capture (iocbs_sections iocb_slot iocb_buf_sections 4 args) (4 * (32 + 32))
    (capture_aio_submit_iocbs_buf_tlv_direct args).
Proof.
  apply (capture_iocbs_ok next_iocb _ _ _ _ 4); [lia | apply next_iocb_quiet | apply next_iocb_result |].
  apply capture_aio_submit_iocb_buf_ok.
Qed.

(** ** [io_getevents] *)

Lemma aio_event_lengths count :
  0 <= aio_getevents_user_len count < 2 ^ 32 /\ (aio_getevents_user_len count <> 0 -> 0 < count) /\
  aio_getevents_copy_len count = Z.max 0 (Z.min count 16) * 32.
Proof.
  unfold aio_getevents_user_len, aio_getevents_copy_len.
  destruct (Z.leb_spec count 0); [split_and!; lia|]. split_and!.
  - destruct (_ <? _); [lia | apply u32_range].
  - destruct (_ <? _); [lia | apply u32_range].
  - lia.
  - destruct (Z.ltb_spec 16 count); [lia|]. rewrite (u32_small count), u32_small; lia.
Qed.

(** The events collected: the first sixteen. *)
Definition aio_events_sections (p : pending_syscall) (rv : Z) : Z -> Z -> list PayloadSection -> Prop :=
  slots_sections PayloadKindStruct PayloadDirectionOut 3 32 (Z.max 0 (Z.min rv 16)) (aio_getevents_user_len rv)
    (arg3 (p_args p)).

Lemma capture_aio_getevents_events_ok p rv :
  flags_capture (aio_events_sections p rv) (32 + 512) (capture_aio_getevents_events_tlv_direct p rv).
Proof.
  pose proof (aio_event_lengths rv) as (L1 & L2 & L3).
  unfold capture_aio_getevents_events_tlv_direct, aio_events_sections. rewrite L3.
  eapply (capture_slots_ok PayloadKindStruct); try done; try (cbn; lia).
Qed.

(** The mask at a pointer, when its size is one the kernel accepts. *)
Definition aio_sigmask_sections (user_ptr user_len : Z) (secs : list PayloadSection) : Prop :=
  if (user_ptr =? 0) || (user_len =? 0) || (AIO_PGETEVENTS_DIRECT_SIGMASK_MAX <? user_len) then secs = []
  else exists local, zlen local = user_len /\
    one_section (local_section PayloadKindBytes PayloadDirectionIn 5 user_len user_len user_ptr local) secs.

Lemma capture_aio_pgetevents_sigmask_ok user_ptr user_len :
  0 <= user_len ->
  tlv_capture True (aio_sigmask_sections user_ptr user_len) (32 + 8)
    (capture_aio_pgetevents_sigmask_tlv_direct user_ptr user_len).
Proof.
  intros Hu. unfold capture_aio_pgetevents_sigmask_tlv_direct, aio_sigmask_sections.
  destruct (_ || _) eqn:E; [apply tlv_capture_none; [lia | done | done]|].
  apply orb_false_iff in E as [_ E]. apply Z.ltb_ge in E.
  intros w d buf off Hb Ho Hs. wp_step. eapply wp_mono.
  { eapply (wp_capture_local false (fun err => err) PayloadKindBytes _ user_len 5 0); try eassumption; try done;
      [by left | lia | lia | lia]. }
  intros [m local] w1 (Hm & Hl & C1 & D1). wp_steps. split_and!; [lia | lia | done |]. intros _.
  destruct (D1 I) as (b & secs & ? & ? & ?). exists b, secs. split_and!; [done | done |]. by exists local.
Qed.

Definition aio_sigset_sections (user_ptr : Z) (secs : list PayloadSection) : Prop :=
  if user_ptr =? 0 then secs = []
  else local_then_sections PayloadKindStruct PayloadDirectionIn 5 16 16 user_ptr
    (fun sigset => aio_sigmask_sections (le_val (slice sigset 0 8)) (le_val (slice sigset 8 8))) secs.

Lemma capture_aio_pgetevents_sigset_ok user_ptr :
  tlv_capture True (aio_sigset_sections user_ptr) (32 + 16 + (32 + 8))
    (capture_aio_pgetevents_sigset_tlv_direct user_ptr).
Proof.
  unfold capture_aio_pgetevents_sigset_tlv_direct, aio_sigset_sections.
  destruct (user_ptr =? 0); [apply tlv_capture_none; [lia | done | done]|].
  apply (capture_local_then_ok True true (fun err => err) PayloadKindStruct _ 16 5 0); try done; try lia;
    [by left|]. intros local _. apply capture_aio_pgetevents_sigmask_ok, le_val_nonneg.
Qed.

(** ** Records *)

Lemma emit_aio_submit_iovec_enter_ok pid tid sys_id ctx ts :
  emitter (fun r => reads_flags_enter r pid tid sys_id ctx ts (-1)
      (iocbs_sections iocb_slot iocb_iovec_sections 4 (args_u64 (enter_args ctx)) EVENT_FLAG_GENERIC_ENTER))
    (emit_aio_submit_iovec_enter_event_v2_direct pid tid sys_id ctx ts).
Proof. apply enter_flags_ok; [lia | apply capture_aio_submit_iocbs_iovec_ok]. Qed.

Lemma emit_aio_submit_buf_enter_ok pid tid sys_id ctx ts :
  emitter (fun r => reads_flags_enter r pid tid sys_id ctx ts (-1)
      (iocbs_sections iocb_slot iocb_buf_sections 4 (args_u64 (enter_args ctx)) EVENT_FLAG_GENERIC_ENTER))
    (emit_aio_submit_buf_enter_event_v2_direct pid tid sys_id ctx ts).
Proof. apply enter_flags_ok; [lia | apply capture_aio_submit_iocbs_buf_ok]. Qed.

(** The pointers and the control blocks. *)
Definition aio_submit_sections (args : args6) : Z -> Z -> list PayloadSection -> Prop :=
  flags_appended (unflagged (aio_pointers_sections args)) (iocbs_sections iocb_ptr_slot iocb_sections 5 args).

Lemma emit_aio_submit_enter_ok pid tid sys_id ctx ts :
  emitter (fun r => reads_flags_enter r pid tid sys_id ctx ts (-1)
      (aio_submit_sections (args_u64 (enter_args ctx)) EVENT_FLAG_GENERIC_ENTER))
    (emit_aio_submit_enter_event_v2_direct pid tid sys_id ctx ts).
Proof.
  apply enter_flags_ok; [lia|]. eapply flags_capture_cap.
  - apply flags_both_ok; [apply same_flags_ok, capture_aio_submit_pointers_ok | apply capture_aio_submit_iocbs_ok | lia].
  - lia.
Qed.

Lemma emit_aio_cancel_enter_ok pid tid sys_id ctx ts :
  emitter (fun r => reads_capture_enter r pid tid sys_id ctx ts (-1)
      (time_section PayloadDirectionIn 1 (arg1 (args_u64 (enter_args ctx))) 64))
    (emit_aio_cancel_enter_event_v2_direct pid tid sys_id ctx ts).
Proof. apply enter_capture_ok; [lia|]. apply (capture_struct_section_ok 64 64 64 1 0); cbn; auto; lia. Qed.

Lemma capture_aio_timeout_ok user_ptr :
  tlv_capture True (time_section PayloadDirectionIn 4 user_ptr 16) (32 + 16)
    (capture_aio_getevents_timeout_tlv_direct user_ptr).
Proof. apply (capture_struct_section_ok 16 16 16 4 0); cbn; auto; lia. Qed.

Lemma emit_aio_getevents_enter_ok pid tid sys_id ctx ts :
  emitter (fun r => reads_capture_enter r pid tid sys_id ctx ts (-1)
      (time_section PayloadDirectionIn 4 (arg4 (args_u64 (enter_args ctx))) 16))
    (emit_aio_getevents_enter_event_v2_direct pid tid sys_id ctx ts).
Proof. apply enter_capture_ok; [lia | apply capture_aio_timeout_ok]. Qed.

Lemma emit_aio_pgetevents_enter_ok pid tid sys_id ctx ts :
  let args := args_u64 (enter_args ctx) in
  emitter (fun r => reads_capture_enter r pid tid sys_id ctx ts (-1)
      (appended (time_section PayloadDirectionIn 4 (arg4 args) 16) (aio_sigset_sections (arg5 args))))
    (emit_aio_pgetevents_enter_event_v2_direct pid tid sys_id ctx ts).
Proof.
  intros args. apply enter_capture_ok; [lia|]. eapply tlv_capture_cap.
  - apply both_ok; [apply capture_aio_timeout_ok | apply capture_aio_pgetevents_sigset_ok | lia].
  - lia.
Qed.

Lemma emit_aio_setup_exit_ok p rv dur :
  emitter (fun r => reads_capture_exit r p rv dur (when (0 <=? rv) (out_section p 1 8)))
    (emit_aio_setup_exit_event_v2_direct p rv dur).
Proof.
  apply exit_capture_ok; [lia|]. apply capture_if_ok; [lia|].
  apply (capture_struct_section_ok 8 8 8 1 PAYLOAD_TLV_FLAG_DIRECTION_OUT); cbn; auto; lia.
Qed.

Lemma emit_aio_getevents_exit_ok p rv dur :
  emitter (fun r => reads_pending_exit r p rv dur (decodes no_fault (flags_from 0) (aio_events_sections p rv 0)))
    (emit_aio_getevents_exit_event_v2_direct p rv dur).
Proof. apply exit_flags_capture_ok; [lia | apply capture_aio_getevents_events_ok]. Qed.
End AioLemmas.

#[export] Hint Resolve emit_aio_submit_iovec_enter_ok emit_aio_submit_buf_enter_ok emit_aio_submit_enter_ok
  emit_aio_cancel_enter_ok emit_aio_getevents_enter_ok emit_aio_pgetevents_enter_ok emit_aio_setup_exit_ok
  emit_aio_getevents_exit_ok : emitters.

Lemma emit_aio_enter_emits {K : Kernel} {A : Arch} pid tid sys_id ctx cfg ts :
  keeps emits (emit_aio_enter_event_v2_direct pid tid sys_id ctx cfg ts).
Proof. unfold emit_aio_enter_event_v2_direct. keeps_solve. Qed.
#[export] Hint Resolve emit_aio_enter_emits : keeps.
