(* ===== verification/Bpf.v ===== *)
(** bpf(2) on entry.

    Models [bpf/syscall_bpf_direct_event_v2.h] and the entry half of the headers
    it includes: the attribute structure, and what the commands point to from it:
    path and name strings, programs and their debug information, BTF, map keys and
    values, and the arrays of multi links.  The sizes of map elements are read
    from the kernel's own [struct bpf_map]. *)
From stdpp Require Import base list gmap numbers.
From S2P Require Import Prelude Syscalls Abi Kernel Consumer Stats Tlv Emit Decoder EventCore Payload Structs FdPath Paths Misc Captures Slots.

Abbreviation BPF_DIRECT_ATTR_MAX := 512 (only parsing).
Abbreviation BPF_DIRECT_LICENSE_MAX := 64 (only parsing).
Abbreviation BPF_DIRECT_INSNS_MAX := 64 (only parsing).
Abbreviation BPF_DIRECT_LOG_BUF_MAX := 256 (only parsing).
Abbreviation BPF_DIRECT_SIGNATURE_MAX := 256 (only parsing).
Abbreviation BPF_DIRECT_OBJ_PATH_MAX := 512 (only parsing).
Abbreviation BPF_DIRECT_RAW_TRACEPOINT_NAME_MAX := 512 (only parsing).
Abbreviation BPF_DIRECT_BTF_MAX := 256 (only parsing).
Abbreviation BPF_DIRECT_LINK_ITER_INFO_MAX := 20 (only parsing).
Abbreviation BPF_DIRECT_MAP_VALUE_MAX := 512 (only parsing).
Abbreviation BPF_DIRECT_KPROBE_SYM_DATA_MAX := 40 (only parsing).
Abbreviation BPF_DIRECT_KPROBE_SYM_RECORD_SIZE := 52 (only parsing).
Abbreviation BPF_DIRECT_MULTI_MAX_ENTRIES := 4 (only parsing).
Abbreviation BPF_DIRECT_MULTI_COUNT_LIMIT := 1024 (only parsing).
Abbreviation BPF_DIRECT_BYTES_BUCKET_20 := 20 (only parsing).
Abbreviation BPF_DIRECT_BYTES_BUCKET_64 := 64 (only parsing).
Abbreviation BPF_DIRECT_BYTES_BUCKET_256 := 256 (only parsing).
Abbreviation BPF_DIRECT_BYTES_BUCKET_512 := 512 (only parsing).
Abbreviation BPF_DIRECT_NESTED_CAPACITY :=
  (16 * PAYLOAD_TLV_HEADER_SIZE + BPF_DIRECT_OBJ_PATH_MAX + BPF_DIRECT_RAW_TRACEPOINT_NAME_MAX + BPF_DIRECT_BTF_MAX +
   BPF_DIRECT_LINK_ITER_INFO_MAX + BPF_DIRECT_MULTI_MAX_ENTRIES * BPF_DIRECT_KPROBE_SYM_RECORD_SIZE +
   2 * (BPF_DIRECT_MULTI_MAX_ENTRIES * 8) + 2 * BPF_DIRECT_MAP_VALUE_MAX) (only parsing).
Abbreviation BPF_DIRECT_PROG_LOAD_BASE_CAPACITY :=
  (4 * PAYLOAD_TLV_HEADER_SIZE + BPF_DIRECT_INSNS_MAX + BPF_DIRECT_LICENSE_MAX + BPF_DIRECT_LOG_BUF_MAX +
   BPF_DIRECT_SIGNATURE_MAX) (only parsing).
Abbreviation BPF_DIRECT_PROG_LOAD_DEBUG_CAPACITY := (4 * PAYLOAD_TLV_HEADER_SIZE + 512 + 512 + 512 + 512) (only parsing).
Abbreviation BPF_DIRECT_UPROBE_MULTI_CAPACITY :=
  (4 * PAYLOAD_TLV_HEADER_SIZE + BPF_DIRECT_OBJ_PATH_MAX + 3 * (BPF_DIRECT_MULTI_MAX_ENTRIES * 8)) (only parsing).
Abbreviation BPF_DIRECT_TRACING_MULTI_CAPACITY :=
  (2 * PAYLOAD_TLV_HEADER_SIZE + BPF_DIRECT_MULTI_MAX_ENTRIES * 4 + BPF_DIRECT_MULTI_MAX_ENTRIES * 8) (only parsing).

Abbreviation BPF_DIRECT_MAP_LOOKUP_ELEM := 1 (only parsing).
Abbreviation BPF_DIRECT_MAP_UPDATE_ELEM := 2 (only parsing).
Abbreviation BPF_DIRECT_MAP_DELETE_ELEM := 3 (only parsing).
Abbreviation BPF_DIRECT_MAP_GET_NEXT_KEY := 4 (only parsing).
Abbreviation BPF_DIRECT_PROG_LOAD := 5 (only parsing).
Abbreviation BPF_DIRECT_OBJ_PIN := 6 (only parsing).
Abbreviation BPF_DIRECT_OBJ_GET := 7 (only parsing).
Abbreviation BPF_DIRECT_PROG_TEST_RUN := 10 (only parsing).
Abbreviation BPF_DIRECT_PROG_QUERY := 16 (only parsing).
Abbreviation BPF_DIRECT_RAW_TRACEPOINT_OPEN := 17 (only parsing).
Abbreviation BPF_DIRECT_BTF_LOAD := 18 (only parsing).
Abbreviation BPF_DIRECT_TASK_FD_QUERY := 20 (only parsing).
Abbreviation BPF_DIRECT_MAP_LOOKUP_AND_DELETE_ELEM := 21 (only parsing).
Abbreviation BPF_DIRECT_MAP_LOOKUP_BATCH := 24 (only parsing).
Abbreviation BPF_DIRECT_MAP_LOOKUP_AND_DELETE_BATCH := 25 (only parsing).
Abbreviation BPF_DIRECT_MAP_UPDATE_BATCH := 26 (only parsing).
Abbreviation BPF_DIRECT_MAP_DELETE_BATCH := 27 (only parsing).
Abbreviation BPF_DIRECT_LINK_CREATE := 28 (only parsing).
Abbreviation BPF_DIRECT_TRACE_ITER_ATTACH := 28 (only parsing).
Abbreviation BPF_DIRECT_PROG_STREAM_READ_BY_FD := 37 (only parsing).
Abbreviation BPF_DIRECT_TRACE_KPROBE_MULTI_ATTACH := 42 (only parsing).
Abbreviation BPF_DIRECT_TRACE_UPROBE_MULTI_ATTACH := 48 (only parsing).
Abbreviation BPF_DIRECT_TASK_FD_QUERY_BUF_LEN_OFF := 12 (only parsing).

(** Something read that may be missing, and what follows when it is not. *)
Notation "'let?' x := m 'in' k" :=
  (bind m (fun o => match o with None => ret None | Some x => k end))
  (at level 10, x pattern, m at level 100, k at level 200) : bpf_scope.

(** The bytes a command points to; the exit half has the same structure. *)
Record bpf_nested_bytes_capture_request := BytesRequest {
  rq_user_ptr : Z; rq_user_len : Z; rq_max_len : Z; rq_storage_len : Z; rq_arg_index : Z }.
Definition no_request : bpf_nested_bytes_capture_request := BytesRequest 0 0 0 0 0.

Section Bpf.
Context {K : Kernel} {A : Arch}.

Definition is_bpf_direct_syscall (sys_id : Z) : bool := one_of sys_id [SYS_BPF].

(** ** Members of the attribute *)

Definition bpf_attr_read (n attr_ptr requested_len offset : Z) : prog (option Z) :=
  if (attr_ptr =? 0) || (requested_len <? offset + n) then ret None
  else
    let* (err, value) := bpf_probe_read_user n (u64 (attr_ptr + offset)) in
    ret (if err =? 0 then Some (le_val value) else None).
Definition bpf_attr_read_u32_direct : Z -> Z -> Z -> prog (option Z) := bpf_attr_read 4.
Definition bpf_attr_read_u64_direct : Z -> Z -> Z -> prog (option Z) := bpf_attr_read 8.

(** ** Maps *)

Definition lookup_current_bpf_map_direct (map_fd : Z) : prog Z :=
  let* file := lookup_current_fd_file map_fd in
  if file =? 0 then ret 0
  else
    let* map := bpf_core_read file_private_data file in
    ret (u64 map).

(** The map behind a descriptor read from the attribute. *)
Definition bpf_map_of_fd (map_fd : Z) : prog (option Z) :=
  let* map := lookup_current_bpf_map_direct (s32 map_fd) in
  ret (if map =? 0 then None else Some map).

Definition bpf_map_type_is_percpu_direct (map_type : Z) : bool := existsb (Z.eqb map_type) [5; 6; 10; 21].

Definition bpf_runtime_possible_cpu_count_direct : prog Z :=
  let* count := bpf_map_lookup_elem runtime_meta_map 0 in
  ret (match count with Some n => u32 n | None => 0 end).

Definition bpf_map_effective_value_size_direct (map value_size flags : Z) : prog Z :=
  let* map_type := bpf_core_read bpf_map_map_type map in
  if negb (bpf_map_type_is_percpu_direct (u32 map_type)) || negb (Z.land flags 24 =? 0) then ret value_size
  else
    let* possible_cpus := bpf_runtime_possible_cpu_count_direct in
    if possible_cpus =? 0 then ret 0
    else
      let stride := Z.land (value_size + 7) (Z.lnot 7) in
      let total := u64 (stride * possible_cpus) in
      ret (if 0xffffffff <? total then 0xffffffff else u32 total).

Definition bpf_map_batch_buffer_len_direct (count element_size : Z) : Z :=
  let total := u64 (count * element_size) in
  if 0xffffffff <? total then 0xffffffff else u32 total.

(** ** Bytes behind a pointer *)

Definition bpf_nested_bytes_storage_direct (ptr : dynptr) (data_offset storage_len : Z) : prog (option (nat * Z)) :=
  if storage_len =? BPF_DIRECT_BYTES_BUCKET_20 then bpf_dynptr_data ptr data_offset BPF_DIRECT_BYTES_BUCKET_20
  else if storage_len =? BPF_DIRECT_BYTES_BUCKET_64 then bpf_dynptr_data ptr data_offset BPF_DIRECT_BYTES_BUCKET_64
  else if storage_len =? BPF_DIRECT_BYTES_BUCKET_256 then bpf_dynptr_data ptr data_offset BPF_DIRECT_BYTES_BUCKET_256
  else if storage_len =? BPF_DIRECT_BYTES_BUCKET_512 then bpf_dynptr_data ptr data_offset BPF_DIRECT_BYTES_BUCKET_512
  else ret None.

(** The section of the bytes [data] points to, [copied_len] of [user_len]. *)
Definition capture_bytes_prefix (data : Z -> prog (option (nat * Z))) (copied_len arg_index user_len user_ptr event_flags : Z)
    (ptr : dynptr) (payload_offset : Z) : prog (Z * Z) :=
  let* payload_data := data (payload_offset + PAYLOAD_TLV_HEADER_SIZE) in
  let* (copied_len, probe_ret) :=
    match payload_data with
    | None => record_ringbuf_copy_fail ;;; ret (0, -1)
    | Some payload_data =>
        let* err := read_user_into payload_data copied_len user_ptr in
        ret (if err <? 0 then (0, err) else (copied_len, 0))
    end in
  let* event_flags := note_truncation copied_len probe_ret user_len event_flags in
  let* size := finish_section ptr payload_offset
    (TlvHeader PAYLOAD_TLV_KIND_BYTES arg_index 0 user_len copied_len probe_ret user_ptr) in
  ret (size, event_flags).

Definition capture_bpf_bytes_tlv_direct (request : bpf_nested_bytes_capture_request) (event_flags : Z)
    (ptr : dynptr) (payload_offset : Z) : prog (Z * Z) :=
  let '(BytesRequest user_ptr user_len max_len storage_len arg_index) := request in
  if (user_ptr =? 0) || (user_len =? 0) || (max_len =? 0) || (storage_len <? max_len) then ret (0, event_flags)
  else
    let copied_len := payload_tlv_copy_len user_len max_len in
    let copied_len := if BPF_DIRECT_BYTES_BUCKET_512 <? copied_len then BPF_DIRECT_BYTES_BUCKET_512 else copied_len in
    let copied_len := if storage_len <? copied_len then storage_len else copied_len in
    capture_bytes_prefix (fun data_offset => bpf_nested_bytes_storage_direct ptr data_offset storage_len)
      copied_len arg_index user_len user_ptr event_flags ptr payload_offset.

Definition capture_bpf_license_tlv_direct (user_ptr : Z) : dynptr -> Z -> prog Z :=
  capture_string_section BPF_DIRECT_LICENSE_MAX 101 user_ptr.

Definition capture_bpf_string_tlv_direct (user_ptr max_len arg_index : Z) : dynptr -> Z -> prog Z :=
  capture_string_section max_len arg_index user_ptr.

(** ** Multi links *)

Definition bpf_direct_multi_user_len (count elem_size : Z) : Z :=
  if negb (elem_size =? 0) && (0xffffffff / elem_size <? count) then 0xffffffff else u32 (count * elem_size).
Definition bpf_direct_multi_copy_entries (count : Z) : Z :=
  if BPF_DIRECT_MULTI_MAX_ENTRIES <? count then BPF_DIRECT_MULTI_MAX_ENTRIES else count.

Definition capture_bpf_multi_array (elem_size user_ptr count arg_index event_flags : Z)
    (ptr : dynptr) (payload_offset : Z) : prog (Z * Z) :=
  if (user_ptr =? 0) || (count =? 0) || (BPF_DIRECT_MULTI_COUNT_LIMIT <? count) then ret (0, event_flags)
  else
    let copied_len := bpf_direct_multi_copy_entries count * elem_size in
    capture_bytes_prefix
      (fun data_offset => bpf_dynptr_data ptr data_offset (BPF_DIRECT_MULTI_MAX_ENTRIES * elem_size))
      copied_len arg_index (bpf_direct_multi_user_len count elem_size) user_ptr event_flags ptr payload_offset.
Definition capture_bpf_multi_u32_array_tlv_direct := capture_bpf_multi_array 4.
Definition capture_bpf_multi_u64_array_tlv_direct := capture_bpf_multi_array 8.

(** [struct bpf_direct_kprobe_sym_record]. *)
Definition bpf_direct_kprobe_sym_record (ptr len : Z) (data : list Z) : list Z :=
  le_bytes 8 ptr ++ le_bytes 4 (s32 len) ++ fixed (Z.to_nat BPF_DIRECT_KPROBE_SYM_DATA_MAX) data.

Definition read_kprobe_sym (syms i : Z) : prog (list Z) :=
  let* (err, sym_ptr) := bpf_probe_read_user 8 (slot_ptr syms 8 i) in
  if err <? 0 then ret (bpf_direct_kprobe_sym_record 0 err [])
  else if le_val sym_ptr =? 0 then ret (bpf_direct_kprobe_sym_record 0 0 [])
  else
    let* (n, data) := bpf_probe_read_user_str BPF_DIRECT_KPROBE_SYM_DATA_MAX (le_val sym_ptr) in
    ret (bpf_direct_kprobe_sym_record (le_val sym_ptr) n data).

(** Entry [i], [false] when it could not be written. *)
Definition copy_kprobe_sym (copied_entries syms : Z) (ptr : dynptr) (data_offset i : Z) (_ : bool) : prog (bool + bool) :=
  if i <? copied_entries then
    let* record := read_kprobe_sym syms i in
    let* err := bpf_dynptr_write ptr (data_offset + i * BPF_DIRECT_KPROBE_SYM_RECORD_SIZE) record in
    if err <? 0 then record_ringbuf_copy_fail ;;; ret (inl false) else ret (inr true)
  else ret (inr true).

Definition capture_bpf_kprobe_syms_tlv_direct (syms count event_flags : Z) (ptr : dynptr) (payload_offset : Z)
    : prog (Z * Z) :=
  if (syms =? 0) || (count =? 0) || (BPF_DIRECT_MULTI_COUNT_LIMIT <? count) then ret (0, event_flags)
  else
    let copied_entries := bpf_direct_multi_copy_entries count in
    let copied_len := copied_entries * BPF_DIRECT_KPROBE_SYM_RECORD_SIZE in
    let user_len := bpf_direct_multi_user_len count BPF_DIRECT_KPROBE_SYM_RECORD_SIZE in
    let* written := for_loop (Z.to_nat BPF_DIRECT_MULTI_MAX_ENTRIES) 0
      (copy_kprobe_sym copied_entries syms ptr (payload_offset + PAYLOAD_TLV_HEADER_SIZE)) true in
    if negb written then ret (0, event_flags)
    else
      let* event_flags := note_truncation copied_len 0 user_len event_flags in
      let* size := finish_section ptr payload_offset
        (TlvHeader PAYLOAD_TLV_KIND_BYTES 108 0 user_len copied_len 0 syms) in
      ret (size, event_flags).

(** The attach type of [BPF_LINK_CREATE], when it is one of [types]. *)
Definition link_attach_type (types : list Z) (attr_ptr attr_size : Z) : prog (option unit) :=
  let? attach_type := bpf_attr_read_u32_direct attr_ptr attr_size 8 in
  ret (if existsb (Z.eqb attach_type) types then Some tt else None).

Definition read_bpf_kprobe_multi (attr_ptr attr_size : Z) : prog (option (Z * Z * Z * Z)) :=
  let? _ := link_attach_type [BPF_DIRECT_TRACE_KPROBE_MULTI_ATTACH] attr_ptr attr_size in
  let? count := bpf_attr_read_u32_direct attr_ptr attr_size 20 in
  let? syms := bpf_attr_read_u64_direct attr_ptr attr_size 24 in
  let? addrs := bpf_attr_read_u64_direct attr_ptr attr_size 32 in
  let? cookies := bpf_attr_read_u64_direct attr_ptr attr_size 40 in
  ret (Some (count, syms, addrs, cookies)).

Definition capture_bpf_kprobe_multi_tlv_direct (attr_ptr attr_size : Z) : Z -> dynptr -> Z -> prog (Z * Z) :=
  capture_found (read_bpf_kprobe_multi attr_ptr attr_size) (fun '(count, syms, addrs, cookies) =>
    flags_both (flags_both (capture_bpf_kprobe_syms_tlv_direct syms count)
                  (capture_bpf_multi_u64_array_tlv_direct addrs count 109))
      (capture_bpf_multi_u64_array_tlv_direct cookies count 110)).

Definition is_bpf_uprobe_multi_enter_direct (args : args6) : prog bool :=
  if negb (arg0 args =? BPF_DIRECT_LINK_CREATE) then ret false
  else
    let* t := link_attach_type [BPF_DIRECT_TRACE_UPROBE_MULTI_ATTACH] (arg1 args) (arg2 args) in
    ret (match t with Some _ => true | None => false end).

Definition capture_bpf_uprobe_multi_path_tlv_direct (attr_ptr attr_size : Z) : Z -> dynptr -> Z -> prog (Z * Z) :=
  capture_found (bpf_attr_read_u64_direct attr_ptr attr_size 16) (fun path =>
    same_flags (capture_bpf_string_tlv_direct path BPF_DIRECT_OBJ_PATH_MAX 133)).

Definition read_bpf_uprobe_multi (attr_ptr attr_size : Z) : prog (option (Z * Z * Z * Z)) :=
  let? _ := link_attach_type [BPF_DIRECT_TRACE_UPROBE_MULTI_ATTACH] attr_ptr attr_size in
  let? count := bpf_attr_read_u32_direct attr_ptr attr_size 48 in
  let? offsets := bpf_attr_read_u64_direct attr_ptr attr_size 24 in
  let? ref_ctr_offsets := bpf_attr_read_u64_direct attr_ptr attr_size 32 in
  let? cookies := bpf_attr_read_u64_direct attr_ptr attr_size 40 in
  ret (Some (count, offsets, ref_ctr_offsets, cookies)).

Definition capture_bpf_uprobe_multi_tlv_direct (attr_ptr attr_size : Z) : Z -> dynptr -> Z -> prog (Z * Z) :=
  capture_found (read_bpf_uprobe_multi attr_ptr attr_size) (fun '(count, offsets, ref_ctr_offsets, cookies) =>
    flags_both (flags_both (flags_both (capture_bpf_uprobe_multi_path_tlv_direct attr_ptr attr_size)
                              (capture_bpf_multi_u64_array_tlv_direct offsets count 134))
                  (capture_bpf_multi_u64_array_tlv_direct ref_ctr_offsets count 135))
      (capture_bpf_multi_u64_array_tlv_direct cookies count 136)).

Abbreviation tracing_multi_attach := [59; 60; 61] (only parsing).

Definition is_bpf_tracing_multi_enter_direct (args : args6) : prog bool :=
  if negb (arg0 args =? BPF_DIRECT_LINK_CREATE) then ret false
  else
    let* t := link_attach_type tracing_multi_attach (arg1 args) (arg2 args) in
    ret (match t with Some _ => true | None => false end).

Definition read_bpf_tracing_multi (attr_ptr attr_size : Z) : prog (option (Z * Z * Z)) :=
  let? _ := link_attach_type tracing_multi_attach attr_ptr attr_size in
  let? ids := bpf_attr_read_u64_direct attr_ptr attr_size 16 in
  let? cookies := bpf_attr_read_u64_direct attr_ptr attr_size 24 in
  let? count := bpf_attr_read_u32_direct attr_ptr attr_size 32 in
  ret (Some (ids, cookies, count)).

Definition capture_bpf_tracing_multi_tlv_direct (attr_ptr attr_size : Z) : Z -> dynptr -> Z -> prog (Z * Z) :=
  capture_found (read_bpf_tracing_multi attr_ptr attr_size) (fun '(ids, cookies, count) =>
    flags_both (capture_bpf_multi_u32_array_tlv_direct ids count 145)
      (capture_bpf_multi_u64_array_tlv_direct cookies count 146)).

(** ** Keys and values of maps *)

Definition set_bpf_map_input_request_direct (user_ptr user_len arg_index : Z) : bpf_nested_bytes_capture_request :=
  if (user_ptr =? 0) || (user_len =? 0) then no_request
  else BytesRequest user_ptr user_len BPF_DIRECT_MAP_VALUE_MAX BPF_DIRECT_BYTES_BUCKET_512 arg_index.

Definition read_bpf_map_key_input_request_direct (attr_ptr attr_size arg_index : Z)
    : prog (option bpf_nested_bytes_capture_request) :=
  let? map_fd := bpf_attr_read_u32_direct attr_ptr attr_size 0 in
  let? key := bpf_attr_read_u64_direct attr_ptr attr_size 8 in
  if key =? 0 then ret None
  else
    let? map := bpf_map_of_fd map_fd in
    let* key_size := bpf_core_read bpf_map_key_size map in
    let request := set_bpf_map_input_request_direct key (u32 key_size) arg_index in
    ret (if rq_user_ptr request =? 0 then None else Some request).
Definition read_bpf_map_lookup_key_input_request_direct (attr_ptr attr_size : Z) :=
  read_bpf_map_key_input_request_direct attr_ptr attr_size 139.
Definition read_bpf_map_delete_elem_input_request_direct (attr_ptr attr_size : Z) :=
  read_bpf_map_key_input_request_direct attr_ptr attr_size 123.

Definition bpf_map_get_next_key_key_size_direct (attr_ptr attr_size : Z) : prog Z :=
  let* key_size :=
    let? map_fd := bpf_attr_read_u32_direct attr_ptr attr_size 0 in
    let? map := bpf_map_of_fd map_fd in
    let* key_size := bpf_core_read bpf_map_key_size map in
    ret (Some (u32 key_size)) in
  ret (match key_size with Some n => n | None => 0 end).

Definition read_bpf_map_get_next_key_input_request_direct (attr_ptr attr_size : Z)
    : prog (option bpf_nested_bytes_capture_request) :=
  let? map_fd := bpf_attr_read_u32_direct attr_ptr attr_size 0 in
  let? key := bpf_attr_read_u64_direct attr_ptr attr_size 8 in
  if key =? 0 then ret None
  else
    let* key_size := bpf_map_get_next_key_key_size_direct attr_ptr attr_size in
    if key_size =? 0 then ret None
    else
      let request := set_bpf_map_input_request_direct key key_size 124 in
      ret (if rq_user_ptr request =? 0 then None else Some request).

Definition read_bpf_map_delete_batch_input_request_direct (attr_ptr attr_size : Z)
    : prog (option bpf_nested_bytes_capture_request) :=
  let? keys := bpf_attr_read_u64_direct attr_ptr attr_size 16 in
  let? count := bpf_attr_read_u32_direct attr_ptr attr_size 32 in
  let? map_fd := bpf_attr_read_u32_direct attr_ptr attr_size 36 in
  if count =? 0 then ret None
  else
    let? map := bpf_map_of_fd map_fd in
    let* key_size := bpf_core_read bpf_map_key_size map in
    let request :=
      set_bpf_map_input_request_direct keys (bpf_map_batch_buffer_len_direct count (u32 key_size)) 121 in
    ret (if rq_user_ptr request =? 0 then None else Some request).

(** Keys and values of several elements. *)
Definition read_bpf_map_batch_input_requests_direct (attr_ptr attr_size : Z)
    : prog (option (bpf_nested_bytes_capture_request * bpf_nested_bytes_capture_request)) :=
  let? keys := bpf_attr_read_u64_direct attr_ptr attr_size 16 in
  let? values := bpf_attr_read_u64_direct attr_ptr attr_size 24 in
  let? count := bpf_attr_read_u32_direct attr_ptr attr_size 32 in
  let? map_fd := bpf_attr_read_u32_direct attr_ptr attr_size 36 in
  let? elem_flags := bpf_attr_read_u64_direct attr_ptr attr_size 40 in
  if count =? 0 then ret None
  else
    let? map := bpf_map_of_fd map_fd in
    let* key_size := bpf_core_read bpf_map_key_size map in
    let* value_size := bpf_core_read bpf_map_value_size map in
    let* effective_value_size := bpf_map_effective_value_size_direct map (u32 value_size) elem_flags in
    if effective_value_size =? 0 then ret None
    else
      let keys := set_bpf_map_input_request_direct keys (bpf_map_batch_buffer_len_direct count (u32 key_size)) 121 in
      let values :=
        set_bpf_map_input_request_direct values (bpf_map_batch_buffer_len_direct count effective_value_size) 122 in
      ret (if (rq_user_ptr keys =? 0) && (rq_user_ptr values =? 0) then None else Some (keys, values)).

(** The key and the value of one element. *)
Definition read_bpf_map_update_elem_input_requests_direct (attr_ptr attr_size : Z)
    : prog (option (bpf_nested_bytes_capture_request * bpf_nested_bytes_capture_request)) :=
  let? map_fd := bpf_attr_read_u32_direct attr_ptr attr_size 0 in
  let? key := bpf_attr_read_u64_direct attr_ptr attr_size 8 in
  let? value := bpf_attr_read_u64_direct attr_ptr attr_size 16 in
  let? map := bpf_map_of_fd map_fd in
  let* key_size := bpf_core_read bpf_map_key_size map in
  let* value_size := bpf_core_read bpf_map_value_size map in
  let* effective_value_size := bpf_map_effective_value_size_direct map (u32 value_size) 0 in
  if (u32 key_size =? 0) || (effective_value_size =? 0) then ret None
  else
    let key := set_bpf_map_input_request_direct key (u32 key_size) 126 in
    let value := set_bpf_map_input_request_direct value effective_value_size 127 in
    ret (if (rq_user_ptr key =? 0) && (rq_user_ptr value =? 0) then None else Some (key, value)).

(** Two requests, one behind the other. *)
Definition capture_bpf_map_batch_inputs_tlv_direct
    (requests : bpf_nested_bytes_capture_request * bpf_nested_bytes_capture_request)
    : Z -> dynptr -> Z -> prog (Z * Z) :=
  flags_both (capture_bpf_bytes_tlv_direct (fst requests)) (capture_bpf_bytes_tlv_direct (snd requests)).
Definition capture_bpf_map_update_elem_inputs_tlv_direct := capture_bpf_map_batch_inputs_tlv_direct.
Definition capture_bpf_map_batch_input_tlv_direct (attr_ptr attr_size : Z) : Z -> dynptr -> Z -> prog (Z * Z) :=
  capture_found (read_bpf_map_batch_input_requests_direct attr_ptr attr_size) capture_bpf_map_batch_inputs_tlv_direct.

(** ** Program loading *)

Definition is_bpf_prog_load_enter_direct (args : args6) : bool := arg0 args =? BPF_DIRECT_PROG_LOAD.

Definition capture_bpf_prog_load_insns_tlv_direct (insns insn_cnt : Z) : Z -> dynptr -> Z -> prog (Z * Z) :=
  if (insns =? 0) || (insn_cnt =? 0) || (0x1fffffff <? insn_cnt) then no_capture
  else capture_bpf_bytes_tlv_direct
         (BytesRequest insns (u32 (insn_cnt * 8)) BPF_DIRECT_INSNS_MAX BPF_DIRECT_BYTES_BUCKET_512 112).

Definition read_bpf_prog_load_fd_array (attr_ptr attr_size : Z) : prog (option bpf_nested_bytes_capture_request) :=
  let? fd_array := bpf_attr_read_u64_direct attr_ptr attr_size 120 in
  let? fd_array_cnt := bpf_attr_read_u32_direct attr_ptr attr_size 148 in
  ret (if (fd_array =? 0) || (fd_array_cnt =? 0) || (0xffffffff / 4 <? fd_array_cnt) then None
       else Some (BytesRequest fd_array (u32 (fd_array_cnt * 4)) 512 BPF_DIRECT_BYTES_BUCKET_512 141)).

(** An array of [count] records of [rec_size] bytes, at least [min_size] each. *)
Definition read_bpf_prog_load_records (rec_size_off ptr_off cnt_off min_size arg_index attr_ptr attr_size : Z)
    : prog (option bpf_nested_bytes_capture_request) :=
  let? rec_size := bpf_attr_read_u32_direct attr_ptr attr_size rec_size_off in
  let? records := bpf_attr_read_u64_direct attr_ptr attr_size ptr_off in
  let? count := bpf_attr_read_u32_direct attr_ptr attr_size cnt_off in
  ret (if (records =? 0) || (rec_size <? min_size) || (count =? 0) then None
       else
         let user_len := u64 (rec_size * count) in
         if 0xffffffff <? user_len then None
         else Some (BytesRequest records (u32 user_len) 512 BPF_DIRECT_BYTES_BUCKET_512 arg_index)).

Definition capture_bpf_prog_load_fd_array_tlv_direct (attr_ptr attr_size : Z) : Z -> dynptr -> Z -> prog (Z * Z) :=
  capture_found (read_bpf_prog_load_fd_array attr_ptr attr_size) capture_bpf_bytes_tlv_direct.
Definition capture_bpf_prog_load_func_info_tlv_direct (attr_ptr attr_size : Z) : Z -> dynptr -> Z -> prog (Z * Z) :=
  capture_found (read_bpf_prog_load_records 76 80 88 1 142 attr_ptr attr_size) capture_bpf_bytes_tlv_direct.
Definition capture_bpf_prog_load_line_info_tlv_direct (attr_ptr attr_size : Z) : Z -> dynptr -> Z -> prog (Z * Z) :=
  capture_found (read_bpf_prog_load_records 92 96 104 16 143 attr_ptr attr_size) capture_bpf_bytes_tlv_direct.
Definition capture_bpf_prog_load_core_relos_tlv_direct (attr_ptr attr_size : Z) : Z -> dynptr -> Z -> prog (Z * Z) :=
  capture_found (read_bpf_prog_load_records 136 128 116 16 144 attr_ptr attr_size) capture_bpf_bytes_tlv_direct.

(** A pointer and its length. *)
Definition read_bpf_sized (size_off ptr_off attr_ptr attr_size : Z) : prog (option (Z * Z)) :=
  let? size := bpf_attr_read_u32_direct attr_ptr attr_size size_off in
  let? ptr := bpf_attr_read_u64_direct attr_ptr attr_size ptr_off in
  ret (Some (ptr, size)).

Definition capture_bpf_prog_load_nested_tlv_direct (attr_ptr attr_size : Z) : Z -> dynptr -> Z -> prog (Z * Z) :=
  flags_both
    (capture_found (read_bpf_sized 4 8 attr_ptr attr_size) (fun '(insns, insn_cnt) =>
       capture_bpf_prog_load_insns_tlv_direct insns insn_cnt))
    (flags_both
       (capture_found (bpf_attr_read_u64_direct attr_ptr attr_size 16) (fun license_ptr =>
          same_flags (capture_bpf_license_tlv_direct license_ptr)))
       (flags_both
          (capture_found (read_bpf_sized 28 32 attr_ptr attr_size) (fun '(log_buf, log_size) =>
             capture_bpf_bytes_tlv_direct
               (BytesRequest log_buf log_size BPF_DIRECT_LOG_BUF_MAX BPF_DIRECT_BYTES_BUCKET_256 102)))
          (capture_found (read_bpf_sized 160 152 attr_ptr attr_size) (fun '(signature, signature_size) =>
             capture_bpf_bytes_tlv_direct
               (BytesRequest signature signature_size BPF_DIRECT_SIGNATURE_MAX BPF_DIRECT_BYTES_BUCKET_256 103))))).

Definition capture_bpf_prog_load_debug_nested_tlv_direct (attr_ptr attr_size : Z) : Z -> dynptr -> Z -> prog (Z * Z) :=
  flags_both
    (flags_both
       (flags_both (capture_bpf_prog_load_fd_array_tlv_direct attr_ptr attr_size)
          (capture_bpf_prog_load_func_info_tlv_direct attr_ptr attr_size))
       (capture_bpf_prog_load_line_info_tlv_direct attr_ptr attr_size))
    (capture_bpf_prog_load_core_relos_tlv_direct attr_ptr attr_size).

(** ** The commands *)

Definition capture_bpf_attr_tlv_direct (user_ptr requested_len event_flags : Z) (ptr : dynptr) (payload_offset : Z)
    : prog (Z * Z) :=
  if (user_ptr =? 0) || (requested_len =? 0) then ret (0, event_flags)
  else capture_buffer PAYLOAD_TLV_KIND_BYTES BPF_DIRECT_ATTR_MAX 1 0 user_ptr requested_len event_flags
         ptr payload_offset.

Definition capture_bpf_obj_pathname_tlv_direct (attr_ptr attr_size : Z) : Z -> dynptr -> Z -> prog (Z * Z) :=
  capture_found (bpf_attr_read_u64_direct attr_ptr attr_size 0) (fun pathname =>
    same_flags (capture_bpf_string_tlv_direct pathname BPF_DIRECT_OBJ_PATH_MAX 104)).
Definition capture_bpf_raw_tracepoint_name_tlv_direct (attr_ptr attr_size : Z) : Z -> dynptr -> Z -> prog (Z * Z) :=
  capture_found (bpf_attr_read_u64_direct attr_ptr attr_size 0) (fun name =>
    same_flags (capture_bpf_string_tlv_direct name BPF_DIRECT_RAW_TRACEPOINT_NAME_MAX 105)).

Definition read_bpf_btf (attr_ptr attr_size : Z) : prog (option bpf_nested_bytes_capture_request) :=
  let? btf := bpf_attr_read_u64_direct attr_ptr attr_size 0 in
  let? btf_size := bpf_attr_read_u32_direct attr_ptr attr_size 16 in
  ret (if (btf =? 0) || (btf_size =? 0) then None
       else Some (BytesRequest btf btf_size BPF_DIRECT_BTF_MAX BPF_DIRECT_BYTES_BUCKET_256 106)).
Definition capture_bpf_btf_tlv_direct (attr_ptr attr_size : Z) : Z -> dynptr -> Z -> prog (Z * Z) :=
  capture_found (read_bpf_btf attr_ptr attr_size) capture_bpf_bytes_tlv_direct.

Definition read_bpf_link_iter_info (attr_ptr attr_size : Z) : prog (option bpf_nested_bytes_capture_request) :=
  let? _ := link_attach_type [BPF_DIRECT_TRACE_ITER_ATTACH] attr_ptr attr_size in
  let? iter_info := bpf_attr_read_u64_direct attr_ptr attr_size 16 in
  let? iter_info_len := bpf_attr_read_u32_direct attr_ptr attr_size 24 in
  ret (if (iter_info =? 0) || (iter_info_len =? 0) || (0x3fffffff <? iter_info_len) then None
       else Some (BytesRequest iter_info (u32 (iter_info_len * 4)) BPF_DIRECT_LINK_ITER_INFO_MAX
                    BPF_DIRECT_BYTES_BUCKET_20 107)).
Definition capture_bpf_link_iter_info_tlv_direct (attr_ptr attr_size : Z) : Z -> dynptr -> Z -> prog (Z * Z) :=
  capture_found (read_bpf_link_iter_info attr_ptr attr_size) capture_bpf_bytes_tlv_direct.

Definition capture_bpf_nested_tlv_direct (cmd attr_ptr attr_size : Z) : Z -> dynptr -> Z -> prog (Z * Z) :=
  if existsb (Z.eqb cmd) [BPF_DIRECT_OBJ_PIN; BPF_DIRECT_OBJ_GET] then
    capture_bpf_obj_pathname_tlv_direct attr_ptr attr_size
  else if cmd =? BPF_DIRECT_RAW_TRACEPOINT_OPEN then
    capture_bpf_raw_tracepoint_name_tlv_direct attr_ptr attr_size
  else if cmd =? BPF_DIRECT_BTF_LOAD then
    capture_bpf_btf_tlv_direct attr_ptr attr_size
  else if cmd =? BPF_DIRECT_LINK_CREATE then
    flags_both (capture_bpf_link_iter_info_tlv_direct attr_ptr attr_size)
      (capture_bpf_kprobe_multi_tlv_direct attr_ptr attr_size)
  else if cmd =? BPF_DIRECT_MAP_GET_NEXT_KEY then
    capture_found (read_bpf_map_get_next_key_input_request_direct attr_ptr attr_size) capture_bpf_bytes_tlv_direct
  else if existsb (Z.eqb cmd) [BPF_DIRECT_MAP_LOOKUP_ELEM; BPF_DIRECT_MAP_LOOKUP_AND_DELETE_ELEM] then
    capture_found (read_bpf_map_lookup_key_input_request_direct attr_ptr attr_size) capture_bpf_bytes_tlv_direct
  else if cmd =? BPF_DIRECT_MAP_UPDATE_ELEM then
    capture_found (read_bpf_map_update_elem_input_requests_direct attr_ptr attr_size)
      capture_bpf_map_update_elem_inputs_tlv_direct
  else if cmd =? BPF_DIRECT_MAP_UPDATE_BATCH then
    capture_bpf_map_batch_input_tlv_direct attr_ptr attr_size
  else if cmd =? BPF_DIRECT_MAP_DELETE_BATCH then
    capture_found (read_bpf_map_delete_batch_input_request_direct attr_ptr attr_size) capture_bpf_bytes_tlv_direct
  else if cmd =? BPF_DIRECT_MAP_DELETE_ELEM then
    capture_found (read_bpf_map_delete_elem_input_request_direct attr_ptr attr_size) capture_bpf_bytes_tlv_direct
  else no_capture.

(** ** Records *)

(** An entry record whose header, and body when [body_in_place], is built in the record. *)
Definition bpf_enter_emit (body_in_place : bool) (cap base_flags pid tid sys_id : Z)
    (ctx : trace_event_raw_sys_enter) (ts_ns : Z) (capture : Z -> dynptr -> Z -> prog (Z * Z)) : prog unit :=
  let out_size := EVENT_V2_HEADER_LEN + EVENT_V2_ENTER_BODY_LEN + cap in
  let header := fun sequence flags =>
    init_syscall_event_v2_header_direct EVENT_TYPE_ENTER flags pid tid sys_id out_size ts_ns sequence in
  let body := enter_ctx_body ctx (-1) in
  emit_record_committed out_size
    (fun ptr => let* (n, flags) := capture base_flags ptr enter_payload_offset in ret (tlv_flag flags n, n))
    (fun ptr sequence flags n =>
       if body_in_place then commit_record_in_place EVENT_V2_ENTER_BODY_LEN ptr sequence flags n header body
       else commit_record_header_in_place ptr sequence flags n header body).

(** The attribute, then what [nested] finds behind it. *)
Definition bpf_attr_then (nested : Z -> Z -> Z -> dynptr -> Z -> prog (Z * Z)) (args : args6)
    : Z -> dynptr -> Z -> prog (Z * Z) :=
  flags_both (capture_bpf_attr_tlv_direct (arg1 args) (arg2 args)) (nested (arg1 args) (arg2 args)).

Definition emit_bpf_enter_event_v2_direct (pid tid sys_id : Z) (ctx : trace_event_raw_sys_enter) (ts_ns : Z)
    : prog unit :=
  let args := args_u64 (enter_args ctx) in
  bpf_enter_emit true (PAYLOAD_TLV_HEADER_SIZE + BPF_DIRECT_ATTR_MAX + BPF_DIRECT_NESTED_CAPACITY)
    EVENT_FLAG_GENERIC_ENTER pid tid sys_id ctx ts_ns
    (bpf_attr_then (capture_bpf_nested_tlv_direct (arg0 args)) args).

Definition emit_bpf_prog_load_enter_event_v2_direct (pid tid sys_id : Z) (ctx : trace_event_raw_sys_enter)
    (ts_ns : Z) : prog unit :=
  bpf_enter_emit true (PAYLOAD_TLV_HEADER_SIZE + BPF_DIRECT_ATTR_MAX + BPF_DIRECT_PROG_LOAD_BASE_CAPACITY)
    EVENT_FLAG_GENERIC_ENTER pid tid sys_id ctx ts_ns
    (bpf_attr_then capture_bpf_prog_load_nested_tlv_direct (args_u64 (enter_args ctx))).

Definition emit_bpf_prog_load_debug_enter_fragment_event_v2_direct (pid tid sys_id : Z)
    (ctx : trace_event_raw_sys_enter) (ts_ns : Z) : prog unit :=
  let args := args_u64 (enter_args ctx) in
  bpf_enter_emit true BPF_DIRECT_PROG_LOAD_DEBUG_CAPACITY EVENT_FLAG_ENTER_FRAGMENT pid tid sys_id ctx ts_ns
    (capture_bpf_prog_load_debug_nested_tlv_direct (arg1 args) (arg2 args)).

Definition emit_bpf_uprobe_multi_enter_event_v2_direct (pid tid sys_id : Z) (ctx : trace_event_raw_sys_enter)
    (ts_ns : Z) : prog unit :=
  bpf_enter_emit true (PAYLOAD_TLV_HEADER_SIZE + BPF_DIRECT_ATTR_MAX + BPF_DIRECT_UPROBE_MULTI_CAPACITY)
    EVENT_FLAG_GENERIC_ENTER pid tid sys_id ctx ts_ns
    (bpf_attr_then capture_bpf_uprobe_multi_tlv_direct (args_u64 (enter_args ctx))).

Definition emit_bpf_tracing_multi_enter_event_v2_direct (pid tid sys_id : Z) (ctx : trace_event_raw_sys_enter)
    (ts_ns : Z) : prog unit :=
  bpf_enter_emit false (PAYLOAD_TLV_HEADER_SIZE + BPF_DIRECT_ATTR_MAX + BPF_DIRECT_TRACING_MULTI_CAPACITY)
    EVENT_FLAG_GENERIC_ENTER pid tid sys_id ctx ts_ns
    (bpf_attr_then capture_bpf_tracing_multi_tlv_direct (args_u64 (enter_args ctx))).
End Bpf.

(** ** Contracts *)

Section BpfLemmas.
Context {K : Kernel} {A : Arch}.

(** *** Readers *)

(** A member of the attribute. *)
Definition attr_member (n attr_ptr off v : Z) : Prop := member_read n (u64 (attr_ptr + off)) v.

Lemma bpf_attr_reader n attr_ptr len off : 0 <= n -> reader (attr_member n attr_ptr off) (bpf_attr_read n attr_ptr len off).
Proof.
  intros Hn. unfold bpf_attr_read. destruct (_ || _); [apply reader_none|]. split; [keeps_solve|].
  intros w. wp_step. pose proof (probe_read_user_result n (u64 (attr_ptr + off)) w) as R.
  unfold wp at 1. destruct (bpf_probe_read_user _ _ w) as [[err data] w1]. cbn [fst snd] in *.
  destruct (R Hn) as [_ Hr]. wp_step. destruct (Z.eqb_spec err 0); [|done]. intros x [= <-].
  destruct Hr as [[_ ->]|[[? _] _]]; [by exists (calls w) | lia].
Qed.
Lemma attr_u32_range attr_ptr off v : attr_member 4 attr_ptr off v -> 0 <= v < 2 ^ 32.
Proof. intros H. apply member_read_bound in H; lia. Qed.
Lemma attr_u64_range attr_ptr off v : attr_member 8 attr_ptr off v -> 0 <= v < 2 ^ 64.
Proof. intros H. apply member_read_bound in H; lia. Qed.

Lemma lookup_bpf_map_quiet fd : keeps quiet (lookup_current_bpf_map_direct fd).
Proof. unfold lookup_current_bpf_map_direct, lookup_current_fd_file, bpf_get_current_task. keeps_solve. Qed.
Hint Resolve lookup_bpf_map_quiet : keeps.
Lemma bpf_map_reader fd : reader (fun map => map <> 0) (bpf_map_of_fd fd).
Proof.
  unfold bpf_map_of_fd. apply reader_quiet; [keeps_solve|]. intros map.
  destruct (Z.eqb_spec map 0); [apply reader_none | by apply reader_some].
Qed.
Lemma effective_value_size_quiet map n flags : keeps quiet (bpf_map_effective_value_size_direct map n flags).
Proof. unfold bpf_map_effective_value_size_direct, bpf_runtime_possible_cpu_count_direct. keeps_solve. Qed.

(** The size of the values of a map stays a [u32]. *)
Lemma effective_value_size_range map n flags w :
  0 <= n < 2 ^ 32 -> wp (bpf_map_effective_value_size_direct map n flags) (fun v w' => quiet w w' /\ 0 <= v < 2 ^ 32) w.
Proof.
  intros Hn. enough (wp (bpf_map_effective_value_size_direct map n flags) (fun v _ => 0 <= v < 2 ^ 32) w) as H
    by (split; [apply effective_value_size_quiet | exact H]).
  unfold bpf_map_effective_value_size_direct, bpf_runtime_possible_cpu_count_direct.
  wp_step. unfold wp at 1. destruct (bpf_core_read _ _ w) as [t w1]. cbn [fst snd]. cbv beta.
  destruct (_ || _); [by wp_step|]. do 2 wp_step. unfold bpf_map_lookup_elem. wp_steps.
  set (cpus := match _ with Some _ => _ | None => _ end).
  destruct (cpus =? 0); wp_step; [lia|]. destruct (_ <? _); [lia | apply u32_range].
Qed.

(** *** Bytes *)

(** [n] bytes of the user's, out of [user_len]. *)
Definition prefix_data (n user_len user_ptr base fl ulen : Z) (data : list Z) (e : Z) : Prop :=
  ulen = user_len /\ copied user_ptr n data e /\
  fl = if (e =? 0) && (n <? user_len) then Z.lor base EVENT_FLAG_TRUNCATED else base.
Definition prefix_section (arg_index n user_len user_ptr base fl : Z) : list PayloadSection -> Prop :=
  one_section (section_with PayloadKindBytes PayloadDirectionIn arg_index user_ptr
    (prefix_data n user_len user_ptr base fl)).

Lemma capture_bytes_prefix_ok slot n arg_index user_len user_ptr base d w buf off data :
  (forall o, data o = bpf_dynptr_data (Some d) o slot) -> 0 < n <= slot -> n < 2 ^ 31 -> 0 <= user_len < 2 ^ 32 ->
  reserved w !! d = Some buf -> 0 <= off -> off + (PAYLOAD_TLV_HEADER_SIZE + slot) <= zlen buf ->
  wp (capture_bytes_prefix data n arg_index user_len user_ptr base (Some d) off) (fun '(m, fl) w' =>
    0 <= m <= PAYLOAD_TLV_HEADER_SIZE + n /\ flags_from base fl /\ captures d off w w' /\
    (no_fault -> decodable (prefix_section arg_index n user_len user_ptr base fl) d off m w')) w.
Proof.
  intros Hd Hn Hm Hu Hb Ho Hz. unfold capture_bytes_prefix. rewrite Hd.
  pose proof (capturing_start d off w buf Hb) as C0. set (D := prefix_data n user_len user_ptr base).
  assert (forall w1 b c e, capturing d off (zlen buf) w w1 b -> (c = n /\ e = 0 \/ c = 0 /\ e < 0) ->
    copied user_ptr n (slice b (off + PAYLOAD_TLV_HEADER_SIZE) c) e ->
    wp (let* event_flags := note_truncation c e user_len base in
        let* size := finish_section (Some d) off (TlvHeader PAYLOAD_TLV_KIND_BYTES arg_index 0 user_len c e user_ptr) in
        ret (size, event_flags)) (fun '(m, fl) w' =>
      0 <= m <= PAYLOAD_TLV_HEADER_SIZE + n /\ flags_from base fl /\ captures d off w w' /\
      (no_fault -> decodable (prefix_section arg_index n user_len user_ptr base fl) d off m w')) w1) as Fin.
  { intros w1 b c e C1 Hc HD. eapply wp_mono.
    - eapply (wp_finish_flags D) with (cap := 32 + n); [exact C1|..]; try done; try lia.
      split; [done|]. split; [exact HD|]. destruct Hc as [[-> ->]|[-> He]].
      + cbn [Z.eqb andb]. by destruct (Z.ltb_spec 0 n); [|lia].
      + by destruct (Z.eqb_spec e 0); [lia|].
    - intros [m fl] w2 (? & ? & ? & HD'). split_and!; [lia | lia | done | done |]. intros _. by apply HD'. }
  wp_step. eapply wp_dynptr_data; [exact C0 | lia | |]; intros w1.
  2: { intros NF C1. cbv beta iota. do 2 wp_step. eapply wp_copy_fail; [exact C1 | exact NF |]. intros _ w2 C2. wp_step.
       eapply Fin; [exact C2 | right; lia |]. rewrite slice_0. right. split; [done | by apply failed_fault]. }
  intros C1. cbv beta iota. do 2 wp_step. eapply wp_read_user_into; [exact C1 | lia | lia | lia |].
  intros w2 err bytes Hl Hr C2. wp_step. destruct (Z.ltb_spec err 0).
  - eapply Fin; [exact C2 | right; lia |]. rewrite slice_0. right. split; [done | solve_failed].
  - destruct Hr as [[-> ->]|[? _]]; [|lia]. eapply Fin; [exact C2 | by left |]. left. split; [done|].
    exists (calls w1). apply slice_put_same; lia.
Qed.

(** What a request asks for: at most [M] bytes, in a slot of at most [S] bytes. *)
Definition request_fits (M S : Z) (r : bpf_nested_bytes_capture_request) : Prop :=
  0 <= rq_user_len r < 2 ^ 32 /\
  (rq_max_len r = 0 \/ 0 < rq_max_len r <= M /\ rq_max_len r <= rq_storage_len r <= S /\
     In (rq_storage_len r) [20; 64; 256; 512]).

(** What a request leaves. *)
Definition bytes_sections (r : bpf_nested_bytes_capture_request) (base fl : Z) (secs : list PayloadSection) : Prop :=
  if (rq_user_ptr r =? 0) || (rq_user_len r =? 0) || (rq_max_len r =? 0)
  then unflagged (fun secs => secs = []) base fl secs
  else prefix_section (rq_arg_index r) (Z.min (rq_user_len r) (rq_max_len r)) (rq_user_len r) (rq_user_ptr r) base fl secs.

Lemma no_capture_room d off m base w buf :
  reserved w !! d = Some buf -> 0 <= m ->
  wp (ret (0, base)) (fun '(n, fl) w' => 0 <= n <= m /\ flags_from base fl /\ captures d off w w' /\
    (no_fault -> decodable (unflagged (fun secs => secs = []) base fl) d off n w')) w.
Proof.
  intros Hb Hm. wp_step. split_and!; [lia | lia | by left | reflexivity |]. intros _.
  eapply decodable_0; [by apply capturing_start | done].
Qed.

Lemma capture_bpf_bytes_room M S r :
  request_fits M S r -> 0 <= M ->
  flags_capture_room (bytes_sections r) (PAYLOAD_TLV_HEADER_SIZE + S) (PAYLOAD_TLV_HEADER_SIZE + M)
    (capture_bpf_bytes_tlv_direct r).
Proof.
  intros [Hl Hr] HM base w d buf off Hb Ho Hs. destruct r as [ptr len max storage arg].
  unfold capture_bpf_bytes_tlv_direct, bytes_sections. cbn [rq_user_ptr rq_user_len rq_max_len rq_storage_len rq_arg_index] in *.
  destruct ((ptr =? 0) || (len =? 0) || (max =? 0)) eqn:E; [apply (no_capture_room _ _ (32 + M) _ _ _ Hb); lia|].
  apply orb_false_iff in E as [E E3]. apply orb_false_iff in E as [E1 E2].
  apply Z.eqb_neq in E1, E2, E3. destruct Hr as [?|(Hmax & Hst & Hin)]; [done|].
  destruct (Z.ltb_spec storage max); [lia|]. cbn [orb].
  assert (storage <= 512) by (destruct Hin as [<-|[<-|[<-|[<-|[]]]]]; lia).
  rewrite payload_tlv_copy_len_min by lia.
  destruct (Z.ltb_spec 512 (Z.min len max)); [lia|]. destruct (Z.ltb_spec storage (Z.min len max)); [lia|].
  eapply wp_mono; [eapply (capture_bytes_prefix_ok storage); [|lia | lia | lia | exact Hb | lia | lia]|].
  - intros o. unfold bpf_nested_bytes_storage_direct. by destruct Hin as [<-|[<-|[<-|[<-|[]]]]].
  - intros [n fl] w' (? & ? & ? & ?). by split_and!; [lia | lia | ..].
Qed.

Lemma capture_bpf_bytes_ok M S r :
  request_fits M S r -> 0 <= M <= S -> flags_capture (bytes_sections r) (PAYLOAD_TLV_HEADER_SIZE + S)
    (capture_bpf_bytes_tlv_direct r).
Proof. intros Hr HM. apply room_capture. eapply room_weaken; [apply (capture_bpf_bytes_room M S); [done | lia] | lia | lia]. Qed.

(** A request for what the pointer at [off] of the attribute points to. *)
Definition request_from (attr_ptr off arg_index M S : Z) (r : bpf_nested_bytes_capture_request) : Prop :=
  request_fits M S r /\
  (rq_user_ptr r = 0 \/ rq_arg_index r = arg_index /\ attr_member 8 attr_ptr off (rq_user_ptr r)).

Lemma bytes_request_from attr_ptr off ptr len max storage arg M S :
  attr_member 8 attr_ptr off ptr -> 0 <= len < 2 ^ 32 -> 0 < max <= M -> max <= storage <= S ->
  In storage [20; 64; 256; 512] -> request_from attr_ptr off arg M S (BytesRequest ptr len max storage arg).
Proof. intros. split; [split; [done | by right] | by right]. Qed.

Lemma set_input_request_from attr_ptr off ptr len arg :
  attr_member 8 attr_ptr off ptr -> 0 <= len < 2 ^ 32 ->
  request_from attr_ptr off arg 512 512 (set_bpf_map_input_request_direct ptr len arg).
Proof.
  intros Hp Hl. unfold set_bpf_map_input_request_direct. destruct (_ || _).
  - split; [split; [done | by left] | by left].
  - apply bytes_request_from; try done; cbn; auto.
Qed.

Lemma batch_len_range count n : 0 <= bpf_map_batch_buffer_len_direct count n < 2 ^ 32.
Proof. unfold bpf_map_batch_buffer_len_direct. destruct (_ <? _); [lia | apply u32_range]. Qed.

(** Steps through a reader. *)
Ltac read_attr :=
  lazymatch goal with
  | |- reader _ (bind (bpf_attr_read_u32_direct _ _ _) _) =>
      eapply reader_bind; [apply bpf_attr_reader; lia|]; let v := fresh "v" in let H := fresh "Hv" in
      intros v H; pose proof (attr_u32_range _ _ _ H)
  | |- reader _ (bind (bpf_attr_read_u64_direct _ _ _) _) =>
      eapply reader_bind; [apply bpf_attr_reader; lia|]; intros ? ?
  | |- reader _ (bind (bpf_map_of_fd _) _) => eapply reader_bind; [apply bpf_map_reader|]; intros ? _
  | |- reader _ (bind _ _) => apply reader_quiet; [solve [eauto with keeps]|]; intros ?
  | |- reader _ (if ?b then _ else _) => destruct b eqn:?
  | |- reader _ (let _ := _ in _) => cbv zeta
  | |- reader _ (ret (if ?b then _ else _)) => destruct b eqn:?
  | |- reader _ (ret (let _ := _ in _)) => cbv zeta
  | |- reader _ (ret (Some _)) => apply reader_some
  | |- reader _ (ret None) => apply reader_none
  end.

Lemma key_request_reader attr_ptr size arg :
  reader (request_from attr_ptr 8 arg 512 512) (read_bpf_map_key_input_request_direct attr_ptr size arg).
Proof.
  unfold read_bpf_map_key_input_request_direct. repeat read_attr.
  apply set_input_request_from; [done | apply u32_range].
Qed.

Lemma get_next_key_size_quiet attr_ptr size : keeps quiet (bpf_map_get_next_key_key_size_direct attr_ptr size).
Proof.
  unfold bpf_map_get_next_key_key_size_direct, bpf_attr_read_u32_direct, bpf_attr_read, bpf_map_of_fd.
  keeps_solve.
Qed.
Lemma get_next_key_size_range attr_ptr size w :
  wp (bpf_map_get_next_key_key_size_direct attr_ptr size) (fun n _ => 0 <= n < 2 ^ 32) w.
Proof.
  unfold bpf_map_get_next_key_key_size_direct. wp_step. unfold wp.
  match goal with |- context [fst (?m w)] => set (read := m) end.
  assert (reader (fun n => 0 <= n < 2 ^ 32) read) as [_ Hr].
  { subst read. repeat read_attr. apply u32_range. }
  specialize (Hr w). unfold wp in Hr. destruct (read w) as [[n|] w1]; cbn [fst snd ret] in *; [by apply Hr | lia].
Qed.

Lemma get_next_key_reader attr_ptr size :
  reader (request_from attr_ptr 8 124 512 512) (read_bpf_map_get_next_key_input_request_direct attr_ptr size).
Proof.
  unfold read_bpf_map_get_next_key_input_request_direct. do 3 read_attr; [apply reader_none|].
  eapply reader_known; [apply get_next_key_size_quiet | apply get_next_key_size_range |]. intros n Hn.
  repeat read_attr. by apply set_input_request_from.
Qed.

Lemma delete_batch_reader attr_ptr size :
  reader (request_from attr_ptr 16 121 512 512) (read_bpf_map_delete_batch_input_request_direct attr_ptr size).
Proof.
  unfold read_bpf_map_delete_batch_input_request_direct. repeat read_attr.
  apply set_input_request_from; [done | apply batch_len_range].
Qed.

(** Two requests. *)
Definition requests_from (attr_ptr off1 arg1 off2 arg2 : Z)
    (rs : bpf_nested_bytes_capture_request * bpf_nested_bytes_capture_request) : Prop :=
  request_from attr_ptr off1 arg1 512 512 (fst rs) /\ request_from attr_ptr off2 arg2 512 512 (snd rs).

Lemma batch_reader attr_ptr size :
  reader (requests_from attr_ptr 16 121 24 122) (read_bpf_map_batch_input_requests_direct attr_ptr size).
Proof.
  unfold read_bpf_map_batch_input_requests_direct. repeat (lazymatch goal with |- reader _ (bind (bpf_map_effective_value_size_direct _ _ _) _) => fail | _ => read_attr end).
  all: eapply reader_known; [apply effective_value_size_quiet | |].
  all: try (intros w; eapply wp_mono; [apply effective_value_size_range, u32_range | intros n w1 [_ Hn]; exact Hn]).
  intros n Hn. repeat read_attr. split; apply set_input_request_from; (done || apply batch_len_range).
Qed.

Lemma update_elem_reader attr_ptr size :
  reader (requests_from attr_ptr 8 126 16 127) (read_bpf_map_update_elem_input_requests_direct attr_ptr size).
Proof.
  unfold read_bpf_map_update_elem_input_requests_direct. repeat (lazymatch goal with |- reader _ (bind (bpf_map_effective_value_size_direct _ _ _) _) => fail | _ => read_attr end).
  eapply reader_known; [apply effective_value_size_quiet | |].
  { intros w. eapply wp_mono; [apply effective_value_size_range, u32_range | intros n w1 [_ Hn]; exact Hn]. }
  intros n Hn. repeat read_attr. split; apply set_input_request_from; (done || apply u32_range).
Qed.

(** *** Multi links *)

(** The first four entries of an array of at most 1,024. *)
Definition multi_sections (elem_size user_ptr count arg_index base fl : Z) (secs : list PayloadSection) : Prop :=
  if (user_ptr =? 0) || (count =? 0) || (BPF_DIRECT_MULTI_COUNT_LIMIT <? count)
  then unflagged (fun secs => secs = []) base fl secs
  else prefix_section arg_index (Z.min count 4 * elem_size) (count * elem_size) user_ptr base fl secs.

Lemma multi_lengths elem_size count :
  0 < elem_size <= 52 -> 0 <= count <= 1024 ->
  bpf_direct_multi_user_len count elem_size = count * elem_size /\ bpf_direct_multi_copy_entries count = Z.min count 4.
Proof.
  intros He Hc. unfold bpf_direct_multi_user_len, bpf_direct_multi_copy_entries.
  assert (1024 <= 0xffffffff / elem_size) by (apply Z.div_le_lower_bound; lia). split.
  - destruct (Z.ltb_spec (0xffffffff / elem_size) count); [lia|]. rewrite andb_false_r, u32_small; nia.
  - destruct (Z.ltb_spec 4 count); lia.
Qed.

Lemma capture_multi_ok elem_size user_ptr count arg_index :
  0 < elem_size <= 8 -> 0 <= count ->
  flags_capture (multi_sections elem_size user_ptr count arg_index) (32 + 4 * elem_size)
    (capture_bpf_multi_array elem_size user_ptr count arg_index).
Proof.
  intros He Hc base w d buf off Hb Ho Hs. unfold capture_bpf_multi_array, multi_sections.
  destruct (_ || _) eqn:E; [apply (no_capture_room _ _ (32 + 4 * elem_size) _ _ _ Hb); lia|].
  apply orb_false_iff in E as [E E3]. apply orb_false_iff in E as [E1 E2].
  apply Z.eqb_neq in E1, E2. apply Z.ltb_ge in E3.
  destruct (multi_lengths elem_size count) as [-> ->]; [lia | lia |].
  eapply wp_mono; [eapply (capture_bytes_prefix_ok (4 * elem_size)); [done | nia | nia | nia | exact Hb | lia | lia]|].
  intros [n fl] w' (? & ? & ? & ?). split_and!; [lia | nia | done..].
Qed.

(** One symbol as it was read: its pointer, and its name when there is one. *)
Definition kprobe_sym (syms i : Z) (record : list Z) : Prop :=
  (exists e, read_failed (slot_ptr syms 8 i) e /\ record = bpf_direct_kprobe_sym_record 0 e []) \/
  exists p, member_read 8 (slot_ptr syms 8 i) p /\
    (p = 0 /\ record = bpf_direct_kprobe_sym_record 0 0 [] \/
     p <> 0 /\ exists n name, record = bpf_direct_kprobe_sym_record p n name /\
       ((exists k, name = until_nul (user_bytes k p 39) ++ [0] /\ n = zlen name) \/ read_failed p n)).

Lemma zlen_sym_record p n name : zlen (bpf_direct_kprobe_sym_record p n name) = 52.
Proof. unfold bpf_direct_kprobe_sym_record. by autorewrite with zlen. Qed.

Lemma read_kprobe_sym_quiet syms i : keeps quiet (read_kprobe_sym syms i).
Proof. unfold read_kprobe_sym. keeps_solve. Qed.

Lemma read_kprobe_sym_result syms i w :
  wp (read_kprobe_sym syms i) (fun record w' => quiet w w' /\ zlen record = 52 /\ kprobe_sym syms i record) w.
Proof.
  enough (wp (read_kprobe_sym syms i) (fun record _ => zlen record = 52 /\ kprobe_sym syms i record) w) as H
    by (split; [apply read_kprobe_sym_quiet | exact H]).
  unfold read_kprobe_sym. wp_step.
  pose proof (probe_read_user_result 8 (slot_ptr syms 8 i) w) as R.
  unfold wp at 1. destruct (bpf_probe_read_user 8 _ w) as [[err data] w1]. cbn [fst snd] in *.
  destruct (R ltac:(lia)) as [_ Hr]. destruct (Z.ltb_spec err 0).
  { wp_step. split; [apply zlen_sym_record|]. left. exists err. split; [|done].
    destruct Hr as [[? _]|[? _]]; [lia | done]. }
  destruct Hr as [[-> Hd]|[[? _] _]]; [|lia].
  assert (member_read 8 (slot_ptr syms 8 i) (le_val data)) as Hm by (rewrite Hd; by eexists).
  destruct (Z.eqb_spec (le_val data) 0) as [E0|E0].
  { wp_step. split; [apply zlen_sym_record|]. right. exists 0. rewrite E0 in Hm. auto. }
  wp_step. pose proof (probe_read_user_str_result 40 (le_val data) w1) as R2.
  unfold wp at 1. destruct (bpf_probe_read_user_str 40 _ w1) as [[n name] w2]. cbn [fst snd] in *.
  destruct (R2 ltac:(lia)) as [_ Hn]. wp_step. split; [apply zlen_sym_record|]. right. exists (le_val data).
  split; [done|]. right. split; [done|]. exists n, name. split; [done|].
  destruct Hn as [(_ & -> & ->)|?]; [left; by exists (calls w1) | by right].
Qed.

(** The records of the first symbols. *)
Definition kprobe_syms_data (syms count base fl ulen : Z) (data : list Z) (e : Z) : Prop :=
  ulen = count * 52 /\ e = 0 /\
  fl = (if 4 <? count then Z.lor base EVENT_FLAG_TRUNCATED else base) /\
  exists records, data = concat records /\ zlen records = Z.min count 4 /\
    forall i record, records !! i = Some record -> kprobe_sym syms (Z.of_nat i) record.
Definition kprobe_syms_sections (syms count base fl : Z) (secs : list PayloadSection) : Prop :=
  if (syms =? 0) || (count =? 0) || (BPF_DIRECT_MULTI_COUNT_LIMIT <? count)
  then unflagged (fun secs => secs = []) base fl secs
  else one_section (section_with PayloadKindBytes PayloadDirectionIn 108 syms (kprobe_syms_data syms count base fl)) secs.

(** Where the loop over the symbols stands: [i] of them, at most [n], are in the record. *)
Definition copied_syms (d : nat) (off size : Z) (w0 : world) (syms n i : Z) (written : bool) (w : world) : Prop :=
  written = true /\ exists b records, capturing d off size w0 w b /\ zlen records = Z.min i n /\
    slice b (off + 32) (Z.min i n * 52) = concat records /\
    forall i record, records !! i = Some record -> kprobe_sym syms (Z.of_nat i) record.

Lemma wp_copy_kprobe_syms syms n d off size w0 w buf :
  capturing d off size w0 w buf -> 0 <= off -> 0 <= n <= 4 -> off + 32 + 208 <= size ->
  wp (for_loop (Z.to_nat 4) 0 (copy_kprobe_sym n syms (Some d) (off + 32)) true)
    (fun written w' => if (written : bool) then copied_syms d off size w0 syms n 4 true w'
       else ~ no_fault /\ exists b, capturing d off size w0 w' b) w.
Proof.
  intros C Ho Hn Hs. eapply (wp_for_loop (copied_syms d off size w0 syms n)) with (bound := 4); [done | | |].
  - intros i acc w1 Hi (-> & b & records & C1 & Hl & HS & HR). unfold copy_kprobe_sym.
    destruct (Z.ltb_spec i n).
    2: { wp_step. split; [done|]. exists b, records. replace (Z.min (i + 1) n) with (Z.min i n) by lia. auto. }
    replace (Z.min i n) with i in * by lia.
    wp_step. eapply wp_mono; [apply read_kprobe_sym_result|]. intros record w2 (Q2 & L2 & S2). cbv beta.
    pose proof (capturing_quiet _ _ _ _ _ _ _ C1 Q2) as C2. pose proof (cg_size _ _ _ _ _ _ C2) as Z2.
    wp_step. eapply wp_dynptr_write; [exact C2 | lia | lia | |]; intros w3.
    + intros C3. cbn [Z.ltb Z.compare]. wp_step. split; [done|].
      exists (put b (off + 32 + i * 52) record), (records ++ [record]).
      replace (Z.min (i + 1) n) with (i + 1) by lia. split; [done|]. rewrite zlen_app. split; [change (zlen [record]) with 1; lia|]. split.
      * rewrite concat_app. cbn [concat]. rewrite app_nil_r, <- HS.
        replace ((i + 1) * 52) with (i * 52 + 52) by lia. rewrite slice_app by lia.
        rewrite slice_put_before by lia. f_equal. rewrite <- L2. apply slice_put_same; lia.
      * intros j r Hj. apply lookup_app_Some in Hj as [Hj|[Hj1 Hj2]]; [by apply HR|].
        apply list_lookup_singleton_Some in Hj2 as [E <-]. unfold zlen in Hl.
        by replace (Z.of_nat j) with i by lia.
    + intros NF C3. cbn [Z.ltb Z.compare]. wp_step. eapply wp_copy_fail; [exact C3 | exact NF |].
      intros _ w4 C4. wp_step. split; [done|]. by exists b.
  - by intros acc w1 [-> H].
  - split; [done|]. exists buf, []. split; [done|]. replace (Z.min 0 n) with 0 by lia. cbn. split; [done|].
    split; [apply slice_0 | by intros].
Qed.

Lemma capture_kprobe_syms_ok syms count :
  0 <= count -> flags_capture (kprobe_syms_sections syms count) (32 + 208) (capture_bpf_kprobe_syms_tlv_direct syms count).
Proof.
  intros Hc base w d buf off Hb Ho Hs. unfold capture_bpf_kprobe_syms_tlv_direct, kprobe_syms_sections.
  destruct (_ || _) eqn:E; [apply (no_capture_room _ _ (32 + 208) _ _ _ Hb); lia|].
  apply orb_false_iff in E as [E E3]. apply orb_false_iff in E as [_ E2].
  apply Z.eqb_neq in E2. apply Z.ltb_ge in E3.
  destruct (multi_lengths 52 count) as [-> ->]; [lia | lia |].
  wp_step. eapply wp_mono; [eapply (wp_copy_kprobe_syms syms); [by apply capturing_start | lia | lia | lia]|].
  intros written w1 H1. destruct written; cbn [negb].
  - destruct H1 as (_ & b & records & C1 & Hl & HS & HR). replace (Z.min 4 (Z.min count 4)) with (Z.min count 4) in * by lia.
    eapply wp_mono.
    { eapply (wp_finish_flags (kprobe_syms_data syms count base)) with (cap := 32 + 208); [exact C1|..]; try done; try lia.
      split; [done|]. split; [done|]. split; [|by exists records]. cbn [Z.eqb andb].
      destruct (Z.ltb_spec 0 (Z.min count 4 * 52)), (Z.ltb_spec (Z.min count 4 * 52) (count * 52)), (Z.ltb_spec 4 count);
        cbn; try lia; done. }
    intros [m fl] w2 (? & ? & ? & HD). split_and!; [lia | lia | done | done |]. intros _. by apply HD.
  - destruct H1 as [NF [b C1]]. wp_step. split_and!; [lia | lia | by left | apply C1 | by intros].
Qed.

Lemma link_attach_reader types attr_ptr size : reader (fun _ => True) (link_attach_type types attr_ptr size).
Proof. unfold link_attach_type. repeat read_attr. done. Qed.
Ltac read_link := eapply reader_bind; [apply link_attach_reader|]; intros _ _; repeat read_attr.

(** The members that describe a multi link, and what is behind them. *)
Definition kprobe_multi_attr (attr_ptr : Z) : Z * Z * Z * Z -> Prop := fun '(count, syms, addrs, cookies) =>
  attr_member 4 attr_ptr 20 count /\ attr_member 8 attr_ptr 24 syms /\
  attr_member 8 attr_ptr 32 addrs /\ attr_member 8 attr_ptr 40 cookies.
Definition kprobe_multi_sections (attr_ptr : Z) : Z -> Z -> list PayloadSection -> Prop :=
  found_sections (kprobe_multi_attr attr_ptr) (fun '(count, syms, addrs, cookies) =>
    flags_appended (flags_appended (kprobe_syms_sections syms count) (multi_sections 8 addrs count 109))
      (multi_sections 8 cookies count 110)).
Lemma capture_kprobe_multi_ok attr_ptr size :
  flags_capture (kprobe_multi_sections attr_ptr) (240 + 64 + 64) (capture_bpf_kprobe_multi_tlv_direct attr_ptr size).
Proof.
  apply capture_found_ok; [unfold read_bpf_kprobe_multi; read_link; done | lia |].
  intros [[[count syms] addrs] cookies] (Hc & _). apply attr_u32_range in Hc as [Hc _].
  repeat apply flags_both_ok; try lia; [by apply capture_kprobe_syms_ok | by apply capture_multi_ok..].
Qed.

Lemma capture_string_found_ok attr_ptr off size max arg :
  1 <= max < 2 ^ 31 ->
  flags_capture (found_sections (attr_member 8 attr_ptr off) (fun p => unflagged (string_sections max arg p)))
    (32 + max) (capture_found (bpf_attr_read_u64_direct attr_ptr size off) (fun p =>
       same_flags (capture_bpf_string_tlv_direct p max arg))).
Proof.
  intros Hm. apply capture_found_ok; [apply bpf_attr_reader; lia | lia |].
  intros p _. by apply same_flags_ok, string_sections_ok.
Qed.

Definition uprobe_multi_attr (attr_ptr : Z) : Z * Z * Z * Z -> Prop := fun '(count, offsets, ref_ctr_offsets, cookies) =>
  attr_member 4 attr_ptr 48 count /\ attr_member 8 attr_ptr 24 offsets /\
  attr_member 8 attr_ptr 32 ref_ctr_offsets /\ attr_member 8 attr_ptr 40 cookies.
Definition uprobe_multi_sections (attr_ptr : Z) : Z -> Z -> list PayloadSection -> Prop :=
  found_sections (uprobe_multi_attr attr_ptr) (fun '(count, offsets, ref_ctr_offsets, cookies) =>
    flags_appended (flags_appended (flags_appended
      (found_sections (attr_member 8 attr_ptr 16) (fun p => unflagged (string_sections 512 133 p)))
      (multi_sections 8 offsets count 134)) (multi_sections 8 ref_ctr_offsets count 135))
      (multi_sections 8 cookies count 136)).
Lemma capture_uprobe_multi_ok attr_ptr size :
  flags_capture (uprobe_multi_sections attr_ptr) (32 + 512 + 64 + 64 + 64) (capture_bpf_uprobe_multi_tlv_direct attr_ptr size).
Proof.
  apply capture_found_ok; [unfold read_bpf_uprobe_multi; read_link; done | lia |].
  intros [[[count offsets] refs] cookies] (Hc & _). apply attr_u32_range in Hc as [Hc _].
  repeat apply flags_both_ok; try lia; [by apply (capture_string_found_ok attr_ptr 16) | by apply capture_multi_ok..].
Qed.

Definition tracing_multi_attr (attr_ptr : Z) : Z * Z * Z -> Prop := fun '(ids, cookies, count) =>
  attr_member 8 attr_ptr 16 ids /\ attr_member 8 attr_ptr 24 cookies /\ attr_member 4 attr_ptr 32 count.
Definition tracing_multi_sections (attr_ptr : Z) : Z -> Z -> list PayloadSection -> Prop :=
  found_sections (tracing_multi_attr attr_ptr) (fun '(ids, cookies, count) =>
    flags_appended (multi_sections 4 ids count 145) (multi_sections 8 cookies count 146)).
Lemma capture_tracing_multi_ok attr_ptr size :
  flags_capture (tracing_multi_sections attr_ptr) (48 + 64) (capture_bpf_tracing_multi_tlv_direct attr_ptr size).
Proof.
  apply capture_found_ok; [unfold read_bpf_tracing_multi; read_link; done | lia |].
  intros [[ids cookies] count] (_ & _ & Hc). apply attr_u32_range in Hc as [Hc _].
  apply flags_both_ok; try lia; by apply capture_multi_ok.
Qed.

(** *** Requests behind one pointer *)

(** The bytes behind the pointer at [off], at most [M] of them. *)
Definition requested (attr_ptr off arg_index M S : Z) : Z -> Z -> list PayloadSection -> Prop :=
  found_sections (request_from attr_ptr off arg_index M S) bytes_sections.
Lemma capture_requested_ok attr_ptr off arg_index M S read :
  0 <= M <= S -> reader (request_from attr_ptr off arg_index M S) read ->
  flags_capture (requested attr_ptr off arg_index M S) (PAYLOAD_TLV_HEADER_SIZE + S)
    (capture_found read capture_bpf_bytes_tlv_direct).
Proof.
  intros HM HR. apply capture_found_ok; [done | lia |]. intros r [Hr _]. by apply (capture_bpf_bytes_ok M).
Qed.

Definition requested_pair (attr_ptr off1 arg1 off2 arg2 : Z) : Z -> Z -> list PayloadSection -> Prop :=
  found_sections (requests_from attr_ptr off1 arg1 off2 arg2)
    (fun rs => flags_appended (bytes_sections (fst rs)) (bytes_sections (snd rs))).
Lemma capture_requested_pair_ok attr_ptr off1 arg1 off2 arg2 read :
  reader (requests_from attr_ptr off1 arg1 off2 arg2) read ->
  flags_capture (requested_pair attr_ptr off1 arg1 off2 arg2) (544 + 544)
    (capture_found read capture_bpf_map_batch_inputs_tlv_direct).
Proof.
  intros HR. apply capture_found_ok; [done | lia |]. intros rs [[H1 _] [H2 _]].
  apply (flags_both_ok _ _ 544 544); [by apply (capture_bpf_bytes_ok 512 512)..|lia].
Qed.

Lemma sized_reader size_off ptr_off attr_ptr size :
  reader (fun '(p, n) => attr_member 8 attr_ptr ptr_off p /\ 0 <= n < 2 ^ 32) (read_bpf_sized size_off ptr_off attr_ptr size).
Proof. unfold read_bpf_sized. repeat read_attr. done. Qed.

Lemma fd_array_reader attr_ptr size :
  reader (request_from attr_ptr 120 141 512 512) (read_bpf_prog_load_fd_array attr_ptr size).
Proof.
  unfold read_bpf_prog_load_fd_array. repeat read_attr.
  apply bytes_request_from; try done; try apply u32_range; cbn; auto.
Qed.
Lemma records_reader rec_off ptr_off cnt_off min arg attr_ptr size :
  reader (request_from attr_ptr ptr_off arg 512 512) (read_bpf_prog_load_records rec_off ptr_off cnt_off min arg attr_ptr size).
Proof.
  unfold read_bpf_prog_load_records. repeat read_attr.
  apply bytes_request_from; try done; try apply u32_range; cbn; auto.
Qed.
Lemma btf_reader attr_ptr size : reader (request_from attr_ptr 0 106 256 256) (read_bpf_btf attr_ptr size).
Proof. unfold read_bpf_btf. repeat read_attr. apply bytes_request_from; try done; cbn; auto. Qed.
Lemma link_iter_reader attr_ptr size :
  reader (request_from attr_ptr 16 107 20 20) (read_bpf_link_iter_info attr_ptr size).
Proof.
  unfold read_bpf_link_iter_info. read_link.
  apply bytes_request_from; try done; try apply u32_range; cbn; auto.
Qed.

(** *** Program loading *)

(** A buffer whose pointer is at [off]. *)
Definition sized_sections (attr_ptr off : Z) (P : Z -> Z -> Z -> Z -> list PayloadSection -> Prop)
    : Z -> Z -> list PayloadSection -> Prop :=
  found_sections (fun '(p, n) => attr_member 8 attr_ptr off p /\ 0 <= n < 2 ^ 32) (fun '(p, n) => P p n).

(** The instructions, the license, the log buffer and the signature. *)
Definition insns_sections (insns insn_cnt : Z) : Z -> Z -> list PayloadSection -> Prop :=
  if (insns =? 0) || (insn_cnt =? 0) || (0x1fffffff <? insn_cnt) then unflagged (fun secs => secs = [])
  else bytes_sections (BytesRequest insns (u32 (insn_cnt * 8)) 64 512 112).
Definition prog_load_sections (attr_ptr : Z) : Z -> Z -> list PayloadSection -> Prop :=
  flags_appended (sized_sections attr_ptr 8 insns_sections)
    (flags_appended (found_sections (attr_member 8 attr_ptr 16) (fun p => unflagged (string_sections 64 101 p)))
       (flags_appended (sized_sections attr_ptr 32 (fun p n => bytes_sections (BytesRequest p n 256 256 102)))
          (sized_sections attr_ptr 152 (fun p n => bytes_sections (BytesRequest p n 256 256 103))))).

Lemma capture_sized_bytes_ok size_off ptr_off attr_ptr size max arg :
  0 < max -> In max [20; 64; 256; 512] ->
  flags_capture (sized_sections attr_ptr ptr_off (fun p n => bytes_sections (BytesRequest p n max max arg))) (32 + max)
    (capture_found (read_bpf_sized size_off ptr_off attr_ptr size) (fun '(p, n) =>
       capture_bpf_bytes_tlv_direct (BytesRequest p n max max arg))).
Proof.
  intros Hm Hin. apply capture_found_ok; [apply sized_reader | lia |]. intros [p n] [_ Hn].
  apply (capture_bpf_bytes_ok max max); [|lia]. split; [done|]. right. cbn -[In]. split_and!; done || lia.
Qed.

Lemma capture_insns_room insns insn_cnt :
  flags_capture_room (insns_sections insns insn_cnt) (32 + 512) (32 + 64) (capture_bpf_prog_load_insns_tlv_direct insns insn_cnt).
Proof.
  unfold insns_sections, capture_bpf_prog_load_insns_tlv_direct.
  destruct (_ || _); [apply capture_room; [apply no_capture_ok|]; lia|].
  apply (capture_bpf_bytes_room 64 512); [|lia].
  split; [apply u32_range|]. right. cbn -[In]. split_and!; try lia. cbn. auto.
Qed.

Lemma capture_prog_load_ok attr_ptr size :
  flags_capture (prog_load_sections attr_ptr) (96 + (96 + (288 + 288))) (capture_bpf_prog_load_nested_tlv_direct attr_ptr size).
Proof.
  apply flags_both_room; [| |lia].
  - eapply room_weaken; [apply (capture_found_room _ _ _ (32 + 512) (32 + 64)); [apply sized_reader | lia |] | lia | lia].
    intros [insns n] _. apply capture_insns_room.
  - apply flags_both_ok; [by apply (capture_string_found_ok attr_ptr 16) | | lia].
    apply flags_both_ok; [| |lia]; apply capture_sized_bytes_ok; cbn; auto; lia.
Qed.

(** The descriptors, and the three kinds of debug records. *)
Definition prog_load_debug_sections (attr_ptr : Z) : Z -> Z -> list PayloadSection -> Prop :=
  flags_appended (flags_appended (flags_appended (requested attr_ptr 120 141 512 512) (requested attr_ptr 80 142 512 512))
    (requested attr_ptr 96 143 512 512)) (requested attr_ptr 128 144 512 512).
Lemma capture_prog_load_debug_ok attr_ptr size :
  flags_capture (prog_load_debug_sections attr_ptr) (544 + 544 + 544 + 544)
    (capture_bpf_prog_load_debug_nested_tlv_direct attr_ptr size).
Proof.
  repeat apply flags_both_ok; try lia; apply capture_requested_ok;
    try lia; [apply fd_array_reader | apply records_reader..].
Qed.

(** *** The commands *)

(** What each command points to. *)
Definition bpf_nested_sections (cmd attr_ptr : Z) : Z -> Z -> list PayloadSection -> Prop :=
  if existsb (Z.eqb cmd) [BPF_DIRECT_OBJ_PIN; BPF_DIRECT_OBJ_GET] then
    found_sections (attr_member 8 attr_ptr 0) (fun p => unflagged (string_sections 512 104 p))
  else if cmd =? BPF_DIRECT_RAW_TRACEPOINT_OPEN then
    found_sections (attr_member 8 attr_ptr 0) (fun p => unflagged (string_sections 512 105 p))
  else if cmd =? BPF_DIRECT_BTF_LOAD then requested attr_ptr 0 106 256 256
  else if cmd =? BPF_DIRECT_LINK_CREATE then
    flags_appended (requested attr_ptr 16 107 20 20) (kprobe_multi_sections attr_ptr)
  else if cmd =? BPF_DIRECT_MAP_GET_NEXT_KEY then requested attr_ptr 8 124 512 512
  else if existsb (Z.eqb cmd) [BPF_DIRECT_MAP_LOOKUP_ELEM; BPF_DIRECT_MAP_LOOKUP_AND_DELETE_ELEM] then
    requested attr_ptr 8 139 512 512
  else if cmd =? BPF_DIRECT_MAP_UPDATE_ELEM then requested_pair attr_ptr 8 126 16 127
  else if cmd =? BPF_DIRECT_MAP_UPDATE_BATCH then requested_pair attr_ptr 16 121 24 122
  else if cmd =? BPF_DIRECT_MAP_DELETE_BATCH then requested attr_ptr 16 121 512 512
  else if cmd =? BPF_DIRECT_MAP_DELETE_ELEM then requested attr_ptr 8 123 512 512
  else unflagged (fun secs => secs = []).

Lemma capture_bpf_nested_ok cmd attr_ptr size :
  flags_capture (bpf_nested_sections cmd attr_ptr) BPF_DIRECT_NESTED_CAPACITY (capture_bpf_nested_tlv_direct cmd attr_ptr size).
Proof.
  unfold bpf_nested_sections, capture_bpf_nested_tlv_direct.
  destruct (existsb _ _); [eapply flags_capture_cap; [by apply capture_string_found_ok | lia]|].
  destruct (cmd =? 17); [eapply flags_capture_cap; [by apply capture_string_found_ok | lia]|].
  destruct (cmd =? 18); [eapply flags_capture_cap; [apply capture_requested_ok, btf_reader; lia | lia]|].
  destruct (cmd =? 28).
  { eapply flags_capture_cap; [apply flags_both_ok; [apply capture_requested_ok, link_iter_reader | apply capture_kprobe_multi_ok |] |]; lia. }
  destruct (cmd =? 4); [eapply flags_capture_cap; [apply capture_requested_ok, get_next_key_reader; lia | lia]|].
  destruct (existsb _ _); [eapply flags_capture_cap; [apply capture_requested_ok, key_request_reader; lia | lia]|].
  destruct (cmd =? 2); [eapply flags_capture_cap; [apply capture_requested_pair_ok, update_elem_reader | lia]|].
  destruct (cmd =? 26); [eapply flags_capture_cap; [apply capture_requested_pair_ok, batch_reader | lia]|].
  destruct (cmd =? 27); [eapply flags_capture_cap; [apply capture_requested_ok, delete_batch_reader; lia | lia]|].
  destruct (cmd =? 3); [eapply flags_capture_cap; [apply capture_requested_ok, key_request_reader; lia | lia]|].
  apply no_capture_ok. lia.
Qed.

(** The attribute itself: its first 512 bytes. *)
Definition bpf_attr_sections (args : args6) : Z -> Z -> list PayloadSection -> Prop :=
  fun base fl => buffer_sections PayloadKindBytes PayloadDirectionIn 512 1 (arg1 args) (arg2 args) base fl.

Lemma capture_bpf_attr_ok args :
  0 <= arg2 args ->
  flags_capture (bpf_attr_sections args) (32 + 512) (capture_bpf_attr_tlv_direct (arg1 args) (arg2 args)).
Proof.
  intros Hn. apply flags_capture_of. intros base w d buf off Hb Ho Hs. unfold capture_bpf_attr_tlv_direct, bpf_attr_sections, buffer_sections.
  destruct (_ || _).
  - wp_step. split_and!; [lia | lia | by left | reflexivity |]. intros _. by eapply decodable_0; [apply capturing_start|].
  - by apply (capture_buffer_ok PayloadKindBytes 2 512 1 0 (arg1 args) (arg2 args) base eq_refl ltac:(by left)
      ltac:(lia) Hn w d buf off).
Qed.

(** *** Records *)

Definition reads_bpf_enter (r : exec_ctx) (pid tid sys_id : Z) (ctx : trace_event_raw_sys_enter) (ts base : Z)
    (P : Z -> list PayloadSection -> Prop) : Z -> list Z -> Prop :=
  reads_enter r pid tid sys_id ts (args_u64 (enter_args ctx)) 0 (-1) (-1) (decodes no_fault (flags_from base) P).

Lemma bpf_enter_ok body_in_place cap base pid tid sys_id ctx ts P f :
  0 <= cap < 2 ^ 31 -> In base [EVENT_FLAG_GENERIC_ENTER; EVENT_FLAG_ENTER_FRAGMENT] -> flags_capture P cap f ->
  emitter (fun r => reads_bpf_enter r pid tid sys_id ctx ts base (P base))
    (bpf_enter_emit body_in_place cap base pid tid sys_id ctx ts f).
Proof.
  intros Hc Hbase Hf w. set (size := EVENT_V2_HEADER_LEN + EVENT_V2_ENTER_BODY_LEN + cap).
  assert (forall fl pl, decodes no_fault (flags_from base) (P base) fl pl ->
    has_flag (u16 fl) EVENT_FLAG_COMPACT_ENTER = false) as NC.
  { intros fl pl (fl' & HF & -> & _). unfold tlv_flag.
    destruct HF as [->| ->]; destruct Hbase as [<-|[<-|[]]]; by destruct (_ <? _). }
  eapply wp_mono.
  { apply emit_record_committed_wp with (cap := cap) (body_len := EVENT_V2_ENTER_BODY_LEN)
      (Pf := decodes no_fault (flags_from base) (P base))
      (Ph := built_header (running w) EVENT_TYPE_ENTER size pid tid sys_id ts)
      (Pb := built_enter (args_u64 (enter_args ctx)) 0 (-1) (-1)); [lia | lia | subst size; lia | | |].
    - apply tlv_flags_payload_ok; [lia | apply Hf].
    - destruct body_in_place; [apply commit_in_place_ok | apply commit_header_in_place_ok];
        [lia | apply init_header_ok | apply enter_ctx_body_ok | lia | apply init_header_ok | apply enter_ctx_body_ok].
    - intros seq rec Hw. eapply reads_enter_number, committed_enter; [| | exact NC | exact Hw]; subst size; lia. }
  intros _ w' [E O]. split; [done|]. eapply outcome_mono; [|exact O].
  intros seq rec Hw. eapply committed_enter; [| | exact NC | exact Hw]; subst size; lia.
Qed.

(** The attribute and what is behind it. *)
Definition bpf_attr_then_sections (P : Z -> Z -> Z -> list PayloadSection -> Prop) (args : args6)
    : Z -> Z -> list PayloadSection -> Prop := flags_appended (bpf_attr_sections args) (P (arg1 args)).

Lemma bpf_attr_then_record_ok body_in_place cap pid tid sys_id ctx ts P nested :
  0 <= cap < 2 ^ 30 -> (forall attr_ptr size, flags_capture (P attr_ptr) cap (nested attr_ptr size)) ->
  emitter (fun r => reads_bpf_enter r pid tid sys_id ctx ts EVENT_FLAG_GENERIC_ENTER
      (bpf_attr_then_sections P (args_u64 (enter_args ctx)) EVENT_FLAG_GENERIC_ENTER))
    (bpf_enter_emit body_in_place (32 + 512 + cap) EVENT_FLAG_GENERIC_ENTER pid tid sys_id ctx ts
       (bpf_attr_then nested (args_u64 (enter_args ctx)))).
Proof.
  intros Hc Hf. apply bpf_enter_ok; [lia | by left |].
  apply flags_both_ok; [apply capture_bpf_attr_ok, (args_u64_nonneg _ 2) | apply Hf | lia].
Qed.

Lemma emit_bpf_enter_ok pid tid sys_id ctx ts :
  let args := args_u64 (enter_args ctx) in
  emitter (fun r => reads_bpf_enter r pid tid sys_id ctx ts EVENT_FLAG_GENERIC_ENTER
      (bpf_attr_then_sections (bpf_nested_sections (arg0 args)) args EVENT_FLAG_GENERIC_ENTER))
    (emit_bpf_enter_event_v2_direct pid tid sys_id ctx ts).
Proof. intros args. apply bpf_attr_then_record_ok; [lia | apply capture_bpf_nested_ok]. Qed.

Lemma emit_bpf_prog_load_enter_ok pid tid sys_id ctx ts :
  emitter (fun r => reads_bpf_enter r pid tid sys_id ctx ts EVENT_FLAG_GENERIC_ENTER
      (bpf_attr_then_sections prog_load_sections (args_u64 (enter_args ctx)) EVENT_FLAG_GENERIC_ENTER))
    (emit_bpf_prog_load_enter_event_v2_direct pid tid sys_id ctx ts).
Proof. apply bpf_attr_then_record_ok; [lia | apply capture_prog_load_ok]. Qed.

Lemma emit_bpf_prog_load_debug_ok pid tid sys_id ctx ts :
  emitter (fun r => reads_bpf_enter r pid tid sys_id ctx ts EVENT_FLAG_ENTER_FRAGMENT
      (prog_load_debug_sections (arg1 (args_u64 (enter_args ctx))) EVENT_FLAG_ENTER_FRAGMENT))
    (emit_bpf_prog_load_debug_enter_fragment_event_v2_direct pid tid sys_id ctx ts).
Proof. apply bpf_enter_ok; [lia | right; by left | apply capture_prog_load_debug_ok]. Qed.

Lemma emit_bpf_uprobe_multi_enter_ok pid tid sys_id ctx ts :
  emitter (fun r => reads_bpf_enter r pid tid sys_id ctx ts EVENT_FLAG_GENERIC_ENTER
      (bpf_attr_then_sections uprobe_multi_sections (args_u64 (enter_args ctx)) EVENT_FLAG_GENERIC_ENTER))
    (emit_bpf_uprobe_multi_enter_event_v2_direct pid tid sys_id ctx ts).
Proof. apply bpf_attr_then_record_ok; [lia | apply capture_uprobe_multi_ok]. Qed.

Lemma emit_bpf_tracing_multi_enter_ok pid tid sys_id ctx ts :
  emitter (fun r => reads_bpf_enter r pid tid sys_id ctx ts EVENT_FLAG_GENERIC_ENTER
      (bpf_attr_then_sections tracing_multi_sections (args_u64 (enter_args ctx)) EVENT_FLAG_GENERIC_ENTER))
    (emit_bpf_tracing_multi_enter_event_v2_direct pid tid sys_id ctx ts).
Proof. apply bpf_attr_then_record_ok; [lia | apply capture_tracing_multi_ok]. Qed.
End BpfLemmas.

#[export] Hint Resolve lookup_bpf_map_quiet effective_value_size_quiet get_next_key_size_quiet : keeps.
#[export] Hint Resolve emit_bpf_enter_ok emit_bpf_prog_load_enter_ok emit_bpf_prog_load_debug_ok
  emit_bpf_uprobe_multi_enter_ok emit_bpf_tracing_multi_enter_ok : emitters.
