(* ===== verification/BpfExit.v ===== *)
(** bpf(2) on exit.

    Models [bpf/syscall_bpf_exit_direct_event_v2.h] and the headers it includes:
    what each command returned through the pointers of its attribute, read when
    the call is over. *)
From stdpp Require Import base list gmap numbers.
From S2P Require Import Prelude Syscalls Abi Kernel Consumer Stats Tlv Emit Decoder EventCore Payload Structs FdPath Paths Misc Captures Slots Bpf.

Abbreviation BPF_DIRECT_OBJ_GET_INFO_BY_FD := 15 (only parsing).
Abbreviation BPF_DIRECT_OBJ_INFO_MAX := 512 (only parsing).
Abbreviation ENOENT := 2 (only parsing).

(** [struct bpf_exit_bytes_request] has the members of the entry half's request. *)
Abbreviation bpf_exit_bytes_request := bpf_nested_bytes_capture_request (only parsing).
Abbreviation exit_request user_ptr user_len max_len arg_index :=
  (BytesRequest user_ptr user_len max_len BPF_DIRECT_BYTES_BUCKET_512 arg_index) (only parsing).

Section BpfExit.
Context {K : Kernel} {A : Arch}.

(** The bytes behind a pointer; no section when they cannot be read. *)
Definition capture_bpf_exit_bytes_tlv_direct (request : bpf_exit_bytes_request) (event_flags : Z)
    (ptr : dynptr) (payload_offset : Z) : prog (Z * Z) :=
  let '(BytesRequest user_ptr user_len max_len storage_len arg_index) := request in
  if (user_ptr =? 0) || (user_len =? 0) || (max_len =? 0) || (BPF_DIRECT_OBJ_INFO_MAX <? max_len) ||
     (storage_len <? max_len) || negb (storage_len =? BPF_DIRECT_BYTES_BUCKET_512) then ret (0, event_flags)
  else
    let requested_len := user_len in
    let user_len := payload_tlv_clamp_u32 requested_len in
    let* payload_data := bpf_dynptr_data ptr (payload_offset + PAYLOAD_TLV_HEADER_SIZE) BPF_DIRECT_OBJ_INFO_MAX in
    match payload_data with
    | None => record_ringbuf_copy_fail ;;; ret (0, event_flags)
    | Some payload_data =>
        let copied_len := payload_tlv_copy_len requested_len max_len in
        let copied_len := if BPF_DIRECT_OBJ_INFO_MAX <? copied_len then BPF_DIRECT_OBJ_INFO_MAX else copied_len in
        let* err := read_user_into payload_data copied_len user_ptr in
        if err <? 0 then ret (0, event_flags)
        else
          let* event_flags := note_short_copy copied_len 0 user_len event_flags in
          let* size := finish_section ptr payload_offset
            (TlvHeader PAYLOAD_TLV_KIND_BYTES arg_index PAYLOAD_TLV_FLAG_DIRECTION_OUT user_len copied_len 0 user_ptr) in
          ret (size, event_flags)
    end.

(** The exit record of one request; [false]: nothing was emitted. *)
Definition emit_bpf_exit_bytes_event_v2_direct (p : pending_syscall) (ret_value duration : Z)
    (request : bpf_exit_bytes_request) : prog bool :=
  let max_len := rq_max_len request in
  if (max_len =? 0) || (BPF_DIRECT_OBJ_INFO_MAX <? max_len) || (rq_storage_len request <? max_len) ||
     negb (rq_storage_len request =? BPF_DIRECT_BYTES_BUCKET_512) then ret false
  else
    exit_flags_emit (PAYLOAD_TLV_HEADER_SIZE + BPF_DIRECT_OBJ_INFO_MAX) p ret_value duration
      (capture_bpf_exit_bytes_tlv_direct request 0) ;;;
    ret true.

(** The record of what [read] finds; [false] when it finds nothing. *)
Definition emit_bpf_found {X} (read : prog (option X)) (emit : X -> prog bool) : prog bool :=
  let* found := read in
  match found with None => ret false | Some x => emit x end.

(** The same for one request. *)
Definition emit_bpf_request (read : prog (option bpf_exit_bytes_request)) (p : pending_syscall)
    (ret_value duration : Z) : prog bool :=
  emit_bpf_found read (emit_bpf_exit_bytes_event_v2_direct p ret_value duration).

(** Several requests, one behind the other. *)
Fixpoint capture_bpf_exit_all (requests : list bpf_exit_bytes_request) : Z -> dynptr -> Z -> prog (Z * Z) :=
  match requests with
  | [] => no_capture
  | r :: rest => flags_both (capture_bpf_exit_bytes_tlv_direct r) (capture_bpf_exit_all rest)
  end.

(** ** Objects, logs and streams *)

Definition read_bpf_obj_info (attr_ptr attr_size : Z) : prog (option bpf_exit_bytes_request) :=
  let? info_len := bpf_attr_read_u32_direct attr_ptr attr_size 4 in
  let? info_ptr := bpf_attr_read_u64_direct attr_ptr attr_size 8 in
  ret (if (info_ptr =? 0) || (info_len =? 0) then None
       else Some (exit_request info_ptr info_len BPF_DIRECT_OBJ_INFO_MAX 113)).

(** The log of a load that failed: as much as was written of it. *)
Definition read_bpf_log (size_off buf_off true_size_off arg_index attr_ptr attr_size : Z)
    : prog (option bpf_exit_bytes_request) :=
  let? log_size := bpf_attr_read_u32_direct attr_ptr attr_size size_off in
  let? log_buf := bpf_attr_read_u64_direct attr_ptr attr_size buf_off in
  let? log_true_size := bpf_attr_read_u32_direct attr_ptr attr_size true_size_off in
  ret (if (log_buf =? 0) || (log_size =? 0) || (log_true_size =? 0) then None
       else
         let requested_len := if log_size <? log_true_size then log_size else log_true_size in
         Some (exit_request log_buf requested_len 256 arg_index)).

Definition emit_bpf_prog_load_log_exit_event_v2_direct (p : pending_syscall) (ret_value duration : Z) : prog bool :=
  let args := p_args p in
  if negb (is_bpf_direct_syscall (p_sys_id p)) || negb (arg0 args =? BPF_DIRECT_PROG_LOAD) || (0 <=? ret_value)
  then ret false
  else emit_bpf_request (read_bpf_log 28 32 140 102 (arg1 args) (arg2 args)) p ret_value duration.

Definition emit_bpf_btf_load_log_exit_event_v2_direct (p : pending_syscall) (ret_value duration : Z) : prog bool :=
  let args := p_args p in
  if negb (is_bpf_direct_syscall (p_sys_id p)) || negb (arg0 args =? BPF_DIRECT_BTF_LOAD) || (0 <=? ret_value)
  then ret false
  else emit_bpf_request (read_bpf_log 20 8 28 114 (arg1 args) (arg2 args)) p ret_value duration.

Definition read_bpf_stream (attr_ptr attr_size : Z) : prog (option bpf_exit_bytes_request) :=
  let? stream_buf := bpf_attr_read_u64_direct attr_ptr attr_size 0 in
  let? stream_buf_len := bpf_attr_read_u32_direct attr_ptr attr_size 8 in
  ret (if (stream_buf =? 0) || (stream_buf_len =? 0) then None
       else Some (exit_request stream_buf stream_buf_len 512 111)).
Definition emit_bpf_prog_stream_read_exit_event_v2_direct (p : pending_syscall) (ret_value duration : Z) : prog bool :=
  let args := p_args p in
  if negb (is_bpf_direct_syscall (p_sys_id p)) || negb (arg0 args =? BPF_DIRECT_PROG_STREAM_READ_BY_FD) then ret false
  else emit_bpf_request (read_bpf_stream (arg1 args) (arg2 args)) p ret_value duration.

Definition is_bpf_get_next_id_command_direct (command : Z) : bool := existsb (Z.eqb command) [11; 12; 23; 31].
Definition emit_bpf_get_next_id_exit_event_v2_direct (p : pending_syscall) (ret_value duration : Z) : prog bool :=
  let args := p_args p in
  if negb (is_bpf_direct_syscall (p_sys_id p)) || negb (is_bpf_get_next_id_command_direct (arg0 args)) ||
     negb (ret_value =? 0) || (arg1 args =? 0) || (arg2 args <? 4 + 4) || (0xffffffffffffffff - 4 <? arg1 args)
  then ret false
  else emit_bpf_exit_bytes_event_v2_direct p ret_value duration (exit_request (u64 (arg1 args + 4)) 4 4 140).

(** ** Maps *)

Definition read_bpf_map_lookup_output_request_direct (attr_ptr attr_size : Z) : prog (option bpf_exit_bytes_request) :=
  let? map_fd := bpf_attr_read_u32_direct attr_ptr attr_size 0 in
  let? value_ptr := bpf_attr_read_u64_direct attr_ptr attr_size 16 in
  let? elem_flags := bpf_attr_read_u64_direct attr_ptr attr_size 24 in
  if value_ptr =? 0 then ret None
  else
    let? map := bpf_map_of_fd map_fd in
    let* value_size := bpf_core_read bpf_map_value_size map in
    let* effective_value_size := bpf_map_effective_value_size_direct map (u32 value_size) elem_flags in
    ret (if effective_value_size =? 0 then None
         else Some (exit_request value_ptr effective_value_size BPF_DIRECT_MAP_VALUE_MAX 117)).

Definition emit_bpf_map_lookup_exit_event_v2_direct (p : pending_syscall) (ret_value duration : Z) : prog bool :=
  let args := p_args p in
  if negb (is_bpf_direct_syscall (p_sys_id p)) || negb (ret_value =? 0) ||
     negb (existsb (Z.eqb (arg0 args)) [BPF_DIRECT_MAP_LOOKUP_ELEM; BPF_DIRECT_MAP_LOOKUP_AND_DELETE_ELEM])
  then ret false
  else emit_bpf_request (read_bpf_map_lookup_output_request_direct (arg1 args) (arg2 args)) p ret_value duration.

Definition read_bpf_map_get_next_key_output_request_direct (attr_ptr attr_size key_size : Z)
    : prog (option bpf_exit_bytes_request) :=
  let? next_key := bpf_attr_read_u64_direct attr_ptr attr_size 16 in
  ret (if (next_key =? 0) || (key_size =? 0) then None
       else Some (exit_request next_key key_size BPF_DIRECT_MAP_VALUE_MAX 125)).

Definition emit_bpf_map_get_next_key_exit_event_v2_direct (p : pending_syscall) (ret_value duration : Z) : prog bool :=
  let args := p_args p in
  if negb (is_bpf_direct_syscall (p_sys_id p)) || negb (ret_value =? 0) ||
     negb (arg0 args =? BPF_DIRECT_MAP_GET_NEXT_KEY) then ret false
  else
    let* key_size := lookup_pending_syscall_aux0 (p_tid p) in
    emit_bpf_request (read_bpf_map_get_next_key_output_request_direct (arg1 args) (arg2 args) (u32 key_size))
      p ret_value duration.

Definition bpf_map_batch_cursor_len_direct (map key_size : Z) : prog Z :=
  let* map_type := bpf_core_read bpf_map_map_type map in
  ret (if (key_size <? 4) && existsb (Z.eqb (u32 map_type)) [1; 5; 9; 10] then 4 else key_size).

Definition set_bpf_map_batch_output_request_direct (user_ptr user_len arg_index : Z) : bpf_exit_bytes_request :=
  if (user_ptr =? 0) || (user_len =? 0) then no_request
  else exit_request user_ptr user_len BPF_DIRECT_MAP_VALUE_MAX arg_index.

(** The cursor, the keys and the values of a batch. *)
Definition read_bpf_map_batch_output_requests_direct (attr_ptr attr_size : Z)
    : prog (option (list bpf_exit_bytes_request)) :=
  let? out_batch := bpf_attr_read_u64_direct attr_ptr attr_size 8 in
  let? keys := bpf_attr_read_u64_direct attr_ptr attr_size 16 in
  let? values := bpf_attr_read_u64_direct attr_ptr attr_size 24 in
  let? count := bpf_attr_read_u32_direct attr_ptr attr_size 32 in
  let? map_fd := bpf_attr_read_u32_direct attr_ptr attr_size 36 in
  let? elem_flags := bpf_attr_read_u64_direct attr_ptr attr_size 40 in
  if count =? 0 then ret None
  else
    let? map := bpf_map_of_fd map_fd in
    let* key_size := bpf_core_read bpf_map_key_size map in
    let* value_size := bpf_core_read bpf_map_value_size map in
    let* effective_value_size := bpf_map_effective_value_size_direct map (u32 value_size) elem_flags in
    if effective_value_size =? 0 then ret None
    else
      let* cursor_size := bpf_map_batch_cursor_len_direct map (u32 key_size) in
      let requests :=
        [set_bpf_map_batch_output_request_direct out_batch cursor_size 120;
         set_bpf_map_batch_output_request_direct keys (bpf_map_batch_buffer_len_direct count (u32 key_size)) 118;
         set_bpf_map_batch_output_request_direct values
           (bpf_map_batch_buffer_len_direct count effective_value_size) 119] in
      ret (if forallb (fun r => rq_user_ptr r =? 0) requests then None else Some requests).

Definition capture_bpf_map_batch_outputs_direct := capture_bpf_exit_all.

Definition emit_bpf_map_batch_lookup_exit_event_v2_direct (p : pending_syscall) (ret_value duration : Z) : prog bool :=
  let args := p_args p in
  if negb (is_bpf_direct_syscall (p_sys_id p)) || (negb (ret_value =? 0) && negb (ret_value =? - ENOENT)) ||
     negb (existsb (Z.eqb (arg0 args)) [BPF_DIRECT_MAP_LOOKUP_BATCH; BPF_DIRECT_MAP_LOOKUP_AND_DELETE_BATCH])
  then ret false
  else
    emit_bpf_found (read_bpf_map_batch_output_requests_direct (arg1 args) (arg2 args)) (fun requests =>
      exit_flags_emit (3 * (PAYLOAD_TLV_HEADER_SIZE + BPF_DIRECT_MAP_VALUE_MAX)) p ret_value duration
        (capture_bpf_map_batch_outputs_direct requests 0) ;;;
      ret true).

(** ** Program queries *)

Definition bpf_prog_query_array_len_direct (count : Z) : Z :=
  let total := u64 (count * 4) in
  if 0xffffffff <? total then 0xffffffff else u32 total.

Definition set_bpf_prog_query_array_request_direct (user_ptr user_len arg_index : Z) : bpf_exit_bytes_request :=
  if (user_ptr =? 0) || (user_len =? 0) then no_request else exit_request user_ptr user_len 512 arg_index.

(** One array, when its pointer can be read. *)
Definition read_bpf_prog_query_array (off arg_index prog_cnt attr_ptr attr_size : Z) : prog bpf_exit_bytes_request :=
  let* user_ptr := bpf_attr_read_u64_direct attr_ptr attr_size off in
  ret (match user_ptr with
       | Some user_ptr => set_bpf_prog_query_array_request_direct user_ptr (bpf_prog_query_array_len_direct prog_cnt) arg_index
       | None => no_request
       end).

(** The count and the four arrays. *)
Definition read_bpf_prog_query_output_requests_direct (attr_ptr attr_size : Z)
    : prog (option (list bpf_exit_bytes_request)) :=
  let? prog_cnt := bpf_attr_read_u32_direct attr_ptr attr_size 24 in
  let* ids := read_bpf_prog_query_array 16 128 prog_cnt attr_ptr attr_size in
  let* attach_flags := read_bpf_prog_query_array 32 129 prog_cnt attr_ptr attr_size in
  let* link_ids := read_bpf_prog_query_array 40 130 prog_cnt attr_ptr attr_size in
  let* link_attach_flags := read_bpf_prog_query_array 48 131 prog_cnt attr_ptr attr_size in
  ret (Some [exit_request (u64 (attr_ptr + 24)) 4 4 132; ids; attach_flags; link_ids; link_attach_flags]).

Definition capture_bpf_prog_query_outputs_direct := capture_bpf_exit_all.

Definition emit_bpf_prog_query_record_v2_direct (p : pending_syscall) (ret_value duration : Z)
    (requests : list bpf_exit_bytes_request) : prog bool :=
  exit_flags_emit (5 * (PAYLOAD_TLV_HEADER_SIZE + 512)) p ret_value duration
    (capture_bpf_prog_query_outputs_direct requests 0) ;;;
  ret true.

Definition emit_bpf_prog_query_exit_event_v2_direct (p : pending_syscall) (ret_value duration : Z) : prog bool :=
  let args := p_args p in
  if negb (is_bpf_direct_syscall (p_sys_id p)) || negb (arg0 args =? BPF_DIRECT_PROG_QUERY) || negb (ret_value =? 0)
  then ret false
  else emit_bpf_found (read_bpf_prog_query_output_requests_direct (arg1 args) (arg2 args))
         (emit_bpf_prog_query_record_v2_direct p ret_value duration).

(** ** Test runs *)

Definition read_bpf_test_run_output_request_direct (size_offset ptr_offset arg_index attr_ptr attr_size : Z)
    : prog bpf_exit_bytes_request :=
  let* request :=
    let? user_len := bpf_attr_read_u32_direct attr_ptr attr_size size_offset in
    let? user_ptr := bpf_attr_read_u64_direct attr_ptr attr_size ptr_offset in
    ret (if (user_ptr =? 0) || (user_len =? 0) then None
         else Some (exit_request user_ptr user_len 512 arg_index)) in
  ret (match request with Some request => request | None => no_request end).

Definition request_empty (r : bpf_exit_bytes_request) : bool := (rq_user_ptr r =? 0) || (rq_user_len r =? 0).

Definition capture_bpf_test_run_outputs_direct (data_request ctx_request : bpf_exit_bytes_request)
    : Z -> dynptr -> Z -> prog (Z * Z) :=
  flags_both (if negb (request_empty data_request) then capture_bpf_exit_bytes_tlv_direct data_request else no_capture)
    (if negb (request_empty ctx_request) then capture_bpf_exit_bytes_tlv_direct ctx_request else no_capture).

Definition emit_bpf_prog_test_run_record_v2_direct (p : pending_syscall) (ret_value duration : Z)
    (data_request ctx_request : bpf_exit_bytes_request) : prog bool :=
  exit_flags_emit (2 * (PAYLOAD_TLV_HEADER_SIZE + 512)) p ret_value duration
    (capture_bpf_test_run_outputs_direct data_request ctx_request 0) ;;;
  ret true.

Definition emit_bpf_prog_test_run_exit_event_v2_direct (p : pending_syscall) (ret_value duration : Z) : prog bool :=
  let args := p_args p in
  if negb (is_bpf_direct_syscall (p_sys_id p)) || negb (arg0 args =? BPF_DIRECT_PROG_TEST_RUN) || negb (ret_value =? 0)
  then ret false
  else
    let* data_request := read_bpf_test_run_output_request_direct 12 24 115 (arg1 args) (arg2 args) in
    let* ctx_request := read_bpf_test_run_output_request_direct 44 56 116 (arg1 args) (arg2 args) in
    if request_empty data_request && request_empty ctx_request then ret false
    else emit_bpf_prog_test_run_record_v2_direct p ret_value duration data_request ctx_request.

(** ** Task descriptor queries *)

Definition read_bpf_task_fd_query_output_attr_direct (p : pending_syscall) : option bpf_exit_bytes_request :=
  let attr_len := u32 (arg2 (p_args p)) in
  if (arg1 (p_args p) =? 0) || (attr_len =? 0) then None
  else
    let attr_len := if 64 <? attr_len then 64 else attr_len in
    Some (exit_request (arg1 (p_args p)) attr_len 64 138).

(** The pointer of the name and its bounded length. *)
Definition read_bpf_task_fd_query_string_request_direct (p : pending_syscall) : prog (option (Z * Z)) :=
  let args := p_args p in
  let* enter_buf_len := lookup_pending_syscall_aux0 (p_tid p) in
  let enter_buf_len := u32 enter_buf_len in
  if enter_buf_len =? 0 then ret None
  else
    let? exit_buf := bpf_attr_read_u64_direct (arg1 args) (arg2 args) 16 in
    let? exit_buf_len := bpf_attr_read_u32_direct (arg1 args) (arg2 args) BPF_DIRECT_TASK_FD_QUERY_BUF_LEN_OFF in
    if exit_buf =? 0 then ret None
    else
      let bounded_len := if exit_buf_len <? enter_buf_len then exit_buf_len else enter_buf_len in
      let bounded_len := if 512 <? bounded_len then 512 else bounded_len in
      ret (if bounded_len =? 0 then None else Some (exit_buf, bounded_len)).

Definition capture_bpf_task_fd_query_string_tlv_direct (user_ptr user_len event_flags : Z) (ptr : dynptr)
    (payload_offset : Z) : prog (Z * Z) :=
  if (user_ptr =? 0) || (user_len =? 0) then ret (0, event_flags)
  else
    let* payload_data := bpf_dynptr_data ptr (payload_offset + PAYLOAD_TLV_HEADER_SIZE) 512 in
    let* (copied_len, probe_ret) :=
      match payload_data with
      | None => record_ringbuf_copy_fail ;;; ret (0, -1)
      | Some payload_data =>
          let* n := read_user_str_into payload_data 512 user_ptr in
          ret (if n <? 0 then (0, n) else if 512 <? n then (512, 0) else (u32 n, 0))
      end in
    let* event_flags :=
      if (probe_ret =? 0) && (copied_len =? 512) && (copied_len <? user_len) then
        record_payload_truncated_event ;;; ret (Z.lor event_flags EVENT_FLAG_TRUNCATED)
      else ret event_flags in
    let* size := finish_section ptr payload_offset
      (TlvHeader PAYLOAD_TLV_KIND_STRING 137 PAYLOAD_TLV_FLAG_DIRECTION_OUT user_len copied_len probe_ret user_ptr) in
    ret (size, event_flags).

Definition emit_bpf_task_fd_query_exit_event_v2_direct (p : pending_syscall) (ret_value duration : Z) : prog bool :=
  if negb (is_bpf_direct_syscall (p_sys_id p)) || negb (arg0 (p_args p) =? BPF_DIRECT_TASK_FD_QUERY) ||
     negb (ret_value =? 0) then ret false
  else
    let attr_request := read_bpf_task_fd_query_output_attr_direct p in
    let* string_request := read_bpf_task_fd_query_string_request_direct p in
    match attr_request, string_request with
    | None, None => ret false
    | _, _ =>
        exit_flags_emit (2 * (PAYLOAD_TLV_HEADER_SIZE + 512)) p ret_value duration
          (flags_both
             match attr_request with Some r => capture_bpf_exit_bytes_tlv_direct r | None => no_capture end
             match string_request with
             | Some (user_ptr, user_len) => capture_bpf_task_fd_query_string_tlv_direct user_ptr user_len
             | None => no_capture
             end 0) ;;;
        ret true
    end.

(** ** The commands *)

Definition emit_bpf_exit_event_v2_direct (p : pending_syscall) (ret_value duration : Z) : prog bool :=
  let args := p_args p in
  let cmd := arg0 args in
  if negb (is_bpf_direct_syscall (p_sys_id p)) then ret false
  else if cmd =? BPF_DIRECT_MAP_GET_NEXT_KEY then emit_bpf_map_get_next_key_exit_event_v2_direct p ret_value duration
  else if cmd =? BPF_DIRECT_PROG_QUERY then emit_bpf_prog_query_exit_event_v2_direct p ret_value duration
  else if existsb (Z.eqb cmd) [BPF_DIRECT_MAP_LOOKUP_ELEM; BPF_DIRECT_MAP_LOOKUP_AND_DELETE_ELEM] then
    emit_bpf_map_lookup_exit_event_v2_direct p ret_value duration
  else if existsb (Z.eqb cmd) [BPF_DIRECT_MAP_LOOKUP_BATCH; BPF_DIRECT_MAP_LOOKUP_AND_DELETE_BATCH] then
    emit_bpf_map_batch_lookup_exit_event_v2_direct p ret_value duration
  else if is_bpf_get_next_id_command_direct cmd then emit_bpf_get_next_id_exit_event_v2_direct p ret_value duration
  else if cmd =? BPF_DIRECT_OBJ_GET_INFO_BY_FD then
    if negb (ret_value =? 0) then ret false
    else emit_bpf_request (read_bpf_obj_info (arg1 args) (arg2 args)) p ret_value duration
  else if cmd =? BPF_DIRECT_BTF_LOAD then emit_bpf_btf_load_log_exit_event_v2_direct p ret_value duration
  else if cmd =? BPF_DIRECT_PROG_STREAM_READ_BY_FD then
    emit_bpf_prog_stream_read_exit_event_v2_direct p ret_value duration
  else if cmd =? BPF_DIRECT_PROG_TEST_RUN then emit_bpf_prog_test_run_exit_event_v2_direct p ret_value duration
  else if cmd =? BPF_DIRECT_TASK_FD_QUERY then emit_bpf_task_fd_query_exit_event_v2_direct p ret_value duration
  else emit_bpf_prog_load_log_exit_event_v2_direct p ret_value duration.
End BpfExit.

(** ** Contracts *)

Section BpfExitLemmas.
Context {K : Kernel} {A : Arch}.

(** *** Emitters that may decline *)

(** [m] makes one emission attempt and returns [true], or makes none and returns [false]. *)
Definition emitter_if (W : exec_ctx -> Z -> list Z -> Prop) (m : prog bool) : Prop :=
  forall w, wp m (fun b w' => if b : bool then emits w w' /\ outcome (W (running w)) w w' else quiet w w') w.

Lemma emitter_if_keeps W m : emitter_if W m -> keeps emits m.
Proof.
  intros H w. specialize (H w). unfold wp in H. destruct (m w) as [[] w']; cbn [fst snd] in *; [apply H|].
  by apply quiet_emits.
Qed.

Lemma emitter_if_mono W W' m : (forall r seq rec, W r seq rec -> W' r seq rec) -> emitter_if W m -> emitter_if W' m.
Proof.
  intros HW H w. eapply wp_mono; [apply H|]. intros [] w'; [|done]. intros [E O]. split; [done|].
  eapply outcome_mono; [|exact O]. apply HW.
Qed.

Lemma emitter_if_no W : emitter_if W (ret false).
Proof. intros w. by wp_step. Qed.

Lemma emitter_if_yes W (m : prog unit) : emitter W m -> emitter_if W (m ;;; ret true).
Proof. intros H w. wp_step. eapply wp_mono; [apply (H w)|]. intros [] w' H1. wp_step. exact H1. Qed.

(** Diagnostics before an attempt do not show. *)
Lemma outcome_quiet W w w1 w2 : quiet w w1 -> outcome W w1 w2 -> outcome W w w2.
Proof.
  intros [[[Er _ _ _] _ _] (n & _ & M)] O. destruct M as [_ Es _ T _]. rewrite app_nil_r in Es.
  destruct O as [seq rec Hs HW Hn|Hs ?|Hs ?]; rewrite Es in Hs; [|by apply NoRoom|by apply Faulted].
  eapply Submitted; [exact Hs | exact HW |]. intros s E. rewrite E in T. rewrite Er in Hn.
  destruct (stats w1 !! _) as [s1|] eqn:E1; [|done]. rewrite (Hn s1 eq_refl). destruct T as (T & _).
  unfold advanced in T. rewrite Z.add_0_r in T. by rewrite <- u64_add_l, T, u64_add_l.
Qed.

Lemma emitter_if_quiet {X} Q W (m : prog X) (k : X -> prog bool) :
  keeps quiet m -> (forall w, wp m (fun x _ => Q x) w) -> (forall x, Q x -> emitter_if W (k x)) ->
  emitter_if W (bind m k).
Proof.
  intros Hm HQ Hk w. wp_step. specialize (Hm w). specialize (HQ w). unfold wp in HQ. unfold wp at 1.
  destruct (m w) as [x w1]. cbn [fst snd] in *.
  assert (running w1 = running w) as Er by apply Hm.
  eapply wp_mono; [apply (Hk x HQ)|]. rewrite Er. intros [] w2 H2.
  - destruct H2 as [E O]. split; [|by eapply outcome_quiet]. etrans; [by apply quiet_emits | exact E].
  - by etrans.
Qed.

Lemma emitter_if_found {X} (Q : X -> Prop) W read emit :
  reader Q read -> (forall x, Q x -> emitter_if W (emit x)) -> emitter_if W (emit_bpf_found read emit).
Proof.
  intros [Hm HQ] He. apply (emitter_if_quiet (fun o => forall x, o = Some x -> Q x)); [done | done |].
  intros [x|] Hx; [by apply He, Hx | apply emitter_if_no].
Qed.

(** *** Bytes *)

(** What a request leaves: the bytes that were read, or nothing when they were not. *)
Definition exit_bytes_data (r : bpf_nested_bytes_capture_request) (base fl ulen : Z) (data : list Z) (e : Z) : Prop :=
  ulen = rq_user_len r /\ e = 0 /\
  (exists k, data = user_bytes k (rq_user_ptr r) (Z.min (rq_user_len r) (rq_max_len r))) /\
  fl = if rq_max_len r <? rq_user_len r then Z.lor base EVENT_FLAG_TRUNCATED else base.
Definition exit_bytes_sections (r : bpf_nested_bytes_capture_request) (base fl : Z) (secs : list PayloadSection) : Prop :=
  if request_empty r then unflagged (fun secs => secs = []) base fl secs
  else (exists e, read_failed (rq_user_ptr r) e /\ unflagged (fun secs => secs = []) base fl secs) \/
    one_section (section_with PayloadKindBytes PayloadDirectionOut (rq_arg_index r) (rq_user_ptr r)
      (exit_bytes_data r base fl)) secs.

(** A request that the record has room for, or none. *)
Definition exit_request_ok (r : bpf_nested_bytes_capture_request) : Prop :=
  request_empty r = true \/
  0 <= rq_user_len r < 2 ^ 32 /\ 0 < rq_max_len r <= BPF_DIRECT_OBJ_INFO_MAX /\ rq_storage_len r = BPF_DIRECT_BYTES_BUCKET_512.

Lemma capture_bpf_exit_bytes_ok r :
  exit_request_ok r -> flags_capture (exit_bytes_sections r) (32 + 512) (capture_bpf_exit_bytes_tlv_direct r).
Proof.
  intros Hr base w d buf off Hb Ho Hs. destruct r as [ptr len max storage arg].
  unfold capture_bpf_exit_bytes_tlv_direct, exit_bytes_sections. unfold exit_request_ok in Hr. cbn in Hr. unfold request_empty in *.
  cbn [rq_user_ptr rq_user_len rq_max_len rq_storage_len rq_arg_index] in *.
  destruct ((ptr =? 0) || (len =? 0)) eqn:E0; [apply (no_capture_room _ _ (32 + 512) _ _ _ Hb); lia|].
  destruct Hr as [?|(Hl & Hm & ->)]; [done|]. apply orb_false_iff in E0 as [_ E0]. apply Z.eqb_neq in E0.
  destruct (Z.eqb_spec max 0), (Z.ltb_spec 512 max), (Z.ltb_spec 512 max); try lia. cbn [orb negb Z.eqb Pos.eqb].
  assert (payload_tlv_clamp_u32 len = len) as ->.
  { unfold payload_tlv_clamp_u32. destruct (Z.ltb_spec 4294967295 len); [lia | apply u32_small; lia]. }
  rewrite payload_tlv_copy_len_min by lia. set (k := Z.min len max).
  destruct (Z.ltb_spec 512 k); [lia|].
  pose proof (capturing_start d off w buf Hb) as C0. wp_step.
  eapply wp_dynptr_data; [exact C0 | lia | |]; intros w1.
  2: { intros NF C1. wp_step. eapply wp_copy_fail; [exact C1 | exact NF |]. intros _ w2 C2. wp_step.
       split_and!; [lia | lia | by left | apply C2 | by intros]. }
  intros C1. wp_step. eapply wp_read_user_into; [exact C1 | lia | lia | lia |].
  intros w2 err bytes Hlen He C2. destruct (Z.ltb_spec err 0).
  - wp_step. split_and!; [lia | lia | by left | apply C2 |]. intros _. eapply decodable_0; [exact C2|].
    left. exists err. split; [solve_failed | done].
  - destruct He as [[-> Hd]|[? _]]; [|lia]. set (r := BytesRequest ptr len max 512 arg).
    eapply wp_mono.
    { eapply (wp_finish_short (exit_bytes_data r base)) with (cap := 32 + 512); [exact C2|..]; try done; try lia.
      split; [done|]. split; [done|]. subst r. cbn [rq_user_ptr rq_user_len rq_max_len]. split.
      - exists (calls w1). fold k. rewrite <- Hd. apply slice_put_same; lia.
      - cbn [Z.eqb andb]. destruct (Z.ltb_spec k len), (Z.ltb_spec max len); done || lia. }
    intros [m fl] w3 (? & ? & ? & D). split_and!; [lia | lia | done | done |]. intros _.
    destruct (D I) as (b & secs & ? & ? & ?). exists b, secs. split_and!; [done | done |]. by right.
Qed.
(** Several requests. *)
Fixpoint all_exit_bytes (rs : list bpf_nested_bytes_capture_request) : Z -> Z -> list PayloadSection -> Prop :=
  match rs with
  | [] => unflagged (fun secs => secs = [])
  | r :: rest => flags_appended (exit_bytes_sections r) (all_exit_bytes rest)
  end.
Lemma capture_bpf_exit_all_ok rs :
  Forall exit_request_ok rs -> flags_capture (all_exit_bytes rs) (zlen rs * 544) (capture_bpf_exit_all rs).
Proof.
  induction 1 as [|r rest Hr _ IH]; cbn [all_exit_bytes capture_bpf_exit_all].
  { by apply no_capture_ok. }
  pose proof (zlen_nonneg rest). unfold zlen in *. cbn [length]. eapply flags_capture_cap.
  - apply flags_both_ok; [by apply capture_bpf_exit_bytes_ok | exact IH | lia].
  - lia.
Qed.

(** *** Requests *)

(** A request for what the pointer at [off] of the attribute points to. *)
Definition out_from (attr_ptr off arg_index max : Z) (r : bpf_nested_bytes_capture_request) : Prop :=
  exists ptr len, r = exit_request ptr len max arg_index /\ attr_member 8 attr_ptr off ptr /\ 0 <= len < 2 ^ 32.
Definition out_from_or_none (attr_ptr off arg_index max : Z) (r : bpf_nested_bytes_capture_request) : Prop :=
  r = no_request \/ out_from attr_ptr off arg_index max r.

Lemma out_from_ok attr_ptr off arg max r : 0 < max <= 512 -> out_from attr_ptr off arg max r -> exit_request_ok r.
Proof. intros Hm (ptr & len & -> & _ & Hl). by right. Qed.
Lemma out_or_none_ok attr_ptr off arg max r : 0 < max <= 512 -> out_from_or_none attr_ptr off arg max r -> exit_request_ok r.
Proof. intros Hm [->|H]; [by left | by eapply out_from_ok]. Qed.
Lemma out_from_intro attr_ptr off arg max ptr len :
  attr_member 8 attr_ptr off ptr -> 0 <= len < 2 ^ 32 -> out_from attr_ptr off arg max (exit_request ptr len max arg).
Proof. intros. by exists ptr, len. Qed.

Ltac read_attr :=
  lazymatch goal with
  | |- reader _ (bind (bpf_attr_read_u32_direct _ _ _) _) =>
      eapply reader_bind; [apply bpf_attr_reader; lia|]; let v := fresh "v" in let H := fresh "Hv" in
      intros v H; pose proof (attr_u32_range _ _ _ H)
  | |- reader _ (bind (bpf_attr_read_u64_direct _ _ _) _) =>
      eapply reader_bind; [apply bpf_attr_reader; lia|]; intros ? ?
  | |- reader _ (bind (bpf_map_of_fd _) _) => eapply reader_bind; [apply bpf_map_reader|]; intros ? _
  | |- reader _ (bind (bpf_map_effective_value_size_direct _ _ _) _) =>
      eapply reader_known; [apply effective_value_size_quiet
        | intros ?; eapply wp_mono; [apply effective_value_size_range, u32_range | intros ? ? [_ E]; exact E] |];
      intros ? ?
  | |- reader _ (bind _ _) => apply reader_quiet; [solve [eauto with keeps]|]; intros ?
  | |- reader _ (if ?b then _ else _) => destruct b eqn:?
  | |- reader _ (let _ := _ in _) => cbv zeta
  | |- reader _ (ret (if ?b then _ else _)) => destruct b eqn:?
  | |- reader _ (ret (let _ := _ in _)) => cbv zeta
  | |- reader _ (ret (Some _)) => apply reader_some
  | |- reader _ (ret None) => apply reader_none
  end.
Ltac read_out := repeat read_attr; cbv beta in *; apply out_from_intro; [done | lia || apply u32_range].

Lemma obj_info_reader attr_ptr size : reader (out_from attr_ptr 8 113 512) (read_bpf_obj_info attr_ptr size).
Proof. unfold read_bpf_obj_info. read_out. Qed.
Lemma log_reader s b t arg attr_ptr size : reader (out_from attr_ptr b arg 256) (read_bpf_log s b t arg attr_ptr size).
Proof. unfold read_bpf_log. repeat read_attr. apply out_from_intro; [done|]. destruct (_ <? _); lia. Qed.
Lemma stream_reader attr_ptr size : reader (out_from attr_ptr 0 111 512) (read_bpf_stream attr_ptr size).
Proof. unfold read_bpf_stream. read_out. Qed.
Lemma map_lookup_reader attr_ptr size :
  reader (out_from attr_ptr 16 117 512) (read_bpf_map_lookup_output_request_direct attr_ptr size).
Proof. unfold read_bpf_map_lookup_output_request_direct. read_out. Qed.
Lemma next_key_reader attr_ptr size n :
  0 <= n < 2 ^ 32 -> reader (out_from attr_ptr 16 125 512) (read_bpf_map_get_next_key_output_request_direct attr_ptr size n).
Proof. intros Hn. unfold read_bpf_map_get_next_key_output_request_direct. read_out. Qed.

(** The requests of an output list: each for its own pointer, where it is not empty. *)
Definition outs_from (attr_ptr : Z) (ptrs : list (Z * Z)) (rs : list bpf_nested_bytes_capture_request) : Prop :=
  Forall2 (fun '(off, arg_index) => out_from_or_none attr_ptr off arg_index 512) ptrs rs.
Lemma outs_ok attr_ptr ptrs rs : outs_from attr_ptr ptrs rs -> Forall exit_request_ok rs.
Proof. induction 1 as [|[off arg] r ptrs rs Hr _ IH]; constructor; [|done]. by eapply out_or_none_ok; [|exact Hr]. Qed.

Lemma batch_output_from attr_ptr off ptr len arg :
  attr_member 8 attr_ptr off ptr -> 0 <= len < 2 ^ 32 ->
  out_from_or_none attr_ptr off arg 512 (set_bpf_map_batch_output_request_direct ptr len arg).
Proof.
  intros. unfold set_bpf_map_batch_output_request_direct. destruct (_ || _); [by left | right; by apply out_from_intro].
Qed.
Lemma cursor_len_quiet map n : keeps quiet (bpf_map_batch_cursor_len_direct map n).
Proof. unfold bpf_map_batch_cursor_len_direct. keeps_solve. Qed.
Lemma cursor_len_range map n w : wp (bpf_map_batch_cursor_len_direct map (u32 n)) (fun v _ => 0 <= v < 2 ^ 32) w.
Proof.
  unfold bpf_map_batch_cursor_len_direct. wp_step. unfold wp at 1. destruct (bpf_core_read _ _ w) as [t w1].
  cbn [fst snd]. wp_step. destruct (_ && _); [lia | apply u32_range].
Qed.

Abbreviation batch_ptrs := [(8, 120); (16, 118); (24, 119)] (only parsing).
Lemma batch_outputs_reader attr_ptr size :
  reader (outs_from attr_ptr batch_ptrs) (read_bpf_map_batch_output_requests_direct attr_ptr size).
Proof.
  unfold read_bpf_map_batch_output_requests_direct. do 12 read_attr; try apply reader_none.
  all: repeat (lazymatch goal with |- reader _ (bind (bpf_map_batch_cursor_len_direct _ _) _) => fail | _ => read_attr end).
  eapply reader_known; [apply cursor_len_quiet | intros w; apply cursor_len_range|]. intros cursor Hc.
  cbv beta in *. repeat read_attr.
  repeat (constructor; [apply batch_output_from; [done | done || apply batch_len_range]|]). constructor.
Qed.

Lemma query_array_quiet off arg cnt attr_ptr size : keeps quiet (read_bpf_prog_query_array off arg cnt attr_ptr size).
Proof. unfold read_bpf_prog_query_array, bpf_attr_read_u64_direct, bpf_attr_read. keeps_solve. Qed.
Lemma query_array_range off arg cnt attr_ptr size w :
  wp (read_bpf_prog_query_array off arg cnt attr_ptr size) (fun r _ => out_from_or_none attr_ptr off arg 512 r) w.
Proof.
  unfold read_bpf_prog_query_array. wp_step.
  eapply wp_mono; [apply (bpf_attr_reader 8 attr_ptr size off); lia|]. intros o w1 Ho. wp_step.
  destruct o as [ptr|]; [|by left]. specialize (Ho ptr eq_refl). unfold set_bpf_prog_query_array_request_direct.
  destruct (_ || _); [by left|]. right. apply out_from_intro; [done|].
  unfold bpf_prog_query_array_len_direct. destruct (_ <? _); [lia | apply u32_range].
Qed.

Abbreviation query_ptrs := [(16, 128); (32, 129); (40, 130); (48, 131)] (only parsing).
(** The count, then the arrays. *)
Definition query_requests (attr_ptr : Z) (rs : list bpf_nested_bytes_capture_request) : Prop :=
  exists arrays, rs = exit_request (u64 (attr_ptr + 24)) 4 4 132 :: arrays /\ outs_from attr_ptr query_ptrs arrays.
Lemma query_reader attr_ptr size :
  reader (query_requests attr_ptr) (read_bpf_prog_query_output_requests_direct attr_ptr size).
Proof.
  unfold read_bpf_prog_query_output_requests_direct. read_attr.
  do 4 (eapply reader_known; [apply query_array_quiet | intros w; apply query_array_range |]; intros ? ?).
  apply reader_some. cbv beta in *. eexists. split; [done|]. repeat (constructor; [done|]). constructor.
Qed.

(** The output buffers of a test run. *)
Lemma test_run_quiet s q arg attr_ptr size : keeps quiet (read_bpf_test_run_output_request_direct s q arg attr_ptr size).
Proof.
  unfold read_bpf_test_run_output_request_direct, bpf_attr_read_u32_direct, bpf_attr_read_u64_direct, bpf_attr_read.
  keeps_solve.
Qed.
Lemma test_run_range s q arg attr_ptr size w :
  wp (read_bpf_test_run_output_request_direct s q arg attr_ptr size)
    (fun r _ => out_from_or_none attr_ptr q arg 512 r) w.
Proof.
  unfold read_bpf_test_run_output_request_direct. wp_step. unfold wp.
  match goal with |- context [fst (?m w)] => set (read := m) end.
  assert (reader (out_from attr_ptr q arg 512) read) as [_ Hr] by (subst read; read_out).
  specialize (Hr w). unfold wp in Hr. destruct (read w) as [[r|] w1]; cbn [fst snd ret] in *; [|by left].
  right. by apply Hr.
Qed.

(** *** The name of a task's descriptor *)

(** The name up to its terminator, at most 512 bytes.  The event is never flagged. *)
Definition task_fd_name (user_ptr user_len ulen : Z) (data : list Z) (e : Z) : Prop :=
  ulen = user_len /\
  (e = 0 /\ (exists k, data = until_nul (user_bytes k user_ptr 511) ++ [0]) \/ data = [] /\ read_failed user_ptr e).
Definition task_fd_string_sections (user_ptr user_len : Z) : Z -> Z -> list PayloadSection -> Prop :=
  unflagged (one_section (section_with PayloadKindString PayloadDirectionOut 137 user_ptr (task_fd_name user_ptr user_len))).

Lemma capture_task_fd_string_ok user_ptr user_len :
  user_ptr <> 0 -> 0 < user_len <= 512 ->
  flags_capture (task_fd_string_sections user_ptr user_len) (32 + 512)
    (capture_bpf_task_fd_query_string_tlv_direct user_ptr user_len).
Proof.
  intros Hp Hl base w d buf off Hb Ho Hs. unfold capture_bpf_task_fd_query_string_tlv_direct.
  destruct (Z.eqb_spec user_ptr 0), (Z.eqb_spec user_len 0); try lia. cbn [orb].
  pose proof (capturing_start d off w buf Hb) as C0.
  assert (forall w1 b c e, capturing d off (zlen buf) w w1 b -> 0 <= c <= 512 ->
    task_fd_name user_ptr user_len user_len (slice b (off + 32) c) e ->
    wp (let* event_flags :=
          if (e =? 0) && (c =? 512) && (c <? user_len) then
            record_payload_truncated_event ;;; ret (Z.lor base EVENT_FLAG_TRUNCATED) else ret base in
        let* size := finish_section (Some d) off
          (TlvHeader PAYLOAD_TLV_KIND_STRING 137 PAYLOAD_TLV_FLAG_DIRECTION_OUT user_len c e user_ptr) in
        ret (size, event_flags)) (fun '(m, fl) w' =>
      0 <= m <= 32 + 512 /\ flags_from base fl /\ captures d off w w' /\
      (no_fault -> decodable (task_fd_string_sections user_ptr user_len base fl) d off m w')) w1) as Fin.
  { intros w1 b c e C1 Hc HD. assert ((e =? 0) && (c =? 512) && (c <? user_len) = false) as ->.
    { destruct (Z.eqb_spec c 512), (Z.ltb_spec c user_len); try lia; by rewrite ?andb_false_r. }
    do 3 wp_step. eapply wp_mono.
    - eapply (wp_finish_with (task_fd_name user_ptr user_len)) with (cap := 32 + 512); [exact C1|..]; done || lia.
    - intros m w2 (? & ? & D). wp_step. split_and!; [lia | lia | by left | done |]. intros _.
      destruct (D I) as (b' & secs & ? & ? & ?). exists b', secs. split_and!; done. }
  wp_step. eapply wp_dynptr_data; [exact C0 | lia | |]; intros w1.
  2: { intros NF C1. do 2 wp_step. eapply wp_copy_fail; [exact C1 | exact NF |]. intros _ w2 C2. wp_step.
       eapply Fin; [exact C2 | lia |]. rewrite slice_0. split; [done|]. right. split; [done | by apply failed_fault]. }
  intros C1. do 2 wp_step. eapply wp_read_user_str_into; [exact C1 | lia | lia | lia |].
  intros w2 r bytes Hn Hr C2. pose proof (zlen_nonneg bytes). wp_step. destruct (Z.ltb_spec r 0).
  - eapply Fin; [exact C2 | lia |]. rewrite slice_0. split; [done|]. right. split; [done | solve_failed].
  - destruct Hr as [(Hr & -> & Hd)|[? _]]; [|lia]. destruct (Z.ltb_spec 512 (zlen bytes)); [lia|].
    rewrite u32_small by lia. eapply Fin; [exact C2 | lia |]. rewrite slice_put_same by lia.
    split; [done|]. left. split; [done|]. by exists (calls w1).
Qed.

(** A pointer of the attribute and a length the record has room for. *)
Definition task_fd_string_from (attr_ptr : Z) : Z * Z -> Prop := fun '(ptr, len) =>
  attr_member 8 attr_ptr 16 ptr /\ ptr <> 0 /\ 0 < len <= 512.
Lemma task_fd_string_reader p :
  reader (task_fd_string_from (arg1 (p_args p))) (read_bpf_task_fd_query_string_request_direct p).
Proof.
  unfold read_bpf_task_fd_query_string_request_direct. apply reader_quiet; [eauto with keeps|]. intros aux. cbv zeta.
  pose proof (u32_range aux). destruct (Z.eqb_spec (u32 aux) 0); [apply reader_none|].
  eapply reader_bind; [apply bpf_attr_reader; lia|]. intros ptr Hp.
  eapply reader_bind; [apply bpf_attr_reader; lia|]. intros len Hl%attr_u32_range.
  destruct (Z.eqb_spec ptr 0); [apply reader_none|]. apply reader_ret. intros x Hx.
  assert (0 <= if len <? u32 aux then len else u32 aux) as Hk by (destruct (len <? u32 aux); lia).
  revert Hx Hk. generalize (if len <? u32 aux then len else u32 aux). intros k Hx Hk.
  destruct (Z.ltb_spec 512 k), (Z.eqb_spec k 0); cbn in Hx; inversion Hx; subst; split_and!; done || lia.
Qed.

(** *** Records *)

(** The exit record with the sections [P]. *)
Definition reads_bpf_exit (p : pending_syscall) (rv dur : Z) (P : Z -> Z -> list PayloadSection -> Prop) (r : exec_ctx)
    : Z -> list Z -> Prop := reads_pending_exit r p rv dur (decodes no_fault (flags_from 0) (P 0)).

Lemma reads_bpf_exit_mono p rv dur (P P' : Z -> Z -> list PayloadSection -> Prop) :
  (forall fl secs, P 0 fl secs -> P' 0 fl secs) ->
  forall r seq rec, reads_bpf_exit p rv dur P r seq rec -> reads_bpf_exit p rv dur P' r seq rec.
Proof.
  intros H r seq rec (hd & flags & pl & cpudur & Hr & Hd & fl & HF & HT & HD).
  exists hd, flags, pl, cpudur. split_and!; [done | done |]. exists fl. split_and!; [done | done |].
  intros G. destruct (HD G) as (secs & ? & ?). exists secs. auto.
Qed.

Lemma bpf_exit_if cap p rv dur P f :
  0 <= cap < 2 ^ 31 -> flags_capture P cap f ->
  emitter_if (reads_bpf_exit p rv dur P) (exit_flags_emit cap p rv dur (f 0) ;;; ret true).
Proof. intros. by apply emitter_if_yes, exit_flags_capture_ok. Qed.

(** What is read behind one of the values that [Q] allows. *)
Definition sections_of {X} (Q : X -> Prop) (P : X -> Z -> Z -> list PayloadSection -> Prop)
    (base fl : Z) (secs : list PayloadSection) : Prop := exists x, Q x /\ P x base fl secs.
Lemma sections_of_if {X} Q P p rv dur (x : X) m :
  Q x -> emitter_if (reads_bpf_exit p rv dur (P x)) m -> emitter_if (reads_bpf_exit p rv dur (sections_of Q P)) m.
Proof. intros HQ. apply emitter_if_mono, reads_bpf_exit_mono. intros. by exists x. Qed.

Lemma bpf_exit_bytes_if p rv dur r :
  exit_request_ok r -> request_empty r = false ->
  emitter_if (reads_bpf_exit p rv dur (exit_bytes_sections r)) (emit_bpf_exit_bytes_event_v2_direct p rv dur r).
Proof.
  intros Hr E. unfold emit_bpf_exit_bytes_event_v2_direct. destruct (_ || _); [apply emitter_if_no|].
  apply bpf_exit_if; [lia | by apply capture_bpf_exit_bytes_ok].
Qed.

(** One request of the attribute. *)
Definition out_sections (attr_ptr off arg_index max : Z) : Z -> Z -> list PayloadSection -> Prop :=
  sections_of (out_from attr_ptr off arg_index max) exit_bytes_sections.
Lemma bpf_request_if p rv dur attr_ptr off arg max read :
  0 < max <= 512 -> reader (out_from attr_ptr off arg max) read ->
  emitter_if (reads_bpf_exit p rv dur (out_sections attr_ptr off arg max)) (emit_bpf_request read p rv dur).
Proof.
  intros Hm HR. eapply emitter_if_found; [exact HR|]. intros r Hr. apply (sections_of_if _ _ _ _ _ r); [done|].
  unfold emit_bpf_exit_bytes_event_v2_direct. destruct (_ || _); [apply emitter_if_no|].
  apply bpf_exit_if; [lia|]. by eapply capture_bpf_exit_bytes_ok, out_from_ok.
Qed.

Definition task_fd_sections (p : pending_syscall) : Z -> Z -> list PayloadSection -> Prop :=
  flags_appended
    match read_bpf_task_fd_query_output_attr_direct p with
    | Some r => exit_bytes_sections r
    | None => unflagged (fun secs => secs = [])
    end
    (found_sections (task_fd_string_from (arg1 (p_args p))) (fun '(ptr, len) => task_fd_string_sections ptr len)).
Definition test_run_sections (attr_ptr : Z) : Z -> Z -> list PayloadSection -> Prop :=
  sections_of (fun '(data, ctx) => out_from_or_none attr_ptr 24 115 512 data /\ out_from_or_none attr_ptr 56 116 512 ctx)
    (fun '(data, ctx) => flags_appended (exit_bytes_sections data) (exit_bytes_sections ctx)).

(** What each command returned. *)
Definition bpf_exit_sections (p : pending_syscall) : Z -> Z -> list PayloadSection -> Prop :=
  let cmd := arg0 (p_args p) in
  let attr_ptr := arg1 (p_args p) in
  if cmd =? BPF_DIRECT_MAP_GET_NEXT_KEY then out_sections attr_ptr 16 125 512
  else if cmd =? BPF_DIRECT_PROG_QUERY then sections_of (query_requests attr_ptr) all_exit_bytes
  else if existsb (Z.eqb cmd) [BPF_DIRECT_MAP_LOOKUP_ELEM; BPF_DIRECT_MAP_LOOKUP_AND_DELETE_ELEM] then
    out_sections attr_ptr 16 117 512
  else if existsb (Z.eqb cmd) [BPF_DIRECT_MAP_LOOKUP_BATCH; BPF_DIRECT_MAP_LOOKUP_AND_DELETE_BATCH] then
    sections_of (outs_from attr_ptr batch_ptrs) all_exit_bytes
  else if is_bpf_get_next_id_command_direct cmd then exit_bytes_sections (exit_request (u64 (attr_ptr + 4)) 4 4 140)
  else if cmd =? BPF_DIRECT_OBJ_GET_INFO_BY_FD then out_sections attr_ptr 8 113 512
  else if cmd =? BPF_DIRECT_BTF_LOAD then out_sections attr_ptr 8 114 256
  else if cmd =? BPF_DIRECT_PROG_STREAM_READ_BY_FD then out_sections attr_ptr 0 111 512
  else if cmd =? BPF_DIRECT_PROG_TEST_RUN then test_run_sections attr_ptr
  else if cmd =? BPF_DIRECT_TASK_FD_QUERY then task_fd_sections p
  else out_sections attr_ptr 32 102 256.

Lemma bpf_get_next_id_if p rv dur :
  emitter_if (reads_bpf_exit p rv dur (exit_bytes_sections (exit_request (u64 (arg1 (p_args p) + 4)) 4 4 140)))
    (emit_bpf_get_next_id_exit_event_v2_direct p rv dur).
Proof.
  unfold emit_bpf_get_next_id_exit_event_v2_direct. destruct (_ || _); [apply emitter_if_no|].
  unfold emit_bpf_exit_bytes_event_v2_direct. destruct (_ || _); [apply emitter_if_no|].
  apply bpf_exit_if; [lia | apply capture_bpf_exit_bytes_ok; right; cbn; lia].
Qed.

Lemma bpf_prog_query_if p rv dur :
  emitter_if (reads_bpf_exit p rv dur (sections_of (query_requests (arg1 (p_args p))) all_exit_bytes))
    (emit_bpf_prog_query_exit_event_v2_direct p rv dur).
Proof.
  unfold emit_bpf_prog_query_exit_event_v2_direct. destruct (_ || _); [apply emitter_if_no|].
  eapply emitter_if_found; [apply query_reader|]. intros rs Hrs. apply (sections_of_if _ _ _ _ _ rs); [done|].
  destruct Hrs as (arrays & -> & Ha). apply bpf_exit_if; [lia|]. eapply flags_capture_cap.
  - apply capture_bpf_exit_all_ok. constructor; [right; cbn; lia | by eapply outs_ok].
  - apply Forall2_length in Ha. unfold zlen. cbn [length] in *. lia.
Qed.

Lemma bpf_map_batch_if p rv dur :
  emitter_if (reads_bpf_exit p rv dur (sections_of (outs_from (arg1 (p_args p)) batch_ptrs) all_exit_bytes))
    (emit_bpf_map_batch_lookup_exit_event_v2_direct p rv dur).
Proof.
  unfold emit_bpf_map_batch_lookup_exit_event_v2_direct. destruct (_ || _); [apply emitter_if_no|].
  eapply emitter_if_found; [apply batch_outputs_reader|]. intros rs Ha. apply (sections_of_if _ _ _ _ _ rs); [done|].
  apply bpf_exit_if; [lia|]. eapply flags_capture_cap; [by eapply capture_bpf_exit_all_ok, outs_ok|].
  apply Forall2_length in Ha. unfold zlen. cbn [length] in *. lia.
Qed.

Lemma capture_unless_empty_ok r :
  exit_request_ok r -> flags_capture (exit_bytes_sections r) (32 + 512)
    (if negb (request_empty r) then capture_bpf_exit_bytes_tlv_direct r else no_capture).
Proof.
  intros Hr. destruct (request_empty r) eqn:E; cbn [negb]; [|by apply capture_bpf_exit_bytes_ok].
  eapply flags_capture_weaken; [|reflexivity|apply no_capture_ok; lia].
  intros base fl secs H. unfold exit_bytes_sections. by rewrite E.
Qed.

Lemma bpf_test_run_if p rv dur :
  emitter_if (reads_bpf_exit p rv dur (test_run_sections (arg1 (p_args p))))
    (emit_bpf_prog_test_run_exit_event_v2_direct p rv dur).
Proof.
  unfold emit_bpf_prog_test_run_exit_event_v2_direct. destruct (_ || _); [apply emitter_if_no|].
  eapply emitter_if_quiet; [apply test_run_quiet | intros w; apply test_run_range|]. intros data Hd.
  eapply emitter_if_quiet; [apply test_run_quiet | intros w; apply test_run_range|]. intros ctx Hc.
  destruct (_ && _); [apply emitter_if_no|]. apply (sections_of_if _ _ _ _ _ (data, ctx)); [done|].
  apply bpf_exit_if; [lia|]. eapply flags_capture_cap.
  - apply flags_both_ok with (cap1 := 544) (cap2 := 544); [| |lia]; apply capture_unless_empty_ok;
      [eapply out_or_none_ok; [|exact Hd]; lia | eapply out_or_none_ok; [|exact Hc]; lia].
  - lia.
Qed.

Lemma bpf_task_fd_if p rv dur :
  emitter_if (reads_bpf_exit p rv dur (task_fd_sections p)) (emit_bpf_task_fd_query_exit_event_v2_direct p rv dur).
Proof.
  unfold emit_bpf_task_fd_query_exit_event_v2_direct. destruct (_ || _); [apply emitter_if_no|]. cbv zeta.
  eapply emitter_if_quiet; [apply task_fd_string_reader | apply task_fd_string_reader |]. intros s Hs.
  assert (forall r, read_bpf_task_fd_query_output_attr_direct p = Some r -> exit_request_ok r) as Hattr.
  { unfold read_bpf_task_fd_query_output_attr_direct. intros r. destruct (_ || _) eqn:E; [done|]. intros [= <-].
    pose proof (u32_range (arg2 (p_args p))). right. cbn. split; [destruct (_ <? _); lia | lia]. }
  unfold task_fd_sections.
  destruct (read_bpf_task_fd_query_output_attr_direct p) as [r|], s as [[ptr len]|]; try apply emitter_if_no.
  all: apply bpf_exit_if; [lia|]; eapply flags_capture_cap; [apply flags_both_ok with (cap1 := 544) (cap2 := 544)|]; try lia.
  all: try (by apply capture_bpf_exit_bytes_ok, Hattr); try (apply no_capture_ok; lia).
  all: eapply flags_capture_weaken; [|reflexivity|];
    [|first [apply capture_task_fd_string_ok; by apply (Hs (ptr, len) eq_refl) | apply no_capture_ok; lia]].
  all: intros base fl secs H; first [by right | left; exists (ptr, len); split; [by apply Hs | exact H]].
Qed.

(** The whole of the exit half. *)
Lemma emit_bpf_exit_ok p rv dur :
  emitter_if (reads_bpf_exit p rv dur (bpf_exit_sections p)) (emit_bpf_exit_event_v2_direct p rv dur).
Proof.
  unfold emit_bpf_exit_event_v2_direct, bpf_exit_sections. destruct (negb _); [apply emitter_if_no|].
  destruct (arg0 _ =? 4).
  { unfold emit_bpf_map_get_next_key_exit_event_v2_direct. destruct (_ || _); [apply emitter_if_no|].
    eapply (emitter_if_quiet (fun _ => True)); [eauto with keeps | by intros w |]. intros n _.
    apply bpf_request_if; [lia | apply next_key_reader, u32_range]. }
  destruct (arg0 _ =? 16); [apply bpf_prog_query_if|].
  destruct (existsb _ _).
  { unfold emit_bpf_map_lookup_exit_event_v2_direct. destruct (_ || _); [apply emitter_if_no|].
    apply bpf_request_if; [lia | apply map_lookup_reader]. }
  destruct (existsb _ _); [apply bpf_map_batch_if|].
  destruct (is_bpf_get_next_id_command_direct _); [apply bpf_get_next_id_if|].
  destruct (arg0 _ =? 15); [destruct (negb _); [apply emitter_if_no | apply bpf_request_if, obj_info_reader; lia]|].
  destruct (arg0 _ =? 18).
  { unfold emit_bpf_btf_load_log_exit_event_v2_direct. destruct (_ || _); [apply emitter_if_no|].
    apply bpf_request_if; [lia | apply log_reader]. }
  destruct (arg0 _ =? 37).
  { unfold emit_bpf_prog_stream_read_exit_event_v2_direct. destruct (_ || _); [apply emitter_if_no|].
    apply bpf_request_if; [lia | apply stream_reader]. }
  destruct (arg0 _ =? 10); [apply bpf_test_run_if|].
  destruct (arg0 _ =? 20); [apply bpf_task_fd_if|].
  unfold emit_bpf_prog_load_log_exit_event_v2_direct. destruct (_ || _); [apply emitter_if_no|].
  apply bpf_request_if; [lia | apply log_reader].
Qed.

Lemma emit_bpf_exit_emits p rv dur : keeps emits (emit_bpf_exit_event_v2_direct p rv dur).
Proof. eapply emitter_if_keeps, emit_bpf_exit_ok. Qed.
End BpfExitLemmas.

#[export] Hint Resolve emit_bpf_exit_emits : keeps.
