(* ===== verification/Message.v ===== *)
(** Messages.

    Models [bpf/syscall_msg_direct_event_v2.h] and the headers it includes: the
    message headers of [sendmsg], [recvmsg], [sendmmsg] and [recvmmsg], and the
    vectors, buffers, names and control data they point to.  A call with several
    messages leaves one record for each of the first four, on entry and on exit. *)
From stdpp Require Import base list gmap numbers.
From S2P Require Import Prelude Syscalls Abi Kernel Consumer Stats Tlv Emit Decoder EventCore Payload Structs FdPath Paths Misc Captures Slots Iovec.

Abbreviation MSGHDR_USER_SIZE := 56 (only parsing).
Abbreviation MMSGHDR_USER_SIZE := 64 (only parsing).
Abbreviation MMSGHDR_DIRECT_SLOT_MAX := 4 (only parsing).
Abbreviation MMSGHDR_DIRECT_BYTES_MAX := (MMSGHDR_DIRECT_SLOT_MAX * MMSGHDR_USER_SIZE) (only parsing).
Abbreviation MMSGHDR_SECOND_IOV_ARG := 151 (only parsing).
Abbreviation MMSGHDR_THIRD_IOV_ARG := 181 (only parsing).
Abbreviation MMSGHDR_FOURTH_IOV_ARG := 211 (only parsing).
Abbreviation MSGHDR_NAMELEN_OFFSET := 8 (only parsing).
Abbreviation MSGHDR_IOV_OFFSET := 16 (only parsing).
Abbreviation MSGHDR_IOVLEN_OFFSET := 24 (only parsing).
Abbreviation MSGHDR_CONTROL_OFFSET := 32 (only parsing).
Abbreviation MSGHDR_CONTROLLEN_OFFSET := 40 (only parsing).
Abbreviation MSG_DIRECT_SOCKADDR_MAX := 128 (only parsing).
Abbreviation MSG_DIRECT_TIMESPEC_SIZE := 16 (only parsing).
Abbreviation MSG_DIRECT_CMSG_MAX := 256 (only parsing).
Abbreviation MSG_DIRECT_CMSG_TLV_MAX := (PAYLOAD_TLV_HEADER_SIZE + MSG_DIRECT_CMSG_MAX) (only parsing).
Abbreviation MSG_DIRECT_TIMESPEC_MAX := (PAYLOAD_TLV_HEADER_SIZE + MSG_DIRECT_TIMESPEC_SIZE) (only parsing).
Abbreviation MSG_DIRECT_MSGHDR_MAX := (PAYLOAD_TLV_HEADER_SIZE + MSGHDR_USER_SIZE) (only parsing).
Abbreviation MSG_DIRECT_MMSGHDR_MAX := (PAYLOAD_TLV_HEADER_SIZE + MMSGHDR_DIRECT_BYTES_MAX) (only parsing).
Abbreviation MSG_DIRECT_MMSG_ENTER_MAX := (MSG_DIRECT_MMSGHDR_MAX + MSG_DIRECT_TIMESPEC_MAX) (only parsing).
Abbreviation MSG_DIRECT_ENTER_MAX := MSG_DIRECT_MMSG_ENTER_MAX (only parsing).
Abbreviation MSG_DIRECT_SINGLE_ENTER_MAX :=
  (MSG_DIRECT_MSGHDR_MAX + (PAYLOAD_TLV_HEADER_SIZE + IOVEC_DIRECT_BYTES_MAX) + MSG_DIRECT_CMSG_TLV_MAX) (only parsing).
Abbreviation MSG_DIRECT_SENDMSG_BASE_ENTER_MAX := IOVEC_BASE_PAYLOAD_CAPACITY (only parsing).
Abbreviation MSG_DIRECT_MMSG_BASE_ENTER_MAX := (PAYLOAD_TLV_HEADER_SIZE + IOVEC_DIRECT_BYTES_MAX) (only parsing).
Abbreviation MSG_DIRECT_MMSG_BYTES_ENTER_MAX := IOVEC_BASE_PAYLOAD_CAPACITY (only parsing).
Abbreviation MSG_DIRECT_RECVMSG_EXIT_MAX := (MSG_DIRECT_MSGHDR_MAX + IOVEC_BASE_EXIT_PAYLOAD_CAPACITY) (only parsing).
Abbreviation MSG_DIRECT_MMSG_EXIT_MAX := (MSG_DIRECT_MMSGHDR_MAX + MSG_DIRECT_TIMESPEC_MAX) (only parsing).
Abbreviation MSG_DIRECT_RECVMMSG_BASE_EXIT_MAX := IOVEC_BASE_EXIT_PAYLOAD_CAPACITY (only parsing).
Abbreviation MSG_DIRECT_RECVMSG_NAME_EXIT_MAX := (PAYLOAD_TLV_HEADER_SIZE + MSG_DIRECT_SOCKADDR_MAX) (only parsing).
Abbreviation MSG_DIRECT_RECVMSG_CONTROL_EXIT_MAX := MSG_DIRECT_CMSG_TLV_MAX (only parsing).

Section Message.
Context {K : Kernel} {A : Arch}.

Definition is_msg_direct_syscall (sys_id : Z) : bool :=
  one_of sys_id [SYS_SENDMSG; SYS_RECVMSG; SYS_SENDMMSG; SYS_RECVMMSG].
Definition is_single_msg_direct_syscall (sys_id : Z) : bool := one_of sys_id [SYS_SENDMSG; SYS_RECVMSG].
Definition is_mmsg_direct_syscall (sys_id : Z) : bool := one_of sys_id [SYS_SENDMMSG; SYS_RECVMMSG].

Definition mmsg_iovec_arg_index_for_slot (slot : Z) : Z :=
  if slot =? 1 then MMSGHDR_SECOND_IOV_ARG
  else if slot =? 2 then MMSGHDR_THIRD_IOV_ARG
  else if slot =? 3 then MMSGHDR_FOURTH_IOV_ARG
  else 1.

(** ** Members of the header *)

(** A pointer and a length of [n] bytes; [None] when one of them cannot be read. *)
Definition msg_direct_read_pair (ptr_offset n len_offset msg_ptr : Z) : prog (option (Z * Z)) :=
  if msg_ptr =? 0 then ret None
  else read_user_pair 8 (u64 (msg_ptr + ptr_offset)) n (u64 (msg_ptr + len_offset)).
Definition msg_direct_read_iov : Z -> prog (option (Z * Z)) :=
  msg_direct_read_pair MSGHDR_IOV_OFFSET 8 MSGHDR_IOVLEN_OFFSET.
Definition msg_direct_read_name : Z -> prog (option (Z * Z)) :=
  msg_direct_read_pair 0 4 MSGHDR_NAMELEN_OFFSET.
Definition msg_direct_read_control : Z -> prog (option (Z * Z)) :=
  msg_direct_read_pair MSGHDR_CONTROL_OFFSET 8 MSGHDR_CONTROLLEN_OFFSET.

(** The length of the name is kept for the exit of [recvmsg]. *)
Definition save_pending_msg_syscall_args (tid pid sys_id : Z) (ctx : trace_event_raw_sys_enter)
    (enter_time stack_id : Z) : prog unit :=
  let args := args_u64 (enter_args ctx) in
  let* aux0 :=
    if one_of sys_id [SYS_RECVMSG] then
      let* name := msg_direct_read_name (arg1 args) in
      ret (match name with Some (_, len) => len | None => 0 end)
    else ret 0 in
  let* saved := save_pending_syscall_value (PendingSyscall enter_time 0 args pid sys_id tid stack_id) in
  if saved && one_of sys_id [SYS_RECVMSG] then save_pending_syscall_aux tid aux0 else ret tt.

(** ** One message *)

Definition capture_msghdr_tlv_direct (tlv_flags msg_ptr : Z) : dynptr -> Z -> prog Z :=
  capture_struct_section MSGHDR_USER_SIZE MSGHDR_USER_SIZE MSGHDR_USER_SIZE 1 tlv_flags msg_ptr.

Definition capture_msg_control_tlv_direct (tlv_flags msg_ptr : Z) : Z -> dynptr -> Z -> prog (Z * Z) :=
  capture_found (msg_direct_read_control msg_ptr) (fun '(control, len) =>
    if (control =? 0) || (len =? 0) then no_capture
    else capture_buffer PAYLOAD_TLV_KIND_CMSG MSG_DIRECT_CMSG_MAX 1 tlv_flags control len).

(** The copy of a name of [user_len] bytes, the note and the header. *)
Definition capture_name (user_ptr user_len copied_len event_flags : Z) (ptr : dynptr) (payload_offset : Z)
    : prog (Z * Z) :=
  let* (copied_len, probe_ret) :=
    copy_user_struct ptr (payload_offset + PAYLOAD_TLV_HEADER_SIZE) MSG_DIRECT_SOCKADDR_MAX copied_len copied_len
      user_ptr in
  let* event_flags := note_truncation copied_len probe_ret user_len event_flags in
  let* size := finish_section ptr payload_offset
    (TlvHeader PAYLOAD_TLV_KIND_SOCKADDR 1 PAYLOAD_TLV_FLAG_DIRECTION_OUT user_len copied_len probe_ret user_ptr) in
  ret (size, event_flags).

Definition capture_msg_name_tlv_direct (msg_ptr copy_limit : Z) : Z -> dynptr -> Z -> prog (Z * Z) :=
  capture_found (msg_direct_read_name msg_ptr) (fun '(name, len) =>
    if (name =? 0) || (len =? 0) then no_capture
    else
      let copied_len := if (0 <? copy_limit) && (copy_limit <? len) then copy_limit else len in
      let copied_len := if MSG_DIRECT_SOCKADDR_MAX <? copied_len then MSG_DIRECT_SOCKADDR_MAX else copied_len in
      capture_name name len copied_len).

(** The header, its vector and its control data. *)
Definition capture_single_msg_enter_payloads_tlv_direct (args : args6) : Z -> dynptr -> Z -> prog (Z * Z) :=
  let msg_ptr := arg1 args in
  flags_both (same_flags (capture_msghdr_tlv_direct 0 msg_ptr))
    (capture_found (msg_direct_read_iov msg_ptr) (fun '(iov, count) =>
       flags_both (capture_iovec_tlv_direct 1 iov count) (capture_msg_control_tlv_direct 0 msg_ptr))).

(** The buffers of its vector. *)
Definition capture_sendmsg_base_enter_payloads_tlv_direct (args : args6) : Z -> dynptr -> Z -> prog (Z * Z) :=
  capture_found (msg_direct_read_iov (arg1 args)) (fun '(iov, count) =>
    capture_iovec_base_payloads_tlv_direct iov count).

Definition capture_single_msg_exit_payloads_tlv_direct (p : pending_syscall) : Z -> dynptr -> Z -> prog (Z * Z) :=
  let msg_ptr := arg1 (p_args p) in
  flags_both (same_flags (capture_msghdr_tlv_direct PAYLOAD_TLV_FLAG_DIRECTION_OUT msg_ptr))
    (capture_found (msg_direct_read_iov msg_ptr) (fun '(iov, count) =>
       capture_iovec_base_exit_payloads_tlv_direct iov count)).

(** ** Several messages *)

(** The headers: the first four; the event is flagged before they are copied. *)
Definition capture_mmsghdr_tlv_direct (tlv_flags msg_ptr count event_flags : Z) (ptr : dynptr) (payload_offset : Z)
    : prog (Z * Z) :=
  if (msg_ptr =? 0) || (count =? 0) then ret (0, event_flags)
  else
    let copied_len :=
      if count =? 1 then MMSGHDR_USER_SIZE
      else if count =? 2 then 2 * MMSGHDR_USER_SIZE
      else if count =? 3 then 3 * MMSGHDR_USER_SIZE
      else MMSGHDR_DIRECT_BYTES_MAX in
    let* (user_len, event_flags) :=
      if MMSGHDR_DIRECT_SLOT_MAX <? count then
        record_payload_truncated_event ;;;
        ret ((MMSGHDR_DIRECT_SLOT_MAX + 1) * MMSGHDR_USER_SIZE, Z.lor event_flags EVENT_FLAG_TRUNCATED)
      else ret (copied_len, event_flags) in
    let* (copied_len, probe_ret) :=
      copy_user_struct ptr (payload_offset + PAYLOAD_TLV_HEADER_SIZE) MMSGHDR_DIRECT_BYTES_MAX copied_len copied_len
        msg_ptr in
    let* size := finish_section ptr payload_offset
      (TlvHeader PAYLOAD_TLV_KIND_STRUCT 1 tlv_flags user_len copied_len probe_ret msg_ptr) in
    ret (size, event_flags).

Definition capture_mmsg_timespec_tlv_direct (tlv_flags timeout_ptr : Z) : dynptr -> Z -> prog Z :=
  capture_struct_section MSG_DIRECT_TIMESPEC_SIZE MSG_DIRECT_TIMESPEC_SIZE MSG_DIRECT_TIMESPEC_SIZE 4 tlv_flags
    timeout_ptr.

Definition capture_mmsg_enter_payloads_tlv_direct (sys_id : Z) (args : args6) : Z -> dynptr -> Z -> prog (Z * Z) :=
  if arg2 args =? 0 then no_capture
  else flags_both (capture_mmsghdr_tlv_direct 0 (arg1 args) (arg2 args))
         (same_flags (capture_if (one_of sys_id [SYS_RECVMMSG]) (capture_mmsg_timespec_tlv_direct 0 (arg4 args)))).

Definition capture_mmsg_exit_payloads_tlv_direct (p : pending_syscall) (ret_value : Z)
    : Z -> dynptr -> Z -> prog (Z * Z) :=
  let args := p_args p in
  let count := u64 (arg2 args) in
  if count =? 0 then no_capture
  else flags_both (capture_mmsghdr_tlv_direct PAYLOAD_TLV_FLAG_DIRECTION_OUT (arg1 args) count)
         (same_flags (capture_if (one_of (p_sys_id p) [SYS_RECVMMSG] && (0 <? ret_value))
            (capture_mmsg_timespec_tlv_direct PAYLOAD_TLV_FLAG_DIRECTION_OUT (arg4 args)))).

(** What the vector of message [slot] holds, captured by [capture]. *)
Definition capture_mmsg_slot (capture : Z -> Z -> Z -> Z -> dynptr -> Z -> prog (Z * Z)) (slot : Z) (args : args6)
    : Z -> dynptr -> Z -> prog (Z * Z) :=
  if arg2 args <=? slot then no_capture
  else capture_found (msg_direct_read_iov (u64 (arg1 args + slot * MMSGHDR_USER_SIZE))) (fun '(iov, count) =>
         capture (mmsg_iovec_arg_index_for_slot slot) iov count).

Definition capture_mmsg_base_slot_enter_payloads_tlv_direct : Z -> args6 -> Z -> dynptr -> Z -> prog (Z * Z) :=
  capture_mmsg_slot capture_iovec_tlv_direct.
Definition capture_mmsg_bytes_base_slot_enter_payloads_tlv_direct : Z -> args6 -> Z -> dynptr -> Z -> prog (Z * Z) :=
  capture_mmsg_slot capture_iovec_base_payloads_tlv_direct_for_arg.
Definition capture_recvmmsg_base_slot_exit_payloads_tlv_direct (slot : Z) (p : pending_syscall)
    : Z -> dynptr -> Z -> prog (Z * Z) :=
  capture_mmsg_slot capture_iovec_base_exit_payloads_tlv_direct_for_arg slot (p_args p).

Definition capture_mmsg_base0_enter_payloads_tlv_direct :=
  capture_mmsg_base_slot_enter_payloads_tlv_direct 0.
Definition capture_mmsg_base1_enter_payloads_tlv_direct :=
  capture_mmsg_base_slot_enter_payloads_tlv_direct 1.
Definition capture_mmsg_base2_enter_payloads_tlv_direct :=
  capture_mmsg_base_slot_enter_payloads_tlv_direct 2.
Definition capture_mmsg_base3_enter_payloads_tlv_direct :=
  capture_mmsg_base_slot_enter_payloads_tlv_direct 3.
Definition capture_mmsg_bytes_base0_enter_payloads_tlv_direct :=
  capture_mmsg_bytes_base_slot_enter_payloads_tlv_direct 0.
Definition capture_mmsg_bytes_base1_enter_payloads_tlv_direct :=
  capture_mmsg_bytes_base_slot_enter_payloads_tlv_direct 1.
Definition capture_mmsg_bytes_base2_enter_payloads_tlv_direct :=
  capture_mmsg_bytes_base_slot_enter_payloads_tlv_direct 2.
Definition capture_mmsg_bytes_base3_enter_payloads_tlv_direct :=
  capture_mmsg_bytes_base_slot_enter_payloads_tlv_direct 3.
Definition capture_recvmmsg_base0_exit_payloads_tlv_direct :=
  capture_recvmmsg_base_slot_exit_payloads_tlv_direct 0.
Definition capture_recvmmsg_base1_exit_payloads_tlv_direct :=
  capture_recvmmsg_base_slot_exit_payloads_tlv_direct 1.
Definition capture_recvmmsg_base2_exit_payloads_tlv_direct :=
  capture_recvmmsg_base_slot_exit_payloads_tlv_direct 2.
Definition capture_recvmmsg_base3_exit_payloads_tlv_direct :=
  capture_recvmmsg_base_slot_exit_payloads_tlv_direct 3.

(** ** Records *)

Definition emit_msg_enter_event_v2_direct (pid tid sys_id : Z) (ctx : trace_event_raw_sys_enter) (ts_ns : Z)
    : prog unit :=
  enter_flags_emit MSG_DIRECT_SINGLE_ENTER_MAX pid tid sys_id ctx ts_ns (-1)
    (capture_single_msg_enter_payloads_tlv_direct (args_u64 (enter_args ctx))).

Definition emit_sendmsg_base_enter_event_v2_direct (pid tid sys_id : Z) (ctx : trace_event_raw_sys_enter)
    (ts_ns : Z) : prog unit :=
  enter_flags_emit MSG_DIRECT_SENDMSG_BASE_ENTER_MAX pid tid sys_id ctx ts_ns (-1)
    (capture_sendmsg_base_enter_payloads_tlv_direct (args_u64 (enter_args ctx))).

Definition emit_mmsg_enter_event_v2_direct (pid tid sys_id : Z) (ctx : trace_event_raw_sys_enter) (ts_ns : Z)
    : prog unit :=
  enter_flags_emit MSG_DIRECT_ENTER_MAX pid tid sys_id ctx ts_ns (-1)
    (capture_mmsg_enter_payloads_tlv_direct (u32 (enter_id ctx)) (args_u64 (enter_args ctx))).

(** The vector of one message of several. *)
Definition emit_mmsg_base_enter (capture : args6 -> Z -> dynptr -> Z -> prog (Z * Z)) (pid tid sys_id : Z) (ctx : trace_event_raw_sys_enter) (ts_ns : Z)
    : prog unit :=
  enter_flags_emit MSG_DIRECT_MMSG_BASE_ENTER_MAX pid tid sys_id ctx ts_ns (-1)
    (capture (args_u64 (enter_args ctx))).
Definition emit_mmsg_base0_enter_event_v2_direct :=
  emit_mmsg_base_enter capture_mmsg_base0_enter_payloads_tlv_direct.
Definition emit_mmsg_base1_enter_event_v2_direct :=
  emit_mmsg_base_enter capture_mmsg_base1_enter_payloads_tlv_direct.
Definition emit_mmsg_base2_enter_event_v2_direct :=
  emit_mmsg_base_enter capture_mmsg_base2_enter_payloads_tlv_direct.
Definition emit_mmsg_base3_enter_event_v2_direct :=
  emit_mmsg_base_enter capture_mmsg_base3_enter_payloads_tlv_direct.

(** The buffers of one message of several. *)
Definition emit_mmsg_bytes_base_enter (capture : args6 -> Z -> dynptr -> Z -> prog (Z * Z)) (pid tid sys_id : Z) (ctx : trace_event_raw_sys_enter) (ts_ns : Z)
    : prog unit :=
  enter_flags_emit MSG_DIRECT_MMSG_BYTES_ENTER_MAX pid tid sys_id ctx ts_ns (-1)
    (capture (args_u64 (enter_args ctx))).
Definition emit_mmsg_bytes_base0_enter_event_v2_direct :=
  emit_mmsg_bytes_base_enter capture_mmsg_bytes_base0_enter_payloads_tlv_direct.
Definition emit_mmsg_bytes_base1_enter_event_v2_direct :=
  emit_mmsg_bytes_base_enter capture_mmsg_bytes_base1_enter_payloads_tlv_direct.
Definition emit_mmsg_bytes_base2_enter_event_v2_direct :=
  emit_mmsg_bytes_base_enter capture_mmsg_bytes_base2_enter_payloads_tlv_direct.
Definition emit_mmsg_bytes_base3_enter_event_v2_direct :=
  emit_mmsg_bytes_base_enter capture_mmsg_bytes_base3_enter_payloads_tlv_direct.

(** A record that precedes the exit. *)
Definition exit_fragment_emit (cap : Z) (p : pending_syscall) (ret_value duration : Z)
    (capture : Z -> dynptr -> Z -> prog (Z * Z)) : prog unit :=
  exit_flags_emit cap p ret_value duration (capture EVENT_FLAG_EXIT_FRAGMENT).

Definition emit_recvmsg_control_exit_fragment_event_v2_direct (p : pending_syscall) (ret_value duration : Z)
    : prog unit :=
  if negb (one_of (p_sys_id p) [SYS_RECVMSG]) || (ret_value <? 0) then ret tt
  else exit_fragment_emit MSG_DIRECT_RECVMSG_CONTROL_EXIT_MAX p ret_value duration
         (capture_msg_control_tlv_direct PAYLOAD_TLV_FLAG_DIRECTION_OUT (arg1 (p_args p))).

Definition emit_recvmsg_name_exit_fragment_event_v2_direct (p : pending_syscall) (ret_value duration : Z)
    : prog unit :=
  if negb (one_of (p_sys_id p) [SYS_RECVMSG]) || (ret_value <=? 0) then ret tt
  else exit_fragment_emit MSG_DIRECT_RECVMSG_NAME_EXIT_MAX p ret_value duration
         (fun event_flags ptr payload_offset =>
            let* aux0 := lookup_pending_syscall_aux0 (p_tid p) in
            capture_msg_name_tlv_direct (arg1 (p_args p)) (u32 aux0) event_flags ptr payload_offset).

Definition emit_single_msg_exit_event_v2_direct (p : pending_syscall) (ret_value duration : Z) : prog unit :=
  if negb (one_of (p_sys_id p) [SYS_RECVMSG]) || (ret_value <=? 0) then
    emit_syscall_exit_event_v2_direct p ret_value duration 0
  else exit_flags_emit MSG_DIRECT_RECVMSG_EXIT_MAX p ret_value duration
         (capture_single_msg_exit_payloads_tlv_direct p 0).

Definition emit_mmsg_exit_event_v2_direct (p : pending_syscall) (ret_value duration : Z) : prog unit :=
  if ret_value <=? 0 then emit_syscall_exit_event_v2_direct p ret_value duration 0
  else exit_flags_emit MSG_DIRECT_MMSG_EXIT_MAX p ret_value duration
         (capture_mmsg_exit_payloads_tlv_direct p ret_value 0).

(** The buffers of one message received. *)
Definition emit_recvmmsg_base_exit_fragment (capture : pending_syscall -> Z -> dynptr -> Z -> prog (Z * Z))
    (p : pending_syscall) (ret_value duration : Z) : prog unit :=
  if ret_value <=? 0 then ret tt
  else exit_fragment_emit MSG_DIRECT_RECVMMSG_BASE_EXIT_MAX p ret_value duration
         (capture p).
Definition emit_recvmmsg_base0_exit_fragment_event_v2_direct :=
  emit_recvmmsg_base_exit_fragment capture_recvmmsg_base0_exit_payloads_tlv_direct.
Definition emit_recvmmsg_base1_exit_fragment_event_v2_direct :=
  emit_recvmmsg_base_exit_fragment capture_recvmmsg_base1_exit_payloads_tlv_direct.
Definition emit_recvmmsg_base2_exit_fragment_event_v2_direct :=
  emit_recvmmsg_base_exit_fragment capture_recvmmsg_base2_exit_payloads_tlv_direct.
Definition emit_recvmmsg_base3_exit_fragment_event_v2_direct :=
  emit_recvmmsg_base_exit_fragment capture_recvmmsg_base3_exit_payloads_tlv_direct.

End Message.

(** ** Contracts *)

Section MessageLemmas.
Context {K : Kernel} {A : Arch}.

(** A pointer and a length of a message header, as they were read. *)
Definition msg_pair (ptr_offset n len_offset msg_ptr : Z) : Z * Z -> Prop := fun '(p, len) =>
  member_read 8 (u64 (msg_ptr + ptr_offset)) p /\ member_read n (u64 (msg_ptr + len_offset)) len.

Lemma msg_pair_reader off n len_off msg_ptr :
  0 <= n -> reader (msg_pair off n len_off msg_ptr) (msg_direct_read_pair off n len_off msg_ptr).
Proof.
  intros Hn. unfold msg_direct_read_pair. destruct (msg_ptr =? 0); [apply reader_none|].
  split; [apply read_user_pair_quiet|]. intros w. eapply wp_mono; [by apply read_user_pair_result|].
  intros r w' Hr [p len] ->. exact Hr.
Qed.

(** *** Sections of one message *)

Definition msghdr_sections (dir : PayloadDirection) (msg_ptr : Z) : list PayloadSection -> Prop :=
  time_section dir 1 msg_ptr 56.
Lemma capture_msghdr_ok tlv_flags msg_ptr :
  In tlv_flags [0; PAYLOAD_TLV_FLAG_DIRECTION_OUT] ->
  flags_capture (unflagged (msghdr_sections (payloadDirectionFromTLV tlv_flags) msg_ptr)) (32 + 56)
    (same_flags (capture_msghdr_tlv_direct tlv_flags msg_ptr)).
Proof. intros Ht. by apply same_flags_ok, tlv_capture_healthy, (capture_struct_section_ok 56 56 56 1 tlv_flags). Qed.

(** The control data: the first 256 bytes. *)
Definition control_sections (dir : PayloadDirection) (msg_ptr : Z) : Z -> Z -> list PayloadSection -> Prop :=
  found_sections (msg_pair 32 8 40 msg_ptr) (fun '(control, len) =>
    if (control =? 0) || (len =? 0) then unflagged (fun secs => secs = [])
    else fun base fl => one_section (buffer_section PayloadKindCmsg dir 256 1 control len base fl)).
Lemma capture_control_ok tlv_flags msg_ptr :
  In tlv_flags [0; PAYLOAD_TLV_FLAG_DIRECTION_OUT] ->
  flags_capture (control_sections (payloadDirectionFromTLV tlv_flags) msg_ptr) (32 + 256)
    (capture_msg_control_tlv_direct tlv_flags msg_ptr).
Proof.
  intros Ht. apply capture_found_ok; [apply msg_pair_reader; lia | lia |]. intros [control len] [_ Hl].
  apply member_read_bound in Hl; [|lia]. destruct (_ || _); [apply no_capture_ok; lia|].
  apply flags_capture_of. intros base. apply capture_buffer_ok; done || lia.
Qed.

(** The name: at most [limit] bytes when there is a limit, and at most 128. *)
Definition name_len (limit len : Z) : Z := Z.min (if 0 <? limit then Z.min limit len else len) 128.
Definition name_data (limit name len base fl ulen : Z) (data : list Z) (e : Z) : Prop :=
  ulen = len /\ copied name (name_len limit len) data e /\
  fl = if (e =? 0) && (name_len limit len <? len) then Z.lor base EVENT_FLAG_TRUNCATED else base.
Definition name_sections (msg_ptr limit : Z) : Z -> Z -> list PayloadSection -> Prop :=
  found_sections (msg_pair 0 4 8 msg_ptr) (fun '(name, len) =>
    if (name =? 0) || (len =? 0) then unflagged (fun secs => secs = [])
    else fun base fl => one_section (section_with PayloadKindSockaddr PayloadDirectionOut 1 name
      (name_data limit name len base fl))).

Lemma capture_name_ok limit name len :
  0 <= limit -> 0 < len < 2 ^ 32 ->
  flags_capture (fun base fl => one_section (section_with PayloadKindSockaddr PayloadDirectionOut 1 name
    (name_data limit name len base fl))) (32 + 128) (capture_name name len (name_len limit len)).
Proof.
  intros Hlim Hl. apply flags_capture_of. intros base w d buf off Hb Ho Hs. unfold capture_name. wp_step.
  assert (0 < name_len limit len <= 128) as Hn by (unfold name_len; destruct (Z.ltb_spec 0 limit); lia).
  set (c := name_len limit len) in *.
  assert (forall w1 b n e, capturing d off (zlen buf) w w1 b -> (n = c /\ e = 0 \/ n = 0 /\ e < 0) ->
    copied name c (slice b (off + 32) n) e ->
    wp (let* event_flags := note_truncation n e len base in
        let* size := finish_section (Some d) off
          (TlvHeader PAYLOAD_TLV_KIND_SOCKADDR 1 PAYLOAD_TLV_FLAG_DIRECTION_OUT len n e name) in
        ret (size, event_flags)) (fun '(m, fl) w' =>
      0 <= m <= 32 + 128 /\ flags_from base fl /\ captures d off w w' /\
      (True -> decodable (one_section (section_with PayloadKindSockaddr PayloadDirectionOut 1 name
         (name_data limit name len base fl))) d off m w')) w1) as Fin.
  { intros w1 b n e C1 Hne HD. eapply (wp_finish_flags (name_data limit name len base)) with (cap := 32 + 128);
      [exact C1|..]; try done; try lia.
    split; [done|]. split; [exact HD|]. fold c. destruct Hne as [[-> ->]|[-> He]].
    - cbn [Z.eqb andb]. by destruct (Z.ltb_spec 0 c); [|lia].
    - by destruct (Z.eqb_spec e 0); [lia|]. }
  eapply wp_copy_user_struct; [by apply capturing_start | lia | lia | lia | |]; intros w1 b; cbv beta iota.
  - intros k C1 Hk. eapply Fin; [exact C1 | by left |]. left. split; [done|]. by exists k.
  - intros e C1 He. eapply Fin; [exact C1 | right; split; [done|]; by destruct He |]. rewrite slice_0. by right.
Qed.

Lemma name_len_eq limit len :
  (let copied_len := if (0 <? limit) && (limit <? len) then limit else len in
   if 128 <? copied_len then 128 else copied_len) = name_len limit len.
Proof.
  cbv zeta. unfold name_len. destruct (Z.ltb_spec 0 limit), (Z.ltb_spec limit len); cbn [andb];
    match goal with |- context [128 <? ?x] => destruct (Z.ltb_spec 128 x) end; lia.
Qed.

Lemma capture_msg_name_ok msg_ptr limit :
  0 <= limit -> flags_capture (name_sections msg_ptr limit) (32 + 128) (capture_msg_name_tlv_direct msg_ptr limit).
Proof.
  intros Hlim. apply capture_found_ok; [apply msg_pair_reader; lia | lia |]. intros [name len] [_ Hl].
  apply member_read_bound in Hl; [|lia]. destruct (_ || _) eqn:E; [apply no_capture_ok; lia|].
  apply orb_false_iff in E as [_ E]. apply Z.eqb_neq in E.
  pose proof (name_len_eq limit len) as Q. cbv zeta in *. rewrite Q. apply capture_name_ok; lia.
Qed.

(** What the vector of the header at [msg_ptr] leaves. *)
Definition vector_sections (P : Z -> Z -> Z -> Z -> list PayloadSection -> Prop) (msg_ptr : Z)
    : Z -> Z -> list PayloadSection -> Prop :=
  found_sections (msg_pair 16 8 24 msg_ptr) (fun '(iov, count) => P iov count).
Lemma capture_vector_ok P cap msg_ptr capture :
  0 <= cap -> (forall iov count, 0 <= count -> flags_capture (P iov count) cap (capture iov count)) ->
  flags_capture (vector_sections P msg_ptr) cap
    (capture_found (msg_direct_read_iov msg_ptr) (fun '(iov, count) => capture iov count)).
Proof.
  intros Hc Hf. apply capture_found_ok; [apply msg_pair_reader; lia | done |]. intros [iov count] [_ Hl].
  apply member_read_bound in Hl; [|lia]. apply Hf. lia.
Qed.

(** The header, the vector and the control data. *)
Definition msg_enter_sections (msg_ptr : Z) : Z -> Z -> list PayloadSection -> Prop :=
  flags_appended (unflagged (msghdr_sections PayloadDirectionIn msg_ptr))
    (vector_sections (fun iov count =>
       flags_appended (iovec_sections 1 iov count) (control_sections PayloadDirectionIn msg_ptr)) msg_ptr).
Lemma capture_msg_enter_ok args :
  flags_capture (msg_enter_sections (arg1 args)) MSG_DIRECT_SINGLE_ENTER_MAX
    (capture_single_msg_enter_payloads_tlv_direct args).
Proof.
  eapply flags_capture_cap.
  - apply flags_both_ok with (cap2 := 32 + 256 + (32 + 256)); [apply (capture_msghdr_ok 0); by left | | lia].
    apply capture_vector_ok; [lia|]. intros iov count Hc.
    apply flags_both_ok; [by apply capture_iovec_ok | apply (capture_control_ok 0); by left | lia].
  - lia.
Qed.

Definition msg_exit_sections (msg_ptr : Z) : Z -> Z -> list PayloadSection -> Prop :=
  flags_appended (unflagged (msghdr_sections PayloadDirectionOut msg_ptr))
    (vector_sections (iovec_buffers PayloadDirectionOut 5 8 1) msg_ptr).
Lemma capture_msg_exit_ok p :
  flags_capture (msg_exit_sections (arg1 (p_args p))) MSG_DIRECT_RECVMSG_EXIT_MAX
    (capture_single_msg_exit_payloads_tlv_direct p).
Proof.
  eapply flags_capture_cap.
  - apply flags_both_ok with (cap2 := 5 * (32 + 8));
      [apply (capture_msghdr_ok PAYLOAD_TLV_FLAG_DIRECTION_OUT); right; by left | | lia].
    apply capture_vector_ok; [lia|]. intros. unfold capture_iovec_base_exit_payloads_tlv_direct.
    apply capture_iovec_base_exit_payloads_ok.
  - lia.
Qed.

(** *** Sections of several messages *)

(** The headers: the length stated is that of at most five, the data that of at most four. *)
Definition mmsghdr_data (msg_ptr count base fl ulen : Z) (data : list Z) (e : Z) : Prop :=
  ulen = Z.min count 5 * 64 /\ copied msg_ptr (Z.min count 4 * 64) data e /\
  fl = if 4 <? count then Z.lor base EVENT_FLAG_TRUNCATED else base.
Definition mmsghdr_sections (dir : PayloadDirection) (msg_ptr count base fl : Z) : list PayloadSection -> Prop :=
  if (msg_ptr =? 0) || (count =? 0) then unflagged (fun secs => secs = []) base fl
  else one_section (section_with PayloadKindStruct dir 1 msg_ptr (mmsghdr_data msg_ptr count base fl)).

Lemma mmsghdr_len count :
  0 <= count -> count <> 0 ->
  (if count =? 1 then 64 else if count =? 2 then 2 * 64 else if count =? 3 then 3 * 64 else 4 * 64) =
  Z.min count 4 * 64.
Proof. intros H0 Hn. destruct (Z.eqb_spec count 1), (Z.eqb_spec count 2), (Z.eqb_spec count 3); lia. Qed.

Lemma capture_mmsghdr_ok tlv_flags msg_ptr count :
  In tlv_flags [0; PAYLOAD_TLV_FLAG_DIRECTION_OUT] -> 0 <= count ->
  flags_capture (mmsghdr_sections (payloadDirectionFromTLV tlv_flags) msg_ptr count) (32 + 256)
    (capture_mmsghdr_tlv_direct tlv_flags msg_ptr count).
Proof.
  intros Ht H0. apply flags_capture_of. intros base w d buf off Hb Ho Hs.
  unfold capture_mmsghdr_tlv_direct, mmsghdr_sections. pose proof (capturing_start d off w buf Hb) as C0.
  destruct ((msg_ptr =? 0) || (count =? 0)) eqn:E.
  { wp_step. split_and!; [lia | lia | by left | reflexivity |]. intros _. by eapply decodable_0. }
  apply orb_false_iff in E as [_ E]. apply Z.eqb_neq in E. pose proof (mmsghdr_len count H0 E) as L.
  rewrite L. clear L.
  set (fl := if 4 <? count then Z.lor base EVENT_FLAG_TRUNCATED else base).
  assert (payloadDirectionFromTLV (u16 tlv_flags) = payloadDirectionFromTLV tlv_flags) as Hd
    by (cbn in Ht; by destruct Ht as [<-|[<-|[]]]).
  assert (forall w1, capturing d off (zlen buf) w w1 buf ->
    wp (let* (copied_len, probe_ret) := copy_user_struct (Some d) (off + 32) 256 (Z.min count 4 * 64)
          (Z.min count 4 * 64) msg_ptr in
        let* size := finish_section (Some d) off
          (TlvHeader PAYLOAD_TLV_KIND_STRUCT 1 tlv_flags (Z.min count 5 * 64) copied_len probe_ret msg_ptr) in
        ret (size, fl)) (fun '(n, fl) w' =>
      0 <= n <= 32 + 256 /\ flags_from base fl /\ captures d off w w' /\
      (True -> decodable (one_section (section_with PayloadKindStruct (payloadDirectionFromTLV tlv_flags) 1 msg_ptr
         (mmsghdr_data msg_ptr count base fl))) d off n w')) w1) as Copy.
  { intros w1 C1. pose proof (cg_size _ _ _ _ _ _ C1) as Z1. wp_step.
    assert (forall w2 b n e, capturing d off (zlen buf) w w2 b -> 0 <= n <= 256 ->
      copied msg_ptr (Z.min count 4 * 64) (slice b (off + 32) n) e ->
      wp (let* size := finish_section (Some d) off
            (TlvHeader PAYLOAD_TLV_KIND_STRUCT 1 tlv_flags (Z.min count 5 * 64) n e msg_ptr) in ret (size, fl))
        (fun '(n, fl) w' => 0 <= n <= 32 + 256 /\ flags_from base fl /\ captures d off w w' /\
          (True -> decodable (one_section (section_with PayloadKindStruct (payloadDirectionFromTLV tlv_flags) 1 msg_ptr
             (mmsghdr_data msg_ptr count base fl))) d off n w')) w2) as Fin.
    { intros w2 b n e C2 Hn HD. wp_step. eapply wp_mono.
      - eapply (wp_finish_with (mmsghdr_data msg_ptr count base fl)) with (cap := 32 + 256); [exact C2|..]; done || lia.
      - intros m w3 (? & ? & D). wp_step. split_and!; [lia | lia | | done | done].
        subst fl. unfold flags_from. destruct (4 <? count); auto. }
    eapply wp_copy_user_struct; [exact C1 | lia | lia | lia | |]; intros w2 b; cbv beta iota.
    - intros k C2 Hk. eapply Fin; [exact C2 | lia |]. left. split; [done|]. by exists k.
    - intros e C2 He. eapply Fin; [exact C2 | lia |]. rewrite slice_0. by right. }
  cbv zeta. wp_step. subst fl. destruct (Z.ltb_spec 4 count).
  - wp_step. eapply wp_quiet; [exact C0 | eauto with keeps |]. intros _ w1 C1. wp_step.
    replace ((4 + 1) * 64) with (Z.min count 5 * 64) by lia. by apply Copy.
  - wp_step. assert (Z.min count 4 * 64 = Z.min count 5 * 64) as Q by lia. rewrite Q in Copy |- *. by apply Copy.
Qed.

(** The headers, and the timeout when [timeout]. *)
Definition mmsg_sections (dir : PayloadDirection) (args : args6) (timeout : bool) : Z -> Z -> list PayloadSection -> Prop :=
  let count := u64 (arg2 args) in
  if count =? 0 then unflagged (fun secs => secs = [])
  else flags_appended (mmsghdr_sections dir (arg1 args) count)
         (unflagged (when timeout (time_section dir 4 (arg4 args) 16))).
Lemma capture_mmsg_ok tlv_flags args timeout count :
  In tlv_flags [0; PAYLOAD_TLV_FLAG_DIRECTION_OUT] -> count = u64 (arg2 args) ->
  flags_capture (mmsg_sections (payloadDirectionFromTLV tlv_flags) args timeout) (32 + 256 + (32 + 16))
    (if count =? 0 then no_capture
     else flags_both (capture_mmsghdr_tlv_direct tlv_flags (arg1 args) count)
            (same_flags (capture_if timeout (capture_mmsg_timespec_tlv_direct tlv_flags (arg4 args))))).
Proof.
  intros Ht ->. unfold mmsg_sections. pose proof (u64_range (arg2 args)) as [H0 _].
  destruct (u64 (arg2 args) =? 0); [apply no_capture_ok; lia|].
  apply flags_both_ok; [by apply capture_mmsghdr_ok | | lia].
  apply same_flags_ok, tlv_capture_healthy, capture_if_ok; [lia|].
  by apply (capture_struct_section_ok 16 16 16 4 tlv_flags).
Qed.

(** The vector of message [slot], under the argument index of that message. *)
Definition mmsg_slot_sections (P : Z -> Z -> Z -> Z -> Z -> list PayloadSection -> Prop) (slot : Z) (args : args6)
    : Z -> Z -> list PayloadSection -> Prop :=
  if arg2 args <=? slot then unflagged (fun secs => secs = [])
  else vector_sections (P (mmsg_iovec_arg_index_for_slot slot)) (u64 (arg1 args + slot * 64)).
Lemma capture_mmsg_slot_ok P cap slot args capture :
  0 <= cap -> (forall i iov count, 0 <= count -> flags_capture (P i iov count) cap (capture i iov count)) ->
  flags_capture (mmsg_slot_sections P slot args) cap (capture_mmsg_slot capture slot args).
Proof.
  intros Hc Hf. unfold mmsg_slot_sections, capture_mmsg_slot. destruct (_ <=? _); [by apply no_capture_ok|].
  apply capture_vector_ok; [done|]. intros. by apply Hf.
Qed.

(** *** Records *)

Lemma emit_msg_enter_ok pid tid sys_id ctx ts :
  emitter (fun r => reads_flags_enter r pid tid sys_id ctx ts (-1)
      (msg_enter_sections (arg1 (args_u64 (enter_args ctx))) EVENT_FLAG_GENERIC_ENTER))
    (emit_msg_enter_event_v2_direct pid tid sys_id ctx ts).
Proof. apply enter_flags_ok; [lia | apply capture_msg_enter_ok]. Qed.

Lemma emit_sendmsg_base_enter_ok pid tid sys_id ctx ts :
  emitter (fun r => reads_flags_enter r pid tid sys_id ctx ts (-1)
      (vector_sections (iovec_buffers PayloadDirectionIn 7 7 1) (arg1 (args_u64 (enter_args ctx)))
         EVENT_FLAG_GENERIC_ENTER))
    (emit_sendmsg_base_enter_event_v2_direct pid tid sys_id ctx ts).
Proof.
  apply enter_flags_ok; [lia|]. unfold capture_sendmsg_base_enter_payloads_tlv_direct.
  apply capture_vector_ok; [lia|]. intros iov count _.
  unfold capture_iovec_base_payloads_tlv_direct. apply capture_iovec_base_payloads_ok.
Qed.

Lemma u64_arg2 a : u64 (arg2 (args_u64 a)) = arg2 (args_u64 a).
Proof. destruct a. by apply Z.mod_mod. Qed.

Lemma emit_mmsg_enter_ok pid tid sys_id ctx ts :
  emitter (fun r => reads_flags_enter r pid tid sys_id ctx ts (-1)
      (mmsg_sections PayloadDirectionIn (args_u64 (enter_args ctx)) (one_of (u32 (enter_id ctx)) [SYS_RECVMMSG])
         EVENT_FLAG_GENERIC_ENTER))
    (emit_mmsg_enter_event_v2_direct pid tid sys_id ctx ts).
Proof. apply enter_flags_ok; [lia|]. apply (capture_mmsg_ok 0); [by left | symmetry; apply u64_arg2]. Qed.

Lemma emit_mmsg_base_enter_ok slot pid tid sys_id ctx ts :
  emitter (fun r => reads_flags_enter r pid tid sys_id ctx ts (-1)
      (mmsg_slot_sections iovec_sections slot (args_u64 (enter_args ctx)) EVENT_FLAG_GENERIC_ENTER))
    (emit_mmsg_base_enter (capture_mmsg_base_slot_enter_payloads_tlv_direct slot) pid tid sys_id ctx ts).
Proof. apply enter_flags_ok; [lia|]. apply capture_mmsg_slot_ok; [lia|]. intros. by apply capture_iovec_ok. Qed.

Lemma emit_mmsg_bytes_base_enter_ok slot pid tid sys_id ctx ts :
  emitter (fun r => reads_flags_enter r pid tid sys_id ctx ts (-1)
      (mmsg_slot_sections (iovec_buffers PayloadDirectionIn 7 7) slot (args_u64 (enter_args ctx))
         EVENT_FLAG_GENERIC_ENTER))
    (emit_mmsg_bytes_base_enter (capture_mmsg_bytes_base_slot_enter_payloads_tlv_direct slot) pid tid sys_id ctx ts).
Proof.
  apply enter_flags_ok; [lia|]. apply capture_mmsg_slot_ok; [lia|]. intros. apply capture_iovec_base_payloads_ok.
Qed.

(** A record before the exit, with the flag of a fragment. *)
Definition reads_exit_fragment (r : exec_ctx) (p : pending_syscall) (rv dur : Z)
    (P : Z -> Z -> list PayloadSection -> Prop) : Z -> list Z -> Prop :=
  reads_pending_exit r p rv dur (decodes no_fault (flags_from EVENT_FLAG_EXIT_FRAGMENT) (P EVENT_FLAG_EXIT_FRAGMENT)).
Lemma exit_fragment_ok cap p rv dur P f :
  0 <= cap < 2 ^ 31 -> flags_capture P cap f ->
  emitter (fun r => reads_exit_fragment r p rv dur P) (exit_fragment_emit cap p rv dur f).
Proof. intros Hc Hf. apply pending_exit_ok; [lia|]. apply tlv_flags_payload_ok; [lia | apply Hf]. Qed.

Lemma control_fragment_ok p rv dur :
  emitter (fun r => reads_exit_fragment r p rv dur (control_sections PayloadDirectionOut (arg1 (p_args p))))
    (exit_fragment_emit MSG_DIRECT_RECVMSG_CONTROL_EXIT_MAX p rv dur
       (capture_msg_control_tlv_direct PAYLOAD_TLV_FLAG_DIRECTION_OUT (arg1 (p_args p)))).
Proof. apply exit_fragment_ok; [lia|]. apply (capture_control_ok PAYLOAD_TLV_FLAG_DIRECTION_OUT). right. by left. Qed.

(** The limit is the length saved at the entry. *)
Lemma name_fragment_ok p rv dur :
  emitter (fun r => reads_exit_fragment r p rv dur (fun base fl secs =>
      exists aux0, name_sections (arg1 (p_args p)) (u32 aux0) base fl secs))
    (exit_fragment_emit MSG_DIRECT_RECVMSG_NAME_EXIT_MAX p rv dur
       (fun event_flags ptr payload_offset =>
          let* aux0 := lookup_pending_syscall_aux0 (p_tid p) in
          capture_msg_name_tlv_direct (arg1 (p_args p)) (u32 aux0) event_flags ptr payload_offset)).
Proof.
  apply exit_fragment_ok; [lia|]. apply (flags_capture_lookup (lookup_pending_syscall_aux0 (p_tid p))
    (fun aux0 => name_sections (arg1 (p_args p)) (u32 aux0)) _
    (fun aux0 => capture_msg_name_tlv_direct (arg1 (p_args p)) (u32 aux0))); [eauto with keeps|].
  intros aux0. apply capture_msg_name_ok, u32_range.
Qed.

Lemma emit_single_msg_exit_ok p rv dur :
  one_of (p_sys_id p) [SYS_RECVMSG] = true -> 0 < rv ->
  emitter (fun r => reads_pending_exit r p rv dur (decodes no_fault (flags_from 0)
      (msg_exit_sections (arg1 (p_args p)) 0))) (emit_single_msg_exit_event_v2_direct p rv dur).
Proof.
  intros Hs Hr. unfold emit_single_msg_exit_event_v2_direct. rewrite Hs. destruct (Z.leb_spec rv 0); [lia|].
  apply exit_flags_capture_ok; [lia | apply capture_msg_exit_ok].
Qed.

Lemma emit_mmsg_exit_ok p rv dur :
  0 < rv ->
  emitter (fun r => reads_pending_exit r p rv dur (decodes no_fault (flags_from 0)
      (mmsg_sections PayloadDirectionOut (p_args p) (one_of (p_sys_id p) [SYS_RECVMMSG]) 0)))
    (emit_mmsg_exit_event_v2_direct p rv dur).
Proof.
  intros Hr. unfold emit_mmsg_exit_event_v2_direct. destruct (Z.leb_spec rv 0); [lia|].
  apply (exit_flags_capture_ok _ p rv dur (mmsg_sections PayloadDirectionOut (p_args p) (one_of (p_sys_id p) [SYS_RECVMMSG])));
    [lia|]. unfold capture_mmsg_exit_payloads_tlv_direct. destruct (Z.ltb_spec 0 rv); [|lia]. rewrite andb_true_r.
  apply (capture_mmsg_ok PAYLOAD_TLV_FLAG_DIRECTION_OUT); [right; by left | done].
Qed.

Lemma recvmmsg_fragment_ok slot p rv dur :
  emitter (fun r => reads_exit_fragment r p rv dur
      (mmsg_slot_sections (iovec_buffers PayloadDirectionOut 5 8) slot (p_args p)))
    (exit_fragment_emit MSG_DIRECT_RECVMMSG_BASE_EXIT_MAX p rv dur
       (capture_recvmmsg_base_slot_exit_payloads_tlv_direct slot p)).
Proof.
  apply exit_fragment_ok; [lia|]. apply capture_mmsg_slot_ok; [lia|]. intros. apply capture_iovec_base_exit_payloads_ok.
Qed.

(** *** What the handlers need *)

Lemma control_fragment_emits p rv dur : keeps emits (emit_recvmsg_control_exit_fragment_event_v2_direct p rv dur).
Proof. unfold emit_recvmsg_control_exit_fragment_event_v2_direct. keeps_solve. eapply emitter_keeps, control_fragment_ok. Qed.
Lemma name_fragment_emits p rv dur : keeps emits (emit_recvmsg_name_exit_fragment_event_v2_direct p rv dur).
Proof. unfold emit_recvmsg_name_exit_fragment_event_v2_direct. keeps_solve. eapply emitter_keeps, name_fragment_ok. Qed.
Lemma mmsg_base_enter_emits slot pid tid sys_id ctx ts :
  keeps emits (emit_mmsg_base_enter (capture_mmsg_base_slot_enter_payloads_tlv_direct slot) pid tid sys_id ctx ts).
Proof. eapply emitter_keeps, emit_mmsg_base_enter_ok. Qed.
Lemma recvmmsg_fragment_emits slot p rv dur :
  keeps emits (emit_recvmmsg_base_exit_fragment (capture_recvmmsg_base_slot_exit_payloads_tlv_direct slot) p rv dur).
Proof. unfold emit_recvmmsg_base_exit_fragment. keeps_solve. eapply emitter_keeps, recvmmsg_fragment_ok. Qed.
Lemma single_msg_exit_emits p z dur : keeps emits (emit_single_msg_exit_event_v2_direct p (s64 z) dur).
Proof.
  destruct (one_of (p_sys_id p) [SYS_RECVMSG]) eqn:E1, (Z.leb_spec (s64 z) 0).
  2: { eapply emitter_keeps. by apply emit_single_msg_exit_ok. }
  all: unfold emit_single_msg_exit_event_v2_direct; rewrite E1; try (destruct (Z.leb_spec (s64 z) 0); [|lia]);
    cbn [negb orb]; keeps_solve.
Qed.
Lemma mmsg_exit_emits p z dur : keeps emits (emit_mmsg_exit_event_v2_direct p (s64 z) dur).
Proof.
  destruct (Z.leb_spec (s64 z) 0); [|eapply emitter_keeps; by apply emit_mmsg_exit_ok].
  unfold emit_mmsg_exit_event_v2_direct. destruct (Z.leb_spec (s64 z) 0); [keeps_solve | lia].
Qed.
Lemma save_pending_msg_accounted tid pid sys_id ctx t s :
  keeps accounted (save_pending_msg_syscall_args tid pid sys_id ctx t s).
Proof.
  unfold save_pending_msg_syscall_args, msg_direct_read_name, msg_direct_read_pair.
  pose proof read_user_pair_quiet. keeps_solve.
Qed.
End MessageLemmas.

#[export] Hint Resolve emit_msg_enter_ok emit_sendmsg_base_enter_ok emit_mmsg_enter_ok
  emit_mmsg_bytes_base_enter_ok control_fragment_ok name_fragment_ok : emitters.
#[export] Hint Resolve control_fragment_emits name_fragment_emits single_msg_exit_emits
  mmsg_exit_emits save_pending_msg_accounted : keeps.
#[export] Hint Extern 1 (keeps emits (emit_recvmmsg_base0_exit_fragment_event_v2_direct _ _ _)) =>
  (exact (recvmmsg_fragment_emits 0 _ _ _)) : keeps.
#[export] Hint Extern 1 (keeps emits (emit_recvmmsg_base1_exit_fragment_event_v2_direct _ _ _)) =>
  (exact (recvmmsg_fragment_emits 1 _ _ _)) : keeps.
#[export] Hint Extern 1 (keeps emits (emit_recvmmsg_base2_exit_fragment_event_v2_direct _ _ _)) =>
  (exact (recvmmsg_fragment_emits 2 _ _ _)) : keeps.
#[export] Hint Extern 1 (keeps emits (emit_recvmmsg_base3_exit_fragment_event_v2_direct _ _ _)) =>
  (exact (recvmmsg_fragment_emits 3 _ _ _)) : keeps.
#[export] Hint Extern 1 (keeps emits (emit_mmsg_base0_enter_event_v2_direct _ _ _ _ _)) =>
  (exact (mmsg_base_enter_emits 0 _ _ _ _ _)) : keeps.
#[export] Hint Extern 1 (keeps emits (emit_mmsg_base1_enter_event_v2_direct _ _ _ _ _)) =>
  (exact (mmsg_base_enter_emits 1 _ _ _ _ _)) : keeps.
#[export] Hint Extern 1 (keeps emits (emit_mmsg_base2_enter_event_v2_direct _ _ _ _ _)) =>
  (exact (mmsg_base_enter_emits 2 _ _ _ _ _)) : keeps.
#[export] Hint Extern 1 (keeps emits (emit_mmsg_base3_enter_event_v2_direct _ _ _ _ _)) =>
  (exact (mmsg_base_enter_emits 3 _ _ _ _ _)) : keeps.
