(* ===== verification/Handlers.v ===== *)
(** What the handlers behind a tail call share.

    Models [bpf/enter_runtime.h], the [ENTER_PROLOGUE] and [EXIT_PROLOGUE]
    macros, the fallbacks of [bpf/enter_dispatch.h] and [bpf/exit_dispatch.h],
    and the two shapes nearly every handler has: emit and save
    ([enter_family]), emit and consume ([exit_family]).

    [HandlerRelation] is what the lemmas about handlers need of a relation
    between states: it contains every emission and every write a handler makes
    besides.  Each handler is walked once, for all such relations. *)
From stdpp Require Import base list gmap numbers.
From S2P Require Import Prelude Syscalls Abi Kernel Stats Tlv Emit Decoder EventCore Payload LifecycleState Pending Lifecycle Structs.

(** ** Program indices ([capture_manifest_generated.h]) *)
Abbreviation ENTER_PROG_TERMINATING := 1 (only parsing).
Abbreviation ENTER_PROG_EXEC := 2 (only parsing).
Abbreviation ENTER_PROG_PATH_STAT := 3 (only parsing).
Abbreviation ENTER_PROG_PATH_ONLY := 4 (only parsing).
Abbreviation ENTER_PROG_DUAL_PATH := 5 (only parsing).
Abbreviation ENTER_PROG_OPENAT2 := 6 (only parsing).
Abbreviation ENTER_PROG_READLINK := 7 (only parsing).
Abbreviation ENTER_PROG_MISC_STRUCT := 8 (only parsing).
Abbreviation ENTER_PROG_SMALL_STRUCT := 9 (only parsing).
Abbreviation ENTER_PROG_ITIMER := 10 (only parsing).
Abbreviation ENTER_PROG_TIME_STRUCT := 11 (only parsing).
Abbreviation ENTER_PROG_SIGNAL := 12 (only parsing).
Abbreviation ENTER_PROG_FILE_TIME := 13 (only parsing).
Abbreviation ENTER_PROG_SLEEP := 14 (only parsing).
Abbreviation ENTER_PROG_FUTEX := 15 (only parsing).
Abbreviation ENTER_PROG_CACHESTAT := 16 (only parsing).
Abbreviation ENTER_PROG_CAPABILITY := 17 (only parsing).
Abbreviation ENTER_PROG_MEMFD := 18 (only parsing).
Abbreviation ENTER_PROG_PRCTL := 19 (only parsing).
Abbreviation ENTER_PROG_CLONE3 := 20 (only parsing).
Abbreviation ENTER_PROG_BPF := 21 (only parsing).
Abbreviation ENTER_PROG_IOVEC := 22 (only parsing).
Abbreviation ENTER_PROG_MSG := 23 (only parsing).
Abbreviation ENTER_PROG_MMSG := 24 (only parsing).
Abbreviation ENTER_PROG_FCNTL := 25 (only parsing).
Abbreviation ENTER_PROG_IOCTL := 26 (only parsing).
Abbreviation ENTER_PROG_NETWORK := 27 (only parsing).
Abbreviation ENTER_PROG_KEY := 28 (only parsing).
Abbreviation ENTER_PROG_XATTR := 29 (only parsing).
Abbreviation ENTER_PROG_FS := 30 (only parsing).
Abbreviation ENTER_PROG_AIO := 31 (only parsing).
Abbreviation ENTER_PROG_POLL := 32 (only parsing).
Abbreviation ENTER_PROG_SELECT := 33 (only parsing).
Abbreviation ENTER_PROG_EPOLL := 34 (only parsing).
Abbreviation ENTER_PROG_NO_PAYLOAD_DIRECT := 35 (only parsing).
Abbreviation ENTER_PROG_PAYLOAD_DIRECT := 36 (only parsing).
Abbreviation ENTER_PROG_IOVEC_BASE := 37 (only parsing).
Abbreviation ENTER_PROG_SENDMSG_BASE := 38 (only parsing).
Abbreviation ENTER_PROG_MMSG_BASE01 := 39 (only parsing).
Abbreviation ENTER_PROG_MMSG_BASE2 := 40 (only parsing).
Abbreviation ENTER_PROG_MMSG_BASE3 := 41 (only parsing).
Abbreviation ENTER_PROG_AIO_IOVEC := 42 (only parsing).
Abbreviation ENTER_PROG_AIO_BUF := 43 (only parsing).
Abbreviation ENTER_PROG_QUOTA := 44 (only parsing).
Abbreviation ENTER_PROG_MOUNT_PATH := 45 (only parsing).
Abbreviation ENTER_PROG_NO_PAYLOAD_GENERIC := 46 (only parsing).
Abbreviation ENTER_PROG_NESTED_FD_PATH0 := 47 (only parsing).
Abbreviation ENTER_PROG_NESTED_FD_PATH1 := 48 (only parsing).
Abbreviation ENTER_PROG_NESTED_FD_PATH2 := 49 (only parsing).
Abbreviation ENTER_PROG_NESTED_FD_PATH3 := 50 (only parsing).
Abbreviation ENTER_PROG_BPF_UPROBE_MULTI := 51 (only parsing).
Abbreviation ENTER_PROG_BPF_PROG_LOAD := 52 (only parsing).
Abbreviation ENTER_PROG_BPF_PROG_LOAD_DEBUG := 53 (only parsing).
Abbreviation ENTER_PROG_BPF_TRACING_MULTI := 54 (only parsing).
Abbreviation EXIT_PROG_GENERIC := 0 (only parsing).
Abbreviation EXIT_PROG_IOVEC_BASE := 1 (only parsing).
Abbreviation EXIT_PROG_MSG := 2 (only parsing).
Abbreviation EXIT_PROG_MMSG_FINAL := 3 (only parsing).
Abbreviation EXIT_PROG_RECVMMSG_BASE01 := 4 (only parsing).
Abbreviation EXIT_PROG_RECVMMSG_BASE23 := 5 (only parsing).
Abbreviation EXIT_PROG_QUOTA := 6 (only parsing).
Abbreviation EXIT_PROG_MOUNT_QUERY := 7 (only parsing).
Abbreviation EXIT_PROG_PATH := 8 (only parsing).
Abbreviation EXIT_PROG_FD_TIME := 9 (only parsing).
Abbreviation EXIT_PROG_STRUCT := 10 (only parsing).
Abbreviation EXIT_PROG_ASYNC := 11 (only parsing).
Abbreviation EXIT_PROG_IO := 12 (only parsing).
Abbreviation EXIT_PROG_CONTROL := 13 (only parsing).
Abbreviation EXIT_PROG_NESTED_FD_PATH0 := 14 (only parsing).
Abbreviation EXIT_PROG_NESTED_FD_PATH1 := 15 (only parsing).
Abbreviation EXIT_PROG_NESTED_FD_PATH2 := 16 (only parsing).
Abbreviation EXIT_PROG_NESTED_FD_PATH3 := 17 (only parsing).
Abbreviation EXIT_PROG_NAMESPACE := 18 (only parsing).
Abbreviation EXIT_PROG_PID_NAMESPACE := 19 (only parsing).
Abbreviation RECVMSG_PROG_NAME := 0 (only parsing).
Abbreviation RECVMSG_PROG_CONTROL := 1 (only parsing).
Abbreviation RECVMSG_PROG_FINAL := 2 (only parsing).
Abbreviation MMSG_BYTES_PROG_BASE0 := 0 (only parsing).
Abbreviation MMSG_BYTES_PROG_BASE1 := 1 (only parsing).
Abbreviation MMSG_BYTES_PROG_BASE2 := 2 (only parsing).
Abbreviation MMSG_BYTES_PROG_BASE3 := 3 (only parsing).

(** What [ENTER_PROLOGUE] declares. *)
Record enter_frame := EnterFrame {
  ef_sys_id : Z; ef_tid : Z; ef_pid : Z; ef_enter_time : Z; ef_cfg : option Z; ef_stack_id : Z }.

(** What [EXIT_PROLOGUE] declares when it does not return. *)
Record exit_frame := ExitFrame {
  xf_pid : Z; xf_p : pending_syscall; xf_is_pending_lookup : bool;
  xf_pending_tid : Z; xf_duration : Z }.

Section Prologues.
Context {K : Kernel} {A : Arch}.

(** ** [enter_runtime.h] *)

(** [-1], or the id of the user stack when the configuration asks for it. *)
Definition stack_id_of (cfg : option Z) : prog Z :=
  match cfg with
  | Some c => if has_flag c CONFIG_CAPTURE_STACK then bpf_get_stackid else ret (-1)
  | None => ret (-1)
  end.

Definition ENTER_PROLOGUE (ctx : trace_event_raw_sys_enter) : prog enter_frame :=
  let sys_id := u32 (enter_id ctx) in
  let* (pid, tid) := current_pid_tid in
  let* enter_time := bpf_ktime_get_ns in
  let* cfg := bpf_map_lookup_elem config_map 0 in
  let* stack_id := stack_id_of cfg in
  ret (EnterFrame sys_id tid pid enter_time cfg stack_id).

Definition emit_enter_dispatch_fallback (ctx : trace_event_raw_sys_enter) (pid tid : Z)
    (cfg : option Z) : prog unit :=
  let sys_id := u32 (enter_id ctx) in
  let* enter_time := bpf_ktime_get_ns in
  let* stack_id := stack_id_of cfg in
  emit_plain_no_payload_enter_event_v2_direct pid tid sys_id ctx cfg enter_time ;;;
  save_pending_syscall_args tid pid sys_id ctx enter_time stack_id.

(** ** [enter_dispatch.h] *)

(** [save_pending_syscall_args(tid, pid, sys_id, ctx, enter_time, stack_id);]. *)
Definition save_frame (ctx : trace_event_raw_sys_enter) (f : enter_frame) : prog unit :=
  save_pending_syscall_args (ef_tid f) (ef_pid f) (ef_sys_id f) ctx (ef_enter_time f) (ef_stack_id f).

(** A handler that emits an entry record and saves the pending syscall. *)
Definition enter_handler_body (ctx : trace_event_raw_sys_enter) (emit : enter_frame -> prog unit)
    : prog unit :=
  let* f := ENTER_PROLOGUE ctx in
  emit f ;;;
  save_frame ctx f.

(** [ENTER_PROLOGUE(ctx); emit(pid, tid, sys_id, ctx, enter_time); save_pending_syscall_args(...);]. *)
Definition enter_family (emit : Z -> Z -> Z -> trace_event_raw_sys_enter -> Z -> prog unit)
    (ctx : trace_event_raw_sys_enter) : prog unit :=
  enter_handler_body ctx (fun f => emit (ef_pid f) (ef_tid f) (ef_sys_id f) ctx (ef_enter_time f)).

(** ** [exit_dispatch.h] *)

(** The part [emit_exit_dispatch_fallback] and [EXIT_PROLOGUE] share: resolve the pending
    syscall, account for an exit without one, and reject a mismatched one. *)
Definition resolve_exit (pid tid sys_id ret_value : Z) : prog (option exit_frame) :=
  let* (p, pending_tid, is_pending_lookup) := lookup_pending_syscall_for_exit pid tid ret_value in
  match p with
  | None => record_unmatched_exit_if_needed pid tid sys_id ret_value ;;; ret None
  | Some p =>
      let* ok := validate_pending_syscall_exit p sys_id pid pending_tid in
      if ok then
        let* duration := pending_syscall_duration p in
        ret (Some (ExitFrame pid p is_pending_lookup pending_tid duration))
      else ret None
  end.

(** [consume_pending_syscall(pid, pending_tid, p, is_pending_lookup);]. *)
Definition consume_frame (f : exit_frame) : prog unit :=
  consume_pending_syscall (xf_pid f) (xf_pending_tid f) (xf_p f) (xf_is_pending_lookup f).

Definition emit_exit_dispatch_fallback (pid tid sys_id ret_value : Z) : prog unit :=
  let* f := resolve_exit pid tid sys_id ret_value in
  match f with
  | None => ret tt
  | Some f =>
      emit_syscall_exit_event_v2_direct (xf_p f) ret_value (xf_duration f) 0 ;;;
      consume_frame f
  end.

Definition EXIT_PROLOGUE (ctx : trace_event_raw_sys_exit) : prog (option exit_frame) :=
  let ret_value := s64 (exit_ret ctx) in
  let exit_sys_id := u32 (exit_id ctx) in
  let* (pid, tid) := current_pid_tid in
  resolve_exit pid tid exit_sys_id ret_value.

(** A handler body between [EXIT_PROLOGUE] and [return 0]. *)
Definition exit_handler_body (ctx : trace_event_raw_sys_exit) (body : Z -> exit_frame -> prog unit)
    : prog unit :=
  let ret_value := s64 (exit_ret ctx) in
  let* f := EXIT_PROLOGUE ctx in
  match f with None => ret tt | Some f => body ret_value f end.

(** ** [exit_direct_dispatch.h] *)

(** [if (!emit(p, ret_value, duration)) emit_syscall_exit_event_v2_direct(...);]. *)
Definition exit_family (emit : pending_syscall -> Z -> Z -> prog bool)
    (ctx : trace_event_raw_sys_exit) : prog unit :=
  exit_handler_body ctx (fun ret_value f =>
    let* done := emit (xf_p f) ret_value (xf_duration f) in
    (if done then ret tt
     else emit_syscall_exit_event_v2_direct (xf_p f) ret_value (xf_duration f) 0) ;;;
    consume_frame f).

(** [bpf_tail_call(ctx, &progs, index);] with a constant index, and what
    follows it when the call is not taken.  The loader stores under an index
    the program of that index or nothing. *)
Definition chain_to (progs : map_id) (index : Z) (target rest : prog unit) : prog unit :=
  let* i := bpf_tail_call progs index in
  match i with Some _ => target | None => rest end.
End Prologues.

(** ** Relations every handler stays in *)

(** The maps that say who is traced. *)
Definition tracking_map (m : map_id) : bool :=
  bool_decide (m = filter_map) || bool_decide (m = arm_fork_map) || bool_decide (m = unknown_children_map).

Class HandlerRelation {K : Kernel} (R : world -> world -> Prop) : Prop := {
  hr_preorder :: PreOrder R;
  hr_emits : forall w w', emits w w' -> R w w';
  hr_storage_put : forall t s, keeps R (task_storage_put t s);
  hr_map_update : forall m k v, tracking_map m = false -> keeps R (bpf_map_update_elem m k v);
  hr_map_delete : forall m k, tracking_map m = false -> keeps R (bpf_map_delete_elem m k) }.

#[export] Hint Extern 2 (keeps _ (bpf_map_delete_elem _ _)) =>
  (apply hr_map_delete; reflexivity) : keeps.
#[export] Hint Extern 2 (keeps _ (bpf_map_update_elem _ _ _)) =>
  (apply hr_map_update; reflexivity) : keeps.
#[export] Hint Extern 2 (keeps _ (task_storage_put _ _)) => (apply hr_storage_put) : keeps.

(** Unfolds the handler in the goal. *)
Ltac unfold_handler :=
  lazymatch goal with
  | |- keeps ?R ?m => let m' := eval red in m in change (keeps R m')
  end.

Section HandlerLemmas.
Context {K : Kernel} {A : Arch} {R : world -> world -> Prop} {HR : HandlerRelation R}.

Lemma emits_keeps {X} (m : prog X) : keeps emits m -> keeps R m.
Proof. intros H. exact (keeps_weaken _ _ _ H hr_emits). Qed.
Hint Extern 5 (keeps R _) => (apply emits_keeps) : keeps.

Lemma lifecycle_map_update_keeps m k v :
  tracking_map m = false -> keeps R (lifecycle_map_update m k v).
Proof. intros. unfold lifecycle_map_update. keeps_solve. by apply hr_map_update. Qed.
Hint Extern 2 (keeps R (lifecycle_map_update _ _ _)) =>
  (apply lifecycle_map_update_keeps; reflexivity) : keeps.
Lemma put_pending_keeps s : keeps R (put_pending_task_state s).
Proof. unfold put_pending_task_state, bpf_get_current_task. keeps_solve. Qed.
Lemma lookup_pending_keeps c : keeps R (lookup_pending_task_state c).
Proof.
  unfold lookup_pending_task_state, bpf_get_current_task, bpf_task_storage_get_create,
    bpf_task_storage_get. keeps_solve.
Qed.
Hint Resolve put_pending_keeps lookup_pending_keeps : keeps.
Lemma clear_pending_keeps : keeps R clear_pending_task_state.
Proof. unfold clear_pending_task_state, current_pending_task_state. keeps_solve. Qed.
Lemma save_pending_value_keeps p : keeps R (save_pending_syscall_value p).
Proof. unfold save_pending_syscall_value. keeps_solve. Qed.
Lemma save_pending_aux_keeps tid aux : keeps R (save_pending_syscall_aux tid aux).
Proof. unfold save_pending_syscall_aux, current_pending_task_state. keeps_solve. Qed.
Hint Resolve clear_pending_keeps save_pending_value_keeps save_pending_aux_keeps : keeps.
Lemma save_pending_args_keeps tid pid sys_id ctx t s :
  keeps R (save_pending_syscall_args tid pid sys_id ctx t s).
Proof. unfold save_pending_syscall_args. keeps_solve. Qed.
Lemma consume_pending_keeps pid t p h : keeps R (consume_pending_syscall pid t p h).
Proof. unfold consume_pending_syscall. keeps_solve. Qed.
Lemma validate_pending_keeps p sys_id pid t : keeps R (validate_pending_syscall_exit p sys_id pid t).
Proof. unfold validate_pending_syscall_exit. keeps_solve. Qed.
Hint Resolve save_pending_args_keeps consume_pending_keeps validate_pending_keeps : keeps.

Lemma stack_id_of_quiet cfg : keeps quiet (stack_id_of cfg).
Proof. unfold stack_id_of. keeps_solve. Qed.
Hint Resolve stack_id_of_quiet : keeps.
Lemma ENTER_PROLOGUE_quiet ctx : keeps quiet (ENTER_PROLOGUE ctx).
Proof. unfold ENTER_PROLOGUE. keeps_solve. Qed.
Lemma bpf_tail_call_quiet m k : keeps quiet (bpf_tail_call m k).
Proof. unfold bpf_tail_call. keeps_solve. Qed.
Hint Resolve ENTER_PROLOGUE_quiet bpf_tail_call_quiet : keeps.
Lemma save_frame_keeps ctx f : keeps R (save_frame ctx f).
Proof. unfold save_frame. keeps_solve. Qed.
Lemma enter_fallback_keeps ctx pid tid cfg : keeps R (emit_enter_dispatch_fallback ctx pid tid cfg).
Proof. unfold emit_enter_dispatch_fallback. keeps_solve. Qed.
Lemma resolve_exit_keeps pid tid sys_id rv : keeps R (resolve_exit pid tid sys_id rv).
Proof. unfold resolve_exit. keeps_solve. Qed.
Lemma consume_frame_keeps f : keeps R (consume_frame f).
Proof. unfold consume_frame. keeps_solve. Qed.
Hint Resolve save_frame_keeps resolve_exit_keeps consume_frame_keeps : keeps.
Lemma exit_fallback_keeps pid tid sys_id rv : keeps R (emit_exit_dispatch_fallback pid tid sys_id rv).
Proof. unfold emit_exit_dispatch_fallback. keeps_solve. Qed.

Lemma enter_handler_body_keeps ctx emit :
  (forall f, keeps R (emit f)) -> keeps R (enter_handler_body ctx emit).
Proof. intros. unfold enter_handler_body. keeps_solve. Qed.
Lemma enter_family_keeps emit ctx :
  (forall pid tid sys_id t, keeps R (emit pid tid sys_id ctx t)) -> keeps R (enter_family emit ctx).
Proof. intros H. apply enter_handler_body_keeps. intros. apply H. Qed.
Lemma exit_handler_body_keeps ctx body :
  (forall z f, keeps R (body (s64 z) f)) -> keeps R (exit_handler_body ctx body).
Proof. intros. unfold exit_handler_body, EXIT_PROLOGUE. keeps_solve. Qed.
Lemma exit_family_keeps emit ctx :
  (forall p z dur, keeps R (emit p (s64 z) dur)) -> keeps R (exit_family emit ctx).
Proof. intros. apply exit_handler_body_keeps. intros. keeps_solve. Qed.
Lemma chain_to_keeps progs i target rest :
  keeps R target -> keeps R rest -> keeps R (chain_to progs i target rest).
Proof. intros. unfold chain_to. keeps_solve. Qed.
Lemma chain_to_end_keeps progs i target :
  keeps R target -> keeps R (chain_to progs i target (ret tt)).
Proof. intros. apply chain_to_keeps; [done | keeps_solve]. Qed.
End HandlerLemmas.

#[export] Hint Resolve lookup_pending_keeps put_pending_keeps clear_pending_keeps
  save_pending_value_keeps save_pending_aux_keeps save_pending_args_keeps consume_pending_keeps
  validate_pending_keeps stack_id_of_quiet ENTER_PROLOGUE_quiet bpf_tail_call_quiet save_frame_keeps
  enter_fallback_keeps resolve_exit_keeps consume_frame_keeps exit_fallback_keeps : keeps.
#[export] Hint Extern 2 (keeps _ (lifecycle_map_update _ _ _)) =>
  (apply lifecycle_map_update_keeps; reflexivity) : keeps.

#[export] Instance accounted_handlers {K : Kernel} : HandlerRelation accounted.
Proof.
  split; [apply _ | intros; by apply emits_accounted | ..]; intros; keeps_solve.
  all: by apply modify_accounted.
Qed.
#[export] Hint Resolve accounted_handlers : keeps.
