(* ===== verification/EnterHandlers.v ===== *)
(** The entry handlers.

    Models the handlers of [bpf/enter_dispatch.h], [bpf/enter_fragment_dispatch.h],
    [bpf/nested_fd_path_dispatch.h], [bpf/mmsg_enter_dispatch.h],
    [bpf/quota_dispatch.h] and [bpf/mount_path_dispatch.h], and the table
    [loaded_enter] that the loader fills with them. *)
From stdpp Require Import base list gmap numbers.
From S2P Require Import Prelude Syscalls Abi Kernel Stats Tlv Emit Decoder EventCore Payload LifecycleState Pending Namespace Lifecycle Signal Structs FdPath Paths Misc Captures Control Keyring Xattr Quota Filesystem Network Slots Iovec NestedFd Poll Select Aio Bpf Message Handlers.

Section EnterHandlers.
Context {K : Kernel} {A : Arch}.

(** ** [enter_dispatch.h] *)

Definition enter_terminating (ctx : trace_event_raw_sys_enter) : prog unit :=
  let* f := ENTER_PROLOGUE ctx in
  (if ef_tid f =? ef_pid f then
     let* _ := lifecycle_map_update main_exited_map (ef_pid f) 1 in ret tt
   else ret tt) ;;;
  emit_no_payload_enter_event_v2_direct (ef_pid f) (ef_tid f) (ef_sys_id f) ctx (ef_cfg f)
    (ef_enter_time f) ;;;
  emit_terminating_exit_event_v2_direct (ef_pid f) (ef_tid f) (ef_sys_id f) ctx
    (ef_enter_time f) (ef_stack_id f).

Definition enter_exec (ctx : trace_event_raw_sys_enter) : prog unit :=
  let* f := ENTER_PROLOGUE ctx in
  let* exited := bpf_map_lookup_elem main_exited_map (ef_pid f) in
  let probe_ret_enter := match exited with Some v => if v =? 1 then 1 else 0 | None => 0 end in
  emit_exec_enter_event_v2_direct (ef_pid f) (ef_tid f) (ef_sys_id f) ctx (ef_cfg f)
    (ef_enter_time f) probe_ret_enter ;;;
  save_frame ctx f ;;;
  if negb (ef_tid f =? ef_pid f) then
    let* _ := lifecycle_map_update pending_exec_map (ef_pid f) (ef_tid f) in ret tt
  else ret tt.

Definition enter_path_stat : trace_event_raw_sys_enter -> prog unit :=
  enter_family emit_path_stat_enter_event_v2_direct.
Definition enter_path_only : trace_event_raw_sys_enter -> prog unit :=
  enter_family emit_path_only_enter_event_v2_direct.
Definition enter_dual_path : trace_event_raw_sys_enter -> prog unit :=
  enter_family emit_dual_path_enter_event_v2_direct.

Definition enter_openat2 (ctx : trace_event_raw_sys_enter) : prog unit :=
  enter_handler_body ctx (fun f =>
    emit_openat2_enter_event_v2_direct (ef_pid f) (ef_tid f) (ef_sys_id f) ctx (ef_cfg f) (ef_enter_time f)).

Definition enter_readlink : trace_event_raw_sys_enter -> prog unit :=
  enter_family emit_readlink_enter_event_v2_direct.
Definition enter_misc_struct : trace_event_raw_sys_enter -> prog unit :=
  enter_family emit_misc_struct_enter_event_v2_direct.
Definition enter_small_struct : trace_event_raw_sys_enter -> prog unit :=
  enter_family emit_small_struct_enter_event_v2_direct.
Definition enter_itimer : trace_event_raw_sys_enter -> prog unit :=
  enter_family emit_itimer_enter_event_v2_direct.
Definition enter_time_struct : trace_event_raw_sys_enter -> prog unit :=
  enter_family emit_time_struct_enter_event_v2_direct.

Definition enter_signal (ctx : trace_event_raw_sys_enter) : prog unit :=
  let* f := ENTER_PROLOGUE ctx in
  emit_signal_enter_event_v2_direct (ef_pid f) (ef_tid f) (ef_sys_id f) ctx (ef_enter_time f) (-1) ;;;
  save_frame ctx f ;;;
  if one_of (ef_sys_id f) [SYS_RT_SIGSUSPEND] then
    let* marker := should_emit_signal_sigsuspend_marker (ef_tid f) (ef_pid f) in
    if marker then
      emit_signal_sigsuspend_marker_event_v2_direct (ef_pid f) (ef_tid f) (ef_sys_id f) ctx
        (ef_enter_time f)
    else ret tt
  else ret tt.

Definition enter_sleep (ctx : trace_event_raw_sys_enter) : prog unit :=
  let* f := ENTER_PROLOGUE ctx in
  let args := args_u64 (enter_args ctx) in
  if one_of (ef_sys_id f) [SYS_NANOSLEEP] then
    emit_sleep_enter_event_v2_direct (ef_pid f) (ef_tid f) (ef_sys_id f) ctx (ef_enter_time f)
      0 (arg0 args) (-1) ;;;
    save_frame ctx f ;;;
    let* marker := should_emit_nanosleep_suspended_marker (ef_tid f) (ef_pid f) in
    if marker then
      emit_sleep_enter_event_v2_direct (ef_pid f) (ef_tid f) (ef_sys_id f) ctx (ef_enter_time f)
        0 (arg0 args) 3
    else ret tt
  else if one_of (ef_sys_id f) [SYS_CLOCK_NANOSLEEP] then
    emit_sleep_enter_event_v2_direct (ef_pid f) (ef_tid f) (ef_sys_id f) ctx (ef_enter_time f)
      2 (arg2 args) (-1) ;;;
    save_frame ctx f
  else ret tt.

Definition enter_no_payload_direct (ctx : trace_event_raw_sys_enter) : prog unit :=
  enter_handler_body ctx (fun f =>
    emit_fd_path_or_no_payload_enter_event_v2_direct (ef_pid f) (ef_tid f) ctx (ef_cfg f) (ef_enter_time f)).

Definition enter_no_payload_generic (ctx : trace_event_raw_sys_enter) : prog unit :=
  enter_handler_body ctx (fun f =>
    emit_plain_no_payload_enter_event_v2_direct (ef_pid f) (ef_tid f) (ef_sys_id f) ctx (ef_cfg f) (ef_enter_time f)).

Definition enter_payload_direct : trace_event_raw_sys_enter -> prog unit :=
  enter_family emit_payload_enter_event_v2_direct.

Definition enter_futex (ctx : trace_event_raw_sys_enter) : prog unit :=
  let* f := ENTER_PROLOGUE ctx in
  if one_of (ef_sys_id f) [SYS_FUTEX] then
    emit_futex_enter_event_v2_direct (ef_pid f) (ef_tid f) (ef_sys_id f) ctx (ef_enter_time f) ;;;
    save_frame ctx f
  else if one_of (ef_sys_id f) [SYS_FUTEX_WAIT] then
    emit_futex_wait_enter_event_v2_direct (ef_pid f) (ef_tid f) (ef_sys_id f) ctx (ef_enter_time f) ;;;
    save_frame ctx f
  else if one_of (ef_sys_id f) [SYS_FUTEX_WAITV] then
    emit_futex_waitv_enter_event_v2_direct (ef_pid f) (ef_tid f) (ef_sys_id f) ctx (ef_enter_time f) ;;;
    save_frame ctx f
  else if one_of (ef_sys_id f) [SYS_FUTEX_REQUEUE] then
    emit_futex_requeue_enter_event_v2_direct (ef_pid f) (ef_tid f) (ef_sys_id f) ctx (ef_enter_time f) ;;;
    save_frame ctx f
  else ret tt.

Definition enter_cachestat (ctx : trace_event_raw_sys_enter) : prog unit :=
  enter_handler_body ctx (fun f =>
    emit_cachestat_enter_event_v2_direct (ef_pid f) (ef_tid f) (ef_sys_id f) ctx (ef_cfg f) (ef_enter_time f)).

Definition enter_file_time : trace_event_raw_sys_enter -> prog unit :=
  enter_family emit_file_time_enter_event_v2_direct.
Definition enter_capability : trace_event_raw_sys_enter -> prog unit :=
  enter_family emit_capability_enter_event_v2_direct.
Definition enter_memfd : trace_event_raw_sys_enter -> prog unit :=
  enter_family emit_memfd_create_enter_event_v2_direct.
Definition enter_prctl : trace_event_raw_sys_enter -> prog unit :=
  enter_family emit_prctl_enter_event_v2_direct.
Definition enter_clone3 : trace_event_raw_sys_enter -> prog unit :=
  enter_family emit_clone3_enter_event_v2_direct.
Definition enter_fcntl : trace_event_raw_sys_enter -> prog unit :=
  enter_family emit_fcntl_enter_event_v2_direct.
Definition enter_ioctl : trace_event_raw_sys_enter -> prog unit :=
  enter_family emit_ioctl_enter_event_v2_direct.

Definition enter_network (ctx : trace_event_raw_sys_enter) : prog unit :=
  let* f := ENTER_PROLOGUE ctx in
  let network_args := args_u64 (enter_args ctx) in
  let* sockaddr_len :=
    emit_network_enter_event_v2_direct (ef_pid f) (ef_tid f) (ef_sys_id f) network_args (ef_enter_time f) in
  save_pending_network_syscall_args (ef_tid f) (ef_pid f) (ef_sys_id f) network_args
    (ef_enter_time f) (ef_stack_id f) sockaddr_len.

Definition enter_key : trace_event_raw_sys_enter -> prog unit :=
  enter_family emit_key_enter_event_v2_direct.
Definition enter_xattr : trace_event_raw_sys_enter -> prog unit :=
  enter_family emit_xattr_enter_event_v2_direct.

Definition enter_fs (ctx : trace_event_raw_sys_enter) : prog unit :=
  enter_handler_body ctx (fun f =>
    emit_fs_enter_event_v2_direct (ef_pid f) (ef_tid f) (ef_sys_id f) ctx (ef_cfg f) (ef_enter_time f)).

(** ** [nested_fd_path_dispatch.h] *)

(** The pending syscall whose fragments may be emitted; the candidates are in the scratch area. *)
Definition load_nested_fd_path_fragment_context (ctx : trace_event_raw_sys_enter) : prog (option pending_syscall) :=
  let sys_id := u32 (enter_id ctx) in
  if negb (one_of sys_id [SYS_SELECT]) && negb (is_poll_direct_syscall sys_id) then ret None
  else
    let* cfg := bpf_map_lookup_elem config_map 0 in
    if negb (fd_state_enabled cfg) then ret None
    else
      let* (pid, tid) := current_pid_tid in
      let* pending := current_pending_syscall in
      match pending with
      | None => ret None
      | Some p =>
          if negb (p_pid p =? pid) || negb (p_tid p =? tid) || negb (p_sys_id p =? sys_id) then ret None
          else
            let* scratch := lookup_fd_path_scratch in
            match scratch with
            | None => ret None
            | Some s =>
                if (sc_nested_fd_count s =? 0) || (FD_PATH_NESTED_MAX <? sc_nested_fd_count s) then ret None
                else ret (Some p)
            end
      end.

(** The handler of candidate [i]: the guard, the fragment, the next candidate. *)
Definition enter_nested_fd_path (i : Z) (fd : fd_path_scratch -> Z) (next : prog unit)
    (ctx : trace_event_raw_sys_enter) : prog unit :=
  let* fragment := load_nested_fd_path_fragment_context ctx in
  match fragment with
  | None => ret tt
  | Some p =>
      let* count := scratch_get sc_nested_fd_count in
      if (0 <? i) && (count <=? i) then ret tt
      else
        let* fd := scratch_get fd in
        emit_nested_fd_path_fragment_event_v2_direct p fd ;;;
        let* count := scratch_get sc_nested_fd_count in
        if i + 1 <? count then next else ret tt
  end.

Definition enter_nested_fd_path3 (ctx : trace_event_raw_sys_enter) : prog unit :=
  enter_nested_fd_path 3 sc_nested_fd3 (ret tt) ctx.
Definition enter_nested_fd_path2 (ctx : trace_event_raw_sys_enter) : prog unit :=
  enter_nested_fd_path 2 sc_nested_fd2
    (chain_to enter_progs ENTER_PROG_NESTED_FD_PATH3 (enter_nested_fd_path3 ctx) (ret tt)) ctx.
Definition enter_nested_fd_path1 (ctx : trace_event_raw_sys_enter) : prog unit :=
  enter_nested_fd_path 1 sc_nested_fd1
    (chain_to enter_progs ENTER_PROG_NESTED_FD_PATH2 (enter_nested_fd_path2 ctx) (ret tt)) ctx.
Definition enter_nested_fd_path0 (ctx : trace_event_raw_sys_enter) : prog unit :=
  enter_nested_fd_path 0 sc_nested_fd0
    (chain_to enter_progs ENTER_PROG_NESTED_FD_PATH1 (enter_nested_fd_path1 ctx) (ret tt)) ctx.

Definition enter_poll (ctx : trace_event_raw_sys_enter) : prog unit :=
  let* f := ENTER_PROLOGUE ctx in
  let args := args_u64 (enter_args ctx) in
  let* fd_path_count :=
    if fd_state_enabled (ef_cfg f)
    then collect_poll_fd_path_candidates_direct (ef_sys_id f) (arg0 args) (arg1 args) else ret 0 in
  emit_poll_enter_event_v2_direct (ef_pid f) (ef_tid f) (ef_sys_id f) ctx (ef_enter_time f) ;;;
  save_frame ctx f ;;;
  if 0 <? fd_path_count
  then chain_to enter_progs ENTER_PROG_NESTED_FD_PATH0 (enter_nested_fd_path0 ctx) (ret tt) else ret tt.

Definition enter_select (ctx : trace_event_raw_sys_enter) : prog unit :=
  let* f := ENTER_PROLOGUE ctx in
  let args := args_u64 (enter_args ctx) in
  let* fd_path_count :=
    if fd_state_enabled (ef_cfg f)
    then collect_select_fd_path_candidates_direct (arg0 args) (arg1 args) (arg2 args) (arg3 args) else ret 0 in
  emit_select_enter_event_v2_direct ctx (ef_pid f) (ef_tid f) (ef_enter_time f) ;;;
  save_frame ctx f ;;;
  if 0 <? fd_path_count
  then chain_to enter_progs ENTER_PROG_NESTED_FD_PATH0 (enter_nested_fd_path0 ctx) (ret tt) else ret tt.

Definition enter_epoll (ctx : trace_event_raw_sys_enter) : prog unit :=
  let* f := ENTER_PROLOGUE ctx in
  if is_epoll_ctl_direct_syscall (ef_sys_id f) then
    emit_epoll_ctl_enter_event_v2_direct (ef_pid f) (ef_tid f) (ef_sys_id f) ctx (ef_cfg f) (ef_enter_time f) ;;;
    save_frame ctx f
  else if is_epoll_pwait2_direct_syscall (ef_sys_id f) then
    emit_epoll_pwait2_enter_event_v2_direct (ef_pid f) (ef_tid f) (ef_sys_id f) ctx (ef_cfg f) (ef_enter_time f) ;;;
    save_frame ctx f
  else ret tt.

(** ** [enter_fragment_dispatch.h] *)

Definition enter_iovec_base (ctx : trace_event_raw_sys_enter) : prog unit :=
  let* f := ENTER_PROLOGUE ctx in
  if negb (is_iovec_base_enter_direct_syscall (ef_sys_id f)) then ret tt
  else
    emit_iovec_base_enter_event_v2_direct (ef_pid f) (ef_tid f) (ef_sys_id f) ctx (ef_enter_time f).

(** The buffers follow in a record of their own. *)
Definition enter_iovec (ctx : trace_event_raw_sys_enter) : prog unit :=
  let* f := ENTER_PROLOGUE ctx in
  emit_iovec_enter_event_v2_direct (ef_pid f) (ef_tid f) (ef_sys_id f) ctx (ef_enter_time f) ;;;
  save_frame ctx f ;;;
  if is_iovec_base_enter_direct_syscall (ef_sys_id f) then
    chain_to enter_progs ENTER_PROG_IOVEC_BASE (enter_iovec_base ctx) (ret tt)
  else ret tt.

Definition enter_aio_buf (ctx : trace_event_raw_sys_enter) : prog unit :=
  let* f := ENTER_PROLOGUE ctx in
  if negb (one_of (ef_sys_id f) [SYS_IO_SUBMIT]) then ret tt
  else emit_aio_submit_buf_enter_event_v2_direct (ef_pid f) (ef_tid f) (ef_sys_id f) ctx (ef_enter_time f).

Definition enter_aio_iovec (ctx : trace_event_raw_sys_enter) : prog unit :=
  let* f := ENTER_PROLOGUE ctx in
  if negb (one_of (ef_sys_id f) [SYS_IO_SUBMIT]) then ret tt
  else
    emit_aio_submit_iovec_enter_event_v2_direct (ef_pid f) (ef_tid f) (ef_sys_id f) ctx (ef_enter_time f) ;;;
    chain_to enter_progs ENTER_PROG_AIO_BUF (enter_aio_buf ctx) (ret tt).

(** A submission is followed by the vectors and the buffers of its control blocks. *)
Definition enter_aio (ctx : trace_event_raw_sys_enter) : prog unit :=
  let* f := ENTER_PROLOGUE ctx in
  if one_of (ef_sys_id f) [SYS_IO_SUBMIT] then
    emit_aio_submit_enter_event_v2_direct (ef_pid f) (ef_tid f) (ef_sys_id f) ctx (ef_enter_time f) ;;;
    save_frame ctx f ;;;
    chain_to enter_progs ENTER_PROG_AIO_IOVEC (enter_aio_iovec ctx) (ret tt)
  else
    emit_aio_enter_event_v2_direct (ef_pid f) (ef_tid f) (ef_sys_id f) ctx (ef_cfg f) (ef_enter_time f) ;;;
    save_frame ctx f.

(** ** bpf *)

Definition enter_bpf_prog_load_debug (ctx : trace_event_raw_sys_enter) : prog unit :=
  let* f := ENTER_PROLOGUE ctx in
  emit_bpf_prog_load_debug_enter_fragment_event_v2_direct (ef_pid f) (ef_tid f) (ef_sys_id f) ctx (ef_enter_time f).

Definition enter_bpf_prog_load (ctx : trace_event_raw_sys_enter) : prog unit :=
  let* f := ENTER_PROLOGUE ctx in
  emit_bpf_prog_load_enter_event_v2_direct (ef_pid f) (ef_tid f) (ef_sys_id f) ctx (ef_enter_time f) ;;;
  save_frame ctx f ;;;
  chain_to enter_progs ENTER_PROG_BPF_PROG_LOAD_DEBUG (enter_bpf_prog_load_debug ctx) (ret tt).

Definition enter_bpf_uprobe_multi : trace_event_raw_sys_enter -> prog unit :=
  enter_family emit_bpf_uprobe_multi_enter_event_v2_direct.
Definition enter_bpf_tracing_multi : trace_event_raw_sys_enter -> prog unit :=
  enter_family emit_bpf_tracing_multi_enter_event_v2_direct.

(** What the exit of a command needs of its entry. *)
Definition save_bpf_aux (tid : Z) (args : args6) : prog unit :=
  if arg0 args =? BPF_DIRECT_MAP_GET_NEXT_KEY then
    let* key_size := bpf_map_get_next_key_key_size_direct (arg1 args) (arg2 args) in
    if 0 <? key_size then save_pending_syscall_aux tid key_size else ret tt
  else if arg0 args =? BPF_DIRECT_TASK_FD_QUERY then
    let* buf_len := bpf_attr_read_u32_direct (arg1 args) (arg2 args) BPF_DIRECT_TASK_FD_QUERY_BUF_LEN_OFF in
    match buf_len with Some buf_len => save_pending_syscall_aux tid buf_len | None => ret tt end
  else ret tt.

(** Large commands have a program of their own; one that is not loaded falls through. *)
Definition enter_bpf (ctx : trace_event_raw_sys_enter) : prog unit :=
  let* f := ENTER_PROLOGUE ctx in
  let args := args_u64 (enter_args ctx) in
  let is_prog_load := is_bpf_prog_load_enter_direct args in
  let* is_uprobe_multi := is_bpf_uprobe_multi_enter_direct args in
  let* is_tracing_multi := is_bpf_tracing_multi_enter_direct args in
  let chain_if (b : bool) index target rest := if b then chain_to enter_progs index target rest else rest in
  chain_if is_prog_load ENTER_PROG_BPF_PROG_LOAD (enter_bpf_prog_load ctx)
    (chain_if is_uprobe_multi ENTER_PROG_BPF_UPROBE_MULTI (enter_bpf_uprobe_multi ctx)
      (chain_if is_tracing_multi ENTER_PROG_BPF_TRACING_MULTI (enter_bpf_tracing_multi ctx)
        (emit_bpf_enter_event_v2_direct (ef_pid f) (ef_tid f) (ef_sys_id f) ctx (ef_enter_time f) ;;;
         save_frame ctx f ;;;
         save_bpf_aux (ef_tid f) args))).

(** ** Messages ([mmsg_enter_dispatch.h]) *)

Definition enter_sendmsg_base (ctx : trace_event_raw_sys_enter) : prog unit :=
  let* f := ENTER_PROLOGUE ctx in
  if negb (one_of (ef_sys_id f) [SYS_SENDMSG]) then ret tt
  else emit_sendmsg_base_enter_event_v2_direct (ef_pid f) (ef_tid f) (ef_sys_id f) ctx (ef_enter_time f).

Definition enter_msg (ctx : trace_event_raw_sys_enter) : prog unit :=
  let* f := ENTER_PROLOGUE ctx in
  emit_msg_enter_event_v2_direct (ef_pid f) (ef_tid f) (ef_sys_id f) ctx (ef_enter_time f) ;;;
  save_pending_msg_syscall_args (ef_tid f) (ef_pid f) (ef_sys_id f) ctx (ef_enter_time f) (ef_stack_id f) ;;;
  if one_of (ef_sys_id f) [SYS_SENDMSG] then
    chain_to enter_progs ENTER_PROG_SENDMSG_BASE (enter_sendmsg_base ctx) (ret tt)
  else ret tt.

(** A link of the chain of message buffers. *)
Definition enter_mmsg_bytes (emit : Z -> Z -> Z -> trace_event_raw_sys_enter -> Z -> prog unit)
    (next : trace_event_raw_sys_enter -> prog unit) (ctx : trace_event_raw_sys_enter) : prog unit :=
  let* f := ENTER_PROLOGUE ctx in
  if negb (one_of (ef_sys_id f) [SYS_SENDMMSG]) then ret tt
  else
    emit (ef_pid f) (ef_tid f) (ef_sys_id f) ctx (ef_enter_time f) ;;;
    next ctx.
Definition enter_mmsg_bytes3 : trace_event_raw_sys_enter -> prog unit :=
  enter_mmsg_bytes emit_mmsg_bytes_base3_enter_event_v2_direct (fun _ => ret tt).
Definition enter_mmsg_bytes2 : trace_event_raw_sys_enter -> prog unit :=
  enter_mmsg_bytes emit_mmsg_bytes_base2_enter_event_v2_direct
    (fun ctx => chain_to mmsg_bytes_progs MMSG_BYTES_PROG_BASE3 (enter_mmsg_bytes3 ctx) (ret tt)).
Definition enter_mmsg_bytes1 : trace_event_raw_sys_enter -> prog unit :=
  enter_mmsg_bytes emit_mmsg_bytes_base1_enter_event_v2_direct
    (fun ctx => chain_to mmsg_bytes_progs MMSG_BYTES_PROG_BASE2 (enter_mmsg_bytes2 ctx) (ret tt)).
Definition enter_mmsg_bytes0 : trace_event_raw_sys_enter -> prog unit :=
  enter_mmsg_bytes emit_mmsg_bytes_base0_enter_event_v2_direct
    (fun ctx => chain_to mmsg_bytes_progs MMSG_BYTES_PROG_BASE1 (enter_mmsg_bytes1 ctx) (ret tt)).

(** The vectors, two messages in the first link, then one in each; the buffers of a send follow. *)
Definition enter_mmsg_base3 (ctx : trace_event_raw_sys_enter) : prog unit :=
  let* f := ENTER_PROLOGUE ctx in
  if negb (is_mmsg_direct_syscall (ef_sys_id f)) then ret tt
  else
    emit_mmsg_base3_enter_event_v2_direct (ef_pid f) (ef_tid f) (ef_sys_id f) ctx (ef_enter_time f) ;;;
    if one_of (ef_sys_id f) [SYS_SENDMMSG] then
      chain_to mmsg_bytes_progs MMSG_BYTES_PROG_BASE0 (enter_mmsg_bytes0 ctx) (ret tt)
    else ret tt.

Definition enter_mmsg_base2 (ctx : trace_event_raw_sys_enter) : prog unit :=
  let* f := ENTER_PROLOGUE ctx in
  if negb (is_mmsg_direct_syscall (ef_sys_id f)) then ret tt
  else
    emit_mmsg_base2_enter_event_v2_direct (ef_pid f) (ef_tid f) (ef_sys_id f) ctx (ef_enter_time f) ;;;
    chain_to enter_progs ENTER_PROG_MMSG_BASE3 (enter_mmsg_base3 ctx) (ret tt).

Definition enter_mmsg_base01 (ctx : trace_event_raw_sys_enter) : prog unit :=
  let* f := ENTER_PROLOGUE ctx in
  if negb (is_mmsg_direct_syscall (ef_sys_id f)) then ret tt
  else
    emit_mmsg_base0_enter_event_v2_direct (ef_pid f) (ef_tid f) (ef_sys_id f) ctx (ef_enter_time f) ;;;
    emit_mmsg_base1_enter_event_v2_direct (ef_pid f) (ef_tid f) (ef_sys_id f) ctx (ef_enter_time f) ;;;
    chain_to enter_progs ENTER_PROG_MMSG_BASE2 (enter_mmsg_base2 ctx) (ret tt).

Definition enter_mmsg (ctx : trace_event_raw_sys_enter) : prog unit :=
  let* f := ENTER_PROLOGUE ctx in
  emit_mmsg_enter_event_v2_direct (ef_pid f) (ef_tid f) (ef_sys_id f) ctx (ef_enter_time f) ;;;
  save_frame ctx f ;;;
  chain_to enter_progs ENTER_PROG_MMSG_BASE01 (enter_mmsg_base01 ctx) (ret tt).

(** ** [quota_dispatch.h], [mount_path_dispatch.h] *)

Definition enter_quota (ctx : trace_event_raw_sys_enter) : prog unit :=
  let* f := ENTER_PROLOGUE ctx in
  if negb (is_quota_direct_syscall (ef_sys_id f)) then ret tt
  else
    emit_quota_enter_event_v2_direct (ef_pid f) (ef_tid f) (ef_sys_id f) ctx (ef_enter_time f) ;;;
    save_frame ctx f.

Definition enter_mount_path (ctx : trace_event_raw_sys_enter) : prog unit :=
  let* f := ENTER_PROLOGUE ctx in
  if negb (is_mount_path_direct_syscall (ef_sys_id f)) then ret tt
  else
    emit_mount_path_enter_event_v2_direct (ef_pid f) (ef_tid f) (ef_sys_id f) ctx (ef_enter_time f) ;;;
    save_frame ctx f.

(** ** The loaded programs *)

Definition loaded_enter : list (Z * (trace_event_raw_sys_enter -> prog unit)) :=
  [(ENTER_PROG_TERMINATING, enter_terminating);
   (ENTER_PROG_EXEC, enter_exec);
   (ENTER_PROG_PATH_STAT, enter_path_stat);
   (ENTER_PROG_PATH_ONLY, enter_path_only);
   (ENTER_PROG_DUAL_PATH, enter_dual_path);
   (ENTER_PROG_OPENAT2, enter_openat2);
   (ENTER_PROG_READLINK, enter_readlink);
   (ENTER_PROG_MISC_STRUCT, enter_misc_struct);
   (ENTER_PROG_SMALL_STRUCT, enter_small_struct);
   (ENTER_PROG_ITIMER, enter_itimer);
   (ENTER_PROG_TIME_STRUCT, enter_time_struct);
   (ENTER_PROG_SIGNAL, enter_signal);
   (ENTER_PROG_FILE_TIME, enter_file_time);
   (ENTER_PROG_SLEEP, enter_sleep);
   (ENTER_PROG_FUTEX, enter_futex);
   (ENTER_PROG_CACHESTAT, enter_cachestat);
   (ENTER_PROG_CAPABILITY, enter_capability);
   (ENTER_PROG_MEMFD, enter_memfd);
   (ENTER_PROG_PRCTL, enter_prctl);
   (ENTER_PROG_CLONE3, enter_clone3);
   (ENTER_PROG_BPF, enter_bpf);
   (ENTER_PROG_IOVEC, enter_iovec);
   (ENTER_PROG_MSG, enter_msg);
   (ENTER_PROG_MMSG, enter_mmsg);
   (ENTER_PROG_FCNTL, enter_fcntl);
   (ENTER_PROG_IOCTL, enter_ioctl);
   (ENTER_PROG_NETWORK, enter_network);
   (ENTER_PROG_KEY, enter_key);
   (ENTER_PROG_XATTR, enter_xattr);
   (ENTER_PROG_FS, enter_fs);
   (ENTER_PROG_AIO, enter_aio);
   (ENTER_PROG_POLL, enter_poll);
   (ENTER_PROG_SELECT, enter_select);
   (ENTER_PROG_EPOLL, enter_epoll);
   (ENTER_PROG_NO_PAYLOAD_DIRECT, enter_no_payload_direct);
   (ENTER_PROG_PAYLOAD_DIRECT, enter_payload_direct);
   (ENTER_PROG_IOVEC_BASE, enter_iovec_base);
   (ENTER_PROG_SENDMSG_BASE, enter_sendmsg_base);
   (ENTER_PROG_MMSG_BASE01, enter_mmsg_base01);
   (ENTER_PROG_MMSG_BASE2, enter_mmsg_base2);
   (ENTER_PROG_MMSG_BASE3, enter_mmsg_base3);
   (ENTER_PROG_AIO_IOVEC, enter_aio_iovec);
   (ENTER_PROG_AIO_BUF, enter_aio_buf);
   (ENTER_PROG_QUOTA, enter_quota);
   (ENTER_PROG_MOUNT_PATH, enter_mount_path);
   (ENTER_PROG_NO_PAYLOAD_GENERIC, enter_no_payload_generic);
   (ENTER_PROG_NESTED_FD_PATH0, enter_nested_fd_path0);
   (ENTER_PROG_NESTED_FD_PATH1, enter_nested_fd_path1);
   (ENTER_PROG_NESTED_FD_PATH2, enter_nested_fd_path2);
   (ENTER_PROG_NESTED_FD_PATH3, enter_nested_fd_path3);
   (ENTER_PROG_BPF_UPROBE_MULTI, enter_bpf_uprobe_multi);
   (ENTER_PROG_BPF_PROG_LOAD, enter_bpf_prog_load);
   (ENTER_PROG_BPF_PROG_LOAD_DEBUG, enter_bpf_prog_load_debug);
   (ENTER_PROG_BPF_TRACING_MULTI, enter_bpf_tracing_multi)].
End EnterHandlers.

Section EnterHandlerLemmas.
Context {K : Kernel} {A : Arch} {R : world -> world -> Prop} {HR : HandlerRelation R}.
Hint Extern 5 (keeps R _) => (apply emits_keeps) : keeps.

Lemma save_pending_network_keeps tid pid sys_id args t s len :
  keeps R (save_pending_network_syscall_args tid pid sys_id args t s len).
Proof. unfold save_pending_network_syscall_args. keeps_solve. Qed.
Hint Resolve save_pending_network_keeps : keeps.

Lemma load_nested_quiet ctx : keeps quiet (load_nested_fd_path_fragment_context ctx).
Proof. unfold load_nested_fd_path_fragment_context, lookup_fd_path_scratch. keeps_solve. Qed.
Hint Resolve load_nested_quiet : keeps.
Lemma enter_nested_keeps i fd next ctx : keeps R next -> keeps R (enter_nested_fd_path i fd next ctx).
Proof. intros. unfold enter_nested_fd_path. keeps_solve. Qed.
Lemma enter_nested3_keeps ctx : keeps R (enter_nested_fd_path3 ctx).
Proof. apply enter_nested_keeps. keeps_solve. Qed.
Lemma enter_nested2_keeps ctx : keeps R (enter_nested_fd_path2 ctx).
Proof. apply enter_nested_keeps, chain_to_keeps; [apply enter_nested3_keeps | keeps_solve]. Qed.
Lemma enter_nested1_keeps ctx : keeps R (enter_nested_fd_path1 ctx).
Proof. apply enter_nested_keeps, chain_to_keeps; [apply enter_nested2_keeps | keeps_solve]. Qed.
Lemma enter_nested0_keeps ctx : keeps R (enter_nested_fd_path0 ctx).
Proof. apply enter_nested_keeps, chain_to_keeps; [apply enter_nested1_keeps | keeps_solve]. Qed.
Lemma enter_iovec_base_keeps ctx : keeps R (enter_iovec_base ctx).
Proof. unfold enter_iovec_base. keeps_solve. Qed.
Hint Resolve enter_nested0_keeps enter_nested1_keeps enter_nested2_keeps enter_nested3_keeps
  enter_iovec_base_keeps : keeps.
Hint Resolve chain_to_end_keeps : keeps.
Lemma enter_aio_buf_keeps ctx : keeps R (enter_aio_buf ctx).
Proof. unfold enter_aio_buf. keeps_solve. Qed.
Hint Resolve enter_aio_buf_keeps : keeps.
Lemma enter_aio_iovec_keeps ctx : keeps R (enter_aio_iovec ctx).
Proof. unfold enter_aio_iovec. keeps_solve. Qed.
Hint Resolve enter_aio_iovec_keeps : keeps.

Lemma enter_bpf_prog_load_debug_keeps ctx : keeps R (enter_bpf_prog_load_debug ctx).
Proof. unfold enter_bpf_prog_load_debug. keeps_solve. Qed.
Hint Resolve enter_bpf_prog_load_debug_keeps : keeps.
Lemma enter_bpf_prog_load_keeps ctx : keeps R (enter_bpf_prog_load ctx).
Proof. unfold enter_bpf_prog_load. keeps_solve. Qed.
Lemma enter_bpf_uprobe_multi_keeps ctx : keeps R (enter_bpf_uprobe_multi ctx).
Proof. apply enter_family_keeps. keeps_solve. Qed.
Lemma enter_bpf_tracing_multi_keeps ctx : keeps R (enter_bpf_tracing_multi ctx).
Proof. apply enter_family_keeps. keeps_solve. Qed.
Hint Resolve enter_bpf_prog_load_keeps enter_bpf_uprobe_multi_keeps enter_bpf_tracing_multi_keeps : keeps.
Lemma save_bpf_aux_keeps tid args : keeps R (save_bpf_aux tid args).
Proof. unfold save_bpf_aux, bpf_attr_read_u32_direct, bpf_attr_read. keeps_solve. Qed.
Hint Resolve save_bpf_aux_keeps : keeps.
Lemma link_attach_type_quiet types attr_ptr size : keeps quiet (link_attach_type types attr_ptr size).
Proof. apply link_attach_reader. Qed.
Lemma is_uprobe_multi_quiet args : keeps quiet (is_bpf_uprobe_multi_enter_direct args).
Proof. unfold is_bpf_uprobe_multi_enter_direct. pose proof link_attach_type_quiet. keeps_solve. Qed.
Lemma is_tracing_multi_quiet args : keeps quiet (is_bpf_tracing_multi_enter_direct args).
Proof. unfold is_bpf_tracing_multi_enter_direct. pose proof link_attach_type_quiet. keeps_solve. Qed.
Hint Resolve is_uprobe_multi_quiet is_tracing_multi_quiet : keeps.
Lemma enter_bpf_keeps ctx : keeps R (enter_bpf ctx).
Proof.
  unfold enter_bpf. keeps_solve. all: repeat first [apply chain_to_keeps | keeps_step | solve [eauto with keeps]].
Qed.
Hint Resolve enter_bpf_keeps : keeps.

Lemma enter_sendmsg_base_keeps ctx : keeps R (enter_sendmsg_base ctx).
Proof. unfold enter_sendmsg_base. keeps_solve. Qed.
Hint Resolve enter_sendmsg_base_keeps : keeps.
Lemma msg_read_name_quiet msg_ptr : keeps quiet (msg_direct_read_name msg_ptr).
Proof. apply msg_pair_reader. lia. Qed.
Lemma save_pending_msg_keeps tid pid sys_id t s ctx :
  keeps R (save_pending_msg_syscall_args tid pid sys_id ctx t s).
Proof. unfold save_pending_msg_syscall_args. pose proof msg_read_name_quiet. keeps_solve. Qed.
Hint Resolve save_pending_msg_keeps : keeps.
Lemma enter_msg_keeps ctx : keeps R (enter_msg ctx).
Proof. unfold enter_msg. keeps_solve. Qed.

(** A link emits its record and goes on. *)
Lemma enter_mmsg_bytes_keeps slot next ctx :
  keeps R (next ctx) ->
  keeps R (enter_mmsg_bytes
    (emit_mmsg_bytes_base_enter (capture_mmsg_bytes_base_slot_enter_payloads_tlv_direct slot)) next ctx).
Proof. intros. unfold enter_mmsg_bytes. keeps_solve. Qed.
Lemma enter_mmsg_bytes0_keeps ctx : keeps R (enter_mmsg_bytes0 ctx).
Proof.
  repeat (apply enter_mmsg_bytes_keeps; cbv beta; first [apply chain_to_end_keeps | solve [keeps_solve]]).
Qed.
Hint Resolve enter_mmsg_bytes0_keeps : keeps.
Lemma enter_mmsg_base3_keeps ctx : keeps R (enter_mmsg_base3 ctx).
Proof. unfold enter_mmsg_base3. keeps_solve. Qed.
Hint Resolve enter_mmsg_base3_keeps : keeps.
Lemma enter_mmsg_base2_keeps ctx : keeps R (enter_mmsg_base2 ctx).
Proof. unfold enter_mmsg_base2. keeps_solve. Qed.
Hint Resolve enter_mmsg_base2_keeps : keeps.
Lemma enter_mmsg_base01_keeps ctx : keeps R (enter_mmsg_base01 ctx).
Proof. unfold enter_mmsg_base01. keeps_solve. Qed.
Hint Resolve enter_mmsg_base01_keeps : keeps.
Lemma enter_mmsg_keeps ctx : keeps R (enter_mmsg ctx).
Proof. unfold enter_mmsg. keeps_solve. Qed.
Hint Resolve enter_msg_keeps enter_mmsg_keeps : keeps.

(** Every entry handler stays in every relation handlers may be asked to keep. *)
Lemma loaded_enter_keeps ctx : Forall (fun e => keeps R (snd e ctx)) loaded_enter.
Proof.
  unfold loaded_enter. repeat apply List.Forall_cons; try apply List.Forall_nil; cbn [snd].
  all: first [solve [eauto with keeps] | unfold_handler; unfold enter_family].
  all: lazymatch goal with
       | |- keeps _ (enter_handler_body _ _) => apply enter_handler_body_keeps; intros f; cbv beta
       | |- _ => idtac
       end.
  all: keeps_solve.
Qed.
End EnterHandlerLemmas.
