(* ===== verification/ExitHandlers.v ===== *)
(** The exit handlers.

    Models the handlers of [bpf/exit_dispatch.h], [bpf/exit_direct_dispatch.h],
    [bpf/nested_fd_path_dispatch.h], [bpf/quota_dispatch.h] and
    [bpf/mount_query_dispatch.h], and the table [loaded_exit] that the loader fills
    with them. *)
From stdpp Require Import base list gmap numbers.
From S2P Require Import Prelude Syscalls Abi Kernel Stats Tlv Emit Decoder EventCore Payload LifecycleState Pending Namespace Lifecycle Signal Structs FdPath Paths Misc Captures Control Keyring Xattr Quota Filesystem Network Slots Iovec NestedFd Poll Select Aio Bpf BpfExit Message Handlers.

Section ExitHandlers.
Context {K : Kernel} {A : Arch}.

(** ** [exit_dispatch.h] *)

Definition emit_generic_exit_fd_time_event (p : pending_syscall) (ret_value duration : Z)
    : prog bool :=
  let sys_id := p_sys_id p in
  if is_fd_state_exit_direct_syscall sys_id && (0 <=? ret_value) then
    emit_fd_state_exit_event_v2_direct p ret_value duration ;;; ret true
  else if is_exit_payload_direct_syscall sys_id && (0 <? ret_value) then
    emit_payload_exit_event_v2_direct p ret_value duration ;;; ret true
  else if is_time_direct_syscall sys_id && (0 <=? ret_value) then
    emit_time_exit_event_v2_direct p ret_value duration ;;; ret true
  else if is_gettimeofday_direct_syscall sys_id && (0 <=? ret_value) then
    emit_gettimeofday_exit_event_v2_direct p ret_value duration ;;; ret true
  else if is_clock_time_struct_direct_syscall sys_id && (0 <=? ret_value) then
    emit_time_struct_exit_event_v2_direct p ret_value duration ;;; ret true
  else if is_itimer_exit_direct_syscall sys_id && (0 <=? ret_value) then
    emit_itimer_exit_event_v2_direct p ret_value duration ;;; ret true
  else if is_timex_exit_direct_syscall sys_id && (0 <=? ret_value) then
    emit_timex_exit_event_v2_direct p ret_value duration ;;; ret true
  else if is_sleep_direct_syscall sys_id then
    emit_sleep_exit_event_v2_direct p ret_value duration ;;; ret true
  else ret false.

Definition emit_generic_exit_struct_event (p : pending_syscall) (ret_value duration : Z)
    : prog bool :=
  let sys_id := p_sys_id p in
  if is_stat_struct_direct_syscall sys_id && (0 <=? ret_value) then
    emit_stat_struct_exit_event_v2_direct p ret_value duration ;;; ret true
  else if is_waitid_direct_syscall sys_id && (0 <=? ret_value) then
    emit_waitid_exit_event_v2_direct p ret_value duration ;;; ret true
  else if is_signal_direct_syscall sys_id && (0 <=? ret_value) then
    emit_signal_exit_event_v2_direct p ret_value duration ;;; ret true
  else if is_getcwd_direct_syscall sys_id && (0 <? ret_value) then
    emit_getcwd_exit_event_v2_direct p ret_value duration ;;; ret true
  else if is_readlink_direct_syscall sys_id && (0 <? ret_value) then
    emit_readlink_exit_event_v2_direct p ret_value duration ;;; ret true
  else if is_fd_array_direct_syscall sys_id && (ret_value =? 0) then
    emit_fd_array_exit_event_v2_direct p ret_value duration ;;; ret true
  else if is_misc_struct_exit_direct_syscall sys_id && (0 <=? ret_value) then
    emit_misc_struct_exit_event_v2_direct p ret_value duration ;;; ret true
  else ret false.

Definition emit_generic_exit_async_event (p : pending_syscall) (ret_value duration : Z)
    : prog bool :=
  let sys_id := p_sys_id p in
  if is_small_struct_exit_direct_syscall sys_id && (0 <=? ret_value) then
    emit_small_struct_exit_event_v2_direct p ret_value duration ;;; ret true
  else if is_cachestat_direct_syscall sys_id && (0 <=? ret_value) then
    emit_cachestat_exit_event_v2_direct p ret_value duration ;;; ret true
  else if one_of sys_id [SYS_CAPGET] && (0 <=? ret_value) then
    emit_capability_exit_event_v2_direct p ret_value duration ;;; ret true
  else if is_prctl_direct_syscall sys_id && (0 <=? ret_value) then
    emit_prctl_exit_event_v2_direct p ret_value duration ;;; ret true
  else if is_aio_getevents_direct_syscall sys_id && (0 <? ret_value) then
    emit_aio_getevents_exit_event_v2_direct p ret_value duration ;;; ret true
  else if is_aio_setup_direct_syscall sys_id && (0 <=? ret_value) then
    emit_aio_setup_exit_event_v2_direct p ret_value duration ;;; ret true
  else if is_poll_direct_syscall sys_id && (0 <? ret_value) then
    emit_poll_exit_event_v2_direct p ret_value duration ;;; ret true
  else ret false.

Definition emit_generic_exit_io_event (p : pending_syscall) (ret_value duration : Z)
    : prog bool :=
  let sys_id := p_sys_id p in
  let* done := if is_bpf_direct_syscall sys_id then emit_bpf_exit_event_v2_direct p ret_value duration else ret false in
  if done : bool then ret true
  else
    let* done := if is_keyctl_direct_syscall sys_id then emit_keyctl_exit_event_v2_direct p ret_value duration else ret false in
    if done : bool then ret true
    else if is_select_direct_syscall sys_id && (0 <=? ret_value) then
      emit_select_exit_event_v2_direct p ret_value duration ;;; ret true
    else if is_epoll_wait_direct_syscall sys_id && (0 <? ret_value) then
      emit_epoll_wait_exit_event_v2_direct p ret_value duration ;;; ret true
    else if is_getdents_direct_syscall sys_id && (0 <? ret_value) then
      emit_getdents_exit_event_v2_direct p ret_value duration ;;; ret true
    else if is_exec_payload_direct_syscall sys_id && negb (ret_value =? 0) then
      emit_exec_exit_event_v2_direct p ret_value duration ;;; ret true
    else if is_xattr_get_direct_syscall sys_id && (0 <? ret_value) then
      emit_xattr_get_exit_event_v2_direct p ret_value duration ;;; ret true
    else if is_xattr_list_direct_syscall sys_id && (0 <? ret_value) then
      emit_xattr_list_exit_event_v2_direct p ret_value duration ;;; ret true
    else ret false.

Definition emit_generic_exit_control_event (p : pending_syscall) (ret_value duration : Z)
    : prog bool :=
  let sys_id := p_sys_id p in
  if is_fcntl_direct_syscall sys_id then
    emit_fcntl_exit_event_v2_direct p ret_value duration ;;; ret true
  else if is_ioctl_direct_syscall sys_id then
    emit_ioctl_exit_event_v2_direct p ret_value duration ;;; ret true
  else if is_network_direct_syscall sys_id then
    emit_network_exit_event_v2_direct p ret_value duration ;;; ret true
  else ret false.

Definition emit_generic_exit_event (p : pending_syscall) (ret_value duration : Z) : prog unit :=
  emit_syscall_exit_event_v2_direct p ret_value duration 0.

Definition exit_generic (ctx : trace_event_raw_sys_exit) : prog unit :=
  exit_handler_body ctx (fun ret_value f =>
    emit_generic_exit_event (xf_p f) ret_value (xf_duration f) ;;;
    consume_frame f).

Definition exit_namespace (ctx : trace_event_raw_sys_exit) : prog unit :=
  let sys_id := u32 (exit_id ctx) in
  if negb (one_of sys_id [SYS_CLONE; SYS_CLONE3; SYS_SETNS; SYS_UNSHARE]) then ret tt
  else exit_handler_body ctx (fun ret_value f =>
    emit_namespace_exit_event_v2_direct (xf_p f) ret_value (xf_duration f) ;;;
    consume_frame f).

Definition exit_pid_namespace (ctx : trace_event_raw_sys_exit) : prog unit :=
  let sys_id := u32 (exit_id ctx) in
  if negb (one_of sys_id [SYS_GETPID; SYS_GETTID; SYS_FORK; SYS_VFORK]) then ret tt
  else exit_handler_body ctx (fun ret_value f =>
    emit_pid_namespace_exit_event_v2_direct (xf_p f) ret_value (xf_duration f) ;;;
    consume_frame f).

Definition exit_path_syscall (sys_id : Z) : bool :=
  is_path_only_direct_syscall sys_id || is_dual_path_direct_syscall sys_id ||
  is_open_creat_path_direct_syscall sys_id || is_openat2_direct_syscall sys_id.

Definition exit_path (ctx : trace_event_raw_sys_exit) : prog unit :=
  let sys_id := u32 (exit_id ctx) in
  if negb (exit_path_syscall sys_id) then ret tt
  else exit_handler_body ctx (fun ret_value f =>
    let p := xf_p f in
    if negb (exit_path_syscall (p_sys_id p)) then ret tt
    else
      (if is_path_only_direct_syscall (p_sys_id p) then
         emit_path_only_exit_event_v2_direct p ret_value (xf_duration f)
       else if is_dual_path_direct_syscall (p_sys_id p) then
         emit_dual_path_exit_event_v2_direct p ret_value (xf_duration f)
       else if is_openat2_direct_syscall (p_sys_id p) then
         emit_openat2_exit_event_v2_direct p ret_value (xf_duration f)
       else
         emit_open_creat_fd_state_path_exit_event_v2_direct p ret_value (xf_duration f)) ;;;
      consume_frame f).

Definition exit_iovec_base (ctx : trace_event_raw_sys_exit) : prog unit :=
  if negb (is_iovec_base_exit_direct_syscall (u32 (exit_id ctx))) then ret tt
  else exit_handler_body ctx (fun ret_value f =>
    let p := xf_p f in
    if negb (is_iovec_base_exit_direct_syscall (p_sys_id p)) then ret tt
    else
      (if 0 <? ret_value then emit_iovec_base_exit_event_v2_direct p ret_value (xf_duration f)
       else emit_syscall_exit_event_v2_direct p ret_value (xf_duration f) 0) ;;;
      consume_frame f).

(** [recvmsg] exits through its kretprobe: nothing is done for it here. *)
Definition exit_msg (ctx : trace_event_raw_sys_exit) : prog unit :=
  if negb (one_of (u32 (exit_id ctx)) [SYS_SENDMSG]) then ret tt
  else exit_handler_body ctx (fun ret_value f =>
    if negb (one_of (p_sys_id (xf_p f)) [SYS_SENDMSG]) then ret tt
    else
      emit_single_msg_exit_event_v2_direct (xf_p f) ret_value (xf_duration f) ;;;
      consume_frame f).

(** The exit of a call with several messages, where the chain ends. *)
Definition finish_mmsg (f : exit_frame) (ret_value : Z) : prog unit :=
  emit_mmsg_exit_event_v2_direct (xf_p f) ret_value (xf_duration f) ;;;
  consume_frame f.

Definition exit_mmsg_final (ctx : trace_event_raw_sys_exit) : prog unit :=
  if negb (is_mmsg_direct_syscall (u32 (exit_id ctx))) then ret tt
  else exit_handler_body ctx (fun ret_value f =>
    if negb (is_mmsg_direct_syscall (p_sys_id (xf_p f))) then ret tt else finish_mmsg f ret_value).

Definition exit_recvmmsg_base23 (ctx : trace_event_raw_sys_exit) : prog unit :=
  if negb (one_of (u32 (exit_id ctx)) [SYS_RECVMMSG]) then ret tt
  else exit_handler_body ctx (fun ret_value f =>
    if negb (one_of (p_sys_id (xf_p f)) [SYS_RECVMMSG]) then ret tt
    else
      emit_recvmmsg_base2_exit_fragment_event_v2_direct (xf_p f) ret_value (xf_duration f) ;;;
      emit_recvmmsg_base3_exit_fragment_event_v2_direct (xf_p f) ret_value (xf_duration f) ;;;
      chain_to exit_progs EXIT_PROG_MMSG_FINAL (exit_mmsg_final ctx) (finish_mmsg f ret_value)).

Definition exit_recvmmsg_base01 (ctx : trace_event_raw_sys_exit) : prog unit :=
  if negb (one_of (u32 (exit_id ctx)) [SYS_RECVMMSG]) then ret tt
  else exit_handler_body ctx (fun ret_value f =>
    if negb (one_of (p_sys_id (xf_p f)) [SYS_RECVMMSG]) then ret tt
    else
      emit_recvmmsg_base0_exit_fragment_event_v2_direct (xf_p f) ret_value (xf_duration f) ;;;
      emit_recvmmsg_base1_exit_fragment_event_v2_direct (xf_p f) ret_value (xf_duration f) ;;;
      chain_to exit_progs EXIT_PROG_RECVMMSG_BASE23 (exit_recvmmsg_base23 ctx) (finish_mmsg f ret_value)).

(** ** [nested_fd_path_exit_dispatch.h] *)

(** The frame of the exit and the number of candidates in the scratch area. *)
Definition load_nested_fd_path_exit_context (ctx : trace_event_raw_sys_exit) : prog (option (exit_frame * Z)) :=
  if negb (is_epoll_wait_direct_syscall (u32 (exit_id ctx))) then ret None
  else
    let sys_id := u32 (exit_id ctx) in
    let ret_value := s64 (exit_ret ctx) in
    let* (pid, tid) := current_pid_tid in
    let* (pending, pending_tid, is_pending_lookup) := lookup_pending_syscall_for_exit pid tid ret_value in
    match pending with
    | None => record_unmatched_exit_if_needed pid tid sys_id ret_value ;;; ret None
    | Some p =>
        let* ok := validate_pending_syscall_exit p sys_id pid pending_tid in
        if negb ok then ret None
        else
          let* scratch := lookup_fd_path_scratch in
          match scratch with
          | None => ret None
          | Some s =>
              if (sc_nested_fd_count s =? 0) || (FD_PATH_NESTED_MAX <? sc_nested_fd_count s) then ret None
              else
                let* duration := pending_syscall_duration p in
                ret (Some (ExitFrame pid p is_pending_lookup pending_tid duration, sc_nested_fd_count s))
          end
    end.

Definition finish_nested_fd_path_exit (f : exit_frame) (ret_value : Z) : prog unit :=
  emit_epoll_wait_exit_event_v2_direct (xf_p f) ret_value (xf_duration f) ;;;
  consume_frame f.

(** The handler of candidate [i]: the guard, the fragment, then the next candidate or the event. *)
Definition exit_nested_fd_path (i : Z) (fd : fd_path_scratch -> Z) (next : prog unit -> prog unit)
    (ctx : trace_event_raw_sys_exit) : prog unit :=
  let ret_value := s64 (exit_ret ctx) in
  let* fragment := load_nested_fd_path_exit_context ctx in
  match fragment with
  | None => ret tt
  | Some (f, count) =>
      if (0 <? i) && (count <=? i) then ret tt
      else
        let* fd := scratch_get fd in
        emit_nested_fd_path_fragment_event_v2_direct (xf_p f) fd ;;;
        if i + 1 <? count then next (finish_nested_fd_path_exit f ret_value)
        else finish_nested_fd_path_exit f ret_value
  end.

Definition exit_nested_fd_path3 (ctx : trace_event_raw_sys_exit) : prog unit :=
  exit_nested_fd_path 3 sc_nested_fd3 (fun finish => finish) ctx.
Definition exit_nested_fd_path2 (ctx : trace_event_raw_sys_exit) : prog unit :=
  exit_nested_fd_path 2 sc_nested_fd2
    (chain_to exit_progs EXIT_PROG_NESTED_FD_PATH3 (exit_nested_fd_path3 ctx)) ctx.
Definition exit_nested_fd_path1 (ctx : trace_event_raw_sys_exit) : prog unit :=
  exit_nested_fd_path 1 sc_nested_fd1
    (chain_to exit_progs EXIT_PROG_NESTED_FD_PATH2 (exit_nested_fd_path2 ctx)) ctx.
Definition exit_nested_fd_path0 (ctx : trace_event_raw_sys_exit) : prog unit :=
  exit_nested_fd_path 0 sc_nested_fd0
    (chain_to exit_progs EXIT_PROG_NESTED_FD_PATH1 (exit_nested_fd_path1 ctx)) ctx.

(** ** [quota_dispatch.h], [mount_query_dispatch.h] *)

Definition exit_quota (ctx : trace_event_raw_sys_exit) : prog unit :=
  exit_handler_body ctx (fun ret_value f =>
    let p := xf_p f in
    if negb (is_quota_direct_syscall (p_sys_id p)) then ret tt
    else
      let command := quota_direct_pending_command p in
      (if (0 <=? ret_value) && quota_direct_has_exit_payload command then
         emit_quota_exit_event_v2_direct p ret_value (xf_duration f)
       else emit_syscall_exit_event_v2_direct p ret_value (xf_duration f) 0) ;;;
      consume_frame f).

Definition exit_mount_query (ctx : trace_event_raw_sys_exit) : prog unit :=
  exit_handler_body ctx (fun ret_value f =>
    let p := xf_p f in
    if negb (is_mount_query_direct_syscall (p_sys_id p)) then ret tt
    else
      (if 0 <=? ret_value then emit_mount_query_exit_event_v2_direct p ret_value (xf_duration f)
       else emit_syscall_exit_event_v2_direct p ret_value (xf_duration f) 0) ;;;
      consume_frame f).

(** ** [exit_direct_dispatch.h] *)

Definition exit_fd_time : trace_event_raw_sys_exit -> prog unit :=
  exit_family emit_generic_exit_fd_time_event.
Definition exit_struct : trace_event_raw_sys_exit -> prog unit :=
  exit_family emit_generic_exit_struct_event.
Definition exit_async : trace_event_raw_sys_exit -> prog unit :=
  exit_family emit_generic_exit_async_event.
(** A wait first follows the descriptors it reports; their programs emit its event. *)
Definition exit_io (ctx : trace_event_raw_sys_exit) : prog unit :=
  exit_handler_body ctx (fun ret_value f =>
    let p := xf_p f in
    if is_epoll_wait_direct_syscall (p_sys_id p) && (0 <? ret_value) then
      let* nested_fd_count := collect_epoll_fd_path_candidates_direct p ret_value in
      let finish :=
        emit_epoll_wait_exit_event_v2_direct p ret_value (xf_duration f) ;;;
        consume_frame f in
      if 0 <? nested_fd_count
      then chain_to exit_progs EXIT_PROG_NESTED_FD_PATH0 (exit_nested_fd_path0 ctx) finish else finish
    else
      let* done := emit_generic_exit_io_event p ret_value (xf_duration f) in
      (if done : bool then ret tt else emit_syscall_exit_event_v2_direct p ret_value (xf_duration f) 0) ;;;
      consume_frame f).
Definition exit_control : trace_event_raw_sys_exit -> prog unit :=
  exit_family emit_generic_exit_control_event.

(** ** The loaded programs *)

Definition loaded_exit : list (Z * (trace_event_raw_sys_exit -> prog unit)) :=
  [(EXIT_PROG_GENERIC, exit_generic); (EXIT_PROG_IOVEC_BASE, exit_iovec_base);
   (EXIT_PROG_MSG, exit_msg); (EXIT_PROG_MMSG_FINAL, exit_mmsg_final);
   (EXIT_PROG_RECVMMSG_BASE01, exit_recvmmsg_base01); (EXIT_PROG_RECVMMSG_BASE23, exit_recvmmsg_base23);
   (EXIT_PROG_QUOTA, exit_quota);
   (EXIT_PROG_MOUNT_QUERY, exit_mount_query); (EXIT_PROG_PATH, exit_path);
   (EXIT_PROG_FD_TIME, exit_fd_time); (EXIT_PROG_STRUCT, exit_struct);
   (EXIT_PROG_ASYNC, exit_async); (EXIT_PROG_IO, exit_io); (EXIT_PROG_CONTROL, exit_control);
   (EXIT_PROG_NESTED_FD_PATH0, exit_nested_fd_path0); (EXIT_PROG_NESTED_FD_PATH1, exit_nested_fd_path1);
   (EXIT_PROG_NESTED_FD_PATH2, exit_nested_fd_path2); (EXIT_PROG_NESTED_FD_PATH3, exit_nested_fd_path3);
   (EXIT_PROG_NAMESPACE, exit_namespace); (EXIT_PROG_PID_NAMESPACE, exit_pid_namespace)].
End ExitHandlers.

Section ExitHandlerLemmas.
Context {K : Kernel} {A : Arch} {R : world -> world -> Prop} {HR : HandlerRelation R}.
Hint Extern 5 (keeps R _) => (apply emits_keeps) : keeps.

Lemma emit_fd_time_keeps p z dur : keeps R (emit_generic_exit_fd_time_event p (s64 z) dur).
Proof. unfold emit_generic_exit_fd_time_event. keeps_solve. Qed.
Lemma emit_struct_keeps p z dur : keeps R (emit_generic_exit_struct_event p (s64 z) dur).
Proof. unfold emit_generic_exit_struct_event. keeps_solve. Qed.
Lemma emit_async_keeps p z dur : keeps R (emit_generic_exit_async_event p (s64 z) dur).
Proof. unfold emit_generic_exit_async_event. keeps_solve. Qed.
Lemma emit_control_keeps p z dur : keeps R (emit_generic_exit_control_event p (s64 z) dur).
Proof. unfold emit_generic_exit_control_event. keeps_solve. Qed.
Lemma emit_io_keeps p z dur : keeps R (emit_generic_exit_io_event p (s64 z) dur).
Proof. unfold emit_generic_exit_io_event. keeps_solve. Qed.
Hint Resolve emit_fd_time_keeps emit_struct_keeps emit_async_keeps emit_control_keeps emit_io_keeps : keeps.

Lemma load_nested_exit_keeps ctx : keeps R (load_nested_fd_path_exit_context ctx).
Proof.
  unfold load_nested_fd_path_exit_context, lookup_fd_path_scratch. keeps_solve.
Qed.
Lemma finish_nested_exit_keeps f rv : keeps R (finish_nested_fd_path_exit f rv).
Proof. unfold finish_nested_fd_path_exit. keeps_solve. Qed.
Hint Resolve load_nested_exit_keeps finish_nested_exit_keeps : keeps.
Lemma exit_nested_keeps i fd next ctx :
  (forall m, keeps R m -> keeps R (next m)) -> keeps R (exit_nested_fd_path i fd next ctx).
Proof. intros Hn. unfold exit_nested_fd_path. keeps_solve. Qed.
Lemma exit_nested3_keeps ctx : keeps R (exit_nested_fd_path3 ctx).
Proof. by apply exit_nested_keeps. Qed.
Lemma exit_nested2_keeps ctx : keeps R (exit_nested_fd_path2 ctx).
Proof. apply exit_nested_keeps. intros. by apply chain_to_keeps; [apply exit_nested3_keeps|]. Qed.
Lemma exit_nested1_keeps ctx : keeps R (exit_nested_fd_path1 ctx).
Proof. apply exit_nested_keeps. intros. by apply chain_to_keeps; [apply exit_nested2_keeps|]. Qed.
Lemma exit_nested0_keeps ctx : keeps R (exit_nested_fd_path0 ctx).
Proof. apply exit_nested_keeps. intros. by apply chain_to_keeps; [apply exit_nested1_keeps|]. Qed.
Hint Resolve exit_nested0_keeps exit_nested1_keeps exit_nested2_keeps exit_nested3_keeps : keeps.
Lemma exit_io_keeps ctx : keeps R (exit_io ctx).
Proof.
  apply exit_handler_body_keeps. intros. cbv beta zeta. keeps_solve. apply chain_to_keeps; keeps_solve.
Qed.
Hint Resolve exit_io_keeps : keeps.

(** The links of the message chain, with the guards on the id of the exit and of the entry. *)
Lemma finish_mmsg_keeps f z : keeps R (finish_mmsg f (s64 z)).
Proof. unfold finish_mmsg. keeps_solve. Qed.
Hint Resolve finish_mmsg_keeps : keeps.
Lemma exit_mmsg_final_keeps ctx : keeps R (exit_mmsg_final ctx).
Proof.
  unfold exit_mmsg_final. destruct (negb _); [keeps_solve|]. apply exit_handler_body_keeps. intros. keeps_solve.
Qed.
Hint Resolve exit_mmsg_final_keeps : keeps.
Lemma exit_recvmmsg_base23_keeps ctx : keeps R (exit_recvmmsg_base23 ctx).
Proof.
  unfold exit_recvmmsg_base23. destruct (negb _); [keeps_solve|]. apply exit_handler_body_keeps. intros.
  keeps_solve. apply chain_to_keeps; keeps_solve.
Qed.
Hint Resolve exit_recvmmsg_base23_keeps : keeps.
Lemma exit_recvmmsg_base01_keeps ctx : keeps R (exit_recvmmsg_base01 ctx).
Proof.
  unfold exit_recvmmsg_base01. destruct (negb _); [keeps_solve|]. apply exit_handler_body_keeps. intros.
  keeps_solve. apply chain_to_keeps; keeps_solve.
Qed.
Hint Resolve exit_recvmmsg_base01_keeps : keeps.

(** Every exit handler stays in every relation handlers may be asked to keep. *)
Lemma loaded_exit_keeps ctx : Forall (fun e => keeps R (snd e ctx)) loaded_exit.
Proof.
  unfold loaded_exit. repeat apply List.Forall_cons; try apply List.Forall_nil; cbn [snd].
  all: first [solve [eauto with keeps] | unfold_handler; unfold exit_family, emit_generic_exit_event; cbv zeta].
  all: try (destruct (negb _); [solve [keeps_solve] |]).
  all: apply exit_handler_body_keeps; intros; cbv beta zeta; keeps_solve.
Qed.
End ExitHandlerLemmas.
