(* ===== verification/Recvmsg.v ===== *)
(** The kretprobe of [recvmsg].

    Models [bpf/recvmsg_kretprobe_dispatch.h] and [native_kretprobe_return] of
    [bpf/native_task_abi.h].  What [recvmsg] returned is in user memory before its
    sys_exit tracepoint fires; a chain of three programs reads the name, the
    control data, and the header with the buffers, and closes the syscall. *)
From stdpp Require Import base list gmap numbers.
From S2P Require Import Prelude Syscalls Abi Kernel Stats Tlv Emit Decoder EventCore Payload LifecycleState Pending Namespace Lifecycle Message Handlers.

Section Recvmsg.
Context {K : Kernel} {A : Arch}.

(** The return register of the probed function. *)
Definition native_kretprobe_return (regs : Z) : prog Z :=
  let* v := bpf_core_read (match target_arch with amd64 => pt_regs_ax | arm64 => pt_regs_regs0 end) regs in
  ret (s64 v).

(** The pending [recvmsg] of the task and its duration. *)
Definition pending_recvmsg (k : pending_syscall -> Z -> prog unit) : prog unit :=
  let* p := current_pending_syscall in
  match p with
  | None => ret tt
  | Some p =>
      if negb (one_of (p_sys_id p) [SYS_RECVMSG]) then ret tt
      else
        let* duration := pending_syscall_duration p in
        k p duration
  end.

Definition trace_kretprobe_recvmsg_final (regs : Z) : prog unit :=
  let* ret_value := native_kretprobe_return regs in
  let* (pid, tid) := current_pid_tid in
  pending_recvmsg (fun p duration =>
    emit_single_msg_exit_event_v2_direct p ret_value duration ;;;
    consume_pending_syscall pid tid p false).

Definition trace_kretprobe_recvmsg_control (regs : Z) : prog unit :=
  let* ret_value := native_kretprobe_return regs in
  pending_recvmsg (fun p duration =>
    emit_recvmsg_control_exit_fragment_event_v2_direct p ret_value duration ;;;
    chain_to recvmsg_progs RECVMSG_PROG_FINAL (trace_kretprobe_recvmsg_final regs) (ret tt)).

Definition trace_kretprobe_recvmsg_name (regs : Z) : prog unit :=
  let* ret_value := native_kretprobe_return regs in
  pending_recvmsg (fun p duration =>
    emit_recvmsg_name_exit_fragment_event_v2_direct p ret_value duration ;;;
    chain_to recvmsg_progs RECVMSG_PROG_CONTROL (trace_kretprobe_recvmsg_control regs) (ret tt)).

Definition trace_kretprobe_recvmsg_dispatch (regs : Z) : prog unit :=
  chain_to recvmsg_progs RECVMSG_PROG_NAME (trace_kretprobe_recvmsg_name regs) (ret tt).
End Recvmsg.

Section RecvmsgLemmas.
Context {K : Kernel} {A : Arch} {R : world -> world -> Prop} {HR : HandlerRelation R}.
Hint Extern 5 (keeps R _) => (apply emits_keeps) : keeps.

Lemma pending_recvmsg_keeps k : (forall p duration, keeps R (k p duration)) -> keeps R (pending_recvmsg k).
Proof. intros. unfold pending_recvmsg, current_pending_syscall, current_pending_task_state. keeps_solve. Qed.

(** A program that reads the return value, which fits its type, and goes on with the pending syscall. *)
Lemma kretprobe_keeps (regs : Z) (k : Z -> prog unit) :
  (forall z, keeps R (k (s64 z))) -> keeps R (let* ret_value := native_kretprobe_return regs in k ret_value).
Proof.
  intros Hk. unfold native_kretprobe_return. unfold bind, ret. intros w.
  pose proof (bpf_core_read_quiet (match target_arch with amd64 => pt_regs_ax | arm64 => pt_regs_regs0 end) regs w) as Q.
  destruct (bpf_core_read _ _ w) as [v w1]. cbn [fst snd] in *. etrans; [|apply Hk].
  by apply hr_emits, quiet_emits.
Qed.

Lemma recvmsg_final_keeps regs : keeps R (trace_kretprobe_recvmsg_final regs).
Proof.
  apply kretprobe_keeps. intros z. keeps_solve. apply pending_recvmsg_keeps. intros. keeps_solve.
Qed.
Hint Resolve recvmsg_final_keeps chain_to_end_keeps : keeps.
Lemma recvmsg_control_keeps regs : keeps R (trace_kretprobe_recvmsg_control regs).
Proof. apply kretprobe_keeps. intros z. apply pending_recvmsg_keeps. intros. keeps_solve. Qed.
Hint Resolve recvmsg_control_keeps : keeps.
Lemma recvmsg_name_keeps regs : keeps R (trace_kretprobe_recvmsg_name regs).
Proof. apply kretprobe_keeps. intros z. apply pending_recvmsg_keeps. intros. keeps_solve. Qed.
Hint Resolve recvmsg_name_keeps : keeps.
Lemma recvmsg_dispatch_keeps regs : keeps R (trace_kretprobe_recvmsg_dispatch regs).
Proof. apply chain_to_end_keeps. keeps_solve. Qed.
End RecvmsgLemmas.

#[export] Hint Resolve recvmsg_dispatch_keeps : keeps.
