(* ===== verification/Dispatch.v ===== *)
(** The syscall dispatchers.

    Models [bpf/strace.c]: [trace_sys_enter] and [trace_sys_exit].

    A dispatcher reaches a handler only through a tail call.  [Handlers] is the
    interface between the two: the programs loaded behind the indices of
    [capture_manifest_generated.h].  Its law is all the dispatchers rely on,
    and [loaded_handlers] is the table of [EnterHandlers] and [ExitHandlers]. *)
From stdpp Require Import base list gmap numbers.
From S2P Require Import Prelude Syscalls Abi Kernel Stats Tlv Emit Decoder EventCore Payload LifecycleState Pending Namespace Lifecycle Structs Handlers EnterHandlers ExitHandlers.

(** ** The interface between dispatchers and handlers *)

(** The programs a tail call can reach, by index; [None] for an empty slot. *)
Class Handlers {K : Kernel} {A : Arch} : Type := {
  enter_program : Z -> option (trace_event_raw_sys_enter -> prog unit);
  exit_program : Z -> option (trace_event_raw_sys_exit -> prog unit) }.

(** What a dispatcher may assume of a handler: it leaves no reservation behind
    and its emission attempts are accounted for. *)
Class HandlersOk {K : Kernel} {A : Arch} (H : Handlers) : Prop := {
  enter_program_accounted : forall i h ctx, enter_program i = Some h -> keeps accounted (h ctx);
  exit_program_accounted : forall i h ctx, exit_program i = Some h -> keeps accounted (h ctx) }.

Section Dispatchers.
Context {K : Kernel} {A : Arch} {H : Handlers}.

(** [bpf_tail_call(ctx, &routes, sys_id); fallback]: the fallback runs when
    the slot is empty or the kernel refuses the call. *)
Definition tail_call {Ctx} (table : Z -> option (Ctx -> prog unit)) (routes : map_id) (sys_id : Z)
    (ctx : Ctx) (fallback : prog unit) : prog unit :=
  let* i := bpf_tail_call routes sys_id in
  match i with
  | Some i => match table i with Some h => h ctx | None => fallback end
  | None => fallback
  end.

Definition trace_sys_enter (ctx : trace_event_raw_sys_enter) : prog unit :=
  let sys_id := u32 (enter_id ctx) in
  let* (pid, tid) := current_pid_tid in
  capture_tracer_pid_namespace ctx sys_id ;;;
  let* filter_flags := lookup_lifecycle_task_filter_flags pid tid in
  match filter_flags with
  | None => ret tt
  | Some _ =>
      let* rejected := reject_unsupported_syscall_abi pid tid sys_id in
      if rejected then ret tt
      else if one_of sys_id [SYS_RT_SIGRETURN] then ret tt
      else
        arm_pending_exec_replacement pid tid sys_id ;;;
        if is_pre_exec_suppressed_syscall filter_flags sys_id then ret tt
        else
          capture_pending_fork_flags tid sys_id ctx ;;;
          let* cfg := bpf_map_lookup_elem config_map 0 in
          let* traced := should_trace_syscall sys_id cfg in
          if negb traced && negb (is_fd_state_tracked sys_id cfg) then ret tt
          else tail_call enter_program enter_routes sys_id ctx
                 (emit_enter_dispatch_fallback ctx pid tid cfg)
  end.

Definition trace_sys_exit (ctx : trace_event_raw_sys_exit) : prog unit :=
  if exit_id ctx <? 0 then ret tt
  else
    let sys_id := u32 (exit_id ctx) in
    let ret_value := s64 (exit_ret ctx) in
    let* (pid, tid) := current_pid_tid in
    let* filter_flags := lookup_lifecycle_task_filter_flags pid tid in
    match filter_flags with
    | None => ret tt
    | Some _ =>
        let* rejected := reject_unsupported_syscall_abi pid tid sys_id in
        if rejected then ret tt
        else if one_of sys_id [SYS_RT_SIGRETURN] then ret tt
        else if is_pre_exec_suppressed_syscall filter_flags sys_id then ret tt
        else
          clear_pending_fork_flags tid sys_id ;;;
          let* cfg := bpf_map_lookup_elem config_map 0 in
          let* traced := should_trace_syscall sys_id cfg in
          if negb traced && negb (is_fd_state_tracked sys_id cfg) then ret tt
          else tail_call exit_program exit_routes sys_id ctx
                 (emit_exit_dispatch_fallback pid tid sys_id ret_value)
    end.
End Dispatchers.

(** ** The loaded handlers *)

(** The slot of a program array. *)
Definition slot {X} (l : list (Z * X)) (i : Z) : option X :=
  snd <$> find (fun e => fst e =? i) l.

Section Loaded.
Context {K : Kernel} {A : Arch}.

#[export] Instance loaded_handlers : Handlers := {
  enter_program := slot loaded_enter;
  exit_program := slot loaded_exit }.
End Loaded.

Lemma slot_forall {X} (P : X -> Prop) (l : list (Z * X)) i h :
  Forall (fun e => P (snd e)) l -> slot l i = Some h -> P h.
Proof.
  intros F. unfold slot. intros E. apply fmap_Some in E as ([j x] & E & ->).
  apply find_some in E as [Hin _]. rewrite List.Forall_forall in F. exact (F _ Hin).
Qed.

Section DispatchLemmas.
Context {K : Kernel} {A : Arch}.

(** ** Accounting *)

#[export] Instance loaded_handlers_ok : HandlersOk loaded_handlers.
Proof.
  split; intros i h ctx E.
  - exact (slot_forall (fun h => keeps accounted (h ctx)) _ _ _ (loaded_enter_keeps ctx) E).
  - exact (slot_forall (fun h => keeps accounted (h ctx)) _ _ _ (loaded_exit_keeps ctx) E).
Qed.

(** A taken tail call runs a handler of the table. *)
Lemma tail_call_keeps (R : world -> world -> Prop) {HR : HandlerRelation R} {Ctx}
    (table : Z -> option (Ctx -> prog unit)) routes sys_id ctx fallback :
  (forall i h, table i = Some h -> keeps R (h ctx)) -> keeps R fallback ->
  keeps R (tail_call table routes sys_id ctx fallback).
Proof.
  intros Ht Hf. unfold tail_call. apply keeps_bind; [apply _ | by apply emits_keeps; eauto with keeps |].
  intros [i|]; [|done]. destruct (table i) eqn:E; [by eapply Ht | done].
Qed.

(** The dispatchers rely on the handlers' contract only. *)
Lemma trace_sys_enter_accounted {H : Handlers} {HO : HandlersOk H} ctx :
  keeps accounted (trace_sys_enter ctx).
Proof.
  unfold trace_sys_enter. keeps_solve. apply (tail_call_keeps accounted); [|keeps_solve].
  intros i h. apply enter_program_accounted.
Qed.
Lemma trace_sys_exit_accounted {H : Handlers} {HO : HandlersOk H} ctx :
  keeps accounted (trace_sys_exit ctx).
Proof.
  unfold trace_sys_exit. keeps_solve. apply (tail_call_keeps accounted); [|keeps_solve].
  intros i h. apply exit_program_accounted.
Qed.
End DispatchLemmas.

#[export] Hint Resolve trace_sys_enter_accounted trace_sys_exit_accounted : keeps.
