(* ===== verification/Trace.v ===== *)
(** Runs of the tracer.

    A tracepoint firing runs one BPF program on some CPU, in the context of some
    task.  [step] is one firing, [run] a sequence of firings; a program runs to
    completion before the next one starts, as on a CPU with preemption disabled.
    [ledger] is the abstract specification of the ring buffer protocol: a list
    of entries, one per firing, that says what each contributed to the ring
    buffer and to the published counters. *)
From stdpp Require Import base list gmap numbers relations.
From S2P Require Import Prelude Syscalls Abi Kernel Consumer Stats Tlv Emit Decoder EventCore Payload LifecycleState Pending Namespace Lifecycle Signal Structs FdPath Paths Misc Handlers EnterHandlers ExitHandlers Recvmsg Dispatch.

(** The tracepoints and the kretprobe the programs are attached to, with what the
    kernel passes. *)
Inductive firing : Type :=
  | SysEnterFires (ctx : trace_event_raw_sys_enter)
  | SysExitFires (ctx : trace_event_raw_sys_exit)
  | ForkFires (child_pid : Z)
  | ExecFires (ctx : trace_event_raw_sched_process_exec)
  | ExitFires
  | FreeFires (pid : Z)
  | SignalDeliverFires (signo info_address : Z)
  | SignalGenerateFires (signo info_address target : Z)
  | NewTaskFires (child : Z)
  | KvmExitFires (reason error : Z)
  | RecvmsgReturns (regs : Z).

Section Trace.
Context {K : Kernel} {A : Arch} {H : Handlers}.

Definition program (f : firing) : prog unit :=
  match f with
  | SysEnterFires ctx => trace_sys_enter ctx
  | SysExitFires ctx => trace_sys_exit ctx
  | ForkFires child => trace_sched_process_fork child
  | ExecFires ctx => trace_sched_process_exec ctx
  | ExitFires => trace_sched_process_exit
  | FreeFires pid => trace_sched_process_free pid
  | SignalDeliverFires signo info => trace_signal_deliver signo info
  | SignalGenerateFires signo info target => trace_signal_generate signo info target
  | NewTaskFires child => trace_namespace_fork child
  | KvmExitFires reason error => trace_kvm_userspace_exit reason error
  | RecvmsgReturns regs => trace_kretprobe_recvmsg_dispatch regs
  end.

(** One firing on the CPU and task of [r]. *)
Definition fire (r : exec_ctx) (f : firing) (w : world) : world :=
  snd (program f (set_running r w)).

Definition run (fs : list (exec_ctx * firing)) (w : world) : world :=
  fold_left (fun w e => fire (fst e) (snd e) w) fs w.

Inductive step : world -> world -> Prop :=
  | Fires r f w : step w (fire r f w).

Definition reachable : world -> world -> Prop := rtc step.

Lemma reachable_run w w' : reachable w w' <-> exists fs, w' = run fs w.
Proof.
  split.
  - induction 1 as [w|w1 w2 w3 [r f ?] _ [fs ->]]; [by exists []|]. by exists ((r, f) :: fs).
  - intros [fs ->]. revert w. induction fs as [|[r f] fs IH]; intros w; [apply rtc_refl|].
    eapply rtc_l; [apply Fires | apply IH].
Qed.
End Trace.

(** ** The ledger *)

(** What one firing contributed: the CPU it ran on, the records it submitted,
    and how many reservations failed, records were discarded, copy failures were
    counted and losses were recorded. *)
Record entry := Entry {
  en_cpu : Z; en_recs : list (list Z); en_nres : Z; en_ndisc : Z; en_ncopy : Z; en_nloss : Z }.

Definition total (f : entry -> Z) (es : list entry) : Z := fold_right (fun e n => f e + n) 0 es.
Definition on (c : Z) (es : list entry) : list entry := List.filter (fun e => en_cpu e =? c) es.

(** The records submitted on a CPU, in order. *)
Definition records_on (c : Z) (es : list entry) : list (list Z) := concat (map en_recs (on c es)).

(** The attempts to emit a record. *)
Definition attempts (e : entry) : Z := zlen (en_recs e) + en_nres e + en_ndisc e.

Record entry_ok `{Kernel} (e : entry) : Prop := EntryOk {
  eo_nres : 0 <= en_nres e;
  eo_ndisc : 0 <= en_ndisc e <= en_ncopy e;
  eo_nloss : en_nres e + en_ncopy e <= en_nloss e;
  eo_room : ring_has_room -> en_nres e = 0;
  eo_fault : no_fault -> en_ncopy e = 0 }.

(** The counters of a CPU moved by the totals of its entries. *)
Definition cpu_moved (s s' : option bpf_stats) (es : list entry) : Prop :=
  match s, s' with
  | Some s, Some s' =>
      advanced (s event_seq) (s' event_seq) (total attempts es) /\
      advanced (s ringbuf_reserve_fail) (s' ringbuf_reserve_fail) (total en_nres es) /\
      advanced (s ringbuf_copy_fail) (s' ringbuf_copy_fail) (total en_ncopy es)
  | None, None => True
  | _, _ => False
  end.

Record ledger `{Kernel} (w w' : world) (es : list entry) : Prop := Ledger {
  lg_entries : Forall entry_ok es;
  lg_reserved : reserved w' = reserved w;
  lg_submitted : submitted w' = submitted w ++ concat (map en_recs es);
  lg_cpu : forall c, cpu_moved (stats w !! c) (stats w' !! c) (on c es);
  lg_numbering : forall c, numbering (stats w !! c) c (records_on c es) (total attempts (on c es));
  lg_loss : match loss w !! 0, loss w' !! 0 with
    | Some l, Some l' => advanced (l_epoch l) (l_epoch l') (total en_nloss es)
    | None, None => True
    | _, _ => False
    end }.

Lemma total_app f es es' : total f (es ++ es') = total f es + total f es'.
Proof. unfold total. induction es as [|e es IH]; cbn; [done|]. rewrite IH. lia. Qed.

Lemma on_app c es es' : on c (es ++ es') = on c es ++ on c es'.
Proof. apply List.filter_app. Qed.

Lemma cpu_moved_trans s1 s2 s3 es es' :
  cpu_moved s1 s2 es -> cpu_moved s2 s3 es' -> cpu_moved s1 s3 (es ++ es').
Proof.
  unfold cpu_moved. destruct s1, s2, s3; try done.
  intros (? & ? & ?) (? & ? & ?). rewrite !total_app. split_and!; by eapply advanced_trans.
Qed.

Lemma cpu_moved_refl s : cpu_moved s s [].
Proof. destruct s; [|done]. by split_and!; apply advanced_0. Qed.

Section Ledger.
Context {K : Kernel}.

Lemma ledger_refl w : ledger w w [].
Proof.
  split; [constructor | done | by rewrite app_nil_r | intros; apply cpu_moved_refl |
    intros; by apply numbering_nil |].
  destruct (loss w !! 0); [apply advanced_0 | done].
Qed.

Lemma ledger_trans w1 w2 w3 es es' :
  ledger w1 w2 es -> ledger w2 w3 es' -> ledger w1 w3 (es ++ es').
Proof.
  intros [E1 R1 S1 C1 N1 L1] [E2 R2 S2 C2 N2 L2]. split.
  - by apply Forall_app_2.
  - congruence.
  - by rewrite S2, S1, map_app, concat_app, app_assoc.
  - intros c. rewrite on_app. by eapply cpu_moved_trans.
  - intros c. unfold records_on. rewrite on_app, map_app, concat_app, total_app.
    eapply numbering_app; [|apply N1 | apply N2]. intros v Ev. specialize (C1 c). rewrite Ev in C1.
    destruct (stats w2 !! c) as [v'|]; [|done]. exists v'. split; [done | apply C1].
  - rewrite total_app. destruct (loss w1 !! 0), (loss w2 !! 0), (loss w3 !! 0); try done.
    by eapply advanced_trans.
Qed.

(** An accounted program contributes one entry. *)
Lemma accounted_ledger w w' :
  accounted w w' -> exists e, en_cpu e = cur_cpu (running w) /\ ledger w w' [e].
Proof.
  intros [R (recs & nres & ndisc & ncopy & nloss & [[_ S O T L] ? ? ? ? ? N])].
  exists (Entry (cur_cpu (running w)) recs nres ndisc ncopy nloss). split; [done|]. split; cbn.
  - apply Forall_cons. split; [by split | by apply Forall_nil].
  - done.
  - by rewrite S, app_nil_r.
  - intros c. destruct (Z.eqb_spec (cur_cpu (running w)) c) as [<-|Hc].
    + unfold cpu_moved, total, attempts. cbn. rewrite !Z.add_0_r. exact T.
    + rewrite (O c) by congruence. apply cpu_moved_refl.
  - intros c. unfold records_on. cbn. destruct (Z.eqb_spec (cur_cpu (running w)) c) as [<-|Hc].
    + unfold total, attempts. cbn. by rewrite app_nil_r, Z.add_0_r.
    + by apply numbering_nil.
  - by rewrite Z.add_0_r.
Qed.
End Ledger.

Section Runs.
Context {K : Kernel} {A : Arch} {H : Handlers} {HO : HandlersOk H}.

Lemma program_accounted f : keeps accounted (program f).
Proof. destruct f; cbn [program]; eauto with keeps. Qed.

Lemma fire_ledger r f w : exists e, en_cpu e = cur_cpu r /\ ledger w (fire r f w) [e].
Proof.
  destruct (accounted_ledger _ _ (program_accounted f (set_running r w))) as (e & C & [? ? ? ? ? ?]).
  by exists e.
Qed.

(** Every run has a ledger with one entry per firing. *)
Lemma run_ledger fs w :
  exists es, map en_cpu es = map (fun e => cur_cpu (fst e)) fs /\ ledger w (run fs w) es.
Proof.
  revert w. induction fs as [|[r f] fs IH]; intros w.
  - exists []. split; [done | apply ledger_refl].
  - destruct (fire_ledger r f w) as (e & C & L), (IH (fire r f w)) as (es & Cs & Ls).
    exists (e :: es). split; [cbn; congruence|]. exact (ledger_trans _ _ _ [e] es L Ls).
Qed.
End Runs.
