(* ===== verification/Delivery.v ===== *)
(** What reaches the consumer.

    An emitter promises something about the record it submits ([emitter]); this
    file turns that promise into one about the consumer's side: when the ring
    buffer has room and the kernel does not fault, exactly one record is
    submitted, it decodes, and the envelope says what the syscall did. *)
From stdpp Require Import base list gmap numbers.
From S2P Require Import Prelude Syscalls Abi Kernel Consumer Stats Tlv Emit Decoder EventCore Payload Structs.

Section Delivery.
Context {K : Kernel} {A : Arch}.

(** [m] submits one record, numbered next on its CPU, and the consumer decodes it
    into an envelope that satisfies [E]. *)
Definition delivers_at (w : world) (E : exec_ctx -> traceEventEnvelope -> Prop) (m : prog unit)
    : Prop :=
  ring_has_room -> no_fault ->
  exists rec env,
    submitted (snd (m w)) = submitted w ++ [rec] /\
    decodeTraceEventV2Envelope rec = Some env /\
    (forall s, stats w !! cur_cpu (running w) = Some s -> e_seq env = u64 (s event_seq + 1)) /\
    E (running w) env.
Definition delivers (E : exec_ctx -> traceEventEnvelope -> Prop) (m : prog unit) : Prop :=
  forall w, delivers_at w E m.

(** The parts of an envelope every syscall record has. *)
Record syscall_envelope_of (r : exec_ctx) (event_type pid tid sys_id ts : Z) (args : args6) (rv : Z)
    (env : traceEventEnvelope) : Prop := SyscallEnvelopeOf {
  eo_integrity : e_legacyIntegrity env = false;
  eo_type : e_eventType env = event_type;
  eo_cpu : e_cpu env = u32 (cur_cpu r);
  eo_pid : e_pid env = u32 pid;
  eo_tid : e_tid env = u32 tid;
  eo_sys_id : e_sysID env = u32 sys_id;
  eo_time : e_recordTime env = u64 ts;
  eo_args : e_args env = args_u64 args;
  eo_ret : e_ret env = s64 rv }.

(** An entry: the probe result is the emitter's. *)
Definition enter_envelope (r : exec_ctx) (pid tid sys_id ts : Z) (args : args6) (rv pre : Z)
    (env : traceEventEnvelope) : Prop :=
  syscall_envelope_of r EVENT_TYPE_ENTER pid tid sys_id ts args rv env /\
  e_enterTime env = u64 ts /\ e_probeRetEnter env = s32 pre.

(** The exit of the pending syscall [p]. *)
Definition exit_envelope (r : exec_ctx) (p : pending_syscall) (rv dur : Z)
    (env : traceEventEnvelope) : Prop :=
  syscall_envelope_of r EVENT_TYPE_EXIT (p_pid p) (p_tid p) (p_sys_id p)
    (u64 (p_enter_time p + dur)) (p_args p) rv env /\
  e_duration env = u64 dur /\ e_stackID env = s32 (p_stack_id p).

(** The payload of an envelope: sections that satisfy [P fl] for the flags [fl], which
    satisfy [F] and are the event's flags but for the announcement of the payload. *)
Definition payload_of (F : Z -> Prop) (P : Z -> list PayloadSection -> Prop)
    (env : traceEventEnvelope) : Prop :=
  exists fl n, F fl /\ e_eventFlags env = u16 (tlv_flag fl n) /\ P fl (e_payload env).

(** Exactly one section. *)
Definition the_section (P : PayloadSection -> Prop) (secs : list PayloadSection) : Prop :=
  exists s, secs = [s] /\ P s.

Lemma one_section_the P secs : no_fault -> one_section P secs -> the_section P secs.
Proof. intros NF [?|[_ H]]; [done|]. by destruct (H NF). Qed.

(** ** From emitters to deliveries *)

Lemma emitter_delivers (W : exec_ctx -> Z -> list Z -> Prop) E m :
  emitter W m ->
  (forall r sq rec, no_fault -> W r sq rec -> exists env,
     decodeTraceEventV2Envelope rec = Some env /\ e_seq env = u64 sq /\ E r env) ->
  delivers E m.
Proof.
  intros Hm HW w Room NF. destruct (Hm w) as [_ [sq rec S HWr Hsq|_ NR|_ NF']];
    [|by destruct (NR Room)|by destruct (NF' NF)].
  destruct (HW _ _ _ NF HWr) as (env & D & Q & He). exists rec, env. split_and!; try done.
  intros s Hs. rewrite Q, (Hsq s Hs). unfold u64. by rewrite Z.mod_mod.
Qed.

Lemma delivers_mono (E E' : exec_ctx -> traceEventEnvelope -> Prop) m :
  (forall r env, no_fault -> E r env -> E' r env) -> delivers E m -> delivers E' m.
Proof.
  intros H D w Room NF. destruct (D w Room NF) as (rec & env & ? & ? & ? & ?).
  exists rec, env. split_and!; auto.
Qed.

(** A program that continues as [m] in a state with the same ring buffer and counters. *)
Lemma delivers_from E (m m' : prog unit) w w1 :
  running w1 = running w -> submitted w1 = submitted w -> stats w1 = stats w ->
  snd (m' w) = snd (m w1) -> delivers E m -> delivers_at w E m'.
Proof.
  intros R S T Em Hm Room NF. destruct (Hm w1 Room NF) as (rec & env & S' & D & Q & He).
  exists rec, env. rewrite Em, <- R, <- S. split_and!; try done. intros s. rewrite <- T. apply Q.
Qed.

(** A quiet computation first. *)
Lemma delivers_quiet {X} E (prep : prog X) (m : X -> prog unit) :
  keeps quiet prep -> (forall x, delivers E (m x)) -> delivers E (bind prep m).
Proof.
  intros Hp Hm w Room NF. pose proof (Hp w) as [[[R _ _ _] _ _] (n & _ & M)].
  unfold bind. destruct (prep w) as [x w1]. cbn [snd] in R, M.
  destruct (Hm x w1 Room NF) as (rec & env & S & D & Q & He). exists rec, env.
  destruct M as [_ S1 _ T _]. rewrite S1, app_nil_r in S. rewrite R in Q, He.
  split_and!; [done | done | | done]. intros s Hs. rewrite Hs in T.
  destruct (stats w1 !! cur_cpu (running w)) as [s'|]; [|done].
  rewrite (Q s' eq_refl). destruct T as [T _]. unfold advanced in T. rewrite Z.add_0_r in T.
  by rewrite <- (u64_add_l (s' _)), T, u64_add_l.
Qed.

Lemma payload_of_mono F (P P' : Z -> list PayloadSection -> Prop) env :
  (forall fl secs, P fl secs -> P' fl secs) -> payload_of F P env -> payload_of F P' env.
Proof. intros H (fl & n & ? & ? & ?). exists fl, n. auto. Qed.

Lemma enter_delivers pid tid sys_id ts a rv pre prx (guard : Prop) F P m :
  emitter (fun r => reads_enter r pid tid sys_id ts a rv pre prx (decodes guard F P)) m ->
  (no_fault -> guard) ->
  delivers (fun r env => enter_envelope r pid tid sys_id ts a rv pre env /\ payload_of F P env) m.
Proof.
  intros Hm HG. eapply emitter_delivers; [exact Hm|].
  intros r sq rec NF (hd & flags & pl & Hh & D & HP). eexists. split; [exact D|].
  destruct (decodes_sections _ _ _ _ _ (HG NF) HP) as (fl & HF & -> & HS), Hh. cbn.
  split; [done|]. split; [by split|]. by exists fl, (zlen pl).
Qed.

Lemma exit_delivers p rv dur (guard : Prop) F P m :
  emitter (fun r => reads_pending_exit r p rv dur (decodes guard F P)) m ->
  (no_fault -> guard) ->
  delivers (fun r env => exit_envelope r p rv dur env /\ payload_of F P env) m.
Proof.
  intros Hm HG. eapply emitter_delivers; [exact Hm|].
  intros r sq rec NF (hd & flags & pl & cpu & Hh & D & HP). eexists. split; [exact D|].
  destruct (decodes_sections _ _ _ _ _ (HG NF) HP) as (fl & HF & -> & HS), Hh. cbn.
  split; [done|]. split; [by split|]. by exists fl, (zlen pl).
Qed.

(** Entries and exits of the structured families, whose flags are fixed. *)
Lemma capture_enter_delivers pid tid sys_id ctx ts pre P m :
  emitter (fun r => reads_capture_enter r pid tid sys_id ctx ts pre P) m ->
  delivers (fun r env =>
    enter_envelope r pid tid sys_id ts (args_u64 (enter_args ctx)) 0 pre env /\ P (e_payload env)) m.
Proof.
  intros Hm. eapply delivers_mono; [|by eapply enter_delivers; [exact Hm|]].
  intros r env _ [He (fl & n & <- & _ & HP)]. done.
Qed.

Lemma capture_exit_delivers p rv dur P m :
  emitter (fun r => reads_capture_exit r p rv dur P) m ->
  delivers (fun r env => exit_envelope r p rv dur env /\ P (e_payload env)) m.
Proof.
  intros Hm. eapply delivers_mono; [|by eapply exit_delivers; [exact Hm|]].
  intros r env _ [He (fl & n & <- & _ & HP)]. done.
Qed.

(** The exit record of a pending syscall without payload. *)
Lemma bare_exit_delivers p rv dur :
  delivers (fun r env => exit_envelope r p rv dur env /\ e_payload env = [])
    (emit_syscall_exit_event_v2_direct p rv dur 0).
Proof.
  eapply emitter_delivers; [apply emit_syscall_exit_ok|].
  intros r sq rec _ (hd & flags & pl & cpu & Hh & D & -> & ->). eexists. split; [exact D|].
  destruct Hh. cbn. split; [done|]. by repeat split.
Qed.
End Delivery.
