(* ===== verification/RecordProps.v ===== *)
(** The records of each syscall family, end to end.

    Each theorem says what the consumer decodes from the record an emitter of
    the BPF side submits: the envelope of the syscall and the sections of its
    payload.  [delivers] asserts that the record is submitted, numbered and
    decoded whenever the ring buffer has room and the kernel does not fault. *)
From stdpp Require Import base list gmap numbers.
From S2P Require Import Prelude Syscalls Abi Kernel Consumer Stats Tlv Emit Decoder EventCore Payload LifecycleState Pending Namespace Signal Structs FdPath Paths Misc Delivery.

Section RecordProps.
Context {K : Kernel} {A : Arch}.

(** Whether the plain entry of [sys_id] is emitted: entries are configured, and the
    syscall is not elided. *)
Definition plain_enter_wanted (w : world) (cfg : option Z) (sys_id : Z) : bool :=
  match cfg with
  | Some c => has_flag c CONFIG_EMIT_ENTER &&
      negb (has_flag c CONFIG_ELIDE_PLAIN_ENTER &&
            match maps w plain_enter_elide_map !! sys_id with Some _ => true | None => false end)
  | None => false
  end.

(** C37: the entry of a syscall without payload.  When the configuration asks for
    entries and does not elide this syscall, one compact record is submitted and decodes to
    the entry with the arguments, no payload and the probe result [-1]; otherwise the
    program changes nothing at all. *)
Theorem plain_enter_record pid tid sys_id ctx cfg ts w :
  let m := emit_plain_no_payload_enter_event_v2_direct pid tid sys_id ctx cfg ts in
  if plain_enter_wanted w cfg sys_id then
    delivers_at w (fun r env =>
      enter_envelope r pid tid sys_id ts (args_u64 (enter_args ctx)) 0 (-1) env /\
      e_payload env = [] /\
      e_eventFlags env = Z.lor EVENT_FLAG_GENERIC_ENTER EVENT_FLAG_COMPACT_ENTER) m
  else snd (m w) = w.
Proof.
  cbv zeta. unfold plain_enter_wanted, emit_plain_no_payload_enter_event_v2_direct.
  destruct cfg as [c|]; [|done]. destruct (has_flag c CONFIG_EMIT_ENTER); cbn [andb negb]; [|done].
  assert (delivers (fun r env =>
      enter_envelope r pid tid sys_id ts (args_u64 (enter_args ctx)) 0 (-1) env /\
      e_payload env = [] /\ e_eventFlags env = Z.lor EVENT_FLAG_GENERIC_ENTER EVENT_FLAG_COMPACT_ENTER)
    (emit_compact_syscall_enter_event_v2_direct pid tid sys_id ctx ts)) as D.
  { eapply emitter_delivers; [apply emit_compact_ok|]. intros r sq rec _ (hd & [] & Hd).
    eexists. split; [exact Hd|]. split; [done|]. by repeat split. }
  destruct (has_flag c CONFIG_ELIDE_PLAIN_ENTER); cbn [andb negb].
  - destruct (maps w plain_enter_elide_map !! sys_id) eqn:E.
    + cbn. unfold bind, bpf_map_lookup_elem, gets. by rewrite E.
    + eapply (delivers_from _ _ _ w w); [done | done | done | | exact D].
      unfold bind, bpf_map_lookup_elem, gets. by rewrite E.
  - by eapply (delivers_from _ _ _ w w); [..|exact D].
Qed.

(** C26: the entry of [open], [creat], [openat], [write] and [pwrite64] through the
    payload handler carries the path the caller passed (up to 511 bytes, terminated) or
    the first 512 bytes of the caller's buffer, and is marked truncated exactly when the
    buffer is longer; data are missing only when the pointer is null or unreadable. *)
Theorem payload_enter_record pid tid sys_id ctx ts :
  let args := args_u64 (enter_args ctx) in
  delivers (fun r env =>
      enter_envelope r pid tid sys_id ts args 0 (-1) env /\
      payload_of (flags_from EVENT_FLAG_GENERIC_ENTER)
        (enter_sections sys_id args EVENT_FLAG_GENERIC_ENTER) env)
    (emit_payload_enter_event_v2_direct pid tid sys_id ctx ts).
Proof. intros args. by eapply enter_delivers; [apply emit_payload_enter_ok|]. Qed.

(** C27: the exit of [read] and [pread64] carries the first 512 of the bytes the
    kernel stored into the caller's buffer, with the number of bytes read, and is marked
    truncated exactly when more were read. *)
Theorem read_exit_record p z dur :
  let rv := s64 z in
  delivers (fun r env =>
      exit_envelope r p rv dur env /\
      payload_of (flags_from 0) (fun fl secs =>
        if 0 <? rv
        then the_section (bytes_section PayloadDirectionOut 1 PAYLOAD_TLV_READ_MAX (arg1 (p_args p))
               rv fl 0) secs
        else secs = []) env)
    (emit_payload_exit_event_v2_direct p rv dur).
Proof.
  intros rv. eapply delivers_mono;
    [|by eapply exit_delivers; [apply emit_payload_exit_ok, s64_range|]].
  intros r env NF [He Hp]. split; [done|]. eapply payload_of_mono; [|exact Hp].
  intros fl secs. fold rv. destruct (0 <? rv); [by apply one_section_the | done].
Qed.




(** C25: the entry of a syscall with one path argument carries the whole path: the two
    overlapping chunks of 2048 and 2049 bytes the emitter reads are equivalent to one read of
    a string of up to 4096 bytes, for readable memory that does not change. *)
Theorem long_path_record pid tid sys_id ctx ts :
  let path_arg := if is_path_only_arg1_direct_syscall sys_id then 1 else 0 in
  let user_ptr := arg (args_u64 (enter_args ctx)) path_arg in
  delivers (fun r env =>
      enter_envelope r pid tid (u32 (enter_id ctx)) ts (args_u64 (enter_args ctx)) 0 (-1) env /\
      the_section (fun s => long_path_section path_arg user_ptr s /\
        forall mem, user_memory mem -> 0 < user_ptr -> user_ptr + 4096 <= 2 ^ 64 ->
        ProbeRet s = 0 /\ Data s = long_path_text mem user_ptr) (e_payload env))
    (emit_path_only_enter_event_v2_direct pid tid sys_id ctx ts).
Proof.
  intros path_arg user_ptr. eapply delivers_mono; [|apply capture_enter_delivers, emit_path_only_enter_ok].
  intros r env NF [He Hs]. split; [done|]. apply one_section_the in Hs as (s & E & Hs); [|done].
  exists s. split_and!; [done | done |]. intros mem M. by apply (lp_text _ _ _ Hs mem M NF).
Qed.








End RecordProps.
