(* ===== verification/Pairing.v ===== *)
(** Pairing the exit of a syscall with its entry.

    The pending syscall of a task is a cell: an entry fills it, the matching exit
    reads and empties it, a mismatched exit empties it and is counted, and an
    exit that finds it empty is classified.  The theorems follow one cell
    through [bpf/pending_state.h], the fallback handlers of
    [bpf/enter_runtime.h] and [bpf/exit_dispatch.h], and the rejection of
    foreign ABIs. *)
From stdpp Require Import base list gmap numbers.
From S2P Require Import Prelude Syscalls Abi Kernel Consumer Stats Tlv Emit Decoder EventCore Payload LifecycleState Pending Namespace Lifecycle Structs Handlers EnterHandlers ExitHandlers Dispatch Delivery.

(** The storage of tasks and the context are untouched. *)
Definition same_tasks (w w' : world) : Prop := tasks w' = tasks w /\ running w' = running w.

#[export] Instance same_tasks_preorder : PreOrder same_tasks.
Proof. split; [done|]. intros w1 w2 w3 [] []. split; congruence. Qed.

Section Pairing.
Context {K : Kernel} {A : Arch}.

(** The storage of the current task exists or can be created. *)
Definition can_save (w : world) : Prop :=
  cur_task (running w) <> 0 /\
  (is_Some (tasks w !! cur_task (running w)) \/ k_storage_ok (calls w) = true).

Lemma same_state_tasks w w' : same_state w w' -> same_tasks w w'.
Proof. by intros []. Qed.
Lemma quiet_tasks w w' : quiet w w' -> same_tasks w w'.
Proof. intros [[[] _ _] _]. done. Qed.

Lemma same_tasks_pending w w' : same_tasks w w' -> pending_now w' = pending_now w.
Proof. intros [E R]. unfold pending_now, pending_cell. by rewrite E, R. Qed.

Lemma lookup_create_result w :
  can_save w ->
  wp (lookup_pending_task_state true) (fun r w' =>
    is_Some r /\ running w' = running w /\ submitted w' = submitted w /\ stats w' = stats w /\
    reserved w' = reserved w) w.
Proof.
  intros [T S]. unfold lookup_pending_task_state, bpf_get_current_task, bpf_task_storage_get_create,
    tick, task_storage_put. wp_steps.
  destruct (Z.eqb_spec (cur_task (running w)) 0); [done|]. wp_step. unfold wp at 1. cbn [fst snd].
  wp_steps. cbn [tasks set_calls]. destruct (tasks w !! cur_task (running w)); wp_steps; [by split_and!|].
  destruct S as [[? ?]| ->]; [done|]. by wp_steps.
Qed.

(** Saving a syscall: it is pending afterwards, with the caller's arguments. *)
Lemma save_args_result tid pid sys_id ctx t sid w :
  can_save w ->
  wp (save_pending_syscall_args tid pid sys_id ctx t sid) (fun _ w' =>
    running w' = running w /\ submitted w' = submitted w /\ exists rt,
    pending_now w' = Some (PendingSyscall t rt (args_u64 (enter_args ctx)) pid sys_id tid sid)) w.
Proof.
  intros C. unfold save_pending_syscall_args, save_pending_syscall_value. wp_steps.
  eapply wp_mono; [by apply lookup_create_result|]. intros r w1 ([s ->] & R1 & S1 & _ & _). wp_steps.
  eapply keeps_wp; [apply current_task_cpu_runtime_quiet|]. intros rt w2 Q2. wp_steps.
  unfold put_pending_task_state, bpf_get_current_task, task_storage_put. wp_steps.
  cbn [p_stack_id p_tid p_enter_time p_args p_pid p_sys_id].
  destruct (quiet_tasks _ _ Q2) as [T2 R2]. destruct Q2 as [_ (n & _ & [_ S2 _ _ _])].
  set (w3 := set_tasks _ w2).
  assert (pending_now w3 = Some (PendingSyscall t rt (args_u64 (enter_args ctx)) pid sys_id tid sid)) as P3.
  { unfold pending_now, pending_cell, w3. cbn [running set_tasks tasks]. rewrite R2, R1.
    destruct (Z.eqb_spec (cur_task (running w)) 0); [by destruct C|]. by rewrite lookup_insert_eq. }
  assert (running w3 = running w) as R3 by (unfold w3; cbn; congruence).
  assert (submitted w3 = submitted w) as S3 by (unfold w3; cbn; rewrite S2, app_nil_r; congruence).
  clearbody w3. destruct (0 <=? sid); wp_steps; [|split_and!; [done | done | by exists rt]].
  unfold bpf_map_update_elem, tick. wp_step. unfold wp at 1. cbn [fst snd].
  destruct (k_update_ok (calls w3)); wp_steps; cbn [Z.eqb]; wp_steps;
    [split_and!; [done | done | by exists rt]|].
  eapply keeps_wp; [apply record_pending_update_fail_quiet|]. intros [] w4 Q4. wp_steps.
  pose proof (same_tasks_pending _ _ (quiet_tasks _ _ Q4)) as P4.
  destruct Q4 as [[[R4 _ _ _] _ _] (k & _ & [_ S4 _ _ _])]. rewrite app_nil_r in S4.
  split_and!; [by rewrite R4 | by rewrite S4 |]. exists rt. by rewrite P4.
Qed.

(** The exec handoff: a thread that is not the leader saved the exec under its own id, and
    the successful exec returns in the leader. *)
Definition handoff (w : world) (pid rv : Z) (p : pending_syscall) : bool :=
  (rv =? 0) && is_exec_payload_direct_syscall (p_sys_id p) &&
  bool_decide (maps w pending_exec_map !! pid = Some (p_tid p)).

Lemma lookup_for_exit_result pid tid rv w :
  lookup_pending_syscall_for_exit pid tid rv w =
    (match pending_now w with
     | None => (None, tid, false)
     | Some p => if negb (p_tid p =? tid) && handoff w pid rv p then (Some p, p_tid p, true)
                 else (Some p, tid, false)
     end, w).
Proof.
  unfold lookup_pending_syscall_for_exit, bind, pending_now, handoff.
  rewrite current_pending_task_state_result.
  destruct (pending_cell w) as [s|]; [|done]. destruct (s_valid s =? 0); [done|].
  destruct (p_tid (s_syscall s) =? tid); cbn [negb andb]; [done|].
  destruct (_ && _); cbn [andb]; [|done]. unfold bpf_map_lookup_elem, gets.
  destruct (maps w pending_exec_map !! pid) as [t|]; [|by rewrite bool_decide_false].
  destruct (Z.eqb_spec t (p_tid (s_syscall s))) as [->|N]; [by rewrite bool_decide_true|].
  rewrite bool_decide_false; [done | congruence].
Qed.

(** Whether an exit of [sys_id] on thread [tid] closes the pending syscall [p]. *)
Definition closes (w : world) (pid tid sys_id rv : Z) (p : pending_syscall) : bool :=
  (p_sys_id p =? sys_id) && ((p_tid p =? tid) || handoff w pid rv p).

(** A duration: the clock of the exit minus the clock of the entry, never negative. *)
Definition elapsed (p : pending_syscall) (d : Z) : Prop :=
  exists n, d = if p_enter_time p =? 0 then 0 else Z.max 0 (u64 (k_ktime n) - p_enter_time p).

Lemma duration_result p w :
  0 <= p_enter_time p ->
  wp (pending_syscall_duration p) (fun d w' => quiet w w' /\ elapsed p d) w.
Proof.
  intros Hp. split; [apply pending_syscall_duration_quiet|].
  unfold pending_syscall_duration, elapsed, bpf_ktime_get_ns, bind, tick, ret. exists (calls w).
  destruct (p_enter_time p =? 0); [done|]. cbn. pose proof (u64_range (k_ktime (calls w))).
  destruct (Z.leb_spec (u64 (k_ktime (calls w))) (p_enter_time p)); cbn; [lia|].
  rewrite u64_small; lia.
Qed.

(** The mismatch counter went up by one. *)
Definition mismatch_counted (w w' : world) : Prop :=
  forall s, stats w !! cur_cpu (running w) = Some s ->
  exists s', stats w' !! cur_cpu (running w) = Some s' /\
    advanced (s pending_mismatch) (s' pending_mismatch) 1.

Lemma record_pending_mismatch_counted w : mismatch_counted w (snd (record_pending_mismatch w)).
Proof.
  intros s E. unfold record_pending_mismatch, record_event_integrity_loss, bpf_ktime_get_ns, tick,
    with_stats, lookup_stats, bind, gets, modify, ret. cbn.
  rewrite E. cbn. destruct (loss w !! 0); cbn; rewrite lookup_insert_eq; cbn;
    (eexists; split; [by rewrite lookup_insert_eq|]); rewrite stat_incr_eq, stat_set_ne by done;
    apply advanced_incr.
Qed.

(** Rejecting a mismatched exit: counted, and nothing is pending any more. *)
Lemma reject_mismatch_result pid w :
  wp (record_pending_mismatch ;;; clear_pending_task_state ;;;
      bpf_map_delete_elem pending_exec_map pid ;;; ret false) (fun ok w' =>
    ok = false /\ running w' = running w /\ submitted w' = submitted w /\ pending_now w' = None /\
    maps w' pending_exec_map !! pid = None /\ mismatch_counted w w') w.
Proof.
  wp_step. pose proof (record_pending_mismatch_quiet w) as Q1.
  pose proof (record_pending_mismatch_counted w) as M1.
  unfold wp at 1. destruct (record_pending_mismatch w) as [[] w1]. cbn [fst snd] in *.
  destruct (quiet_tasks _ _ Q1) as [T1 R1]. destruct Q1 as [_ (n & _ & [_ S1 _ _ _])].
  rewrite app_nil_r in S1.
  destruct (clear_pending_result w1) as (P2 & _ & _ & _ & _ & R2 & S2 & ST2). wp_step.
  unfold wp at 1. destruct (clear_pending_task_state w1) as [[] w2]. cbn [fst snd] in *.
  unfold bpf_map_delete_elem. wp_steps.
  split_and!; [done | cbn; by rewrite R2 | cbn; by rewrite S2 | done | |].
  - cbn. unfold map_set. rewrite decide_True by done. apply lookup_delete_eq.
  - intros s Hs. cbn. rewrite ST2. by apply M1.
Qed.

(** Validating an exit. *)
Lemma validate_result p sys_id pid t w :
  wp (validate_pending_syscall_exit p sys_id pid t) (fun ok w' =>
    if (p_sys_id p =? sys_id) && (p_tid p =? t) then ok = true /\ w' = w
    else ok = false /\ running w' = running w /\ submitted w' = submitted w /\ pending_now w' = None /\
         maps w' pending_exec_map !! pid = None /\ mismatch_counted w w') w.
Proof.
  unfold validate_pending_syscall_exit. destruct (_ && _); [by wp_step | apply reject_mismatch_result].
Qed.

(** Resolving an exit: the pending syscall it closes, with its duration, is handed to the
    handler and nothing changes; an exit that does not close the pending syscall drops it. *)
Lemma resolve_exit_result pid tid sys_id rv w :
  wp (resolve_exit pid tid sys_id rv) (fun r w' =>
    running w' = running w /\ submitted w' = submitted w /\
    match pending_now w with
    | None => r = None /\ same_tasks w w'
    | Some p =>
        if closes w pid tid sys_id rv p then
          same_tasks w w' /\ exists d, (0 <= p_enter_time p -> elapsed p d) /\
          r = Some (ExitFrame pid p (negb (p_tid p =? tid)) (p_tid p) d)
        else r = None /\ pending_now w' = None /\ maps w' pending_exec_map !! pid = None /\
             mismatch_counted w w'
    end) w.
Proof.
  unfold resolve_exit. wp_step. unfold wp at 1. rewrite lookup_for_exit_result. cbn [fst snd].
  destruct (pending_now w) as [p|] eqn:P.
  - set (b := negb (p_tid p =? tid) && handoff w pid rv p).
    replace (if b then (Some p, p_tid p, true) else (Some p, tid, false))
      with (Some p, if b then p_tid p else tid, b) by (by destruct b). wp_step.
    eapply wp_mono; [apply validate_result|]. cbv beta.
    assert (closes w pid tid sys_id rv p = (p_sys_id p =? sys_id) && (p_tid p =? (if b then p_tid p else tid))) as ->.
    { unfold closes, b. destruct (p_tid p =? tid) eqn:E; cbn [negb andb orb]; [by rewrite E|].
      destruct (handoff w pid rv p); [by rewrite Z.eqb_refl | by rewrite E]. }
    intros ok w1 H.
    destruct ((p_sys_id p =? sys_id) && (p_tid p =? (if b then p_tid p else tid))) eqn:E.
    + destruct H as [-> ->]. apply andb_true_iff in E as [_ E]. wp_step.
      pose proof (pending_syscall_duration_quiet p w) as Q. pose proof (duration_result p w) as D.
      unfold wp at 1. unfold wp in D. destruct (pending_syscall_duration p w) as [d w1].
      cbn [fst snd] in *. wp_steps. pose proof (quiet_tasks _ _ Q) as T.
      destruct Q as [_ (n & _ & [_ S _ _ _])]. rewrite app_nil_r in S.
      split_and!; [apply T | done | apply T.. | ]. exists d. split; [intros Hp; by destruct (D Hp)|].
      do 2 f_equal; unfold b in *; destruct (p_tid p =? tid) eqn:Et; cbn [negb andb] in *; try done;
        try (by apply Z.eqb_eq in Et); destruct (handoff w pid rv p); cbn [andb] in *; congruence.
    + destruct H as (-> & H). wp_step. split_and!; try done; apply H.
  - wp_step. eapply keeps_wp; [apply record_unmatched_exit_quiet|]. intros [] w1 Q. wp_steps.
    pose proof (quiet_tasks _ _ Q) as T. destruct Q as [_ (n & _ & [_ S _ _ _])]. rewrite app_nil_r in S.
    split_and!; [apply T | done | done | apply T..].
Qed.

Lemma delete_frame m k w :
  let w' := snd (bpf_map_delete_elem m k w) in
  same_tasks w w' /\ submitted w' = submitted w /\ stats w' = stats w /\ maps w' m !! k = None /\
  forall m' k', m' <> m \/ k' <> k -> maps w' m' !! k' = maps w m' !! k'.
Proof.
  cbn. split_and!; try done; unfold map_set; [rewrite decide_True by done; apply lookup_delete_eq|].
  intros m' k' [H|H]; case_decide; subst; try done. by apply lookup_delete_ne.
Qed.

(** Consuming: nothing is pending afterwards. *)
Lemma consume_result pid t p h w :
  let w' := snd (consume_pending_syscall pid t p h w) in
  pending_now w' = None /\ submitted w' = submitted w /\ running w' = running w /\ stats w' = stats w /\
  (h = true -> maps w' pending_exec_map !! pid = None /\ maps w' main_exited_map !! pid = None).
Proof.
  unfold consume_pending_syscall, bind.
  destruct (clear_pending_result w) as (P & _ & _ & _ & _ & R & S & T).
  destruct (clear_pending_task_state w) as [[] w1]. cbn [snd] in *.
  destruct h; [|destruct (_ && _)]; cbn; split_and!; try done.
  intros _. unfold map_set. cbn. repeat case_decide; try done. split; apply lookup_delete_eq.
Qed.

(** The fallback exit handler on an exit that closes the pending syscall. *)
Lemma fallback_exit_closes pid tid sys_id rv w p :
  pending_now w = Some p -> closes w pid tid sys_id rv p = true -> 0 <= p_enter_time p ->
  ring_has_room -> no_fault ->
  let w' := snd (emit_exit_dispatch_fallback pid tid sys_id rv w) in
  exists d rec env, elapsed p d /\ submitted w' = submitted w ++ [rec] /\
    decodeTraceEventV2Envelope rec = Some env /\ exit_envelope (running w) p rv d env /\
    e_payload env = [] /\ pending_now w' = None.
Proof.
  intros P C Hp Room NF. cbv zeta. unfold emit_exit_dispatch_fallback, bind.
  pose proof (resolve_exit_result pid tid sys_id rv w) as H. unfold wp in H. rewrite P, C in H.
  destruct (resolve_exit pid tid sys_id rv w) as [r w1]. cbn [fst snd] in H.
  destruct H as (R1 & S1 & T1 & d & Hd & ->). cbn [xf_p xf_duration].
  destruct (bare_exit_delivers p rv d w1 Room NF) as (rec & env & S2 & D & _ & He & Hs).
  destruct (emit_syscall_exit_event_v2_direct p rv d 0 w1) as [[] w2]. cbn [snd] in S2.
  destruct (consume_result pid (p_tid p) p (negb (p_tid p =? tid)) w2) as (P3 & S3 & _).
  exists d, rec, env. unfold consume_frame. cbn [xf_pid xf_pending_tid xf_p xf_is_pending_lookup].
  rewrite R1 in He. split; [by apply Hd|]. split; [by rewrite S3, S2, S1|]. by split_and!.
Qed.

(** An exit that closes the pending syscall of its thread submits exactly one
    exit record with the arguments, ids and stack of the entry, its return value, and the
    time elapsed since the entry (never negative), and nothing is pending afterwards.  The
    exit of an exec that a non-leader thread started closes that thread's syscall. *)
Lemma exit_closes_pending pid tid sys_id rv w p :
  pending_now w = Some p -> closes w pid tid sys_id rv p = true -> 0 <= p_enter_time p ->
  ring_has_room -> no_fault ->
  let w' := snd (emit_exit_dispatch_fallback pid tid sys_id rv w) in
  exists d rec env, elapsed p d /\ submitted w' = submitted w ++ [rec] /\
    decodeTraceEventV2Envelope rec = Some env /\ exit_envelope (running w) p rv d env /\
    e_payload env = [] /\ pending_now w' = None.
Proof. apply fallback_exit_closes. Qed.

(** C10: an exit that does not close the pending syscall submits no record, forgets the
    pending syscall and the exec handoff of the process, and is counted as a mismatch. *)
Theorem mismatched_exit_dropped pid tid sys_id rv w p :
  pending_now w = Some p -> closes w pid tid sys_id rv p = false ->
  let w' := snd (emit_exit_dispatch_fallback pid tid sys_id rv w) in
  submitted w' = submitted w /\ pending_now w' = None /\
  maps w' pending_exec_map !! pid = None /\ mismatch_counted w w'.
Proof.
  intros P C. cbv zeta. unfold emit_exit_dispatch_fallback, bind.
  pose proof (resolve_exit_result pid tid sys_id rv w) as H. unfold wp in H. rewrite P, C in H.
  destruct (resolve_exit pid tid sys_id rv w) as [r w1]. cbn [fst snd] in H.
  by destruct H as (_ & S & -> & ? & ? & ?).
Qed.

(** The pending syscall after the fallback entry handler. *)
Lemma fallback_enter_pending ctx pid tid cfg w :
  cur_task (running w) <> 0 -> (forall n, k_storage_ok n = true) ->
  let w' := snd (emit_enter_dispatch_fallback ctx pid tid cfg w) in
  running w' = running w /\ exists t rt sid, 0 <= t /\
    pending_now w' = Some (PendingSyscall t rt (args_u64 (enter_args ctx)) pid (u32 (enter_id ctx)) tid sid).
Proof.
  intros T K'. change (wp (emit_enter_dispatch_fallback ctx pid tid cfg) (fun _ w' =>
    running w' = running w /\ exists t rt sid, 0 <= t /\ pending_now w' =
      Some (PendingSyscall t rt (args_u64 (enter_args ctx)) pid (u32 (enter_id ctx)) tid sid)) w).
  unfold emit_enter_dispatch_fallback. wp_steps. unfold bpf_ktime_get_ns, tick. wp_step.
  unfold wp at 1. cbn [fst snd]. wp_steps. set (w1 := set_calls _ w).
  eapply keeps_wp; [apply stack_id_of_quiet|]. intros sid w2 Q2. wp_step.
  eapply keeps_wp; [apply emit_plain_no_payload_emits|]. intros [] w3 [[R3 _ T3 _] _].
  destruct (quiet_tasks _ _ Q2) as [T2 R2].
  assert (running w3 = running w) as R by (rewrite R3, R2; done).
  eapply wp_mono; [apply save_args_result|].
  - split; [by rewrite R | right; apply K'].
  - intros [] w4 (R4 & _ & rt & P). split; [by rewrite R4|]. do 3 eexists. split; [|exact P].
    apply u64_range.
Qed.

(** C5: an entry and the exit that follows it on the same task, with anything in between that
    leaves the storage of the task alone, give an exit record with the entry's arguments, ids
    and syscall number and the exit's return value; the pending cell is empty again. *)
Theorem enter_exit_pairing ctx pid tid cfg rv w w1 :
  cur_task (running w) <> 0 -> (forall n, k_storage_ok n = true) -> ring_has_room -> no_fault ->
  same_tasks (snd (emit_enter_dispatch_fallback ctx pid tid cfg w)) w1 ->
  let w2 := snd (emit_exit_dispatch_fallback pid tid (u32 (enter_id ctx)) rv w1) in
  exists rec env, submitted w2 = submitted w1 ++ [rec] /\ decodeTraceEventV2Envelope rec = Some env /\
    e_eventType env = EVENT_TYPE_EXIT /\ e_pid env = u32 pid /\ e_tid env = u32 tid /\
    e_sysID env = u32 (enter_id ctx) /\ e_args env = args_u64 (enter_args ctx) /\ e_ret env = s64 rv /\
    pending_now w2 = None.
Proof.
  intros T K' Room NF S1. destruct (fallback_enter_pending ctx pid tid cfg w T K') as (R & t & rt & sid & Ht & P).
  rewrite <- (same_tasks_pending _ _ S1) in P.
  destruct (fallback_exit_closes pid tid (u32 (enter_id ctx)) rv w1 _ P) as
    (d & rec & env & _ & S & D & [[] _] & _ & P2); try done.
  { unfold closes. cbn. by rewrite !Z.eqb_refl. }
  cbn in *. exists rec, env. split_and!; try done.
  - rewrite eo_sys_id. unfold u32. by rewrite Z.mod_mod.
  - rewrite eo_args. unfold args_u64. cbn. unfold u64. by rewrite !Z.mod_mod.
Qed.

(** Whether the exit of an untracked, unfiltered or expected kind without an entry is an
    orphan: the task is tracked and not known to have exited, the syscall is selected, and
    an exit without entry is not how such a call normally ends. *)
Definition orphaned (w : world) (pid tid sys_id rv : Z) : bool :=
  let cfg := maps w config_map !! 0 in
  tracked w pid tid &&
  negb (match maps w attach_exited_map !! tid with Some v => negb (v =? 0) | None => false end) &&
  (fst (should_trace_syscall sys_id cfg w) || is_fd_state_tracked sys_id cfg) &&
  negb (is_expected_unmatched_exit sys_id rv).

Lemma should_trace_state sys_id cfg w : snd (should_trace_syscall sys_id cfg w) = w.
Proof.
  unfold should_trace_syscall, bpf_map_lookup_elem, bind, gets, ret.
  destruct cfg as [c|]; [|done]. destruct (negb _); [done|].
  destruct (maps w syscall_filter_map !! sys_id); [|done]. by destruct (has_flag _ _).
Qed.

(** The members an orphan leaves. *)
Lemma orphan_update_result pid tid sys_id rv reason now s :
  let s' := orphan_update pid tid sys_id rv reason now s in
  s' orphan_exit = u64 (s orphan_exit + 1) /\
  (s' orphan_last_pid, s' orphan_last_tid, s' orphan_last_sys_id, s' orphan_last_ret,
   s' orphan_last_reason, s' orphan_last_time_ns) = (pid, tid, sys_id, rv, reason, now) /\
  (s' orphan_first_pid, s' orphan_first_tid, s' orphan_first_sys_id, s' orphan_first_ret,
   s' orphan_first_reason, s' orphan_first_time_ns)
    = if s orphan_first_time_ns =? 0 then (pid, tid, sys_id, rv, reason, now)
      else (s orphan_first_pid, s orphan_first_tid, s orphan_first_sys_id, s orphan_first_ret,
            s orphan_first_reason, s orphan_first_time_ns).
Proof.
  cbv zeta. unfold orphan_update, stat_incr. rewrite (stat_set_ne s orphan_exit orphan_first_time_ns) by done.
  destruct (s orphan_first_time_ns =? 0);
    repeat first [rewrite stat_set_eq | rewrite stat_set_ne by done]; done.
Qed.

(** C11: an exit without an entry changes nothing unless it is an orphan; an orphan is
    counted, becomes the last orphan on record, and becomes the first one only when there
    was none before. *)
Theorem orphan_classified pid tid sys_id rv w :
  let w' := snd (record_unmatched_exit_if_needed pid tid sys_id rv w) in
  if orphaned w pid tid sys_id rv then
    submitted w' = submitted w /\ tasks w' = tasks w /\ maps w' = maps w /\
    forall s, stats w !! cur_cpu (running w) = Some s -> exists s' now,
      stats w' !! cur_cpu (running w) = Some s' /\
      s' orphan_exit = u64 (s orphan_exit + 1) /\
      (s' orphan_last_pid, s' orphan_last_tid, s' orphan_last_sys_id, s' orphan_last_ret,
       s' orphan_last_reason, s' orphan_last_time_ns)
        = (pid, tid, sys_id, rv, ORPHAN_REASON_NO_PENDING, now) /\
      (s' orphan_first_pid, s' orphan_first_tid, s' orphan_first_sys_id, s' orphan_first_ret,
       s' orphan_first_reason, s' orphan_first_time_ns)
        = if s orphan_first_time_ns =? 0
          then (pid, tid, sys_id, rv, ORPHAN_REASON_NO_PENDING, now)
          else (s orphan_first_pid, s orphan_first_tid, s orphan_first_sys_id, s orphan_first_ret,
                s orphan_first_reason, s orphan_first_time_ns)
  else w' = w.
Proof.
  cbv zeta. unfold orphaned, record_unmatched_exit_if_needed, bpf_map_lookup_elem, bind, gets.
  rewrite is_tracked_result. destruct (tracked w pid tid); cbn [negb andb]; [|done].
  destruct (match maps w attach_exited_map !! tid with Some v => negb (v =? 0) | None => false end);
    cbn [negb andb]; [done|].
  pose proof (should_trace_state sys_id (maps w config_map !! 0) w) as ST.
  destruct (should_trace_syscall sys_id (maps w config_map !! 0) w) as [b w1]. cbn [fst snd] in *. subst w1.
  destruct b, (is_fd_state_tracked sys_id (maps w config_map !! 0)); cbn [negb andb orb]; try done;
    (destruct (is_expected_unmatched_exit sys_id rv); cbn [negb]; [done|]);
    unfold record_orphan_exit, lookup_stats, with_stats, bpf_ktime_get_ns, tick, bind, gets, ret, modify; cbn;
    (destruct (stats w !! cur_cpu (running w)) as [s|] eqn:E; cbn; rewrite ?E; cbn;
     split_and!; try done; try (by intros ? [=]));
    (intros ? [= <-]; rewrite lookup_insert_eq; do 2 eexists; split; [reflexivity|];
     apply orphan_update_result).
Qed.

(** C12: a call of a foreign ABI is reported and never paired: when the call is rejected,
    nothing is pending, the exec handoff of the process is forgotten and, with room in the
    ring buffer, one record names the task and the syscall number; when it is accepted, no
    state changes. *)
Theorem foreign_abi_rejected pid tid sys_id w :
  let '(rejected, w') := reject_unsupported_syscall_abi pid tid sys_id w in
  if rejected then
    pending_now w' = None /\ maps w' pending_exec_map !! pid = None /\
    (ring_has_room -> no_fault -> exists rec env, submitted w' = submitted w ++ [rec] /\
       decodeTraceEventV2Envelope rec = Some env /\ e_eventType env = EVENT_TYPE_UNSUPPORTED_ABI /\
       e_pid env = u32 pid /\ e_tid env = u32 tid /\ e_sysID env = u32 sys_id)
  else same_state w w' /\ submitted w' = submitted w.
Proof.
  unfold reject_unsupported_syscall_abi, bind.
  pose proof (native_abi_quiet sys_id w) as Q1.
  destruct (current_syscall_has_native_abi sys_id w) as [[|] w1]; cbn [snd] in Q1;
    destruct Q1 as [[SS1 _ _] (n & _ & [_ S1 _ _ _])]; rewrite app_nil_r in S1; [by cbn|].
  destruct (clear_pending_result w1) as (P2 & _ & _ & _ & _ & R2 & S2 & _).
  destruct (clear_pending_task_state w1) as [[] w2]. cbn [snd] in *.
  destruct (delete_frame pending_exec_map pid w2) as ((T3 & R3) & S3 & _ & D3 & _).
  destruct (bpf_map_delete_elem pending_exec_map pid w2) as [[] w3]. cbn [snd] in *.
  pose proof (emit_unsupported_ok pid tid sys_id w3) as [[[R4 M4 T4 _] _] O].
  destruct (emit_unsupported_abi pid tid sys_id w3) as [[] w4]. cbn in *.
  split_and!.
  - unfold pending_now, pending_cell in *. by rewrite T4, R4, T3, R3.
  - by rewrite M4.
  - intros Room NF. destruct O as [sq rec S4 (env & D & []) _|_ NR|_ F];
      [|by destruct (NR Room)|by destruct (F NF)].
    exists rec, env. split_and!; try done. congruence.
Qed.
End Pairing.
