(* ===== verification/Confine.v ===== *)
(** The programs that do not decide who is traced.

    Three maps say which tasks the programs follow: [filter_map],
    [arm_fork_map] and [unknown_children_map].  Only the scheduler lifecycle
    programs write them; every other program, and every handler behind a tail
    call, leaves them alone ([same_tracking]). *)
From stdpp Require Import base list gmap numbers.
From S2P Require Import Prelude Syscalls Abi Kernel Consumer Stats Tlv Emit Decoder EventCore Payload LifecycleState Pending Namespace Lifecycle Signal Structs FdPath Paths Misc Handlers EnterHandlers ExitHandlers Recvmsg Dispatch Delivery Pairing.

(** ** The tracking maps *)

(** The maps that decide what is traced are untouched. *)
Record same_tracking (w w' : world) : Prop := SameTracking {
  st_running : running w' = running w;
  st_filter : maps w' filter_map = maps w filter_map;
  st_arm : maps w' arm_fork_map = maps w arm_fork_map;
  st_unknown : maps w' unknown_children_map = maps w unknown_children_map }.

#[export] Instance same_tracking_preorder : PreOrder same_tracking.
Proof. split; [done|]. intros w1 w2 w3 [] []. split; congruence. Qed.

Lemma same_state_tracking w w' : same_state w w' -> same_tracking w w'.
Proof. intros [R M _ _]. by split; rewrite ?M. Qed.

Section Tracking.
Context {K : Kernel} {A : Arch}.

Lemma emits_tracking w w' : emits w w' -> same_tracking w w'.
Proof. intros [S _]. by apply same_state_tracking. Qed.

Lemma map_delete_tracking m k : tracking_map m = false -> keeps same_tracking (bpf_map_delete_elem m k).
Proof. intros H w. destruct m; try discriminate; done. Qed.
Lemma map_update_tracking m k v : tracking_map m = false -> keeps same_tracking (bpf_map_update_elem m k v).
Proof.
  intros H w. unfold bpf_map_update_elem, bind, tick, modify, ret.
  destruct (k_update_ok _); destruct m; try discriminate; done.
Qed.

(** The handlers write no tracking map. *)
#[export] Instance same_tracking_handlers : HandlerRelation same_tracking.
Proof.
  split; [apply _ | exact emits_tracking | intros t s w; by destruct w
         | exact map_update_tracking | exact map_delete_tracking].
Qed.
End Tracking.

#[export] Hint Resolve same_tracking_handlers : keeps.
#[export] Hint Extern 5 (keeps same_tracking _) => (eapply keeps_weaken; [|exact emits_tracking]) : keeps.
(** What the tracking theorems assume of a handler: it does not decide who is traced. *)
Class HandlersConfined {K : Kernel} {A : Arch} (H : Handlers) : Prop := {
  enter_program_confined : forall i h ctx, enter_program i = Some h -> keeps same_tracking (h ctx);
  exit_program_confined : forall i h ctx, exit_program i = Some h -> keeps same_tracking (h ctx) }.

#[export] Instance loaded_handlers_confined {K : Kernel} {A : Arch} : HandlersConfined loaded_handlers.
Proof.
  split; intros i h ctx E.
  - exact (slot_forall (fun h => keeps same_tracking (h ctx)) _ _ _ (loaded_enter_keeps ctx) E).
  - exact (slot_forall (fun h => keeps same_tracking (h ctx)) _ _ _ (loaded_exit_keeps ctx) E).
Qed.

Section Programs.
Context {K : Kernel} {A : Arch} {H : Handlers} {HC : HandlersConfined H}.

(** ** The programs that leave the tracking maps alone *)

Lemma tracer_namespace_tracking ctx sys_id : keeps same_tracking (capture_tracer_pid_namespace ctx sys_id).
Proof.
  unfold capture_tracer_pid_namespace, lookup_pid_namespace_config, bpf_get_current_task, core_read_or_zero.
  keeps_solve.
  by intros w.
Qed.
Lemma reject_tracking pid tid sys_id : keeps same_tracking (reject_unsupported_syscall_abi pid tid sys_id).
Proof.
  unfold reject_unsupported_syscall_abi. keeps_solve.
  intros w. apply emits_tracking. apply (emit_unsupported_ok pid tid sys_id w).
Qed.
Lemma arm_exec_tracking pid tid sys_id : keeps same_tracking (arm_pending_exec_replacement pid tid sys_id).
Proof. unfold arm_pending_exec_replacement. keeps_solve. Qed.
Lemma fork_flags_tracking tid sys_id ctx : keeps same_tracking (capture_pending_fork_flags tid sys_id ctx).
Proof. unfold capture_pending_fork_flags. keeps_solve. Qed.
Lemma clear_fork_flags_tracking tid sys_id : keeps same_tracking (clear_pending_fork_flags tid sys_id).
Proof. unfold clear_pending_fork_flags. keeps_solve. Qed.
Hint Resolve tracer_namespace_tracking reject_tracking arm_exec_tracking fork_flags_tracking
  clear_fork_flags_tracking : keeps.

Lemma trace_sys_enter_tracking ctx : keeps same_tracking (trace_sys_enter ctx).
Proof.
  unfold trace_sys_enter. keeps_solve. apply (tail_call_keeps same_tracking); [|keeps_solve].
  intros i h. apply enter_program_confined.
Qed.
Lemma trace_sys_exit_tracking ctx : keeps same_tracking (trace_sys_exit ctx).
Proof.
  unfold trace_sys_exit. keeps_solve. apply (tail_call_keeps same_tracking); [|keeps_solve].
  intros i h. apply exit_program_confined.
Qed.
Lemma signal_deliver_tracking signo info : keeps same_tracking (trace_signal_deliver signo info).
Proof. intros w. apply emits_tracking, trace_signal_deliver_emits. Qed.
Lemma signal_generate_tracking signo info target : keeps same_tracking (trace_signal_generate signo info target).
Proof. intros w. apply emits_tracking, trace_signal_generate_emits. Qed.
Hint Resolve core_read_or_zero_quiet read_namespace_snapshot_quiet
  capture_pid_namespace_fork_child_quiet namespace_clone_flags_quiet : keeps.
Lemma namespace_fork_tracking child : keeps same_tracking (trace_namespace_fork child).
Proof. unfold trace_namespace_fork, current_pending_task_state. keeps_solve. Qed.
Lemma kvm_exit_tracking reason error : keeps same_tracking (trace_kvm_userspace_exit reason error).
Proof. unfold trace_kvm_userspace_exit, current_pending_task_state. keeps_solve. Qed.
Lemma recvmsg_return_tracking regs : keeps same_tracking (trace_kretprobe_recvmsg_dispatch regs).
Proof. apply recvmsg_dispatch_keeps. Qed.
End Programs.
