(* ===== verification/Tracking.v ===== *)
(** Which tasks are traced.

    [filter_map] says which tasks the programs follow.  The theorems say who may
    write it ([tracking_confined]: only the fork of a followed or armed task and
    the exec of a followed one add a task), that the programs stay silent for
    every other task, and what a fork, an exec, an exit and a free do to it. *)
From stdpp Require Import base list gmap numbers.
From S2P Require Import Prelude Syscalls Abi Kernel Consumer Stats Tlv Emit Decoder EventCore Payload LifecycleState Pending Namespace Lifecycle Signal Structs FdPath Paths Misc Handlers EnterHandlers ExitHandlers Dispatch Trace Delivery Pairing Confine.

(** The TGID and TID of a context. *)
Definition ctx_pid (r : exec_ctx) : Z := u32 (Z.shiftr (cur_pid_tgid r) 32).
Definition ctx_tid (r : exec_ctx) : Z := u32 (cur_pid_tgid r).

(** Whether an entry of [filter_map] marks its task as followed. *)
Definition followed (e : option Z) : bool :=
  match e with Some f => has_flag f FILTER_TASK_TRACKED | None => false end.
Definition tracked_id (w : world) (k : Z) : bool := followed (maps w filter_map !! k).

(** The current task is the one whose next child must be followed. *)
Definition armed (w : world) : bool :=
  match maps w arm_fork_map !! 0 with
  | Some p => negb (p =? 0) && (p =? ctx_pid (running w))
  | None => false
  end.

Definition config_flag (w : world) (flag : Z) : bool :=
  match maps w config_map !! 0 with Some c => has_flag c flag | None => false end.

Section State.
Context {K : Kernel} {A : Arch}.

(** No map update fails. *)
Definition updates_ok : Prop := forall n, k_update_ok n = true.

Lemma tracked_ids w pid tid :
  tracked w pid tid = tracked_id w pid || tracked_id w tid.
Proof.
  unfold tracked, task_flags, tracked_id, followed.
  destruct (Z.eqb_spec tid pid) as [->|N]; destruct (maps w filter_map !! pid) as [f|];
    try destruct (has_flag f _); cbn; try done;
    destruct (maps w filter_map !! tid) as [g|]; try done; by destruct (has_flag g _).
Qed.

Lemma current_pid_tid_result w :
  current_pid_tid w = ((ctx_pid (running w), ctx_tid (running w)), w).
Proof. done. Qed.

(** ** Single updates *)

(** What a counted map update does: the entry, or nothing but a counter. *)
Record updated (m : map_id) (k v : Z) (w : world) (ok : bool) (w' : world) : Prop := Updated {
  up_running : running w' = running w;
  up_submitted : submitted w' = submitted w;
  up_tasks : tasks w' = tasks w;
  up_maps : maps w' = if ok then map_set (maps w) m (<[k := v]> (maps w m)) else maps w;
  up_ok : updates_ok -> ok = true }.

Lemma lifecycle_update_result m k v w :
  wp (lifecycle_map_update m k v) (fun ok w' => updated m k v w ok w') w.
Proof.
  unfold lifecycle_map_update, bpf_map_update_elem, tick. wp_step. wp_step. unfold wp at 1. cbn [fst snd].
  destruct (k_update_ok (calls w)) eqn:E; wp_steps; cbn [Z.eqb]; wp_steps; [by split|].
  eapply keeps_wp; [apply record_lifecycle_map_update_fail_quiet|]. intros [] w1 Q. wp_steps.
  destruct Q as [[[R M T _] _ _] (n & _ & [_ S _ _ _])]. rewrite app_nil_r in S.
  split; try done. intros U. by rewrite U in E.
Qed.

Lemma map_set_eq ms m v : map_set ms m v m = v.
Proof. unfold map_set. by rewrite decide_True. Qed.
Lemma map_set_ne ms m m' v : m' <> m -> map_set ms m v m' = ms m'.
Proof. intros. unfold map_set. by rewrite decide_False. Qed.

(** A quiet program changes nothing but counters. *)
Lemma quiet_state w w' :
  quiet w w' -> maps w' = maps w /\ running w' = running w /\ submitted w' = submitted w /\ tasks w' = tasks w.
Proof. intros [[[R M T _] _ _] (n & _ & [_ S _ _ _])]. rewrite app_nil_r in S. by split_and!. Qed.

(** ** Lifecycle records *)

(** The record reaches the consumer when lifecycle records are configured. *)
Definition lifecycle_delivered (kind pid tid a0 a1 snapshot_str : Z) (w w' : world) : Prop :=
  same_state w w' /\
  (config_flag w CONFIG_EMIT_LIFECYCLE = false -> submitted w' = submitted w) /\
  (config_flag w CONFIG_EMIT_LIFECYCLE = true -> ring_has_room -> no_fault -> exists rec env sq,
     submitted w' = submitted w ++ [rec] /\ decodeTraceEventV2Envelope rec = Some env /\
     reads_lifecycle (running w) kind pid tid a0 a1 snapshot_str sq env).

Lemma emit_lifecycle_result kind pid tid a0 a1 s w :
  0 <= kind < 2 ^ 32 ->
  wp (emit_lifecycle_event kind pid tid a0 a1 s) (fun _ w' =>
    lifecycle_delivered kind pid tid a0 a1 s w w') w.
Proof.
  intros Hk. unfold emit_lifecycle_event, bpf_map_lookup_elem, lifecycle_delivered, config_flag. wp_steps.
  destruct (maps w config_map !! 0) as [c|]; [|by wp_step].
  destruct (has_flag c _); [|by wp_step].
  eapply wp_mono; [by apply emit_lifecycle_direct_ok|]. intros [] w' [[S _] O].
  split_and!; [done | done |]. intros _ Room NF.
  destruct O as [sq rec Sb (env & D & Rl) _|_ NR|_ F]; [|by destruct (NR Room)|by destruct (F NF)].
  by exists rec, env, sq.
Qed.
End State.

(** ** Fork *)

(** The entry [install_tracked_filter] writes over [e]: followed, with the pre-exec mark of [e]. *)
Definition follow_value (e : option Z) : Z :=
  match e with
  | Some f => Z.lor FILTER_TASK_TRACKED (Z.land f FILTER_TASK_PRE_EXEC)
  | None => FILTER_TASK_TRACKED
  end.

Definition fork_identity (flags pid : Z) : Z := Z.lor (Z.shiftl (Z.land flags 0xffffffff) 32) pid.

Section Fork.
Context {K : Kernel} {A : Arch}.

(** The context, the storage of tasks and the ring buffer are the same, and [filter_map] differs at
    [k] at most. *)
Record filter_at (k : Z) (w w' : world) : Prop := FilterAt {
  fa_running : running w' = running w;
  fa_tasks : tasks w' = tasks w;
  fa_other : forall m, m <> filter_map -> maps w' m = maps w m;
  fa_filter : forall j, j <> k -> maps w' filter_map !! j = maps w filter_map !! j }.

#[export] Instance filter_at_preorder k : PreOrder (filter_at k).
Proof.
  split; [done|]. intros w1 w2 w3 [R1 T1 O1 F1] [R2 T2 O2 F2]. split; try congruence.
  - intros m Hm. by rewrite O2, O1.
  - intros j Hj. by rewrite F2, F1.
Qed.

Lemma same_filter_at k w w' :
  running w' = running w -> tasks w' = tasks w -> maps w' = maps w -> filter_at k w w'.
Proof. intros R T M. split; rewrite ?M; done. Qed.

Lemma updated_filter_at k v w ok w' : updated filter_map k v w ok w' -> filter_at k w w'.
Proof.
  intros [R _ T M _]. split; try done; rewrite M; destruct ok; try done.
  - intros m Hm. by apply map_set_ne.
  - intros j Hj. rewrite map_set_eq. by apply lookup_insert_ne.
Qed.

(** An attempt to write [v] at [k]. *)
Definition wrote (k v : Z) (w w' : world) : Prop :=
  filter_at k w w' /\ submitted w' = submitted w /\
  (maps w' filter_map !! k = Some v \/ maps w' filter_map !! k = maps w filter_map !! k /\ ~ updates_ok).

Lemma updated_wrote k v w ok w' : updated filter_map k v w ok w' -> wrote k v w w'.
Proof.
  intros U. split; [by eapply updated_filter_at|]. destruct U as [R S T M H]. split; [done|].
  rewrite M. destruct ok; [left; rewrite map_set_eq; apply lookup_insert_eq|].
  right. split; [done|]. intros U. by specialize (H U).
Qed.

Lemma arm_child_result child w :
  wp (match maps w arm_fork_map !! 0 with
      | Some p =>
          if negb (p =? 0) && (p =? ctx_pid (running w))
          then let* _ := install_pre_exec_filter child in ret tt else ret tt
      | None => ret tt
      end) (fun _ w' => if armed w then wrote child (Z.lor FILTER_TASK_TRACKED FILTER_TASK_PRE_EXEC) w w'
                        else w' = w) w.
Proof.
  unfold armed. destruct (maps w arm_fork_map !! 0) as [p|]; [|by wp_step].
  destruct (_ && _); [|by wp_step]. wp_step.
  eapply wp_mono; [apply lifecycle_update_result|]. intros ok w' U. wp_step. by eapply updated_wrote.
Qed.

Lemma install_tracked_result child w :
  wp (install_tracked_filter child) (fun _ w' =>
    wrote child (follow_value (maps w filter_map !! child)) w w') w.
Proof.
  unfold install_tracked_filter, bpf_map_lookup_elem. wp_steps.
  eapply wp_mono; [apply lifecycle_update_result|]. intros ok w' U. by eapply updated_wrote.
Qed.

(** What a fork does: the armed entry, the followed entry, then the record. *)
Definition fork_spec (child : Z) (w w' : world) : Prop :=
  let pid := ctx_pid (running w) in
  let tid := ctx_tid (running w) in
  let fl := default 0 (maps w pending_fork_flags_map !! tid) in
  exists w1,
    (if armed w then wrote child (Z.lor FILTER_TASK_TRACKED FILTER_TASK_PRE_EXEC) w w1
     else filter_at child w w1 /\ maps w1 = maps w /\ submitted w1 = submitted w) /\
    if tracked w1 pid tid then
      exists w2 w3,
        (if config_flag w CONFIG_FOLLOW_FORKS
         then wrote child (follow_value (maps w1 filter_map !! child)) w1 w2
         else filter_at child w1 w2 /\ maps w2 = maps w1 /\ submitted w2 = submitted w1) /\
        lifecycle_delivered LIFECYCLE_FORK pid tid (fork_identity fl pid) child 0 w2 w3 /\
        running w' = running w3 /\ maps w' filter_map = maps w3 filter_map /\
        maps w' arm_fork_map = maps w3 arm_fork_map /\
        (config_flag w CONFIG_FOLLOW_FORKS = true -> maps w' = maps w3 /\ submitted w' = submitted w3)
    else maps w' = maps w1 /\ running w' = running w /\ submitted w' = submitted w.

Lemma wrote_quiet k v w w1 w2 : wrote k v w w1 -> quiet w1 w2 -> wrote k v w w2.
Proof.
  intros (F & S & M) Q. destruct (quiet_state _ _ Q) as (M2 & R2 & S2 & T2).
  split_and!; [|congruence|by rewrite M2]. etrans; [exact F|]. by apply same_filter_at.
Qed.
Lemma quiet_wrote k v w w1 w2 : quiet w w1 -> wrote k v w1 w2 -> wrote k v w w2.
Proof.
  intros Q (F & S & M). destruct (quiet_state _ _ Q) as (M1 & R1 & S1 & T1).
  split_and!; [|congruence|by rewrite <- M1]. etrans; [|exact F]. by apply same_filter_at.
Qed.

Lemma config_flag_at k w w' flag : filter_at k w w' -> config_flag w' flag = config_flag w flag.
Proof. intros [_ _ O _]. unfold config_flag. by rewrite O. Qed.

(** The entry of the child, when forks are followed. *)
Lemma follow_child_result (follows : bool) child w :
  wp (if follows then let* installed := install_tracked_filter child in
        record_lifecycle_fork_child_filter installed else ret tt)
    (fun _ w' => if follows then wrote child (follow_value (maps w filter_map !! child)) w w'
                 else w' = w) w.
Proof.
  destruct follows; wp_step; [|done].
  eapply wp_mono; [apply install_tracked_result|]. intros b w1 W.
  eapply keeps_wp; [apply record_lifecycle_fork_child_filter_quiet|]. intros [] w2 Q.
  exact (wrote_quiet _ _ _ _ _ W Q).
Qed.

(** The records and marks of a child that is not followed. *)
Lemma unknown_child_result (follows : bool) fl pid tid child w :
  wp ((if negb follows && has_flag fl CLONE_PTRACE_FLAG then
         emit_lifecycle_event LIFECYCLE_UNKNOWN_DETACH pid tid child 0 0
       else ret tt) ;;;
      if negb follows && has_flag fl CLONE_PARENT_FLAG then mark_unknown_child child pid else ret tt)
    (fun _ w' => running w' = running w /\ maps w' filter_map = maps w filter_map /\
       maps w' arm_fork_map = maps w arm_fork_map /\ (follows = true -> w' = w)) w.
Proof.
  destruct follows; cbn [negb andb]; [by wp_steps|]. wp_step.
  assert (wp (if has_flag fl CLONE_PTRACE_FLAG then
      emit_lifecycle_event LIFECYCLE_UNKNOWN_DETACH pid tid child 0 0 else ret tt)
    (fun _ w1 => running w1 = running w /\ maps w1 = maps w) w) as B.
  { destruct (has_flag fl _); [|by wp_step].
    eapply wp_mono; [apply emit_lifecycle_result; lia|]. by intros _ w1 [[R M _ _] _]. }
  eapply wp_mono; [exact B|]. intros [] w1 [R1 M1].
  destruct (has_flag fl CLONE_PARENT_FLAG); [|wp_step; by rewrite M1].
  unfold mark_unknown_child. wp_step. eapply wp_mono; [apply lifecycle_update_result|].
  intros ok w2 [R2 _ _ M2 _]. wp_step. rewrite M2, R2, <- M1. by destruct ok.
Qed.

Lemma fork_result child w :
  wp (trace_sched_process_fork child) (fun _ w' => fork_spec (u32 child) w w') w.
Proof.
  unfold trace_sched_process_fork. wp_step.
  eapply keeps_wp; [apply lifecycle_counters_quiet|]. intros [] w0 Q0.
  destruct (quiet_state _ _ Q0) as (M0 & R0 & S0 & T0). wp_step. unfold wp at 1.
  rewrite current_pid_tid_result. cbn [fst snd].
  unfold pending_fork_flags, bpf_map_lookup_elem. wp_steps.
  eapply wp_mono; [apply arm_child_result|]. intros [] w1 H1.
  assert (if armed w then wrote (u32 child) (Z.lor FILTER_TASK_TRACKED FILTER_TASK_PRE_EXEC) w w1
          else filter_at (u32 child) w w1 /\ maps w1 = maps w /\ submitted w1 = submitted w) as H1'.
  { assert (armed w0 = armed w) as E by (unfold armed; by rewrite M0, R0). rewrite E in H1.
    destruct (armed w); [by eapply quiet_wrote|]. subst w1. split_and!; try done. by apply same_filter_at. }
  clear H1. assert (filter_at (u32 child) w w1 /\ submitted w1 = submitted w) as [F1 S1]
    by (destruct (armed w); by destruct H1' as (? & ? & ?)).
  wp_step. unfold wp at 1. rewrite is_tracked_result. cbn [fst snd]. rewrite R0, M0.
  unfold fork_spec. destruct (tracked w1 (ctx_pid (running w)) (ctx_tid (running w))) eqn:Tr; cbn [negb].
  2: { eapply keeps_wp; [apply lifecycle_counters_quiet|]. intros [] w2 Q2.
       destruct (quiet_state _ _ Q2) as (M2 & R2 & S2 & T2). exists w1. rewrite Tr.
       split_and!; [done | done | rewrite R2; apply F1 | congruence]. }
  wp_step. eapply keeps_wp; [apply lifecycle_counters_quiet|]. intros [] w1' Q1.
  destruct (quiet_state _ _ Q1) as (M1 & R1 & S1' & T1). wp_steps.
  fold (config_flag w1' CONFIG_FOLLOW_FORKS).
  assert (config_flag w1' CONFIG_FOLLOW_FORKS = config_flag w CONFIG_FOLLOW_FORKS) as ->.
  { rewrite <- (config_flag_at _ _ _ _ F1). unfold config_flag. by rewrite M1. }
  eapply wp_mono; [apply follow_child_result|]. intros [] w2 H2. rewrite M1 in H2. wp_step.
  eapply wp_mono; [apply emit_lifecycle_result; lia|]. intros [] w3 L3.
  eapply wp_mono; [apply unknown_child_result|]. intros _ w4 (R4 & F4 & A4 & C4).
  exists w1. rewrite Tr. split; [done|]. exists w2, w3. split_and!; try done.
  - destruct (config_flag w _); [by eapply quiet_wrote|]. subst w2. split_and!; try done.
    by apply same_filter_at.
  - intros E. by rewrite (C4 E).
Qed.
End Fork.

(** ** Exec *)

Section Exec.
Context {K : Kernel} {A : Arch}.

(** The exec of a task that is not followed, under the id of a thread that is: the entry moves. *)
Definition adopts (w : world) (tid old_tid : Z) : bool :=
  negb (old_tid =? 0) && negb (old_tid =? tid) && tracked_id w old_tid.

Lemma adopt_result pid tid old_tid w :
  wp (adopt_exec_task_tracking pid tid old_tid) (fun ok w' =>
    running w' = running w /\ submitted w' = submitted w /\ tasks w' = tasks w /\
    (forall m, m <> filter_map -> maps w' m = maps w m) /\
    if tracked w pid tid then ok = true /\ maps w' = maps w
    else if adopts w tid old_tid && ok then
      maps w' filter_map = delete old_tid
        (<[pid := default 0 (maps w filter_map !! old_tid)]> (maps w filter_map))
    else ok = false /\ maps w' = maps w /\ (adopts w tid old_tid = true -> ~ updates_ok)) w.
Proof.
  unfold adopt_exec_task_tracking. wp_step. unfold wp at 1. rewrite is_tracked_result. cbn [fst snd].
  destruct (tracked w pid tid); [by wp_step|]. unfold adopts, tracked_id, followed.
  destruct (old_tid =? 0); cbn [orb negb andb]; [by wp_step|].
  destruct (old_tid =? tid); cbn [orb negb andb]; [by wp_step|].
  unfold bpf_map_lookup_elem. wp_steps. destruct (maps w filter_map !! old_tid) as [v|]; [|by wp_step].
  destruct (has_flag v FILTER_TASK_TRACKED); cbn [negb andb]; [|by wp_step]. wp_step.
  eapply wp_mono; [apply lifecycle_update_result|]. intros ok w1 [R S T M H]. destruct ok; wp_steps.
  - unfold bpf_map_delete_elem. wp_steps. cbn. rewrite M. split_and!; try done.
    intros m Hm. rewrite !map_set_ne by done. done.
  - rewrite M. split_and!; try done. intros _ U. by specialize (H U).
Qed.

Lemma clear_pre_exec_result tid w :
  wp (clear_pre_exec_filter tid) (fun ok w' =>
    match maps w filter_map !! tid with
    | Some f => if has_flag f FILTER_TASK_PRE_EXEC then wrote tid (Z.ldiff f FILTER_TASK_PRE_EXEC) w w' /\
                  (updates_ok -> ok = true)
                else ok = false /\ w' = w
    | None => ok = false /\ w' = w
    end) w.
Proof.
  unfold clear_pre_exec_filter, bpf_map_lookup_elem. wp_steps.
  destruct (maps w filter_map !! tid) as [f|]; [|by wp_step].
  destruct (has_flag f FILTER_TASK_PRE_EXEC); [|by wp_step].
  eapply wp_mono; [apply lifecycle_update_result|]. intros ok w' U. split; [by eapply updated_wrote | apply U].
Qed.

(** The completion of a pending exec: its exit record with return value zero, and nothing pending. *)
Definition completed_exec (w w' : world) : Prop :=
  running w' = running w /\ maps w' filter_map = maps w filter_map /\
  maps w' config_map = maps w config_map /\ maps w' arm_fork_map = maps w arm_fork_map /\
  match pending_now w with
  | Some p =>
      if is_exec_payload_direct_syscall (p_sys_id p) then
        pending_now w' = None /\
        (ring_has_room -> no_fault -> exists d rec env, submitted w' = submitted w ++ [rec] /\
           decodeTraceEventV2Envelope rec = Some env /\ exit_envelope (running w) p 0 d env /\
           e_payload env = [])
      else w' = w
  | None => w' = w
  end.

Lemma exec_completion_result pid w :
  wp (emit_successful_exec_completion pid) (fun _ w' => completed_exec w w') w.
Proof.
  unfold emit_successful_exec_completion, completed_exec. wp_step. unfold wp at 1.
  rewrite current_pending_task_state_result. cbn [fst snd]. unfold pending_now.
  destruct (pending_cell w) as [s|]; [|by wp_step]. destruct (s_valid s =? 0); [by wp_step|].
  set (p := s_syscall s). destruct (is_exec_payload_direct_syscall (p_sys_id p)); cbn [negb]; [|by wp_step].
  wp_step. eapply keeps_wp; [apply pending_syscall_duration_quiet|]. intros d w1 Q1.
  destruct (quiet_state _ _ Q1) as (M1 & R1 & S1 & T1). wp_step.
  destruct (emit_syscall_exit_ok p 0 d 0 w1) as [[[R2 M2 T2 _] _] _].
  pose proof (bare_exit_delivers p 0 d w1) as D. unfold wp at 1.
  unfold delivers_at in D. destruct (emit_syscall_exit_event_v2_direct p 0 d 0 w1) as [[] w2]. cbn [fst snd] in *.
  destruct (consume_pending_keeps (R := same_tracking) pid (p_tid p) p false w2) as [R3 F3 A3 _].
  destruct (consume_result pid (p_tid p) p false w2) as (P3 & S3 & _).
  assert (maps (snd (consume_pending_syscall pid (p_tid p) p false w2)) config_map = maps w2 config_map) as C3.
  { unfold consume_pending_syscall, bind. destruct (clear_pending_result w2) as (_ & _ & _ & _ & M & _).
    destruct (clear_pending_task_state w2) as [[] w3]. cbn [snd] in M. destruct (_ && _); cbn; by rewrite <- M. }
  unfold wp. split_and!; try congruence; try done.
  intros Room NF. destruct (D Room NF) as (rec & env & S2 & Dc & _ & He & Hp). exists d, rec, env.
  rewrite <- R1. split_and!; try done. congruence.
Qed.

(** The pre-exec mark of the thread is cleared, and a cleared mark disarms the parent. *)
Definition disarmed (w w' : world) : Prop :=
  running w' = running w /\ submitted w' = submitted w /\ tasks w' = tasks w /\
  (forall m, m <> filter_map -> m <> arm_fork_map -> maps w' m = maps w m) /\
  (forall k, k <> ctx_tid (running w) -> maps w' filter_map !! k = maps w filter_map !! k) /\
  (tracked_id w' (ctx_tid (running w)) = true -> tracked_id w (ctx_tid (running w)) = true) /\
  (forall p, maps w' arm_fork_map !! 0 = Some p -> p = 0 \/ maps w arm_fork_map !! 0 = Some p) /\
  (updates_ok ->
   maps w' filter_map !! ctx_tid (running w) =
     (fun f => Z.ldiff f FILTER_TASK_PRE_EXEC) <$> maps w filter_map !! ctx_tid (running w) /\
   (forall f, maps w filter_map !! ctx_tid (running w) = Some f ->
      has_flag f FILTER_TASK_PRE_EXEC = true -> default 0 (maps w' arm_fork_map !! 0) = 0)).

Lemma ldiff_clear f m : has_flag f m = false -> Z.ldiff f m = f.
Proof.
  unfold has_flag. intros H. apply negb_false_iff, Z.eqb_eq in H. apply Z.bits_inj'. intros i _.
  rewrite Z.ldiff_spec. assert (Z.testbit (Z.land f m) i = false) as E by (by rewrite H, Z.bits_0).
  rewrite Z.land_spec in E. by destruct (Z.testbit f i), (Z.testbit m i).
Qed.
Lemma ldiff_flag f m n : Z.land m n = 0 -> has_flag (Z.ldiff f m) n = has_flag f n.
Proof.
  intros E. unfold has_flag. do 2 f_equal. apply Z.bits_inj'. intros i _.
  assert (Z.testbit (Z.land m n) i = false) as D by (by rewrite E, Z.bits_0).
  rewrite Z.land_spec in D. rewrite !Z.land_spec, Z.ldiff_spec.
  by destruct (Z.testbit f i), (Z.testbit m i), (Z.testbit n i).
Qed.
Lemma ldiff_cleared f m : has_flag (Z.ldiff f m) m = false.
Proof.
  unfold has_flag. apply negb_false_iff, Z.eqb_eq, Z.bits_inj'. intros i _.
  rewrite Z.land_spec, Z.ldiff_spec, Z.bits_0. by destruct (Z.testbit f i), (Z.testbit m i).
Qed.

Lemma disarm_result (owner : bool) w :
  wp (if owner then
        let* arm_parent := bpf_map_lookup_elem arm_fork_map 0 in
        match arm_parent with
        | Some p => if p =? 0 then ret tt else let* _ := lifecycle_map_update arm_fork_map 0 0 in ret tt
        | None => ret tt
        end
      else ret tt) (fun _ w' =>
    running w' = running w /\ submitted w' = submitted w /\ tasks w' = tasks w /\
    (forall m, m <> arm_fork_map -> maps w' m = maps w m) /\
    (forall p, maps w' arm_fork_map !! 0 = Some p -> p = 0 \/ maps w arm_fork_map !! 0 = Some p) /\
    (owner = true -> updates_ok -> default 0 (maps w' arm_fork_map !! 0) = 0)) w.
Proof.
  destruct owner; [|wp_step; split_and!; by try (intros; right)]. unfold bpf_map_lookup_elem. wp_steps.
  destruct (maps w arm_fork_map !! 0) as [p|] eqn:E.
  2: { wp_step. rewrite E. by split_and!. }
  destruct (Z.eqb_spec p 0) as [->|N].
  { wp_step. rewrite E. split_and!; try done. by right. }
  wp_step. eapply wp_mono; [apply lifecycle_update_result|]. intros ok w1 [R S T M H]. wp_step.
  rewrite M. destruct ok; split_and!; try done.
  - intros m Hm. by apply map_set_ne.
  - intros q. rewrite map_set_eq, lookup_insert_eq. intros [= <-]. by left.
  - intros _ _. by rewrite map_set_eq, lookup_insert_eq.
  - rewrite E. by right.
  - intros _ U. by specialize (H U).
Qed.

Lemma clear_and_disarm_result w (k : prog unit) Q :
  (forall w', disarmed w w' -> wp k Q w') ->
  wp (let* pre_exec_owner := clear_pre_exec_filter (ctx_tid (running w)) in
      (if pre_exec_owner then
        let* arm_parent := bpf_map_lookup_elem arm_fork_map 0 in
        match arm_parent with
        | Some p => if p =? 0 then ret tt else let* _ := lifecycle_map_update arm_fork_map 0 0 in ret tt
        | None => ret tt
        end
      else ret tt) ;;; k) Q w.
Proof.
  intros HQ. wp_step. eapply wp_mono; [apply clear_pre_exec_result|]. cbv beta.
  intros owner w1 H1. wp_step. eapply wp_mono; [apply disarm_result|].
  intros [] w2 (R2 & S2 & T2 & O2 & A2 & D2). apply HQ. unfold disarmed, tracked_id, followed.
  rewrite (O2 filter_map) by done.
  assert (w1 = w -> (forall f, maps w filter_map !! ctx_tid (running w) = Some f ->
    has_flag f FILTER_TASK_PRE_EXEC = false) -> disarmed w w2) as Same.
  { intros -> Hf. unfold disarmed, tracked_id, followed. rewrite (O2 filter_map) by done.
    split_and!; auto. intros _. split.
    - destruct (maps w filter_map !! ctx_tid (running w)) as [f|]; [|done]. cbn. by rewrite ldiff_clear by auto.
    - intros f E H. rewrite Hf in H; done. }
  unfold disarmed, tracked_id, followed in Same. rewrite (O2 filter_map) in Same by done.
  destruct (maps w filter_map !! ctx_tid (running w)) as [f|] eqn:E;
    [destruct (has_flag f FILTER_TASK_PRE_EXEC) eqn:Hf|]; [|destruct H1 as [_ ->]; apply Same; [done|congruence]..].
  destruct H1 as [([R1 T1 O1 F1] & S1 & V1) U1]. rewrite (O1 arm_fork_map) in A2 by done.
  split_and!; try congruence; auto.
  - intros m H1 H2. rewrite O2, O1; done.
  - destruct V1 as [-> | [-> _]]; rewrite ?E; [|done]. by rewrite ldiff_flag.
  - intros U. split; [by destruct V1 as [-> | [_ N]]; [|destruct (N U)] | auto].
Qed.

(** What an exec does. *)
Definition exec_spec (ctx : trace_event_raw_sched_process_exec) (w w' : world) : Prop :=
  let pid := ctx_pid (running w) in
  let tid := ctx_tid (running w) in
  exists ok w1,
    (running w1 = running w /\ submitted w1 = submitted w /\ tasks w1 = tasks w /\
     (forall m, m <> filter_map -> maps w1 m = maps w m) /\
     if tracked w pid tid then ok = true /\ maps w1 = maps w
     else if adopts w tid (u32 (exec_old_pid ctx)) && ok then
       maps w1 filter_map = delete (u32 (exec_old_pid ctx))
         (<[pid := default 0 (maps w filter_map !! u32 (exec_old_pid ctx))]> (maps w filter_map))
     else ok = false /\ maps w1 = maps w /\ (adopts w tid (u32 (exec_old_pid ctx)) = true -> ~ updates_ok)) /\
    if ok then
      exists w2 w3 w4 filename,
        disarmed w1 w2 /\ completed_exec w2 w3 /\
        lifecycle_delivered LIFECYCLE_EXEC pid tid (s32 (exec_old_pid ctx)) tid filename w3 w4 /\
        w' = snd (bpf_map_delete_elem pending_exec_map pid w4)
    else maps w' = maps w1 /\ running w' = running w /\ submitted w' = submitted w.

Lemma exec_result ctx w :
  wp (trace_sched_process_exec ctx) (fun _ w' => exec_spec ctx w w') w.
Proof.
  unfold trace_sched_process_exec. wp_step.
  eapply keeps_wp; [apply lifecycle_counters_quiet|]. intros [] w0 Q0.
  destruct (quiet_state _ _ Q0) as (M0 & R0 & S0 & T0). wp_step. unfold wp at 1.
  rewrite current_pid_tid_result. cbn [fst snd]. wp_step.
  eapply wp_mono; [apply adopt_result|]. cbv beta. intros ok w1 (R1 & S1 & T1 & O1 & H1).
  assert (forall p t, tracked w0 p t = tracked w p t) as Et.
  { intros. unfold tracked, task_flags. by rewrite M0. }
  assert (forall t o, adopts w0 t o = adopts w t o) as Ea.
  { intros. unfold adopts, tracked_id. by rewrite M0. }
  rewrite Et, !Ea, M0, R0 in H1. rewrite M0 in O1. rewrite R0 in *. rewrite S0 in *. rewrite T0 in *.
  destruct ok; cbn [negb].
  - rewrite <- R1. apply clear_and_disarm_result. intros w2 D2.
    wp_step. eapply wp_mono; [apply exec_completion_result|]. intros [] w3 C3. wp_steps.
    eapply wp_mono; [apply emit_lifecycle_result; lia|]. intros [] w4 L4. unfold wp.
    rewrite R1 in *. exists true, w1. split; [by split_and!|]. do 4 eexists. split_and!; [exact D2 | exact C3 | exact L4 | done].
  - eapply keeps_wp; [apply lifecycle_counters_quiet|]. intros [] w2 Q2.
    destruct (quiet_state _ _ Q2) as (M2 & R2 & S2 & T2). exists false, w1.
    split; [by split_and!|]. split_and!; congruence.
Qed.
End Exec.

(** ** Exit and free *)

Section ExitFree.
Context {K : Kernel} {A : Arch}.

(** Everything the maps hold under the id of the task is gone; so is the pending syscall
    of the running task. *)
Record forgets (pid tid : Z) (w w' : world) : Prop := Forgets {
  fg_running : running w' = running w;
  fg_submitted : submitted w' = submitted w;
  fg_pending : pending_now w' = None;
  fg_tasks : forall t, t <> cur_task (running w) -> tasks w' !! t = tasks w !! t;
  fg_filter : maps w' filter_map = delete tid (maps w filter_map);
  fg_unknown : maps w' unknown_children_map = delete tid (maps w unknown_children_map);
  fg_roots : maps w' attach_roots_map = delete tid (maps w attach_roots_map);
  fg_flags : maps w' pending_fork_flags_map = delete tid (maps w pending_fork_flags_map);
  fg_config : maps w' config_map = maps w config_map;
  fg_exec : maps w' pending_exec_map !! pid <> Some tid;
  fg_leader : tid = pid -> maps w' pending_exec_map !! pid = None /\ maps w' main_exited_map !! pid = None /\
    (updates_ok -> pid <> 0 -> maps w' arm_fork_map !! 0 <> Some pid);
  fg_arm : forall p, maps w' arm_fork_map !! 0 = Some p -> p = 0 \/ maps w arm_fork_map !! 0 = Some p }.

(** A run of deletions at [k]. *)
Definition deleting (k : Z) (ms : list map_id) (w : world) : world :=
  fold_left (fun w m => set_maps (map_set (maps w) m (delete k (maps w m))) w) ms w.

Lemma deleting_maps k ms w m :
  maps (deleting k ms w) m = if bool_decide (m ∈ ms) then delete k (maps w m) else maps w m.
Proof.
  revert w. induction ms as [|m' ms IH]; intros w; [done|]. cbn [deleting fold_left].
  fold (deleting k ms (set_maps (map_set (maps w) m' (delete k (maps w m'))) w)). rewrite IH. cbn [maps set_maps].
  destruct (decide (m = m')) as [->|N].
  - rewrite map_set_eq, (bool_decide_true (m' ∈ m' :: ms)) by (apply elem_of_cons; auto).
    case_bool_decide; [|done]. by rewrite delete_delete_eq.
  - rewrite map_set_ne by done.
    rewrite (bool_decide_ext (m ∈ m' :: ms) (m ∈ ms)); [done|]. rewrite elem_of_cons. tauto.
Qed.

Lemma deleting_frame k ms w :
  running (deleting k ms w) = running w /\ submitted (deleting k ms w) = submitted w /\
  tasks (deleting k ms w) = tasks w.
Proof.
  revert w. induction ms as [|m ms IH]; intros w; [done|].
  exact (IH (set_maps (map_set (maps w) m (delete k (maps w m))) w)).
Qed.

(** After the pending syscall was cleared ([w1]), the state of the process. *)
Lemma clear_process_result pid w w1 :
  pending_now w1 = None -> (forall t, t <> cur_task (running w) -> tasks w1 !! t = tasks w !! t) ->
  (forall m, m <> pending_stack_map -> maps w1 m = maps w m) ->
  running w1 = running w -> submitted w1 = submitted w ->
  wp (clear_process_lifecycle_state pid) (fun _ w' => forgets pid pid w w') w1.
Proof.
  intros P1 T1 M1 R1 S1. unfold clear_process_lifecycle_state, bpf_map_delete_elem. wp_steps.
  set (ms := [filter_map; attach_roots_map; pending_exec_map; main_exited_map;
    pending_fork_flags_map; unknown_children_map]).
  match goal with |- wp _ _ ?v => change v with (deleting pid ms w1); set (w2 := deleting pid ms w1) end.
  assert (forall w3, running w3 = running w2 -> submitted w3 = submitted w2 -> tasks w3 = tasks w2 ->
    (forall m, m <> arm_fork_map -> maps w3 m = maps w2 m) ->
    (updates_ok -> pid <> 0 -> maps w3 arm_fork_map !! 0 <> Some pid) ->
    (forall p, maps w3 arm_fork_map !! 0 = Some p -> p = 0 \/ maps w2 arm_fork_map !! 0 = Some p) ->
    forgets pid pid w w3) as F.
  { destruct (deleting_frame pid ms w1) as (R2 & S2 & T2). pose proof (deleting_maps pid ms w1) as M2.
    intros w3 R3 S3 T3 M3 A3 A4. fold w2 in R2, S2, T2, M2.
    split; try congruence; rewrite ?M3, ?M2 by done; cbn; rewrite ?M1, ?lookup_delete_eq by done; try done.
    - rewrite <- P1. apply same_tasks_pending. split; congruence.
    - intros t Ht. rewrite T3, T2. by apply T1.
    - by rewrite bool_decide_true, lookup_delete_eq by (by apply (bool_decide_unpack _)).
    - intros _. by rewrite !bool_decide_true, !lookup_delete_eq by (by apply (bool_decide_unpack _)).
    - intros p Hp. destruct (A4 p Hp) as [|Hq]; [by left|]. right. rewrite M2 in Hq. cbn in Hq.
      by rewrite M1 in Hq. }
  clearbody w2. unfold clear_armed_fork_parent, bpf_map_lookup_elem. wp_steps.
  destruct (maps w2 arm_fork_map !! 0) as [p|] eqn:E; [destruct (Z.eqb_spec p pid) as [->|Np]|]; wp_step.
  - eapply wp_mono; [apply lifecycle_update_result|]. intros ok w3 [R3 S3 T3 M3 H3]. wp_step.
    apply F; try done; rewrite M3; destruct ok; intros; rewrite ?map_set_eq, ?lookup_insert_eq in *;
      try done; try (by apply map_set_ne); naive_solver.
  - apply F; try done; rewrite E; naive_solver.
  - apply F; try done; rewrite E; naive_solver.
Qed.

Lemma clear_thread_result pid tid w w1 :
  tid <> pid ->
  pending_now w1 = None -> (forall t, t <> cur_task (running w) -> tasks w1 !! t = tasks w !! t) ->
  (forall m, m <> pending_stack_map -> maps w1 m = maps w m) ->
  running w1 = running w -> submitted w1 = submitted w ->
  wp (let* pending_tid := bpf_map_lookup_elem pending_exec_map pid in
      (match pending_tid with
       | Some t => if t =? tid then bpf_map_delete_elem pending_exec_map pid else ret tt
       | None => ret tt
       end) ;;;
      bpf_map_delete_elem filter_map tid ;;;
      bpf_map_delete_elem attach_roots_map tid ;;;
      bpf_map_delete_elem pending_fork_flags_map tid ;;;
      bpf_map_delete_elem unknown_children_map tid) (fun _ w' => forgets pid tid w w') w1.
Proof.
  intros N P1 T1 M1 R1 S1. unfold bpf_map_lookup_elem. wp_steps.
  set (ms := [filter_map; attach_roots_map; pending_fork_flags_map; unknown_children_map]).
  assert (wp (match maps w1 pending_exec_map !! pid with
       | Some t => if t =? tid then bpf_map_delete_elem pending_exec_map pid else ret tt
       | None => ret tt
       end) (fun _ w' => running w' = running w1 /\ submitted w' = submitted w1 /\ tasks w' = tasks w1 /\
         (forall m, m <> pending_exec_map -> maps w' m = maps w1 m) /\
         maps w' pending_exec_map !! pid <> Some tid) w1) as B.
  { destruct (maps w1 pending_exec_map !! pid) as [t|] eqn:E; [destruct (Z.eqb_spec t tid) as [->|Nt]|].
    - unfold bpf_map_delete_elem. wp_step. cbn. split_and!; try done.
      + intros m Hm. by apply map_set_ne.
      + by rewrite map_set_eq, lookup_delete_eq.
    - wp_step. rewrite E. by split_and!; try congruence.
    - wp_step. rewrite E. by split_and!. }
  eapply wp_mono; [exact B|]. clear B. intros [] w2 (R2 & S2 & T2 & M2 & X2).
  unfold bpf_map_delete_elem. wp_steps.
  match goal with |- forgets _ _ _ ?v => change v with (deleting tid ms w2) end.
  destruct (deleting_frame tid ms w2) as (R3 & S3 & T3). pose proof (deleting_maps tid ms w2) as M3.
  set (w3 := deleting tid ms w2) in *. clearbody w3.
  split; try congruence; rewrite ?M3; cbn; rewrite ?M2, ?M1 by done; try done.
  - rewrite <- P1. apply same_tasks_pending. split; congruence.
  - intros t Ht. rewrite T3, T2. by apply T1.
  - by right.
Qed.

Lemma clear_lifecycle_result pid tid w :
  wp (clear_lifecycle_task_state pid tid) (fun _ w' => forgets pid tid w w') w.
Proof.
  unfold clear_lifecycle_task_state. wp_step.
  destruct (clear_pending_result w) as (P1 & _ & _ & T1 & M1 & R1 & S1 & _). unfold wp at 1.
  destruct (clear_pending_task_state w) as [[] w1]. cbn [fst snd] in *.
  destruct (Z.eqb_spec tid pid) as [->|N]; [by apply clear_process_result | by apply clear_thread_result].
Qed.

(** The exiting task is a leader whose place a thread's exec takes. *)
Definition replaced_leader (w : world) : bool :=
  let pid := ctx_pid (running w) in
  negb (cur_task (running w) =? 0) && (ctx_tid (running w) =? pid) &&
  match maps w pending_exec_map !! pid with Some t => negb (t =? pid) | None => false end.

Lemma replaced_result w :
  is_exec_replaced_leader (cur_task (running w)) (ctx_pid (running w)) (ctx_tid (running w)) w
    = (replaced_leader w, w).
Proof.
  unfold is_exec_replaced_leader, replaced_leader, bpf_map_lookup_elem, bind, gets, ret.
  destruct (_ =? 0); cbn; [done|]. by destruct (_ =? _); cbn.
Qed.

(** The maps other than [attach_exited_map] are the same. *)
Definition marked_exited (w w' : world) : Prop :=
  running w' = running w /\ submitted w' = submitted w /\ tasks w' = tasks w /\
  (forall m, m <> attach_exited_map -> maps w' m = maps w m) /\
  (updates_ok -> ctx_tid (running w) <> 0 -> is_Some (maps w attach_roots_map !! ctx_tid (running w)) ->
   maps w' attach_exited_map !! ctx_tid (running w) = Some 1).

Lemma mark_exited_result w :
  wp (mark_attach_task_exited (ctx_tid (running w))) (fun _ w' => marked_exited w w') w.
Proof.
  unfold mark_attach_task_exited, bpf_map_lookup_elem, marked_exited.
  destruct (Z.eqb_spec (ctx_tid (running w)) 0); [by wp_step|]. wp_steps.
  destruct (maps w attach_roots_map !! ctx_tid (running w)); wp_step.
  2: { by split_and!; try (intros _ _ []). }
  eapply wp_mono; [apply lifecycle_update_result|]. intros ok w' [R S T M H]. wp_step.
  rewrite M. split_and!; try done.
  - destruct ok; intros m Hm; [by apply map_set_ne | done].
  - intros U _ _. rewrite (H U), map_set_eq. apply lookup_insert_eq.
Qed.

(** The child of an untraced fork that its tracer must hear about. *)
Definition took_unknown (w w1 w2 : world) : Prop :=
  let tid := ctx_tid (running w) in
  let parent := default 0 (maps w unknown_children_map !! tid) in
  running w1 = running w /\ submitted w1 = submitted w /\ tasks w1 = tasks w /\
  (forall m, m <> unknown_children_map -> maps w1 m = maps w m) /\
  maps w1 unknown_children_map = delete tid (maps w unknown_children_map) /\
  if parent =? 0 then w2 = w1
  else lifecycle_delivered LIFECYCLE_UNKNOWN_EXIT parent parent tid 0 0 w1 w2.

Lemma take_unknown_result w (k : prog unit) Q :
  (forall w1 w2, took_unknown w w1 w2 -> wp k Q w2) ->
  wp (let* unknown_parent := take_unknown_child (ctx_tid (running w)) in
      (if unknown_parent =? 0 then ret tt
       else emit_lifecycle_event LIFECYCLE_UNKNOWN_EXIT unknown_parent unknown_parent
              (ctx_tid (running w)) 0 0) ;;; k) Q w.
Proof.
  intros HQ. wp_step. set (tid := ctx_tid (running w)) in *.
  assert (wp (take_unknown_child tid) (fun p w1 => p = default 0 (maps w unknown_children_map !! tid) /\
    running w1 = running w /\ submitted w1 = submitted w /\ tasks w1 = tasks w /\
    (forall m, m <> unknown_children_map -> maps w1 m = maps w m) /\
    maps w1 unknown_children_map = delete tid (maps w unknown_children_map)) w) as B.
  { unfold take_unknown_child, bpf_map_lookup_elem. wp_steps.
    destruct (maps w unknown_children_map !! tid) as [p|] eqn:E; wp_step.
    - unfold bpf_map_delete_elem. wp_steps. cbn. rewrite map_set_eq. split_and!; try done.
      intros m Hm. by apply map_set_ne.
    - split_and!; try done. by rewrite delete_id. }
  eapply wp_mono; [exact B|]. clear B. intros p w1 (-> & R1 & S1 & T1 & M1 & U1). wp_step.
  set (p := default 0 _).
  assert (forall w2, (if p =? 0 then w2 = w1
    else lifecycle_delivered LIFECYCLE_UNKNOWN_EXIT p p tid 0 0 w1 w2) -> wp k Q w2) as HQ'.
  { intros w2 H. apply (HQ w1). by split_and!. }
  destruct (p =? 0); [wp_step; by apply HQ'|].
  eapply wp_mono; [apply emit_lifecycle_result; lia|]. intros [] w2. apply HQ'.
Qed.

(** What the exit of a task does. *)
Definition exit_spec (w w' : world) : Prop :=
  let pid := ctx_pid (running w) in
  let tid := ctx_tid (running w) in
  exists w1 w2, took_unknown w w1 w2 /\
    if negb (tracked w pid tid) then maps w' = maps w2 /\ running w' = running w /\ submitted w' = submitted w2
    else if replaced_leader w then w' = snd (clear_pending_task_state w2)
    else exists w3 w4 exit_code, marked_exited w2 w3 /\ forgets pid tid w3 w4 /\
      lifecycle_delivered LIFECYCLE_EXIT pid tid (s32 exit_code) 0 0 w4 w'.

Lemma took_unknown_state w w1 w2 :
  took_unknown w w1 w2 -> running w2 = running w /\ tasks w2 = tasks w /\
    forall m, m <> unknown_children_map -> maps w2 m = maps w m.
Proof.
  intros (R & _ & T & M & _ & E). destruct (_ =? 0); [subst; by split_and!|].
  destruct E as [[R2 M2 T2 _] _]. rewrite R2, T2, M2. by split_and!.
Qed.

Lemma exit_result w : wp trace_sched_process_exit (fun _ w' => exit_spec w w') w.
Proof.
  unfold trace_sched_process_exit. wp_step.
  eapply keeps_wp; [apply lifecycle_counters_quiet|]. intros [] w0 Q0.
  destruct (quiet_state _ _ Q0) as (M0 & R0 & S0 & T0). wp_step. unfold wp at 1.
  rewrite current_pid_tid_result. cbn [fst snd]. apply take_unknown_result. intros w1 w2 U0.
  assert (took_unknown w w1 w2) as U by (unfold took_unknown in U0; by rewrite R0, M0, S0, T0 in U0). destruct (took_unknown_state _ _ _ U) as (R2 & T2 & M2). rewrite R0.
  assert (tracked w2 (ctx_pid (running w)) (ctx_tid (running w))
          = tracked w (ctx_pid (running w)) (ctx_tid (running w))) as Et
    by (unfold tracked, task_flags; by rewrite M2).
  wp_step. unfold wp at 1. rewrite is_tracked_result. cbn [fst snd]. rewrite Et.
  destruct (tracked w _ _) eqn:Tr; cbn [negb].
  2: { eapply keeps_wp; [apply lifecycle_counters_quiet|]. intros [] w3 Q3.
       destruct (quiet_state _ _ Q3) as (M3 & R3 & S3 & T3). exists w1, w2. rewrite Tr.
       split; [done|]. split_and!; congruence. }
  unfold bpf_get_current_task. wp_step. wp_step. wp_step. rewrite <- R2. unfold wp at 1.
  rewrite replaced_result. cbn [fst snd].
  assert (replaced_leader w2 = replaced_leader w) as -> by (unfold replaced_leader; by rewrite R2, M2).
  destruct (replaced_leader w) eqn:Rep.
  { unfold clear_replaced_leader_task_state, wp. exists w1, w2. by rewrite Tr, Rep. }
  wp_step. eapply wp_mono; [apply mark_exited_result|]. intros [] w3 X3. wp_step.
  eapply wp_mono; [apply clear_lifecycle_result|]. intros [] w4 F4. wp_step.
  assert (wp (if cur_task (running w2) =? 0 then ret 0 else bpf_core_read task_exit_code (cur_task (running w2)))
    (fun _ w5 => quiet w4 w5) w4) as B.
  { destruct (_ =? 0); [wp_step; reflexivity|]. apply bpf_core_read_quiet. }
  eapply wp_mono; [exact B|]. intros code w5 Q5. destruct (quiet_state _ _ Q5) as (M5 & R5 & S5 & T5).
  eapply wp_mono; [apply emit_lifecycle_result; lia|]. intros [] w6 L6.
  exists w1, w2. rewrite Tr, Rep. split; [done|]. exists w3, w5, code. rewrite R2 in *.
  split_and!; [done | | exact L6]. destruct F4. split; try congruence; try (by rewrite M5).
  - rewrite <- fg_pending0. apply same_tasks_pending. by split.
  - intros t Ht. rewrite T5. auto.
Qed.
End ExitFree.
