(* ===== verification/TrackingProps.v ===== *)
(** The tracking theorems.

    Who is traced, what is said about the others (nothing), and what fork, exec,
    exit and free promise about the tracking maps and the lifecycle records. *)
From stdpp Require Import base list gmap numbers.
From S2P Require Import Prelude Syscalls Abi Kernel Consumer Stats Tlv Emit Decoder EventCore Payload LifecycleState Pending Namespace Lifecycle Signal Structs FdPath Paths Misc Handlers EnterHandlers ExitHandlers Recvmsg Dispatch Trace Delivery Pairing Confine Tracking.

Lemma lor_flag_l a b m : has_flag a m = true -> has_flag (Z.lor a b) m = true.
Proof.
  unfold has_flag. rewrite !negb_true_iff, !Z.eqb_neq. intros H E. apply H.
  rewrite Z.land_lor_distr_l in E. by apply Z.lor_eq_0_iff in E as [? _].
Qed.

Lemma follow_value_followed e : followed (Some (follow_value e)) = true.
Proof. destruct e as [f|]; [|done]. by apply lor_flag_l. Qed.

Section Confined.
Context {K : Kernel} {A : Arch} {H : Handlers} {HC : HandlersConfined H}.

Lemma same_tracking_ids w w' k : same_tracking w w' -> tracked_id w' k = tracked_id w k.
Proof. intros []. unfold tracked_id. congruence. Qed.

(** The programs other than the scheduler lifecycle programs. *)
Definition lifecycle_firing (f : firing) : bool :=
  match f with ForkFires _ | ExecFires _ | ExitFires | FreeFires _ => true | _ => false end.

Lemma program_tracking f : lifecycle_firing f = false -> keeps same_tracking (program f).
Proof.
  destruct f; try discriminate; intros _; cbn [program];
    eauto using trace_sys_enter_tracking, trace_sys_exit_tracking, signal_deliver_tracking,
      signal_generate_tracking, namespace_fork_tracking, kvm_exit_tracking,
      recvmsg_return_tracking.
Qed.

Lemma filter_at_id k j w w' : filter_at k w w' -> j <> k -> tracked_id w' j = tracked_id w j.
Proof. intros [_ _ _ F] N. unfold tracked_id. by rewrite F. Qed.

(** A fork can only add its child. *)
Lemma fork_adds child w k :
  let w' := snd (trace_sched_process_fork child w) in
  tracked_id w k = false -> tracked_id w' k = true ->
  k = u32 child /\
  (armed w = true \/
   tracked w (ctx_pid (running w)) (ctx_tid (running w)) = true /\ config_flag w CONFIG_FOLLOW_FORKS = true).
Proof.
  cbv zeta. intros N Y. pose proof (fork_result child w) as (w1 & H1 & H2). unfold wp in *.
  destruct (trace_sched_process_fork child w) as [[] w']. cbn [fst snd] in *.
  destruct (armed w).
  { assert (filter_at (u32 child) w w1) as F1 by apply H1. destruct (decide (k = u32 child)); [by auto|].
    exfalso. rewrite <- (filter_at_id _ _ _ _ F1) in N by done.
    destruct (tracked w1 _ _); [|destruct H2 as (M & _); unfold tracked_id in *; rewrite M in Y; congruence].
    destruct H2 as (w2 & w3 & F2 & [[_ M3 _ _] _] & _ & M4 & _).
    assert (filter_at (u32 child) w1 w2) as F2' by (destruct (config_flag w _); apply F2).
    rewrite <- (filter_at_id _ _ _ _ F2') in N by done. unfold tracked_id in *. rewrite M4, M3 in Y. congruence. }
  destruct H1 as (F1 & M1 & _).
  assert (tracked w1 (ctx_pid (running w)) (ctx_tid (running w)) = tracked w (ctx_pid (running w)) (ctx_tid (running w))) as E
    by (unfold tracked, task_flags; by rewrite M1). rewrite E in H2.
  destruct (tracked w _ _); [|destruct H2 as (M & _); unfold tracked_id in *; rewrite M, M1 in Y; congruence].
  destruct H2 as (w2 & w3 & F2 & [[_ M3 _ _] _] & _ & M4 & _). unfold tracked_id in *. rewrite M4, M3 in Y.
  destruct (config_flag w _); [|destruct F2 as (_ & M2 & _); rewrite M2, M1 in Y; congruence].
  destruct (decide (k = u32 child)); [by auto|]. destruct F2 as [[_ _ _ F2] _]. rewrite F2, M1 in Y by done. congruence.
Qed.

(** An exec can only add the task that runs it. *)
Lemma exec_adds ctx w k :
  let w' := snd (trace_sched_process_exec ctx w) in
  tracked_id w k = false -> tracked_id w' k = true ->
  k = ctx_pid (running w) /\ tracked_id w (u32 (exec_old_pid ctx)) = true.
Proof.
  cbv zeta. intros N Y. pose proof (exec_result ctx w) as (ok & w1 & (R1 & _ & _ & _ & H1) & H2). unfold wp in *.
  destruct (trace_sched_process_exec ctx w) as [[] w']. cbn [fst snd] in *.
  assert (tracked_id w1 k = true) as Y1.
  { destruct ok; [|destruct H2 as (M & _); unfold tracked_id in *; by rewrite M in Y].
    destruct H2 as (w2 & w3 & w4 & fn & (R2 & _ & _ & _ & F2 & D2 & _) & (_ & M3 & _) & [[_ M4 _ _] _] & ->).
    assert (tracked_id w2 k = true) as Y2.
    { unfold tracked_id in *. cbn in Y. rewrite map_set_ne in Y by done. congruence. }
    destruct (decide (k = ctx_tid (running w1))) as [->|Nk]; [by apply D2|].
    unfold tracked_id in *. by rewrite F2 in Y2. }
  clear Y H2. unfold tracked_id in Y1, N.
  destruct (tracked w _ _); [destruct H1 as [_ M]; rewrite M in Y1; congruence|].
  destruct (adopts w _ _) eqn:Ad; cbn [andb] in H1;
    [destruct ok|]; [|destruct H1 as (_ & M & _); rewrite M in Y1; congruence..].
  unfold adopts in Ad. apply andb_true_iff in Ad as [_ Ad]. split; [|done].
  rewrite H1 in Y1. destruct (decide (k = ctx_pid (running w))); [done|]. exfalso.
  destruct (decide (k = u32 (exec_old_pid ctx))) as [->|]; [by rewrite lookup_delete_eq in Y1|].
  rewrite lookup_delete_ne, lookup_insert_ne in Y1 by done. congruence.
Qed.

Lemma exit_adds w k :
  tracked_id (snd (trace_sched_process_exit w)) k = true -> tracked_id w k = true.
Proof.
  pose proof (exit_result w) as (w1 & w2 & U & H2). unfold wp in *.
  destruct (took_unknown_state _ _ _ U) as (_ & _ & M2).
  destruct (trace_sched_process_exit w) as [[] w']. cbn [fst snd] in *. unfold tracked_id.
  destruct (tracked w _ _); cbn [negb] in H2; [|destruct H2 as (M & _); by rewrite M, M2].
  destruct (replaced_leader w).
  - destruct (clear_pending_result w2) as (_ & _ & _ & _ & M & _). subst w'. by rewrite M, M2.
  - destruct H2 as (w3 & w4 & c & (_ & _ & _ & M3 & _) & F & [[_ M4 _ _] _]).
    rewrite M4, (fg_filter _ _ _ _ F), M3, M2 by done.
    destruct (decide (k = ctx_tid (running w))) as [->|]; [by rewrite lookup_delete_eq|].
    by rewrite lookup_delete_ne.
Qed.

(** The free of a followed task: everything under its id, and the pending syscall of the
    task that happens to run, are gone. *)
Lemma free_result freed w :
  let w' := snd (trace_sched_process_free freed w) in
  let tid := u32 freed in
  if negb (tid =? 0) && tracked_id w tid then
    exists w1, forgets tid tid w w1 /\ lifecycle_delivered LIFECYCLE_FREE tid tid tid 0 0 w1 w'
  else w' = w.
Proof.
  cbv zeta. unfold trace_sched_process_free.
  destruct (u32 freed =? 0); cbn [negb andb]; [done|]. unfold bind. rewrite is_tracked_result.
  rewrite tracked_ids, orb_diag. destruct (tracked_id w (u32 freed)); cbn [negb]; [|reflexivity].
  change (wp (clear_lifecycle_task_state (u32 freed) (u32 freed) ;;;
    emit_lifecycle_event LIFECYCLE_FREE (u32 freed) (u32 freed) (u32 freed) 0 0) (fun _ w' =>
    exists w1, forgets (u32 freed) (u32 freed) w w1 /\
      lifecycle_delivered LIFECYCLE_FREE (u32 freed) (u32 freed) (u32 freed) 0 0 w1 w') w).
  wp_step. eapply wp_mono; [apply clear_lifecycle_result|]. intros [] w1 F.
  eapply wp_mono; [apply emit_lifecycle_result; lia|]. intros [] w2 L. by exists w1.
Qed.

Lemma free_adds freed w k :
  tracked_id (snd (trace_sched_process_free freed w)) k = true -> tracked_id w k = true.
Proof.
  pose proof (free_result freed w) as F. cbv zeta in F.
  destruct (_ && _); [|by rewrite F]. destruct F as (w1 & F & [[_ M _ _] _]). unfold tracked_id.
  rewrite M, (fg_filter _ _ _ _ F). destruct (decide (k = u32 freed)) as [->|]; [by rewrite lookup_delete_eq|].
  by rewrite lookup_delete_ne.
Qed.

(** C13: no program makes a task followed that was not, except the fork of a followed
    task with fork following configured or of the armed task, which adds the child, and the
    exec of a thread that is followed, which adds the process. *)
Theorem tracking_confined r f w k :
  tracked_id w k = false -> tracked_id (fire r f w) k = true ->
  (exists child, f = ForkFires child /\ k = u32 child /\
     (armed (set_running r w) = true \/
      tracked w (ctx_pid r) (ctx_tid r) = true /\ config_flag w CONFIG_FOLLOW_FORKS = true)) \/
  (exists ctx, f = ExecFires ctx /\ k = ctx_pid r /\ tracked_id w (u32 (exec_old_pid ctx)) = true).
Proof.
  intros N Y. unfold fire in Y. destruct (lifecycle_firing f) eqn:L.
  - destruct f; try discriminate; cbn [program] in Y.
    + left. exists child_pid. split; [done|]. by apply fork_adds in Y.
    + right. exists ctx. split; [done|]. by apply exec_adds in Y.
    + apply exit_adds in Y. unfold tracked_id in *. cbn in Y. congruence.
    + apply free_adds in Y. unfold tracked_id in *. cbn in Y. congruence.
  - rewrite (same_tracking_ids _ _ _ (program_tracking f L (set_running r w))) in Y.
    unfold tracked_id in *. cbn in Y. congruence.
Qed.
End Confined.

Section NothingPending.
Context {K : Kernel} {A : Arch}.

(** No task is inside a syscall that was saved at its entry. *)
Definition nothing_pending (w : world) : Prop :=
  forall t s, tasks w !! t = Some s -> s_valid s = 0.

(** The step saves no syscall. *)
Definition saves_nothing (w w' : world) : Prop := nothing_pending w -> nothing_pending w'.

#[export] Instance saves_nothing_preorder : PreOrder saves_nothing.
Proof. split; [by intros w N|]. intros w1 w2 w3 E1 E2 N. auto. Qed.

Lemma same_tasks_saves_nothing w w' : tasks w' = tasks w -> saves_nothing w w'.
Proof. intros E N. unfold nothing_pending. by rewrite E. Qed.
Lemma emits_saves_nothing w w' : emits w w' -> saves_nothing w w'.
Proof. intros [[_ _ T _] _]. by apply same_tasks_saves_nothing. Qed.
Hint Extern 5 (keeps saves_nothing _) => (eapply keeps_weaken; [|exact emits_saves_nothing]) : keeps.

Lemma map_delete_saves_nothing m k : keeps saves_nothing (bpf_map_delete_elem m k).
Proof. intros w. by apply same_tasks_saves_nothing. Qed.
Lemma map_update_saves_nothing m k v : keeps saves_nothing (bpf_map_update_elem m k v).
Proof.
  intros w. unfold bpf_map_update_elem, bind, tick, modify, ret.
  destruct (k_update_ok _); by apply same_tasks_saves_nothing.
Qed.
Hint Resolve map_delete_saves_nothing map_update_saves_nothing : keeps.

Lemma pending_cell_valid w s : nothing_pending w -> pending_cell w = Some s -> s_valid s = 0.
Proof. intros N. unfold pending_cell. case_match; [done | apply N]. Qed.
Lemma nothing_pending_now w : nothing_pending w -> pending_now w = None.
Proof.
  intros N. unfold pending_now. destruct (pending_cell w) as [s|] eqn:E; [|done].
  by rewrite (pending_cell_valid _ _ N E).
Qed.

Lemma clear_pending_saves_nothing : keeps saves_nothing clear_pending_task_state.
Proof.
  intros w N. unfold clear_pending_task_state, bind. rewrite current_pending_task_state_result.
  destruct (pending_cell w) as [s|] eqn:E; [|done]. rewrite (pending_cell_valid _ _ N E).
  unfold put_pending_task_state, task_storage_put, bpf_get_current_task, modify, bind, gets, ret. cbn.
  intros t s'. cbn. rewrite lookup_insert_Some. intros [[<- <-]|[_ L]]; [done | by eapply N].
Qed.
Hint Resolve clear_pending_saves_nothing : keeps.

Lemma lifecycle_map_update_saves_nothing m k v : keeps saves_nothing (lifecycle_map_update m k v).
Proof. unfold lifecycle_map_update. keeps_solve. Qed.
Hint Resolve lifecycle_map_update_saves_nothing : keeps.
Lemma clear_armed_saves_nothing pid : keeps saves_nothing (clear_armed_fork_parent pid).
Proof. unfold clear_armed_fork_parent. keeps_solve. Qed.
Lemma clear_lifecycle_saves_nothing pid tid : keeps saves_nothing (clear_lifecycle_task_state pid tid).
Proof.
  unfold clear_lifecycle_task_state, clear_process_lifecycle_state. keeps_solve. apply clear_armed_saves_nothing.
Qed.
Hint Resolve clear_lifecycle_saves_nothing : keeps.

Lemma with_stats_saves_nothing f : keeps saves_nothing (with_stats f).
Proof. intros w. apply same_tasks_saves_nothing. unfold with_stats, modify, bind, gets, ret. cbn. by case_match. Qed.
Hint Extern 6 (keeps saves_nothing _) => (apply with_stats_saves_nothing) : keeps.
Lemma fork_saves_nothing child : keeps saves_nothing (trace_sched_process_fork child).
Proof.
  unfold trace_sched_process_fork, install_pre_exec_filter, install_tracked_filter, mark_unknown_child.
  keeps_solve.
Qed.
Lemma consume_saves_nothing pid tid p b : keeps saves_nothing (consume_pending_syscall pid tid p b).
Proof. unfold consume_pending_syscall. keeps_solve. Qed.
Hint Resolve consume_saves_nothing : keeps.
Lemma exec_saves_nothing ctx : keeps saves_nothing (trace_sched_process_exec ctx).
Proof.
  unfold trace_sched_process_exec, adopt_exec_task_tracking, clear_pre_exec_filter,
    emit_successful_exec_completion, current_pending_task_state. keeps_solve.
Qed.
Lemma exit_saves_nothing : keeps saves_nothing trace_sched_process_exit.
Proof.
  unfold trace_sched_process_exit, take_unknown_child, mark_attach_task_exited,
    clear_replaced_leader_task_state, bpf_get_current_task. keeps_solve.
Qed.
Lemma namespace_fork_saves_nothing child : keeps saves_nothing (trace_namespace_fork child).
Proof.
  intros w N. unfold trace_namespace_fork, bind. rewrite current_pending_task_state_result.
  destruct (pending_cell w) as [s|] eqn:E; [|done]. by rewrite (pending_cell_valid _ _ N E).
Qed.
Lemma kvm_exit_saves_nothing reason error : keeps saves_nothing (trace_kvm_userspace_exit reason error).
Proof.
  intros w N. unfold trace_kvm_userspace_exit, bind, bpf_map_lookup_elem, gets.
  match goal with |- context [if ?b then _ else _] => destruct b end; [|done].
  rewrite current_pending_task_state_result. destruct (pending_cell w) as [s|] eqn:E; [|done].
  by rewrite (pending_cell_valid _ _ N E).
Qed.
Lemma signal_deliver_saves_nothing signo info : keeps saves_nothing (trace_signal_deliver signo info).
Proof. intros w. apply emits_saves_nothing, trace_signal_deliver_emits. Qed.
Lemma signal_generate_saves_nothing signo info target :
  keeps saves_nothing (trace_signal_generate signo info target).
Proof. intros w. apply emits_saves_nothing, trace_signal_generate_emits. Qed.

(** The step is quiet where nothing is pending. *)
Definition hushed (w w' : world) : Prop := nothing_pending w -> quiet w w' /\ nothing_pending w'.

#[export] Instance hushed_preorder : PreOrder hushed.
Proof.
  split; [intros w N; by split|]. intros w1 w2 w3 E1 E2 N. destruct (E1 N) as [Q1 N1], (E2 N1) as [Q2 N2].
  split; [by etrans | done].
Qed.
Lemma quiet_hushed w w' : quiet w w' -> hushed w w'.
Proof. intros Q N. split; [done|]. by eapply emits_saves_nothing; [apply quiet_emits|]. Qed.
Hint Extern 5 (keeps hushed _) => (eapply keeps_weaken; [|exact quiet_hushed]) : keeps.

Lemma kretprobe_return_quiet regs : keeps quiet (native_kretprobe_return regs).
Proof. unfold native_kretprobe_return. keeps_solve. Qed.
Lemma current_pid_tid_hushed : keeps hushed current_pid_tid.
Proof. keeps_solve. Qed.
Hint Resolve kretprobe_return_quiet current_pid_tid_hushed : keeps.
Lemma pending_recvmsg_hushed k : keeps hushed (pending_recvmsg k).
Proof.
  intros w N. unfold pending_recvmsg, bind. rewrite current_pending_syscall_result.
  by rewrite (nothing_pending_now _ N).
Qed.
Hint Resolve pending_recvmsg_hushed : keeps.

(** A [recvmsg] that returns to a machine where nothing is pending. *)
Lemma recvmsg_return_hushed regs : keeps hushed (trace_kretprobe_recvmsg_dispatch regs).
Proof.
  unfold trace_kretprobe_recvmsg_dispatch, trace_kretprobe_recvmsg_name, chain_to. keeps_solve.
Qed.
End NothingPending.

Section Silence.
Context {K : Kernel} {A : Arch} {H : Handlers}.

(** Nothing was submitted. *)
Definition unheard (w w' : world) : Prop := submitted w' = submitted w.

#[export] Instance unheard_preorder : PreOrder unheard.
Proof. split; [done|]. intros w1 w2 w3 E1 E2. unfold unheard in *. congruence. Qed.

Lemma quiet_unheard w w' : quiet w w' -> unheard w w'.
Proof. intros Q. apply (quiet_state _ _ Q). Qed.

Hint Extern 5 (keeps unheard _) => (eapply keeps_weaken; [|exact quiet_unheard]) : keeps.

Lemma put_pending_unheard s : keeps unheard (put_pending_task_state s).
Proof.
  unfold put_pending_task_state, bpf_get_current_task. keeps_solve; by intros w.
Qed.
Hint Resolve put_pending_unheard core_read_or_zero_quiet read_namespace_snapshot_quiet
  capture_pid_namespace_fork_child_quiet namespace_clone_flags_quiet : keeps.

Lemma namespace_fork_unheard child : keeps unheard (trace_namespace_fork child).
Proof.
  unfold trace_namespace_fork, current_pending_task_state, lookup_pending_task_state,
    bpf_get_current_task, bpf_task_storage_get. keeps_solve.
Qed.
Lemma kvm_exit_unheard reason error : keeps unheard (trace_kvm_userspace_exit reason error).
Proof.
  unfold trace_kvm_userspace_exit, current_pending_task_state, lookup_pending_task_state,
    bpf_get_current_task, bpf_task_storage_get. keeps_solve.
Qed.

(** The tracer's own namespace probe touches its configuration cell at most. *)
Definition only_pidns (w w' : world) : Prop := exists n p, w' = set_calls n (set_pidns p w).

#[export] Instance only_pidns_preorder : PreOrder only_pidns.
Proof.
  split; [intros w; exists (calls w), (pidns w); by destruct w|].
  intros w1 w2 w3 (n & p & ->) (n' & p' & ->). by exists n', p'.
Qed.

Lemma core_read_pidns f p : keeps only_pidns (bpf_core_read f p).
Proof.
  intros w. unfold bpf_core_read, bind, tick, ret. destruct (_ <? _); cbn;
    exists (S (calls w)), (pidns w); by destruct w.
Qed.
Lemma core_read_into_pidns f p : keeps only_pidns (bpf_core_read_into f p).
Proof.
  intros w. unfold bpf_core_read_into, bind, tick, ret. destruct (_ <? _); cbn;
    exists (S (calls w)), (pidns w); by destruct w.
Qed.
Hint Resolve core_read_pidns core_read_into_pidns : keeps.

Lemma tracer_namespace_pidns ctx sys_id : keeps only_pidns (capture_tracer_pid_namespace ctx sys_id).
Proof.
  unfold capture_tracer_pid_namespace, lookup_pid_namespace_config, bpf_get_current_task, core_read_or_zero.
  keeps_solve. intros []. eexists _, _. unfold set_calls, set_pidns. cbn. reflexivity.
Qed.

(** Syscalls of a task that is not followed. *)
Lemma untracked_enter ctx w :
  tracked w (ctx_pid (running w)) (ctx_tid (running w)) = false ->
  only_pidns w (snd (trace_sys_enter ctx w)).
Proof.
  intros T. unfold trace_sys_enter, bind. rewrite current_pid_tid_result.
  pose proof (tracer_namespace_pidns ctx (u32 (enter_id ctx)) w) as (n & p & E).
  destruct (capture_tracer_pid_namespace ctx (u32 (enter_id ctx)) w) as [[] w1]. cbn [snd] in E.
  rewrite lookup_filter_flags_result. unfold tracked in T.
  assert (task_flags w1 (ctx_pid (running w)) (ctx_tid (running w)) = None) as ->.
  { subst w1. change (task_flags (set_calls n (set_pidns p w))) with (task_flags w).
    by destruct (task_flags w _ _). }
  by exists n, p.
Qed.

Lemma untracked_exit ctx w :
  tracked w (ctx_pid (running w)) (ctx_tid (running w)) = false -> trace_sys_exit ctx w = (tt, w).
Proof.
  intros T. unfold trace_sys_exit, bind. destruct (exit_id ctx <? 0); [done|].
  rewrite current_pid_tid_result, lookup_filter_flags_result. unfold tracked in T.
  by destruct (task_flags w _ _).
Qed.

(** C15: a syscall of a task that is not followed changes nothing at its exit, and at
    its entry nothing but the tracer's own namespace cell: no record, no counter, no map,
    no pending syscall. *)
Theorem untracked_silent enter exit w :
  tracked w (ctx_pid (running w)) (ctx_tid (running w)) = false ->
  trace_sys_exit exit w = (tt, w) /\
  let w' := snd (trace_sys_enter enter w) in
  submitted w' = submitted w /\ reserved w' = reserved w /\ stats w' = stats w /\
  maps w' = maps w /\ tasks w' = tasks w /\ loss w' = loss w.
Proof.
  intros T. split; [by apply untracked_exit|].
  by destruct (untracked_enter enter w T) as (n & p & ->).
Qed.

(** Nobody is followed, no fork is awaited, no exit is awaited, and no syscall is pending. *)
Record idle (w : world) : Prop := Idle {
  id_filter : forall k, tracked_id w k = false;
  id_armed : default 0 (maps w arm_fork_map !! 0) = 0;
  id_unknown : forall k, default 0 (maps w unknown_children_map !! k) = 0;
  id_pending : nothing_pending w }.

Lemma idle_tracking w w' : same_tracking w w' -> saves_nothing w w' -> idle w -> idle w'.
Proof. intros [_ F A' U] S [I1 I2 I3 I4]. split; unfold tracked_id; rewrite ?F, ?A', ?U; auto. Qed.

Lemma idle_untracked w p t : idle w -> tracked w p t = false.
Proof. intros I. rewrite tracked_ids. by rewrite !(id_filter _ I). Qed.
Lemma idle_maps_untracked w w' p t : idle w -> maps w' = maps w -> tracked w' p t = false.
Proof. intros I M. rewrite <- (idle_untracked w p t I). unfold tracked, task_flags. by rewrite M. Qed.
Lemma idle_not_armed w : idle w -> armed w = false.
Proof.
  intros I. pose proof (id_armed _ I). unfold armed.
  destruct (maps w arm_fork_map !! 0) as [p|]; [|done]. cbn in *. by subst.
Qed.

Lemma idle_same_maps w w' : maps w' = maps w -> saves_nothing w w' -> idle w -> idle w'.
Proof. intros M S [I1 I2 I3 I4]. split; unfold tracked_id; rewrite ?M; auto. Qed.

Lemma idle_fork child w :
  idle w -> let w' := snd (trace_sched_process_fork child w) in unheard w w' /\ idle w'.
Proof.
  intros I. cbv zeta. pose proof (fork_result child w) as (w1 & H1 & H2). unfold wp in *.
  rewrite (idle_not_armed w I) in H1. destruct H1 as (_ & M1 & S1).
  rewrite (idle_maps_untracked w) in H2 by done. destruct H2 as (M2 & _ & S2).
  split; [done|]. eapply idle_same_maps; [|apply fork_saves_nothing|exact I]. congruence.
Qed.

Lemma idle_exec ctx w :
  idle w -> let w' := snd (trace_sched_process_exec ctx w) in unheard w w' /\ idle w'.
Proof.
  intros I. cbv zeta. pose proof (exec_result ctx w) as (ok & w1 & (_ & _ & _ & _ & H1) & H2). unfold wp in *.
  unfold adopts in H1. rewrite idle_untracked, (id_filter _ I), andb_false_r in H1 by done. cbn [andb] in H1.
  destruct H1 as (-> & M1 & _), H2 as (M2 & _ & S2). split; [done|].
  eapply idle_same_maps; [|apply exec_saves_nothing|exact I]. congruence.
Qed.

Lemma idle_exit w :
  idle w -> let w' := snd (trace_sched_process_exit w) in unheard w w' /\ idle w'.
Proof.
  intros I. cbv zeta. pose proof (exit_result w) as (w1 & w2 & U & H2). unfold wp in *.
  rewrite idle_untracked in H2 by done. cbn [negb] in H2. destruct H2 as (M & _ & S).
  destruct U as (_ & S1 & _ & M1 & U1 & E). rewrite (id_unknown _ I) in E. cbn in E. subst w2.
  split; [unfold unheard; congruence|]. destruct I as [I1 I2 I3 I4].
  split; [..|by apply exit_saves_nothing]; unfold tracked_id; rewrite M, ?U1, ?M1 by done; auto.
  intros k. destruct (decide (k = ctx_tid (running w))) as [->|];
    [by rewrite lookup_delete_eq | by rewrite lookup_delete_ne].
Qed.

Lemma idle_free pid w :
  idle w -> let w' := snd (trace_sched_process_free pid w) in unheard w w' /\ idle w'.
Proof.
  intros I. pose proof (free_result pid w) as F. cbv zeta in *.
  rewrite (id_filter _ I), andb_false_r in F. by rewrite F.
Qed.

Lemma idle_signal_deliver signo info w : idle w -> unheard w (snd (trace_signal_deliver signo info w)).
Proof.
  intros I. unfold trace_signal_deliver, bind. rewrite current_pid_tid_result, is_tracked_result.
  by rewrite idle_untracked.
Qed.

Lemma idle_signal_generate signo info target w :
  idle w -> unheard w (snd (trace_signal_generate signo info target w)).
Proof.
  intros I. unfold trace_signal_generate. destruct (negb _); [done|]. destruct (target =? 0); [done|].
  match goal with |- unheard w (snd (?m w)) => enough (wp m (fun _ w' => unheard w w') w) as G by exact G end.
  wp_step. eapply keeps_wp; [apply bpf_core_read_quiet|]. intros pid w1 Q1. wp_step.
  eapply keeps_wp; [apply bpf_core_read_quiet|]. intros tid w2 Q2. cbv beta iota. wp_step.
  unfold wp at 1. rewrite is_tracked_result. cbn [fst snd].
  assert (quiet w w2) as Q by (by etrans). destruct (quiet_state _ _ Q) as (M & _).
  rewrite (idle_maps_untracked w) by done. cbn [negb]. wp_step. by apply quiet_unheard.
Qed.

(** The other programs neither submit nor save anything. *)
Lemma idle_program f w :
  lifecycle_firing f = false -> idle w ->
  unheard w (snd (program f w)) /\ saves_nothing w (snd (program f w)).
Proof.
  intros L I. destruct f; try discriminate; cbn [program].
  - destruct (untracked_enter ctx _ (idle_untracked _ _ _ I)) as (n & p & ->).
    split; [done | by apply same_tasks_saves_nothing].
  - rewrite (untracked_exit ctx _ (idle_untracked _ _ _ I)). by split.
  - split; [by apply idle_signal_deliver | apply signal_deliver_saves_nothing].
  - split; [by apply idle_signal_generate | apply signal_generate_saves_nothing].
  - split; [apply namespace_fork_unheard | apply namespace_fork_saves_nothing].
  - split; [apply kvm_exit_unheard | apply kvm_exit_saves_nothing].
  - destruct (recvmsg_return_hushed regs w (id_pending _ I)) as [Q N]. split; [by apply quiet_unheard | by intros ?].
Qed.

Context {HC : HandlersConfined H}.

Lemma idle_fire r f w : idle w -> unheard w (fire r f w) /\ idle (fire r f w).
Proof.
  intros I0. assert (idle (set_running r w)) as I by (by destruct I0). unfold fire.
  change (unheard w) with (unheard (set_running r w)). generalize dependent (set_running r w).
  clear w I0. intros w I. destruct (lifecycle_firing f) eqn:L.
  - destruct f; try discriminate; cbn [program];
      auto using idle_fork, idle_exec, idle_exit, idle_free.
  - destruct (idle_program f w L I) as [U S]. split; [done|].
    eapply idle_tracking; [by apply program_tracking | done | done].
Qed.

(** C14: when no task is followed, none is awaited and no syscall is pending, the programs submit
    nothing, whatever the machine does, and never start to follow a task on their own. *)
Theorem idle_run_silent fs w :
  idle w -> submitted (run fs w) = submitted w /\ idle (run fs w).
Proof.
  revert w. induction fs as [|[r f] fs IH]; intros w I; [done|]. cbn [run fold_left fst snd].
  destruct (idle_fire r f w I) as [S I']. destruct (IH _ I') as [S' I'']. split; [|done].
  unfold run in *. rewrite S'. exact S.
Qed.
End Silence.

Lemma u32_bits z i : 0 <= i -> Z.testbit (u32 z) i = (i <? 32) && Z.testbit z i.
Proof.
  intros. unfold u32. destruct (Z.ltb_spec i 32); cbn [andb].
  - by rewrite Z.mod_pow2_bits_low.
  - by rewrite Z.mod_pow2_bits_high by lia.
Qed.

(** The low half of the first argument of a fork record is the parent. *)
Lemma fork_identity_pid fl pid : 0 <= pid < 2 ^ 32 -> u32 (u64 (fork_identity fl pid)) = pid.
Proof.
  intros Hp. transitivity (u32 pid); [|by apply u32_small]. apply Z.bits_inj'. intros i Hi.
  rewrite !u32_bits by done. destruct (Z.ltb_spec i 32); [|done]. cbn [andb]. unfold u64, fork_identity.
  rewrite Z.mod_pow2_bits_low, Z.lor_spec, Z.shiftl_spec_low by lia. done.
Qed.

Lemma follow_value_pre_exec e :
  has_flag (follow_value e) FILTER_TASK_PRE_EXEC =
  match e with Some f => has_flag f FILTER_TASK_PRE_EXEC | None => false end.
Proof.
  destruct e as [f|]; [|done]. unfold has_flag, follow_value. do 2 f_equal.
  rewrite Z.land_lor_distr_l, <- Z.land_assoc. cbn. done.
Qed.

Section LifecycleClaims.
Context {K : Kernel} {A : Arch}.

(** The entry of a task is marked pre-exec. *)
Definition pre_exec_id (w : world) (k : Z) : bool :=
  match maps w filter_map !! k with Some f => has_flag f FILTER_TASK_PRE_EXEC | None => false end.

(** The record of kind [kind] for the task, with its first two arguments. *)
Definition lifecycle_envelope (r : exec_ctx) (kind pid tid a0 a1 : Z) (env : traceEventEnvelope) : Prop :=
  e_eventType env = EVENT_TYPE_LIFECYCLE /\ e_lifecycleAction env = kind /\ e_pid env = u32 pid /\
  e_tid env = u32 tid /\ e_cpu env = u32 (cur_cpu r) /\ e_args env = Args a0 a1 0 0 0 0.

(** One more record, which decodes into an envelope that satisfies [E]. *)
Definition one_more (w w' : world) (E : traceEventEnvelope -> Prop) : Prop :=
  exists rec env, submitted w' = submitted w ++ [rec] /\ decodeTraceEventV2Envelope rec = Some env /\ E env.

Lemma reads_lifecycle_envelope r kind pid tid a0 a1 s sq env :
  reads_lifecycle r kind pid tid a0 a1 s sq env ->
  lifecycle_envelope r kind pid tid
    (if kind =? LIFECYCLE_FORK then u32 (u64 a0) else u64 a0) (u64 a1) env.
Proof. intros []. by split_and!. Qed.

Lemma u32_u64 z : 0 <= z < 2 ^ 32 -> u64 z = z.
Proof. intros. apply u64_small. lia. Qed.

(** C17: the fork of a followed task, with fork following configured, makes the child
    followed and leaves every other task as it was; the child is marked pre-exec exactly
    when its parent was armed or it was marked already, and the fork record names the
    parent and the child. *)
Theorem fork_follows child w :
  let r := running w in
  tracked w (ctx_pid r) (ctx_tid r) = true -> config_flag w CONFIG_FOLLOW_FORKS = true -> updates_ok ->
  let w' := snd (trace_sched_process_fork child w) in
  tracked_id w' (u32 child) = true /\
  pre_exec_id w' (u32 child) = armed w || pre_exec_id w (u32 child) /\
  (forall k, k <> u32 child -> maps w' filter_map !! k = maps w filter_map !! k) /\
  (config_flag w CONFIG_EMIT_LIFECYCLE = true -> ring_has_room -> no_fault ->
   one_more w w' (lifecycle_envelope r LIFECYCLE_FORK (ctx_pid r) (ctx_tid r) (ctx_pid r) (u32 child))).
Proof.
  cbv zeta. intros T F U. pose proof (fork_result child w) as (w1 & H1 & H2). unfold wp in *.
  set (w' := snd (trace_sched_process_fork child w)) in *. clearbody w'. set (c := u32 child) in *.
  assert (filter_at c w w1 /\ submitted w1 = submitted w /\ (tracked_id w c = true -> tracked_id w1 c = true) /\
    pre_exec_id w1 c = armed w || pre_exec_id w c) as (F1 & S1 & C1 & P1).
  { unfold tracked_id, pre_exec_id. destruct (armed w).
    - destruct H1 as (F1 & S1 & [V | [_ N]]); [|by destruct (N U)]. by rewrite V.
    - destruct H1 as (F1 & M1 & S1). by rewrite M1. }
  assert (tracked w1 (ctx_pid (running w)) (ctx_tid (running w)) = true) as T1.
  { rewrite tracked_ids in *. assert (forall k, tracked_id w k = true -> tracked_id w1 k = true) as Up.
    { intros k. destruct (decide (k = c)) as [->|]; [done|]. by rewrite (filter_at_id _ _ _ _ F1). }
    apply orb_true_iff in T as [T|T]; apply Up in T; rewrite T; [done|]. apply orb_true_r. }
  rewrite T1, F in H2. destruct H2 as (w2 & w3 & (F2 & S2 & [V2 | [_ N]]) & L & _ & _ & _ & Hend);
    [|by destruct (N U)]. destruct (Hend eq_refl) as [M4 S4].
  assert (filter_at c w w2) as F12 by (by etrans). destruct L as ([R3 M3 _ _] & _ & L).
  unfold tracked_id, pre_exec_id at 1. rewrite M4, M3, V2. split_and!.
  - apply follow_value_followed.
  - rewrite follow_value_pre_exec. exact P1.
  - apply F12.
  - intros E Room NF. rewrite <- (config_flag_at _ _ _ _ F12) in E.
    destruct (L E Room NF) as (rec & env & sq & S & D & Rl). exists rec, env.
    split; [congruence|]. split; [done|]. apply reads_lifecycle_envelope in Rl.
    rewrite (fa_running _ _ _ F12), Z.eqb_refl, fork_identity_pid in Rl by apply u32_range.
    by rewrite u32_u64 in Rl by apply u32_range.
Qed.

(** The tracking maps and the pending syscall at the end of an exec that is followed. *)
Lemma exec_tail pid w1 w2 w3 w4 filename kind tid a0 a1 :
  disarmed w1 w2 -> completed_exec w2 w3 -> lifecycle_delivered kind pid tid a0 a1 filename w3 w4 ->
  let w' := snd (bpf_map_delete_elem pending_exec_map pid w4) in
  maps w' filter_map = maps w2 filter_map /\ maps w' pending_exec_map !! pid = None /\
  pending_now w' = pending_now w3 /\ submitted w' = submitted w4 /\ running w' = running w1 /\
  config_flag w3 CONFIG_EMIT_LIFECYCLE = config_flag w1 CONFIG_EMIT_LIFECYCLE /\
  pending_now w2 = pending_now w1 /\ submitted w2 = submitted w1.
Proof.
  intros (R2 & S2 & T2 & O2 & _) (R3 & F3 & C3 & _ & _) ([R4 M4 T4 _] & _).
  destruct (delete_frame pending_exec_map pid w4) as ((T5 & R5) & S5 & _ & D5 & O5).
  set (w' := snd (bpf_map_delete_elem pending_exec_map pid w4)) in *. cbv zeta. split_and!.
  - apply map_eq. intros k. rewrite O5 by (by left). by rewrite M4, F3.
  - done.
  - apply same_tasks_pending. split; congruence.
  - done.
  - congruence.
  - unfold config_flag. rewrite C3, O2; done.
  - apply same_tasks_pending. by split.
  - done.
Qed.

(** C19: when a thread that is followed execs in the place of a leader that is not, the
    process is followed from then on, the thread's entry is gone, every other task keeps
    its entry, and no exec of the process is pending. *)
Theorem exec_adopts ctx w v :
  let r := running w in let old := u32 (exec_old_pid ctx) in
  tracked w (ctx_pid r) (ctx_tid r) = false -> old <> 0 -> old <> ctx_tid r ->
  maps w filter_map !! old = Some v -> has_flag v FILTER_TASK_TRACKED = true -> updates_ok ->
  let w' := snd (trace_sched_process_exec ctx w) in
  tracked_id w' (ctx_pid r) = true /\ maps w' filter_map !! old = None /\
  (forall k, k <> ctx_pid r -> k <> ctx_tid r -> k <> old -> maps w' filter_map !! k = maps w filter_map !! k) /\
  pre_exec_id w' (ctx_tid r) = false /\ maps w' pending_exec_map !! ctx_pid r = None.
Proof.
  cbv zeta. intros T N0 Nt E V U. pose proof (exec_result ctx w) as (ok & w1 & (R1 & _ & _ & _ & H1) & H2).
  unfold wp in *. set (w' := snd (trace_sched_process_exec ctx w)) in *. clearbody w'.
  set (old := u32 (exec_old_pid ctx)) in *. set (pid := ctx_pid (running w)) in *.
  set (tid := ctx_tid (running w)) in *.
  assert (adopts w tid old = true) as Ad.
  { unfold adopts, tracked_id. rewrite E. cbn. rewrite V.
    by rewrite (proj2 (Z.eqb_neq _ _) N0), (proj2 (Z.eqb_neq _ _) Nt). }
  rewrite T, Ad, E in H1. destruct ok; cbn [andb] in H1; [|by destruct H1 as (_ & _ & Hn); destruct (Hn eq_refl U)].
  destruct H2 as (w2 & w3 & w4 & fn & D2 & C3 & L4 & ->).
  destruct (exec_tail pid _ _ _ _ _ _ _ _ _ D2 C3 L4) as (Mf & Mp & _).
  destruct D2 as (_ & _ & _ & _ & F2 & _ & _ & D2). destruct (D2 U) as [F2t _]. rewrite R1 in F2, F2t. fold tid in F2, F2t.
  assert (old <> pid) as Np.
  { intros Hop. rewrite tracked_ids in T. apply orb_false_iff in T as [T _]. unfold tracked_id in T.
    rewrite <- Hop, E in T. cbn in T. congruence. }
  unfold tracked_id, pre_exec_id. rewrite Mf. split_and!.
  - destruct (decide (pid = tid)) as [Ept|Npt].
    + rewrite Ept, F2t, H1, lookup_delete_ne by congruence. rewrite <- Ept, lookup_insert_eq. cbn.
      by rewrite ldiff_flag.
    + rewrite F2, H1, lookup_delete_ne, lookup_insert_eq by done. done.
  - by rewrite F2, H1, lookup_delete_eq.
  - intros k K1 K2 K3. rewrite F2, H1, lookup_delete_ne, lookup_insert_ne by done. done.
  - rewrite F2t. destruct (maps w1 filter_map !! tid); [|done]. cbn. apply ldiff_cleared.
  - done.
Qed.

(** C18: the exec of a followed task with a pending exec syscall submits two records in
    order, the exit of that syscall with return value zero and the lifecycle record of the
    exec; nothing is pending afterwards, no exec of the process is awaited, and the task is
    no longer marked pre-exec. *)
Theorem exec_completes ctx w p :
  let r := running w in
  tracked w (ctx_pid r) (ctx_tid r) = true -> pending_now w = Some p ->
  is_exec_payload_direct_syscall (p_sys_id p) = true -> config_flag w CONFIG_EMIT_LIFECYCLE = true ->
  updates_ok -> ring_has_room -> no_fault ->
  let w' := snd (trace_sched_process_exec ctx w) in
  (exists d rec1 env1 rec2 env2, submitted w' = submitted w ++ [rec1; rec2] /\
     decodeTraceEventV2Envelope rec1 = Some env1 /\ exit_envelope r p 0 d env1 /\
     decodeTraceEventV2Envelope rec2 = Some env2 /\
     lifecycle_envelope r LIFECYCLE_EXEC (ctx_pid r) (ctx_tid r) (u64 (s32 (exec_old_pid ctx))) (ctx_tid r) env2) /\
  pending_now w' = None /\ maps w' pending_exec_map !! ctx_pid r = None /\ pre_exec_id w' (ctx_tid r) = false.
Proof.
  cbv zeta. intros T P X C U Room NF.
  pose proof (exec_result ctx w) as (ok & w1 & (R1 & S1 & T1 & O1 & H1) & H2). unfold wp in *.
  set (w' := snd (trace_sched_process_exec ctx w)) in *. clearbody w'. rewrite T in H1.
  destruct H1 as [-> M1]. destruct H2 as (w2 & w3 & w4 & fn & D2 & C3 & L4 & ->).
  destruct (exec_tail (ctx_pid (running w)) _ _ _ _ _ _ _ _ _ D2 C3 L4) as (Mf & Mp & P5 & S5 & _ & Cf & P2 & S2).
  rewrite (same_tasks_pending w w1), P in P2 by (by split).
  destruct C3 as (R3 & _ & _ & _ & C3). rewrite P2, X in C3. destruct C3 as [P3 C3].
  destruct (C3 Room NF) as (d & rec1 & env1 & S3 & Dc1 & E1 & _).
  assert (running w2 = running w) as R2 by (destruct D2 as (R2 & _); congruence).
  destruct L4 as (_ & _ & L4). rewrite Cf in L4. unfold config_flag in *. rewrite M1 in L4.
  destruct (L4 C Room NF) as (rec2 & env2 & sq & S4 & Dc2 & Rl). apply reads_lifecycle_envelope in Rl.
  split_and!; [|congruence|done|].
  - exists d, rec1, env1, rec2, env2. rewrite R2 in E1. rewrite R3, R2 in Rl. cbn [Z.eqb Pos.eqb] in Rl.
    rewrite (u32_u64 (ctx_tid _)) in Rl by apply u32_range. split_and!; try done.
    rewrite S5, S4, S3, S2, S1. by rewrite <- app_assoc.
  - unfold pre_exec_id. rewrite Mf. destruct D2 as (_ & _ & _ & _ & _ & _ & _ & D2).
    destruct (D2 U) as [F _]. rewrite R1 in F. rewrite F. destruct (maps w1 filter_map !! ctx_tid (running w)); [|done].
    cbn. apply ldiff_cleared.
Qed.

(** C20: the exit of a followed task that no exec replaces removes exactly its own entry from
    the followed tasks, with its pending syscall, fork flags and attach mark, leaves the
    storage of every other task alone, and is reported with one lifecycle record; the exit
    of a thread therefore leaves its process followed. *)
Theorem exit_forgets w :
  let r := running w in
  tracked w (ctx_pid r) (ctx_tid r) = true -> replaced_leader w = false ->
  default 0 (maps w unknown_children_map !! ctx_tid r) = 0 ->
  let w' := snd (trace_sched_process_exit w) in
  maps w' filter_map = delete (ctx_tid r) (maps w filter_map) /\ pending_now w' = None /\
  maps w' pending_fork_flags_map !! ctx_tid r = None /\ maps w' attach_roots_map !! ctx_tid r = None /\
  (forall t, t <> cur_task r -> tasks w' !! t = tasks w !! t) /\
  (config_flag w CONFIG_EMIT_LIFECYCLE = true -> ring_has_room -> no_fault -> exists exit_code,
     one_more w w' (lifecycle_envelope r LIFECYCLE_EXIT (ctx_pid r) (ctx_tid r) (u64 (s32 exit_code)) 0)).
Proof.
  cbv zeta. intros T Rp Un. pose proof (exit_result w) as (w1 & w2 & Uk & H2). unfold wp in *.
  set (w' := snd (trace_sched_process_exit w)) in *. clearbody w'. rewrite T, Rp in H2. cbn [negb] in H2.
  destruct (took_unknown_state _ _ _ Uk) as (R2 & T2 & M2).
  destruct Uk as (_ & S1 & _ & _ & _ & E). rewrite Un in E. cbn in E. subst w2.
  destruct H2 as (w3 & w4 & code & (R3 & S3 & T3 & M3 & _) & [Gr Gs Gp Gt Gf Gu Go Gl Gc Ge Gd Ga] & ([R5 M5 T5 _] & _ & L)).
  rewrite M5. split_and!.
  - rewrite Gf, M3, M2; done.
  - rewrite <- Gp. apply same_tasks_pending. by split.
  - rewrite Gl. apply lookup_delete_eq.
  - rewrite Go. apply lookup_delete_eq.
  - intros t Ht. rewrite T5, Gt by (rewrite R3, R2; done). congruence.
  - intros C Room NF. exists code.
    assert (config_flag w4 CONFIG_EMIT_LIFECYCLE = true) as C4.
    { unfold config_flag in *. rewrite Gc, M3, M2; done. }
    destruct (L C4 Room NF) as (rec & env & sq & S & D & Rl). exists rec, env.
    apply reads_lifecycle_envelope in Rl. rewrite Gr, R3, R2 in Rl.
    split_and!; [congruence | done | exact Rl].
Qed.

(** C21: the free of a followed task removes exactly the entry of the freed id and is reported,
    but it also discards the pending syscall of whatever task is running: the helper it
    shares with the exit program always works on the current task. *)
Theorem free_forgets freed w :
  u32 freed <> 0 -> tracked_id w (u32 freed) = true ->
  let w' := snd (trace_sched_process_free freed w) in
  maps w' filter_map = delete (u32 freed) (maps w filter_map) /\ pending_now w' = None /\
  (config_flag w CONFIG_EMIT_LIFECYCLE = true -> ring_has_room -> no_fault ->
     one_more w w' (lifecycle_envelope (running w) LIFECYCLE_FREE (u32 freed) (u32 freed) (u32 freed) 0)).
Proof.
  intros N T. cbv zeta. pose proof (free_result freed w) as F. cbv zeta in F.
  rewrite T, (proj2 (Z.eqb_neq _ _) N) in F. cbn [negb andb] in F.
  destruct F as (w1 & [Gr Gs Gp Gt Gf Gu Go Gl Gc Ge Gd Ga] & ([R M T' _] & _ & L)). rewrite M. split_and!.
  - done.
  - rewrite <- Gp. apply same_tasks_pending. by split.
  - intros C Room NF. assert (config_flag w1 CONFIG_EMIT_LIFECYCLE = true) as C1.
    { unfold config_flag in *. by rewrite Gc. }
    destruct (L C1 Room NF) as (rec & env & sq & S & D & Rl). exists rec, env.
    apply reads_lifecycle_envelope in Rl. rewrite Gr, !(u32_u64 (u32 freed)) in Rl by apply u32_range.
    split_and!; [congruence | done | exact Rl].
Qed.
End LifecycleClaims.

Section Muted.
Context {K : Kernel} {A : Arch} {H : Handlers}.

(** Syscalls the tracer is not asked about: the signal return, everything but exec before the
    first exec, and what the syscall filter does not select. *)
Definition muted (w : world) (sys_id : Z) : bool :=
  let cfg := maps w config_map !! 0 in
  one_of sys_id [SYS_RT_SIGRETURN] ||
  is_pre_exec_suppressed_syscall (task_flags w (ctx_pid (running w)) (ctx_tid (running w))) sys_id ||
  negb (fst (should_trace_syscall sys_id cfg w)) && negb (is_fd_state_tracked sys_id cfg).

(** The records between the two states, if any, report a foreign ABI. *)
Definition abi_reports_only (w w' : world) : Prop :=
  exists recs, submitted w' = submitted w ++ recs /\
    Forall (fun rec => exists env, decodeTraceEventV2Envelope rec = Some env /\
      e_eventType env = EVENT_TYPE_UNSUPPORTED_ABI) recs.

Lemma unheard_reports w w' : submitted w' = submitted w -> abi_reports_only w w'.
Proof. intros E. exists []. rewrite app_nil_r. split; [done | constructor]. Qed.

(** The check of the ABI: a report, or nothing happened. *)
Lemma reject_result pid tid sys_id w :
  wp (reject_unsupported_syscall_abi pid tid sys_id) (fun rejected w' =>
    abi_reports_only w w' /\
    (rejected = false -> maps w' = maps w /\ running w' = running w /\ submitted w' = submitted w)) w.
Proof.
  unfold reject_unsupported_syscall_abi. wp_step.
  eapply keeps_wp; [apply native_abi_quiet|]. intros native w1 Q1.
  destruct (quiet_state _ _ Q1) as (M1 & R1 & S1 & T1). destruct native; wp_step.
  { split; [by apply unheard_reports | done]. }
  destruct (clear_pending_result w1) as (_ & _ & _ & _ & _ & _ & S2 & _). unfold wp at 1.
  destruct (clear_pending_task_state w1) as [[] w2]. cbn [fst snd] in *. wp_step.
  unfold bpf_map_delete_elem. wp_steps. set (w3 := set_maps _ w2).
  eapply wp_mono; [apply emit_unsupported_ok|]. intros [] w4 [_ O]. wp_step. split; [|done].
  assert (submitted w3 = submitted w) as S3 by (cbn; congruence).
  destruct O as [sq rec S4 (env & D & R) _|S4 _|S4 _]; try (apply unheard_reports; congruence).
  exists [rec]. split; [congruence|]. constructor; [|constructor]. exists env. split; [done|apply R].
Qed.

(** Maps other than the pending exec and the fork flags. *)
Definition bookkept (w w' : world) : Prop :=
  running w' = running w /\ submitted w' = submitted w /\
  forall m, m <> pending_exec_map -> m <> pending_fork_flags_map -> maps w' m = maps w m.

#[export] Instance bookkept_preorder : PreOrder bookkept.
Proof.
  split; [done|]. intros w1 w2 w3 (R1 & S1 & M1) (R2 & S2 & M2). split_and!; try congruence.
  intros m N1 N2. rewrite M2, M1; done.
Qed.

Lemma quiet_bookkept w w' : quiet w w' -> bookkept w w'.
Proof. intros Q. destruct (quiet_state _ _ Q) as (M & R & S & _). split_and!; try done. by rewrite M. Qed.
Hint Extern 5 (keeps bookkept _) => (eapply keeps_weaken; [|exact quiet_bookkept]) : keeps.

Lemma update_bookkept m k v :
  m = pending_exec_map \/ m = pending_fork_flags_map -> keeps bookkept (lifecycle_map_update m k v).
Proof.
  intros Hm w. pose proof (lifecycle_update_result m k v w) as [R S _ M _].
  split_and!; try done. intros m' N1 N2. rewrite M. destruct (fst _); [|done].
  apply map_set_ne. destruct Hm; congruence.
Qed.
Hint Extern 2 (keeps bookkept (lifecycle_map_update _ _ _)) => (apply update_bookkept; auto) : keeps.

Lemma arm_exec_bookkept pid tid sys_id : keeps bookkept (arm_pending_exec_replacement pid tid sys_id).
Proof. unfold arm_pending_exec_replacement. keeps_solve. Qed.
Lemma fork_flags_bookkept tid sys_id ctx : keeps bookkept (capture_pending_fork_flags tid sys_id ctx).
Proof. unfold capture_pending_fork_flags. keeps_solve. Qed.
Lemma clear_fork_flags_bookkept tid sys_id : keeps bookkept (clear_pending_fork_flags tid sys_id).
Proof.
  unfold clear_pending_fork_flags. keeps_solve. intros w. split_and!; try done.
  intros m N1 N2. cbn. by apply map_set_ne.
Qed.

(** The syscall filter reads its own map. *)
Lemma should_trace_same sys_id cfg w w' :
  maps w' syscall_filter_map = maps w syscall_filter_map ->
  fst (should_trace_syscall sys_id cfg w') = fst (should_trace_syscall sys_id cfg w).
Proof.
  intros E. unfold should_trace_syscall, bpf_map_lookup_elem, bind, gets, ret.
  destruct cfg; [|done]. destruct (negb _); [done|]. rewrite E.
  destruct (maps w syscall_filter_map !! sys_id); [|done]. by destruct (has_flag _ _).
Qed.

(** The end of a dispatcher, once the call was not muted for another reason. *)
Lemma selection_silent sys_id w w2 (k : option Z -> prog unit) :
  bookkept w w2 ->
  negb (fst (should_trace_syscall sys_id (maps w config_map !! 0) w)) &&
    negb (is_fd_state_tracked sys_id (maps w config_map !! 0)) = true ->
  wp (let* cfg := bpf_map_lookup_elem config_map 0 in
      let* traced := should_trace_syscall sys_id cfg in
      if negb traced && negb (is_fd_state_tracked sys_id cfg) then ret tt else k cfg)
    (fun _ w' => submitted w' = submitted w) w2.
Proof.
  intros (R & S & M) E. unfold bpf_map_lookup_elem. wp_steps. rewrite (M config_map) by done.
  pose proof (should_trace_state sys_id (maps w config_map !! 0) w2) as St.
  rewrite <- (should_trace_same _ _ _ w2) in E by (by apply M). unfold wp at 1.
  destruct (should_trace_syscall _ _ w2) as [b w3]. cbn [fst snd] in *. subst w3. by rewrite E.
Qed.

Lemma muted_enter ctx w : muted w (u32 (enter_id ctx)) = true -> abi_reports_only w (snd (trace_sys_enter ctx w)).
Proof.
  intros Mu. change (wp (trace_sys_enter ctx) (fun _ w' => abi_reports_only w w') w).
  unfold trace_sys_enter. set (sys_id := u32 (enter_id ctx)) in *. cbv zeta. wp_step. unfold wp at 1.
  rewrite current_pid_tid_result. cbn [fst snd]. wp_step.
  eapply keeps_wp; [apply tracer_namespace_pidns|]. intros [] w0 (n & p & ->). wp_step.
  unfold wp at 1. rewrite lookup_filter_flags_result. cbn [fst snd].
  change (task_flags (set_calls n (set_pidns p w))) with (task_flags w). set (w0 := set_calls n _).
  unfold muted in Mu. destruct (task_flags w _ _) as [f|]; [|wp_step; by apply unheard_reports].
  wp_step. eapply wp_mono; [apply reject_result|]. intros rejected w1 [Rp Nr].
  destruct rejected; [wp_step; exact Rp|]. destruct (Nr eq_refl) as (M1 & R1 & S1).
  destruct (one_of sys_id _); [wp_step; exact Rp|]. cbn [orb] in Mu. wp_step.
  eapply keeps_wp; [apply arm_exec_bookkept|]. intros [] w2 B2.
  destruct (is_pre_exec_suppressed_syscall _ _); [wp_step; apply unheard_reports; by destruct B2 as (_ & -> & _)|].
  cbn [orb] in Mu. wp_step. eapply keeps_wp; [apply fork_flags_bookkept|]. intros [] w3 B3.
  eapply wp_mono; [|intros a w4 S4; apply unheard_reports; exact S4]. apply (selection_silent sys_id w); [|done].
  etrans; [|exact B3]. etrans; [|exact B2]. split_and!; try done. intros m _ _. by rewrite M1.
Qed.

Lemma muted_exit ctx w : muted w (u32 (exit_id ctx)) = true -> abi_reports_only w (snd (trace_sys_exit ctx w)).
Proof.
  intros Mu. change (wp (trace_sys_exit ctx) (fun _ w' => abi_reports_only w w') w).
  unfold trace_sys_exit. destruct (exit_id ctx <? 0); [wp_step; by apply unheard_reports|].
  set (sys_id := u32 (exit_id ctx)) in *. cbv zeta. wp_step. unfold wp at 1.
  rewrite current_pid_tid_result. cbn [fst snd]. wp_step.
  unfold wp at 1. rewrite lookup_filter_flags_result. cbn [fst snd].
  unfold muted in Mu. destruct (task_flags w _ _) as [f|]; [|wp_step; by apply unheard_reports].
  wp_step. eapply wp_mono; [apply reject_result|]. intros rejected w1 [Rp Nr].
  destruct rejected; [wp_step; exact Rp|]. destruct (Nr eq_refl) as (M1 & R1 & S1).
  destruct (one_of sys_id _); [wp_step; exact Rp|]. cbn [orb] in Mu.
  destruct (is_pre_exec_suppressed_syscall _ _); [wp_step; exact Rp|].
  cbn [orb] in Mu. wp_step. eapply keeps_wp; [apply clear_fork_flags_bookkept|]. intros [] w3 B3.
  eapply wp_mono; [|intros a w4 S4; apply unheard_reports; exact S4]. apply (selection_silent sys_id w); [|done].
  etrans; [|exact B3]. split_and!; try done. intros m _ _. by rewrite M1.
Qed.

(** C16: the entry and the exit of a call the tracer is not asked about submit no record,
    except the report of a foreign ABI. *)
Theorem muted_silent enter exit w :
  muted w (u32 (enter_id enter)) = true -> muted w (u32 (exit_id exit)) = true ->
  abi_reports_only w (snd (trace_sys_enter enter w)) /\ abi_reports_only w (snd (trace_sys_exit exit w)).
Proof. intros M1 M2. split; [by apply muted_enter | by apply muted_exit]. Qed.
End Muted.
