(* ===== verification/Closing.v ===== *)
(** How a syscall is closed.

    An exit handler looks the pending syscall up, submits its record, in some
    families after records with parts of what the call left in memory
    ([EVENT_FLAG_EXIT_FRAGMENT]), and empties the cell.  [closed] says so of a
    run; every handler of the exit program array, and the programs behind the
    kretprobe of [recvmsg], are shown to have it. *)
From stdpp Require Import base list gmap numbers.
From S2P Require Import Prelude Syscalls Abi Kernel Consumer Stats Tlv Emit Decoder EventCore Payload LifecycleState Pending Namespace Lifecycle Structs FdPath Paths Misc Captures Control Keyring Xattr Quota Filesystem Network Slots Iovec NestedFd Poll Select Aio Bpf BpfExit Message Handlers EnterHandlers ExitHandlers Recvmsg Dispatch Trace Delivery Pairing Confine Tracking TrackingProps.

(** ** The records of an exit *)

(** What every record of the exit of [p] says. *)
Record closing_envelope (r : exec_ctx) (p : pending_syscall) (rv dur : Z) (env : traceEventEnvelope)
    : Prop := ClosingEnvelope {
  ce_type : e_eventType env = EVENT_TYPE_EXIT;
  ce_cpu : e_cpu env = u32 (cur_cpu r);
  ce_pid : e_pid env = u32 (p_pid p);
  ce_tid : e_tid env = u32 (p_tid p);
  ce_sys_id : e_sysID env = u32 (p_sys_id p);
  ce_args : e_args env = args_u64 (p_args p);
  ce_ret : e_ret env = s64 rv;
  ce_duration : e_duration env = u64 dur;
  ce_stack : e_stackID env = s32 (p_stack_id p) }.

(** The consumer reads such a record, marked as a fragment or not. *)
Definition reads_closing (fragment : bool) (p : pending_syscall) (rv dur : Z) (r : exec_ctx) (rec : list Z) : Prop :=
  exists env, decodeTraceEventV2Envelope rec = Some env /\ closing_envelope r p rv dur env /\
    has_flag (e_eventFlags env) EVENT_FLAG_EXIT_FRAGMENT = fragment.

(** The flags a payload leaves say whether the record is a fragment. *)
Definition marks (fragment : bool) (Pf : Z -> list Z -> Prop) : Prop :=
  forall flags pl, Pf flags pl -> has_flag (u16 flags) EVENT_FLAG_EXIT_FRAGMENT = fragment.

Lemma marks_tlv guard b F P :
  (forall fl, F fl -> has_flag (u16 fl) EVENT_FLAG_EXIT_FRAGMENT = b /\ has_flag (u16 (Z.lor fl 2)) EVENT_FLAG_EXIT_FRAGMENT = b) ->
  marks b (decodes guard F P).
Proof.
  intros H flags pl (fl & HF & -> & _). unfold tlv_flag. by destruct (_ <? _); apply H.
Qed.
Lemma marks_fixed guard base P :
  In base [0; EVENT_FLAG_KVM_EXIT; EVENT_FLAG_EXIT_FRAGMENT] ->
  marks (has_flag base EVENT_FLAG_EXIT_FRAGMENT) (decodes guard (eq base) P).
Proof.
  intros H. apply marks_tlv. intros fl <-. cbn in H.
  destruct H as [<-|[<-|[<-|[]]]]; done.
Qed.
Lemma marks_from guard base P :
  In base [0; EVENT_FLAG_KVM_EXIT; EVENT_FLAG_EXIT_FRAGMENT] ->
  marks (has_flag base EVENT_FLAG_EXIT_FRAGMENT) (decodes guard (flags_from base) P).
Proof.
  intros H. apply marks_tlv. intros fl [->| ->]; cbn in H;
    destruct H as [<-|[<-|[<-|[]]]]; done.
Qed.
Lemma marks_none f : has_flag (u16 f) EVENT_FLAG_EXIT_FRAGMENT = false -> marks false (fun flags pl => flags = f /\ pl = []).
Proof. by intros H flags pl [-> _]. Qed.

Lemma reads_exit_closing r p ts rv dur res Pf sq rec b :
  reads_exit r (p_pid p) (p_tid p) (p_sys_id p) ts (p_args p) rv dur (p_stack_id p) res Pf sq rec ->
  marks b Pf -> reads_closing b p rv dur r rec.
Proof.
  intros (hd & flags & pl & cpu & [] & D & HP) M. eexists. split; [exact D|]. split; [by split|].
  cbn. rewrite hr_flags. by eapply M.
Qed.

Section Reports.
Context {K : Kernel} {A : Arch}.

(** [m] makes one attempt at a record of the exit of [p]. *)
Definition reports (fragment : bool) (p : pending_syscall) (rv dur : Z) {B} (m : prog B) : Prop :=
  emitter (fun r _ => reads_closing fragment p rv dur r) m.
(** The same for a program that says whether it made one, and nothing else otherwise. *)
Definition reports_if (p : pending_syscall) (rv dur : Z) (m : prog bool) : Prop :=
  emitter_if (fun r _ => reads_closing false p rv dur r) m.

Lemma emitter_mono {B} W W' (m : prog B) :
  (forall r seq rec, W r seq rec -> W' r seq rec) -> emitter W m -> emitter W' m.
Proof.
  intros HW H w. eapply wp_mono; [apply H|]. intros x w' [E O]. split; [done|].
  eapply outcome_mono; [|exact O]. apply HW.
Qed.

Lemma pending_reports {B} b p rv dur Pf (m : prog B) :
  emitter (fun r => reads_pending_exit r p rv dur Pf) m -> marks b Pf -> reports b p rv dur m.
Proof. intros H M. eapply emitter_mono; [|exact H]. intros r sq rec HR. eapply reads_exit_closing; [exact HR | exact M]. Qed.
Lemma capture_reports {B} p rv dur P (m : prog B) :
  emitter (fun r => reads_capture_exit r p rv dur P) m -> reports false p rv dur m.
Proof. intros H. eapply pending_reports; [exact H|]. apply (marks_fixed _ 0). cbn. auto. Qed.
Lemma flags_reports {B} p rv dur guard P (m : prog B) :
  emitter (fun r => reads_pending_exit r p rv dur (decodes guard (flags_from 0) P)) m -> reports false p rv dur m.
Proof. intros H. eapply pending_reports; [exact H|]. apply (marks_from _ 0). cbn. auto. Qed.
Lemma fixed_reports {B} p rv dur guard P (m : prog B) :
  emitter (fun r => reads_pending_exit r p rv dur (decodes guard (eq 0) P)) m -> reports false p rv dur m.
Proof. intros H. eapply pending_reports; [exact H|]. apply (marks_fixed _ 0). cbn. auto. Qed.
Lemma now_reports {B} b p rv dur Pf (m : prog B) :
  emitter (fun r => reads_exit_now r p rv dur Pf) m -> marks b Pf -> reports b p rv dur m.
Proof.
  intros H M. eapply emitter_mono; [|exact H]. intros r sq rec (now & HR). eapply reads_exit_closing; [exact HR | exact M].
Qed.

Lemma plain_reports p rv dur : reports false p rv dur (emit_syscall_exit_event_v2_direct p rv dur 0).
Proof. eapply pending_reports; [apply emit_syscall_exit_ok | exact (marks_none 0 eq_refl)]. Qed.

(** Diagnostics before the attempt. *)
Lemma emitter_quiet {X B} W (m : prog X) (k : X -> prog B) :
  keeps quiet m -> (forall x, emitter W (k x)) -> emitter W (bind m k).
Proof.
  intros Hm Hk w. wp_step. specialize (Hm w). unfold wp at 1. destruct (m w) as [x w1]. cbn [fst snd] in *.
  assert (running w1 = running w) as Er by apply Hm.
  eapply wp_mono; [apply (Hk x)|]. rewrite Er. intros y w2 [E O]. split; [|by eapply outcome_quiet].
  etrans; [by apply quiet_emits | exact E].
Qed.

Lemma reports_if_no p rv dur : reports_if p rv dur (ret false).
Proof. apply emitter_if_no. Qed.
Lemma reports_if_yes p rv dur (m : prog unit) : reports false p rv dur m -> reports_if p rv dur (m ;;; ret true).
Proof. apply emitter_if_yes. Qed.
(** One attempt, or else another. *)
Lemma reports_if_or p rv dur (m m' : prog bool) :
  reports_if p rv dur m -> reports_if p rv dur m' ->
  reports_if p rv dur (let* done := m in if done : bool then ret true else m').
Proof.
  intros H H' w. wp_step. eapply wp_mono; [apply (H w)|]. intros [] w1 H1; [by wp_step|].
  eapply wp_mono; [apply (H' w1)|]. cbv beta.
  assert (running w1 = running w) as -> by apply H1. intros [] w2 H2; [|by etrans].
  destruct H2 as [E O]. split; [|by eapply outcome_quiet]. etrans; [by apply quiet_emits | exact E].
Qed.
(** One attempt, or else the plain record. *)
Lemma reports_else_plain p rv dur (m : prog bool) :
  reports_if p rv dur m ->
  reports false p rv dur (let* done := m in
    if done : bool then ret tt else emit_syscall_exit_event_v2_direct p rv dur 0).
Proof.
  intros H w. wp_step. eapply wp_mono; [apply (H w)|]. intros [] w1 H1; [by wp_step|].
  eapply wp_mono; [apply (plain_reports p rv dur w1)|]. cbv beta.
  assert (running w1 = running w) as -> by apply H1. intros [] w2 [E O]. split; [|by eapply outcome_quiet].
  etrans; [by apply quiet_emits | exact E].
Qed.
End Reports.

(** Closes a goal with the contract of an emitter. *)
Ltac reports_solve :=
  lazymatch goal with
  | |- reports _ _ _ _ (emit_syscall_exit_event_v2_direct _ _ _ _) => apply plain_reports
  | _ => first
      [ eapply capture_reports; solve [eauto 2 with emitters nocore]
      | eapply flags_reports; solve [eauto 2 with emitters nocore]
      | eapply fixed_reports; solve [eauto 2 with emitters nocore] ]
  end.
(** Walks a chain of tests that ends in emitters. *)
Ltac reports_if_solve :=
  repeat match goal with
  | |- reports_if _ _ _ (if ?b then _ else _) => destruct b
  | |- reports_if _ _ _ (ret false) => apply reports_if_no
  | |- reports_if _ _ _ (_ ;;; ret true) => apply reports_if_yes
  | |- reports false _ _ _ _ => solve [reports_solve]
  end.

Section FamilyReports.
Context {K : Kernel} {A : Arch} (p : pending_syscall) (z dur : Z).

Hint Resolve namespace_snapshot_for_exit_quiet read_pid_namespace_snapshot_quiet : keeps.

Lemma fd_time_reports : reports_if p (s64 z) dur (emit_generic_exit_fd_time_event p (s64 z) dur).
Proof.
  unfold emit_generic_exit_fd_time_event. cbv zeta. reports_if_solve.
  - eapply fixed_reports, emit_fd_state_exit_ok.
  - eapply flags_reports, emit_payload_exit_ok, s64_range.
Qed.
Lemma struct_reports : reports_if p (s64 z) dur (emit_generic_exit_struct_event p (s64 z) dur).
Proof.
  unfold emit_generic_exit_struct_event. cbv zeta. reports_if_solve.
  - eapply flags_reports, emit_getcwd_exit_ok, s64_range.
  - eapply flags_reports, emit_readlink_exit_ok, s64_range.
Qed.
Lemma async_reports : reports_if p (s64 z) dur (emit_generic_exit_async_event p (s64 z) dur).
Proof. unfold emit_generic_exit_async_event. cbv zeta. reports_if_solve. Qed.
Lemma ioctl_reports : reports false p (s64 z) dur (emit_ioctl_exit_event_v2_direct p (s64 z) dur).
Proof.
  eapply emitter_mono; [|apply emit_ioctl_exit_ok]. intros r sq rec (reason & HR).
  eapply reads_exit_closing; [exact HR|].
  destruct reason; [apply (marks_from _ EVENT_FLAG_KVM_EXIT) | apply (marks_from _ 0)]; cbn; auto.
Qed.
Lemma control_reports : reports_if p (s64 z) dur (emit_generic_exit_control_event p (s64 z) dur).
Proof. unfold emit_generic_exit_control_event. cbv zeta. reports_if_solve. apply ioctl_reports. Qed.

Lemma bpf_reports : reports_if p (s64 z) dur (emit_bpf_exit_event_v2_direct p (s64 z) dur).
Proof.
  eapply emitter_if_mono; [|apply emit_bpf_exit_ok]. intros r sq rec HR.
  eapply reads_exit_closing; [exact HR|]. apply (marks_from _ 0). cbn. auto.
Qed.
Lemma keyctl_reports : reports_if p (s64 z) dur (emit_keyctl_exit_event_v2_direct p (s64 z) dur).
Proof. unfold emit_keyctl_exit_event_v2_direct. reports_if_solve. eapply flags_reports, keyctl_exit_record_ok. Qed.

Lemma io_reports : reports_if p (s64 z) dur (emit_generic_exit_io_event p (s64 z) dur).
Proof.
  unfold emit_generic_exit_io_event. cbv zeta.
  apply reports_if_or; [reports_if_solve; apply bpf_reports|].
  apply reports_if_or; [reports_if_solve; apply keyctl_reports|]. reports_if_solve.
  - eapply flags_reports, emit_getdents_exit_ok, s64_range.
  - eapply fixed_reports, emit_exec_exit_ok.
Qed.

Lemma path_reports :
  reports false p (s64 z) dur
    (if is_path_only_direct_syscall (p_sys_id p) then emit_path_only_exit_event_v2_direct p (s64 z) dur
     else if is_dual_path_direct_syscall (p_sys_id p) then emit_dual_path_exit_event_v2_direct p (s64 z) dur
     else if is_openat2_direct_syscall (p_sys_id p) then emit_openat2_exit_event_v2_direct p (s64 z) dur
     else emit_open_creat_fd_state_path_exit_event_v2_direct p (s64 z) dur).
Proof.
  repeat case_match; try reports_solve. eapply fixed_reports, emit_open_creat_fd_state_path_exit_ok.
Qed.

Lemma namespace_reports : reports false p (s64 z) dur (emit_namespace_exit_event_v2_direct p (s64 z) dur).
Proof.
  unfold emit_namespace_exit_event_v2_direct. apply emitter_quiet; [keeps_solve|]. intros [s|]; [|apply plain_reports].
  eapply fixed_reports, (emit_snapshot_exit_ok _ _ _ _ PayloadKindNamespace); try done; lia.
Qed.
Lemma pid_namespace_reports : reports false p (s64 z) dur (emit_pid_namespace_exit_event_v2_direct p (s64 z) dur).
Proof.
  unfold emit_pid_namespace_exit_event_v2_direct. apply emitter_quiet; [keeps_solve|]. intros [s|]; [|apply plain_reports].
  eapply fixed_reports, (emit_snapshot_exit_ok _ _ _ _ PayloadKindPIDNamespace); try done; lia.
Qed.
Lemma iovec_base_reports : reports false p (s64 z) dur (emit_iovec_base_exit_event_v2_direct p (s64 z) dur).
Proof. eapply now_reports; [apply emit_iovec_base_exit_ok | apply (marks_from _ 0); cbn; auto]. Qed.
Lemma single_msg_reports : reports false p (s64 z) dur (emit_single_msg_exit_event_v2_direct p (s64 z) dur).
Proof.
  destruct (one_of (p_sys_id p) [SYS_RECVMSG]) eqn:E, (Z.leb_spec (s64 z) 0).
  2: by eapply flags_reports, emit_single_msg_exit_ok.
  all: unfold emit_single_msg_exit_event_v2_direct; rewrite E; try (rewrite (proj2 (Z.leb_le _ _)) by done);
    apply plain_reports.
Qed.
Lemma mmsg_reports : reports false p (s64 z) dur (emit_mmsg_exit_event_v2_direct p (s64 z) dur).
Proof.
  destruct (Z.leb_spec (s64 z) 0).
  - unfold emit_mmsg_exit_event_v2_direct. rewrite (proj2 (Z.leb_le _ _)) by done. apply plain_reports.
  - by eapply flags_reports, emit_mmsg_exit_ok.
Qed.
Lemma mount_query_reports : reports false p (s64 z) dur (emit_mount_query_exit_event_v2_direct p (s64 z) dur).
Proof. eapply flags_reports, emit_mount_query_exit_ok, s64_range. Qed.
Lemma epoll_wait_reports : reports false p (s64 z) dur (emit_epoll_wait_exit_event_v2_direct p (s64 z) dur).
Proof. reports_solve. Qed.
End FamilyReports.

(** ** Runs that close a syscall *)

(** A part of what the call left, and the record that ends it. *)
Definition exit_fragment (p : pending_syscall) (r : exec_ctx) (rec : list Z) : Prop :=
  exists rv dur, reads_closing true p rv dur r rec.
Definition exit_final `{Kernel} (p : pending_syscall) (rv : Z) (r : exec_ctx) (rec : list Z) : Prop :=
  exists dur, elapsed p dur /\ reads_closing false p rv dur r rec.

(** Fragments at most were submitted, and nothing else the programs keep has changed. *)
Record underway `{Kernel} (p : pending_syscall) (w0 w : world) : Prop := Underway {
  uw_state : same_state w0 w;
  uw_records : ring_has_room -> no_fault -> exists frags,
    submitted w = submitted w0 ++ frags /\ Forall (exit_fragment p (running w0)) frags }.

(** The syscall [p] of the current task returned [rv] and was closed: nothing is pending, no
    other task's state was touched and, when no record is lost, fragments and then exactly
    one other record were submitted. *)
Record closed `{Kernel} (p : pending_syscall) (rv : Z) (w0 w : world) : Prop := Closed {
  cl_running : running w = running w0;
  cl_pending : pending_now w = None;
  cl_others : forall t, t <> cur_task (running w0) -> tasks w !! t = tasks w0 !! t;
  cl_records : ring_has_room -> no_fault -> exists frags rec,
    submitted w = submitted w0 ++ frags ++ [rec] /\ Forall (exit_fragment p (running w0)) frags /\
    exit_final p rv (running w0) rec }.

Section Closing.
Context {K : Kernel} {A : Arch}.

Lemma underway_refl p w : underway p w w.
Proof. split; [reflexivity|]. intros _ _. exists []. by rewrite app_nil_r. Qed.

Lemma underway_quiet p w0 w w' : underway p w0 w -> quiet w w' -> underway p w0 w'.
Proof.
  intros [S R] [[S' _ _] (n & _ & [_ Sb _ _ _])]. split; [by etrans|].
  rewrite app_nil_r in Sb. rewrite Sb. exact R.
Qed.

Lemma keeps_underway {X} p w0 w (m : prog X) (Q : X -> world -> Prop) :
  underway p w0 w -> keeps quiet m -> (forall x w', underway p w0 w' -> Q x w') -> wp m Q w.
Proof.
  intros U Hm HQ. eapply keeps_wp; [exact Hm|]. intros x w' Q'. apply HQ. by eapply underway_quiet.
Qed.

(** A healthy attempt submits its record. *)
Lemma outcome_submits W w w' :
  outcome W w w' -> ring_has_room -> no_fault ->
  exists seq rec, submitted w' = submitted w ++ [rec] /\ W seq rec.
Proof. intros [seq rec ? ? _|_ NR|_ NF] Room Fine; [by exists seq, rec | by destruct NR | by destruct NF]. Qed.

Lemma underway_fragment p w0 w rv dur (m : prog unit) :
  underway p w0 w -> reports true p rv dur m -> wp m (fun _ w' => underway p w0 w') w.
Proof.
  intros [S R] Hm. eapply wp_mono; [apply Hm|]. intros _ w' [[S' _] O]. split; [by etrans|].
  intros Room NF. destruct (R Room NF) as (frags & E & F).
  destruct (outcome_submits _ _ _ O Room NF) as (sq & rec & E' & HW).
  exists (frags ++ [rec]). rewrite E', E, app_assoc. split; [done|].
  apply Forall_app_2; [done|]. apply Forall_singleton. rewrite (ss_running _ _ S) in HW. by exists rv, dur.
Qed.

Lemma clear_others w t :
  t <> cur_task (running w) -> tasks (snd (clear_pending_task_state w)) !! t = tasks w !! t.
Proof. intros. by apply clear_pending_result. Qed.

Lemma consume_others pid t p h w s :
  s <> cur_task (running w) -> tasks (snd (consume_pending_syscall pid t p h w)) !! s = tasks w !! s.
Proof.
  intros Hs. unfold consume_pending_syscall, bind. rewrite <- (clear_others w s Hs).
  destruct (clear_pending_task_state w) as [[] w1]. cbn [snd]. destruct h; [done|]. by destruct (_ && _).
Qed.

(** The end of every handler: the record, and the consumption. *)
Lemma finish_closes p rv d w0 w (m : prog unit) pid t h :
  underway p w0 w -> elapsed p d -> reports false p rv d m ->
  wp (m ;;; consume_pending_syscall pid t p h) (fun _ w' => closed p rv w0 w') w.
Proof.
  intros [S R] Hd Hm. wp_step. eapply wp_mono; [apply Hm|]. intros _ w1 [[S1 _] O].
  assert (same_state w0 w1) as S01 by (by etrans).
  destruct (consume_result pid t p h w1) as (P2 & S2 & R2 & _ & _).
  pose proof (consume_others pid t p h w1) as O2. rewrite (ss_running _ _ S01), (ss_tasks _ _ S01) in O2.
  unfold wp. split; [rewrite R2; apply S01 | done | done |].
  intros Room NF. destruct (R Room NF) as (frags & E & F).
  destruct (outcome_submits _ _ _ O Room NF) as (sq & rec & E' & HW).
  exists frags, rec. rewrite S2, E', E, app_assoc. split; [done|]. split; [done|].
  rewrite (ss_running _ _ S) in HW. by exists d.
Qed.

Lemma wp_bind_assoc {X Y Z'} (m : prog X) (k : X -> prog Y) (c : Y -> prog Z') Q w :
  wp (bind (bind m k) c) Q w -> wp (bind m (fun x => bind (k x) c)) Q w.
Proof. unfold wp, bind. destruct (m w) as [x w1]. done. Qed.

(** The lookup and the checks of an exit along the way. *)
Lemma lookup_found pid tid sys_id rv p w0 w :
  underway p w0 w -> pending_now w0 = Some p -> closes w0 pid tid sys_id rv p = true ->
  exists h, lookup_pending_syscall_for_exit pid tid rv w = ((Some p, p_tid p, h), w).
Proof.
  intros [[R M T _] _] P C.
  assert (pending_now w = Some p) as P' by (rewrite <- P; by apply same_tasks_pending).
  assert (handoff w pid rv p = handoff w0 pid rv p) as Hh by (unfold handoff; by rewrite M).
  rewrite lookup_for_exit_result, P', Hh. unfold closes in C. apply andb_true_iff in C as [_ C2].
  destruct (Z.eqb_spec (p_tid p) tid) as [<-|N]; cbn [negb andb orb] in *; [by exists false|].
  rewrite C2. by exists true.
Qed.
Lemma validate_found pid tid sys_id rv p w0 :
  closes w0 pid tid sys_id rv p = true -> validate_pending_syscall_exit p sys_id pid (p_tid p) = ret true.
Proof.
  unfold closes. intros C. apply andb_true_iff in C as [C _].
  unfold validate_pending_syscall_exit. by rewrite C, Z.eqb_refl.
Qed.
Lemma resolve_underway pid tid sys_id rv p w0 w (Q : option exit_frame -> world -> Prop) :
  underway p w0 w -> pending_now w0 = Some p -> closes w0 pid tid sys_id rv p = true -> 0 <= p_enter_time p ->
  (forall h d w', underway p w0 w' -> elapsed p d -> Q (Some (ExitFrame pid p h (p_tid p) d)) w') ->
  wp (resolve_exit pid tid sys_id rv) Q w.
Proof.
  intros U P C Hp HQ. unfold resolve_exit. wp_step. destruct (lookup_found _ _ _ _ _ _ _ U P C) as [h L].
  unfold wp at 1. rewrite L. cbn [fst snd]. rewrite (validate_found _ _ _ _ _ _ C). wp_steps.
  eapply wp_mono; [by apply duration_result|]. intros d w' [Q' Hd]. wp_step.
  apply HQ; [by eapply underway_quiet | done].
Qed.

(** What the exit [ctx] needs to close [p]. *)
Record closable (ctx : trace_event_raw_sys_exit) (p : pending_syscall) (w : world) : Prop := Closable {
  cb_pending : pending_now w = Some p;
  cb_closes : closes w (ctx_pid (running w)) (ctx_tid (running w)) (u32 (exit_id ctx)) (s64 (exit_ret ctx)) p = true;
  cb_entered : 0 <= p_enter_time p }.

Lemma closable_sys_id ctx p w : closable ctx p w -> u32 (exit_id ctx) = p_sys_id p.
Proof. intros [_ C _]. unfold closes in C. apply andb_true_iff in C as [C _]. by apply Z.eqb_eq in C. Qed.

(** A handler closes what it may, also when the chain has submitted fragments. *)
Definition closes_exit (ctx : trace_event_raw_sys_exit) (handler : prog unit) : Prop :=
  forall p w0 w, closable ctx p w0 -> underway p w0 w ->
  wp handler (fun _ w' => closed p (s64 (exit_ret ctx)) w0 w') w.

Lemma handler_closes ctx body p w0 w :
  closable ctx p w0 -> underway p w0 w ->
  (forall h d w', underway p w0 w' -> elapsed p d ->
     wp (body (s64 (exit_ret ctx)) (ExitFrame (ctx_pid (running w0)) p h (p_tid p) d))
       (fun _ w' => closed p (s64 (exit_ret ctx)) w0 w') w') ->
  wp (exit_handler_body ctx body) (fun _ w' => closed p (s64 (exit_ret ctx)) w0 w') w.
Proof.
  intros [P C Hp] U Hb. unfold exit_handler_body, EXIT_PROLOGUE. wp_steps. unfold wp at 1.
  rewrite current_pid_tid_result. cbn [fst snd]. rewrite (ss_running _ _ (uw_state _ _ _ U)).
  eapply resolve_underway; [exact U | exact P | exact C | exact Hp |]. intros h d w' U' Hd. by apply Hb.
Qed.

(** The handlers that submit one record. *)
Lemma plain_handler_closes ctx (emit : pending_syscall -> Z -> Z -> prog unit) :
  (forall p d, u32 (exit_id ctx) = p_sys_id p -> reports false p (s64 (exit_ret ctx)) d (emit p (s64 (exit_ret ctx)) d)) ->
  closes_exit ctx (exit_handler_body ctx (fun ret_value f =>
    emit (xf_p f) ret_value (xf_duration f) ;;; consume_frame f)).
Proof.
  intros He p w0 w C U. apply handler_closes; [done | done |]. intros h d w' U' Hd. cbn [xf_p xf_duration].
  apply (finish_closes p _ d); [done | done |]. apply He. by eapply closable_sys_id.
Qed.
Lemma family_closes ctx emit :
  (forall p d, reports_if p (s64 (exit_ret ctx)) d (emit p (s64 (exit_ret ctx)) d)) ->
  closes_exit ctx (exit_family emit ctx).
Proof.
  intros He p w0 w C U. apply handler_closes; [done | done |]. intros h d w' U' Hd. cbn [xf_p xf_duration].
  apply wp_bind_assoc. apply (finish_closes p _ d); [done | done |]. by apply reports_else_plain.
Qed.
(** A handler that first checks the syscall again. *)
Lemma checked_handler_closes ctx (accepts : Z -> bool) (emit : pending_syscall -> Z -> Z -> prog unit) :
  accepts (u32 (exit_id ctx)) = true ->
  (forall p d, reports false p (s64 (exit_ret ctx)) d (emit p (s64 (exit_ret ctx)) d)) ->
  closes_exit ctx (exit_handler_body ctx (fun ret_value f =>
    if negb (accepts (p_sys_id (xf_p f))) then ret tt
    else emit (xf_p f) ret_value (xf_duration f) ;;; consume_frame f)).
Proof.
  intros Ha He p w0 w C U. apply handler_closes; [done | done |]. intros h d w' U' Hd. cbn [xf_p xf_duration].
  rewrite <- (closable_sys_id _ _ _ C), Ha. cbn [negb]. by apply (finish_closes p _ d).
Qed.

(** The call that a tail call may or may not take. *)
Lemma chain_closes ctx progs i target rest :
  closes_exit ctx target -> forall p w0 w, closable ctx p w0 -> underway p w0 w ->
  (forall w', underway p w0 w' -> wp rest (fun _ w' => closed p (s64 (exit_ret ctx)) w0 w') w') ->
  wp (chain_to progs i target rest) (fun _ w' => closed p (s64 (exit_ret ctx)) w0 w') w.
Proof.
  intros Ht p w0 w C U Hr. unfold chain_to. wp_step.
  eapply keeps_underway; [exact U | apply bpf_tail_call_quiet |]. intros [n|] w' U'; [by apply Ht | by apply Hr].
Qed.

(** ** The handlers *)

Lemma exit_generic_closes ctx : closes_exit ctx (exit_generic ctx).
Proof. apply (plain_handler_closes ctx emit_generic_exit_event). intros. apply plain_reports. Qed.
Lemma exit_fd_time_closes ctx : closes_exit ctx (exit_fd_time ctx).
Proof. apply family_closes. intros. apply fd_time_reports. Qed.
Lemma exit_struct_closes ctx : closes_exit ctx (exit_struct ctx).
Proof. apply family_closes. intros. apply struct_reports. Qed.
Lemma exit_async_closes ctx : closes_exit ctx (exit_async ctx).
Proof. apply family_closes. intros. apply async_reports. Qed.
Lemma exit_control_closes ctx : closes_exit ctx (exit_control ctx).
Proof. apply family_closes. intros. apply control_reports. Qed.

Lemma exit_namespace_closes ctx :
  one_of (u32 (exit_id ctx)) [SYS_CLONE; SYS_CLONE3; SYS_SETNS; SYS_UNSHARE] = true ->
  closes_exit ctx (exit_namespace ctx).
Proof.
  intros E. unfold exit_namespace. rewrite E. cbn [negb].
  apply (plain_handler_closes ctx emit_namespace_exit_event_v2_direct). intros. apply namespace_reports.
Qed.
Lemma exit_pid_namespace_closes ctx :
  one_of (u32 (exit_id ctx)) [SYS_GETPID; SYS_GETTID; SYS_FORK; SYS_VFORK] = true ->
  closes_exit ctx (exit_pid_namespace ctx).
Proof.
  intros E. unfold exit_pid_namespace. rewrite E. cbn [negb].
  apply (plain_handler_closes ctx emit_pid_namespace_exit_event_v2_direct). intros. apply pid_namespace_reports.
Qed.
Lemma exit_path_closes ctx : exit_path_syscall (u32 (exit_id ctx)) = true -> closes_exit ctx (exit_path ctx).
Proof.
  intros E. unfold exit_path. rewrite E. cbn [negb].
  apply (checked_handler_closes ctx exit_path_syscall (fun p rv d =>
    if is_path_only_direct_syscall (p_sys_id p) then emit_path_only_exit_event_v2_direct p rv d
    else if is_dual_path_direct_syscall (p_sys_id p) then emit_dual_path_exit_event_v2_direct p rv d
    else if is_openat2_direct_syscall (p_sys_id p) then emit_openat2_exit_event_v2_direct p rv d
    else emit_open_creat_fd_state_path_exit_event_v2_direct p rv d)); [done|].
  intros. apply path_reports.
Qed.
Lemma exit_iovec_base_closes ctx :
  is_iovec_base_exit_direct_syscall (u32 (exit_id ctx)) = true -> closes_exit ctx (exit_iovec_base ctx).
Proof.
  intros E. unfold exit_iovec_base. rewrite E. cbn [negb].
  apply (checked_handler_closes ctx is_iovec_base_exit_direct_syscall (fun p rv d =>
    if 0 <? rv then emit_iovec_base_exit_event_v2_direct p rv d else emit_syscall_exit_event_v2_direct p rv d 0)); [done|].
  intros. case_match; [apply iovec_base_reports | apply plain_reports].
Qed.
Lemma exit_msg_closes ctx : one_of (u32 (exit_id ctx)) [SYS_SENDMSG] = true -> closes_exit ctx (exit_msg ctx).
Proof.
  intros E. unfold exit_msg. rewrite E. cbn [negb].
  apply (checked_handler_closes ctx (fun n => one_of n [SYS_SENDMSG]) emit_single_msg_exit_event_v2_direct); [done|].
  intros. apply single_msg_reports.
Qed.
Lemma exit_quota_closes ctx : is_quota_direct_syscall (u32 (exit_id ctx)) = true -> closes_exit ctx (exit_quota ctx).
Proof.
  intros E. apply (checked_handler_closes ctx is_quota_direct_syscall (fun p rv d =>
    if (0 <=? rv) && quota_direct_has_exit_payload (quota_direct_pending_command p)
    then emit_quota_exit_event_v2_direct p rv d else emit_syscall_exit_event_v2_direct p rv d 0)); [done|].
  intros. case_match; reports_solve.
Qed.
Lemma exit_mount_query_closes ctx :
  is_mount_query_direct_syscall (u32 (exit_id ctx)) = true -> closes_exit ctx (exit_mount_query ctx).
Proof.
  intros E. apply (checked_handler_closes ctx is_mount_query_direct_syscall (fun p rv d =>
    if 0 <=? rv then emit_mount_query_exit_event_v2_direct p rv d else emit_syscall_exit_event_v2_direct p rv d 0)); [done|].
  intros. case_match; [apply mount_query_reports | apply plain_reports].
Qed.

(** The chain of [recvmmsg]. *)
Lemma exit_mmsg_final_closes ctx :
  is_mmsg_direct_syscall (u32 (exit_id ctx)) = true -> closes_exit ctx (exit_mmsg_final ctx).
Proof.
  intros E. unfold exit_mmsg_final. rewrite E. cbn [negb].
  apply (checked_handler_closes ctx is_mmsg_direct_syscall emit_mmsg_exit_event_v2_direct); [done|].
  intros. apply mmsg_reports.
Qed.

Lemma fragment_reports p rv dur P (m : prog unit) :
  emitter (fun r => reads_exit_fragment r p rv dur P) m -> reports true p rv dur m.
Proof. intros H. eapply pending_reports; [exact H|]. apply (marks_from _ EVENT_FLAG_EXIT_FRAGMENT). cbn. auto. Qed.

Lemma underway_recvmmsg slot p rv d w0 w :
  underway p w0 w ->
  wp (emit_recvmmsg_base_exit_fragment (capture_recvmmsg_base_slot_exit_payloads_tlv_direct slot) p rv d)
    (fun _ w' => underway p w0 w') w.
Proof.
  intros U. unfold emit_recvmmsg_base_exit_fragment. destruct (rv <=? 0); [by wp_step|].
  eapply underway_fragment; [exact U|]. eapply fragment_reports, recvmmsg_fragment_ok.
Qed.

(** Two fragments, and a tail call to the rest of the chain. *)
Lemma recvmmsg_link_closes ctx slot slot' index target :
  one_of (u32 (exit_id ctx)) [SYS_RECVMMSG] = true -> closes_exit ctx target ->
  closes_exit ctx (exit_handler_body ctx (fun ret_value f =>
    if negb (one_of (p_sys_id (xf_p f)) [SYS_RECVMMSG]) then ret tt
    else
      emit_recvmmsg_base_exit_fragment (capture_recvmmsg_base_slot_exit_payloads_tlv_direct slot)
        (xf_p f) ret_value (xf_duration f) ;;;
      emit_recvmmsg_base_exit_fragment (capture_recvmmsg_base_slot_exit_payloads_tlv_direct slot')
        (xf_p f) ret_value (xf_duration f) ;;;
      chain_to exit_progs index target (finish_mmsg f ret_value))).
Proof.
  intros E Ht p w0 w C U. apply handler_closes; [done | done |]. intros h d w' U' Hd. cbn [xf_p xf_duration].
  rewrite <- (closable_sys_id _ _ _ C), E. cbn [negb].
  wp_step. eapply wp_mono; [exact (underway_recvmmsg _ p _ _ w0 w' U')|]. intros [] w1 U1.
  wp_step. eapply wp_mono; [exact (underway_recvmmsg _ p _ _ w0 w1 U1)|]. intros [] w2 U2.
  apply (chain_closes ctx); [done | done | done |]. intros w3 U3.
  apply (finish_closes p _ d); [done | done | apply mmsg_reports].
Qed.

Lemma recvmmsg_is_mmsg n : one_of n [SYS_RECVMMSG] = true -> is_mmsg_direct_syscall n = true.
Proof. unfold is_mmsg_direct_syscall, one_of. cbn. rewrite !orb_false_r. intros ->. apply orb_true_r. Qed.

Lemma exit_recvmmsg_base23_closes ctx :
  one_of (u32 (exit_id ctx)) [SYS_RECVMMSG] = true -> closes_exit ctx (exit_recvmmsg_base23 ctx).
Proof.
  intros E. unfold exit_recvmmsg_base23. rewrite E. cbn [negb].
  apply (recvmmsg_link_closes ctx 2 3); [done|]. by apply exit_mmsg_final_closes, recvmmsg_is_mmsg.
Qed.
Lemma exit_recvmmsg_base01_closes ctx :
  one_of (u32 (exit_id ctx)) [SYS_RECVMMSG] = true -> closes_exit ctx (exit_recvmmsg_base01 ctx).
Proof.
  intros E. unfold exit_recvmmsg_base01. rewrite E. cbn [negb].
  apply (recvmmsg_link_closes ctx 0 1); [done|]. by apply exit_recvmmsg_base23_closes.
Qed.

(** ** The candidates between the programs of a chain *)

(** The number of candidates in the scratch areas stays. *)
Definition same_candidates (w w' : world) : Prop :=
  running w' = running w /\
  forall c, sc_nested_fd_count <$> scratch w' !! c = sc_nested_fd_count <$> scratch w !! c.

#[local] Instance same_candidates_preorder : PreOrder same_candidates.
Proof.
  split; [done|]. intros w1 w2 w3 [R1 S1] [R2 S2]. split; [congruence|]. intros c. by rewrite S2.
Qed.
Lemma only_counters_candidates {X} (m : prog X) : keeps only_counters m -> keeps same_candidates m.
Proof. intros H w. destruct (H w) as [S E _]. split; [apply S | by rewrite E]. Qed.
Lemma quiet_candidates {X} (m : prog X) : keeps quiet m -> keeps same_candidates m.
Proof. intros H. apply only_counters_candidates. intros w. apply H. Qed.
Lemma modify_candidates f :
  (forall w, running (f w) = running w /\ scratch (f w) = scratch w) -> keeps same_candidates (modify f).
Proof. intros H w. destruct (H w) as [E E']. split; cbn; [done | by rewrite E']. Qed.
Lemma update_scratch_candidates f :
  (forall s, sc_nested_fd_count (f s) = sc_nested_fd_count s) -> keeps same_candidates (update_scratch f).
Proof.
  intros H w. unfold update_scratch, modify. cbn. destruct (scratch w !! _) as [s|] eqn:E; [|done].
  split; [done|]. intros c. cbn. destruct (decide (c = cur_cpu (running w))) as [->|N].
  - by rewrite lookup_insert_eq, E; cbn; rewrite H.
  - by rewrite lookup_insert_ne.
Qed.
Hint Extern 5 (keeps same_candidates _) => (apply quiet_candidates) : keeps.
Hint Extern 4 (keeps same_candidates (update_scratch _)) => (apply update_scratch_candidates; reflexivity) : keeps.
Hint Extern 4 (keeps same_candidates (modify _)) => (apply modify_candidates; intros; repeat case_match; done) : keeps.

Lemma tick_candidates : keeps same_candidates tick.
Proof. apply quiet_candidates, tick_quiet. Qed.
Hint Resolve tick_candidates : keeps.
Lemma reserve_candidates n : keeps same_candidates (bpf_ringbuf_reserve_dynptr n).
Proof. unfold bpf_ringbuf_reserve_dynptr. keeps_solve. Qed.
Lemma discard_candidates d : keeps same_candidates (bpf_ringbuf_discard_dynptr d).
Proof. destruct d; cbn; keeps_solve. Qed.
Lemma submit_candidates d : keeps same_candidates (bpf_ringbuf_submit_dynptr d).
Proof. destruct d; cbn; keeps_solve. Qed.
Lemma write_candidates d off bytes : keeps same_candidates (bpf_dynptr_write d off bytes).
Proof. unfold bpf_dynptr_write. keeps_solve. Qed.
Lemma with_stats_candidates f : keeps same_candidates (with_stats f).
Proof. unfold with_stats, lookup_stats. keeps_solve. Qed.
Hint Resolve reserve_candidates discard_candidates submit_candidates write_candidates with_stats_candidates : keeps.
Lemma sequence_candidates : keeps same_candidates next_event_sequence.
Proof. unfold next_event_sequence, lookup_stats. keeps_solve. Qed.
Lemma copy_fail_candidates : keeps same_candidates record_ringbuf_copy_fail.
Proof. unfold record_ringbuf_copy_fail. keeps_solve. Qed.
Lemma reserve_fail_candidates : keeps same_candidates record_ringbuf_reserve_fail.
Proof. unfold record_ringbuf_reserve_fail. keeps_solve. Qed.
Hint Resolve sequence_candidates copy_fail_candidates reserve_fail_candidates : keeps.

Lemma read_dentry_path_candidates ptr off dentry mnt : keeps same_candidates (read_dentry_path_direct ptr off dentry mnt).
Proof.
  unfold read_dentry_path_direct, lookup_fd_path_scratch. keeps_solve.
  all: apply keeps_for_loop; [apply _|]; intros.
  - unfold walk_step, store_dentry_component. keeps_solve.
  - unfold append_step, append_dentry_name_direct, load_dentry_component. keeps_solve.
Qed.
Hint Resolve read_dentry_path_candidates : keeps.
Lemma header_candidates ptr off h : keeps same_candidates (payload_tlv_write_header_direct ptr off h).
Proof. unfold payload_tlv_write_header_direct. keeps_solve. Qed.
Hint Resolve header_candidates : keeps.
Lemma capture_fd_path_candidates i fd ptr off : keeps same_candidates (capture_fd_path_tlv_direct i fd ptr off).
Proof.
  unfold capture_fd_path_tlv_direct, capture_fd_cwd_path_tlv_direct, failed_fd_path, finish_section, bpf_get_current_task. keeps_solve.
Qed.
Hint Resolve capture_fd_path_candidates : keeps.
Lemma nested_fragment_candidates p fd : keeps same_candidates (emit_nested_fd_path_fragment_event_v2_direct p fd).
Proof.
  unfold emit_nested_fd_path_fragment_event_v2_direct, exit_emit_now, emit_record, emit_record_checked,
    emit_record_using, emit_record_returning, emit_record_by, commit_record, init_syscall_event_v2_header_direct. keeps_solve.
Qed.

(** The scratch area of the CPU holds [n] candidates. *)
Definition candidates (n : Z) (w : world) : Prop :=
  exists s, scratch w !! cur_cpu (running w) = Some s /\ sc_nested_fd_count s = n.

Lemma candidates_kept n w w' : same_candidates w w' -> candidates n w -> candidates n w'.
Proof.
  intros [R S] (s & E & <-). specialize (S (cur_cpu (running w))). rewrite E in S. cbn in S.
  apply fmap_Some in S as (s' & E' & Es). exists s'. by rewrite R.
Qed.
Lemma candidates_quiet n w w' : quiet w w' -> candidates n w -> candidates n w'.
Proof.
  intros [[S E _] _]. apply candidates_kept. split; [apply S | by rewrite E].
Qed.

(** The context a program of the chain loads. *)
Lemma load_nested_underway ctx p w0 w n (Q : option (exit_frame * Z) -> world -> Prop) :
  is_epoll_wait_direct_syscall (u32 (exit_id ctx)) = true ->
  closable ctx p w0 -> underway p w0 w -> candidates n w -> 1 <= n <= FD_PATH_NESTED_MAX ->
  (forall h d w', underway p w0 w' -> candidates n w' -> elapsed p d ->
     Q (Some (ExitFrame (ctx_pid (running w0)) p h (p_tid p) d, n)) w') ->
  wp (load_nested_fd_path_exit_context ctx) Q w.
Proof.
  intros E [P C Hp] U N Hn HQ. unfold load_nested_fd_path_exit_context, lookup_fd_path_scratch. rewrite E. cbn [negb].
  wp_step. unfold wp at 1. rewrite current_pid_tid_result. cbn [fst snd].
  rewrite (ss_running _ _ (uw_state _ _ _ U)). wp_step.
  destruct (lookup_found _ _ _ _ _ _ _ U P C) as [h L]. unfold wp at 1. rewrite L. cbn [fst snd].
  rewrite (validate_found _ _ _ _ _ _ C). wp_steps.
  destruct N as (s & Hs & <-). cbn [negb]. wp_steps. rewrite Hs. cbn beta iota.
  destruct (Z.eqb_spec (sc_nested_fd_count s) 0); [lia|]. destruct (Z.ltb_spec FD_PATH_NESTED_MAX (sc_nested_fd_count s)); [lia|].
  cbn [orb]. wp_step. eapply wp_mono; [by apply duration_result|]. intros d w' [Q' Hd]. wp_step.
  apply HQ; [by eapply underway_quiet | | done]. apply (candidates_quiet _ _ _ Q'). by exists s.
Qed.

(** A program of the chain closes the syscall when its candidate exists. *)
Definition closes_nested (i : Z) (ctx : trace_event_raw_sys_exit) (handler : prog unit) : Prop :=
  forall p w0 w n, closable ctx p w0 -> underway p w0 w -> candidates n w -> i < n <= FD_PATH_NESTED_MAX ->
  wp handler (fun _ w' => closed p (s64 (exit_ret ctx)) w0 w') w.

Lemma nested_marks : marks true (decodes no_fault (eq EVENT_FLAG_EXIT_FRAGMENT) (fun _ => fd_path_sections 0 0)).
Proof. apply (marks_fixed _ EVENT_FLAG_EXIT_FRAGMENT). cbn. auto. Qed.

Lemma nested_closes i fd next ctx :
  is_epoll_wait_direct_syscall (u32 (exit_id ctx)) = true -> 0 <= i ->
  (forall p w0 w n finish, closable ctx p w0 -> underway p w0 w -> candidates n w -> i + 1 < n <= FD_PATH_NESTED_MAX ->
     (forall w', underway p w0 w' -> wp finish (fun _ w' => closed p (s64 (exit_ret ctx)) w0 w') w') ->
     wp (next finish) (fun _ w' => closed p (s64 (exit_ret ctx)) w0 w') w) ->
  closes_nested i ctx (exit_nested_fd_path i fd next ctx).
Proof.
  intros E Hi Hnext p w0 w n C U N Hn. unfold exit_nested_fd_path. wp_steps.
  eapply (load_nested_underway ctx p w0 w n); [done | done | done | done | lia |]. intros h d w1 U1 N1 Hd. cbn beta iota.
  destruct (Z.leb_spec n i); [lia|]. rewrite andb_false_r. unfold scratch_get. wp_steps. cbn [xf_p].
  match goal with |- context [emit_nested_fd_path_fragment_event_v2_direct p ?x] => set (cand := x) end.
  assert (forall w', underway p w0 w' ->
    wp (finish_nested_fd_path_exit (ExitFrame (ctx_pid (running w0)) p h (p_tid p) d) (s64 (exit_ret ctx)))
      (fun _ w' => closed p (s64 (exit_ret ctx)) w0 w') w') as Fin.
  { intros w' U'. unfold finish_nested_fd_path_exit. cbn [xf_p xf_duration].
    apply (finish_closes p _ d); [done | done | apply epoll_wait_reports]. }
  pose proof (underway_fragment p w0 w1 0 0 _ U1 (now_reports true p 0 0 _ _ (emit_nested_fragment_ok p cand)
    (marks_fixed _ EVENT_FLAG_EXIT_FRAGMENT _ ltac:(cbn; auto)))) as Frag.
  pose proof (nested_fragment_candidates p cand w1) as Keep.
  unfold wp in Frag. unfold wp at 1. destruct (emit_nested_fd_path_fragment_event_v2_direct p cand w1) as [[] w2]. cbn [fst snd] in *.
  pose proof (candidates_kept _ _ _ Keep N1) as N2.
  destruct (Z.ltb_spec (i + 1) n); [|by apply Fin]. eapply Hnext; [done | exact Frag | exact N2 | lia | exact Fin].
Qed.

(** The tail call to the next program of the chain. *)
Lemma nested_next i ctx target :
  closes_nested i ctx target ->
  forall p w0 w n index finish, closable ctx p w0 -> underway p w0 w -> candidates n w -> i < n <= FD_PATH_NESTED_MAX ->
  (forall w', underway p w0 w' -> wp finish (fun _ w' => closed p (s64 (exit_ret ctx)) w0 w') w') ->
  wp (chain_to exit_progs index target finish) (fun _ w' => closed p (s64 (exit_ret ctx)) w0 w') w.
Proof.
  intros Ht p w0 w n index finish C U N Hn Fin. unfold chain_to. wp_step.
  eapply keeps_wp; [apply bpf_tail_call_quiet|]. intros r w' Q. 
  assert (underway p w0 w') as U' by (by eapply underway_quiet).
  destruct r as [k|]; [|by apply Fin]. apply (Ht p w0 w' n); [done | done | by eapply candidates_quiet | done].
Qed.

Section Chain.
Context (ctx : trace_event_raw_sys_exit).
Hypothesis Epoll : is_epoll_wait_direct_syscall (u32 (exit_id ctx)) = true.

Lemma exit_nested3_closes : closes_nested 3 ctx (exit_nested_fd_path3 ctx).
Proof. apply nested_closes; [done | lia |]. intros p w0 w n finish C U N Hn Fin. by apply Fin. Qed.
Lemma exit_nested2_closes : closes_nested 2 ctx (exit_nested_fd_path2 ctx).
Proof. apply nested_closes; [done | lia |]. intros. by eapply nested_next; [apply exit_nested3_closes|..]. Qed.
Lemma exit_nested1_closes : closes_nested 1 ctx (exit_nested_fd_path1 ctx).
Proof. apply nested_closes; [done | lia |]. intros. by eapply nested_next; [apply exit_nested2_closes|..]. Qed.
Lemma exit_nested0_closes : closes_nested 0 ctx (exit_nested_fd_path0 ctx).
Proof. apply nested_closes; [done | lia |]. intros. by eapply nested_next; [apply exit_nested1_closes|..]. Qed.
End Chain.

(** *** Collecting candidates *)

(** Nothing but the scratch area changed, and nothing was submitted. *)
Definition silent (w w' : world) : Prop := same_state w w' /\ submitted w' = submitted w.
#[local] Instance silent_preorder : PreOrder silent.
Proof. split; [done|]. intros w1 w2 w3 [] []. split; [by etrans | congruence]. Qed.
Lemma quiet_silent w w' : quiet w w' -> silent w w'.
Proof. intros [[S _ _] (n & _ & [_ Sb _ _ _])]. split; [done|]. by rewrite app_nil_r in Sb. Qed.
Lemma silent_underway p w0 w w' : underway p w0 w -> silent w w' -> underway p w0 w'.
Proof. intros [S R] [S' Sb]. split; [by etrans|]. by rewrite Sb. Qed.
Lemma update_scratch_silent f : keeps silent (update_scratch f).
Proof. intros w. unfold update_scratch, modify. cbn. by destruct (scratch w !! _). Qed.
Lemma collect_silent n cb : (forall i, keeps silent (cb i)) -> keeps silent (collect_fd_candidates n cb).
Proof.
  intros H. unfold collect_fd_candidates, bpf_loop. apply keeps_bind; [apply _ | apply update_scratch_silent |].
  intros _. apply keeps_bind; [apply _ | |].
  - apply keeps_for_loop; [apply _|]. intros i a. apply keeps_bind; [apply _ | apply H |]. intros []; by apply keeps_ret; apply _.
  - intros _. eapply keeps_weaken; [apply scratch_get_quiet | exact quiet_silent].
Qed.
Lemma fd_scan_silent valid addr count i : keeps silent (fd_scan_callback valid addr count i).
Proof.
  unfold fd_scan_callback. repeat first [keeps_step | apply update_scratch_silent].
  eapply keeps_weaken; [apply bpf_probe_read_user_quiet | exact quiet_silent].
Qed.

(** What the exit of a wait collects. *)
Lemma collect_epoll_underway p rv p0 w0 w :
  underway p0 w0 w ->
  wp (collect_epoll_fd_path_candidates_direct p rv)
    (fun n w' => underway p0 w0 w' /\ (0 < n -> n <= FD_PATH_NESTED_MAX /\ candidates n w')) w.
Proof.
  intros U. pose proof epoll_sizes as (? & ? & ? & ? & ? & ?). assert (EPOLL_DIRECT_EVENT_SLOT_MAX <= 504) by nia. unfold collect_epoll_fd_path_candidates_direct, lookup_fd_path_scratch, epoll_fd_path_scan_callback, bpf_map_lookup_elem.
  wp_steps. destruct (negb _ || _ || _ || _); [wp_step; split; [done | lia]|]. wp_steps.
  destruct (scratch w !! _) as [s|] eqn:Hs; [|wp_step; split; [done | lia]]. cbv zeta.
  match goal with |- wp (collect_fd_candidates ?m (fd_scan_callback ?v ?a ?c)) _ _ =>
    pose proof (wp_collect m v a c s w Hs) as W; pose proof (collect_silent m _ (fd_scan_silent v a c) w) as S end.
  unfold wp in *. destruct (collect_fd_candidates _ _ w) as [n w1]. cbn [fst snd] in *.
  split; [by eapply silent_underway|]. intros _.
  destruct W as (l & s' & _ & Hs' & Hw & ->).
  - match goal with |- 0 <= u32 ?c <= _ =>
      assert (0 <= c <= EPOLL_DIRECT_EVENT_SLOT_MAX) as Hc
        by (pose proof (u64_range rv); destruct (Z.ltb_spec EPOLL_DIRECT_EVENT_SLOT_MAX (u64 rv)); lia);
      rewrite (u32_small c) by lia; lia end.
  - pose proof (window_length l). split; [unfold zlen; lia|]. exists s'. split; [done | apply Hw].
Qed.

Lemma exit_io_closes ctx : closes_exit ctx (exit_io ctx).
Proof.
  intros p w0 w C U. apply handler_closes; [done | done |]. intros h d w1 U1 Hd. cbn [xf_p xf_duration]. cbv zeta.
  destruct (is_epoll_wait_direct_syscall (p_sys_id p) && (0 <? s64 (exit_ret ctx))) eqn:E.
  - apply andb_true_iff in E as [E _]. wp_step. eapply wp_mono; [exact (collect_epoll_underway p _ p w0 w1 U1)|].
    intros n w2 [U2 Hn]. cbv beta zeta.
    assert (forall w', underway p w0 w' ->
      wp (emit_epoll_wait_exit_event_v2_direct p (s64 (exit_ret ctx)) d ;;;
          consume_frame (ExitFrame (ctx_pid (running w0)) p h (p_tid p) d))
        (fun _ w' => closed p (s64 (exit_ret ctx)) w0 w') w') as Fin.
    { intros w' U'. apply (finish_closes p _ d); [done | done | apply epoll_wait_reports]. }
    destruct (Z.ltb_spec 0 n); [|by apply Fin]. destruct (Hn ltac:(done)) as [Hle N].
    eapply (nested_next 0 ctx); [apply exit_nested0_closes | done | done | exact N | lia | exact Fin].
    by rewrite (closable_sys_id _ _ _ C).
  - apply wp_bind_assoc. apply (finish_closes p _ d); [done | done |]. apply reports_else_plain, io_reports.
Qed.

(** ** The dispatcher *)

(** The syscalls each exit program is for.  The programs of the descriptor chain are reached from
    the program of the waits alone. *)
Definition exit_accepts (i sys_id : Z) : bool :=
  if i =? EXIT_PROG_IOVEC_BASE then is_iovec_base_exit_direct_syscall sys_id
  else if i =? EXIT_PROG_MSG then one_of sys_id [SYS_SENDMSG]
  else if i =? EXIT_PROG_MMSG_FINAL then is_mmsg_direct_syscall sys_id
  else if (i =? EXIT_PROG_RECVMMSG_BASE01) || (i =? EXIT_PROG_RECVMMSG_BASE23) then one_of sys_id [SYS_RECVMMSG]
  else if i =? EXIT_PROG_QUOTA then is_quota_direct_syscall sys_id
  else if i =? EXIT_PROG_MOUNT_QUERY then is_mount_query_direct_syscall sys_id
  else if i =? EXIT_PROG_PATH then exit_path_syscall sys_id
  else if i =? EXIT_PROG_NAMESPACE then one_of sys_id [SYS_CLONE; SYS_CLONE3; SYS_SETNS; SYS_UNSHARE]
  else if i =? EXIT_PROG_PID_NAMESPACE then one_of sys_id [SYS_GETPID; SYS_GETTID; SYS_FORK; SYS_VFORK]
  else negb ((EXIT_PROG_NESTED_FD_PATH0 <=? i) && (i <=? EXIT_PROG_NESTED_FD_PATH3)).

(** Every loaded program closes the exits it is for. *)
Lemma loaded_exit_closes i h ctx :
  exit_program i = Some h -> exit_accepts i (u32 (exit_id ctx)) = true -> closes_exit ctx (h ctx).
Proof.
  intros E. change (slot loaded_exit i = Some h) in E. unfold slot in E. apply fmap_Some in E as ([j x] & E & ->).
  apply find_some in E as [E Ej]. cbn [fst snd] in *. apply Z.eqb_eq in Ej as <-. revert E.
  unfold loaded_exit. cbn [In].
  intros E. repeat (destruct E as [[= <- <-]|E]); [..|done]; cbn -[one_of exit_path_syscall is_quota_direct_syscall
    is_mount_query_direct_syscall is_mmsg_direct_syscall is_iovec_base_exit_direct_syscall]; intros Acc; try done.
  - apply exit_generic_closes.
  - by apply exit_iovec_base_closes.
  - by apply exit_msg_closes.
  - by apply exit_mmsg_final_closes.
  - by apply exit_recvmmsg_base01_closes.
  - by apply exit_recvmmsg_base23_closes.
  - by apply exit_quota_closes.
  - by apply exit_mount_query_closes.
  - by apply exit_path_closes.
  - apply exit_fd_time_closes.
  - apply exit_struct_closes.
  - apply exit_async_closes.
  - apply exit_io_closes.
  - apply exit_control_closes.
  - by apply exit_namespace_closes.
  - by apply exit_pid_namespace_closes.
Qed.

(** The route of a syscall, when it has one, names a program that is for it. *)
Definition exit_routed (w : world) (sys_id : Z) : Prop :=
  forall i, maps w exit_routes !! sys_id = Some i -> exit_accepts i sys_id = true.

Lemma fallback_closes ctx p w0 w :
  closable ctx p w0 -> underway p w0 w ->
  wp (emit_exit_dispatch_fallback (ctx_pid (running w0)) (ctx_tid (running w0)) (u32 (exit_id ctx)) (s64 (exit_ret ctx)))
    (fun _ w' => closed p (s64 (exit_ret ctx)) w0 w') w.
Proof.
  intros [P C Hp] U. unfold emit_exit_dispatch_fallback. wp_step.
  eapply resolve_underway; [exact U | exact P | exact C | exact Hp |]. intros h d w' U' Hd. cbn [xf_p xf_duration].
  apply (finish_closes p _ d); [done | done | apply plain_reports].
Qed.

(** A tail call takes the program of the slot, or none. *)
Lemma tail_call_result m k w :
  wp (bpf_tail_call m k) (fun i w' => quiet w w' /\ (i = None \/ i = maps w m !! k)) w.
Proof.
  pose proof (bpf_tail_call_quiet m k w) as Q. unfold wp. split; [done|].
  unfold bpf_tail_call, bpf_map_lookup_elem, bind, gets, ret, tick. cbn. destruct (k_tail_ok _); auto.
Qed.
Lemma tail_call_closes ctx p w :
  closable ctx p w -> exit_routed w (u32 (exit_id ctx)) ->
  wp (tail_call exit_program exit_routes (u32 (exit_id ctx)) ctx
       (emit_exit_dispatch_fallback (ctx_pid (running w)) (ctx_tid (running w)) (u32 (exit_id ctx)) (s64 (exit_ret ctx))))
    (fun _ w' => closed p (s64 (exit_ret ctx)) w w') w.
Proof.
  intros C Rt. unfold tail_call. wp_step. eapply wp_mono; [apply tail_call_result|]. intros i w' [Q Hi].
  assert (underway p w w') as U by (eapply underway_quiet; [apply underway_refl | done]).
  destruct i as [i|]; [|by apply fallback_closes]. destruct (exit_program i) as [h|] eqn:E; [|by apply fallback_closes].
  destruct Hi as [[=]|Hi]. exact (loaded_exit_closes i h ctx E (Rt i (eq_sym Hi)) p w w' C U).
Qed.

(** What makes a dispatcher go on to a handler: the current task is followed, its calls have the
    native ABI and the syscall is one the tracer is asked about. *)
Record heard (w : world) (sys_id : Z) : Prop := Heard {
  hd_tracked : tracked w (ctx_pid (running w)) (ctx_tid (running w)) = true;
  hd_native : forall w', running w' = running w -> fst (current_syscall_has_native_abi sys_id w') = true;
  hd_selected : muted w sys_id = false }.

(** The dispatcher up to the tail call, for a syscall it hears. *)
Lemma heard_exit ctx w (Q : unit -> world -> Prop) :
  0 <= exit_id ctx -> heard w (u32 (exit_id ctx)) ->
  (forall w', bookkept w w' -> tasks w' = tasks w -> maps w' pending_exec_map = maps w pending_exec_map ->
     wp (tail_call exit_program exit_routes (u32 (exit_id ctx)) ctx
           (emit_exit_dispatch_fallback (ctx_pid (running w)) (ctx_tid (running w)) (u32 (exit_id ctx)) (s64 (exit_ret ctx))))
       Q w') ->
  wp (trace_sys_exit ctx) Q w.
Proof.
  intros Pos [Tr Native Mu] HQ. specialize (Native w eq_refl). unfold trace_sys_exit. destruct (Z.ltb_spec (exit_id ctx) 0); [lia|].
  set (sys_id := u32 (exit_id ctx)) in *. cbv zeta. wp_step. unfold wp at 1.
  rewrite current_pid_tid_result. cbn [fst snd]. wp_step.
  unfold wp at 1. rewrite lookup_filter_flags_result. cbn [fst snd].
  unfold muted in Mu. unfold tracked in Tr. destruct (task_flags w _ _) as [f|]; [|done]. apply orb_false_iff in Mu as [Mu Sel].
  apply orb_false_iff in Mu as [Sig Pre]. wp_step. unfold reject_unsupported_syscall_abi. wp_step.
  pose proof (native_abi_quiet sys_id w) as Q1. unfold wp at 1.
  destruct (current_syscall_has_native_abi sys_id w) as [native w1]. cbn [fst snd] in *. subst native.
  destruct (quiet_state _ _ Q1) as (M1 & R1 & S1 & T1). wp_step. rewrite Sig, Pre. wp_step.
  assert (keeps (fun w w' => bookkept w w' /\ tasks w' = tasks w /\ maps w' pending_exec_map = maps w pending_exec_map)
    (clear_pending_fork_flags (ctx_tid (running w)) sys_id)) as Clr.
  { intros w2. split; [apply clear_fork_flags_bookkept|]. unfold clear_pending_fork_flags.
    destruct (one_of _ [SYS_CLONE; _]); [|done]. split; [done|]. cbn. by apply map_set_ne. }
  eapply keeps_wp; [exact Clr|]. intros [] w3 (B3 & T3 & E3).
  assert (bookkept w w3) as B by (etrans; [|exact B3]; split_and!; try done; intros m _ _; by rewrite M1).
  unfold bpf_map_lookup_elem. wp_steps. destruct B as (R & S & M). rewrite (M config_map) by done.
  pose proof (should_trace_state sys_id (maps w config_map !! 0) w3) as St.
  rewrite <- (should_trace_same _ _ _ w3) in Sel by (by apply M). unfold wp at 1.
  destruct (should_trace_syscall _ _ w3) as [b w4]. cbn [fst snd] in *. subst w4. rewrite Sel.
  apply HQ; [done | congruence | rewrite E3; by rewrite M1].
Qed.

(** The whole dispatcher. *)
Lemma dispatched_exit_closed ctx p w :
  0 <= exit_id ctx -> heard w (u32 (exit_id ctx)) ->
  exit_routed w (u32 (exit_id ctx)) -> closable ctx p w ->
  closed p (s64 (exit_ret ctx)) w (snd (trace_sys_exit ctx w)).
Proof.
  intros Pos Hd Rt [P C Hp].
  change (wp (trace_sys_exit ctx) (fun _ w' => closed p (s64 (exit_ret ctx)) w w') w).
  apply heard_exit; [done..|]. intros w1 (R & S & M) T E.
  assert (closable ctx p w1) as C1.
  { split; [| |done].
    - unfold pending_now, pending_cell. by rewrite R, T.
    - rewrite R. unfold closes, handoff in *. by rewrite E. }
  eapply wp_mono with (P := fun _ w' => closed p (s64 (exit_ret ctx)) w1 w').
  - rewrite <- R. apply tail_call_closes; [done|]. intros i Hi. apply Rt. by rewrite <- (M exit_routes).
  - intros _ w' [R' P' O' Rec]. split; [congruence | done | |].
    + intros t. rewrite <- T, <- R. apply O'.
    + rewrite <- S, <- R. exact Rec.
Qed.

(** C7: the dispatcher closes the syscall a followed task has pending when its exit arrives,
    whichever program the route of the syscall names, provided that the program is one for it, and
    also when the kernel refuses the tail call: nothing is pending, the state of no other task has
    changed and, when no record is lost, what was submitted is fragments of the exit and then
    exactly one record that ends it, with the identity and arguments of the entry, the returned
    value and the time elapsed. *)
Theorem exit_dispatch_closes ctx p w :
  0 <= exit_id ctx -> heard w (u32 (exit_id ctx)) ->
  exit_routed w (u32 (exit_id ctx)) -> closable ctx p w ->
  closed p (s64 (exit_ret ctx)) w (snd (trace_sys_exit ctx w)).
Proof. apply dispatched_exit_closed. Qed.
End Closing.
