(* ===== verification/Opening.v ===== *)
(** How a syscall is remembered.

    An entry handler submits its records and saves the syscall: [fills] says so of a
    program, for every handler of the entry program array that is for its syscall, and for the
    dispatcher.  With [Closing] it gives the round trip of a call through both dispatchers. *)
From stdpp Require Import base list gmap numbers.
From S2P Require Import Prelude Syscalls Abi Kernel Consumer Stats Tlv Emit Decoder EventCore Payload LifecycleState Pending Namespace Lifecycle Signal Structs FdPath Paths Misc Captures Control Keyring Xattr Quota Filesystem Network Slots Iovec NestedFd Poll Select Aio Bpf BpfExit Message Handlers EnterHandlers ExitHandlers Recvmsg Dispatch Trace Delivery Pairing Confine Tracking TrackingProps Closing.

Section Opening.
Context {K : Kernel} {A : Arch}.

(** ** Programs that leave the cell alone *)

Hint Extern 5 (keeps same_tasks _) => (eapply keeps_weaken; [|exact quiet_tasks]) : keeps.
Lemma emits_tasks w w' : emits w w' -> same_tasks w w'.
Proof. intros [S _]. by apply same_state_tasks. Qed.
Hint Extern 6 (keeps same_tasks _) => (eapply keeps_weaken; [|exact emits_tasks]) : keeps.

Lemma lifecycle_update_tasks m k v : keeps same_tasks (lifecycle_map_update m k v).
Proof. intros w. pose proof (lifecycle_update_result m k v w) as []. by split. Qed.
Hint Resolve lifecycle_update_tasks : keeps.

(** The context and the pending syscall stay. *)
Definition same_pending (w w' : world) : Prop := running w' = running w /\ pending_now w' = pending_now w.

#[local] Instance same_pending_preorder : PreOrder same_pending.
Proof. split; [done|]. intros w1 w2 w3 [] []. split; congruence. Qed.
Lemma tasks_pending w w' : same_tasks w w' -> same_pending w w'.
Proof. intros S. split; [apply S | by apply same_tasks_pending]. Qed.
Hint Extern 7 (keeps same_pending _) => (eapply keeps_weaken; [|exact tasks_pending]) : keeps.

Lemma save_aux_pending tid aux : keeps same_pending (save_pending_syscall_aux tid aux).
Proof.
  intros w. unfold save_pending_syscall_aux, bind. rewrite current_pending_task_state_result.
  assert (forall w, same_pending w (snd (record_pending_update_fail w))) as F.
  { intros w'. apply tasks_pending, quiet_tasks, record_pending_update_fail_quiet. }
  destruct (pending_cell w) as [s|] eqn:E; [|apply F]. destruct (s_valid s =? 0) eqn:V; [apply F|].
  unfold put_pending_task_state, bpf_get_current_task, task_storage_put, bind, gets, modify. cbn. split; [done|].
  unfold pending_now. rewrite E, V. unfold pending_cell in *. cbn.
  destruct (cur_task (running w) =? 0); [done|]. rewrite lookup_insert_eq. cbn. by rewrite V.
Qed.
Hint Resolve save_aux_pending : keeps.

(** ** Programs that fill it *)

(** The current task can have a pending syscall: its storage exists, or is created when asked. *)
Definition can_keep (w : world) : Prop :=
  cur_task (running w) <> 0 /\
  (is_Some (tasks w !! cur_task (running w)) \/ forall n, k_storage_ok n = true).

(** The entry [ctx] is pending, with its arguments and the ids of the task [r]. *)
Definition remembers (ctx : trace_event_raw_sys_enter) (r : exec_ctx) (w : world) : Prop :=
  running w = r /\ exists t rt sid, 0 <= t /\ pending_now w =
    Some (PendingSyscall t rt (args_u64 (enter_args ctx)) (ctx_pid r) (u32 (enter_id ctx)) (ctx_tid r) sid).

Definition fills (ctx : trace_event_raw_sys_enter) (r : exec_ctx) {X} (m : prog X) : Prop :=
  forall w, running w = r -> can_keep w -> wp m (fun _ w' => remembers ctx r w') w.

Lemma can_keep_same w w' : same_tasks w w' -> can_keep w -> can_keep w'.
Proof. intros [T R]. unfold can_keep. by rewrite T, R. Qed.
Lemma remembers_same ctx r w w' : same_pending w w' -> remembers ctx r w -> remembers ctx r w'.
Proof. intros [R P] [R' P']. split; [congruence | by rewrite P]. Qed.

Section Fills.
Context (ctx : trace_event_raw_sys_enter) (r : exec_ctx).

Lemma fills_after {X Y} (m : prog X) (k : X -> prog Y) :
  keeps same_tasks m -> (forall x, fills ctx r (k x)) -> fills ctx r (bind m k).
Proof.
  intros Hm Hk w R C. wp_step. eapply keeps_wp; [exact Hm|]. intros x w' S. apply Hk; [|by eapply can_keep_same].
  etrans; [apply S | done].
Qed.
Lemma fills_before {X Y} (m : prog X) (k : X -> prog Y) :
  fills ctx r m -> (forall x, keeps same_pending (k x)) -> fills ctx r (bind m k).
Proof.
  intros Hm Hk w R C. wp_step. eapply wp_mono; [by apply Hm|]. intros x w' S.
  eapply keeps_wp; [apply Hk|]. intros y w2 S2. by eapply remembers_same.
Qed.

(** The frame of the entry. *)
Definition framed (f : enter_frame) : Prop :=
  exists t cfg sid, 0 <= t /\ f = EnterFrame (u32 (enter_id ctx)) (ctx_tid r) (ctx_pid r) t cfg sid.

Lemma fills_prologue {X} (body : enter_frame -> prog X) :
  (forall f, framed f -> fills ctx r (body f)) -> fills ctx r (bind (ENTER_PROLOGUE ctx) body).
Proof.
  intros Hb w R C. unfold ENTER_PROLOGUE. wp_steps. unfold wp at 1. rewrite current_pid_tid_result. cbn [fst snd].
  rewrite R. wp_steps. unfold bpf_ktime_get_ns. wp_step.
  eapply keeps_wp; [apply tick_quiet|]. intros n w1 Q1. unfold bpf_map_lookup_elem. wp_steps.
  eapply keeps_wp; [apply stack_id_of_quiet|]. intros sid w2 Q2. wp_step.
  pose proof (quiet_tasks _ _ Q1) as S1. pose proof (quiet_tasks _ _ Q2) as S2.
  assert (same_tasks w w2) as S by (by etrans). apply Hb.
  - do 3 eexists. split; [|reflexivity]. apply u64_range.
  - etrans; [apply S | done].
  - by eapply can_keep_same.
Qed.

Lemma fills_save_value t sid :
  0 <= t ->
  fills ctx r (save_pending_syscall_value
    (PendingSyscall t 0 (args_u64 (enter_args ctx)) (ctx_pid r) (u32 (enter_id ctx)) (ctx_tid r) sid)).
Proof.
  intros Ht w R [N S].
  assert (can_save w) as C by (split; [done | destruct S as [S|S]; auto]).
  pose proof (save_args_result (ctx_tid r) (ctx_pid r) (u32 (enter_id ctx)) ctx t sid w C) as H.
  unfold save_pending_syscall_args, wp, bind, ret in *. destruct (save_pending_syscall_value _ w) as [ok w'].
  cbn [fst snd] in *. destruct H as (R' & _ & rt & P). split; [congruence|]. by exists t, rt, sid.
Qed.
Lemma fills_save f : framed f -> fills ctx r (save_frame ctx f).
Proof.
  intros (t & cfg & sid & Ht & ->). unfold save_frame, save_pending_syscall_args. cbn [ef_tid ef_pid ef_sys_id ef_enter_time ef_stack_id].
  apply fills_before; [by apply fills_save_value|]. intros x. apply keeps_ret, _.
Qed.
Lemma fills_save_network f len :
  framed f -> fills ctx r (save_pending_network_syscall_args (ef_tid f) (ef_pid f) (ef_sys_id f)
    (args_u64 (enter_args ctx)) (ef_enter_time f) (ef_stack_id f) len).
Proof.
  intros (t & cfg & sid & Ht & ->). apply fills_before; [by apply fills_save_value|]. keeps_solve.
Qed.
Lemma fills_save_msg f :
  framed f -> fills ctx r (save_pending_msg_syscall_args (ef_tid f) (ef_pid f) (ef_sys_id f) ctx
    (ef_enter_time f) (ef_stack_id f)).
Proof.
  intros (t & cfg & sid & Ht & ->). unfold save_pending_msg_syscall_args. cbv zeta. apply fills_after.
  - pose proof msg_read_name_quiet. keeps_solve.
  - intros aux. apply fills_before; [by apply fills_save_value|]. keeps_solve.
Qed.

Lemma fills_body emit :
  (forall f, keeps same_tasks (emit f)) -> fills ctx r (enter_handler_body ctx emit).
Proof.
  intros He. unfold enter_handler_body. apply fills_prologue. intros f F. apply fills_after; [apply He|].
  intros _. by apply fills_save.
Qed.
Lemma fills_family emit :
  (forall pid tid sys_id t, keeps same_tasks (emit pid tid sys_id ctx t)) -> fills ctx r (enter_family emit ctx).
Proof. intros He. apply fills_body. intros f. apply He. Qed.

Lemma fills_chain progs i (target rest : prog unit) :
  fills ctx r target -> fills ctx r rest -> fills ctx r (chain_to progs i target rest).
Proof.
  intros H1 H2. unfold chain_to. apply fills_after; [|intros []; done].
  eapply keeps_weaken; [apply bpf_tail_call_quiet | exact quiet_tasks].
Qed.
End Fills.

(** ** The chains after the save *)

Lemma chain_pending progs i target : keeps same_pending target -> keeps same_pending (chain_to progs i target (ret tt)).
Proof. intros H. unfold chain_to. keeps_solve. Qed.
Hint Resolve chain_pending : keeps.
Hint Extern 4 (keeps same_pending (ENTER_PROLOGUE _)) =>
  (eapply keeps_weaken; [apply ENTER_PROLOGUE_quiet | intros ? ? Q; by apply tasks_pending, quiet_tasks]) : keeps.

Lemma enter_nested_pending i fd next ctx : keeps same_pending next -> keeps same_pending (enter_nested_fd_path i fd next ctx).
Proof. intros. unfold enter_nested_fd_path. pose proof load_nested_quiet. keeps_solve. Qed.
Lemma enter_nested0_pending ctx : keeps same_pending (enter_nested_fd_path0 ctx).
Proof. repeat (apply enter_nested_pending; first [apply chain_pending | keeps_solve]). Qed.
Lemma enter_iovec_base_pending ctx : keeps same_pending (enter_iovec_base ctx).
Proof. unfold enter_iovec_base. keeps_solve. Qed.
Lemma enter_aio_iovec_pending ctx : keeps same_pending (enter_aio_iovec ctx).
Proof. unfold enter_aio_iovec, enter_aio_buf. keeps_solve. apply chain_pending. keeps_solve. Qed.
Lemma enter_debug_pending ctx : keeps same_pending (enter_bpf_prog_load_debug ctx).
Proof. unfold enter_bpf_prog_load_debug. keeps_solve. Qed.
Lemma save_bpf_aux_pending tid args : keeps same_pending (save_bpf_aux tid args).
Proof. unfold save_bpf_aux, bpf_attr_read_u32_direct, bpf_attr_read. keeps_solve. Qed.
Lemma enter_sendmsg_base_pending ctx : keeps same_pending (enter_sendmsg_base ctx).
Proof. unfold enter_sendmsg_base. keeps_solve. Qed.
Lemma enter_mmsg_bytes_pending slot next ctx :
  keeps same_pending (next ctx) ->
  keeps same_pending (enter_mmsg_bytes
    (emit_mmsg_bytes_base_enter (capture_mmsg_bytes_base_slot_enter_payloads_tlv_direct slot)) next ctx).
Proof. intros. unfold enter_mmsg_bytes. keeps_solve. Qed.
Lemma enter_mmsg_bytes0_pending ctx : keeps same_pending (enter_mmsg_bytes0 ctx).
Proof.
  repeat (apply enter_mmsg_bytes_pending; cbv beta; first [apply chain_pending | solve [keeps_solve]]).
Qed.
Hint Resolve enter_mmsg_bytes0_pending : keeps.
Lemma enter_mmsg_base01_pending ctx : keeps same_pending (enter_mmsg_base01 ctx).
Proof.
  unfold enter_mmsg_base01. keeps_solve. apply chain_pending. unfold enter_mmsg_base2. keeps_solve.
  apply chain_pending. unfold enter_mmsg_base3. keeps_solve.
Qed.
Hint Resolve enter_nested0_pending enter_iovec_base_pending enter_aio_iovec_pending enter_debug_pending
  save_bpf_aux_pending enter_sendmsg_base_pending enter_mmsg_base01_pending : keeps.

(** ** The handlers *)

Ltac fills_step :=
  lazymatch goal with
  | |- fills _ _ (bind (ENTER_PROLOGUE _) _) => apply fills_prologue; intros
  | |- fills _ _ (save_frame _ _) => apply fills_save; assumption
  | |- fills _ _ (save_pending_network_syscall_args _ _ _ _ _ _ _) => apply fills_save_network; assumption
  | |- fills _ _ (save_pending_msg_syscall_args _ _ _ _ _ _) => apply fills_save_msg; assumption
  | |- fills _ _ (bind (save_frame _ _) _) =>
      apply fills_before; [apply fills_save; assumption | intros; solve [keeps_solve]]
  | |- fills _ _ (bind (save_pending_msg_syscall_args _ _ _ _ _ _) _) =>
      apply fills_before; [apply fills_save_msg; assumption | intros; solve [keeps_solve]]
  | |- fills _ _ (bind _ _) => apply fills_after; [solve [keeps_solve] | intros]
  | |- fills _ _ (let _ := _ in _) => cbv zeta
  | |- fills _ _ (if ?b then _ else _) => destruct b
  end.
Ltac fills_solve := repeat fills_step.
Ltac unfold_fills :=
  lazymatch goal with |- fills ?c ?r ?m => let m' := eval red in m in change (fills c r m') end.

Create HintDb fills.

Section Handlers.
Context (ctx : trace_event_raw_sys_enter) (r : exec_ctx).

Lemma enter_exec_fills : fills ctx r (enter_exec ctx).
Proof. unfold enter_exec. fills_solve. Qed.
Lemma enter_signal_fills : fills ctx r (enter_signal ctx).
Proof. unfold enter_signal. fills_solve. Qed.
Lemma enter_network_fills : fills ctx r (enter_network ctx).
Proof. unfold enter_network. fills_solve. Qed.
Lemma enter_poll_fills : fills ctx r (enter_poll ctx).
Proof. unfold enter_poll. fills_solve. Qed.
Lemma enter_select_fills : fills ctx r (enter_select ctx).
Proof. unfold enter_select. fills_solve. Qed.
Lemma enter_iovec_fills : fills ctx r (enter_iovec ctx).
Proof. unfold enter_iovec. fills_solve. Qed.
Lemma enter_aio_fills : fills ctx r (enter_aio ctx).
Proof. unfold enter_aio. fills_solve. Qed.
Lemma enter_msg_fills : fills ctx r (enter_msg ctx).
Proof. unfold enter_msg. fills_solve. Qed.
Lemma enter_mmsg_fills : fills ctx r (enter_mmsg ctx).
Proof. unfold enter_mmsg. fills_solve. Qed.
Lemma enter_bpf_prog_load_fills : fills ctx r (enter_bpf_prog_load ctx).
Proof. unfold enter_bpf_prog_load. fills_solve. Qed.
Lemma enter_bpf_uprobe_multi_fills : fills ctx r (enter_bpf_uprobe_multi ctx).
Proof. apply fills_family. keeps_solve. Qed.
Lemma enter_bpf_tracing_multi_fills : fills ctx r (enter_bpf_tracing_multi ctx).
Proof. apply fills_family. keeps_solve. Qed.
Lemma enter_bpf_fills : fills ctx r (enter_bpf ctx).
Proof.
  unfold enter_bpf. pose proof is_uprobe_multi_quiet. pose proof is_tracing_multi_quiet. fills_step.
  assert (fills ctx r (emit_bpf_enter_event_v2_direct (ef_pid f) (ef_tid f) (ef_sys_id f) ctx (ef_enter_time f) ;;;
    save_frame ctx f ;;; save_bpf_aux (ef_tid f) (args_u64 (enter_args ctx)))) as Rest by fills_solve.
  fills_solve. all: repeat first [fills_step | apply fills_chain |
    solve [auto using enter_bpf_prog_load_fills, enter_bpf_uprobe_multi_fills, enter_bpf_tracing_multi_fills]].
Qed.

(** The handlers that are for some syscalls only. *)
Lemma framed_sys_id f : framed ctx r f -> ef_sys_id f = u32 (enter_id ctx).
Proof. by intros (t & cfg & sid & _ & ->). Qed.

Lemma enter_sleep_fills :
  one_of (u32 (enter_id ctx)) [SYS_NANOSLEEP] || one_of (u32 (enter_id ctx)) [SYS_CLOCK_NANOSLEEP] = true ->
  fills ctx r (enter_sleep ctx).
Proof.
  intros E. unfold enter_sleep. fills_step. rewrite (framed_sys_id f) by done.
  destruct (one_of _ [SYS_NANOSLEEP]); [|cbn [orb] in E; rewrite E]; fills_solve.
Qed.
Lemma enter_futex_fills :
  one_of (u32 (enter_id ctx)) [SYS_FUTEX] || one_of (u32 (enter_id ctx)) [SYS_FUTEX_WAIT] ||
    one_of (u32 (enter_id ctx)) [SYS_FUTEX_WAITV] || one_of (u32 (enter_id ctx)) [SYS_FUTEX_REQUEUE] = true ->
  fills ctx r (enter_futex ctx).
Proof.
  intros E. unfold enter_futex. fills_step. rewrite (framed_sys_id f) by done.
  repeat (destruct (one_of _ _); [solve [fills_solve]|]). done.
Qed.
Lemma enter_epoll_fills :
  is_epoll_ctl_direct_syscall (u32 (enter_id ctx)) || is_epoll_pwait2_direct_syscall (u32 (enter_id ctx)) = true ->
  fills ctx r (enter_epoll ctx).
Proof.
  intros E. unfold enter_epoll. fills_step. rewrite (framed_sys_id f) by done.
  destruct (is_epoll_ctl_direct_syscall _); [|cbn [orb] in E; rewrite E]; fills_solve.
Qed.
Lemma enter_quota_fills : is_quota_direct_syscall (u32 (enter_id ctx)) = true -> fills ctx r (enter_quota ctx).
Proof. intros E. unfold enter_quota. fills_step. rewrite (framed_sys_id f), E by done. cbn [negb]. fills_solve. Qed.
Lemma enter_mount_path_fills :
  is_mount_path_direct_syscall (u32 (enter_id ctx)) = true -> fills ctx r (enter_mount_path ctx).
Proof. intros E. unfold enter_mount_path. fills_step. rewrite (framed_sys_id f), E by done. cbn [negb]. fills_solve. Qed.
End Handlers.

(** The syscalls each entry program is for.  The program of the calls that do not return saves
    nothing; fragments and links of chains are reached from other programs alone. *)
Definition enter_accepts (i sys_id : Z) : bool :=
  if i =? ENTER_PROG_SLEEP then one_of sys_id [SYS_NANOSLEEP] || one_of sys_id [SYS_CLOCK_NANOSLEEP]
  else if i =? ENTER_PROG_FUTEX then
    one_of sys_id [SYS_FUTEX] || one_of sys_id [SYS_FUTEX_WAIT] ||
    one_of sys_id [SYS_FUTEX_WAITV] || one_of sys_id [SYS_FUTEX_REQUEUE]
  else if i =? ENTER_PROG_EPOLL then is_epoll_ctl_direct_syscall sys_id || is_epoll_pwait2_direct_syscall sys_id
  else if i =? ENTER_PROG_QUOTA then is_quota_direct_syscall sys_id
  else if i =? ENTER_PROG_MOUNT_PATH then is_mount_path_direct_syscall sys_id
  else negb (existsb (Z.eqb i)
    [ENTER_PROG_TERMINATING; ENTER_PROG_IOVEC_BASE; ENTER_PROG_SENDMSG_BASE; ENTER_PROG_MMSG_BASE01;
     ENTER_PROG_MMSG_BASE2; ENTER_PROG_MMSG_BASE3; ENTER_PROG_AIO_IOVEC; ENTER_PROG_AIO_BUF;
     ENTER_PROG_NESTED_FD_PATH0; ENTER_PROG_NESTED_FD_PATH1; ENTER_PROG_NESTED_FD_PATH2;
     ENTER_PROG_NESTED_FD_PATH3; ENTER_PROG_BPF_PROG_LOAD_DEBUG]).

Hint Resolve enter_exec_fills enter_signal_fills enter_network_fills enter_poll_fills enter_select_fills
  enter_iovec_fills enter_aio_fills enter_msg_fills enter_mmsg_fills enter_bpf_prog_load_fills enter_bpf_fills
  enter_bpf_uprobe_multi_fills enter_bpf_tracing_multi_fills enter_sleep_fills enter_futex_fills enter_epoll_fills
  enter_quota_fills enter_mount_path_fills : fills.

Lemma loaded_enter_fills i h ctx r :
  enter_program i = Some h -> enter_accepts i (u32 (enter_id ctx)) = true -> fills ctx r (h ctx).
Proof.
  intros E. change (slot loaded_enter i = Some h) in E. unfold slot in E. apply fmap_Some in E as ([j x] & E & ->).
  apply find_some in E as [E Ej]. cbn [fst snd] in *. apply Z.eqb_eq in Ej as <-. revert E.
  unfold loaded_enter. cbn [In].
  intros E. repeat (destruct E as [[= <- <-]|E]); [..|done]; cbn -[one_of is_quota_direct_syscall
    is_mount_path_direct_syscall is_epoll_ctl_direct_syscall is_epoll_pwait2_direct_syscall]; intros Acc; try done.
  all: try solve [auto with fills].
  all: first [unfold_fills; apply fills_family; intros; solve [keeps_solve]
             | unfold_fills; apply fills_body; intros; cbv beta; solve [keeps_solve]].
Qed.

(** ** The dispatcher *)

(** The route of a syscall, when it has one, names a program that is for it. *)
Definition enter_routed (w : world) (sys_id : Z) : Prop :=
  forall i, maps w enter_routes !! sys_id = Some i -> enter_accepts i sys_id = true.

Lemma fallback_fills ctx r cfg : fills ctx r (emit_enter_dispatch_fallback ctx (ctx_pid r) (ctx_tid r) cfg).
Proof.
  intros w R C. unfold emit_enter_dispatch_fallback. wp_steps. unfold bpf_ktime_get_ns. wp_step.
  eapply keeps_wp; [apply tick_quiet|]. intros n w1 Q1. wp_steps.
  eapply keeps_wp; [apply stack_id_of_quiet|]. intros sid w2 Q2.
  assert (same_tasks w w2) as S by (etrans; by apply quiet_tasks).
  apply fills_after.
  - keeps_solve.
  - intros _. apply (fills_save ctx r (EnterFrame _ _ _ _ cfg sid)). do 3 eexists. split; [|reflexivity]. apply u64_range.
  - etrans; [apply S | done].
  - by eapply can_keep_same.
Qed.

(** What a dispatcher does before the tail call: the maps of the pending exec and of the fork
    flags, and the cell of the tracer's namespace. *)
Definition prepared (w w' : world) : Prop := bookkept w w' /\ same_tasks w w'.
#[local] Instance prepared_preorder : PreOrder prepared.
Proof. split; [done|]. intros w1 w2 w3 [] []. split; by etrans. Qed.
Lemma quiet_prepared w w' : quiet w w' -> prepared w w'.
Proof. intros Q. split; [by apply quiet_bookkept | by apply quiet_tasks]. Qed.
Hint Extern 5 (keeps prepared _) => (eapply keeps_weaken; [|exact quiet_prepared]) : keeps.
Lemma update_prepared m k v :
  m = pending_exec_map \/ m = pending_fork_flags_map -> keeps prepared (lifecycle_map_update m k v).
Proof. intros Hm w. split; [by apply update_bookkept | apply lifecycle_update_tasks]. Qed.
Hint Extern 2 (keeps prepared (lifecycle_map_update _ _ _)) => (apply update_prepared; auto) : keeps.
Lemma arm_exec_prepared pid tid sys_id : keeps prepared (arm_pending_exec_replacement pid tid sys_id).
Proof. unfold arm_pending_exec_replacement. keeps_solve. Qed.
Lemma fork_flags_prepared tid sys_id ctx : keeps prepared (capture_pending_fork_flags tid sys_id ctx).
Proof. unfold capture_pending_fork_flags. keeps_solve. Qed.
Lemma tracer_namespace_prepared ctx sys_id : keeps prepared (capture_tracer_pid_namespace ctx sys_id).
Proof. intros w. destruct (tracer_namespace_pidns ctx sys_id w) as (n & p & ->). done. Qed.

(** The dispatcher saves the calls it hears. *)
Lemma dispatched_enter_fills ctx w :
  heard w (u32 (enter_id ctx)) -> enter_routed w (u32 (enter_id ctx)) -> can_keep w ->
  remembers ctx (running w) (snd (trace_sys_enter ctx w)).
Proof.
  intros [Tr Native Mu] Rt C.
  change (wp (trace_sys_enter ctx) (fun _ w' => remembers ctx (running w) w') w).
  unfold trace_sys_enter. set (sys_id := u32 (enter_id ctx)) in *. cbv zeta. wp_step. unfold wp at 1.
  rewrite current_pid_tid_result. cbn [fst snd]. wp_step.
  eapply keeps_wp; [apply tracer_namespace_pidns|]. intros [] w0 (n & p & ->). wp_step.
  unfold wp at 1. rewrite lookup_filter_flags_result. cbn [fst snd].
  change (task_flags (set_calls n (set_pidns p w))) with (task_flags w). set (w0 := set_calls n _).
  assert (prepared w w0) as P0 by done.
  unfold muted in Mu. unfold tracked in Tr. destruct (task_flags w _ _) as [f|]; [|done].
  apply orb_false_iff in Mu as [Mu Sel]. apply orb_false_iff in Mu as [Sig Pre].
  wp_step. unfold reject_unsupported_syscall_abi. wp_step.
  pose proof (native_abi_quiet sys_id w0) as Q1. specialize (Native w0 eq_refl). unfold wp at 1.
  destruct (current_syscall_has_native_abi sys_id w0) as [native w1]. cbn [fst snd] in *. subst native.
  wp_step. rewrite Sig, Pre. wp_step. eapply keeps_wp; [apply arm_exec_prepared|]. intros [] w2 P2. wp_step.
  eapply keeps_wp; [apply fork_flags_prepared|]. intros [] w3 P3.
  assert (prepared w w3) as P.
  { etrans; [exact P0|]. etrans; [by apply quiet_prepared|]. by etrans. }
  clearbody w0. clear P0 Q1 P2 P3. destruct P as [(R & S & M) T].
  unfold bpf_map_lookup_elem. wp_steps. rewrite (M config_map) by done.
  pose proof (should_trace_state sys_id (maps w config_map !! 0) w3) as St.
  rewrite <- (should_trace_same _ _ _ w3) in Sel by (by apply M). unfold wp at 1.
  destruct (should_trace_syscall _ _ w3) as [b w4]. cbn [fst snd] in *. subst w4. rewrite Sel.
  unfold tail_call. wp_step. eapply wp_mono; [apply tail_call_result|]. intros i w4 [Q4 Hi].
  assert (running w4 = running w) as R4 by (etrans; [apply (quiet_tasks _ _ Q4) | done]).
  assert (can_keep w4) as C4 by (eapply can_keep_same; [etrans; [exact T | by apply quiet_tasks] | done]).
  destruct i as [i|]; [|by apply fallback_fills]. destruct (enter_program i) as [h|] eqn:E; [|by apply fallback_fills].
  destruct Hi as [[=]|Hi]. rewrite (M enter_routes) in Hi by done.
  by apply (loaded_enter_fills i h ctx (running w) E (Rt i (eq_sym Hi)) w4).
Qed.
End Opening.
