(* ===== verification/Routes.v ===== *)
(** The routes of the loader.

    Models the route plan of [src/cmd/strace-go]: the capabilities of
    [bpf_capture_manifest_generated.go], the full plan of [bpf_routes.go] and the selection of
    [bpf_program_selection.go], which fill the two maps of routes the dispatchers look up.  A
    syscall name is the constructor of its [SYS_*] macro, and [SyscallTable] has the calls of the
    target, as [pkg/meta] has.

    The guards of the C handlers and the plan of the Go loader are two tables of the same facts:
    [plan_enter_accepts] and [plan_exit_accepts] say that they agree for every syscall of either
    target and every configuration, so that every routed call that returns is saved at its entry
    and closed at its exit. *)
From stdpp Require Import base list gmap numbers.
From S2P Require Import Prelude Syscalls Abi Kernel Stats EventCore Pending Handlers EnterHandlers ExitHandlers Dispatch Pairing Tracking TrackingProps Closing Opening.

(** ** The plan *)

(** A zero slot leaves the direction to the generic handler. *)
Record bpfRouteCapability := RouteCapability {
  enterSlot : Z; exitSlot : Z; standaloneExitElision : bool }.

Definition bpfRouteCapabilities : list (syscall * bpfRouteCapability) :=
  [(SYS_ACCEPT, RouteCapability ENTER_PROG_NETWORK EXIT_PROG_CONTROL false);
   (SYS_ACCEPT4, RouteCapability ENTER_PROG_NETWORK EXIT_PROG_CONTROL false);
   (SYS_ACCESS, RouteCapability ENTER_PROG_PATH_ONLY EXIT_PROG_PATH false);
   (SYS_ACCT, RouteCapability ENTER_PROG_PATH_ONLY EXIT_PROG_PATH false);
   (SYS_ADD_KEY, RouteCapability ENTER_PROG_KEY 0 false);
   (SYS_ADJTIMEX, RouteCapability 0 EXIT_PROG_FD_TIME false);
   (SYS_ARCH_PRCTL, RouteCapability 0 EXIT_PROG_ASYNC true);
   (SYS_BIND, RouteCapability ENTER_PROG_NETWORK EXIT_PROG_CONTROL false);
   (SYS_BPF, RouteCapability ENTER_PROG_BPF EXIT_PROG_IO false);
   (SYS_CACHESTAT, RouteCapability ENTER_PROG_CACHESTAT EXIT_PROG_ASYNC false);
   (SYS_CAPGET, RouteCapability ENTER_PROG_CAPABILITY EXIT_PROG_ASYNC false);
   (SYS_CAPSET, RouteCapability ENTER_PROG_CAPABILITY EXIT_PROG_ASYNC false);
   (SYS_CHDIR, RouteCapability ENTER_PROG_PATH_ONLY EXIT_PROG_PATH false);
   (SYS_CHMOD, RouteCapability ENTER_PROG_PATH_ONLY EXIT_PROG_PATH false);
   (SYS_CHOWN, RouteCapability ENTER_PROG_PATH_ONLY EXIT_PROG_PATH false);
   (SYS_CHROOT, RouteCapability ENTER_PROG_PATH_ONLY EXIT_PROG_PATH false);
   (SYS_CLOCK_ADJTIME, RouteCapability 0 EXIT_PROG_FD_TIME false);
   (SYS_CLOCK_GETRES, RouteCapability 0 EXIT_PROG_FD_TIME true);
   (SYS_CLOCK_GETTIME, RouteCapability 0 EXIT_PROG_FD_TIME true);
   (SYS_CLOCK_NANOSLEEP, RouteCapability ENTER_PROG_SLEEP EXIT_PROG_FD_TIME false);
   (SYS_CLOCK_SETTIME, RouteCapability ENTER_PROG_TIME_STRUCT 0 false);
   (SYS_CLONE3, RouteCapability ENTER_PROG_CLONE3 0 false);
   (SYS_CONNECT, RouteCapability ENTER_PROG_NETWORK EXIT_PROG_CONTROL false);
   (SYS_COPY_FILE_RANGE, RouteCapability ENTER_PROG_SMALL_STRUCT 0 false);
   (SYS_CREAT, RouteCapability ENTER_PROG_PAYLOAD_DIRECT EXIT_PROG_PATH false);
   (SYS_DUP, RouteCapability 0 EXIT_PROG_FD_TIME false);
   (SYS_DUP2, RouteCapability 0 EXIT_PROG_FD_TIME false);
   (SYS_DUP3, RouteCapability 0 EXIT_PROG_FD_TIME false);
   (SYS_EPOLL_CREATE, RouteCapability 0 EXIT_PROG_FD_TIME false);
   (SYS_EPOLL_CREATE1, RouteCapability 0 EXIT_PROG_FD_TIME false);
   (SYS_EPOLL_CTL, RouteCapability ENTER_PROG_EPOLL 0 false);
   (SYS_EPOLL_PWAIT, RouteCapability 0 EXIT_PROG_IO false);
   (SYS_EPOLL_PWAIT2, RouteCapability ENTER_PROG_EPOLL EXIT_PROG_IO false);
   (SYS_EPOLL_WAIT, RouteCapability 0 EXIT_PROG_IO false);
   (SYS_EVENTFD, RouteCapability 0 EXIT_PROG_FD_TIME false);
   (SYS_EVENTFD2, RouteCapability 0 EXIT_PROG_FD_TIME false);
   (SYS_EXECVE, RouteCapability ENTER_PROG_EXEC EXIT_PROG_IO false);
   (SYS_EXECVEAT, RouteCapability ENTER_PROG_EXEC EXIT_PROG_IO false);
   (SYS_EXIT, RouteCapability ENTER_PROG_TERMINATING 0 false);
   (SYS_EXIT_GROUP, RouteCapability ENTER_PROG_TERMINATING 0 false);
   (SYS_FACCESSAT, RouteCapability ENTER_PROG_PATH_ONLY EXIT_PROG_PATH false);
   (SYS_FACCESSAT2, RouteCapability ENTER_PROG_PATH_ONLY EXIT_PROG_PATH false);
   (SYS_FCHMODAT, RouteCapability ENTER_PROG_PATH_ONLY EXIT_PROG_PATH false);
   (SYS_FCHOWNAT, RouteCapability ENTER_PROG_PATH_ONLY EXIT_PROG_PATH false);
   (SYS_FCNTL, RouteCapability ENTER_PROG_FCNTL EXIT_PROG_CONTROL false);
   (SYS_FGETXATTR, RouteCapability ENTER_PROG_XATTR EXIT_PROG_IO false);
   (SYS_FILE_GETATTR, RouteCapability ENTER_PROG_PATH_ONLY EXIT_PROG_STRUCT false);
   (SYS_FILE_SETATTR, RouteCapability ENTER_PROG_FS 0 false);
   (SYS_FLISTXATTR, RouteCapability ENTER_PROG_XATTR EXIT_PROG_IO false);
   (SYS_FREMOVEXATTR, RouteCapability ENTER_PROG_XATTR 0 false);
   (SYS_FSCONFIG, RouteCapability ENTER_PROG_FS 0 false);
   (SYS_FSETXATTR, RouteCapability ENTER_PROG_XATTR 0 false);
   (SYS_FSOPEN, RouteCapability ENTER_PROG_PATH_ONLY EXIT_PROG_PATH false);
   (SYS_FSPICK, RouteCapability ENTER_PROG_PATH_ONLY EXIT_PROG_PATH false);
   (SYS_FSTAT, RouteCapability 0 EXIT_PROG_STRUCT false);
   (SYS_FSTATFS, RouteCapability 0 EXIT_PROG_STRUCT false);
   (SYS_FUTEX, RouteCapability ENTER_PROG_FUTEX 0 false);
   (SYS_FUTEX_REQUEUE, RouteCapability ENTER_PROG_FUTEX 0 false);
   (SYS_FUTEX_WAIT, RouteCapability ENTER_PROG_FUTEX 0 false);
   (SYS_FUTEX_WAITV, RouteCapability ENTER_PROG_FUTEX 0 false);
   (SYS_FUTIMESAT, RouteCapability ENTER_PROG_FILE_TIME 0 false);
   (SYS_GET_ROBUST_LIST, RouteCapability 0 EXIT_PROG_ASYNC true);
   (SYS_GETCWD, RouteCapability 0 EXIT_PROG_STRUCT false);
   (SYS_GETDENTS, RouteCapability 0 EXIT_PROG_IO false);
   (SYS_GETDENTS64, RouteCapability 0 EXIT_PROG_IO false);
   (SYS_GETITIMER, RouteCapability 0 EXIT_PROG_FD_TIME false);
   (SYS_GETPEERNAME, RouteCapability ENTER_PROG_NETWORK EXIT_PROG_CONTROL false);
   (SYS_GETRLIMIT, RouteCapability 0 EXIT_PROG_STRUCT false);
   (SYS_GETSOCKNAME, RouteCapability ENTER_PROG_NETWORK EXIT_PROG_CONTROL false);
   (SYS_GETSOCKOPT, RouteCapability ENTER_PROG_NETWORK EXIT_PROG_CONTROL false);
   (SYS_GETTIMEOFDAY, RouteCapability 0 EXIT_PROG_FD_TIME true);
   (SYS_GETXATTR, RouteCapability ENTER_PROG_XATTR EXIT_PROG_IO false);
   (SYS_INOTIFY_INIT, RouteCapability 0 EXIT_PROG_FD_TIME false);
   (SYS_INOTIFY_INIT1, RouteCapability 0 EXIT_PROG_FD_TIME false);
   (SYS_IO_CANCEL, RouteCapability ENTER_PROG_AIO 0 false);
   (SYS_IO_GETEVENTS, RouteCapability ENTER_PROG_AIO EXIT_PROG_ASYNC false);
   (SYS_IO_PGETEVENTS, RouteCapability ENTER_PROG_AIO EXIT_PROG_ASYNC false);
   (SYS_IO_SETUP, RouteCapability ENTER_PROG_AIO EXIT_PROG_ASYNC false);
   (SYS_IO_SUBMIT, RouteCapability ENTER_PROG_AIO 0 false);
   (SYS_IOCTL, RouteCapability ENTER_PROG_IOCTL EXIT_PROG_CONTROL false);
   (SYS_KEYCTL, RouteCapability ENTER_PROG_KEY EXIT_PROG_IO false);
   (SYS_LCHOWN, RouteCapability ENTER_PROG_PATH_ONLY EXIT_PROG_PATH false);
   (SYS_LGETXATTR, RouteCapability ENTER_PROG_XATTR EXIT_PROG_IO false);
   (SYS_LINK, RouteCapability ENTER_PROG_DUAL_PATH EXIT_PROG_PATH false);
   (SYS_LINKAT, RouteCapability ENTER_PROG_DUAL_PATH EXIT_PROG_PATH false);
   (SYS_LISTMOUNT, RouteCapability ENTER_PROG_FS EXIT_PROG_MOUNT_QUERY false);
   (SYS_LISTXATTR, RouteCapability ENTER_PROG_XATTR EXIT_PROG_IO false);
   (SYS_LLISTXATTR, RouteCapability ENTER_PROG_XATTR EXIT_PROG_IO false);
   (SYS_LREMOVEXATTR, RouteCapability ENTER_PROG_XATTR 0 false);
   (SYS_LSETXATTR, RouteCapability ENTER_PROG_XATTR 0 false);
   (SYS_LSTAT, RouteCapability ENTER_PROG_PATH_STAT EXIT_PROG_STRUCT false);
   (SYS_MEMFD_CREATE, RouteCapability ENTER_PROG_MEMFD 0 false);
   (SYS_MKDIR, RouteCapability ENTER_PROG_PATH_ONLY EXIT_PROG_PATH false);
   (SYS_MKDIRAT, RouteCapability ENTER_PROG_PATH_ONLY EXIT_PROG_PATH false);
   (SYS_MKNOD, RouteCapability ENTER_PROG_PATH_ONLY EXIT_PROG_PATH false);
   (SYS_MKNODAT, RouteCapability ENTER_PROG_PATH_ONLY EXIT_PROG_PATH false);
   (SYS_MOUNT, RouteCapability ENTER_PROG_FS 0 false);
   (SYS_MOUNT_SETATTR, RouteCapability ENTER_PROG_FS 0 false);
   (SYS_MOVE_MOUNT, RouteCapability ENTER_PROG_MOUNT_PATH 0 false);
   (SYS_NANOSLEEP, RouteCapability ENTER_PROG_SLEEP EXIT_PROG_FD_TIME false);
   (SYS_NEWFSTATAT, RouteCapability ENTER_PROG_PATH_STAT EXIT_PROG_STRUCT false);
   (SYS_OPEN, RouteCapability ENTER_PROG_PAYLOAD_DIRECT EXIT_PROG_PATH false);
   (SYS_OPEN_TREE, RouteCapability ENTER_PROG_PATH_ONLY EXIT_PROG_PATH false);
   (SYS_OPENAT, RouteCapability ENTER_PROG_PAYLOAD_DIRECT EXIT_PROG_PATH false);
   (SYS_OPENAT2, RouteCapability ENTER_PROG_OPENAT2 EXIT_PROG_PATH false);
   (SYS_PIDFD_OPEN, RouteCapability 0 EXIT_PROG_FD_TIME false);
   (SYS_PIPE, RouteCapability 0 EXIT_PROG_STRUCT false);
   (SYS_PIPE2, RouteCapability 0 EXIT_PROG_STRUCT false);
   (SYS_POLL, RouteCapability ENTER_PROG_POLL EXIT_PROG_ASYNC false);
   (SYS_PPOLL, RouteCapability ENTER_PROG_POLL EXIT_PROG_ASYNC false);
   (SYS_PRCTL, RouteCapability ENTER_PROG_PRCTL EXIT_PROG_ASYNC false);
   (SYS_PREAD64, RouteCapability 0 EXIT_PROG_FD_TIME false);
   (SYS_PREADV, RouteCapability ENTER_PROG_IOVEC EXIT_PROG_IOVEC_BASE false);
   (SYS_PREADV2, RouteCapability ENTER_PROG_IOVEC EXIT_PROG_IOVEC_BASE false);
   (SYS_PRLIMIT64, RouteCapability ENTER_PROG_MISC_STRUCT EXIT_PROG_STRUCT false);
   (SYS_PROCESS_MADVISE, RouteCapability ENTER_PROG_IOVEC 0 false);
   (SYS_PROCESS_VM_READV, RouteCapability ENTER_PROG_IOVEC EXIT_PROG_IOVEC_BASE false);
   (SYS_PROCESS_VM_WRITEV, RouteCapability ENTER_PROG_IOVEC 0 false);
   (SYS_PSELECT6, RouteCapability ENTER_PROG_SELECT EXIT_PROG_IO false);
   (SYS_PWRITE64, RouteCapability ENTER_PROG_PAYLOAD_DIRECT 0 false);
   (SYS_PWRITEV, RouteCapability ENTER_PROG_IOVEC 0 false);
   (SYS_PWRITEV2, RouteCapability ENTER_PROG_IOVEC 0 false);
   (SYS_QUOTACTL, RouteCapability ENTER_PROG_QUOTA EXIT_PROG_QUOTA false);
   (SYS_QUOTACTL_FD, RouteCapability ENTER_PROG_QUOTA EXIT_PROG_QUOTA false);
   (SYS_READ, RouteCapability 0 EXIT_PROG_FD_TIME false);
   (SYS_READLINK, RouteCapability ENTER_PROG_READLINK EXIT_PROG_STRUCT false);
   (SYS_READLINKAT, RouteCapability ENTER_PROG_READLINK EXIT_PROG_STRUCT false);
   (SYS_READV, RouteCapability ENTER_PROG_IOVEC EXIT_PROG_IOVEC_BASE false);
   (SYS_RECVFROM, RouteCapability ENTER_PROG_NETWORK EXIT_PROG_CONTROL false);
   (SYS_RECVMMSG, RouteCapability ENTER_PROG_MMSG EXIT_PROG_RECVMMSG_BASE01 false);
   (SYS_RECVMSG, RouteCapability ENTER_PROG_MSG EXIT_PROG_MSG false);
   (SYS_REMOVEXATTR, RouteCapability ENTER_PROG_XATTR 0 false);
   (SYS_RENAME, RouteCapability ENTER_PROG_DUAL_PATH EXIT_PROG_PATH false);
   (SYS_RENAMEAT, RouteCapability ENTER_PROG_DUAL_PATH EXIT_PROG_PATH false);
   (SYS_RENAMEAT2, RouteCapability ENTER_PROG_DUAL_PATH EXIT_PROG_PATH false);
   (SYS_REQUEST_KEY, RouteCapability ENTER_PROG_KEY 0 false);
   (SYS_RMDIR, RouteCapability ENTER_PROG_PATH_ONLY EXIT_PROG_PATH false);
   (SYS_RT_SIGACTION, RouteCapability ENTER_PROG_SIGNAL EXIT_PROG_STRUCT false);
   (SYS_RT_SIGPROCMASK, RouteCapability ENTER_PROG_SIGNAL EXIT_PROG_STRUCT false);
   (SYS_RT_SIGSUSPEND, RouteCapability ENTER_PROG_SIGNAL EXIT_PROG_STRUCT false);
   (SYS_SELECT, RouteCapability ENTER_PROG_SELECT EXIT_PROG_IO false);
   (SYS_SENDFILE, RouteCapability ENTER_PROG_SMALL_STRUCT EXIT_PROG_ASYNC false);
   (SYS_SENDMMSG, RouteCapability ENTER_PROG_MMSG EXIT_PROG_MMSG_FINAL false);
   (SYS_SENDMSG, RouteCapability ENTER_PROG_MSG EXIT_PROG_MSG false);
   (SYS_SENDTO, RouteCapability ENTER_PROG_NETWORK EXIT_PROG_CONTROL false);
   (SYS_SETITIMER, RouteCapability ENTER_PROG_ITIMER EXIT_PROG_FD_TIME false);
   (SYS_SETRLIMIT, RouteCapability ENTER_PROG_MISC_STRUCT EXIT_PROG_STRUCT false);
   (SYS_SETSOCKOPT, RouteCapability ENTER_PROG_NETWORK EXIT_PROG_CONTROL false);
   (SYS_SETTIMEOFDAY, RouteCapability ENTER_PROG_TIME_STRUCT 0 false);
   (SYS_SETXATTR, RouteCapability ENTER_PROG_XATTR 0 false);
   (SYS_SIGNALFD, RouteCapability ENTER_PROG_SIGNAL EXIT_PROG_FD_TIME false);
   (SYS_SIGNALFD4, RouteCapability ENTER_PROG_SIGNAL EXIT_PROG_FD_TIME false);
   (SYS_SOCKET, RouteCapability 0 EXIT_PROG_FD_TIME false);
   (SYS_SOCKETPAIR, RouteCapability 0 EXIT_PROG_STRUCT false);
   (SYS_STAT, RouteCapability ENTER_PROG_PATH_STAT EXIT_PROG_STRUCT false);
   (SYS_STATFS, RouteCapability ENTER_PROG_PATH_STAT EXIT_PROG_STRUCT false);
   (SYS_STATMOUNT, RouteCapability ENTER_PROG_FS EXIT_PROG_MOUNT_QUERY false);
   (SYS_STATX, RouteCapability ENTER_PROG_PATH_STAT EXIT_PROG_STRUCT false);
   (SYS_SWAPOFF, RouteCapability ENTER_PROG_PATH_ONLY EXIT_PROG_PATH false);
   (SYS_SWAPON, RouteCapability ENTER_PROG_PATH_ONLY EXIT_PROG_PATH false);
   (SYS_SYMLINK, RouteCapability ENTER_PROG_DUAL_PATH EXIT_PROG_PATH false);
   (SYS_SYMLINKAT, RouteCapability ENTER_PROG_DUAL_PATH EXIT_PROG_PATH false);
   (SYS_SYSINFO, RouteCapability 0 EXIT_PROG_STRUCT false);
   (SYS_TIME, RouteCapability 0 EXIT_PROG_FD_TIME false);
   (SYS_TIMERFD_CREATE, RouteCapability 0 EXIT_PROG_FD_TIME false);
   (SYS_TRUNCATE, RouteCapability ENTER_PROG_PATH_ONLY EXIT_PROG_PATH false);
   (SYS_UMOUNT2, RouteCapability ENTER_PROG_FS 0 false);
   (SYS_UNAME, RouteCapability 0 EXIT_PROG_STRUCT false);
   (SYS_UNLINK, RouteCapability ENTER_PROG_PATH_ONLY EXIT_PROG_PATH false);
   (SYS_UNLINKAT, RouteCapability ENTER_PROG_PATH_ONLY EXIT_PROG_PATH false);
   (SYS_UTIME, RouteCapability ENTER_PROG_FILE_TIME 0 false);
   (SYS_UTIMENSAT, RouteCapability ENTER_PROG_FILE_TIME 0 false);
   (SYS_UTIMES, RouteCapability ENTER_PROG_FILE_TIME 0 false);
   (SYS_VMSPLICE, RouteCapability ENTER_PROG_IOVEC 0 false);
   (SYS_WAITID, RouteCapability 0 EXIT_PROG_STRUCT false);
   (SYS_WRITE, RouteCapability ENTER_PROG_PAYLOAD_DIRECT 0 false);
   (SYS_WRITEV, RouteCapability ENTER_PROG_IOVEC 0 false)].

Record bpfRoutePlan := RoutePlan { plan_enter : gmap Z Z; plan_exit : gmap Z Z }.

(** What the selection reads of the configuration. *)
Record traceBPFConfig := TraceBPFConfig {
  filter_enabled : bool; filter_negated : bool; filter_ids : list Z;
  fdState : bool; namespaceNew : bool; decodePIDsPIDNS : bool; kvmExitReason : bool }.

Definition bpfRouteMapMaxEntries : Z := 512.

Section Routes.
Context {A : Arch}.

(** The calls the target has; the others have numbers no call has. *)
Definition SyscallTable : list syscall := filter (fun s => nr s < 0xffff0000) all_syscalls.

Definition capability_of (s : syscall) : option bpfRouteCapability :=
  snd <$> find (fun e => bool_decide (fst e = s)) bpfRouteCapabilities.

Definition plan_slot (slot : bpfRouteCapability -> Z) (generic : Z) (s : syscall) : Z :=
  match capability_of s with
  | Some c => if slot c =? 0 then generic else slot c
  | None => generic
  end.
Definition enter_plan_slot : syscall -> Z := plan_slot enterSlot ENTER_PROG_NO_PAYLOAD_DIRECT.
Definition exit_plan_slot : syscall -> Z := plan_slot exitSlot EXIT_PROG_GENERIC.

(** Every slot a capability names has a program. *)
Definition validateBPFRouteCapabilities (enter_slots exit_slots : list Z) : bool :=
  forallb (fun e =>
    ((enterSlot (snd e) =? 0) || existsb (Z.eqb (enterSlot (snd e))) enter_slots) &&
    ((exitSlot (snd e) =? 0) || existsb (Z.eqb (exitSlot (snd e))) exit_slots)) bpfRouteCapabilities.

Definition plan_map (slot : syscall -> Z) : gmap Z Z :=
  list_to_map (map (fun s => (nr s, slot s)) SyscallTable).

(** [None] for the errors: a slot without a program, an id beyond the capacity of the maps. *)
Definition newBPFRoutePlan (enter_slots exit_slots : list Z) : option bpfRoutePlan :=
  if negb (validateBPFRouteCapabilities enter_slots exit_slots) then None
  else if existsb (fun s => bpfRouteMapMaxEntries <=? nr s) SyscallTable then None
  else Some (RoutePlan (plan_map enter_plan_slot) (plan_map exit_plan_slot)).

(** [routes[id] = slot] for the routed syscalls of the names. *)
Definition use_exit_routes (names : list syscall) (slot : Z) (routes : gmap Z Z) : gmap Z Z :=
  foldl (fun routes s =>
    if bool_decide (s ∈ names) && bool_decide (is_Some (routes !! nr s)) then <[nr s := slot]> routes else routes)
    routes SyscallTable.
Definition useNamespaceExitRoutes : gmap Z Z -> gmap Z Z :=
  use_exit_routes [SYS_CLONE; SYS_CLONE3; SYS_SETNS; SYS_UNSHARE] EXIT_PROG_NAMESPACE.
Definition usePIDNamespaceExitRoutes : gmap Z Z -> gmap Z Z :=
  use_exit_routes [SYS_GETPID; SYS_GETTID; SYS_FORK; SYS_VFORK] EXIT_PROG_PID_NAMESPACE.
Definition useGenericNoPayloadEnterSlot (routes : gmap Z Z) : gmap Z Z :=
  (fun slot => if slot =? ENTER_PROG_NO_PAYLOAD_DIRECT then ENTER_PROG_NO_PAYLOAD_GENERIC else slot) <$> routes.
Definition filterBPFRouteMap (ids : list Z) (routes : gmap Z Z) : gmap Z Z :=
  filter (fun e => fst e ∈ ids) routes.

Definition selectBPFRoutePlan (plan : bpfRoutePlan) (config : traceBPFConfig) : bpfRoutePlan :=
  let filtered := negb (filter_negated config) && filter_enabled config && negb (fdState config) in
  let keep (routes : gmap Z Z) := if filtered then filterBPFRouteMap (filter_ids config) routes else routes in
  let enter := keep (plan_enter plan) in
  let exit := keep (plan_exit plan) in
  let enter := if fdState config then enter else useGenericNoPayloadEnterSlot enter in
  let exit := if namespaceNew config then useNamespaceExitRoutes exit else exit in
  let exit := if decodePIDsPIDNS config then usePIDNamespaceExitRoutes exit else exit in
  RoutePlan enter exit.
End Routes.

(** ** The plan and the guards of the handlers *)

Section RouteLemmas.
Context {A : Arch}.

Lemma plan_map_lookup slot id i : plan_map slot !! id = Some i -> exists s, id = nr s /\ i = slot s.
Proof.
  intros E. apply elem_of_list_to_map_2 in E. apply list_elem_of_In, in_map_iff in E as (s & [= <- <-] & _).
  by exists s.
Qed.

(** The routes of the calls that return, and of those whose exit a tracepoint sees. *)
Lemma enter_plan_accepts s :
  one_of (nr s) [SYS_EXIT; SYS_EXIT_GROUP] = false -> enter_accepts (enter_plan_slot s) (nr s) = true.
Proof. unfold Arch in A. destruct A, s; vm_compute; done. Qed.
Lemma exit_plan_accepts s :
  one_of (nr s) [SYS_RECVMSG] = false -> exit_accepts (exit_plan_slot s) (nr s) = true.
Proof. unfold Arch in A. destruct A, s; vm_compute; done. Qed.

(** Every slot of the plan has a program, and every id is within the capacity. *)
Lemma new_plan_made `{Kernel} :
  newBPFRoutePlan (map fst loaded_enter) (map fst loaded_exit) =
    Some (RoutePlan (plan_map enter_plan_slot) (plan_map exit_plan_slot)).
Proof. unfold Arch in A. destruct A; reflexivity. Qed.

Lemma filter_lookup ids routes id i : filterBPFRouteMap ids routes !! id = Some i -> routes !! id = Some i.
Proof. unfold filterBPFRouteMap. intros E. by apply map_lookup_filter_Some_1_1 in E. Qed.

Lemma use_exit_lookup names slot routes id i :
  use_exit_routes names slot routes !! id = Some i ->
  routes !! id = Some i \/ i = slot /\ exists s, s ∈ names /\ id = nr s.
Proof.
  unfold use_exit_routes. generalize SyscallTable. intros l. revert routes.
  induction l as [|s l IH]; intros routes E; [by left|]. cbn [foldl] in E.
  apply IH in E as [E|E]; [|by right]. case_bool_decide as N; [|by left]. cbn [andb] in E.
  case_bool_decide; [|by left]. destruct (decide (id = nr s)) as [->|D].
  - rewrite lookup_insert_eq in E. right. split; [congruence|]. by exists s.
  - rewrite lookup_insert_ne in E by done. by left.
Qed.

(** The plan in force: what the loader's plan becomes under a configuration. *)
Definition route_plan (config : traceBPFConfig) : bpfRoutePlan :=
  selectBPFRoutePlan (RoutePlan (plan_map enter_plan_slot) (plan_map exit_plan_slot)) config.

(** An entry route is the slot of its syscall, or the plain handler without descriptor state. *)
Lemma plan_enter_cases config id i :
  plan_enter (route_plan config) !! id = Some i -> exists s, id = nr s /\
    (i = enter_plan_slot s \/ i = ENTER_PROG_NO_PAYLOAD_GENERIC).
Proof.
  unfold route_plan, selectBPFRoutePlan. cbn [plan_enter plan_exit]. set (full := plan_map enter_plan_slot).
  set (kept := if _ : bool then filterBPFRouteMap _ full else full).
  assert (forall j, kept !! id = Some j -> exists s, id = nr s /\ j = enter_plan_slot s) as Kept.
  { intros j E. apply plan_map_lookup. unfold kept in E. case_match; [by eapply filter_lookup | done]. }
  clearbody kept. destruct (fdState config).
  - intros E. apply Kept in E as (s & -> & ->). eauto.
  - unfold useGenericNoPayloadEnterSlot. rewrite lookup_fmap. intros E. apply fmap_Some in E as (j & E & ->).
    apply Kept in E as (s & -> & ->). exists s. case_match; auto.
Qed.

Lemma plan_enter_accepts config id i :
  one_of id [SYS_EXIT; SYS_EXIT_GROUP] = false ->
  plan_enter (route_plan config) !! id = Some i -> enter_accepts i id = true.
Proof.
  intros Hid E. apply plan_enter_cases in E as (s & -> & [-> | ->]); [by apply enter_plan_accepts | done].
Qed.

(** An exit route is the slot of its syscall, or one of the two replacements. *)
Lemma plan_exit_cases config id i :
  plan_exit (route_plan config) !! id = Some i -> exists s, id = nr s /\
    (i = exit_plan_slot s \/
     s ∈ [SYS_CLONE; SYS_CLONE3; SYS_SETNS; SYS_UNSHARE] /\ i = EXIT_PROG_NAMESPACE \/
     s ∈ [SYS_GETPID; SYS_GETTID; SYS_FORK; SYS_VFORK] /\ i = EXIT_PROG_PID_NAMESPACE).
Proof.
  unfold route_plan, selectBPFRoutePlan. cbn [plan_enter plan_exit]. set (full := plan_map exit_plan_slot).
  set (kept := if _ : bool then filterBPFRouteMap _ full else full).
  assert (forall j, kept !! id = Some j -> exists s, id = nr s /\ j = exit_plan_slot s) as Kept.
  { intros j E. apply plan_map_lookup. unfold kept in E. case_match; [by eapply filter_lookup | done]. }
  clearbody kept. intros E.
  assert ((if namespaceNew config then useNamespaceExitRoutes kept else kept) !! id = Some i \/
    exists s, s ∈ [SYS_GETPID; SYS_GETTID; SYS_FORK; SYS_VFORK] /\ id = nr s /\ i = EXIT_PROG_PID_NAMESPACE) as [E'|(s & ? & -> & ->)].
  { destruct (decodePIDsPIDNS config); [|by left]. apply use_exit_lookup in E as [E|(-> & s & Hs & ->)]; eauto. }
  - assert (kept !! id = Some i \/
      exists s, s ∈ [SYS_CLONE; SYS_CLONE3; SYS_SETNS; SYS_UNSHARE] /\ id = nr s /\ i = EXIT_PROG_NAMESPACE) as [E2|(s & ? & -> & ->)].
    { destruct (namespaceNew config); [|by left]. apply use_exit_lookup in E' as [E'|(-> & s & Hs & ->)]; eauto. }
    + apply Kept in E2 as (s & -> & ->). eauto.
    + eauto 6.
  - eauto 6.
Qed.

Lemma plan_exit_accepts config id i :
  one_of id [SYS_RECVMSG] = false ->
  plan_exit (route_plan config) !! id = Some i -> exit_accepts i id = true.
Proof.
  intros Hid E. apply plan_exit_cases in E as (s & -> & [-> |[[Hs ->]|[Hs ->]]]); [by apply exit_plan_accepts| |].
  - change (one_of (nr s) [SYS_CLONE; SYS_CLONE3; SYS_SETNS; SYS_UNSHARE] = true). by rewrite one_of_nr, bool_decide_true.
  - change (one_of (nr s) [SYS_GETPID; SYS_GETTID; SYS_FORK; SYS_VFORK] = true). by rewrite one_of_nr, bool_decide_true.
Qed.

(** The exit of [recvmsg] goes to the program that leaves it to the kretprobe. *)
Lemma plan_recvmsg_exit config i : plan_exit (route_plan config) !! nr SYS_RECVMSG = Some i -> i = EXIT_PROG_MSG.
Proof.
  intros E. apply plan_exit_cases in E as (s & En & H). apply nr_injective in En as <-.
  destruct H as [-> |[[Hs _]|[Hs _]]]; [|rewrite !elem_of_cons, elem_of_nil in Hs; intuition discriminate..].
  unfold Arch in A. by destruct A; vm_compute.
Qed.
End RouteLemmas.

(** ** Calls through both dispatchers *)

Section RoundTrip.
Context {K : Kernel} {A : Arch}.

(** The routes in the maps are the selection of the loader's plan. *)
Definition installed (config : traceBPFConfig) (w : world) : Prop :=
  exists plan, newBPFRoutePlan (map fst loaded_enter) (map fst loaded_exit) = Some plan /\
  (forall id i, maps w enter_routes !! id = Some i -> plan_enter (selectBPFRoutePlan plan config) !! id = Some i) /\
  (forall id i, maps w exit_routes !! id = Some i -> plan_exit (selectBPFRoutePlan plan config) !! id = Some i).

Lemma installed_enter config w id :
  installed config w -> one_of id [SYS_EXIT; SYS_EXIT_GROUP] = false -> enter_routed w id.
Proof.
  intros (plan & P & E & _) Hid i Hi. rewrite new_plan_made in P. injection P as <-.
  by apply (plan_enter_accepts config id i Hid), E.
Qed.
Lemma installed_exit config w id :
  installed config w -> one_of id [SYS_RECVMSG] = false -> exit_routed w id.
Proof.
  intros (plan & P & _ & E) Hid i Hi. rewrite new_plan_made in P. injection P as <-.
  by apply (plan_exit_accepts config id i Hid), E.
Qed.

(** C6: a call through both dispatchers, with the routes the loader installs.  When the
    dispatchers hear the entry and the exit of a followed task, for any syscall but the two that do
    not return and [recvmsg], whose exit a kretprobe records, then, whatever happened in between to
    anything but the pending syscall of the task, the exit closes the syscall with the arguments,
    ids and number of its entry, and the pending cell is empty again. *)
Theorem call_round_trip config enter exit w w2 :
  let sys_id := u32 (enter_id enter) in
  let w1 := snd (trace_sys_enter enter w) in
  one_of sys_id [SYS_EXIT; SYS_EXIT_GROUP] = false -> one_of sys_id [SYS_RECVMSG] = false ->
  heard w sys_id -> installed config w -> can_keep w ->
  pending_now w2 = pending_now w1 -> cur_pid_tgid (running w2) = cur_pid_tgid (running w) ->
  heard w2 sys_id -> installed config w2 -> 0 <= exit_id exit -> u32 (exit_id exit) = sys_id ->
  exists p, p_args p = args_u64 (enter_args enter) /\ p_pid p = ctx_pid (running w) /\
    p_tid p = ctx_tid (running w) /\ p_sys_id p = sys_id /\
    closed p (s64 (exit_ret exit)) w2 (snd (trace_sys_exit exit w2)).
Proof.
  intros sys_id w1 N1 N2 Hw I C P R H2 I2 Pos E.
  destruct (dispatched_enter_fills enter w Hw (installed_enter _ _ _ I N1) C) as (_ & t & rt & sid & Ht & P1).
  fold w1 in P1. rewrite P1 in P. exists (PendingSyscall t rt (args_u64 (enter_args enter)) (ctx_pid (running w))
    sys_id (ctx_tid (running w)) sid). split_and!; [reflexivity..|].
  apply dispatched_exit_closed; [done | by rewrite E | rewrite E; by eapply installed_exit |].
  split; [exact P | | done]. unfold closes. cbn. rewrite E. unfold ctx_tid. rewrite R. by rewrite !Z.eqb_refl.
Qed.
End RoundTrip.
