(* ===== verification/Selection.v ===== *)
(** The programs the loader selects.

    Models the catalogs of [bpf_capture_manifest_generated.go] and the selection of
    [bpf_program_selection.go]: from the routes in force, which programs are loaded and put into
    the four program arrays.  The set of visited references and the four sets of slots are one set
    of references here, since [addProgramRef] fills them together.  Go ranges over the maps of
    routes in no order; the order below is the one of [map_to_list], and [selection_made] shows
    that the result is a set that does not depend on it. *)
From stdpp Require Import base list gmap numbers strings relations.
From S2P Require Import Prelude Syscalls Abi Kernel Handlers EnterHandlers ExitHandlers Closing Opening Routes.

Inductive bpfProgramArray : Type := ArrayEnter | ArrayExit | ArrayRecvmsg | ArrayMmsgBytes.
#[export] Instance bpfProgramArray_eq_dec : EqDecision bpfProgramArray.
Proof. solve_decision. Defined.
#[export] Instance bpfProgramArray_countable : Countable bpfProgramArray.
Proof.
  refine (inj_countable'
    (fun a => match a with ArrayEnter => 0%nat | ArrayExit => 1%nat | ArrayRecvmsg => 2%nat | ArrayMmsgBytes => 3%nat end)
    (fun n => match n with 0%nat => ArrayEnter | 1%nat => ArrayExit | 2%nat => ArrayRecvmsg | _ => ArrayMmsgBytes end) _).
  by intros [].
Defined.

Definition bpfProgramRef : Type := bpfProgramArray * Z.

(** The family of a program, which says where its object code is, plays no part here. *)
Record bpfTailCallProgramSpec := TailCallProgram {
  spec_slot : Z; spec_name : string; spec_dependencies : list bpfProgramRef }.

Open Scope string_scope.
Open Scope Z_scope.

Definition bpfEnterProgramCatalog : list bpfTailCallProgramSpec :=
  [TailCallProgram ENTER_PROG_TERMINATING "enter_terminating" [];
   TailCallProgram ENTER_PROG_EXEC "enter_exec" [];
   TailCallProgram ENTER_PROG_PATH_STAT "enter_path_stat" [];
   TailCallProgram ENTER_PROG_PATH_ONLY "enter_path_only" [];
   TailCallProgram ENTER_PROG_DUAL_PATH "enter_dual_path" [];
   TailCallProgram ENTER_PROG_OPENAT2 "enter_openat2" [];
   TailCallProgram ENTER_PROG_READLINK "enter_readlink" [];
   TailCallProgram ENTER_PROG_MISC_STRUCT "enter_misc_struct" [];
   TailCallProgram ENTER_PROG_SMALL_STRUCT "enter_small_struct" [];
   TailCallProgram ENTER_PROG_ITIMER "enter_itimer" [];
   TailCallProgram ENTER_PROG_TIME_STRUCT "enter_time_struct" [];
   TailCallProgram ENTER_PROG_SIGNAL "enter_signal" [];
   TailCallProgram ENTER_PROG_FILE_TIME "enter_file_time" [];
   TailCallProgram ENTER_PROG_SLEEP "enter_sleep" [];
   TailCallProgram ENTER_PROG_FUTEX "enter_futex" [];
   TailCallProgram ENTER_PROG_CACHESTAT "enter_cachestat" [];
   TailCallProgram ENTER_PROG_CAPABILITY "enter_capability" [];
   TailCallProgram ENTER_PROG_MEMFD "enter_memfd" [];
   TailCallProgram ENTER_PROG_PRCTL "enter_prctl" [];
   TailCallProgram ENTER_PROG_CLONE3 "enter_clone3" [];
   TailCallProgram ENTER_PROG_BPF "enter_bpf" [(ArrayEnter, ENTER_PROG_BPF_UPROBE_MULTI); (ArrayEnter, ENTER_PROG_BPF_TRACING_MULTI); (ArrayEnter, ENTER_PROG_BPF_PROG_LOAD); (ArrayEnter, ENTER_PROG_BPF_PROG_LOAD_DEBUG)];
   TailCallProgram ENTER_PROG_IOVEC "enter_iovec" [(ArrayEnter, ENTER_PROG_IOVEC_BASE)];
   TailCallProgram ENTER_PROG_MSG "enter_msg" [(ArrayEnter, ENTER_PROG_SENDMSG_BASE)];
   TailCallProgram ENTER_PROG_MMSG "enter_mmsg" [(ArrayEnter, ENTER_PROG_MMSG_BASE01); (ArrayEnter, ENTER_PROG_MMSG_BASE2); (ArrayEnter, ENTER_PROG_MMSG_BASE3)];
   TailCallProgram ENTER_PROG_FCNTL "enter_fcntl" [];
   TailCallProgram ENTER_PROG_IOCTL "enter_ioctl" [];
   TailCallProgram ENTER_PROG_NETWORK "enter_network" [];
   TailCallProgram ENTER_PROG_KEY "enter_key" [];
   TailCallProgram ENTER_PROG_XATTR "enter_xattr" [];
   TailCallProgram ENTER_PROG_FS "enter_fs" [];
   TailCallProgram ENTER_PROG_AIO "enter_aio" [(ArrayEnter, ENTER_PROG_AIO_IOVEC)];
   TailCallProgram ENTER_PROG_POLL "enter_poll" [];
   TailCallProgram ENTER_PROG_SELECT "enter_select" [];
   TailCallProgram ENTER_PROG_EPOLL "enter_epoll" [];
   TailCallProgram ENTER_PROG_NO_PAYLOAD_DIRECT "enter_no_payload_direct" [];
   TailCallProgram ENTER_PROG_PAYLOAD_DIRECT "enter_payload_direct" [];
   TailCallProgram ENTER_PROG_IOVEC_BASE "enter_iovec_base" [];
   TailCallProgram ENTER_PROG_SENDMSG_BASE "enter_sendmsg_base" [];
   TailCallProgram ENTER_PROG_MMSG_BASE01 "enter_mmsg_base01" [(ArrayEnter, ENTER_PROG_MMSG_BASE2)];
   TailCallProgram ENTER_PROG_MMSG_BASE2 "enter_mmsg_base2" [(ArrayEnter, ENTER_PROG_MMSG_BASE3)];
   TailCallProgram ENTER_PROG_MMSG_BASE3 "enter_mmsg_base3" [];
   TailCallProgram ENTER_PROG_AIO_IOVEC "enter_aio_iovec" [(ArrayEnter, ENTER_PROG_AIO_BUF)];
   TailCallProgram ENTER_PROG_AIO_BUF "enter_aio_buf" [];
   TailCallProgram ENTER_PROG_QUOTA "enter_quota" [];
   TailCallProgram ENTER_PROG_MOUNT_PATH "enter_mount_path" [];
   TailCallProgram ENTER_PROG_NO_PAYLOAD_GENERIC "enter_no_payload_generic" [];
   TailCallProgram ENTER_PROG_NESTED_FD_PATH0 "enter_nested_fd_path0" [];
   TailCallProgram ENTER_PROG_NESTED_FD_PATH1 "enter_nested_fd_path1" [];
   TailCallProgram ENTER_PROG_NESTED_FD_PATH2 "enter_nested_fd_path2" [];
   TailCallProgram ENTER_PROG_NESTED_FD_PATH3 "enter_nested_fd_path3" [];
   TailCallProgram ENTER_PROG_BPF_UPROBE_MULTI "enter_bpf_uprobe_multi" [];
   TailCallProgram ENTER_PROG_BPF_PROG_LOAD "enter_bpf_prog_load" [];
   TailCallProgram ENTER_PROG_BPF_PROG_LOAD_DEBUG "enter_bpf_prog_load_debug" [];
   TailCallProgram ENTER_PROG_BPF_TRACING_MULTI "enter_bpf_tracing_multi" []].

Definition bpfExitProgramCatalog : list bpfTailCallProgramSpec :=
  [TailCallProgram EXIT_PROG_GENERIC "exit_generic" [];
   TailCallProgram EXIT_PROG_IOVEC_BASE "exit_iovec_base" [];
   TailCallProgram EXIT_PROG_MSG "exit_msg" [];
   TailCallProgram EXIT_PROG_MMSG_FINAL "exit_mmsg_final" [];
   TailCallProgram EXIT_PROG_RECVMMSG_BASE01 "exit_recvmmsg_base01" [(ArrayExit, EXIT_PROG_RECVMMSG_BASE23)];
   TailCallProgram EXIT_PROG_RECVMMSG_BASE23 "exit_recvmmsg_base23" [(ArrayExit, EXIT_PROG_MMSG_FINAL)];
   TailCallProgram EXIT_PROG_QUOTA "exit_quota" [];
   TailCallProgram EXIT_PROG_MOUNT_QUERY "exit_mount_query" [];
   TailCallProgram EXIT_PROG_PATH "exit_path" [];
   TailCallProgram EXIT_PROG_FD_TIME "exit_fd_time" [];
   TailCallProgram EXIT_PROG_STRUCT "exit_struct" [];
   TailCallProgram EXIT_PROG_ASYNC "exit_async" [];
   TailCallProgram EXIT_PROG_IO "exit_io" [];
   TailCallProgram EXIT_PROG_CONTROL "exit_control" [];
   TailCallProgram EXIT_PROG_NESTED_FD_PATH0 "exit_nested_fd_path0" [];
   TailCallProgram EXIT_PROG_NESTED_FD_PATH1 "exit_nested_fd_path1" [];
   TailCallProgram EXIT_PROG_NESTED_FD_PATH2 "exit_nested_fd_path2" [];
   TailCallProgram EXIT_PROG_NESTED_FD_PATH3 "exit_nested_fd_path3" [];
   TailCallProgram EXIT_PROG_NAMESPACE "exit_namespace" [];
   TailCallProgram EXIT_PROG_PID_NAMESPACE "exit_pid_namespace" []].

Definition bpfRecvmsgProgramCatalog : list bpfTailCallProgramSpec :=
  [TailCallProgram RECVMSG_PROG_NAME "trace_kretprobe_recvmsg_name" [];
   TailCallProgram RECVMSG_PROG_CONTROL "trace_kretprobe_recvmsg_control" [];
   TailCallProgram RECVMSG_PROG_FINAL "trace_kretprobe_recvmsg_final" []].

Definition bpfMmsgByteProgramCatalog : list bpfTailCallProgramSpec :=
  [TailCallProgram MMSG_BYTES_PROG_BASE0 "enter_mmsg_bytes0" [];
   TailCallProgram MMSG_BYTES_PROG_BASE1 "enter_mmsg_bytes1" [];
   TailCallProgram MMSG_BYTES_PROG_BASE2 "enter_mmsg_bytes2" [];
   TailCallProgram MMSG_BYTES_PROG_BASE3 "enter_mmsg_bytes3" []].

Definition bpfTailCallProgramBySlot (catalog : list bpfTailCallProgramSpec) (slot : Z)
    : option bpfTailCallProgramSpec :=
  find (fun program => spec_slot program =? slot) catalog.

Definition bpfTailCallProgramByRef (ref : bpfProgramRef) : option bpfTailCallProgramSpec :=
  match fst ref with
  | ArrayEnter => bpfTailCallProgramBySlot bpfEnterProgramCatalog (snd ref)
  | ArrayExit => bpfTailCallProgramBySlot bpfExitProgramCatalog (snd ref)
  | ArrayRecvmsg => bpfTailCallProgramBySlot bpfRecvmsgProgramCatalog (snd ref)
  | ArrayMmsgBytes => bpfTailCallProgramBySlot bpfMmsgByteProgramCatalog (snd ref)
  end.

(** The programs a syscall needs beyond its routes. *)
Record bpfProgramRootSpec := ProgramRoot {
  root_programs : list string; root_refs : list bpfProgramRef; root_recvmsgKretprobe : bool }.

Definition bpfSyscallProgramRoots : list (syscall * bpfProgramRootSpec) :=
  [(SYS_RECVMSG, ProgramRoot ["trace_kretprobe_recvmsg_dispatch"]
     [(ArrayRecvmsg, RECVMSG_PROG_NAME); (ArrayRecvmsg, RECVMSG_PROG_CONTROL); (ArrayRecvmsg, RECVMSG_PROG_FINAL)] true);
   (SYS_SENDMMSG, ProgramRoot []
     [(ArrayMmsgBytes, MMSG_BYTES_PROG_BASE0); (ArrayMmsgBytes, MMSG_BYTES_PROG_BASE1);
      (ArrayMmsgBytes, MMSG_BYTES_PROG_BASE2); (ArrayMmsgBytes, MMSG_BYTES_PROG_BASE3)] false)].

Record bpfProgramSelection := ProgramSelection {
  loadAll : bool; programs : gset string; visited : gset bpfProgramRef; recvmsgKretprobe : bool;
  forkSnapshot : bool; selection_kvmExitReason : bool }.

Definition addProgram (name : string) (s : bpfProgramSelection) : bpfProgramSelection :=
  ProgramSelection (loadAll s) ({[name]} ∪ programs s) (visited s) (recvmsgKretprobe s)
    (forkSnapshot s) (selection_kvmExitReason s).
Definition visit (ref : bpfProgramRef) (s : bpfProgramSelection) : bpfProgramSelection :=
  ProgramSelection (loadAll s) (programs s) ({[ref]} ∪ visited s) (recvmsgKretprobe s)
    (forkSnapshot s) (selection_kvmExitReason s).

(** [for _, x := range l { if err := f(x); err != nil { return err } }]. *)
Definition each {X} (f : X -> bpfProgramSelection -> option bpfProgramSelection) (l : list X)
    (s : bpfProgramSelection) : option bpfProgramSelection :=
  foldl (fun o x => match o with Some s => f x s | None => None end) (Some s) l.

(** [None] for an unknown slot.  The recursion visits a new reference at every level, so that as
    much fuel as there are references is enough ([add_reaches]). *)
Fixpoint addProgramRef_fuel (fuel : nat) (ref : bpfProgramRef) (s : bpfProgramSelection)
    : option bpfProgramSelection :=
  match fuel with
  | O => None
  | Datatypes.S fuel =>
      if bool_decide (ref ∈ visited s) then Some s
      else match bpfTailCallProgramByRef ref with
           | None => None
           | Some program =>
               each (addProgramRef_fuel fuel) (spec_dependencies program) (addProgram (spec_name program) (visit ref s))
           end
  end.

(** Every reference of the catalogs. *)
Definition catalog_refs : list bpfProgramRef :=
  map (fun p => (ArrayEnter, spec_slot p)) bpfEnterProgramCatalog ++
  map (fun p => (ArrayExit, spec_slot p)) bpfExitProgramCatalog ++
  map (fun p => (ArrayRecvmsg, spec_slot p)) bpfRecvmsgProgramCatalog ++
  map (fun p => (ArrayMmsgBytes, spec_slot p)) bpfMmsgByteProgramCatalog.

Definition addProgramRef : bpfProgramRef -> bpfProgramSelection -> option bpfProgramSelection :=
  addProgramRef_fuel (Datatypes.S (length catalog_refs)).

Definition addProgramRoot (root : bpfProgramRootSpec) (s : bpfProgramSelection) : option bpfProgramSelection :=
  match each addProgramRef (root_refs root) (foldr addProgram s (root_programs root)) with
  | Some s => Some (ProgramSelection (loadAll s) (programs s) (visited s) (root_recvmsgKretprobe root || recvmsgKretprobe s)
                      (forkSnapshot s) (selection_kvmExitReason s))
  | None => None
  end.

Definition core_programs (fork kvm : bool) : list string :=
  ["trace_sys_enter"; "trace_sys_exit"; "trace_sched_process_fork"; "trace_sched_process_exec";
   "trace_sched_process_exit"; "trace_sched_process_free"; "trace_signal_deliver"; "trace_signal_generate"] ++
  (if fork then ["trace_namespace_fork"] else []) ++
  (if kvm then ["trace_kvm_userspace_exit"] else []).

Definition addCorePrograms (fdState fork kvm : bool) (s : bpfProgramSelection)
    : option bpfProgramSelection :=
  let s := foldr addProgram s (core_programs fork kvm) in
  each addProgramRef
    [(ArrayEnter, if fdState then ENTER_PROG_NO_PAYLOAD_DIRECT else ENTER_PROG_NO_PAYLOAD_GENERIC);
     (ArrayExit, EXIT_PROG_GENERIC)] s.

Section Selection.
Context {A : Arch}.

(** The table of the target has the syscall, and the plan routes it. *)
Definition routePlanHasSyscall (plan : bpfRoutePlan) (s : syscall) : bool :=
  bool_decide (s ∈ SyscallTable) && bool_decide (is_Some (plan_enter plan !! nr s)).

Definition shouldLoadAllBPFPrograms (config : traceBPFConfig) : bool := fdState config.

Definition newBPFProgramSelection (plan : bpfRoutePlan) (config : traceBPFConfig) : option bpfProgramSelection :=
  let fork := namespaceNew config || decodePIDsPIDNS config in
  let all := shouldLoadAllBPFPrograms config in
  if all then Some (ProgramSelection all ∅ ∅ true fork (kvmExitReason config))
  else
    match addCorePrograms (fdState config) fork (kvmExitReason config)
            (ProgramSelection all ∅ ∅ false fork (kvmExitReason config)) with
    | None => None
    | Some s =>
        match each (fun e => addProgramRef (ArrayEnter, snd e)) (map_to_list (plan_enter plan)) s with
        | None => None
        | Some s =>
            match each (fun e => addProgramRef (ArrayExit, snd e)) (map_to_list (plan_exit plan)) s with
            | None => None
            | Some s =>
                each (fun e s => if routePlanHasSyscall plan (fst e) then addProgramRoot (snd e) s else Some s)
                  bpfSyscallProgramRoots s
            end
        end
    end.
End Selection.

(** [selectedProgArrayEntries]: the slots of an array that get a program. *)
Definition array_loaded (s : bpfProgramSelection) (ref : bpfProgramRef) : bool :=
  bool_decide (ref ∈ catalog_refs) && (loadAll s || bool_decide (ref ∈ visited s)).

Definition hasProgram (s : bpfProgramSelection) (name : string) : bool :=
  loadAll s || bool_decide (name ∈ programs s).

(** ** The selection is the closure of its roots *)

(** A program tail-calls the programs it depends on. *)
Definition depends (r r' : bpfProgramRef) : Prop :=
  exists program, bpfTailCallProgramByRef r = Some program /\ r' ∈ spec_dependencies program.

Definition catalog : gset bpfProgramRef := list_to_set catalog_refs.

(** Every reference of the catalogs is known, and depends on references of the catalogs alone. *)
Lemma catalog_known r : r ∈ catalog ->
  exists program, bpfTailCallProgramByRef r = Some program /\ forall r', r' ∈ spec_dependencies program -> r' ∈ catalog.
Proof.
  unfold catalog. rewrite elem_of_list_to_set. intros Hr.
  assert (forallb (fun r => match bpfTailCallProgramByRef r with
    | Some p => forallb (fun r' => bool_decide (r' ∈ catalog_refs)) (spec_dependencies p)
    | None => false end) catalog_refs = true) as F by (vm_compute; reflexivity).
  rewrite forallb_forall in F. apply list_elem_of_In in Hr. specialize (F r Hr).
  destruct (bpfTailCallProgramByRef r) as [p|]; [|done]. exists p. split; [done|]. intros r' Hr'.
  rewrite forallb_forall in F. apply list_elem_of_In in Hr'. specialize (F r' Hr').
  by apply elem_of_list_to_set, (bool_decide_eq_true_1 _).
Qed.

Lemma named_known r : r ∈ catalog_refs -> r ∈ catalog.
Proof. apply elem_of_list_to_set. Qed.
Lemma catalog_ref_known r : r ∈ catalog -> r ∈ catalog_refs.
Proof. apply elem_of_list_to_set. Qed.
Lemma catalog_size : (size catalog <= length catalog_refs)%nat.
Proof. apply Nat.leb_le. vm_compute. reflexivity. Qed.
#[local] Opaque catalog.

(** From [s] to [s'] the references of [l] were added, with what they reach. *)
Record adds (l : list bpfProgramRef) (s s' : bpfProgramSelection) : Prop := Adds {
  ad_loadAll : loadAll s' = loadAll s;
  ad_known : visited s ⊆ catalog -> visited s' ⊆ catalog;
  ad_kept : visited s ⊆ visited s';
  ad_added : forall r, r ∈ l -> r ∈ visited s';
  ad_reached : forall r, r ∈ visited s' -> r ∈ visited s \/
    (exists root, root ∈ l /\ rtc depends root r) /\ forall r', depends r r' -> r' ∈ visited s';
  ad_programs : programs s ⊆ programs s';
  ad_named : forall r p, r ∈ visited s' -> bpfTailCallProgramByRef r = Some p ->
    r ∈ visited s \/ spec_name p ∈ programs s' }.

Lemma adds_nil s : adds [] s s.
Proof. split; try done; auto. by intros r ?%elem_of_nil. Qed.
Lemma adds_trans l1 l2 s s1 s2 : adds l1 s s1 -> adds l2 s1 s2 -> adds (l1 ++ l2) s s2.
Proof.
  intros [L1 C1 K1 A1 R1 P1 N1] [L2 C2 K2 A2 R2 P2 N2]. split; [congruence | auto | by etrans | | | by etrans |].
  - intros r [Hr|Hr]%elem_of_app; auto.
  - intros r Hr. destruct (R2 r Hr) as [Hr1|[(x & Hx & Hxr) D]].
    + destruct (R1 r Hr1) as [?|[(x & Hx & Hxr) D]]; [by left|]. right. split; [|by auto].
      exists x. split; [apply elem_of_app; by left | done].
    + right. split; [|done]. exists x. split; [apply elem_of_app; by right | done].
  - intros r p Hr E. destruct (N2 r p Hr E) as [Hr1|?]; [|by right].
    destruct (N1 r p Hr1 E) as [?|?]; [by left | right; by apply P2].
Qed.

(** References still to visit. *)
Definition unvisited (s : bpfProgramSelection) : nat := size (catalog ∖ visited s).
Lemma adds_unvisited l s s' : adds l s s' -> (unvisited s' <= unvisited s)%nat.
Proof. intros [_ _ K _ _ _ _]. unfold unvisited. by apply subseteq_size, difference_mono_l. Qed.

Lemma each_adds {X} (f : X -> bpfProgramSelection -> option bpfProgramSelection) (refs : X -> list bpfProgramRef) l n s :
  (forall x s, x ∈ l -> visited s ⊆ catalog -> (unvisited s <= n)%nat -> exists s', f x s = Some s' /\ adds (refs x) s s') ->
  visited s ⊆ catalog -> (unvisited s <= n)%nat -> exists s', each f l s = Some s' /\ adds (concat (map refs l)) s s'.
Proof.
  intros Hf. revert s. induction l as [|x l IH]; intros s C N; [exists s; split; [done | apply adds_nil]|].
  destruct (Hf x s ltac:(by left) C N) as (s1 & E1 & A1).
  destruct (IH ltac:(intros y s0 Hy; apply Hf; by right) s1) as (s2 & E2 & A2).
  - by apply (ad_known _ _ _ A1).
  - pose proof (adds_unvisited _ _ _ A1). lia.
  - exists s2. split; [|by eapply adds_trans]. unfold each in *. cbn [foldl]. by rewrite E1.
Qed.

(** A reference is added with everything it reaches; the fuel suffices. *)
Lemma add_reaches fuel r s :
  r ∈ catalog -> visited s ⊆ catalog -> (unvisited s < fuel)%nat ->
  exists s', addProgramRef_fuel fuel r s = Some s' /\ adds [r] s s'.
Proof.
  revert r s. induction fuel as [|fuel IH]; intros r s Hr C N; [lia|]. cbn [addProgramRef_fuel].
  case_bool_decide as V.
  { exists s. split; [done|]. destruct (adds_nil s). split; [assumption..| | by left |assumption|assumption].
    by intros r' ->%list_elem_of_singleton. }
  destruct (catalog_known r Hr) as (p & E & D). rewrite E.
  set (s1 := addProgram (spec_name p) (visit r s)).
  assert (visited s1 = {[r]} ∪ visited s) as V1 by done.
  assert (visited s1 ⊆ catalog) as C1 by (rewrite V1; apply union_subseteq; split; [by apply singleton_subseteq_l | exact C]).
  assert (unvisited s1 < unvisited s)%nat as N1 by (unfold unvisited; apply subset_size; rewrite V1; set_solver).
  destruct (each_adds (addProgramRef_fuel fuel) (fun r => [r]) (spec_dependencies p) (unvisited s1) s1) as (s' & E' & A).
  - intros r' s0 Hr' C0 N0. apply IH; [by apply D | done | lia].
  - done.
  - lia.
  - exists s'. split; [done|]. assert (concat (map (fun r => [r]) (spec_dependencies p)) = spec_dependencies p) as Ec.
    { clear. induction (spec_dependencies p) as [|x l IH]; [done|]. cbn. by rewrite IH. }
    rewrite Ec in A. destruct A as [L Kn Kp Ad Re Pr Na]. split; [done | auto | | | | |].
    + etrans; [|exact Kp]. rewrite V1. set_solver.
    + intros x ->%list_elem_of_singleton. apply Kp. rewrite V1. set_solver.
    + intros x Hx. destruct (Re x Hx) as [Hx1|[(y & Hy & Hyx) Dx]].
      * rewrite V1 in Hx1. apply elem_of_union in Hx1 as [->%elem_of_singleton|Hx1]; [|by left]. right. split.
        -- exists r. split; [by left | done].
        -- intros x' (p' & Ep & Hx'). rewrite E in Ep. injection Ep as <-. by apply Ad.
      * right. split; [|done]. exists r. split; [by left|]. eapply rtc_l; [|exact Hyx]. by exists p.
    + etrans; [|exact Pr]. apply union_subseteq_r.
    + intros x q Hx Eq. destruct (Na x q Hx Eq) as [Hx1|?]; [|by right].
      rewrite V1 in Hx1. apply elem_of_union in Hx1 as [->%elem_of_singleton|Hx1]; [|by left]. right.
      rewrite E in Eq. injection Eq as <-. apply Pr, elem_of_union_l, elem_of_singleton. done.
Qed.

Lemma addProgramRef_reaches r s :
  r ∈ catalog -> visited s ⊆ catalog -> exists s', addProgramRef r s = Some s' /\ adds [r] s s'.
Proof.
  intros Hr C. apply add_reaches; [done | done |]. unfold unvisited.
  assert (size (catalog ∖ visited s) <= size catalog)%nat by (apply subseteq_size; set_solver).
  pose proof catalog_size. lia.
Qed.

(** ** What a selection starts from *)

Section Roots.
Context {A : Arch}.

Definition root_syscalls (plan : bpfRoutePlan) : list (syscall * bpfProgramRootSpec) :=
  filter (fun e => routePlanHasSyscall plan (fst e) = true) bpfSyscallProgramRoots.

(** The plain handlers, the routes, and the chains behind [recvmsg] and [sendmmsg]. *)
Definition selection_roots (plan : bpfRoutePlan) : list bpfProgramRef :=
  [(ArrayEnter, ENTER_PROG_NO_PAYLOAD_GENERIC); (ArrayExit, EXIT_PROG_GENERIC)] ++
  map (fun e => (ArrayEnter, snd e)) (map_to_list (plan_enter plan)) ++
  map (fun e => (ArrayExit, snd e)) (map_to_list (plan_exit plan)) ++
  concat (map (fun e => root_refs (snd e)) (root_syscalls plan)).

Lemma foldr_addProgram names s :
  visited (foldr addProgram s names) = visited s /\ loadAll (foldr addProgram s names) = loadAll s /\
  programs s ⊆ programs (foldr addProgram s names).
Proof.
  induction names as [|x l (IH1 & IH2 & IH3)]; [done|]. split_and!; [done | done |].
  etrans; [exact IH3 | apply union_subseteq_r].
Qed.

(** The names of the programs do not matter to the references. *)
Lemma adds_same l s s1 s' :
  visited s1 = visited s /\ loadAll s1 = loadAll s /\ programs s ⊆ programs s1 -> adds l s1 s' -> adds l s s'.
Proof. intros (V & L & P) [? ? ? ? ? ? ?]. split; rewrite <- ?V, <- ?L; auto. by etrans. Qed.
Lemma adds_refs l l' s s' : (forall r, r ∈ l <-> r ∈ l') -> adds l s s' -> adds l' s s'.
Proof.
  intros H [? ? ? Ad Re ? ?]. split; [done | done | done | intros r Hr; by apply Ad, H| |done | done].
  intros r Hr. destruct (Re r Hr) as [?|[(x & Hx & ?) ?]]; [by left|]. right. split; [|done].
  exists x. split; [by apply H | done].
Qed.

Lemma each_known {X} (ref : X -> bpfProgramRef) l s :
  (forall x, x ∈ l -> ref x ∈ catalog) -> visited s ⊆ catalog ->
  exists s', each (fun x => addProgramRef (ref x)) l s = Some s' /\ adds (map ref l) s s'.
Proof.
  intros Hl C. destruct (each_adds (fun x => addProgramRef (ref x)) (fun x => [ref x]) l (unvisited s) s) as (s' & E & Ad).
  - intros x s0 Hx C0 _. apply addProgramRef_reaches; [by apply Hl | done].
  - done.
  - done.
  - exists s'. split; [done|]. eapply adds_refs; [|exact Ad]. intros r. clear. induction l as [|x l IH]; [done|].
    cbn. by rewrite !elem_of_cons, IH.
Qed.

Lemma addProgramRoot_adds root s :
  (forall r, r ∈ root_refs root -> r ∈ catalog) -> visited s ⊆ catalog ->
  exists s', addProgramRoot root s = Some s' /\ adds (root_refs root) s s'.
Proof.
  intros Hr C. unfold addProgramRoot. pose proof (foldr_addProgram (root_programs root) s) as V.
  set (s1 := foldr addProgram s (root_programs root)) in *.
  destruct (each_known (fun r => r) (root_refs root) s1) as (s' & E & Ad); [done | by rewrite (proj1 V)|].
  rewrite List.map_id in Ad. change (each addProgramRef (root_refs root) s1 = Some s') in E. rewrite E.
  eexists. split; [done|]. apply (adds_same _ _ _ _ V) in Ad. by destruct Ad.
Qed.

Lemma roots_known e r : e ∈ bpfSyscallProgramRoots -> r ∈ root_refs (snd e) -> r ∈ catalog.
Proof.
  intros He Hr. assert (forallb (fun e => forallb (fun r => bool_decide (r ∈ catalog)) (root_refs (snd e)))
    bpfSyscallProgramRoots = true) as F by (vm_compute; reflexivity).
  rewrite forallb_forall in F. apply list_elem_of_In in He. specialize (F e He).
  rewrite forallb_forall in F. apply list_elem_of_In in Hr. exact (bool_decide_eq_true_1 _ (F r Hr)).
Qed.

Lemma each_roots plan l s :
  (forall e, e ∈ l -> e ∈ bpfSyscallProgramRoots) -> visited s ⊆ catalog ->
  exists s', each (fun e s => if routePlanHasSyscall plan (fst e) then addProgramRoot (snd e) s else Some s) l s = Some s' /\
    adds (concat (map (fun e => root_refs (snd e)) (filter (fun e => routePlanHasSyscall plan (fst e) = true) l))) s s'.
Proof.
  intros Hl C. destruct (each_adds (fun e s => if routePlanHasSyscall plan (fst e) then addProgramRoot (snd e) s else Some s)
    (fun e => if routePlanHasSyscall plan (fst e) then root_refs (snd e) else []) l (unvisited s) s) as (s' & E & Ad).
  - intros e s0 He C0 _. destruct (routePlanHasSyscall plan (fst e)); [|exists s0; split; [done | apply adds_nil]].
    apply addProgramRoot_adds; [|done]. intros r. by apply roots_known, Hl.
  - done.
  - done.
  - exists s'. split; [done|]. eapply adds_refs; [|exact Ad]. intros r. clear. induction l as [|e l IH]; [done|].
    rewrite filter_cons. cbn [map concat]. destruct (routePlanHasSyscall plan (fst e)); cbn [decide];
      rewrite ?decide_True, ?decide_False by done; cbn [map concat]; rewrite ?elem_of_app, ?IH; [done|]. set_solver.
Qed.

(** Every route of the plan in force is a reference of the catalogs. *)
Lemma enter_slot_known s : (ArrayEnter, enter_plan_slot s) ∈ catalog.
Proof.
  apply named_known, (bool_decide_eq_true_1 _). unfold Arch in A. destruct A, s; vm_compute; reflexivity.
Qed.
Lemma exit_slot_known s : (ArrayExit, exit_plan_slot s) ∈ catalog.
Proof.
  apply named_known, (bool_decide_eq_true_1 _). unfold Arch in A. destruct A, s; vm_compute; reflexivity.
Qed.
Lemma plan_enter_known config id i : plan_enter (route_plan config) !! id = Some i -> (ArrayEnter, i) ∈ catalog.
Proof.
  intros E. apply plan_enter_cases in E as (s & -> & [->| ->]); [apply enter_slot_known|].
  apply named_known, (bool_decide_eq_true_1 _). vm_compute. reflexivity.
Qed.
Lemma plan_exit_known config id i : plan_exit (route_plan config) !! id = Some i -> (ArrayExit, i) ∈ catalog.
Proof.
  intros E. apply plan_exit_cases in E as (s & -> & [->|[[_ ->]|[_ ->]]]); [apply exit_slot_known|..];
    (apply named_known, (bool_decide_eq_true_1 _); vm_compute; reflexivity).
Qed.

Definition nothing_selected (config : traceBPFConfig) : bpfProgramSelection :=
  ProgramSelection false ∅ ∅ false (namespaceNew config || decodePIDsPIDNS config) (kvmExitReason config).

(** The selection succeeds, and adds what its roots reach. *)
Lemma selection_adds config :
  fdState config = false -> exists s, newBPFProgramSelection (route_plan config) config = Some s /\
    adds (selection_roots (route_plan config)) (nothing_selected config) s.
Proof.
  intros Fd. unfold newBPFProgramSelection, shouldLoadAllBPFPrograms, addCorePrograms. rewrite Fd. cbv zeta.
  fold (nothing_selected config). set (plan := route_plan config).
  pose proof (foldr_addProgram (core_programs (namespaceNew config || decodePIDsPIDNS config) (kvmExitReason config))
    (nothing_selected config)) as V.
  set (s0 := foldr addProgram _ _) in *.
  destruct (each_known (fun r => r) [(ArrayEnter, ENTER_PROG_NO_PAYLOAD_GENERIC); (ArrayExit, EXIT_PROG_GENERIC)] s0)
    as (s1 & E1 & A1).
  { intros x Hx. apply named_known, (bool_decide_eq_true_1 _). rewrite !elem_of_cons, elem_of_nil in Hx.
    destruct Hx as [->|[->|[]]]; vm_compute; reflexivity. }
  { rewrite (proj1 V). set_solver. }
  change (each addProgramRef [(ArrayEnter, ENTER_PROG_NO_PAYLOAD_GENERIC); (ArrayExit, EXIT_PROG_GENERIC)] s0 = Some s1) in E1.
  rewrite E1. assert (visited s1 ⊆ catalog) as C1 by (apply (ad_known _ _ _ A1); rewrite (proj1 V); set_solver).
  destruct (each_known (fun e => (ArrayEnter, snd e)) (map_to_list (plan_enter plan)) s1) as (s2 & E2 & A2); [|done|].
  { intros [id i] He. apply elem_of_map_to_list in He. by eapply plan_enter_known. }
  rewrite E2. assert (visited s2 ⊆ catalog) as C2 by by apply (ad_known _ _ _ A2).
  destruct (each_known (fun e => (ArrayExit, snd e)) (map_to_list (plan_exit plan)) s2) as (s3 & E3 & A3); [|done|].
  { intros [id i] He. apply elem_of_map_to_list in He. by eapply plan_exit_known. }
  rewrite E3. assert (visited s3 ⊆ catalog) as C3 by by apply (ad_known _ _ _ A3).
  destruct (each_roots plan bpfSyscallProgramRoots s3) as (s4 & E4 & A4); [done | done |].
  exists s4. split; [exact E4|]. apply (adds_same _ _ _ _ V). unfold selection_roots.
  eapply adds_trans; [exact A1|]. eapply adds_trans; [exact A2|]. by eapply adds_trans.
Qed.

(** Nothing but what the roots reach is visited, and all of it. *)
Lemma adds_closure config roots s r :
  adds roots (nothing_selected config) s ->
  r ∈ visited s <-> exists root, root ∈ roots /\ rtc depends root r.
Proof.
  intros [_ _ _ Ad Re _ _]. split.
  - intros Hr. destruct (Re r Hr) as [?%not_elem_of_empty|[? _]]; done.
  - intros (root & Hroot & Hr). apply Ad in Hroot. induction Hr as [|x y z Hxy _ IH]; [done|]. apply IH.
    destruct (Re x Hroot) as [?%not_elem_of_empty|[_ D]]; [done | by apply D].
Qed.

(** The programs of a configuration, and what they are. *)
Definition in_selection (config : traceBPFConfig) (r : bpfProgramRef) : Prop :=
  if fdState config then r ∈ catalog_refs
  else exists root, root ∈ selection_roots (route_plan config) /\ rtc depends root r.

Lemma selection_made config :
  exists s, newBPFProgramSelection (route_plan config) config = Some s /\
    (forall r, array_loaded s r = true <-> in_selection config r) /\
    (forall r program, array_loaded s r = true -> bpfTailCallProgramByRef r = Some program ->
       hasProgram s (spec_name program) = true).
Proof.
  unfold in_selection. destruct (fdState config) eqn:Fd.
  - eexists. split; [unfold newBPFProgramSelection, shouldLoadAllBPFPrograms; by rewrite Fd|]. split; [|done].
    intros r. unfold array_loaded. cbn [loadAll orb]. rewrite andb_true_r. apply bool_decide_eq_true.
  - destruct (selection_adds config Fd) as (s & E & Ad). exists s. split; [done|].
    pose proof (ad_known _ _ _ Ad ltac:(apply empty_subseteq)) as Kn. pose proof (ad_loadAll _ _ _ Ad) as La.
    assert (forall r, array_loaded s r = true <-> r ∈ visited s) as Ld.
    { intros r. unfold array_loaded. rewrite La. cbn [nothing_selected loadAll orb]. rewrite andb_true_iff, !bool_decide_eq_true.
      split; [tauto|]. intros V. split; [by apply catalog_ref_known, Kn | done]. }
    split.
    + intros r. rewrite Ld. exact (adds_closure config _ _ _ Ad).
    + intros r p Hr Ep. apply Ld in Hr. unfold hasProgram.
      destruct (ad_named _ _ _ Ad r p Hr Ep) as [?%not_elem_of_empty|N]; [done|].
      apply orb_true_iff. right. by apply bool_decide_eq_true.
Qed.

Lemma root_in_selection config r :
  r ∈ selection_roots (route_plan config) -> r ∈ catalog -> in_selection config r.
Proof.
  intros Hr C. unfold in_selection. destruct (fdState config); [by apply catalog_ref_known | by exists r].
Qed.
Lemma enter_route_in_selection config id i :
  plan_enter (route_plan config) !! id = Some i -> in_selection config (ArrayEnter, i).
Proof.
  intros E. apply root_in_selection; [|by eapply plan_enter_known]. unfold selection_roots. rewrite !elem_of_app.
  right. left. apply list_elem_of_fmap. exists (id, i). split; [done | by apply elem_of_map_to_list].
Qed.
Lemma exit_route_in_selection config id i :
  plan_exit (route_plan config) !! id = Some i -> in_selection config (ArrayExit, i).
Proof.
  intros E. apply root_in_selection; [|by eapply plan_exit_known]. unfold selection_roots. rewrite !elem_of_app.
  right. right. left. apply list_elem_of_fmap. exists (id, i). split; [done | by apply elem_of_map_to_list].
Qed.
(** The chain of a routed syscall that has one. *)
Lemma chain_in_selection config e r :
  e ∈ bpfSyscallProgramRoots -> routePlanHasSyscall (route_plan config) (fst e) = true -> r ∈ root_refs (snd e) ->
  in_selection config r.
Proof.
  intros He Hp Hr. apply root_in_selection; [|by eapply roots_known]. unfold selection_roots. rewrite !elem_of_app.
  right. right. right. apply list_elem_of_In, in_concat. exists (root_refs (snd e)). split; [|by apply list_elem_of_In]. apply list_elem_of_In.
  apply list_elem_of_fmap. exists e. split; [done|]. unfold root_syscalls. by apply list_elem_of_filter.
Qed.

(** C9: the selection of programs.  For every configuration the loader's selection ends without an
    error.  With descriptor state every program of the catalogs is put into its array; without
    it exactly those that can be reached, along the tail calls the catalogs list, from the plain
    handlers, from the routes in force and from the chains of the routed [recvmsg] and
    [sendmmsg]; and their programs are loaded.  Every route in force names a program that is put
    into its array, so that no route is left without a handler. *)
Theorem program_selection config :
  let plan := route_plan config in
  exists s, newBPFProgramSelection plan config = Some s /\
    (forall r, array_loaded s r = true <->
       if fdState config then r ∈ catalog_refs else exists root, root ∈ selection_roots plan /\ rtc depends root r) /\
    (forall r program, array_loaded s r = true -> bpfTailCallProgramByRef r = Some program ->
       hasProgram s (spec_name program) = true) /\
    (forall id i, plan_enter plan !! id = Some i -> array_loaded s (ArrayEnter, i) = true) /\
    (forall id i, plan_exit plan !! id = Some i -> array_loaded s (ArrayExit, i) = true).
Proof.
  cbv zeta. destruct (selection_made config) as (s & E & Ld & Nm). exists s. split_and!; [done | exact Ld | done | |].
  - intros id i Hi. by eapply Ld, enter_route_in_selection.
  - intros id i Hi. by eapply Ld, exit_route_in_selection.
Qed.
End Roots.
