(* ===== verification/RecvmsgProps.v ===== *)
(** How [recvmsg] is closed.

    Its sys_exit tracepoint fires after the kretprobe of [__sys_recvmsg], and the exit program it
    is routed to leaves it alone: the chain of [Recvmsg] closes the pending syscall, and the
    tracepoint then finds nothing to do. *)
From stdpp Require Import base list gmap numbers strings.
From S2P Require Import Prelude Syscalls Abi Kernel Consumer Stats Tlv Emit Decoder EventCore Payload LifecycleState Pending Namespace Lifecycle Structs Message Handlers EnterHandlers ExitHandlers Recvmsg Dispatch Delivery Pairing Confine Tracking TrackingProps Closing Opening Routes Selection.

Section RecvmsgReturn.
Context {K : Kernel} {A : Arch}.

(** The return register holds [v], however often it is read. *)
Definition returns (regs v : Z) : Prop := forall n,
  let register := match target_arch with amd64 => pt_regs_ax | arm64 => pt_regs_regs0 end in
  0 <= k_field_err n register regs /\ k_field n register regs = v.
(** The loader has put the three programs of the chain into their array. *)
Definition recvmsg_loaded (w : world) : Prop :=
  forall i, i ∈ [RECVMSG_PROG_NAME; RECVMSG_PROG_CONTROL; RECVMSG_PROG_FINAL] -> is_Some (maps w recvmsg_progs !! i).
(** The kernel takes every tail call whose slot is filled. *)
Definition tail_calls_taken : Prop := forall n, k_tail_ok n = true.

Section Chain.
Context (regs v : Z) (Ret : returns regs v) (Taken : tail_calls_taken).

(** The call [p] is a pending [recvmsg] whose return the chain can report. *)
Record returning (p : pending_syscall) (w : world) : Prop := Returning {
  rt_pending : pending_now w = Some p;
  rt_recvmsg : one_of (p_sys_id p) [SYS_RECVMSG] = true;
  rt_entered : 0 <= p_enter_time p;
  rt_loaded : recvmsg_loaded w }.

(** A program of the chain closes it, also when fragments have been submitted. *)
Definition closes_return (m : prog unit) : Prop :=
  forall p w0 w, returning p w0 -> underway p w0 w -> wp m (fun _ w' => closed p (s64 v) w0 w') w.

Lemma kretprobe_return_result w :
  wp (native_kretprobe_return regs) (fun rv w' => quiet w w' /\ rv = s64 v) w.
Proof.
  unfold native_kretprobe_return. wp_step.
  set (register := match target_arch with amd64 => pt_regs_ax | arm64 => pt_regs_regs0 end).
  pose proof (bpf_core_read_quiet register regs w) as Q. unfold wp at 1.
  assert (fst (bpf_core_read register regs w) = v) as Ev.
  { unfold bpf_core_read, bind, tick, ret. cbn. destruct (Ret (calls w)) as [He Hv]. fold register in He, Hv.
    destruct (Z.ltb_spec (k_field_err (calls w) register regs) 0); [lia | exact Hv]. }
  destruct (bpf_core_read register regs w) as [x w']. cbn [fst snd] in *. subst x. by wp_step.
Qed.

(** The part the three programs share. *)
Lemma pending_recvmsg_closes (k : pending_syscall -> Z -> prog unit) p w0 w :
  returning p w0 -> underway p w0 w ->
  (forall d w', underway p w0 w' -> elapsed p d -> wp (k p d) (fun _ w' => closed p (s64 v) w0 w') w') ->
  wp (pending_recvmsg k) (fun _ w' => closed p (s64 v) w0 w') w.
Proof.
  intros [P R E _] U Hk. unfold pending_recvmsg. wp_step. unfold wp at 1.
  rewrite current_pending_syscall_result. cbn [fst snd].
  assert (pending_now w = Some p) as -> by (rewrite <- P; apply same_tasks_pending, same_state_tasks, U).
  rewrite R. cbn [negb]. wp_step. eapply wp_mono; [by apply duration_result|]. intros d w2 [Q2 Hd].
  apply Hk; [by eapply underway_quiet | done].
Qed.
Lemma kretprobe_closes (k : Z -> prog unit) : closes_return (k (s64 v)) ->
  closes_return (let* ret_value := native_kretprobe_return regs in k ret_value).
Proof.
  intros Hk p w0 w R U. wp_step. eapply wp_mono; [apply kretprobe_return_result|]. intros rv w1 [Q1 ->].
  apply Hk; [done | by eapply underway_quiet].
Qed.

(** A tail call along the chain is taken. *)
Lemma return_chain_closes i target :
  i ∈ [RECVMSG_PROG_NAME; RECVMSG_PROG_CONTROL; RECVMSG_PROG_FINAL] -> closes_return target ->
  closes_return (chain_to recvmsg_progs i target (ret tt)).
Proof.
  intros Hi Ht p w0 w R U. unfold chain_to. wp_step. pose proof (bpf_tail_call_quiet recvmsg_progs i w) as Q.
  assert (is_Some (fst (bpf_tail_call recvmsg_progs i w))) as [x Ex].
  { unfold bpf_tail_call, bpf_map_lookup_elem, bind, gets, ret, tick. cbn. rewrite Taken.
    rewrite (ss_maps _ _ (uw_state _ _ _ U)). by apply (rt_loaded _ _ R). }
  unfold wp at 1. destruct (bpf_tail_call recvmsg_progs i w) as [j w']. cbn [fst snd] in *. subst j.
  apply Ht; [done | by eapply underway_quiet].
Qed.

Lemma final_closes : closes_return (trace_kretprobe_recvmsg_final regs).
Proof.
  apply kretprobe_closes. intros p w0 w R U. wp_step. unfold wp at 1. rewrite current_pid_tid_result. cbn [fst snd].
  apply pending_recvmsg_closes; [done | done |]. intros d w1 U1 Hd.
  apply (finish_closes p _ d); [done | done | apply single_msg_reports].
Qed.

(** A fragment, when there is one, and the rest of the chain. *)
Lemma fragment_link_closes (emit : pending_syscall -> Z -> Z -> prog unit) i target :
  (forall p w0 w d, underway p w0 w -> wp (emit p (s64 v) d) (fun _ w' => underway p w0 w') w) ->
  i ∈ [RECVMSG_PROG_NAME; RECVMSG_PROG_CONTROL; RECVMSG_PROG_FINAL] -> closes_return target ->
  closes_return (let* ret_value := native_kretprobe_return regs in
    pending_recvmsg (fun p duration =>
      emit p ret_value duration ;;; chain_to recvmsg_progs i target (ret tt))).
Proof.
  intros He Hi Ht. apply (kretprobe_closes (fun ret_value => pending_recvmsg (fun p duration =>
    emit p ret_value duration ;;; chain_to recvmsg_progs i target (ret tt)))).
  intros p w0 w R U. apply pending_recvmsg_closes; [done | done |]. intros d w1 U1 Hd. wp_step.
  eapply wp_mono; [apply (He p w0 w1 d U1)|]. intros [] w2 U2. by apply (return_chain_closes i target).
Qed.

Lemma control_closes : closes_return (trace_kretprobe_recvmsg_control regs).
Proof.
  apply fragment_link_closes; [|set_solver | apply final_closes]. intros p w0 w d U.
  unfold emit_recvmsg_control_exit_fragment_event_v2_direct. destruct (_ || _); [by wp_step|].
  eapply underway_fragment; [exact U|]. eapply fragment_reports, control_fragment_ok.
Qed.
Lemma name_closes : closes_return (trace_kretprobe_recvmsg_name regs).
Proof.
  apply fragment_link_closes; [|set_solver | apply control_closes]. intros p w0 w d U.
  unfold emit_recvmsg_name_exit_fragment_event_v2_direct. destruct (_ || _); [by wp_step|].
  eapply underway_fragment; [exact U|]. eapply fragment_reports, name_fragment_ok.
Qed.
Lemma recvmsg_dispatch_closes : closes_return (trace_kretprobe_recvmsg_dispatch regs).
Proof. apply return_chain_closes; [set_solver | apply name_closes]. Qed.
End Chain.

(** ** The tracepoint afterwards *)

(** The exit of a [recvmsg] nobody has pending: no record, no pending syscall, no other task. *)
Definition passed (w w' : world) : Prop :=
  running w' = running w /\ tasks w' = tasks w /\ submitted w' = submitted w.

#[local] Instance passed_preorder : PreOrder passed.
Proof. split; [done|]. intros w1 w2 w3 (R1 & T1 & S1) (R2 & T2 & S2). split_and!; congruence. Qed.

Lemma quiet_passed w w' : quiet w w' -> passed w w'.
Proof. intros Q. by destruct (quiet_state _ _ Q) as (_ & R & S & T). Qed.

Lemma fallback_passes pid tid sys_id rv w :
  pending_now w = None -> wp (emit_exit_dispatch_fallback pid tid sys_id rv) (fun _ w' => passed w w') w.
Proof.
  intros P. unfold emit_exit_dispatch_fallback, resolve_exit. wp_step.
  apply wp_bind. unfold wp at 1. rewrite lookup_for_exit_result, P. cbn [fst snd]. wp_step.
  eapply keeps_wp; [apply record_unmatched_exit_quiet|]. intros [] w' Q. wp_steps. by apply quiet_passed.
Qed.

Lemma recvmsg_exit_passes config ctx w :
  u32 (exit_id ctx) = nr SYS_RECVMSG -> 0 <= exit_id ctx -> heard w (nr SYS_RECVMSG) -> installed config w ->
  pending_now w = None -> passed w (snd (trace_sys_exit ctx w)).
Proof.
  intros E Pos Hd (plan & Pl & _ & Ix) P. rewrite new_plan_made in Pl. injection Pl as <-.
  change (wp (trace_sys_exit ctx) (fun _ w' => passed w w') w).
  apply heard_exit; [done | by rewrite E |]. intros w1 (R & S & M) T Ex.
  assert (pending_now w1 = None) as P1 by (unfold pending_now, pending_cell in *; by rewrite R, T).
  assert (passed w w1) as B1 by done.
  unfold tail_call. wp_step. eapply wp_mono; [apply tail_call_result|]. intros i w2 [Q Hi].
  pose proof (quiet_passed _ _ Q) as Q2.
  assert (pending_now w2 = None) as P2.
  { rewrite <- P1. apply same_tasks_pending. by apply quiet_tasks. }
  assert (forall w', passed w2 w' -> passed w w') as Back2.
  { intros w' B2. do 2 (etrans; [eassumption|]). exact B2. }
  destruct i as [i|]; [|eapply wp_mono; [by apply fallback_passes | intros u w3 H3; by apply Back2]].
  destruct Hi as [[=]|Hi]. rewrite (M exit_routes), E in Hi by done.
  symmetry in Hi. apply Ix, plan_recvmsg_exit in Hi. subst i.
  change (wp (exit_msg ctx) (fun _ w' => passed w w') w2). unfold exit_msg. rewrite E.
  rewrite one_of_nr, bool_decide_false by (rewrite list_elem_of_singleton; discriminate). cbn [negb]. wp_step. by apply Back2.
Qed.

(** ** The chain the loader installs *)

Definition array_map (a : bpfProgramArray) : map_id :=
  match a with
  | ArrayEnter => enter_progs | ArrayExit => exit_progs | ArrayRecvmsg => recvmsg_progs | ArrayMmsgBytes => mmsg_bytes_progs
  end.

(** The slots of the selected programs are filled. *)
Definition arrays_filled (config : traceBPFConfig) (w : world) : Prop :=
  exists s, newBPFProgramSelection (route_plan config) config = Some s /\
  forall r, array_loaded s r = true -> is_Some (maps w (array_map (fst r)) !! snd r).

Lemma recvmsg_in_table : SYS_RECVMSG ∈ SyscallTable.
Proof. apply (bool_decide_eq_true_1 _). unfold Arch in A. destruct A; vm_compute; reflexivity. Qed.

Lemma filled_recvmsg config w :
  arrays_filled config w -> is_Some (plan_enter (route_plan config) !! nr SYS_RECVMSG) -> recvmsg_loaded w.
Proof.
  intros (s & E & F) Rt i Hi. destruct (selection_made config) as (s' & E' & Ld & _).
  rewrite E in E'. injection E' as <-. apply (F (ArrayRecvmsg, i)), Ld.
  apply (chain_in_selection config
    (SYS_RECVMSG, ProgramRoot ["trace_kretprobe_recvmsg_dispatch"%string]
       [(ArrayRecvmsg, RECVMSG_PROG_NAME); (ArrayRecvmsg, RECVMSG_PROG_CONTROL); (ArrayRecvmsg, RECVMSG_PROG_FINAL)] true)).
  - by left.
  - unfold routePlanHasSyscall. cbn [fst]. rewrite !bool_decide_true; [done | done | apply recvmsg_in_table].
  - cbn [root_refs snd]. exact (list_elem_of_fmap_2 (pair ArrayRecvmsg) _ _ Hi).
Qed.

(** C8: a [recvmsg] from its entry to its exit.  With the routes and the programs the loader
    installs and tail calls that are taken, the kretprobe closes the pending call of a followed task
    with the arguments, ids and number of its entry and the value in the return register, whatever
    happened in between to anything but that pending call; the sys_exit tracepoint that follows
    submits nothing and touches no task: the call is reported once. *)
Theorem recvmsg_round_trip config enter regs v w w2 :
  let w1 := snd (trace_sys_enter enter w) in
  u32 (enter_id enter) = nr SYS_RECVMSG -> heard w (nr SYS_RECVMSG) -> installed config w -> can_keep w ->
  is_Some (plan_enter (route_plan config) !! nr SYS_RECVMSG) -> arrays_filled config w2 ->
  pending_now w2 = pending_now w1 -> tail_calls_taken -> returns regs v ->
  let w3 := snd (trace_kretprobe_recvmsg_dispatch regs w2) in
  (exists p, p_args p = args_u64 (enter_args enter) /\ p_pid p = ctx_pid (running w) /\
    p_tid p = ctx_tid (running w) /\ p_sys_id p = nr SYS_RECVMSG /\ closed p (s64 v) w2 w3) /\
  forall exit w4, u32 (exit_id exit) = nr SYS_RECVMSG -> 0 <= exit_id exit ->
    pending_now w4 = pending_now w3 -> heard w4 (nr SYS_RECVMSG) -> installed config w4 ->
    passed w4 (snd (trace_sys_exit exit w4)).
Proof.
  intros w1 E Hd I C Rt F P Taken Ret w3. pose proof (filled_recvmsg _ _ F Rt) as L.
  assert (one_of (u32 (enter_id enter)) [SYS_EXIT; SYS_EXIT_GROUP] = false) as N
    by (rewrite E, one_of_nr; apply bool_decide_false; rewrite !elem_of_cons, elem_of_nil; intuition discriminate).
  destruct (dispatched_enter_fills enter w ltac:(by rewrite E) (installed_enter _ _ _ I N) C) as (_ & t & rt & sid & Ht & P1).
  fold w1 in P1. rewrite P1 in P. set (p := PendingSyscall _ _ _ _ _ _ _) in P.
  assert (closed p (s64 v) w2 w3) as Cl.
  { apply (recvmsg_dispatch_closes regs v Ret Taken p w2 w2); [|apply underway_refl]. split; [done | | done | done].
    change (one_of (u32 (enter_id enter)) [SYS_RECVMSG] = true). rewrite E, one_of_nr.
    by apply bool_decide_true, list_elem_of_singleton. }
  split; [by exists p|]. intros exit w4 E4 Pos P4 H4 I4. apply (recvmsg_exit_passes config); try done.
  rewrite P4. apply Cl.
Qed.
End RecvmsgReturn.
