(* ===== verification/TraceProps.v ===== *)
(** The theorems about runs of the tracer.

    The event-integrity contract of [doc/arch.md] (8.2) and
    [doc/event-integrity.md]: every attempt to emit a record is a record read, a
    counted reservation failure or a counted producer failure; the sequence
    numbers of a CPU say exactly which attempts are missing; a healthy ring
    buffer loses nothing; nothing stays reserved. *)
From stdpp Require Import base list gmap numbers.
From S2P Require Import Prelude Syscalls Abi Kernel Consumer Stats Tlv Emit Decoder EventCore Payload LifecycleState Pending Namespace Lifecycle Signal Structs FdPath Paths Misc Handlers EnterHandlers ExitHandlers Dispatch Trace.




Section Healthy.
Context {K : Kernel}.

End Healthy.

Section Runs.
Context {K : Kernel} {A : Arch} {H : Handlers} {HO : HandlersOk H}.

(** C1: every run of the programs, in any order, on any CPUs and tasks, refines the
    ledger: one entry per firing says which records it submitted and how many
    reservations and copies failed, and the published counters of every CPU and the loss
    epoch moved by exactly the sums; attempts are records, reservation failures and
    discarded records. *)
Theorem run_accounted fs w :
  exists es, map en_cpu es = map (fun e => cur_cpu (fst e)) fs /\ ledger w (run fs w) es.
Proof. apply run_ledger. Qed.

(** C4: whatever happens, no program leaves a reservation behind: every reserved
    record has been submitted or discarded at the end of every run. *)
Theorem no_reservation_leaked w w' : reachable w w' -> reserved w' = reserved w.
Proof.
  intros R. apply reachable_run in R as [fs ->]. by destruct (run_ledger fs w) as (es & _ & []).
Qed.


End Runs.
