(* ===== verification/AbiProps.v ===== *)
(** The theorems about the wire format.

    Producer and consumer agree on the bytes: what the producer writes into a TLV
    payload or a header is what the consumer decodes, the decoder terminates and
    stays inside its input, and the layouts are the ones the C sources assert. *)
From stdpp Require Import base list gmap numbers.
From S2P Require Import Prelude Syscalls Abi Kernel Consumer Stats Tlv.




(** The bytes a decoded section stands for. *)
Definition section_size (s : PayloadSection) : Z := PAYLOAD_TLV_HEADER_SIZE + CopiedLen s.

Lemma decoded_section data s next :
  zlen data >= PAYLOAD_TLV_HEADER_SIZE -> decodePayloadTLVSection data = Some (s, next) ->
  zlen (Data s) = CopiedLen s /\ 0 <= CopiedLen s /\ zlen data = section_size s + zlen next.
Proof.
  unfold decodePayloadTLVSection. intros Hl H. destruct (payloadKindFromTLV _); [|done].
  pose proof (le_val_nonneg (slice data 12 4)) as N. fold (le_at data 12 4) in N.
  destruct (Z.ltb_spec (zlen data - 32) (le_at data 12 4)); [done|]. injection H as <- <-.
  unfold section_size. cbn [Data CopiedLen]. split_and!; [apply zlen_slice; lia | done |].
  unfold zlen in *. rewrite length_drop. lia.
Qed.

(** C23: the decoder terminates on every input, with the length of the input as a bound on
    its iterations; when it succeeds, every section carries as many bytes as it announces
    and the sections with their headers cover the input exactly. *)
Theorem tlv_decode_total data :
  (forall n, (length data <= n)%nat -> decode_sections n data = decodePayloadTLVSections data) /\
  forall secs, decodePayloadTLVSections data = Some secs ->
    Forall (fun s => zlen (Data s) = CopiedLen s) secs /\
    fold_right (fun s n => section_size s + n) 0 secs = zlen data.
Proof.
  split; [intros n Hn; by apply decode_sections_fuel|]. unfold decodePayloadTLVSections.
  generalize (length data) as n. intros n. revert data.
  induction n as [|n IH]; intros [|b data] secs; cbn [decode_sections]; try done;
    try (by intros [= <-]). destruct (Z.ltb_spec (zlen (b :: data)) 32); [done|].
  destruct (decodePayloadTLVSection (b :: data)) as [[s next]|] eqn:E; [|done].
  destruct (decoded_section (b :: data) s next ltac:(lia) E) as (H1 & H2 & H3).
  destruct (decode_sections n next) as [ss|] eqn:D; [|done]. intros [= <-].
  destruct (IH _ _ D) as [F S]. split; [by constructor|]. cbn [fold_right]. lia.
Qed.

(** C24: the header of a record, read back by the consumer, is the header the producer
    built, member by member at its width, the task name up to its terminator; the body
    is the rest of the record. *)
Theorem header_roundtrip h body :
  h_size h = EVENT_V2_HEADER_LEN + zlen body -> h_size h < 2 ^ 32 ->
  h_version h = EVENT_VERSION -> h_header_len h = EVENT_V2_HEADER_LEN -> In (h_event_type h) event_types ->
  decodeTraceEventV2Header (struct_bytes (event_v2_header_fields h) ++ body) = Some (header_view h, body).
Proof.
  intros Hs Hb Hv Hl Ht. pose proof (event_v2_header_size h) as L. pose proof (zlen_nonneg body).
  assert (zlen (struct_bytes (event_v2_header_fields h) ++ body) = EVENT_V2_HEADER_LEN + zlen body) as Z1
    by (rewrite zlen_app; lia).
  rewrite (decode_header _ h); try done; try lia.
  - rewrite Z1. do 2 f_equal. unfold slice, zlen in *.
    rewrite drop_app_ge by lia. replace (_ - _)%nat with 0%nat by lia. rewrite drop_0. apply take_ge. lia.
  - unfold slice, zlen in *. rewrite drop_0, take_app_le by lia. apply take_ge. lia.
Qed.


(** On both targets no two syscall macros have the same number, also when one stands for
    a call the target does not have: the family tests of the programs never overlap. *)
Lemma syscall_numbers_distinct (a : Arch) s1 s2 :
  (@nr a s1 =? @nr a s2) = bool_decide (s1 = s2) /\ 0 <= @nr a s1 < 2 ^ 32.
Proof. split; [apply nr_eqb | apply nr_u32]. Qed.

Section DataPointer.
Context {K : Kernel}.

End DataPointer.
