(* ===== verification/SignalProps.v ===== *)
(** The theorem about signal records. *)
From stdpp Require Import base list gmap numbers.
From S2P Require Import Prelude Syscalls Abi Kernel Consumer Stats Tlv Emit Decoder EventCore Payload LifecycleState Pending Lifecycle Signal Structs Handlers EnterHandlers ExitHandlers Dispatch Trace Delivery Pairing Confine Tracking.

Section SignalProps.
Context {K : Kernel} {A : Arch}.

(** [v] is what a read of member [f] at [addr] gives: the member, or zero after a fault. *)
Definition member_read (f : kfield) (addr v : Z) : Prop :=
  exists n, v = if k_field_err n f addr <? 0 then 0 else k_field n f addr.

Lemma core_read_member f addr w :
  wp (bpf_core_read f addr) (fun v w' => quiet w w' /\ member_read f addr v) w.
Proof.
  split; [apply bpf_core_read_quiet|]. exists (calls w).
  unfold bpf_core_read, bind, tick, ret. by destruct (_ <? 0).
Qed.

(** The body of a signal other than SIGCHLD: its members are read from the [siginfo]. *)
Definition signal_body_of (info signo : Z) (b : signal_event_v2) : Prop :=
  sg_signo b = signo /\ member_read siginfo_si_errno info (sg_error b) /\
  member_read siginfo_si_code info (sg_code b) /\ member_read siginfo_kill_pid info (sg_sender_pid b) /\
  member_read siginfo_kill_uid info (sg_sender_uid b) /\
  member_read siginfo_sigfault_addr info (sg_address b) /\
  sg_child_status b = 0 /\ sg_child_user_time b = 0 /\ sg_child_system_time b = 0.

Lemma populate_signal_result info signo c w :
  signo <> SIGNAL_NUMBER_CHLD ->
  wp (populate_signal_event_v2 info signo c) (fun r w' => quiet w w' /\
    if 1 <? info then exists b, r = Some b /\ signal_body_of info signo b else r = None) w.
Proof.
  intros N. split; [apply populate_signal_quiet|].
  match goal with |- ?P => enough (wp (populate_signal_event_v2 info signo c) (fun r _ =>
    if 1 <? info then exists b, r = Some b /\ signal_body_of info signo b else r = None) w) as G by exact G end.
  unfold populate_signal_event_v2.
  destruct (Z.leb_spec info 1), (Z.ltb_spec 1 info); try lia; [by wp_step|]. wp_step.
  rewrite (proj2 (Z.eqb_neq _ _) N).
  assert (wp (if has_flag c CONFIG_CAPTURE_STACK then bpf_get_stackid else ret (-1)) (fun _ _ => True) w) as B
    by done.
  eapply wp_mono; [exact B|]. intros stack w0 _.
  do 5 (wp_step; eapply wp_mono; [apply core_read_member|]; intros ? ? [_ ?]).
  wp_steps. eexists. split; [reflexivity|]. by split_and!.
Qed.

(** What the program does, on every branch. *)
Lemma signal_result signo_arg info w :
  let r := running w in let signo := u32 signo_arg in
  wp (trace_signal_deliver signo_arg info) (fun _ w' =>
    if tracked w (ctx_pid r) (ctx_tid r) && config_flag w CONFIG_EMIT_SIGNAL &&
       negb (signo =? SIGNAL_NUMBER_CHLD) && (1 <? u64 info)
    then ring_has_room -> no_fault -> exists rec env, submitted w' = submitted w ++ [rec] /\
      decodeTraceEventV2Envelope rec = Some env /\
      (forall s, stats w !! cur_cpu (running w) = Some s -> e_seq env = u64 (s event_seq + 1)) /\
      exists b sq, signal_body_of (u64 info) signo b /\
        reads_signal r (ctx_pid r) (ctx_tid r) b sq env
    else submitted w' = submitted w) w.
Proof.
  cbv zeta. unfold trace_signal_deliver, config_flag, bpf_map_lookup_elem. wp_step. unfold wp at 1.
  rewrite current_pid_tid_result. cbn [fst snd]. wp_step. unfold wp at 1. rewrite is_tracked_result.
  cbn [fst snd]. destruct (tracked w _ _); cbn [andb negb]; [|by wp_step]. wp_steps.
  destruct (maps w config_map !! 0) as [c|]; cbn [andb]; [|by wp_step].
  destruct (has_flag c CONFIG_EMIT_SIGNAL); cbn [andb negb]; [|by wp_step].
  destruct (Z.eqb_spec (u32 signo_arg) SIGNAL_NUMBER_CHLD); cbn [andb negb]; [by wp_step|]. wp_step.
  eapply wp_mono; [by apply populate_signal_result|]. intros body w1 [Q Hb].
  destruct (quiet_state _ _ Q) as (_ & R1 & S1 & _). destruct (1 <? u64 info); [|subst; by wp_step].
  destruct Hb as (b & -> & Hb).
  assert (delivers (fun r env => exists sq, reads_signal r (ctx_pid (running w)) (ctx_tid (running w)) b sq env)
    (emit_signal_event_v2 (ctx_pid (running w)) (ctx_tid (running w)) b)) as D.
  { eapply emitter_delivers; [apply emit_signal_ok|]. intros r sq rec _ (env & Dc & Rs). exists env.
    split; [done|]. split; [apply Rs | by exists sq]. }
  intros Room NF. destruct (D w1 Room NF) as (rec & env & S2 & Dc & Sq & sq & Rs). exists rec, env.
  rewrite R1 in *. split; [congruence|]. split; [done|]. split; [|by exists b, sq].
  intros s Hs. destruct Q as [_ (nl & _ & [_ _ _ T _])]. rewrite Hs in T.
  destruct (stats w1 !! cur_cpu (running w)) as [s'|]; [|done]. rewrite (Sq s' eq_refl).
  destruct T as [T _]. unfold advanced in T. rewrite Z.add_0_r in T. by rewrite <- u64_add_l, T, u64_add_l.
Qed.

(** C38: a signal other than SIGCHLD delivered to a followed task, with signal records
    configured and a [siginfo] present, reaches the consumer as one record with the
    signal number and the members of the [siginfo]; any other delivery submits nothing. *)
Theorem signal_record signo_arg info w :
  let r := running w in let signo := u32 signo_arg in
  if tracked w (ctx_pid r) (ctx_tid r) && config_flag w CONFIG_EMIT_SIGNAL &&
     negb (signo =? SIGNAL_NUMBER_CHLD) && (1 <? u64 info)
  then delivers_at w (fun r env => exists b sq, signal_body_of (u64 info) signo b /\
         reads_signal r (ctx_pid r) (ctx_tid r) b sq env) (trace_signal_deliver signo_arg info)
  else submitted (snd (trace_signal_deliver signo_arg info w)) = submitted w.
Proof.
  cbv zeta. set (cond := _ && _). set (E := fun r env => exists b sq, _).
  assert (wp (trace_signal_deliver signo_arg info) (fun _ w' =>
    if cond then ring_has_room -> no_fault -> exists rec env, submitted w' = submitted w ++ [rec] /\
      decodeTraceEventV2Envelope rec = Some env /\
      (forall s, stats w !! cur_cpu (running w) = Some s -> e_seq env = u64 (s event_seq + 1)) /\
      E (running w) env
    else submitted w' = submitted w) w) as G by (subst cond E; apply signal_result).
  destruct cond; exact G.
Qed.
End SignalProps.
