(* ===== verification/Sample.v ===== *)
(** A concrete machine, and the theorems applied to it.

    [sample_kernel] answers every helper the way a healthy x86-64 kernel does;
    [machine] builds a world from a few map entries.  Each [_witness] applies a
    theorem of the development to a concrete state in which its hypotheses hold,
    which shows that they can. *)
From stdpp Require Import base list gmap numbers relations.
From S2P Require Import Prelude Syscalls Abi Kernel Consumer Stats Tlv Emit Decoder EventCore Payload LifecycleState Pending Namespace Lifecycle Signal Structs FdPath Paths Misc Handlers EnterHandlers ExitHandlers Recvmsg Dispatch Trace Delivery RecordProps Pairing Confine Tracking TrackingProps Closing Opening Routes Selection RecvmsgProps TraceProps AbiProps.

(** ** The machine *)

#[local] Instance sample_kernel : Kernel := {
  k_ktime := fun n => 1000 + Z.of_nat n; k_update_ok := fun _ => true; k_storage_ok := fun _ => true;
  k_reserve_ok := fun _ _ => true; k_dynptr_ok := fun _ => true; k_ring_byte := fun _ _ => 0;
  k_user_err := fun _ _ => 0; k_user_byte := fun _ a => if a mod 8 =? 7 then 0 else 97;
  k_kernel_err := fun _ _ => 0; k_kernel_byte := fun _ _ => 0;
  k_field_err := fun _ _ _ => 0; k_field := fun _ _ _ => 0; k_mount_mnt_offset := 32;
  k_stackid := fun _ => 7; k_comm := fun _ => [115; 104]; k_tail_ok := fun _ => true }.
#[local] Instance sample_arch : Arch := amd64.

(** Thread [tid] of process [pid] on CPU 0; its [task_struct] is at [4096 + tid]. *)
Definition on_cpu (pid tid : Z) : exec_ctx := ExecCtx (Z.lor (Z.shiftl pid 32) tid) (4096 + tid) 0.

(** A map with one entry. *)
Definition one (k v : Z) : gmap Z Z := {[k := v]}.
Definition none : gmap Z Z := ∅.

Definition machine (r : exec_ctx) (filter arm unknown : gmap Z Z) (cfg : Z)
    (tks : gmap Z pending_task_state) : world :=
  World 0 r (fun m => match m with
                      | filter_map => filter | arm_fork_map => arm | unknown_children_map => unknown
                      | config_map => {[0 := cfg]} | _ => ∅ end)
    tks ∅ {[0 := fun _ => 5]} {[0 := EventLossState 0 0]} ∅ ∅ [].

Definition call (pid tid sys_id : Z) : pending_syscall :=
  PendingSyscall 900 0 (Args 3 8192 64 0 0 0) pid sys_id tid (-1).
Definition in_call (p : pending_syscall) : gmap Z pending_task_state :=
  {[4096 + p_tid p := PendingTaskState p empty_namespace_snapshot 0 1]}.

Definition entering (sys_id : Z) : trace_event_raw_sys_enter := SysEnter sys_id (Args 3 8192 64 0 0 0).

Lemma sample_room : ring_has_room.
Proof. intros n size. reflexivity. Qed.
Lemma sample_no_fault : no_fault.
Proof. intros n. reflexivity. Qed.
Lemma sample_updates : updates_ok.
Proof. intros n. reflexivity. Qed.

(** ** Runs *)

(** The loaded programs are within the interface's law. *)
Lemma run_accounted_witness :
  let w := machine (on_cpu 100 100) (one 100 1) none none 4 ∅ in
  let fs := [(on_cpu 100 100, SysEnterFires (entering 0)); (on_cpu 100 100, ForkFires 200);
             (on_cpu 100 100, SysExitFires (SysExit 0 64))] in
  HandlersOk loaded_handlers /\ exists es, map en_cpu es = [0; 0; 0] /\ ledger w (run fs w) es.
Proof.
  cbv zeta. split; [exact loaded_handlers_ok|].
  exact (run_accounted (H := loaded_handlers)
    [(on_cpu 100 100, SysEnterFires (entering 0)); (on_cpu 100 100, ForkFires 200);
     (on_cpu 100 100, SysExitFires (SysExit 0 64))]
    (machine (on_cpu 100 100) (one 100 1) none none 4 ∅)).
Defined.

Lemma no_reservation_leaked_witness :
  let w := machine (on_cpu 100 100) (one 100 1) none none 4 ∅ in
  let w' := run [(on_cpu 100 100, SysEnterFires (entering 0)); (on_cpu 100 100, SysExitFires (SysExit 0 64))] w in
  reachable w w' /\ reserved w' = reserved w.
Proof.
  cbv zeta. split; [apply reachable_run; by eexists|]. apply no_reservation_leaked, reachable_run. by eexists.
Defined.



(** The two records of that run exist: an entry and its exit. *)
Example sample_run_records :
  length (submitted (run [(on_cpu 100 100, SysEnterFires (entering 0)); (on_cpu 100 100, SysExitFires (SysExit 0 64))]
    (machine (on_cpu 100 100) (one 100 1) none none 4 ∅))) = 2%nat.
Proof. vm_compute. reflexivity. Qed.

(** ** Pairing *)

Lemma exit_closes_pending_witness :
  let p := call 100 100 0 in let w := machine (on_cpu 100 100) (one 100 1) none none 0 (in_call p) in
  let w' := snd (emit_exit_dispatch_fallback 100 100 0 64 w) in
  pending_now w = Some p /\ closes w 100 100 0 64 p = true /\
  exists d rec env, elapsed p d /\ submitted w' = submitted w ++ [rec] /\
    decodeTraceEventV2Envelope rec = Some env /\ exit_envelope (running w) p 64 d env /\
    e_payload env = [] /\ pending_now w' = None.
Proof.
  cbv zeta. split; [reflexivity|]. split; [reflexivity|].
  apply exit_closes_pending; [reflexivity | reflexivity | cbn; lia | exact sample_room | exact sample_no_fault].
Defined.

Lemma mismatched_exit_dropped_witness :
  let p := call 100 100 0 in let w := machine (on_cpu 100 100) (one 100 1) none none 0 (in_call p) in
  let w' := snd (emit_exit_dispatch_fallback 100 100 1 64 w) in
  pending_now w = Some p /\ closes w 100 100 1 64 p = false /\
  submitted w' = submitted w /\ pending_now w' = None /\
  maps w' pending_exec_map !! 100 = None /\ mismatch_counted w w'.
Proof.
  cbv zeta. split; [reflexivity|]. split; [reflexivity|].
  apply (mismatched_exit_dropped 100 100 1 64 _ (call 100 100 0)); reflexivity.
Defined.

Lemma enter_exit_pairing_witness :
  let w := machine (on_cpu 100 100) (one 100 1) none none 0 ∅ in
  let w1 := snd (emit_enter_dispatch_fallback (entering 0) 100 100 (Some 0) w) in
  let w2 := snd (emit_exit_dispatch_fallback 100 100 (u32 (enter_id (entering 0))) 64 w1) in
  exists rec env, submitted w2 = submitted w1 ++ [rec] /\ decodeTraceEventV2Envelope rec = Some env /\
    e_eventType env = EVENT_TYPE_EXIT /\ e_pid env = u32 100 /\ e_tid env = u32 100 /\
    e_sysID env = u32 0 /\ e_args env = args_u64 (Args 3 8192 64 0 0 0) /\ e_ret env = s64 64 /\
    pending_now w2 = None.
Proof.
  cbv zeta. apply (enter_exit_pairing (entering 0) 100 100 (Some 0) 64
    (machine (on_cpu 100 100) (one 100 1) none none 0 ∅));
    [discriminate | reflexivity | exact sample_room | exact sample_no_fault | reflexivity].
Defined.

(** ** Routed calls *)

(** The routes the loader installs when nothing is filtered and no descriptor state is kept. *)
Definition sample_config : traceBPFConfig := TraceBPFConfig false false [] false false false false.
Definition routed (w : world) : world :=
  set_maps (map_set (map_set (maps w) enter_routes (plan_enter (route_plan sample_config)))
    exit_routes (plan_exit (route_plan sample_config))) w.

Lemma sample_installed w :
  maps w enter_routes = plan_enter (route_plan sample_config) ->
  maps w exit_routes = plan_exit (route_plan sample_config) -> installed sample_config w.
Proof. intros E X. eexists. split; [apply new_plan_made|]. split; intros id i; [by rewrite E | by rewrite X]. Qed.
Lemma sample_native sys_id w :
  has_flag sys_id NATIVE_X86_X32_SYSCALL_BIT = false -> fst (current_syscall_has_native_abi sys_id w) = true.
Proof. intros E. unfold current_syscall_has_native_abi. cbn [target_arch]. cbv [sample_arch target_arch]. by rewrite E. Qed.

Lemma exit_dispatch_closes_witness :
  let p := call 100 100 0 in
  let w := routed (machine (on_cpu 100 100) (one 100 1) none none 0 (in_call p)) in
  maps w exit_routes !! 0 = Some EXIT_PROG_FD_TIME /\ closed p 64 w (snd (trace_sys_exit (SysExit 0 64) w)).
Proof.
  cbv zeta. split; [vm_compute; reflexivity|].
  apply (exit_dispatch_closes (SysExit 0 64) (call 100 100 0)).
  - discriminate.
  - split; [vm_compute; reflexivity | intros w' _; by apply sample_native | vm_compute; reflexivity].
  - intros i E. vm_compute in E. injection E as <-. vm_compute. reflexivity.
  - split; [vm_compute; reflexivity | vm_compute; reflexivity | vm_compute; discriminate].
Defined.

Lemma call_round_trip_witness :
  let w := routed (machine (on_cpu 100 100) (one 100 1) none none 0 ∅) in
  let w1 := snd (trace_sys_enter (entering 0) w) in
  maps w enter_routes !! 0 = Some ENTER_PROG_NO_PAYLOAD_GENERIC /\
  exists p, p_args p = args_u64 (Args 3 8192 64 0 0 0) /\ p_pid p = 100 /\ p_tid p = 100 /\ p_sys_id p = 0 /\
    closed p 64 w1 (snd (trace_sys_exit (SysExit 0 64) w1)).
Proof.
  cbv zeta. split; [vm_compute; reflexivity|].
  apply (call_round_trip sample_config (entering 0) (SysExit 0 64)
    (routed (machine (on_cpu 100 100) (one 100 1) none none 0 ∅))).
  - reflexivity.
  - reflexivity.
  - split; [vm_compute; reflexivity | intros w' _; by apply sample_native | vm_compute; reflexivity].
  - apply sample_installed; reflexivity.
  - split; [discriminate | right; reflexivity].
  - reflexivity.
  - vm_compute. reflexivity.
  - split; [vm_compute; reflexivity | intros w' _; by apply sample_native | vm_compute; reflexivity].
  - apply sample_installed; apply (bool_decide_eq_true_1 _); vm_compute; reflexivity.
  - discriminate.
  - reflexivity.
Defined.

(** The program arrays, with every slot in use. *)
Definition all_slots : gmap Z Z := list_to_map (map (fun n => (Z.of_nat n, 1)) (seq 0 64)).
Definition filled (w : world) : world :=
  set_maps (map_set (map_set (map_set (map_set (maps w) enter_progs all_slots) exit_progs all_slots)
    recvmsg_progs all_slots) mmsg_bytes_progs all_slots) w.

Lemma filled_pending w : pending_now (filled w) = pending_now w.
Proof. reflexivity. Qed.
Lemma sample_filled w : arrays_filled sample_config (filled w).
Proof.
  destruct (selection_made sample_config) as (s & E & _). exists s. split; [exact E|]. intros r Hr.
  unfold array_loaded in Hr. apply andb_true_iff in Hr as [Hr%bool_decide_eq_true _].
  assert (forallb (fun r => bool_decide (is_Some (all_slots !! snd r))) catalog_refs = true) as F by (vm_compute; reflexivity).
  rewrite forallb_forall in F. apply list_elem_of_In in Hr. specialize (F r Hr).
  apply (bool_decide_eq_true_1 _) in F. by destruct r as [[] i].
Qed.

Lemma recvmsg_round_trip_witness :
  let w := routed (machine (on_cpu 100 100) (one 100 1) none none 0 ∅) in
  let w1 := snd (trace_sys_enter (entering 47) w) in
  let w3 := snd (trace_kretprobe_recvmsg_dispatch 0 (filled w1)) in
  (exists p, p_args p = args_u64 (Args 3 8192 64 0 0 0) /\ p_pid p = 100 /\ p_tid p = 100 /\
    p_sys_id p = 47 /\ closed p 0 (filled w1) w3) /\
  passed w3 (snd (trace_sys_exit (SysExit 47 0) w3)).
Proof.
  cbv zeta.
  destruct (recvmsg_round_trip sample_config (entering 47) 0 0
    (routed (machine (on_cpu 100 100) (one 100 1) none none 0 ∅))
    (filled (snd (trace_sys_enter (entering 47) (routed (machine (on_cpu 100 100) (one 100 1) none none 0 ∅)))))) as [Cl Ps].
  - reflexivity.
  - split; [vm_compute; reflexivity | intros w' _; by apply sample_native | vm_compute; reflexivity].
  - apply sample_installed; reflexivity.
  - split; [discriminate | right; reflexivity].
  - eexists. vm_compute. reflexivity.
  - apply sample_filled.
  - apply filled_pending.
  - intros n. reflexivity.
  - intros n. split; [discriminate | reflexivity].
  - split; [exact Cl|]. apply Ps.
    + reflexivity.
    + discriminate.
    + reflexivity.
    + split; [vm_compute; reflexivity | intros w' _; by apply sample_native | vm_compute; reflexivity].
    + apply sample_installed; apply (bool_decide_eq_true_1 _); vm_compute; reflexivity.
Defined.

(** ** Tracking *)

Lemma tracking_confined_witness :
  let w := machine (on_cpu 100 100) (one 100 1) none none CONFIG_FOLLOW_FORKS ∅ in
  let f := ForkFires 200 in let r := on_cpu 100 100 in
  tracked_id w 200 = false /\ tracked_id (fire r f w) 200 = true /\
  ((exists child, f = ForkFires child /\ 200 = u32 child /\
     (armed (set_running r w) = true \/
      tracked w (ctx_pid r) (ctx_tid r) = true /\ config_flag w CONFIG_FOLLOW_FORKS = true)) \/
   (exists ctx, f = ExecFires ctx /\ 200 = ctx_pid r /\ tracked_id w (u32 (exec_old_pid ctx)) = true)).
Proof.
  cbv zeta. split; [reflexivity|]. split; [vm_compute; reflexivity|].
  apply tracking_confined; [reflexivity | vm_compute; reflexivity].
Defined.

Lemma untracked_silent_witness :
  let w := machine (on_cpu 100 100) (one 300 1) none none 4 ∅ in
  tracked w 100 100 = false /\ trace_sys_exit (SysExit 0 64) w = (tt, w) /\
  let w' := snd (trace_sys_enter (entering 0) w) in
  submitted w' = submitted w /\ reserved w' = reserved w /\ stats w' = stats w /\
  maps w' = maps w /\ tasks w' = tasks w /\ loss w' = loss w.
Proof. cbv zeta. split; [reflexivity|]. apply untracked_silent. reflexivity. Defined.

Lemma idle_run_silent_witness :
  let w := machine (on_cpu 100 100) none none none (4 + CONFIG_FOLLOW_FORKS) ∅ in
  let fs := [(on_cpu 100 100, ForkFires 200); (on_cpu 200 200, SysEnterFires (entering 0))] in
  idle w /\ submitted (run fs w) = submitted w /\ idle (run fs w).
Proof.
  cbv zeta. assert (idle (machine (on_cpu 100 100) none none none (4 + CONFIG_FOLLOW_FORKS) ∅)) as I.
  { split; [..|intros t s E; discriminate]; intros; unfold tracked_id; cbn; rewrite ?lookup_empty; reflexivity. }
  split; [exact I|]. apply idle_run_silent. exact I.
Defined.

Lemma fork_follows_witness :
  let w := machine (on_cpu 100 100) (one 100 1) (one 0 100) none (CONFIG_FOLLOW_FORKS + CONFIG_EMIT_LIFECYCLE) ∅ in
  let w' := snd (trace_sched_process_fork 200 w) in
  tracked_id w' 200 = true /\ pre_exec_id w' 200 = true /\
  (forall k, k <> 200 -> maps w' filter_map !! k = maps w filter_map !! k) /\
  one_more w w' (lifecycle_envelope (on_cpu 100 100) LIFECYCLE_FORK 100 100 100 200).
Proof.
  cbv zeta.
  destruct (fork_follows 200
    (machine (on_cpu 100 100) (one 100 1) (one 0 100) none (CONFIG_FOLLOW_FORKS + CONFIG_EMIT_LIFECYCLE) ∅)
    ltac:(vm_compute; reflexivity) ltac:(vm_compute; reflexivity) sample_updates) as (T & P & F & R).
  split; [exact T|]. split; [exact P|]. split; [exact F|].
  exact (R ltac:(vm_compute; reflexivity) sample_room sample_no_fault).
Defined.

(** Thread 101 of the untracked process 100 is followed and execs. *)
Lemma exec_adopts_witness :
  let w := machine (on_cpu 100 100) (one 101 3) none none CONFIG_EMIT_LIFECYCLE ∅ in
  let w' := snd (trace_sched_process_exec (SchedExec 8192 16 101) w) in
  tracked_id w' 100 = true /\ maps w' filter_map !! 101 = None /\
  (forall k, k <> 100 -> k <> 100 -> k <> 101 -> maps w' filter_map !! k = maps w filter_map !! k) /\
  pre_exec_id w' 100 = false /\ maps w' pending_exec_map !! 100 = None.
Proof.
  cbv zeta. exact (exec_adopts (SchedExec 8192 16 101)
    (machine (on_cpu 100 100) (one 101 3) none none CONFIG_EMIT_LIFECYCLE ∅) 3
    ltac:(vm_compute; reflexivity) ltac:(discriminate) ltac:(discriminate) ltac:(vm_compute; reflexivity) ltac:(vm_compute; reflexivity) sample_updates).
Defined.

Lemma exec_completes_witness :
  let p := call 100 100 59 in
  let w := machine (on_cpu 100 100) (one 100 3) none none CONFIG_EMIT_LIFECYCLE (in_call p) in
  let w' := snd (trace_sched_process_exec (SchedExec 8192 16 100) w) in
  (exists d rec1 env1 rec2 env2, submitted w' = submitted w ++ [rec1; rec2] /\
     decodeTraceEventV2Envelope rec1 = Some env1 /\ exit_envelope (on_cpu 100 100) p 0 d env1 /\
     decodeTraceEventV2Envelope rec2 = Some env2 /\
     lifecycle_envelope (on_cpu 100 100) LIFECYCLE_EXEC 100 100 (u64 (s32 100)) 100 env2) /\
  pending_now w' = None /\ maps w' pending_exec_map !! 100 = None /\ pre_exec_id w' 100 = false.
Proof.
  cbv zeta. exact (exec_completes (SchedExec 8192 16 100)
    (machine (on_cpu 100 100) (one 100 3) none none CONFIG_EMIT_LIFECYCLE (in_call (call 100 100 59)))
    (call 100 100 59) ltac:(vm_compute; reflexivity) ltac:(vm_compute; reflexivity) ltac:(vm_compute; reflexivity) ltac:(vm_compute; reflexivity) sample_updates sample_room sample_no_fault).
Defined.

(** Thread 101 of the followed process 100 exits in the middle of a call. *)
Lemma exit_forgets_witness :
  let p := call 100 101 0 in
  let w := machine (on_cpu 100 101) (one 100 1) none none CONFIG_EMIT_LIFECYCLE (in_call p) in
  let w' := snd (trace_sched_process_exit w) in
  maps w' filter_map = delete 101 (maps w filter_map) /\ pending_now w' = None /\
  maps w' pending_fork_flags_map !! 101 = None /\ maps w' attach_roots_map !! 101 = None /\
  (forall t, t <> 4197 -> tasks w' !! t = tasks w !! t) /\
  exists exit_code, one_more w w'
    (lifecycle_envelope (on_cpu 100 101) LIFECYCLE_EXIT 100 101 (u64 (s32 exit_code)) 0).
Proof.
  cbv zeta.
  destruct (exit_forgets
    (machine (on_cpu 100 101) (one 100 1) none none CONFIG_EMIT_LIFECYCLE (in_call (call 100 101 0)))
    ltac:(vm_compute; reflexivity) ltac:(vm_compute; reflexivity) ltac:(vm_compute; reflexivity)) as (F & P & G & R & T & E).
  split; [exact F|]. split; [exact P|]. split; [exact G|]. split; [exact R|]. split; [exact T|].
  exact (E ltac:(vm_compute; reflexivity) sample_room sample_no_fault).
Defined.

(** The followed task 200 is freed while task 100 is inside a call, which is lost. *)
Lemma free_forgets_witness :
  let p := call 100 100 0 in
  let w := machine (on_cpu 100 100) (<[200 := 1]> (one 100 1)) none none CONFIG_EMIT_LIFECYCLE (in_call p) in
  let w' := snd (trace_sched_process_free 200 w) in
  pending_now w = Some p /\
  maps w' filter_map = delete 200 (maps w filter_map) /\ pending_now w' = None /\
  one_more w w' (lifecycle_envelope (on_cpu 100 100) LIFECYCLE_FREE 200 200 200 0).
Proof.
  cbv zeta. split; [reflexivity|].
  destruct (free_forgets 200
    (machine (on_cpu 100 100) (<[200 := 1]> (one 100 1)) none none CONFIG_EMIT_LIFECYCLE (in_call (call 100 100 0)))
    ltac:(discriminate) ltac:(vm_compute; reflexivity)) as (F & P & E).
  split; [exact F|]. split; [exact P|]. exact (E ltac:(vm_compute; reflexivity) sample_room sample_no_fault).
Defined.

(** Before its first exec the task's [read] is muted. *)
Lemma muted_silent_witness :
  let w := machine (on_cpu 100 100) (one 100 3) none none 4 ∅ in
  muted w 0 = true /\ abi_reports_only w (snd (trace_sys_enter (entering 0) w)) /\
  abi_reports_only w (snd (trace_sys_exit (SysExit 0 64) w)).
Proof. cbv zeta. split; [reflexivity|]. apply muted_silent; reflexivity. Defined.

(** ** The wire format *)



Lemma header_roundtrip_witness :
  let h := EventHeader EVENT_VERSION EVENT_TYPE_EXIT 0 EVENT_V2_HEADER_LEN 83 100 101 0 6 1000 [115; 104] 0 0 0 0 in
  decodeTraceEventV2Header (struct_bytes (event_v2_header_fields h) ++ [1; 2; 3]) = Some (header_view h, [1; 2; 3]).
Proof.
  cbv zeta. apply header_roundtrip; [reflexivity | reflexivity | reflexivity | reflexivity | cbn; auto].
Defined.

